(* ===== verification/_CoqProject ===== *)
-Q . S2P
Prelude.v
OrderedMap.v
PyFloat.v
PyValue.v
Rounding.v
Contracts.v
BackendModels.v
Service.v
CommonAuto.v
Transport.v
PhaseMismatch.v
PhaseSelector.v
ChargerHealth.v
PhaseSwitch.v
PhaseSwitchSafety.v
PublicationOrder.v
Encoding.v
PublicationPayload.v
FastPublication.v
FastPublicationSafety.v
AutoPolicy.v
Schedule.v
AutoState.v
AutoSamples.v
AutoMetrics.v
AutoGates.v
AutoDecision.v
AutoTracking.v
AutoSafety.v
AutoHistory.v
AutoTotal.v
GridFusion.v
EnergyModels.v
EnergyLearning.v
EnergyAggregate.v
EnergyForecast.v
BatteryActivity.v
BatteryReliable.v
Struct.v
EnergyValues.v
EnergyFrames.v
GatewayLatency.v
DbusCircuit.v
DbusScheduling.v
ControlSurface.v
ControlGuards.v
ControlHttp.v
WritePort.v
ControlWrites.v
ControlWriteSafety.v
PyFormat.v
EssSources.v
EssConfig.v
EssProfiles.v
EssSafety.v
EssAdvice.v
EssTelemetry.v
EssBalance.v
EssFrames.v
EssBalanceSafety.v
EssLearningSafety.v
StateSnapshot.v
StateRestore.v
StateSafety.v
RestoreValid.v
RestartSafety.v
StatePersistence.v
PersistenceSafety.v
ChargeLearning.v
ChargeLearningSafety.v
UpdateInputs.v
InputsSafety.v
ChargerCurrent.v
ChargerCurrentSafety.v
