(* ===== verification/Prelude.v ===== *)
(** * Verification of the venus-evcharger service

    The repository is a service for Victron GX devices that controls an EV charger
    behind a relay: it charges from solar surplus (Auto mode), by schedule, or by hand,
    switches between one-, two- and three-phase charging, watches the charger and its
    contactor, and publishes its state to the D-Bus through a separate adapter process.
    This library translates the decision logic and the publication path of
    src/venus_evcharger/ into Rocq and proves what they promise.  Paths below and in the
    comments of the definitions are relative to src/venus_evcharger/; every definition
    that translates code is preceded by the file and the function it translates.

    ** Conventions

    Exceptions.  [res A] is the outcome of an expression ([Ok] or [Err] with the
    exception class); [M S A] is a method over the attributes [S] of its object.  An
    exception keeps the writes made before it.  [wp] states what holds of outcome and
    state of a run, [keeps] what no run changes.  A run always ends: the code has no
    loop that needs fuel, every recursion is structural.

    Numbers.  A Python [int] is [Z].  A Python [float] is a binary64 number, computed
    exactly by the standard library's [SpecFloat] (PyFloat): rounding, infinities and
    NaN are those of the hardware.  [sum] over floats is the compensated sum of
    Python 3.12.  Decimal literals are [fdec n d], the nearest float of n/d.

    Values.  Attributes and payloads of dynamic type are [pyval] (PyValue), with the
    conversions [float()], [int()], [str()], [bool()] and their exceptions.  Text is
    ASCII.  A dictionary whose order matters is an association list (OrderedMap).

    Collaborators.  Code outside the modelled parts (devices, D-Bus, files, logging,
    wall clock, time zones) is reached through type classes: [RelayPorts] (Service),
    [AutoPorts] (AutoState), [OrderDisk] (PublicationOrder).  Properties
    hold for all of them unless a hypothesis, named in the statement, is about one;
    witnesses instantiate the classes with concrete functions.  Clock reads are
    arguments or an attribute that is constant during one call.  Log texts are left out.

    ** Files, and the code they follow

    Foundations: Prelude (exceptions, the method monad, [wp], tactics), OrderedMap,
    PyFloat, PyValue, Encoding (JSON text and SHA-256, executable).

    Values and tables: Contracts (core/contracts_basic.py, core/common_values.py,
    core/common_types.py), BackendModels (backend/models.py), CommonAuto
    (core/common_auto.py), Schedule (core/common_schedule.py; dates and durations have the
    bounds of the standard library's datetime, beyond which they raise).

    Relay side.  Service holds the attributes the relay components of update/ share;
    Transport, PhaseMismatch, PhaseSelector, ChargerHealth and PhaseSwitch follow
    update/relay_*.py operation by operation.  PhaseSwitchSafety specifies the staged
    switch as an abstract machine (idle, waiting for the relay, stabilizing) and shows
    that every run of the detailed methods refines it.  Properties: phases are changed
    only while the relay is confirmed off; a selection is recorded only after it was
    commanded; every switch ends; the relay resumes only after a switch that interrupted
    charging; a decision moves by at most one layout, for a reason, after its delay;
    contactor faults are counted, latched and reported under known reasons.

    Auto side.  AutoPolicy (auto/policy.py, auto/policy_settings.py), AutoState (the
    attributes, ports/auto.py, auto/logic_learning.py), AutoSamples
    (auto/logic_samples.py), AutoMetrics (auto/logic_gates_metrics.py), AutoGates
    (auto/logic_gates_runtime.py) and AutoDecision (auto/logic_decisions*.py), composed
    into [auto_decide_relay], the decision of one cycle.  AutoTracking gives the frame
    of each operation, AutoSafety the conditions of one decision, AutoHistory the
    properties of sequences of decisions (a start needs its conditions uninterrupted for
    the start delay, a stop one persisting cause), AutoTotal that a decision always
    returns while the schedule stays within the calendar.  Between two decisions of a history the rest of the service may change
    anything except arm the two timers.

    Publication side.  PublicationOrder (ipc/publication_order*.py) orders the fields of
    publications and persists the durable marks; PublicationPayload merges and admits
    payloads; FastPublication is the bounded queue of transient publications;
    FastPublicationSafety states what each queue operation does to each field.
    Properties: field-wise latest-wins, no durable write overtakes newer fast work,
    expiry drops exactly the expired fields, bounds of queue and history.  A journal is
    its complete lines and what follows the last newline, so that a failed append may leave
    any part of its line: marks reported as saved survive a restart as long as the journal
    ends with a complete line, and [success_after_torn_line_is_lost] shows why that is needed.

    Energy side.  EnergyModels (energy/models.py) holds the source and cluster snapshots;
    GridFusion (energy/grid_fusion*.py) is the primary/backup state machine of the grid
    measurement: a reported value is a valid measurement, a held primary that is not
    outdated, or the conservative choice of two that disagree, and a recovered primary
    returns after its uninterrupted samples.  EnergyLearning, EnergyAggregate and
    EnergyForecast follow energy/learning*.py, energy/aggregate.py,
    energy/physical_sources.py and energy/forecast.py; a battery reported by several
    sources is counted once.  BatteryActivity (auto/logic_gates_battery_*.py) computes
    the battery picture of the Auto metrics and implements the interface
    [BatteryBalance] of AutoMetrics; BatteryReliable shows that it never raises, so that
    with AutoTotal an Auto decision always returns.  Rounding bounds the results of float
    products, quotients and percentiles.

    Energy frames.  Struct models the standard library's struct formats at their widths
    (big-endian integers and IEEE doubles as bits).  EnergyValues (ipc/energy_values.py,
    energy_validation.py, energy_snapshots.py, energy_refresh.py) checks semantic
    payloads; EnergyFrames (ipc/energy_binary.py) encodes snapshots and decodes them
    again.  Properties: round trips; the decoder accepts exactly the whole frames whose
    measurements the constructors accept; a legacy frame means its padded frame; loading
    returns only fresh snapshots.  Text in a frame is its list of UTF-8 bytes.  Files are
    read through [EnergyFiles].

    D-Bus adapter.  GatewayLatency (dbus_gateway_latency.py) holds rolling windows and
    their bounded attribution; DbusCircuit (dbus_adapter/rate.py, dbus_errors.py) the rate
    limiter and the circuit breaker: it trips only after a storm of timeouts within a
    minute, sheds optional work while it is open, and granted operations are spaced.
    DbusScheduling (dbus_adapter/scheduling.py, tick_policy.py, read/spec.py) chooses the
    tick and the next read: the longest overdue first.

    Control API.  ControlSurface (control/service.py, models.py) holds the commands, the
    registry of targets and the validation of payloads: a payload becomes a command exactly
    when the command is well typed.  ControlGuards (control/rate_limit.py,
    http_api_rate_limit.py, http_api_auth.py) bounds the requests of a client within a
    window and compares scopes.  ControlHttp (control/idempotency.py, events.py, audit.py,
    http_api_commands.py, http_api_idempotency.py, http_api_routing.py,
    service/control_runtime.py) is the path of a POST: only requests past every guard reach
    the service, and a repeated request is answered from memory.  The service is a
    parameter there: its state, its handler, its state token.

    Control commands.  WritePort (ports/write.py, ports/write_runtime.py,
    controllers/write_snapshot.py) is the state behind a command: the attributes of the
    service by name, what a snapshot of them restores, the publications staged by the
    open transaction, and a log of the calls that leave the port, whose answers are given
    by the class [OutsideWorld].  ControlWrites (controllers/write.py, write_support.py)
    has every handler, the dispatch and the transaction; ControlWriteSafety shows, for any
    world outside: a rejected command restores the attributes that are part of a snapshot
    and publishes nothing (the two gaps, a phase selection already applied and a queued
    software update, are lemmas of their own), a field is published only after the
    state was saved or something irreversible happened, an applied command was saved and
    then published in order, Auto requests never switch on, phases change directly only after
    the readings of the same run showed the relay off, and every payload ControlSurface
    accepts has its handler.

    ESS balance.  EssSources (update/victron_ess_balance_apply_sources.py, _pid.py,
    _write.py) holds the state of the balance bias: the attributes of the service, the
    metrics of the cycle, and the log of the calls to the gateway; it resolves the battery
    source, decides on activation and runs the PID controller.  EssConfig reads the settings
    (bootstrap/config_auto_timing_victron_bias*.py); EssProfiles
    (victron_ess_balance_learning_profiles*.py, _scoring.py), EssSafety, EssAdvice,
    EssTelemetry follow learning, cooldowns and lockouts, recommendations and adaptive tuning;
    EssBalance (victron_ess_balance_apply.py) composes them into one cycle.  PyFormat has the
    decimal rounding and the number formats that profile keys and reasons need.
    EssFrames lists what each operation may change.  Properties: a tracking setpoint is asked
    for only past every guard, one request per cycle, accepted requests are spaced in time
    and value over any history; the controller's output is the ramp-limited step from its last
    output towards the clamped PID reference, for every float; learned profiles stay well typed,
    with their texts naming the situation they were learned in.

    Runtime state.  StateSnapshot and StateRestore
    (controllers/state_runtime_snapshot*.py, state_restore*.py) turn the attributes of the
    service into the document of the state file and back; StatePersistence
    (controllers/state_persistence.py) loads and saves it.  Properties: whatever the file
    holds, a completed restore leaves every attribute in its domain (RestoreValid); a service
    in its domains is the same after a restart (RestartSafety); from a start with or without
    a file, the file holds the state the service remembers as saved, through failed writes,
    except that a failed migration is not repeated, and loading leaves nothing to save
    (PersistenceSafety).  The restart theorem is about the document; in the file lies its JSON
    text with sorted keys, so dictionaries may come back in another order.

    Inputs and learning of a cycle.  UpdateInputs (update/pm_snapshot.py,
    input_cache.py) resolves the relay status and the Auto measurements from worker
    snapshots and short-lived caches; whatever it hands on was confirmed, respectively
    observed, and is fresh (InputsSafety).  ChargeLearning (update/learning*.py) learns the
    power a vehicle draws; ChargeLearningSafety shows over any life of the profile that a
    stable power has its evidence and is given up only for a reason (for diverging signatures,
    only after two different sessions of that life deviated), and that a steady power
    is learned.  ChargerCurrent (update/relay_charger_current*.py) chooses and sends the
    current target; ChargerCurrentSafety bounds every request.

    ** Not modelled

    I/O and glue: device adapters (backend/ beyond its models), D-Bus calls, sockets and
    files, the HTTP server and its read routes, the command line, bootstrap and the wizard, typing
    protocols (ports/), the connectors of energy/.  Whitespace outside ASCII is not
    stripped in the model.  Still open: the mailbox quotas of
    ipc/command_mailbox_storage.py, the write path of dbus_adapter/write/, the update cycle,
    the runtime overrides, the validation of settings and the summary of controllers/.  Each
    is a component of its own in the manifest beside this library. *)

From stdpp Require Export base option list strings pretty gmap.
From Stdlib Require Export ZArith Lia Ascii.

#[global] Open Scope string_scope.
#[global] Open Scope list_scope.
#[global] Open Scope Z_scope.

(** ** Exceptions and outcomes *)

(** The exception classes the modelled code raises or catches. *)
Inductive exn :=
  | TypeError | ValueError | OverflowError | KeyError | AttributeError
  | IndexError | OSError | RuntimeError | AssertionError | ZeroDivisionError
  | PendingFastError | CapacityError | WireError | StructError | OperationDeferred.

#[export] Instance exn_eq_dec : EqDecision exn.
Proof. solve_decision. Defined.

(** What evaluating a Python expression yields: a value or a raised exception. *)
Inductive res (A : Type) :=
  | Ok (a : A)
  | Err (e : exn).
Arguments Ok {A} a.
Arguments Err {A} e.

#[export] Instance res_ret : MRet res := fun A a => Ok a.
#[export] Instance res_bind : MBind res :=
  fun A B f m => match m with Ok a => f a | Err e => Err e end.
#[export] Instance res_fmap : FMap res :=
  fun A B f m => match m with Ok a => Ok (f a) | Err e => Err e end.

Definition is_ok {A} (r : res A) : Prop := exists a, r = Ok a.

Fixpoint map_res {A B} (f : A -> res B) (l : list A) : res (list B) :=
  match l with
  | [] => Ok []
  | x :: l' => y ← f x; ys ← map_res f l'; mret (y :: ys)
  end.

Lemma res_bind_ok {A B} (r : res A) (f : A -> res B) b :
  (r ≫= f) = Ok b <-> exists a, r = Ok a /\ f a = Ok b.
Proof.
  destruct r as [a|e]; unfold mbind, res_bind; [|split; [done | by intros (? & ? & ?)]].
  split; [by exists a | by intros (? & [= <-] & ?)].
Qed.

(** [res_steps H] opens the successful run [H] of a sequence of fallible steps. *)
Ltac res_steps H :=
  repeat lazymatch type of H with
  | (mbind _ _) = Ok _ =>
    let a := fresh "v" in let E := fresh "E" in apply res_bind_ok in H as (a & E & H)
  end.

Lemma map_res_ok {A B} (f : A -> res B) l l' : map_res f l = Ok l' <-> Forall2 (fun x y => f x = Ok y) l l'.
Proof.
  revert l'. induction l as [|x l IH]; intros l'; cbn [map_res].
  - split; [intros [= <-]; constructor | by inversion 1].
  - rewrite res_bind_ok. setoid_rewrite res_bind_ok. split.
    + intros (y & Hy & ys & Hys & [= <-]). constructor; [done | by apply IH].
    + inversion 1; subst. eexists. split; [done|]. eexists. split; [by apply IH | done].
Qed.

(** [len(l)] *)
Definition zlength {A} (l : list A) : Z := Z.of_nat (length l).

(** ** Stateful code *)

(** A method body: it reads and writes the state of its object and returns or
    raises.  An exception keeps every attribute write made before the raise. *)
Definition M (S A : Type) : Type := S -> res A * S.

#[export] Instance M_ret {S} : MRet (M S) := fun A a s => (Ok a, s).
#[export] Instance M_bind {S} : MBind (M S) :=
  fun A B f m s =>
    match m s with
    | (Ok a, s') => f a s'
    | (Err e, s') => (Err e, s')
    end.
#[export] Instance M_fmap {S} : FMap (M S) :=
  fun A B f m s => match m s with (Ok a, s') => (Ok (f a), s') | (Err e, s') => (Err e, s') end.

Section monad.
Context {S : Type}.

Definition get : M S S := fun s => (Ok s, s).
Definition gets {A} (f : S -> A) : M S A := fun s => (Ok (f s), s).
Definition put (s' : S) : M S unit := fun _ => (Ok tt, s').
Definition modify (f : S -> S) : M S unit := fun s => (Ok tt, f s).
Definition raise {A} (e : exn) : M S A := fun s => (Err e, s).
Definition lift {A} (r : res A) : M S A := fun s => (r, s).

(** [try: m except classes as error: h error]; the handler sees the state the
    body left behind. *)
Definition try_except {A} (m : M S A) (classes : exn -> bool) (h : exn -> M S A) : M S A :=
  fun s =>
    match m s with
    | (Err e, s') => if classes e then h e s' else (Err e, s')
    | r => r
    end.

Definition when (b : bool) (m : M S unit) : M S unit :=
  if b then m else mret tt.

End monad.

(** [issubclass(e, c)]: the service's own errors derive from standard ones. *)
Definition exn_isa (e c : exn) : bool :=
  bool_decide (e = c) ||
  match e, c with
  | (PendingFastError | CapacityError | OperationDeferred), RuntimeError => true
  | WireError, ValueError => true
  | _, _ => false
  end.

(** [exn_in es e] is the match of an except clause that names the classes [es]. *)
Definition exn_in (es : list exn) (e : exn) : bool := existsb (exn_isa e) es.

Section monad_laws.
Context {S : Type}.

Lemma bind_ret {A B} (a : A) (f : A -> M S B) s : (mret a ≫= f) s = f a s.
Proof. reflexivity. Qed.

Lemma bind_gets {A B} (g : S -> A) (f : A -> M S B) s : (gets g ≫= f) s = f (g s) s.
Proof. reflexivity. Qed.

Lemma bind_get {B} (f : S -> M S B) s : (get ≫= f) s = f s s.
Proof. reflexivity. Qed.

Lemma bind_modify {B} (g : S -> S) (f : unit -> M S B) s :
  (modify g ≫= f) s = f tt (g s).
Proof. reflexivity. Qed.

Lemma bind_lift_ok {A B} (a : A) (f : A -> M S B) s : (lift (Ok a) ≫= f) s = f a s.
Proof. reflexivity. Qed.

Lemma bind_lift_err {A B} e (f : A -> M S B) s : (lift (Err e) ≫= f) s = (Err e, s).
Proof. reflexivity. Qed.

Lemma bind_inv {A B} (m : M S A) (f : A -> M S B) s r s' :
  (m ≫= f) s = (r, s') ->
  (exists a s1, m s = (Ok a, s1) /\ f a s1 = (r, s')) \/
  (exists e, m s = (Err e, s') /\ r = Err e).
Proof.
  unfold mbind, M_bind. destruct (m s) as [[a|e] s1]; intros H.
  - left. eauto.
  - right. injection H as <- <-. eauto.
Qed.

(** The first step of a run that returned. *)
Lemma run_ok {A B} (m : M S A) (f : A -> M S B) s b s' :
  (m ≫= f) s = (Ok b, s') -> exists a s1, m s = (Ok a, s1) /\ f a s1 = (Ok b, s').
Proof. intros [H|(e & _ & H)]%bind_inv; [exact H | done]. Qed.

End monad_laws.

(** ** Reasoning about stateful code *)

(** [wp m Q s]: running [m] from [s] ends in an outcome that satisfies [Q].  A run
    always ends, by a value or by an exception, so [Q] speaks about both. *)
Definition wp {S A} (m : M S A) (Q : res A -> S -> Prop) (s : S) : Prop :=
  Q (fst (m s)) (snd (m s)).

(** [keeps R m]: whatever happens in [m], an exception included, the states before
    and after it are related by [R]. *)
Definition keeps {S A} (R : S -> S -> Prop) (m : M S A) : Prop := forall s, R s (snd (m s)).

Section reasoning.
Context {S : Type}.

Lemma wp_run {A} (m : M S A) Q s r s' : wp m Q s -> m s = (r, s') -> Q r s'.
Proof. unfold wp. by intros H E; rewrite E in H. Qed.

Lemma wp_ret {A} (a : A) (Q : res A -> S -> Prop) s : Q (Ok a) s -> wp (mret a : M S A) Q s.
Proof. done. Qed.

Lemma wp_bind {A B} (m : M S A) (f : A -> M S B) Q s :
  wp m (fun r s1 => match r with Ok a => wp (f a) Q s1 | Err e => Q (Err e) s1 end) s ->
  wp (m ≫= f) Q s.
Proof. unfold wp, mbind, M_bind. by destruct (m s) as [[a|e] s1]. Qed.

Lemma wp_fmap {A B} (g : A -> B) (m : M S A) Q s :
  wp m (fun r s1 => Q (match r with Ok a => Ok (g a) | Err e => Err e end) s1) s ->
  wp (g <$> m) Q s.
Proof. unfold wp, fmap, M_fmap. by destruct (m s) as [[a|e] s1]. Qed.

Lemma wp_get Q (s : S) : Q (Ok s) s -> wp get Q s.
Proof. done. Qed.

Lemma wp_gets {A} (g : S -> A) Q s : Q (Ok (g s)) s -> wp (gets g) Q s.
Proof. done. Qed.

Lemma wp_modify (g : S -> S) Q s : Q (Ok tt) (g s) -> wp (modify g) Q s.
Proof. done. Qed.

Lemma wp_lift {A} (r : res A) Q (s : S) : Q r s -> wp (lift r) Q s.
Proof. done. Qed.

Lemma wp_try {A} (m : M S A) (classes : exn -> bool) (h : exn -> M S A) (Q : res A -> S -> Prop) s :
  wp m (fun r s1 =>
    match r with Err e => if classes e then wp (h e) Q s1 else Q r s1 | _ => Q r s1 end) s ->
  wp (try_except m classes h) Q s.
Proof. unfold wp, try_except. destruct (m s) as [[a|e] s1]; cbn; [done | by destruct (classes e)]. Qed.

Lemma wp_mono {A} (m : M S A) (Q Q' : res A -> S -> Prop) s :
  wp m Q s -> (forall r s', Q r s' -> Q' r s') -> wp m Q' s.
Proof. unfold wp. auto. Qed.

(** What is known of every run, added to what is to be shown. *)
Lemma wp_keeps {A} R (m : M S A) (Q : res A -> S -> Prop) s :
  keeps R m -> (forall r s', R s s' -> Q r s') -> wp m Q s.
Proof. intros H HQ. apply HQ, H. Qed.

Context (R : S -> S -> Prop) `{!PreOrder R}.

Lemma keeps_ret {A} (a : A) : keeps R (mret a : M S A).
Proof. intros s. by cbn. Qed.

Lemma keeps_get : keeps R get.
Proof. intros s. by cbn. Qed.

Lemma keeps_gets {A} (g : S -> A) : keeps R (gets g).
Proof. intros s. by cbn. Qed.

Lemma keeps_lift {A} (r : res A) : keeps R (lift r).
Proof. intros s. by cbn. Qed.

Lemma keeps_modify (g : S -> S) : (forall s, R s (g s)) -> keeps R (modify g).
Proof. done. Qed.

Lemma keeps_bind {A B} (m : M S A) (f : A -> M S B) :
  keeps R m -> (forall a, keeps R (f a)) -> keeps R (m ≫= f).
Proof.
  intros Hm Hf s. specialize (Hm s). unfold mbind, M_bind.
  destruct (m s) as [[a|e] s1]; [|done]. etrans; [done | apply Hf].
Qed.

(** The continuation after [get] may rely on the state it reads. *)
Lemma keeps_get_bind {B} (f : S -> M S B) :
  (forall s, R s (snd (f s s))) -> keeps R (get ≫= f).
Proof. done. Qed.

Lemma keeps_fmap {A B} (g : A -> B) (m : M S A) : keeps R m -> keeps R (g <$> m).
Proof. intros Hm s. specialize (Hm s). unfold fmap, M_fmap. by destruct (m s) as [[a|e] s1]. Qed.

Lemma keeps_try {A} (m : M S A) (classes : exn -> bool) (h : exn -> M S A) :
  keeps R m -> (forall e, keeps R (h e)) -> keeps R (try_except m classes h).
Proof.
  intros Hm Hh s. specialize (Hm s). unfold try_except.
  destruct (m s) as [[a|e] s1]; [done|]. destruct (classes e); [|done].
  etrans; [done | apply Hh].
Qed.

Lemma keeps_when b (m : M S unit) : keeps R m -> keeps R (when b m).
Proof. destruct b; [done|]. intros _. apply keeps_ret. Qed.

End reasoning.

Create HintDb keeps.

(** The methods that the reasoning tactics may open. *)
Create HintDb methods.
#[export] Hint Resolve keeps_ret keeps_get keeps_gets keeps_lift : keeps.

(** [keeps_step] decomposes a method body along its structure; [keeps_tac] also
    closes the leaves with the lemmas of the [keeps] database and, for attribute
    assignments, by [leaf]. *)
Ltac keeps_step :=
  match goal with
  | |- keeps _ (mbind _ _) => apply keeps_bind; [exact _ | | intros ?]
  | |- keeps _ (fmap _ _) => apply keeps_fmap
  | |- keeps _ (try_except _ _ _) => apply keeps_try; [exact _ | | intros ?]
  | |- keeps _ (when _ _) => apply keeps_when; [exact _ |]
  | |- keeps _ (modify _) => apply keeps_modify; intros ?
  | |- keeps _ (if ?b then _ else _) => destruct b
  | |- keeps _ (match ?x with _ => _ end) => destruct x
  | |- keeps _ (let '(_, _) := ?x in _) => destruct x
  end.
Ltac keeps_tac leaf := repeat first [solve [auto with keeps typeclass_instances] | keeps_step | leaf].

(** The same by the head of the statement alone; [call] closes the calls of methods whose
    lemma it applies; an assignment that the relation ignores is reflexivity. *)
Ltac keeps_go call :=
  repeat lazymatch goal with
  | |- keeps _ (mbind _ _) => apply keeps_bind; [exact _ | | intros ?]
  | |- keeps _ (fmap _ _) => apply keeps_fmap
  | |- keeps _ (mret _) => apply keeps_ret; exact _
  | |- keeps _ get => apply keeps_get; exact _
  | |- keeps _ (gets _) => apply keeps_gets; exact _
  | |- keeps _ (lift _) => apply keeps_lift; exact _
  | |- keeps _ (raise _) => intros ?; reflexivity
  | |- keeps _ (try_except _ _ _) => apply keeps_try; [exact _ | | intros ?]
  | |- keeps _ (when _ _) => apply keeps_when; [exact _ |]
  | |- keeps _ (modify _) => apply keeps_modify; intros ?; try reflexivity
  | |- keeps _ (if ?b then _ else _) => destruct b
  | |- keeps _ (match ?x with _ => _ end) => destruct x
  | |- keeps _ _ => call
  end.

(** [wp_step] runs one statement. *)
Ltac wp_step :=
  lazymatch goal with
  | |- wp (mbind _ _) _ _ => apply wp_bind
  | |- wp (fmap _ _) _ _ => apply wp_fmap
  | |- wp (mret _) _ _ => apply wp_ret
  | |- wp get _ _ => apply wp_get
  | |- wp (gets _) _ _ => apply wp_gets
  | |- wp (modify _) _ _ => apply wp_modify
  | |- wp (lift _) _ _ => apply wp_lift
  | |- wp (try_except _ _ _) _ _ => apply wp_try
  end; cbv beta iota.

(** ** Methods that never raise *)

(** [total m]: [m] returns a value from every state. *)
Definition total {S A} (m : M S A) : Prop := forall s, is_ok (fst (m s)).

(** [ends P m]: [m] leaves a state that satisfies [P], also when it raises. *)
Definition ends {S A} (P : S -> Prop) (m : M S A) : Prop := forall s, P (snd (m s)).

(** [returns V m]: a value that [m] returns satisfies [V]. *)
Definition returns {S A} (V : A -> Prop) (m : M S A) : Prop :=
  forall s v, fst (m s) = Ok v -> V v.

Section total.
Context {S : Type}.

Lemma total_ret {A} (a : A) : total (mret a : M S A).
Proof. intros s. by exists a. Qed.

Lemma total_get : total (get : M S S).
Proof. intros s. by exists s. Qed.

Lemma total_gets {A} (g : S -> A) : total (gets g).
Proof. intros s. by exists (g s). Qed.

Lemma total_modify (g : S -> S) : total (modify g).
Proof. intros s. by exists tt. Qed.

Lemma total_bind {A B} (m : M S A) (f : A -> M S B) :
  total m -> (forall a, total (f a)) -> total (m ≫= f).
Proof.
  intros Hm Hf s. destruct (Hm s) as [a Ha]. unfold mbind, M_bind.
  destruct (m s) as [r s1]. cbn in Ha. subst. apply Hf.
Qed.

(** The exceptions [m] may raise are handled, and the handler returns. *)
Lemma total_fmap {A B} (g : A -> B) (m : M S A) : total m -> total (g <$> m).
Proof.
  intros Hm s. destruct (Hm s) as [a Ha]. unfold fmap, M_fmap.
  destruct (m s) as [r s1]. cbn in Ha. subst. by exists (g a).
Qed.

(** A run of two methods in sequence ends where the second one ends, when the
    first one returns. *)
Lemma ends_seq {A B} (m : M S A) (f : A -> M S B) (P : S -> Prop) :
  total m -> (forall a, ends P (f a)) -> ends P (m ≫= f).
Proof.
  intros Hm Hf s. destruct (Hm s) as [a Ha]. unfold mbind, M_bind.
  destruct (m s) as [r s1]. cbn in Ha. subst. apply Hf.
Qed.

Lemma ends_then {A B} (m : M S A) (f : A -> M S B) (P : S -> Prop) :
  ends P m -> (forall a s, P s -> P (snd (f a s))) -> ends P (m ≫= f).
Proof.
  intros Hm Hf s. specialize (Hm s). unfold mbind, M_bind.
  destruct (m s) as [[a|e] s1]; [by apply Hf | done].
Qed.

Lemma returns_ret {A} (V : A -> Prop) a : V a -> returns V (mret a : M S A).
Proof. by intros Ha s v [= <-]. Qed.

Lemma returns_bind {A B} (W : A -> Prop) (V : B -> Prop) (m : M S A) (f : A -> M S B) :
  returns W m -> (forall a, W a -> returns V (f a)) -> returns V (m ≫= f).
Proof.
  intros Hm Hf s v. specialize (Hm s). unfold mbind, M_bind.
  destruct (m s) as [[a|e] s1]; [|done]. intros H. by eapply Hf; [apply Hm | ].
Qed.

Lemma returns_last {A B} (V : B -> Prop) (m : M S A) (f : A -> M S B) :
  (forall a, returns V (f a)) -> returns V (m ≫= f).
Proof. intros Hf. apply (returns_bind (fun _ => True)); [done | auto]. Qed.

Lemma wp_total {A} R (m : M S A) (Q : res A -> S -> Prop) s :
  keeps R m -> total m -> (forall a s', R s s' -> Q (Ok a) s') -> wp m Q s.
Proof.
  intros Hk Ht HQ. unfold wp. destruct (Ht s) as [a ->]. apply HQ, Hk.
Qed.

End total.

#[export] Hint Resolve total_ret total_get total_gets total_modify : keeps.

Ltac total_step :=
  match goal with
  | |- total (mbind _ _) => apply total_bind; [| intros ?]
  | |- total (fmap _ _) => apply total_fmap
  | |- total (when ?b _) => destruct b
  | |- total (if ?b then _ else _) => destruct b
  | |- total (match ?x with _ => _ end) => destruct x
  end.
Ltac total_tac := autounfold with methods; repeat first [solve [auto with keeps] | total_step].

(** ** Record update *)

(** [Eta R] rebuilds a record from its projections; [r <| f := v |>] replaces
    one projection in it (the attribute assignment [self.f = v]). *)
Class Eta (R : Type) := eta : R -> R.

Class Upd {R T : Type} (f : R -> T) := upd_with : (R -> T) -> R -> R.

Ltac build_upd f :=
  lazymatch type of f with
  | ?R -> ?T =>
    let i := constr:(_ : Eta R) in
    let e := eval hnf in i in
    lazymatch eval pattern f in e with
    | ?F _ => exact F
    end
  end.

#[export] Hint Extern 0 (Upd ?f) => build_upd f : typeclass_instances.

Definition upd {R T : Type} (f : R -> T) {U : Upd f} (v : T) (r : R) : R :=
  U (fun _ => v) r.
Arguments upd {R T} f {U} v r /.

Notation "r <| f := v |>" := (upd f v r)
  (at level 1, f constr at level 99, v at level 99, left associativity,
   format "r  <| f  :=  v |>").

(** ** Small dictionaries and sets of constants *)

(** [try: r except classes: return h] around a pure computation. *)
Definition catch {A} (r : res A) (classes : list exn) (h : res A) : res A :=
  match r with Err e => if exn_in classes e then h else Err e | _ => r end.

(** [s in l] for a constant collection of texts. *)
Definition str_in (s : string) (l : list string) : bool := existsb (String.eqb s) l.

Lemma str_in_spec s l : str_in s l = true <-> s ∈ l.
Proof.
  unfold str_in. rewrite existsb_exists, list_elem_of_In. split.
  - intros (x & Hin & ->%String.eqb_eq). done.
  - intros Hin. exists s. by rewrite String.eqb_refl.
Qed.

(** A constant [dict] with text keys, looked up by [d.get(k)]. *)
Fixpoint table_get {V} (k : string) (t : list (string * V)) : option V :=
  match t with
  | [] => None
  | (k', v) :: t' => if String.eqb k k' then Some v else table_get k t'
  end.

(** [d[key] = value] of a dictionary with text keys; a new key goes last. *)
Fixpoint table_set {V} (k : string) (v : V) (t : list (string * V)) : list (string * V) :=
  match t with
  | [] => [(k, v)]
  | (k', v') :: t' => if String.eqb k k' then (k, v) :: t' else (k', v') :: table_set k v t'
  end.

(** [d.pop(key, None)] *)
Definition table_del {V} (k : string) (t : list (string * V)) : list (string * V) :=
  filter (fun kv => String.eqb k (fst kv) = false) t.

Lemma table_get_elem {V} k (t : list (string * V)) v :
  table_get k t = Some v -> (k, v) ∈ t.
Proof.
  induction t as [|[k' v'] t IH]; cbn; [done|].
  destruct (String.eqb_spec k k') as [->|].
  - intros [= ->]. left.
  - intros H. right. auto.
Qed.

Lemma table_get_is_some {V} k (t : list (string * V)) :
  is_Some (table_get k t) <-> str_in k (map fst t) = true.
Proof.
  induction t as [|[k' v'] t IH]; cbn.
  - split; [intros [? ?]|]; done.
  - destruct (String.eqb_spec k k'); cbn; [|done]. split; [done | eauto].
Qed.

Lemma table_get_set {V} k k' (v : V) t :
  table_get k (table_set k' v t) = if String.eqb k k' then Some v else table_get k t.
Proof.
  induction t as [|[k0 v0] t IH]; cbn; [done|].
  destruct (String.eqb_spec k' k0) as [->|Hne]; cbn.
  - by destruct (String.eqb k k0).
  - destruct (String.eqb_spec k k0) as [->|]; [|done].
    destruct (String.eqb_spec k0 k'); [congruence|done].
Qed.

Lemma table_get_set_eq {V} k (v : V) t : table_get k (table_set k v t) = Some v.
Proof. by rewrite table_get_set, String.eqb_refl. Qed.

Lemma table_get_del {V} k k' (t : list (string * V)) :
  table_get k (table_del k' t) = if String.eqb k k' then None else table_get k t.
Proof.
  unfold table_del. induction t as [|[k0 v0] t IH]; cbn [table_get filter list_filter].
  - by destruct (String.eqb k k').
  - unfold filter in *. cbn [list_filter]. case_decide as Hd; cbn [fst] in *; cbn [table_get].
    + rewrite IH. destruct (String.eqb_spec k k0) as [->|]; [|done].
      destruct (String.eqb_spec k0 k') as [->|]; [|done]. by rewrite String.eqb_refl in Hd.
    + rewrite IH. apply not_false_iff_true, String.eqb_eq in Hd as ->.
      by destruct (String.eqb k k0).
Qed.

Lemma from_option_eq {A} (o : option A) (d : A) : default d o = match o with Some x => x | None => d end.
Proof. by destruct o. Qed.
