(* ===== verification/OrderedMap.v ===== *)
(** * Insertion-ordered dictionaries

    A Python [dict] or [OrderedDict] as the list of its entries, oldest first, with
    the operations the code uses: lookup, assignment (an existing key keeps its
    place), [move_to_end], [pop] and comprehension filters.  The keys of such a list
    never repeat ([od_nodup]), which every operation preserves. *)

From S2P Require Import Prelude.

(** Two filters that agree on the elements of a list. *)
Lemma filter_ext_elem {A} (P Q : A -> Prop) `{!forall x, Decision (P x), !forall x, Decision (Q x)} (l : list A) :
  (forall x, x ∈ l -> P x <-> Q x) -> filter P l = filter Q l.
Proof.
  induction l as [|x l IH]; [done|]. intros Hpq. rewrite !filter_cons.
  rewrite IH by (intros y Hy; apply Hpq; by right).
  assert (P x <-> Q x) as Hx by (apply Hpq; left).
  destruct (decide (P x)), (decide (Q x)); [by f_equal | tauto | tauto | done].
Qed.

Abbreviation odict K V := (list (K * V)) (only parsing).

Section od.
Context {K V : Type} `{!EqDecision K}.

Implicit Types (d : odict K V) (k : K) (v : V).

(** [d.get(key)] *)
Fixpoint od_get (k : K) (d : odict K V) : option V :=
  match d with
  | [] => None
  | (k', v) :: d' => if decide (k = k') then Some v else od_get k d'
  end.

(** [key in d] *)
Definition od_mem (k : K) (d : odict K V) : bool := bool_decide (is_Some (od_get k d)).

(** [d[key] = value] *)
Fixpoint od_set (k : K) (v : V) (d : odict K V) : odict K V :=
  match d with
  | [] => [(k, v)]
  | (k', v') :: d' => if decide (k = k') then (k, v) :: d' else (k', v') :: od_set k v d'
  end.

(** [del d[key]], [d.pop(key)] *)
Definition od_del (k : K) (d : odict K V) : odict K V := filter (fun kv => fst kv <> k) d.

(** [d[key] = value; d.move_to_end(key)] *)
Definition od_put (k : K) (v : V) (d : odict K V) : odict K V := (od_del k d ++ [(k, v)])%list.

Definition od_keys (d : odict K V) : list K := map fst d.

Definition od_nodup (d : odict K V) : Prop := NoDup (od_keys d).

Lemma od_get_app k d1 d2 :
  od_get k (d1 ++ d2)%list = match od_get k d1 with Some v => Some v | None => od_get k d2 end.
Proof. induction d1 as [|[k' v] d1 IH]; cbn; [done|]. by destruct (decide (k = k')). Qed.

Lemma od_get_none k d : od_get k d = None <-> k ∉ od_keys d.
Proof.
  induction d as [|[k' v] d IH]; cbn.
  - split; [intros _; apply not_elem_of_nil | done].
  - rewrite elem_of_cons. destruct (decide (k = k')) as [->|]; [|tauto].
    split; [done | tauto].
Qed.

Lemma od_get_some_elem k v d : od_get k d = Some v -> (k, v) ∈ d.
Proof.
  induction d as [|[k' v'] d IH]; cbn; [done|].
  destruct (decide (k = k')) as [->|]; [intros [= ->]; left | right; auto].
Qed.

Lemma od_get_elem k v d : od_nodup d -> (k, v) ∈ d -> od_get k d = Some v.
Proof.
  unfold od_nodup. induction d as [|[k' v'] d IH]; cbn; [by intros _ ?%not_elem_of_nil|].
  intros [Hx Hd]%NoDup_cons [[= -> ->]|Hin]%elem_of_cons; [by rewrite decide_True|].
  rewrite decide_False; [auto|]. intros ->. apply Hx.
  apply list_elem_of_fmap. by exists (k', v).
Qed.

Lemma od_get_del k k' d : od_get k (od_del k' d) = if decide (k = k') then None else od_get k d.
Proof.
  unfold od_del. induction d as [|[k0 v0] d IH].
  - cbn. by destruct (decide (k = k')).
  - rewrite filter_cons. destruct (decide ((k0, v0).1 <> k')) as [H|H]; cbn in H.
    + cbn. rewrite IH. destruct (decide (k = k0)) as [->|]; [by rewrite decide_False|done].
    + rewrite IH. apply dec_stable in H as ->. cbn. by destruct (decide (k = k')).
Qed.

Lemma od_get_set k k' v d : od_get k (od_set k' v d) = if decide (k = k') then Some v else od_get k d.
Proof.
  induction d as [|[k0 v0] d IH]; cbn; [done|].
  destruct (decide (k' = k0)) as [->|]; cbn.
  - by destruct (decide (k = k0)).
  - destruct (decide (k = k0)) as [->|]; [|done]. by rewrite decide_False.
Qed.

Lemma od_get_put k k' v d : od_get k (od_put k' v d) = if decide (k = k') then Some v else od_get k d.
Proof.
  unfold od_put. rewrite od_get_app, od_get_del. cbn.
  destruct (decide (k = k')); [done|]. by destruct (od_get k d).
Qed.

Lemma od_keys_filter (P : K * V -> Prop) `{!forall x, Decision (P x)} d k :
  k ∈ od_keys (filter P d) -> k ∈ od_keys d.
Proof.
  unfold od_keys. intros (x & -> & Hx)%list_elem_of_fmap.
  apply list_elem_of_filter in Hx as [_ Hx]. apply list_elem_of_fmap. eauto.
Qed.

Lemma od_nodup_filter (P : K * V -> Prop) `{!forall x, Decision (P x)} d :
  od_nodup d -> od_nodup (filter P d).
Proof.
  unfold od_nodup. induction d as [|[k v] d IH]; [done|].
  rewrite filter_cons. cbn. intros [Hx Hd]%NoDup_cons. case_decide; [|by apply IH].
  cbn. constructor; [|by apply IH]. by intros ?%od_keys_filter.
Qed.

Lemma od_get_filter (P : K * V -> Prop) `{!forall x, Decision (P x)} k d :
  od_nodup d ->
  od_get k (filter P d) =
  match od_get k d with Some v => if decide (P (k, v)) then Some v else None | None => None end.
Proof.
  unfold od_nodup. induction d as [|[k0 v0] d IH]; [done|]. rewrite filter_cons.
  intros [Hx Hd]%NoDup_cons. specialize (IH Hd). cbn [od_get].
  destruct (decide (P (k0, v0))) as [HP|HP]; cbn [od_get]; rewrite IH;
    destruct (decide (k = k0)) as [->|Hne]; try done.
  - by rewrite decide_True.
  - apply od_get_none in Hx. cbn in Hx. rewrite Hx. by rewrite decide_False.
Qed.

Lemma od_nodup_del k d : od_nodup d -> od_nodup (od_del k d).
Proof. apply od_nodup_filter. Qed.

Lemma od_keys_del k d x : x ∈ od_keys (od_del k d) <-> x ∈ od_keys d /\ x <> k.
Proof.
  pose proof (od_get_none x (od_del k d)) as H1. pose proof (od_get_none x d) as H2.
  rewrite od_get_del in H1. destruct (decide (x = k)) as [->|].
  - split; [by intros Hx; apply H1 in Hx | tauto].
  - destruct (decide (x ∈ od_keys d)), (decide (x ∈ od_keys (od_del k d))); tauto.
Qed.

Lemma od_nodup_put k v d : od_nodup d -> od_nodup (od_put k v d).
Proof.
  intros Hd. unfold od_nodup, od_put, od_keys. rewrite map_app. apply NoDup_app.
  split; [by apply od_nodup_del|]. split; [|by apply NoDup_singleton].
  intros x Hx%od_keys_del. cbn. rewrite list_elem_of_singleton. tauto.
Qed.

Lemma od_nodup_set k v d : od_nodup d -> od_nodup (od_set k v d).
Proof.
  unfold od_nodup. induction d as [|[k' v'] d IH]; cbn; intros Hd.
  - by apply NoDup_singleton.
  - apply NoDup_cons in Hd as [Hx Hd]. destruct (decide (k = k')) as [->|Hne]; cbn.
    + by constructor.
    + constructor; [|by apply IH]. rewrite <- od_get_none, od_get_set in *.
      by rewrite decide_False.
Qed.

Lemma od_del_absent k d : od_get k d = None -> od_del k d = d.
Proof.
  intros Hk%od_get_none. unfold od_del. induction d as [|[k' v'] d IH]; [done|].
  cbn in Hk. apply not_elem_of_cons in Hk as [Hne Hk].
  rewrite filter_cons_True by (cbn; congruence). by rewrite IH.
Qed.

Lemma od_length_del k d :
  od_nodup d -> length (od_del k d) = (length d - (if decide (is_Some (od_get k d)) then 1 else 0))%nat.
Proof.
  unfold od_nodup. induction d as [|[k' v'] d IH]; [done|]. cbn [od_keys map fst].
  intros [Hx Hd]%NoDup_cons. unfold od_del. rewrite filter_cons. cbn [fst od_get].
  destruct (decide (k' <> k)) as [Hne|Heq].
  - rewrite (decide_False (P := k = k')) by congruence. cbn [length].
    unfold od_del in IH. rewrite IH by done.
    destruct (decide (is_Some (od_get k d))) as [Hs|]; [|lia].
    destruct d; [by destruct Hs | cbn; lia].
  - apply dec_stable in Heq as ->. rewrite (decide_True (P := k = k)) by done.
    rewrite (decide_True (P := is_Some (Some v'))) by eauto.
    fold (od_del k d). apply od_get_none in Hx. rewrite od_del_absent by done. cbn. lia.
Qed.

Lemma od_length_put k v d :
  od_nodup d ->
  length (od_put k v d) = (length d + (if decide (is_Some (od_get k d)) then 0 else 1))%nat.
Proof.
  intros Hd. unfold od_put. rewrite length_app, od_length_del by done. cbn.
  destruct (decide _) as [Hs|]; [|lia]. destruct d; [by destruct Hs | cbn; lia].
Qed.

Lemma od_length_filter (P : K * V -> Prop) `{!forall x, Decision (P x)} d :
  (length (filter P d) <= length d)%nat.
Proof. induction d as [|x d IH]; [done|]. rewrite filter_cons. case_decide; cbn; lia. Qed.

End od.

Create HintDb odict.
#[export] Hint Resolve od_nodup_del od_nodup_put od_nodup_set od_nodup_filter : odict.

(** ** Sorting *)

(** [sorted(l)] by a strict order: stable, every element goes after those that are not above it. *)
Fixpoint insert_by {A} (lt : A -> A -> bool) (x : A) (l : list A) : list A :=
  match l with
  | [] => [x]
  | y :: l' => if lt x y then x :: l else y :: insert_by lt x l'
  end.

Definition sort_by {A} (lt : A -> A -> bool) (l : list A) : list A := fold_left (fun acc x => insert_by lt x acc) l [].

(** The items of a dictionary sorted by their keys. *)
Definition sorted_items {V} (d : odict string V) : odict string V := sort_by (fun a b => String.ltb (fst a) (fst b)) d.

(** [while l and test(l[0]): l.popleft()] *)
Fixpoint drop_while {A} (test : A -> bool) (l : list A) : list A :=
  match l with [] => [] | x :: l' => if test x then drop_while test l' else l end.

Lemma insert_by_length {A} lt (x : A) l : length (insert_by lt x l) = Datatypes.S (length l).
Proof. induction l as [|y l IH]; cbn; [done|]. destruct (lt x y); cbn; by rewrite ?IH. Qed.

Lemma sort_by_length {A} lt (l : list A) : length (sort_by lt l) = length l.
Proof.
  unfold sort_by. assert (forall acc, length (fold_left (fun acc x => insert_by lt x acc) l acc) = (length acc + length l)%nat) as H.
  { induction l as [|x l IH]; intros acc; cbn [fold_left length]; [lia|]. rewrite IH, insert_by_length. lia. }
  by rewrite H.
Qed.

Lemma drop_while_suffix {A} test (l : list A) : exists pre, l = pre ++ drop_while test l.
Proof.
  induction l as [|x l [pre IH]]; [by exists []|]. cbn. destruct (test x); [|by exists []].
  exists (x :: pre). by rewrite <- app_comm_cons, <- IH.
Qed.
