(* ===== verification/PyFloat.v ===== *)
(** * Python floats

    A Python [float] is an IEEE 754 binary64 number.  It is modelled exactly, by
    [spec_float] at precision 53 and maximal exponent 1024 (Stdlib's executable
    specification of the format): every sum, product and quotient is rounded to
    nearest even, comparisons with a NaN are false, and infinities propagate.
    The second half of the file orders floats by an integer key, on which the
    [forder] tactic decides goals about comparisons. *)

From S2P Require Import Prelude.
From Stdlib Require Export SpecFloat.

Abbreviation float := spec_float.

(** ** Operations *)

Definition fprec : Z := 53.
Definition femax : Z := 1024.

Definition fadd (x y : float) : float := SFadd fprec femax x y.
Definition fsub (x y : float) : float := SFsub fprec femax x y.
Definition fmul (x y : float) : float := SFmul fprec femax x y.
Definition fdiv (x y : float) : float := SFdiv fprec femax x y.
Definition fsqrt (x : float) : float := SFsqrt fprec femax x.
Definition fopp (x : float) : float := SFopp x.
Definition fabs (x : float) : float := SFabs x.

Definition flt (x y : float) : bool := SFltb x y.
Definition fle (x y : float) : bool := SFleb x y.
Definition feq (x y : float) : bool := SFeqb x y.

Declare Scope float_scope.
Delimit Scope float_scope with F.
Notation "x <? y" := (flt x y) : float_scope.
Notation "x <=? y" := (fle x y) : float_scope.
Notation "x >? y" := (flt y x) (only parsing) : float_scope.
Notation "x >=? y" := (fle y x) (only parsing) : float_scope.
Notation "x =? y" := (feq x y) : float_scope.
Notation "x + y" := (fadd x y) : float_scope.
Notation "x - y" := (fsub x y) : float_scope.
Notation "x * y" := (fmul x y) : float_scope.
Notation "x / y" := (fdiv x y) : float_scope.

(** The float nearest to an integer (an infinity when it is out of range;
    [float(n)] raises [OverflowError] there, see PyValue). *)
Definition f_of_Z (n : Z) : float := binary_normalize fprec femax n 0 false.

(** The literal [num/den], correctly rounded: [fdec 7 2] is [3.5].  Both parts
    are exact for the literals of the source, so one rounding takes place. *)
Definition fdec (num den : Z) : float := fdiv (f_of_Z num) (f_of_Z den).

Definition f0 : float := S754_zero false.
Definition f1 : float := f_of_Z 1.

Definition isnan (x : float) : bool := match x with S754_nan => true | _ => false end.

(** [math.isfinite] *)
Definition isfinite (x : float) : bool :=
  match x with S754_zero _ | S754_finite _ _ _ => true | _ => false end.

(** [max(a, b)] keeps [a] unless [b > a]; [min(a, b)] keeps [a] unless [b < a]. *)
Definition fmax (a b : float) : float := if (b >? a)%F then b else a.
Definition fmin (a b : float) : float := if (b <? a)%F then b else a.

(** [min(xs)] of a non-empty sequence [x :: xs], left to right. *)
Definition fmin_list (x : float) (xs : list float) : float := fold_left fmin xs x.

(** Truth value of a float: only the zeros are false. *)
Definition ftruthy (x : float) : bool := match x with S754_zero _ => false | _ => true end.

(** [int(x)] of a finite float truncates towards zero; [math.ceil] rounds up. *)
Definition ftrunc (x : float) : Z :=
  match x with
  | S754_finite s m e =>
    let q := if e <? 0 then Z.pos m / 2 ^ (- e) else Z.pos m * 2 ^ e in
    if s then - q else q
  | _ => 0
  end.

Definition fceil (x : float) : Z :=
  match x with
  | S754_finite s m e =>
    let v := if s then - Z.pos m else Z.pos m in
    if e <? 0 then - ((- v) / 2 ^ (- e)) else v * 2 ^ e
  | _ => 0
  end.

(** ** Sums of floats *)

(** [sum] of floats since Python 3.12: Neumaier's compensated summation.  The sum starts
    with the integer 0, to which the first float is added. *)
Definition compensated_step (acc : float * float) (x : float) : float * float :=
  let '(total, c) := acc in
  let t := (total + x)%F in
  (t, if (fabs total >=? fabs x)%F then (c + ((total - t) + x))%F else (c + ((x - t) + total))%F).

Definition float_sum (xs : list float) : float :=
  match xs with
  | [] => f0
  | x :: rest =>
    let '(total, c) := fold_left compensated_step rest ((f0 + x)%F, f0) in
    if ftruthy c && isfinite c then (total + c)%F else total
  end.

(** [x ** 2] of a float; a finite base whose square overflows raises. *)
Definition float_square (x : float) : res float :=
  let y := (x * x)%F in
  if isfinite x && negb (isfinite y) then Err OverflowError else Ok y.

(** [math.sqrt(x)] *)
Definition py_sqrt (x : float) : res float := if (x <? f0)%F then Err ValueError else Ok (fsqrt x).

(** [x / y] of floats. *)
Definition float_div (x y : float) : res float :=
  if ftruthy y then Ok (x / y)%F else Err ZeroDivisionError.

(** ** Comparison keys *)

Definition fcls (x : float) : Z :=
  match x with
  | S754_nan => 3
  | S754_infinity s => if s then -2 else 2
  | S754_finite s _ _ => if s then -1 else 1
  | S754_zero _ => 0
  end.

Definition fkexp (x : float) : Z :=
  match x with S754_finite s _ e => if s then - e else e | _ => 0 end.

Definition fkman (x : float) : Z :=
  match x with S754_finite s m _ => if s then - Z.pos m else Z.pos m | _ => 0 end.

(** Comparison of two floats that are not NaN is lexicographic on the keys. *)
Definition keylt (x y : float) : Prop :=
  fcls x < fcls y \/
  fcls x = fcls y /\
  (fkexp x < fkexp y \/ fkexp x = fkexp y /\ fkman x < fkman y).

Definition keyeq (x y : float) : Prop :=
  fcls x = fcls y /\ fkexp x = fkexp y /\ fkman x = fkman y.

Lemma fcompare_key x y c :
  SFcompare x y = Some c ->
  fcls x <> 3 /\ fcls y <> 3 /\
  match c with Lt => keylt x y | Eq => keyeq x y | Gt => keylt y x end.
Proof.
  unfold keylt, keyeq.
  destruct x as [sx|sx| |sx mx ex], y as [sy|sy| |sy my ey];
    cbn [SFcompare]; intros [= <-]; cbn [fcls fkexp fkman];
    repeat match goal with b : bool |- _ => destruct b end;
    try (repeat split; lia).
  all: change (Pos.compare_cont Eq mx my) with (Pos.compare mx my).
  all: destruct (Z.compare_spec ex ey), (Pos.compare_spec mx my); cbn [CompOpp];
    subst; repeat split; lia.
Qed.

Lemma fcompare_nan x y : SFcompare x y = None <-> fcls x = 3 \/ fcls y = 3.
Proof.
  destruct x as [sx|sx| |sx mx ex], y as [sy|sy| |sy my ey]; cbn;
    repeat match goal with b : bool |- _ => destruct b end;
    split; try discriminate; lia || reflexivity.
Qed.

Lemma flt_key x y :
  flt x y = true <-> fcls x <> 3 /\ fcls y <> 3 /\ keylt x y.
Proof.
  unfold flt, SFltb. destruct (SFcompare x y) as [c|] eqn:E.
  - apply fcompare_key in E as (Hx & Hy & Hc).
    destruct c; split; try discriminate; unfold keylt, keyeq in *; intuition lia.
  - apply fcompare_nan in E. split; [discriminate | lia].
Qed.

Lemma fle_key x y :
  fle x y = true <-> fcls x <> 3 /\ fcls y <> 3 /\ ~ keylt y x.
Proof.
  unfold fle, SFleb. destruct (SFcompare x y) as [c|] eqn:E.
  - apply fcompare_key in E as (Hx & Hy & Hc).
    destruct c; split; try discriminate; unfold keylt, keyeq in *; intuition lia.
  - apply fcompare_nan in E. split; [discriminate | lia].
Qed.

Lemma feq_key x y :
  feq x y = true <-> fcls x <> 3 /\ fcls y <> 3 /\ keyeq x y.
Proof.
  unfold feq, SFeqb. destruct (SFcompare x y) as [c|] eqn:E.
  - apply fcompare_key in E as (Hx & Hy & Hc).
    destruct c; split; try discriminate; unfold keylt, keyeq in *; intuition lia.
  - apply fcompare_nan in E. split; [discriminate | lia].
Qed.

Lemma isnan_key x : isnan x = true <-> fcls x = 3.
Proof. destruct x as [[]|[]| |[]]; cbn; split; easy || lia. Qed.

Lemma flt_key_false x y :
  flt x y = false <-> ~ (fcls x <> 3 /\ fcls y <> 3 /\ keylt x y).
Proof. rewrite <- flt_key. destruct (flt x y); split; congruence || tauto. Qed.

Lemma fle_key_false x y :
  fle x y = false <-> ~ (fcls x <> 3 /\ fcls y <> 3 /\ ~ keylt y x).
Proof. rewrite <- fle_key. destruct (fle x y); split; congruence || tauto. Qed.

Lemma feq_key_false x y :
  feq x y = false <-> ~ (fcls x <> 3 /\ fcls y <> 3 /\ keyeq x y).
Proof. rewrite <- feq_key. destruct (feq x y); split; congruence || tauto. Qed.

Lemma isnan_key_false x : isnan x = false <-> fcls x <> 3.
Proof. destruct x as [[]|[]| |[]]; cbn; split; easy || lia. Qed.

(** [forder] decides goals about [flt], [fle], [feq] and [isnan]. *)
Ltac fkeys :=
  rewrite ?flt_key, ?fle_key, ?feq_key, ?isnan_key, ?flt_key_false,
    ?fle_key_false, ?feq_key_false, ?isnan_key_false in *;
  unfold keylt, keyeq in *.
Ltac forder := fkeys; lia.

Section order.
Context (x y z : float).

Lemma flt_irrefl : flt x x = false.
Proof. forder. Qed.

Lemma fle_refl : isnan x = false -> fle x x = true.
Proof. forder. Qed.

Lemma flt_trans : flt x y = true -> flt y z = true -> flt x z = true.
Proof. forder. Qed.

Lemma fle_trans : fle x y = true -> fle y z = true -> fle x z = true.
Proof. forder. Qed.

Lemma flt_fle : flt x y = true -> fle x y = true.
Proof. forder. Qed.

Lemma flt_not_fle : flt x y = true -> fle y x = false.
Proof. forder. Qed.

Lemma fle_not_flt : fle x y = true -> flt y x = false.
Proof. forder. Qed.

Lemma fle_total : isnan x = false -> isnan y = false -> fle x y = false -> flt y x = true.
Proof. forder. Qed.

End order.

Lemma isfinite_not_nan x : isfinite x = true -> isnan x = false.
Proof. destruct x; easy. Qed.

Lemma fmax_cases a b : fmax a b = a \/ fmax a b = b.
Proof. unfold fmax. destruct (flt a b); auto. Qed.

Lemma fmin_cases a b : fmin a b = a \/ fmin a b = b.
Proof. unfold fmin. destruct (flt b a); auto. Qed.

Lemma fmax_ge_l a b : isnan a = false -> fle a (fmax a b) = true.
Proof. unfold fmax. destruct (flt a b) eqn:E; forder. Qed.

Lemma fmin_le_l a b : isnan a = false -> fle (fmin a b) a = true.
Proof. unfold fmin. destruct (flt b a) eqn:E; forder. Qed.

Lemma fmin_list_le x xs : isnan x = false -> fle (fmin_list x xs) x = true.
Proof.
  unfold fmin_list. revert x. induction xs as [|y xs IH]; intros x Hx; cbn.
  - by apply fle_refl.
  - assert (isnan (fmin x y) = false) as Hm.
    { unfold fmin. destruct (flt y x) eqn:E; [|done]. forder. }
    eapply fle_trans; [by apply IH | by apply fmin_le_l].
Qed.

(** [max(c, x)] with a number [c] is never NaN, whatever [x] is. *)
Lemma fmax_not_nan a b : isnan a = false -> isnan (fmax a b) = false.
Proof. unfold fmax. destruct (flt a b) eqn:E; forder. Qed.

#[export] Hint Resolve fle_refl flt_fle isfinite_not_nan fmax_ge_l fmin_le_l
  fmax_not_nan : core.
