(* ===== verification/PyValue.v ===== *)
(** * Python values

    The dynamically typed values that the service normalizes at its borders:
    configuration text, attributes annotated [Any], command payloads.  [pyval] is
    the tagged union of the types those borders see; [py_float], [py_int],
    [py_str] and [py_bool] are the conversions [float()], [int()], [str()] and
    [bool()], with the exceptions they raise.  Text is ASCII. *)

From S2P Require Import Prelude PyFloat.

(** ** Text *)

Definition code (c : ascii) : Z := Z.of_nat (nat_of_ascii c).

(** [str.isspace] of one ASCII character. *)
Definition py_space (c : ascii) : bool :=
  let n := code c in
  ((9 <=? n) && (n <=? 13)) || ((28 <=? n) && (n <=? 32)).

Fixpoint py_lstrip (s : string) : string :=
  match s with
  | String c s' => if py_space c then py_lstrip s' else s
  | EmptyString => EmptyString
  end.

Fixpoint py_rstrip (s : string) : string :=
  match s with
  | String c s' =>
    match py_rstrip s' with
    | EmptyString => if py_space c then EmptyString else String c EmptyString
    | r => String c r
    end
  | EmptyString => EmptyString
  end.

(** [s.strip()] *)
Definition py_strip (s : string) : string := py_rstrip (py_lstrip s).

Definition lower_char (c : ascii) : ascii :=
  let n := code c in
  if (65 <=? n) && (n <=? 90) then ascii_of_nat (Z.to_nat (n + 32)) else c.
Definition upper_char (c : ascii) : ascii :=
  let n := code c in
  if (97 <=? n) && (n <=? 122) then ascii_of_nat (Z.to_nat (n - 32)) else c.

Fixpoint string_map (f : ascii -> ascii) (s : string) : string :=
  match s with
  | String c s' => String (f c) (string_map f s')
  | EmptyString => EmptyString
  end.

Definition py_lower (s : string) : string := string_map lower_char s.
Definition py_upper (s : string) : string := string_map upper_char s.

Fixpoint string_drop (n : nat) (s : string) : string :=
  match n, s with
  | S n', String _ s' => string_drop n' s'
  | _, _ => s
  end.

Fixpoint string_take (n : nat) (s : string) : string :=
  match n, s with
  | S n', String c s' => String c (string_take n' s')
  | _, _ => EmptyString
  end.

(** [s.replace(old, new)] for a non-empty [old]: leftmost matches, not
    overlapping.  Every round consumes a character, so the length is fuel. *)
Fixpoint replace_fuel (fuel : nat) (old new s : string) : string :=
  match fuel with
  | O => s
  | S fuel' =>
    match s with
    | EmptyString => EmptyString
    | String c s' =>
      if String.prefix old s
      then (new ++ replace_fuel fuel' old new (string_drop (String.length old) s))%string
      else String c (replace_fuel fuel' old new s')
    end
  end.
Definition py_replace (old new s : string) : string :=
  replace_fuel (String.length s) old new s.

(** [s.split()]: maximal runs of characters that are not blank. *)
Fixpoint split_words (s cur : string) : list string :=
  match s with
  | EmptyString => match cur with EmptyString => [] | _ => [cur] end
  | String c s' =>
    if py_space c
    then match cur with EmptyString => split_words s' "" | _ => cur :: split_words s' "" end
    else split_words s' (cur ++ String c "")%string
  end.
Definition py_words (s : string) : list string := split_words s "".

(** [s.split(sep)] for a one-character separator. *)
Fixpoint split_char (sep : ascii) (s cur : string) : list string :=
  match s with
  | EmptyString => [cur]
  | String c s' =>
    if Ascii.eqb c sep then cur :: split_char sep s' ""
    else split_char sep s' (cur ++ String c "")%string
  end.
Definition py_split (sep : ascii) (s : string) : list string := split_char sep s "".

Definition is_digit (c : ascii) : bool := let n := code c in (48 <=? n) && (n <=? 57).

Fixpoint zeros (n : nat) : string :=
  match n with O => EmptyString | S n' => String "0" (zeros n') end.

(** ** Numbers from text *)

(** A run of digits with single underscores between them: its value, its number
    of digits, and the text after it. *)
Fixpoint read_digits (s : string) (acc n : Z) (us : bool) : option (Z * Z * string) :=
  match s with
  | EmptyString => if us then None else Some (acc, n, EmptyString)
  | String c s' =>
    if is_digit c then read_digits s' (10 * acc + (code c - 48)) (n + 1) false
    else if Ascii.eqb c "_" then
      if us || (n =? 0) then None else read_digits s' acc n true
    else if us then None else Some (acc, n, s)
  end.

Definition read_sign (s : string) : bool * string :=
  match s with
  | String "-" s' => (true, s')
  | String "+" s' => (false, s')
  | _ => (false, s)
  end.

(** [int(s)] of a text; more than 4300 digits is a [ValueError] as well. *)
Definition int_of_text (s : string) : res Z :=
  let '(neg, body) := read_sign (py_strip s) in
  match read_digits body 0 0 false with
  | Some (v, n, EmptyString) =>
    if (0 <? n) && (n <=? 4300) then Ok (if neg then - v else v) else Err ValueError
  | _ => Err ValueError
  end.

(** [mant * 10 ^ e], correctly rounded. *)
Definition dec_float (neg : bool) (mant e : Z) : float :=
  match mant with
  | Z.pos m =>
    let size := Z.of_nat (String.length (pretty mant)) + e in
    if 400 <? size then S754_infinity neg
    else if size <? -400 then S754_zero neg
    else if 0 <=? e
    then binary_normalize fprec femax (if neg then - (mant * 10 ^ e) else mant * 10 ^ e) 0 neg
    else fdiv (S754_finite neg m 0) (S754_finite false (Z.to_pos (10 ^ (- e))) 0)
  | _ => S754_zero neg
  end.

Definition read_exponent (s : string) : option Z :=
  match s with
  | EmptyString => Some 0
  | String c s' =>
    if Ascii.eqb (lower_char c) "e" then
      let '(neg, body) := read_sign s' in
      match read_digits body 0 0 false with
      | Some (v, n, EmptyString) => if 0 <? n then Some (if neg then - v else v) else None
      | _ => None
      end
    else None
  end.

(** [float(s)] of a text. *)
Definition float_of_text (s : string) : res float :=
  let '(neg, body) := read_sign (py_strip s) in
  let word := py_lower body in
  if (word =? "inf")%string || (word =? "infinity")%string then Ok (S754_infinity neg)
  else if (word =? "nan")%string then Ok S754_nan
  else
    match read_digits body 0 0 false with
    | None => Err ValueError
    | Some (ip, ni, rest) =>
      let '(frac, nf, tail) :=
        match rest with
        | String "." r =>
          match read_digits r 0 0 false with
          | Some (fp, nf, tail) => (fp, nf, Some tail)
          | None => (0, 0, None)
          end
        | _ => (0, 0, Some rest)
        end in
      match tail ≫= read_exponent with
      | Some ex =>
        if 0 <? ni + nf then Ok (dec_float neg (ip * 10 ^ nf + frac) (ex - nf))
        else Err ValueError
      | None => Err ValueError
      end
    end.

(** ** Text of a float *)

(** [repr] of a float is the shortest decimal that reads back as the same float. *)
Section repr.
Context (m : positive) (e : Z).

Definition repr_num : Z := Z.pos m * 2 ^ Z.max e 0.
Definition repr_den : Z := 2 ^ Z.max (- e) 0.

(** The decimal point: [10 ^ (k - 1) <= m * 2 ^ e < 10 ^ k]. *)
Definition repr_point : Z :=
  if repr_den <=? repr_num
  then Z.of_nat (String.length (pretty (repr_num / repr_den)))
  else
    let t := Z.of_nat (String.length (pretty (repr_den / repr_num))) in
    1 - (if repr_num * 10 ^ (t - 1) =? repr_den then t - 1 else t).

(** The value rounded to [n] significant digits, as an integer. *)
Definition repr_digits (n : Z) : Z :=
  let p := n - repr_point in
  let num := repr_num * 10 ^ Z.max p 0 in
  let den := repr_den * 10 ^ Z.max (- p) 0 in
  let q := num / den in
  let r := num mod den in
  match Z.compare (2 * r) den with
  | Lt => q
  | Gt => q + 1
  | Eq => if Z.even q then q else q + 1
  end.

(** At most 17 digits are ever needed. *)
Fixpoint repr_search (fuel : nat) (n : Z) : Z * Z :=
  match fuel with
  | O => (repr_digits n, n)
  | S fuel' =>
    if feq (dec_float false (repr_digits n) (repr_point - n)) (S754_finite false m e)
    then (repr_digits n, n)
    else repr_search fuel' (n + 1)
  end.

Fixpoint trim_zeros (s : string) : string :=
  match s with
  | EmptyString => EmptyString
  | String c s' =>
    match trim_zeros s' with
    | EmptyString => if Ascii.eqb c "0" then EmptyString else String c EmptyString
    | r => String c r
    end
  end.

Definition repr_finite : string :=
  let '(d, n) := repr_search 16 1 in
  let k := repr_point + (if d =? 10 ^ n then 1 else 0) in
  let ds := trim_zeros (pretty d) in
  let len := Z.of_nat (String.length ds) in
  if (-4 <? k) && (k <=? 16) then
    if k <=? 0 then ("0." ++ zeros (Z.to_nat (- k)) ++ ds)%string
    else if len <=? k then (ds ++ zeros (Z.to_nat (k - len)) ++ ".0")%string
    else (string_take (Z.to_nat k) ds ++ "." ++ string_drop (Z.to_nat k) ds)%string
  else
    let ex := k - 1 in
    let exs := pretty (Z.abs ex) in
    (string_take 1 ds ++ (if (1 <? len)%Z then "." ++ string_drop 1 ds else "") ++ "e" ++
     (if (ex <? 0)%Z then "-" else "+") ++
     (if (Z.abs ex <? 10)%Z then "0" else "") ++ exs)%string.

End repr.

Definition float_repr (x : float) : string :=
  match x with
  | S754_nan => "nan"
  | S754_infinity s => if s then "-inf" else "inf"
  | S754_zero s => if s then "-0.0" else "0.0"
  | S754_finite s m e => ((if s then "-" else "") ++ repr_finite m e)%string
  end.

(** ** Values *)

(** [VOpaque text] is an object of any other class, whose [str()] is [text]. *)
Inductive pyval :=
  | VNone
  | VBool (b : bool)
  | VInt (n : Z)
  | VFloat (f : float)
  | VStr (s : string)
  | VList (l : list pyval)
  | VTuple (l : list pyval)
  | VDict (d : list (pyval * pyval))
  | VOpaque (text : string).

(** [bool(v)] *)
Definition py_bool (v : pyval) : bool :=
  match v with
  | VNone => false
  | VBool b => b
  | VInt n => negb (n =? 0)
  | VFloat f => ftruthy f
  | VStr s => negb (s =? "")%string
  | VList l | VTuple l => negb (bool_decide (length l = 0%nat))
  | VDict d => negb (bool_decide (length d = 0%nat))
  | VOpaque _ => true
  end.

(** [float(v)]; an integer beyond the range of floats raises [OverflowError]. *)
Definition float_of_int (n : Z) : res float :=
  match f_of_Z n with
  | S754_infinity _ => Err OverflowError
  | f => Ok f
  end.

Definition py_float (v : pyval) : res float :=
  match v with
  | VBool b => Ok (if b then f1 else f0)
  | VInt n => float_of_int n
  | VFloat f => Ok f
  | VStr s => float_of_text s
  | _ => Err TypeError
  end.

(** [int(v)] *)
Definition int_of_float (f : float) : res Z :=
  match f with
  | S754_nan => Err ValueError
  | S754_infinity _ => Err OverflowError
  | _ => Ok (ftrunc f)
  end.

Definition py_int (v : pyval) : res Z :=
  match v with
  | VBool b => Ok (if b then 1 else 0)
  | VInt n => Ok n
  | VFloat f => int_of_float f
  | VStr s => int_of_text s
  | _ => Err TypeError
  end.

(** [repr] of a text: single quotes, unless it holds one and no double quote. *)
Definition quote : ascii := ascii_of_nat 39.
Definition dquote : ascii := ascii_of_nat 34.
Definition backslash : ascii := ascii_of_nat 92.

Definition hex_digit (n : Z) : ascii :=
  ascii_of_nat (Z.to_nat (if n <? 10 then 48 + n else 87 + n)).

Definition escape_char (q c : ascii) : string :=
  let n := code c in
  if Ascii.eqb c q || Ascii.eqb c backslash then String backslash (String c "")
  else if n =? 10 then String backslash "n"
  else if n =? 13 then String backslash "r"
  else if n =? 9 then String backslash "t"
  else if (n <? 32) || (n =? 127) then
    String backslash (String "x" (String (hex_digit (n / 16)) (String (hex_digit (n mod 16)) "")))
  else String c "".

Fixpoint string_flat_map (f : ascii -> string) (s : string) : string :=
  match s with
  | EmptyString => EmptyString
  | String c s' => (f c ++ string_flat_map f s')%string
  end.

Fixpoint string_mem (c : ascii) (s : string) : bool :=
  match s with
  | EmptyString => false
  | String d s' => Ascii.eqb c d || string_mem c s'
  end.

Definition str_repr (s : string) : string :=
  let q := if string_mem quote s && negb (string_mem dquote s) then dquote else quote in
  String q (string_flat_map (escape_char q) s ++ String q "")%string.

Definition join (sep : string) (l : list string) : string :=
  match l with
  | [] => ""
  | x :: l' => fold_left (fun acc y => (acc ++ sep ++ y)%string) l' x
  end.

Fixpoint py_repr (v : pyval) : string :=
  match v with
  | VNone => "None"
  | VBool b => if b then "True" else "False"
  | VInt n => pretty n
  | VFloat f => float_repr f
  | VStr s => str_repr s
  | VList l => ("[" ++ join ", " (map py_repr l) ++ "]")%string
  | VTuple [x] => ("(" ++ py_repr x ++ ",)")%string
  | VTuple l => ("(" ++ join ", " (map py_repr l) ++ ")")%string
  | VDict d =>
    ("{" ++ join ", " (map (fun '(k, x) => (py_repr k ++ ": " ++ py_repr x)%string) d) ++ "}")%string
  | VOpaque text => text
  end.

(** [str(v)] *)
Definition py_str (v : pyval) : string :=
  match v with VStr s => s | _ => py_repr v end.

(** [v or default] for a text default. *)
Definition py_str_or (v : pyval) (default : string) : string :=
  if py_bool v then py_str v else default.

(** Optional typed attributes seen as values. *)
Definition val_of_float (o : option float) : pyval :=
  match o with Some f => VFloat f | None => VNone end.
Definition val_of_str (o : option string) : pyval :=
  match o with Some s => VStr s | None => VNone end.

(** ** Dictionaries and iteration *)

(** [d.get(key)] of a dictionary of values, and the entry itself. *)
Definition dict_find (key : string) (d : list (pyval * pyval)) : option pyval :=
  snd <$> List.find (fun kv => match fst kv with VStr k => (k =? key)%string | _ => false end) d.
Definition dict_get (key : string) (d : list (pyval * pyval)) : pyval := default VNone (dict_find key d).

(** [d[key] = value] *)
Fixpoint dict_set (key : string) (value : pyval) (d : list (pyval * pyval)) : list (pyval * pyval) :=
  match d with
  | [] => [(VStr key, value)]
  | (VStr k, v) :: d' => if (k =? key)%string then (VStr k, value) :: d' else (VStr k, v) :: dict_set key value d'
  | kv :: d' => kv :: dict_set key value d'
  end.

(** [iter(v)] *)
Definition py_iter (v : pyval) : res (list pyval) :=
  match v with
  | VList l | VTuple l => Ok l
  | VDict d => Ok (map fst d)
  | VStr s => Ok (map (fun c => VStr (String c "")) (String.list_ascii_of_string s))
  | _ => Err TypeError
  end.

(** A dictionary with text keys as a value. *)
Definition text_dict (d : list (string * pyval)) : pyval := VDict (map (fun kv => (VStr (fst kv), snd kv)) d).

(** ** Facts about dictionaries *)

Lemma dict_find_set k k' v d : dict_find k (dict_set k' v d) = if (k' =? k)%string then Some v else dict_find k d.
Proof.
  induction d as [|[a b] d IH]; cbn [dict_set]; [unfold dict_find; cbn; by destruct (k' =? k)%string|].
  destruct a as [| | | |a| | | |]; try (unfold dict_find in *; cbn; exact IH).
  destruct (a =? k')%string eqn:E; unfold dict_find in *; cbn.
  - apply String.eqb_eq in E as ->. by destruct (k' =? k)%string.
  - destruct (a =? k)%string eqn:E'; [|exact IH]. apply String.eqb_eq in E' as ->.
    by rewrite String.eqb_sym, E.
Qed.

Lemma Forall_dict_set (P : pyval * pyval -> Prop) k v d : Forall P d -> P (VStr k, v) -> Forall P (dict_set k v d).
Proof.
  intros Hd Hv. induction Hd as [|[a b] d Ha Hd IH]; cbn [dict_set]; [by repeat constructor|].
  destruct a as [| | | |a| | | |]; try by constructor.
  destruct (a =? k)%string eqn:E; constructor; try done. by apply String.eqb_eq in E as ->.
Qed.

Lemma dict_set_again k v d : dict_set k v (dict_set k v d) = dict_set k v d.
Proof.
  induction d as [|[a b] d IH]; cbn [dict_set]; [by rewrite String.eqb_refl|].
  destruct a as [| | | |a| | | |]; cbn [dict_set]; try by rewrite IH.
  destruct (a =? k)%string eqn:E; cbn [dict_set]; rewrite E; [done | by rewrite IH].
Qed.

(** ** Facts about text *)

Section text.

Lemma py_lstrip_head s c s' : py_lstrip s = String c s' -> py_space c = false.
Proof.
  induction s as [|d s IH]; cbn; [discriminate|].
  destruct (py_space d) eqn:E; [exact IH|]. by intros [= <- _].
Qed.

Lemma py_rstrip_idem s : py_rstrip (py_rstrip s) = py_rstrip s.
Proof.
  induction s as [|c s IH]; [done|]. cbn.
  destruct (py_rstrip s) as [|d r] eqn:E.
  - destruct (py_space c) eqn:Ec; cbn; [done|]. by rewrite Ec.
  - cbn in *. by rewrite IH.
Qed.

Lemma py_rstrip_head c s r :
  py_space c = false -> py_rstrip (String c s) = r -> exists r', r = String c r'.
Proof. intros Hc <-. cbn. destruct (py_rstrip s); rewrite ?Hc; eauto. Qed.

(** Stripping twice is stripping once. *)
Lemma py_strip_idem s : py_strip (py_strip s) = py_strip s.
Proof.
  unfold py_strip. destruct (py_lstrip s) as [|c s'] eqn:E; [done|].
  apply py_lstrip_head in E.
  destruct (py_rstrip_head c s' _ E eq_refl) as [r' Hr]. rewrite Hr. cbn [py_lstrip].
  rewrite E, <- Hr. apply py_rstrip_idem.
Qed.

End text.
