(* ===== verification/Rounding.v ===== *)
(** * Rounding

    Facts about the rounding of [PyFloat] that the components share: integers of at most 53
    bits are exact, and a sum of at least one does not round to zero. *)

From S2P Require Import Prelude PyFloat PyValue.

(** ** Small integers are exact *)

Lemma digits2_iter_xO n m : digits2_pos (Pos.iter xO m n) = (digits2_pos m + n)%positive.
Proof.
  induction n as [|n IH] using Pos.peano_ind; cbn; [by rewrite Pos.add_1_r|].
  rewrite Pos.iter_succ, Pos.add_succ_r. cbn. by rewrite IH.
Qed.

Lemma digits2_bound m k : 0 <= k -> Z.pos m < 2 ^ k -> Z.pos (digits2_pos m) <= k.
Proof.
  revert k. induction m as [m IH|m IH|]; intros k Hk H; cbn [digits2_pos].
  - assert (0 < k) by (destruct (decide (k = 0)) as [->|]; cbn in H; lia).
    replace k with (Z.succ (k - 1)) in H by lia. rewrite Z.pow_succ_r in H by lia.
    specialize (IH (k - 1)). lia.
  - assert (0 < k) by (destruct (decide (k = 0)) as [->|]; cbn in H; lia).
    replace k with (Z.succ (k - 1)) in H by lia. rewrite Z.pow_succ_r in H by lia.
    specialize (IH (k - 1)). lia.
  - destruct (decide (k = 0)) as [->|]; [cbn in H; lia | lia].
Qed.

(** A positive integer of at most 53 bits is a float with a full mantissa. *)
Lemma f_of_Z_small m :
  Z.pos m < 2 ^ 53 ->
  exists mz, f_of_Z (Z.pos m) = S754_finite false mz (Z.pos (digits2_pos m) - 53) /\
    Z.pos mz = Z.pos m * 2 ^ (53 - Z.pos (digits2_pos m)).
Proof.
  intros H. pose proof (digits2_bound m 53 ltac:(lia) H) as Hd.
  unfold f_of_Z, binary_normalize, binary_round.
  set (d := digits2_pos m) in *.
  assert (SpecFloat.fexp fprec femax (Z.pos d + 0) = Z.pos d - 53) as Hf.
  { unfold SpecFloat.fexp, SpecFloat.emin, fprec, femax. lia. }
  rewrite Hf. 
  assert (exists mz, shl_align m 0 (Z.pos d - 53) = (mz, Z.pos d - 53) /\ digits2_pos mz = 53%positive /\
     Z.pos mz = Z.pos m * 2 ^ (53 - Z.pos d)) as (mz & -> & Hmz & Hv).
  { unfold shl_align. rewrite Z.sub_0_r. destruct (Z.pos d - 53) as [|p|p] eqn:E; [|lia|].
    - exists m. replace (53 - Z.pos d) with 0 by lia. repeat split; [subst d; lia | lia].
    - exists (Pos.iter xO m p). repeat split.
      + rewrite digits2_iter_xO. fold d. lia.
      + replace (53 - Z.pos d) with (Z.pos p) by lia. clear.
        induction p as [|p IH] using Pos.peano_ind; [cbn; lia|]. rewrite Pos.iter_succ.
        change (Z.pos (Pos.iter xO m p)~0) with (2 * Z.pos (Pos.iter xO m p)). rewrite IH, Pos2Z.inj_succ, Z.pow_succ_r; lia. }
  exists mz. split; [|exact Hv]. unfold binary_round_aux, shr_fexp. cbn [Zdigits2]. rewrite Hmz.
  replace (SpecFloat.fexp fprec femax (53 + (Z.pos d - 53)) - (Z.pos d - 53)) with 0
    by (unfold SpecFloat.fexp, SpecFloat.emin, fprec, femax; lia).
  cbn [shr shr_record_of_loc loc_of_shr_record round_nearest_even shr_m Zdigits2]. rewrite Hmz.
  replace (SpecFloat.fexp fprec femax (53 + (Z.pos d - 53)) - (Z.pos d - 53)) with 0
    by (unfold SpecFloat.fexp, SpecFloat.emin, fprec, femax; lia).
  cbn [shr shr_record_of_loc shr_m]. unfold femax, fprec. destruct (Z.leb_spec (Z.pos d - 53) (1024 - 53)); [done|lia].
Qed.

Lemma float_of_int_small n :
  0 <= n < 2 ^ 53 ->
  exists x, float_of_int n = Ok x /\ isfinite x = true /\ (f0 <=? x)%F = true /\ ftruthy x = negb (n =? 0).
Proof.
  intros Hn. unfold float_of_int. destruct n as [|m|m]; [|destruct (f_of_Z_small m ltac:(lia)) as (mz & -> & _)|lia].
  - by exists f0.
  - by eexists.
Qed.

(** ** Rounding does not reach zero *)

Lemma shr_1_half mrs : 0 <= shr_m mrs -> shr_m (shr_1 mrs) = shr_m mrs / 2.
Proof.
  destruct mrs as [m r s]. destruct m as [|[p|p|]|p]; cbn; intros H; try done; try lia.
  - change (Z.pos p~1) with (2 * Z.pos p + 1). rewrite Z.mul_comm, Z.add_comm, Z.div_add by lia. done.
  - change (Z.pos p~0) with (2 * Z.pos p). rewrite Z.mul_comm, Z.div_mul by lia. done.
Qed.

Lemma iter_pos_comm {A} (f : A -> A) n x : SpecFloat.iter_pos f n (f x) = f (SpecFloat.iter_pos f n x).
Proof. revert x. induction n as [n IH|n IH|]; intros x; cbn; by rewrite ?IH. Qed.

Lemma iter_pos_succ {A} (f : A -> A) n x : SpecFloat.iter_pos f (Pos.succ n) x = SpecFloat.iter_pos f n (f x).
Proof.
  revert x. induction n as [n IH|n IH|]; intros x; cbn; [|done..].
  change (Pos.succ n~1) with (Pos.succ n)~0%positive. cbn [SpecFloat.iter_pos]. by rewrite !IH, !iter_pos_comm.
Qed.

Lemma shr_iter n mrs :
  0 <= shr_m mrs -> shr_m (SpecFloat.iter_pos shr_1 n mrs) = shr_m mrs / 2 ^ Z.pos n.
Proof.
  revert mrs. induction n as [|n IH] using Pos.peano_ind; intros mrs H.
  - by apply shr_1_half.
  - rewrite iter_pos_succ, IH; rewrite shr_1_half by done; [|by apply Z.div_pos].
    rewrite Z.div_div by lia. f_equal. rewrite Pos2Z.inj_succ, Z.pow_succ_r; lia.
Qed.

Lemma digits2_lower m : 2 ^ (Z.pos (digits2_pos m) - 1) <= Z.pos m.
Proof.
  induction m as [m IH|m IH|]; cbn [digits2_pos]; [| |done];
    rewrite Pos2Z.inj_succ; replace (Z.succ (Z.pos (digits2_pos m)) - 1) with (Z.succ (Z.pos (digits2_pos m) - 1)) by lia;
    rewrite Z.pow_succ_r by lia; lia.
Qed.

Lemma digits2_upper m : Z.pos m < 2 ^ Z.pos (digits2_pos m).
Proof.
  induction m as [m IH|m IH|]; cbn [digits2_pos]; [| |done]; rewrite Pos2Z.inj_succ, Z.pow_succ_r by lia; lia.
Qed.

Lemma iter_xO_value n m : Z.pos (Pos.iter xO m n) = Z.pos m * 2 ^ Z.pos n.
Proof.
  induction n as [|n IH] using Pos.peano_ind; [cbn; lia|]. rewrite Pos.iter_succ.
  change (Z.pos (Pos.iter xO m n)~0) with (2 * Z.pos (Pos.iter xO m n)).
  rewrite IH, Pos2Z.inj_succ, Z.pow_succ_r; lia.
Qed.

(** The shift keeps at most 53 digits, and drops none of the leading ones. *)
Lemma shr_fexp_exponent m e l :
  -1021 <= Z.pos (digits2_pos m) + e ->
  snd (shr_fexp fprec femax (Z.pos m) e l) = e + Z.max 0 (Z.pos (digits2_pos m) - 53) /\
  (53 <= Z.pos (digits2_pos m) -> 2 ^ 52 <= shr_m (fst (shr_fexp fprec femax (Z.pos m) e l))).
Proof.
  intros H. unfold shr_fexp. cbn [Zdigits2].
  assert (shr_m (shr_record_of_loc (Z.pos m) l) = Z.pos m) as Hm by (destruct l as [|[]]; done).
  pose proof (digits2_lower m) as Hl.
  assert (SpecFloat.fexp fprec femax (Z.pos (digits2_pos m) + e) - e = Z.pos (digits2_pos m) - 53) as ->
    by (unfold SpecFloat.fexp, SpecFloat.emin, fprec, femax; lia).
  destruct (Z.pos (digits2_pos m) - 53) as [|k|k] eqn:E; cbn [shr fst snd]; rewrite ?Hm.
  - split; [lia|]. intros _. replace 52 with (Z.pos (digits2_pos m) - 1) by lia. done.
  - rewrite shr_iter; rewrite Hm; [|lia]. split; [lia|]. intros _. apply Z.div_le_lower_bound; [lia|].
    rewrite <- Z.pow_add_r by lia. replace (Z.pos k + 52) with (Z.pos (digits2_pos m) - 1) by lia. done.
  - split; lia.
Qed.

Lemma round_nearest_even_ge m l : m <= round_nearest_even m l.
Proof. destruct l as [|[]]; cbn; try lia. destruct (Z.even m); lia. Qed.

Lemma binary_round_aux_truthy s m e l :
  53 <= Z.pos (digits2_pos m) -> -1021 <= Z.pos (digits2_pos m) + e ->
  ftruthy (binary_round_aux fprec femax s (Z.pos m) e l) = true.
Proof.
  intros Hd H. unfold binary_round_aux.
  pose proof (shr_fexp_exponent m e l H) as [He Hm]. specialize (Hm Hd).
  destruct (shr_fexp fprec femax (Z.pos m) e l) as [mrs e1]. cbn in He, Hm.
  pose proof (round_nearest_even_ge (shr_m mrs) (loc_of_shr_record mrs)) as Hr.
  destruct (round_nearest_even _ _) as [|m1|m1]; [lia| |lia].
  assert (53 <= Z.pos (digits2_pos m1)) as Hd1.
  { destruct (Z.le_gt_cases 53 (Z.pos (digits2_pos m1))) as [|Hlt]; [done|].
    assert (Z.pos m1 < 2 ^ 52); [|lia]. eapply Z.lt_le_trans; [apply digits2_upper|]. apply Z.pow_le_mono_r; lia. }
  destruct (shr_fexp_exponent m1 e1 loc_Exact) as [_ Hm1]; [lia|]. specialize (Hm1 Hd1).
  destruct (shr_fexp fprec femax (Z.pos m1) e1 loc_Exact) as [mrs2 e2]. cbn in Hm1.
  destruct (shr_m mrs2) as [|m2|m2]; [lia| |lia]. by destruct (_ <=? _).
Qed.

(** A rounded value of at least [2 ^ -1021] is not zero. *)
Lemma binary_round_truthy s m e :
  -1021 <= Z.pos (digits2_pos m) + e -> ftruthy (binary_round fprec femax s m e) = true.
Proof.
  intros H. unfold binary_round.
  assert (SpecFloat.fexp fprec femax (Z.pos (digits2_pos m) + e) = Z.pos (digits2_pos m) + e - 53) as ->
    by (unfold SpecFloat.fexp, SpecFloat.emin, fprec, femax; lia).
  unfold shl_align.
  destruct (Z.pos (digits2_pos m) + e - 53 - e) as [|k|k] eqn:E; apply binary_round_aux_truthy; try lia.
  all: rewrite digits2_iter_xO; lia.
Qed.

Lemma shl_align_value m e e' : e' <= e -> Z.pos (fst (shl_align m e e')) = Z.pos m * 2 ^ (e - e').
Proof.
  intros H. unfold shl_align. destruct (e' - e) as [|k|k] eqn:E; [|lia|].
  - replace (e - e') with 0 by lia. cbn. lia.
  - replace (e - e') with (Z.pos k) by lia. cbn [fst]. apply iter_xO_value.
Qed.

(** One plus a non-negative float is not zero. *)
Lemma one_plus_truthy y : (f0 <=? y)%F = true -> ftruthy (f1 + y)%F = true.
Proof.
  destruct y as [[]|[]| |[] m e]; try (intros _; vm_compute; reflexivity); try done.
  intros _. unfold fadd, f1.
  assert (f_of_Z 1 = S754_finite false 4503599627370496 (-52)) as -> by (vm_compute; reflexivity).
  cbn [SFadd cond_Zopp]. set (ez := Z.min (-52) e).
  pose proof (shl_align_value 4503599627370496 (-52) ez ltac:(lia)) as H1.
  pose proof (shl_align_value m e ez ltac:(lia)) as H2.
  set (a := fst (shl_align 4503599627370496 (-52) ez)) in *. set (b := fst (shl_align m e ez)) in *.
  cbn [Z.add binary_normalize]. apply binary_round_truthy.
  pose proof (digits2_upper (a + b)) as Hu.
  assert (2 ^ (- ez) <= Z.pos (a + b)) as Hge.
  { rewrite Pos2Z.inj_add, H1. replace 4503599627370496 with (2 ^ 52) by done.
    rewrite <- Z.pow_add_r by lia. replace (52 + (-52 - ez)) with (- ez) by lia. lia. }
  assert (- ez < Z.pos (digits2_pos (a + b))); [|lia].
  apply (Z.pow_lt_mono_r_iff 2); lia.
Qed.

(** ** A proper fraction of an integer does not exceed it *)

Lemma round_nearest_even_le m l : round_nearest_even m l <= m + 1.
Proof. destruct l as [|[]]; cbn; try lia. destruct (Z.even m); lia. Qed.

Lemma digits2_exact m k : 2 ^ (Z.pos k - 1) <= Z.pos m < 2 ^ Z.pos k -> digits2_pos m = k.
Proof.
  intros [Hl Hu]. pose proof (digits2_bound m (Z.pos k) ltac:(lia) Hu).
  assert (Z.pos k - 1 < Z.pos (digits2_pos m)); [|lia].
  apply (Z.pow_lt_mono_r_iff 2); [lia|lia|]. eapply Z.le_lt_trans; [exact Hl | apply digits2_upper].
Qed.

(** The first step of rounding: at least 53 digits are cut down to 53. *)
Lemma shr_fexp_value m e l :
  -1021 <= Z.pos (digits2_pos m) + e -> 53 <= Z.pos (digits2_pos m) ->
  shr_m (fst (shr_fexp fprec femax (Z.pos m) e l)) = Z.pos m / 2 ^ (Z.pos (digits2_pos m) - 53).
Proof.
  intros H Hd. unfold shr_fexp. cbn [Zdigits2].
  assert (shr_m (shr_record_of_loc (Z.pos m) l) = Z.pos m) as Hm by (destruct l as [|[]]; done).
  assert (SpecFloat.fexp fprec femax (Z.pos (digits2_pos m) + e) - e = Z.pos (digits2_pos m) - 53) as ->
    by (unfold SpecFloat.fexp, SpecFloat.emin, fprec, femax; lia).
  destruct (Z.pos (digits2_pos m) - 53) as [|k|k] eqn:E; cbn [shr fst snd]; rewrite ?Hm; [|by rewrite shr_iter, Hm; lia|lia].
  by rewrite Z.div_1_r.
Qed.

(** Rounding a value of at least 53 digits: 53 leading digits, possibly one more unit. *)
Lemma binary_round_aux_value m e :
  53 <= Z.pos (digits2_pos m) -> -1021 <= Z.pos (digits2_pos m) + e -> Z.pos (digits2_pos m) + e <= 1023 ->
  exists m' e', binary_round_aux fprec femax false (Z.pos m) e loc_Exact = S754_finite false m' e' /\
    let k := Z.pos (digits2_pos m) - 53 in
    let q := Z.pos m / 2 ^ k in
    (e' = e + k /\ q <= Z.pos m' <= q + 1 /\ Z.pos m' < 2 ^ 53) \/
    (e' = e + k + 1 /\ Z.pos m' = 2 ^ 52 /\ q + 1 = 2 ^ 53).
Proof.
  intros Hd H Hmax. unfold binary_round_aux. cbv zeta.
  destruct (shr_fexp_exponent m e loc_Exact H) as [He Hm]. specialize (Hm Hd).
  pose proof (shr_fexp_value m e loc_Exact H Hd) as Hv.
  destruct (shr_fexp fprec femax (Z.pos m) e loc_Exact) as [mrs e1]. cbn [fst snd] in *. rewrite Z.max_r in He by lia.
  set (k := Z.pos (digits2_pos m) - 53) in *. rewrite <- Hv. set (q := shr_m mrs) in *.
  assert (q < 2 ^ 53) as Hq.
  { rewrite Hv. apply Z.div_lt_upper_bound; [lia|]. rewrite <- Z.pow_add_r by lia.
    replace (k + 53) with (Z.pos (digits2_pos m)) by lia. apply digits2_upper. }
  pose proof (round_nearest_even_ge q (loc_of_shr_record mrs)) as Hg.
  pose proof (round_nearest_even_le q (loc_of_shr_record mrs)) as Hle.
  destruct (round_nearest_even q _) as [|r|r]; [lia| |lia].
  destruct (Z.lt_ge_cases (Z.pos r) (2 ^ 53)) as [Hr|Hr].
  - assert (digits2_pos r = 53%positive) as Hdr by (apply digits2_exact; lia).
    destruct (shr_fexp_exponent r e1 loc_Exact) as [He2 _]; [rewrite Hdr; lia|].
    pose proof (shr_fexp_value r e1 loc_Exact) as Hv2. rewrite Hdr in He2, Hv2.
    destruct (shr_fexp fprec femax (Z.pos r) e1 loc_Exact) as [mrs2 e2]. cbn [fst snd] in *.
    rewrite Hv2, Z.div_1_r by lia. exists r, e2. destruct (Z.leb_spec e2 (femax - fprec)); [|unfold femax, fprec in *; lia].
    split; [done|]. left. lia.
  - assert (Z.pos r = 2 ^ 53) as Hr' by lia. assert (r = 9007199254740992%positive) as -> by lia.
    destruct (shr_fexp_exponent 9007199254740992 e1 loc_Exact) as [He2 _]; [cbn; lia|].
    pose proof (shr_fexp_value 9007199254740992 e1 loc_Exact) as Hv2. cbn [digits2_pos] in He2, Hv2.
    destruct (shr_fexp fprec femax _ e1 loc_Exact) as [mrs2 e2]. cbn [fst snd] in *.
    rewrite Hv2 by lia. cbn in He2. exists 4503599627370496%positive, e2.
    destruct (Z.leb_spec e2 (femax - fprec)); [|unfold femax, fprec in *; lia]. split; [done|]. right. lia.
Qed.

(** [math.ceil(x * n)] for a fraction [x] of 1/2 <= x < 1 and an integer of at most 53 bits. *)
Lemma fraction_ceil_le m1 n :
  2 ^ 52 <= Z.pos m1 < 2 ^ 53 -> 0 < n < 2 ^ 53 ->
  0 <= fceil (S754_finite false m1 (-53) * f_of_Z n)%F <= n.
Proof.
  intros H1 Hn. destruct n as [|p|p]; [lia| |lia].
  destruct (f_of_Z_small p) as (mz & -> & Hmz); [lia|].
  pose proof (digits2_bound p 53 ltac:(lia) ltac:(lia)) as Hd. pose proof (digits2_lower p) as Hlow.
  pose proof (digits2_upper p) as Hup. set (d := Z.pos (digits2_pos p)) in *.
  assert (2 ^ 52 <= Z.pos mz < 2 ^ 53) as Hz.
  { rewrite Hmz. replace (2 ^ 52) with (2 ^ (d - 1) * 2 ^ (53 - d)) by (rewrite <- Z.pow_add_r by lia; f_equal; lia).
    replace (2 ^ 53) with (2 ^ d * 2 ^ (53 - d)) by (rewrite <- Z.pow_add_r by lia; f_equal; lia).
    split; [apply Z.mul_le_mono_nonneg_r; lia | apply Z.mul_lt_mono_pos_r; lia]. }
  unfold fmul. cbn [SFmul xorb]. assert (2 ^ 104 <= Z.pos (m1 * mz) < 2 ^ 106) as Hm by nia.
  assert (digits2_pos (m1 * mz) = 105%positive \/ digits2_pos (m1 * mz) = 106%positive) as HD.
  { destruct (Z.lt_ge_cases (Z.pos (m1 * mz)) (2 ^ 105)); [left|right]; apply digits2_exact; lia. }
  destruct (binary_round_aux_value (m1 * mz) (-53 + (d - 53))) as (m' & e' & -> & Hcase); [lia..|].
  assert (e' <= 0 /\ Z.pos m' <= Z.pos p * 2 ^ (- e')) as [He' Hle].
  { assert (Z.pos mz * 2 = Z.pos p * 2 ^ (54 - d)) as Hmz2.
    { rewrite Hmz. replace (54 - d) with (Z.succ (53 - d)) by lia. rewrite Z.pow_succ_r by lia. lia. }
    cbv zeta in Hcase. destruct HD as [HD|HD]; rewrite HD in Hcase.
    - change (Z.pos 105 - 53) with 52 in Hcase. destruct Hcase as [(-> & Hq & Hm')|(-> & Hm' & _)].
      + split; [lia|]. replace (- (-53 + (d - 53) + 52)) with (54 - d) by lia. lia.
      + split; [lia|]. replace (- (-53 + (d - 53) + 52 + 1)) with (53 - d) by lia. lia.
    - change (Z.pos 106 - 53) with 53 in Hcase.
      assert (Z.pos (m1 * mz) / 2 ^ 53 < Z.pos mz) by (apply Z.div_lt_upper_bound; nia).
      destruct Hcase as [(-> & Hq & Hm')|(-> & Hm' & Hq)]; [|lia].
      split; [lia|]. replace (- (-53 + (d - 53) + 53)) with (53 - d) by lia. lia. }
  unfold fceil. destruct (Z.ltb_spec e' 0) as [Hneg|Hpos].
  - assert (- Z.pos p <= - Z.pos m' / 2 ^ (- e')) by (apply Z.div_le_lower_bound; lia).
    assert (- Z.pos m' / 2 ^ (- e') < 0) by (apply Z.div_lt_upper_bound; lia). lia.
  - replace e' with 0 in * by lia. cbn in *. lia.
Qed.
