(* ===== verification/Contracts.v ===== *)
(** * Normalization contracts

    [core/contracts_basic.py], [core/common_values.py] and the constant tables of
    [core/common_types.py]: every outward value of the service goes through one of
    these functions.  Their argument is an arbitrary Python value, so they are
    total up to the exceptions their [try] blocks let through. *)

From S2P Require Import Prelude PyFloat PyValue.

(** ** Tables *)

(** core/common_types.py: HEALTH_CODES *)
Definition HEALTH_CODES : list (string * Z) :=
  [("init", 0); ("inputs-missing", 1); ("battery-soc-missing", 2);
   ("battery-soc-missing-allowed", 3); ("averaging", 4); ("running", 5); ("waiting", 6);
   ("auto-start", 7); ("auto-stop", 8); ("night-lock", 9); ("inputs-cached", 10);
   ("shelly-offline", 11); ("autostart-disabled", 12); ("warmup", 13);
   ("manual-override", 14); ("waiting-offtime", 15); ("waiting-daytime", 16);
   ("waiting-surplus", 17); ("waiting-grid", 18); ("waiting-soc", 19); ("disabled", 20);
   ("grid-missing", 21); ("mode-transition", 22); ("waiting-grid-recovery", 23);
   ("command-mismatch", 24); ("relay-sync-failed", 25); ("charger-fault", 26);
   ("phase-switch-mismatch", 27); ("contactor-interlock", 28);
   ("contactor-feedback-mismatch", 29); ("contactor-suspected-open", 30);
   ("contactor-suspected-welded", 31); ("contactor-lockout-open", 32);
   ("contactor-lockout-welded", 33); ("charger-transport-busy", 34);
   ("charger-transport-ownership", 35); ("charger-transport-timeout", 36);
   ("charger-transport-offline", 37); ("charger-transport-response", 38);
   ("charger-transport-error", 39); ("scheduled-night-charge", 40); ("not-configured", 41)].

(** core/common_types.py: AUTO_STATE_CODES *)
Definition AUTO_STATE_CODES : list (string * Z) :=
  [("idle", 0); ("waiting", 1); ("learning", 2); ("charging", 3); ("blocked", 4);
   ("recovery", 5)].

(** core/common_types.py: RECOVERY_AUTO_REASONS *)
Definition RECOVERY_AUTO_REASONS : list string :=
  ["inputs-missing"; "battery-soc-missing"; "battery-soc-missing-allowed"; "grid-missing";
   "waiting-grid-recovery"; "shelly-offline"; "charger-fault"; "command-mismatch";
   "relay-sync-failed"; "phase-switch-mismatch"; "contactor-feedback-mismatch";
   "contactor-suspected-open"; "contactor-suspected-welded"; "contactor-lockout-open";
   "contactor-lockout-welded"; "charger-transport-busy"; "charger-transport-ownership";
   "charger-transport-timeout"; "charger-transport-offline"; "charger-transport-response";
   "charger-transport-error"].

(** core/common_types.py: BLOCKED_AUTO_REASONS *)
Definition BLOCKED_AUTO_REASONS : list string :=
  ["not-configured"; "disabled"; "autostart-disabled"; "warmup"; "manual-override";
   "waiting-offtime"; "waiting-daytime"; "waiting-grid"; "waiting-soc"; "night-lock";
   "mode-transition"; "contactor-interlock"].

(** core/common_types.py: CHARGING_AUTO_REASONS *)
Definition CHARGING_AUTO_REASONS : list string :=
  ["running"; "auto-start"; "auto-stop"; "scheduled-night-charge"].

(** core/common_types.py: WAITING_AUTO_REASONS *)
Definition WAITING_AUTO_REASONS : list string := ["waiting"; "waiting-surplus"; "averaging"].

(** core/common_types.py: EVSE_FAULT_HEALTH_REASONS *)
Definition EVSE_FAULT_HEALTH_REASONS : list string :=
  ["charger-fault"; "contactor-feedback-mismatch"; "contactor-lockout-open";
   "contactor-lockout-welded"].

(** core/contracts_basic.py: LEARNED_CHARGE_POWER_STATES *)
Definition LEARNED_CHARGE_POWER_STATES : list string :=
  ["unknown"; "learning"; "stable"; "stale"].

(** core/contracts_basic.py: LEARNED_CHARGE_POWER_PHASES *)
Definition LEARNED_CHARGE_POWER_PHASES : list string := ["L1"; "L2"; "L3"; "3P"].

(** The EVCS status labels of the Venus display.
    core/common_types.py: _status_label *)
Definition status_label (value : pyval) : res string :=
  n ← py_int value;
  mret (match n with
        | 0 => "Getrennt" | 1 => "Bereit" | 2 => "Laden" | 3 => "Fertig"
        | 4 => "Warten auf PV" | 6 => "Warten auf Start" | _ => "Unbekannt"
        end).

(** ** Basic contracts *)

(** core/contracts_basic.py: finite_float_or_none *)
Definition finite_float_or_none (value : pyval) : res (option float) :=
  match value with
  | VNone | VBool _ => Ok None
  | _ =>
    catch (n ← py_float value; mret (if isfinite n then Some n else None))
      [TypeError; ValueError] (Ok None)
  end.

(** core/contracts_basic.py: optional_text *)
Definition optional_text (value : pyval) : option string :=
  let text := match value with VNone => "" | _ => py_strip (py_str value) end in
  if (text =? "")%string then None else Some text.

(** core/contracts_basic.py: non_negative_float_or_none *)
Definition non_negative_float_or_none (value : pyval) : res (option float) :=
  n ← finite_float_or_none value;
  mret (match n with
        | Some x => if (x <? f0)%F then None else Some x
        | None => None
        end).

(** core/contracts_basic.py: non_negative_int *)
Definition non_negative_int (value : pyval) (default : Z) : res Z :=
  match value with
  | VBool _ => Ok default
  | _ => catch (n ← py_int value; mret (Z.max 0 n)) [TypeError; ValueError] (Ok default)
  end.

(** core/contracts_basic.py: normalize_binary_flag *)
Definition normalize_binary_flag (value : pyval) (default : Z) : res Z :=
  match value with
  | VBool b => Ok (if b then 1 else 0)
  | _ =>
    catch (n ← py_int value; mret (if n <=? 0 then 0 else 1))
      [TypeError; ValueError] (Ok (if default =? 0 then 0 else 1))
  end.

(** core/contracts_basic.py: normalize_optional_binary_state *)
Definition normalize_optional_binary_state (value : pyval) : res (option bool) :=
  match value with
  | VNone => Ok None
  | _ => n ← normalize_binary_flag value 0; mret (Some (negb (n =? 0)))
  end.

(** core/contracts_basic.py: normalize_learning_state *)
Definition normalize_learning_state (value : pyval) : string :=
  match value with
  | VNone => "unknown"
  | _ =>
    let state := py_lower (py_strip (py_str value)) in
    if str_in state LEARNED_CHARGE_POWER_STATES then state else "unknown"
  end.

(** core/contracts_basic.py: normalize_learning_phase *)
Definition normalize_learning_phase (value : pyval) : option string :=
  match value with
  | VNone => None
  | _ =>
    let phase := py_upper (py_strip (py_str value)) in
    if str_in phase LEARNED_CHARGE_POWER_PHASES then Some phase else None
  end.

Definition is_none (v : pyval) : bool := match v with VNone => true | _ => false end.

(** core/contracts_basic.py: paired_optional_values *)
Definition paired_optional_values (left right : pyval) : bool :=
  Bool.eqb (is_none left) (is_none right).

(** core/contracts_basic.py: valid_battery_soc *)
Definition valid_battery_soc (value : pyval) : res bool :=
  n ← finite_float_or_none value;
  mret (match n with
        | None => true
        | Some x => ((f0 <=? x)%F && (x <=? f_of_Z 100)%F)%bool
        end).

(** core/contracts_basic.py: timestamp_not_future *)
Definition timestamp_not_future (timestamp : pyval) (now tolerance_seconds : float) : res bool :=
  n ← finite_float_or_none timestamp;
  mret (match n with
        | Some t => (t <=? now + tolerance_seconds)%F
        | None => false
        end).

(** core/contracts_basic.py: timestamp_age_within *)
Definition timestamp_age_within (timestamp : pyval)
    (now max_age_seconds future_tolerance_seconds : float) : res bool :=
  n ← finite_float_or_none timestamp;
  mret (match n with
        | Some t =>
          let age_seconds := (now - t)%F in
          ((fopp future_tolerance_seconds <=? age_seconds)%F &&
           (age_seconds <=? max_age_seconds)%F)%bool
        | None => false
        end).

(** core/contracts_basic.py: thresholds_ordered *)
Definition thresholds_ordered (start_watts stop_watts : pyval) : res bool :=
  start_value ← non_negative_float_or_none start_watts;
  stop_value ← non_negative_float_or_none stop_watts;
  mret (match start_value, stop_value with
        | Some a, Some b => (b <=? a)%F
        | _, _ => false
        end).

(** core/contracts_basic.py: normalize_auto_state *)
Definition normalize_auto_state (value : pyval) : string :=
  match value with
  | VNone => "idle"
  | _ =>
    let state := py_lower (py_strip (py_str value)) in
    if str_in state (map fst AUTO_STATE_CODES) then state else "idle"
  end.

(** core/contracts_basic.py: normalized_auto_state_pair *)
Definition normalized_auto_state_pair (state : pyval) : res (string * Z) :=
  let normalized_state := normalize_auto_state state in
  match table_get normalized_state AUTO_STATE_CODES with
  | Some code => Ok (normalized_state, code)
  | None => Err KeyError
  end.

(** core/contracts_basic.py: normalized_status_source *)
Definition normalized_status_source (value : pyval) : string :=
  let source := match value with VNone => "" | _ => py_strip (py_str value) end in
  if (source =? "")%string then "unknown" else source.

(** core/contracts_basic.py: normalized_fault_state *)
Definition normalized_fault_state (reason : pyval) : string * Z :=
  let normalized_reason := match reason with VNone => "" | _ => py_strip (py_str reason) end in
  (normalized_reason, if (normalized_reason =? "")%string then 0 else 1).

(** ** Modes and phases *)

(** core/common_values.py: normalize_phase *)
Definition normalize_phase (phase : pyval) : res string :=
  let phase_name := py_upper (py_strip (py_str phase)) in
  if (phase_name =? "1P")%string then Ok "L1"
  else if str_in phase_name ["L1"; "L2"; "L3"; "3P"] then Ok phase_name
  else Err ValueError.

(** core/common_values.py: normalize_mode *)
Definition normalize_mode (mode : pyval) : res Z :=
  catch (mode_int ← py_int mode;
         mret (if (mode_int =? 1) || (mode_int =? 2) then mode_int else 0))
    [TypeError; ValueError] (Ok 0).

(** core/common_values.py: mode_uses_auto_logic *)
Definition mode_uses_auto_logic (mode : pyval) : res bool :=
  m ← normalize_mode mode; mret ((m =? 1) || (m =? 2)).

(** core/common_values.py: mode_uses_scheduled_logic *)
Definition mode_uses_scheduled_logic (mode : pyval) : res bool :=
  m ← normalize_mode mode; mret (m =? 2).

Record phase_measurement := mkPhaseMeasurement {
  pm_power : float; pm_voltage : float; pm_current : float }.

(** core/common_values.py: phase_values *)
Definition phase_values (total_power voltage : float) (phase voltage_mode : string)
    : res (list (string * phase_measurement)) :=
  if negb (ftruthy voltage) then Err ValueError
  else if (phase =? "3P")%string then
    let per_phase_power := (total_power / f_of_Z 3)%F in
    let phase_voltage :=
      if (voltage_mode =? "phase")%string then voltage
      else (voltage / fsqrt (f_of_Z 3))%F in
    if negb (ftruthy phase_voltage) then Err ZeroDivisionError
    else
      let m := mkPhaseMeasurement per_phase_power phase_voltage (per_phase_power / phase_voltage)%F in
      Ok [("L1", m); ("L2", m); ("L3", m)]
  else
    let idle := mkPhaseMeasurement f0 voltage f0 in
    let live := mkPhaseMeasurement total_power voltage (total_power / voltage)%F in
    let base := [("L1", idle); ("L2", idle); ("L3", idle)] in
    Ok (if str_in phase ["L1"; "L2"; "L3"]
        then map (fun '(k, m) => (k, if (k =? phase)%string then live else m)) base
        else base ++ [(phase, live)])%list.

(** ** Typed attributes *)

(** [finite_float_or_none] of an attribute whose port declares [float | None]. *)
Definition finite_of (o : option float) : option float :=
  match o with
  | Some x => if isfinite x then Some x else None
  | None => None
  end.

(** [max(0.0, x)] *)
Definition non_negative (x : float) : float := fmax f0 x.

Section facts.

Lemma finite_float_or_none_typed o :
  finite_float_or_none (val_of_float o) = Ok (finite_of o).
Proof. by destruct o. Qed.

Lemma finite_of_finite o x : finite_of o = Some x -> isfinite x = true /\ o = Some x.
Proof. destruct o as [y|]; cbn; [|done]. destruct (isfinite y) eqn:E; [|done]. by intros [= <-]. Qed.

Lemma finite_of_some x : isfinite x = true -> finite_of (Some x) = Some x.
Proof. cbn. by intros ->. Qed.

(** Whatever number [x] is, NaN included, [max(0.0, x)] is a number [>= 0]. *)
Lemma non_negative_spec x : fle f0 (non_negative x) = true.
Proof. by apply fmax_ge_l. Qed.

Lemma finite_float_or_none_finite v x :
  finite_float_or_none v = Ok (Some x) -> isfinite x = true.
Proof.
  assert (forall r, catch (n ← r; mret (if isfinite n then Some n else None))
            [TypeError; ValueError] (Ok None) = Ok (Some x) -> isfinite x = true) as H.
  { intros [n|e]; cbn; [|by destruct (_ || _)].
    destruct (isfinite n) eqn:E; [by intros [= <-] | done]. }
  destruct v as [| |n|f|t| | | |]; try done; apply (H (Err TypeError)) || idtac.
  - apply (H (float_of_int n)).
  - apply (H (Ok f)).
  - apply (H (float_of_text t)).
Qed.

Lemma auto_state_known v : str_in (normalize_auto_state v) (map fst AUTO_STATE_CODES) = true.
Proof.
  unfold normalize_auto_state. destruct v; try reflexivity;
    match goal with |- context [if ?b then _ else _] => destruct b eqn:E end;
    rewrite ?E; reflexivity.
Qed.

(** A text without blanks at its ends is what [strip] returns. *)
Lemma normalize_auto_state_of_text s :
  normalize_auto_state (VStr s) =
  if str_in (py_lower (py_strip s)) (map fst AUTO_STATE_CODES)
  then py_lower (py_strip s) else "idle".
Proof. reflexivity. Qed.

End facts.

#[export] Hint Resolve non_negative_spec : core.
