(* ===== verification/BackendModels.v ===== *)
(** * Backend models

    [backend/models.py]: phase selections, switch and charger states, and the
    normalizers that turn configuration text into them. *)

From S2P Require Import Prelude PyFloat PyValue.

(** ** Phase selections *)

(** backend/models.py: PhaseSelection *)
Inductive PhaseSelection := P1 | P1_P2 | P1_P2_P3.

#[export] Instance PhaseSelection_eq_dec : EqDecision PhaseSelection.
Proof. solve_decision. Defined.

(** The literal that stands for a selection. *)
Definition phase_text (p : PhaseSelection) : string :=
  match p with P1 => "P1" | P1_P2 => "P1_P2" | P1_P2_P3 => "P1_P2_P3" end.

(** backend/models.py: SwitchingMode *)
Inductive SwitchingMode := Direct | Contactor.

#[export] Instance SwitchingMode_eq_dec : EqDecision SwitchingMode.
Proof. solve_decision. Defined.

(** backend/models.py: _PHASE_SELECTION_ALIASES *)
Definition PHASE_SELECTION_ALIASES : list (string * PhaseSelection) :=
  [("P1", P1); ("L1", P1); ("L2", P1); ("L3", P1); ("1P", P1);
   ("P1_P2", P1_P2); ("P1+P2", P1_P2); ("2P", P1_P2);
   ("P1_P2_P3", P1_P2_P3); ("P1+P2+P3", P1_P2_P3); ("3P", P1_P2_P3)].

(** backend/models.py: normalize_phase_selection_or_none *)
Definition normalize_phase_selection_or_none (value : pyval) : option PhaseSelection :=
  match value with
  | VNone => None
  | _ => table_get (py_upper (py_strip (py_str value))) PHASE_SELECTION_ALIASES
  end.

(** backend/models.py: normalize_phase_selection *)
Definition normalize_phase_selection (value : pyval) (dflt : PhaseSelection) : PhaseSelection :=
  default dflt (normalize_phase_selection_or_none value).

Definition phase_count (p : PhaseSelection) : Z :=
  match p with P1_P2_P3 => 3 | P1_P2 => 2 | P1 => 1 end.

(** backend/models.py: phase_selection_count *)
Definition phase_selection_count (value : pyval) : Z :=
  phase_count (normalize_phase_selection value P1).

(** backend/models.py: normalize_switching_mode *)
Definition normalize_switching_mode (value : pyval) (dflt : SwitchingMode) : SwitchingMode :=
  match value with
  | VNone => dflt
  | _ =>
    let mode := py_lower (py_strip (py_str value)) in
    if (mode =? "contactor")%string then Contactor
    else if (mode =? "direct")%string then Direct
    else dflt
  end.

(** backend/models.py: _phase_selection_text *)
Definition phase_selection_payload_text (values : pyval) : string :=
  match values with VNone => "" | _ => py_strip (py_str values) end.

(** backend/models.py: _normalized_phase_selection_values *)
Definition normalized_phase_selection_values (values : pyval) : list PhaseSelection :=
  match values with
  | VTuple l | VList l => map (fun v => normalize_phase_selection v P1) l
  | _ =>
    let text := phase_selection_payload_text values in
    if (text =? "")%string then []
    else map (fun part => normalize_phase_selection (VStr part) P1) (py_split "," text)
  end.

(** backend/models.py: normalize_phase_selection_tuple *)
Definition normalize_phase_selection_tuple (values : pyval) (dflt : list PhaseSelection)
    : list PhaseSelection :=
  match normalized_phase_selection_values values with
  | [] => dflt
  | normalized => normalized
  end.

(** backend/models.py: phase_switch_lockout_active *)
Definition phase_switch_lockout_active (lockout_selection lockout_until : pyval) (now : float)
    : res bool :=
  if (phase_selection_payload_text lockout_selection =? "")%string then Ok false
  else
    match lockout_until with
    | VInt _ | VBool _ | VFloat _ | VStr _ =>
      catch (normalized_until ← py_float lockout_until; mret (now <? normalized_until)%F)
        [TypeError; ValueError] (Ok false)
    | _ => Ok false
    end.

(** backend/models.py: effective_supported_phase_selections *)
Definition effective_supported_phase_selections (values lockout_selection lockout_until : pyval)
    (now : float) : res (list PhaseSelection) :=
  let normalized := normalize_phase_selection_tuple values [P1] in
  active ← phase_switch_lockout_active lockout_selection lockout_until now;
  mret (if active : bool then
          let allowed_phase_count := Z.max 1 (phase_selection_count lockout_selection - 1) in
          match filter (fun s => phase_count s <= allowed_phase_count) normalized with
          | [] => normalized
          | filtered => filtered
          end
        else normalized).

(** backend/models.py: switch_feedback_mismatch *)
Definition switch_feedback_mismatch (enabled : bool) (feedback_closed : option bool) : bool :=
  match feedback_closed with
  | None => false
  | Some closed => negb (Bool.eqb enabled closed)
  end.

(** ** States *)

(** backend/models.py: SwitchCapabilities *)
Record SwitchCapabilities := mkSwitchCapabilities {
  cap_switching_mode : SwitchingMode;
  cap_supported_phase_selections : list PhaseSelection;
  cap_requires_charge_pause_for_phase_change : bool;
  cap_max_direct_switch_power_w : option float }.

(** backend/models.py: SwitchState *)
Record SwitchState := mkSwitchState {
  sw_enabled : bool;
  sw_phase_selection : PhaseSelection;
  sw_feedback_closed : option bool;
  sw_interlock_ok : option bool }.

(** backend/models.py: ChargerState *)
Record ChargerState := mkChargerState {
  ch_enabled : option bool;
  ch_current_amps : option float;
  ch_phase_selection : option PhaseSelection;
  ch_actual_current_amps : option float;
  ch_power_w : option float;
  ch_energy_kwh : option float;
  ch_status_text : option string;
  ch_fault_text : option string }.

(** ports/readback.py: TimedChargerState *)
Record TimedChargerState := mkTimedChargerState {
  tc_state : ChargerState; tc_captured_at : float }.

(** ports/readback.py: TimedSwitchState *)
Record TimedSwitchState := mkTimedSwitchState {
  ts_state : SwitchState; ts_captured_at : float }.

(** ports/readback.py: ReadbackSnapshots *)
Record ReadbackSnapshots := mkReadbackSnapshots {
  rb_charger : option TimedChargerState; rb_switch : option TimedSwitchState }.

(** ** Facts *)

Section facts.

Lemma phase_text_inj p q : phase_text p = phase_text q -> p = q.
Proof. by destruct p, q. Qed.

(** A selection's own literal normalizes to it. *)
Lemma normalize_phase_text p :
  normalize_phase_selection_or_none (VStr (phase_text p)) = Some p.
Proof. by destruct p. Qed.

Lemma normalize_phase_text_default p d :
  normalize_phase_selection (VStr (phase_text p)) d = p.
Proof. by destruct p. Qed.

Lemma phase_count_range p : 1 <= phase_count p <= 3.
Proof. destruct p; cbn; lia. Qed.

Lemma phase_count_inj p q : phase_count p = phase_count q -> p = q.
Proof. by destruct p, q. Qed.

(** Degradation never adds a layout, and leaves at least one. *)
Lemma effective_supported_sub values sel until now l :
  effective_supported_phase_selections values sel until now = Ok l ->
  l <> [] /\ forall p, p ∈ l -> p ∈ normalize_phase_selection_tuple values [P1].
Proof.
  unfold effective_supported_phase_selections.
  assert (normalize_phase_selection_tuple values [P1] <> []) as Hne.
  { unfold normalize_phase_selection_tuple.
    by destruct (normalized_phase_selection_values values). }
  destruct (phase_switch_lockout_active _ _ _) as [[]|]; cbn; intros [= <-]; [|done].
  destruct (filter _ _) as [|p l'] eqn:E; [done|].
  split; [done|]. intros q Hq. rewrite <- E in Hq.
  by apply list_elem_of_filter in Hq as [_ Hq].
Qed.

End facts.

Create Rewrite HintDb phase.
#[export] Hint Rewrite normalize_phase_text normalize_phase_text_default : phase.
