(* ===== verification/Service.v ===== *)
(** * The shared service object

    The relay components of [update/] keep no state of their own: they read and
    write attributes of the service object.  [svc] is the part of it they own,
    with the attribute types their ports declare ([update/relay_ports.py],
    [auto/policy.py]); an [option] stands for an attribute that may be [None] or
    absent.  The calls they make on other objects are appended to [log] in the
    order they happen, and [RelayPorts] is what those objects answer. *)

From S2P Require Import Prelude PyFloat PyValue Contracts BackendModels.

(** ** Policy and configuration *)

(** auto/policy.py: AutoPhasePolicy *)
Record AutoPhasePolicy := mkAutoPhasePolicy {
  app_enabled : bool;
  app_upshift_delay_seconds : float;
  app_downshift_delay_seconds : float;
  app_upshift_headroom_watts : float;
  app_downshift_margin_watts : float;
  app_mismatch_retry_seconds : float;
  app_mismatch_lockout_count : Z;
  app_mismatch_lockout_seconds : float;
  app_prefer_lowest_phase_when_idle : bool }.

(** The configuration attributes of the service. *)
Record config := mkConfig {
  auto_shelly_soft_fail_seconds : float;
  auto_contactor_fault_latch_count : Z;
  auto_contactor_fault_latch_seconds : float;
  charging_threshold_watts : option float;
  min_current : option float;
  idle_status : Z;
  worker_poll_interval_seconds : option float;
  dbus_live_publish_interval_seconds : option float;
  auto_dbus_backoff_base_seconds : option float;
  relay_sync_timeout_seconds : option float;
  phase_switch_pause_seconds : option float;
  phase_switch_stabilization_seconds : option float;
  voltage_mode : option string;
  supported_phase_selections : list string;
  phase_policy : AutoPhasePolicy }.

(** ** Effects *)

(** One call on another object of the service. *)
Inductive effect :=
  | EMarkFailure (source : string)
  | EMarkRecovery (source : string)
  | EWarning (key : string)
  | ESetHealth (reason : string) (cached : bool)
  | ESaveState
  | EApplyPhase (selection : PhaseSelection)
  | ESetEnabled (enabled : bool)
  | EQueueRelay (relay_on : bool)
  | EPublishLocalPm (relay_on : bool)
  | EDelaySourceRetry (source : string) (captured_at delay_seconds : float).

#[export] Instance float_eq_dec : EqDecision float.
Proof. solve_decision. Defined.

#[export] Instance effect_eq_dec : EqDecision effect.
Proof. solve_decision. Defined.

(** ** State *)

(** The phase entries of the Auto metrics dictionary. *)
Record phase_metrics := mkPhaseMetrics {
  pmx_current : PhaseSelection;
  pmx_target : option PhaseSelection;
  pmx_reason : string;
  pmx_threshold_watts : option float;
  pmx_candidate : option PhaseSelection;
  pmx_candidate_since : option float }.

(** The canonical mutable attributes.
    update/relay_ports.py: PhaseSwitchServicePort *)
Record svc := mkSvc {
  cfg : config;
  clock : float;
  log : list effect;
  (* charger transport and retry window *)
  last_charger_transport_reason : option string;
  last_charger_transport_source : option string;
  last_charger_transport_detail : option string;
  last_charger_transport_at : option float;
  charger_retry_reason : option string;
  charger_retry_source : option string;
  charger_retry_until : option float;
  has_delay_source_retry : bool;
  source_retry_after : option (list (string * float));
  (* relay samples and readbacks *)
  last_confirmed_pm_status : option (list (string * pyval));
  last_confirmed_pm_status_at : option float;
  readbacks : ReadbackSnapshots;
  last_auto_metrics_surplus : option float;
  last_auto_metrics_phase : option phase_metrics;
  (* contactor heuristics *)
  contactor_fault_counts : option (list (pyval * pyval));
  contactor_fault_active_reason : option string;
  contactor_fault_active_since : option float;
  contactor_lockout_reason : string;
  contactor_lockout_source : string;
  contactor_lockout_at : option float;
  contactor_suspected_open_since : option float;
  contactor_suspected_welded_since : option float;
  (* phase selection and staged switch *)
  requested_phase_selection : option string;
  active_phase_selection : option string;
  auto_phase_target_candidate : option PhaseSelection;
  auto_phase_target_since : option float;
  phase_switch_pending_selection : option string;
  phase_switch_state : option string;
  phase_switch_requested_at : option float;
  phase_switch_stable_until : option float;
  phase_switch_resume_relay : bool;
  (* phase mismatches and lockout *)
  phase_switch_mismatch_active : bool;
  phase_switch_mismatch_counts : option (list (pyval * pyval));
  phase_switch_last_mismatch_selection : option string;
  phase_switch_last_mismatch_at : option float;
  phase_switch_lockout_selection : option string;
  phase_switch_lockout_reason : string;
  phase_switch_lockout_at : option float;
  phase_switch_lockout_until : option float;
  ignore_min_offtime_once : bool;
  (* relay confirmation *)
  relay_sync_expected_state : option bool;
  relay_sync_requested_at : option float;
  relay_sync_deadline_at : option float;
  relay_sync_failure_reported : bool }.

#[export] Instance eta_svc : Eta svc := fun s =>
  mkSvc
    (s.(cfg)) (s.(clock)) (s.(log)) (s.(last_charger_transport_reason))
    (s.(last_charger_transport_source)) (s.(last_charger_transport_detail))
    (s.(last_charger_transport_at)) (s.(charger_retry_reason)) (s.(charger_retry_source))
    (s.(charger_retry_until)) (s.(has_delay_source_retry)) (s.(source_retry_after)) (s.(last_confirmed_pm_status))
    (s.(last_confirmed_pm_status_at)) (s.(readbacks)) (s.(last_auto_metrics_surplus))
    (s.(last_auto_metrics_phase)) (s.(contactor_fault_counts))
    (s.(contactor_fault_active_reason)) (s.(contactor_fault_active_since))
    (s.(contactor_lockout_reason)) (s.(contactor_lockout_source)) (s.(contactor_lockout_at))
    (s.(contactor_suspected_open_since)) (s.(contactor_suspected_welded_since))
    (s.(requested_phase_selection)) (s.(active_phase_selection))
    (s.(auto_phase_target_candidate)) (s.(auto_phase_target_since))
    (s.(phase_switch_pending_selection)) (s.(phase_switch_state))
    (s.(phase_switch_requested_at)) (s.(phase_switch_stable_until))
    (s.(phase_switch_resume_relay)) (s.(phase_switch_mismatch_active))
    (s.(phase_switch_mismatch_counts)) (s.(phase_switch_last_mismatch_selection))
    (s.(phase_switch_last_mismatch_at)) (s.(phase_switch_lockout_selection))
    (s.(phase_switch_lockout_reason)) (s.(phase_switch_lockout_at))
    (s.(phase_switch_lockout_until)) (s.(ignore_min_offtime_once))
    (s.(relay_sync_expected_state)) (s.(relay_sync_requested_at)) (s.(relay_sync_deadline_at))
    (s.(relay_sync_failure_reported)).

(** [svc.attr = v] and [svc.attr] in a method body. *)
Definition emit (e : effect) : M svc unit := modify (fun s => s <| log := (s.(log) ++ [e])%list |>).

(** ** Ports *)

(** What the collaborators answer.  An answer may depend on everything that
    happened before it, since the log is part of the state.  The charger backend
    and the Shelly runtime act on hardware and on attributes outside [svc]. *)
Class RelayPorts := {
  port_apply_phase_selection : svc -> PhaseSelection -> res PhaseSelection;
  port_phase_selection_requires_pause : svc -> bool;
  port_pending_relay_command : svc -> option bool * option float;
  port_save_runtime_state : svc -> res unit;
  port_publish_local_pm_status : svc -> bool -> res unit;
  port_has_enable_backend : bool;
  port_set_enabled : svc -> bool -> res unit;
  port_queue_relay_command : svc -> bool -> res unit
}.

Lemma total_emit e : total (emit e).
Proof. apply total_modify. Qed.
#[export] Hint Resolve total_emit : keeps.

Section ports.
Context {RP : RelayPorts}.

(** A call that is logged and then answered. *)
Definition call {A} (e : effect) (answer : svc -> res A) : M svc A :=
  emit e;; s ← get; lift (answer s).

Definition save_runtime_state : M svc unit := call ESaveState port_save_runtime_state.
Definition apply_phase_selection (p : PhaseSelection) : M svc PhaseSelection :=
  call (EApplyPhase p) (fun s => port_apply_phase_selection s p).
Definition publish_local_pm_status (on : bool) : M svc unit :=
  call (EPublishLocalPm on) (fun s => port_publish_local_pm_status s on).
Definition backend_set_enabled (on : bool) : M svc unit :=
  call (ESetEnabled on) (fun s => port_set_enabled s on).
Definition queue_relay_command (on : bool) : M svc unit :=
  call (EQueueRelay on) (fun s => port_queue_relay_command s on).

End ports.

#[export] Hint Unfold save_runtime_state apply_phase_selection publish_local_pm_status
  backend_set_enabled queue_relay_command : methods.

(** ** Counter dictionaries *)

(** [max(0, count)] of every entry with a known key and an integer value that is
    not a [bool]: what the fault and mismatch counters are reduced to when read. *)
Definition clean_counts (known : list string) (counts : list (pyval * pyval))
    : list (string * Z) :=
  fold_left
    (fun normalized '(k, count) =>
       match k, count with
       | VStr k, VInt n =>
         if str_in k known then table_set k (Z.max 0 n) normalized else normalized
       | _, _ => normalized
       end) counts [].

(** A counter dictionary as the attribute holds it. *)
Definition counts_dict (counts : list (string * Z)) : list (pyval * pyval) :=
  map (fun '(k, n) => (VStr k, VInt n)) counts.

Definition count_of (k : string) (counts : list (string * Z)) : Z :=
  Z.max 0 (default 0 (table_get k counts)).

(** ** Running a method *)

Lemma emit_run e s : emit e s = (Ok tt, s <| log := (s.(log) ++ [e])%list |>).
Proof. reflexivity. Qed.

(** The effects one run of a method added to the log. *)
Definition new_effects (s s' : svc) : list effect := drop (length s.(log)) s'.(log).

(** [adds P]: a run only appends to the log, and what it appends satisfies [P]. *)
Definition adds (P : effect -> Prop) (s s' : svc) : Prop :=
  exists l, s'.(log) = (s.(log) ++ l)%list /\ Forall P l.

(** [frame f]: a run leaves the attribute [f] as it was. *)
Definition frame {A} (f : svc -> A) (s s' : svc) : Prop := f s' = f s.

#[export] Instance adds_preorder P : PreOrder (adds P).
Proof.
  split.
  - intros s. exists []. by rewrite app_nil_r.
  - intros s1 s2 s3 (l & E & F) (l' & E' & F'). exists (l ++ l')%list.
    by rewrite E', E, app_assoc, Forall_app.
Qed.

#[export] Instance frame_preorder {A} (f : svc -> A) : PreOrder (frame f).
Proof. split; [done|]. intros s1 s2 s3. unfold frame. congruence. Qed.

Lemma adds_same P s s' : s'.(log) = s.(log) -> adds P s s'.
Proof. intros E. exists []. by rewrite app_nil_r. Qed.

Lemma adds_weaken (P Q : effect -> Prop) s s' :
  (forall e, P e -> Q e) -> adds P s s' -> adds Q s s'.
Proof. intros H (l & E & F). exists l. split; [done|]. eapply Forall_impl; eauto. Qed.

Lemma new_effects_app s s' l : s'.(log) = (s.(log) ++ l)%list -> new_effects s s' = l.
Proof. intros E. unfold new_effects. by rewrite E, drop_app_length. Qed.

Lemma adds_new_effects P s s' : adds P s s' -> Forall P (new_effects s s').
Proof. intros (l & E & F). by rewrite (new_effects_app _ _ _ E). Qed.

(** What a run adds after an earlier part of it. *)
Lemma new_effects_trans P s s1 s2 :
  adds P s s1 -> adds P s1 s2 -> new_effects s s2 = (new_effects s s1 ++ new_effects s1 s2)%list.
Proof.
  intros (l & E & _) (l' & E' & _).
  rewrite (new_effects_app _ _ _ E), (new_effects_app _ _ _ E'). apply new_effects_app.
  by rewrite E', E, app_assoc.
Qed.

Section call.
Context {A : Type}.

Lemma keeps_call_adds (P : effect -> Prop) e (answer : svc -> res A) :
  P e -> keeps (adds P) (call e answer).
Proof. intros He s. exists [e]. by split; [|constructor]. Qed.

Lemma keeps_emit_adds (P : effect -> Prop) e : P e -> keeps (adds P) (emit e).
Proof. intros He s. exists [e]. by split; [|constructor]. Qed.

Lemma wp_call e (answer : svc -> res A) Q s :
  Q (answer (s <| log := (s.(log) ++ [e])%list |>)) (s <| log := (s.(log) ++ [e])%list |>) ->
  wp (call e answer) Q s.
Proof. done. Qed.

Lemma call_run e (answer : svc -> res A) s :
  call e answer s = (answer (snd (emit e s)), snd (emit e s)).
Proof. reflexivity. Qed.

End call.

(** [svc_keeps]: decompose a method; its assignments and logged calls leave the
    attributes of the relation alone. *)
Ltac svc_leaf :=
  idtac; match goal with
  | |- adds _ _ _ => apply adds_same; reflexivity
  | |- frame _ _ _ => reflexivity
  | |- keeps (adds _) (emit _) => apply keeps_emit_adds; try done
  | |- keeps (adds _) (call _ _) => apply keeps_call_adds; try done
  | |- keeps (frame _) (emit _) => intros ?; reflexivity
  | |- keeps (frame _) (call _ _) => intros ?; reflexivity
  end.
Ltac svc_keeps := autounfold with methods; keeps_tac svc_leaf.

(** ** Facts about counters *)

Section counts.
Context (known : list string).

(** A counter dictionary that holds only what its reader keeps. *)
Definition counts_wf (t : list (string * Z)) : Prop :=
  NoDup (map fst t) /\ Forall (fun kv => str_in (fst kv) known = true /\ 0 <= snd kv) t.

Lemma table_set_keys {V} k (v : V) t x :
  x ∈ map fst (table_set k v t) <-> x = k \/ x ∈ map fst t.
Proof.
  induction t as [|[k' v'] t IH]; cbn.
  - rewrite elem_of_cons, elem_of_nil. tauto.
  - destruct (String.eqb_spec k k') as [->|]; cbn; rewrite !elem_of_cons, ?IH; tauto.
Qed.

Lemma counts_wf_set k n t :
  str_in k known = true -> 0 <= n -> counts_wf t -> counts_wf (table_set k n t).
Proof.
  intros Hk Hn. unfold counts_wf.
  induction t as [|[k' n'] t IH]; cbn; intros [Hd Hf].
  - by repeat constructor; try apply not_elem_of_nil.
  - apply NoDup_cons in Hd as [Hx Hd]. inversion_clear Hf as [|? ? [Hk' Hn'] Hf'].
    destruct (String.eqb_spec k k') as [->|Hne]; cbn.
    + by repeat constructor.
    + destruct IH as [IHd IHf]; [done|]. split; [|by repeat constructor].
      constructor; [|done]. rewrite table_set_keys. intros [->|?]; done.
Qed.

Lemma counts_wf_del k t : counts_wf t -> counts_wf (table_del k t).
Proof.
  intros [Hd Hf]. unfold table_del. split.
  - induction t as [|[k' n'] t IH]; [done|]. rewrite filter_cons. cbn in Hd.
    apply NoDup_cons in Hd as [Hx Hd]. inversion_clear Hf.
    case_decide; [|by apply IH]. cbn. constructor; [|by apply IH].
    intros Hin. apply Hx. apply list_elem_of_fmap in Hin as ([k1 n1] & E & Hin).
    apply list_elem_of_fmap. exists (k1, n1). split; [done|].
    by apply list_elem_of_filter in Hin as [_ ?].
  - apply Forall_forall. intros x Hx. apply list_elem_of_filter in Hx as [_ Hx].
    revert x Hx. by apply Forall_forall.
Qed.

Lemma clean_counts_wf l : counts_wf (clean_counts known l).
Proof.
  unfold clean_counts. assert (counts_wf []) as H0 by (split; constructor).
  revert H0. generalize (@nil (string * Z)). induction l as [|[k c] l IH]; intros t Ht; [done|].
  cbn. apply IH. destruct k; try done. destruct c; try done.
  destruct (str_in s known) eqn:E; [|done]. apply counts_wf_set; [done | lia | done].
Qed.

Lemma table_set_app {V} k (v : V) t :
  k ∉ map fst t -> table_set k v t = (t ++ [(k, v)])%list.
Proof.
  induction t as [|[k' v'] t IH]; cbn; [done|]. rewrite elem_of_cons. intros H.
  destruct (String.eqb_spec k k') as [->|]; [tauto|]. rewrite IH; tauto.
Qed.

(** Reading back a clean dictionary changes nothing. *)
Lemma clean_counts_dict t : counts_wf t -> clean_counts known (counts_dict t) = t.
Proof.
  unfold clean_counts, counts_dict. change t with ([] ++ t)%list at 1 3.
  enough (forall acc, counts_wf (acc ++ t) ->
    fold_left (fun normalized '(k, count) =>
       match k, count with
       | VStr k, VInt n =>
         if str_in k known then table_set k (Z.max 0 n) normalized else normalized
       | _, _ => normalized
       end) (map (fun '(k, n) => (VStr k, VInt n)) t) acc = (acc ++ t)%list) as H
    by (intros; by apply H).
  induction t as [|[k n] t IH]; intros acc [Hd Hf]; [by rewrite app_nil_r|].
  assert (str_in k known = true /\ 0 <= n) as [Hk Hn].
  { apply Forall_app in Hf as [_ Hf]. by inversion_clear Hf. }
  cbn. rewrite Hk, Z.max_r by done. rewrite table_set_app.
  - change ((k, n) :: t)%list with ([(k, n)] ++ t)%list in *. rewrite app_assoc in *.
    by apply IH.
  - rewrite map_app in Hd. cbn in Hd. apply NoDup_app in Hd as (_ & Hd & _).
    intros Hin. apply (Hd k Hin). left.
Qed.

Lemma count_of_set k k' n t :
  0 <= n -> count_of k (table_set k' n t) = if String.eqb k k' then n else count_of k t.
Proof. intros Hn. unfold count_of. rewrite table_get_set. destruct (String.eqb k k'); cbn; lia. Qed.

Lemma count_of_del k k' t :
  count_of k (table_del k' t) = if String.eqb k k' then 0 else count_of k t.
Proof. unfold count_of. rewrite table_get_del. by destruct (String.eqb k k'). Qed.

Lemma count_of_nonneg k t : 0 <= count_of k t.
Proof. unfold count_of. lia. Qed.

End counts.

#[export] Hint Resolve clean_counts_wf counts_wf_set counts_wf_del count_of_nonneg : core.

(** ** A service as it starts *)

(** The defaults of the shipped configuration, and a service without history. *)
Definition default_phase_policy : AutoPhasePolicy :=
  mkAutoPhasePolicy true (f_of_Z 120) (f_of_Z 30) (f_of_Z 250) (f_of_Z 150) (f_of_Z 300) 3
    (f_of_Z 1800) true.

Definition default_config : config :=
  mkConfig (f_of_Z 10) 3 (f_of_Z 60) (Some (f_of_Z 100)) (Some (f_of_Z 6)) 6 (Some f1) (Some f1)
    (Some (f_of_Z 5)) (Some (f_of_Z 2)) (Some f1) (Some (f_of_Z 2)) (Some "phase")
    ["P1"; "P1_P2"; "P1_P2_P3"] default_phase_policy.

Definition initial_svc : svc :=
  mkSvc default_config f0 [] None None None None None None None false None None None
    (mkReadbackSnapshots None None) None None None None None "" "" None None None
    (Some "P1") (Some "P1") None None None None None None false false None None None None "" None
    None false None None None false.

(** Collaborators that do what they are asked. *)
Definition obedient_ports : RelayPorts := {|
  port_apply_phase_selection := fun _ p => Ok p;
  port_phase_selection_requires_pause := fun _ => true;
  port_pending_relay_command := fun _ => (None, None);
  port_save_runtime_state := fun _ => Ok tt;
  port_publish_local_pm_status := fun _ _ => Ok tt;
  port_has_enable_backend := true;
  port_set_enabled := fun _ _ => Ok tt;
  port_queue_relay_command := fun _ _ => Ok tt |}.
