(* ===== verification/CommonAuto.v ===== *)
(** * Auto state, charger transport windows and relay freshness

    [core/common_auto.py]: the broad Auto state derived from a health reason, the
    windows in which a charger transport failure or retry is still in force, and
    the freshness of the confirmed relay sample. *)

From S2P Require Import Prelude PyFloat PyValue Contracts BackendModels Service.

(** ** Auto states *)

(** core/common_auto.py: _health_code *)
Definition health_code (reason : string) : Z := default 99 (table_get reason HEALTH_CODES).

(** core/common_auto.py: _normalize_auto_state *)
Definition normalize_auto_state_text (state : pyval) : string :=
  match state with
  | VNone => "idle"
  | _ =>
    let normalized := py_lower (py_strip (py_str state)) in
    if str_in normalized (map fst AUTO_STATE_CODES) then normalized else "idle"
  end.

(** core/common_auto.py: _auto_state_code *)
Definition auto_state_code (state : pyval) : res Z :=
  match table_get (normalize_auto_state_text state) AUTO_STATE_CODES with
  | Some c => Ok c
  | None => Err KeyError
  end.

(** core/common_auto.py: _base_auto_reason *)
Definition base_auto_reason (reason : pyval) : string :=
  match reason with VNone => "init" | _ => py_replace "-cached" "" (py_str reason) end.

(** core/common_auto.py: _evse_fault_reason *)
Definition evse_fault_reason (reason : pyval) : option string :=
  let normalized := base_auto_reason reason in
  if str_in normalized EVSE_FAULT_HEALTH_REASONS then Some normalized else None.

(** core/common_auto.py: _normalized_learning_hint *)
Definition normalized_learning_hint (learned_charge_power_state : pyval) : string :=
  match learned_charge_power_state with
  | VNone => "unknown"
  | v => py_lower (py_strip (py_str v))
  end.

(** core/common_auto.py: _relay_on_auto_state *)
Definition relay_on_auto_state (learned_state : string) : string :=
  if (learned_state =? "learning")%string then "learning" else "charging".

(** core/common_auto.py: _reason_resolved_auto_state *)
Definition reason_resolved_auto_state (state_from_reason : string) (relay_on : bool)
    (learned_state : string) : string :=
  if (state_from_reason =? "charging")%string
  then if relay_on && (learned_state =? "learning")%string then "learning" else "charging"
  else state_from_reason.

(** core/common_auto.py: AUTO_REASON_STATE_GROUPS *)
Definition AUTO_REASON_STATE_GROUPS : list (list string * string) :=
  [(RECOVERY_AUTO_REASONS, "recovery"); (BLOCKED_AUTO_REASONS, "blocked");
   (CHARGING_AUTO_REASONS, "charging"); (WAITING_AUTO_REASONS, "waiting")].

(** The loop over the groups: the first group that lists the reason. *)
Fixpoint group_state (base_reason : string) (groups : list (list string * string)) : option string :=
  match groups with
  | [] => None
  | (reasons, state) :: rest =>
    if str_in base_reason reasons then Some state else group_state base_reason rest
  end.

(** core/common_auto.py: _reason_auto_state *)
Definition reason_auto_state (base_reason : string) : option string :=
  if (base_reason =? "init")%string then Some "idle"
  else group_state base_reason AUTO_REASON_STATE_GROUPS.

(** core/common_auto.py: _derive_auto_state *)
Definition derive_auto_state (reason : pyval) (relay_on : bool)
    (learned_charge_power_state : pyval) : string :=
  let base_reason := base_auto_reason reason in
  let learned_state := normalized_learning_hint learned_charge_power_state in
  match reason_auto_state base_reason with
  | Some state_from_reason => reason_resolved_auto_state state_from_reason relay_on learned_state
  | None => if relay_on then relay_on_auto_state learned_state else "idle"
  end.

(** ** Charger transport *)

(** core/common_auto.py: _CHARGER_TRANSPORT_REASONS *)
Definition CHARGER_TRANSPORT_REASONS : list string :=
  ["busy"; "ownership"; "timeout"; "offline"; "response"; "error"].

(** core/common_auto.py: _normalized_charger_transport_reason *)
Definition normalized_charger_transport_reason (reason : pyval) : option string :=
  match reason with
  | VNone => None
  | _ =>
    let normalized := py_lower (py_strip (py_str reason)) in
    if str_in normalized CHARGER_TRANSPORT_REASONS then Some normalized else None
  end.

(** core/common_auto.py: _charger_transport_health_reason *)
Definition charger_transport_health_reason (reason : pyval) : option string :=
  normalized ← normalized_charger_transport_reason reason;
  Some ("charger-transport-" ++ normalized)%string.

(** The attribute itself; the port declares it a float or [None].
    core/common_auto.py: _positive_service_float *)
Definition positive_service_float (attr : option float) : option float :=
  match attr with
  | Some x => if (x >? f0)%F then Some x else None
  | None => None
  end.

Definition opt_list {A} (o : option A) : list A := match o with Some x => [x] | None => [] end.

(** [x * 2.0] of an optional positive setting. *)
Definition doubled (o : option float) : option float :=
  match o with Some x => Some (x * f_of_Z 2)%F | None => None end.

(** core/common_auto.py: _charger_transport_max_age_seconds *)
Definition charger_transport_max_age_seconds (c : config) : float :=
  let candidates :=
    opt_list (doubled (positive_service_float c.(worker_poll_interval_seconds))) ++
    opt_list (doubled (positive_service_float c.(dbus_live_publish_interval_seconds))) ++
    opt_list (positive_service_float (Some c.(auto_shelly_soft_fail_seconds))) in
  fmax f1 (fmin_list (f_of_Z 2) candidates%list).

(** core/common_auto.py: _charger_transport_now *)
Definition charger_transport_now (s : svc) (now : option float) : float :=
  match now with Some t => t | None => s.(clock) end.

(** core/common_auto.py: _fresh_charger_transport_timestamp *)
Definition fresh_charger_transport_timestamp (s : svc) (now : option float) : option float :=
  transport_at ← finite_of s.(last_charger_transport_at);
  let current := charger_transport_now s now in
  if (fabs (current - transport_at) >? charger_transport_max_age_seconds s.(cfg))%F
  then None else Some transport_at.

(** core/common_auto.py: _fresh_charger_transport_reason *)
Definition fresh_charger_transport_reason (s : svc) (now : option float) : option string :=
  _ ← fresh_charger_transport_timestamp s now;
  normalized_charger_transport_reason (val_of_str s.(last_charger_transport_reason)).

(** core/common_auto.py: _normalized_text_attr *)
Definition normalized_text_attr (attr : option string) : option string :=
  match attr with
  | Some t => let normalized := py_strip t in
    if (normalized =? "")%string then None else Some normalized
  | None => None
  end.

(** core/common_auto.py: _fresh_charger_transport_source *)
Definition fresh_charger_transport_source (s : svc) (now : option float) : option string :=
  _ ← fresh_charger_transport_timestamp s now;
  normalized_text_attr s.(last_charger_transport_source).

(** core/common_auto.py: _fresh_charger_transport_detail *)
Definition fresh_charger_transport_detail (s : svc) (now : option float) : option string :=
  _ ← fresh_charger_transport_timestamp s now;
  normalized_text_attr s.(last_charger_transport_detail).

(** core/common_auto.py: _charger_transport_retry_delay_seconds *)
Definition charger_transport_retry_delay_seconds (c : config) (reason : pyval) : float :=
  let base := default (f_of_Z 5) (positive_service_float c.(auto_dbus_backoff_base_seconds)) in
  let soft := default (f_of_Z 10) (positive_service_float (Some c.(auto_shelly_soft_fail_seconds))) in
  let fallback := fmax (f_of_Z 2) (base * f_of_Z 2)%F in
  let retry_delay_by_reason :=
    [("busy", fmax f1 (fmin base (f_of_Z 5)));
     ("ownership", fmax (f_of_Z 3) (base * f_of_Z 2)%F);
     ("timeout", fmax (f_of_Z 2) (fmin soft (fmax (base * fdec 3 2)%F (f_of_Z 2))));
     ("offline", fmax (fmax (f_of_Z 10) soft) (base * f_of_Z 4)%F);
     ("response", fmax (f_of_Z 3) (base * f_of_Z 2)%F)] in
  match normalized_charger_transport_reason reason with
  | None => fallback
  | Some normalized => default fallback (table_get normalized retry_delay_by_reason)
  end.

(** core/common_auto.py: _fresh_charger_retry_until *)
Definition fresh_charger_retry_until (s : svc) (now : option float) : option float :=
  retry_until ← finite_of s.(charger_retry_until);
  let current := charger_transport_now s now in
  if (retry_until >? current)%F then Some retry_until else None.

(** core/common_auto.py: _fresh_charger_retry_reason *)
Definition fresh_charger_retry_reason (s : svc) (now : option float) : option string :=
  _ ← fresh_charger_retry_until s now;
  normalized_charger_transport_reason (val_of_str s.(charger_retry_reason)).

(** core/common_auto.py: _fresh_charger_retry_source *)
Definition fresh_charger_retry_source (s : svc) (now : option float) : option string :=
  _ ← fresh_charger_retry_until s now;
  normalized_text_attr s.(charger_retry_source).

(** [int(math.ceil(x))] *)
Definition py_ceil (x : float) : res Z :=
  match x with
  | S754_nan => Err ValueError
  | S754_infinity _ => Err OverflowError
  | _ => Ok (fceil x)
  end.

(** core/common_auto.py: _charger_retry_remaining_seconds *)
Definition charger_retry_remaining_seconds (s : svc) (now : option float) : res Z :=
  match fresh_charger_retry_until s now with
  | None => Ok (-1)
  | Some retry_until => py_ceil (retry_until - charger_transport_now s now)%F
  end.

(** core/common_auto.py: _age_seconds *)
Definition age_seconds (timestamp : option float) (current : float) : res Z :=
  match timestamp with
  | None => Ok (-1)
  | Some t => n ← int_of_float (current - t)%F; mret (Z.max 0 n)
  end.

(** ** Confirmed relay samples *)

(** core/common_auto.py: _confirmed_relay_state_max_age_seconds *)
Definition confirmed_relay_state_max_age_seconds (c : config) : float :=
  let fallback_candidates :=
    opt_list (doubled (positive_service_float c.(worker_poll_interval_seconds))) ++
    opt_list (positive_service_float c.(relay_sync_timeout_seconds)) in
  fmax f1 (fmin_list (f_of_Z 5) fallback_candidates%list).

(** core/common_auto.py: _confirmed_relay_sample *)
Definition confirmed_relay_sample (s : svc)
    : option (list (string * pyval)) * option float :=
  match s.(last_confirmed_pm_status) with
  | None => (None, None)
  | Some pm => (Some pm, s.(last_confirmed_pm_status_at))
  end.

(** core/common_auto.py: _confirmed_relay_sample_valid *)
Definition confirmed_relay_sample_valid (pm_status : option (list (string * pyval)))
    (captured_at : option float) : bool :=
  match pm_status, captured_at with
  | Some pm, Some _ => str_in "output" (map fst pm)
  | _, _ => false
  end.

(** core/common_auto.py: _confirmed_relay_sample_fresh *)
Definition confirmed_relay_sample_fresh (captured_at current max_age_seconds : float) : bool :=
  let age := (current - captured_at)%F in
  ((f_of_Z (-1) <=? age)%F && (age <=? max_age_seconds)%F)%bool.

(** core/common_auto.py: _confirmed_relay_output_value *)
Definition confirmed_relay_output_value (pm_status : list (string * pyval)) : bool :=
  py_bool (default VNone (table_get "output" pm_status)).

(** core/common_auto.py: _fresh_confirmed_relay_sample *)
Definition fresh_confirmed_relay_sample (s : svc) (current : float)
    : option (list (string * pyval) * float) :=
  let max_age_seconds := confirmed_relay_state_max_age_seconds s.(cfg) in
  match confirmed_relay_sample s with
  | (Some pm, Some captured_at) =>
    if confirmed_relay_sample_valid (Some pm) (Some captured_at) &&
       confirmed_relay_sample_fresh captured_at current max_age_seconds
    then Some (pm, captured_at) else None
  | _ => None
  end.

(** core/common_auto.py: _fresh_confirmed_relay_output *)
Definition fresh_confirmed_relay_output (s : svc) (now : option float) : option bool :=
  let current := charger_transport_now s now in
  sample ← fresh_confirmed_relay_sample s current;
  Some (confirmed_relay_output_value (fst sample)).
