(* ===== verification/Transport.v ===== *)
(** * Charger transport, readbacks and relay telemetry

    [update/relay_charger_transport.py] (failure and retry bookkeeping),
    [update/relay_charger_readback.py] (text tokens of a charger status),
    [update/readback_resolver.py] (fresh backend snapshots),
    [update/relay_charger_current.py] (enable writes) and
    [update/relay_phase_publish.py] (phase measurements, relay confirmation). *)

From S2P Require Import Prelude PyFloat PyValue Contracts BackendModels Service CommonAuto.

(** ** Transport issues and retries *)

(** update/relay_charger_transport.py: ChargerTransportTracker.now *)
Definition tracker_now (s : svc) (now : option float) : float :=
  match now with Some t => t | None => s.(clock) end.

(** [str(x).strip() or None] *)
Definition strip_or_none (x : string) : option string :=
  let t := py_strip x in if (t =? "")%string then None else Some t.

(** update/relay_charger_transport.py: ChargerTransportTracker.remember_issue *)
Definition remember_issue (reason source detail : string) (now : option float) : M svc unit :=
  modify (fun s =>
    let captured_at := tracker_now s now in
    s <| last_charger_transport_reason := strip_or_none reason |>
      <| last_charger_transport_source := strip_or_none source |>
      <| last_charger_transport_detail := Some detail |>
      <| last_charger_transport_at := Some captured_at |>).

(** update/relay_charger_transport.py: ChargerTransportTracker.clear_issue *)
Definition clear_issue : M svc unit :=
  modify (fun s =>
    s <| last_charger_transport_reason := None |>
      <| last_charger_transport_source := None |>
      <| last_charger_transport_detail := None |>
      <| last_charger_transport_at := None |>).

(** [svc._source_retry_after["charger"] = deadline] where the dictionary exists. *)
Definition set_retry_after (deadline : float) : M svc unit :=
  s ← get;
  match s.(source_retry_after) with
  | Some d => modify (fun s => s <| source_retry_after := Some (table_set "charger" deadline d) |>)
  | None => mret tt
  end.

(** update/relay_charger_transport.py: ChargerTransportTracker.remember_retry *)
Definition remember_retry (reason source : string) (now : option float) : M svc unit :=
  s ← get;
  let captured_at := tracker_now s now in
  let delay_seconds := charger_transport_retry_delay_seconds s.(cfg) (VStr reason) in
  (if s.(has_delay_source_retry)
   then emit (EDelaySourceRetry "charger" captured_at delay_seconds)
   else set_retry_after (captured_at + delay_seconds)%F);;
  modify (fun s =>
    s <| charger_retry_reason := strip_or_none reason |>
      <| charger_retry_source := strip_or_none source |>
      <| charger_retry_until := Some (captured_at + delay_seconds)%F |>).

(** update/relay_charger_transport.py: ChargerTransportTracker.clear_retry *)
Definition clear_retry : M svc unit :=
  modify (fun s =>
    s <| charger_retry_reason := None |>
      <| charger_retry_source := None |>
      <| charger_retry_until := None |>);;
  set_retry_after f0.

(** update/relay_charger_transport.py: ChargerTransportTracker.retry_active *)
Definition retry_active (s : svc) (now : option float) : bool :=
  match fresh_charger_retry_until s (Some (tracker_now s now)) with
  | Some _ => true
  | None => false
  end.

(** ** Status text *)

Definition separators : list string := ["-"; "_"; "/"; "."; ","; ";"; ":"].

(** update/relay_charger_readback.py: ChargerBackendAccess.text_tokens *)
Definition text_tokens (value : option string) : list string :=
  match value with
  | None => []
  | Some v =>
    let normalized :=
      fold_left (fun t separator => py_replace separator " " t) separators (py_lower (py_strip v)) in
    py_words normalized
  end.

(** [tokens & hints] is not empty. *)
Definition tokens_meet (tokens hints : list string) : bool :=
  existsb (fun t => str_in t hints) tokens.

(** update/relay.py: CHARGER_FAULT_HINT_TOKENS *)
Definition CHARGER_FAULT_HINT_TOKENS : list string :=
  ["fault"; "error"; "failed"; "failure"; "alarm"; "offline"; "unavailable"; "lockout"; "tripped"].
(** update/relay.py: CHARGER_STATUS_CHARGING_HINT_TOKENS *)
Definition CHARGER_STATUS_CHARGING_HINT_TOKENS : list string := ["charging"].
(** update/relay.py: CHARGER_STATUS_READY_HINT_TOKENS *)
Definition CHARGER_STATUS_READY_HINT_TOKENS : list string :=
  ["ready"; "connected"; "available"; "idle"].
(** update/relay.py: CHARGER_STATUS_WAITING_HINT_TOKENS *)
Definition CHARGER_STATUS_WAITING_HINT_TOKENS : list string :=
  ["paused"; "waiting"; "suspended"; "sleeping"].
(** update/relay.py: CHARGER_STATUS_FINISHED_HINT_TOKENS *)
Definition CHARGER_STATUS_FINISHED_HINT_TOKENS : list string :=
  ["complete"; "completed"; "finished"; "done"].

(** update/relay_charger_readback.py: ChargerBackendAccess.text_indicates_fault *)
Definition text_indicates_fault (value : option string) : bool :=
  let tokens := text_tokens value in
  if bool_decide (tokens = []) || str_in "no" tokens then false
  else tokens_meet tokens CHARGER_FAULT_HINT_TOKENS.

(** ** Readbacks *)

(** update/readback_resolver.py: ReadbackResolver._positive_candidate *)
Definition positive_candidate (value : option float) : option float :=
  match finite_of value with
  | Some c => if (c <=? f0)%F then None else Some c
  | None => None
  end.

(** update/readback_resolver.py: ReadbackResolver.max_age_seconds *)
Definition readback_max_age_seconds (c : config) : float :=
  let candidates :=
    opt_list (doubled (positive_candidate c.(worker_poll_interval_seconds))) ++
    opt_list (positive_candidate (Some c.(auto_shelly_soft_fail_seconds))) in
  fmax f1 (fmin_list (f_of_Z 2) candidates).

(** update/readback_resolver.py: ReadbackResolver._fresh_snapshot *)
Definition fresh_snapshot {A} (captured_at : A -> float) (snapshot : option A)
    (now max_age : float) : option A :=
  match snapshot with
  | None => None
  | Some x =>
    if negb (isfinite (captured_at x)) then None
    else if (fabs (now - captured_at x) >? max_age)%F then None
    else Some x
  end.

(** update/readback_resolver.py: ReadbackResolver.resolve *)
Definition resolve (s : svc) (now : option float) : ReadbackSnapshots :=
  let current := tracker_now s now in
  let max_age := readback_max_age_seconds s.(cfg) in
  mkReadbackSnapshots
    (fresh_snapshot tc_captured_at s.(readbacks).(rb_charger) current max_age)
    (fresh_snapshot ts_captured_at s.(readbacks).(rb_switch) current max_age).

(** ** Enable writes *)

Section writes.
Context {RP : RelayPorts}.

(** update/relay_charger_current.py: ChargerTargetController.apply_enabled_target *)
Definition apply_enabled_target (enabled : bool) (now : float) : M svc bool :=
  if port_has_enable_backend then
    s ← get;
    if retry_active s (Some now) then mret false
    else
      backend_set_enabled enabled;;
      clear_issue;;
      clear_retry;;
      emit (EMarkRecovery "charger");;
      mret true
  else queue_relay_command enabled;; mret true.

(** ** Relay telemetry *)

(** update/relay_phase_publish.py: RELAY_PLACEHOLDER_PUBLISH_ERRORS *)
Definition RELAY_PLACEHOLDER_PUBLISH_ERRORS : list exn :=
  [KeyError; OSError; RuntimeError; TypeError; ValueError].

(** update/relay_phase_publish.py: RelayTelemetry.publish_local_pm_status_best_effort *)
Definition publish_local_pm_status_best_effort (relay_on : bool) (now : float) : M svc unit :=
  try_except (publish_local_pm_status relay_on) (exn_in RELAY_PLACEHOLDER_PUBLISH_ERRORS)
    (fun _ => emit (EWarning "relay-placeholder-publish-failed")).

End writes.

(** update/relay_phase_publish.py: RelayTelemetry._normalized_phase_selection *)
Definition telemetry_phase_selection (selection : pyval) : string :=
  match selection with VNone => "" | _ => py_upper (py_strip (py_str selection)) end.

(** update/relay_phase_publish.py: RelayTelemetry._normalized_voltage_mode *)
Definition telemetry_voltage_mode (mode : option string) : string :=
  match mode with None => "phase" | Some m => py_lower (py_strip m) end.

(** update/relay_phase_publish.py: RelayTelemetry._selection_uses_line_to_line_voltage *)
Definition selection_uses_line_to_line_voltage (selection mode : string) : bool :=
  (selection =? "P1_P2_P3")%string && negb (mode =? "phase")%string.

(** update/relay_phase_publish.py: RelayTelemetry.phase_voltage *)
Definition phase_voltage (voltage : float) (selection : pyval) (mode : option string) : float :=
  if selection_uses_line_to_line_voltage (telemetry_phase_selection selection)
       (telemetry_voltage_mode mode)
  then (fmax f0 voltage / fsqrt (f_of_Z 3))%F
  else voltage.

(** update/relay_phase_publish.py: RelayTelemetry._clear_relay_sync_tracking *)
Definition clear_relay_sync_tracking : M svc unit :=
  modify (fun s =>
    s <| relay_sync_expected_state := None |>
      <| relay_sync_requested_at := None |>
      <| relay_sync_deadline_at := None |>
      <| relay_sync_failure_reported := false |>).

(** update/relay_phase_publish.py: RelayTelemetry._relay_sync_confirmed_match *)
Definition relay_sync_confirmed_match (relay_on pm_confirmed expected_relay : bool) : M svc bool :=
  if negb pm_confirmed || negb (Bool.eqb relay_on expected_relay) then mret false
  else
    s ← get;
    when s.(relay_sync_failure_reported) (emit (EMarkRecovery "shelly"));;
    clear_relay_sync_tracking;;
    mret true.

(** update/relay_phase_publish.py: RelayTelemetry._relay_sync_before_deadline *)
Definition relay_sync_before_deadline (deadline_at : option float) (now : float) : bool :=
  match finite_of deadline_at with None => true | Some deadline => (now <? deadline)%F end.

(** update/relay_phase_publish.py: RelayTelemetry._relay_sync_pre_timeout_result *)
Definition relay_sync_pre_timeout_result (relay_on pm_confirmed expected_relay : bool)
    : option string :=
  if pm_confirmed && negb (Bool.eqb relay_on expected_relay) then Some "command-mismatch" else None.

(** update/relay_phase_publish.py: RelayTelemetry._record_relay_sync_timeout *)
Definition record_relay_sync_timeout : M svc unit :=
  s ← get;
  if s.(relay_sync_failure_reported) then mret tt
  else
    modify (fun s => s <| relay_sync_failure_reported := true |>);;
    emit (EMarkFailure "shelly");;
    emit (EWarning "relay-sync-failed").

(** update/relay_phase_publish.py: RelayTelemetry.relay_sync_health_override *)
Definition relay_sync_health_override (relay_on pm_confirmed : bool) (now : float)
    : M svc (option string) :=
  s ← get;
  match s.(relay_sync_expected_state) with
  | None => mret None
  | Some expected_relay =>
    matched ← relay_sync_confirmed_match relay_on pm_confirmed expected_relay;
    if matched : bool then mret None
    else if relay_sync_before_deadline s.(relay_sync_deadline_at) now
    then mret (relay_sync_pre_timeout_result relay_on pm_confirmed expected_relay)
    else
      record_relay_sync_timeout;;
      clear_relay_sync_tracking;;
      mret (Some "relay-sync-failed")
  end.

#[export] Hint Unfold
  set_retry_after remember_issue clear_issue remember_retry clear_retry apply_enabled_target
  publish_local_pm_status_best_effort clear_relay_sync_tracking relay_sync_confirmed_match
  record_relay_sync_timeout relay_sync_health_override : methods.
