(* ===== verification/PhaseMismatch.v ===== *)
(** * Phase-switch mismatches and lockouts

    [update/relay_phase_switch_mismatch.py]: a phase switch whose target is not
    confirmed counts as a mismatch of that target; repeated mismatches lock the
    target out for a while.  Both only restrict switching to more phases. *)

From S2P Require Import Prelude PyFloat PyValue Contracts BackendModels Service CommonAuto Transport.

(** update/relay_phase_switch_mismatch.py: PhaseSwitchMismatchMonitor._PHASE_SELECTION_VALUES *)
Definition PHASE_SELECTION_VALUES : list string := ["P1"; "P1_P2"; "P1_P2_P3"].

(** update/relay_phase_switch_mismatch.py: PhaseSwitchMismatchMonitor._phase_selection_is_upshift *)
Definition phase_selection_is_upshift (current_selection target_selection : PhaseSelection) : bool :=
  phase_count current_selection <? phase_count target_selection.

(** update/relay_phase_switch_mismatch.py: PhaseSwitchMismatchMonitor._phase_switch_mismatch_timestamp *)
Definition phase_switch_mismatch_timestamp (s : svc) (target_selection : PhaseSelection)
    : option float :=
  match s.(phase_switch_last_mismatch_selection) with
  | None => None
  | Some sel =>
    if bool_decide (normalize_phase_selection (VStr sel) P1 = target_selection)
    then finite_of s.(phase_switch_last_mismatch_at) else None
  end.

(** update/relay_phase_switch_mismatch.py: PhaseSwitchMismatchMonitor._phase_switch_mismatch_retry_seconds *)
Definition phase_switch_mismatch_retry_seconds (s : svc) : float :=
  fmax f0 s.(cfg).(phase_policy).(app_mismatch_retry_seconds).

(** update/relay_phase_switch_mismatch.py: PhaseSwitchMismatchMonitor._phase_switch_mismatch_retry_active *)
Definition phase_switch_mismatch_retry_active (s : svc)
    (current_selection target_selection : PhaseSelection) (now : float) : bool :=
  if negb (phase_selection_is_upshift current_selection target_selection) then false
  else
    match phase_switch_mismatch_timestamp s target_selection with
    | None => false
    | Some mismatch_at =>
      let elapsed_seconds := fmax f0 (now - mismatch_at)%F in
      (elapsed_seconds <? phase_switch_mismatch_retry_seconds s)%F
    end.

(** update/relay_phase_switch_mismatch.py: PhaseSwitchMismatchMonitor._phase_switch_lockout_threshold *)
Definition phase_switch_lockout_threshold (s : svc) : Z :=
  Z.max 0 s.(cfg).(phase_policy).(app_mismatch_lockout_count).

(** update/relay_phase_switch_mismatch.py: PhaseSwitchMismatchMonitor._phase_switch_lockout_seconds *)
Definition phase_switch_lockout_seconds (s : svc) : float :=
  fmax f0 s.(cfg).(phase_policy).(app_mismatch_lockout_seconds).

(** update/relay_phase_switch_mismatch.py: PhaseSwitchMismatchMonitor._normalized_phase_switch_mismatch_counts *)
Definition normalized_phase_switch_mismatch_counts (counts : list (pyval * pyval))
    : list (string * Z) :=
  clean_counts PHASE_SELECTION_VALUES counts.

(** The normalized dictionary replaces the attribute and is returned: the caller
    and the attribute share it.
    update/relay_phase_switch_mismatch.py: PhaseSwitchMismatchMonitor._phase_switch_mismatch_counts *)
Definition phase_mismatch_counts : M svc (list (string * Z)) :=
  s ← get;
  let normalized :=
    match s.(phase_switch_mismatch_counts) with
    | Some counts => normalized_phase_switch_mismatch_counts counts
    | None => []
    end in
  modify (fun s => s <| phase_switch_mismatch_counts := Some (counts_dict normalized) |>);;
  mret normalized.

(** update/relay_phase_switch_mismatch.py: PhaseSwitchMismatchMonitor._phase_switch_mismatch_count *)
Definition phase_switch_mismatch_count (selection : PhaseSelection) : M svc Z :=
  counts ← phase_mismatch_counts; mret (count_of (phase_text selection) counts).

(** update/relay_phase_switch_mismatch.py: PhaseSwitchMismatchMonitor._remember_phase_switch_mismatch *)
Definition remember_phase_switch_mismatch (selection : PhaseSelection) (now : float) : M svc Z :=
  counts ← phase_mismatch_counts;
  let next_count := count_of (phase_text selection) counts + 1 in
  modify (fun s =>
    s <| phase_switch_mismatch_counts :=
           Some (counts_dict (table_set (phase_text selection) next_count counts)) |>
      <| phase_switch_mismatch_active := true |>
      <| phase_switch_last_mismatch_selection := Some (phase_text selection) |>
      <| phase_switch_last_mismatch_at := Some now |>);;
  mret next_count.

(** update/relay_phase_switch_mismatch.py: PhaseSwitchMismatchMonitor._clear_phase_switch_mismatch_tracking *)
Definition clear_phase_switch_mismatch_tracking (selection : option PhaseSelection) : M svc unit :=
  modify (fun s => s <| phase_switch_mismatch_active := false |>);;
  match selection with
  | None =>
    modify (fun s =>
      s <| phase_switch_mismatch_counts := Some [] |>
        <| phase_switch_last_mismatch_selection := None |>
        <| phase_switch_last_mismatch_at := None |>)
  | Some sel =>
    counts ← phase_mismatch_counts;
    modify (fun s =>
      s <| phase_switch_mismatch_counts := Some (counts_dict (table_del (phase_text sel) counts)) |>);;
    s ← get;
    if bool_decide (s.(phase_switch_last_mismatch_selection) = Some (phase_text sel))
    then modify (fun s =>
      s <| phase_switch_last_mismatch_selection := None |>
        <| phase_switch_last_mismatch_at := None |>)
    else mret tt
  end.

(** update/relay_phase_switch_mismatch.py: PhaseSwitchMismatchMonitor._clear_phase_switch_lockout *)
Definition clear_phase_switch_lockout : M svc unit :=
  modify (fun s =>
    s <| phase_switch_lockout_selection := None |>
      <| phase_switch_lockout_reason := "" |>
      <| phase_switch_lockout_at := None |>
      <| phase_switch_lockout_until := None |>).

(** update/relay_phase_switch_mismatch.py: PhaseSwitchMismatchMonitor._engage_phase_switch_lockout *)
Definition engage_phase_switch_lockout (selection : PhaseSelection) (now : float) : M svc unit :=
  s ← get;
  let duration_seconds := phase_switch_lockout_seconds s in
  if (duration_seconds <=? f0)%F then clear_phase_switch_lockout
  else
    modify (fun s =>
      s <| phase_switch_lockout_selection := Some (phase_text selection) |>
        <| phase_switch_lockout_reason := "mismatch-threshold" |>
        <| phase_switch_lockout_at := Some now |>
        <| phase_switch_lockout_until := Some (now + duration_seconds)%F |>).

(** update/relay_phase_switch_mismatch.py: PhaseSwitchMismatchMonitor._active_lockout_selection *)
Definition active_lockout_selection (lockout_selection : string) : M svc (option PhaseSelection) :=
  match normalize_phase_selection_or_none (VStr lockout_selection) with
  | None => clear_phase_switch_lockout;; mret None
  | Some p => mret (Some p)
  end.

(** update/relay_phase_switch_mismatch.py: PhaseSwitchMismatchMonitor._current_lockout_selection *)
Definition current_lockout_selection (now : float) : M svc (option PhaseSelection) :=
  s ← get;
  match s.(phase_switch_lockout_selection), finite_of s.(phase_switch_lockout_until) with
  | Some lockout_selection, Some lockout_until =>
    if (now >=? lockout_until)%F then clear_phase_switch_lockout;; mret None
    else active_lockout_selection lockout_selection
  | _, _ => mret None
  end.

(** update/relay_phase_switch_mismatch.py: PhaseSwitchMismatchMonitor._phase_switch_lockout_active *)
Definition lockout_active (now : float) (selection : option PhaseSelection) : M svc bool :=
  normalized_selection ← current_lockout_selection now;
  mret (match normalized_selection with
        | None => false
        | Some p =>
          match selection with None => true | Some q => bool_decide (p = q) end
        end).

(** update/relay_phase_switch_mismatch.py: PhaseSwitchMismatchMonitor._phase_switch_fallback_selection *)
Definition phase_switch_fallback_selection (s : svc) (observed_selection : option PhaseSelection)
    (pending_selection : PhaseSelection) : PhaseSelection :=
  match observed_selection with
  | Some p => p
  | None =>
    match normalize_phase_selection_or_none (val_of_str s.(active_phase_selection)) with
    | Some p => p
    | None =>
      default pending_selection
        (normalize_phase_selection_or_none (val_of_str s.(requested_phase_selection)))
    end
  end.

#[export] Hint Unfold
  phase_mismatch_counts phase_switch_mismatch_count remember_phase_switch_mismatch
  clear_phase_switch_mismatch_tracking clear_phase_switch_lockout
  engage_phase_switch_lockout active_lockout_selection current_lockout_selection
  lockout_active : methods.

(** ** Counting and locking *)

Section correctness.

(** What the next read of the counters yields. *)
Definition counts_read (s : svc) : list (string * Z) :=
  match s.(phase_switch_mismatch_counts) with
  | Some counts => normalized_phase_switch_mismatch_counts counts
  | None => []
  end.

Lemma counts_read_wf s : counts_wf PHASE_SELECTION_VALUES (counts_read s).
Proof.
  unfold counts_read. destruct (phase_switch_mismatch_counts s); [apply clean_counts_wf|].
  split; constructor.
Qed.

Lemma counts_read_back t s :
  counts_wf PHASE_SELECTION_VALUES t ->
  s.(phase_switch_mismatch_counts) = Some (counts_dict t) -> counts_read s = t.
Proof. unfold counts_read. intros H ->. by apply clean_counts_dict. Qed.

Lemma phase_text_known p : str_in (phase_text p) PHASE_SELECTION_VALUES = true.
Proof. by destruct p. Qed.

Lemma phase_text_eqb p q : String.eqb (phase_text p) (phase_text q) = bool_decide (p = q).
Proof. by destruct p, q. Qed.

Lemma mismatch_count_read q s :
  fst (phase_switch_mismatch_count q s) = Ok (count_of (phase_text q) (counts_read s)).
Proof. reflexivity. Qed.

Lemma remember_run p now s :
  counts_read (snd (remember_phase_switch_mismatch p now s)) =
    table_set (phase_text p) (count_of (phase_text p) (counts_read s) + 1) (counts_read s).
Proof.
  apply counts_read_back; [|reflexivity].
  apply counts_wf_set; [apply phase_text_known | | apply counts_read_wf].
  unfold count_of. lia.
Qed.

(** Counting a phase-switch mismatch returns and stores the old count of that
    selection plus one, leaves the counts of the other selections alone whatever
    the counter attribute held before, and dates the mismatch with [now]. *)
Theorem mismatch_is_counted p q now s n :
  fst (phase_switch_mismatch_count q s) = Ok n ->
  let '(r, s1) := remember_phase_switch_mismatch p now s in
  fst (phase_switch_mismatch_count q s1) = Ok (if bool_decide (q = p) then n + 1 else n) /\
  (q = p -> r = Ok (n + 1)) /\
  s1.(phase_switch_last_mismatch_selection) = Some (phase_text p) /\
  s1.(phase_switch_last_mismatch_at) = Some now /\
  s1.(phase_switch_mismatch_active) = true.
Proof.
  rewrite mismatch_count_read. intros [= <-].
  destruct (remember_phase_switch_mismatch p now s) as [r s1] eqn:E.
  pose proof (remember_run p now s) as Hr. rewrite E in Hr. cbn [snd] in Hr.
  rewrite mismatch_count_read, Hr, count_of_set, phase_text_eqb by (unfold count_of; lia).
  split.
  - case_bool_decide; [by subst | done].
  - cbv in E. injection E as <- <-. split; [by intros -> | done].
Qed.

Lemma clear_tracking_counts p s :
  counts_read (snd (clear_phase_switch_mismatch_tracking (Some p) s)) =
    table_del (phase_text p) (counts_read s).
Proof.
  assert (wp (clear_phase_switch_mismatch_tracking (Some p)) (fun _ s' =>
    s'.(phase_switch_mismatch_counts) =
    Some (counts_dict (table_del (phase_text p) (counts_read s)))) s) as H.
  { unfold clear_phase_switch_mismatch_tracking, phase_mismatch_counts.
    repeat wp_step. destruct (bool_decide _); reflexivity. }
  apply counts_read_back; [apply counts_wf_del, counts_read_wf | exact H].
Qed.

(** ** Lockouts *)

(** The selection that is locked out at [now]. *)
Definition locked_selection (s : svc) (now : float) : option PhaseSelection :=
  match s.(phase_switch_lockout_selection), finite_of s.(phase_switch_lockout_until) with
  | Some sel, Some expiry =>
    if (now >=? expiry)%F then None else normalize_phase_selection_or_none (VStr sel)
  | _, _ => None
  end.

Lemma current_lockout_run now s :
  fst (current_lockout_selection now s) = Ok (locked_selection s now) /\
  (snd (current_lockout_selection now s) = s \/
   snd (current_lockout_selection now s) = snd (clear_phase_switch_lockout s)).
Proof.
  unfold current_lockout_selection, locked_selection. rewrite bind_get.
  destruct (phase_switch_lockout_selection s) as [sel|]; [|by auto].
  destruct (finite_of _) as [u|]; [|by auto].
  destruct (fle u now); [by auto|].
  unfold active_lockout_selection. destruct (normalize_phase_selection_or_none _); auto.
Qed.

Lemma lockout_active_value now q s :
  fst (lockout_active now (Some q) s) = Ok (bool_decide (locked_selection s now = Some q)).
Proof.
  unfold lockout_active, mbind, M_bind.
  destruct (current_lockout_run now s) as [H _].
  destruct (current_lockout_selection now s) as [r s1]. cbn in H. subst. cbn.
  f_equal. destruct (locked_selection s now) as [p|]; [|by rewrite bool_decide_eq_false_2].
  apply bool_decide_ext. split; congruence.
Qed.

Lemma lockout_active_state now o s :
  snd (lockout_active now o s) = s \/
  snd (lockout_active now o s) = snd (clear_phase_switch_lockout s).
Proof.
  unfold lockout_active, mbind, M_bind.
  destruct (current_lockout_run now s) as [H1 H2].
  destruct (current_lockout_selection now s) as [r s1]. cbn in *. by subst.
Qed.

Lemma engage_locked p now s :
  let expiry := (now + phase_switch_lockout_seconds s)%F in
  forall later, locked_selection (snd (engage_phase_switch_lockout p now s)) later =
  if (phase_switch_lockout_seconds s <=? f0)%F || negb (isfinite expiry) || (later >=? expiry)%F
  then None else Some p.
Proof.
  intros expiry later. unfold engage_phase_switch_lockout. rewrite bind_get.
  destruct (fle (phase_switch_lockout_seconds s) f0); [done|].
  unfold locked_selection. cbn -[normalize_phase_selection_or_none fle isfinite fadd].
  fold expiry. destruct (isfinite expiry); [|done]. cbn [negb orb].
  by rewrite normalize_phase_text.
Qed.

(** A lockout engaged for a selection blocks exactly that selection, from the
    mismatch on, as long as the configured lockout time has not elapsed; with a
    lockout time of zero or less nothing is ever blocked. *)
Theorem lockout_blocks_only_its_selection p q now later s :
  let expiry := (now + phase_switch_lockout_seconds s)%F in
  fst (lockout_active later (Some q) (snd (engage_phase_switch_lockout p now s))) =
  Ok (bool_decide (q = p) && negb (phase_switch_lockout_seconds s <=? f0)%F &&
      isfinite expiry && negb (later >=? expiry)%F).
Proof.
  intros expiry. rewrite lockout_active_value, engage_locked. fold expiry. f_equal.
  destruct (fle (phase_switch_lockout_seconds s) f0), (isfinite expiry), (fle expiry later);
    cbn; rewrite ?andb_false_r, ?andb_true_r; try by rewrite bool_decide_eq_false_2.
  apply bool_decide_ext. split; congruence.
Qed.

(** Once a query finds a lockout expired, it is gone: no later query, of any
    selection and whatever the clock says by then, reports it again. *)
Theorem expired_lockout_stays_cleared s expiry now o q later :
  finite_of s.(phase_switch_lockout_until) = Some expiry ->
  (now >=? expiry)%F = true ->
  fst (lockout_active later (Some q) (snd (lockout_active now o s))) = Ok false.
Proof.
  intros Hu Hnow. rewrite lockout_active_value. f_equal.
  apply bool_decide_eq_false_2.
  destruct s.(phase_switch_lockout_selection) as [sel|] eqn:Hsel.
  - enough (snd (lockout_active now o s) = snd (clear_phase_switch_lockout s)) as -> by done.
    unfold lockout_active, current_lockout_selection, mbind, M_bind. cbn [get].
    by rewrite Hsel, Hu, Hnow.
  - destruct (lockout_active_state now o s) as [-> | ->]; [|done].
    unfold locked_selection. by rewrite Hsel.
Qed.

(** A recent mismatch delays exactly the switches to more phases towards the
    selection that failed: switching to fewer phases is never held back. *)
Theorem mismatch_retry_delays_only_upshifts s cur tgt now :
  phase_switch_mismatch_retry_active s cur tgt now = true <->
  phase_count cur < phase_count tgt /\
  exists sel at_, s.(phase_switch_last_mismatch_selection) = Some sel /\
    normalize_phase_selection (VStr sel) P1 = tgt /\
    finite_of s.(phase_switch_last_mismatch_at) = Some at_ /\
    (fmax f0 (now - at_) <? phase_switch_mismatch_retry_seconds s)%F = true.
Proof.
  unfold phase_switch_mismatch_retry_active, phase_selection_is_upshift,
    phase_switch_mismatch_timestamp.
  destruct (Z.ltb_spec (phase_count cur) (phase_count tgt)) as [Hlt|Hge]; cbn [negb]; cycle 1.
  { split; [done | intros [? _]; lia]. }
  destruct (phase_switch_last_mismatch_selection s) as [sel|]; cycle 1.
  { split; [done | intros (_ & ? & ? & ? & _); done]. }
  case_bool_decide as Hn; cycle 1.
  { split; [done | intros (_ & ? & ? & [= <-] & ? & _); done]. }
  destruct (finite_of _) as [a|]; cycle 1.
  { split; [done | intros (_ & ? & ? & _ & _ & ? & _); done]. }
  split; [intros H; split; [done | by exists sel, a] | intros (_ & ? & ? & _ & _ & [= <-] & H); done].
Qed.

End correctness.

(** ** Witnesses *)

Section witnesses.

(** The first mismatch of a fresh service. *)
Lemma mismatch_is_counted_witness :
  fst (phase_switch_mismatch_count P1_P2 initial_svc) = Ok 0 /\
  fst (phase_switch_mismatch_count P1_P2
    (snd (remember_phase_switch_mismatch P1_P2 (f_of_Z 7) initial_svc))) = Ok 1.
Proof.
  split; [reflexivity|].
  exact (proj1 (mismatch_is_counted P1_P2 P1_P2 (f_of_Z 7) initial_svc 0 eq_refl)).
Defined.

Definition locked_svc : svc := snd (engage_phase_switch_lockout P1_P2 f1 initial_svc).

(** A lockout of 1800 s from second 1, queried after an hour and again at second 2. *)
Lemma expired_lockout_stays_cleared_witness :
  finite_of locked_svc.(phase_switch_lockout_until) = Some (f_of_Z 1801) /\
  fst (lockout_active (f_of_Z 2) (Some P1_P2)
    (snd (lockout_active (f_of_Z 3600) None locked_svc))) = Ok false.
Proof.
  split; [vm_compute; reflexivity|].
  apply (expired_lockout_stays_cleared locked_svc (f_of_Z 1801) (f_of_Z 3600) None P1_P2 (f_of_Z 2));
    vm_compute; reflexivity.
Defined.

End witnesses.
