(* ===== verification/PhaseSelector.v ===== *)
(** * Automatic phase targets

    [update/relay_phase_decision.py]: the phase layout Auto would like to charge
    with, from the surplus, the configured thresholds and the layouts the backend
    supports.  One decision moves by at most one layout. *)

From S2P Require Import Prelude PyFloat PyValue Contracts BackendModels Service CommonAuto Transport PhaseMismatch.

(** [tuple(sorted(set))] of phase literals: their lexicographic order is the
    order of the constructors. *)
Definition sorted_phases (l : list PhaseSelection) : list PhaseSelection :=
  filter (fun p => p ∈ l) [P1; P1_P2; P1_P2_P3].

(** update/relay_phase_decision.py: AutoPhaseTargetSelector._ordered_auto_phase_selections *)
Definition ordered_auto_phase_selections (s : svc) : list PhaseSelection :=
  sorted_phases
    (omap (fun sel => normalize_phase_selection_or_none (VStr sel))
       s.(cfg).(supported_phase_selections)).

(** update/relay_phase_decision.py: AutoPhaseTargetSelector._fallback_phase_selection *)
Definition fallback_phase_selection (s : svc) : PhaseSelection :=
  match normalize_phase_selection_or_none (val_of_str s.(active_phase_selection)) with
  | Some active => active
  | None =>
    default P1 (normalize_phase_selection_or_none (val_of_str s.(requested_phase_selection)))
  end.

(** [supported] is not empty here; [head] is the [supported[0]] of the source.
    update/relay_phase_decision.py: AutoPhaseTargetSelector._supported_phase_selection *)
Definition supported_phase_selection (s : svc) (head : PhaseSelection)
    (supported : list PhaseSelection) : PhaseSelection :=
  match normalize_phase_selection_or_none (val_of_str s.(requested_phase_selection)) with
  | None => head
  | Some requested =>
    if bool_decide (requested ∈ supported) then requested
    else
      match normalize_phase_selection_or_none (val_of_str s.(active_phase_selection)) with
      | Some active => if bool_decide (active ∈ supported) then active else head
      | None => head
      end
  end.

(** update/relay_phase_decision.py: AutoPhaseTargetSelector._current_phase_selection *)
Definition current_phase_selection (s : svc) (supported : list PhaseSelection) : PhaseSelection :=
  match supported with
  | [] => fallback_phase_selection s
  | head :: _ => supported_phase_selection s head supported
  end.

(** update/relay_phase_decision.py: AutoPhaseTargetSelector._record_auto_phase_metrics *)
Definition record_auto_phase_metrics (current_selection : PhaseSelection)
    (target_selection : option PhaseSelection) (phase_reason : string)
    (threshold_watts : option float) : M svc unit :=
  modify (fun s =>
    s <| last_auto_metrics_phase :=
      Some (mkPhaseMetrics current_selection target_selection phase_reason threshold_watts
        s.(auto_phase_target_candidate) (finite_of s.(auto_phase_target_since))) |>).

(** update/relay_phase_decision.py: AutoPhaseTargetSelector._auto_phase_metric_surplus_watts *)
Definition auto_phase_metric_surplus_watts (s : svc) : option float :=
  finite_of s.(last_auto_metrics_surplus).

(** update/relay_phase_decision.py: AutoPhaseTargetSelector._phase_selection_voltage *)
Definition phase_selection_voltage (s : svc) (selection : PhaseSelection) (voltage : float)
    : option float :=
  let v := phase_voltage voltage (VStr (phase_text selection)) s.(cfg).(voltage_mode) in
  if (v <=? f0)%F then None else Some v.

(** update/relay_phase_decision.py: AutoPhaseTargetSelector._phase_selection_min_surplus_watts *)
Definition phase_selection_min_surplus_watts (s : svc) (selection : PhaseSelection)
    (voltage : float) : option float :=
  match finite_of s.(cfg).(min_current), phase_selection_voltage s selection voltage with
  | Some min_c, Some phase_v =>
    if (min_c <=? f0)%F then None
    else Some (min_c * phase_v * f_of_Z (phase_count selection))%F
  | _, _ => None
  end.

(** A decision: the target, its reason and the threshold it was compared with. *)
Definition phase_decision : Type := option PhaseSelection * string * option float.

(** update/relay_phase_decision.py: AutoPhaseTargetSelector._auto_phase_policy_state *)
Definition auto_phase_policy_state (s : svc) (supported : list PhaseSelection)
    : option phase_decision :=
  if negb s.(cfg).(phase_policy).(app_enabled) then Some (None, "phase-policy-disabled", None)
  else
    match supported with
    | [] => Some (None, "phase-capabilities-unavailable", None)
    | [_] => Some (None, "single-phase-only", None)
    | _ => None
    end.

(** update/relay_phase_decision.py: AutoPhaseTargetSelector._idle_auto_phase_target *)
Definition idle_auto_phase_target (s : svc) (head current_selection : PhaseSelection)
    (desired_relay relay_on : bool) : option phase_decision :=
  if desired_relay || relay_on then None
  else if s.(cfg).(phase_policy).(app_prefer_lowest_phase_when_idle) &&
          negb (bool_decide (current_selection = head))
  then Some (Some head, "idle-lowest-phase", None)
  else Some (None, "idle-hold-phase", None).

(** update/relay_phase_decision.py: AutoPhaseTargetSelector._phase_upshift_threshold *)
Definition phase_upshift_threshold (s : svc) (next_selection : PhaseSelection) (voltage : float)
    : option float :=
  next_min_surplus ← phase_selection_min_surplus_watts s next_selection voltage;
  Some (next_min_surplus + s.(cfg).(phase_policy).(app_upshift_headroom_watts))%F.

(** update/relay_phase_decision.py: AutoPhaseTargetSelector._phase_upshift_block_reason *)
Definition phase_upshift_block_reason (current_selection next_selection : PhaseSelection)
    (now : float) : M svc (option string) :=
  locked ← lockout_active now (Some next_selection);
  if locked : bool then mret (Some "phase-upshift-blocked-lockout")
  else
    s ← get;
    mret (if phase_switch_mismatch_retry_active s current_selection next_selection now
          then Some "phase-upshift-blocked-mismatch" else None).

(** update/relay_phase_decision.py: AutoPhaseTargetSelector._upshift_auto_phase_target *)
Definition upshift_auto_phase_target (supported : list PhaseSelection) (current_index : nat)
    (current_selection : PhaseSelection) (surplus_watts voltage now : float)
    : M svc (option phase_decision) :=
  s ← get;
  match supported !! S current_index with
  | None => mret None
  | Some next_selection =>
    match phase_upshift_threshold s next_selection voltage with
    | None => mret None
    | Some threshold =>
      if (surplus_watts <? threshold)%F then mret None
      else
        block_reason ← phase_upshift_block_reason current_selection next_selection now;
        mret (match block_reason with
              | Some reason => Some (None, reason, Some threshold)
              | None => Some (Some next_selection, "phase-upshift", Some threshold)
              end)
    end
  end.

(** update/relay_phase_decision.py: AutoPhaseTargetSelector._downshift_auto_phase_target *)
Definition downshift_auto_phase_target (s : svc) (supported : list PhaseSelection)
    (current_selection : PhaseSelection) (current_index : nat) (surplus_watts voltage : float)
    : option phase_decision :=
  match current_index with
  | O => None
  | S lower_index =>
    match phase_selection_min_surplus_watts s current_selection voltage with
    | None => None
    | Some current_min_surplus =>
      let threshold :=
        fmax f0 (current_min_surplus - s.(cfg).(phase_policy).(app_downshift_margin_watts))%F in
      if (surplus_watts >=? threshold)%F then None
      else
        lower ← supported !! lower_index;
        Some (Some lower, "phase-downshift", Some threshold)
    end
  end.

(** [supported.index(x)]; raises when [x] is not in the tuple. *)
Fixpoint phase_index (x : PhaseSelection) (l : list PhaseSelection) : res nat :=
  match l with
  | [] => Err ValueError
  | y :: l' => if bool_decide (x = y) then Ok O else n ← phase_index x l'; mret (S n)
  end.

(** update/relay_phase_decision.py: AutoPhaseTargetSelector._surplus_auto_phase_target *)
Definition surplus_auto_phase_target (supported : list PhaseSelection)
    (current_selection : PhaseSelection) (voltage now : float) : M svc phase_decision :=
  s ← get;
  match auto_phase_metric_surplus_watts s with
  | None => mret (None, "phase-surplus-missing", None)
  | Some surplus_watts =>
    current_index ← lift (phase_index current_selection supported);
    upshift_target ← upshift_auto_phase_target supported current_index current_selection
      surplus_watts voltage now;
    match upshift_target with
    | Some d => mret d
    | None =>
      s ← get;
      match downshift_auto_phase_target s supported current_selection current_index
              surplus_watts voltage with
      | Some d => mret d
      | None => mret (None, "phase-hold", None)
      end
    end
  end.

(** update/relay_phase_decision.py: AutoPhaseTargetSelector._auto_phase_target_selection *)
Definition auto_phase_target_selection (supported : list PhaseSelection)
    (current_selection : PhaseSelection) (desired_relay relay_on : bool) (voltage now : float)
    : M svc phase_decision :=
  s ← get;
  match auto_phase_policy_state s supported, supported with
  | Some policy_state, _ => mret policy_state
  | None, [] => mret (None, "phase-capabilities-unavailable", None)
  | None, head :: _ =>
    match idle_auto_phase_target s head current_selection desired_relay relay_on with
    | Some idle_target => mret idle_target
    | None => surplus_auto_phase_target supported current_selection voltage now
    end
  end.

(** ** What a decision promises *)

Section promises.

Lemma sorted_phases_elem p l : p ∈ sorted_phases l <-> p ∈ l.
Proof.
  unfold sorted_phases. rewrite list_elem_of_filter. split; [tauto|].
  intros H. split; [done|]. rewrite !elem_of_cons. destruct p; auto.
Qed.

Lemma phase_index_lookup x l n : phase_index x l = Ok n -> l !! n = Some x.
Proof.
  revert n. induction l as [|y l IH]; cbn; [done|]. intros n.
  case_bool_decide as E.
  - subst. by intros [= <-].
  - destruct (phase_index x l) as [m|]; cbn; [|done]. intros [= <-]. by apply IH.
Qed.

Lemma phase_index_elem x l : x ∈ l -> exists n, phase_index x l = Ok n.
Proof.
  induction l as [|y l IH]; cbn; [by intros ?%not_elem_of_nil|].
  intros Hx. case_bool_decide as E; [eauto|].
  apply elem_of_cons in Hx as [->|Hx]; [done|].
  destruct (IH Hx) as [n ->]. cbn. eauto.
Qed.

Lemma current_phase_selection_supported s supported :
  supported <> [] -> current_phase_selection s supported ∈ supported.
Proof.
  destruct supported as [|h l]; [done|]. intros _. cbn.
  unfold supported_phase_selection.
  destruct (normalize_phase_selection_or_none _) as [r|]; [|left].
  case_bool_decide; [done|].
  destruct (normalize_phase_selection_or_none _) as [a|]; [|left].
  case_bool_decide; [done | left].
Qed.

(** Sorted and without repetition: neighbours in the list are neighbours in the
    number of phases among the supported layouts. *)
Lemma sorted_phases_ascending l i j p q :
  sorted_phases l !! i = Some p -> sorted_phases l !! j = Some q -> (i < j)%nat ->
  phase_count p < phase_count q.
Proof.
  assert (sorted_phases l ∈
    [[]; [P1]; [P1_P2]; [P1_P2_P3]; [P1; P1_P2]; [P1; P1_P2_P3]; [P1_P2; P1_P2_P3];
     [P1; P1_P2; P1_P2_P3]]) as H.
  { unfold sorted_phases. repeat (rewrite filter_cons; case_decide); rewrite ?filter_nil;
     rewrite !elem_of_cons; auto 10. }
  repeat (apply elem_of_cons in H as [-> | H]);
    [.. | by apply not_elem_of_nil in H];
    intros Hi Hj Hlt;
    destruct i as [|[|[|i]]], j as [|[|[|j]]]; cbn in *; simplify_eq; cbn; lia.
Qed.

End promises.

#[export] Hint Unfold
  record_auto_phase_metrics phase_upshift_block_reason upshift_auto_phase_target
  surplus_auto_phase_target auto_phase_target_selection : methods.

(** ** Decisions *)

(** Why a target is chosen.  [voltage] and [now] are those of the call; the
    state [s] is the one before it. *)
Inductive justified (s : svc) (supported : list PhaseSelection) (cur : PhaseSelection)
    (desired_relay relay_on : bool) (voltage now : float) : phase_decision -> Prop :=
  | just_none reason threshold :
      justified s supported cur desired_relay relay_on voltage now (None, reason, threshold)
  | just_idle head tail :
      supported = head :: tail -> cur <> head ->
      desired_relay = false -> relay_on = false ->
      s.(cfg).(phase_policy).(app_prefer_lowest_phase_when_idle) = true ->
      justified s supported cur desired_relay relay_on voltage now
        (Some head, "idle-lowest-phase", None)
  | just_up i next surplus threshold :
      supported !! i = Some cur -> supported !! S i = Some next ->
      desired_relay || relay_on = true ->
      auto_phase_metric_surplus_watts s = Some surplus ->
      phase_upshift_threshold s next voltage = Some threshold ->
      (surplus <? threshold)%F = false ->
      locked_selection s now <> Some next ->
      phase_switch_mismatch_retry_active s cur next now = false ->
      justified s supported cur desired_relay relay_on voltage now
        (Some next, "phase-upshift", Some threshold)
  | just_down i lower surplus minimum threshold :
      supported !! i = Some lower -> supported !! S i = Some cur ->
      desired_relay || relay_on = true ->
      auto_phase_metric_surplus_watts s = Some surplus ->
      phase_selection_min_surplus_watts s cur voltage = Some minimum ->
      threshold =
        fmax f0 (minimum - s.(cfg).(phase_policy).(app_downshift_margin_watts))%F ->
      (surplus >=? threshold)%F = false ->
      justified s supported cur desired_relay relay_on voltage now
        (Some lower, "phase-downshift", Some threshold).

Section decisions.

(** A query of the lockout changes nothing a decision depends on. *)
Definition decision_inputs (s : svc) :=
  (s.(cfg), s.(last_auto_metrics_surplus), s.(phase_switch_last_mismatch_selection),
   s.(phase_switch_last_mismatch_at)).

Lemma lockout_active_inputs now o : keeps (frame decision_inputs) (lockout_active now o).
Proof. svc_keeps. Qed.

Lemma upshift_justified s supported i cur desired_relay relay_on surplus voltage now :
  supported !! i = Some cur -> desired_relay || relay_on = true ->
  auto_phase_metric_surplus_watts s = Some surplus ->
  wp (upshift_auto_phase_target supported i cur surplus voltage now)
    (fun r s' => frame decision_inputs s s' /\
       exists o, r = Ok o /\
         forall d, o = Some d -> justified s supported cur desired_relay relay_on voltage now d) s.
Proof.
  intros Hi Hrel Hs. unfold upshift_auto_phase_target. do 2 wp_step.
  assert (frame decision_inputs s s /\ exists o : option phase_decision, Ok None = Ok o /\
    forall d, o = Some d -> justified s supported cur desired_relay relay_on voltage now d) as Hnone
    by (split; [done | by exists None]).
  destruct (supported !! S i) as [next|] eqn:Hn; [|done].
  destruct (phase_upshift_threshold s next voltage) as [thr|] eqn:Ht; [|done].
  destruct (flt surplus thr) eqn:Hlt; [done|].
  wp_step. unfold phase_upshift_block_reason. wp_step. unfold wp.
  pose proof (lockout_active_inputs now (Some next) s) as Hf.
  pose proof (lockout_active_value now next s) as Hv.
  destruct (lockout_active now (Some next) s) as [r s1]. cbn in Hv, Hf. subst r.
  cbn [fst snd]. case_bool_decide as Hl.
  - split; [done|]. eexists. split; [reflexivity|]. intros d [= <-]. constructor.
  - split; [done|]. eexists. split; [reflexivity|].
    assert (phase_switch_mismatch_retry_active s1 cur next now =
      phase_switch_mismatch_retry_active s cur next now) as Hr.
    { unfold frame, decision_inputs in Hf. injection Hf as E1 E2 E3 E4.
      unfold phase_switch_mismatch_retry_active, phase_switch_mismatch_timestamp,
        phase_switch_mismatch_retry_seconds. by rewrite E1, E3, E4. }
    rewrite Hr. intros d. destruct (phase_switch_mismatch_retry_active s cur next now) eqn:Hm;
      intros [= <-]; [constructor | by eapply just_up].
Qed.

Lemma downshift_justified s s1 supported i cur desired_relay relay_on surplus voltage now d :
  supported !! i = Some cur -> desired_relay || relay_on = true ->
  auto_phase_metric_surplus_watts s = Some surplus -> s1.(cfg) = s.(cfg) ->
  downshift_auto_phase_target s1 supported cur i surplus voltage = Some d ->
  justified s supported cur desired_relay relay_on voltage now d.
Proof.
  intros Hi Hrel Hs Hc. unfold downshift_auto_phase_target, phase_selection_min_surplus_watts,
    phase_selection_voltage. rewrite Hc.
  change (match finite_of (min_current (cfg s)) with Some _ => _ | None => None end)
    with (phase_selection_min_surplus_watts s cur voltage).
  destruct i as [|j]; [done|].
  destruct (phase_selection_min_surplus_watts s cur voltage) as [m|] eqn:Hm; [|done].
  destruct (fle _ surplus) eqn:Hle; [done|].
  destruct (supported !! j) as [lower|] eqn:Hj; cbn; [|done]. intros [= <-].
  by eapply just_down.
Qed.

Lemma surplus_justified s supported cur desired_relay relay_on voltage now :
  cur ∈ supported -> desired_relay || relay_on = true ->
  wp (surplus_auto_phase_target supported cur voltage now)
    (fun r _ => exists d, r = Ok d /\
       justified s supported cur desired_relay relay_on voltage now d) s.
Proof.
  intros Hin Hrel. unfold surplus_auto_phase_target. do 2 wp_step.
  destruct (auto_phase_metric_surplus_watts s) as [surplus|] eqn:Hs;
    [|eexists; split; [reflexivity | constructor]].
  destruct (phase_index_elem cur supported Hin) as [i Hi]. rewrite Hi.
  apply phase_index_lookup in Hi. do 2 wp_step. wp_step.
  eapply wp_mono; [by eapply upshift_justified|]. cbv beta.
  intros r s1 (Hf & o & -> & Hd). destruct o as [d|]; [wp_step; eauto|].
  do 2 wp_step. destruct (downshift_auto_phase_target s1 _ _ _ _ _) as [d|] eqn:Hdown.
  - wp_step. exists d. split; [done|]. eapply (downshift_justified s s1); eauto.
    unfold frame, decision_inputs in Hf. by injection Hf.
  - wp_step. eexists; split; [reflexivity | constructor].
Qed.

Lemma decision_justified s supported cur desired_relay relay_on voltage now :
  cur ∈ supported \/ supported = [] ->
  wp (auto_phase_target_selection supported cur desired_relay relay_on voltage now)
    (fun r _ => exists d, r = Ok d /\
       justified s supported cur desired_relay relay_on voltage now d) s.
Proof.
  intros Hin. unfold auto_phase_target_selection. do 2 wp_step.
  destruct (auto_phase_policy_state s supported) as [p|] eqn:Hp.
  { wp_step. exists p. split; [done|]. unfold auto_phase_policy_state in Hp.
    destruct (negb _); [simplify_eq; constructor|].
    destruct supported as [|a [|b l]]; simplify_eq; constructor. }
  destruct supported as [|head tail]; [eexists; split; [reflexivity | constructor]|].
  destruct Hin as [Hin|]; [|done].
  destruct (idle_auto_phase_target s head cur desired_relay relay_on) as [d|] eqn:Hidle.
  - wp_step. exists d. split; [done|]. unfold idle_auto_phase_target in Hidle.
    destruct (desired_relay || relay_on) eqn:Hrel; [done|].
    apply orb_false_iff in Hrel as [-> ->].
    destruct (app_prefer_lowest_phase_when_idle _) eqn:Hpref; cbn in Hidle; [|simplify_eq; constructor].
    case_bool_decide; simplify_eq/=; [constructor | by eapply just_idle].
  - apply surplus_justified; [done|]. unfold idle_auto_phase_target in Hidle.
    destruct (desired_relay || relay_on); [done|].
    by destruct (_ && _).
Qed.

End decisions.

(** ** Properties *)

(** Deciding on an automatic phase target never raises, and every target it
    chooses is justified: the lowest supported layout when nothing charges, one
    layout up when the surplus reaches the threshold of that layout and neither a
    lockout nor a recent mismatch speaks against it, or one layout down when the
    surplus is below the threshold of the current one. *)
Theorem auto_phase_decision_justified s desired_relay relay_on voltage now :
  let supported := ordered_auto_phase_selections s in
  let cur := current_phase_selection s supported in
  exists d, fst (auto_phase_target_selection supported cur desired_relay relay_on voltage now s) = Ok d /\
    justified s supported cur desired_relay relay_on voltage now d.
Proof.
  intros supported cur. apply (decision_justified s supported cur).
  destruct supported eqn:E; [by right | left; subst cur; rewrite <- E].
  apply current_phase_selection_supported. congruence.
Qed.

(** While charging, an automatic decision moves by one step of the supported
    layouts: no supported layout lies strictly between the current layout and the
    target, so three phases are never entered from one when two are supported. *)
Theorem auto_phase_decision_one_step s relay_on voltage now target reason threshold p :
  let supported := ordered_auto_phase_selections s in
  let cur := current_phase_selection s supported in
  fst (auto_phase_target_selection supported cur true relay_on voltage now s) =
    Ok (Some target, reason, threshold) ->
  target ∈ supported /\
  (p ∈ supported -> ~ (phase_count cur < phase_count p < phase_count target) /\
                    ~ (phase_count target < phase_count p < phase_count cur)).
Proof.
  intros supported cur Hd.
  assert (cur ∈ supported \/ supported = []) as Hin.
  { destruct supported eqn:E; [by right | left; subst cur; rewrite <- E].
    apply current_phase_selection_supported. congruence. }
  pose proof (decision_justified s supported cur true relay_on voltage now Hin) as (d & Hr & Hj).
  rewrite Hd in Hr. injection Hr as <-.
  assert (forall i lo hi, supported !! i = Some lo -> supported !! S i = Some hi -> p ∈ supported ->
    ~ (phase_count lo < phase_count p < phase_count hi)) as Hstep.
  { intros i lo hi Hlo Hhi [j Hj']%list_elem_of_lookup Hb.
    destruct (Nat.lt_trichotomy j i) as [Hlt|[->|Hgt]]; [|simplify_eq; lia|].
    - pose proof (sorted_phases_ascending _ _ _ _ _ Hj' Hlo Hlt). lia.
    - destruct (decide (j = S i)) as [->|]; [simplify_eq; lia|].
      pose proof (sorted_phases_ascending _ _ _ _ _ Hhi Hj' ltac:(lia)). lia. }
  inversion Hj as [|head tail Hs Hne Hdes|i next sur thr Hi Hn|i lower sur m thr Hi Hn]; simplify_eq.
  - split; [by eapply list_elem_of_lookup_2|]. intros Hp. split; [by eapply Hstep|].
    pose proof (sorted_phases_ascending _ _ _ _ _ Hi Hn ltac:(lia)). lia.
  - split; [by eapply list_elem_of_lookup_2|]. intros Hp. split; [|by eapply Hstep].
    pose proof (sorted_phases_ascending _ _ _ _ _ Hi Hn ltac:(lia)). lia.
Qed.

(** ** Witnesses *)

Section witnesses.

(** A service that sees 5 kW of surplus. *)
Definition sunny_svc : svc := initial_svc <| last_auto_metrics_surplus := Some (f_of_Z 5000) |>.

Lemma auto_phase_decision_one_step_witness :
  ordered_auto_phase_selections sunny_svc = [P1; P1_P2; P1_P2_P3] /\
  P1_P2 ∈ ordered_auto_phase_selections sunny_svc.
Proof.
  split; [vm_compute; reflexivity|].
  refine (proj1 (auto_phase_decision_one_step sunny_svc true (f_of_Z 230) (f_of_Z 100) P1_P2
    "phase-upshift" (Some (f_of_Z 3010)) P1 _)).
  vm_compute; reflexivity.
Defined.

End witnesses.
