(* ===== verification/ChargerHealth.v ===== *)
(** * Charger health and contactor heuristics

    [update/relay_charger_health.py]: fault overrides of the charger transport and
    state, explicit switch feedback, and the heuristics that suspect a contactor
    stuck open or welded, count their occurrences and latch a lockout. *)

From S2P Require Import Prelude PyFloat PyValue Contracts BackendModels Service CommonAuto Transport.

(** ** Thresholds *)

(** update/relay_charger_health.py: ChargerHealthMonitor._contactor_heuristic_delay_seconds *)
Definition contactor_heuristic_delay_seconds (s : svc) : float :=
  fmax f0 s.(cfg).(auto_shelly_soft_fail_seconds).

(** update/relay_charger_health.py: ChargerHealthMonitor._contactor_lockout_threshold *)
Definition contactor_lockout_threshold (s : svc) : Z :=
  Z.max 0 s.(cfg).(auto_contactor_fault_latch_count).

(** update/relay_charger_health.py: ChargerHealthMonitor._contactor_lockout_persistence_seconds *)
Definition contactor_lockout_persistence_seconds (s : svc) : float :=
  fmax f0 s.(cfg).(auto_contactor_fault_latch_seconds).

(** update/relay_charger_health.py: ChargerHealthMonitor._contactor_power_threshold_w *)
Definition contactor_power_threshold_w (s : svc) : float :=
  match finite_of s.(cfg).(charging_threshold_watts) with
  | None => f_of_Z 100
  | Some configured => fmax (f_of_Z 100) configured
  end.

(** update/relay_charger_health.py: ChargerHealthMonitor._contactor_current_threshold_a *)
Definition contactor_current_threshold_a (s : svc) : float :=
  match finite_of s.(cfg).(min_current) with
  | None => f1
  | Some configured => fmax f1 (configured / f_of_Z 4)%F
  end.

(** ** Observed load *)

(** [x is not None and x >= bound] *)
Definition at_least (x : option float) (bound : float) : bool :=
  match x with Some v => (v >=? bound)%F | None => false end.

(** update/relay_charger_health.py: ChargerHealthMonitor._pm_load_active *)
Definition pm_load_active (s : svc) (power current : option float) (pm_confirmed : bool) : bool :=
  if negb pm_confirmed then false
  else if at_least power (contactor_power_threshold_w s) then true
  else at_least current (contactor_current_threshold_a s).

(** update/relay_charger_health.py: ChargerHealthMonitor._charger_state_load_active *)
Definition charger_state_load_active (s : svc) (state : ChargerState) : bool :=
  if at_least state.(ch_power_w) (contactor_power_threshold_w s) then true
  else at_least state.(ch_actual_current_amps) (contactor_current_threshold_a s).

(** The fresh charger state of one instant. *)
Definition fresh_charger_state (s : svc) (now : option float) : option ChargerState :=
  match (resolve s now).(rb_charger) with Some readback => Some readback.(tc_state) | None => None end.

(** update/relay_charger_health.py: ChargerHealthMonitor._charger_load_active *)
Definition charger_load_active (s : svc) (now : option float) : bool :=
  match fresh_charger_state s now with
  | None => false
  | Some state => charger_state_load_active s state
  end.

(** update/relay_charger_health.py: ChargerHealthMonitor._charger_state_requests_load *)
Definition charger_state_requests_load (s : svc) (state : ChargerState) : bool :=
  if charger_state_load_active s state then true
  else tokens_meet (text_tokens state.(ch_status_text)) CHARGER_STATUS_CHARGING_HINT_TOKENS.

(** update/relay_charger_health.py: ChargerHealthMonitor._charger_requests_load *)
Definition charger_requests_load (s : svc) (now : option float) : bool :=
  match fresh_charger_state s now with
  | None => false
  | Some state => charger_state_requests_load s state
  end.

(** update/relay_charger_health.py: ChargerHealthMonitor._observed_load_active *)
Definition observed_load_active (s : svc) (power current : option float) (pm_confirmed : bool)
    (now : option float) : bool :=
  if pm_load_active s power current pm_confirmed then true
  else
    match fresh_charger_state s now with
    | None => false
    | Some state => charger_state_load_active s state
    end.

(** ** Contactor faults *)

(** update/relay_charger_health.py: ChargerHealthMonitor._base_contactor_fault_reason *)
Definition base_contactor_fault_reason (reason : option string) : option string :=
  match reason with
  | None => None
  | Some r =>
    let normalized := py_strip r in
    if str_in normalized ["contactor-suspected-open"; "contactor-suspected-welded"]
    then Some normalized else None
  end.

(** update/relay_charger_health.py: ChargerHealthMonitor._contactor_lockout_health_reason *)
Definition contactor_lockout_health_reason (base_reason : option string) : option string :=
  match base_contactor_fault_reason base_reason with
  | Some normalized =>
    if (normalized =? "contactor-suspected-open")%string then Some "contactor-lockout-open"
    else if (normalized =? "contactor-suspected-welded")%string
    then Some "contactor-lockout-welded"
    else None
  | None => None
  end.

(** update/relay_charger_health.py: ChargerHealthMonitor._normalized_contactor_fault_counts *)
Definition normalized_contactor_fault_counts (counts : list (pyval * pyval))
    : list (string * Z) :=
  clean_counts ["contactor-suspected-open"; "contactor-suspected-welded"] counts.

(** The normalized dictionary replaces the attribute and is returned: the caller
    and the attribute share it.
    update/relay_charger_health.py: ChargerHealthMonitor._contactor_fault_counts *)
Definition read_contactor_fault_counts : M svc (list (string * Z)) :=
  s ← get;
  let normalized :=
    match s.(contactor_fault_counts) with
    | Some counts => normalized_contactor_fault_counts counts
    | None => []
    end in
  modify (fun s => s <| contactor_fault_counts := Some (counts_dict normalized) |>);;
  mret normalized.

(** update/relay_charger_health.py: ChargerHealthMonitor._contactor_fault_count *)
Definition contactor_fault_count (reason : option string) : M svc Z :=
  match base_contactor_fault_reason reason with
  | None => mret 0
  | Some normalized => counts ← read_contactor_fault_counts; mret (count_of normalized counts)
  end.

(** update/relay_charger_health.py: ChargerHealthMonitor._clear_contactor_fault_active_state *)
Definition clear_contactor_fault_active_state : M svc unit :=
  modify (fun s =>
    s <| contactor_fault_active_reason := None |>
      <| contactor_fault_active_since := None |>).

(** update/relay_charger_health.py: ChargerHealthMonitor._clear_contactor_lockout *)
Definition clear_contactor_lockout : M svc unit :=
  modify (fun s =>
    s <| contactor_lockout_reason := "" |>
      <| contactor_lockout_source := "" |>
      <| contactor_lockout_at := None |>).

(** update/relay_charger_health.py: ChargerHealthMonitor._clear_contactor_fault_tracking *)
Definition clear_contactor_fault_tracking : M svc unit :=
  modify (fun s => s <| contactor_fault_counts := Some [] |>);;
  clear_contactor_fault_active_state;;
  clear_contactor_lockout;;
  modify (fun s =>
    s <| contactor_suspected_open_since := None |>
      <| contactor_suspected_welded_since := None |>).

(** update/relay_charger_health.py: ChargerHealthMonitor._engage_contactor_lockout *)
Definition engage_contactor_lockout (base_reason : option string) (now : option float)
    (source : string) : M svc unit :=
  match base_contactor_fault_reason base_reason with
  | None => clear_contactor_lockout
  | Some normalized =>
    modify (fun s =>
      let current := tracker_now s now in
      s <| contactor_lockout_reason := normalized |>
        <| contactor_lockout_source := default "count-threshold" (strip_or_none source) |>
        <| contactor_lockout_at := Some current |>)
  end.

(** update/relay_charger_health.py: ChargerHealthMonitor._active_contactor_lockout_health *)
Definition active_contactor_lockout_health (s : svc) : option string :=
  contactor_lockout_health_reason (Some s.(contactor_lockout_reason)).

(** [counts] is the dictionary of the attribute, so the increment is written to it.
    update/relay_charger_health.py: ChargerHealthMonitor._activate_contactor_fault_reason *)
Definition activate_contactor_fault_reason (normalized : string) (current : float)
    : M svc float :=
  s ← get;
  let active_reason := base_contactor_fault_reason s.(contactor_fault_active_reason) in
  match bool_decide (active_reason = Some normalized), finite_of s.(contactor_fault_active_since) with
  | true, Some active_since => mret active_since
  | _, _ =>
    counts ← read_contactor_fault_counts;
    modify (fun s =>
      s <| contactor_fault_counts :=
             Some (counts_dict (table_set normalized (count_of normalized counts + 1) counts)) |>
        <| contactor_fault_active_reason := Some normalized |>
        <| contactor_fault_active_since := Some current |>);;
    mret current
  end.

(** update/relay_charger_health.py: ChargerHealthMonitor._contactor_fault_exceeds_count_threshold *)
Definition contactor_fault_exceeds_count_threshold (s : svc) (current_count : Z) : bool :=
  let threshold := contactor_lockout_threshold s in
  (0 <? threshold) && (threshold <=? current_count).

(** update/relay_charger_health.py: ChargerHealthMonitor._remember_contactor_fault *)
Definition remember_contactor_fault (reason : option string) (now : option float)
    : M svc (option string) :=
  match base_contactor_fault_reason reason with
  | None => clear_contactor_fault_active_state;; mret None
  | Some normalized =>
    s ← get;
    let current := tracker_now s now in
    active_since ← activate_contactor_fault_reason normalized current;
    current_count ← contactor_fault_count (Some normalized);
    s ← get;
    if contactor_fault_exceeds_count_threshold s current_count then
      engage_contactor_lockout (Some normalized) (Some current) "count-threshold";;
      gets active_contactor_lockout_health
    else
      let persistence_seconds := contactor_lockout_persistence_seconds s in
      if ((persistence_seconds >? f0)%F && (current - active_since >=? persistence_seconds)%F)%bool
      then
        engage_contactor_lockout (Some normalized) (Some current) "persistent";;
        gets active_contactor_lockout_health
      else mret (Some normalized)
  end.

(** ** Overrides *)

(** update/relay_charger_health.py: ChargerHealthMonitor._active_charger_transport_health *)
Definition active_charger_transport_health (s : svc) (now : option float) : option string :=
  match fresh_charger_transport_reason s now with
  | Some transport_reason => charger_transport_health_reason (VStr transport_reason)
  | None =>
    match fresh_charger_retry_reason s now with
    | None => None
    | Some retry_reason => charger_transport_health_reason (VStr retry_reason)
    end
  end.

(** update/relay_charger_health.py: ChargerHealthMonitor._charger_state_health *)
Definition charger_state_health (state : ChargerState) : option string :=
  if text_indicates_fault state.(ch_fault_text) || text_indicates_fault state.(ch_status_text)
  then Some "charger-fault" else None.

(** update/relay_charger_health.py: ChargerHealthMonitor.charger_health_override *)
Definition charger_health_override (s : svc) (now : option float) : option string :=
  match active_charger_transport_health s now with
  | Some transport_health => Some transport_health
  | None => fresh_charger_state s now ≫= charger_state_health
  end.

(** update/relay_charger_health.py: ChargerHealthMonitor._clear_contactor_suspicions *)
Definition clear_contactor_suspicions : M svc unit :=
  clear_contactor_fault_active_state;;
  modify (fun s =>
    s <| contactor_suspected_open_since := None |>
      <| contactor_suspected_welded_since := None |>).

(** update/relay_charger_health.py: ChargerHealthMonitor._switch_state_safety_override *)
Definition switch_state_safety_override (state : SwitchState) (desired_relay relay_on : bool)
    : option string :=
  if bool_decide (state.(sw_interlock_ok) = Some false) && (desired_relay || relay_on)
  then Some "contactor-interlock"
  else if switch_feedback_mismatch relay_on state.(sw_feedback_closed)
  then Some "contactor-feedback-mismatch"
  else None.

(** update/relay_charger_health.py: ChargerHealthMonitor._switch_feedback_safety_override *)
Definition switch_feedback_safety_override (desired_relay relay_on : bool) (now : option float)
    : M svc (option string) :=
  s ← get;
  match (resolve s now).(rb_switch) with
  | None => mret None
  | Some readback =>
    match switch_state_safety_override readback.(ts_state) desired_relay relay_on with
    | Some override => clear_contactor_suspicions;; mret (Some override)
    | None => mret None
    end
  end.

(** update/relay_charger_health.py: ChargerHealthMonitor._combined_load_active *)
Definition combined_load_active (s : svc) (power current : option float) (pm_confirmed : bool)
    (state : option ChargerState) : bool :=
  if pm_load_active s power current pm_confirmed then true
  else match state with Some st => charger_state_load_active s st | None => false end.

(** update/relay_charger_health.py: ChargerHealthMonitor._charger_state_requests_load_if_present *)
Definition charger_state_requests_load_if_present (s : svc) (state : option ChargerState) : bool :=
  match state with Some st => charger_state_requests_load s st | None => false end.

(** update/relay_charger_health.py: ChargerHealthMonitor._suspected_open_condition *)
Definition suspected_open_condition (relay_on demand_active observed_load : bool) : bool :=
  relay_on && demand_active && negb observed_load.

(** update/relay_charger_health.py: ChargerHealthMonitor._suspected_welded_condition *)
Definition suspected_welded_condition (relay_on observed_load : bool) : bool :=
  negb relay_on && observed_load.

(** The two timers of the heuristics; the attribute name selects one.
    update/relay_charger_health.py: ChargerHealthMonitor._heuristic_condition_age *)
Definition heuristic_condition_age (timer : svc -> option float)
    (set_timer : option float -> svc -> svc) (condition_active : bool) (now : option float)
    : M svc (option float) :=
  s ← get;
  let current := tracker_now s now in
  if negb condition_active then modify (set_timer None);; mret None
  else
    match finite_of (timer s) with
    | None => modify (set_timer (Some current));; mret (Some f0)
    | Some started_at => mret (Some (fmax f0 (current - started_at)%F))
    end.

Definition set_open_since (t : option float) (s : svc) : svc :=
  s <| contactor_suspected_open_since := t |>.
Definition set_welded_since (t : option float) (s : svc) : svc :=
  s <| contactor_suspected_welded_since := t |>.

(** update/relay_charger_health.py: ChargerHealthMonitor._contactor_suspected_ages *)
Definition contactor_suspected_ages (relay_on : bool) (power current : option float)
    (pm_confirmed : bool) (now : option float) : M svc (option float * option float) :=
  s ← get;
  let state := fresh_charger_state s now in
  let observed_load := combined_load_active s power current pm_confirmed state in
  let demand_active := charger_state_requests_load_if_present s state in
  open_age ← heuristic_condition_age contactor_suspected_open_since set_open_since
    (suspected_open_condition relay_on demand_active observed_load) now;
  welded_age ← heuristic_condition_age contactor_suspected_welded_since set_welded_since
    (suspected_welded_condition relay_on observed_load) now;
  mret (open_age, welded_age).

(** update/relay_charger_health.py: ChargerHealthMonitor._switch_feedback_heuristic_override *)
Definition switch_feedback_heuristic_override (relay_on : bool) (power current : option float)
    (pm_confirmed : bool) (now : option float) : M svc (option string) :=
  '(suspected_open_age, suspected_welded_age) ←
    contactor_suspected_ages relay_on power current pm_confirmed now;
  s ← get;
  let delay_seconds := contactor_heuristic_delay_seconds s in
  if at_least suspected_welded_age delay_seconds
  then remember_contactor_fault (Some "contactor-suspected-welded") now
  else if at_least suspected_open_age delay_seconds
  then remember_contactor_fault (Some "contactor-suspected-open") now
  else clear_contactor_fault_active_state;; mret None.

(** update/relay_charger_health.py: ChargerHealthMonitor.switch_feedback_health_override *)
Definition switch_feedback_health_override (desired_relay relay_on : bool) (now : option float)
    (power current : option float) (pm_confirmed : bool) : M svc (option string) :=
  safety_override ← switch_feedback_safety_override desired_relay relay_on now;
  match safety_override with
  | Some o => mret (Some o)
  | None =>
    latched_lockout ← gets active_contactor_lockout_health;
    match latched_lockout with
    | Some o => mret (Some o)
    | None => switch_feedback_heuristic_override relay_on power current pm_confirmed now
    end
  end.

(** ** Status text *)

(** update/relay_charger_health.py: ChargerHealthMonitor._charger_status_token_rules *)
Definition charger_status_token_rules (s : svc) (auto_mode_active : bool)
    : list (list string * Z * string) :=
  [(CHARGER_STATUS_FINISHED_HINT_TOKENS, 3, "charger-status-finished");
   (CHARGER_STATUS_WAITING_HINT_TOKENS, if auto_mode_active then 4 else 6,
     "charger-status-waiting");
   (CHARGER_STATUS_CHARGING_HINT_TOKENS, 2, "charger-status-charging");
   (CHARGER_STATUS_READY_HINT_TOKENS, s.(cfg).(idle_status), "charger-status-ready")].

(** The first rule whose tokens meet the status tokens. *)
Fixpoint first_rule (rules : list (list string * Z * string)) (tokens : list string)
    : option (Z * string) :=
  match rules with
  | [] => None
  | (hint_tokens, status_code, status_source) :: rest =>
    if tokens_meet tokens hint_tokens then Some (status_code, status_source)
    else first_rule rest tokens
  end.

(** update/relay_charger_health.py: ChargerHealthMonitor._charger_status_override_from_tokens *)
Definition charger_status_override_from_tokens (s : svc) (tokens : list string)
    (auto_mode_active : bool) : option (Z * string) :=
  first_rule (charger_status_token_rules s auto_mode_active) tokens.

(** update/relay_charger_health.py: ChargerHealthMonitor._charger_status_override *)
Definition charger_status_override (s : svc) (auto_mode_active : bool) (now : option float)
    : option (Z * string) :=
  let status_text := fresh_charger_state s now ≫= ch_status_text in
  match text_tokens status_text with
  | [] => None
  | tokens => charger_status_override_from_tokens s tokens auto_mode_active
  end.

(** update/relay_charger_health.py: ChargerHealthMonitor._effective_enabled_state *)
Definition effective_enabled_state (s : svc) (relay_on : bool) (now : option float) : bool :=
  default relay_on (fresh_charger_state s now ≫= ch_enabled).

Section ports.
Context {RP : RelayPorts}.

(** update/relay_charger_health.py: ChargerHealthMonitor._enable_control_source_key *)
Definition enable_control_source_key : string :=
  if port_has_enable_backend then "charger" else "shelly".

(** update/relay_charger_health.py: ChargerHealthMonitor._enable_control_label *)
Definition enable_control_label : string :=
  if port_has_enable_backend then "charger backend" else "Shelly relay".

End ports.

#[export] Hint Unfold
  read_contactor_fault_counts contactor_fault_count clear_contactor_fault_active_state
  clear_contactor_lockout clear_contactor_fault_tracking engage_contactor_lockout
  activate_contactor_fault_reason remember_contactor_fault clear_contactor_suspicions
  switch_feedback_safety_override heuristic_condition_age contactor_suspected_ages
  switch_feedback_heuristic_override switch_feedback_health_override : methods.

(** ** Counting and latching *)

Section correctness.

Definition FAULT_REASONS : list string := ["contactor-suspected-open"; "contactor-suspected-welded"].

(** What the next read of the fault counters yields. *)
Definition fault_counts_read (s : svc) : list (string * Z) :=
  match s.(contactor_fault_counts) with
  | Some counts => normalized_contactor_fault_counts counts
  | None => []
  end.

Lemma fault_counts_read_wf s : counts_wf FAULT_REASONS (fault_counts_read s).
Proof.
  unfold fault_counts_read. destruct (contactor_fault_counts s); [apply clean_counts_wf|].
  split; constructor.
Qed.

Lemma fault_counts_read_back t s :
  counts_wf FAULT_REASONS t ->
  s.(contactor_fault_counts) = Some (counts_dict t) -> fault_counts_read s = t.
Proof. unfold fault_counts_read. intros H ->. by apply clean_counts_dict. Qed.

Lemma base_reason_known o r :
  base_contactor_fault_reason o = Some r -> str_in r FAULT_REASONS = true.
Proof.
  destruct o as [t|]; [|done]. cbn. destruct (_ || _) eqn:E; [|done]. intros [= <-]. exact E.
Qed.

Lemma base_reason_of_known r :
  str_in r FAULT_REASONS = true -> base_contactor_fault_reason (Some r) = Some r.
Proof.
  intros H. apply str_in_spec in H. apply elem_of_cons in H as [->|H]; [done|].
  by apply list_elem_of_singleton in H as ->.
Qed.

(** The lockout reason that belongs to a suspicion. *)
Definition lockout_of (r : string) : string :=
  if (r =? "contactor-suspected-open")%string then "contactor-lockout-open"
  else "contactor-lockout-welded".

Lemma lockout_health_of_known r :
  str_in r FAULT_REASONS = true -> contactor_lockout_health_reason (Some r) = Some (lockout_of r).
Proof.
  intros H. apply str_in_spec in H. apply elem_of_cons in H as [->|H]; [done|].
  by apply list_elem_of_singleton in H as ->.
Qed.

(** The fault [r] was already active before this call. *)
Definition fault_active (s : svc) (r : string) : bool :=
  bool_decide (base_contactor_fault_reason s.(contactor_fault_active_reason) = Some r) &&
  match finite_of s.(contactor_fault_active_since) with Some _ => true | None => false end.

(** Since when it is active after the call, and how often it occurred by then. *)
Definition active_since_after (s : svc) (r : string) (now : float) : float :=
  match fault_active s r, finite_of s.(contactor_fault_active_since) with
  | true, Some since => since
  | _, _ => now
  end.
Definition count_after (s : svc) (r : string) : Z :=
  count_of r (fault_counts_read s) + (if fault_active s r then 0 else 1).

Lemma activate_spec r now s :
  str_in r FAULT_REASONS = true ->
  wp (activate_contactor_fault_reason r now)
    (fun res s' => res = Ok (active_since_after s r now) /\
       (forall q, count_of q (fault_counts_read s') =
          if String.eqb q r then count_after s r else count_of q (fault_counts_read s)) /\
       s'.(cfg) = s.(cfg) /\ s'.(contactor_lockout_reason) = s.(contactor_lockout_reason)) s.
Proof.
  intros Hr. unfold activate_contactor_fault_reason, active_since_after, count_after, fault_active.
  do 2 wp_step.
  destruct (bool_decide _); [destruct (finite_of (contactor_fault_active_since s))|]; cbn [andb].
  - wp_step. split; [done|]. split; [|done]. intros q.
    destruct (String.eqb_spec q r) as [->|]; [lia|done].
  - unfold read_contactor_fault_counts. repeat wp_step. split; [done|]. split; [|done]. intros q.
    rewrite (fault_counts_read_back
      (table_set r (count_of r (fault_counts_read s) + 1) (fault_counts_read s)));
      [apply count_of_set; unfold count_of; lia | | reflexivity].
    apply counts_wf_set; [done | unfold count_of; lia | apply fault_counts_read_wf].
  - unfold read_contactor_fault_counts. repeat wp_step. split; [done|]. split; [|done]. intros q.
    rewrite (fault_counts_read_back
      (table_set r (count_of r (fault_counts_read s) + 1) (fault_counts_read s)));
      [apply count_of_set; unfold count_of; lia | | reflexivity].
    apply counts_wf_set; [done | unfold count_of; lia | apply fault_counts_read_wf].
Qed.

(** The fault locks the contactor out: it occurred often enough, or lasts too long. *)
Definition locks_out (s : svc) (r : string) (now : float) : bool :=
  contactor_fault_exceeds_count_threshold s (count_after s r) ||
  ((contactor_lockout_persistence_seconds s >? f0)%F &&
   (now - active_since_after s r now >=? contactor_lockout_persistence_seconds s)%F).

Lemma count_read_back s :
  fault_counts_read (s <| contactor_fault_counts := Some (counts_dict (fault_counts_read s)) |>) =
  fault_counts_read s.
Proof. apply fault_counts_read_back; [apply fault_counts_read_wf | reflexivity]. Qed.

Lemma engage_latches r now source s :
  str_in r FAULT_REASONS = true ->
  wp (engage_contactor_lockout (Some r) now source)
    (fun res s' => res = Ok tt /\ active_contactor_lockout_health s' = Some (lockout_of r) /\
       fault_counts_read s' = fault_counts_read s) s.
Proof.
  intros Hr. unfold engage_contactor_lockout. rewrite (base_reason_of_known r Hr).
  wp_step. split; [done|]. split; [by apply lockout_health_of_known | done].
Qed.

Lemma remember_spec r now s :
  str_in r FAULT_REASONS = true ->
  wp (remember_contactor_fault (Some r) now)
    (fun res s' =>
       (forall q, count_of q (fault_counts_read s') =
          if String.eqb q r then count_after s r else count_of q (fault_counts_read s)) /\
       res = Ok (Some (if locks_out s r (tracker_now s now) then lockout_of r else r)) /\
       (locks_out s r (tracker_now s now) = true -> active_contactor_lockout_health s' = Some (lockout_of r))) s.
Proof.
  intros Hr. unfold remember_contactor_fault. rewrite (base_reason_of_known r Hr).
  do 3 wp_step. eapply wp_mono; [by apply activate_spec|]. cbv beta.
  intros res s1 (-> & Hc & Hcfg & Hl). wp_step.
  unfold contactor_fault_count. rewrite (base_reason_of_known r Hr).
  unfold read_contactor_fault_counts. repeat wp_step.
  fold (fault_counts_read s1). set (s2 := s1 <| contactor_fault_counts := _ |>).
  assert (fault_counts_read s2 = fault_counts_read s1) as Hs2 by apply count_read_back.
  assert (s2.(cfg) = s.(cfg)) as Hcfg2 by exact Hcfg.
  rewrite Hc, String.eqb_refl. unfold locks_out, contactor_fault_exceeds_count_threshold,
    contactor_lockout_threshold, contactor_lockout_persistence_seconds. rewrite Hcfg2.
  destruct (_ && (_ <=? count_after s r)) eqn:Et; cbn [orb].
  - wp_step. eapply wp_mono; [by apply engage_latches|]. cbv beta.
    intros res s3 (-> & Ha & Hc3). wp_step. rewrite Ha, Hc3, Hs2. auto.
  - destruct (flt _ _ && _)%bool eqn:Ep.
    + wp_step. eapply wp_mono; [by apply engage_latches|]. cbv beta.
      intros res s3 (-> & Ha & Hc3). wp_step. rewrite Ha, Hc3, Hs2. auto.
    + wp_step. rewrite Hs2. by split_and!.
Qed.

(** Observing a contactor fault counts it once per activation: the count of its
    kind grows by one when the fault was not active before and stays otherwise, the
    count of the other kind stays.  The result is the lockout reason exactly when
    the new count reaches a positive threshold or the fault lasts for the positive
    persistence time, and the suspicion itself otherwise; a lockout is latched. *)
Theorem contactor_fault_counted_and_latched r now s :
  str_in r FAULT_REASONS = true ->
  let run := remember_contactor_fault (Some r) (Some now) s in
  (forall q n, fst (contactor_fault_count (Some q) s) = Ok n -> str_in q FAULT_REASONS = true ->
     fst (contactor_fault_count (Some q) (snd run)) =
     Ok (if String.eqb q r && negb (fault_active s r) then n + 1 else n)) /\
  fst run = Ok (Some (if locks_out s r now then lockout_of r else r)) /\
  (locks_out s r now = true ->
   active_contactor_lockout_health (snd run) = Some (lockout_of r)).
Proof.
  intros Hr run. pose proof (remember_spec r (Some now) s Hr) as Hs. unfold wp in Hs.
  destruct (remember_contactor_fault _ _ s) as [res s']. cbn [fst snd] in Hs.
  destruct Hs as (Hc & Hrest). split; [|exact Hrest]. intros q n Hn Hq.
  unfold contactor_fault_count in *. rewrite (base_reason_of_known q Hq) in *.
  change (Ok (count_of q (fault_counts_read s)) = Ok n) in Hn. injection Hn as <-.
  change (Ok (count_of q (fault_counts_read s')) =
    Ok (if String.eqb q r && negb (fault_active s r) then count_of q (fault_counts_read s) + 1
        else count_of q (fault_counts_read s))).
  f_equal. rewrite Hc. unfold count_after.
  destruct (String.eqb_spec q r) as [->|]; [|done]. by destruct (fault_active s r); cbn; lia.
Qed.

(** ** Overrides *)

(** A timer that is not running starts with this call. *)
Definition age_of (timer : option float) (current : float) : float :=
  match finite_of timer with None => f0 | Some started => fmax f0 (current - started)%F end.

(** The suspicion of one cycle: the relay is off although load is observed, or it is
    on, load is requested and none is observed, for the heuristic delay. *)
Definition suspicion (s : svc) (relay_on : bool) (power current : option float)
    (pm_confirmed : bool) (now : option float) : option string :=
  let state := fresh_charger_state s now in
  let load := combined_load_active s power current pm_confirmed state in
  let demand := charger_state_requests_load_if_present s state in
  let delay := contactor_heuristic_delay_seconds s in
  if negb relay_on && load &&
     (age_of s.(contactor_suspected_welded_since) (tracker_now s now) >=? delay)%F
  then Some "contactor-suspected-welded"
  else if relay_on && demand && negb load &&
     (age_of s.(contactor_suspected_open_since) (tracker_now s now) >=? delay)%F
  then Some "contactor-suspected-open"
  else None.

(** What the counters and the lockout of a contactor depend on. *)
Definition fault_state (s : svc) :=
  (s.(cfg), s.(clock), s.(readbacks), s.(contactor_fault_counts),
   s.(contactor_fault_active_reason), s.(contactor_fault_active_since),
   s.(contactor_lockout_reason)).

Lemma fault_state_eq s s' :
  frame fault_state s s' ->
  (forall r now, locks_out s' r now = locks_out s r now) /\
  active_contactor_lockout_health s' = active_contactor_lockout_health s /\
  (forall now, tracker_now s' now = tracker_now s now) /\
  contactor_heuristic_delay_seconds s' = contactor_heuristic_delay_seconds s.
Proof.
  unfold frame, fault_state. intros [= E1 E2 E3 E4 E5 E6 E7].
  unfold locks_out, contactor_fault_exceeds_count_threshold, contactor_lockout_threshold,
    contactor_lockout_persistence_seconds, count_after, active_since_after, fault_active,
    fault_counts_read, active_contactor_lockout_health, contactor_heuristic_delay_seconds,
    tracker_now.
  by rewrite E1, E2, E4, E5, E6, E7.
Qed.

Lemma condition_age_spec timer set_timer cond now s :
  (forall t s, frame fault_state s (set_timer t s)) ->
  wp (heuristic_condition_age timer set_timer cond now)
    (fun r s' => (s' = s \/ exists t, s' = set_timer t s) /\
       r = Ok (if cond : bool then Some (age_of (timer s) (tracker_now s now)) else None)) s.
Proof.
  intros Hset. unfold heuristic_condition_age, age_of. do 2 wp_step.
  destruct cond; cbn [negb]; [destruct (finite_of (timer s))|]; repeat wp_step; eauto.
Qed.

Lemma suspected_ages_spec relay_on power current conf now s :
  let state := fresh_charger_state s now in
  let load := combined_load_active s power current conf state in
  let demand := charger_state_requests_load_if_present s state in
  wp (contactor_suspected_ages relay_on power current conf now)
    (fun r s' => frame fault_state s s' /\
       r = Ok ((if relay_on && demand && negb load
                then Some (age_of s.(contactor_suspected_open_since) (tracker_now s now)) else None),
               (if negb relay_on && load
                then Some (age_of s.(contactor_suspected_welded_since) (tracker_now s now))
                else None))) s.
Proof.
  intros state load demand. unfold contactor_suspected_ages. do 3 wp_step.
  eapply wp_mono; [by apply condition_age_spec|]. cbv beta. intros r s1 [Hs1 ->].
  assert (frame fault_state s s1 /\
    contactor_suspected_welded_since s1 = contactor_suspected_welded_since s) as [Hf1 Hw]
    by (destruct Hs1 as [->|[t ->]]; done).
  wp_step. eapply wp_mono; [by apply condition_age_spec|]. cbv beta. intros r s2 [Hs2 ->].
  wp_step. destruct (fault_state_eq s s1 Hf1) as (_ & _ & Ht & _). rewrite Ht, Hw.
  split; [|done]. etrans; [exact Hf1|]. by destruct Hs2 as [->|[t ->]].
Qed.

Lemma heuristic_spec relay_on power current conf now s :
  wp (switch_feedback_heuristic_override relay_on power current conf now)
    (fun r s' =>
       match suspicion s relay_on power current conf now with
       | Some f =>
         let locked := locks_out s f (tracker_now s now) in
         r = Ok (Some (if locked then lockout_of f else f)) /\
         (locked = true -> active_contactor_lockout_health s' = Some (lockout_of f))
       | None => r = Ok None
       end) s.
Proof.
  unfold switch_feedback_heuristic_override. wp_step.
  eapply wp_mono; [apply suspected_ages_spec|]. cbv beta zeta. intros r s1 [Hf ->].
  destruct (fault_state_eq s s1 Hf) as (Hlo & _ & Ht & Hd). do 2 wp_step. rewrite Hd.
  unfold suspicion. unfold at_least.
  destruct (negb relay_on && _) eqn:Hwc; cbn [andb].
  - apply andb_true_iff in Hwc as [Hrel _]. apply negb_true_iff in Hrel as ->. cbn [andb].
    destruct (fle _ (age_of (contactor_suspected_welded_since s) _)) eqn:Hage.
    + eapply wp_mono; [by apply remember_spec|]. cbv beta. intros r s2 (_ & Hr & Hl).
      rewrite Hlo, Ht in *. by split.
    + unfold clear_contactor_fault_active_state. by repeat wp_step.
  - destruct (relay_on && _ && _) eqn:Hoc; cbn [andb].
    + destruct (fle _ _) eqn:Hage.
      * eapply wp_mono; [by apply remember_spec|]. cbv beta. intros r s2 (_ & Hr & Hl).
        rewrite Hlo, Ht in *. by split.
      * unfold clear_contactor_fault_active_state. by repeat wp_step.
    + unfold clear_contactor_fault_active_state. by repeat wp_step.
Qed.

End correctness.

(** ** Properties of a health cycle *)

Section cycles.

(** The safety override of the fresh switch readback, if there is one. *)
Definition switch_safety (s : svc) (desired_relay relay_on : bool) (now : option float)
    : option string :=
  match (resolve s now).(rb_switch) with
  | Some readback => switch_state_safety_override readback.(ts_state) desired_relay relay_on
  | None => None
  end.

Lemma safety_override_run desired_relay relay_on now s :
  switch_feedback_safety_override desired_relay relay_on now s =
  match switch_safety s desired_relay relay_on now with
  | Some o => (Ok (Some o), snd (clear_contactor_suspicions s))
  | None => (Ok None, s)
  end.
Proof.
  unfold switch_feedback_safety_override, switch_safety. rewrite bind_get.
  destruct (rb_switch _) as [rb|]; [|done].
  by destruct (switch_state_safety_override _ _ _).
Qed.

Lemma health_value desired_relay relay_on now power current conf s :
  fst (switch_feedback_health_override desired_relay relay_on now power current conf s) =
  Ok (match switch_safety s desired_relay relay_on now with
      | Some o => Some o
      | None =>
        match active_contactor_lockout_health s with
        | Some o => Some o
        | None =>
          match suspicion s relay_on power current conf now with
          | Some f => Some (if locks_out s f (tracker_now s now) then lockout_of f else f)
          | None => None
          end
        end
      end).
Proof.
  unfold switch_feedback_health_override, mbind at 1, M_bind at 1. rewrite safety_override_run.
  destruct (switch_safety s desired_relay relay_on now); [done|]. rewrite bind_gets.
  destruct (active_contactor_lockout_health s); [done|].
  pose proof (heuristic_spec relay_on power current conf now s) as H. unfold wp in H.
  destruct (suspicion s relay_on power current conf now); [by destruct H|done].
Qed.

(** The health of one cycle: explicit switch feedback wins over a latched
    lockout, which wins over the heuristics; these report welded contacts only when
    the relay is off and load is observed for the delay, open contacts only when the
    relay is on and requested load stays unobserved for the delay, and the lockout
    instead of the suspicion exactly when count or duration call for it.  The call
    never raises. *)
Theorem switch_feedback_health_value desired_relay relay_on now power current conf s :
  fst (switch_feedback_health_override desired_relay relay_on now power current conf s) =
  Ok (match switch_safety s desired_relay relay_on now with
      | Some o => Some o
      | None =>
        match active_contactor_lockout_health s with
        | Some o => Some o
        | None =>
          match suspicion s relay_on power current conf now with
          | Some f => Some (if locks_out s f (tracker_now s now) then lockout_of f else f)
          | None => None
          end
        end
      end).
Proof. apply health_value. Qed.

(** The arguments of one call in an update cycle. *)
Record health_input := mkHealthInput {
  hi_desired : bool; hi_relay : bool; hi_now : option float;
  hi_power : option float; hi_current : option float; hi_confirmed : bool }.

Definition health_call (i : health_input) : M svc (option string) :=
  switch_feedback_health_override i.(hi_desired) i.(hi_relay) i.(hi_now) i.(hi_power)
    i.(hi_current) i.(hi_confirmed).

(** The results of consecutive cycles and the state after them. *)
Fixpoint health_calls (inputs : list health_input) (s : svc) : list (res (option string)) * svc :=
  match inputs with
  | [] => ([], s)
  | i :: rest =>
    let '(r, s1) := health_call i s in
    let '(rs, s2) := health_calls rest s1 in (r :: rs, s2)
  end.

Lemma health_call_latched i s o :
  active_contactor_lockout_health s = Some o ->
  active_contactor_lockout_health (snd (health_call i s)) = Some o /\
  exists h, fst (health_call i s) = Ok (Some h) /\
    h ∈ [o; "contactor-interlock"; "contactor-feedback-mismatch"].
Proof.
  intros Ho. unfold health_call, switch_feedback_health_override, mbind at 1 3, M_bind at 1 3.
  rewrite safety_override_run. unfold switch_safety.
  destruct (rb_switch _) as [rb|].
  - destruct (switch_state_safety_override _ _ _) as [x|] eqn:Ex.
    + split; [exact Ho|]. exists x. split; [done|]. unfold switch_state_safety_override in Ex.
      destruct (_ && _); [simplify_eq; right; left|].
      destruct (switch_feedback_mismatch _ _); [simplify_eq; do 2 right; left | done].
    + rewrite !bind_gets, Ho. split; [exact Ho|]. exists o. split; [done | left].
  - rewrite !bind_gets, Ho. split; [exact Ho|]. exists o. split; [done | left].
Qed.

(** A latched contactor lockout survives any number of update cycles, whatever
    they observe: every one of them reports the lockout or, above it, the explicit
    interlock or feedback fault, and none of them a healthy contactor. *)
Theorem contactor_lockout_survives_cycles inputs s o :
  active_contactor_lockout_health s = Some o ->
  active_contactor_lockout_health (snd (health_calls inputs s)) = Some o /\
  Forall (fun r => exists h, r = Ok (Some h) /\
    h ∈ [o; "contactor-interlock"; "contactor-feedback-mismatch"]) (fst (health_calls inputs s)).
Proof.
  revert s. induction inputs as [|i inputs IH]; intros s Ho; cbn [health_calls].
  - by split; [|constructor].
  - destruct (health_call_latched i s o Ho) as [Ho1 Hr].
    destruct (health_call i s) as [r s1]. cbn [fst snd] in *.
    specialize (IH s1 Ho1). destruct (health_calls inputs s1) as [rs s2].
    destruct IH as [Ho2 Hf]. split; [done | by constructor].
Qed.

Lemma suspicion_known s relay_on power current conf now f :
  suspicion s relay_on power current conf now = Some f -> f ∈ FAULT_REASONS.
Proof.
  unfold suspicion. destruct (_ && _); [intros [= <-]; right; left|].
  destruct (_ && _); [intros [= <-]; left | done].
Qed.

Lemma active_lockout_known s o :
  active_contactor_lockout_health s = Some o ->
  o ∈ ["contactor-lockout-open"; "contactor-lockout-welded"].
Proof.
  unfold active_contactor_lockout_health, contactor_lockout_health_reason.
  destruct (base_contactor_fault_reason _); [|done].
  destruct (String.eqb _ _); [intros [= <-]; left|].
  destruct (String.eqb _ _); [intros [= <-]; right; left | done].
Qed.

Definition OVERRIDE_REASONS : list string :=
  ["contactor-interlock"; "contactor-feedback-mismatch"; "contactor-lockout-open";
   "contactor-lockout-welded"; "contactor-suspected-open"; "contactor-suspected-welded"].

Lemma override_reason_known i s h :
  fst (health_call i s) = Ok (Some h) -> h ∈ OVERRIDE_REASONS.
Proof.
  unfold health_call. rewrite health_value. intros [= Hh].
  destruct (switch_safety s _ _ _) as [o|] eqn:Es.
  { unfold switch_safety, switch_state_safety_override in Es.
    destruct (rb_switch _); [|done]. simplify_eq. destruct (_ && _); [simplify_eq; left|].
    destruct (switch_feedback_mismatch _ _); [simplify_eq; right; left | done]. }
  destruct (active_contactor_lockout_health s) as [o|] eqn:Ea.
  { simplify_eq. apply active_lockout_known, elem_of_cons in Ea as [->|Ea]; [do 2 right; left|].
    apply list_elem_of_singleton in Ea as ->. do 3 right. left. }
  destruct (suspicion s _ _ _ _ _) as [f|] eqn:Ef; simplify_eq.
  apply suspicion_known in Ef. unfold lockout_of. destruct (locks_out _ _ _).
  - destruct (String.eqb _ _); do 2 right; [left | right; left].
  - do 4 right. exact Ef.
Qed.

(** Every health reason this component reports has a health code of its own, and
    whatever relay state and learning hint it is combined with, the broad Auto state
    derived from it is a recovery or a blocked state. *)
Theorem health_override_reports_known_reason i s h relay_on learned :
  fst (health_call i s) = Ok (Some h) ->
  is_Some (table_get h HEALTH_CODES) /\
  derive_auto_state (VStr h) relay_on learned ∈ ["recovery"; "blocked"].
Proof.
  intros Hh%override_reason_known. unfold OVERRIDE_REASONS in Hh. rewrite !elem_of_cons in Hh.
  destruct Hh as [->|[->|[->|[->|[->|[->|H]]]]]]; [.. | by apply not_elem_of_nil in H];
    (split; [by eexists; vm_compute |]);
    (left || (right; left)).
Qed.

End cycles.

(** ** Witnesses *)

Section witnesses.

(** A first suspicion is reported, not yet as a lockout. *)
Lemma contactor_fault_counted_and_latched_witness :
  str_in "contactor-suspected-open" FAULT_REASONS = true /\
  fst (remember_contactor_fault (Some "contactor-suspected-open") (Some (f_of_Z 5)) initial_svc) =
    Ok (Some (if locks_out initial_svc "contactor-suspected-open" (f_of_Z 5)
              then lockout_of "contactor-suspected-open" else "contactor-suspected-open")) /\
  locks_out initial_svc "contactor-suspected-open" (f_of_Z 5) = false.
Proof.
  split; [reflexivity|]. split; [|vm_compute; reflexivity].
  exact (proj1 (proj2 (contactor_fault_counted_and_latched "contactor-suspected-open" (f_of_Z 5)
    initial_svc eq_refl))).
Defined.

Definition latched_svc : svc :=
  snd (engage_contactor_lockout (Some "contactor-suspected-welded") None "" initial_svc).
Definition quiet_cycle : health_input := mkHealthInput true true None None None false.

Lemma contactor_lockout_survives_cycles_witness :
  active_contactor_lockout_health latched_svc = Some "contactor-lockout-welded" /\
  active_contactor_lockout_health (snd (health_calls [quiet_cycle; quiet_cycle] latched_svc)) =
    Some "contactor-lockout-welded".
Proof.
  assert (active_contactor_lockout_health latched_svc = Some "contactor-lockout-welded") as H
    by reflexivity.
  split; [exact H|].
  exact (proj1 (contactor_lockout_survives_cycles [quiet_cycle; quiet_cycle] latched_svc _ H)).
Defined.

Lemma health_override_reports_known_reason_witness :
  fst (health_call quiet_cycle latched_svc) = Ok (Some "contactor-lockout-welded") /\
  is_Some (table_get "contactor-lockout-welded" HEALTH_CODES).
Proof.
  assert (fst (health_call quiet_cycle latched_svc) = Ok (Some "contactor-lockout-welded")) as H
    by (vm_compute; reflexivity).
  split; [exact H|].
  exact (proj1 (health_override_reports_known_reason quiet_cycle latched_svc _ false VNone H)).
Defined.

End witnesses.
