(* ===== verification/PhaseSwitch.v ===== *)
(** * Staged phase switching

    [update/relay_phase_switch_policy.py] (candidates, staging, direct apply),
    [update/relay_phase_switch_runtime.py] (the waiting and stabilizing states) and
    [update/relay_phase_switch_runtime_recovery.py] (resume and abort).

    A phase switch that needs a pause is staged: the relay is held off in
    [waiting-relay-off] until it is confirmed off and the pause has elapsed, then
    the selection is applied and the relay stays off in [stabilizing] until the
    new selection is observed or the verification deadline passes. *)

From S2P Require Import Prelude PyFloat PyValue Contracts BackendModels Service CommonAuto Transport PhaseMismatch PhaseSelector ChargerHealth.

(** update/relay.py: PHASE_SWITCH_WAITING_STATE *)
Definition PHASE_SWITCH_WAITING_STATE : string := "waiting-relay-off".
(** update/relay.py: PHASE_SWITCH_STABILIZING_STATE *)
Definition PHASE_SWITCH_STABILIZING_STATE : string := "stabilizing".
(** update/relay_phase_switch_policy.py: PHASE_SELECTION_APPLY_ERRORS *)
Definition PHASE_SELECTION_APPLY_ERRORS : list exn :=
  [KeyError; OSError; RuntimeError; TypeError; ValueError].
(** update/relay_phase_switch_policy.py: PHASE_SWITCH_STATE_SAVE_ERRORS *)
Definition PHASE_SWITCH_STATE_SAVE_ERRORS : list exn :=
  [OSError; RuntimeError; TypeError; ValueError].
(** update/relay_phase_switch_runtime_recovery.py: PHASE_SWITCH_RUNTIME_APPLY_ERRORS *)
Definition PHASE_SWITCH_RUNTIME_APPLY_ERRORS : list exn :=
  [AttributeError; KeyError; OSError; RuntimeError; TypeError; ValueError].
(** update/relay_phase_switch_runtime_recovery.py: PHASE_SWITCH_FALLBACK_SELECTION *)
Definition PHASE_SWITCH_FALLBACK_SELECTION : PhaseSelection := P1.

(** update/relay_phase_switch_runtime_recovery.py: _non_negative_seconds_attr *)
Definition non_negative_seconds_attr (attr : option float) (dflt : float) : float :=
  match finite_of attr with
  | None => dflt
  | Some configured => fmax f0 configured
  end.

(** The cycle values an override may replace: relay, power, current, confirmed. *)
Definition cycle : Type := bool * float * float * bool.

(** ** Candidates *)

(** update/relay_phase_switch_policy.py: AutoPhaseSwitchController._clear_auto_phase_candidate *)
Definition clear_auto_phase_candidate : M svc unit :=
  modify (fun s =>
    s <| auto_phase_target_candidate := None |>
      <| auto_phase_target_since := None |>).

(** update/relay_phase_switch_policy.py: AutoPhaseSwitchController._auto_phase_switch_delay_seconds *)
Definition auto_phase_switch_delay_seconds (s : svc)
    (current_selection target_selection : PhaseSelection) : float :=
  if phase_count current_selection <? phase_count target_selection
  then fmax f0 s.(cfg).(phase_policy).(app_upshift_delay_seconds)
  else fmax f0 s.(cfg).(phase_policy).(app_downshift_delay_seconds).

(** update/relay_phase_switch_policy.py: AutoPhaseSwitchController._auto_phase_candidate_ready *)
Definition auto_phase_candidate_ready (current_selection target_selection : PhaseSelection)
    (now : float) : M svc bool :=
  s ← get;
  if negb (bool_decide (s.(auto_phase_target_candidate) = Some target_selection)) then
    modify (fun s =>
      s <| auto_phase_target_candidate := Some target_selection |>
        <| auto_phase_target_since := Some now |>);;
    mret false
  else
    match finite_of s.(auto_phase_target_since) with
    | None => modify (fun s => s <| auto_phase_target_since := Some now |>);; mret false
    | Some candidate_since =>
      mret (now - candidate_since >=?
            auto_phase_switch_delay_seconds s current_selection target_selection)%F
    end.

(** update/relay_phase_switch_policy.py: AutoPhaseSwitchController._stage_phase_switch *)
Definition stage_phase_switch (requested_selection : PhaseSelection) (current_time : float)
    (resume_relay : bool) : M svc unit :=
  modify (fun s =>
    s <| requested_phase_selection := Some (phase_text requested_selection) |>
      <| phase_switch_pending_selection := Some (phase_text requested_selection) |>
      <| phase_switch_state := Some PHASE_SWITCH_WAITING_STATE |>
      <| phase_switch_requested_at := Some current_time |>
      <| phase_switch_stable_until := None |>
      <| phase_switch_resume_relay := resume_relay |>).

(** update/relay_phase_switch_runtime.py: PhaseSwitchCoordinator.pending_selection *)
Definition pending_selection (s : svc) : option PhaseSelection :=
  match s.(phase_switch_pending_selection) with
  | None => None
  | Some pending =>
    Some (default PHASE_SWITCH_FALLBACK_SELECTION
            (normalize_phase_selection_or_none (VStr pending)))
  end.

(** update/relay_phase_switch_runtime.py: PhaseSwitchCoordinator.state_active *)
Definition state_active (pending : option PhaseSelection) (switch_state : string) : bool :=
  match pending with
  | None => false
  | Some _ => str_in switch_state [PHASE_SWITCH_WAITING_STATE; PHASE_SWITCH_STABILIZING_STATE]
  end.

(** [""] for a missing switch state. *)
Definition switch_state_text (s : svc) : string := default "" s.(phase_switch_state).

(** update/relay_phase_switch_policy.py: AutoPhaseSwitchController._auto_phase_switch_already_active *)
Definition auto_phase_switch_already_active (s : svc) : bool :=
  state_active (pending_selection s) (switch_state_text s).

Section ports.
Context {RP : RelayPorts}.

(** update/relay_phase_switch_policy.py: AutoPhaseSwitchController._phase_change_requires_staging *)
Definition phase_change_requires_staging (s : svc) (relay_on : bool) (now : float) : bool :=
  if negb (port_phase_selection_requires_pause s) then false
  else
    match fst (port_pending_relay_command s) with
    | Some _ => true
    | None =>
      match fresh_confirmed_relay_output s (Some now) with
      | Some confirmed_output => confirmed_output
      | None => relay_on
      end
    end.

(** update/relay_phase_switch_policy.py: AutoPhaseSwitchController._persist_phase_switch_state_best_effort *)
Definition persist_phase_switch_state_best_effort (transition : string) : M svc unit :=
  try_except save_runtime_state (exn_in PHASE_SWITCH_STATE_SAVE_ERRORS)
    (fun _ => emit (EWarning ("phase-switch-state-save-failed-" ++ transition)%string)).

(** The lockout of a selection that was just applied or confirmed is lifted. *)
Definition clear_lockout_of (selection : PhaseSelection) : M svc unit :=
  s ← get;
  match s.(phase_switch_lockout_selection) with
  | Some lockout_selection =>
    if bool_decide (normalize_phase_selection (VStr lockout_selection) P1 = selection)
    then clear_phase_switch_lockout else mret tt
  | None => mret tt
  end.

(** update/relay_phase_switch_policy.py: AutoPhaseSwitchController._apply_auto_phase_target *)
Definition apply_auto_phase_target (target_selection : PhaseSelection)
    (desired_relay relay_on : bool) (now : float) : M svc (option bool) :=
  s ← get;
  if phase_change_requires_staging s relay_on now then
    stage_phase_switch target_selection now desired_relay;;
    clear_auto_phase_candidate;;
    persist_phase_switch_state_best_effort "staging";;
    publish_local_pm_status_best_effort false now;;
    mret (Some false)
  else
    applied ← try_except (fmap Some (apply_phase_selection target_selection))
      (exn_in PHASE_SELECTION_APPLY_ERRORS)
      (fun _ =>
         emit (EMarkFailure "shelly");;
         emit (EWarning "auto-phase-switch-failed");;
         clear_auto_phase_candidate;;
         mret None);
    match applied with
    | None => mret None
    | Some applied_selection =>
      modify (fun s =>
        s <| requested_phase_selection := Some (phase_text applied_selection) |>
          <| active_phase_selection := Some (phase_text applied_selection) |>);;
      clear_phase_switch_mismatch_tracking (Some applied_selection);;
      clear_lockout_of applied_selection;;
      clear_auto_phase_candidate;;
      persist_phase_switch_state_best_effort "physical-apply";;
      mret None
    end.

(** update/relay_phase_switch_policy.py: AutoPhaseSwitchController._auto_phase_selection_inactive *)
Definition auto_phase_selection_inactive (auto_mode_active : bool) : M svc bool :=
  if auto_mode_active then mret false
  else clear_auto_phase_candidate;; mret true.

(** update/relay_phase_switch_policy.py: AutoPhaseSwitchController._auto_phase_selection_blocked *)
Definition auto_phase_selection_blocked (auto_mode_active : bool) : M svc bool :=
  inactive ← auto_phase_selection_inactive auto_mode_active;
  active ← gets auto_phase_switch_already_active;
  mret (inactive || active).

(** update/relay_phase_switch_policy.py: AutoPhaseSwitchController._auto_phase_selection_decision *)
Definition auto_phase_selection_decision (desired_relay relay_on : bool) (voltage now : float)
    : M svc (PhaseSelection * phase_decision) :=
  s ← get;
  let supported := ordered_auto_phase_selections s in
  let current_selection := current_phase_selection s supported in
  '(target_selection, phase_reason, threshold_watts) ←
    auto_phase_target_selection supported current_selection desired_relay relay_on voltage now;
  record_auto_phase_metrics current_selection target_selection phase_reason threshold_watts;;
  mret (current_selection, (target_selection, phase_reason, threshold_watts)).

(** update/relay_phase_switch_policy.py: AutoPhaseSwitchController._pending_auto_phase_target_ready *)
Definition pending_auto_phase_target_ready (current_selection target_selection : PhaseSelection)
    (now : float) (phase_reason : string) (threshold_watts : option float) : M svc bool :=
  ready ← auto_phase_candidate_ready current_selection target_selection now;
  if ready : bool then mret true
  else
    record_auto_phase_metrics current_selection (Some target_selection)
      (phase_reason ++ "-pending")%string threshold_watts;;
    mret false.

(** update/relay_phase_switch_policy.py: AutoPhaseSwitchController.maybe_apply_auto_phase_selection *)
Definition maybe_apply_auto_phase_selection (desired_relay relay_on : bool) (voltage now : float)
    (auto_mode_active : bool) : M svc (option bool) :=
  blocked ← auto_phase_selection_blocked auto_mode_active;
  if blocked : bool then mret None
  else
    '(current_selection, (target, phase_reason, threshold_watts)) ←
      auto_phase_selection_decision desired_relay relay_on voltage now;
    match target with
    | Some target_selection =>
      if bool_decide (target_selection = current_selection)
      then clear_auto_phase_candidate;; mret None
      else
        ready ← pending_auto_phase_target_ready current_selection target_selection now
          phase_reason threshold_watts;
        if ready : bool
        then apply_auto_phase_target target_selection desired_relay relay_on now
        else mret None
    | None => clear_auto_phase_candidate;; mret None
    end.

(** ** Recovery *)

(** The warning text shows the seconds since the request; the state does not.
    update/relay_phase_switch_runtime_recovery.py: PhaseSwitchRecovery._report_phase_switch_mismatch *)
Definition report_phase_switch_mismatch (pending : PhaseSelection) (now : float) : M svc unit :=
  mismatch_count ← remember_phase_switch_mismatch pending now;
  s ← get;
  let lockout_threshold := phase_switch_lockout_threshold s in
  (if (0 <? lockout_threshold) && (lockout_threshold <=? mismatch_count) then
     engage_phase_switch_lockout pending now;;
     _ ← lockout_active now (Some pending);
     mret tt
   else mret tt);;
  emit (EMarkFailure "shelly");;
  emit (ESetHealth "phase-switch-mismatch" false);;
  emit (EWarning "phase-switch-mismatch").

(** update/relay_phase_switch_runtime_recovery.py: PhaseSwitchRecovery.clear_phase_switch_state *)
Definition clear_phase_switch_state : M svc unit :=
  modify (fun s =>
    s <| phase_switch_pending_selection := None |>
      <| phase_switch_state := None |>
      <| phase_switch_requested_at := None |>
      <| phase_switch_stable_until := None |>
      <| phase_switch_resume_relay := false |>
      <| phase_switch_mismatch_active := false |>).

(** update/relay_phase_switch_runtime_recovery.py: PhaseSwitchRecovery._resume_relay_after_phase_switch_failure *)
Definition resume_relay_after_phase_switch_failure (c : cycle) : M svc cycle :=
  emit (EMarkFailure enable_control_source_key);;
  emit (EWarning "phase-switch-resume-failed");;
  save_runtime_state;;
  mret c.

(** update/relay_phase_switch_runtime_recovery.py: PhaseSwitchRecovery._resume_relay_after_phase_switch *)
Definition resume_relay_after_phase_switch (c : cycle) (now : float) : M svc cycle :=
  applied ← try_except (fmap Some (apply_enabled_target true now))
    (exn_in PHASE_SWITCH_RUNTIME_APPLY_ERRORS) (fun _ => mret None);
  match applied with
  | None => resume_relay_after_phase_switch_failure c
  | Some false => save_runtime_state;; mret c
  | Some true =>
    publish_local_pm_status_best_effort true now;;
    save_runtime_state;;
    mret (true, f0, f0, false)
  end.

(** update/relay_phase_switch_runtime_recovery.py: PhaseSwitchRecovery._resume_after_phase_switch_pause *)
Definition resume_after_phase_switch_pause (c : cycle) (now : float) (auto_mode_active : bool)
    : M svc cycle :=
  resume_relay ← gets phase_switch_resume_relay;
  clear_phase_switch_state;;
  if negb resume_relay then save_runtime_state;; mret c
  else if auto_mode_active then
    modify (fun s => s <| ignore_min_offtime_once := true |>);;
    save_runtime_state;;
    mret c
  else resume_relay_after_phase_switch c now.

(** update/relay_phase_switch_runtime_recovery.py: PhaseSwitchRecovery._abort_phase_switch_after_mismatch *)
Definition abort_phase_switch_after_mismatch (pending : PhaseSelection)
    (observed : option PhaseSelection) (c : cycle) (now : float) (auto_mode_active : bool)
    : M svc cycle :=
  s ← get;
  let fallback := phase_switch_fallback_selection s observed pending in
  modify (fun s =>
    s <| requested_phase_selection := Some (phase_text fallback) |>
      <| active_phase_selection := Some (phase_text fallback) |>);;
  clear_auto_phase_candidate;;
  resume_after_phase_switch_pause c now auto_mode_active.

(** update/relay_phase_switch_runtime_recovery.py: PhaseSwitchRecovery._abort_pending_phase_switch *)
Definition abort_pending_phase_switch (c : cycle) (now : float) (auto_mode_active : bool)
    : M svc cycle :=
  modify (fun s =>
    s <| requested_phase_selection :=
      match s.(active_phase_selection), s.(requested_phase_selection) with
      | Some active, _ => Some active
      | None, Some requested => Some requested
      | None, None => Some "P1"
      end |>);;
  emit (EMarkFailure "shelly");;
  emit (EWarning "phase-switch-apply-failed");;
  resume_after_phase_switch_pause c now auto_mode_active.

(** ** The state machine *)

(** update/relay_phase_switch_runtime.py: PhaseSwitchCoordinator._phase_switch_pause_seconds *)
Definition pause_seconds (s : svc) : float :=
  non_negative_seconds_attr s.(cfg).(phase_switch_pause_seconds) f1.

(** update/relay_phase_switch_runtime.py: PhaseSwitchCoordinator._phase_switch_stabilization_seconds *)
Definition stabilization_seconds (s : svc) : float :=
  non_negative_seconds_attr s.(cfg).(phase_switch_stabilization_seconds) (f_of_Z 2).

(** update/relay_phase_switch_runtime.py: PhaseSwitchCoordinator._observed_phase_selection_from_pm_status *)
Definition observed_phase_selection_from_pm_status (pm_status : list (string * pyval))
    : option PhaseSelection :=
  match default VNone (table_get "_phase_selection" pm_status) with
  | VNone => None
  | observed =>
    Some (default PHASE_SWITCH_FALLBACK_SELECTION (normalize_phase_selection_or_none observed))
  end.

(** update/relay_phase_switch_runtime.py: PhaseSwitchCoordinator._observed_phase_selection_from_charger_state *)
Definition observed_phase_selection_from_charger_state (s : svc) (now : float)
    : option PhaseSelection :=
  fresh_charger_state s (Some now) ≫= ch_phase_selection.

(** update/relay_phase_switch_runtime.py: PhaseSwitchCoordinator._observed_phase_selection *)
Definition observed_phase_selection (s : svc) (pm_status : list (string * pyval)) (now : float)
    : option PhaseSelection :=
  match observed_phase_selection_from_pm_status pm_status with
  | Some p => Some p
  | None => observed_phase_selection_from_charger_state s now
  end.

(** update/relay_phase_switch_runtime.py: PhaseSwitchCoordinator._phase_switch_verification_deadline *)
Definition phase_switch_verification_deadline (s : svc) : option float :=
  let soft_fail_seconds :=
    non_negative_seconds_attr (Some s.(cfg).(auto_shelly_soft_fail_seconds)) (f_of_Z 10) in
  match finite_of s.(phase_switch_stable_until) with
  | Some stable_until => Some (stable_until + soft_fail_seconds)%F
  | None =>
    match finite_of s.(phase_switch_requested_at) with
    | None => None
    | Some requested_at =>
      Some (requested_at + pause_seconds s + stabilization_seconds s + soft_fail_seconds)%F
    end
  end.

(** update/relay_phase_switch_runtime.py: PhaseSwitchCoordinator._phase_switch_verification_expired *)
Definition phase_switch_verification_expired (s : svc) (now : float) : bool :=
  match phase_switch_verification_deadline s with
  | None => false
  | Some deadline => (now >=? deadline)%F
  end.

(** update/relay_phase_switch_runtime.py: PhaseSwitchCoordinator._phase_switch_waiting_blocked *)
Definition phase_switch_waiting_blocked (relay_on : bool) (pending_relay_state : option bool)
    (pm_confirmed : bool) : bool :=
  relay_on || bool_decide (pending_relay_state <> None) || negb pm_confirmed.

(** update/relay_phase_switch_runtime.py: PhaseSwitchCoordinator._phase_switch_pause_elapsed *)
Definition phase_switch_pause_elapsed (s : svc) (now : float) : bool :=
  match s.(phase_switch_requested_at) with
  | None => true
  | Some requested_at => (now - requested_at >=? pause_seconds s)%F
  end.

(** update/relay_phase_switch_runtime.py: PhaseSwitchCoordinator._phase_switch_waiting_ready *)
Definition phase_switch_waiting_ready (s : svc) (relay_on pm_confirmed : bool) (now : float)
    : bool :=
  if phase_switch_waiting_blocked relay_on (fst (port_pending_relay_command s)) pm_confirmed
  then false
  else phase_switch_pause_elapsed s now.

(** A cycle whose relay is held off while the switch is in progress. *)
Definition held_off : cycle * option bool := ((false, f0, f0, false), Some false).

(** update/relay_phase_switch_runtime.py: PhaseSwitchCoordinator._apply_pending_phase_selection *)
Definition apply_pending_phase_selection (pending : PhaseSelection) (now : float)
    : M svc (cycle * option bool) :=
  applied_selection ← apply_phase_selection pending;
  modify (fun s =>
    s <| phase_switch_mismatch_active := false |>
      <| requested_phase_selection := Some (phase_text applied_selection) |>
      <| phase_switch_state := Some PHASE_SWITCH_STABILIZING_STATE |>
      <| phase_switch_stable_until := Some (now + stabilization_seconds s)%F |>);;
  save_runtime_state;;
  mret held_off.

(** update/relay_phase_switch_runtime.py: PhaseSwitchCoordinator._orchestrate_waiting_phase_switch *)
Definition orchestrate_waiting_phase_switch (pending : PhaseSelection) (c : cycle) (now : float)
    (auto_mode_active : bool) : M svc (cycle * option bool) :=
  s ← get;
  let '(relay_on, _, _, pm_confirmed) := c in
  if negb (phase_switch_waiting_ready s relay_on pm_confirmed now) then mret (c, Some false)
  else
    try_except (apply_pending_phase_selection pending now)
      (exn_in PHASE_SWITCH_RUNTIME_APPLY_ERRORS)
      (fun _ =>
         c' ← abort_pending_phase_switch c now auto_mode_active;
         mret (c', None)).

(** update/relay_phase_switch_runtime.py: PhaseSwitchCoordinator._remember_observed_phase_selection *)
Definition remember_observed_phase_selection (pm_status : list (string * pyval)) (now : float)
    : M svc (option PhaseSelection) :=
  s ← get;
  match observed_phase_selection s pm_status now with
  | Some observed =>
    modify (fun s => s <| active_phase_selection := Some (phase_text observed) |>);;
    mret (Some observed)
  | None => mret None
  end.

(** update/relay_phase_switch_runtime.py: PhaseSwitchCoordinator._phase_switch_still_stabilizing *)
Definition phase_switch_still_stabilizing (s : svc) (now : float) : bool :=
  match s.(phase_switch_stable_until) with
  | None => false
  | Some stable_until => (now <? stable_until)%F
  end.

(** update/relay_phase_switch_runtime.py: PhaseSwitchCoordinator._stabilizing_phase_switch_mismatch_result *)
Definition stabilizing_phase_switch_mismatch_result (pending : PhaseSelection)
    (observed : option PhaseSelection) (c : cycle) (now : float) (auto_mode_active : bool)
    : M svc (option (cycle * option bool)) :=
  if bool_decide (observed = Some pending) then mret None
  else
    s ← get;
    if negb (phase_switch_verification_expired s now) then mret (Some held_off)
    else
      report_phase_switch_mismatch pending now;;
      c' ← abort_phase_switch_after_mismatch pending observed c now auto_mode_active;
      mret (Some (c', None)).

(** update/relay_phase_switch_runtime.py: PhaseSwitchCoordinator._complete_stabilized_phase_switch *)
Definition complete_stabilized_phase_switch (pending : PhaseSelection) (c : cycle) (now : float)
    (auto_mode_active : bool) : M svc (cycle * option bool) :=
  modify (fun s => s <| active_phase_selection := Some (phase_text pending) |>);;
  clear_phase_switch_mismatch_tracking (Some pending);;
  clear_lockout_of pending;;
  c' ← resume_after_phase_switch_pause c now auto_mode_active;
  mret (c', None).

(** update/relay_phase_switch_runtime.py: PhaseSwitchCoordinator._orchestrate_stabilizing_phase_switch *)
Definition orchestrate_stabilizing_phase_switch (pending : PhaseSelection)
    (pm_status : list (string * pyval)) (c : cycle) (now : float) (auto_mode_active : bool)
    : M svc (cycle * option bool) :=
  observed ← remember_observed_phase_selection pm_status now;
  s ← get;
  if phase_switch_still_stabilizing s now then mret held_off
  else
    mismatch_result ←
      stabilizing_phase_switch_mismatch_result pending observed c now auto_mode_active;
    match mismatch_result with
    | Some r => mret r
    | None => complete_stabilized_phase_switch pending c now auto_mode_active
    end.

(** update/relay_phase_switch_runtime.py: PhaseSwitchCoordinator.orchestrate_pending_phase_switch *)
Definition orchestrate_pending_phase_switch (pm_status : list (string * pyval)) (c : cycle)
    (now : float) (auto_mode_active : bool) : M svc (cycle * option bool) :=
  s ← get;
  match pending_selection s with
  | Some pending =>
    if negb (state_active (Some pending) (switch_state_text s))
    then clear_phase_switch_state;; mret (c, None)
    else if (switch_state_text s =? PHASE_SWITCH_WAITING_STATE)%string
    then orchestrate_waiting_phase_switch pending c now auto_mode_active
    else orchestrate_stabilizing_phase_switch pending pm_status c now auto_mode_active
  | None => clear_phase_switch_state;; mret (c, None)
  end.

End ports.

#[export] Hint Unfold
  clear_auto_phase_candidate auto_phase_candidate_ready stage_phase_switch
  persist_phase_switch_state_best_effort clear_lockout_of apply_auto_phase_target
  auto_phase_selection_inactive auto_phase_selection_blocked auto_phase_selection_decision
  pending_auto_phase_target_ready maybe_apply_auto_phase_selection
  report_phase_switch_mismatch clear_phase_switch_state
  resume_relay_after_phase_switch_failure resume_relay_after_phase_switch
  resume_after_phase_switch_pause abort_phase_switch_after_mismatch
  abort_pending_phase_switch apply_pending_phase_selection orchestrate_waiting_phase_switch
  remember_observed_phase_selection stabilizing_phase_switch_mismatch_result
  complete_stabilized_phase_switch orchestrate_stabilizing_phase_switch
  orchestrate_pending_phase_switch : methods.
