(* ===== verification/PhaseSwitchSafety.v ===== *)
(** * Safety of staged phase switching

    The contract of [PhaseSwitch]: an abstract machine with three states, the
    relation that says which runs of the detailed methods realise which of its
    transitions, and the safety properties that follow. *)

From S2P Require Import Prelude PyFloat PyValue Contracts BackendModels Service CommonAuto Transport PhaseMismatch PhaseSelector ChargerHealth PhaseSwitch.

(** ** The abstract machine *)

(** No switch is staged; the relay is being held off; the selection was commanded
    and is being verified. *)
Inductive phase_machine :=
  | Idle
  | Waiting (pending : PhaseSelection) (requested_at : option float)
  | Stabilizing (pending : PhaseSelection) (stable_until : option float).

(** The machine state that the four attributes of a staged switch stand for. *)
Definition machine_of (pending : option PhaseSelection) (state : string)
    (requested_at stable_until : option float) : phase_machine :=
  match pending with
  | None => Idle
  | Some p =>
    if (state =? PHASE_SWITCH_WAITING_STATE)%string then Waiting p requested_at
    else if (state =? PHASE_SWITCH_STABILIZING_STATE)%string then Stabilizing p stable_until
    else Idle
  end.

Definition machine (s : svc) : phase_machine :=
  machine_of (pending_selection s) (switch_state_text s) s.(phase_switch_requested_at)
    s.(phase_switch_stable_until).

(** One call at time [now]; the label lists the selections it commanded. *)
Inductive machine_step (pause stabilization now : float)
    : phase_machine -> list PhaseSelection -> phase_machine -> Prop :=
  | step_stay m : machine_step pause stabilization now m [] m
  | step_direct p : machine_step pause stabilization now Idle [p] Idle
  | step_stage p : machine_step pause stabilization now Idle [] (Waiting p (Some now))
  | step_apply p t :
      (forall t0, t = Some t0 -> (now - t0 >=? pause)%F = true) ->
      machine_step pause stabilization now (Waiting p t) [p]
        (Stabilizing p (Some (now + stabilization)%F))
  | step_raise p t :
      (forall t0, t = Some t0 -> (now - t0 >=? pause)%F = true) ->
      machine_step pause stabilization now (Waiting p t) [p] (Waiting p t)
  | step_fail p t :
      (forall t0, t = Some t0 -> (now - t0 >=? pause)%F = true) ->
      machine_step pause stabilization now (Waiting p t) [p] Idle
  | step_end p u :
      (forall u0, u = Some u0 -> (now <? u0)%F = false) ->
      machine_step pause stabilization now (Stabilizing p u) [] Idle.

(** ** Effects *)

Definition is_apply (e : effect) : bool := match e with EApplyPhase _ => true | _ => false end.
Definition is_enable (e : effect) : bool :=
  match e with ESetEnabled _ | EQueueRelay _ => true | _ => false end.

(** No selection is commanded; the relay is not commanded. *)
Definition quiet (e : effect) : Prop := is_apply e = false.
Definition still (e : effect) : Prop := is_enable e = false.

(** The selections a run commanded. *)
Definition applied (l : list effect) : list PhaseSelection :=
  omap (fun e => match e with EApplyPhase p => Some p | _ => None end) l.

Lemma applied_quiet l : Forall quiet l -> applied l = [].
Proof. unfold applied. induction 1 as [|e l H _ IH]; [done|]. by destruct e. Qed.

Lemma elem_of_applied p l : EApplyPhase p ∈ l <-> p ∈ applied l.
Proof.
  unfold applied. rewrite list_elem_of_omap. split; [eauto|].
  intros (e & Hin & Heq). destruct e; simplify_eq; done.
Qed.

Lemma quiet_no_apply p l : Forall quiet l -> EApplyPhase p ∉ l.
Proof. rewrite elem_of_applied. intros H%applied_quiet. rewrite H. apply not_elem_of_nil. Qed.

(** The attributes the abstract state is a function of. *)
Definition switch_core (s : svc) :=
  (s.(phase_switch_pending_selection), s.(phase_switch_state), s.(phase_switch_requested_at),
   s.(phase_switch_stable_until)).

Lemma machine_core s s' : frame switch_core s s' -> machine s' = machine s.
Proof.
  unfold frame, switch_core, machine, pending_selection, switch_state_text.
  by intros [= -> -> -> ->].
Qed.

(** A run that commands no selection and leaves the staged switch alone. *)
Definition neutral (s s' : svc) : Prop := adds quiet s s' /\ frame switch_core s s'.

#[export] Instance neutral_preorder : PreOrder neutral.
Proof.
  split; [by split|]. intros s1 s2 s3 [? ?] [? ?]. split; by etrans.
Qed.

Lemma keeps_neutral {A} (m : M svc A) :
  keeps (adds quiet) m -> keeps (frame switch_core) m -> keeps neutral m.
Proof. intros H1 H2 s. split; [apply H1 | apply H2]. Qed.

Section runs.
Context {RP : RelayPorts}.

(** ** The parts of a run *)

Lemma resume_quiet c now a : keeps (adds quiet) (resume_after_phase_switch_pause c now a).
Proof. svc_keeps. Qed.

(** Finishing or aborting a switch always clears it, whatever the resume raises. *)
Definition idle (s : svc) : Prop := machine s = Idle.

Lemma resume_idle c now a : ends idle (resume_after_phase_switch_pause c now a).
Proof.
  intros s. unfold resume_after_phase_switch_pause. rewrite bind_gets.
  unfold clear_phase_switch_state at 1. rewrite bind_modify.
  set (s1 := _ <| phase_switch_mismatch_active := false |>).
  change (machine (snd ((if negb (phase_switch_resume_relay s)
    then save_runtime_state;; mret c
    else if a then modify (fun s => s <| ignore_min_offtime_once := true |>);;
                   save_runtime_state;; mret c
    else resume_relay_after_phase_switch c now) s1)) = machine s1).
  apply machine_core.
  match goal with |- frame _ _ (snd (?m s1)) => assert (keeps (frame switch_core) m) as H end;
    [svc_keeps | apply H].
Qed.

Ltac ends_tac :=
  repeat lazymatch goal with
    | |- ends _ (resume_after_phase_switch_pause _ _ _) => apply resume_idle
    | |- ends _ (mbind _ _) => apply ends_seq; [total_tac | intros ?]
    end.

Lemma abort_pending_quiet c now a : keeps (adds quiet) (abort_pending_phase_switch c now a).
Proof. svc_keeps. Qed.

Lemma abort_pending_idle c now a : ends idle (abort_pending_phase_switch c now a).
Proof. unfold abort_pending_phase_switch. ends_tac. Qed.

Lemma abort_mismatch_idle p o c now a :
  ends idle (abort_phase_switch_after_mismatch p o c now a).
Proof. unfold abort_phase_switch_after_mismatch. ends_tac. Qed.

Lemma complete_idle p c now a : ends idle (complete_stabilized_phase_switch p c now a).
Proof.
  unfold complete_stabilized_phase_switch.
  do 3 (apply ends_seq; [total_tac | intros ?]).
  by apply ends_then; [apply resume_idle |].
Qed.

Lemma report_neutral p now : keeps neutral (report_phase_switch_mismatch p now).
Proof. apply keeps_neutral; svc_keeps. Qed.

Lemma observe_cfg pm now : keeps (frame cfg) (remember_observed_phase_selection pm now).
Proof. svc_keeps. Qed.

Lemma verification_expired_core s s' now :
  frame switch_core s s' -> frame cfg s s' ->
  phase_switch_verification_expired s' now = phase_switch_verification_expired s now.
Proof.
  unfold frame, switch_core, phase_switch_verification_expired, phase_switch_verification_deadline,
    pause_seconds, stabilization_seconds. by intros [= _ _ -> ->] ->.
Qed.

Lemma observe_neutral pm now : keeps neutral (remember_observed_phase_selection pm now).
Proof. apply keeps_neutral; svc_keeps. Qed.

Lemma stabilizing_quiet p pm c now a :
  keeps (adds quiet) (orchestrate_stabilizing_phase_switch p pm c now a).
Proof. svc_keeps. Qed.

(** ** Outcomes of one orchestration call *)

(** Every outcome of [orchestrate_pending_phase_switch]: the result, the machine
    state left behind and the effects. *)
Inductive outcome (s : svc) (c : cycle) (now : float)
    : res (cycle * option bool) -> phase_machine -> list effect -> Prop :=
  | out_idle : machine s = Idle -> outcome s c now (Ok (c, None)) Idle []
  | out_wait p t :
      machine s = Waiting p t ->
      outcome s c now (Ok (c, Some false)) (Waiting p t) []
  | out_commanded p t r m l :
      machine s = Waiting p t ->
      phase_switch_waiting_ready s (fst (fst (fst c))) (snd c) now = true ->
      Forall quiet l ->
      (m = Stabilizing p (Some (now + stabilization_seconds s)%F) /\
         (r = Ok held_off \/ exists e, r = Err e)) \/
      (m = Idle /\ forall v, r = Ok v -> snd v = None) \/
      (m = Waiting p t /\ exists e, r = Err e) ->
      outcome s c now r m (EApplyPhase p :: l)
  | out_hold p u l :
      machine s = Stabilizing p u ->
      phase_switch_still_stabilizing s now = true \/
        phase_switch_verification_expired s now = false ->
      Forall quiet l ->
      outcome s c now (Ok held_off) (Stabilizing p u) l
  | out_end p u r l :
      machine s = Stabilizing p u -> phase_switch_still_stabilizing s now = false ->
      Forall quiet l -> (forall v, r = Ok v -> snd v = None) ->
      outcome s c now r Idle l.

Lemma machine_waiting s p :
  pending_selection s = Some p -> switch_state_text s = PHASE_SWITCH_WAITING_STATE ->
  machine s = Waiting p s.(phase_switch_requested_at).
Proof. unfold machine. by intros -> ->. Qed.

Lemma machine_stabilizing s p :
  pending_selection s = Some p -> switch_state_text s = PHASE_SWITCH_STABILIZING_STATE ->
  machine s = Stabilizing p s.(phase_switch_stable_until).
Proof. unfold machine. by intros -> ->. Qed.

(** A run that commanded [p] and nothing else before it. *)
Definition commanded (p : PhaseSelection) (s s' : svc) : Prop :=
  exists l, s'.(log) = (s.(log) ++ EApplyPhase p :: l)%list /\ Forall quiet l.

Lemma commanded_more p s s1 s2 : commanded p s s1 -> adds quiet s1 s2 -> commanded p s s2.
Proof.
  intros (l & E & F) (l' & E' & F'). exists (l ++ l')%list.
  by rewrite E', E, <- app_assoc, Forall_app.
Qed.

Lemma commanded_adds p s s' : commanded p s s' -> adds (fun _ => True) s s'.
Proof.
  intros (l & E & _). eexists. split; [exact E|]. by apply Forall_true.
Qed.

Lemma apply_pending_outcome p now s t :
  machine s = Waiting p t -> pending_selection s = Some p ->
  wp (apply_pending_phase_selection p now)
    (fun r s' => commanded p s s' /\
       (machine s' = Stabilizing p (Some (now + stabilization_seconds s)%F) /\
          (r = Ok held_off \/ exists e, r = Err e) \/
        machine s' = Waiting p t /\ exists e, r = Err e)) s.
Proof.
  intros Hm Hp. unfold apply_pending_phase_selection, apply_phase_selection, save_runtime_state.
  wp_step. apply wp_call. destruct (port_apply_phase_selection _ _) as [q|e].
  - do 2 wp_step. wp_step. apply wp_call.
    match goal with |- context [port_save_runtime_state ?s2] => set (s' := s2) end.
    assert (machine s' = Stabilizing p (Some (now + stabilization_seconds s)%F)) as Hs'
      by (apply machine_stabilizing; [exact Hp | reflexivity]).
    assert (commanded p s s') as Hc.
    { exists [ESaveState]. split; [|by repeat constructor].
      subst s'. cbn. by rewrite <- app_assoc. }
    destruct (port_save_runtime_state s'); [wp_step|]; (split; [exact Hc|]); left; eauto.
  - split; [by exists [] | right; split; [exact Hm | eauto]].
Qed.

Definition outcome_of (s : svc) (c : cycle) (now : float) (r : res (cycle * option bool))
    (s' : svc) : Prop :=
  adds (fun _ => True) s s' /\ outcome s c now r (machine s') (new_effects s s').

Lemma commanded_outcome s c now r s' p t :
  machine s = Waiting p t ->
  phase_switch_waiting_ready s (fst (fst (fst c))) (snd c) now = true ->
  commanded p s s' ->
  (machine s' = Stabilizing p (Some (now + stabilization_seconds s)%F) /\
     (r = Ok held_off \/ exists e, r = Err e)) \/
  (machine s' = Idle /\ forall v, r = Ok v -> snd v = None) \/
  (machine s' = Waiting p t /\ exists e, r = Err e) ->
  outcome_of s c now r s'.
Proof.
  intros Hm Hr Hc Ho. split; [by eapply commanded_adds|].
  destruct Hc as (l & E & F). rewrite (new_effects_app _ _ _ E). by econstructor.
Qed.

Lemma waiting_outcome p c now a s :
  pending_selection s = Some p -> switch_state_text s = PHASE_SWITCH_WAITING_STATE ->
  wp (orchestrate_waiting_phase_switch p c now a) (outcome_of s c now) s.
Proof.
  intros Hp Hst. pose proof (machine_waiting s p Hp Hst) as Hm.
  destruct c as [[[relay_on power] current] conf].
  unfold orchestrate_waiting_phase_switch. do 2 wp_step.
  destruct (phase_switch_waiting_ready s relay_on conf now) eqn:Hr; cbn [negb].
  - wp_step. eapply wp_mono; [by eapply apply_pending_outcome|]. cbv beta.
    intros r s1 [Hc Ho].
    assert (outcome_of s (relay_on, power, current, conf) now r s1) as Hdone.
    { eapply commanded_outcome; eauto. tauto. }
    destruct r as [v|e]; [done|]. destruct (exn_in _ e); [|done].
    wp_step. unfold wp. pose proof (abort_pending_idle (relay_on, power, current, conf) now a s1) as Hi.
    pose proof (abort_pending_quiet (relay_on, power, current, conf) now a s1) as Hq.
    destruct (abort_pending_phase_switch _ _ _ s1) as [r' s2]. cbn [fst snd] in *.
    pose proof (commanded_more _ _ _ _ Hc Hq) as Hc2.
    destruct r'; eapply commanded_outcome; eauto; right; left; split; try exact Hi.
    + by intros v [= <-].
    + done.
  - wp_step. split; [done|]. rewrite Hm, (new_effects_app s s []) by by rewrite app_nil_r.
    by eapply out_wait.
Qed.

(** A run without commands that ends in the machine state [m]. *)
Lemma quiet_outcome s c now r s' :
  adds quiet s s' ->
  (forall l, Forall quiet l -> outcome s c now r (machine s') l) ->
  outcome_of s c now r s'.
Proof.
  intros Hq Ho. split; [|by apply Ho, adds_new_effects]. by apply (adds_weaken quiet).
Qed.

(** The call is over: the switch is cleared and the relay no longer held off. *)
Lemma ended_outcome s c now r s' p u :
  machine s = Stabilizing p u -> phase_switch_still_stabilizing s now = false ->
  adds quiet s s' -> idle s' -> (forall v, r = Ok v -> snd v = None) ->
  outcome_of s c now r s'.
Proof.
  intros Hm Hst Hq Hi Hv. apply quiet_outcome; [done|]. intros l Hl. rewrite Hi.
  by eapply out_end.
Qed.

Lemma held_outcome s c now s' p u :
  machine s = Stabilizing p u -> neutral s s' ->
  phase_switch_still_stabilizing s now = true \/
    phase_switch_verification_expired s now = false ->
  outcome_of s c now (Ok held_off) s'.
Proof.
  intros Hm [Hq Hf] Hh. apply quiet_outcome; [done|]. intros l Hl.
  rewrite (machine_core s s' Hf), Hm. by eapply out_hold.
Qed.

Lemma complete_returns p c now a :
  returns (fun v => snd v = None) (complete_stabilized_phase_switch p c now a).
Proof. do 4 (apply returns_last; intros ?). by apply returns_ret. Qed.

Lemma complete_quiet p c now a : keeps (adds quiet) (complete_stabilized_phase_switch p c now a).
Proof. svc_keeps. Qed.

Lemma abort_mismatch_quiet p o c now a :
  keeps (adds quiet) (abort_phase_switch_after_mismatch p o c now a).
Proof. svc_keeps. Qed.

Lemma still_stabilizing_core s s' now :
  frame switch_core s s' ->
  phase_switch_still_stabilizing s' now = phase_switch_still_stabilizing s now.
Proof. unfold frame, switch_core, phase_switch_still_stabilizing. by intros [= _ _ _ ->]. Qed.

Lemma stabilizing_outcome p pm c now a s :
  pending_selection s = Some p -> switch_state_text s = PHASE_SWITCH_STABILIZING_STATE ->
  wp (orchestrate_stabilizing_phase_switch p pm c now a) (outcome_of s c now) s.
Proof.
  intros Hp Hst. pose proof (machine_stabilizing s p Hp Hst) as Hm.
  unfold orchestrate_stabilizing_phase_switch, stabilizing_phase_switch_mismatch_result.
  wp_step. eapply (wp_total (fun s s' => neutral s s' /\ frame cfg s s'));
    [intros ?; split; [apply observe_neutral | apply observe_cfg] | total_tac | intros obs s1 [Hs1 Hcfg]].
  do 2 wp_step. rewrite (still_stabilizing_core _ _ _ (proj2 Hs1)).
  destruct (phase_switch_still_stabilizing s now) eqn:Hstill.
  { wp_step. eapply held_outcome; eauto. }
  wp_step. destruct (bool_decide _).
  - wp_step. unfold wp. eapply ended_outcome; eauto.
    + etrans; [apply Hs1 | apply complete_quiet].
    + apply complete_idle.
    + apply complete_returns.
  - do 2 wp_step. rewrite (verification_expired_core s s1) by (done || apply Hs1).
    destruct (phase_switch_verification_expired s now) eqn:Hexp; cbn [negb];
      [|do 2 wp_step; eapply held_outcome; eauto].
    wp_step. eapply wp_total; [apply report_neutral | total_tac | intros [] s2 Hs2].
    wp_step. unfold wp.
    pose proof (abort_mismatch_quiet p obs c now a s2) as Hq.
    pose proof (abort_mismatch_idle p obs c now a s2) as Hi.
    assert (adds quiet s (snd (abort_phase_switch_after_mismatch p obs c now a s2))) as Hq'.
    { etrans; [apply Hs1|]. etrans; [apply Hs2 | apply Hq]. }
    destruct (abort_phase_switch_after_mismatch _ _ _ _ _ s2) as [[c'|e] s3].
    + eapply (ended_outcome s c now (Ok (c', None)) s3); eauto. by intros v [= <-].
    + by eapply ended_outcome.
Qed.

Lemma orchestrate_outcome pm c now a s :
  wp (orchestrate_pending_phase_switch pm c now a) (outcome_of s c now) s.
Proof.
  unfold orchestrate_pending_phase_switch. do 2 wp_step.
  assert (machine s = Idle -> wp (clear_phase_switch_state;; mret (c, @None bool))
    (outcome_of s c now) s) as Hidle.
  { intros Hm. split; [by apply adds_same|]. rewrite (new_effects_app s _ []) by by rewrite app_nil_r.
    by apply out_idle. }
  destruct (pending_selection s) as [p|] eqn:Hp; [|apply Hidle; unfold machine; by rewrite Hp].
  destruct (state_active (Some p) (switch_state_text s)) eqn:Ha; cbn [negb].
  - destruct (String.eqb_spec (switch_state_text s) PHASE_SWITCH_WAITING_STATE) as [E|E].
    + by apply waiting_outcome.
    + apply stabilizing_outcome; [done|]. cbn in Ha. apply orb_true_iff in Ha as [Ha|Ha].
      * by apply String.eqb_eq in Ha.
      * apply orb_true_iff in Ha as [Ha|Ha]; [by apply String.eqb_eq in Ha | done].
  - apply Hidle. unfold machine. rewrite Hp. cbn in *. apply orb_false_iff in Ha as [-> Ha].
    by apply orb_false_iff in Ha as [-> _].
Qed.

(** ** Outcomes of one selection call *)

(** The switch to [p] is commanded at once or staged, depending on whether the
    backend wants the relay off first. *)
Definition target_outcome (p : PhaseSelection) (relay_on : bool) (now : float) (s : svc)
    (r : res (option bool)) (s' : svc) : Prop :=
  (phase_change_requires_staging s relay_on now = true /\ adds quiet s s' /\
     machine s' = Waiting p (Some now) /\ forall v, r = Ok v -> v = Some false) \/
  (phase_change_requires_staging s relay_on now = false /\ commanded p s s' /\
     frame switch_core s s' /\ forall v, r = Ok v -> v = None).

Lemma staged_waiting p now resume s :
  machine (snd (stage_phase_switch p now resume s)) = Waiting p (Some now).
Proof.
  apply machine_waiting; [|reflexivity]. unfold pending_selection. cbn -[normalize_phase_selection_or_none].
  by rewrite normalize_phase_text.
Qed.

Lemma apply_target_outcome p desired_relay relay_on now s :
  wp (apply_auto_phase_target p desired_relay relay_on now)
    (target_outcome p relay_on now s) s.
Proof.
  unfold apply_auto_phase_target. do 2 wp_step.
  destruct (phase_change_requires_staging s relay_on now) eqn:Hst.
  - match goal with |- wp ?m _ _ =>
      assert (keeps (adds quiet) m) as Hq by svc_keeps;
      assert (returns (fun v => v = Some false) m) as Hv
        by (do 4 (apply returns_last; intros ?); by apply returns_ret)
    end.
    left. split; [exact Hst|]. split; [apply Hq|]. split; [|apply Hv].
    rewrite <- (staged_waiting p now desired_relay s). unfold mbind at 1, M_bind at 1.
    match goal with |- context [(stage_phase_switch p now desired_relay s)] =>
      destruct (stage_phase_switch p now desired_relay s) as [[[]|e] s1] eqn:E end; [|done].
    cbn [snd]. apply machine_core.
    match goal with |- frame _ _ (snd (?m s1)) => assert (keeps (frame switch_core) m) as H end;
      [svc_keeps | apply H].
  - wp_step. wp_step. wp_step. unfold apply_phase_selection. apply wp_call.
    destruct (port_apply_phase_selection _ _) as [q|e]; cbv beta iota.
    + match goal with |- wp ?m _ ?s1 =>
        assert (keeps neutral m) as Hn by (apply keeps_neutral; svc_keeps);
        assert (returns (fun v => v = None) m) as Hv
          by (do 5 (apply returns_last; intros ?); by apply returns_ret);
        specialize (Hn s1)
      end.
      right. split; [exact Hst|]. destruct Hn as [Ha Hf]. split; [|split; [exact Hf | apply Hv]].
      eapply commanded_more; [|exact Ha]. by exists [].
    + destruct (exn_in _ e); cycle 1.
      * right. split; [exact Hst|]. split; [by exists [] | by split].
      * unfold emit, clear_auto_phase_candidate. repeat wp_step.
        right. split; [exact Hst|]. split; [|split; [done | by intros ? [= <-]]].
        exists [EMarkFailure "shelly"; EWarning "auto-phase-switch-failed"].
        split; [|by repeat constructor]. cbn. by rewrite <- !app_assoc.
Qed.

(** The target has been wanted for the configured delay. *)
Definition matured (s : svc) (p : PhaseSelection) (now : float) : Prop :=
  s.(auto_phase_target_candidate) = Some p /\
  exists since, finite_of s.(auto_phase_target_since) = Some since /\
    (now - since >=? auto_phase_switch_delay_seconds s
       (current_phase_selection s (ordered_auto_phase_selections s)) p)%F = true.

(** Either nothing happened to the staged switch, or the matured target of a
    decision was applied to the state [s1] that the decision left. *)
Definition select_outcome (desired_relay relay_on : bool) (voltage now : float)
    (auto_mode_active : bool) (s : svc) (r : res (option bool)) (s' : svc) : Prop :=
  (neutral s s' /\ forall v, r = Ok v -> v = None) \/
  (auto_mode_active = true /\ machine s = Idle /\
   exists p reason threshold s1,
     let cur := current_phase_selection s (ordered_auto_phase_selections s) in
     p <> cur /\ matured s p now /\
     justified s (ordered_auto_phase_selections s) cur desired_relay relay_on voltage now
       (Some p, reason, threshold) /\
     neutral s s1 /\ target_outcome p relay_on now s1 r s').

Definition candidate_inputs (s : svc) :=
  (s.(auto_phase_target_candidate), s.(auto_phase_target_since), s.(cfg)).

Lemma already_active_machine s : auto_phase_switch_already_active s = false <-> machine s = Idle.
Proof.
  unfold auto_phase_switch_already_active, machine, machine_of, state_active.
  destruct (pending_selection s); [|done]. cbn.
  do 2 (destruct (String.eqb _ _); [done|]). done.
Qed.

Lemma selection_decision_spec desired_relay relay_on voltage now s :
  let cur := current_phase_selection s (ordered_auto_phase_selections s) in
  wp (auto_phase_selection_decision desired_relay relay_on voltage now)
    (fun r s1 => neutral s s1 /\ frame candidate_inputs s s1 /\
       exists d, r = Ok (cur, d) /\
         justified s (ordered_auto_phase_selections s) cur desired_relay relay_on voltage now d) s.
Proof.
  intros cur. unfold wp.
  assert (keeps neutral (auto_phase_selection_decision desired_relay relay_on voltage now)) as Hn
    by (apply keeps_neutral; svc_keeps).
  assert (keeps (frame candidate_inputs)
    (auto_phase_selection_decision desired_relay relay_on voltage now)) as Hf by svc_keeps.
  split; [apply Hn|]. split; [apply Hf|].
  assert (cur ∈ ordered_auto_phase_selections s \/ ordered_auto_phase_selections s = []) as Hin.
  { destruct (ordered_auto_phase_selections s) eqn:E; [by right | left; subst cur; rewrite <- E].
    apply current_phase_selection_supported. congruence. }
  destruct (decision_justified s _ cur desired_relay relay_on voltage now Hin) as (d & Hr & Hj).
  exists d. split; [|done]. unfold auto_phase_selection_decision. rewrite bind_get.
  fold cur. unfold mbind, M_bind in *. cbn [fst snd].
  destruct (auto_phase_target_selection _ cur _ _ _ _ s) as [r s1]. cbn [fst] in Hr. subst r.
  by destruct d as [[t reason] thr].
Qed.

Lemma candidate_ready_spec cur p now s :
  wp (auto_phase_candidate_ready cur p now)
    (fun r s1 => neutral s s1 /\ exists b, r = Ok b /\
       (b = true -> s1 = s /\ s.(auto_phase_target_candidate) = Some p /\
          exists since, finite_of s.(auto_phase_target_since) = Some since /\
            (now - since >=? auto_phase_switch_delay_seconds s cur p)%F = true)) s.
Proof.
  unfold wp. assert (keeps neutral (auto_phase_candidate_ready cur p now)) as Hn
    by (apply keeps_neutral; svc_keeps).
  split; [apply Hn|]. unfold auto_phase_candidate_ready. rewrite bind_get.
  case_bool_decide as Hc; cbn [negb]; [|by exists false].
  destruct (finite_of (auto_phase_target_since s)) as [since|] eqn:Hs; [|by exists false].
  eexists. split; [reflexivity|]. intros Hb. eauto.
Qed.

(** A call that leaves the staged switch alone and forces nothing. *)
Lemma select_nothing d rel v now a s r s' :
  neutral s s' -> (forall o, r = Ok o -> o = None) -> select_outcome d rel v now a s r s'.
Proof. intros H1 H2. by left. Qed.

Lemma maybe_apply_outcome desired_relay relay_on voltage now a s :
  wp (maybe_apply_auto_phase_selection desired_relay relay_on voltage now a)
    (select_outcome desired_relay relay_on voltage now a s) s.
Proof.
  unfold maybe_apply_auto_phase_selection, auto_phase_selection_blocked,
    auto_phase_selection_inactive.
  assert (forall s0 : svc, neutral s0 (snd (clear_auto_phase_candidate s0))) as Hclear
    by (intros s0; split; [by apply adds_same | done]).
  wp_step. wp_step. destruct a; cycle 1.
  { unfold clear_auto_phase_candidate at 1. repeat wp_step. cbn [orb]. wp_step.
    apply select_nothing; [apply Hclear | by intros ? [= <-]]. }
  repeat wp_step. cbn [orb].
  destruct (auto_phase_switch_already_active s) eqn:Hact.
  { wp_step. apply select_nothing; [done | by intros ? [= <-]]. }
  apply already_active_machine in Hact. wp_step.
  eapply wp_mono; [apply selection_decision_spec|]. cbv beta zeta.
  intros r s1 (Hn1 & Hf1 & d & -> & Hj). set (cur := current_phase_selection _ _) in *.
  destruct d as [[[p|] reason] thr]; cycle 1.
  { unfold clear_auto_phase_candidate. repeat wp_step.
    apply select_nothing; [etrans; [exact Hn1 | apply Hclear] | by intros ? [= <-]]. }
  case_bool_decide as Hpc.
  { unfold clear_auto_phase_candidate. repeat wp_step.
    apply select_nothing; [etrans; [exact Hn1 | apply Hclear] | by intros ? [= <-]]. }
  unfold pending_auto_phase_target_ready. do 2 wp_step.
  eapply wp_mono; [apply candidate_ready_spec|]. cbv beta.
  intros r s2 (Hn2 & b & -> & Hb). assert (neutral s s2) as Hn by (by etrans).
  destruct b; cycle 1.
  { unfold record_auto_phase_metrics. repeat wp_step. apply select_nothing; [|by intros ? [= <-]].
    etrans; [exact Hn|]. split; [by apply adds_same | done]. }
  destruct (Hb eq_refl) as (-> & Hcand & since & Hsince & Hdelay). wp_step.
  eapply wp_mono; [apply apply_target_outcome|]. intros r s3 Ho. right.
  unfold frame, candidate_inputs in Hf1. injection Hf1 as E1 E2 E3.
  split; [done|]. split; [done|]. exists p, reason, thr, s1. cbv zeta. fold cur.
  split; [done|]. split; [|done]. split; [congruence|]. exists since. split; [congruence|].
  fold cur. unfold auto_phase_switch_delay_seconds in *. by rewrite E3 in Hdelay.
Qed.

End runs.

(** ** Properties *)

(** One call of the phase-switch logic in an update cycle. *)
Inductive phase_op :=
  | OpSelect (desired_relay relay_on : bool) (voltage now : float) (auto_mode_active : bool)
  | OpOrchestrate (pm_status : list (string * pyval)) (c : cycle) (now : float)
      (auto_mode_active : bool).

Definition op_now (op : phase_op) : float :=
  match op with OpSelect _ _ _ now _ | OpOrchestrate _ _ now _ => now end.

Section properties.
Context {RP : RelayPorts}.

(** The state an operation leaves, also when it raises. *)
Definition run_op (op : phase_op) (s : svc) : svc :=
  match op with
  | OpSelect desired_relay relay_on voltage now a =>
    snd (maybe_apply_auto_phase_selection desired_relay relay_on voltage now a s)
  | OpOrchestrate pm c now a => snd (orchestrate_pending_phase_switch pm c now a s)
  end.

Lemma waiting_ready_inv s (c : cycle) now :
  phase_switch_waiting_ready s (fst (fst (fst c))) (snd c) now = true ->
  fst (fst (fst c)) = false /\ snd c = true /\ fst (port_pending_relay_command s) = None /\
  phase_switch_pause_elapsed s now = true.
Proof.
  destruct c as [[[rel ?] ?] conf]. cbn. unfold phase_switch_waiting_ready, phase_switch_waiting_blocked.
  destruct rel; cbn [orb]; [done|]. case_bool_decide as Hp; [done|].
  destruct conf; cbn [orb negb]; [|done]. intros ->. repeat split.
  destruct (fst (port_pending_relay_command s)); [destruct Hp | ]; done.
Qed.

Lemma machine_waiting_inv s p t :
  machine s = Waiting p t ->
  pending_selection s = Some p /\ switch_state_text s = PHASE_SWITCH_WAITING_STATE /\
  t = s.(phase_switch_requested_at).
Proof.
  unfold machine, machine_of. destruct (pending_selection s); [|done].
  destruct (String.eqb_spec (switch_state_text s) PHASE_SWITCH_WAITING_STATE) as [->|].
  - by intros [= -> ->].
  - by destruct (String.eqb _ _).
Qed.

Lemma machine_stabilizing_inv s p u :
  machine s = Stabilizing p u -> u = s.(phase_switch_stable_until).
Proof.
  unfold machine, machine_of. destruct (pending_selection s); [|done].
  destruct (String.eqb _ _); [done|]. destruct (String.eqb _ _); [|done]. by intros [= _ ->].
Qed.

(** C33. A staged phase selection is commanded at most once per cycle, before any
    other effect of the call, and only in the waiting state for the selection that
    is pending, when the relay is off, the relay sample is confirmed, no relay
    command is outstanding and the configured pause has elapsed. *)
Theorem staged_apply_needs_relay_off pm c now a s p :
  let s' := run_op (OpOrchestrate pm c now a) s in
  EApplyPhase p ∈ new_effects s s' ->
  pending_selection s = Some p /\
  switch_state_text s = PHASE_SWITCH_WAITING_STATE /\
  fst (fst (fst c)) = false /\ snd c = true /\
  fst (port_pending_relay_command s) = None /\
  phase_switch_pause_elapsed s now = true /\
  exists l, new_effects s s' = EApplyPhase p :: l /\ Forall quiet l.
Proof.
  intros s'. destruct (orchestrate_outcome pm c now a s) as [_ Ho].
  change (snd (orchestrate_pending_phase_switch pm c now a s)) with s' in Ho.
  destruct Ho as [| |q t r m l Hm Hr Hq Hcase| ? ? ? ? ? Hq | ? ? ? ? ? ? Hq ?]; intros Hin.
  1-2: by apply not_elem_of_nil in Hin.
  - apply elem_of_cons in Hin as [[= <-]|Hin]; [|by apply quiet_no_apply in Hin].
    apply machine_waiting_inv in Hm as (-> & -> & _).
    apply waiting_ready_inv in Hr as (-> & -> & -> & ->). eauto 10.
  - by apply quiet_no_apply in Hin.
  - by apply quiet_no_apply in Hin.
Qed.

(** The orchestrator forces the relay target off exactly while a staged switch
    remains in progress: when it returns without forcing, the switch is over. *)
Theorem relay_held_off_iff_in_progress pm c now a s c' forced :
  fst (orchestrate_pending_phase_switch pm c now a s) = Ok (c', forced) ->
  (forced = None \/ forced = Some false) /\
  (forced = Some false <->
   auto_phase_switch_already_active (run_op (OpOrchestrate pm c now a) s) = true).
Proof.
  destruct (orchestrate_outcome pm c now a s) as [_ Ho]. cbn [run_op].
  set (s' := snd _) in *. set (r := fst _) in *. intros Hr.
  assert (forced = None /\ machine s' = Idle \/ forced = Some false /\ machine s' <> Idle)
    as [[-> Hm]|[-> Hm]].
  { rewrite Hr in Ho. remember (Ok (c', forced)) as r' eqn:Er.
    destruct Ho as [|? ? Hm|? ? r' m l ? ? ? Hcase|? ? ? Hm ?|? ? r' ? ? ? ? Hv].
    - left. by simplify_eq.
    - right. by simplify_eq.
    - destruct Hcase as [[-> [->|[e ->]]]|[[-> Hv]|[_ [e ->]]]]; simplify_eq.
      + by right.
      + left. split; [|done]. exact (Hv _ eq_refl).
    - right. by simplify_eq.
    - left. subst. split; [|done]. exact (Hv _ eq_refl). }
  - split; [by left|]. apply already_active_machine in Hm. rewrite Hm. done.
  - split; [by right|]. split; [|done]. intros _.
    destruct (auto_phase_switch_already_active s') eqn:E; [done|].
    by apply already_active_machine in E.
Qed.

(** C35. A staged switch never holds the relay off beyond its verification deadline:
    once the stabilization time is over and the deadline has passed, the next call
    ends the switch, confirmed or not, and even if resuming the relay fails. *)
Theorem verification_deadline_ends_switch pm c now a s p u :
  machine s = Stabilizing p u ->
  phase_switch_still_stabilizing s now = false ->
  phase_switch_verification_expired s now = true ->
  machine (run_op (OpOrchestrate pm c now a) s) = Idle.
Proof.
  intros Hm Hst Hexp. destruct (orchestrate_outcome pm c now a s) as [_ Ho]. cbn [run_op].
  destruct Ho as [| | | ? ? ? ? [|] ? |]; congruence.
Qed.

Lemma pause_elapsed_inv s t :
  t = s.(phase_switch_requested_at) ->
  forall now, phase_switch_pause_elapsed s now = true ->
  forall t0, t = Some t0 -> (now - t0 >=? pause_seconds s)%F = true.
Proof. intros -> now H t0 E. unfold phase_switch_pause_elapsed in H. by rewrite E in H. Qed.

Lemma orchestrate_step pm c now a s :
  machine_step (pause_seconds s) (stabilization_seconds s) now (machine s)
    (applied (new_effects s (run_op (OpOrchestrate pm c now a) s)))
    (machine (run_op (OpOrchestrate pm c now a) s)).
Proof.
  destruct (orchestrate_outcome pm c now a s) as [_ Ho]. cbn [run_op].
  destruct Ho as [Hm|p t Hm|p t r m l Hm Hr Hq Hcase|p u l Hm Hh Hq|p u r l Hm Hst Hq Hv].
  - rewrite Hm. constructor.
  - rewrite Hm. constructor.
  - rewrite Hm. change (applied (EApplyPhase p :: l)) with (p :: applied l).
    rewrite (applied_quiet _ Hq).
    assert (forall t0, t = Some t0 -> (now - t0 >=? pause_seconds s)%F = true) as Hp.
    { apply pause_elapsed_inv; [by apply machine_waiting_inv in Hm as (_ & _ & ?)|].
      by apply waiting_ready_inv in Hr as (_ & _ & _ & ?). }
    destruct Hcase as [[-> _]|[[-> _]|[-> _]]]; by constructor.
  - rewrite Hm, (applied_quiet _ Hq). constructor.
  - rewrite Hm, (applied_quiet _ Hq). constructor. intros u0 Hu.
    apply machine_stabilizing_inv in Hm. rewrite Hu in Hm.
    unfold phase_switch_still_stabilizing in Hst. by rewrite <- Hm in Hst.
Qed.

Lemma select_step desired_relay relay_on voltage now a s :
  let s' := run_op (OpSelect desired_relay relay_on voltage now a) s in
  machine_step (pause_seconds s) (stabilization_seconds s) now (machine s)
    (applied (new_effects s s')) (machine s').
Proof.
  intros s'. pose proof (maybe_apply_outcome desired_relay relay_on voltage now a s) as Ho.
  unfold wp in Ho. change (snd (maybe_apply_auto_phase_selection _ _ _ _ _ _)) with s' in Ho.
  destruct Ho as [[[Hq Hf] _]|(_ & Hm & p & reason & thr & s1 & _ & _ & _ & [Hq1 Hf1] & Ho)].
  - rewrite (machine_core s s' Hf), (applied_quiet _ (adds_new_effects _ _ _ Hq)). constructor.
  - rewrite Hm. assert (adds (fun _ => True) s s1) as Ha1
      by (eapply adds_weaken; [|exact Hq1]; done).
    destruct Ho as [(_ & Hq & Hw & _)|(_ & Hc & Hf & _)].
    + rewrite Hw, (applied_quiet (new_effects s s')); [constructor|].
      apply adds_new_effects. by etrans.
    + rewrite (machine_core s1 s' Hf), (machine_core s s1 Hf1), Hm.
      rewrite (new_effects_trans (fun _ => True) s s1 s' Ha1 (commanded_adds _ _ _ Hc)).
      destruct Hc as (l & E & Hl). rewrite (new_effects_app _ _ _ E).
      unfold applied. rewrite omap_app. fold (applied (new_effects s s1)).
      rewrite (applied_quiet _ (adds_new_effects _ _ _ Hq1)).
      change (omap _ (EApplyPhase p :: l)) with (p :: applied l). rewrite (applied_quiet _ Hl).
      constructor.
Qed.

(** C34. Every call of the phase-switch logic, whatever it returns or raises, realises
    one transition of the three-state machine; a selection is commanded from the
    idle state or from the waiting state once the pause is over, and the switch
    leaves the stabilizing state only after the stabilization time. *)
Theorem phase_switch_refines_machine op s :
  machine_step (pause_seconds s) (stabilization_seconds s) (op_now op) (machine s)
    (applied (new_effects s (run_op op s))) (machine (run_op op s)).
Proof. destruct op; [apply select_step | apply orchestrate_step]. Qed.

Lemma refines op s :
  machine_step (pause_seconds s) (stabilization_seconds s) (op_now op) (machine s)
    (applied (new_effects s (run_op op s))) (machine (run_op op s)).
Proof. destruct op; [apply select_step | apply orchestrate_step]. Qed.

(** States an idle service reaches, with any change by other components in between
    that does not touch the staged switch or command a selection. *)
Inductive reachable : svc -> Prop :=
  | reach_start s : machine s = Idle -> reachable s
  | reach_op op s : reachable s -> reachable (run_op op s)
  | reach_other s s' : reachable s -> neutral s s' -> reachable s'.

Lemma run_op_adds op s : adds (fun _ => True) s (run_op op s).
Proof.
  destruct op as [d rel v now a|pm c now a].
  - destruct (maybe_apply_outcome d rel v now a s)
      as [[[Hq _] _]|(_ & _ & p & ? & ? & s1 & _ & _ & _ & [Hq1 _] & Ho)].
    + eapply adds_weaken; [|exact Hq]. done.
    + transitivity s1; [eapply adds_weaken; [|exact Hq1]; done|].
      destruct Ho as [(_ & Hq & _)|(_ & Hc & _)]; [|by eapply commanded_adds].
      eapply adds_weaken; [|exact Hq]. done.
  - apply orchestrate_outcome.
Qed.

Lemma applied_log op s :
  applied (run_op op s).(log) = (applied s.(log) ++ applied (new_effects s (run_op op s)))%list.
Proof.
  destruct (run_op_adds op s) as (l & E & _). rewrite (new_effects_app _ _ _ E), E.
  unfold applied. by rewrite omap_app.
Qed.

(** In every reachable state that is stabilizing a selection, that selection is
    the one that was commanded last: the service never waits for the confirmation
    of a layout that it did not command, and never lets another command slip in. *)
Theorem stabilizing_selection_was_commanded_last s p u :
  reachable s -> machine s = Stabilizing p u -> last (applied s.(log)) = Some p.
Proof.
  intros Hr. revert p u. induction Hr as [s Hs|op s Hr IH|s s' Hr IH [(l & E & Hq) Hf]]; intros p u Hm.
  - congruence.
  - pose proof (refines op s) as Hstep. rewrite Hm in Hstep.
    rewrite applied_log. inversion Hstep as [m Hm'| | |q t Hp Hm'| | |]; subst.
    + rewrite app_nil_r. by eapply IH.
    + by rewrite last_snoc.
  - rewrite (machine_core _ _ Hf) in Hm. rewrite E. unfold applied. rewrite omap_app.
    fold (applied l). rewrite (applied_quiet _ Hq), app_nil_r. by eapply IH.
Qed.

(** An automatic selection is commanded or staged only in Auto mode, with no
    switch in progress, for a target that differs from the current layout, that is
    justified by a decision of this very call and that has been the candidate for
    the configured delay. *)
Theorem only_matured_targets_are_applied desired_relay relay_on voltage now a s :
  let s' := run_op (OpSelect desired_relay relay_on voltage now a) s in
  let supported := ordered_auto_phase_selections s in
  let cur := current_phase_selection s supported in
  forall p, p ∈ applied (new_effects s s') \/ (exists t, machine s' = Waiting p t /\ machine s <> machine s') ->
  a = true /\ machine s = Idle /\ p <> cur /\ matured s p now /\
  exists reason threshold,
    justified s supported cur desired_relay relay_on voltage now (Some p, reason, threshold).
Proof.
  intros s' supported cur p Hp.
  pose proof (maybe_apply_outcome desired_relay relay_on voltage now a s) as Ho.
  unfold wp in Ho. change (snd (maybe_apply_auto_phase_selection _ _ _ _ _ _)) with s' in Ho.
  destruct Ho as [[[Hq Hf] _]|(Ha & Hm & q & reason & thr & s1 & Hne & Hmat & Hj & [Hq1 Hf1] & Ho)].
  - exfalso. destruct Hp as [Hp|(t & _ & Hp)].
    + rewrite (applied_quiet _ (adds_new_effects _ _ _ Hq)) in Hp. by apply not_elem_of_nil in Hp.
    + by rewrite (machine_core s s' Hf) in Hp.
  - enough (p = q) as -> by eauto 10.
    assert (adds (fun _ => True) s s1) as Ha1 by (eapply adds_weaken; [|exact Hq1]; done).
    destruct Ho as [(_ & Hq & Hw & _)|(_ & Hc & Hf & _)].
    + destruct Hp as [Hp|(t & Hp & _)]; [|congruence].
      rewrite (applied_quiet (new_effects s s')) in Hp; [by apply not_elem_of_nil in Hp|].
      apply adds_new_effects. by etrans.
    + destruct Hp as [Hp|(t & Hp & _)].
      * rewrite (new_effects_trans (fun _ => True) s s1 s' Ha1 (commanded_adds _ _ _ Hc)) in Hp.
        destruct Hc as (l & E & Hl). rewrite (new_effects_app _ _ _ E) in Hp.
        unfold applied in Hp. rewrite omap_app in Hp. fold (applied (new_effects s s1)) in Hp.
        rewrite (applied_quiet _ (adds_new_effects _ _ _ Hq1)) in Hp.
        change (omap _ (EApplyPhase q :: l)) with (q :: applied l) in Hp.
        rewrite (applied_quiet _ Hl) in Hp. by apply list_elem_of_singleton in Hp.
      * rewrite (machine_core s1 s' Hf), (machine_core s s1 Hf1), Hm in Hp. done.
Qed.

(** With a backend that needs the relay off for a phase change, applying a target
    directly, without staging, means that no relay command was outstanding and the
    freshest confirmed relay sample (or, without one, the relay itself) was off;
    otherwise the switch is staged, nothing is commanded and the relay is forced off. *)
Theorem direct_apply_needs_relay_off p desired_relay relay_on now s :
  port_phase_selection_requires_pause s = true ->
  let '(r, s') := apply_auto_phase_target p desired_relay relay_on now s in
  if bool_decide (fst (port_pending_relay_command s) = None) &&
     negb (default relay_on (fresh_confirmed_relay_output s (Some now)))
  then commanded p s s' /\ machine s' = machine s
  else applied (new_effects s s') = [] /\ machine s' = Waiting p (Some now) /\
       forall v, r = Ok v -> v = Some false.
Proof.
  intros Hpause. pose proof (apply_target_outcome p desired_relay relay_on now s) as Ho.
  unfold wp in Ho. destruct (apply_auto_phase_target _ _ _ _ s) as [r s']. cbn [fst snd] in Ho.
  assert (phase_change_requires_staging s relay_on now =
    negb (bool_decide (fst (port_pending_relay_command s) = None) &&
          negb (default relay_on (fresh_confirmed_relay_output s (Some now))))) as E.
  { unfold phase_change_requires_staging. rewrite Hpause. cbn [negb].
    destruct (fst (port_pending_relay_command s)); [done|].
    rewrite bool_decide_eq_true_2 by done. cbn [andb]. rewrite negb_involutive.
    by destruct (fresh_confirmed_relay_output s (Some now)). }
  unfold target_outcome in Ho. rewrite E in Ho.
  destruct (bool_decide _ && _); cbn [negb] in Ho;
    destruct Ho as [(? & Ho)|(? & Ho)]; try done.
  - destruct Ho as (Hc & Hf & _). split; [done | by apply machine_core].
  - destruct Ho as (Hq & Hm & Hv). split; [|done]. apply applied_quiet. by apply adds_new_effects.
Qed.

End properties.

(** ** Relay commands of the orchestrator *)

Section enabling.
Context {RP : RelayPorts}.

(** No relay command, and the resume flag is kept. *)
Definition calm (s s' : svc) : Prop := adds still s s' /\ frame phase_switch_resume_relay s s'.

(** Relay commands only to resume, outside Auto mode, a switch that asked for it. *)
Definition resumes (a : bool) (s s' : svc) : Prop :=
  adds (fun e => is_enable e = true ->
    s.(phase_switch_resume_relay) = true /\ a = false /\
    (e = ESetEnabled true \/ e = EQueueRelay true)) s s' /\
  (adds still s s' \/ idle s').

#[local] Instance calm_preorder : PreOrder calm.
Proof. split; [by split|]. intros s1 s2 s3 [? ?] [? ?]. split; by etrans. Qed.

Lemma keeps_calm {A} (m : M svc A) :
  keeps (adds still) m -> keeps (frame phase_switch_resume_relay) m -> keeps calm m.
Proof. intros H1 H2 s. split; [apply H1 | apply H2]. Qed.

Ltac calm_tac := apply keeps_calm; svc_keeps.

Lemma still_resumes a s s' : adds still s s' -> resumes a s s'.
Proof.
  intros H. split; [|by left]. eapply adds_weaken; [|exact H]. intros e He He'.
  by rewrite He in He'.
Qed.

Lemma calm_resumes a s s' : calm s s' -> resumes a s s'.
Proof. intros [H _]. by apply still_resumes. Qed.

Lemma calm_then_resumes a s s1 s2 : calm s s1 -> resumes a s1 s2 -> resumes a s s2.
Proof.
  intros Hc [Hr Hi]. pose proof (calm_resumes a s s1 Hc) as [Hr1 _]. destruct Hc as [Hs Hf].
  unfold frame in Hf. rewrite Hf in Hr. split; [by etrans|].
  destruct Hi as [Hi|Hi]; [left; by etrans | by right].
Qed.

Lemma resumes_seq {A B} a (m : M svc A) (f : A -> M svc B) :
  keeps calm m -> (forall x, keeps (resumes a) (f x)) -> keeps (resumes a) (m ≫= f).
Proof.
  intros Hm Hf s. specialize (Hm s). unfold mbind, M_bind. destruct (m s) as [[x|e] s1].
  - eapply calm_then_resumes; [exact Hm | apply Hf].
  - by apply calm_resumes.
Qed.

Lemma resumes_last {A B} a (m : M svc A) (f : A -> B) :
  keeps (resumes a) m -> keeps (resumes a) (x ← m; mret (f x)).
Proof. intros Hm s. specialize (Hm s). unfold mbind, M_bind. by destruct (m s) as [[x|e] s1]. Qed.

Lemma resume_resumes c now a : keeps (resumes a) (resume_after_phase_switch_pause c now a).
Proof.
  intros s. split; [|right; apply resume_idle].
  unfold resume_after_phase_switch_pause. rewrite bind_gets.
  assert (forall A (m : M svc A), keeps (adds still) m -> adds (fun e => is_enable e = true ->
    s.(phase_switch_resume_relay) = true /\ a = false /\
    (e = ESetEnabled true \/ e = EQueueRelay true)) s (snd (m s))) as Hstill.
  { intros A m Hm. eapply adds_weaken; [|apply Hm]. intros e He He'. by rewrite He in He'. }
  destruct (phase_switch_resume_relay s) eqn:Hr; cbn [negb]; [|apply Hstill; svc_keeps].
  destruct a; [apply Hstill; svc_keeps|].
  match goal with |- adds ?P s (snd (?m s)) => enough (keeps (adds P) m) as H by apply H end.
  svc_keeps; auto.
Qed.

Lemma abort_mismatch_resumes p o c now a :
  keeps (resumes a) (abort_phase_switch_after_mismatch p o c now a).
Proof. do 3 (apply resumes_seq; [calm_tac | intros ?]). apply resume_resumes. Qed.

Lemma abort_pending_resumes c now a : keeps (resumes a) (abort_pending_phase_switch c now a).
Proof. do 3 (apply resumes_seq; [calm_tac | intros ?]). apply resume_resumes. Qed.

Lemma complete_resumes p c now a :
  keeps (resumes a) (complete_stabilized_phase_switch p c now a).
Proof.
  do 3 (apply resumes_seq; [calm_tac | intros ?]). apply resumes_last, resume_resumes.
Qed.

Lemma waiting_resumes p c now a : keeps (resumes a) (orchestrate_waiting_phase_switch p c now a).
Proof.
  unfold orchestrate_waiting_phase_switch. apply resumes_seq; [calm_tac | intros s0].
  destruct c as [[[rel pw] cu] conf]. destruct (negb _).
  { intros s. by apply calm_resumes. }
  intros s. unfold try_except.
  assert (keeps calm (apply_pending_phase_selection p now)) as Hc by calm_tac.
  specialize (Hc s). destruct (apply_pending_phase_selection p now s) as [[v|e] s1];
    [by apply calm_resumes|].
  destruct (exn_in _ e); [|by apply calm_resumes].
  eapply calm_then_resumes; [exact Hc | apply resumes_last, abort_pending_resumes].
Qed.

Lemma mismatch_result_resumes p o c now a s :
  wp (stabilizing_phase_switch_mismatch_result p o c now a)
    (fun r s' => resumes a s s' /\ (r = Ok None -> s' = s)) s.
Proof.
  unfold stabilizing_phase_switch_mismatch_result.
  destruct (bool_decide _); [wp_step; split; [by apply calm_resumes | done]|].
  do 2 wp_step. destruct (negb _); [wp_step; split; [by apply calm_resumes | done]|].
  unfold wp. split.
  - match goal with |- resumes _ _ (snd (?m s)) => enough (keeps (resumes a) m) as H by apply H end.
    apply resumes_seq; [calm_tac | intros ?]. apply resumes_last, abort_mismatch_resumes.
  - unfold mbind, M_bind. destruct (report_phase_switch_mismatch p now s) as [[]]; [|done].
    by destruct (abort_phase_switch_after_mismatch _ _ _ _ _ _) as [[]].
Qed.

Lemma stabilizing_resumes p pm c now a :
  keeps (resumes a) (orchestrate_stabilizing_phase_switch p pm c now a).
Proof.
  unfold orchestrate_stabilizing_phase_switch. apply resumes_seq; [calm_tac | intros o].
  apply resumes_seq; [calm_tac | intros s0].
  destruct (phase_switch_still_stabilizing s0 now); [intros s; by apply calm_resumes|].
  intros s. pose proof (mismatch_result_resumes p o c now a s) as [Hr Hn].
  unfold mbind, M_bind. destruct (stabilizing_phase_switch_mismatch_result p o c now a s)
    as [[[v|]|e] s1]; cbn [fst snd] in *; [done | | done].
  rewrite (Hn eq_refl). apply complete_resumes.
Qed.

(** The orchestrator switches the relay only on, and only to resume charging
    outside Auto mode after a switch that was staged with a request to resume; the
    call that does so ends the switch. *)
Theorem relay_resumed_only_after_switch pm c now a s e :
  let s' := run_op (OpOrchestrate pm c now a) s in
  e ∈ new_effects s s' -> is_enable e = true ->
  (e = ESetEnabled true \/ e = EQueueRelay true) /\
  s.(phase_switch_resume_relay) = true /\ a = false /\ machine s' = Idle.
Proof.
  intros s' Hin He.
  assert (resumes a s s') as Hr.
  { subst s'. cbn [run_op]. unfold orchestrate_pending_phase_switch.
    match goal with |- resumes _ _ (snd (?m s)) => enough (keeps (resumes a) m) as H by apply H end.
    apply resumes_seq; [calm_tac | intros s0]. destruct (pending_selection s0) as [p|].
    - destruct (negb _); [|destruct (String.eqb _ _)].
      + intros s1. by apply still_resumes, adds_same.
      + apply waiting_resumes.
      + apply stabilizing_resumes.
    - intros s1. by apply still_resumes, adds_same. }
  destruct Hr as [Hr Hi]. pose proof (adds_new_effects _ _ _ Hr) as Hall.
  rewrite Forall_forall in Hall. destruct (Hall e Hin He) as (H1 & H2 & H3).
  repeat (split; [done|]). destruct Hi as [Hi|Hi]; [|done].
  apply adds_new_effects in Hi. rewrite Forall_forall in Hi. specialize (Hi e Hin).
  unfold still in Hi. congruence.
Qed.

End enabling.

(** ** Witnesses *)

Section witnesses.

#[local] Existing Instance obedient_ports.

(** A switch to two phases staged at second 10, and the cycle in which the relay is
    confirmed off at second 20. *)
Definition waiting_svc : svc := snd (stage_phase_switch P1_P2 (f_of_Z 10) true initial_svc).
Definition relay_off_cycle : cycle := (false, f0, f0, true).
Definition commanding : phase_op := OpOrchestrate [] relay_off_cycle (f_of_Z 20) false.

Lemma staged_apply_needs_relay_off_witness :
  EApplyPhase P1_P2 ∈ new_effects waiting_svc (run_op commanding waiting_svc) /\
  pending_selection waiting_svc = Some P1_P2.
Proof.
  assert (EApplyPhase P1_P2 ∈ new_effects waiting_svc (run_op commanding waiting_svc)) as H
    by (vm_compute; left).
  split; [exact H|].
  exact (proj1 (staged_apply_needs_relay_off [] relay_off_cycle (f_of_Z 20) false waiting_svc
    P1_P2 H)).
Defined.

Lemma relay_held_off_iff_in_progress_witness :
  fst (orchestrate_pending_phase_switch [] relay_off_cycle (f_of_Z 20) false waiting_svc) =
    Ok held_off /\
  auto_phase_switch_already_active (run_op commanding waiting_svc) = true.
Proof.
  assert (fst (orchestrate_pending_phase_switch [] relay_off_cycle (f_of_Z 20) false waiting_svc) =
    Ok held_off) as H by (vm_compute; reflexivity).
  split; [exact H|].
  exact (proj1 (proj2 (relay_held_off_iff_in_progress _ _ _ _ _ _ _ H)) eq_refl).
Defined.

(** The selection was commanded at second 20, and nothing confirms it. *)
Definition stabilizing_svc : svc := run_op commanding waiting_svc.

Lemma verification_deadline_ends_switch_witness :
  machine stabilizing_svc = Stabilizing P1_P2 (Some (f_of_Z 22)) /\
  machine (run_op (OpOrchestrate [] relay_off_cycle (f_of_Z 32) false) stabilizing_svc) = Idle.
Proof.
  assert (machine stabilizing_svc = Stabilizing P1_P2 (Some (f_of_Z 22))) as H
    by (vm_compute; reflexivity).
  split; [exact H|].
  apply (verification_deadline_ends_switch [] relay_off_cycle (f_of_Z 32) false _ _ _ H);
    vm_compute; reflexivity.
Defined.

(** From the start: a matured candidate is staged at second 200, and the selection
    commanded at second 210. *)
Definition candidate_svc : svc :=
  initial_svc <| last_auto_metrics_surplus := Some (f_of_Z 5000) |>
    <| auto_phase_target_candidate := Some P1_P2 |> <| auto_phase_target_since := Some (f_of_Z 50) |>.
Definition selecting : phase_op := OpSelect true true (f_of_Z 230) (f_of_Z 200) true.
Definition commanded_svc : svc :=
  run_op (OpOrchestrate [] relay_off_cycle (f_of_Z 210) true) (run_op selecting candidate_svc).

Lemma stabilizing_selection_was_commanded_last_witness :
  machine commanded_svc = Stabilizing P1_P2 (Some (f_of_Z 212)) /\
  last (applied commanded_svc.(log)) = Some P1_P2.
Proof.
  assert (machine commanded_svc = Stabilizing P1_P2 (Some (f_of_Z 212))) as H
    by (vm_compute; reflexivity).
  split; [exact H|].
  refine (stabilizing_selection_was_commanded_last _ _ _ _ H).
  do 2 apply reach_op. apply reach_start. vm_compute; reflexivity.
Defined.

Lemma only_matured_targets_are_applied_witness :
  machine (run_op selecting candidate_svc) = Waiting P1_P2 (Some (f_of_Z 200)) /\
  matured candidate_svc P1_P2 (f_of_Z 200).
Proof.
  assert (machine (run_op selecting candidate_svc) = Waiting P1_P2 (Some (f_of_Z 200))) as H
    by (vm_compute; reflexivity).
  split; [exact H|].
  refine (proj1 (proj2 (proj2 (proj2
    (only_matured_targets_are_applied true true (f_of_Z 230) (f_of_Z 200) true candidate_svc P1_P2 _))))).
  right. exists (Some (f_of_Z 200)). split; [exact H|]. vm_compute. discriminate.
Defined.

(** The relay is on, so the switch is staged. *)
Lemma direct_apply_needs_relay_off_witness :
  applied (new_effects initial_svc
    (snd (apply_auto_phase_target P1_P2 true true (f_of_Z 5) initial_svc))) = [].
Proof.
  exact (proj1 (direct_apply_needs_relay_off P1_P2 true true (f_of_Z 5) initial_svc eq_refl)).
Defined.

(** The unconfirmed switch is given up at second 32 and charging resumes. *)
Lemma relay_resumed_only_after_switch_witness :
  machine (run_op (OpOrchestrate [] relay_off_cycle (f_of_Z 32) false) stabilizing_svc) = Idle.
Proof.
  refine (proj2 (proj2 (proj2 (relay_resumed_only_after_switch [] relay_off_cycle (f_of_Z 32) false
    stabilizing_svc (ESetEnabled true) _ eq_refl)))).
  vm_compute. do 3 right. left.
Defined.

End witnesses.
