(* ===== verification/PublicationOrder.v ===== *)
(** * Publication order

    [ipc/publication_order.py] and [ipc/publication_order_state.py]: every field of a
    publication carries an order; a bounded history of high-water marks decides
    which fields of a fast or durable publication are still the newest, and its
    durable marks survive restarts through a base file and a journal.

    Clock reads are arguments, in the order the code makes them.  The files are
    modelled by the decoded values they hold: [json] is applied and undone by the
    standard library on both sides. *)

From S2P Require Import Prelude PyFloat PyValue OrderedMap.

(** ** Commands *)

(** A command is a dictionary with text keys.
    ipc/command_types.py: CommandPayload *)
Definition command : Type := odict string pyval.

(** [command.get(key)] *)
Definition cmd_get (key : string) (c : command) : pyval := default VNone (od_get key c).

(** ipc/publication_order.py: PUBLICATION_ORDER_FIELD *)
Definition PUBLICATION_ORDER_FIELD : string := "transport_order".
(** ipc/publication_order.py: PUBLICATION_FIELD_ORDERS_FIELD *)
Definition PUBLICATION_FIELD_ORDERS_FIELD : string := "transport_field_orders".
(** ipc/publication_order.py: PUBLICATION_ORDER_RETENTION_SECONDS *)
Definition PUBLICATION_ORDER_RETENTION_SECONDS : float := f_of_Z 60.
(** ipc/publication_order.py: PUBLICATION_ORDER_PROCESS_BITS *)
Definition PUBLICATION_ORDER_PROCESS_BITS : Z := 32.
(** ipc/publication_order.py: PUBLICATION_ORDER_PROCESS_MASK *)
Definition PUBLICATION_ORDER_PROCESS_MASK : Z :=
  Z.shiftl 1 PUBLICATION_ORDER_PROCESS_BITS - 1.

Fixpoint text_keys (d : list (pyval * pyval)) : option (odict string pyval) :=
  match d with
  | [] => Some []
  | (VStr k, v) :: d' => rest ← text_keys d'; Some ((k, v) :: rest)
  | _ => None
  end.

(** ipc/publication_order.py: _string_mapping *)
Definition string_mapping (value : pyval) : option (odict string pyval) :=
  match value with VDict d => text_keys d | _ => None end.

(** [type(value) is int] excludes [bool].
    ipc/publication_order.py: _positive_integer *)
Definition positive_integer (value : pyval) : Z :=
  match value with VInt n => Z.max 0 n | _ => 0 end.

(** ipc/publication_order.py: publication_order *)
Definition publication_order (c : command) : Z :=
  positive_integer (cmd_get PUBLICATION_ORDER_FIELD c).

(** [a or b] of two integers. *)
Definition int_or (a b : Z) : Z := if a =? 0 then b else a.

(** ipc/publication_order.py: publication_field_orders *)
Definition publication_field_orders (c : command) : odict string Z :=
  match string_mapping (cmd_get "fields" c) with
  | None => []
  | Some fields =>
    let fallback := publication_order c in
    let configured := default [] (string_mapping (cmd_get PUBLICATION_FIELD_ORDERS_FIELD c)) in
    map (fun '(field, _) =>
           (field, int_or (positive_integer (default VNone (od_get field configured))) fallback))
      fields
  end.

(** ** The sequence *)

(** ipc/publication_order.py: PublicationOrderSequence *)
Record sequence := mkSequence { seq_last_order : Z; seq_process_id : Z }.

(** ipc/publication_order.py: PublicationOrderSequence.remember *)
Definition remember (s : sequence) (order : Z) : sequence :=
  mkSequence (Z.max order s.(seq_last_order)) s.(seq_process_id).

Definition in_epoch (epoch process_id : Z) : Z :=
  Z.lor (Z.shiftl epoch PUBLICATION_ORDER_PROCESS_BITS)
    (Z.land process_id PUBLICATION_ORDER_PROCESS_MASK).

(** ipc/publication_order.py: PublicationOrderSequence.next_order *)
Definition next_order (s : sequence) (monotonic_order : Z) : Z * sequence :=
  let last := s.(seq_last_order) in
  let order :=
    if s.(seq_process_id) =? 0 then Z.max monotonic_order (last + 1)
    else
      let epoch := Z.max monotonic_order (Z.shiftr last PUBLICATION_ORDER_PROCESS_BITS) in
      let order := in_epoch epoch s.(seq_process_id) in
      if order <=? last then in_epoch (epoch + 1) s.(seq_process_id) else order in
  (order, mkSequence order s.(seq_process_id)).

(** [max(values)] of a non-empty dictionary of orders. *)
Definition highest_order (first : string * Z) (rest : odict string Z) : Z :=
  fold_left (fun m kv => Z.max m (snd kv)) rest (snd first).

(** A dictionary of orders as a value. *)
Definition orders_value (orders : odict string Z) : pyval :=
  VDict (map (fun '(k, n) => (VStr k, VInt n)) orders).

(** [str(command.get("coalesce_key") or "").strip()] *)
Definition coalesce_key (c : command) : string := py_strip (py_str_or (cmd_get "coalesce_key" c) "").

(** ipc/publication_order.py: PublicationOrderIssuer.ordered *)
Definition ordered (s : sequence) (monotonic_order : Z) (c : command) : command * sequence :=
  if (coalesce_key c =? "")%string then (c, s)
  else
    let '(order, payload, s1) :=
      if publication_order c =? 0 then
        let '(order, s1) := next_order s monotonic_order in
        (order, od_set PUBLICATION_ORDER_FIELD (VInt order) c, s1)
      else (publication_order c, c, remember s (publication_order c)) in
    match publication_field_orders (od_set PUBLICATION_ORDER_FIELD (VInt order) payload) with
    | [] => (payload, s1)
    | first :: rest =>
      let highest := highest_order first rest in
      (od_set PUBLICATION_FIELD_ORDERS_FIELD (orders_value (first :: rest))
         (od_set PUBLICATION_ORDER_FIELD (VInt (Z.max order highest)) payload),
       remember s1 highest)
    end.

(** ** Marks and claims *)

(** ipc/publication_order_state.py: PublicationLane *)
Inductive lane := Fast | Durable.

#[export] Instance lane_eq_dec : EqDecision lane.
Proof. solve_decision. Defined.

(** ipc/publication_order_state.py: PublicationOrderMark *)
Record mark := mkMark { mark_order : Z; mark_lane : lane; mark_seen_at : float }.

(** A field of a publication: its coalesce key and its name ([PublicationFieldKey]). *)
Abbreviation field_key := (string * string)%type.

Abbreviation marks := (odict field_key mark).

(** ipc/publication_order.py: PublicationOrderClaim *)
Inductive claim_state := Accepted | Superseded | Full.

#[export] Instance claim_state_eq_dec : EqDecision claim_state.
Proof. solve_decision. Defined.

(** ipc/publication_order.py: PublicationFieldClaim *)
Record field_claim := mkClaim {
  claim_is : claim_state; accepted_fields : list string; superseded_fields : list string }.

(** ipc/publication_order.py: _fast_order_claim_blocked *)
Definition fast_order_claim_blocked (order : Z) (current : mark) : bool :=
  order <=? current.(mark_order).

(** ipc/publication_order.py: _durable_order_claim_blocked *)
Definition durable_order_claim_blocked (order : Z) (current : mark) : bool :=
  if order <? current.(mark_order) then true
  else if current.(mark_order) <? order then false
  else negb (bool_decide (current.(mark_lane) = Durable)).

(** The test of one field in the loop of [_field_claim]. *)
Definition field_blocked (key : string) (m : marks) (order_blocked : Z -> mark -> bool)
    (fo : string * Z) : bool :=
  match od_get (key, fst fo) m with
  | Some current => order_blocked (snd fo) current
  | None => false
  end.

(** ipc/publication_order.py: _field_claim *)
Definition claim_fields (key : string) (field_orders : odict string Z) (m : marks)
    (order_blocked : Z -> mark -> bool) : field_claim :=
  let blocked := field_blocked key m order_blocked in
  let accepted := map fst (filter (fun fo => blocked fo = false) field_orders) in
  let superseded := map fst (filter (fun fo => blocked fo = true) field_orders) in
  mkClaim (match accepted with [] => Superseded | _ => Accepted end) accepted superseded.

(** [field_orders[field]] for a field of the dictionary. *)
Definition order_of (field_orders : odict string Z) (field : string) : Z :=
  default 0 (od_get field field_orders).

(** ipc/publication_order.py: _claimed_order_mark *)
Definition claimed_order_mark (order : Z) (l : lane) (now : float) : option mark :=
  if order <=? 0 then None else Some (mkMark order l now).

(** ipc/publication_order.py: _with_claimed_marks *)
Definition with_claimed_marks (key : string) (field_orders : odict string Z) (l : lane)
    (c : field_claim) (m : marks) (now : float) : marks :=
  fold_left
    (fun updated field =>
       match claimed_order_mark (order_of field_orders field) l now with
       | None => updated
       | Some mk => od_put (key, field) mk updated
       end) c.(accepted_fields) m.

(** ipc/publication_order.py: _fast_mark_matches *)
Definition fast_mark_matches (current : option mark) (order : Z) : bool :=
  match current with
  | Some mk => bool_decide (mk.(mark_lane) = Fast) && (mk.(mark_order) =? order)
  | None => false
  end.

(** ipc/publication_order.py: _claimed_field_keys *)
Definition claimed_field_keys (key : string) (field_orders : odict string Z) (c : field_claim)
    : list field_key :=
  map (fun field => (key, field))
    (filter (fun field => 0 < order_of field_orders field) c.(accepted_fields)).

(** The set of new fields: the accepted fields are keys of a dictionary, so the list
    has no repetitions.
    ipc/publication_order.py: _claim_fits_capacity *)
Definition claim_fits_capacity (key : string) (field_orders : odict string Z) (c : field_claim)
    (m : marks) (capacity : Z) : bool :=
  let new_fields := filter (fun fk => od_get fk m = None) (claimed_field_keys key field_orders c) in
  Z.of_nat (length m) + Z.of_nat (length new_fields) <=? capacity.

(** ** Persistence *)

(** ipc/publication_order_state.py: _state_payload *)
Definition state_record (fk : field_key) (mk : mark) : pyval :=
  VDict [(VStr "key", VStr (fst fk)); (VStr "field", VStr (snd fk));
         (VStr "order", VInt mk.(mark_order)); (VStr "lane", VStr "durable");
         (VStr "seen_at", VFloat mk.(mark_seen_at))].

(** The ["marks"] list of a payload: only durable marks are written.
    ipc/publication_order_state.py: _state_payload *)
Definition state_payload (m : marks) : list pyval :=
  map (fun '(fk, mk) => state_record fk mk)
    (filter (fun kv => mark_lane (snd kv) = Durable) m).

(** Here keys are converted with [str()].
    ipc/publication_order_state.py: _string_mapping *)
Definition state_mapping (value : pyval) : option (odict string pyval) :=
  match value with
  | VDict d => Some (fold_left (fun acc '(k, v) => od_set (py_str k) v acc) d [])
  | _ => None
  end.

(** ipc/publication_order_state.py: _nonempty_text *)
Definition nonempty_text (value : pyval) : option string :=
  match value with VStr s => if (s =? "")%string then None else Some s | _ => None end.

(** ipc/publication_order_state.py: _publication_lane *)
Definition publication_lane (value : pyval) : option lane :=
  match value with VStr s => if (s =? "durable")%string then Some Durable else None | _ => None end.

(** ipc/publication_order_state.py: _positive_integer *)
Definition state_positive_integer (value : pyval) : option Z :=
  match value with VInt n => if 0 <? n then Some n else None | _ => None end.

(** ipc/publication_order_state.py: _finite_float *)
Definition state_finite_float (value : pyval) : res (option float) :=
  match value with
  | VStr _ | VInt _ | VBool _ | VFloat _ =>
    catch (parsed ← py_float value; mret (if isfinite parsed then Some parsed else None))
      [TypeError; ValueError] (Ok None)
  | _ => Ok None
  end.

(** ipc/publication_order_state.py: _state_identity *)
Definition state_identity (payload : odict string pyval) : option field_key :=
  match nonempty_text (cmd_get "key" payload), nonempty_text (cmd_get "field" payload) with
  | Some key, Some field => Some (key, field)
  | _, _ => None
  end.

(** ipc/publication_order_state.py: _state_order_mark *)
Definition state_order_mark (payload : odict string pyval) (now cutoff : float)
    : res (option mark) :=
  let order := state_positive_integer (cmd_get "order" payload) in
  let l := publication_lane (cmd_get "lane" payload) in
  seen_at ← state_finite_float (cmd_get "seen_at" payload);
  mret (match order, l, seen_at with
        | Some order, Some Durable, Some seen_at =>
          if (cutoff <? seen_at)%F && (seen_at <=? now)%F
          then Some (mkMark order Durable seen_at) else None
        | _, _, _ => None
        end).

(** ipc/publication_order_state.py: _state_mark *)
Definition state_mark (value : pyval) (now cutoff : float) : res (option (field_key * mark)) :=
  match state_mapping value with
  | None => Ok None
  | Some payload =>
    let identity := state_identity payload in
    mk ← state_order_mark payload now cutoff;
    mret (match identity, mk with
          | Some fk, Some mk => Some (fk, mk)
          | _, _ => None
          end)
  end.

(** ipc/publication_order_state.py: _insert_state_mark *)
Definition insert_state_mark (m : marks) (value : pyval) (now cutoff : float) : res marks :=
  parsed ← state_mark value now cutoff;
  mret (match parsed with None => m | Some (fk, mk) => od_set fk mk m end).

Fixpoint insert_state_marks (m : marks) (values : list pyval) (now cutoff : float) : res marks :=
  match values with
  | [] => Ok m
  | value :: rest => m' ← insert_state_mark m value now cutoff; insert_state_marks m' rest now cutoff
  end.

(** What follows the last newline of a journal: nothing; text that no reader understands; or a whole payload whose
    newline is missing, which readers understand as long as nothing is appended to it. *)
Inductive journal_tail := Ended | Torn | Unended (records : list pyval).

(** The complete lines of a journal ([None]: a line that is no payload, as torn lines are), and its end. *)
Record journal := mkJournal { jn_lines : list (option (list pyval)); jn_tail : journal_tail }.

(** The files of one state path: the records of the base file, and the journal ([None]: the file does not exist). *)
Record order_files := mkFiles { base_file : option (list pyval); journal_file : option journal }.

(** ipc/publication_order_state.py: _journal_records *)
Definition journal_records (j : journal) : list pyval :=
  (concat (omap id j.(jn_lines)) ++ match j.(jn_tail) with Unended records => records | _ => [] end)%list.

(** Without a path there is no base file; the journal is looked for all the same.
    ipc/publication_order_state.py: load_publication_order_marks *)
Definition load_publication_order_marks (path : string) (files : order_files)
    (now retention_seconds : float) : res marks :=
  let cutoff := (now - retention_seconds)%F in
  let records := if (path =? "")%string then [] else default [] files.(base_file) in
  m ← insert_state_marks [] records now cutoff;
  insert_state_marks m (match files.(journal_file) with Some j => journal_records j | None => [] end) now cutoff.

(** How much of a line a failing write has left in the journal: nothing (of an opened file), a part of its text, its text
    without the newline, or all of it. *)
Inductive written_part := Nothing | SomeText | AllButNewline | WholeLine.

(** What becomes of an append: it succeeds, the file cannot be opened, or it fails after some of the line was written. *)
Inductive append_outcome := Appended | NotOpened | Broken (part : written_part).

(** What the operating system answers: whether the path is a directory, the size of a
    journal if it can be read, whether a line is within the line limit, what becomes of an append, and whether
    the write of the base file (which replaces it atomically) and the removal succeed. *)
Class OrderDisk := {
  disk_path_is_dir : bool;
  disk_journal_size : journal -> option Z;
  disk_line_fits : list pyval -> bool;
  disk_can_write_base : bool;
  disk_append : append_outcome;
  disk_can_unlink : bool }.

(** The journal after a part of a line was written to it. What is written to a torn end forms one line with it, and
    that line is no payload. *)
Definition written_to (j : journal) (records : list pyval) (part : written_part) : journal :=
  match j.(jn_tail), part with
  | _, Nothing => j
  | Ended, SomeText => mkJournal j.(jn_lines) Torn
  | Ended, AllButNewline => mkJournal j.(jn_lines) (Unended records)
  | Ended, WholeLine => mkJournal (j.(jn_lines) ++ [Some records])%list Ended
  | _, (SomeText | AllButNewline) => mkJournal j.(jn_lines) Torn
  | _, WholeLine => mkJournal (j.(jn_lines) ++ [None])%list Ended
  end.

(** ipc/publication_order_state.py: _STATE_JOURNAL_COMPACT_BYTES *)
Definition STATE_JOURNAL_COMPACT_BYTES : Z := 64 * 1024.

Section disk.
Context {OD : OrderDisk}.

(** ipc/publication_order_state.py: persist_publication_order_marks *)
Definition persist_publication_order_marks (current : marks) : M order_files bool :=
  if disk_can_write_base then
    modify (fun f => mkFiles (Some (state_payload current)) f.(journal_file));; mret true
  else mret false.

(** ipc/publication_order_state.py: _remove_compacted_journal *)
Definition remove_compacted_journal : M order_files bool :=
  f ← get;
  match f.(journal_file) with
  | None => mret true
  | Some _ =>
    if disk_can_unlink then modify (fun f => mkFiles f.(base_file) None);; mret true
    else mret false
  end.

(** ipc/publication_order_state.py: _compact_state *)
Definition compact_state (current : marks) : M order_files bool :=
  written ← persist_publication_order_marks current;
  if negb written then mret false else remove_compacted_journal.

(** [_journal_size]: [None] when the file cannot be examined.
    ipc/publication_order_state.py: _journal_size *)
Definition journal_size : M order_files (option Z) :=
  f ← get;
  mret (match f.(journal_file) with None => None | Some j => disk_journal_size j end).

(** ipc/publication_order_state.py: _prepare_journal_for_append *)
Definition prepare_journal_for_append (current : marks) : M order_files bool :=
  f ← get;
  match f.(journal_file) with
  | None => mret true
  | Some _ =>
    size ← journal_size;
    match size with
    | None => mret false
    | Some n => if n <=? STATE_JOURNAL_COMPACT_BYTES then mret true else compact_state current
    end
  end.

(** ipc/publication_order_state.py: _append_state_delta *)
Definition append_state_delta (changed : marks) : M order_files bool :=
  if negb (disk_line_fits (state_payload changed)) then mret false
  else
    let write part := modify (fun f =>
      mkFiles f.(base_file) (Some (written_to (default (mkJournal [] Ended) f.(journal_file)) (state_payload changed) part))) in
    match disk_append with
    | Appended => write WholeLine;; mret true
    | NotOpened => mret false
    | Broken part => write part;; mret false
    end.

(** ipc/publication_order_state.py: _finish_checkpoint *)
Definition finish_checkpoint (current : marks) : M order_files bool :=
  size ← journal_size;
  match size with
  | None => mret false
  | Some n => if n <=? STATE_JOURNAL_COMPACT_BYTES then mret true else compact_state current
  end.

(** ipc/publication_order_state.py: _write_checkpoint *)
Definition write_checkpoint (changed current : marks) : M order_files bool :=
  if disk_path_is_dir then mret false
  else
    prepared ← prepare_journal_for_append current;
    if negb prepared then mret false
    else
      appended ← append_state_delta changed;
      if negb appended then mret false else finish_checkpoint current.

(** ipc/publication_order_state.py: checkpoint_publication_order_marks *)
Definition checkpoint_publication_order_marks (path : string) (changed current : marks)
    : M order_files bool :=
  if (path =? "")%string || bool_decide (length changed = 0%nat) then mret true
  else write_checkpoint changed current.

End disk.

(** ** The history *)

(** ipc/publication_order.py: PublicationOrderHistory.__init__ *)
Record history := mkHistory {
  h_capacity : Z; h_retention_seconds : float; h_state_path : string; h_marks : marks }.

(** ipc/publication_order.py: PublicationOrderHistory.__init__ *)
Definition new_history (capacity : Z) (retention_seconds : float) (state_path : option string)
    (files : order_files) (now : float) : res history :=
  let retention := fmax f1 retention_seconds in
  let path := default "" state_path in
  m ← load_publication_order_marks path files now retention;
  mret (mkHistory (Z.max 1 capacity) retention path m).

Definition set_marks (h : history) (m : marks) : history :=
  mkHistory h.(h_capacity) h.(h_retention_seconds) h.(h_state_path) m.

(** ipc/publication_order.py: PublicationOrderHistory._pruned_marks *)
Definition pruned_marks (h : history) (now : float) (active : list field_key) : marks :=
  let cutoff := (now - h.(h_retention_seconds))%F in
  filter (fun kv => (kv.1 ∈ active) \/ (mark_seen_at kv.2 >? cutoff)%F = true) h.(h_marks).

(** ipc/publication_order.py: PublicationOrderHistory.claim_fast *)
Definition claim_fast (h : history) (key : string) (field_orders : odict string Z)
    (active : list field_key) (now now2 : float) : field_claim * history :=
  let candidate := pruned_marks h now active in
  let c := claim_fields key field_orders candidate fast_order_claim_blocked in
  if claim_fits_capacity key field_orders c candidate h.(h_capacity)
  then (c, set_marks h (with_claimed_marks key field_orders Fast c candidate now2))
  else (mkClaim Full [] [], h).

(** ipc/publication_order.py: PublicationOrderHistory.claim_durable *)
Definition claim_durable (h : history) (key : string) (field_orders : odict string Z)
    (active : list field_key) (now : float) : field_claim :=
  let candidate := pruned_marks h now active in
  let c := claim_fields key field_orders candidate durable_order_claim_blocked in
  if claim_fits_capacity key field_orders c candidate h.(h_capacity)
  then c else mkClaim Full [] [].

(** One step of the loop of [confirm_fast_applied]: the marks and the changes. *)
Definition confirm_field (key : string) (now : float) (acc : marks * marks) (fo : string * Z)
    : marks * marks :=
  let '(updated, changed) := acc in
  let fk := (key, fst fo) in
  if fast_mark_matches (od_get fk updated) (snd fo) then
    let mk := mkMark (snd fo) Durable now in (od_put fk mk updated, od_set fk mk changed)
  else acc.

(** The marks after confirming and the marks that changed.
    ipc/publication_order.py: PublicationOrderHistory.confirm_fast_applied *)
Definition confirm_fast_marks (h : history) (key : string) (field_orders : odict string Z)
    (now : float) : marks * marks :=
  fold_left (confirm_field key now) field_orders (h.(h_marks), []).

(** ipc/publication_order.py: PublicationOrderHistory.release_fast *)
Definition release_fast (h : history) (key : string) (field_orders : odict string Z) : history :=
  set_marks h
    (fold_left
       (fun m fo => if fast_mark_matches (od_get (key, fst fo) m) (snd fo)
                    then od_del (key, fst fo) m else m)
       field_orders h.(h_marks)).

(** A history together with its files. *)
Record order_state := mkOrderState { os_history : history; os_files : order_files }.

Section persist.
Context {OD : OrderDisk}.

(** ipc/publication_order.py: PublicationOrderHistory._persist *)
Definition persist (changed current : marks) : M order_state bool :=
  fun s =>
    let '(r, files) :=
      checkpoint_publication_order_marks s.(os_history).(h_state_path) changed current s.(os_files) in
    (r, mkOrderState s.(os_history) files).

(** ipc/publication_order.py: PublicationOrderHistory.confirm_fast_applied *)
Definition confirm_fast_applied (key : string) (field_orders : odict string Z) (now : float)
    : M order_state bool :=
  s ← get;
  let '(updated, changed) := confirm_fast_marks s.(os_history) key field_orders now in
  modify (fun s => mkOrderState (set_marks s.(os_history) updated) s.(os_files));;
  persist changed updated.

(** ipc/publication_order.py: PublicationOrderHistory.confirm_durable_applied *)
Definition confirm_durable_applied (key : string) (field_orders : odict string Z)
    (active : list field_key) (now now2 : float) : M order_state bool :=
  s ← get;
  let h := s.(os_history) in
  let candidate := pruned_marks h now active in
  let c := claim_fields key field_orders candidate durable_order_claim_blocked in
  if negb (claim_fits_capacity key field_orders c candidate h.(h_capacity)) then mret false
  else
    let updated := with_claimed_marks key field_orders Durable c candidate now2 in
    modify (fun s => mkOrderState (set_marks s.(os_history) updated) s.(os_files));;
    let changed :=
      omap (fun fk => match od_get fk updated with Some mk => Some (fk, mk) | None => None end)
        (claimed_field_keys key field_orders c) in
    persist changed updated.

End persist.

(** ** Facts *)

(** *** The sequence *)

Lemma in_epoch_value epoch p : in_epoch epoch p = epoch * 2 ^ 32 + p mod 2 ^ 32.
Proof.
  unfold in_epoch, PUBLICATION_ORDER_PROCESS_BITS, PUBLICATION_ORDER_PROCESS_MASK.
  change (Z.shiftl 1 PUBLICATION_ORDER_PROCESS_BITS - 1) with (Z.ones 32).
  rewrite Z.land_ones, Z.shiftl_mul_pow2 by lia.
  assert (Z.land (epoch * 2 ^ 32) (p mod 2 ^ 32) = 0) as H.
  { apply Z.bits_inj'. intros n Hn. rewrite Z.land_spec, Z.bits_0.
    destruct (Z.ltb_spec n 32).
    - by rewrite Z.mul_pow2_bits_low.
    - rewrite (Z.mod_pow2_bits_high p 32 n) by lia. apply andb_false_r. }
  rewrite <- Z.add_lor_land, H. lia.
Qed.

Lemma next_order_spec s t :
  let '(order, s') := next_order s t in
  s.(seq_last_order) < order /\ s' = mkSequence order s.(seq_process_id) /\
  (s.(seq_process_id) = 0 -> t <= order) /\
  (s.(seq_process_id) <> 0 ->
   order mod 2 ^ 32 = s.(seq_process_id) mod 2 ^ 32 /\ t <= order / 2 ^ 32).
Proof.
  unfold next_order. destruct (Z.eqb_spec (seq_process_id s) 0) as [H0|H0].
  - split_and!; [lia | done | lia | done].
  - set (p := seq_process_id s). set (last := seq_last_order s).
    rewrite !in_epoch_value. unfold PUBLICATION_ORDER_PROCESS_BITS.
    rewrite Z.shiftr_div_pow2 by lia.
    set (epoch := Z.max t (last / 2 ^ 32)).
    pose proof (Z.mod_pos_bound p (2 ^ 32) ltac:(lia)) as Hp.
    pose proof (Z.mod_pos_bound last (2 ^ 32) ltac:(lia)) as Hl.
    pose proof (Z.div_mod last (2 ^ 32) ltac:(lia)) as Hd.
    assert (forall e, (e * 2 ^ 32 + p mod 2 ^ 32) mod 2 ^ 32 = p mod 2 ^ 32 /\
      (e * 2 ^ 32 + p mod 2 ^ 32) / 2 ^ 32 = e) as He.
    { intros e. rewrite Z.add_comm. rewrite Z.mod_add, Z.div_add, Z.mod_mod by lia.
      rewrite Z.div_small by lia. lia. }
    destruct (Z.leb_spec (epoch * 2 ^ 32 + p mod 2 ^ 32) last);
      (split_and!; [| done | done | intros _]).
    + unfold epoch. nia.
    + destruct (He (epoch + 1)) as [-> ->]. lia.
    + lia.
    + destruct (He epoch) as [-> ->]. lia.
Qed.

Inductive sequence_op := OpRemember (order : Z) | OpNext (monotonic : Z).

Definition sequence_step (op : sequence_op) (s : sequence) : Z * sequence :=
  match op with
  | OpRemember order => (order, remember s order)
  | OpNext t => next_order s t
  end.

(** The orders seen or issued by the operations, and the sequence after them. *)
Fixpoint sequence_run (ops : list sequence_op) (s : sequence) : list Z * sequence :=
  match ops with
  | [] => ([], s)
  | op :: ops' =>
    let '(order, s1) := sequence_step op s in
    let '(orders, s2) := sequence_run ops' s1 in (order :: orders, s2)
  end.

Lemma sequence_step_last op s :
  let '(order, s') := sequence_step op s in
  order <= s'.(seq_last_order) /\ s.(seq_last_order) <= s'.(seq_last_order).
Proof.
  destruct op as [n|t]; cbn [sequence_step]; [cbn; lia|].
  pose proof (next_order_spec s t) as H. destruct (next_order s t) as [o s'].
  destruct H as (H & -> & _). cbn. lia.
Qed.

Lemma sequence_run_last ops s :
  let '(orders, s') := sequence_run ops s in
  Forall (fun o => o <= s'.(seq_last_order)) orders /\ s.(seq_last_order) <= s'.(seq_last_order).
Proof.
  revert s. induction ops as [|op ops IH]; intros s; cbn [sequence_run]; [split; [constructor | lia]|].
  pose proof (sequence_step_last op s) as H1. destruct (sequence_step op s) as [o s1].
  specialize (IH s1). destruct (sequence_run ops s1) as [os s2]. destruct H1, IH as [IH ?].
  split; [constructor; [lia | done] | lia].
Qed.

(** Orders are issued strictly above every order the sequence has issued or
    remembered before, in any interleaving of the callers; an order of a numbered
    process carries the process number in its low 32 bits and is not older than the
    clock in the bits above. *)
Theorem issued_order_exceeds_all_before ops s t :
  let '(before, s1) := sequence_run ops s in
  let '(order, s2) := next_order s1 t in
  Forall (fun o => o < order) before /\ s.(seq_last_order) < order /\
  (s1.(seq_process_id) <> 0 ->
   order mod 2 ^ 32 = s1.(seq_process_id) mod 2 ^ 32 /\ t <= order / 2 ^ 32).
Proof.
  pose proof (sequence_run_last ops s) as H1. destruct (sequence_run ops s) as [before s1].
  pose proof (next_order_spec s1 t) as H2. destruct (next_order s1 t) as [o s2].
  destruct H1 as [H1 ?], H2 as (? & _ & _ & H2). split_and!; [|lia | exact H2].
  eapply Forall_impl; [exact H1|]. cbn. lia.
Qed.

(** *** Marks *)

Section marks.
Context (key : string) (field_orders : odict string Z).
Hypothesis orders_nodup : od_nodup field_orders.

Lemma claim_accepted field m blocked_by :
  field ∈ accepted_fields (claim_fields key field_orders m blocked_by) <->
  exists order, od_get field field_orders = Some order /\
    field_blocked key m blocked_by (field, order) = false.
Proof.
  unfold claim_fields. cbn [accepted_fields]. rewrite list_elem_of_fmap. split.
  - intros ([f o] & -> & [Hb Hin]%list_elem_of_filter). exists o. split; [|done].
    by apply od_get_elem.
  - intros (o & Ho%od_get_some_elem & Hb). exists (field, o). split; [done|].
    by apply list_elem_of_filter.
Qed.

Lemma claim_accepted_nodup m blocked_by :
  NoDup (accepted_fields (claim_fields key field_orders m blocked_by)).
Proof. apply (od_nodup_filter (fun fo => field_blocked key m blocked_by fo = false)), orders_nodup. Qed.

(** What a claim leaves at a key: a new mark for an accepted field with an order. *)
Lemma with_claimed_get l c m now fk :
  NoDup c.(accepted_fields) ->
  od_get fk (with_claimed_marks key field_orders l c m now) =
  if decide (fst fk = key /\ snd fk ∈ c.(accepted_fields) /\ 0 < order_of field_orders (snd fk))
  then Some (mkMark (order_of field_orders (snd fk)) l now) else od_get fk m.
Proof.
  unfold with_claimed_marks. generalize (accepted_fields c). clear orders_nodup c.
  intros fs. revert m. induction fs as [|f fs IH]; intros m; cbn [fold_left]; intros Hd.
  - rewrite decide_False; [done|]. intros (_ & H%not_elem_of_nil & _). done.
  - apply NoDup_cons in Hd as [Hf Hd]. rewrite IH by done. unfold claimed_order_mark.
    destruct fk as [k g]; cbn [fst snd] in *.
    destruct (Z.leb_spec (order_of field_orders f) 0) as [Hle|Hgt].
    + destruct (decide (k = key /\ g ∈ fs /\ _)) as [(-> & Hin & Hpos)|Hn].
      * rewrite decide_True; [done|]. split_and!; [done | by right | done].
      * rewrite decide_False; [done|]. intros (-> & [->|Hin]%elem_of_cons & Hpos); [lia|].
        by apply Hn.
    + rewrite od_get_put.
      destruct (decide (k = key /\ g ∈ fs /\ _)) as [(-> & Hin & Hpos)|Hn].
      * rewrite decide_True; [done|]. split_and!; [done | by right | done].
      * destruct (decide (k = key /\ g = f)) as [[-> ->]|Hne].
        -- rewrite !decide_True; [done | split_and!; [done | left | done] | done].
        -- rewrite !decide_False; [done | | naive_solver]. intros (-> & [->|Hin]%elem_of_cons & Hpos); [naive_solver|].
           by apply Hn.
Qed.

Lemma with_claimed_nodup l c m now :
  od_nodup m -> od_nodup (with_claimed_marks key field_orders l c m now).
Proof.
  unfold with_claimed_marks. generalize (accepted_fields c). intros fs. revert m.
  induction fs as [|f fs IH]; intros m Hm; cbn; [done|]. apply IH.
  destruct (claimed_order_mark _ _ _); auto with odict.
Qed.

(** The number of marks grows by the number of claimed fields without a mark. *)
Lemma with_claimed_length l c m now :
  od_nodup m -> NoDup c.(accepted_fields) ->
  length (with_claimed_marks key field_orders l c m now) =
  (length m + length (filter (fun fk => od_get fk m = None)
     (claimed_field_keys key field_orders c)))%nat.
Proof.
  unfold with_claimed_marks, claimed_field_keys. generalize (accepted_fields c).
  intros fs. revert m. induction fs as [|f fs IH]; intros m Hm Hd; [cbn; lia|].
  apply NoDup_cons in Hd as [Hf Hd]. cbn [fold_left]. unfold claimed_order_mark at 2.
  destruct (Z.leb_spec (order_of field_orders f) 0) as [Hle|Hgt].
  - rewrite filter_cons_False by lia. by apply IH.
  - rewrite filter_cons_True by lia. cbn [map]. rewrite filter_cons.
    rewrite IH; [|by apply od_nodup_put | done]. rewrite od_length_put by done.
    assert (filter (fun fk => od_get fk (od_put (key, f)
        (mkMark (order_of field_orders f) l now) m) = None)
        (map (fun field => (key, field)) (filter (fun field => 0 < order_of field_orders field) fs)) =
      filter (fun fk => od_get fk m = None)
        (map (fun field => (key, field)) (filter (fun field => 0 < order_of field_orders field) fs)))
      as ->.
    { apply filter_ext_elem. intros x (g & -> & Hg)%list_elem_of_fmap.
      apply list_elem_of_filter in Hg as [_ Hg]. rewrite od_get_put, decide_False; [done|].
      intros [= ->]. done. }
    destruct (decide (is_Some (od_get (key, f) m))) as [[x Hx]|Hn].
    + rewrite decide_False by congruence. lia.
    + rewrite decide_True by (by apply eq_None_not_Some). cbn. lia.
Qed.

End marks.

(** *** The bounded history *)

(** A history as the queue keeps it: one mark per field, within the capacity. *)
Definition history_ok (h : history) : Prop :=
  od_nodup h.(h_marks) /\ Z.of_nat (length h.(h_marks)) <= h.(h_capacity).

(** A mark that pruning keeps. *)
Definition retained (h : history) (active : list field_key) (now : float) (fk : field_key)
    (mk : mark) : Prop :=
  fk ∈ active \/ (mk.(mark_seen_at) >? now - h.(h_retention_seconds))%F = true.

Lemma pruned_get h now active fk :
  od_nodup h.(h_marks) ->
  od_get fk (pruned_marks h now active) =
  match od_get fk h.(h_marks) with
  | Some mk => if decide (retained h active now fk mk) then Some mk else None
  | None => None
  end.
Proof.
  intros Hd. unfold pruned_marks. rewrite od_get_filter by done.
  destruct (od_get fk (h_marks h)) as [mk|]; [|done]. unfold retained. cbn.
  repeat case_decide; tauto.
Qed.

Lemma pruned_ok h now active :
  history_ok h ->
  od_nodup (pruned_marks h now active) /\
  Z.of_nat (length (pruned_marks h now active)) <= h.(h_capacity).
Proof.
  intros [Hd Hl]. split; [by apply od_nodup_filter|].
  pose proof (od_length_filter (fun kv => (kv.1 ∈ active) \/
    (mark_seen_at kv.2 >? now - h_retention_seconds h)%F = true) (h_marks h)).
  unfold pruned_marks. lia.
Qed.

Section claims.
Context (key : string) (field_orders : odict string Z).
Hypothesis orders_nodup : od_nodup field_orders.

(** The state of a claim that fits. *)
Lemma claimed_ok h l c candidate now :
  od_nodup candidate -> NoDup c.(accepted_fields) ->
  claim_fits_capacity key field_orders c candidate h.(h_capacity) = true ->
  history_ok (set_marks h (with_claimed_marks key field_orders l c candidate now)).
Proof.
  intros Hd Ha Hfit. split; [by apply with_claimed_nodup|]. cbn [set_marks h_marks h_capacity].
  rewrite with_claimed_length by done. unfold claim_fits_capacity in Hfit. lia.
Qed.

Lemma claim_fast_ok h active now now2 :
  history_ok h -> history_ok (snd (claim_fast h key field_orders active now now2)).
Proof.
  intros Hh. unfold claim_fast. destruct (claim_fits_capacity _ _ _ _ _) eqn:E; [|done].
  apply claimed_ok; [by apply pruned_ok | by apply claim_accepted_nodup | done].
Qed.

Lemma claim_fast_nodup h active now now2 :
  od_nodup h.(h_marks) ->
  od_nodup (h_marks (snd (claim_fast h key field_orders active now now2))).
Proof.
  intros Hd. unfold claim_fast. destruct (claim_fits_capacity _ _ _ _ _); [|done].
  apply with_claimed_nodup. by apply od_nodup_filter.
Qed.

(** A fast claim admits exactly the fields that are newer than their retained
    high-water mark or have none.  Each admitted field with an order gets that order
    as its fast mark, every other retained mark is kept as it is, and a claim that
    does not fit the capacity changes nothing. *)
Theorem claim_fast_admits_newer_fields h active now now2 c h' :
  od_nodup h.(h_marks) ->
  claim_fast h key field_orders active now now2 = (c, h') ->
  if bool_decide (c.(claim_is) = Full) then h' = h
  else
    (forall field order, od_get field field_orders = Some order ->
       (field ∈ c.(accepted_fields) <->
        forall mk, od_get (key, field) h.(h_marks) = Some mk ->
          retained h active now (key, field) mk -> mk.(mark_order) < order)) /\
    (forall fk, od_get fk h'.(h_marks) =
       if decide (fst fk = key /\ snd fk ∈ c.(accepted_fields) /\
                  0 < order_of field_orders (snd fk))
       then Some (mkMark (order_of field_orders (snd fk)) Fast now2)
       else od_get fk (pruned_marks h now active)).
Proof.
  intros Hd. unfold claim_fast. destruct (claim_fits_capacity _ _ _ _ _) eqn:Hfit.
  2: { intros [= <- <-]. by rewrite bool_decide_eq_true_2. }
  intros [= <- <-]. rewrite bool_decide_eq_false_2.
  2: { unfold claim_fields. cbn. by destruct (map fst _). }
  split.
  - intros field order Ho. rewrite (claim_accepted _ _ orders_nodup). unfold field_blocked.
    cbn [fst snd]. rewrite pruned_get by done. split.
    + intros (o & Ho' & Hb) mk Hm Hr. simplify_eq. rewrite Hm, decide_True in Hb by done.
      unfold fast_order_claim_blocked in Hb. lia.
    + intros H. exists order. split; [done|].
      destruct (od_get (key, field) (h_marks h)) as [mk|]; [|done].
      case_decide as Hr; [|done]. specialize (H mk eq_refl Hr).
      unfold fast_order_claim_blocked. lia.
  - intros fk. cbn [set_marks h_marks]. apply with_claimed_get.
    by apply claim_accepted_nodup.
Qed.

Lemma claim_fast_high_water h active now now2 fk mk :
  od_nodup h.(h_marks) -> od_get fk h.(h_marks) = Some mk -> retained h active now fk mk ->
  exists mk', od_get fk (h_marks (snd (claim_fast h key field_orders active now now2))) = Some mk' /\
    mk.(mark_order) <= mk'.(mark_order).
Proof.
  intros Hd Hm Hr. unfold claim_fast. destruct (claim_fits_capacity _ _ _ _ _); [|eauto with lia].
  cbn [snd set_marks h_marks]. rewrite with_claimed_get by by apply claim_accepted_nodup.
  case_decide as Hc.
  - eexists. split; [done|]. cbn [mark_order]. destruct Hc as (Hk & Hacc & Hpos).
    apply (claim_accepted _ _ orders_nodup) in Hacc as (o & Ho & Hb).
    destruct fk as [k f]. cbn [fst snd] in *. subst k.
    unfold order_of. rewrite Ho. unfold field_blocked in Hb. cbn [fst snd] in Hb. rewrite pruned_get, Hm, decide_True in Hb by done.
    unfold fast_order_claim_blocked in Hb. cbn. lia.
  - exists mk. rewrite pruned_get, Hm, decide_True by done. split; [done | lia].
Qed.

(** Releasing one key's fast orders. *)
Definition releases (orders : odict string Z) (m : marks) (fk : field_key) : bool :=
  bool_decide (fst fk = key) &&
  match od_get (snd fk) orders with Some o => fast_mark_matches (od_get fk m) o | None => false end.

Lemma release_fold_get m fk :
  od_get fk (fold_left
    (fun m fo => if fast_mark_matches (od_get (key, fst fo) m) (snd fo)
                 then od_del (key, fst fo) m else m) field_orders m) =
  if releases field_orders m fk then None else od_get fk m.
Proof.
  revert m. induction field_orders as [|[f o] fs IH]; intros m; cbn [fold_left].
  - unfold releases. by rewrite andb_false_r.
  - apply NoDup_cons in orders_nodup as [Hf Hd]. rewrite IH by exact Hd. clear IH.
    destruct fk as [k g]. unfold releases. cbn [fst snd od_get].
    destruct (decide (g = f)) as [->|Hg].
    + apply od_get_none in Hf. cbn [fst] in Hf. rewrite Hf, andb_false_r.
      case_bool_decide as Hk; cbn [andb].
      * subst k. destruct (fast_mark_matches (od_get (key, f) m) o); [|done].
        rewrite od_get_del. by rewrite decide_True.
      * destruct (fast_mark_matches _ _); [|done]. rewrite od_get_del, decide_False; congruence.
    + assert (od_get (k, g) (if fast_mark_matches (od_get (key, f) m) o
        then od_del (key, f) m else m) = od_get (k, g) m) as ->; [|done].
      destruct (fast_mark_matches _ _); [|done]. rewrite od_get_del, decide_False; congruence.
Qed.

(** Releasing a failed or expired fast publication removes exactly the fast marks
    that still carry its orders: newer marks, durable marks and the marks of other
    publications stay. *)
Theorem release_fast_removes_only_own_marks h fk :
  od_get fk (release_fast h key field_orders).(h_marks) =
  match od_get fk h.(h_marks) with
  | Some mk =>
    if decide (fst fk = key /\ mk.(mark_lane) = Fast /\
               od_get (snd fk) field_orders = Some mk.(mark_order))
    then None else Some mk
  | None => None
  end.
Proof.
  unfold release_fast. cbn [set_marks h_marks]. rewrite release_fold_get.
  unfold releases. destruct (od_get fk (h_marks h)) as [mk|]; cbn [fast_mark_matches].
  - case_bool_decide as Hk; cbn [andb]; [|by rewrite decide_False by tauto].
    destruct (od_get (snd fk) field_orders) as [o|];
      [|by rewrite decide_False by (intros (_ & _ & ?); congruence)].
    case_bool_decide as Hl; cbn [andb]; [|by rewrite decide_False by tauto].
    destruct (Z.eqb_spec (mark_order mk) o) as [->|Ho].
    + by rewrite decide_True.
    + rewrite decide_False; [done|]. intros (_ & _ & ?); congruence.
  - by destruct (_ && _).
Qed.

Lemma release_ok h : history_ok h -> history_ok (release_fast h key field_orders).
Proof.
  unfold history_ok, release_fast. cbn [set_marks h_marks h_capacity].
  generalize (h_marks h). clear orders_nodup.
  induction field_orders as [|fo fs IH]; intros m Hm; [done|]. cbn [fold_left]. apply IH.
  destruct (fast_mark_matches _ _); [|done]. destruct Hm as [Hd Hl].
  split; [by apply od_nodup_del|]. rewrite od_length_del by done. lia.
Qed.

End claims.

(** *** Invariant of the history *)

Section confirm.
Context (key : string).

Lemma confirm_field_ok now acc fo :
  od_nodup (fst acc) ->
  od_nodup (fst (confirm_field key now acc fo)) /\
  length (fst (confirm_field key now acc fo)) = length (fst acc).
Proof.
  destruct acc as [m ch]. unfold confirm_field. intros Hd.
  destruct (fast_mark_matches (od_get (key, fst fo) m) (snd fo)) eqn:E; [|done].
  cbn [fst]. split; [by apply od_nodup_put|]. rewrite od_length_put by done.
  destruct (od_get (key, fst fo) m) as [mk|] in E |- *; [|done].
  rewrite decide_True by eauto. lia.
Qed.

Lemma confirm_fast_ok h field_orders now :
  history_ok h -> history_ok (set_marks h (fst (confirm_fast_marks h key field_orders now))).
Proof.
  unfold history_ok, confirm_fast_marks. cbn [set_marks h_marks h_capacity].
  change (h_marks h) with (fst (h_marks h, @nil (field_key * mark))) at 1 2.
  generalize (h_marks h, @nil (field_key * mark)).
  induction field_orders as [|fo fs IH]; intros acc Hacc; [done|]. cbn [fold_left]. apply IH.
  destruct (confirm_field_ok now acc fo (proj1 Hacc)) as [H1 H2]. rewrite H2. split; [exact H1 | apply Hacc].
Qed.

End confirm.

(** One operation on the history; the clock reads are part of it. *)
Inductive history_op :=
  | OpClaimFast (key : string) (orders : odict string Z) (active : list field_key) (now now2 : float)
  | OpRelease (key : string) (orders : odict string Z)
  | OpConfirmFast (key : string) (orders : odict string Z) (now : float)
  | OpConfirmDurable (key : string) (orders : odict string Z) (active : list field_key)
      (now now2 : float).

Definition op_orders (op : history_op) : odict string Z :=
  match op with
  | OpClaimFast _ o _ _ _ | OpRelease _ o | OpConfirmFast _ o _ | OpConfirmDurable _ o _ _ _ => o
  end.

Section invariant.
Context {OD : OrderDisk}.

Definition history_step (op : history_op) (s : order_state) : order_state :=
  match op with
  | OpClaimFast key orders active now now2 =>
    mkOrderState (snd (claim_fast s.(os_history) key orders active now now2)) s.(os_files)
  | OpRelease key orders => mkOrderState (release_fast s.(os_history) key orders) s.(os_files)
  | OpConfirmFast key orders now => snd (confirm_fast_applied key orders now s)
  | OpConfirmDurable key orders active now now2 =>
    snd (confirm_durable_applied key orders active now now2 s)
  end.

Lemma persist_history changed current s :
  os_history (snd (persist changed current s)) = os_history s.
Proof.
  unfold persist. by destruct (checkpoint_publication_order_marks _ _ _ _).
Qed.

Lemma history_step_ok op s :
  od_nodup (op_orders op) -> history_ok s.(os_history) -> history_ok (os_history (history_step op s)).
Proof.
  intros Ho Hs. destruct op as [key orders active now now2|key orders|key orders now|
    key orders active now now2]; cbn [history_step op_orders os_history] in *.
  - by apply claim_fast_ok.
  - by apply release_ok.
  - unfold confirm_fast_applied. rewrite bind_get.
    pose proof (confirm_fast_ok key (os_history s) orders now Hs) as H.
    destruct (confirm_fast_marks _ _ _ _) as [updated changed]. rewrite bind_modify.
    by rewrite persist_history.
  - unfold confirm_durable_applied. rewrite bind_get.
    destruct (claim_fits_capacity _ _ _ _ _) eqn:E; cbn [negb]; [|done].
    rewrite bind_modify, persist_history.
    apply claimed_ok; [by apply pruned_ok | by apply claim_accepted_nodup | done].
Qed.

(** Over any sequence of claims, confirmations and releases, whatever the clock
    and the disk do, the history keeps one mark per field and never holds more marks
    than its capacity. *)
Theorem history_stays_within_capacity ops s :
  Forall (fun op => od_nodup (op_orders op)) ops ->
  history_ok s.(os_history) ->
  history_ok (os_history (fold_left (fun s op => history_step op s) ops s)).
Proof.
  intros Hops. revert s. induction Hops as [|op ops Ho _ IH]; intros s Hs; [done|].
  cbn [fold_left]. by apply IH, history_step_ok.
Qed.

(** The high-water mark of an active field never falls: over any sequence of fast
    claims that keep it active, it is still there with an order at least as high. *)
Theorem high_water_mark_never_falls fk claims h mk :
  od_nodup h.(h_marks) ->
  od_get fk h.(h_marks) = Some mk ->
  Forall (fun '(key, orders, active, now, now2) => fk ∈ active /\ od_nodup orders)
    (claims : list (string * odict string Z * list field_key * float * float)) ->
  exists mk',
    od_get fk (h_marks (fold_left
      (fun h '(key, orders, active, now, now2) => snd (claim_fast h key orders active now now2))
      claims h)) = Some mk' /\
    mk.(mark_order) <= mk'.(mark_order).
Proof.
  intros Hd Hm Hc. revert h mk Hd Hm.
  induction Hc as [|[[[[key orders] active] now] now2] claims [Ha Ho] _ IH]; intros h mk Hd Hm.
  - exists mk. split; [exact Hm | lia].
  - cbn [fold_left].
    destruct (claim_fast_high_water key orders Ho h active now now2 fk mk Hd Hm) as (mk1 & Hm1 & Hle).
    { by left. }
    destruct (IH _ mk1 (claim_fast_nodup key orders h active now now2 Hd) Hm1) as (mk2 & Hm2 & Hle2).
    exists mk2. split; [exact Hm2 | lia].
Qed.

End invariant.

(** *** Persistence *)

(** A durable mark that is read back at [now]: named, numbered, finite and recent. *)
Definition restorable (now cutoff : float) (kv : field_key * mark) : bool :=
  bool_decide (mark_lane (snd kv) = Durable) &&
  negb (fst (fst kv) =? "")%string && negb (snd (fst kv) =? "")%string &&
  (0 <? mark_order (snd kv)) && isfinite (mark_seen_at (snd kv)) &&
  (cutoff <? mark_seen_at (snd kv))%F && (mark_seen_at (snd kv) <=? now)%F.

Lemma state_mark_record fk mk now cutoff :
  mk.(mark_lane) = Durable ->
  state_mark (state_record fk mk) now cutoff =
  Ok (if restorable now cutoff (fk, mk) then Some (fk, mk) else None).
Proof.
  intros Hl. destruct fk as [k f], mk as [o l t]. cbn in Hl. subst l.
  unfold state_mark. set (d := state_mapping _).
  assert (d = Some [("key", VStr k); ("field", VStr f); ("order", VInt o);
    ("lane", VStr "durable"); ("seen_at", VFloat t)]) as -> by reflexivity.
  unfold state_identity, state_order_mark. set (payload := _ :: _).
  assert (cmd_get "key" payload = VStr k) as -> by reflexivity.
  assert (cmd_get "field" payload = VStr f) as -> by reflexivity.
  assert (cmd_get "order" payload = VInt o) as -> by reflexivity.
  assert (cmd_get "lane" payload = VStr "durable") as -> by reflexivity.
  assert (cmd_get "seen_at" payload = VFloat t) as -> by reflexivity.
  unfold restorable, nonempty_text, state_positive_integer. cbn.
  destruct (k =? "")%string, (f =? "")%string, (0 <? o), (isfinite t); cbn; try done.
  all: by destruct (cutoff <? t)%F, (t <=? now)%F.
Qed.

(** The marks of a dictionary that a restart at [now] restores. *)
Definition restored (now cutoff : float) (m : marks) : marks :=
  filter (fun kv => restorable now cutoff kv = true) m.

Definition set_all (m l : marks) : marks := fold_left (fun m kv => od_set (fst kv) (snd kv) m) l m.

Lemma insert_payload now cutoff m m0 :
  insert_state_marks m0 (state_payload m) now cutoff = Ok (set_all m0 (restored now cutoff m)).
Proof.
  unfold state_payload, restored, set_all. revert m0.
  induction m as [|[fk mk] m IH]; intros m0; [done|]. rewrite !filter_cons.
  destruct (decide (mark_lane (snd (fk, mk)) = Durable)) as [Hd|Hd]; cbn [snd] in Hd.
  - cbn [map insert_state_marks]. unfold insert_state_mark.
    rewrite state_mark_record by done. destruct (restorable now cutoff (fk, mk)) eqn:E.
    + rewrite decide_True by done. cbn. apply IH.
    + rewrite decide_False by done. cbn. apply IH.
  - rewrite (decide_False (P := restorable now cutoff (fk, mk) = true)).
    + apply IH.
    + unfold restorable. cbn [snd]. by rewrite bool_decide_eq_false_2.
Qed.

Lemma insert_app l1 l2 m0 now cutoff :
  insert_state_marks m0 (l1 ++ l2)%list now cutoff =
  m ← insert_state_marks m0 l1 now cutoff; insert_state_marks m l2 now cutoff.
Proof.
  revert m0. induction l1 as [|v l1 IH]; intros m0; [done|]. cbn.
  destruct (insert_state_mark m0 v now cutoff); cbn; [apply IH | done].
Qed.

Lemma od_set_absent (fk : field_key) (mk : mark) m :
  od_get fk m = None -> od_set fk mk m = (m ++ [(fk, mk)])%list.
Proof.
  induction m as [|[k v] m IH]; cbn; [done|]. destruct (decide (fk = k)); [done|].
  intros H. by rewrite IH.
Qed.

Lemma set_all_fresh l m0 :
  od_nodup (m0 ++ l)%list -> set_all m0 l = (m0 ++ l)%list.
Proof.
  unfold set_all, od_nodup, od_keys. revert m0.
  induction l as [|[fk mk] l IH]; intros m0 Hd; [by rewrite app_nil_r|].
  cbn [fold_left fst snd]. rewrite od_set_absent.
  - rewrite IH; rewrite <- app_assoc; [done|]. exact Hd.
  - apply od_get_none. unfold od_keys. rewrite map_app in Hd. apply NoDup_app in Hd as (_ & Hd & _).
    intros Hin. apply (Hd _ Hin). left.
Qed.

Lemma set_all_get l m0 fk mk :
  od_nodup l -> od_get fk l = Some mk -> od_get fk (set_all m0 l) = Some mk.
Proof.
  unfold od_nodup, set_all. revert m0. induction l as [|[fk' mk'] l IH]; intros m0; [done|].
  cbn [fold_left od_get fst snd od_keys map]. intros [Hx Hd]%NoDup_cons Hg.
  destruct (decide (fk = fk')) as [->|Hne]; [|by apply IH].
  simplify_eq. apply od_get_none in Hx. clear IH Hd.
  assert (od_get fk' (od_set fk' mk m0) = Some mk) as Hm by by rewrite od_get_set, decide_True.
  revert Hm. generalize (od_set fk' mk m0) as m. revert Hx.
  induction l as [|[k v] l IH]; cbn [od_get fold_left fst snd]; intros Hx m Hm; [done|].
  destruct (decide (fk' = k)); [done|]. apply IH; [done|]. by rewrite od_get_set, decide_False.
Qed.

Section restart.
Context {OD : OrderDisk}.

Lemma compacted_roundtrip current files files' path now retention :
  path <> "" -> od_nodup current ->
  compact_state current files = (Ok true, files') ->
  load_publication_order_marks path files' now retention =
  Ok (restored now (now - retention)%F current).
Proof.
  intros Hp%String.eqb_neq Hd Hc. unfold load_publication_order_marks. rewrite Hp.
  assert (files' = mkFiles (Some (state_payload current)) None) as ->.
  { revert Hc. unfold compact_state, persist_publication_order_marks, remove_compacted_journal.
    destruct disk_can_write_base; cbn; [|done].
    destruct files as [b [j|]]; cbn; [|by intros [= <-]].
    destruct disk_can_unlink; cbn; [by intros [= <-] | done]. }
  cbn. rewrite insert_payload. cbn. f_equal. apply set_all_fresh. by apply od_nodup_filter.
Qed.

(** Compacting writes a state from which a restart restores exactly the durable
    marks, in their order, that are named, numbered and within the retention time. *)
Theorem compacted_state_roundtrip current files files' path now retention :
  path <> "" -> od_nodup current ->
  compact_state current files = (Ok true, files') ->
  load_publication_order_marks path files' now retention =
  Ok (restored now (now - retention)%F current).
Proof. apply compacted_roundtrip. Qed.

(** The journal does not exist, or it ends with a complete line. *)
Definition journal_ended (files : order_files) : Prop :=
  match files.(journal_file) with Some j => j.(jn_tail) = Ended | None => True end.

Lemma compacted_files current files files' :
  compact_state current files = (Ok true, files') -> files' = mkFiles (Some (state_payload current)) None.
Proof.
  unfold compact_state, persist_publication_order_marks, remove_compacted_journal.
  destruct disk_can_write_base; cbn; [|done].
  destruct files as [b [j|]]; cbn; [|by intros [= <-]].
  destruct disk_can_unlink; cbn; [by intros [= <-] | done].
Qed.

Lemma append_files changed files :
  journal_ended files -> fst (append_state_delta changed files) = Ok true ->
  snd (append_state_delta changed files) =
  mkFiles files.(base_file)
    (Some (mkJournal (match files.(journal_file) with Some j => j.(jn_lines) | None => [] end ++ [Some (state_payload changed)])%list Ended)).
Proof.
  unfold append_state_delta, journal_ended. destruct (negb _); [done|]. destruct disk_append; [|done..].
  destruct files as [b [[l t]|]]; cbn; [intros -> _ | intros _ _]; done.
Qed.

(** Appending a line to a journal that ends with a complete one adds its marks. *)
Lemma append_loads path changed f now retention m :
  journal_ended f -> load_publication_order_marks path f now retention = Ok m ->
  load_publication_order_marks path
    (mkFiles f.(base_file)
      (Some (mkJournal (match f.(journal_file) with Some j => j.(jn_lines) | None => [] end ++ [Some (state_payload changed)])%list Ended)))
    now retention = Ok (set_all m (restored now (now - retention)%F changed)).
Proof.
  unfold journal_ended, load_publication_order_marks. cbn [base_file journal_file].
  destruct (insert_state_marks [] _ _ _) as [mb|]; cbn [mbind res_bind]; [|done]. unfold journal_records at 2. cbn [jn_lines jn_tail].
  rewrite app_nil_r, omap_app, concat_app, insert_app. cbn [omap list_omap id concat]. cbn. rewrite app_nil_r. intros He Hm.
  assert (insert_state_marks mb (concat (omap id (match journal_file f with Some j => jn_lines j | None => [] end))) now
    (now - retention)%F = Ok m) as ->.
  { revert Hm. destruct (journal_file f) as [[l t]|]; [|done]. cbn in He. subst t. unfold journal_records. cbn [jn_lines jn_tail].
    by rewrite app_nil_r. }
  cbn. apply insert_payload.
Qed.

(** What a successful checkpoint leaves on the disk: the compacted state, or the
    journal with the changes at its end on top of files that were readable. *)
Lemma write_checkpoint_files path changed current files files' now retention m0 :
  journal_ended files -> load_publication_order_marks path files now retention = Ok m0 -> path <> "" ->
  od_nodup current ->
  write_checkpoint changed current files = (Ok true, files') ->
  journal_ended files' /\
  (load_publication_order_marks path files' now retention =
    Ok (restored now (now - retention)%F current) \/
   exists m1, load_publication_order_marks path files' now retention =
    Ok (set_all m1 (restored now (now - retention)%F changed))).
Proof.
  intros He Hload Hp Hd. unfold write_checkpoint. destruct disk_path_is_dir; [done|].
  intros H. apply bind_inv in H as [(prepared & f1 & Hprep & H)|(e & _ & ?)]; [|done].
  destruct prepared; cbn [negb] in H; [|done].
  assert (journal_ended f1 /\ exists m, load_publication_order_marks path f1 now retention = Ok m) as [He1 [m Hf1]].
  { revert Hprep. unfold prepare_journal_for_append. rewrite bind_get.
    destruct (journal_file files) as [j|] eqn:Ej; [|intros [= <-]; eauto].
    unfold journal_size, mbind, M_bind. cbn. rewrite Ej.
    destruct (disk_journal_size j) as [n|]; [|done].
    destruct (n <=? _); [intros [= <-]; eauto|]. intros Hc. split; [by rewrite (compacted_files _ _ _ Hc)|]. eexists.
    by eapply compacted_roundtrip. }
  apply bind_inv in H as [(appended & f2 & Hap & H)|(e & _ & ?)]; [|done].
  destruct appended; cbn [negb] in H; [|done].
  pose proof (append_files changed f1 He1) as Hf2. rewrite Hap in Hf2. specialize (Hf2 eq_refl). cbn [snd] in Hf2.
  unfold finish_checkpoint in H. apply bind_inv in H as [(size & f3 & Hsz & H)|(e & _ & ?)]; [|done].
  assert (f3 = f2) as -> by (unfold journal_size in Hsz; by injection Hsz).
  destruct size as [n|]; [|done]. destruct (n <=? _).
  - injection H as <-. rewrite Hf2. split; [done|]. right. exists m. by apply append_loads.
  - split; [by rewrite (compacted_files _ _ _ H)|]. left. by eapply compacted_roundtrip.
Qed.

(** C40. A checkpoint that reports success survives a restart, whether it appended to the journal or compacted it before
    or after: if there is a state path, the files could be read before, and the journal was absent or ended with a complete
    line, then the files can be read afterwards, the journal still ends with a complete line, and every changed durable
    mark that is among the current ones and still recent is restored with its order. *)
Theorem checkpoint_survives_restart path changed current files files' now retention m0 fk mk :
  journal_ended files -> load_publication_order_marks path files now retention = Ok m0 ->
  path <> "" -> od_nodup changed -> od_nodup current ->
  checkpoint_publication_order_marks path changed current files = (Ok true, files') ->
  od_get fk changed = Some mk -> od_get fk current = Some mk ->
  restorable now (now - retention)%F (fk, mk) = true ->
  journal_ended files' /\
  exists m, load_publication_order_marks path files' now retention = Ok m /\
    od_get fk m = Some mk.
Proof.
  intros He Hload Hp Hdc Hd Hcp Hch Hcu Hr. unfold checkpoint_publication_order_marks in Hcp.
  rewrite (proj2 (String.eqb_neq path "") Hp) in Hcp. cbn [orb] in Hcp.
  rewrite bool_decide_eq_false_2 in Hcp by (destruct changed; done).
  destruct (write_checkpoint_files path changed current files files' now retention m0)
    as [He' [H|[m1 H]]]; try done; (split; [exact He'|]); eexists; (split; [exact H|]).
  - unfold restored. rewrite od_get_filter, Hcu by done. by rewrite decide_True.
  - apply set_all_get; [by apply od_nodup_filter|]. unfold restored.
    rewrite od_get_filter, Hch by done. by rewrite decide_True.
Qed.

End restart.

(** ** Witnesses *)

Section witnesses.

(** A disk on which everything works. *)
Definition good_disk : OrderDisk := {|
  disk_path_is_dir := false;
  disk_journal_size := fun j => Some (Z.of_nat (length j.(jn_lines)));
  disk_line_fits := fun _ => true;
  disk_can_write_base := true;
  disk_append := Appended;
  disk_can_unlink := true |}.

Definition sample_orders : odict string Z := [("power", 7); ("current", 8)].
Definition sample_history : history := mkHistory 4 (f_of_Z 60) "/run/order.json"
  [(("evcs", "power"), mkMark 5 Fast (f_of_Z 100)); (("evcs", "mode"), mkMark 3 Durable (f_of_Z 90))].

Lemma sample_orders_nodup : od_nodup sample_orders.
Proof. vm_compute. repeat constructor; by apply (bool_decide_unpack _). Qed.

Lemma sample_history_nodup : od_nodup sample_history.(h_marks).
Proof. vm_compute. repeat constructor; by apply (bool_decide_unpack _). Qed.

Definition sample_claim : field_claim * history :=
  claim_fast sample_history "evcs" sample_orders [] (f_of_Z 110) (f_of_Z 110).

Lemma claim_fast_admits_newer_fields_witness :
  od_nodup sample_history.(h_marks) /\
  claim_is (fst sample_claim) = Accepted /\
  od_get ("evcs", "power") (h_marks (snd sample_claim)) = Some (mkMark 7 Fast (f_of_Z 110)).
Proof.
  split; [exact sample_history_nodup|]. split; [reflexivity|].
  exact (proj2 (claim_fast_admits_newer_fields "evcs" sample_orders sample_orders_nodup
    sample_history [] (f_of_Z 110) (f_of_Z 110) (fst sample_claim) (snd sample_claim)
    sample_history_nodup eq_refl) ("evcs", "power")).
Defined.

Lemma release_fast_removes_only_own_marks_witness :
  od_nodup [("power", 5)] /\
  od_get ("evcs", "power") (release_fast sample_history "evcs" [("power", 5)]).(h_marks) = None.
Proof.
  assert (od_nodup [("power", 5)]) as H by apply NoDup_singleton.
  split; [exact H|].
  exact (release_fast_removes_only_own_marks "evcs" [("power", 5)] H sample_history ("evcs", "power")).
Defined.

Definition sample_ops : list history_op :=
  [OpClaimFast "evcs" sample_orders [] (f_of_Z 110) (f_of_Z 110);
   OpConfirmFast "evcs" sample_orders (f_of_Z 111); OpRelease "evcs" sample_orders].

Lemma history_stays_within_capacity_witness :
  let s := mkOrderState sample_history (mkFiles None None) in
  history_ok sample_history /\
  history_ok (os_history (fold_left (fun s op => @history_step good_disk op s) sample_ops s)).
Proof.
  assert (history_ok sample_history) as H
    by (split; [exact sample_history_nodup | vm_compute; discriminate]).
  split; [exact H|].
  apply (@history_stays_within_capacity good_disk sample_ops); [|exact H].
  do 3 (constructor; [exact sample_orders_nodup|]). constructor.
Defined.

Lemma high_water_mark_never_falls_witness :
  exists mk', od_get ("evcs", "power") (h_marks (snd (claim_fast sample_history "evcs" sample_orders
      [("evcs", "power")] (f_of_Z 500) (f_of_Z 500)))) = Some mk' /\ 5 <= mk'.(mark_order).
Proof.
  refine (high_water_mark_never_falls ("evcs", "power")
    [("evcs", sample_orders, [("evcs", "power")], f_of_Z 500, f_of_Z 500)] sample_history
    (mkMark 5 Fast (f_of_Z 100)) sample_history_nodup eq_refl _).
  constructor; [|constructor]. split; [left | exact sample_orders_nodup].
Defined.

Definition sample_current : marks := [(("evcs", "mode"), mkMark 3 Durable (f_of_Z 90))].
Lemma sample_current_nodup : od_nodup sample_current.
Proof. apply NoDup_singleton. Qed.

Lemma compacted_state_roundtrip_witness :
  load_publication_order_marks "/run/order.json"
    (snd (@compact_state good_disk sample_current (mkFiles None None))) (f_of_Z 100) (f_of_Z 60) =
  Ok sample_current.
Proof.
  rewrite (@compacted_state_roundtrip good_disk sample_current (mkFiles None None)
    (snd (@compact_state good_disk sample_current (mkFiles None None))) "/run/order.json"
    (f_of_Z 100) (f_of_Z 60) ltac:(discriminate) sample_current_nodup eq_refl).
  vm_compute; reflexivity.
Defined.

(** A second checkpoint, on the journal that the first one has left. *)
Definition first_checkpoint : order_files :=
  snd (@checkpoint_publication_order_marks good_disk "/run/order.json" sample_current sample_current (mkFiles None None)).
Definition newer_marks : marks := [(("evcs", "mode"), mkMark 4 Durable (f_of_Z 95))].
Definition second_checkpoint (files : order_files) : res bool * order_files :=
  @checkpoint_publication_order_marks good_disk "/run/order.json" newer_marks newer_marks files.

Lemma checkpoint_survives_restart_witness :
  journal_ended (snd (second_checkpoint first_checkpoint)) /\
  exists m, load_publication_order_marks "/run/order.json" (snd (second_checkpoint first_checkpoint)) (f_of_Z 100) (f_of_Z 60) = Ok m /\
    od_get ("evcs", "mode") m = Some (mkMark 4 Durable (f_of_Z 95)).
Proof.
  apply (@checkpoint_survives_restart good_disk "/run/order.json" newer_marks newer_marks
    first_checkpoint _ (f_of_Z 100) (f_of_Z 60) sample_current);
    try (apply NoDup_singleton); try reflexivity; try discriminate; vm_compute; reflexivity.
Defined.

(** A disk that is full in the middle of a line. *)
Definition full_disk : OrderDisk := {|
  disk_path_is_dir := false; disk_journal_size := disk_journal_size (OrderDisk := good_disk); disk_line_fits := fun _ => true;
  disk_can_write_base := true; disk_append := Broken SomeText; disk_can_unlink := true |}.
Definition torn_files : order_files :=
  snd (@checkpoint_publication_order_marks full_disk "/run/order.json" sample_current sample_current (mkFiles None None)).

(** The checkpoint after a failed one reports success, but its marks form one unreadable line with what the failed one
    has left: a restart has forgotten them. *)
Lemma success_after_torn_line_is_lost :
  fst (second_checkpoint torn_files) = Ok true /\
  load_publication_order_marks "/run/order.json" (snd (second_checkpoint torn_files)) (f_of_Z 100) (f_of_Z 60) = Ok [].
Proof. split; vm_compute; reflexivity. Qed.

End witnesses.
