(* ===== verification/Encoding.v ===== *)
(** * Encodings of the standard library

    [json.dumps] and [hashlib.sha256] as far as the code uses them: the compact text
    of a command, whose length the queue bounds, and the digest its identifiers are
    made of.  Text is ASCII, so encoding it leaves one byte per character. *)

From S2P Require Import Prelude PyFloat PyValue.

(** ** SHA-256 *)

Section sha256.

Definition w32 : Z := 2 ^ 32.

Definition sha_k : list Z := [
    1116352408; 1899447441; 3049323471; 3921009573; 961987163; 1508970993; 2453635748;
    2870763221; 3624381080; 310598401; 607225278; 1426881987; 1925078388; 2162078206;
    2614888103; 3248222580; 3835390401; 4022224774; 264347078; 604807628; 770255983;
    1249150122; 1555081692; 1996064986; 2554220882; 2821834349; 2952996808; 3210313671;
    3336571891; 3584528711; 113926993; 338241895; 666307205; 773529912; 1294757372;
    1396182291; 1695183700; 1986661051; 2177026350; 2456956037; 2730485921; 2820302411;
    3259730800; 3345764771; 3516065817; 3600352804; 4094571909; 275423344; 430227734;
    506948616; 659060556; 883997877; 958139571; 1322822218; 1537002063; 1747873779;
    1955562222; 2024104815; 2227730452; 2361852424; 2428436474; 2756734187; 3204031479;
    3329325298].

Definition sha_init : list Z := [
    1779033703; 3144134277; 1013904242; 2773480762; 1359893119; 2600822924; 528734635;
    1541459225].

Definition rotr (n x : Z) : Z := Z.lor (Z.shiftr x n) (Z.shiftl x (32 - n) mod w32).
Definition wnot (x : Z) : Z := w32 - 1 - x.

(** The padded message: a one bit, zeros, and the length in bits. *)
Definition sha_pad (message : list Z) : list Z :=
  let n := Z.of_nat (length message) in
  let k := (55 - n) mod 64 in
  (message ++ [128] ++ repeat 0 (Z.to_nat k) ++
   map (fun i => Z.shiftr (8 * n) (8 * i) mod 256) [7; 6; 5; 4; 3; 2; 1; 0])%list.

Fixpoint words (bytes : list Z) : list Z :=
  match bytes with
  | a :: b :: c :: d :: rest => (a * 2 ^ 24 + b * 2 ^ 16 + c * 2 ^ 8 + d) :: words rest
  | _ => []
  end.

(** The message schedule, newest word first. *)
Fixpoint sha_extend (fuel : nat) (w : list Z) : list Z :=
  match fuel with
  | O => w
  | S fuel' =>
    let get i := nth i w 0 in
    let w15 := get 14%nat in
    let w2 := get 1%nat in
    let s0 := Z.lxor (Z.lxor (rotr 7 w15) (rotr 18 w15)) (Z.shiftr w15 3) in
    let s1 := Z.lxor (Z.lxor (rotr 17 w2) (rotr 19 w2)) (Z.shiftr w2 10) in
    sha_extend fuel' (((get 15%nat + s0 + get 6%nat + s1) mod w32) :: w)
  end.

Definition sha_round (state : list Z) (kw : Z) : list Z :=
  match state with
  | [a; b; c; d; e; f; g; h] =>
    let s1 := Z.lxor (Z.lxor (rotr 6 e) (rotr 11 e)) (rotr 25 e) in
    let ch := Z.lxor (Z.land e f) (Z.land (wnot e) g) in
    let t1 := h + s1 + ch + kw in
    let s0 := Z.lxor (Z.lxor (rotr 2 a) (rotr 13 a)) (rotr 22 a) in
    let maj := Z.lxor (Z.lxor (Z.land a b) (Z.land a c)) (Z.land b c) in
    [(t1 + s0 + maj) mod w32; a; b; c; (d + t1) mod w32; e; f; g]
  | _ => state
  end.

Definition sha_block (state block : list Z) : list Z :=
  let w := rev (sha_extend 48 (rev block)) in
  let out := fold_left sha_round (zip_with Z.add sha_k w) state in
  zip_with (fun x y => (x + y) mod w32) state out.

(** Blocks of sixteen words; every round drops sixteen, so the length is fuel. *)
Fixpoint sha_blocks (fuel : nat) (state ws : list Z) : list Z :=
  match fuel, ws with
  | S fuel', _ :: _ => sha_blocks fuel' (sha_block state (take 16 ws)) (drop 16 ws)
  | _, _ => state
  end.

Definition hex_word (x : Z) : string :=
  fold_right (fun i s => String (hex_digit (Z.shiftr x (4 * i) mod 16)) s) ""
    [7; 6; 5; 4; 3; 2; 1; 0].

Fixpoint string_bytes (s : string) : list Z :=
  match s with EmptyString => [] | String c s' => code c :: string_bytes s' end.

(** [hashlib.sha256(text.encode()).hexdigest()] *)
Definition sha256_hex (text : string) : string :=
  let ws := words (sha_pad (string_bytes text)) in
  fold_right (fun x s => (hex_word x ++ s)%string) "" (sha_blocks (length ws) sha_init ws).

End sha256.

(** ** JSON text *)

(** A text with [ensure_ascii]. *)
Definition json_char (c : ascii) : string :=
  let n := code c in
  if Ascii.eqb c dquote || Ascii.eqb c backslash then String backslash (String c "")
  else if n =? 10 then String backslash "n"
  else if n =? 13 then String backslash "r"
  else if n =? 9 then String backslash "t"
  else if n =? 8 then String backslash "b"
  else if n =? 12 then String backslash "f"
  else if (n <? 32) || (126 <? n) then
    String backslash (String "u" (String "0" (String "0"
      (String (hex_digit (n / 16)) (String (hex_digit (n mod 16)) "")))))
  else String c "".

Definition json_text (s : string) : string :=
  String dquote (string_flat_map json_char s ++ String dquote "")%string.

Definition json_float (x : float) : string :=
  match x with
  | S754_nan => "NaN"
  | S754_infinity s => if s then "-Infinity" else "Infinity"
  | _ => float_repr x
  end.

(** A dictionary key is a text, or a number, truth value or [None] turned into one. *)
Definition json_key (k : pyval) : res string :=
  match k with
  | VStr s => Ok s
  | VInt n => Ok (pretty n)
  | VFloat x => Ok (json_float x)
  | VBool b => Ok (if b then "true" else "false")
  | VNone => Ok "null"
  | _ => Err TypeError
  end.

(** [json.dumps(value, separators=(",", ":"))] *)
Fixpoint json_dumps (v : pyval) : res string :=
  match v with
  | VNone => Ok "null"
  | VBool b => Ok (if b then "true" else "false")
  | VInt n => Ok (pretty n)
  | VFloat x => Ok (json_float x)
  | VStr s => Ok (json_text s)
  | VList l | VTuple l =>
    items ← (fix go (l : list pyval) : res (list string) :=
      match l with
      | [] => Ok []
      | x :: l' => t ← json_dumps x; ts ← go l'; Ok (t :: ts)
      end) l;
    Ok ("[" ++ join "," items ++ "]")%string
  | VDict d =>
    items ← (fix go (d : list (pyval * pyval)) : res (list string) :=
      match d with
      | [] => Ok []
      | (k, x) :: d' =>
        key ← json_key k; t ← json_dumps x; ts ← go d'; Ok ((json_text key ++ ":" ++ t)%string :: ts)
      end) d;
    Ok ("{" ++ join "," items ++ "}")%string
  | VOpaque _ => Err TypeError
  end.
