(* ===== verification/PublicationPayload.v ===== *)
(** * Publication payloads

    [ipc/publication_payload.py] (field-wise merging and filtering),
    [ipc/fast_publication_wire.py] and [ipc/publication_payload.py] (size limits),
    [ipc/gateway_publication.py] (the field publications a fast queue admits),
    [ipc/fast_publication_policy.py] and [ipc/deadline.py] (admission and lifetime),
    with the priority and number helpers of [ipc/command_mailbox.py]. *)

From S2P Require Import Prelude PyFloat PyValue OrderedMap PublicationOrder Encoding.

(** ** Numbers and priorities of a command *)

(** ipc/command_mailbox.py: COMMAND_PRIORITY_RANKS *)
Definition COMMAND_PRIORITY_RANKS : list (string * Z) :=
  [("safety", 0); ("user", 1); ("publish", 2); ("read", 3); ("normal", 4); ("optional", 5);
   ("discovery", 5); ("diagnostic", 6)].

(** ipc/command_mailbox.py: command_priority_rank *)
Definition command_priority_rank (priority : pyval) : Z :=
  match priority with
  | VNone => 6
  | _ =>
    let normalized := py_lower (py_strip (py_str priority)) in
    if (normalized =? "")%string then 6 else default 6 (table_get normalized COMMAND_PRIORITY_RANKS)
  end.

(** ipc/command_mailbox.py: command_float *)
Definition command_float (value : pyval) : res float :=
  match value with
  | VStr _ | VInt _ | VBool _ | VFloat _ =>
    catch (py_float value) [TypeError; ValueError] (Ok f0)
  | _ => Ok f0
  end.

(** [(a1, a2) <= (b1, b2)] of an integer and a float. *)
Definition rank_key_le (a b : Z * float) : bool :=
  if fst a =? fst b
  then if (snd a =? snd b)%F then true else (snd a <=? snd b)%F
  else fst a <=? fst b.

(** ipc/command_mailbox.py: should_replace_command *)
Definition should_replace_command (existing candidate : command) : res bool :=
  let existing_rank := command_priority_rank (cmd_get "priority" existing) in
  let candidate_rank := command_priority_rank (cmd_get "priority" candidate) in
  existing_at ← command_float (cmd_get "created_at" existing);
  candidate_at ← command_float (cmd_get "created_at" candidate);
  mret (rank_key_le (candidate_rank, fopp candidate_at) (existing_rank, fopp existing_at)).

(** ** Deadlines *)

(** ipc/deadline.py: COMMAND_DEADLINE_FUTURE_SKEW_SECONDS *)
Definition COMMAND_DEADLINE_FUTURE_SKEW_SECONDS : float := f_of_Z 5.
(** ipc/deadline.py: TRANSIENT_PUBLICATION_DEADLINE_SECONDS *)
Definition TRANSIENT_PUBLICATION_DEADLINE_SECONDS : float := f_of_Z 30.

(** ipc/deadline.py: valid_deadline_anchor *)
Definition valid_deadline_anchor (created_at now : float) : bool :=
  (isfinite created_at && (created_at >? f0) &&
   (created_at <=? now + COMMAND_DEADLINE_FUTURE_SKEW_SECONDS))%F.

(** ipc/deadline.py: deadline_pair *)
Definition deadline_pair (c : command) : res (float * float) :=
  deadline ← command_float (cmd_get "deadline_s" c);
  created_at ← command_float (cmd_get "created_at" c);
  mret (deadline, created_at).

(** ipc/deadline.py: command_deadline_expired *)
Definition command_deadline_expired (c : command) (now : float) : res bool :=
  if negb (od_mem "deadline_s" c) then Ok false
  else
    '(deadline, created_at) ← deadline_pair c;
    mret (if negb (isfinite deadline) then true
          else if (deadline <=? f0)%F then false
          else if negb (valid_deadline_anchor created_at now) then true
          else (now >? created_at + deadline)%F).

(** ipc/deadline.py: normalized_transient_deadline *)
Definition normalized_transient_deadline (value : pyval) : res float :=
  deadline ← command_float value;
  mret (if negb (isfinite deadline) || (deadline <=? f0)%F
        then TRANSIENT_PUBLICATION_DEADLINE_SECONDS
        else fmin deadline TRANSIENT_PUBLICATION_DEADLINE_SECONDS).

(** ipc/deadline.py: remaining_transient_ttl *)
Definition remaining_transient_ttl (c : command) (now : float) : res float :=
  deadline ← normalized_transient_deadline (cmd_get "deadline_s" c);
  if negb (od_mem "created_at" c)
  then mret (if od_mem "deadline_s" c then f0 else deadline)
  else
    created_at ← command_float (cmd_get "created_at" c);
    mret (if negb (valid_deadline_anchor created_at now) then f0
          else fmax f0 (fmin deadline (created_at + deadline - now)%F)).

(** ** Fields *)

(** A dictionary of fields as a value. *)
Definition fields_value (fields : odict string pyval) : pyval :=
  VDict (map (fun '(k, v) => (VStr k, v)) fields).

(** ipc/publication_payload.py: publication_fields *)
Definition publication_fields (c : command) : odict string pyval :=
  default [] (string_mapping (cmd_get "fields" c)).

(** ipc/publication_payload.py: _set_field_orders *)
Definition set_field_orders (payload : command) (orders : odict string Z) : command :=
  if existsb (fun kv => negb (snd kv =? 0)) orders
  then od_set PUBLICATION_FIELD_ORDERS_FIELD (orders_value orders) payload
  else od_del PUBLICATION_FIELD_ORDERS_FIELD payload.

(** ipc/publication_payload.py: _accepted_candidate_fields *)
Definition accepted_candidate_fields (candidate : command) (accepted : option (list string))
    : odict string pyval :=
  let fields := publication_fields candidate in
  match accepted with
  | None => fields
  | Some allowed => filter (fun kv => fst kv ∈ allowed) fields
  end.

(** ipc/publication_payload.py: _merge_candidate_field *)
Definition merge_candidate_field (candidate_orders : odict string Z)
    (acc : odict string pyval * odict string Z) (fv : string * pyval)
    : odict string pyval * odict string Z :=
  let '(merged_fields, merged_orders) := acc in
  let order := order_of candidate_orders (fst fv) in
  let missing := negb (od_mem (fst fv) merged_fields) in
  let newer := order_of merged_orders (fst fv) <=? order in
  if missing || newer
  then (od_set (fst fv) (snd fv) merged_fields, od_set (fst fv) order merged_orders)
  else acc.

(** ipc/publication_payload.py: _merge_ordered_fields *)
Definition merge_ordered_fields (existing_fields candidate_fields : odict string pyval)
    (existing_orders candidate_orders : odict string Z) : odict string pyval * odict string Z :=
  fold_left (merge_candidate_field candidate_orders) candidate_fields
    (existing_fields, existing_orders).

(** [payload = dict(existing); payload.update(candidate)] *)
Definition updated (existing candidate : command) : command :=
  fold_left (fun p kv => od_set (fst kv) (snd kv) p) candidate existing.

(** ipc/publication_payload.py: merge_publication_payload *)
Definition merge_publication_payload (existing : option command) (candidate : command)
    (accepted : option (list string)) : command :=
  let base := default [] existing in
  let payload := updated base candidate in
  let '(merged_fields, merged_orders) :=
    merge_ordered_fields (publication_fields base) (accepted_candidate_fields candidate accepted)
      (publication_field_orders base) (publication_field_orders candidate) in
  set_field_orders (od_set "fields" (fields_value merged_fields) payload) merged_orders.

(** ipc/publication_payload.py: _selected_field_values *)
Definition selected_field_values (c : command) (fields : list string) : odict string pyval :=
  filter (fun kv => fst kv ∈ fields) (publication_fields c).

(** ipc/publication_payload.py: filter_publication_payload *)
Definition filter_publication_payload (c : command) (fields : list string) : option command :=
  match selected_field_values c fields with
  | [] => None
  | values =>
    let orders := publication_field_orders c in
    let selected_orders := map (fun kv => (fst kv, order_of orders (fst kv))) values in
    Some (set_field_orders (od_set "fields" (fields_value values) c) selected_orders)
  end.

(** ** Limits *)

(** ipc/publication_payload.py: MAX_PUBLICATION_COALESCE_KEY_BYTES *)
Definition MAX_PUBLICATION_COALESCE_KEY_BYTES : Z := 512.
(** ipc/publication_payload.py: MAX_PUBLICATION_FIELD_NAME_BYTES *)
Definition MAX_PUBLICATION_FIELD_NAME_BYTES : Z := 256.
(** ipc/publication_payload.py: MAX_PUBLICATION_FIELDS_PER_KEY *)
Definition MAX_PUBLICATION_FIELDS_PER_KEY : Z := 256.
(** ipc/publication_payload.py: MAX_PUBLICATION_PAYLOAD_BYTES *)
Definition MAX_PUBLICATION_PAYLOAD_BYTES : Z := 48 * 1024.

(** [len(text.encode("utf-8"))] of an ASCII text. *)
Definition text_bytes (s : string) : Z := Z.of_nat (String.length s).

(** ipc/fast_publication_wire.py: _coalesce_key_limit_reason *)
Definition coalesce_key_limit_reason (payload : command) : string :=
  match cmd_get "coalesce_key" payload with
  | VNone => ""
  | raw_key =>
    if MAX_PUBLICATION_COALESCE_KEY_BYTES <? text_bytes (py_str raw_key)
    then "coalesce-key-too-large" else ""
  end.

(** ipc/fast_publication_wire.py: _field_shape_limit_reason *)
Definition field_shape_limit_reason (fields : odict string pyval) : string :=
  if MAX_PUBLICATION_FIELDS_PER_KEY <? Z.of_nat (length fields) then "field-limit"
  else if existsb (fun kv => MAX_PUBLICATION_FIELD_NAME_BYTES <? text_bytes (fst kv)) fields
  then "field-name-too-large" else "".

(** The body of a frame; what [json] raises becomes a wire error.
    ipc/fast_publication_wire.py: _encode_body *)
Definition encode_body (payload : command) : res string :=
  catch (json_dumps (fields_value payload)) [OverflowError; TypeError; ValueError] (Err WireError).

(** ipc/fast_publication_wire.py: _binary_payload_limit_reason *)
Definition binary_payload_limit_reason (payload : command) : res string :=
  catch
    (body ← encode_body payload;
     mret (if MAX_PUBLICATION_PAYLOAD_BYTES <? text_bytes body then "payload-limit" else ""))
    [WireError] (Ok "payload-not-encodable").

(** [a or b] of two texts. *)
Definition text_or (a b : string) : string := if (a =? "")%string then b else a.

(** ipc/fast_publication_wire.py: fast_publication_payload_limit_reason *)
Definition fast_publication_payload_limit_reason (payload : command) : res string :=
  binary ← binary_payload_limit_reason payload;
  mret (text_or (coalesce_key_limit_reason payload)
          (text_or (field_shape_limit_reason (publication_fields payload)) binary)).

(** ** Admission *)

(** ipc/gateway_publication.py: _PUBLICATION_PRIORITIES *)
Definition PUBLICATION_PRIORITIES : list string := ["critical"; "live"; "diagnostic"].
(** ipc/gateway_publication.py: PUBLISH_EVCS_FIELDS_KIND *)
Definition PUBLISH_EVCS_FIELDS_KIND : string := "publish_evcs_fields".
(** ipc/gateway_publication.py: PUBLISH_COMPANION_FIELDS_KIND *)
Definition PUBLISH_COMPANION_FIELDS_KIND : string := "publish_companion_fields".
(** ipc/gateway_publication.py: _QUEUE_PRIORITY *)
Definition QUEUE_PRIORITY : list (string * string) :=
  [("critical", "safety"); ("live", "publish"); ("diagnostic", "diagnostic")].

(** ipc/gateway_publication.py: _valid_field_name *)
Definition valid_field_name (value : string) : bool :=
  negb (value =? "")%string && (value =? py_strip value)%string.

(** ipc/gateway_publication.py: _parsed_fields *)
Definition parsed_fields (value : pyval) : option (odict string pyval) :=
  normalized ← string_mapping value;
  if negb (forallb (fun kv => valid_field_name (fst kv)) normalized) then None
  else match normalized with [] => None | _ => Some normalized end.

(** [any(test(char) for char in text)] *)
Fixpoint has_char (test : ascii -> bool) (s : string) : bool :=
  match s with EmptyString => false | String c s' => test c || has_char test s' end.

(** ipc/gateway_publication.py: _is_service_id *)
Definition is_service_id (value : pyval) : option string :=
  match value with
  | VStr s =>
    if negb (s =? "")%string && (s =? py_strip s)%string &&
       negb (has_char py_space s)
    then Some s else None
  | _ => None
  end.

(** ipc/gateway_publication.py: _is_publication_priority *)
Definition is_publication_priority (value : pyval) : option string :=
  match value with VStr s => if str_in s PUBLICATION_PRIORITIES then Some s else None | _ => None end.

Definition is_text (t : string) (value : pyval) : bool :=
  match value with VStr s => (s =? t)%string | _ => false end.

(** ipc/gateway_publication.py: PublishEvcsFields *)
Record PublishEvcsFields := mkPublishEvcs {
  pe_fields : odict string pyval; pe_priority : string }.

(** ipc/gateway_publication.py: PublishCompanionFields *)
Record PublishCompanionFields := mkPublishCompanion {
  pc_service_id : string; pc_fields : odict string pyval; pc_priority : string }.

(** ipc/gateway_publication.py: parse_publish_evcs_fields *)
Definition parse_publish_evcs_fields (c : command) : option PublishEvcsFields :=
  if negb (is_text PUBLISH_EVCS_FIELDS_KIND (cmd_get "kind" c)) then None
  else
    match parsed_fields (cmd_get "fields" c), is_publication_priority (cmd_get "publication_priority" c) with
    | Some fields, Some priority => Some (mkPublishEvcs fields priority)
    | _, _ => None
    end.

(** ipc/gateway_publication.py: parse_publish_companion_fields *)
Definition parse_publish_companion_fields (c : command) : option PublishCompanionFields :=
  if negb (is_text PUBLISH_COMPANION_FIELDS_KIND (cmd_get "kind" c)) then None
  else
    match is_service_id (cmd_get "service_id" c), parsed_fields (cmd_get "fields" c),
          is_publication_priority (cmd_get "publication_priority" c) with
    | Some service_id, Some fields, Some priority => Some (mkPublishCompanion service_id fields priority)
    | _, _, _ => None
    end.

(** [_fields], [_publication_priority] and [_service_id] raise on invalid input.
    ipc/gateway_publication.py: _fields *)
Definition checked_fields (fields : pyval) : res (odict string pyval) :=
  match parsed_fields fields with Some f => Ok f | None => Err ValueError end.

(** ipc/gateway_publication.py: _publication_priority *)
Definition checked_priority (value : pyval) : res string :=
  match is_publication_priority value with Some p => Ok p | None => Err ValueError end.

(** ipc/gateway_publication.py: _service_id *)
Definition checked_service_id (value : string) : res string :=
  match is_service_id (VStr (py_strip value)) with Some s => Ok s | None => Err ValueError end.

(** ipc/gateway_publication.py: publish_evcs_fields_command *)
Definition publish_evcs_fields_command (fields priority : pyval) : res command :=
  normalized_priority ← checked_priority priority;
  checked ← checked_fields fields;
  mret [("kind", VStr PUBLISH_EVCS_FIELDS_KIND); ("source", VStr "core");
        ("fields", fields_value checked);
        ("publication_priority", VStr normalized_priority);
        ("priority", VStr (default "" (table_get normalized_priority QUEUE_PRIORITY)));
        ("coalesce_key", VStr ("gateway-publication:evcs:" ++ normalized_priority)%string)].

(** ipc/gateway_publication.py: publish_companion_fields_command *)
Definition publish_companion_fields_command (service_id : string) (fields priority : pyval)
    : res command :=
  normalized_id ← checked_service_id service_id;
  normalized_priority ← checked_priority priority;
  checked ← checked_fields fields;
  mret [("kind", VStr PUBLISH_COMPANION_FIELDS_KIND); ("source", VStr "companion");
        ("service_id", VStr normalized_id);
        ("fields", fields_value checked);
        ("publication_priority", VStr normalized_priority);
        ("priority", VStr (default "" (table_get normalized_priority QUEUE_PRIORITY)));
        ("coalesce_key",
          VStr ("gateway-publication:companion:" ++ normalized_id ++ ":" ++ normalized_priority)%string)].

(** ipc/fast_publication_policy.py: _valid_transient_kind *)
Definition valid_transient_kind (c : command) : bool :=
  let kind := py_str_or (cmd_get "kind" c) "" in
  if (kind =? PUBLISH_EVCS_FIELDS_KIND)%string
  then match parse_publish_evcs_fields c with Some _ => true | None => false end
  else if (kind =? PUBLISH_COMPANION_FIELDS_KIND)%string
  then match parse_publish_companion_fields c with Some _ => true | None => false end
  else false.

(** ipc/fast_publication_policy.py: is_transient_publication *)
Definition is_transient_publication (c : command) : bool :=
  let priority := py_str_or (cmd_get "publication_priority" c) "" in
  if negb (str_in priority ["live"; "diagnostic"]) then false else valid_transient_kind c.

(** ipc/fast_publication_policy.py: fast_command_id *)
Definition fast_command_id (key : string) : string :=
  ("fast-" ++ string_take 24 (sha256_hex key))%string.

(** ** Facts *)

(** A command as Python builds it: no key and no field name occurs twice. *)
Definition command_ok (c : command) : Prop := od_nodup c /\ od_nodup (publication_fields c).

Lemma text_keys_fields (d : odict string pyval) :
  text_keys (map (fun '(k, v) => (VStr k, v)) d) = Some d.
Proof. induction d as [|[k v] d IH]; [done|]. cbn. by rewrite IH. Qed.

Lemma cmd_get_set k k' v c : cmd_get k (od_set k' v c) = if decide (k = k') then v else cmd_get k c.
Proof. unfold cmd_get. rewrite od_get_set. by destruct (decide (k = k')). Qed.

Lemma cmd_get_del k k' c : cmd_get k (od_del k' c) = if decide (k = k') then VNone else cmd_get k c.
Proof. unfold cmd_get. rewrite od_get_del. by destruct (decide (k = k')). Qed.

(** Setting the orders leaves every other entry alone. *)
Lemma set_field_orders_get k payload orders :
  k <> PUBLICATION_FIELD_ORDERS_FIELD -> cmd_get k (set_field_orders payload orders) = cmd_get k payload.
Proof.
  intros Hk. unfold set_field_orders.
  destruct (existsb _ _); rewrite ?cmd_get_set, ?cmd_get_del; rewrite decide_False by exact Hk; done.
Qed.

Lemma with_fields_fields fields orders payload :
  publication_fields (set_field_orders (od_set "fields" (fields_value fields) payload) orders) = fields.
Proof.
  unfold publication_fields. rewrite set_field_orders_get by done.
  rewrite cmd_get_set, decide_True by done. cbn. by rewrite text_keys_fields.
Qed.

Lemma with_fields_key fields orders payload :
  coalesce_key (set_field_orders (od_set "fields" (fields_value fields) payload) orders) =
  coalesce_key payload.
Proof.
  unfold coalesce_key. rewrite set_field_orders_get by done. by rewrite cmd_get_set.
Qed.

Lemma with_fields_nodup fields orders payload :
  od_nodup payload ->
  od_nodup (set_field_orders (od_set "fields" (fields_value fields) payload) orders).
Proof.
  intros H. unfold set_field_orders. destruct (existsb _ _); auto using od_nodup_set, od_nodup_del.
Qed.

Lemma field_orders_keys c : od_keys (publication_field_orders c) = od_keys (publication_fields c).
Proof.
  unfold publication_field_orders, publication_fields.
  destruct (string_mapping (cmd_get "fields" c)) as [fields|]; [|done]. cbn.
  unfold od_keys. rewrite map_map. apply map_ext. by intros [].
Qed.

Lemma field_orders_nodup c : command_ok c -> od_nodup (publication_field_orders c).
Proof. intros [_ H]. unfold od_nodup. by rewrite field_orders_keys. Qed.

(** *** Merging *)

Lemma updated_get base c k :
  od_nodup c ->
  od_get k (updated base c) = match od_get k c with Some v => Some v | None => od_get k base end.
Proof.
  unfold updated, od_nodup. revert base.
  induction c as [|[k' v'] c IH]; intros base; [done|]. cbn [fold_left fst snd od_get].
  intros [Hx Hd]%NoDup_cons. rewrite IH by done. rewrite od_get_set.
  destruct (decide (k = k')) as [->|]; [|done].
  apply od_get_none in Hx. cbn in Hx. by rewrite Hx.
Qed.

Lemma updated_nodup base c : od_nodup base -> od_nodup (updated base c).
Proof.
  unfold updated. revert base. induction c as [|kv c IH]; intros base Hb; [done|].
  cbn [fold_left]. by apply IH, od_nodup_set.
Qed.

(** The value of a field after merging: the candidate's if the field is new or not
    older than the existing one. *)
Lemma merge_fields_get existing_fields candidate_fields existing_orders candidate_orders f :
  od_nodup candidate_fields ->
  od_get f (fst (merge_ordered_fields existing_fields candidate_fields existing_orders candidate_orders)) =
  match od_get f candidate_fields, od_get f existing_fields with
  | Some v, Some old =>
    if order_of existing_orders f <=? order_of candidate_orders f then Some v else Some old
  | Some v, None => Some v
  | None, o => o
  end.
Proof.
  unfold merge_ordered_fields, od_nodup. revert existing_fields existing_orders.
  induction candidate_fields as [|[g v] cf IH]; intros ef eo; [by intros _; cbn; destruct (od_get f ef)|].
  cbn [fold_left fst snd od_keys map]. intros [Hx Hd]%NoDup_cons.
  unfold merge_candidate_field at 2. cbn [fst snd].
  assert (od_get g cf = None) as Hg by by apply od_get_none.
  destruct (negb (od_mem g ef) || (order_of eo g <=? order_of candidate_orders g)) eqn:E;
    rewrite IH by done; cbn [od_get].
  - assert (f <> g -> order_of (od_set g (order_of candidate_orders g) eo) f = order_of eo f) as Ho.
    { intros Hne. unfold order_of. by rewrite od_get_set, decide_False. }
    rewrite od_get_set. destruct (decide (f = g)) as [->|Hne]; [|by rewrite Ho].
    rewrite Hg. unfold od_mem in E. destruct (od_get g ef); [|done].
    rewrite bool_decide_eq_true_2 in E by eauto. cbn in E. by rewrite E.
  - destruct (decide (f = g)) as [->|Hne]; [|done]. rewrite Hg.
    apply orb_false_iff in E as [E1%negb_false_iff E2]. unfold od_mem in E1.
    apply bool_decide_eq_true in E1 as [old Hold]. rewrite Hold. by rewrite E2.
Qed.

Lemma merge_fields_nodup existing_fields candidate_fields existing_orders candidate_orders :
  od_nodup existing_fields ->
  od_nodup (fst (merge_ordered_fields existing_fields candidate_fields existing_orders candidate_orders)).
Proof.
  unfold merge_ordered_fields. revert existing_fields existing_orders.
  induction candidate_fields as [|fv cf IH]; intros ef eo Hd; [done|]. cbn [fold_left].
  unfold merge_candidate_field at 2. destruct (_ || _); apply IH; auto using od_nodup_set.
Qed.

Lemma accepted_candidate_nodup c accepted :
  command_ok c -> od_nodup (accepted_candidate_fields c accepted).
Proof.
  intros [_ H]. unfold accepted_candidate_fields. destruct accepted; [by apply od_nodup_filter | done].
Qed.

(** The fields of a merged payload. *)
Lemma merge_payload_fields existing c accepted :
  publication_fields (merge_publication_payload existing c accepted) =
  fst (merge_ordered_fields (publication_fields (default [] existing))
    (accepted_candidate_fields c accepted) (publication_field_orders (default [] existing))
    (publication_field_orders c)).
Proof.
  unfold merge_publication_payload. destruct (merge_ordered_fields _ _ _ _). apply with_fields_fields.
Qed.

Lemma merge_payload_get existing c accepted k :
  od_nodup c -> k <> "fields" -> k <> PUBLICATION_FIELD_ORDERS_FIELD ->
  cmd_get k (merge_publication_payload existing c accepted) =
  cmd_get k (updated (default [] existing) c).
Proof.
  intros Hc H1 H2. unfold merge_publication_payload. destruct (merge_ordered_fields _ _ _ _).
  rewrite set_field_orders_get by done. by rewrite cmd_get_set, decide_False.
Qed.

Lemma merge_payload_ok existing c accepted :
  (forall e, existing = Some e -> command_ok e) -> command_ok c ->
  command_ok (merge_publication_payload existing c accepted).
Proof.
  intros He Hc. assert (od_nodup (default [] existing) /\
    od_nodup (publication_fields (default [] existing))) as [Hb Hf].
  { destruct existing; [by apply He | split; constructor]. }
  split.
  - unfold merge_publication_payload. destruct (merge_ordered_fields _ _ _ _).
    by apply with_fields_nodup, updated_nodup.
  - rewrite merge_payload_fields. by apply merge_fields_nodup.
Qed.

(** Which fields a merged payload has. *)
Lemma merge_payload_keys existing c accepted f :
  command_ok c ->
  f ∈ od_keys (publication_fields (merge_publication_payload existing c accepted)) <->
  f ∈ od_keys (publication_fields (default [] existing)) \/
  f ∈ od_keys (accepted_candidate_fields c accepted).
Proof.
  intros Hc. pose proof (accepted_candidate_nodup c accepted Hc) as Hn.
  assert (forall (d : odict string pyval), f ∈ od_keys d <-> is_Some (od_get f d)) as Hk.
  { intros d. rewrite <- not_eq_None_Some, od_get_none.
    split; [tauto | intros H; by apply dec_stable in H]. }
  rewrite !Hk, merge_payload_fields, merge_fields_get by done. clear Hk Hn Hc.
  destruct (od_get f (accepted_candidate_fields c accepted)),
    (od_get f (publication_fields (default [] existing)));
    try destruct (_ <=? _); split; (intros [[? [=]]|[? [=]]] || intros [? [=]] || idtac); eauto.
Qed.

(** *** Filtering *)

Lemma filter_payload_spec c fields payload :
  filter_publication_payload c fields = Some payload ->
  publication_fields payload = selected_field_values c fields /\
  selected_field_values c fields <> [] /\
  coalesce_key payload = coalesce_key c /\ (command_ok c -> command_ok payload) /\
  (forall k, k <> "fields" -> k <> PUBLICATION_FIELD_ORDERS_FIELD -> cmd_get k payload = cmd_get k c).
Proof.
  unfold filter_publication_payload. destruct (selected_field_values c fields) as [|v vs] eqn:E; [done|].
  intros [= <-]. rewrite with_fields_fields, with_fields_key. split_and!; try done.
  - intros [H1 H2]. split; [by apply with_fields_nodup|]. rewrite with_fields_fields, <- E.
    by apply od_nodup_filter.
  - intros k H1 H2. rewrite set_field_orders_get by done. by rewrite cmd_get_set, decide_False.
Qed.

Lemma selected_keys c fields f :
  f ∈ od_keys (selected_field_values c fields) <-> f ∈ fields /\ f ∈ od_keys (publication_fields c).
Proof.
  unfold selected_field_values, od_keys. rewrite !list_elem_of_fmap. split.
  - intros ([g v] & -> & [Hg Hin]%list_elem_of_filter). split; [done|]. by exists (g, v).
  - intros (Hf & [g v] & -> & Hin). exists (g, v). split; [done|]. by apply list_elem_of_filter.
Qed.

(** The order of one field. *)
Lemma order_of_field c f :
  order_of (publication_field_orders c) f =
  match od_get f (publication_fields c) with
  | Some _ =>
    int_or (positive_integer (default VNone (od_get f
      (default [] (string_mapping (cmd_get PUBLICATION_FIELD_ORDERS_FIELD c)))))) (publication_order c)
  | None => 0
  end.
Proof.
  unfold order_of, publication_field_orders, publication_fields.
  destruct (string_mapping (cmd_get "fields" c)) as [fields|]; [|done]. cbn [default].
  generalize (default [] (string_mapping (cmd_get PUBLICATION_FIELD_ORDERS_FIELD c))). intros conf.
  induction fields as [|[g v] fields IH]; [done|]. cbn.
  destruct (decide (f = g)) as [->|]; [done | apply IH].
Qed.

Lemma orders_value_mapping orders :
  string_mapping (orders_value orders) = Some (map (fun '(k, n) => (k, VInt n)) orders).
Proof. induction orders as [|[k n] d IH]; [done|]. cbn in *. by rewrite IH. Qed.

Lemma orders_get orders f :
  od_get f (map (fun '(k, n) => (k, VInt n)) orders) = VInt <$> od_get f (orders : odict string Z).
Proof.
  induction orders as [|[k n] d IH]; [done|]. cbn. by destruct (decide (f = k)).
Qed.

(** Selecting fields keeps their orders. *)
Lemma filter_payload_orders c fields payload f :
  filter_publication_payload c fields = Some payload -> f ∈ fields ->
  order_of (publication_field_orders payload) f = order_of (publication_field_orders c) f.
Proof.
  intros H Hin. rewrite (order_of_field payload).
  pose proof (filter_payload_spec _ _ _ H) as (Hf & _ & _ & _ & Hget). rewrite Hf.
  assert (od_get f (selected_field_values c fields) = od_get f (publication_fields c)) as Hsel.
  { unfold selected_field_values. induction (publication_fields c) as [|[g v] d IH]; [done|].
    rewrite filter_cons. cbn. case_decide as Hg; cbn; destruct (decide (f = g)) as [->|]; done. }
  rewrite Hsel. destruct (od_get f (publication_fields c)) as [v|] eqn:Hv;
    [|by rewrite order_of_field, Hv].
  assert (publication_order payload = publication_order c) as ->.
  { unfold publication_order. by rewrite Hget. }
  revert H. unfold filter_publication_payload.
  destruct (selected_field_values c fields) as [|kv vs] eqn:Evs; [done|]. rewrite <- Evs in *. clear Evs.
  intros [= <-]. set (orders := map _ (selected_field_values c fields)).
  assert (od_get f orders = Some (order_of (publication_field_orders c) f)) as Ho.
  { subst orders. revert Hsel. generalize (selected_field_values c fields). intros d.
    induction d as [|[g u] d IH]; cbn; [done|]. by destruct (decide (f = g)) as [->|]. }
  assert (0 <= order_of (publication_field_orders c) f) as Hpos.
  { rewrite order_of_field, Hv. unfold int_or, publication_order, positive_integer.
    repeat case_match; lia. }
  assert (order_of (publication_field_orders c) f = 0 -> publication_order c = 0) as Hzero.
  { rewrite order_of_field, Hv. unfold int_or. case_match; lia. }
  unfold set_field_orders. destruct (existsb _ orders) eqn:Ex; unfold cmd_get at 1.
  - rewrite od_get_set, decide_True by done. cbn [from_option id].
    rewrite orders_value_mapping. cbn [from_option id]. rewrite orders_get, Ho.
    cbn [fmap option_fmap option_map from_option id positive_integer]. unfold int_or. rewrite Z.max_r by done.
    destruct (Z.eqb_spec (order_of (publication_field_orders c) f) 0) as [E|]; [|done].
    rewrite E. by apply Hzero.
  - rewrite od_get_del, decide_True by done. cbn.
    apply od_get_some_elem, list_elem_of_In in Ho. apply not_true_iff_false in Ex.
    destruct (Z.eqb_spec (order_of (publication_field_orders c) f) 0) as [E|Hne].
    + rewrite E. by apply Hzero.
    + exfalso. apply Ex, existsb_exists. eexists. split; [exact Ho|]. cbn. by apply negb_true_iff, Z.eqb_neq.
Qed.
