(* ===== verification/FastPublication.v ===== *)
(** * The fast publication queue

    [ipc/fast_publication.py] with its collaborators [ipc/fast_publication_work.py],
    [ipc/fast_publication_ordering.py] and [ipc/fast_publication_metrics.py]: a
    bounded, field-wise latest-wins queue of transient publications, whose fields
    carry orders and deadlines.  Clock reads are arguments. *)

From S2P Require Import Prelude PyFloat PyValue OrderedMap PublicationOrder Encoding PublicationPayload.

(** ** Work *)

(** ipc/fast_publication_work.py: FastPublicationWork *)
Record work := mkWork {
  w_command : command; w_expires : odict string float; w_retry_at : float; w_deferred : bool }.

(** [work.field_expires_at[field]] for the fields [fields] of the dictionary. *)
Definition expiry_of (fields : list string) (expires : odict string float) : odict string float :=
  omap (fun f => match od_get f expires with Some t => Some (f, t) | None => None end) fields.

(** ipc/fast_publication_work.py: retained_fast_work *)
Definition retained_fast_work (w : work) (now : float) : option work :=
  let fields := map fst (filter (fun ft => (snd ft >? now)%F = true) w.(w_expires)) in
  payload ← filter_publication_payload w.(w_command) fields;
  Some (mkWork payload (expiry_of fields w.(w_expires)) w.(w_retry_at) w.(w_deferred)).

(** ipc/fast_publication_work.py: fast_requeue_candidate *)
Definition fast_requeue_candidate (w : work) (now : float) : option (string * work) :=
  retained ← retained_fast_work w now;
  let key := coalesce_key retained.(w_command) in
  if (key =? "")%string then None else Some (key, retained).

(** ipc/fast_publication_work.py: _present_fields *)
Definition present_fields (candidates : list string) (queued : odict string pyval) : list string :=
  filter (fun f => od_mem f queued = true) candidates.

(** ipc/fast_publication_work.py: _remaining_fields *)
Definition remaining_fields (queued : odict string pyval) (removed : list string) : list string :=
  filter (fun f => f ∉ removed) (od_keys queued).

(** ipc/fast_publication_work.py: fast_field_selection *)
Definition fast_field_selection (w : work) (fields : list string)
    : option (list string * list string) :=
  let queued_fields := publication_fields w.(w_command) in
  match present_fields fields queued_fields with
  | [] => None
  | removed => Some (removed, remaining_fields queued_fields removed)
  end.

(** ipc/fast_publication_work.py: _merged_field_expiry *)
Definition merged_field_expiry (requeued queued : work) : odict string float :=
  let requeued_orders := publication_field_orders requeued.(w_command) in
  let queued_orders := publication_field_orders queued.(w_command) in
  fold_left
    (fun expiry ft =>
       let missing := negb (od_mem (fst ft) expiry) in
       let newer := order_of requeued_orders (fst ft) <=? order_of queued_orders (fst ft) in
       if missing || newer then od_set (fst ft) (snd ft) expiry else expiry)
    queued.(w_expires) requeued.(w_expires).

(** ipc/fast_publication_work.py: merge_fast_work *)
Definition merge_fast_work (requeued : work) (queued : option work) (retry_at : float)
    (deferred : bool) : work :=
  match queued with
  | None => mkWork requeued.(w_command) requeued.(w_expires) retry_at deferred
  | Some queued =>
    mkWork (merge_publication_payload (Some requeued.(w_command)) queued.(w_command) None)
      (merged_field_expiry requeued queued) (fmin retry_at queued.(w_retry_at))
      (deferred && queued.(w_deferred))
  end.

(** ** The queue *)

(** ipc/fast_publication.py: FAST_PUBLICATION_CAPACITY *)
Definition FAST_PUBLICATION_CAPACITY : Z := 64.
(** ipc/fast_publication.py: FAST_PUBLICATION_ORDER_CAPACITY_FACTOR *)
Definition FAST_PUBLICATION_ORDER_CAPACITY_FACTOR : Z := 64.
(** ipc/fast_publication.py: FAST_PUBLICATION_RETRY_SECONDS *)
Definition FAST_PUBLICATION_RETRY_SECONDS : float := fdec 1 4.
(** ipc/fast_publication.py: FAST_PUBLICATION_DEFERRED_AGING_SECONDS *)
Definition FAST_PUBLICATION_DEFERRED_AGING_SECONDS : float := f1.
(** ipc/fast_publication_metrics.py: FAST_PUBLICATION_SUCCESS_SAMPLE_COUNT *)
Definition FAST_PUBLICATION_SUCCESS_SAMPLE_COUNT : Z := 25.
(** ipc/fast_publication_metrics.py: FAST_PUBLICATION_SUCCESS_SAMPLE_SECONDS *)
Definition FAST_PUBLICATION_SUCCESS_SAMPLE_SECONDS : float := f_of_Z 5.

(** ipc/fast_publication_metrics.py: FastPublicationMetrics.__init__ *)
Record metrics := mkMetrics {
  mt_counts : odict string Z; mt_last_success_sample_at : float; mt_successes_since_sample : Z }.

(** ipc/fast_publication_metrics.py: FastPublicationMetrics.increment *)
Definition metrics_increment (key : string) (amount : Z) (m : metrics) : metrics :=
  mkMetrics (od_set key (default 0 (od_get key m.(mt_counts)) + amount) m.(mt_counts))
    m.(mt_last_success_sample_at) m.(mt_successes_since_sample).

(** ipc/fast_publication_metrics.py: FastPublicationMetrics._success_sample_due *)
Definition success_sample_due (m : metrics) (now : float) : bool :=
  (m.(mt_last_success_sample_at) <=? f0)%F ||
  (FAST_PUBLICATION_SUCCESS_SAMPLE_COUNT <=? m.(mt_successes_since_sample)) ||
  (now - m.(mt_last_success_sample_at) >=? FAST_PUBLICATION_SUCCESS_SAMPLE_SECONDS)%F.

(** ipc/fast_publication_metrics.py: FastPublicationMetrics.record_outcome *)
Definition metrics_record_outcome (state : string) (now : float) (m : metrics) : bool * metrics :=
  let m := metrics_increment state 1 m in
  if negb (state =? "applied")%string then (true, m)
  else
    let m := mkMetrics m.(mt_counts) m.(mt_last_success_sample_at) (m.(mt_successes_since_sample) + 1) in
    if negb (success_sample_due m now) then (false, m)
    else (true, metrics_increment "applied_samples" 1 (mkMetrics m.(mt_counts) now 0)).

(** ipc/fast_publication.py: FastPublicationQueue.__init__ *)
Record queue := mkQueue {
  q_capacity : Z; q_commands : odict string work; q_order : order_state; q_metrics : metrics }.

#[export] Instance eta_queue : Eta queue := fun q =>
  mkQueue (q.(q_capacity)) (q.(q_commands)) (q.(q_order)) (q.(q_metrics)).

(** ipc/fast_publication.py: FastPublicationQueue.__init__ *)
Definition new_queue (capacity : Z) (order_capacity : option Z) (order_retention_seconds : float)
    (order_state_path : option string) (files : order_files) (now : float) : res queue :=
  let cap := Z.max 1 capacity in
  let configured :=
    match order_capacity with
    | None => cap * FAST_PUBLICATION_ORDER_CAPACITY_FACTOR
    | Some n => n
    end in
  h ← new_history (Z.max 1 configured) (fmax f1 order_retention_seconds) order_state_path files now;
  mret (mkQueue cap [] (mkOrderState h files) (mkMetrics [] f0 0)).

(** ipc/fast_publication.py: FastPublicationEnqueueResult *)
Record enqueue_result := mkEnqueueResult {
  er_accepted : bool; er_command_id : string; er_reason : string }.

(** ipc/fast_publication.py: FastPublicationQueue._increment *)
Definition increment (key : string) (amount : Z) : M queue unit :=
  modify (fun q => q <| q_metrics := metrics_increment key amount q.(q_metrics) |>).

(** ipc/fast_publication.py: FastPublicationQueue._active_fields *)
Definition active_fields (q : queue) : list field_key :=
  flat_map (fun kw => map (fun ft => (fst kw, fst ft)) (w_expires (snd kw))) q.(q_commands).

(** ipc/fast_publication_ordering.py: _command_key *)
Definition command_key (c : command) : string := coalesce_key c.

(** ipc/fast_publication_ordering.py: FastPublicationOrdering.release_fields *)
Definition release_fields (key : string) (orders : odict string Z) : M queue unit :=
  modify (fun q =>
    q <| q_order := mkOrderState (release_fast q.(q_order).(os_history) key orders)
                      q.(q_order).(os_files) |>).

(** ipc/fast_publication_ordering.py: FastPublicationOrdering.release_fast *)
Definition release_fast_work (w : work) : M queue unit :=
  release_fields (command_key w.(w_command)) (publication_field_orders w.(w_command)).

(** *** Expiry *)

(** ipc/fast_publication.py: FastPublicationQueue._drop_expired_work *)
Definition drop_expired_work (key : string) (w : work) : M queue unit :=
  modify (fun q => q <| q_commands := od_del key q.(q_commands) |>);;
  release_fast_work w;;
  increment "expired" 1.

(** ipc/fast_publication.py: FastPublicationQueue._retain_unexpired_fields *)
Definition retain_unexpired_fields (key : string) (w retained : work) : M queue unit :=
  let expired_fields :=
    filter (fun f => od_get f retained.(w_expires) = None) (od_keys w.(w_expires)) in
  release_fields key
    (filter (fun fo => fst fo ∈ expired_fields) (publication_field_orders w.(w_command)));;
  modify (fun q => q <| q_commands := od_set key retained q.(q_commands) |>);;
  increment "fields_expired" (Z.of_nat (length expired_fields)).

(** ipc/fast_publication.py: FastPublicationQueue._prune_fast_work *)
Definition prune_fast_work (now : float) (kw : string * work) : M queue unit :=
  let '(key, w) := kw in
  match retained_fast_work w now with
  | None => drop_expired_work key w
  | Some retained =>
    if bool_decide (length retained.(w_expires) <> length w.(w_expires))
    then retain_unexpired_fields key w retained
    else mret tt
  end.

Fixpoint prune_all (now : float) (items : odict string work) : M queue unit :=
  match items with
  | [] => mret tt
  | kw :: rest => prune_fast_work now kw;; prune_all now rest
  end.

(** The loop runs over a copy of the items.
    ipc/fast_publication.py: FastPublicationQueue._prune_expired *)
Definition prune_expired (now : float) : M queue unit :=
  q ← get; prune_all now q.(q_commands).

(** *** Enqueueing *)

(** ipc/fast_publication.py: FastPublicationQueue._rejection_reason *)
Definition rejection_reason (c : command) : res string :=
  if negb (is_transient_publication c) then Ok "durable-command-required"
  else if (coalesce_key c =? "")%string then Ok "missing-coalesce-key"
  else fast_publication_payload_limit_reason c.

(** ipc/fast_publication.py: FastPublicationQueue._queue_at_capacity *)
Definition queue_at_capacity (q : queue) (existing : option work) : bool :=
  match existing with
  | Some _ => false
  | None => q.(q_capacity) <=? Z.of_nat (length q.(q_commands))
  end.

(** The identity a queued payload gets; [time_now] is read only when the payload has no
    creation time. *)
Definition stamped (payload : command) (key : string) (time_now : float) : res command :=
  let payload := od_set "id" (VStr (fast_command_id key)) payload in
  created ← command_float (cmd_get "created_at" payload);
  mret (od_set "queue_class" (VStr "local-publish")
          (od_set "created_at" (VFloat (if ftruthy created then created else time_now)) payload)).

(** ipc/fast_publication.py: FastPublicationQueue._queue_payload *)
Definition queue_payload (existing : option work) (c : command) (key : string) (time_now : float)
    : res command :=
  stamped (merge_publication_payload (fmap w_command existing) c None) key time_now.

(** ipc/fast_publication.py: FastPublicationQueue._merged_work *)
Definition merged_work (existing : option work) (c : command) (key : string)
    (accepted : list string) (ttl now time_now : float) : res work :=
  payload ← stamped (merge_publication_payload (fmap w_command existing) c (Some accepted)) key time_now;
  let expiry := match existing with Some w => w.(w_expires) | None => [] end in
  mret (mkWork payload (fold_left (fun e f => od_set f (now + ttl)%F e) accepted expiry) f0 false).

(** The characters of a metric name: ["-"] becomes ["_"]. *)
Definition metric_of (reason : string) : string := py_replace "-" "_" reason.

(** ipc/fast_publication.py: FastPublicationQueue._rejected_enqueue *)
Definition rejected_enqueue (reason : string) (metric : option string) : M queue enqueue_result :=
  increment (default (metric_of reason) metric) 1;;
  mret (mkEnqueueResult false "" reason).

(** ipc/fast_publication.py: _FastEnqueueCandidate *)
Record enqueue_candidate_data := mkCandidate {
  ca_key : string; ca_existing : option work; ca_ttl : float }.

(** The clock reads of one [enqueue]: wall clock for the two creation times and the
    lifetime, monotonic clock for pruning, claiming and the deadlines. *)
Record enqueue_clock := mkClock {
  ck_created : float; ck_ttl : float; ck_prune : float; ck_claim : float; ck_now : float;
  ck_created2 : float }.

(** ipc/fast_publication.py: FastPublicationQueue._enqueue_candidate *)
Definition enqueue_candidate (c : command) (ck : enqueue_clock)
    : M queue (enqueue_result + enqueue_candidate_data) :=
  q ← get;
  let key := coalesce_key c in
  let existing := od_get key q.(q_commands) in
  payload ← lift (queue_payload existing c key ck.(ck_created));
  limit_reason ← lift (fast_publication_payload_limit_reason payload);
  if negb (limit_reason =? "")%string
  then r ← rejected_enqueue limit_reason None; mret (inl r)
  else if queue_at_capacity q existing
  then r ← rejected_enqueue "queue-full" (Some "full"); mret (inl r)
  else
    ttl ← lift (remaining_transient_ttl c ck.(ck_ttl));
    if (ttl <=? f0)%F then r ← rejected_enqueue "expired" None; mret (inl r)
    else mret (inr (mkCandidate key existing ttl)).

(** ipc/fast_publication.py: FastPublicationQueue._claim_failure *)
Definition claim_failure (key : string) (claim : field_claim) : M queue (option enqueue_result) :=
  match claim.(claim_is) with
  | Superseded =>
    increment "superseded" 1;;
    mret (Some (mkEnqueueResult true (fast_command_id key) "superseded"))
  | Full => r ← rejected_enqueue "order-history-full" None; mret (Some r)
  | Accepted => mret None
  end.

(** ipc/fast_publication.py: FastPublicationQueue._accept_claim *)
Definition accept_claim (c : command) (candidate : enqueue_candidate_data) (claim : field_claim)
    (ck : enqueue_clock) : M queue enqueue_result :=
  w ← lift (merged_work candidate.(ca_existing) c candidate.(ca_key) claim.(accepted_fields)
              candidate.(ca_ttl) ck.(ck_now) ck.(ck_created2));
  modify (fun q => q <| q_commands := od_put candidate.(ca_key) w q.(q_commands) |>);;
  increment "accepted" 1;;
  when (match candidate.(ca_existing) with Some _ => true | None => false end)
    (increment "coalesced" 1);;
  when (negb (bool_decide (claim.(superseded_fields) = [])))
    (increment "fields_superseded" (Z.of_nat (length claim.(superseded_fields))));;
  mret (mkEnqueueResult true (py_str (cmd_get "id" w.(w_command))) "").

(** ipc/fast_publication_ordering.py: FastPublicationOrdering.claim_fast *)
Definition ordering_claim_fast (key : string) (c : command) (active : list field_key)
    (ck : enqueue_clock) : M queue field_claim :=
  q ← get;
  let '(claim, h) :=
    claim_fast q.(q_order).(os_history) key (publication_field_orders c) active ck.(ck_prune) ck.(ck_claim) in
  modify (fun q => q <| q_order := mkOrderState h q.(q_order).(os_files) |>);;
  mret claim.

(** ipc/fast_publication.py: FastPublicationQueue._enqueue_valid *)
Definition enqueue_valid (c : command) (ck : enqueue_clock) : M queue enqueue_result :=
  candidate ← enqueue_candidate c ck;
  match candidate with
  | inl result => mret result
  | inr candidate =>
    active ← gets active_fields;
    claim ← ordering_claim_fast candidate.(ca_key) c active ck;
    failure ← claim_failure candidate.(ca_key) claim;
    match failure with
    | Some result => mret result
    | None => accept_claim c candidate claim ck
    end
  end.

(** ipc/fast_publication.py: FastPublicationQueue.enqueue *)
Definition enqueue (c : command) (ck : enqueue_clock) : M queue enqueue_result :=
  rejection ← lift (rejection_reason c);
  if negb (rejection =? "")%string
  then increment "rejected" 1;; mret (mkEnqueueResult false "" rejection)
  else enqueue_valid c ck.

(** *** Durable publications *)

(** ipc/fast_publication_ordering.py: _durable_waits_for_fast *)
Definition durable_waits_for_fast (durable_orders : odict string Z) (queued_work : option work) : bool :=
  match queued_work with
  | None => false
  | Some w =>
    let fast_orders := publication_field_orders w.(w_command) in
    existsb (fun fo => od_mem (fst fo) fast_orders && (snd fo <=? order_of fast_orders (fst fo)))
      durable_orders
  end.

(** ipc/fast_publication_ordering.py: FastPublicationOrdering.prepare_durable *)
Definition ordering_prepare_durable (h : history) (key : string) (c : command)
    (active : list field_key) (queued_work : option work) (now : float) : res field_claim :=
  let orders := publication_field_orders c in
  if durable_waits_for_fast orders queued_work then Err PendingFastError
  else
    let claim := claim_durable h key orders active now in
    if bool_decide (claim.(claim_is) = Full) then Err CapacityError else Ok claim.

(** ipc/fast_publication.py: FastPublicationQueue._durable_claim *)
Definition durable_claim (key : string) (c : command) (now : float) : M queue field_claim :=
  q ← get;
  try_except
    (try_except
      (lift (ordering_prepare_durable q.(q_order).(os_history) key c (active_fields q)
               (od_get key q.(q_commands)) now))
      (exn_in [PendingFastError])
      (fun e => increment "durable_waiting_for_fast" 1;; raise e))
    (fun e => bool_decide (e = CapacityError))
    (fun e => increment "durable_order_history_full" 1;; raise e).

(** ipc/fast_publication.py: FastPublicationQueue._prepared_durable_payload *)
Definition prepared_durable_payload (c : command) (claim : field_claim) : M queue (option command) :=
  match claim.(accepted_fields) with
  | [] => increment "durable_superseded" 1;; mret None
  | accepted =>
    when (negb (bool_decide (claim.(superseded_fields) = [])))
      (increment "durable_fields_superseded" (Z.of_nat (length claim.(superseded_fields))));;
    mret (filter_publication_payload c accepted)
  end.

(** ipc/fast_publication.py: FastPublicationQueue.prepare_durable *)
Definition prepare_durable (c : command) (now now2 : float) : M queue (option command) :=
  prune_expired now;;
  claim ← durable_claim (coalesce_key c) c now2;
  prepared_durable_payload c claim.

(** ipc/fast_publication.py: FastPublicationQueue._store_remaining_fast_fields *)
Definition store_remaining_fast_fields (key : string) (w : work) (remaining : list string)
    : M queue unit :=
  match filter_publication_payload w.(w_command) remaining with
  | None => modify (fun q => q <| q_commands := od_del key q.(q_commands) |>)
  | Some payload =>
    modify (fun q =>
      q <| q_commands :=
        od_set key (mkWork payload (expiry_of remaining w.(w_expires)) w.(w_retry_at) w.(w_deferred))
          q.(q_commands) |>)
  end.

(** ipc/fast_publication.py: FastPublicationQueue._remove_fast_fields *)
Definition remove_fast_fields (key : string) (fields : list string) : M queue unit :=
  q ← get;
  match od_get key q.(q_commands) with
  | None => mret tt
  | Some w =>
    match fast_field_selection w fields with
    | None => mret tt
    | Some (removed, remaining) =>
      store_remaining_fast_fields key w remaining;;
      increment "fast_fields_superseded" (Z.of_nat (length removed))
    end
  end.

(** *** Taking and returning work *)

(** ipc/fast_publication.py: _fast_work_priority *)
Definition fast_work_priority (w : work) (now : float) : Z * Z * float :=
  let priority := command_priority_rank (cmd_get "priority" w.(w_command)) in
  let deferred_age := fmax f0 (now - w.(w_retry_at))%F in
  let fairness_rank :=
    if w.(w_deferred) && (deferred_age >=? FAST_PUBLICATION_DEFERRED_AGING_SECONDS)%F then 0
    else if w.(w_deferred) then 2 else 1 in
  (priority, fairness_rank, w.(w_retry_at)).

(** [a < b] of two priority tuples. *)
Definition priority_lt (a b : Z * Z * float) : bool :=
  let '(a1, a2, a3) := a in
  let '(b1, b2, b3) := b in
  if negb (a1 =? b1) then a1 <? b1
  else if negb (a2 =? b2) then a2 <? b2
  else if (a3 =? b3)%F then false else (a3 <? b3)%F.

(** [min(items, key=...)]: the first item of least key. *)
Fixpoint min_by {A} (lt : A -> A -> bool) (best : A) (items : list A) : A :=
  match items with
  | [] => best
  | x :: rest => min_by lt (if lt x best then x else best) rest
  end.

(** ipc/fast_publication.py: FastPublicationQueue.pop_next *)
Definition pop_next (now : float) : M queue (option work) :=
  prune_expired now;;
  q ← get;
  let eligible := filter (fun kw => (w_retry_at (snd kw) <=? now)%F = true) q.(q_commands) in
  match eligible with
  | [] => mret None
  | first :: rest =>
    let best :=
      min_by (fun a b => priority_lt (fast_work_priority (snd a) now) (fast_work_priority (snd b) now))
        first rest in
    modify (fun q => q <| q_commands := od_del (fst best) q.(q_commands) |>);;
    mret (Some (snd best))
  end.

(** ipc/fast_publication.py: FastPublicationQueue.requeue *)
Definition requeue (w : work) (deferred : bool) (now : float) : M queue unit :=
  match fast_requeue_candidate w now with
  | None => release_fast_work w;; increment "expired" 1
  | Some (key, retained) =>
    modify (fun q =>
      let retry_at := if deferred then (now + FAST_PUBLICATION_RETRY_SECONDS)%F else now in
      q <| q_commands :=
        od_put key (merge_fast_work retained (od_get key q.(q_commands)) retry_at deferred)
          q.(q_commands) |>)
  end.

(** *** Outcomes *)

Section outcomes.
Context {OD : OrderDisk}.

(** A method of the order history, run inside the queue. *)
Definition in_order {A} (m : M order_state A) : M queue A :=
  fun q => let '(r, o) := m q.(q_order) in (r, q <| q_order := o |>).

(** ipc/fast_publication.py: FastPublicationQueue._confirm_fast_applied *)
Definition queue_confirm_fast_applied (w : work) (now : float) : M queue unit :=
  persisted ← in_order (confirm_fast_applied (command_key w.(w_command))
                          (publication_field_orders w.(w_command)) now);
  when (negb persisted) (increment "order_state_write_errors" 1).

(** ipc/fast_publication.py: FastPublicationQueue._record_order_outcome *)
Definition record_order_outcome (w : work) (state : string) (now : float) : M queue unit :=
  if (state =? "applied")%string then queue_confirm_fast_applied w now
  else if (state =? "dropped")%string then release_fast_work w
  else mret tt.

(** ipc/fast_publication.py: FastPublicationQueue.record_outcome *)
Definition record_outcome (w : work) (state : string) (now time_now : float) : M queue bool :=
  let normalized := text_or state "unknown" in
  record_order_outcome w normalized now;;
  q ← get;
  let '(journal, m) := metrics_record_outcome normalized time_now q.(q_metrics) in
  modify (fun q => q <| q_metrics := m |>);;
  mret journal.

(** ipc/fast_publication.py: FastPublicationQueue.record_durable_outcome *)
Definition record_durable_outcome (c : command) (state : string) (now now2 : float) : M queue unit :=
  if negb (state =? "applied")%string then mret tt
  else
    q ← get;
    persisted ← in_order (confirm_durable_applied (command_key c) (publication_field_orders c)
                            (active_fields q) now now2);
    remove_fast_fields (coalesce_key c) (od_keys (publication_field_orders c));;
    when (negb persisted) (increment "order_state_write_errors" 1).

End outcomes.
