(* ===== verification/FastPublicationSafety.v ===== *)
(** * Properties of the fast publication queue

    The queue of [FastPublication.v] keeps every work under its own coalesce key, with
    a deadline for exactly the fields it carries; this file shows that every operation
    preserves that, bounds the depth, and states what enqueueing, pruning, taking and
    durable preparation do to each field. *)

From S2P Require Import Prelude PyFloat PyValue OrderedMap PublicationOrder Encoding PublicationPayload FastPublication.

(** ** Works *)

(** A work under its key: it has a deadline for exactly the fields it carries, and at
    least one of them. *)
Record work_ok (key : string) (w : work) : Prop := {
  wok_key : coalesce_key w.(w_command) = key;
  wok_key_set : key <> "";
  wok_command : command_ok w.(w_command);
  wok_nodup : od_nodup w.(w_expires);
  wok_fields : forall f, f ∈ od_keys w.(w_expires) <-> f ∈ od_keys (publication_fields w.(w_command));
  wok_some : exists f, f ∈ od_keys w.(w_expires) }.

Lemma od_mem_keys {K V} `{!EqDecision K} (k : K) (d : odict K V) :
  od_mem k d = true <-> k ∈ od_keys d.
Proof.
  unfold od_mem. rewrite bool_decide_eq_true, <- not_eq_None_Some, od_get_none.
  split; [intros H; by apply dec_stable in H | tauto].
Qed.

Lemma od_keys_get {K V} `{!EqDecision K} (k : K) (d : odict K V) :
  k ∈ od_keys d <-> exists v, od_get k d = Some v.
Proof. rewrite <- od_mem_keys. unfold od_mem. by rewrite bool_decide_eq_true. Qed.

Lemma od_keys_set {K V} `{!EqDecision K} (k k' : K) (v : V) (d : odict K V) :
  k ∈ od_keys (od_set k' v d) <-> k = k' \/ k ∈ od_keys d.
Proof.
  rewrite !od_keys_get, od_get_set. destruct (decide (k = k')) as [->|]; naive_solver.
Qed.

(** Deadlines of selected fields. *)
Lemma expiry_of_get f fields e :
  NoDup fields ->
  od_get f (expiry_of fields e) = if decide (f ∈ fields) then od_get f e else None.
Proof.
  unfold expiry_of. induction fields as [|g fields IH]; intros Hd; [done|].
  apply NoDup_cons in Hd as [Hg Hd]. specialize (IH Hd). cbn [omap list_omap].
  destruct (decide (f = g)) as [->|Hne].
  - rewrite decide_True by left. rewrite decide_False in IH by done.
    destruct (od_get g e) as [t|]; [|done]. cbn. by rewrite decide_True.
  - rewrite (decide_ext _ (f ∈ fields)) by (rewrite elem_of_cons; naive_solver).
    destruct (od_get g e) as [t|]; [|done]. cbn. by rewrite decide_False.
Qed.

Lemma expiry_of_nodup fields e : NoDup fields -> od_nodup (expiry_of fields e).
Proof.
  unfold od_nodup, expiry_of. induction 1 as [|g fields Hg Hd IH]; [constructor|].
  cbn [omap list_omap]. destruct (od_get g e) as [t|]; [|done]. cbn. constructor; [|done].
  intros (v & Hv)%od_keys_get. apply od_get_some_elem in Hv.
  apply list_elem_of_omap in Hv as (x & Hx & Ho). destruct (od_get x e); naive_solver.
Qed.

(** The part of a work that a selection of fields leaves. *)
Lemma selected_work_ok key w fields payload retry_at deferred :
  work_ok key w -> NoDup fields ->
  filter_publication_payload w.(w_command) fields = Some payload ->
  work_ok key (mkWork payload (expiry_of fields w.(w_expires)) retry_at deferred).
Proof.
  intros Hw Hd (Hf & Hne & Hk & Hok & _)%filter_payload_spec.
  assert (forall f, f ∈ od_keys (expiry_of fields w.(w_expires)) <->
    f ∈ od_keys (selected_field_values w.(w_command) fields)) as He.
  { intros f. rewrite selected_keys, <- (wok_fields key w Hw), !od_keys_get.
    rewrite expiry_of_get by done. case_decide; naive_solver. }
  split; cbn [w_command w_expires].
  - rewrite Hk. apply Hw.
  - apply Hw.
  - apply Hok, Hw.
  - by apply expiry_of_nodup.
  - intros f. by rewrite Hf.
  - destruct (selected_field_values _ _) as [|[f v] vs]; [done|]. exists f. apply He. left.
Qed.

(** The fields of a work that have not expired. *)
Definition live_fields (w : work) (now : float) : list string :=
  map fst (filter (fun ft => (snd ft >? now)%F = true) w.(w_expires)).

Lemma live_fields_nodup w now : od_nodup w.(w_expires) -> NoDup (live_fields w now).
Proof. apply (od_nodup_filter (fun ft => (snd ft >? now)%F = true)). Qed.

Lemma live_fields_elem w now f :
  od_nodup w.(w_expires) ->
  f ∈ live_fields w now <-> exists t, od_get f w.(w_expires) = Some t /\ (t >? now)%F = true.
Proof.
  intros Hd. change (live_fields w now) with
    (od_keys (filter (fun ft => (snd ft >? now)%F = true) w.(w_expires))).
  rewrite od_keys_get, od_get_filter by done.
  destruct (od_get f (w_expires w)) as [t|]; [|naive_solver].
  cbn [snd]. case_decide; naive_solver.
Qed.

(** What expiry keeps of a work: the live fields with their values, deadlines and
    nothing else; nothing is left exactly when every field has expired. *)
Lemma retained_spec key w now :
  work_ok key w ->
  match retained_fast_work w now with
  | Some r =>
    work_ok key r /\ w_retry_at r = w_retry_at w /\ w_deferred r = w_deferred w /\
    (forall f, od_get f r.(w_expires) =
       if decide (f ∈ live_fields w now) then od_get f w.(w_expires) else None) /\
    (forall f, od_get f (publication_fields r.(w_command)) =
       if decide (f ∈ live_fields w now) then od_get f (publication_fields w.(w_command)) else None)
  | None => live_fields w now = []
  end.
Proof.
  intros Hw. unfold retained_fast_work. fold (live_fields w now).
  pose proof (live_fields_nodup w now (wok_nodup key w Hw)) as Hd.
  destruct (filter_publication_payload _ _) as [payload|] eqn:E; cbn [mbind option_bind].
  - split_and!; [by eapply selected_work_ok | done | done | intros f; by apply expiry_of_get |].
    cbn [w_command]. apply filter_payload_spec in E as (-> & _). intros f.
    unfold selected_field_values. rewrite od_get_filter by apply Hw.
    destruct (od_get f _); cbn [fst]; by case_decide.
  - destruct (live_fields w now) as [|f fs] eqn:El; [done|]. exfalso.
    unfold filter_publication_payload in E.
    assert (f ∈ od_keys (selected_field_values (w_command w) (f :: fs))) as Hin.
    { apply selected_keys. split; [left|]. apply (wok_fields key w Hw), od_keys_get.
      assert (f ∈ live_fields w now) as Hf by (rewrite El; left).
      apply live_fields_elem in Hf as (t & Ht & _); [eauto | apply Hw]. }
    destruct (selected_field_values _ _); [by apply not_elem_of_nil in Hin | done].
Qed.

(** ** The queue as a map of fields *)

(** What a work holds for a field: its value and its deadline. *)
Definition work_field (f : string) (w : work) : option (pyval * float) :=
  v ← od_get f (publication_fields w.(w_command));
  t ← od_get f w.(w_expires);
  Some (v, t).

(** What the queue holds for a field of a key. *)
Definition queued_field (q : queue) (key f : string) : option (pyval * float) :=
  od_get key q.(q_commands) ≫= work_field f.

Record queue_ok (q : queue) : Prop := {
  qok_capacity : 1 <= q.(q_capacity);
  qok_nodup : od_nodup q.(q_commands);
  qok_works : forall key w, od_get key q.(q_commands) = Some w -> work_ok key w;
  qok_history : history_ok q.(q_order).(os_history) }.

Definition depth (q : queue) : Z := Z.of_nat (length q.(q_commands)).

(** The queue stays well formed and does not get longer. *)
Definition settles (q q' : queue) : Prop :=
  queue_ok q -> queue_ok q' /\ q'.(q_capacity) = q.(q_capacity) /\ depth q' <= depth q.

#[export] Instance settles_preorder : PreOrder settles.
Proof.
  split; [intros q Hq; split_and!; [done | done | lia]|].
  intros q1 q2 q3 H12 H23 H1. destruct (H12 H1) as (H2 & ? & ?), (H23 H2) as (? & ? & ?).
  split_and!; [done | congruence | lia].
Qed.

(** Metrics are not part of what is kept. *)
Lemma settles_increment key n : keeps settles (increment key n).
Proof. apply keeps_modify. intros q []. split_and!; [by split | done | unfold depth; cbn; lia]. Qed.

Lemma settles_release_fields key orders : keeps settles (release_fields key orders).
Proof.
  apply keeps_modify. intros q []. split_and!; [|done | unfold depth; cbn; lia].
  split; try done. by apply release_ok.
Qed.

Lemma settles_release_work w : keeps settles (release_fast_work w).
Proof. apply settles_release_fields. Qed.

#[export] Hint Resolve settles_increment settles_release_fields settles_release_work : keeps.

(** Removing a work, or putting another one in its place. *)
Lemma settles_del key q : settles q (q <| q_commands := od_del key q.(q_commands) |>).
Proof.
  intros [Hc Hn Hw Hh]. split_and!; [|done |].
  - split; try done; cbn; [by apply od_nodup_del|]. intros k w. rewrite od_get_del.
    case_decide; [done|]. apply Hw.
  - unfold depth. cbn. pose proof (od_length_filter (fun kv => fst kv <> key) q.(q_commands)).
    unfold od_del. lia.
Qed.

Lemma od_length_set {K V} `{!EqDecision K} (k : K) (v : V) (d : odict K V) :
  length (od_set k v d) = (length d + (if decide (is_Some (od_get k d)) then 0 else 1))%nat.
Proof.
  induction d as [|[k' v'] d IH]; [done|]. cbn [od_set od_get].
  destruct (decide (k = k')) as [->|]; cbn [length]; [|rewrite IH; case_decide; lia].
  rewrite decide_True by eauto. lia.
Qed.

Lemma queue_ok_set key w q :
  queue_ok q -> work_ok key w -> queue_ok (q <| q_commands := od_set key w q.(q_commands) |>).
Proof.
  intros [Hc Hn Hw Hh] Hok. split; try done; cbn; [by apply od_nodup_set|].
  intros k w'. rewrite od_get_set. case_decide as Hk; [intros [= <-]; by subst | apply Hw].
Qed.

Lemma queue_ok_put key w q :
  queue_ok q -> work_ok key w -> queue_ok (q <| q_commands := od_put key w q.(q_commands) |>).
Proof.
  intros [Hc Hn Hw Hh] Hok. split; try done; cbn; [by apply od_nodup_put|].
  intros k w'. rewrite od_get_put. case_decide as Hk; [intros [= <-]; by subst | apply Hw].
Qed.

Lemma settles_set key w q :
  is_Some (od_get key q.(q_commands)) -> (queue_ok q -> work_ok key w) ->
  settles q (q <| q_commands := od_set key w q.(q_commands) |>).
Proof.
  intros Hs Hok Hq. split_and!; [by apply queue_ok_set; auto | done |].
  unfold depth. cbn. rewrite od_length_set, decide_True by done. lia.
Qed.

(** ** Expiry *)

(** What pruning makes of a work. *)
Definition pruned_work (now : float) (w : work) : option work :=
  match retained_fast_work w now with
  | None => None
  | Some r => Some (if bool_decide (length r.(w_expires) <> length w.(w_expires)) then r else w)
  end.

Lemma prune_one_commands now key w q :
  od_get key q.(q_commands) = Some w ->
  fst (prune_fast_work now (key, w) q) = Ok tt /\
  q_commands (snd (prune_fast_work now (key, w) q)) =
    match pruned_work now w with
    | None => od_del key q.(q_commands)
    | Some r => od_set key r q.(q_commands)
    end.
Proof.
  intros Hk. unfold prune_fast_work, pruned_work. destruct (retained_fast_work w now) as [r|]; [|done].
  case_bool_decide; [done|]. split; [done|]. cbn.
  induction (q_commands q) as [|[k v] d IH]; [done|]. cbn in *.
  destruct (decide (key = k)) as [->|]; [by injection Hk as -> | f_equal; auto].
Qed.

Lemma prune_all_get now items q k :
  od_nodup items -> (forall key w, od_get key items = Some w -> od_get key q.(q_commands) = Some w) ->
  fst (prune_all now items q) = Ok tt /\
  od_get k (q_commands (snd (prune_all now items q))) =
  match od_get k items with
  | Some w => pruned_work now w
  | None => od_get k q.(q_commands)
  end.
Proof.
  unfold od_nodup. revert q. induction items as [|[key w] items IH]; intros q; [done|].
  cbn [od_keys map fst]. intros [Hx Hd]%NoDup_cons Hall. apply od_get_none in Hx.
  destruct (prune_one_commands now key w q) as [H1 H2].
  { apply Hall. cbn. by rewrite decide_True. }
  cbn [prune_all]. unfold mbind, M_bind. destruct (prune_fast_work now (key, w) q) as [r q1].
  cbn in H1, H2. subst r.
  assert (forall k', k' <> key -> od_get k' (q_commands q1) = od_get k' (q_commands q)) as Hother.
  { intros k' Hne. rewrite H2. destruct (pruned_work now w);
      rewrite ?od_get_set, ?od_get_del; by rewrite decide_False by exact Hne. }
  destruct (IH q1 Hd) as [IH1 IH2].
  { intros k' w' Hk'. assert (k' <> key) as Hne by (intros ->; congruence).
    rewrite Hother by done. apply Hall. cbn. by rewrite decide_False. }
  split; [done|]. rewrite IH2. cbn [od_get]. destruct (decide (k = key)) as [->|Hne].
  - rewrite Hx, H2. destruct (pruned_work now w); rewrite ?od_get_set, ?od_get_del;
      by rewrite decide_True by done.
  - destruct (od_get k items); [done | by apply Hother].
Qed.

Lemma prune_get now q k :
  od_nodup q.(q_commands) ->
  fst (prune_expired now q) = Ok tt /\
  od_get k (q_commands (snd (prune_expired now q))) =
  (od_get k q.(q_commands) ≫= pruned_work now).
Proof.
  intros Hd. unfold prune_expired. rewrite bind_get.
  destruct (prune_all_get now q.(q_commands) q k Hd) as [H1 H2]; [done|]. rewrite H2.
  split; [done|]. by destruct (od_get k (q_commands q)).
Qed.

(** Nothing is left out when the number of fields is the same. *)
Lemma od_keys_same_length {K V W} `{!EqDecision K} (d1 : odict K V) (d2 : odict K W) :
  od_nodup d1 -> (forall k, k ∈ od_keys d1 -> k ∈ od_keys d2) -> length d2 = length d1 ->
  forall k, k ∈ od_keys d2 -> k ∈ od_keys d1.
Proof.
  intros Hd Hsub Hlen. assert (od_keys d1 ≡ₚ od_keys d2) as Hp.
  { apply submseteq_length_Permutation; [by apply NoDup_submseteq|].
    unfold od_keys. rewrite !length_map. lia. }
  intros k. by rewrite Hp.
Qed.

Lemma pruned_spec key w now :
  work_ok key w ->
  match pruned_work now w with
  | Some r =>
    work_ok key r /\ w_retry_at r = w_retry_at w /\ w_deferred r = w_deferred w /\
    (forall f, od_get f r.(w_expires) =
       if decide (f ∈ live_fields w now) then od_get f w.(w_expires) else None) /\
    (forall f, od_get f (publication_fields r.(w_command)) =
       if decide (f ∈ live_fields w now) then od_get f (publication_fields w.(w_command)) else None)
  | None => live_fields w now = []
  end.
Proof.
  intros Hw. pose proof (retained_spec key w now Hw) as Hr. unfold pruned_work.
  destruct (retained_fast_work w now) as [r|]; [|done].
  case_bool_decide as Hl; [done|].
  destruct Hr as (Hok & _ & _ & He & _).
  assert (forall f, f ∈ od_keys w.(w_expires) -> f ∈ live_fields w now) as Hall.
  { intros f Hf. apply (od_keys_same_length r.(w_expires)) in Hf; [| apply Hok | | done].
    - apply od_keys_get in Hf as [t Ht]. rewrite He in Ht. by case_decide.
    - intros g [t Hg]%od_keys_get. rewrite He in Hg. case_decide; [|done].
      apply od_keys_get. eauto. }
  split_and!; try done.
  - intros f. case_decide as Hf; [done|]. apply od_get_none. intros Hin. by apply Hf, Hall.
  - intros f. case_decide as Hf; [done|]. apply od_get_none.
    rewrite <- (wok_fields key w Hw). intros Hin. by apply Hf, Hall.
Qed.

Lemma settles_prune_one now key w q :
  od_get key q.(q_commands) = Some w -> settles q (snd (prune_fast_work now (key, w) q)).
Proof.
  intros Hk Hq. pose proof (qok_works q Hq key w Hk) as Hw.
  pose proof (retained_spec key w now Hw) as Hr.
  cut (settles q (snd (prune_fast_work now (key, w) q))); [by intros HS; apply HS|].
  unfold prune_fast_work. destruct (retained_fast_work w now) as [r|].
  - case_bool_decide; [|reflexivity]. unfold retain_unexpired_fields.
    etrans; [eapply (settles_release_fields key)|].
    etrans; [by apply (settles_set key r); [eexists | intros _; apply Hr]|]. apply settles_increment.
  - unfold drop_expired_work. etrans; [apply (settles_del key)|].
    etrans; [eapply (settles_release_work w) | apply settles_increment].
Qed.

Lemma prune_one_other now key w q k :
  od_get key q.(q_commands) = Some w -> k <> key ->
  od_get k (q_commands (snd (prune_fast_work now (key, w) q))) = od_get k q.(q_commands).
Proof.
  intros Hk Hne. rewrite (proj2 (prune_one_commands now key w q Hk)).
  destruct (pruned_work now w); rewrite ?od_get_set, ?od_get_del; by rewrite decide_False by exact Hne.
Qed.

Lemma settles_prune_all now items q :
  od_nodup items -> (forall key w, od_get key items = Some w -> od_get key q.(q_commands) = Some w) ->
  settles q (snd (prune_all now items q)).
Proof.
  unfold od_nodup. revert q. induction items as [|[key w] items IH]; intros q; [reflexivity|].
  cbn [od_keys map fst]. intros [Hx Hd]%NoDup_cons Hall. apply od_get_none in Hx.
  assert (od_get key q.(q_commands) = Some w) as Hk.
  { apply Hall. cbn. by rewrite decide_True. }
  cbn [prune_all]. unfold mbind, M_bind. pose proof (settles_prune_one now key w q Hk) as H1.
  pose proof (fun k => prune_one_other now key w q k Hk) as H2.
  destruct (prune_fast_work now (key, w) q) as [[|] q1]; [|exact H1]. cbn [snd] in H1, H2.
  etrans; [exact H1|]. apply IH; [done|]. intros k' w' Hk'.
  assert (k' <> key) as Hne by (intros ->; congruence).
  rewrite H2 by done. apply Hall. cbn. by rewrite decide_False.
Qed.

Lemma settles_prune now : keeps settles (prune_expired now).
Proof.
  apply keeps_get_bind. intros q Hq. apply settles_prune_all; [apply Hq | done | done].
Qed.

#[export] Hint Resolve settles_prune : keeps.

(** ** Enqueueing *)

(** Metrics and orders may change, the queued works do not. *)
Definition same_works (q q' : queue) : Prop :=
  q'.(q_commands) = q.(q_commands) /\ q'.(q_capacity) = q.(q_capacity) /\ (queue_ok q -> queue_ok q').

#[export] Instance same_works_preorder : PreOrder same_works.
Proof.
  split; [by intros q|]. intros q1 q2 q3 (? & ? & ?) (? & ? & ?).
  split_and!; [congruence | congruence | auto].
Qed.

Lemma same_works_increment key n : keeps same_works (increment key n).
Proof. apply keeps_modify. intros q. split_and!; [done | done|]. intros []. by split. Qed.

Lemma same_works_rejected reason metric : keeps same_works (rejected_enqueue reason metric).
Proof. apply keeps_bind; [exact _ | apply same_works_increment | intros _; apply keeps_ret; exact _]. Qed.

Lemma same_works_claim_failure key claim : keeps same_works (claim_failure key claim).
Proof.
  unfold claim_failure. destruct (claim_is claim); keeps_tac fail;
    apply same_works_increment || apply same_works_rejected.
Qed.

Lemma same_works_claim key c active ck :
  command_ok c -> keeps same_works (ordering_claim_fast key c active ck).
Proof.
  intros Hc. apply keeps_get_bind. intros q. destruct (claim_fast _ _ _ _ _ _) as [claim h] eqn:E.
  split_and!; [done | done|]. intros []. split; try done. cbn.
  change h with (snd (claim, h)). rewrite <- E. apply claim_fast_ok; [|done]. by apply field_orders_nodup.
Qed.

#[export] Hint Resolve same_works_increment same_works_rejected same_works_claim_failure
  same_works_claim : keeps.

(** A new identity does not touch the fields. *)
Lemma stamped_spec payload key t p :
  stamped payload key t = Ok p ->
  publication_fields p = publication_fields payload /\ coalesce_key p = coalesce_key payload /\
  (command_ok payload -> command_ok p).
Proof.
  unfold stamped. intros H. destruct (command_float _) as [created|]; [|done].
  cbn [mbind res_bind mret res_ret] in H. injection H as <-.
  assert (forall a b c, publication_fields (od_set "queue_class" a (od_set "created_at" b
    (od_set "id" c payload))) = publication_fields payload) as Hf.
  { intros. unfold publication_fields. by rewrite !cmd_get_set. }
  split_and!; [apply Hf | unfold coalesce_key; by rewrite !cmd_get_set |].
  intros [H1 H2]. split; [by repeat apply od_nodup_set | by rewrite Hf].
Qed.

Lemma coalesce_key_present c : coalesce_key c <> "" -> is_Some (od_get "coalesce_key" c).
Proof.
  unfold coalesce_key, cmd_get. destruct (od_get "coalesce_key" c); [eauto|]. by intros [].
Qed.

Lemma merge_payload_key existing c accepted :
  command_ok c -> coalesce_key c <> "" ->
  coalesce_key (merge_publication_payload existing c accepted) = coalesce_key c.
Proof.
  intros [Hc _] Hk. apply coalesce_key_present in Hk as [v Hv]. unfold coalesce_key.
  rewrite merge_payload_get by done. unfold cmd_get. by rewrite updated_get, Hv by done.
Qed.

(** The deadlines of a merged work. *)
Lemma deadlines_get (accepted : list string) (t : float) e f :
  od_get f (fold_left (fun e f => od_set f t e) accepted e) =
  if decide (f ∈ accepted) then Some t else od_get f e.
Proof.
  revert e. induction accepted as [|g fs IH]; intros e; [done|]. cbn [fold_left].
  rewrite IH, od_get_set. destruct (decide (f ∈ fs)) as [Hin|Hn].
  - by rewrite decide_True by by right.
  - destruct (decide (f = g)) as [->|]; [by rewrite decide_True by left|].
    rewrite decide_False; [done|]. by intros [|]%elem_of_cons.
Qed.

Lemma deadlines_nodup (accepted : list string) (t : float) e :
  od_nodup e -> od_nodup (fold_left (fun e f => od_set f t e) accepted e).
Proof. revert e. induction accepted as [|g fs IH]; intros e He; [done|]. by apply IH, od_nodup_set. Qed.

(** What enqueueing an accepted publication stores. *)
Lemma merged_work_spec existing c accepted ttl now t w :
  command_ok c -> coalesce_key c <> "" -> accepted <> [] ->
  (forall f, f ∈ accepted -> f ∈ od_keys (publication_fields c)) ->
  (forall e, existing = Some e -> work_ok (coalesce_key c) e) ->
  merged_work existing c (coalesce_key c) accepted ttl now t = Ok w ->
  work_ok (coalesce_key c) w /\
  publication_fields w.(w_command) =
    publication_fields (merge_publication_payload (fmap w_command existing) c (Some accepted)) /\
  (forall f, od_get f w.(w_expires) =
     if decide (f ∈ accepted) then Some (now + ttl)%F
     else e ← existing; od_get f e.(w_expires)).
Proof.
  intros Hc Hk Hne Hsub He H. unfold merged_work in H.
  destruct (stamped _ _ _) as [p|] eqn:Hp; [|done]. injection H as <-.
  apply stamped_spec in Hp as (Hf & Hpk & Hok). cbn [w_command w_expires].
  rewrite merge_payload_key in Hpk by done.
  set (old := match existing with Some w => w.(w_expires) | None => [] end).
  assert (forall f, f ∈ od_keys old <->
    f ∈ od_keys (publication_fields (default [] (fmap w_command existing)))) as Hold.
  { intros f. subst old. destruct existing as [e|]; [|done]. by apply (He e). }
  split_and!; [| done | intros f; rewrite deadlines_get; case_decide; [done | by destruct existing]].
  split; cbn [w_command w_expires]; [done | done | | | |].
  - apply Hok, merge_payload_ok; [|done]. intros e' He'. destruct existing as [e|]; [|done].
    injection He' as <-. by apply (He e).
  - apply deadlines_nodup. subst old. destruct existing as [e|]; [by apply (He e) | constructor].
  - intros f. rewrite Hf, merge_payload_keys, <- Hold by done.
    rewrite od_keys_get, deadlines_get. unfold accepted_candidate_fields.
    change (f ∈ od_keys (filter _ _)) with (f ∈ od_keys (selected_field_values c accepted)).
    rewrite selected_keys, od_keys_get. case_decide; [|naive_solver]. split; [|eauto]. intros _.
    right. split; [done | by apply Hsub].
  - destruct accepted as [|f fs]; [done|]. exists f. rewrite od_keys_get, deadlines_get.
    rewrite decide_True by left. eauto.
Qed.

(** The lifetime of a transient publication. *)
Lemma normalized_deadline_bounds v d :
  normalized_transient_deadline v = Ok d ->
  (f0 <? d)%F = true /\ (d <=? TRANSIENT_PUBLICATION_DEADLINE_SECONDS)%F = true.
Proof.
  unfold normalized_transient_deadline. destruct (command_float v) as [x|]; [|done].
  cbn [mbind res_bind mret res_ret]. intros [= <-]. destruct (isfinite x) eqn:Hx; cbn [negb orb].
  2: { split; vm_compute; reflexivity. }
  apply isfinite_not_nan in Hx. destruct (x <=? f0)%F eqn:H0; [split; vm_compute; reflexivity|].
  assert ((f0 <? x)%F = true) as Hpos by (assert (isnan f0 = false) by done; forder).
  unfold fmin. assert (isnan TRANSIENT_PUBLICATION_DEADLINE_SECONDS = false) by (vm_compute; reflexivity).
  destruct (TRANSIENT_PUBLICATION_DEADLINE_SECONDS <? x)%F eqn:Hlt; (split; [|forder]);
    [vm_compute; reflexivity | done].
Qed.

(** A time of creation too large for a float is not dropped as a bad anchor: it raises. *)
Lemma oversized_anchor_raises now :
  remaining_transient_ttl [("created_at", VInt (10 ^ 400))] now = Err OverflowError.
Proof. vm_compute. reflexivity. Qed.

Lemma remaining_ttl_bounds c now t :
  remaining_transient_ttl c now = Ok t ->
  (f0 <=? t)%F = true /\ (t <=? TRANSIENT_PUBLICATION_DEADLINE_SECONDS)%F = true.
Proof.
  unfold remaining_transient_ttl. intros H.
  destruct (normalized_transient_deadline _) as [d|] eqn:Hd; [|done].
  apply normalized_deadline_bounds in Hd as [Hd0 Hd]. cbn [mbind res_bind] in H.
  assert ((f0 <=? f0)%F = true /\ (f0 <=? TRANSIENT_PUBLICATION_DEADLINE_SECONDS)%F = true) as Hz
    by (split; vm_compute; reflexivity).
  destruct (od_mem "created_at" c); cbn [negb] in H.
  2: { injection H as <-. destruct (od_mem _ _); [done|]. split; [by apply flt_fle | done]. }
  destruct (command_float _) as [x|]; [|done]. injection H as <-.
  destruct (negb _); [done|]. unfold fmin. generalize (x + d - now)%F. intros y.
  destruct (y <? d)%F eqn:Hy; unfold fmax.
  - destruct (f0 <? y)%F eqn:Hm; [|done]. split; [by apply flt_fle|].
    by eapply fle_trans; [apply flt_fle|].
  - destruct (f0 <? d)%F eqn:Hm; [|done]. split; [by apply flt_fle | done].
Qed.

(** The claim that the order history makes for the fields of a command. *)
Definition claim_of (c : command) (ck : enqueue_clock) (q : queue) : field_claim :=
  fst (claim_fast q.(q_order).(os_history) (coalesce_key c) (publication_field_orders c) (active_fields q)
         ck.(ck_prune) ck.(ck_claim)).

(** How an [enqueue] can end: the works are as they were, or the merged work is
    stored last under the key. *)
Definition enqueue_ends (c : command) (ck : enqueue_clock) (q : queue) (r : res enqueue_result)
    (q' : queue) : Prop :=
  (same_works q q' /\
   forall er, r = Ok er -> er.(er_accepted) = true -> er.(er_reason) = "superseded") \/
  (exists w accepted ttl id q1,
     accepted = (claim_of c ck q).(accepted_fields) /\ (claim_of c ck q).(claim_is) = Accepted /\ same_works q q1 /\ same_works (q1 <| q_commands := od_put (coalesce_key c) w q1.(q_commands) |>) q' /\
     merged_work (od_get (coalesce_key c) q.(q_commands)) c (coalesce_key c) accepted ttl
       ck.(ck_now) ck.(ck_created2) = Ok w /\
     coalesce_key c <> "" /\ is_transient_publication c = true /\ accepted <> [] /\
     (forall f, f ∈ accepted -> f ∈ od_keys (publication_fields c)) /\
     remaining_transient_ttl c ck.(ck_ttl) = Ok ttl /\ (f0 <? ttl)%F = true /\
     queue_at_capacity q (od_get (coalesce_key c) q.(q_commands)) = false /\
     r = Ok (mkEnqueueResult true id "")).

Lemma rejection_empty c :
  rejection_reason c = Ok "" -> coalesce_key c <> "" /\ is_transient_publication c = true.
Proof.
  unfold rejection_reason. destruct (is_transient_publication c); cbn [negb]; [|done].
  destruct (String.eqb_spec (coalesce_key c) ""); done.
Qed.

(** What the checks of a candidate establish. *)
Definition candidate_post (c : command) (ck : enqueue_clock) (q : queue)
    (r : res (enqueue_result + enqueue_candidate_data)) (q' : queue) : Prop :=
  same_works q q' /\
  match r with
  | Ok (inr ca) =>
    q' = q /\ ca.(ca_key) = coalesce_key c /\ ca.(ca_existing) = od_get (coalesce_key c) q.(q_commands) /\
    remaining_transient_ttl c ck.(ck_ttl) = Ok ca.(ca_ttl) /\ (f0 <? ca.(ca_ttl))%F = true /\
    queue_at_capacity q (od_get (coalesce_key c) q.(q_commands)) = false
  | Ok (inl er) => er.(er_accepted) = false
  | Err _ => True
  end.

Lemma enqueue_candidate_wp c ck q : wp (enqueue_candidate c ck) (candidate_post c ck q) q.
Proof.
  assert (forall reason metric,
    wp (r ← rejected_enqueue reason metric; mret (inl r)) (candidate_post c ck q) q) as Hrej.
  { intros. unfold rejected_enqueue, wp. split; [apply same_works_increment | done]. }
  unfold enqueue_candidate. wp_step. wp_step. wp_step. wp_step.
  destruct (queue_payload _ _ _ _) as [payload|]; [|done]. wp_step. wp_step.
  destruct (fast_publication_payload_limit_reason payload) as [limit|]; [|done].
  destruct (negb _); [apply Hrej|]. destruct (queue_at_capacity _ _) eqn:Hcap; [apply Hrej|].
  wp_step. wp_step. destruct (remaining_transient_ttl _ _) as [ttl|] eqn:Httl; [|done].
  destruct (ttl <=? f0)%F eqn:H0; [apply Hrej|]. wp_step. split; [done|]. cbn.
  split_and!; try done. apply remaining_ttl_bounds in Httl as [Hl _]. forder.
Qed.

(** The fields a claim accepts are fields of the publication, and an accepting claim
    accepts some. *)
Lemma claim_fast_fields h key c active now now2 :
  command_ok c ->
  let claim := fst (claim_fast h key (publication_field_orders c) active now now2) in
  (claim.(claim_is) = Accepted -> claim.(accepted_fields) <> []) /\
  (forall f, f ∈ claim.(accepted_fields) -> f ∈ od_keys (publication_fields c)).
Proof.
  intros Hc claim. subst claim. unfold claim_fast.
  destruct (claim_fits_capacity _ _ _ _ _); cbn [fst]; [|by split; [|intros f ?%not_elem_of_nil]].
  split.
  - unfold claim_fields. cbn [claim_is accepted_fields]. by destruct (map fst _).
  - intros f Hf. apply claim_accepted in Hf as (o & Ho & _); [|by apply field_orders_nodup].
    rewrite <- field_orders_keys, od_keys_get. eauto.
Qed.

Lemma accept_claim_wp c ca claim ck q :
  ca.(ca_key) = coalesce_key c ->
  wp (accept_claim c ca claim ck) (fun r q' =>
    (q' = q /\ exists e, r = Err e) \/
    exists w id,
      merged_work ca.(ca_existing) c (coalesce_key c) claim.(accepted_fields) ca.(ca_ttl)
        ck.(ck_now) ck.(ck_created2) = Ok w /\
      same_works (q <| q_commands := od_put (coalesce_key c) w q.(q_commands) |>) q' /\
      r = Ok (mkEnqueueResult true id "")) q.
Proof.
  intros Hk. unfold accept_claim. rewrite Hk. wp_step. wp_step.
  destruct (merged_work _ _ _ _ _ _ _) as [w|] eqn:Hw; [|left; eauto].
  right. exists w. eexists. unfold wp. destruct (ca_existing ca), (negb _).
  all: split; [done | split; [|reflexivity]].
  all: split_and!; [reflexivity | reflexivity | intros [H1 H2 H3 H4]; split; [exact H1 | exact H2 | exact H3 | exact H4]].
Qed.

Lemma enqueue_wp c ck q : command_ok c -> wp (enqueue c ck) (enqueue_ends c ck q) q.
Proof.
  intros Hc. unfold enqueue. wp_step. wp_step.
  destruct (rejection_reason c) as [rejection|] eqn:Hrej; [|by left].
  destruct (String.eqb_spec rejection "") as [->|]; cbn [negb].
  2: { left. split; [apply same_works_increment | by intros er [= <-]]. }
  apply rejection_empty in Hrej as [Hkey Htr]. unfold enqueue_valid. wp_step.
  eapply wp_mono; [apply enqueue_candidate_wp|]. intros [[er|ca]|e] q1 [Hsame Hca].
  - wp_step. left. split; [done|]. intros er' [= <-]. by rewrite Hca.
  - destruct Hca as (-> & Hk & Hex & Httl & Hpos & Hcap). wp_step. wp_step. wp_step.
    set (active := active_fields q).
    pose proof (same_works_claim (ca_key ca) c active ck Hc q) as H1.
    pose proof (claim_fast_fields q.(q_order).(os_history) (ca_key ca) c active ck.(ck_prune)
      ck.(ck_claim) Hc) as Hcl.
    assert (fst (claim_fast q.(q_order).(os_history) (ca_key ca) (publication_field_orders c) active ck.(ck_prune) ck.(ck_claim)) =
      claim_of c ck q) as Hclaim by (unfold claim_of; by rewrite Hk).
    unfold wp at 1. unfold ordering_claim_fast in *. rewrite bind_get in *.
    destruct (claim_fast _ _ _ _ _ _) as [claim h]. cbn [fst] in Hcl. rewrite bind_modify in *.
    cbn [fst snd mret M_ret] in *. revert H1. set (q1 := _ <| q_order := _ |>). intros H1.
    clearbody q1. destruct Hcl as [Hacc Hsub]. wp_step.
    pose proof (same_works_claim_failure (ca_key ca) claim q1) as H2.
    unfold claim_failure in *. destruct (claim_is claim) eqn:Eis.
    + wp_step. eapply wp_mono; [by apply accept_claim_wp|].
      intros r q' [[-> [e ->]]|(w & id & Hw & Hq' & ->)]; [by left|]. right.
      rewrite Hex in Hw. exists w, claim.(accepted_fields), ca.(ca_ttl), id, q1.
      cbn [fst] in Hclaim. subst claim. split_and!; auto.
    + left. split; [by etrans; [exact H1 | exact H2] | by intros er [= <-]].
    + left. split; [by etrans; [exact H1 | exact H2] | by intros er [= <-]].
  - by left.
Qed.

(** The fields are newer than the orders the history remembers for them. *)
Definition newer_than_remembered (c : command) (ck : enqueue_clock) (q : queue) (fields : list string) : Prop :=
  forall f, f ∈ fields -> exists o, od_get f (publication_field_orders c) = Some o /\
    forall m, od_get (coalesce_key c, f) (pruned_marks q.(q_order).(os_history) ck.(ck_prune) (active_fields q)) = Some m ->
      m.(mark_order) < o.

Lemma claim_newer c ck q : command_ok c -> newer_than_remembered c ck q (claim_of c ck q).(accepted_fields).
Proof.
  intros Hc f. unfold claim_of, claim_fast.
  destruct (claim_fits_capacity _ _ _ _ _); cbn [fst]; [|by intros ?%not_elem_of_nil].
  intros Hf. apply claim_accepted in Hf as (o & Ho & Hm); [|by apply field_orders_nodup]. exists o. split; [done|].
  intros m E. unfold field_blocked, fast_order_claim_blocked in Hm. cbn [fst snd] in Hm. rewrite E in Hm. lia.
Qed.

(** What an accepted [enqueue] stores, as facts about the queue. *)
Definition stores (c : command) (q q' : queue) (accepted : list string) (deadline : float) : Prop :=
  accepted <> [] /\
  (forall f, f ∈ accepted -> f ∈ od_keys (publication_fields c)) /\
  (forall key f, queued_field q' key f =
     if decide (key = coalesce_key c /\ f ∈ accepted) then
       v ← od_get f (publication_fields c);
       match od_get key q.(q_commands) with
       | Some e =>
         match od_get f (publication_fields e.(w_command)) with
         | Some old =>
           if order_of (publication_field_orders e.(w_command)) f <=?
              order_of (publication_field_orders c) f
           then Some (v, deadline) else Some (old, deadline)
         | None => Some (v, deadline)
         end
       | None => Some (v, deadline)
       end
     else queued_field q key f).

Lemma stores_merged c q q1 w accepted ttl now t :
  queue_ok q -> command_ok c -> coalesce_key c <> "" -> accepted <> [] ->
  (forall f, f ∈ accepted -> f ∈ od_keys (publication_fields c)) ->
  merged_work (od_get (coalesce_key c) q.(q_commands)) c (coalesce_key c) accepted ttl now t = Ok w ->
  q1.(q_commands) = od_put (coalesce_key c) w q.(q_commands) ->
  work_ok (coalesce_key c) w /\ stores c q q1 accepted (now + ttl)%F.
Proof.
  intros Hq Hc Hk Hne Hsub Hw H1.
  apply merged_work_spec in Hw as (Hok & Hf & He); try done; [|intros e; apply Hq].
  split; [done|]. split_and!; [done | done|]. intros key f. unfold queued_field, work_field. rewrite H1, od_get_put.
  destruct (decide (key = coalesce_key c)) as [->|Hkey].
  2: { by rewrite decide_False by tauto. }
  cbn [mbind option_bind]. rewrite Hf, merge_payload_fields, He.
  rewrite merge_fields_get by by apply accepted_candidate_nodup.
  unfold accepted_candidate_fields. rewrite od_get_filter by apply Hc. cbn [fst].
  destruct (decide (f ∈ accepted)) as [Hin|Hout].
  - rewrite (decide_True (P := _ /\ _)) by done. apply Hsub, od_keys_get in Hin as [v Hv].
    rewrite Hv. cbn [mbind option_bind]. destruct (od_get (coalesce_key c) (q_commands q)) as [e|]; [|done].
    cbn. destruct (od_get f (publication_fields (w_command e))); [|done]. by destruct (_ <=? _).
  - rewrite (decide_False (P := _ /\ _)) by tauto.
    destruct (od_get f (publication_fields c)) as [v|];
      destruct (od_get (coalesce_key c) (q_commands q)) as [e|]; cbn; done.
Qed.

(** ** Returning work *)

(** The deadline of a field after merging two works follows the value: the queued
    one's unless the returned one is newer. *)
Lemma merged_expiry_get requeued queued f :
  od_nodup queued.(w_expires) ->
  od_get f (merged_field_expiry requeued queued) =
  match od_get f queued.(w_expires), od_get f requeued.(w_expires) with
  | Some t, Some old =>
    if order_of (publication_field_orders requeued.(w_command)) f <=?
       order_of (publication_field_orders queued.(w_command)) f then Some t else Some old
  | Some t, None => Some t
  | None, o => o
  end.
Proof.
  unfold merged_field_expiry, od_nodup. generalize (w_expires requeued).
  induction (w_expires queued) as [|[g t] d IH]; intros e; [by intros _; cbn; destruct (od_get f e)|].
  cbn [fold_left fst snd od_keys map]. intros [Hx Hd]%NoDup_cons.
  assert (od_get g d = None) as Hg by by apply od_get_none.
  rewrite IH by done. cbn [od_get]. destruct (decide (f = g)) as [->|Hne].
  - rewrite Hg. unfold od_mem. destruct (od_get g e) as [old|] eqn:Ho.
    + rewrite bool_decide_eq_true_2 by eauto. cbn [negb orb].
      destruct (_ <=? _); [by rewrite od_get_set, decide_True | done].
    + rewrite bool_decide_eq_false_2 by by intros []. cbn. by rewrite od_get_set, decide_True.
  - destruct (_ || _); [by rewrite od_get_set, decide_False | done].
Qed.

Lemma merged_expiry_nodup requeued queued :
  od_nodup requeued.(w_expires) -> od_nodup (merged_field_expiry requeued queued).
Proof.
  unfold merged_field_expiry. generalize (w_expires requeued).
  induction (w_expires queued) as [|ft d IH]; intros e He; [done|]. cbn [fold_left]. apply IH.
  destruct (_ || _); auto using od_nodup_set.
Qed.

Lemma merge_fast_work_ok key requeued queued retry_at deferred :
  work_ok key requeued -> (forall e, queued = Some e -> work_ok key e) ->
  work_ok key (merge_fast_work requeued queued retry_at deferred).
Proof.
  intros Hr Hq. unfold merge_fast_work. destruct queued as [e|].
  2: { destruct Hr. by split. }
  specialize (Hq e eq_refl). pose proof (wok_key key e Hq) as Hk.
  assert (forall f, f ∈ od_keys (merged_field_expiry requeued e) <->
    f ∈ od_keys requeued.(w_expires) \/ f ∈ od_keys e.(w_expires)) as Hm.
  { intros f. rewrite !od_keys_get, merged_expiry_get by apply Hq.
    destruct (od_get f (w_expires e)), (od_get f (w_expires requeued));
      try destruct (_ <=? _); (split; [intros [? ?] | intros [[? ?]|[? ?]]]);
      first [done | by eauto]. }
  split; cbn [w_command w_expires].
  - rewrite merge_payload_key; [done | apply Hq |]. rewrite Hk. apply Hq.
  - apply Hr.
  - apply merge_payload_ok; [intros ? [= <-]; apply Hr | apply Hq].
  - apply merged_expiry_nodup, Hr.
  - intros f. rewrite Hm, merge_payload_keys by apply Hq.
    cbn [from_option id accepted_candidate_fields].
    by rewrite (wok_fields key requeued Hr), (wok_fields key e Hq).
  - destruct (wok_some key requeued Hr) as [f Hf]. exists f. apply Hm. by left.
Qed.

(** Returning a work: the rest of it is merged into the queue, or it has expired. *)
Lemma requeue_ends key w deferred now q :
  work_ok key w ->
  (same_works q (snd (requeue w deferred now q)) /\ live_fields w now = []) \/
  exists r retry_at,
    retained_fast_work w now = Some r /\ work_ok key r /\
    snd (requeue w deferred now q) =
      q <| q_commands := od_put key (merge_fast_work r (od_get key q.(q_commands)) retry_at deferred)
                           q.(q_commands) |>.
Proof.
  intros Hw. pose proof (retained_spec key w now Hw) as Hr. unfold requeue, fast_requeue_candidate.
  destruct (retained_fast_work w now) as [r|]; cbn [mbind option_bind].
  - right. destruct Hr as [Hr _]. rewrite (wok_key key r Hr).
    destruct (String.eqb_spec key "") as [He|_]; [by destruct (wok_key_set key r Hr)|].
    eexists r, _. split_and!; [done | done | reflexivity].
  - left. split; [|done]. split_and!; [done | done|]. intros [H1 H2 H3 H4].
    split; [exact H1 | exact H2 | exact H3 | by apply release_ok].
Qed.

Lemma requeue_ok key w deferred now q :
  work_ok key w -> queue_ok q ->
  let q' := snd (requeue w deferred now q) in
  queue_ok q' /\ q'.(q_capacity) = q.(q_capacity) /\ depth q' <= depth q + 1.
Proof.
  intros Hw Hq q'. subst q'.
  destruct (requeue_ends key w deferred now q Hw) as [[(Hc & Hcap & Hok) _]|(r & t & _ & Hr & ->)].
  - split_and!; [auto | done | unfold depth; rewrite Hc; lia].
  - split_and!; [|done|].
    + apply queue_ok_put; [done|]. apply merge_fast_work_ok; [done|]. intros e. apply Hq.
    + unfold depth. cbn. rewrite od_length_put by apply Hq. case_decide; lia.
Qed.

(** A field of a well formed work has both a value and a deadline. *)
Lemma work_field_cases key w f :
  work_ok key w ->
  (exists v t, work_field f w = Some (v, t) /\ od_get f (publication_fields w.(w_command)) = Some v /\
     od_get f w.(w_expires) = Some t) \/
  (work_field f w = None /\ od_get f (publication_fields w.(w_command)) = None /\
   od_get f w.(w_expires) = None).
Proof.
  intros Hw. pose proof (wok_fields key w Hw f) as Hf. rewrite !od_keys_get in Hf. unfold work_field.
  destruct (od_get f (publication_fields (w_command w))) as [v|], (od_get f (w_expires w)) as [t|].
  - left. by exists v, t.
  - by destruct Hf as [_ [? [=]]]; eauto.
  - by destruct Hf as [[? [=]] _]; eauto.
  - by right.
Qed.

(** A field of a merged work comes whole from one of the two. *)
Lemma merged_work_field key requeued e retry_at deferred f :
  work_ok key requeued -> work_ok key e ->
  work_field f (merge_fast_work requeued (Some e) retry_at deferred) =
  match work_field f requeued, work_field f e with
  | Some new, Some old =>
    if order_of (publication_field_orders requeued.(w_command)) f <=?
       order_of (publication_field_orders e.(w_command)) f then Some old else Some new
  | Some new, None => Some new
  | None, o => o
  end.
Proof.
  intros Hr He. unfold work_field at 1, merge_fast_work. cbn [w_command w_expires].
  rewrite merge_payload_fields, merged_expiry_get by apply He.
  cbn [from_option id accepted_candidate_fields].
  rewrite merge_fields_get by apply He.
  destruct (work_field_cases key requeued f Hr) as [(v & t & -> & -> & ->)|(-> & -> & ->)],
    (work_field_cases key e f He) as [(v' & t' & -> & -> & ->)|(-> & -> & ->)]; try done.
  by destruct (_ <=? _).
Qed.

(** What expiry leaves of one field. *)
Definition still_alive (now : float) (vt : pyval * float) : option (pyval * float) :=
  if (vt.2 >? now)%F then Some vt else None.

Lemma retained_field key w r now f :
  work_ok key w -> retained_fast_work w now = Some r ->
  work_field f r = work_field f w ≫= still_alive now /\
  (work_field f r <> None -> order_of (publication_field_orders r.(w_command)) f =
     order_of (publication_field_orders w.(w_command)) f).
Proof.
  intros Hw Hret. pose proof (retained_spec key w now Hw) as Hr. rewrite Hret in Hr.
  destruct Hr as (_ & _ & _ & He & Hf).
  pose proof (live_fields_elem w now f (wok_nodup key w Hw)) as Hlive.
  unfold work_field. rewrite He, Hf. split.
  - destruct (work_field_cases key w f Hw) as [(v & t & _ & -> & Ht)|(_ & -> & ->)]; [|by case_decide].
    rewrite Ht in *. cbn [mbind option_bind]. unfold still_alive. cbn [snd].
    destruct (t >? now)%F eqn:E; case_decide as Hd; try done.
    + destruct Hd. apply Hlive. eauto.
    + apply Hlive in Hd as (t' & [= <-] & Ht'). congruence.
  - case_decide as Hd; [|done]. intros _. revert Hret. unfold retained_fast_work.
    destruct (filter_publication_payload _ _) as [payload|] eqn:E; [|done]. intros [= <-].
    by eapply filter_payload_orders.
Qed.

(** ** Taking work *)

Lemma min_by_spec {A} (lt : A -> A -> bool) (best : A) (items : list A) :
  (forall a b c, lt a b = true -> lt b c = true -> lt a c = true) -> (forall a, lt a a = false) ->
  let m := min_by lt best items in
  m ∈ best :: items /\ (forall x, x ∈ best :: items -> lt x m = false) /\ (m = best \/ lt m best = true).
Proof.
  intros Htr Hirr. cbn zeta. revert best. induction items as [|x items IH]; intros best; cbn [min_by].
  - split_and!; [left | | by left]. intros x Hx. apply list_elem_of_singleton in Hx as ->. apply Hirr.
  - destruct (lt x best) eqn:E.
    + destruct (IH x) as (Hin & Hmin & Hch). split_and!.
      * by right.
      * intros y [->|Hy]%elem_of_cons; [|by apply Hmin].
        apply not_true_iff_false. intros Hb. pose proof (Hmin x ltac:(left)) as Hx.
        rewrite (Htr x best _ E Hb) in Hx. done.
      * right. destruct Hch as [->|Hm]; [done | eauto].
    + destruct (IH best) as (Hin & Hmin & Hch). split_and!; [| |done].
      * apply elem_of_cons in Hin as [->|Hin]; [left | by right; right].
      * intros y [->|[->|Hy]%elem_of_cons]%elem_of_cons; [apply Hmin; left | | apply Hmin; by right].
        destruct Hch as [->|Hm]; [done|]. apply not_true_iff_false. intros Hx.
        rewrite (Htr x _ best Hx Hm) in E. done.
Qed.

Lemma flt_unless_eq (a b : float) : (if (a =? b)%F then false else (a <? b)%F) = (a <? b)%F.
Proof. destruct (a =? b)%F eqn:E; [|done]. symmetry. forder. Qed.

Lemma priority_lt_irrefl a : priority_lt a a = false.
Proof.
  destruct a as [[a1 a2] a3]. cbn. rewrite !Z.eqb_refl. cbn. rewrite flt_unless_eq. apply flt_irrefl.
Qed.

Lemma priority_lt_trans a b c :
  priority_lt a b = true -> priority_lt b c = true -> priority_lt a c = true.
Proof.
  destruct a as [[a1 a2] a3], b as [[b1 b2] b3], c as [[c1 c2] c3]. cbn.
  rewrite !flt_unless_eq.
  destruct (Z.eqb_spec a1 b1), (Z.eqb_spec b1 c1), (Z.eqb_spec a1 c1); cbn [negb]; try lia.
  destruct (Z.eqb_spec a2 b2), (Z.eqb_spec b2 c2), (Z.eqb_spec a2 c2); cbn [negb]; try lia.
  apply flt_trans.
Qed.

(** What [pop_next] does after pruning. *)
Lemma pop_next_spec now q :
  queue_ok q ->
  let q1 := snd (prune_expired now q) in
  let '(r, q') := pop_next now q in
  match r with
  | Ok (Some w) =>
    exists key, od_get key q1.(q_commands) = Some w /\ (w_retry_at w <=? now)%F = true /\
      q' = q1 <| q_commands := od_del key q1.(q_commands) |> /\
      (forall key' w', od_get key' q1.(q_commands) = Some w' -> (w_retry_at w' <=? now)%F = true ->
         priority_lt (fast_work_priority w' now) (fast_work_priority w now) = false)
  | Ok None =>
    q' = q1 /\ forall key w, od_get key q1.(q_commands) = Some w -> (w_retry_at w <=? now)%F = false
  | Err _ => False
  end.
Proof.
  intros Hq q1. pose proof (settles_prune now q Hq) as (Hq1 & _).
  pose proof (proj1 (prune_get now q "" (qok_nodup q Hq))) as Hok. unfold pop_next.
  unfold mbind at 1, M_bind at 1. subst q1. destruct (prune_expired now q) as [r q1].
  cbn [fst snd] in *. subst r. rewrite bind_get.
  destruct (filter _ (q_commands q1)) as [|first rest] eqn:E.
  - split; [done|]. intros key w Hw%od_get_some_elem. apply not_true_iff_false. intros Hr.
    assert ((key, w) ∈ filter (fun kw => (w_retry_at (snd kw) <=? now)%F = true) (q_commands q1)) as Hin
      by by apply list_elem_of_filter.
    rewrite E in Hin. by apply not_elem_of_nil in Hin.
  - rewrite bind_modify. cbn [mret M_ret].
    destruct (min_by_spec (fun a b => priority_lt (fast_work_priority (snd a) now)
      (fast_work_priority (snd b) now)) first rest) as (Hin & Hmin & _).
    { intros a b c. apply priority_lt_trans. }
    { intros a. apply priority_lt_irrefl. }
    revert Hin Hmin. generalize (min_by (fun a b => priority_lt (fast_work_priority (snd a) now)
      (fast_work_priority (snd b) now)) first rest). intros [key w].
    rewrite <- E. intros [Hr Hin]%list_elem_of_filter Hmin. exists key. cbn [fst snd] in *.
    split_and!; [by apply od_get_elem; [apply Hq1|] | done | done|].
    intros key' w' Hw' Hr'. apply (Hmin (key', w')). apply list_elem_of_filter.
    split; [done | by apply od_get_some_elem].
Qed.

(** ** Outcomes *)

Lemma remaining_fields_nodup c removed :
  command_ok c -> NoDup (remaining_fields (publication_fields c) removed).
Proof. intros [_ H]. unfold remaining_fields. by apply NoDup_filter. Qed.

Lemma settles_remove key fields : keeps settles (remove_fast_fields key fields).
Proof.
  apply keeps_get_bind. intros q Hq. destruct (od_get key (q_commands q)) as [w|] eqn:Hw;
    [|by apply (reflexivity (R := settles))].
  pose proof (qok_works q Hq key w Hw) as Hok. revert Hq. fold (settles q).
  change (settles q (snd ((match fast_field_selection w fields with
    | None => mret tt
    | Some (removed, remaining) =>
      store_remaining_fast_fields key w remaining;;
      increment "fast_fields_superseded" (Z.of_nat (length removed))
    end : M queue unit) q))).
  unfold fast_field_selection. destruct (present_fields _ _) as [|f fs]; [reflexivity|].
  unfold store_remaining_fast_fields.
  set (remaining := remaining_fields _ _).
  destruct (filter_publication_payload (w_command w) remaining) as [payload|] eqn:E.
  - etrans; [apply (settles_set key); [by eexists|] | eapply settles_increment]. intros _.
    eapply selected_work_ok; [exact Hok | | exact E]. apply remaining_fields_nodup, Hok.
  - etrans; [apply (settles_del key) | eapply settles_increment].
Qed.

Lemma settles_order {A} (m : M order_state A) :
  (forall s, history_ok s.(os_history) -> history_ok (os_history (snd (m s)))) ->
  keeps settles (in_order m).
Proof.
  intros Hm q [H1 H2 H3 H4]. unfold in_order. specialize (Hm _ H4).
  destruct (m (q_order q)) as [r o]. cbn in *. split_and!; [by split | done | unfold depth; cbn; lia].
Qed.

Section outcomes.
Context {OD : OrderDisk}.

Lemma settles_record_outcome w state now time_now :
  command_ok w.(w_command) -> keeps settles (record_outcome w state now time_now).
Proof.
  intros Hc. unfold record_outcome, record_order_outcome, queue_confirm_fast_applied.
  keeps_tac fail.
  - apply settles_order. intros s Hs.
    apply (history_step_ok (OpConfirmFast _ _ now)); [by apply field_orders_nodup | done].
  - intros []. split_and!; [by split | done | unfold depth; cbn; lia].
Qed.

Lemma settles_durable_outcome c state now now2 :
  command_ok c -> keeps settles (record_durable_outcome c state now now2).
Proof.
  intros Hc. unfold record_durable_outcome. keeps_tac fail.
  - apply settles_order. intros s Hs.
    apply (history_step_ok (OpConfirmDurable _ _ _ now now2)); [by apply field_orders_nodup | done].
  - apply settles_remove.
Qed.

Lemma settles_prepare c now now2 : keeps settles (prepare_durable c now now2).
Proof.
  unfold prepare_durable, durable_claim, prepared_durable_payload, raise.
  keeps_tac fail; intros s; reflexivity.
Qed.

(** ** The gateway loop *)

(** The queue and the works its consumers hold. *)
Definition gateway : Type := queue * list work.

(** One call on the queue.  At most [n] works are held at a time: the loop of
    dbus_adapter/write/core.py holds one. *)
Inductive gateway_step (n : nat) : gateway -> gateway -> Prop :=
  | gw_enqueue c ck q held : command_ok c -> gateway_step n (q, held) (snd (enqueue c ck q), held)
  | gw_prepare c now now2 q held : gateway_step n (q, held) (snd (prepare_durable c now now2 q), held)
  | gw_idle now q held :
      fst (pop_next now q) = Ok None -> gateway_step n (q, held) (snd (pop_next now q), held)
  | gw_pop now q held w :
      fst (pop_next now q) = Ok (Some w) -> (length held < n)%nat ->
      gateway_step n (q, held) (snd (pop_next now q), w :: held)
  | gw_requeue w deferred now q held1 held2 :
      gateway_step n (q, held1 ++ w :: held2) (snd (requeue w deferred now q), held1 ++ held2)
  | gw_outcome w state now time_now q held :
      w ∈ held -> gateway_step n (q, held) (snd (record_outcome w state now time_now q), held)
  | gw_done w q held1 held2 : gateway_step n (q, held1 ++ w :: held2) (q, held1 ++ held2)
  | gw_durable c state now now2 q held :
      command_ok c -> gateway_step n (q, held) (snd (record_durable_outcome c state now now2 q), held).

(** The bound on the depth counts the works that may come back. *)
Definition gateway_ok (n : nat) (capacity : Z) (g : gateway) : Prop :=
  queue_ok g.1 /\ q_capacity g.1 = capacity /\ (length g.2 <= n)%nat /\
  Forall (fun w => exists key, work_ok key w) g.2 /\
  depth g.1 + Z.of_nat (length g.2) <= capacity + Z.of_nat n.

Lemma gateway_settles n capacity q q' held :
  settles q q' -> gateway_ok n capacity (q, held) -> gateway_ok n capacity (q', held).
Proof.
  intros Hs (Hq & <- & Hl & Hh & Hd). destruct (Hs Hq) as (Hq' & Hc & Hd').
  split_and!; cbn in *; [done | done | done | done | lia].
Qed.

Lemma gateway_enqueue n capacity c ck q held :
  command_ok c -> gateway_ok n capacity (q, held) ->
  gateway_ok n capacity (snd (enqueue c ck q), held).
Proof.
  intros Hc Hg. pose proof (enqueue_wp c ck q Hc) as Hends. unfold wp in Hends.
  destruct Hends as [[(Hcm & Hcap & Hok) _]|(w & acc & ttl & id & q1 & _ & _ & (H1 & H2 & H3) & (H4 & H5 & H6) &
    Hw & Hk & _ & Hne & Hsub & _ & _ & Hroom & _)].
  - revert Hg. apply gateway_settles. intros Hq. split_and!; [auto | done | unfold depth; rewrite Hcm; lia].
  - destruct Hg as (Hq & <- & Hl & Hh & Hd). cbn [fst snd] in *.
    destruct (stores_merged c q (q1 <| q_commands := od_put (coalesce_key c) w q.(q_commands) |>)
      w acc ttl (ck_now ck) (ck_created2 ck)) as [Hwok _]; try done.
    rewrite H1 in H4, H6. cbn in H4, H5. split_and!; cbn [fst snd].
    + apply H6. rewrite <- H1. apply queue_ok_put; [by apply H3 | done].
    + congruence.
    + done.
    + done.
    + unfold depth in *. rewrite H4, od_length_put by apply Hq. unfold queue_at_capacity in Hroom.
      destruct (od_get _ (q_commands q)) in Hroom |- *; [rewrite decide_True by eauto; lia|].
      case_decide; lia.
Qed.

Lemma gateway_pop n capacity now q held w :
  fst (pop_next now q) = Ok (Some w) -> (length held < n)%nat ->
  gateway_ok n capacity (q, held) -> gateway_ok n capacity (snd (pop_next now q), w :: held).
Proof.
  intros Hr Hn (Hq & <- & Hl & Hh & Hd). cbn [fst snd] in *.
  pose proof (settles_prune now q Hq) as (Hq1 & Hc1 & Hd1). pose proof (pop_next_spec now q Hq) as H.
  destruct (pop_next now q) as [r q']. cbn [fst snd] in *. subst r.
  revert Hq1 Hc1 Hd1 H. generalize (snd (prune_expired now q)). intros q1 Hq1 Hc1 Hd1 H.
  destruct H as (key & Hw & _ & -> & _). destruct (settles_del key _ Hq1) as (Hq' & Hc' & _).
  split_and!; cbn [fst snd]; [done | congruence | cbn; lia | |].
  - constructor; [|done]. exists key. by apply Hq1.
  - unfold depth in *. cbn [length]. cbn. rewrite od_length_del by apply Hq1.
    rewrite decide_True by eauto. destruct (q_commands q1); [done | cbn in *; lia].
Qed.

Lemma gateway_step_ok n capacity g g' :
  gateway_step n g g' -> gateway_ok n capacity g -> gateway_ok n capacity g'.
Proof.
  destruct 1 as [c ck q held Hc|c now now2 q held|now q held Hr|now q held w Hr Hn|
    w deferred now q held1 held2|w state now time_now q held Hin|w q held1 held2|c state now now2 q held Hc].
  - by apply gateway_enqueue.
  - apply gateway_settles, settles_prepare.
  - apply gateway_settles. intros Hq. pose proof (pop_next_spec now q Hq) as H.
    destruct (pop_next now q) as [r q']. cbn in Hr. subst r. cbn [snd]. destruct H as [-> _].
    by apply settles_prune.
  - by apply gateway_pop.
  - intros (Hq & <- & Hl & Hh & Hd). cbn [fst snd] in *.
    rewrite Forall_app, Forall_cons in Hh. destruct Hh as (Hh1 & [key Hw] & Hh2).
    destruct (requeue_ok key w deferred now q Hw Hq) as (Hq' & Hc & Hd').
    rewrite length_app in *. cbn [length] in *.
    split_and!; cbn [fst snd]; [done | done | rewrite length_app; lia | by rewrite Forall_app |].
    rewrite length_app. lia.
  - intros Hg. pose proof Hg as (_ & _ & _ & Hh & _). cbn [snd] in Hh.
    rewrite Forall_forall in Hh. destruct (Hh w Hin) as [key Hw]. revert Hg.
    apply gateway_settles, settles_record_outcome, Hw.
  - intros (Hq & <- & Hl & Hh & Hd). cbn [fst snd] in *.
    rewrite Forall_app, Forall_cons in Hh. rewrite length_app in *. cbn [length] in *.
    split_and!; cbn [fst snd]; [done | done | rewrite length_app; lia | rewrite Forall_app; tauto |].
    rewrite length_app. lia.
  - by apply gateway_settles, settles_durable_outcome.
Qed.

Lemma new_queue_ok n capacity order_capacity retention path files now q :
  new_queue capacity order_capacity retention path files now = Ok q ->
  history_ok q.(q_order).(os_history) -> gateway_ok n (Z.max 1 capacity) (q, []).
Proof.
  unfold new_queue. destruct (new_history _ _ _ _ _) as [h|]; [|done]. intros [= <-] Hh.
  split_and!; cbn; [|done|lia|by apply Forall_nil|unfold depth; cbn; lia].
  split; cbn; [lia | by apply NoDup_nil | done | done].
Qed.

(** ** Properties *)

(** C36. A gateway that holds at most [n] popped works keeps the queue well formed
    (every work under its own key, with a deadline for exactly the fields it carries)
    and bounded: whatever is enqueued, popped, requeued, expired and confirmed in
    whatever order, the queued works and the held ones are never more than the
    capacity plus [n]. *)
Theorem fast_queue_stays_bounded n capacity order_capacity retention path files now q g :
  new_queue capacity order_capacity retention path files now = Ok q ->
  history_ok q.(q_order).(os_history) ->
  rtc (gateway_step n) (q, []) g ->
  queue_ok g.1 /\ q_capacity g.1 = Z.max 1 capacity /\
  depth g.1 + Z.of_nat (length g.2) <= Z.max 1 capacity + Z.of_nat n.
Proof.
  intros Hq Hh Hrun. apply (new_queue_ok n) in Hq; [|done].
  assert (gateway_ok n (Z.max 1 capacity) g) as (H1 & H2 & _ & _ & H3); [|by split_and!].
  induction Hrun as [g|g1 g2 g3 Hstep Hrun IH]; [done|]. by eapply IH, gateway_step_ok.
Qed.

End outcomes.

(** Pruning removes exactly the fields whose deadline has passed: every other
    field of the queue keeps its value and its deadline. *)
Theorem prune_drops_exactly_expired_fields now q key f :
  queue_ok q ->
  fst (prune_expired now q) = Ok tt /\
  queued_field (snd (prune_expired now q)) key f =
  match queued_field q key f with
  | Some (v, t) => if (t >? now)%F then Some (v, t) else None
  | None => None
  end.
Proof.
  intros Hq. destruct (prune_get now q key (qok_nodup q Hq)) as [Hok Hget]. split; [done|].
  unfold queued_field, work_field. rewrite Hget. destruct (od_get key (q_commands q)) as [w|] eqn:Hw; [|done].
  cbn [mbind option_bind]. pose proof (qok_works q Hq key w Hw) as Hwok.
  pose proof (pruned_spec key w now Hwok) as Hp. pose proof (live_fields_elem w now f (wok_nodup key w Hwok)) as Hl.
  destruct (pruned_work now w) as [r|]; cbn [mbind option_bind].
  - destruct Hp as (_ & _ & _ & -> & ->). case_decide as Hlive.
    + destruct (od_get f (publication_fields _)); [|done]. cbn [mbind option_bind].
      apply Hl in Hlive as (t & -> & Ht). cbn [mbind option_bind]. by rewrite Ht.
    + destruct (od_get f (publication_fields _)); [|done]. cbn [mbind option_bind].
      destruct (od_get f (w_expires w)) as [t|]; [|done]. cbn [mbind option_bind].
      destruct (t >? now)%F eqn:Ht; [|done]. destruct Hlive. apply Hl. eauto.
  - destruct (od_get f (publication_fields _)); [|done]. cbn [mbind option_bind].
    destruct (od_get f (w_expires w)) as [t|]; [|done]. cbn [mbind option_bind].
    destruct (t >? now)%F eqn:Ht; [|done]. rewrite Hp in Hl.
    assert (f ∈ []) as []%not_elem_of_nil by (apply Hl; eauto).
Qed.

(** [pop_next] takes an unexpired work whose retry time has come and whose
    priority none of the others that are due precedes, removes exactly its fields from
    the pruned queue, and answers nothing only when no work is due. *)
Theorem pop_next_takes_most_urgent now q :
  queue_ok q ->
  let q1 := snd (prune_expired now q) in
  match fst (pop_next now q) with
  | Ok (Some w) =>
    exists key, od_get key q1.(q_commands) = Some w /\ (w_retry_at w <=? now)%F = true /\
      (forall f t, od_get f w.(w_expires) = Some t -> (t >? now)%F = true) /\
      (forall key' w', od_get key' q1.(q_commands) = Some w' -> (w_retry_at w' <=? now)%F = true ->
         priority_lt (fast_work_priority w' now) (fast_work_priority w now) = false) /\
      (forall key' f, queued_field (snd (pop_next now q)) key' f =
         if decide (key' = key) then None else queued_field q1 key' f)
  | Ok None =>
    snd (pop_next now q) = q1 /\
    forall key w, od_get key q1.(q_commands) = Some w -> (w_retry_at w <=? now)%F = false
  | Err _ => False
  end.
Proof.
  intros Hq q1. pose proof (pop_next_spec now q Hq) as H. fold q1 in H.
  destruct (pop_next now q) as [[[w|]|] q']; cbn [fst snd]; [|done|done].
  destruct H as (key & Hw & Hr & -> & Hmin). exists key. split_and!; [done | done | | done |].
  - intros f t Ht. subst q1. rewrite (proj2 (prune_get now q key (qok_nodup q Hq))) in Hw.
    destruct (od_get key (q_commands q)) as [w0|] eqn:Hw0; [|done]. cbn [mbind option_bind] in Hw.
    pose proof (qok_works q Hq key w0 Hw0) as Hok0.
    pose proof (pruned_spec key w0 now Hok0) as Hp. rewrite Hw in Hp.
    destruct Hp as (_ & _ & _ & He & _). rewrite He in Ht. case_decide as Hlive; [|done].
    apply live_fields_elem in Hlive as (t' & Ht' & Hlt); [|apply Hok0]. congruence.
  - intros key' f. unfold queued_field, work_field. cbn. rewrite od_get_del. by case_decide.
Qed.

(** C37. [enqueue] is field-wise latest-wins. A publication that it accepts is stored: the order history
    admitted a claim with some of its fields, each newer than every order remembered for it, and exactly those
    fields of its key are queued afterwards with its values (a queued value with a higher order is kept) and with
    one new deadline, at most thirty seconds ahead; every other field of every publication is left alone.  A call that
    rejects the publication, finds it superseded, or raises leaves the works untouched; a new key while the queue
    is full is never accepted. *)
Theorem enqueue_is_fieldwise_latest_wins c ck q :
  queue_ok q -> command_ok c ->
  let '(r, q') := enqueue c ck q in
  let claim := claim_of c ck q in
  queue_ok q' /\
  match r with
  | Ok er =>
    if er.(er_accepted) && negb (er.(er_reason) =? "superseded")%string then
      is_transient_publication c = true /\ claim.(claim_is) = Accepted /\
      newer_than_remembered c ck q claim.(accepted_fields) /\
      (exists ttl, remaining_transient_ttl c ck.(ck_ttl) = Ok ttl /\
        (f0 <? ttl)%F = true /\ (ttl <=? TRANSIENT_PUBLICATION_DEADLINE_SECONDS)%F = true /\
        stores c q q' claim.(accepted_fields) (ck.(ck_now) + ttl)%F) /\
      (od_get (coalesce_key c) q.(q_commands) = None -> depth q < q.(q_capacity))
    else q'.(q_commands) = q.(q_commands)
  | Err _ => q'.(q_commands) = q.(q_commands)
  end.
Proof.
  intros Hq Hc. pose proof (enqueue_wp c ck q Hc) as H. unfold wp in H.
  destruct (enqueue c ck q) as [r q']. cbn [fst snd] in H. cbv zeta.
  destruct H as [[(Hcm & _ & Hok) Hsup]|(w & acc & ttl & id & q1 & -> & His & (H1 & H2 & H3) & (H4 & H5 & H6) &
    Hw & Hk & Htr & Hne & Hsub & Httl & Hpos & Hroom & ->)].
  - split; [auto|]. destruct r as [er|e]; [|done]. destruct (er_accepted er) eqn:Ea; [|done].
    by rewrite (Hsup er eq_refl Ea).
  - rewrite H1 in H4, H6. cbn in H4.
    destruct (stores_merged c q q' w (claim_of c ck q).(accepted_fields) ttl (ck_now ck) (ck_created2 ck)) as [Hwok Hst]; try done.
    split; [apply H6; rewrite <- H1; apply queue_ok_put; [by apply H3 | done]|].
    cbn [er_accepted er_reason andb]. split_and!; [done | done | by apply claim_newer | |].
    + exists ttl. split_and!; try done. by eapply remaining_ttl_bounds.
    + intros Hnone. rewrite Hnone in Hroom. unfold queue_at_capacity, depth in *. lia.
Qed.


(** Requeueing a held work merges what is still alive of it into the queue field by
    field: where another publication of the same key is queued, the value with the
    newer order survives together with its own deadline (the queued one on a tie), and
    nothing else in the queue changes. *)
Theorem requeue_merges_by_order key w deferred now q key' f :
  queue_ok q -> work_ok key w ->
  queued_field (snd (requeue w deferred now q)) key' f =
  if decide (key' = key) then
    match work_field f w ≫= still_alive now, od_get key q.(q_commands) with
    | Some new, Some e =>
      match work_field f e with
      | Some old =>
        if order_of (publication_field_orders w.(w_command)) f <=?
           order_of (publication_field_orders e.(w_command)) f
        then Some old else Some new
      | None => Some new
      end
    | Some new, None => Some new
    | None, _ => queued_field q key f
    end
  else queued_field q key' f.
Proof.
  intros Hq Hw. destruct (requeue_ends key w deferred now q Hw) as
    [[(Hcm & _) Hnil]|(r & t & Hret & Hrok & ->)]; unfold queued_field.
  - rewrite Hcm. case_decide as Hk; [subst key'|done].
    assert (work_field f w ≫= still_alive now = None) as ->; [|done].
    destruct (work_field_cases key w f Hw) as [(v & t & -> & _ & Ht)|(-> & _)]; [|done].
    cbn. unfold still_alive. cbn [snd]. destruct (t >? now)%F eqn:E; [|done].
    assert (f ∈ live_fields w now) as Hin by (apply live_fields_elem; [apply Hw | eauto]).
    rewrite Hnil in Hin. by apply not_elem_of_nil in Hin.
  - cbn. rewrite od_get_put. case_decide as Hk; [subst key'|done]. cbn [mbind option_bind].
    destruct (retained_field key w r now f Hw Hret) as [<- Hord].
    destruct (od_get key (q_commands q)) as [e|] eqn:He; cbn [mbind option_bind].
    + rewrite (merged_work_field key) by (done || by apply Hq).
      destruct (work_field f r); [by rewrite Hord | by destruct (work_field f e)].
    + change (work_field f (merge_fast_work r None t deferred)) with (work_field f r).
      by destruct (work_field f r).
Qed.

(** ** Durable publications *)

(** No retained mark blocks a durable field: its order is higher, or it is the order
    that was confirmed durably. *)
Definition durable_admits (h : history) (active : list field_key) (now : float) (key f : string)
    (order : Z) : Prop :=
  forall mk, od_get (key, f) h.(h_marks) = Some mk -> retained h active now (key, f) mk ->
    mk.(mark_order) < order \/ (mk.(mark_order) = order /\ mk.(mark_lane) = Durable).

Lemma durable_order_not_blocked order mk :
  durable_order_claim_blocked order mk = false <->
  mk.(mark_order) < order \/ (mk.(mark_order) = order /\ mk.(mark_lane) = Durable).
Proof.
  unfold durable_order_claim_blocked. destruct (Z.ltb_spec order (mark_order mk)); [split; [done | lia]|].
  destruct (Z.ltb_spec (mark_order mk) order); [split; [by left | done]|].
  rewrite negb_false_iff, bool_decide_eq_true. split; [intros; right; split; [lia | done] | intros [?|[_ ?]]; [lia | done]].
Qed.

Lemma claim_durable_spec h key c active now f :
  command_ok c -> od_nodup h.(h_marks) ->
  let claim := claim_durable h key (publication_field_orders c) active now in
  claim.(claim_is) <> Full ->
  f ∈ claim.(accepted_fields) <->
  exists order, od_get f (publication_field_orders c) = Some order /\
    durable_admits h active now key f order.
Proof.
  intros Hc Hd. unfold claim_durable. destruct (claim_fits_capacity _ _ _ _ _); [|by intros []].
  intros _. rewrite claim_accepted by by apply field_orders_nodup.
  apply exist_proper. intros order. apply and_iff_compat_l. unfold field_blocked, durable_admits.
  cbn [fst snd]. rewrite pruned_get by done. destruct (od_get (key, f) (h_marks h)) as [mk|]; [|naive_solver].
  case_decide as Hr; [|naive_solver]. rewrite durable_order_not_blocked. naive_solver.
Qed.

Lemma durable_waits_spec orders w :
  durable_waits_for_fast orders (Some w) = true <->
  exists f order, (f, order) ∈ orders /\ f ∈ od_keys (publication_fields w.(w_command)) /\
    order <= order_of (publication_field_orders w.(w_command)) f.
Proof.
  unfold durable_waits_for_fast. rewrite existsb_exists. split.
  - intros ([f o] & Hin & [Hm Ho]%andb_true_iff). exists f, o. cbn [fst snd] in *.
    rewrite od_mem_keys, field_orders_keys in Hm. split_and!; [by apply list_elem_of_In | done | lia].
  - intros (f & o & Hin & Hf & Ho). exists (f, o). split; [by apply list_elem_of_In|]. cbn [fst snd].
    rewrite andb_true_iff, od_mem_keys, field_orders_keys. split; [done | lia].
Qed.

(** The prepared payload carries the admitted fields. *)
Lemma filter_keeps c fields payload f :
  od_nodup (publication_fields c) -> filter_publication_payload c fields = Some payload ->
  od_get f (publication_fields payload) =
  if decide (f ∈ fields) then od_get f (publication_fields c) else None.
Proof.
  intros Hd (-> & _)%filter_payload_spec. unfold selected_field_values.
  rewrite od_get_filter by done. destruct (od_get f (publication_fields c)); cbn [fst]; by case_decide.
Qed.

(** [prepare_durable] as one decision on the pruned queue. *)
Lemma prepare_durable_cases c now now2 q :
  od_nodup q.(q_commands) ->
  let q1 := snd (prune_expired now q) in
  let key := coalesce_key c in
  q_commands (snd (prepare_durable c now now2 q)) = q1.(q_commands) /\
  fst (prepare_durable c now now2 q) =
  if durable_waits_for_fast (publication_field_orders c) (od_get key q1.(q_commands))
  then Err PendingFastError
  else
    let claim := claim_durable q1.(q_order).(os_history) key (publication_field_orders c)
      (active_fields q1) now2 in
    if bool_decide (claim.(claim_is) = Full) then Err CapacityError
    else match claim.(accepted_fields) with
         | [] => Ok None
         | accepted => Ok (filter_publication_payload c accepted)
         end.
Proof.
  intros Hd q1 key. subst q1 key. pose proof (proj1 (prune_get now q "" Hd)) as Hok.
  unfold prepare_durable. unfold mbind at 1 3, M_bind at 1 3.
  destruct (prune_expired now q) as [r q1]. cbn [fst snd] in *. subst r.
  unfold durable_claim, ordering_prepare_durable, try_except, lift, mbind, M_bind, get. cbn [fst snd].
  destruct (durable_waits_for_fast _ _); [done|].
  destruct (claim_durable _ _ _ _ _) as [st acc sup]. cbn [claim_is accepted_fields superseded_fields].
  destruct (decide (st = Full)) as [->|Hst]; [done|].
  rewrite (bool_decide_eq_false_2 (st = Full)) by done. cbn.
  destruct acc as [|f fs]; [done|]. by destruct sup.
Qed.

(** C38. A durable publication never overtakes fast work and never falls behind it:
    while the queue holds one of its fields with an order at least as high, it waits;
    otherwise exactly the fields whose retained marks are older (or are its own
    confirmed order) are handed out with their values.  Nothing queued is touched, and
    only a full order history is an error. *)
Theorem durable_fields_respect_fast_order c now now2 q :
  queue_ok q -> command_ok c ->
  let q1 := snd (prune_expired now q) in
  let key := coalesce_key c in
  let admits := durable_admits q1.(q_order).(os_history) (active_fields q1) now2 key in
  q_commands (snd (prepare_durable c now now2 q)) = q1.(q_commands) /\
  match fst (prepare_durable c now now2 q) with
  | Ok (Some payload) =>
    (forall w f order, od_get key q1.(q_commands) = Some w ->
       od_get f (publication_field_orders c) = Some order ->
       f ∈ od_keys (publication_fields w.(w_command)) ->
       order_of (publication_field_orders w.(w_command)) f < order) /\
    (forall f order, od_get f (publication_field_orders c) = Some order ->
       (admits f order ->
        od_get f (publication_fields payload) = od_get f (publication_fields c)) /\
       (~ admits f order -> od_get f (publication_fields payload) = None))
  | Ok None => forall f order, od_get f (publication_field_orders c) = Some order -> ~ admits f order
  | Err PendingFastError => exists w f order, od_get key q1.(q_commands) = Some w /\
      od_get f (publication_field_orders c) = Some order /\
      order <= order_of (publication_field_orders w.(w_command)) f
  | Err e => e = CapacityError
  end.
Proof.
  intros Hq Hc q1 key admits. destruct (prepare_durable_cases c now now2 q (qok_nodup q Hq)) as [H1 H2].
  fold q1 key in H1, H2. split; [exact H1|]. rewrite H2. clear H1 H2.
  assert (queue_ok q1) as Hq1 by apply (settles_prune now q Hq).
  pose proof (field_orders_nodup c Hc) as Hord.
  destruct (durable_waits_for_fast _ _) eqn:Hwait.
  { destruct (od_get key (q_commands q1)) as [w|] eqn:Hw; [|done].
    apply durable_waits_spec in Hwait as (f & o & Hin & _ & Ho). exists w, f, o.
    split_and!; [done | by apply od_get_elem | done]. }
  pose proof (fun f => claim_durable_spec q1.(q_order).(os_history) key c (active_fields q1) now2 f Hc
    (proj1 (qok_history q1 Hq1))) as Hspec. cbn zeta in *. fold admits in Hspec.
  destruct (claim_durable _ _ _ _ _) as [st acc sup]. cbn [claim_is accepted_fields] in *.
  case_bool_decide as Hst; [done|].
  assert (forall f, f ∈ acc <-> exists order, od_get f (publication_field_orders c) = Some order /\
    admits f order) as Hacc by (intros f; by apply Hspec). clear Hspec.
  destruct acc as [|f0 fs].
  { intros f order Ho Ha. apply (not_elem_of_nil f), Hacc. eauto. }
  destruct (filter_publication_payload c (f0 :: fs)) as [payload|] eqn:Hp.
  - split.
    + intros w f order Hw Ho Hf. apply Z.nle_gt. intros Hle. rewrite Hw in Hwait.
      apply not_true_iff_false in Hwait. apply Hwait, durable_waits_spec.
      exists f, order. split_and!; [by apply od_get_some_elem | done | done].
    + intros f order Ho. rewrite (filter_keeps _ _ _ f (proj2 Hc) Hp).
      split; intros Ha; case_decide as Hin; try done.
      * destruct Hin. apply Hacc. eauto.
      * apply Hacc in Hin as (o & Ho' & Ha'). by simplify_eq.
  - intros f order Ho Ha. revert Hp. unfold filter_publication_payload.
    destruct (selected_field_values c (f0 :: fs)) eqn:E; [|done].
    assert (f ∈ od_keys (selected_field_values c (f0 :: fs))) as Hin.
    { apply selected_keys. split; [apply Hacc; eauto|]. rewrite <- field_orders_keys, od_keys_get. eauto. }
    rewrite E in Hin. by apply not_elem_of_nil in Hin.
Qed.

(** ** Sampling *)

(** The answers of successive [record_outcome] calls. *)
Fixpoint record_outcomes (outcomes : list (string * float)) (m : metrics) : list bool * metrics :=
  match outcomes with
  | [] => ([], m)
  | (state, now) :: rest =>
    let '(journal, m1) := metrics_record_outcome state now m in
    let '(journals, m2) := record_outcomes rest m1 in (journal :: journals, m2)
  end.

(** Sampling never hides an outcome other than ["applied"], and of every run of
    applied outcomes that are not journaled the length stays below the sample count,
    whatever the clock does. *)
Theorem unjournaled_outcomes_are_few outcomes m :
  0 <= m.(mt_successes_since_sample) ->
  Forall (fun j => j = false) (fst (record_outcomes outcomes m)) ->
  Forall (fun sn => fst sn = "applied") outcomes /\
  (outcomes = [] \/ m.(mt_successes_since_sample) + Z.of_nat (length outcomes) <
     FAST_PUBLICATION_SUCCESS_SAMPLE_COUNT).
Proof.
  revert m. induction outcomes as [|[state now] rest IH]; intros m Hm; [by split; [constructor | left]|].
  cbn [record_outcomes]. unfold metrics_record_outcome.
  destruct (String.eqb_spec state "applied") as [->|Hne]; cbn [negb].
  2: { destruct (record_outcomes rest _). by intros [? _]%Forall_cons. }
  unfold success_sample_due. cbn [mt_counts mt_last_success_sample_at mt_successes_since_sample metrics_increment].
  destruct (FAST_PUBLICATION_SUCCESS_SAMPLE_COUNT <=? mt_successes_since_sample m + 1) eqn:Hdue.
  { rewrite orb_true_r. cbn [orb negb]. destruct (record_outcomes rest _). by intros [? _]%Forall_cons. }
  destruct (_ || _); cbn [negb].
  { destruct (record_outcomes rest _). by intros [? _]%Forall_cons. }
  specialize (IH (mkMetrics (mt_counts (metrics_increment "applied" 1 m)) (mt_last_success_sample_at m)
    (mt_successes_since_sample m + 1))). cbn [mt_successes_since_sample] in IH.
  cbn [mt_counts metrics_increment] in *. destruct (record_outcomes rest _) as [js m2]. cbn [fst] in *.
  intros [_ Hjs]%Forall_cons. destruct (IH ltac:(lia) Hjs) as [Hall Hlen]. split; [by constructor|].
  right. cbn [length]. destruct Hlen as [->|Hlen]; [cbn; lia | lia].
Qed.

(** ** Witnesses *)

Section witnesses.

Definition live_key : string := "gateway-publication:evcs:live".

(** A live publication of the given fields and order, without a creation time. *)
Definition live_command (fields : odict string pyval) (order : Z) : command :=
  [("kind", VStr PUBLISH_EVCS_FIELDS_KIND); ("publication_priority", VStr "live");
   ("priority", VStr "publish"); ("coalesce_key", VStr live_key);
   ("fields", fields_value fields); (PUBLICATION_ORDER_FIELD, VInt order)].

Definition sample_command : command :=
  live_command [("power", VInt 1400); ("current", VInt 6)] 7.

(** All clocks at one time. *)
Definition clock_at (t : Z) : enqueue_clock :=
  let f := f_of_Z t in mkClock f f f f f f.

Definition empty_queue : queue :=
  match new_queue 1 None (f_of_Z 60) None (mkFiles None None) f0 with
  | Ok q => q
  | Err _ => mkQueue 1 [] (mkOrderState (mkHistory 1 f1 "" []) (mkFiles None None)) (mkMetrics [] f0 0)
  end.

(** One work queued at 100 s, with deadlines at 130 s. *)
Definition sample_queue : queue := snd (enqueue sample_command (clock_at 100) empty_queue).

Definition sample_work : work :=
  match od_get live_key sample_queue.(q_commands) with Some w => w | None => mkWork [] [] f0 false end.

Lemma sample_command_ok : command_ok sample_command.
Proof. split; apply (bool_decide_unpack _); vm_compute; exact I. Qed.

Lemma newer_command_ok : command_ok (live_command [("power", VInt 1500)] 9).
Proof. split; apply (bool_decide_unpack _); vm_compute; exact I. Qed.

Lemma empty_queue_new :
  new_queue 1 None (f_of_Z 60) None (mkFiles None None) f0 = Ok empty_queue.
Proof. vm_compute. reflexivity. Qed.

Lemma empty_history_ok : history_ok empty_queue.(q_order).(os_history).
Proof. split; [apply NoDup_nil_2 | vm_compute; discriminate]. Qed.

Lemma sample_queue_ok : queue_ok sample_queue.
Proof.
  apply (gateway_enqueue 0 1 sample_command (clock_at 100) empty_queue []);
    [apply sample_command_ok|].
  apply (new_queue_ok 0 1 None (f_of_Z 60) None (mkFiles None None) f0);
    [apply empty_queue_new | apply empty_history_ok].
Qed.

Lemma sample_work_get : od_get live_key sample_queue.(q_commands) = Some sample_work.
Proof. vm_compute. reflexivity. Qed.

Lemma sample_work_ok : work_ok live_key sample_work.
Proof. apply sample_queue_ok, sample_work_get. Qed.

(** The sample queue after its work was popped and a newer power was published. *)
Definition refilled_queue : queue :=
  snd (enqueue (live_command [("power", VInt 1500)] 9) (clock_at 105)
    (snd (pop_next (f_of_Z 104) sample_queue))).

Definition refilled_work : work :=
  match od_get live_key refilled_queue.(q_commands) with Some w => w | None => mkWork [] [] f0 false end.

Lemma refilled_queue_ok : queue_ok refilled_queue.
Proof.
  apply (gateway_enqueue 1 1 (live_command [("power", VInt 1500)] 9) (clock_at 105)
    (snd (pop_next (f_of_Z 104) sample_queue)) [sample_work]); [apply newer_command_ok|].
  apply gateway_pop; [vm_compute; reflexivity | cbn; lia |].
  apply (gateway_enqueue 1 1 sample_command (clock_at 100) empty_queue []); [apply sample_command_ok|].
  apply (new_queue_ok 1 1 None (f_of_Z 60) None (mkFiles None None) f0);
    [apply empty_queue_new | apply empty_history_ok].
Qed.

Lemma fast_queue_stays_bounded_witness :
  new_queue 1 None (f_of_Z 60) None (mkFiles None None) f0 = Ok empty_queue /\
  q_capacity sample_queue = 1 /\ depth sample_queue + 0 <= 1 + 1.
Proof.
  split; [apply empty_queue_new|].
  pose proof (@fast_queue_stays_bounded good_disk 1 1 None (f_of_Z 60) None (mkFiles None None) f0
    empty_queue (sample_queue, []) empty_queue_new empty_history_ok) as H.
  destruct H as (_ & Hc & Hd); [|split; [exact Hc | exact Hd]].
  eapply rtc_l; [|apply rtc_refl]. apply gw_enqueue. apply sample_command_ok.
Defined.

Lemma prune_drops_exactly_expired_fields_witness :
  queued_field sample_queue live_key "power" = Some (VInt 1400, f_of_Z 130) /\
  queued_field (snd (prune_expired (f_of_Z 131) sample_queue)) live_key "power" = None.
Proof.
  assert (queued_field sample_queue live_key "power" = Some (VInt 1400, f_of_Z 130)) as H0
    by (vm_compute; reflexivity).
  pose proof (prune_drops_exactly_expired_fields (f_of_Z 131) sample_queue live_key "power"
    sample_queue_ok) as [_ H].
  rewrite H0 in H. split; [exact H0|]. apply (eq_trans H). vm_compute. reflexivity.
Defined.

Lemma pop_next_takes_most_urgent_witness :
  fst (pop_next (f_of_Z 104) sample_queue) = Ok (Some sample_work) /\
  (w_retry_at sample_work <=? f_of_Z 104)%F = true.
Proof.
  assert (fst (pop_next (f_of_Z 104) sample_queue) = Ok (Some sample_work)) as Hr
    by (vm_compute; reflexivity).
  split; [exact Hr|].
  pose proof (pop_next_takes_most_urgent (f_of_Z 104) sample_queue sample_queue_ok) as H.
  cbv zeta in H. rewrite Hr in H. destruct H as (key & _ & Hle & _). exact Hle.
Defined.

Lemma enqueue_is_fieldwise_latest_wins_witness :
  let c := live_command [("power", VInt 1500)] 9 in
  fst (enqueue c (clock_at 105) sample_queue) = Ok (mkEnqueueResult true (fast_command_id live_key) "") /\
  (claim_of c (clock_at 105) sample_queue).(accepted_fields) = ["power"] /\
  exists ttl, stores c sample_queue (snd (enqueue c (clock_at 105) sample_queue)) ["power"] (f_of_Z 105 + ttl)%F.
Proof.
  cbv zeta.
  assert (fst (enqueue (live_command [("power", VInt 1500)] 9) (clock_at 105) sample_queue) =
    Ok (mkEnqueueResult true (fast_command_id live_key) "")) as Hr by (vm_compute; reflexivity).
  assert ((claim_of (live_command [("power", VInt 1500)] 9) (clock_at 105) sample_queue).(accepted_fields) = ["power"]) as Hf
    by (vm_compute; reflexivity).
  split; [exact Hr|]. split; [exact Hf|].
  pose proof (enqueue_is_fieldwise_latest_wins (live_command [("power", VInt 1500)] 9) (clock_at 105)
    sample_queue sample_queue_ok newer_command_ok) as H.
  destruct (enqueue _ _ _) as [r q']. cbn [fst] in Hr. subst r. destruct H as (_ & _ & _ & _ & (ttl & _ & _ & _ & Hst) & _).
  exists ttl. rewrite Hf in Hst. exact Hst.
Defined.

Lemma requeue_merges_by_order_witness :
  queued_field (snd (requeue sample_work true (f_of_Z 106) refilled_queue)) live_key "power" =
    Some (VInt 1500, f_of_Z 135).
Proof.
  pose proof (requeue_merges_by_order live_key sample_work true (f_of_Z 106) refilled_queue
    live_key "power" refilled_queue_ok sample_work_ok) as H.
  rewrite decide_True in H by reflexivity.
  assert (work_field "power" sample_work = Some (VInt 1400, f_of_Z 130)) as H1
    by (vm_compute; reflexivity).
  rewrite H1 in H. change (Some (VInt 1400, f_of_Z 130) ≫= still_alive (f_of_Z 106)) with
    (still_alive (f_of_Z 106) (VInt 1400, f_of_Z 130)) in H.
  assert (od_get live_key refilled_queue.(q_commands) = Some refilled_work) as H2
    by (vm_compute; reflexivity).
  rewrite H2 in H. rewrite H. vm_compute. reflexivity.
Defined.

Lemma durable_fields_respect_fast_order_witness :
  fst (prepare_durable sample_command (f_of_Z 106) (f_of_Z 106) sample_queue) = Err PendingFastError /\
  q_commands (snd (prepare_durable sample_command (f_of_Z 106) (f_of_Z 106) sample_queue)) =
    q_commands (snd (prune_expired (f_of_Z 106) sample_queue)).
Proof.
  split; [vm_compute; reflexivity|].
  pose proof (durable_fields_respect_fast_order sample_command (f_of_Z 106) (f_of_Z 106) sample_queue
    sample_queue_ok sample_command_ok) as [H _]. exact H.
Defined.

Lemma unjournaled_outcomes_are_few_witness :
  let m := mkMetrics [] (f_of_Z 100) 20 in
  let run := [("applied", f_of_Z 101); ("applied", f_of_Z 102)] in
  fst (record_outcomes run m) = [false; false] /\ 20 + Z.of_nat (length run) < 25.
Proof.
  intros m run. assert (fst (record_outcomes run m) = [false; false]) as Hr by (vm_compute; reflexivity).
  split; [exact Hr|].
  destruct (unjournaled_outcomes_are_few run m) as [_ [H|H]]; [vm_compute; discriminate | | discriminate H | exact H].
  rewrite Hr. repeat constructor.
Defined.

End witnesses.
