(* ===== verification/AutoPolicy.v ===== *)
(** * The Auto policy

    [auto/policy.py] and [auto/policy_settings.py]: the thresholds, states of charge,
    smoothing and learning settings of the Auto mode, how invalid values are clamped,
    and the settings that can be written from outside.  Log messages are left out. *)

From S2P Require Import Prelude PyFloat PyValue Contracts BackendModels Service.

(** ** Data *)

(** auto/policy.py: AutoThresholdProfile *)
Record AutoThresholdProfile := mkAutoThresholdProfile {
  start_surplus_watts : float; stop_surplus_watts : float }.

#[export] Instance eta_profile : Eta AutoThresholdProfile := fun p =>
  mkAutoThresholdProfile (p.(start_surplus_watts)) (p.(stop_surplus_watts)).

(** auto/policy.py: AutoStopEwmaPolicy *)
Record AutoStopEwmaPolicy := mkAutoStopEwmaPolicy {
  base_alpha : float; stable_alpha : float; volatile_alpha : float;
  volatility_low_watts : float; volatility_high_watts : float }.

#[export] Instance eta_ewma : Eta AutoStopEwmaPolicy := fun p =>
  mkAutoStopEwmaPolicy (p.(base_alpha)) (p.(stable_alpha)) (p.(volatile_alpha))
    (p.(volatility_low_watts)) (p.(volatility_high_watts)).

(** auto/policy.py: AutoLearnChargePowerPolicy *)
Record AutoLearnChargePowerPolicy := mkAutoLearnChargePowerPolicy {
  alcp_enabled : bool; alcp_reference_power_watts : float; alcp_min_watts : float;
  alcp_alpha : float; alcp_start_delay_seconds : float; alcp_window_seconds : float;
  alcp_max_age_seconds : float }.

#[export] Instance eta_learn : Eta AutoLearnChargePowerPolicy := fun p =>
  mkAutoLearnChargePowerPolicy (p.(alcp_enabled)) (p.(alcp_reference_power_watts))
    (p.(alcp_min_watts)) (p.(alcp_alpha)) (p.(alcp_start_delay_seconds))
    (p.(alcp_window_seconds)) (p.(alcp_max_age_seconds)).

#[export] Instance eta_phase_policy : Eta AutoPhasePolicy := fun p =>
  mkAutoPhasePolicy (p.(app_enabled)) (p.(app_upshift_delay_seconds))
    (p.(app_downshift_delay_seconds)) (p.(app_upshift_headroom_watts))
    (p.(app_downshift_margin_watts)) (p.(app_mismatch_retry_seconds))
    (p.(app_mismatch_lockout_count)) (p.(app_mismatch_lockout_seconds))
    (p.(app_prefer_lowest_phase_when_idle)).

(** auto/policy.py: AutoPolicy *)
Record AutoPolicy := mkAutoPolicy {
  normal_profile : AutoThresholdProfile;
  high_soc_profile : AutoThresholdProfile;
  high_soc_threshold : float;
  high_soc_release_threshold : float;
  min_soc : float;
  resume_soc : float;
  ev_priority_soc : float;
  ev_priority_release_soc : float;
  start_max_grid_import_watts : float;
  stop_grid_import_watts : float;
  grid_recovery_start_seconds : float;
  stop_surplus_delay_seconds : float;
  ewma : AutoStopEwmaPolicy;
  learn_charge_power : AutoLearnChargePowerPolicy;
  phase : AutoPhasePolicy }.

#[export] Instance eta_policy : Eta AutoPolicy := fun p =>
  mkAutoPolicy (p.(normal_profile)) (p.(high_soc_profile)) (p.(high_soc_threshold))
    (p.(high_soc_release_threshold)) (p.(min_soc)) (p.(resume_soc)) (p.(ev_priority_soc))
    (p.(ev_priority_release_soc)) (p.(start_max_grid_import_watts)) (p.(stop_grid_import_watts))
    (p.(grid_recovery_start_seconds)) (p.(stop_surplus_delay_seconds)) (p.(ewma))
    (p.(learn_charge_power)) (p.(phase)).

(** The defaults of the dataclasses.
    auto/policy.py: AutoPolicy *)
Definition default_policy : AutoPolicy :=
  mkAutoPolicy
    (mkAutoThresholdProfile (f_of_Z 1500) (f_of_Z 1100))
    (mkAutoThresholdProfile (f_of_Z 1500) (f_of_Z 1100))
    (f_of_Z 50) (f_of_Z 50) (f_of_Z 30) (f_of_Z 33) (f_of_Z 40) (f_of_Z 38)
    (f_of_Z 50) (f_of_Z 300) (f_of_Z 10) (f_of_Z 10)
    (mkAutoStopEwmaPolicy (fdec 35 100) (fdec 55 100) (fdec 15 100) (f_of_Z 150) (f_of_Z 400))
    (mkAutoLearnChargePowerPolicy true (f_of_Z 1900) (f_of_Z 500) (fdec 2 10) (f_of_Z 30)
       (f_of_Z 180) (f_of_Z 21600))
    (mkAutoPhasePolicy true (f_of_Z 120) (f_of_Z 30) (f_of_Z 250) (f_of_Z 150) (f_of_Z 300) 3
       (f_of_Z 1800) true).

(** ** Clamping *)

(** auto/policy.py: _clamp_non_negative_value *)
Definition clamp_non_negative_value (value : float) : float :=
  if (value >=? f0)%F then value else f0.

(** auto/policy.py: AutoStopEwmaPolicy._clamp_fraction *)
Definition clamp_fraction (value dflt : float) : float :=
  if ((f0 <? value)%F && (value <=? f1)%F)%bool then value else dflt.

(** auto/policy.py: AutoPolicy._clamp_percentage *)
Definition clamp_percentage (value : float) : float :=
  if ((f0 <=? value)%F && (value <=? f_of_Z 100)%F)%bool then value
  else fmin (f_of_Z 100) (fmax f0 value).

(** auto/policy.py: AutoPhasePolicy._clamp_non_negative_int *)
Definition clamp_non_negative_int (value : Z) : Z := if 0 <=? value then value else 0.

(** auto/policy.py: AutoThresholdProfile.clamp *)
Definition clamp_profile (p : AutoThresholdProfile) : AutoThresholdProfile :=
  if (p.(stop_surplus_watts) <=? p.(start_surplus_watts))%F then p
  else p <| stop_surplus_watts := p.(start_surplus_watts) |>.

(** auto/policy.py: AutoStopEwmaPolicy.clamp *)
Definition clamp_ewma (p : AutoStopEwmaPolicy) : AutoStopEwmaPolicy :=
  let p := p <| base_alpha := clamp_fraction p.(base_alpha) (fdec 35 100) |>
             <| stable_alpha := clamp_fraction p.(stable_alpha) (fdec 55 100) |>
             <| volatile_alpha := clamp_fraction p.(volatile_alpha) (fdec 15 100) |> in
  let p := if (p.(volatility_low_watts) <? f0)%F then p <| volatility_low_watts := f0 |> else p in
  let p := if (p.(volatility_high_watts) <? f0)%F then p <| volatility_high_watts := f0 |> else p in
  if (p.(volatility_high_watts) <? p.(volatility_low_watts))%F
  then p <| volatility_high_watts := p.(volatility_low_watts) |> else p.

(** auto/policy.py: AutoLearnChargePowerPolicy.clamp *)
Definition clamp_learn (p : AutoLearnChargePowerPolicy) : AutoLearnChargePowerPolicy :=
  let p := if (p.(alcp_reference_power_watts) <=? f0)%F
           then p <| alcp_reference_power_watts := f_of_Z 1900 |> else p in
  p <| alcp_min_watts := clamp_non_negative_value p.(alcp_min_watts) |>
    <| alcp_alpha := clamp_fraction p.(alcp_alpha) (fdec 2 10) |>
    <| alcp_start_delay_seconds := clamp_non_negative_value p.(alcp_start_delay_seconds) |>
    <| alcp_window_seconds := clamp_non_negative_value p.(alcp_window_seconds) |>
    <| alcp_max_age_seconds := clamp_non_negative_value p.(alcp_max_age_seconds) |>.

(** auto/policy.py: AutoPhasePolicy.clamp *)
Definition clamp_phase (p : AutoPhasePolicy) : AutoPhasePolicy :=
  p <| app_upshift_delay_seconds := clamp_non_negative_value p.(app_upshift_delay_seconds) |>
    <| app_downshift_delay_seconds := clamp_non_negative_value p.(app_downshift_delay_seconds) |>
    <| app_upshift_headroom_watts := clamp_non_negative_value p.(app_upshift_headroom_watts) |>
    <| app_downshift_margin_watts := clamp_non_negative_value p.(app_downshift_margin_watts) |>
    <| app_mismatch_retry_seconds := clamp_non_negative_value p.(app_mismatch_retry_seconds) |>
    <| app_mismatch_lockout_count := clamp_non_negative_int p.(app_mismatch_lockout_count) |>
    <| app_mismatch_lockout_seconds := clamp_non_negative_value p.(app_mismatch_lockout_seconds) |>.

(** auto/policy.py: AutoPolicy.clamp *)
Definition clamp (p : AutoPolicy) : AutoPolicy :=
  let p := p <| min_soc := clamp_percentage p.(min_soc) |>
             <| resume_soc := clamp_percentage p.(resume_soc) |>
             <| ev_priority_soc := clamp_percentage p.(ev_priority_soc) |>
             <| ev_priority_release_soc := clamp_percentage p.(ev_priority_release_soc) |>
             <| high_soc_threshold := clamp_percentage p.(high_soc_threshold) |>
             <| high_soc_release_threshold := clamp_percentage p.(high_soc_release_threshold) |> in
  let p := if (p.(high_soc_release_threshold) >? p.(high_soc_threshold))%F
           then p <| high_soc_release_threshold := p.(high_soc_threshold) |> else p in
  let p := if (p.(resume_soc) <? p.(min_soc))%F then p <| resume_soc := p.(min_soc) |> else p in
  let p := if (p.(ev_priority_release_soc) >? p.(ev_priority_soc))%F
           then p <| ev_priority_release_soc := p.(ev_priority_soc) |> else p in
  p <| grid_recovery_start_seconds := clamp_non_negative_value p.(grid_recovery_start_seconds) |>
    <| stop_surplus_delay_seconds := clamp_non_negative_value p.(stop_surplus_delay_seconds) |>
    <| normal_profile := clamp_profile p.(normal_profile) |>
    <| high_soc_profile := clamp_profile p.(high_soc_profile) |>
    <| ewma := clamp_ewma p.(ewma) |>
    <| learn_charge_power := clamp_learn p.(learn_charge_power) |>
    <| phase := clamp_phase p.(phase) |>.

(** ** Choices *)

(** auto/policy.py: AutoStopEwmaPolicy.adaptive_alpha *)
Definition adaptive_alpha (p : AutoStopEwmaPolicy) (volatility : option float)
    : float * string * option float :=
  match volatility with
  | None => (p.(base_alpha), "base", None)
  | Some v =>
    if (v <=? p.(volatility_low_watts))%F then (p.(stable_alpha), "stable", Some v)
    else if (v >=? p.(volatility_high_watts))%F then (p.(volatile_alpha), "volatile", Some v)
    else (p.(base_alpha), "medium", Some v)
  end.

(** auto/policy.py: AutoPolicy._resolved_high_soc_active *)
Definition resolved_high_soc_active (p : AutoPolicy) (soc : float) (was_active : option bool) : bool :=
  match was_active with
  | None => (soc >? p.(high_soc_threshold))%F
  | Some true => (soc >=? p.(high_soc_release_threshold))%F
  | Some false => (soc >? p.(high_soc_threshold))%F
  end.

(** auto/policy.py: AutoPolicy.resolve_threshold_profile *)
Definition resolve_threshold_profile (p : AutoPolicy) (soc : float) (was_active : option bool)
    : AutoThresholdProfile * bool * string :=
  if resolved_high_soc_active p soc was_active
  then (p.(high_soc_profile), true, "high-soc")
  else (p.(normal_profile), false, "normal").

(** ** Writable settings *)

(** auto/policy_settings.py: PolicyValue *)
Inductive policy_value := PBool (b : bool) | PFloat (f : float) | PInt (n : Z).

(** auto/policy_settings.py: PolicyValueKind *)
Inductive value_kind := KBool | KFloat | KInt.

(** auto/policy_settings.py: AutoPolicySetting *)
Record AutoPolicySetting := mkSetting {
  st_target : string; st_config_key : string; st_kind : value_kind;
  st_getter : AutoPolicy -> policy_value; st_setter : AutoPolicy -> policy_value -> AutoPolicy }.

Definition float_setting (target key : string) (get : AutoPolicy -> float)
    (set : AutoPolicy -> float -> AutoPolicy) : AutoPolicySetting :=
  mkSetting target key KFloat (fun p => PFloat (get p))
    (fun p v => match v with PFloat f => set p f | _ => p end).
Definition bool_setting (target key : string) (get : AutoPolicy -> bool)
    (set : AutoPolicy -> bool -> AutoPolicy) : AutoPolicySetting :=
  mkSetting target key KBool (fun p => PBool (get p))
    (fun p v => match v with PBool b => set p b | _ => p end).
Definition int_setting (target key : string) (get : AutoPolicy -> Z)
    (set : AutoPolicy -> Z -> AutoPolicy) : AutoPolicySetting :=
  mkSetting target key KInt (fun p => PInt (get p))
    (fun p v => match v with PInt n => set p n | _ => p end).

(** auto/policy_settings.py: _scalar_input *)
Definition scalar_input (value : pyval) : res pyval :=
  match value with VBool _ | VFloat _ | VInt _ | VStr _ => Ok value | _ => Err TypeError end.

(** auto/policy_settings.py: AutoPolicySetting.normalize *)
Definition setting_normalize (st : AutoPolicySetting) (raw_value : pyval) : res policy_value :=
  scalar ← scalar_input raw_value;
  match st.(st_kind) with
  | KBool => n ← py_int scalar; mret (PBool (0 <? n))
  | KInt => n ← py_int scalar; mret (PInt n)
  | KFloat => x ← py_float scalar; mret (PFloat x)
  end.

(** auto/policy_settings.py: AutoPolicySetting.read *)
Definition setting_read (st : AutoPolicySetting) (p : AutoPolicy) : policy_value :=
  match st.(st_getter) p with PBool b => PInt (if b then 1 else 0) | v => v end.

(** auto/policy_settings.py: AutoPolicySetting.update *)
Definition setting_update (st : AutoPolicySetting) (raw_value : pyval) : M AutoPolicy policy_value :=
  value ← lift (setting_normalize st raw_value);
  modify (fun p => clamp (st.(st_setter) p value));;
  gets (setting_read st).

(** auto/policy_settings.py: AUTO_POLICY_SETTINGS *)
Definition AUTO_POLICY_SETTINGS : list AutoPolicySetting :=
  [float_setting "auto_start_surplus_watts" "AutoStartSurplusWatts"
     (fun p => p.(normal_profile).(start_surplus_watts))
     (fun p v => p <| normal_profile := p.(normal_profile) <| start_surplus_watts := v |> |>);
   float_setting "auto_stop_surplus_watts" "AutoStopSurplusWatts"
     (fun p => p.(normal_profile).(stop_surplus_watts))
     (fun p v => p <| normal_profile := p.(normal_profile) <| stop_surplus_watts := v |> |>);
   float_setting "auto_min_soc" "AutoMinSoc"
     (fun p => p.(min_soc))
     (fun p v => p <| min_soc := v |>);
   float_setting "auto_resume_soc" "AutoResumeSoc"
     (fun p => p.(resume_soc))
     (fun p v => p <| resume_soc := v |>);
   float_setting "auto_grid_recovery_start_seconds" "AutoGridRecoveryStartSeconds"
     (fun p => p.(grid_recovery_start_seconds))
     (fun p v => p <| grid_recovery_start_seconds := v |>);
   float_setting "auto_stop_surplus_delay_seconds" "AutoStopSurplusDelaySeconds"
     (fun p => p.(stop_surplus_delay_seconds))
     (fun p v => p <| stop_surplus_delay_seconds := v |>);
   float_setting "auto_stop_surplus_volatility_low_watts" "AutoStopSurplusVolatilityLowWatts"
     (fun p => p.(ewma).(volatility_low_watts))
     (fun p v => p <| ewma := p.(ewma) <| volatility_low_watts := v |> |>);
   float_setting "auto_stop_surplus_volatility_high_watts" "AutoStopSurplusVolatilityHighWatts"
     (fun p => p.(ewma).(volatility_high_watts))
     (fun p v => p <| ewma := p.(ewma) <| volatility_high_watts := v |> |>);
   float_setting "auto_reference_charge_power_watts" "AutoReferenceChargePowerWatts"
     (fun p => p.(learn_charge_power).(alcp_reference_power_watts))
     (fun p v => p <| learn_charge_power := p.(learn_charge_power) <| alcp_reference_power_watts := v |> |>);
   bool_setting "auto_learn_charge_power_enabled" "AutoLearnChargePower"
     (fun p => p.(learn_charge_power).(alcp_enabled))
     (fun p v => p <| learn_charge_power := p.(learn_charge_power) <| alcp_enabled := v |> |>);
   float_setting "auto_learn_charge_power_min_watts" "AutoLearnChargePowerMinWatts"
     (fun p => p.(learn_charge_power).(alcp_min_watts))
     (fun p v => p <| learn_charge_power := p.(learn_charge_power) <| alcp_min_watts := v |> |>);
   float_setting "auto_learn_charge_power_alpha" "AutoLearnChargePowerAlpha"
     (fun p => p.(learn_charge_power).(alcp_alpha))
     (fun p v => p <| learn_charge_power := p.(learn_charge_power) <| alcp_alpha := v |> |>);
   float_setting "auto_learn_charge_power_start_delay_seconds" "AutoLearnChargePowerStartDelaySeconds"
     (fun p => p.(learn_charge_power).(alcp_start_delay_seconds))
     (fun p v => p <| learn_charge_power := p.(learn_charge_power) <| alcp_start_delay_seconds := v |> |>);
   float_setting "auto_learn_charge_power_window_seconds" "AutoLearnChargePowerWindowSeconds"
     (fun p => p.(learn_charge_power).(alcp_window_seconds))
     (fun p v => p <| learn_charge_power := p.(learn_charge_power) <| alcp_window_seconds := v |> |>);
   float_setting "auto_learn_charge_power_max_age_seconds" "AutoLearnChargePowerMaxAgeSeconds"
     (fun p => p.(learn_charge_power).(alcp_max_age_seconds))
     (fun p v => p <| learn_charge_power := p.(learn_charge_power) <| alcp_max_age_seconds := v |> |>);
   bool_setting "auto_phase_switching" "AutoPhaseSwitching"
     (fun p => p.(phase).(app_enabled))
     (fun p v => p <| phase := p.(phase) <| app_enabled := v |> |>);
   bool_setting "auto_phase_prefer_lowest_when_idle" "AutoPhasePreferLowestWhenIdle"
     (fun p => p.(phase).(app_prefer_lowest_phase_when_idle))
     (fun p v => p <| phase := p.(phase) <| app_prefer_lowest_phase_when_idle := v |> |>);
   float_setting "auto_phase_upshift_delay_seconds" "AutoPhaseUpshiftDelaySeconds"
     (fun p => p.(phase).(app_upshift_delay_seconds))
     (fun p v => p <| phase := p.(phase) <| app_upshift_delay_seconds := v |> |>);
   float_setting "auto_phase_downshift_delay_seconds" "AutoPhaseDownshiftDelaySeconds"
     (fun p => p.(phase).(app_downshift_delay_seconds))
     (fun p v => p <| phase := p.(phase) <| app_downshift_delay_seconds := v |> |>);
   float_setting "auto_phase_upshift_headroom_watts" "AutoPhaseUpshiftHeadroomWatts"
     (fun p => p.(phase).(app_upshift_headroom_watts))
     (fun p v => p <| phase := p.(phase) <| app_upshift_headroom_watts := v |> |>);
   float_setting "auto_phase_downshift_margin_watts" "AutoPhaseDownshiftMarginWatts"
     (fun p => p.(phase).(app_downshift_margin_watts))
     (fun p v => p <| phase := p.(phase) <| app_downshift_margin_watts := v |> |>);
   float_setting "auto_phase_mismatch_retry_seconds" "AutoPhaseMismatchRetrySeconds"
     (fun p => p.(phase).(app_mismatch_retry_seconds))
     (fun p v => p <| phase := p.(phase) <| app_mismatch_retry_seconds := v |> |>);
   int_setting "auto_phase_mismatch_lockout_count" "AutoPhaseMismatchLockoutCount"
     (fun p => p.(phase).(app_mismatch_lockout_count))
     (fun p v => p <| phase := p.(phase) <| app_mismatch_lockout_count := v |> |>);
   float_setting "auto_phase_mismatch_lockout_seconds" "AutoPhaseMismatchLockoutSeconds"
     (fun p => p.(phase).(app_mismatch_lockout_seconds))
     (fun p v => p <| phase := p.(phase) <| app_mismatch_lockout_seconds := v |> |>)].

(** auto/policy_settings.py: auto_policy_control_values *)
Definition auto_policy_control_values (p : AutoPolicy) : list (string * policy_value) :=
  map (fun st => (st.(st_target), setting_read st p)) AUTO_POLICY_SETTINGS.

(** ** Facts *)

Definition percentage (x : float) : Prop := (f0 <=? x)%F = true /\ (x <=? f_of_Z 100)%F = true.
Definition fraction (x : float) : Prop := (f0 <? x)%F = true /\ (x <=? f1)%F = true.
Definition nonnegative (x : float) : Prop := (f0 <=? x)%F = true.

(** [not_above x y]: [x] does not exceed [y]; a NaN never does. *)
Definition not_above (x y : float) : Prop := (y <? x)%F = false.

Definition profile_valid (p : AutoThresholdProfile) : Prop :=
  not_above p.(stop_surplus_watts) p.(start_surplus_watts).

Record ewma_valid (p : AutoStopEwmaPolicy) : Prop := {
  ev_base : fraction p.(base_alpha);
  ev_stable : fraction p.(stable_alpha);
  ev_volatile : fraction p.(volatile_alpha);
  ev_low : not_above f0 p.(volatility_low_watts);
  ev_high : not_above f0 p.(volatility_high_watts);
  ev_order : not_above p.(volatility_low_watts) p.(volatility_high_watts) }.

Record learn_valid (p : AutoLearnChargePowerPolicy) : Prop := {
  lv_reference : (p.(alcp_reference_power_watts) <=? f0)%F = false;
  lv_min : nonnegative p.(alcp_min_watts);
  lv_alpha : fraction p.(alcp_alpha);
  lv_start : nonnegative p.(alcp_start_delay_seconds);
  lv_window : nonnegative p.(alcp_window_seconds);
  lv_age : nonnegative p.(alcp_max_age_seconds) }.

Record phase_valid (p : AutoPhasePolicy) : Prop := {
  pv_up : nonnegative p.(app_upshift_delay_seconds);
  pv_down : nonnegative p.(app_downshift_delay_seconds);
  pv_headroom : nonnegative p.(app_upshift_headroom_watts);
  pv_margin : nonnegative p.(app_downshift_margin_watts);
  pv_retry : nonnegative p.(app_mismatch_retry_seconds);
  pv_count : 0 <= p.(app_mismatch_lockout_count);
  pv_lockout : nonnegative p.(app_mismatch_lockout_seconds) }.

(** A policy the Auto mode can run on. *)
Record policy_valid (p : AutoPolicy) : Prop := {
  val_min : percentage p.(min_soc);
  val_resume : percentage p.(resume_soc);
  val_hysteresis : not_above p.(min_soc) p.(resume_soc);
  val_priority : percentage p.(ev_priority_soc);
  val_priority_release : percentage p.(ev_priority_release_soc);
  val_priority_order : not_above p.(ev_priority_release_soc) p.(ev_priority_soc);
  val_high : percentage p.(high_soc_threshold);
  val_high_release : percentage p.(high_soc_release_threshold);
  val_high_order : not_above p.(high_soc_release_threshold) p.(high_soc_threshold);
  val_recovery : nonnegative p.(grid_recovery_start_seconds);
  val_stop_delay : nonnegative p.(stop_surplus_delay_seconds);
  val_normal : profile_valid p.(normal_profile);
  val_high_profile : profile_valid p.(high_soc_profile);
  val_ewma : ewma_valid p.(ewma);
  val_learn : learn_valid p.(learn_charge_power);
  val_phase : phase_valid p.(phase) }.

Lemma not_above_refl x : not_above x x.
Proof. apply flt_irrefl. Qed.

Lemma clamp_percentage_range x : percentage (clamp_percentage x).
Proof.
  unfold clamp_percentage. destruct ((f0 <=? x)%F && (x <=? f_of_Z 100)%F)%bool eqn:E.
  { by apply andb_true_iff in E. }
  assert ((f0 <=? f_of_Z 100)%F = true) as H100 by (vm_compute; reflexivity).
  assert (percentage (f_of_Z 100) /\ percentage f0) as [Hh H0] by (split; split; vm_compute; reflexivity).
  unfold fmin, fmax. destruct (f0 <? x)%F eqn:Hx.
  - destruct (x <? f_of_Z 100)%F eqn:Hlt; [|done].
    by rewrite (flt_fle _ _ Hx), (flt_fle _ _ Hlt) in E.
  - destruct (f0 <? f_of_Z 100)%F; done.
Qed.

Lemma clamp_percentage_id x : percentage x -> clamp_percentage x = x.
Proof. intros [H1 H2]. unfold clamp_percentage. by rewrite H1, H2. Qed.

Lemma clamp_non_negative_nonnegative x : nonnegative (clamp_non_negative_value x).
Proof. unfold clamp_non_negative_value, nonnegative. by destruct (f0 <=? x)%F eqn:E. Qed.

Lemma clamp_non_negative_id x : nonnegative x -> clamp_non_negative_value x = x.
Proof. unfold clamp_non_negative_value, nonnegative. by intros ->. Qed.

Lemma clamp_fraction_range x d : fraction d -> fraction (clamp_fraction x d).
Proof.
  intros Hd. unfold clamp_fraction. destruct (_ && _)%bool eqn:E; [|done]. by apply andb_true_iff in E.
Qed.

Lemma clamp_fraction_id x d : fraction x -> clamp_fraction x d = x.
Proof. intros [H1 H2]. unfold clamp_fraction. by rewrite H1, H2. Qed.

#[local] Hint Resolve clamp_percentage_range clamp_non_negative_nonnegative not_above_refl : core.

Lemma clamp_profile_valid p : profile_valid (clamp_profile p).
Proof.
  unfold clamp_profile, profile_valid, not_above. destruct (_ <=? _)%F eqn:E; [by apply fle_not_flt|].
  cbn. apply flt_irrefl.
Qed.

Lemma clamp_ewma_valid p : ewma_valid (clamp_ewma p).
Proof.
  destruct p as [b s v lo hi]. unfold clamp_ewma. cbn.
  assert (forall x n d, fraction (fdec n d) -> fraction (clamp_fraction x (fdec n d))) as Hf
    by (intros; by apply clamp_fraction_range).
  assert (fraction (fdec 35 100) /\ fraction (fdec 55 100) /\ fraction (fdec 15 100)) as (H1 & H2 & H3)
    by (split_and!; split; vm_compute; reflexivity).
  assert (isnan f0 = false) as Hn by done.
  destruct (lo <? f0)%F eqn:Elo; cbn; destruct (hi <? f0)%F eqn:Ehi; cbn;
    repeat match goal with |- context [if (?a <? ?b)%F then _ else _] => destruct (a <? b)%F eqn:? end;
    split; cbn; auto; unfold not_above; try apply flt_irrefl; congruence.
Qed.

Lemma clamp_learn_valid p : learn_valid (clamp_learn p).
Proof.
  assert (fraction (fdec 2 10)) as Ha by (split; vm_compute; reflexivity).
  unfold clamp_learn. destruct (_ <=? f0)%F eqn:E; split; cbn;
    auto using clamp_fraction_range; vm_compute; reflexivity.
Qed.

Lemma clamp_phase_valid p : phase_valid (clamp_phase p).
Proof. split; cbn; auto. unfold clamp_non_negative_int. destruct (0 <=? _) eqn:E; lia. Qed.

(** Lowering a percentage to another one, or raising it, leaves a percentage. *)
Lemma clamp_valid p : policy_valid (clamp p).
Proof.
  unfold clamp. set (q := p <| min_soc := _ |> <| resume_soc := _ |> <| ev_priority_soc := _ |>
    <| ev_priority_release_soc := _ |> <| high_soc_threshold := _ |>
    <| high_soc_release_threshold := _ |>).
  assert (percentage q.(min_soc) /\ percentage q.(resume_soc) /\ percentage q.(ev_priority_soc) /\
    percentage q.(ev_priority_release_soc) /\ percentage q.(high_soc_threshold) /\
    percentage q.(high_soc_release_threshold)) as (H1 & H2 & H3 & H4 & H5 & H6) by (cbn; auto 10).
  generalize dependent q. intros q. destruct q; cbn. intros.
  repeat match goal with
  | |- context [if (?a <? ?b)%F then _ else _] => destruct (a <? b)%F eqn:?; cbn
  end; split; cbn; auto using clamp_profile_valid, clamp_ewma_valid, clamp_learn_valid, clamp_phase_valid.
Qed.

Lemma clamp_profile_twice p : clamp_profile (clamp_profile p) = clamp_profile p.
Proof.
  destruct p as [a b]. unfold clamp_profile at 2 3. cbn.
  destruct (b <=? a)%F eqn:E; unfold clamp_profile; cbn; [by rewrite E | by destruct (a <=? a)%F].
Qed.

Lemma clamp_ewma_id p : ewma_valid p -> clamp_ewma p = p.
Proof.
  destruct p as [b s v lo hi]. intros [H1 H2 H3 H4 H5 H6]. unfold clamp_ewma, not_above in *. cbn in *.
  rewrite !clamp_fraction_id by done. rewrite H4. cbn. rewrite H5. cbn. by rewrite H6.
Qed.

Lemma clamp_learn_id p : learn_valid p -> clamp_learn p = p.
Proof.
  intros [H1 H2 H3 H4 H5 H6]. unfold clamp_learn. rewrite H1, !clamp_non_negative_id, clamp_fraction_id by done.
  by destruct p.
Qed.

Lemma clamp_phase_id p : phase_valid p -> clamp_phase p = p.
Proof.
  intros [H1 H2 H3 H4 H5 H6 H7]. unfold clamp_phase. rewrite !clamp_non_negative_id by done.
  unfold clamp_non_negative_int. rewrite (proj2 (Z.leb_le _ _) H6). by destruct p.
Qed.

(** A valid policy is left alone, apart from profiles that hold a NaN. *)
Lemma clamp_id p :
  policy_valid p -> clamp_profile p.(normal_profile) = p.(normal_profile) ->
  clamp_profile p.(high_soc_profile) = p.(high_soc_profile) -> clamp p = p.
Proof.
  intros [] Hn Hh. destruct p; cbn in *. unfold clamp, not_above in *. cbn.
  rewrite !clamp_percentage_id by done. rewrite val_high_order0. cbn. rewrite val_hysteresis0. cbn.
  rewrite val_priority_order0. cbn. rewrite !clamp_non_negative_id, Hn, Hh by done.
  by rewrite clamp_ewma_id, clamp_learn_id, clamp_phase_id.
Qed.

Lemma clamp_profiles p :
  normal_profile (clamp p) = clamp_profile p.(normal_profile) /\
  high_soc_profile (clamp p) = clamp_profile p.(high_soc_profile).
Proof.
  unfold clamp. destruct p; cbn. split.
  all: repeat match goal with
  | |- context [if (?a <? ?b)%F then _ else _] => destruct (a <? b)%F; cbn
  end; done.
Qed.

(** Clamping repairs every policy, whatever floats it holds (NaN and infinities
    included): percentages end in 0..100, release thresholds do not exceed their
    activation thresholds, the resume level is not below the minimum, delays are not
    negative, smoothing factors lie in (0, 1] and stop thresholds do not exceed start
    thresholds.  A policy that was clamped is not changed by clamping it again. *)
Theorem clamp_repairs_every_policy p :
  policy_valid (clamp p) /\ clamp (clamp p) = clamp p.
Proof.
  split; [apply clamp_valid|]. apply clamp_id; [apply clamp_valid | |];
    destruct (clamp_profiles p) as [Hn Hh]; rewrite ?Hn, ?Hh; apply clamp_profile_twice.
Qed.

(** A setting reads what was written to it, and nothing else has the type of its kind. *)
Definition setting_lens (st : AutoPolicySetting) : Prop :=
  forall p v,
    match st.(st_kind), v with
    | KBool, PBool _ | KFloat, PFloat _ | KInt, PInt _ => st.(st_getter) (st.(st_setter) p v) = v
    | _, _ => True
    end.

Lemma settings_lens : Forall setting_lens AUTO_POLICY_SETTINGS.
Proof. repeat constructor; intros p [b|x|n]; done. Qed.

Lemma normalize_kind st raw v :
  setting_normalize st raw = Ok v ->
  match st.(st_kind), v with KBool, PBool _ | KFloat, PFloat _ | KInt, PInt _ => True | _, _ => False end.
Proof.
  unfold setting_normalize. destruct (scalar_input raw) as [x|]; [|done]. cbn [mbind res_bind].
  destruct (st_kind st); [destruct (py_int x) | destruct (py_float x) | destruct (py_int x)];
    by intros [= <-].
Qed.

(** Writing any of the settings from outside either raises and changes nothing, or
    leaves a valid policy and reports its value after clamping; when the policy with
    the new value needs no clamping, that is exactly the written value. *)
Theorem settings_keep_policy_valid st raw p :
  st ∈ AUTO_POLICY_SETTINGS ->
  match setting_update st raw p with
  | (Err e, p') => p' = p /\ setting_normalize st raw = Err e
  | (Ok v, p') =>
    policy_valid p' /\ v = setting_read st p' /\
    exists value, setting_normalize st raw = Ok value /\ p' = clamp (st.(st_setter) p value) /\
      (p' = st.(st_setter) p value ->
       v = match value with PBool b => PInt (if b then 1 else 0) | _ => value end)
  end.
Proof.
  intros Hst. unfold setting_update, lift, mbind, M_bind, modify, gets.
  destruct (setting_normalize st raw) as [value|e] eqn:Hv; [|done].
  split; [apply clamp_valid|]. split; [done|]. exists value. split_and!; [done | done|]. intros ->.
  pose proof settings_lens as Hall. rewrite Forall_forall in Hall. specialize (Hall st Hst p value).
  apply normalize_kind in Hv. unfold setting_read.
  by destruct (st_kind st), value; rewrite ?Hall.
Qed.

(** The high-SOC profile switches with hysteresis: on a valid policy it is on above
    the activation threshold and off below the release threshold whatever it was
    before, and between the two it stays as it is. *)
Theorem high_soc_profile_has_hysteresis p soc was :
  policy_valid p -> isnan soc = false ->
  let '(profile, active, name) := resolve_threshold_profile p soc (Some was) in
  ((soc >? p.(high_soc_threshold))%F = true -> active = true) /\
  ((soc <? p.(high_soc_release_threshold))%F = true -> active = false) /\
  ((soc >? p.(high_soc_threshold))%F = false -> (soc <? p.(high_soc_release_threshold))%F = false ->
   active = was) /\
  profile = (if active then p.(high_soc_profile) else p.(normal_profile)).
Proof.
  intros Hp Hsoc. destruct Hp as [_ _ _ _ _ _ [Hh _] [Hr _] Ho _ _ _ _ _ _ _].
  unfold resolve_threshold_profile, resolved_high_soc_active. unfold not_above in Ho.
  set (h := high_soc_threshold p) in *. set (r := high_soc_release_threshold p) in *. clearbody h r.
  destruct was.
  - destruct (r <=? soc)%F eqn:E; split_and!; try done; intros; try forder.
  - destruct (h <? soc)%F eqn:E; split_and!; try done; intros; try forder.
Qed.

(** ** Witnesses *)

Lemma default_policy_valid : policy_valid default_policy.
Proof. repeat split; vm_compute; done. Qed.

Lemma settings_keep_policy_valid_witness :
  exists st, st ∈ AUTO_POLICY_SETTINGS /\ st.(st_target) = "auto_min_soc" /\
    fst (setting_update st (VStr "140") default_policy) = Ok (PFloat (f_of_Z 100)) /\
    policy_valid (snd (setting_update st (VStr "140") default_policy)).
Proof.
  assert (exists st, AUTO_POLICY_SETTINGS !! 2%nat = Some st) as [st Hst] by (eexists; reflexivity).
  exists st. pose proof (list_elem_of_lookup_2 _ _ _ Hst) as Hin.
  pose proof (settings_keep_policy_valid st (VStr "140") default_policy Hin) as H.
  injection Hst as <-.
  split; [exact Hin|]. split; [reflexivity|]. split; [vm_compute; reflexivity|].
  destruct (setting_update _ _ _) as [[v|e] p'] eqn:E; [apply H|].
  exfalso. vm_compute in E. discriminate E.
Defined.

Lemma high_soc_profile_has_hysteresis_witness :
  snd (fst (resolve_threshold_profile default_policy (f_of_Z 50) (Some true))) = true /\
  snd (fst (resolve_threshold_profile default_policy (f_of_Z 50) (Some false))) = false.
Proof.
  pose proof (high_soc_profile_has_hysteresis default_policy (f_of_Z 50) true default_policy_valid eq_refl)
    as (_ & _ & H1 & _).
  pose proof (high_soc_profile_has_hysteresis default_policy (f_of_Z 50) false default_policy_valid eq_refl)
    as (_ & _ & H2 & _).
  split; [apply H1 | apply H2]; vm_compute; reflexivity.
Defined.
