(* ===== verification/Schedule.v ===== *)
(** * The scheduled mode

    [core/common_schedule.py]: weekday selections, clock times, and the snapshot that
    decides when the scheduled mode charges at night.  A local [datetime] is the
    number of microseconds of the proleptic Gregorian calendar, a [date] its ordinal
    (1 January of year 1 is day 1); results outside the years 1 to 9999 are errors. *)

From S2P Require Import Prelude PyFloat PyValue Contracts.

(** ** Dates and times *)

Definition DAY_US : Z := 86400 * 1000000.
Definition MINUTE_US : Z := 60 * 1000000.

Abbreviation date := Z (only parsing).
Abbreviation datetime := Z (only parsing).

(** [when.date()], [when.hour * 60 + when.minute], [date.weekday()]. *)
Definition date_of (t : datetime) : date := t / DAY_US.
Definition minutes_of (t : datetime) : Z := (t mod DAY_US) / MINUTE_US.
Definition weekday (d : date) : Z := (d + 6) mod 7.

(** [date.month] of an ordinal (1 January of year 1 is day 1), by 400-year eras. *)
Definition month_of (d : date) : Z :=
  let z := d + 305 in
  let doe := z mod 146097 in
  let yoe := (doe - doe / 1460 + doe / 36524 - doe / 146096) / 365 in
  let doy := doe - (365 * yoe + yoe / 4 - yoe / 100) in
  let mp := (5 * doy + 2) / 153 in
  if mp <? 10 then mp + 3 else mp - 9.

(** [datetime(y, m, d, hour, minute)] for a date; the constructor raises outside the day. *)
Definition datetime_at (d : date) (minute_of_day : Z) : res datetime :=
  if (0 <=? minute_of_day) && (minute_of_day <? 1440)
  then Ok (d * DAY_US + minute_of_day * MINUTE_US) else Err ValueError.

(** [date.max.toordinal()], 31 December 9999. *)
Definition MAX_ORDINAL : Z := 3652059.

(** The result of [date + timedelta] and of [datetime + timedelta]. *)
Definition checked_date (d : date) : res date :=
  if (1 <=? d) && (d <=? MAX_ORDINAL) then Ok d else Err OverflowError.
Definition checked_datetime (t : datetime) : res datetime :=
  _ ← checked_date (date_of t); mret t.

(** Rounding of a float to the nearest integer, ties to even. *)
Definition round_half_even (x : float) : Z :=
  match x with
  | S754_finite s m e =>
    if e <? 0 then
      let d := 2 ^ (- e) in
      let q := Z.pos m / d in
      let r := Z.pos m mod d in
      let n := if (2 * r <? d) || ((2 * r =? d) && Z.even q) then q else q + 1 in
      if s then - n else n
    else ftrunc x
  | _ => 0
  end.

(** The days of a [timedelta] have at most nine digits. *)
Definition MAX_DELTA_DAYS : Z := 999999999.
Definition checked_timedelta (us : Z) : res Z :=
  if (- MAX_DELTA_DAYS <=? us / DAY_US) && (us / DAY_US <=? MAX_DELTA_DAYS) then Ok us else Err OverflowError.

(** [timedelta(seconds=x)] in microseconds: the whole seconds exactly, the fraction
    rounded to microseconds. *)
Definition timedelta_seconds (x : float) : res Z :=
  match x with
  | S754_nan => Err ValueError
  | S754_infinity _ => Err OverflowError
  | _ =>
    let whole := ftrunc x in
    checked_timedelta (whole * 1000000 + round_half_even ((x - f_of_Z whole) * f_of_Z 1000000)%F)
  end.

(** ** Clock times *)

(** core/common_types.py: TimeWindow *)
Abbreviation time_window := (Z * Z)%type (only parsing).
Abbreviation month_windows := (list (Z * (time_window * time_window))) (only parsing).

(** core/common_schedule.py: parse_hhmm *)
Definition parse_hhmm (value : pyval) (fallback : time_window) : time_window :=
  match py_split ":" (py_strip (py_str value)) with
  | [hour_text; minute_text] =>
    match int_of_text hour_text, int_of_text minute_text with
    | Ok hour, Ok minute =>
      if (0 <=? hour) && (hour <=? 23) && (0 <=? minute) && (minute <=? 59)
      then (hour, minute) else fallback
    | _, _ => fallback
    end
  | _ => fallback
  end.

(** [f"{n:02d}"] of a number below 100. *)
Definition two_digits (n : Z) : string :=
  String (ascii_of_N (Z.to_N (48 + n / 10))) (String (ascii_of_N (Z.to_N (48 + n mod 10))) "").

(** core/common_schedule.py: normalize_hhmm_text *)
Definition normalize_hhmm_text (value : pyval) (fallback : option string) : string :=
  let fallback_window :=
    match fallback with None => (6, 30) | Some t => parse_hhmm (VStr t) (6, 30) end in
  let '(hour, minute) := parse_hhmm value fallback_window in
  (two_digits hour ++ ":" ++ two_digits minute)%string.

(** [windows.get(month, default)] *)
Definition month_get (month : Z) (windows : month_windows) (dflt : time_window * time_window)
    : time_window * time_window :=
  match find (fun kv => fst kv =? month) windows with Some kv => snd kv | None => dflt end.

(** core/common_schedule.py: _window_minutes_for_date *)
Definition window_minutes_for_date (d : date) (windows : month_windows) : Z * Z :=
  let '((start_hour, start_minute), (end_hour, end_minute)) :=
    month_get (month_of d) windows ((8, 0), (18, 0)) in
  (start_hour * 60 + start_minute, end_hour * 60 + end_minute).

(** ** Weekdays *)

(** core/common_types.py: WEEKDAY_LABELS *)
Definition WEEKDAY_LABELS : list string := ["Mon"; "Tue"; "Wed"; "Thu"; "Fri"; "Sat"; "Sun"].

(** core/common_types.py: WEEKDAY_TOKEN_MAP *)
Definition WEEKDAY_TOKEN_MAP : list (string * Z) :=
  [("mon", 0); ("monday", 0); ("mo", 0); ("tue", 1); ("tues", 1); ("tuesday", 1); ("tu", 1);
   ("wed", 2); ("wednesday", 2); ("we", 2); ("thu", 3); ("thur", 3); ("thurs", 3);
   ("thursday", 3); ("th", 3); ("fri", 4); ("friday", 4); ("fr", 4); ("sat", 5);
   ("saturday", 5); ("sa", 5); ("sun", 6); ("sunday", 6); ("su", 6)].

(** core/common_types.py: DEFAULT_SCHEDULED_ENABLED_DAYS *)
Definition DEFAULT_SCHEDULED_ENABLED_DAYS : list Z := [0; 1; 2; 3; 4].

(** core/common_schedule.py: _SPECIAL_SCHEDULED_DAY_SELECTIONS *)
Definition SPECIAL_SCHEDULED_DAY_SELECTIONS : list (string * list Z) :=
  let all := [0; 1; 2; 3; 4; 5; 6] in
  [("all", all); ("daily", all); ("everyday", all); ("*", all);
   ("weekdays", DEFAULT_SCHEDULED_ENABLED_DAYS); ("weekday", DEFAULT_SCHEDULED_ENABLED_DAYS);
   ("workdays", DEFAULT_SCHEDULED_ENABLED_DAYS); ("workday", DEFAULT_SCHEDULED_ENABLED_DAYS);
   ("mon-fri", DEFAULT_SCHEDULED_ENABLED_DAYS); ("mo-fr", DEFAULT_SCHEDULED_ENABLED_DAYS);
   ("weekend", [5; 6]); ("weekends", [5; 6]); ("sat-sun", [5; 6]); ("sa-su", [5; 6])].

(** core/common_schedule.py: _weekday_text_or_empty *)
Definition weekday_text_or_empty (value : pyval) : string :=
  match value with VNone => "" | _ => py_strip (py_str value) end.

(** The separators of [str.maketrans]. *)
Definition separator_char (c : ascii) : ascii :=
  if str_in (String c "") [";"; "|"; "/"; "\"; " "] then ","%char else c.

(** core/common_schedule.py: _normalized_weekday_candidates *)
Definition normalized_weekday_candidates (value : pyval) : list string :=
  let raw_text := weekday_text_or_empty value in
  if (raw_text =? "")%string then []
  else
    filter (fun t => t <> "")
      (map py_strip (py_split "," (string_map separator_char (py_lower raw_text)))).

(** core/common_schedule.py: _normalized_weekday_tokens *)
Definition normalized_weekday_tokens (value : pyval) : list string :=
  match value with
  | VTuple items | VList items =>
    map (fun item => py_lower (py_strip (py_str item)))
      (filter (fun item => py_strip (py_str item) <> "") items)
  | _ => normalized_weekday_candidates value
  end.

(** core/common_schedule.py: _special_scheduled_day_selection *)
Definition special_scheduled_day_selection (tokens : list string) : option (list Z) :=
  match tokens with [t] => table_get t SPECIAL_SCHEDULED_DAY_SELECTIONS | _ => None end.

(** core/common_schedule.py: _append_unique_weekday *)
Definition append_unique_weekday (target : list Z) (day : Z) : list Z :=
  if decide (day ∈ target) then target else (target ++ [day])%list.

(** core/common_schedule.py: _weekday_range_bounds *)
Definition weekday_range_bounds (token : string) : option (Z * Z) :=
  match py_split "-" token with
  | [a; b] =>
    start_day ← table_get (py_strip a) WEEKDAY_TOKEN_MAP;
    end_day ← table_get (py_strip b) WEEKDAY_TOKEN_MAP;
    Some (start_day, end_day)
  | _ => None
  end.

(** core/common_schedule.py: _weekday_range_values *)
Definition weekday_range_values (start_day end_day : Z) : list Z :=
  let distance := (end_day - start_day) mod 7 in
  map (fun offset => (start_day + Z.of_nat offset) mod 7) (seq 0 (Z.to_nat (distance + 1))).

(** core/common_schedule.py: _extend_weekday_range *)
Definition extend_weekday_range (target : list Z) (token : string) : list Z :=
  match weekday_range_bounds token with
  | None => target
  | Some (a, b) => fold_left append_unique_weekday (weekday_range_values a b) target
  end.

(** core/common_schedule.py: _weekday_indices_for_token *)
Definition weekday_indices_for_token (token : string) : list Z :=
  match table_get token WEEKDAY_TOKEN_MAP with
  | Some day => [day]
  | None => extend_weekday_range [] token
  end.

(** core/common_schedule.py: _extend_normalized_weekday_selection *)
Definition extend_normalized_weekday_selection (normalized : list Z) (token : string) : list Z :=
  fold_left append_unique_weekday (weekday_indices_for_token token) normalized.

(** core/common_schedule.py: _normalized_weekday_selection *)
Definition normalized_weekday_selection (tokens : list string) (fallback : list Z) : list Z :=
  match fold_left extend_normalized_weekday_selection tokens [] with
  | [] => fallback
  | normalized => normalized
  end.

(** core/common_schedule.py: normalize_scheduled_enabled_days *)
Definition normalize_scheduled_enabled_days (value : pyval) (fallback : list Z) : list Z :=
  let tokens := normalized_weekday_tokens value in
  match tokens with
  | [] => fallback
  | _ =>
    match special_scheduled_day_selection tokens with
    | Some selection => selection
    | None => normalized_weekday_selection tokens fallback
    end
  end.

(** core/common_schedule.py: scheduled_enabled_days_text *)
Definition scheduled_enabled_days_text (value : pyval) (fallback : list Z) : string :=
  join "," (map (fun day => default "" (WEEKDAY_LABELS !! Z.to_nat day))
              (normalize_scheduled_enabled_days value fallback)).

(** ** The snapshot *)

(** core/common_types.py: SCHEDULED_STATE_CODES *)
Definition SCHEDULED_STATE_CODES : list (string * Z) :=
  [("disabled", 0); ("auto-window", 1); ("inactive-day", 2); ("waiting-fallback", 3);
   ("night-boost", 4); ("after-latest-end", 5)].

(** core/common_types.py: SCHEDULED_REASON_CODES *)
Definition SCHEDULED_REASON_CODES : list (string * Z) :=
  [("disabled", 0); ("daytime-auto", 1); ("target-day-disabled", 2);
   ("waiting-fallback-delay", 3); ("night-boost-window", 4); ("latest-end-reached", 5)].

(** The dates and times instead of the texts formatted from them.
    core/common_types.py: ScheduledModeSnapshot *)
Record ScheduledModeSnapshot := mkScheduledSnapshot {
  sn_state : string; sn_state_code : Z; sn_reason : string; sn_reason_code : Z;
  sn_night_boost_active : bool; sn_target_day_index : Z; sn_target_date : date;
  sn_target_day_enabled : bool; sn_fallback_start : datetime; sn_boost_until : datetime }.

(** core/common_schedule.py: _ScheduledSnapshotContext *)
Record ScheduledSnapshotContext := mkScheduledContext {
  sc_target_date : date; sc_target_day_index : Z; sc_target_enabled : bool;
  sc_start_minutes : Z; sc_end_minutes : Z; sc_fallback_start : datetime;
  sc_night_boost_end : datetime }.

(** core/common_schedule.py: _scheduled_target_day *)
Definition scheduled_target_day (when_ : datetime) (windows : month_windows) : res date :=
  let current_minutes := minutes_of when_ in
  let today := date_of when_ in
  let '(start_minutes, end_minutes) := window_minutes_for_date today windows in
  if (start_minutes <? end_minutes) && (end_minutes <=? current_minutes) then checked_date (today + 1) else Ok today.

(** core/common_schedule.py: _scheduled_snapshot_context *)
Definition scheduled_snapshot_context (when_ : datetime) (windows : month_windows)
    (enabled_days : pyval) (delay_seconds : float) (latest_end_time : pyval)
    : res ScheduledSnapshotContext :=
  target_date ← scheduled_target_day when_ windows;
  let target_day_index := weekday target_date in
  let enabled := normalize_scheduled_enabled_days enabled_days DEFAULT_SCHEDULED_ENABLED_DAYS in
  let '(start_minutes, end_minutes) := window_minutes_for_date target_date windows in
  previous_day ← checked_date (target_date - 1);
  let previous_end_minutes := snd (window_minutes_for_date previous_day windows) in
  previous_end ← datetime_at previous_day previous_end_minutes;
  delay ← timedelta_seconds (fmax f0 delay_seconds);
  fallback_start ← checked_datetime (previous_end + delay);
  let '(latest_end_hour, latest_end_minute) := parse_hhmm latest_end_time (6, 30) in
  latest_end ← datetime_at target_date (latest_end_hour * 60 + latest_end_minute);
  daytime_start ← datetime_at target_date start_minutes;
  mret (mkScheduledContext target_date target_day_index (bool_decide (target_day_index ∈ enabled))
          start_minutes end_minutes fallback_start (Z.min latest_end daytime_start)).

(** core/common_schedule.py: _scheduled_snapshot *)
Definition scheduled_snapshot (c : ScheduledSnapshotContext) (state reason : string)
    (target_day_enabled : bool) : res ScheduledModeSnapshot :=
  match table_get state SCHEDULED_STATE_CODES, table_get reason SCHEDULED_REASON_CODES with
  | Some state_code, Some reason_code =>
    Ok (mkScheduledSnapshot state state_code reason reason_code (state =? "night-boost")%string
          c.(sc_target_day_index) c.(sc_target_date) target_day_enabled c.(sc_fallback_start)
          c.(sc_night_boost_end))
  | _, _ => Err KeyError
  end.

(** core/common_schedule.py: _scheduled_daytime_window_active *)
Definition scheduled_daytime_window_active (when_ : datetime) (c : ScheduledSnapshotContext) : bool :=
  let current_minutes := minutes_of when_ in
  (c.(sc_start_minutes) <=? current_minutes) && (current_minutes <? c.(sc_end_minutes)) &&
  (date_of when_ =? c.(sc_target_date)).

(** core/common_schedule.py: _scheduled_post_night_state *)
Definition scheduled_post_night_state (when_ : datetime) (c : ScheduledSnapshotContext)
    : string * string :=
  if when_ <? c.(sc_fallback_start) then ("waiting-fallback", "waiting-fallback-delay")
  else if when_ <? c.(sc_night_boost_end) then ("night-boost", "night-boost-window")
  else if (date_of when_ =? c.(sc_target_date)) && (c.(sc_start_minutes) <? c.(sc_end_minutes)) &&
          (c.(sc_start_minutes) <=? minutes_of when_)
  then ("auto-window", "daytime-auto")
  else ("after-latest-end", "latest-end-reached").

(** core/common_schedule.py: scheduled_mode_snapshot *)
Definition scheduled_mode_snapshot (when_ : datetime) (windows : month_windows)
    (enabled_days : pyval) (delay_seconds : float) (latest_end_time : pyval)
    : res ScheduledModeSnapshot :=
  c ← scheduled_snapshot_context when_ windows enabled_days delay_seconds latest_end_time;
  if scheduled_daytime_window_active when_ c
  then scheduled_snapshot c "auto-window" "daytime-auto" c.(sc_target_enabled)
  else if negb c.(sc_target_enabled)
  then scheduled_snapshot c "inactive-day" "target-day-disabled" false
  else
    let '(state, reason) := scheduled_post_night_state when_ c in
    scheduled_snapshot c state reason true.

(** core/common_schedule.py: scheduled_night_window_active *)
Definition scheduled_night_window_active (when_ : datetime) (windows : month_windows)
    (delay_seconds : float) : res bool :=
  snapshot ← scheduled_mode_snapshot when_ windows
    (VTuple (map VInt DEFAULT_SCHEDULED_ENABLED_DAYS)) delay_seconds (VStr "23:59");
  mret snapshot.(sn_night_boost_active).

(** core/common_schedule.py: _month_in_range *)
Definition month_in_range (month start_month end_month : Z) : bool :=
  if start_month <=? end_month then (start_month <=? month) && (month <=? end_month)
  else (start_month <=? month) || (month <=? end_month).

(** core/common_schedule.py: month_in_ranges *)
Definition month_in_ranges (month : Z) (ranges : list (Z * Z)) : bool :=
  existsb (fun r => month_in_range month (fst r) (snd r)) ranges.

(** ** Facts *)

Definition clock_time (w : time_window) : Prop := 0 <= fst w <= 23 /\ 0 <= snd w <= 59.

Lemma parse_hhmm_clock value fallback :
  clock_time fallback -> clock_time (parse_hhmm value fallback).
Proof.
  intros Hf. unfold parse_hhmm. destruct (py_split _ _) as [|a [|b [|? ?]]]; try done.
  destruct (int_of_text a) as [h|], (int_of_text b) as [m|]; try done.
  destruct (_ && _) eqn:E; [|done]. unfold clock_time. cbn. lia.
Qed.

Lemma clock_texts :
  Forall (fun h => Forall (fun m =>
    parse_hhmm (VStr (two_digits h ++ ":" ++ two_digits m)) (99, 99) = (h, m))
    (map Z.of_nat (seq 0 60))) (map Z.of_nat (seq 0 24)).
Proof.
  assert (forallb (fun h => forallb (fun m =>
    bool_decide (parse_hhmm (VStr (two_digits h ++ ":" ++ two_digits m)) (99, 99) = (h, m)))
    (map Z.of_nat (seq 0 60))) (map Z.of_nat (seq 0 24)) = true) as H by (vm_compute; reflexivity).
  rewrite forallb_forall in H. apply Forall_forall. intros h Hh%list_elem_of_In.
  specialize (H h Hh). rewrite forallb_forall in H. apply Forall_forall.
  intros m Hm%list_elem_of_In. by apply H, bool_decide_eq_true in Hm.
Qed.

Lemma small_elem (n : nat) (x : Z) : 0 <= x < Z.of_nat n -> x ∈ map Z.of_nat (seq 0 n).
Proof.
  intros Hx. apply list_elem_of_fmap. exists (Z.to_nat x). rewrite elem_of_seq. lia.
Qed.

(** A text that parses to a clock time does so with every fallback. *)
Lemma parse_hhmm_fallback value w fb :
  clock_time w -> parse_hhmm value (99, 99) = w -> parse_hhmm value fb = w.
Proof.
  unfold parse_hhmm, clock_time. intros Hw H.
  destruct (py_split _ _) as [|a [|b [|? ?]]]; try (subst; cbn in Hw; lia).
  destruct (int_of_text a) as [h|], (int_of_text b) as [m|]; try (subst; cbn in Hw; lia).
  destruct (_ && _); [done | subst; cbn in Hw; lia].
Qed.

(** Clock times survive being written out: the canonical text of a value parses
    back to the time the value itself denotes, with whatever fallback, and that time
    is always a time of day. *)
Theorem clock_text_roundtrip value fallback other :
  let window := match fallback with None => (6, 30) | Some t => parse_hhmm (VStr t) (6, 30) end in
  clock_time (parse_hhmm value window) /\
  parse_hhmm (VStr (normalize_hhmm_text value fallback)) other = parse_hhmm value window.
Proof.
  intros window. assert (clock_time window) as Hw.
  { subst window. destruct fallback; [apply parse_hhmm_clock|]; split; cbn; lia. }
  pose proof (parse_hhmm_clock value window Hw) as Hc. split; [done|].
  unfold normalize_hhmm_text. fold window. destruct (parse_hhmm value window) as [h m].
  destruct Hc as [Hh Hm]. cbn [fst snd] in *. apply parse_hhmm_fallback; [done|].
  pose proof clock_texts as H. rewrite Forall_forall in H.
  specialize (H h (small_elem 24 h ltac:(lia))). rewrite Forall_forall in H.
  apply (H m (small_elem 60 m ltac:(lia))).
Qed.

(** *** Weekday selections *)

Definition weekdays (l : list Z) : Prop := Forall (fun d => 0 <= d <= 6) l /\ NoDup l.

Lemma append_unique_weekdays l d : weekdays l -> 0 <= d <= 6 -> weekdays (append_unique_weekday l d).
Proof.
  intros [H1 H2] Hd. unfold append_unique_weekday. case_decide as Hin; [done|]. split.
  - apply Forall_app. split; [done | by apply Forall_singleton].
  - apply NoDup_app. split_and!; [done | | by apply NoDup_singleton].
    intros x Hx ->%list_elem_of_singleton. done.
Qed.

Lemma append_all_weekdays ds l :
  weekdays l -> Forall (fun d => 0 <= d <= 6) ds -> weekdays (fold_left append_unique_weekday ds l).
Proof.
  revert l. induction ds as [|d ds IH]; intros l Hl Hds; [done|]. apply Forall_cons in Hds as [Hd Hds].
  apply IH; [by apply append_unique_weekdays | done].
Qed.

Lemma token_map_weekday t d : table_get t WEEKDAY_TOKEN_MAP = Some d -> 0 <= d <= 6.
Proof.
  intros H%table_get_elem. assert (Forall (fun kv => 0 <= snd kv <= 6) WEEKDAY_TOKEN_MAP) as Hall.
  { repeat constructor; cbn; lia. }
  rewrite Forall_forall in Hall. apply (Hall (t, d) H).
Qed.

Lemma token_weekdays t : Forall (fun d => 0 <= d <= 6) (weekday_indices_for_token t).
Proof.
  unfold weekday_indices_for_token. destruct (table_get t _) as [d|] eqn:E.
  { by apply Forall_singleton, (token_map_weekday t). }
  unfold extend_weekday_range. destruct (weekday_range_bounds t) as [[a b]|]; [|constructor].
  apply append_all_weekdays; [split; constructor|]. apply Forall_forall.
  intros d (n & -> & _)%list_elem_of_fmap. pose proof (Z.mod_pos_bound (a + Z.of_nat n) 7). lia.
Qed.

Lemma tokens_weekdays tokens l :
  weekdays l -> weekdays (fold_left extend_normalized_weekday_selection tokens l).
Proof.
  revert l. induction tokens as [|t tokens IH]; intros l Hl; [done|]. apply IH.
  apply append_all_weekdays; [done | apply token_weekdays].
Qed.

(** Whatever value selects the scheduled days, the selection is never empty, has no
    day twice and only days of the week, given such a fallback. *)
Theorem enabled_days_are_weekdays value fallback :
  weekdays fallback -> fallback <> [] ->
  weekdays (normalize_scheduled_enabled_days value fallback) /\
  normalize_scheduled_enabled_days value fallback <> [].
Proof.
  intros Hf Hne. unfold normalize_scheduled_enabled_days.
  destruct (normalized_weekday_tokens value) as [|t ts] eqn:E; [done|]. rewrite <- E. clear E t ts.
  destruct (special_scheduled_day_selection _) as [sel|] eqn:Es.
  - unfold special_scheduled_day_selection in Es.
    destruct (normalized_weekday_tokens value) as [|t [|? ?]]; try done. apply table_get_elem in Es.
    assert (Forall (fun kv => weekdays (snd kv) /\ snd kv <> []) SPECIAL_SCHEDULED_DAY_SELECTIONS) as Hall.
    { repeat constructor; try done; by apply (bool_decide_unpack _). }
    rewrite Forall_forall in Hall. apply (Hall (t, sel) Es).
  - unfold normalized_weekday_selection.
    pose proof (tokens_weekdays (normalized_weekday_tokens value) []) as Hw.
    destruct (fold_left _ _ _) as [|d ds]; [done|]. split; [apply Hw; split; constructor | done].
Qed.

(** *** The night window *)

(** Windows as the configuration parser builds them. *)
Definition windows_ok (windows : month_windows) : Prop :=
  Forall (fun kv => clock_time (fst (snd kv)) /\ clock_time (snd (snd kv))) windows.

Lemma window_minutes_bounds d windows :
  windows_ok windows ->
  0 <= fst (window_minutes_for_date d windows) < 1440 /\
  0 <= snd (window_minutes_for_date d windows) < 1440.
Proof.
  intros Hw. unfold window_minutes_for_date, month_get.
  destruct (find _ windows) as [[m [[a b] [c e]]]|] eqn:E; [|cbn; lia].
  apply find_some in E as [Hin%list_elem_of_In _]. unfold windows_ok in Hw. rewrite Forall_forall in Hw.
  apply Hw in Hin. unfold clock_time in Hin. cbn in *. lia.
Qed.

Lemma datetime_at_ok d m : 0 <= m < 1440 -> datetime_at d m = Ok (d * DAY_US + m * MINUTE_US).
Proof. intros Hm. unfold datetime_at. destruct (_ && _) eqn:E; [done | lia]. Qed.

(** Inside the daytime window of a date it is not before its start. *)
Lemma daytime_not_before t d start :
  date_of t = d -> start <= minutes_of t -> d * DAY_US + start * MINUTE_US <= t.
Proof.
  unfold date_of, minutes_of, DAY_US, MINUTE_US. intros <- H.
  pose proof (Z.div_mod t (86400 * 1000000)). pose proof (Z.mul_div_le (t mod (86400 * 1000000)) (60 * 1000000)).
  lia.
Qed.

(** The calendar has room for the schedule at [t], with a delay of [shift] microseconds: the day before, the day after,
    and the end of the daytime window plus the delay are dates. *)
Definition calendar_room (t : datetime) (shift : Z) : Prop :=
  2 <= date_of t /\ 0 <= shift /\ (date_of t + 1) * DAY_US + shift <= MAX_ORDINAL * DAY_US.

(** The target day: the day after the end of the daytime window, else today. *)
Definition target_day (t : datetime) (windows : month_windows) : date :=
  let '(start_minutes, end_minutes) := window_minutes_for_date (date_of t) windows in
  if (start_minutes <? end_minutes) && (end_minutes <=? minutes_of t) then date_of t + 1 else date_of t.

Lemma checked_date_ok d : 1 <= d <= MAX_ORDINAL -> checked_date d = Ok d.
Proof. intros H. unfold checked_date. destruct (_ && _) eqn:E; [done | lia]. Qed.

Lemma target_day_ok t windows shift :
  calendar_room t shift ->
  scheduled_target_day t windows = Ok (target_day t windows) /\ date_of t <= target_day t windows <= date_of t + 1.
Proof.
  unfold calendar_room, MAX_ORDINAL, DAY_US. intros H. unfold scheduled_target_day, target_day.
  destruct (window_minutes_for_date _ _) as [a b]. destruct (_ && _); [|split; [done | lia]].
  split; [apply checked_date_ok; unfold MAX_ORDINAL | ]; lia.
Qed.

(** The end of the window of the day before, plus the delay, is a date. *)
Lemma fallback_start_ok t windows shift m :
  calendar_room t shift -> 0 <= m < 1440 ->
  checked_datetime ((target_day t windows - 1) * DAY_US + m * MINUTE_US + shift) =
    Ok ((target_day t windows - 1) * DAY_US + m * MINUTE_US + shift).
Proof.
  intros Hroom Hm. pose proof (target_day_ok t windows shift Hroom) as [_ Ht]. unfold calendar_room, MAX_ORDINAL in Hroom.
  unfold checked_datetime. rewrite checked_date_ok; [done|]. unfold date_of, MAX_ORDINAL. unfold DAY_US, MINUTE_US in *.
  split; [apply Z.div_le_lower_bound | apply Z.div_le_upper_bound]; lia.
Qed.

Lemma snapshot_context_ok t windows days delay latest shift :
  windows_ok windows -> timedelta_seconds (fmax f0 delay) = Ok shift -> calendar_room t shift ->
  exists c latest_end,
    scheduled_snapshot_context t windows days delay latest = Ok c /\
    datetime_at c.(sc_target_date)
      (fst (parse_hhmm latest (6, 30)) * 60 + snd (parse_hhmm latest (6, 30))) = Ok latest_end /\
    c.(sc_target_date) = target_day t windows /\
    c.(sc_start_minutes) = fst (window_minutes_for_date c.(sc_target_date) windows) /\
    c.(sc_target_enabled) = bool_decide (weekday c.(sc_target_date) ∈
      normalize_scheduled_enabled_days days DEFAULT_SCHEDULED_ENABLED_DAYS) /\
    c.(sc_fallback_start) = (c.(sc_target_date) - 1) * DAY_US +
      snd (window_minutes_for_date (c.(sc_target_date) - 1) windows) * MINUTE_US + shift /\
    c.(sc_night_boost_end) = Z.min latest_end (c.(sc_target_date) * DAY_US + c.(sc_start_minutes) * MINUTE_US).
Proof.
  intros Hw Hshift Hroom. unfold scheduled_snapshot_context.
  destruct (target_day_ok t windows shift Hroom) as [-> Ht]. cbn [mbind res_bind]. set (target := target_day t windows) in *.
  pose proof (window_minutes_bounds target windows Hw) as H1.
  pose proof (window_minutes_bounds (target - 1) windows Hw) as H2.
  pose proof (parse_hhmm_clock latest (6, 30) ltac:(split; cbn; lia)) as Hl.
  destruct (parse_hhmm latest (6, 30)) as [lh lm].
  destruct (window_minutes_for_date target windows) as [a b] eqn:Ew.
  unfold clock_time in Hl. cbn [fst snd] in *.
  rewrite checked_date_ok by (unfold calendar_room in Hroom; unfold MAX_ORDINAL, DAY_US in *; lia). cbn [mbind res_bind].
  rewrite (datetime_at_ok (target - 1)) by lia. cbn [mbind res_bind]. rewrite Hshift.
  cbn [mbind res_bind]. subst target. rewrite (fallback_start_ok t windows shift _ Hroom (proj2 H2)). set (target := target_day t windows) in *.
  cbn [mbind res_bind]. rewrite !datetime_at_ok by lia. cbn [mbind res_bind mret res_ret].
  eexists _, (target * DAY_US + (lh * 60 + lm) * MINUTE_US).
  split_and!; try reflexivity; cbn [sc_target_date sc_start_minutes]; rewrite ?Ew; try reflexivity.
  apply datetime_at_ok. lia.
Qed.

(** As long as the calendar has room, the scheduled mode has a snapshot, and it forces charging at night
    exactly when the target day is enabled and the time lies between the end of the
    previous daytime window plus the delay and the earlier of the latest end and the
    start of the target day's window; so never inside a daytime window. *)
Theorem night_boost_exactly_in_its_window t windows days delay latest shift :
  windows_ok windows -> timedelta_seconds (fmax f0 delay) = Ok shift -> calendar_room t shift ->
  let target := target_day t windows in
  let start := target * DAY_US + fst (window_minutes_for_date target windows) * MINUTE_US in
  let previous_end :=
    (target - 1) * DAY_US + snd (window_minutes_for_date (target - 1) windows) * MINUTE_US in
  let '(latest_hour, latest_minute) := parse_hhmm latest (6, 30) in
  exists sn,
    scheduled_mode_snapshot t windows days delay latest = Ok sn /\
    table_get sn.(sn_state) SCHEDULED_STATE_CODES = Some sn.(sn_state_code) /\
    sn.(sn_night_boost_active) = (sn.(sn_state) =? "night-boost")%string /\
    (sn.(sn_night_boost_active) = true <->
     weekday target ∈ normalize_scheduled_enabled_days days DEFAULT_SCHEDULED_ENABLED_DAYS /\
     previous_end + shift <= t /\ t < start /\
     t < target * DAY_US + (latest_hour * 60 + latest_minute) * MINUTE_US).
Proof.
  intros Hw Hshift Hroom target start previous_end.
  pose proof (parse_hhmm_clock latest (6, 30) ltac:(split; cbn; lia)) as Hl.
  destruct (snapshot_context_ok t windows days delay latest shift Hw Hshift Hroom) as
    (c & latest_end & Hc & Hlatest & Ht & Hs & He & Hfb & Hend).
  destruct (parse_hhmm latest (6, 30)) as [lh lm]. cbn [fst snd] in *. unfold clock_time in Hl.
  cbn [fst snd] in Hl. rewrite datetime_at_ok in Hlatest by lia. injection Hlatest as <-.
  fold target in Ht. rewrite Ht in Hs, He, Hfb, Hend. rewrite Hs in Hend. fold start in Hend.
  fold previous_end in Hfb. unfold scheduled_mode_snapshot. rewrite Hc. cbn [mbind res_bind].
  destruct (scheduled_daytime_window_active t c) eqn:Hday.
  - eexists. split; [reflexivity|]. cbn. split_and!; try done.
    split; [done|]. intros (_ & _ & Hlt & _). unfold scheduled_daytime_window_active in Hday.
    pose proof (daytime_not_before t target (fst (window_minutes_for_date target windows))) as Hnb.
    rewrite Ht, Hs in Hday. fold start in Hnb. lia.
  - rewrite He. case_bool_decide as Hen; cbn [negb].
    2: { eexists. split; [reflexivity|]. cbn. split_and!; try done. by split; [|intros []]. }
    unfold scheduled_post_night_state. rewrite Hfb, Hend.
    destruct (t <? previous_end + shift) eqn:E1; [|destruct (t <? Z.min _ _) eqn:E2; [|destruct (_ && _)]];
      eexists; (split; [reflexivity|]); cbn; split_and!; try done;
      (split; [intros [=] | intros (_ & ? & ? & ?)]); split_and?; done || lia.
Qed.

(** ** Witnesses *)

Lemma enabled_days_are_weekdays_witness :
  weekdays [0; 1] /\ normalize_scheduled_enabled_days (VStr "sa; su|mo") [0; 1] = [5; 6; 0] /\
  weekdays (normalize_scheduled_enabled_days (VStr "sa; su|mo") [0; 1]).
Proof.
  assert (weekdays [0; 1]) as H by (split; [repeat constructor; lia | by apply (bool_decide_unpack _)]).
  split; [exact H|]. split; [vm_compute; reflexivity|].
  exact (proj1 (enabled_days_are_weekdays (VStr "sa; su|mo") [0; 1] H ltac:(discriminate))).
Defined.

Lemma night_boost_exactly_in_its_window_witness :
  let t := 738215 * DAY_US + 120 * MINUTE_US in
  exists sn, scheduled_mode_snapshot t [] (VStr "all") (f_of_Z 3600) (VStr "04:30") = Ok sn /\
    sn.(sn_night_boost_active) = true.
Proof.
  intros t.
  pose proof (night_boost_exactly_in_its_window t [] (VStr "all") (f_of_Z 3600) (VStr "04:30") (3600 * 1000000)
    (Forall_nil_2 _) ltac:(vm_compute; reflexivity)) as H.
  change (parse_hhmm (VStr "04:30") (6, 30)) with (4, 30) in H. cbv beta iota in H.
  destruct H as (sn & Hsn & _ & _ & Hiff); [split; [vm_compute; discriminate | split; vm_compute; discriminate]|].
  exists sn. split; [exact Hsn|]. apply Hiff.
  split; [apply (bool_decide_unpack _); vm_compute; exact I|].
  split; [vm_compute; discriminate|]. split; vm_compute; reflexivity.
Defined.

(** A delay that is no [timedelta], and one that ends after the last year. *)
Lemma long_delays_overflow :
  let t := 738215 * DAY_US + 120 * MINUTE_US in
  scheduled_mode_snapshot t [] (VStr "all") (f_of_Z (10 ^ 14)) (VStr "04:30") = Err OverflowError /\
  scheduled_mode_snapshot t [] (VStr "all") (f_of_Z (10 ^ 12)) (VStr "04:30") = Err OverflowError.
Proof. split; vm_compute; reflexivity. Qed.
