(* ===== verification/AutoState.v ===== *)
(** * Auto mode: state and learned power

    The attributes the Auto mode reads and writes, the operations of [ports/auto.py] on
    them, and [auto/logic_learning.py].  The attributes of the service that the relay
    components share are those of [svc]; the others are fields of [auto]. *)

From S2P Require Import Prelude PyFloat PyValue Contracts BackendModels Service CommonAuto OrderedMap AutoPolicy Schedule.

(** ** State *)

(** The configuration attributes of the Auto mode. *)
Record auto_config := mkAutoConfig {
  auto_policy : AutoPolicy;
  auto_average_window_seconds : float;
  auto_start_delay_seconds : float;
  auto_stop_delay_seconds : float;
  auto_min_runtime_seconds : float;
  auto_min_offtime_seconds : float;
  auto_grid_missing_stop_seconds : float;
  auto_startup_warmup_seconds : float;
  auto_battery_scan_interval_seconds : float;
  auto_allow_without_battery_soc : bool;
  auto_night_lock_stop : bool;
  auto_daytime_only : bool;
  auto_audit_log : bool;
  auto_month_windows : list (Z * ((Z * Z) * (Z * Z)));
  auto_scheduled_enabled_days : option string;
  auto_scheduled_night_start_delay_seconds : option float;
  auto_scheduled_latest_end_time : option string }.

(** The mutable attributes of the Auto mode.
    auto/component_context.py: AutoDecisionContext *)
Record auto := mkAuto {
  au_svc : svc;
  au_cfg : auto_config;
  virtual_mode : pyval;
  virtual_enable : pyval;
  virtual_autostart : pyval;
  auto_mode_cutover_pending : bool;
  auto_cached_inputs_used : bool;
  auto_samples : list (float * float * float);
  stop_smoothed_surplus_power : option float;
  stop_smoothed_grid_power : option float;
  auto_start_condition_since : option float;
  auto_stop_condition_since : option float;
  auto_stop_condition_reason : option string;
  relay_last_changed_at : option float;
  relay_last_off_at : option float;
  auto_high_soc_profile_active : option bool;
  ev_priority_active : bool;
  grid_recovery_required : bool;
  grid_recovery_since : option float;
  last_grid_at : option float;
  learned_charge_power_state : pyval;
  learned_charge_power_watts : option float;
  learned_charge_power_updated_at : option float;
  last_battery_allow_warning : option float;
  started_at : float;
  manual_override_until : float;
  last_health_reason : string;
  last_health_code : Z;
  last_auto_state : string;
  last_auto_state_code : Z;
  last_auto_metrics : odict string pyval;
  audit_log : list (string * bool) }.

#[export] Instance eta_auto : Eta auto := fun s =>
  mkAuto (s.(au_svc)) (s.(au_cfg)) (s.(virtual_mode)) (s.(virtual_enable)) (s.(virtual_autostart))
    (s.(auto_mode_cutover_pending)) (s.(auto_cached_inputs_used)) (s.(auto_samples))
    (s.(stop_smoothed_surplus_power)) (s.(stop_smoothed_grid_power))
    (s.(auto_start_condition_since)) (s.(auto_stop_condition_since))
    (s.(auto_stop_condition_reason)) (s.(relay_last_changed_at)) (s.(relay_last_off_at))
    (s.(auto_high_soc_profile_active)) (s.(ev_priority_active)) (s.(grid_recovery_required))
    (s.(grid_recovery_since)) (s.(last_grid_at)) (s.(learned_charge_power_state))
    (s.(learned_charge_power_watts)) (s.(learned_charge_power_updated_at))
    (s.(last_battery_allow_warning)) (s.(started_at)) (s.(manual_override_until))
    (s.(last_health_reason)) (s.(last_health_code)) (s.(last_auto_state))
    (s.(last_auto_state_code)) (s.(last_auto_metrics)) (s.(audit_log)).

(** What the Auto components ask of others: the month and minute of the local wall clock
    at a time, the local time in the schedule's time zone, the last accepted power field, the pending relay command, and whether
    saving, auditing and warning succeed. *)
Class AutoPorts := {
  port_local_clock : float -> Z * Z;
  port_local_datetime : float -> res Z;
  port_last_accepted_ac_power : auto -> pyval;
  port_auto_pending_relay_command : auto -> option bool * option float;
  port_auto_save : auto -> res unit;
  port_auto_audit : auto -> string -> bool -> res unit;
  port_warning_throttled : auto -> res unit }.

(** ** The decision port *)

Definition now_of (s : auto) : float := s.(au_svc).(clock).

(** ports/auto.py: AutoDecisionPort.mode *)
Definition port_mode (s : auto) : res Z := non_negative_int s.(virtual_mode) 0.

(** ports/auto.py: AutoDecisionPort.controller_enabled *)
Definition controller_enabled (s : auto) : res bool :=
  n ← normalize_binary_flag s.(virtual_enable) 1; mret (negb (n =? 0)).

(** ports/auto.py: AutoDecisionPort.autostart_enabled *)
Definition autostart_enabled (s : auto) : res bool :=
  n ← normalize_binary_flag s.(virtual_autostart) 1; mret (negb (n =? 0)).

(** ports/auto.py: AutoDecisionPort.mode_cutover_pending *)
Definition mode_cutover_pending (s : auto) : bool := s.(auto_mode_cutover_pending).

(** ports/auto.py: AutoDecisionPort.minimum_offtime_bypass_active *)
Definition minimum_offtime_bypass_active (s : auto) : bool := s.(au_svc).(ignore_min_offtime_once).

Definition set_bypass (b : bool) (s : auto) : auto :=
  s <| au_svc := s.(au_svc) <| ignore_min_offtime_once := b |> |>.

(** ports/auto.py: AutoDecisionPort.clear_minimum_offtime_bypass *)
Definition clear_minimum_offtime_bypass : M auto unit := modify (set_bypass false).

(** ports/auto.py: AutoDecisionPort.reset_mode_cutover *)
Definition reset_mode_cutover : M auto unit :=
  modify (fun s => set_bypass false (s <| auto_mode_cutover_pending := false |>)).

(** ports/auto.py: AutoDecisionPort.complete_mode_cutover *)
Definition complete_mode_cutover : M auto unit :=
  modify (fun s => set_bypass true (s <| auto_mode_cutover_pending := false |>)).

Section ports.
Context {AP : AutoPorts}.

(** ports/auto.py: AutoDecisionPort.save_runtime_state *)
Definition auto_save : M auto unit := s ← get; lift (port_auto_save s).

(** ports/auto.py: AutoDecisionPort.charging_power_w *)
Definition charging_power_w (s : auto) : res float :=
  value ← finite_float_or_none (port_last_accepted_ac_power s);
  mret (match value with Some x => fmax f0 x | None => f0 end).

(** ports/auto.py: AutoDecisionPort.peek_pending_relay_command *)
Definition peek_pending_relay_command : auto -> option bool * option float :=
  port_auto_pending_relay_command.

(** ports/auto.py: AutoDecisionPort.write_auto_audit_event *)
Definition write_auto_audit_event (reason : string) (cached : bool) : M auto unit :=
  modify (fun s => s <| audit_log := (s.(audit_log) ++ [(reason, cached)])%list |>);;
  s ← get; lift (port_auto_audit s reason cached).

End ports.

(** ** Learned charging power *)

(** auto/logic_learning.py: AutoLearningPolicy._auto_policy *)
Definition policy_of (s : auto) : AutoPolicy := s.(au_cfg).(auto_policy).

(** auto/logic_learning.py: AutoLearningPolicy._normalize_learned_charge_power_state *)
Definition normalize_learned_charge_power_state (value : pyval) : string :=
  match value with
  | VNone => "unknown"
  | _ =>
    let state := py_lower (py_strip (py_str value)) in
    if str_in state LEARNED_CHARGE_POWER_STATES then state else "unknown"
  end.

(** auto/logic_learning.py: AutoLearningPolicy._positive_learned_charge_power *)
Definition positive_learned_charge_power (s : auto) : option float :=
  match s.(learned_charge_power_watts) with
  | None => None
  | Some w => if (w <=? f0)%F then None else Some w
  end.

(** auto/logic_learning.py: AutoLearningPolicy._learned_charge_power_can_expire *)
Definition learned_charge_power_can_expire (s : auto) : bool :=
  ((policy_of s).(learn_charge_power).(alcp_max_age_seconds) >? f0)%F.

(** auto/logic_learning.py: AutoLearningPolicy._unknown_or_stale_learning_state *)
Definition unknown_or_stale_learning_state (state : string) : string :=
  if (state =? "unknown")%string then "unknown" else "stale".

(** auto/logic_learning.py: AutoLearningPolicy._learned_charge_power_expired *)
Definition learned_charge_power_expired (s : auto) (now : float) : bool :=
  match s.(learned_charge_power_updated_at) with
  | None => true
  | Some updated_at =>
    (now - updated_at >? (policy_of s).(learn_charge_power).(alcp_max_age_seconds))%F
  end.

(** auto/logic_learning.py: AutoLearningPolicy._stale_learned_charge_power_state *)
Definition stale_learned_charge_power_state (s : auto) (state : string) (now : float)
    : option string :=
  if negb (learned_charge_power_can_expire s) then None
  else
    match s.(learned_charge_power_updated_at) with
    | None => Some (unknown_or_stale_learning_state state)
    | Some _ => if learned_charge_power_expired s now then Some "stale" else None
    end.

(** auto/logic_learning.py: AutoLearningPolicy._current_learned_charge_power_state *)
Definition current_learned_charge_power_state (s : auto) (now : float) : string :=
  let state := normalize_learned_charge_power_state s.(learned_charge_power_state) in
  match positive_learned_charge_power s with
  | None => "unknown"
  | Some _ => default state (stale_learned_charge_power_state s state now)
  end.

(** auto/logic_learning.py: AutoLearningPolicy._learned_charge_power_age_invalid_for_auto *)
Definition learned_charge_power_age_invalid_for_auto (s : auto) (now : float) : bool :=
  learned_charge_power_can_expire s &&
  (match s.(learned_charge_power_updated_at) with None => true | Some _ => false end ||
   learned_charge_power_expired s now).

(** auto/logic_learning.py: AutoLearningPolicy._learned_charge_power_inactive_for_auto *)
Definition learned_charge_power_inactive_for_auto (s : auto) (learned_value : option float)
    (now : float) : bool :=
  negb (policy_of s).(learn_charge_power).(alcp_enabled) ||
  negb (current_learned_charge_power_state s now =? "stable")%string ||
  match learned_value with None => true | Some _ => false end ||
  learned_charge_power_age_invalid_for_auto s now.

(** auto/logic_learning.py: AutoLearningPolicy._active_learned_charge_power *)
Definition active_learned_charge_power (s : auto) (now : float) : option float :=
  let learned_value := positive_learned_charge_power s in
  if learned_charge_power_inactive_for_auto s learned_value now then None else learned_value.

(** auto/logic_learning.py: AutoLearningPolicy._learned_charge_power_scale *)
Definition learned_charge_power_scale (s : auto) (now : float) : res float :=
  let policy := (policy_of s).(learn_charge_power) in
  match active_learned_charge_power s now with
  | Some learned => if negb policy.(alcp_enabled) then Ok f1 else float_div learned policy.(alcp_reference_power_watts)
  | None => Ok f1
  end.

(** [round(x, 1)]: the decimal with one digit nearest to the exact value, ties to
    even, and the float nearest to that; a float without a fraction is itself. *)
Definition round1 (x : float) : float :=
  match x with
  | S754_finite sgn m e =>
    if e <? 0 then
      let d := 2 ^ (- e) in
      let q := (Z.pos m * 10) / d in
      let r := (Z.pos m * 10) mod d in
      let n := if (2 * r <? d) || ((2 * r =? d) && Z.even q) then q else q + 1 in
      if n =? 0 then S754_zero sgn else fdec (if sgn then - n else n) 10
    else x
  | _ => x
  end.

(** auto/logic_learning.py: AutoLearningPolicy._scale_surplus_thresholds *)
Definition scale_surplus_thresholds (s : auto) (start_watts stop_watts : float) : res (float * float) :=
  scale ← learned_charge_power_scale s (now_of s);
  mret (round1 (start_watts * scale)%F, round1 (stop_watts * scale)%F).

(** auto/logic_learning.py: AutoLearningPolicy._surplus_thresholds_for_soc *)
Definition surplus_thresholds_for_soc (battery_soc : float) : M auto (float * float * string) :=
  s ← get;
  let '(profile, active, profile_name) :=
    resolve_threshold_profile (policy_of s) battery_soc s.(auto_high_soc_profile_active) in
  modify (fun s => s <| auto_high_soc_profile_active := Some active |>);;
  s ← get;
  '(start_watts, stop_watts) ←
    lift (scale_surplus_thresholds s profile.(start_surplus_watts) profile.(stop_surplus_watts));
  ordered ← lift (thresholds_ordered (VFloat start_watts) (VFloat stop_watts));
  mret (if ordered : bool then (start_watts, stop_watts, profile_name)
        else (profile.(start_surplus_watts), profile.(stop_surplus_watts), profile_name)).
