(* ===== verification/AutoSamples.v ===== *)
(** * Auto mode: samples, schedule windows and health

    [auto/logic_samples.py], with the metric contracts of [core/contracts_outward.py]
    and the decision trace of [core/contracts_snapshot.py].  The dictionary
    [_last_auto_metrics] is [last_auto_metrics]; its surplus is also what the phase
    decision reads ([last_auto_metrics_surplus] of [svc]), and the entries the phase
    decision writes into it are [last_auto_metrics_phase] of [svc]. *)

From S2P Require Import Prelude PyFloat PyValue Contracts BackendModels Service CommonAuto OrderedMap AutoPolicy Schedule AutoState.

(** ** Samples *)

(** auto/logic_samples.py: AutoSampleTracker.get_available_surplus_watts *)
Definition get_available_surplus_watts (pv_power grid_power : float) : float :=
  let pv_power := fmax f0 pv_power in
  let export_power := fmax f0 (fopp grid_power) in
  fmin pv_power export_power.

(** [while samples and samples[0][0] < cutoff: samples.popleft()] *)
Fixpoint drop_older (cutoff : float) (samples : list (float * float * float))
    : list (float * float * float) :=
  match samples with
  | (t, surplus, grid) :: rest =>
    if (t <? cutoff)%F then drop_older cutoff rest else samples
  | [] => []
  end.

(** auto/logic_samples.py: AutoSampleTracker.add_auto_sample *)
Definition add_auto_sample (now surplus_power grid_power : float) : M auto unit :=
  modify (fun s =>
    s <| auto_samples :=
      drop_older (now - s.(au_cfg).(auto_average_window_seconds))%F
        (s.(auto_samples) ++ [(now, surplus_power, grid_power)])%list |>).

(** auto/logic_samples.py: AutoSampleTracker.clear_auto_samples *)
Definition clear_auto_samples : M auto unit :=
  modify (fun s => s <| auto_samples := [] |> <| stop_smoothed_surplus_power := None |>
                     <| stop_smoothed_grid_power := None |>).

Definition sample_surplus (x : float * float * float) : float := snd (fst x).
Definition sample_grid (x : float * float * float) : float := snd x.

(** Field 1 of a sample is its surplus, field 2 its grid power.
    auto/logic_samples.py: AutoSampleTracker.average_auto_metric *)
Definition average_auto_metric (field : float * float * float -> float) (s : auto) : option float :=
  match s.(auto_samples) with
  | [] => None
  | samples => Some (float_sum (map field samples) / f_of_Z (Z.of_nat (length samples)))%F
  end.

(** auto/logic_samples.py: AutoSampleTracker._smooth_metric *)
Definition smooth_metric (previous : option float) (current alpha : float) : float :=
  match previous with
  | None => current
  | Some p => (p + alpha * (current - p))%F
  end.

(** auto/logic_samples.py: AutoSampleTracker._stop_surplus_volatility *)
Definition stop_surplus_volatility (s : auto) : res (option float) :=
  let values := map sample_surplus s.(auto_samples) in
  let count := f_of_Z (Z.of_nat (length values)) in
  if (length values <? 2)%nat then Ok None
  else
    let mean_value := (float_sum values / count)%F in
    squares ← map_res (fun v => float_square (v - mean_value)%F) values;
    deviation ← py_sqrt (float_sum squares / count)%F;
    mret (Some deviation).

(** auto/logic_samples.py: AutoSampleTracker._adaptive_stop_alpha *)
Definition adaptive_stop_alpha (s : auto) : res (float * string * option float) :=
  volatility ← stop_surplus_volatility s;
  mret (adaptive_alpha (policy_of s).(ewma) volatility).

(** auto/logic_samples.py: AutoSampleTracker.mark_relay_changed *)
Definition mark_relay_changed (relay_on : bool) (now : option float) : M auto unit :=
  modify (fun s =>
    let changed_at := default (now_of s) now in
    let s := s <| relay_last_changed_at := Some changed_at |> in
    if relay_on then s else s <| relay_last_off_at := Some changed_at |>).

(** ** Schedule windows *)

(** auto/logic_samples.py: DEFAULT_DAYTIME_WINDOW *)
Definition DEFAULT_DAYTIME_WINDOW : (Z * Z) * (Z * Z) := ((8, 0), (18, 0)).

(** auto/logic_samples.py: MINUTES_PER_DAY *)
Definition MINUTES_PER_DAY : Z := 24 * 60.

(** auto/logic_samples.py: AutoSampleTracker._daytime_window_minutes_for_month *)
Definition daytime_window_minutes_for_month (c : auto_config) (month : Z) : Z * Z :=
  let '((start_hour, start_minute), (end_hour, end_minute)) :=
    month_get month c.(auto_month_windows) DEFAULT_DAYTIME_WINDOW in
  (start_hour * 60 + start_minute, end_hour * 60 + end_minute).

(** auto/logic_samples.py: AutoSampleTracker._minutes_within_daytime_window *)
Definition minutes_within_daytime_window (current_minutes start_minutes end_minutes : Z) : bool :=
  let window_length := (end_minutes - start_minutes) mod MINUTES_PER_DAY in
  if window_length =? 0 then true
  else (current_minutes - start_minutes) mod MINUTES_PER_DAY <? window_length.

(** auto/logic_samples.py: AutoSampleTracker._scheduled_enabled_days *)
Definition scheduled_enabled_days (c : auto_config) : string :=
  default "Mon,Tue,Wed,Thu,Fri" c.(auto_scheduled_enabled_days).

(** auto/logic_samples.py: AutoSampleTracker._scheduled_night_start_delay_seconds *)
Definition scheduled_night_start_delay_seconds (c : auto_config) : float :=
  default (f_of_Z 3600) c.(auto_scheduled_night_start_delay_seconds).

(** auto/logic_samples.py: AutoSampleTracker._scheduled_latest_end_time *)
Definition scheduled_latest_end_time (c : auto_config) : string :=
  default "04:30" c.(auto_scheduled_latest_end_time).

Section windows.
Context {AP : AutoPorts}.

(** auto/logic_samples.py: AutoSampleTracker.is_within_auto_daytime_window *)
Definition is_within_auto_daytime_window (s : auto) : bool :=
  if negb s.(au_cfg).(auto_daytime_only) then true
  else
    let '(month, current_minutes) := port_local_clock (now_of s) in
    let '(start_minutes, end_minutes) := daytime_window_minutes_for_month s.(au_cfg) month in
    minutes_within_daytime_window current_minutes start_minutes end_minutes.

(** auto/logic_samples.py: AutoSampleTracker.scheduled_night_charge_active *)
Definition scheduled_night_charge_active (s : auto) (now : float) : res bool :=
  mode ← port_mode s;
  scheduled ← mode_uses_scheduled_logic (VInt mode);
  if negb scheduled then mret false
  else
    local_time ← port_local_datetime now;
    snapshot ← scheduled_mode_snapshot local_time s.(au_cfg).(auto_month_windows)
      (VStr (scheduled_enabled_days s.(au_cfg))) (scheduled_night_start_delay_seconds s.(au_cfg))
      (VStr (scheduled_latest_end_time s.(au_cfg)));
    mret snapshot.(sn_night_boost_active).

End windows.

(** ** Outward metrics *)

(** core/contracts_outward.py: AUTO_METRIC_NUMERIC_FIELDS *)
Definition AUTO_METRIC_NUMERIC_FIELDS : list string :=
  ["surplus"; "grid"; "start_threshold"; "stop_threshold"; "threshold_scale"; "stop_alpha";
   "surplus_volatility"; "battery_unadjusted_surplus_penalty_w"; "ev_priority_active";
   "ev_priority_credit_w"; "ev_priority_available_surplus_w"; "ev_priority_reclaimable_charge_w";
   "ev_priority_running_load_w"; "ev_priority_soc"; "ev_priority_release_soc"].

(** core/contracts_outward.py: AUTO_METRIC_TEXT_FIELDS *)
Definition AUTO_METRIC_TEXT_FIELDS : list string := ["profile"; "threshold_mode"; "stop_alpha_stage"].

Abbreviation metrics := (odict string pyval) (only parsing).

(** [d.get(key)] *)
Definition metric (key : string) (d : metrics) : pyval := default VNone (od_get key d).

(** core/contracts_outward.py: _normalized_metric_text *)
Definition normalized_metric_text (value : pyval) : pyval :=
  match value with VNone => VNone | v => VStr (py_str v) end.

(** core/contracts_outward.py: _sanitize_numeric_auto_metrics *)
Fixpoint sanitize_numeric_auto_metrics (fields : list string) (d : metrics) : res metrics :=
  match fields with
  | [] => Ok d
  | field :: rest =>
    value ← finite_float_or_none (metric field d);
    sanitize_numeric_auto_metrics rest (od_set field (val_of_float value) d)
  end.

(** core/contracts_outward.py: _sanitize_text_auto_metrics *)
Definition sanitize_text_auto_metrics (d : metrics) : metrics :=
  fold_left (fun d field => od_set field (normalized_metric_text (metric field d)) d)
    AUTO_METRIC_TEXT_FIELDS d.

(** core/contracts_outward.py: _sanitize_soc_metric *)
Definition sanitize_soc_metric (d : metrics) : res metrics :=
  soc_value ← finite_float_or_none (metric "soc" d);
  valid ← valid_battery_soc (val_of_float soc_value);
  mret (od_set "soc" (if valid : bool then val_of_float soc_value else VNone) d).

(** core/contracts_outward.py: _sanitize_learning_metrics *)
Definition sanitize_learning_metrics (d : metrics) : res metrics :=
  power ← non_negative_float_or_none (metric "learned_charge_power" d);
  let d := od_set "learned_charge_power" (val_of_float power) d in
  mret (od_set "learned_charge_power_state"
          (match metric "learned_charge_power_state" d with
           | VNone => VNone
           | learned_state => VStr (normalize_learning_state learned_state)
           end) d).

(** core/contracts_outward.py: _sanitize_threshold_metrics *)
Definition sanitize_threshold_metrics (d : metrics) : res metrics :=
  ordered ← thresholds_ordered (metric "start_threshold" d) (metric "stop_threshold" d);
  mret (if ordered : bool then d
        else od_set "stop_threshold" VNone (od_set "start_threshold" VNone d)).

(** core/contracts_outward.py: sanitized_auto_metrics *)
Definition sanitized_auto_metrics (d : metrics) : res metrics :=
  d ← sanitize_numeric_auto_metrics AUTO_METRIC_NUMERIC_FIELDS d;
  d ← sanitize_learning_metrics d;
  d ← sanitize_soc_metric d;
  sanitize_threshold_metrics (sanitize_text_auto_metrics d).

(** ** The decision trace *)

Record decision_trace := mkTrace {
  tr_health_reason : string; tr_health_code : Z; tr_state : string; tr_state_code : Z;
  tr_metrics : metrics }.

(** core/contracts_snapshot.py: normalized_auto_decision_trace *)
Definition normalized_auto_decision_trace (health_reason : string) (cached relay_intent : bool)
    (learned_charge_power_state : pyval) (d : metrics) : res decision_trace :=
  let base_reason := py_replace "-cached" "" health_reason in
  let normalized_reason := if cached then (base_reason ++ "-cached")%string else base_reason in
  let normalized_health_code := health_code base_reason + (if cached then 100 else 0) in
  normalized_relay_intent ← normalize_binary_flag (VBool relay_intent) 0;
  normalized_metrics ← sanitized_auto_metrics d;
  let normalized_metrics := od_set "relay_intent" (VInt normalized_relay_intent) normalized_metrics in
  let learned_state :=
    match metric "learned_charge_power_state" normalized_metrics with
    | VNone => VStr (normalize_learning_state learned_charge_power_state)
    | state => state
    end in
  let state := derive_auto_state (VStr base_reason) (negb (normalized_relay_intent =? 0)) learned_state in
  '(normalized_state, normalized_state_code) ← normalized_auto_state_pair (VStr state);
  mret (mkTrace normalized_reason normalized_health_code normalized_state normalized_state_code
          (od_set "state" (VStr normalized_state) normalized_metrics)).

(** What the phase decision sees of the dictionary. *)
Definition metrics_surplus (d : metrics) : option float :=
  match metric "surplus" d with VFloat x => Some x | _ => None end.

(** [_last_auto_metrics.clear(); _last_auto_metrics.update(d)], where [d] holds all the
    entries of before. *)
Definition update_metrics (d : metrics) (s : auto) : auto :=
  s <| last_auto_metrics := d |>
    <| au_svc := s.(au_svc) <| last_auto_metrics_surplus := metrics_surplus d |> |>.

(** [_last_auto_metrics = d] *)
Definition replace_metrics (d : metrics) (s : auto) : auto :=
  s <| last_auto_metrics := d |>
    <| au_svc := s.(au_svc) <| last_auto_metrics_surplus := metrics_surplus d |>
                            <| last_auto_metrics_phase := None |> |>.

Section health.
Context {AP : AutoPorts}.

(** auto/logic_samples.py: AutoSampleTracker._apply_decision_trace_postconditions *)
Definition apply_decision_trace_postconditions (reason : string) (cached relay_intent : bool)
    : M auto unit :=
  s ← get;
  trace ← lift (normalized_auto_decision_trace reason cached relay_intent
                  s.(learned_charge_power_state) s.(last_auto_metrics));
  modify (fun s =>
    update_metrics trace.(tr_metrics)
      (s <| last_health_reason := trace.(tr_health_reason) |>
         <| last_health_code := trace.(tr_health_code) |>
         <| last_auto_state := trace.(tr_state) |>
         <| last_auto_state_code := trace.(tr_state_code) |>)).

(** auto/logic_samples.py: AutoSampleTracker._observed_relay_state *)
Definition observed_relay_state (s : auto) : bool :=
  default false (fresh_confirmed_relay_output s.(au_svc) (Some (now_of s))).

(** auto/logic_samples.py: AutoSampleTracker.set_health *)
Definition set_health (reason : string) (cached : bool) (relay_intent : option bool) : M auto unit :=
  s ← get;
  apply_decision_trace_postconditions reason cached (default (observed_relay_state s) relay_intent);;
  when s.(au_cfg).(auto_audit_log) (write_auto_audit_event reason cached).

(** auto/logic_samples.py: AutoSampleTracker._derive_auto_state *)
Definition tracker_derive_auto_state (reason : string) (s : auto) : string :=
  CommonAuto.derive_auto_state (VStr reason) (observed_relay_state s) s.(learned_charge_power_state).

(** auto/logic_samples.py: AutoSampleTracker._set_auto_state *)
Definition set_auto_state (state : string) : M auto unit :=
  modify (fun s => s <| last_auto_state := state |>);;
  code ← lift (auto_state_code (VStr state));
  modify (fun s => s <| last_auto_state_code := code |>
                     <| last_auto_metrics := od_set "state" (VStr state) s.(last_auto_metrics) |>).

(** auto/logic_samples.py: AutoSampleTracker._reset_auto_state *)
Definition reset_auto_state : M auto unit :=
  modify (fun s => s <| auto_start_condition_since := None |> <| auto_stop_condition_since := None |>
                     <| auto_stop_condition_reason := None |>);;
  clear_auto_samples.

(** auto/logic_samples.py: AutoSampleTracker._clear_auto_start_tracking *)
Definition clear_auto_start_tracking (clear_samples : bool) : M auto unit :=
  modify (fun s => s <| auto_start_condition_since := None |>);;
  when clear_samples clear_auto_samples.

(** auto/logic_samples.py: AutoSampleTracker._clear_auto_stop_tracking *)
Definition clear_auto_stop_tracking : M auto unit :=
  modify (fun s => s <| auto_stop_condition_since := None |> <| auto_stop_condition_reason := None |>).

(** auto/logic_samples.py: AutoSampleTracker._set_health_result *)
Definition set_health_result (reason : string) (cached_inputs result : bool) : M auto bool :=
  set_health reason cached_inputs (Some result);; mret result.

(** auto/logic_samples.py: AutoSampleTracker._idle_result_with_health *)
Definition idle_result_with_health (reason : string) (cached_inputs : bool) : M auto bool :=
  clear_auto_start_tracking false;; set_health_result reason cached_inputs false.

(** auto/logic_samples.py: AutoSampleTracker._running_result_with_health *)
Definition running_result_with_health (reason : string) (cached_inputs : bool) : M auto bool :=
  clear_auto_stop_tracking;; set_health_result reason cached_inputs true.

(** auto/tracking.py: clear_auto_decision_tracking *)
Definition clear_auto_decision_tracking : M auto bool :=
  s ← get;
  modify (fun s => s <| auto_start_condition_since := None |> <| auto_stop_condition_since := None |>
                     <| auto_stop_condition_reason := None |>);;
  mret (bool_decide (is_Some s.(auto_start_condition_since)) ||
        bool_decide (is_Some s.(auto_stop_condition_since)) ||
        bool_decide (is_Some s.(auto_stop_condition_reason))).

End health.
