(* ===== verification/AutoMetrics.v ===== *)
(** * Auto mode: smoothed and battery-adjusted metrics

    [auto/logic_gates_metrics.py] and the number helpers of
    [auto/logic_gates_battery_learning.py].  The picture of the home battery that
    [AutoBatteryBalance._combined_battery_activity_context] draws from the energy
    readings comes through the interface [BatteryBalance]. *)

From S2P Require Import Prelude PyFloat PyValue Contracts BackendModels Service CommonAuto OrderedMap AutoPolicy Schedule AutoState AutoSamples.

(** ** Numbers of a metrics dictionary *)

(** auto/logic_gates_battery_learning.py: AutoBatteryLearning._non_negative_optional_float *)
Definition non_negative_optional_float (value : pyval) : res (option float) :=
  match value with
  | VBool _ | VInt _ | VFloat _ =>
    numeric_value ← py_float value;
    mret (if (numeric_value <? f0)%F then None else Some numeric_value)
  | _ => Ok None
  end.

(** auto/logic_gates_battery_learning.py: AutoBatteryLearning._required_float *)
Definition required_float (value : pyval) : res float :=
  match value with
  | VBool _ | VInt _ | VFloat _ => py_float value
  | _ => Err AssertionError
  end.

(** [value or 0.0] *)
Definition or_zero (o : option float) : float :=
  match o with Some x => if ftruthy x then x else f0 | None => f0 end.

(** auto/logic_gates_battery_learning.py: AutoBatteryLearning._near_term_grid_adjustment *)
Definition near_term_grid_adjustment (battery_activity : metrics) : res float :=
  expected_export ← non_negative_optional_float (metric "expected_near_term_export_w" battery_activity);
  expected_import ← non_negative_optional_float (metric "expected_near_term_import_w" battery_activity);
  mret (or_zero expected_export * fdec 15 100 - or_zero expected_import * fdec 15 100)%F.

(** auto/logic_gates_metrics.py: AutoDecisionMetrics._activity_power *)
Definition activity_power (battery_activity : metrics) (key : string) : res float :=
  value ← non_negative_optional_float (metric key battery_activity);
  mret (default f0 value).

(** auto/logic_gates_metrics.py: _learning_profile_count *)
Definition learning_profile_count (battery_activity : metrics) : pyval :=
  match metric "learning_profile_count" battery_activity with
  | VInt n => VInt n
  | VBool b => VBool b
  | _ => VInt 0
  end.

(** auto/logic_gates_metrics.py: _applied_surplus_penalty *)
Definition applied_surplus_penalty (total_penalty_w charge_penalty_w : float) (priority_active : bool)
    : float :=
  if negb priority_active then total_penalty_w else fmax f0 (total_penalty_w - charge_penalty_w)%F.

(** auto/logic_gates_metrics.py: _reclaimable_charge_power *)
Definition reclaimable_charge_power (observed_charge_w grid_power_w : float) : float :=
  let grid_import_w := fmax f0 grid_power_w in
  fmax f0 (observed_charge_w - grid_import_w)%F.

(** auto/logic_gates_metrics.py: _priority_available_surplus *)
Definition priority_available_surplus (active : bool)
    (base_surplus_w pv_power_w reclaimable_charge_w running_load_w : float) : float :=
  if negb active then base_surplus_w
  else
    let candidate_w :=
      fmin (fmax f0 pv_power_w) (base_surplus_w + reclaimable_charge_w + running_load_w)%F in
    fmax base_surplus_w candidate_w.

(** [d[key]] *)
Definition od_item (key : string) (d : metrics) : res pyval :=
  match od_get key d with Some v => Ok v | None => Err KeyError end.

(** ** The battery interface *)

(** What the battery balance answers to the Auto metrics. *)
Class BatteryBalance := {
  combined_battery_activity_context : auto -> res (odict string pyval) }.

(** ** Parts of the metrics *)

Record threshold_metrics := mkThresholdMetrics {
  tm_start_threshold : float; tm_stop_threshold : float; tm_profile : string }.

Record smoothing_metrics := mkSmoothingMetrics {
  sm_surplus : float; sm_grid : float; sm_stop_alpha : float; sm_stop_alpha_stage : string;
  sm_surplus_volatility : option float }.

Record learned_metrics := mkLearnedMetrics {
  lm_learned_charge_power : option float; lm_learned_charge_power_state : string;
  lm_threshold_scale : float; lm_threshold_mode : string }.

Record priority_metrics := mkPriorityMetrics {
  pr_active : bool; pr_credit_w : float; pr_available_surplus_w : float;
  pr_reclaimable_charge_w : float; pr_running_load_w : float; pr_activation_soc : float;
  pr_release_soc : float }.

(** auto/logic_gates_metrics.py: AutoDecisionMetrics._surplus_threshold_metrics *)
Definition surplus_threshold_metrics (battery_soc : float) : M auto threshold_metrics :=
  '(start_surplus_watts, stop_surplus_watts, threshold_profile) ← surplus_thresholds_for_soc battery_soc;
  mret (mkThresholdMetrics start_surplus_watts stop_surplus_watts threshold_profile).

(** auto/logic_gates_metrics.py: AutoDecisionMetrics._smoothed_decision_metrics *)
Definition smoothed_decision_metrics (relay_on : bool)
    (avg_surplus_power avg_grid_power adaptive_alpha : float) : M auto (float * float) :=
  s ← get;
  if negb relay_on then
    modify (fun s => s <| stop_smoothed_surplus_power := None |> <| stop_smoothed_grid_power := None |>);;
    mret (avg_surplus_power, avg_grid_power)
  else
    let decision_surplus_power :=
      smooth_metric s.(stop_smoothed_surplus_power) avg_surplus_power adaptive_alpha in
    let decision_grid_power :=
      smooth_metric s.(stop_smoothed_grid_power) avg_grid_power adaptive_alpha in
    modify (fun s => s <| stop_smoothed_surplus_power := Some decision_surplus_power |>
                       <| stop_smoothed_grid_power := Some decision_grid_power |>);;
    mret (decision_surplus_power, decision_grid_power).

(** auto/logic_gates_metrics.py: AutoDecisionMetrics._smoothing_metrics *)
Definition smoothing_metrics_of (relay_on : bool) (avg_surplus_power avg_grid_power : float)
    : M auto smoothing_metrics :=
  s ← get;
  '(adaptive_alpha, adaptive_alpha_stage, surplus_volatility) ← lift (adaptive_stop_alpha s);
  '(decision_surplus_power, decision_grid_power) ←
    smoothed_decision_metrics relay_on avg_surplus_power avg_grid_power adaptive_alpha;
  mret (mkSmoothingMetrics decision_surplus_power decision_grid_power adaptive_alpha
          adaptive_alpha_stage surplus_volatility).

(** auto/logic_gates_metrics.py: AutoDecisionMetrics._update_ev_priority_state *)
Definition update_ev_priority_state (battery_soc activation_soc release_soc : float) : M auto bool :=
  s ← get;
  modify (fun s =>
    s <| ev_priority_active :=
      if s.(ev_priority_active) then negb (battery_soc <? release_soc)%F
      else (battery_soc >=? activation_soc)%F |>);;
  gets ev_priority_active.

(** auto/logic_gates_metrics.py: AutoDecisionMetrics._learned_threshold_metrics *)
Definition learned_threshold_metrics (s : auto) (now : float) : res learned_metrics :=
  let learned_charge_power := active_learned_charge_power s now in
  scale ← learned_charge_power_scale s now;
  mret (mkLearnedMetrics learned_charge_power (current_learned_charge_power_state s now) scale
          (match learned_charge_power with Some _ => "adaptive" | None => "static" end)).

(** The entries that are copied from the battery metrics. *)
Definition BATTERY_SNAPSHOT_FIELDS : list (string * string) :=
  [("battery_surplus_penalty_w", "surplus_penalty_w");
   ("battery_unadjusted_surplus_penalty_w", "unadjusted_surplus_penalty_w");
   ("battery_near_term_adjustment_w", "near_term_adjustment_w");
   ("ev_priority_active", "ev_priority_active"); ("ev_priority_credit_w", "ev_priority_credit_w");
   ("ev_priority_available_surplus_w", "ev_priority_available_surplus_w");
   ("ev_priority_reclaimable_charge_w", "ev_priority_reclaimable_charge_w");
   ("ev_priority_running_load_w", "ev_priority_running_load_w");
   ("ev_priority_soc", "ev_priority_soc"); ("ev_priority_release_soc", "ev_priority_release_soc");
   ("battery_support_mode", "mode");
   ("battery_discharge_balance_policy_enabled", "discharge_balance_policy_enabled");
   ("battery_discharge_balance_warning_active", "discharge_balance_warning_active");
   ("battery_discharge_balance_warning_error_w", "discharge_balance_warning_error_w");
   ("battery_discharge_balance_warn_threshold_w", "discharge_balance_warn_threshold_w");
   ("battery_discharge_balance_bias_mode", "discharge_balance_bias_mode");
   ("battery_discharge_balance_bias_gate_active", "discharge_balance_bias_gate_active");
   ("battery_discharge_balance_bias_start_error_w", "discharge_balance_bias_start_error_w");
   ("battery_discharge_balance_bias_penalty_w", "discharge_balance_bias_penalty_w");
   ("battery_discharge_balance_coordination_policy_enabled", "discharge_balance_coordination_policy_enabled");
   ("battery_discharge_balance_coordination_support_mode", "discharge_balance_coordination_support_mode");
   ("battery_discharge_balance_coordination_feasibility", "discharge_balance_coordination_feasibility");
   ("battery_discharge_balance_coordination_gate_active", "discharge_balance_coordination_gate_active");
   ("battery_discharge_balance_coordination_start_error_w", "discharge_balance_coordination_start_error_w");
   ("battery_discharge_balance_coordination_penalty_w", "discharge_balance_coordination_penalty_w");
   ("battery_discharge_balance_coordination_advisory_active", "discharge_balance_coordination_advisory_active");
   ("battery_discharge_balance_coordination_advisory_reason", "discharge_balance_coordination_advisory_reason");
   ("battery_charge_power_w", "charge_power_w");
   ("battery_discharge_power_w", "discharge_power_w");
   ("battery_charge_activity_ratio", "charge_activity_ratio");
   ("battery_discharge_activity_ratio", "discharge_activity_ratio");
   ("battery_learning_profile_count", "learning_profile_count");
   ("battery_observed_max_charge_power_w", "observed_max_charge_power_w");
   ("battery_observed_max_discharge_power_w", "observed_max_discharge_power_w");
   ("battery_typical_response_delay_seconds", "typical_response_delay_seconds");
   ("battery_support_bias", "support_bias"); ("battery_day_support_bias", "day_support_bias");
   ("battery_night_support_bias", "night_support_bias");
   ("battery_import_support_bias", "import_support_bias"); ("battery_export_bias", "export_bias");
   ("battery_battery_first_export_bias", "battery_first_export_bias");
   ("battery_power_smoothing_ratio", "power_smoothing_ratio");
   ("battery_reserve_band_floor_soc", "reserve_band_floor_soc");
   ("battery_reserve_band_ceiling_soc", "reserve_band_ceiling_soc");
   ("battery_reserve_band_width_soc", "reserve_band_width_soc");
   ("battery_headroom_charge_w", "battery_headroom_charge_w");
   ("battery_headroom_discharge_w", "battery_headroom_discharge_w");
   ("expected_near_term_export_w", "expected_near_term_export_w");
   ("expected_near_term_import_w", "expected_near_term_import_w")].

(** auto/logic_gates_metrics.py: AutoDecisionMetrics._auto_metrics_snapshot *)
Definition auto_metrics_snapshot (avg_surplus_power avg_grid_power battery_soc : float)
    (threshold : threshold_metrics) (smoothing : smoothing_metrics) (battery : metrics)
    (learned : learned_metrics) : res metrics :=
  decision_surplus ← (v ← od_item "decision_surplus" battery; required_float v);
  raw_decision_surplus ← (v ← od_item "raw_decision_surplus" battery; required_float v);
  copied ← map_res (fun '(key, source) => v ← od_item source battery; mret (key, v))
             BATTERY_SNAPSHOT_FIELDS;
  mret ([("surplus", VFloat decision_surplus);
         ("grid", VFloat smoothing.(sm_grid));
         ("raw_surplus", VFloat avg_surplus_power);
         ("decision_surplus_before_battery_penalty", VFloat raw_decision_surplus);
         ("raw_grid", VFloat avg_grid_power);
         ("soc", VFloat battery_soc);
         ("profile", VStr threshold.(tm_profile));
         ("start_threshold", VFloat threshold.(tm_start_threshold));
         ("stop_threshold", VFloat threshold.(tm_stop_threshold));
         ("learned_charge_power", val_of_float learned.(lm_learned_charge_power));
         ("learned_charge_power_state", VStr learned.(lm_learned_charge_power_state));
         ("threshold_scale", VFloat learned.(lm_threshold_scale));
         ("threshold_mode", VStr learned.(lm_threshold_mode));
         ("stop_alpha", VFloat smoothing.(sm_stop_alpha));
         ("stop_alpha_stage", VStr smoothing.(sm_stop_alpha_stage));
         ("surplus_volatility", val_of_float smoothing.(sm_surplus_volatility))] ++ copied)%list.

(** auto/logic_gates_metrics.py: AutoDecisionMetrics.set_scheduled_night_metrics *)
Definition set_scheduled_night_metrics (grid_power battery_soc : option float) : M auto unit :=
  modify (replace_metrics
    [("surplus", VNone); ("grid", val_of_float grid_power); ("soc", val_of_float battery_soc);
     ("profile", VNone); ("start_threshold", VNone); ("stop_threshold", VNone);
     ("learned_charge_power", VNone); ("learned_charge_power_state", VNone);
     ("threshold_scale", VNone); ("threshold_mode", VNone); ("stop_alpha", VNone);
     ("stop_alpha_stage", VNone); ("surplus_volatility", VNone)]).

Section metrics.
Context {AP : AutoPorts} {BB : BatteryBalance}.

(** auto/logic_gates_metrics.py: AutoDecisionMetrics._priority_running_load *)
Definition priority_running_load (active relay_on : bool) (s : auto) : res float :=
  if negb active || negb relay_on then Ok f0 else charging_power_w s.

(** auto/logic_gates_metrics.py: AutoDecisionMetrics._ev_priority_metrics *)
Definition ev_priority_metrics (decision_surplus_power pv_power grid_power battery_soc : float)
    (relay_on : bool) (battery_activity : metrics) : M auto priority_metrics :=
  s ← get;
  let policy := policy_of s in
  active ← update_ev_priority_state battery_soc policy.(ev_priority_soc) policy.(ev_priority_release_soc);
  let base_surplus_w := fmax f0 decision_surplus_power in
  observed_charge_w ← lift (activity_power battery_activity "charge_power_w");
  let reclaimable_charge_w := reclaimable_charge_power observed_charge_w grid_power in
  s ← get;
  running_load_w ← lift (priority_running_load active relay_on s);
  let available_surplus_w :=
    priority_available_surplus active base_surplus_w pv_power reclaimable_charge_w running_load_w in
  mret (mkPriorityMetrics active (fmax f0 (available_surplus_w - base_surplus_w)%F) available_surplus_w
          (if active then reclaimable_charge_w else f0) running_load_w policy.(ev_priority_soc)
          policy.(ev_priority_release_soc)).

(** auto/logic_gates_metrics.py: AutoDecisionMetrics._battery_adjusted_surplus_metrics *)
Definition battery_adjusted_surplus_metrics
    (decision_surplus_power pv_power grid_power battery_soc : float) (relay_on : bool) : M auto metrics :=
  s ← get;
  battery_activity ← lift (combined_battery_activity_context s);
  total_surplus_penalty_w ← lift (activity_power battery_activity "surplus_penalty_w");
  charge_penalty_w ← lift (activity_power battery_activity "charge_penalty_w");
  near_term_adjustment_w ← lift (near_term_grid_adjustment battery_activity);
  let profile_count := learning_profile_count battery_activity in
  priority ← ev_priority_metrics decision_surplus_power pv_power grid_power battery_soc relay_on
               battery_activity;
  let applied_surplus_penalty_w :=
    applied_surplus_penalty total_surplus_penalty_w charge_penalty_w priority.(pr_active) in
  let available_surplus_w := priority.(pr_available_surplus_w) in
  mret (fold_left (fun d '(key, v) => od_set key v d)
    [("decision_surplus",
      VFloat (available_surplus_w - applied_surplus_penalty_w + near_term_adjustment_w)%F);
     ("raw_decision_surplus", VFloat decision_surplus_power);
     ("surplus_penalty_w", VFloat applied_surplus_penalty_w);
     ("unadjusted_surplus_penalty_w", VFloat total_surplus_penalty_w);
     ("near_term_adjustment_w", VFloat near_term_adjustment_w);
     ("learning_profile_count", profile_count);
     ("ev_priority_active", VInt (if priority.(pr_active) then 1 else 0));
     ("ev_priority_credit_w", VFloat priority.(pr_credit_w));
     ("ev_priority_available_surplus_w", VFloat available_surplus_w);
     ("ev_priority_reclaimable_charge_w", VFloat priority.(pr_reclaimable_charge_w));
     ("ev_priority_running_load_w", VFloat priority.(pr_running_load_w));
     ("ev_priority_soc", VFloat priority.(pr_activation_soc));
     ("ev_priority_release_soc", VFloat priority.(pr_release_soc))] battery_activity).

(** auto/logic_gates_metrics.py: AutoDecisionMetrics.update_average_metrics *)
Definition update_average_metrics (now pv_power grid_power battery_soc : float) (relay_on : bool)
    : M auto (option float * option float) :=
  let surplus_power := get_available_surplus_watts pv_power grid_power in
  add_auto_sample now surplus_power grid_power;;
  s ← get;
  match average_auto_metric sample_surplus s, average_auto_metric sample_grid s with
  | Some avg_surplus_power, Some avg_grid_power =>
    threshold ← surplus_threshold_metrics battery_soc;
    smoothing ← smoothing_metrics_of relay_on avg_surplus_power avg_grid_power;
    battery ← battery_adjusted_surplus_metrics smoothing.(sm_surplus) pv_power smoothing.(sm_grid)
                battery_soc relay_on;
    s ← get;
    learned ← lift (learned_threshold_metrics s now);
    snapshot ← lift (auto_metrics_snapshot avg_surplus_power avg_grid_power battery_soc threshold
                       smoothing battery learned);
    modify (replace_metrics snapshot);;
    decision_surplus ← lift (v ← od_item "decision_surplus" battery; required_float v);
    mret (Some decision_surplus, Some smoothing.(sm_grid))
  | _, _ => mret (None, None)
  end.

End metrics.
