(* ===== verification/AutoGates.v ===== *)
(** * Auto mode: runtime gates

    [auto/logic_gates_runtime.py] with the intermediate decisions of
    [auto/logic_types.py] and the cutover contract of [core/contracts_snapshot.py].
    [None] is the pending decision, [Some b] a settled one; log messages are left out. *)

From S2P Require Import Prelude PyFloat PyValue Contracts BackendModels Service CommonAuto OrderedMap AutoPolicy Schedule AutoState AutoSamples.

(** ** Decisions *)

(** auto/logic_types.py: RelayDecisionState *)
Record RelayDecisionState := mkDecision { relay_on : option bool }.

(** auto/logic_types.py: RelayDecisionState.pending *)
Definition pending : RelayDecisionState := mkDecision None.

(** auto/logic_types.py: NO_RELAY_DECISION *)
Definition NO_RELAY_DECISION : RelayDecisionState := pending.

(** auto/logic_types.py: RelayDecisionState.resolved *)
Definition resolved (on : bool) : RelayDecisionState := mkDecision (Some on).

(** auto/logic_types.py: RelayDecisionState.is_pending *)
Definition is_pending (d : RelayDecisionState) : bool :=
  match d.(relay_on) with None => true | Some _ => false end.

(** auto/logic_types.py: RelayDecisionState.resolved_value *)
Definition resolved_value (d : RelayDecisionState) : res bool :=
  match d.(relay_on) with Some on => Ok on | None => Err TypeError end.

(** ** Cutover confirmation *)

(** core/contracts_snapshot.py: _cutover_blocked_by_pending_or_active *)
Definition cutover_blocked_by_pending_or_active (pending_state : option bool)
    (relay_on confirmed_output : bool) : bool :=
  bool_decide (is_Some pending_state) || relay_on || confirmed_output.

(** core/contracts_snapshot.py: _confirmed_after_requested *)
Definition confirmed_after_requested (confirmed_at requested_at : option float) : bool :=
  match finite_of confirmed_at, finite_of requested_at with
  | Some confirmed_timestamp, Some requested_timestamp =>
    (confirmed_timestamp >=? requested_timestamp)%F
  | _, _ => false
  end.

(** core/contracts_snapshot.py: _cutover_request_satisfied *)
Definition cutover_request_satisfied (confirmed_at requested_at : option float) : bool :=
  match requested_at with None => true | Some _ => confirmed_after_requested confirmed_at requested_at end.

(** core/contracts_snapshot.py: cutover_confirmed_off *)
Definition cutover_confirmed_off (relay_on : bool) (pending_state : option bool)
    (confirmed_output : bool) (confirmed_at requested_at : option float) (now max_age_seconds : float)
    : res bool :=
  if cutover_blocked_by_pending_or_active pending_state relay_on confirmed_output then Ok false
  else
    recent ← timestamp_age_within (val_of_float confirmed_at) now max_age_seconds f1;
    mret (if negb recent then false else cutover_request_satisfied confirmed_at requested_at).

(** ** Timing *)

(** auto/logic_gates_runtime.py: AutoRuntimeGates._minimum_runtime_elapsed *)
Definition minimum_runtime_elapsed (s : auto) (now : float) : bool :=
  match s.(relay_last_changed_at) with
  | None => true
  | Some changed_at => (now - changed_at >=? s.(au_cfg).(auto_min_runtime_seconds))%F
  end.

(** auto/logic_gates_runtime.py: AutoRuntimeGates._minimum_offtime_elapsed *)
Definition minimum_offtime_elapsed (s : auto) (now : float) : bool :=
  if minimum_offtime_bypass_active s then true
  else
    match s.(relay_last_off_at) with
    | None => true
    | Some off_at => (now - off_at >=? s.(au_cfg).(auto_min_offtime_seconds))%F
    end.

(** auto/logic_gates_runtime.py: AutoRuntimeGates.grid_recently_read *)
Definition grid_recently_read (s : auto) (grid_power : option float) (now : float) : bool :=
  match s.(last_grid_at) with
  | None => bool_decide (is_Some grid_power)
  | Some read_at => (now - read_at <=? s.(au_cfg).(auto_grid_missing_stop_seconds))%F
  end.

(** ** Delayed stops *)

(** auto/logic_gates_runtime.py: AutoRuntimeGates._stop_tracking_needs_reset *)
Definition stop_tracking_needs_reset (stop_since : option float) (current_stop_key : option string)
    (active_stop_key : string) : bool :=
  match stop_since with
  | None => true
  | Some _ =>
    match current_stop_key with
    | Some key => negb (key =? active_stop_key)%string
    | None => false
    end
  end.

(** auto/logic_gates_runtime.py: AutoRuntimeGates._stop_delay_elapsed *)
Definition stop_delay_elapsed (stop_since now delay_seconds : float) : bool :=
  (now - stop_since >=? delay_seconds)%F.

(** auto/logic_gates_runtime.py: AutoRuntimeGates._reset_stop_tracking *)
Definition reset_stop_tracking (now : float) (active_stop_key : string) : M auto bool :=
  s ← get;
  if negb (stop_tracking_needs_reset s.(auto_stop_condition_since) s.(auto_stop_condition_reason)
             active_stop_key)
  then mret false
  else
    modify (fun s => s <| auto_stop_condition_since := Some now |>
                       <| auto_stop_condition_reason := Some active_stop_key |>);;
    mret true.

(** auto/logic_gates_runtime.py: AutoRuntimeGates._ensure_stop_tracking_reason *)
Definition ensure_stop_tracking_reason (active_stop_key : string) : M auto unit :=
  s ← get;
  match s.(auto_stop_condition_reason) with
  | None => modify (fun s => s <| auto_stop_condition_reason := Some active_stop_key |>)
  | Some _ => mret tt
  end.

Section gates.
Context {AP : AutoPorts}.

(** auto/logic_gates_runtime.py: AutoRuntimeGates._arm_or_fire_stop *)
Definition arm_or_fire_stop (now : float) (reason : string) (cached_inputs : bool)
    (delay_seconds : option float) (stop_key : option string) : M auto RelayDecisionState :=
  let active_stop_key := default reason stop_key in
  armed ← reset_stop_tracking now active_stop_key;
  if armed : bool then mret NO_RELAY_DECISION
  else
    ensure_stop_tracking_reason active_stop_key;;
    s ← get;
    let effective_delay := default s.(au_cfg).(auto_stop_delay_seconds) delay_seconds in
    match s.(auto_stop_condition_since) with
    | None => raise AssertionError
    | Some stop_since =>
      if negb (stop_delay_elapsed stop_since now effective_delay) then mret NO_RELAY_DECISION
      else set_health reason cached_inputs (Some false);; mret (resolved false)
    end.

(** auto/logic_gates_runtime.py: AutoRuntimeGates._pending_stop_or_running *)
Definition pending_stop_or_running (now : float) (stop_reason : string) (cached_inputs : bool)
    (running_reason : string) (delay_seconds : option float) (stop_key : option string) : M auto bool :=
  decision ← arm_or_fire_stop now stop_reason cached_inputs delay_seconds stop_key;
  if is_pending decision then set_health_result running_reason cached_inputs true else mret false.

(** ** Modes *)

(** auto/logic_gates_runtime.py: AutoRuntimeGates.handle_non_auto_mode *)
Definition handle_non_auto_mode (relay_on : bool) : M auto bool :=
  reset_auto_state;;
  reset_mode_cutover;;
  set_auto_state "idle";;
  auto_save;;
  mret relay_on.

(** auto/logic_gates_runtime.py: AutoRuntimeGates.handle_disabled_mode *)
Definition handle_disabled_mode (cached_inputs : bool) : M auto bool :=
  reset_auto_state;;
  reset_mode_cutover;;
  set_health "disabled" cached_inputs (Some false);;
  auto_save;;
  mret false.

(** auto/logic_gates_runtime.py: AutoRuntimeGates._confirmed_cutover_pm_status *)
Definition confirmed_cutover_pm_status (s : auto) : option (list (string * pyval)) * option float :=
  match s.(au_svc).(last_confirmed_pm_status) with
  | None => (None, None)
  | Some pm => (Some pm, s.(au_svc).(last_confirmed_pm_status_at))
  end.

(** auto/logic_gates_runtime.py: AutoRuntimeGates._cutover_relay_off_confirmed *)
Definition cutover_relay_off_confirmed (relay_on : bool) (now : float) (s : auto) : res bool :=
  let pending_state := fst (peek_pending_relay_command s) in
  match confirmed_cutover_pm_status s with
  | (None, _) => Ok false
  | (Some pm, confirmed_at) =>
    cutover_confirmed_off relay_on pending_state
      (py_bool (default (VBool true) (table_get "output" pm))) confirmed_at
      s.(au_svc).(relay_sync_requested_at) now (confirmed_relay_state_max_age_seconds s.(au_svc).(cfg))
  end.

(** auto/logic_gates_runtime.py: AutoRuntimeGates._complete_cutover_pending *)
Definition complete_cutover_pending : M auto unit := complete_mode_cutover;; auto_save.

(** auto/logic_gates_runtime.py: AutoRuntimeGates.handle_cutover_pending *)
Definition handle_cutover_pending (relay_on cached_inputs : bool) : M auto RelayDecisionState :=
  s ← get;
  if negb (mode_cutover_pending s) then mret NO_RELAY_DECISION
  else
    let now := now_of s in
    reset_auto_state;;
    s ← get;
    confirmed ← lift (cutover_relay_off_confirmed relay_on now s);
    if negb confirmed then
      set_health "mode-transition" cached_inputs (Some false);; mret (resolved false)
    else complete_cutover_pending;; mret NO_RELAY_DECISION.

(** ** Inputs *)

(** auto/logic_gates_runtime.py: AutoRuntimeGates._normalized_battery_soc *)
Definition normalized_battery_soc (battery_soc : option float) : M auto (option float) :=
  match battery_soc with
  | None => mret None
  | Some soc =>
    if ((f0 <=? soc) && (soc <=? f_of_Z 100))%F then
      modify (fun s => s <| last_battery_allow_warning := None |>);; mret (Some soc)
    else s ← get; lift (port_warning_throttled s);; mret None
  end.

(** auto/logic_gates_runtime.py: AutoRuntimeGates._allowed_missing_battery_soc *)
Definition allowed_missing_battery_soc (relay_on : bool) (now : float) (cached_inputs : bool)
    : M auto (option float * RelayDecisionState) :=
  s ← get;
  when (match s.(last_battery_allow_warning) with
        | None => true
        | Some warned_at => (now - warned_at >? s.(au_cfg).(auto_battery_scan_interval_seconds))%F
        end)
    (modify (fun s => s <| last_battery_allow_warning := Some now |>));;
  set_health "battery-soc-missing-allowed" cached_inputs (Some relay_on);;
  s ← get;
  mret (Some (policy_of s).(resume_soc), NO_RELAY_DECISION).

(** auto/logic_gates_runtime.py: AutoRuntimeGates._blocked_missing_battery_soc *)
Definition blocked_missing_battery_soc (relay_on cached_inputs : bool)
    : M auto (option float * RelayDecisionState) :=
  reset_auto_state;;
  set_health "battery-soc-missing" cached_inputs (Some relay_on);;
  mret (None, resolved relay_on).

(** auto/logic_gates_runtime.py: AutoRuntimeGates.resolve_battery_soc *)
Definition resolve_battery_soc (battery_soc : option float) (relay_on : bool) (now : float)
    (cached_inputs : bool) : M auto (option float * RelayDecisionState) :=
  soc ← normalized_battery_soc battery_soc;
  match soc with
  | Some soc => mret (Some soc, NO_RELAY_DECISION)
  | None =>
    s ← get;
    if s.(au_cfg).(auto_allow_without_battery_soc)
    then allowed_missing_battery_soc relay_on now cached_inputs
    else blocked_missing_battery_soc relay_on cached_inputs
  end.

(** auto/logic_gates_runtime.py: AutoRuntimeGates.handle_grid_missing *)
Definition handle_grid_missing (relay_on : bool) (now : float) (cached_inputs : bool) : M auto bool :=
  clear_auto_start_tracking true;;
  modify (fun s => s <| grid_recovery_required := true |> <| grid_recovery_since := None |>);;
  if negb relay_on then idle_result_with_health "grid-missing" cached_inputs
  else
    s ← get;
    if negb (minimum_runtime_elapsed s now)
    then running_result_with_health "grid-missing" cached_inputs
    else pending_stop_or_running now "grid-missing" cached_inputs "grid-missing" None None.

(** auto/logic_gates_runtime.py: AutoRuntimeGates._grid_recovery_completes_immediately *)
Definition grid_recovery_completes_immediately (now recovery_seconds : float) : M auto bool :=
  if (recovery_seconds >? f0)%F then mret false
  else
    modify (fun s => s <| grid_recovery_since := Some now |> <| grid_recovery_required := false |>);;
    mret true.

(** auto/logic_gates_runtime.py: AutoRuntimeGates._grid_recovery_waiting *)
Definition grid_recovery_waiting (now recovery_seconds : float) : M auto bool :=
  s ← get;
  match s.(grid_recovery_since) with
  | None => modify (fun s => s <| grid_recovery_since := Some now |>);; mret true
  | Some since => mret (now - since <? recovery_seconds)%F
  end.

(** auto/logic_gates_runtime.py: AutoRuntimeGates._grid_recovery_wait_decision *)
Definition grid_recovery_wait_decision (relay_on cached_inputs : bool) : M auto RelayDecisionState :=
  if relay_on then mret NO_RELAY_DECISION
  else
    clear_auto_start_tracking false;;
    resolved <$> set_health_result "waiting-grid-recovery" cached_inputs false.

(** auto/logic_gates_runtime.py: AutoRuntimeGates.handle_grid_recovery_start_gate *)
Definition handle_grid_recovery_start_gate (relay_on : bool) (now : float) (cached_inputs : bool)
    : M auto RelayDecisionState :=
  s ← get;
  if negb s.(grid_recovery_required) then mret NO_RELAY_DECISION
  else
    let recovery_seconds := (policy_of s).(grid_recovery_start_seconds) in
    immediately ← grid_recovery_completes_immediately now recovery_seconds;
    if immediately : bool then mret NO_RELAY_DECISION
    else
      waiting ← grid_recovery_waiting now recovery_seconds;
      if waiting : bool then grid_recovery_wait_decision relay_on cached_inputs
      else
        modify (fun s => s <| grid_recovery_required := false |>);;
        mret NO_RELAY_DECISION.

(** auto/logic_gates_runtime.py: AutoRuntimeGates._policy_stop_reason *)
Definition policy_stop_reason (s : auto) (battery_soc : float) (grid_power : option float)
    : option string :=
  let policy := policy_of s in
  if (battery_soc <? policy.(min_soc))%F then Some "auto-stop"
  else
    match grid_power with
    | Some grid => if (grid >=? policy.(stop_grid_import_watts))%F then Some "auto-stop" else None
    | None => None
    end.

(** auto/logic_gates_runtime.py: AutoRuntimeGates._known_missing_input_stop_reason *)
Definition known_missing_input_stop_reason (s : auto) (battery_soc : float)
    (grid_power : option float) (daytime_window_open : bool) : option string :=
  if s.(au_cfg).(auto_night_lock_stop) || negb daytime_window_open then Some "night-lock"
  else policy_stop_reason s battery_soc grid_power.

(** auto/logic_gates_runtime.py: AutoRuntimeGates.handle_missing_inputs *)
Definition handle_missing_inputs (relay_on : bool) (battery_soc : float) (grid_power : option float)
    (now : float) (cached_inputs : bool) : M auto bool :=
  clear_auto_start_tracking true;;
  if negb relay_on then idle_result_with_health "inputs-missing" cached_inputs
  else
    s ← get;
    let daytime_window_open := is_within_auto_daytime_window s in
    match known_missing_input_stop_reason s battery_soc grid_power daytime_window_open with
    | Some stop_reason =>
      if negb (minimum_runtime_elapsed s now)
      then running_result_with_health "inputs-missing" cached_inputs
      else pending_stop_or_running now stop_reason cached_inputs "inputs-missing" None None
    | None => running_result_with_health "inputs-missing" cached_inputs
    end.

(** auto/logic_gates_runtime.py: AutoRuntimeGates.handle_common_runtime_gates *)
Definition handle_common_runtime_gates (relay_on : bool) (now : float) (cached_inputs : bool)
    : M auto RelayDecisionState :=
  s ← get;
  if (now - s.(started_at) <? s.(au_cfg).(auto_startup_warmup_seconds))%F then
    reset_auto_state;; resolved <$> set_health_result "warmup" cached_inputs relay_on
  else if (now <? s.(manual_override_until))%F then
    reset_auto_state;; resolved <$> set_health_result "manual-override" cached_inputs relay_on
  else mret NO_RELAY_DECISION.

End gates.
