(* ===== verification/AutoDecision.v ===== *)
(** * Auto mode: relay decisions

    [auto/logic_decisions.py] and the workflow of [auto/logic_decisions_preaverage.py]:
    one call of [auto_decide_relay] turns the current inputs into the desired relay
    state. *)

From S2P Require Import Prelude PyFloat PyValue Contracts BackendModels Service CommonAuto OrderedMap AutoPolicy Schedule AutoState AutoSamples AutoMetrics AutoGates.

(** ** Start and stop conditions *)

(** auto/logic_decisions.py: AutoRelayDecision._night_lock_stop_requested *)
Definition night_lock_stop_requested (s : auto) (daytime_window_open : bool) : bool :=
  s.(au_cfg).(auto_night_lock_stop) && negb daytime_window_open.

(** auto/logic_decisions.py: AutoRelayDecision._policy_relay_on_stop_reason *)
Definition policy_relay_on_stop_reason (avg_surplus_power avg_grid_power battery_soc : float)
    : M auto (option string) :=
  '(_, stop_surplus_watts, _) ← surplus_thresholds_for_soc battery_soc;
  s ← get;
  let policy := policy_of s in
  mret (if (battery_soc <? policy.(min_soc))%F then Some "auto-stop-soc"
        else if (avg_grid_power >=? policy.(stop_grid_import_watts))%F then Some "auto-stop-grid"
        else if (avg_surplus_power <=? stop_surplus_watts)%F then Some "auto-stop-surplus"
        else None).

(** auto/logic_decisions.py: AutoRelayDecision._relay_on_stop_reason *)
Definition relay_on_stop_reason (avg_surplus_power avg_grid_power battery_soc : float)
    (daytime_window_open runtime_elapsed : bool) : M auto (option string) :=
  if negb runtime_elapsed then mret None
  else
    s ← get;
    if night_lock_stop_requested s daytime_window_open then mret (Some "night-lock")
    else policy_relay_on_stop_reason avg_surplus_power avg_grid_power battery_soc.

(** auto/logic_decisions.py: AutoRelayDecision._relay_off_start_conditions_met *)
Definition relay_off_start_conditions_met (offtime_elapsed daytime_window_open : bool)
    (avg_surplus_power avg_grid_power battery_soc start_surplus_watts : float)
    (policy : AutoPolicy) : bool :=
  offtime_elapsed && daytime_window_open && (avg_surplus_power >=? start_surplus_watts)%F &&
  (avg_grid_power <=? policy.(start_max_grid_import_watts))%F &&
  (battery_soc >=? policy.(resume_soc))%F.

(** auto/logic_decisions.py: AutoRelayDecision._threshold_waiting_health_reason *)
Definition threshold_waiting_health_reason (avg_surplus_power avg_grid_power battery_soc : float)
    : M auto string :=
  s ← get;
  let policy := policy_of s in
  '(start_surplus_watts, _, _) ← surplus_thresholds_for_soc battery_soc;
  mret (if (avg_surplus_power <? start_surplus_watts)%F then "waiting-surplus"
        else if (avg_grid_power >? policy.(start_max_grid_import_watts))%F then "waiting-grid"
        else if (battery_soc <? policy.(resume_soc))%F then "waiting-soc"
        else "waiting").

(** auto/logic_decisions.py: AutoRelayDecision._waiting_health_reason *)
Definition waiting_health_reason (offtime_elapsed daytime_window_open : bool)
    (avg_surplus_power avg_grid_power battery_soc : float) : M auto string :=
  if negb offtime_elapsed then mret "waiting-offtime"
  else if negb daytime_window_open then mret "waiting-daytime"
  else threshold_waiting_health_reason avg_surplus_power avg_grid_power battery_soc.

Section relay.
Context {AP : AutoPorts}.

(** auto/logic_decisions.py: AutoRelayDecision.handle_relay_on *)
Definition handle_relay_on (avg_surplus_power avg_grid_power battery_soc : float)
    (daytime_window_open : bool) (now : float) (cached_inputs : bool) : M auto bool :=
  modify (fun s => s <| auto_start_condition_since := None |>);;
  s ← get;
  stop_reason ← relay_on_stop_reason avg_surplus_power avg_grid_power battery_soc
                  daytime_window_open (minimum_runtime_elapsed s now);
  match stop_reason with
  | None => running_result_with_health "running" cached_inputs
  | Some stop_reason =>
    s ← get;
    let '(stop_delay_seconds, reported_reason) :=
      if (stop_reason =? "auto-stop-surplus")%string
      then (Some (policy_of s).(stop_surplus_delay_seconds), "auto-stop")
      else if str_in stop_reason ["auto-stop-grid"; "auto-stop-soc"] then (None, "auto-stop")
      else (None, stop_reason) in
    pending_stop_or_running now reported_reason cached_inputs "running" stop_delay_seconds
      (Some stop_reason)
  end.

(** auto/logic_decisions.py: AutoRelayDecision._arm_or_fire_start *)
Definition arm_or_fire_start (now : float) (cached_inputs : bool) : M auto bool :=
  s ← get;
  match s.(auto_start_condition_since) with
  | None => modify (fun s => s <| auto_start_condition_since := Some now |>);; mret false
  | Some since =>
    if (now - since >=? s.(au_cfg).(auto_start_delay_seconds))%F then
      clear_minimum_offtime_bypass;;
      auto_save;;
      set_health "auto-start" cached_inputs (Some true);;
      mret true
    else mret false
  end.

(** auto/logic_decisions.py: AutoRelayDecision._set_waiting_health *)
Definition set_waiting_health (offtime_elapsed daytime_window_open : bool)
    (avg_surplus_power avg_grid_power battery_soc : float) (cached_inputs : bool) : M auto unit :=
  reason ← waiting_health_reason offtime_elapsed daytime_window_open avg_surplus_power avg_grid_power
             battery_soc;
  set_health reason cached_inputs (Some false).

(** auto/logic_decisions.py: AutoRelayDecision.handle_relay_off *)
Definition handle_relay_off (avg_surplus_power avg_grid_power battery_soc : float)
    (daytime_window_open : bool) (now : float) (cached_inputs : bool) : M auto bool :=
  '(start_surplus_watts, _, _) ← surplus_thresholds_for_soc battery_soc;
  modify (fun s => s <| auto_stop_condition_since := None |>);;
  s ← get;
  autostart ← lift (autostart_enabled s);
  if negb autostart then idle_result_with_health "autostart-disabled" cached_inputs
  else
    s ← get;
    let offtime_elapsed := minimum_offtime_elapsed s now in
    if relay_off_start_conditions_met offtime_elapsed daytime_window_open avg_surplus_power
         avg_grid_power battery_soc start_surplus_watts (policy_of s)
    then arm_or_fire_start now cached_inputs
    else
      clear_auto_start_tracking false;;
      set_waiting_health offtime_elapsed daytime_window_open avg_surplus_power avg_grid_power
        battery_soc cached_inputs;;
      mret false.

(** ** Scheduled night charging *)

(** auto/logic_decisions.py: AutoRelayDecision._clear_scheduled_night_stop_tracking *)
Definition clear_scheduled_night_stop_tracking : M auto unit :=
  (fun _ => tt) <$> clear_auto_decision_tracking.

(** auto/logic_decisions.py: AutoRelayDecision._scheduled_night_blocked_health *)
Definition scheduled_night_blocked_health (s : auto) (now : float) : res (option string) :=
  autostart ← autostart_enabled s;
  mret (if negb autostart then Some "autostart-disabled"
        else if negb (minimum_offtime_elapsed s now) then Some "waiting-offtime"
        else None).

(** auto/logic_decisions.py: AutoRelayDecision._scheduled_night_start_result *)
Definition scheduled_night_start_result (now : float) (cached_inputs : bool) : M auto bool :=
  s ← get;
  blocked_health ← lift (scheduled_night_blocked_health s now);
  match blocked_health with
  | Some reason => idle_result_with_health reason cached_inputs
  | None =>
    clear_scheduled_night_stop_tracking;;
    running_result_with_health "scheduled-night-charge" cached_inputs
  end.

(** auto/logic_decisions.py: AutoRelayDecision.scheduled_night_decision *)
Definition scheduled_night_decision (relay_on : bool) (now : float) (cached_inputs : bool)
    : M auto bool :=
  decision ← handle_common_runtime_gates relay_on now cached_inputs;
  if negb (is_pending decision) then lift (resolved_value decision)
  else if relay_on then
    clear_scheduled_night_stop_tracking;;
    running_result_with_health "scheduled-night-charge" cached_inputs
  else scheduled_night_start_result now cached_inputs.

(** ** Before the averages *)

(** auto/logic_decisions_preaverage.py: AutoDecisionWorkflow._resolved_auto_decision *)
Definition resolved_auto_decision (decision : RelayDecisionState) : option bool :=
  decision.(AutoGates.relay_on).

(** auto/logic_decisions_preaverage.py: AutoDecisionWorkflow._pre_average_gate_result *)
Definition pre_average_gate_result (decision : RelayDecisionState)
    : option (RelayDecisionState * option float) :=
  match resolved_auto_decision decision with None => None | Some _ => Some (decision, None) end.

(** auto/logic_decisions_preaverage.py: AutoDecisionWorkflow._pre_average_mode_decision *)
Definition pre_average_mode_decision (relay_on cached_inputs : bool) : M auto RelayDecisionState :=
  s ← get;
  mode ← lift (port_mode s);
  uses_auto ← lift (mode_uses_auto_logic (VInt mode));
  if negb uses_auto then resolved <$> handle_non_auto_mode relay_on
  else
    s ← get;
    enabled ← lift (controller_enabled s);
    if negb enabled then resolved <$> handle_disabled_mode cached_inputs
    else handle_cutover_pending relay_on cached_inputs.

(** auto/logic_decisions_preaverage.py: AutoDecisionWorkflow._pre_average_input_gate_decision *)
Definition pre_average_input_gate_decision (relay_on : bool) (grid_power : option float) (now : float)
    (cached_inputs : bool) : M auto RelayDecisionState :=
  s ← get;
  scheduled ← lift (scheduled_night_charge_active s now);
  if scheduled : bool then mret NO_RELAY_DECISION
  else if negb (grid_recently_read s grid_power now)
  then resolved <$> handle_grid_missing relay_on now cached_inputs
  else handle_grid_recovery_start_gate relay_on now cached_inputs.

(** auto/logic_decisions_preaverage.py: AutoDecisionWorkflow._pre_average_gate_chain_result *)
Definition pre_average_gate_chain_result (relay_on : bool) (grid_power : option float) (now : float)
    (cached_inputs : bool) : M auto (option (RelayDecisionState * option float)) :=
  decision ← pre_average_mode_decision relay_on cached_inputs;
  match pre_average_gate_result decision with
  | Some early_decision => mret (Some early_decision)
  | None =>
    decision ← pre_average_input_gate_decision relay_on grid_power now cached_inputs;
    mret (pre_average_gate_result decision)
  end.

(** auto/logic_decisions_preaverage.py: AutoDecisionWorkflow._pre_average_battery_soc_result *)
Definition pre_average_battery_soc_result (battery_soc : option float) (relay_on : bool) (now : float)
    (cached_inputs : bool)
    : M auto (option float * option (RelayDecisionState * option float)) :=
  '(resolved_battery_soc, battery_soc_decision) ←
    resolve_battery_soc battery_soc relay_on now cached_inputs;
  mret (resolved_battery_soc, pre_average_gate_result battery_soc_decision).

(** auto/logic_decisions_preaverage.py: AutoDecisionWorkflow._pre_average_missing_input_result *)
Definition pre_average_missing_input_result (relay_on : bool)
    (pv_power battery_soc grid_power : option float) (now : float) (cached_inputs : bool)
    : M auto (RelayDecisionState * option float) :=
  match pv_power, grid_power with
  | Some _, Some _ => mret (NO_RELAY_DECISION, battery_soc)
  | _, _ =>
    match battery_soc with
    | None => raise AssertionError
    | Some soc =>
      on ← handle_missing_inputs relay_on soc grid_power now cached_inputs;
      mret (resolved on, None)
    end
  end.

(** auto/logic_decisions_preaverage.py: AutoDecisionWorkflow._pre_average_decision *)
Definition pre_average_decision (relay_on : bool) (pv_power battery_soc grid_power : option float)
    (now : float) (cached_inputs : bool) : M auto (RelayDecisionState * option float) :=
  early_decision ← pre_average_gate_chain_result relay_on grid_power now cached_inputs;
  match early_decision with
  | Some decision => mret decision
  | None =>
    s ← get;
    scheduled ← lift (scheduled_night_charge_active s now);
    if scheduled : bool then mret (NO_RELAY_DECISION, battery_soc)
    else
      '(battery_soc, early_decision) ←
        pre_average_battery_soc_result battery_soc relay_on now cached_inputs;
      match early_decision with
      | Some decision => mret decision
      | None =>
        pre_average_missing_input_result relay_on pv_power battery_soc grid_power now cached_inputs
      end
  end.

(** ** From the averages *)

(** auto/logic_decisions_preaverage.py: AutoDecisionWorkflow._post_average_decision *)
Definition post_average_decision (relay_on : bool) (now : float) (cached_inputs : bool)
    : M auto (RelayDecisionState * option bool) :=
  decision ← handle_common_runtime_gates relay_on now cached_inputs;
  if negb (is_pending decision) then mret (decision, None)
  else
    s ← get;
    mret (NO_RELAY_DECISION, Some (is_within_auto_daytime_window s)).

(** auto/logic_decisions_preaverage.py: AutoDecisionWorkflow._decision_from_averages *)
Definition decision_from_averages (relay_on : bool)
    (avg_surplus_power avg_grid_power battery_soc now : float) (cached_inputs : bool) : M auto bool :=
  '(decision, daytime_window_open) ← post_average_decision relay_on now cached_inputs;
  match resolved_auto_decision decision with
  | Some on => mret on
  | None =>
    match daytime_window_open with
    | None => raise AssertionError
    | Some daytime_window_open =>
      if relay_on
      then handle_relay_on avg_surplus_power avg_grid_power battery_soc daytime_window_open now
             cached_inputs
      else handle_relay_off avg_surplus_power avg_grid_power battery_soc daytime_window_open now
             cached_inputs
    end
  end.

(** auto/logic_decisions_preaverage.py: AutoDecisionWorkflow._decision_from_available_averages *)
Definition decision_from_available_averages (relay_on : bool) (battery_soc now : float)
    (cached_inputs : bool) (averages : option (float * float)) : M auto bool :=
  match averages with
  | None => mret relay_on
  | Some (avg_surplus_power, avg_grid_power) =>
    decision_from_averages relay_on avg_surplus_power avg_grid_power battery_soc now cached_inputs
  end.

(** auto/logic_decisions_preaverage.py: AutoDecisionWorkflow._required_average_inputs *)
Definition required_average_inputs (pv_power battery_soc grid_power : option float)
    : res (float * float * float) :=
  match pv_power, battery_soc, grid_power with
  | Some pv, Some soc, Some grid => Ok (pv, soc, grid)
  | _, _, _ => Err AssertionError
  end.

Context {BB : BatteryBalance}.

(** auto/logic_decisions_preaverage.py: AutoDecisionWorkflow._averaged_auto_metrics *)
Definition averaged_auto_metrics (now pv_power grid_power battery_soc : float)
    (relay_on cached_inputs : bool) : M auto (option (float * float)) :=
  averages ← update_average_metrics now pv_power grid_power battery_soc relay_on;
  match averages with
  | (Some avg_surplus_power, Some avg_grid_power) => mret (Some (avg_surplus_power, avg_grid_power))
  | _ => set_health "averaging" cached_inputs (Some relay_on);; mret None
  end.

(** auto/logic_decisions_preaverage.py: AutoDecisionWorkflow._auto_decision_after_pre_average *)
Definition auto_decision_after_pre_average (relay_on : bool)
    (pv_power battery_soc grid_power : option float) (now : float) (cached_inputs : bool)
    (decision : RelayDecisionState) : M auto bool :=
  match resolved_auto_decision decision with
  | Some on => mret on
  | None =>
    s ← get;
    scheduled ← lift (scheduled_night_charge_active s now);
    if scheduled : bool then
      set_scheduled_night_metrics grid_power battery_soc;;
      scheduled_night_decision relay_on now cached_inputs
    else
      '(pv_power, battery_soc, grid_power) ←
        lift (required_average_inputs pv_power battery_soc grid_power);
      averages ← averaged_auto_metrics now pv_power grid_power battery_soc relay_on cached_inputs;
      decision_from_available_averages relay_on battery_soc now cached_inputs averages
  end.

(** auto/logic_decisions_preaverage.py: AutoDecisionWorkflow.auto_decide_relay *)
Definition auto_decide_relay (relay_on : bool) (pv_power battery_soc grid_power : option float)
    : M auto bool :=
  s ← get;
  let cached_inputs := s.(auto_cached_inputs_used) in
  let now := now_of s in
  '(decision, battery_soc) ←
    pre_average_decision relay_on pv_power battery_soc grid_power now cached_inputs;
  auto_decision_after_pre_average relay_on pv_power battery_soc grid_power now cached_inputs decision.

End relay.

(** ** The night lock while readings are missing *)

(** With readings at hand the night lock needs the setting and a closed daytime window; with
    readings missing one of the two suffices: a configured lock stops by day, and an
    unconfigured one at night. *)
Lemma missing_inputs_night_lock_differs s soc grid daytime :
  s.(au_cfg).(auto_night_lock_stop) = daytime ->
  known_missing_input_stop_reason s soc grid daytime = Some "night-lock" /\
  night_lock_stop_requested s daytime = false.
Proof.
  intros H. unfold known_missing_input_stop_reason, night_lock_stop_requested. rewrite H.
  by destruct daytime.
Qed.
