(* ===== verification/AutoTracking.v ===== *)
(** * Auto mode: what a decision may change

    The frames of the Auto operations: reporting health changes only what is
    reported, the gates leave the samples and settings alone, and only a few
    operations touch the start and stop timers.  The properties in [AutoSafety] follow
    each operation with these lemmas. *)

From S2P Require Import Prelude PyFloat PyValue Contracts BackendModels Service CommonAuto OrderedMap AutoPolicy Schedule AutoState AutoSamples AutoMetrics AutoGates AutoDecision.

(** ** Frames *)

(** [same f]: a run leaves [f] of the state as it was. *)
Definition same {B} (f : auto -> B) (s s' : auto) : Prop := f s' = f s.

#[export] Instance same_preorder {B} (f : auto -> B) : PreOrder (same f).
Proof. split; [done|]. intros s1 s2 s3. unfold same. congruence. Qed.

Definition svc_unreported (v : svc) : svc := v <| last_auto_metrics_surplus := None |>.

Definition svc_tracked (v : svc) : svc :=
  (svc_unreported v) <| last_auto_metrics_phase := None |>.

Definition svc_settled (v : svc) : svc := (svc_tracked v) <| ignore_min_offtime_once := false |>.

(** The state without what [set_health] reports. *)
Definition unreported (s : auto) : auto :=
  mkAuto (svc_unreported s.(au_svc)) s.(au_cfg) s.(virtual_mode) s.(virtual_enable)
    s.(virtual_autostart) s.(auto_mode_cutover_pending) s.(auto_cached_inputs_used)
    s.(auto_samples) s.(stop_smoothed_surplus_power) s.(stop_smoothed_grid_power)
    s.(auto_start_condition_since) s.(auto_stop_condition_since) s.(auto_stop_condition_reason)
    s.(relay_last_changed_at) s.(relay_last_off_at) s.(auto_high_soc_profile_active)
    s.(ev_priority_active) s.(grid_recovery_required) s.(grid_recovery_since) s.(last_grid_at)
    s.(learned_charge_power_state) s.(learned_charge_power_watts)
    s.(learned_charge_power_updated_at) s.(last_battery_allow_warning) s.(started_at)
    s.(manual_override_until) "" 0 "" 0 [] [].

(** The state without what the gates before the averages may change either, once the
    mode gate has passed. *)
Definition gate_core (s : auto) : auto :=
  mkAuto (svc_unreported s.(au_svc)) s.(au_cfg) s.(virtual_mode) s.(virtual_enable)
    s.(virtual_autostart) s.(auto_mode_cutover_pending) s.(auto_cached_inputs_used)
    s.(auto_samples) s.(stop_smoothed_surplus_power) s.(stop_smoothed_grid_power)
    s.(auto_start_condition_since) s.(auto_stop_condition_since) s.(auto_stop_condition_reason)
    s.(relay_last_changed_at) s.(relay_last_off_at) s.(auto_high_soc_profile_active)
    s.(ev_priority_active) false None s.(last_grid_at) s.(learned_charge_power_state)
    s.(learned_charge_power_watts) s.(learned_charge_power_updated_at) None s.(started_at)
    s.(manual_override_until) "" 0 "" 0 [] [].

(** The state without what the metrics may change either: settings, switching times and
    the start and stop timers. *)
Definition tracked (s : auto) : auto :=
  mkAuto (svc_tracked s.(au_svc)) s.(au_cfg) s.(virtual_mode) s.(virtual_enable)
    s.(virtual_autostart) s.(auto_mode_cutover_pending) s.(auto_cached_inputs_used) [] None None
    s.(auto_start_condition_since) s.(auto_stop_condition_since) s.(auto_stop_condition_reason)
    s.(relay_last_changed_at) s.(relay_last_off_at) None false false None s.(last_grid_at)
    s.(learned_charge_power_state) s.(learned_charge_power_watts)
    s.(learned_charge_power_updated_at) None s.(started_at) s.(manual_override_until) "" 0 "" 0 []
    [].

(** The attributes no decision changes. *)
Definition settled (s : auto) : auto :=
  mkAuto (svc_settled s.(au_svc)) s.(au_cfg) s.(virtual_mode) s.(virtual_enable)
    s.(virtual_autostart) false s.(auto_cached_inputs_used) [] None None None None None
    s.(relay_last_changed_at) s.(relay_last_off_at) None false false None s.(last_grid_at)
    s.(learned_charge_power_state) s.(learned_charge_power_watts)
    s.(learned_charge_power_updated_at) None s.(started_at) s.(manual_override_until) "" 0 "" 0 []
    [].

(** A coarser part of the state is a part of the finer one. *)
Lemma same_coarser {B} (f : auto -> auto) (g : auto -> B) s s' :
  (forall x, g (f x) = g x) -> same f s s' -> same g s s'.
Proof. unfold same. intros Hg H. by rewrite <- (Hg s'), <- (Hg s), H. Qed.

Lemma unreported_gate s s' : same unreported s s' -> same gate_core s s'.
Proof. by apply same_coarser. Qed.

Lemma gate_tracked s s' : same gate_core s s' -> same tracked s s'.
Proof. by apply same_coarser. Qed.

Lemma tracked_settled s s' : same tracked s s' -> same settled s s'.
Proof. by apply same_coarser. Qed.

Lemma keeps_mono {S A} (R R' : S -> S -> Prop) (m : M S A) :
  (forall s s', R s s' -> R' s s') -> keeps R m -> keeps R' m.
Proof. intros H Hm s. by apply H. Qed.

Create HintDb frames.
#[export] Hint Resolve unreported_gate gate_tracked tracked_settled : frames.

Section frames.
Context {AP : AutoPorts}.

Lemma keeps_set_health reason cached intent : keeps (same unreported) (set_health reason cached intent).
Proof.
  unfold set_health, apply_decision_trace_postconditions, write_auto_audit_event.
  keeps_go idtac.
Qed.

Lemma keeps_set_health_result reason cached b : keeps (same unreported) (set_health_result reason cached b).
Proof. unfold set_health_result. keeps_go ltac:(simple apply keeps_set_health). Qed.

Lemma keeps_surplus_thresholds soc : keeps (same tracked) (surplus_thresholds_for_soc soc).
Proof. unfold surplus_thresholds_for_soc. keeps_go idtac. Qed.

Lemma keeps_smoothing_metrics on surplus grid :
  keeps (same tracked) (smoothing_metrics_of on surplus grid).
Proof. unfold smoothing_metrics_of, smoothed_decision_metrics. keeps_go idtac. Qed.

Context {BB : BatteryBalance}.

Lemma keeps_ev_priority_metrics surplus pv grid soc on activity :
  keeps (same tracked) (ev_priority_metrics surplus pv grid soc on activity).
Proof. unfold ev_priority_metrics, update_ev_priority_state. keeps_go idtac. Qed.

Lemma keeps_battery_metrics surplus pv grid soc on :
  keeps (same tracked) (battery_adjusted_surplus_metrics surplus pv grid soc on).
Proof.
  unfold battery_adjusted_surplus_metrics.
  keeps_go ltac:(simple apply keeps_ev_priority_metrics).
Qed.

Lemma keeps_update_average_metrics now pv grid soc on :
  keeps (same tracked) (update_average_metrics now pv grid soc on).
Proof.
  unfold update_average_metrics, add_auto_sample, surplus_threshold_metrics.
  keeps_go ltac:(first [simple apply keeps_battery_metrics | simple apply keeps_smoothing_metrics
                       | simple apply keeps_surplus_thresholds]).
Qed.

(** Reporting, in the middle of an operation. *)
Lemma wp_set_health reason cached intent Q s :
  (forall r s', same unreported s s' -> Q r s') -> wp (set_health reason cached intent) Q s.
Proof. apply wp_keeps, keeps_set_health. Qed.

Lemma wp_set_health_result reason cached b (Q : res bool -> auto -> Prop) s :
  (forall s', same unreported s s' -> Q (Ok b) s') ->
  (forall e s', same unreported s s' -> Q (Err e) s') ->
  wp (set_health_result reason cached b) Q s.
Proof.
  intros H1 H2. unfold set_health_result. apply wp_bind, wp_set_health.
  intros [[]|e] s' Hs; [by apply wp_ret, H1 | by apply H2].
Qed.

End frames.

(** [frame_read H g as E]: [E] states that [g] reads the same before and after. *)
Tactic Notation "frame_read" constr(H) uconstr(g) "as" simple_intropattern(E) :=
  lazymatch type of H with
  | same _ ?s ?s' =>
    let e := fresh in
    assert (g s' = g s) as e by exact (f_equal g H); cbv beta in e; revert e; intros E
  end.

(** ** The stop timer *)

(** The timer [(since, reason)] after a decision that found the cause [key]. *)
Definition stop_timer_follows (s s' : auto) (key : string) : Prop :=
  s'.(auto_start_condition_since) = s.(auto_start_condition_since) /\
  forall t, s'.(auto_stop_condition_since) = Some t ->
    s'.(auto_stop_condition_reason) = Some key /\
    (t = now_of s \/
     s.(auto_stop_condition_since) = Some t /\
     (s.(auto_stop_condition_reason) = None \/ s.(auto_stop_condition_reason) = Some key)).

Definition stop_timer_fired (s : auto) (key : string) (delay : float) : Prop :=
  exists t, s.(auto_stop_condition_since) = Some t /\
    (s.(auto_stop_condition_reason) = None \/ s.(auto_stop_condition_reason) = Some key) /\
    stop_delay_elapsed t (now_of s) delay = true.

(** A run only clears timers. *)
Definition relaxed (s s' : auto) : Prop :=
  (s'.(auto_start_condition_since) = s.(auto_start_condition_since) \/
   s'.(auto_start_condition_since) = None) /\
  (s'.(auto_stop_condition_since) = s.(auto_stop_condition_since) /\
   s'.(auto_stop_condition_reason) = s.(auto_stop_condition_reason) \/
   s'.(auto_stop_condition_since) = None).

#[export] Instance relaxed_preorder : PreOrder relaxed.
Proof.
  split; unfold relaxed; [intros s; tauto|]. intros s1 s2 s3 [H1 H2] [H3 H4].
  split; intuition congruence.
Qed.

Lemma tracked_relaxed s s' : same tracked s s' -> relaxed s s'.
Proof.
  intros H. frame_read H auto_start_condition_since as E1.
  frame_read H auto_stop_condition_since as E2. frame_read H auto_stop_condition_reason as E3.
  split; auto.
Qed.

Lemma unreported_tracked s s' : same unreported s s' -> same tracked s s'.
Proof. auto with frames. Qed.

#[export] Hint Resolve tracked_relaxed unreported_tracked : frames.

Section stop_timer.
Context {AP : AutoPorts}.

(** The two ways in which tracking a stop goes on: the timer starts now, or it has been
    running for the same reason. *)
Lemma reset_stop_tracking_spec key s :
  wp (reset_stop_tracking (now_of s) key)
    (fun r s' =>
       same settled s s' /\ s'.(auto_start_condition_since) = s.(auto_start_condition_since) /\
       (r = Ok true /\ s'.(auto_stop_condition_since) = Some (now_of s) /\
          s'.(auto_stop_condition_reason) = Some key \/
        r = Ok false /\ s' = s /\ is_Some s.(auto_stop_condition_since) /\
          (s.(auto_stop_condition_reason) = None \/ s.(auto_stop_condition_reason) = Some key))) s.
Proof.
  unfold reset_stop_tracking, stop_tracking_needs_reset. repeat wp_step.
  destruct (s.(auto_stop_condition_since)) as [since|] eqn:Es; cbn [negb].
  - destruct (s.(auto_stop_condition_reason)) as [k|] eqn:Er.
    + destruct (String.eqb_spec k key) as [->|Hk]; cbn [negb]; repeat wp_step.
      * split_and!; try done. right. eauto 6.
      * split_and!; try done. by left.
    + cbn [negb]. repeat wp_step. split_and!; try done. right. eauto 6.
  - repeat wp_step. split_and!; try done. by left.
Qed.

Lemma ensure_stop_tracking_reason_spec key s :
  s.(auto_stop_condition_reason) = None \/ s.(auto_stop_condition_reason) = Some key ->
  wp (ensure_stop_tracking_reason key)
    (fun r s' =>
       r = Ok tt /\ same settled s s' /\
       s'.(auto_start_condition_since) = s.(auto_start_condition_since) /\
       s'.(auto_stop_condition_since) = s.(auto_stop_condition_since) /\
       s'.(auto_stop_condition_reason) = Some key) s.
Proof. unfold ensure_stop_tracking_reason. by intros [E|E]; repeat wp_step; rewrite E; repeat wp_step. Qed.

Lemma stop_timer_follows_tracked s s1 s2 key :
  stop_timer_follows s s1 key -> same tracked s1 s2 -> stop_timer_follows s s2 key.
Proof.
  intros [H1 H2] H. frame_read H auto_start_condition_since as E1.
  frame_read H auto_stop_condition_since as E2. frame_read H auto_stop_condition_reason as E3.
  split; [congruence|]. intros t. rewrite E2, E3. apply H2.
Qed.

Lemma pending_stop_or_running_spec reason cached running delay stop_key s :
  let key := default reason stop_key in
  wp (pending_stop_or_running (now_of s) reason cached running delay stop_key)
    (fun r s' =>
       stop_timer_follows s s' key /\
       (r = Ok false ->
        stop_timer_fired s key (default s.(au_cfg).(auto_stop_delay_seconds) delay))) s.
Proof.
  intros key. unfold pending_stop_or_running, arm_or_fire_stop. fold key.
  apply wp_bind, wp_bind. eapply wp_mono; [apply reset_stop_tracking_spec|].
  intros r s1 (_ & Hstart & [(-> & Hsince & Hreason)|(-> & -> & [since Hs] & Hreason)]).
  - apply wp_ret. cbn [is_pending NO_RELAY_DECISION pending AutoGates.relay_on].
    assert (stop_timer_follows s s1 key) as Hf by (split; [done|]; intros t Ht; split; [done|left; congruence]).
    apply wp_set_health_result; intros; (split; [|done]);
      eapply stop_timer_follows_tracked; eauto with frames.
  - apply wp_bind. eapply wp_mono; [by apply ensure_stop_tracking_reason_spec|].
    clear Hstart. intros r s1 (-> & Hset & Hstart & Hsince & Hreason').
    assert (stop_timer_follows s s1 key) as Hf.
    { split; [done|]. intros t Ht. split; [done|]. right. split; [congruence|done]. }
    repeat wp_step. rewrite Hsince, Hs. frame_read Hset au_cfg as ->.
    destruct (stop_delay_elapsed _ _ _) eqn:Hel; cbn [negb].
    + apply wp_bind, wp_set_health. intros [[]|e] s2 Hs2; repeat wp_step;
        cbn [is_pending resolved AutoGates.relay_on]; repeat wp_step;
        (split; [eapply stop_timer_follows_tracked; eauto with frames|]); [|done].
      intros _. by exists since.
    + apply wp_ret. cbn [is_pending NO_RELAY_DECISION pending AutoGates.relay_on].
      apply wp_set_health_result; intros; (split; [|done]);
        eapply stop_timer_follows_tracked; eauto with frames.
Qed.

End stop_timer.
