(* ===== verification/AutoSafety.v ===== *)
(** * Auto mode: when the relay is switched

    One call of [auto_decide_relay] is followed through its gates ([outcome]), and the
    result is lifted to histories of calls ([history]): Auto starts charging only after
    its start conditions were met at every decision for the start delay, and stops only
    after one cause persisted for its stop delay. *)

From S2P Require Import Prelude PyFloat PyValue Contracts BackendModels Service CommonAuto OrderedMap AutoPolicy Schedule AutoState AutoSamples AutoMetrics AutoGates AutoDecision AutoTracking.

Section decision.
Context {AP : AutoPorts} {BB : BatteryBalance}.

(** ** Conditions *)

Definition auto_mode (s : auto) : Prop :=
  exists mode, port_mode s = Ok mode /\ mode_uses_auto_logic (VInt mode) = Ok true.

(** The cutover from the manual mode is over: the relay was confirmed off. *)
Definition cutover_confirmed (on : bool) (s : auto) : Prop :=
  mode_cutover_pending s = true /\
  cutover_relay_off_confirmed on (now_of s) (snd (reset_auto_state s)) = Ok true.

Definition cutover_waiting (on : bool) (s : auto) : Prop :=
  mode_cutover_pending s = true /\
  cutover_relay_off_confirmed on (now_of s) (snd (reset_auto_state s)) = Ok false.

Definition timers_cleared (s : auto) : Prop :=
  s.(auto_start_condition_since) = None /\ s.(auto_stop_condition_since) = None.

(** The state [s0] in which the Auto mode goes on after its mode gate. *)
Definition passed_mode_gate (on : bool) (s s0 : auto) : Prop :=
  auto_mode s /\ controller_enabled s = Ok true /\
  (mode_cutover_pending s = false /\ s0 = s \/
   cutover_confirmed on s /\ timers_cleared s0 /\ same settled s s0).

(** The battery level a decision uses: a valid reading, or the resume level when the
    policy allows to do without. *)
Definition usable_soc (s : auto) (soc : option float) : option float :=
  let fallback :=
    if s.(au_cfg).(auto_allow_without_battery_soc) then Some (policy_of s).(resume_soc) else None in
  match soc with
  | Some x => if ((f0 <=? x) && (x <=? f_of_Z 100))%F then Some x else fallback
  | None => fallback
  end.

(** Neither the startup warmup nor a manual override holds the relay. *)
Definition runtime_open (s : auto) : Prop :=
  (now_of s - s.(started_at) <? s.(au_cfg).(auto_startup_warmup_seconds))%F = false /\
  (now_of s <? s.(manual_override_until))%F = false.

Definition night_charging (s : auto) : Prop := scheduled_night_charge_active s (now_of s) = Ok true.
Definition no_night_charging (s : auto) : Prop := scheduled_night_charge_active s (now_of s) = Ok false.

(** The averages of the surplus [a] and of the grid power [g] at battery level [c] that
    the metrics component computed from the readings; it left the state [s2]. *)
Definition averages (on : bool) (pv soc grid : option float) (s0 : auto) (c a g : float) (s2 : auto)
    : Prop :=
  exists p w s1,
    pv = Some p /\ grid = Some w /\ usable_soc s0 soc = Some c /\ same gate_core s0 s1 /\
    update_average_metrics (now_of s0) p w c on s1 = (Ok (Some a, Some g), s2).

(** Everything Auto requires before it starts charging, except the delay. *)
Record start_conditions (pv soc grid : option float) (s0 : auto) : Prop := {
  sc_no_night : no_night_charging s0;
  sc_autostart : autostart_enabled s0 = Ok true;
  sc_grid_fresh : grid_recently_read s0 grid (now_of s0) = true;
  sc_runtime_open : runtime_open s0;
  sc_offtime : minimum_offtime_elapsed s0 (now_of s0) = true;
  sc_daytime : is_within_auto_daytime_window s0 = true;
  sc_energy : exists c a g s2 start_watts stop_watts profile,
    averages false pv soc grid s0 c a g s2 /\
    fst (surplus_thresholds_for_soc c s2) = Ok (start_watts, stop_watts, profile) /\
    (start_watts <=? a)%F = true /\
    (g <=? (policy_of s0).(start_max_grid_import_watts))%F = true /\
    ((policy_of s0).(resume_soc) <=? c)%F = true }.

(** Why a running relay may be stopped; the text is the key of the stop timer. *)
Inductive stop_cause (pv soc grid : option float) (s0 : auto) : string -> Prop :=
  | cause_grid_missing :
      no_night_charging s0 -> grid_recently_read s0 grid (now_of s0) = false ->
      stop_cause pv soc grid s0 "grid-missing"
  | cause_inputs_missing c key :
      no_night_charging s0 -> pv = None \/ grid = None -> usable_soc s0 soc = Some c ->
      known_missing_input_stop_reason s0 c grid (is_within_auto_daytime_window s0) = Some key ->
      stop_cause pv soc grid s0 key
  | cause_night_lock c a g s2 :
      no_night_charging s0 -> runtime_open s0 -> averages true pv soc grid s0 c a g s2 ->
      s0.(au_cfg).(auto_night_lock_stop) = true -> is_within_auto_daytime_window s0 = false ->
      stop_cause pv soc grid s0 "night-lock"
  | cause_battery_low c a g s2 :
      no_night_charging s0 -> runtime_open s0 -> averages true pv soc grid s0 c a g s2 ->
      (c <? (policy_of s0).(min_soc))%F = true ->
      stop_cause pv soc grid s0 "auto-stop-soc"
  | cause_grid_import c a g s2 :
      no_night_charging s0 -> runtime_open s0 -> averages true pv soc grid s0 c a g s2 ->
      ((policy_of s0).(stop_grid_import_watts) <=? g)%F = true ->
      stop_cause pv soc grid s0 "auto-stop-grid"
  | cause_surplus c a g s2 start_watts stop_watts profile :
      no_night_charging s0 -> runtime_open s0 -> averages true pv soc grid s0 c a g s2 ->
      fst (surplus_thresholds_for_soc c s2) = Ok (start_watts, stop_watts, profile) ->
      (a <=? stop_watts)%F = true ->
      stop_cause pv soc grid s0 "auto-stop-surplus".

(** How long a cause must persist. *)
Definition stop_delay (s : auto) (key : string) : float :=
  if (key =? "auto-stop-surplus")%string then (policy_of s).(stop_surplus_delay_seconds)
  else s.(au_cfg).(auto_stop_delay_seconds).

Definition start_timer_fired (s : auto) : Prop :=
  exists t, s.(auto_start_condition_since) = Some t /\
    (s.(au_cfg).(auto_start_delay_seconds) <=? now_of s - t)%F = true.

(** What a decision from the state [s0] did to the timers, and why it switched. *)
Record outcome (on : bool) (pv soc grid : option float) (s0 : auto) (r : res bool) (s' : auto)
    : Prop := {
  oc_start_timer : forall t, s'.(auto_start_condition_since) = Some t ->
    ~ is_ok r /\ s0.(auto_start_condition_since) = Some t \/
    on = false /\ start_conditions pv soc grid s0 /\
      (s0.(auto_start_condition_since) = Some t \/ t = now_of s0);
  oc_stop_timer : forall t, s'.(auto_stop_condition_since) = Some t ->
    (on = false \/ ~ is_ok r) /\ s0.(auto_stop_condition_since) = Some t /\
      s'.(auto_stop_condition_reason) = s0.(auto_stop_condition_reason) \/
    on = true /\ minimum_runtime_elapsed s0 (now_of s0) = true /\
      exists key, stop_cause pv soc grid s0 key /\ s'.(auto_stop_condition_reason) = Some key /\
        (t = now_of s0 \/
         s0.(auto_stop_condition_since) = Some t /\
         (s0.(auto_stop_condition_reason) = None \/ s0.(auto_stop_condition_reason) = Some key));
  oc_switch_on : on = false -> r = Ok true ->
    start_timer_fired s0 /\ start_conditions pv soc grid s0 \/
    night_charging s0 /\ autostart_enabled s0 = Ok true /\ runtime_open s0 /\
      minimum_offtime_elapsed s0 (now_of s0) = true;
  oc_switch_off : on = true -> r = Ok false ->
    minimum_runtime_elapsed s0 (now_of s0) = true /\
    exists key, stop_cause pv soc grid s0 key /\ stop_timer_fired s0 key (stop_delay s0 key) }.

(** ** Closing a path *)

Section paths.
Context (pv soc grid : option float) (s0 : auto).

Lemma err_not_ok {A} e : ~ is_ok (Err e : res A).
Proof. by intros [a Ha]. Qed.

(** A path that keeps the relay and starts no timer. *)
Lemma outcome_quiet on r s' :
  (s'.(auto_start_condition_since) = None \/
   ~ is_ok r /\ s'.(auto_start_condition_since) = s0.(auto_start_condition_since)) ->
  (s'.(auto_stop_condition_since) = None \/
   (on = false \/ ~ is_ok r) /\
   s'.(auto_stop_condition_since) = s0.(auto_stop_condition_since) /\
   s'.(auto_stop_condition_reason) = s0.(auto_stop_condition_reason)) ->
  (forall b, r = Ok b -> b = on) ->
  outcome on pv soc grid s0 r s'.
Proof.
  intros H1 H2 H3. split.
  - intros t Ht. left. destruct H1 as [H1|[? H1]]; [congruence|]. split; [done | congruence].
  - intros t Ht. left. destruct H2 as [H2|(? & H2 & ?)]; [congruence|]. split_and!; congruence || done.
  - intros -> Hr. by apply H3 in Hr.
  - intros -> Hr. by apply H3 in Hr.
Qed.

(** A path that tracks a stop. *)
Lemma outcome_stop key s r s' :
  minimum_runtime_elapsed s0 (now_of s0) = true -> stop_cause pv soc grid s0 key ->
  same settled s0 s ->
  s.(auto_stop_condition_since) = s0.(auto_stop_condition_since) ->
  s.(auto_stop_condition_reason) = s0.(auto_stop_condition_reason) ->
  s.(auto_start_condition_since) = None -> stop_timer_follows s s' key ->
  (r = Ok false -> stop_timer_fired s key (stop_delay s key)) ->
  outcome true pv soc grid s0 r s'.
Proof.
  intros Hmin Hcause Hset Es Er Hstart [Hf1 Hf2] Hfired.
  frame_read Hset now_of as En. split.
  - intros t Ht. congruence.
  - intros t Ht. right. split; [done|]. split; [done|]. apply Hf2 in Ht as [Hr Ht].
    rewrite En, Es, Er in Ht. by exists key.
  - done.
  - intros _ Hr. split; [done|]. exists key. split; [done|]. apply Hfired in Hr as (t & Ht & Hr & Hd).
    frame_read Hset (fun x => stop_delay x key) as Ed. rewrite Ed, En in Hd.
    exists t. by rewrite <- Es, <- Er.
Qed.

(** After clearing tracking, reporting ends a path. *)
Lemma wp_report on reason cached b s :
  s.(auto_start_condition_since) = None ->
  (s.(auto_stop_condition_since) = None \/
   on = false /\ s.(auto_stop_condition_since) = s0.(auto_stop_condition_since) /\
   s.(auto_stop_condition_reason) = s0.(auto_stop_condition_reason)) ->
  b = on ->
  wp (set_health_result reason cached b) (outcome on pv soc grid s0) s.
Proof.
  intros H1 H2 ->. apply wp_set_health_result.
  1: intros s' H. 2: intros e s' H.
  all: apply unreported_tracked in H; frame_read H auto_start_condition_since as E1;
    frame_read H auto_stop_condition_since as E2; frame_read H auto_stop_condition_reason as E3;
    apply outcome_quiet; rewrite ?E1, ?E2, ?E3; [by left | intuition | by intros ? [=]].
Qed.

Lemma wp_idle_result reason cached s :
  s.(auto_stop_condition_since) = None \/
  s.(auto_stop_condition_since) = s0.(auto_stop_condition_since) /\
  s.(auto_stop_condition_reason) = s0.(auto_stop_condition_reason) ->
  wp (idle_result_with_health reason cached) (outcome false pv soc grid s0) s.
Proof.
  intros E. unfold idle_result_with_health, clear_auto_start_tracking. repeat wp_step.
  apply wp_report; [done | | done]. cbn. intuition.
Qed.

Lemma wp_running_result reason cached s :
  s.(auto_start_condition_since) = None ->
  wp (running_result_with_health reason cached) (outcome true pv soc grid s0) s.
Proof.
  intros H. unfold running_result_with_health, clear_auto_stop_tracking. repeat wp_step.
  apply wp_report; [done | by left | done].
Qed.

Lemma wp_pending_stop reason cached running delay stop_key s :
  let key := default reason stop_key in
  minimum_runtime_elapsed s0 (now_of s0) = true -> stop_cause pv soc grid s0 key ->
  same settled s0 s ->
  s.(auto_stop_condition_since) = s0.(auto_stop_condition_since) ->
  s.(auto_stop_condition_reason) = s0.(auto_stop_condition_reason) ->
  s.(auto_start_condition_since) = None ->
  default s0.(au_cfg).(auto_stop_delay_seconds) delay = stop_delay s0 key ->
  wp (pending_stop_or_running (now_of s0) reason cached running delay stop_key)
    (outcome true pv soc grid s0) s.
Proof.
  intros key Hmin Hcause Hset Es Er Hstart Hdelay.
  frame_read Hset now_of as En. frame_read Hset au_cfg as Ec.
  frame_read Hset (fun x => stop_delay x key) as Ed.
  rewrite <- En. eapply wp_mono; [apply pending_stop_or_running_spec|].
  intros r s' [Hf Hr]. eapply outcome_stop; eauto. by rewrite Ed, <- Hdelay, <- Ec.
Qed.

(** ** The gates *)

Lemma clear_auto_start_tracking_spec b s :
  wp (clear_auto_start_tracking b)
    (fun r s' => r = Ok tt /\ same settled s s' /\ s'.(auto_start_condition_since) = None /\
       s'.(auto_stop_condition_since) = s.(auto_stop_condition_since) /\
       s'.(auto_stop_condition_reason) = s.(auto_stop_condition_reason)) s.
Proof. by destruct b. Qed.

Lemma grid_missing_outcome on cached :
  no_night_charging s0 -> grid_recently_read s0 grid (now_of s0) = false ->
  wp (handle_grid_missing on (now_of s0) cached) (outcome on pv soc grid s0) s0.
Proof.
  intros Hn Hg. unfold handle_grid_missing. apply wp_bind.
  eapply wp_mono; [apply clear_auto_start_tracking_spec|].
  intros r s (-> & Hset & E1 & E2 & E3). repeat wp_step.
  destruct on; cbn [negb]; [|by apply wp_idle_result; right].
  repeat wp_step. match goal with |- context [minimum_runtime_elapsed ?x _] => set (s1 := x) end.
  assert (same settled s0 s1) as Hset' by (etrans; [exact Hset | reflexivity]).
  frame_read Hset' (fun x => minimum_runtime_elapsed x (now_of s0)) as ->.
  destruct (minimum_runtime_elapsed s0 (now_of s0)) eqn:Hmin; cbn [negb].
  - apply wp_pending_stop; try done. by apply cause_grid_missing.
  - by apply wp_running_result.
Qed.

(** A gate either settles the decision, or passes on with only its own state changed. *)
Definition gated (on : bool) (r : res RelayDecisionState) (s' : auto) : Prop :=
  match r with
  | Err e => outcome on pv soc grid s0 (Err e) s'
  | Ok d =>
    match d.(AutoGates.relay_on) with
    | Some b => outcome on pv soc grid s0 (Ok b) s'
    | None => same gate_core s0 s'
    end
  end.

Lemma gated_resolved on (m : M auto bool) s :
  wp m (outcome on pv soc grid s0) s ->
  wp (resolved <$> m) (fun r s' => gated on r s' /\ r <> Ok NO_RELAY_DECISION) s.
Proof. intros H. apply wp_fmap. eapply wp_mono; [exact H|]. by intros [b|e] s'. Qed.

Lemma outcome_err on e s' : relaxed s0 s' -> outcome on pv soc grid s0 (Err e) s'.
Proof. intros [H1 H2]. apply outcome_quiet; [| |done]; pose proof (@err_not_ok bool e); intuition. Qed.

Lemma gate_relaxed s s' : same gate_core s s' -> relaxed s s'.
Proof. auto with frames. Qed.

Lemma grid_recovery_gate_outcome on cached :
  wp (handle_grid_recovery_start_gate on (now_of s0) cached) (gated on) s0.
Proof.
  unfold handle_grid_recovery_start_gate, grid_recovery_completes_immediately, grid_recovery_waiting,
    grid_recovery_wait_decision.
  repeat wp_step. destruct (grid_recovery_required s0); cbn [negb]; [|by repeat wp_step].
  repeat wp_step. destruct (_ >? _)%F; [|by repeat wp_step]. repeat wp_step.
  destruct (grid_recovery_since s0) as [since|] eqn:Es; repeat wp_step.
  - destruct (_ <? _)%F; [|by repeat wp_step]. destruct on; [by repeat wp_step|].
    unfold clear_auto_start_tracking. repeat wp_step. cbn [when]. repeat wp_step. eapply wp_mono; [apply (wp_report false); [done | right; done | done] | by intros [b|e] s'].
  - destruct on; [by repeat wp_step|].
    unfold clear_auto_start_tracking. repeat wp_step. cbn [when]. repeat wp_step. eapply wp_mono; [apply (wp_report false); [done | right; done | done] | by intros [b|e] s'].
Qed.

Lemma input_gate_outcome on cached :
  wp (pre_average_input_gate_decision on grid (now_of s0) cached)
    (fun r s' => gated on r s' /\
       (r = Ok NO_RELAY_DECISION ->
        night_charging s0 \/ no_night_charging s0 /\ grid_recently_read s0 grid (now_of s0) = true)) s0.
Proof.
  unfold pre_average_input_gate_decision. repeat wp_step.
  unfold night_charging, no_night_charging.
  destruct (scheduled_night_charge_active s0 (now_of s0)) as [[]|e] eqn:En; repeat wp_step.
  - by split; [|left].
  - destruct (grid_recently_read s0 grid (now_of s0)) eqn:Eg; cbn [negb].
    + eapply wp_mono; [apply grid_recovery_gate_outcome|]. intros r s' H. by split; [|right].
    + eapply wp_mono; [by apply gated_resolved, grid_missing_outcome|].
      by intros r s' [? ?].
  - split; [|done]. by apply outcome_err.
Qed.

(** ** Inputs *)

Lemma normalized_soc_spec s :
  same gate_core s0 s ->
  wp (normalized_battery_soc soc)
    (fun r s' =>
       same gate_core s0 s' /\
       match r with
       | Ok (Some c) => usable_soc s0 soc = Some c
       | Ok None =>
         usable_soc s0 soc =
         if s0.(au_cfg).(auto_allow_without_battery_soc) then Some (policy_of s0).(resume_soc) else None
       | Err _ => True
       end) s.
Proof.
  intros Hs. unfold normalized_battery_soc, usable_soc. destruct soc as [x|]; [|by apply wp_ret].
  destruct (_ && _)%F; repeat wp_step; [by split|].
  destruct (port_warning_throttled s) as [[]|e]; repeat wp_step; by split.
Qed.

Lemma battery_soc_outcome on cached s :
  same gate_core s0 s ->
  wp (pre_average_battery_soc_result soc on (now_of s0) cached)
    (fun r s' =>
       match r with
       | Err e => outcome on pv soc grid s0 (Err e) s'
       | Ok (c, early) =>
         match early with
         | Some (d, _) => exists b, d = resolved b /\ outcome on pv soc grid s0 (Ok b) s'
         | None => same gate_core s0 s' /\ exists x, c = Some x /\ usable_soc s0 soc = Some x
         end
       end) s.
Proof.
  intros Hs. unfold pre_average_battery_soc_result, resolve_battery_soc. apply wp_bind, wp_bind.
  eapply wp_mono; [by apply normalized_soc_spec|].
  intros [[c|]|e] s1 [Hs1 Hc]; [| |by apply outcome_err, gate_relaxed].
  { repeat wp_step. split; [done | eauto]. }
  repeat wp_step. frame_read Hs1 au_cfg as ->.
  destruct (auto_allow_without_battery_soc (au_cfg s0)).
  - unfold allowed_missing_battery_soc. repeat wp_step.
    eapply wp_mono with (Q := fun r s' => r = Ok tt /\ same gate_core s0 s').
    { destruct (last_battery_allow_warning s1) as [at_|]; [destruct (_ >? _)%F|]; by repeat wp_step. }
    intros r s2 [-> Hs2]. apply wp_bind, wp_set_health. intros [[]|e] s3 Hs3; repeat wp_step;
      assert (same gate_core s0 s3) as Hs4 by (etrans; eauto with frames).
    + cbn. split; [done|]. frame_read Hs4 policy_of as ->. eauto.
    + by apply outcome_err, gate_relaxed.
  - unfold blocked_missing_battery_soc, reset_auto_state, clear_auto_samples. repeat wp_step.
    apply wp_set_health. intros [[]|e] s3 Hs3; repeat wp_step;
      apply unreported_tracked in Hs3; frame_read Hs3 auto_start_condition_since as E1;
      frame_read Hs3 auto_stop_condition_since as E2.
    + exists on. split; [done|]. apply outcome_quiet; [by left | by left | by intros ? [=]].
    + apply outcome_quiet; [by left | by left | done].
Qed.

Lemma missing_inputs_outcome on c cached s :
  same gate_core s0 s -> no_night_charging s0 -> pv = None \/ grid = None ->
  usable_soc s0 soc = Some c ->
  wp (handle_missing_inputs on c grid (now_of s0) cached) (outcome on pv soc grid s0) s.
Proof.
  intros Hs Hn Hin Hc. unfold handle_missing_inputs. apply wp_bind.
  eapply wp_mono; [apply clear_auto_start_tracking_spec|].
  intros r s1 (-> & Hset & E1 & E2 & E3).
  frame_read Hs auto_stop_condition_since as Es. frame_read Hs auto_stop_condition_reason as Er.
  rewrite Es in E2. rewrite Er in E3.
  assert (same settled s0 s1) as Hset' by (etrans; [|exact Hset]; auto with frames).
  destruct on; cbn [negb]; [|by apply wp_idle_result; right].
  repeat wp_step. frame_read Hset' is_within_auto_daytime_window as ->.
  frame_read Hset' (fun x => known_missing_input_stop_reason x c grid (is_within_auto_daytime_window s0)) as ->.
  destruct (known_missing_input_stop_reason _ _ _ _) as [key|] eqn:Ek; [|by apply wp_running_result].
  frame_read Hset' (fun x => minimum_runtime_elapsed x (now_of s0)) as ->.
  destruct (minimum_runtime_elapsed s0 (now_of s0)) eqn:Hmin; cbn [negb].
  - apply wp_pending_stop; try done.
    + by eapply cause_inputs_missing.
    + unfold stop_delay. cbn. destruct (String.eqb_spec key "auto-stop-surplus"); [|done].
      subst key. unfold known_missing_input_stop_reason, policy_stop_reason in Ek.
      by repeat case_match.
  - by apply wp_running_result.
Qed.

(** ** The relay *)

(** The warmup and the manual override settle the decision or change nothing. *)
Lemma runtime_gates_outcome on cached s :
  same settled s0 s ->
  wp (handle_common_runtime_gates on (now_of s0) cached)
    (fun r s' =>
       match r with
       | Err e => outcome on pv soc grid s0 (Err e) s'
       | Ok d =>
         (exists b, d = resolved b /\ outcome on pv soc grid s0 (Ok b) s') \/
         d = NO_RELAY_DECISION /\ s' = s /\ runtime_open s0
       end) s.
Proof.
  intros Hset. unfold handle_common_runtime_gates, reset_auto_state, clear_auto_samples, runtime_open.
  repeat wp_step. frame_read Hset started_at as ->. frame_read Hset au_cfg as ->.
  frame_read Hset manual_override_until as ->.
  destruct (_ - _ <? _)%F; [|destruct (now_of s0 <? _)%F; [|by repeat wp_step; right]]; repeat wp_step;
    (eapply wp_mono; [apply (wp_report on); [done | by left | done]|]);
    (intros [b|e] s' Ho; [left; by exists b | done]).
Qed.

Lemma thresholds_spec c s :
  wp (surplus_thresholds_for_soc c)
    (fun r s' => same tracked s s' /\ r = fst (surplus_thresholds_for_soc c s)) s.
Proof. split; [apply keeps_surplus_thresholds | done]. Qed.

(** The thresholds do not depend on the timers. *)
Lemma thresholds_timers c s since stop_since :
  fst (surplus_thresholds_for_soc c (s <| auto_start_condition_since := since |>)) =
    fst (surplus_thresholds_for_soc c s) /\
  fst (surplus_thresholds_for_soc c (s <| auto_stop_condition_since := stop_since |>)) =
    fst (surplus_thresholds_for_soc c s).
Proof.
  assert (forall x, (forall v, scale_surplus_thresholds (x <| auto_high_soc_profile_active := v |>) =
             scale_surplus_thresholds (s <| auto_high_soc_profile_active := v |>)) ->
           policy_of x = policy_of s -> x.(auto_high_soc_profile_active) = s.(auto_high_soc_profile_active) ->
           fst (surplus_thresholds_for_soc c x) = fst (surplus_thresholds_for_soc c s)) as H; [|by split; apply H].
  intros x Hx Hp Ha. unfold surplus_thresholds_for_soc, mbind, M_bind, get, modify, lift, mret, M_ret.
  rewrite Hp, Ha. destruct (resolve_threshold_profile _ _ _) as [[profile active] name].
  rewrite Hx. destruct (scale_surplus_thresholds _ _ _) as [[st sp]|e]; [|done].
  by destruct (thresholds_ordered _ _).
Qed.

Lemma relay_on_stop_reason_spec c a g s2 s :
  same settled s0 s -> fst (surplus_thresholds_for_soc c s) = fst (surplus_thresholds_for_soc c s2) ->
  no_night_charging s0 -> runtime_open s0 -> averages true pv soc grid s0 c a g s2 ->
  wp (relay_on_stop_reason a g c (is_within_auto_daytime_window s0) (minimum_runtime_elapsed s0 (now_of s0)))
    (fun r s' =>
       same tracked s s' /\
       forall key, r = Ok (Some key) ->
         minimum_runtime_elapsed s0 (now_of s0) = true /\ stop_cause pv soc grid s0 key /\
         str_in key ["night-lock"; "auto-stop-soc"; "auto-stop-grid"; "auto-stop-surplus"] = true) s.
Proof.
  intros Hs Hts Hn Hopen Ha.
  unfold relay_on_stop_reason, night_lock_stop_requested, policy_relay_on_stop_reason.
  destruct (minimum_runtime_elapsed s0 (now_of s0)); cbn [negb]; [|by apply wp_ret].
  repeat wp_step. frame_read Hs au_cfg as Ec. rewrite Ec. destruct (_ && _) eqn:Hlock.
  { apply andb_prop in Hlock as [? ?%negb_true_iff]. apply wp_ret. split; [done|].
    intros key [= <-]. split_and!; [done | by eapply cause_night_lock | done]. }
  apply wp_bind. eapply wp_mono; [apply thresholds_spec|].
  intros [[[start_watts stop_watts] profile]|e] s1 [Hs1 Ht]; [|by split]. repeat wp_step.
  split; [done|]. frame_read Hs1 policy_of as Ep1. frame_read Hs policy_of as Ep. rewrite Ep1, Ep.
  rewrite Hts in Ht. intros key.
  destruct (c <? _)%F eqn:E1; [|destruct (g >=? _)%F eqn:E2; [|destruct (a <=? _)%F eqn:E3; [|done]]];
    intros [= <-]; (split_and!; [done| |done]).
  - by eapply cause_battery_low.
  - by eapply cause_grid_import.
  - by eapply cause_surplus.
Qed.

Lemma relay_on_outcome c a g cached s :
  same tracked s0 s -> no_night_charging s0 -> runtime_open s0 -> averages true pv soc grid s0 c a g s ->
  wp (handle_relay_on a g c (is_within_auto_daytime_window s) (now_of s0) cached)
    (outcome true pv soc grid s0) s.
Proof.
  intros Hs Hn Hopen Ha. unfold handle_relay_on. repeat wp_step.
  frame_read Hs is_within_auto_daytime_window as ->.
  set (s1 := s <| auto_start_condition_since := None |>).
  assert (same settled s0 s1) as Hs1 by (etrans; [apply tracked_settled, Hs | reflexivity]).
  frame_read Hs1 (fun x => minimum_runtime_elapsed x (now_of s0)) as ->.
  eapply wp_mono; [apply (relay_on_stop_reason_spec c a g s s1); try done; apply thresholds_timers; exact None|].
  intros [[key|]|e] s' [Hs' Hkey].
  - destruct (Hkey key eq_refl) as (Hmin & Hcause & Hin). repeat wp_step.
    assert (same settled s0 s') as Hset by (etrans; [exact Hs1 | by apply tracked_settled]).
    frame_read Hset policy_of as ->.
    frame_read Hs' auto_stop_condition_since as E1. frame_read Hs' auto_stop_condition_reason as E2.
    frame_read Hs' auto_start_condition_since as E3.
    frame_read Hs auto_stop_condition_since as F1. frame_read Hs auto_stop_condition_reason as F2.
    destruct (if (key =? "auto-stop-surplus")%string then _ else _) as [delay reported] eqn:Ed.
    apply wp_pending_stop; try done;
      [etrans; [exact E1 | exact F1] | etrans; [exact E2 | exact F2] |].
    change (default reported (Some key)) with key. unfold stop_delay.
    destruct (key =? "auto-stop-surplus")%string; [by injection Ed as <- _|].
    destruct (str_in key ["auto-stop-grid"; "auto-stop-soc"]); by injection Ed as <- _.
  - apply wp_running_result. by frame_read Hs' auto_start_condition_since as ->.
  - apply outcome_err. frame_read Hs' auto_stop_condition_since as E1.
    frame_read Hs' auto_stop_condition_reason as E2. frame_read Hs' auto_start_condition_since as E3.
    frame_read Hs auto_stop_condition_since as F1. frame_read Hs auto_stop_condition_reason as F2.
    split; [by right | left; split; [exact (eq_trans E1 F1) | exact (eq_trans E2 F2)]].
Qed.

Lemma arm_or_fire_start_outcome cached s :
  same settled s0 s -> s.(auto_start_condition_since) = s0.(auto_start_condition_since) ->
  s.(auto_stop_condition_since) = None -> start_conditions pv soc grid s0 ->
  wp (arm_or_fire_start (now_of s0) cached) (outcome false pv soc grid s0) s.
Proof.
  intros Hset Estart Estop Hc. unfold arm_or_fire_start. repeat wp_step. rewrite Estart.
  assert (forall r s', s'.(auto_stop_condition_since) = None ->
    (s'.(auto_start_condition_since) = s0.(auto_start_condition_since) \/
     s'.(auto_start_condition_since) = Some (now_of s0)) ->
    (r = Ok true -> start_timer_fired s0) -> outcome false pv soc grid s0 r s') as Hclose.
  { intros r s' H1 H2 H3. split; try done.
    - intros t Ht. right. split; [done|]. split; [done|]. destruct H2; [left | right]; congruence.
    - intros t Ht. congruence.
    - intros _ Hr. left. split; [by apply H3 | done]. }
  destruct (s0.(auto_start_condition_since)) as [t|] eqn:Et; [|by repeat wp_step; apply Hclose; auto].
  frame_read Hset au_cfg as Ec. rewrite Ec. destruct (_ >=? _)%F eqn:Hdelay; [|apply wp_ret, Hclose; auto; done].
  unfold clear_minimum_offtime_bypass, auto_save. repeat wp_step.
  match goal with |- context [port_auto_save ?x] => set (s1 := x) end.
  destruct (port_auto_save s1) as [[]|e]; [|by apply Hclose; [exact Estop | left; exact Estart |]].
  apply wp_bind, wp_set_health. intros r s2 H2. apply unreported_tracked in H2.
  frame_read H2 auto_stop_condition_since as E1. frame_read H2 auto_start_condition_since as E2.
  destruct r as [[]|e]; [apply wp_ret|]; (apply Hclose; [exact (eq_trans E1 Estop) | left; exact (eq_trans E2 Estart) |]); [|done].
  intros _. by exists t.
Qed.

(** A report that starts nothing while the relay is off. *)
Lemma wp_report_off (m : M auto unit) s :
  keeps (same tracked) m -> s.(auto_start_condition_since) = None ->
  s.(auto_stop_condition_since) = None ->
  wp (m;; mret false) (outcome false pv soc grid s0) s.
Proof.
  intros Hm H1 H2. apply wp_bind. eapply wp_keeps; [exact Hm|]. intros r s' H.
  frame_read H auto_start_condition_since as E1. frame_read H auto_stop_condition_since as E2.
  destruct r as [[]|e]; [apply wp_ret|]; apply outcome_quiet;
    try (by left; rewrite ?E1, ?E2); [by intros b [= <-] | done].
Qed.

Lemma keeps_waiting_health offtime daytime a g c cached :
  keeps (same tracked) (set_waiting_health offtime daytime a g c cached).
Proof.
  unfold set_waiting_health, waiting_health_reason, threshold_waiting_health_reason.
  keeps_go ltac:(first [simple apply keeps_surplus_thresholds
    | simple apply (keeps_mono (same unreported)); [exact unreported_tracked | simple apply keeps_set_health]]).
Qed.

Lemma relay_off_outcome c a g cached s :
  same tracked s0 s -> no_night_charging s0 -> runtime_open s0 ->
  grid_recently_read s0 grid (now_of s0) = true -> averages false pv soc grid s0 c a g s ->
  wp (handle_relay_off a g c (is_within_auto_daytime_window s) (now_of s0) cached)
    (outcome false pv soc grid s0) s.
Proof.
  intros Hs Hn Hopen Hgrid Ha. unfold handle_relay_off.
  frame_read Hs is_within_auto_daytime_window as ->. apply wp_bind.
  eapply wp_mono; [apply thresholds_spec|]. intros r s1 [Hs1 Ht].
  assert (same tracked s0 s1) as Hs01 by (etrans; [exact Hs | exact Hs1]).
  destruct r as [[[start_watts stop_watts] profile]|e]; [|by apply outcome_err, tracked_relaxed].
  repeat wp_step. set (s2 := s1 <| auto_stop_condition_since := None |>).
  frame_read Hs01 auto_start_condition_since as Estart.
  assert (same settled s0 s2) as Hs2 by (etrans; [apply tracked_settled, Hs01 | reflexivity]).
  assert (same tracked (s0 <| auto_stop_condition_since := None |>) s2) as Hs2'.
  { unfold same, s2. revert Hs01. unfold same. intros H.
    exact (f_equal (fun x => x <| auto_stop_condition_since := None |>) H). }
  frame_read Hs2 autostart_enabled as ->.
  destruct (autostart_enabled s0) as [[]|e] eqn:Eauto; cbn [negb]; repeat wp_step.
  3: { apply outcome_err. split; [left; exact Estart | by right]. }
  2: { by apply wp_idle_result; left. }
  frame_read Hs2' (fun x => minimum_offtime_elapsed x (now_of s0)) as ->.
  frame_read Hs2 policy_of as ->.
  destruct (relay_off_start_conditions_met _ _ _ _ _ _ _) eqn:Hmet.
  - apply arm_or_fire_start_outcome; [exact Hs2 | exact Estart | done |].
    unfold relay_off_start_conditions_met in Hmet. apply andb_prop in Hmet as [[[[? ?]%andb_prop ?]%andb_prop ?]%andb_prop ?].
    split; try done. exists c, a, g, s, start_watts, stop_watts, profile. by split_and!.
  - apply wp_bind, wp_bind, wp_modify, wp_ret. cbv beta iota.
    apply wp_report_off; [apply keeps_waiting_health | done | done].
Qed.

(** ** Scheduled nights *)

Lemma clear_tracking_run s :
  clear_scheduled_night_stop_tracking s =
    (Ok tt, s <| auto_start_condition_since := None |> <| auto_stop_condition_since := None |>
              <| auto_stop_condition_reason := None |>).
Proof. reflexivity. Qed.

Lemma scheduled_night_outcome on cached s :
  same settled s0 s -> same tracked s0 s -> night_charging s0 ->
  wp (scheduled_night_decision on (now_of s0) cached) (outcome on pv soc grid s0) s.
Proof.
  intros Hset Hs Hn. unfold scheduled_night_decision. apply wp_bind.
  eapply wp_mono; [by apply runtime_gates_outcome|].
  intros [d|e] s1; [|done]. intros [(b & -> & Hb)|(-> & -> & Hopen)]; [exact Hb|].
  cbn [is_pending NO_RELAY_DECISION pending AutoGates.relay_on negb].
  frame_read Hs auto_start_condition_since as E1. frame_read Hs auto_stop_condition_since as E2.
  frame_read Hs auto_stop_condition_reason as E3.
  destruct on.
  { apply wp_bind. unfold wp. rewrite clear_tracking_run. by apply wp_running_result. }
  unfold scheduled_night_start_result, scheduled_night_blocked_health. repeat wp_step.
  frame_read Hs autostart_enabled as ->. frame_read Hs (fun x => minimum_offtime_elapsed x (now_of s0)) as ->.
  destruct (autostart_enabled s0) as [[]|e] eqn:Eauto; cbn [mbind res_bind negb mret res_ret].
  3: by apply outcome_err; split; auto.
  2: by apply wp_idle_result; right.
  destruct (minimum_offtime_elapsed s0 (now_of s0)) eqn:Eoff; cbn [negb]; [|by apply wp_idle_result; right].
  apply wp_bind. unfold wp at 1. rewrite clear_tracking_run. cbn [fst snd].
  unfold running_result_with_health, clear_auto_stop_tracking. repeat wp_step.
  apply wp_set_health_result; [intros s' H | intros e s' H]; apply unreported_tracked in H;
    frame_read H auto_start_condition_since as F1; frame_read H auto_stop_condition_since as F2;
    (split; [by intros t Ht; rewrite F1 in Ht | by intros t Ht; rewrite F2 in Ht | | done]); [|done].
  intros _ _. right. done.
Qed.

(** ** After the averages *)

(** The averaging window does not reach into the future. *)
Definition window_valid (s : auto) : Prop :=
  (now_of s <? now_of s - s.(au_cfg).(auto_average_window_seconds))%F = false.

Lemma drop_older_keeps_last cutoff l t x y :
  (t <? cutoff)%F = false -> drop_older cutoff (l ++ [(t, x, y)]) <> [].
Proof.
  intros Ht. induction l as [|[[t' x'] y'] l IH]; cbn; [by rewrite Ht|].
  by destruct (t' <? cutoff)%F.
Qed.

Lemma averages_available p w c on s :
  window_valid s ->
  wp (update_average_metrics (now_of s) p w c on)
    (fun r s' => forall x, r = Ok x -> exists a g, x = (Some a, Some g)) s.
Proof.
  intros Hw. unfold update_average_metrics, add_auto_sample. repeat wp_step.
  set (s1 := s <| auto_samples := _ |>).
  assert (forall f, exists a, average_auto_metric f s1 = Some a) as Hsome.
  { intros f. unfold average_auto_metric. subst s1. cbn [auto_samples upd].
    destruct (drop_older _ _) eqn:E; [|eauto]. by apply drop_older_keeps_last in E. }
  destruct (Hsome sample_surplus) as [a0 ->], (Hsome sample_grid) as [g0 ->].
  match goal with |- wp ?m _ _ => enough (returns (fun x => exists a g, x = (Some a, Some g)) m) as H end.
  { intros x. apply H. }
  repeat (apply returns_last; intros ?). apply returns_ret. eauto.
Qed.

Lemma averages_outcome on p w c cached s :
  same gate_core s0 s -> no_night_charging s0 -> grid_recently_read s0 grid (now_of s0) = true ->
  window_valid s0 -> pv = Some p -> grid = Some w -> usable_soc s0 soc = Some c ->
  wp (averages ← averaged_auto_metrics (now_of s0) p w c on cached;
      decision_from_available_averages on c (now_of s0) cached averages)
    (outcome on pv soc grid s0) s.
Proof.
  intros Hs Hn Hgrid Hw Hp Hwg Hc. unfold averaged_auto_metrics.
  frame_read Hs now_of as En. frame_read Hs window_valid as Ew. rewrite <- Ew in Hw.
  apply wp_bind, wp_bind. rewrite <- En at 1.
  pose proof (averages_available p w c on s Hw) as Hav.
  pose proof (keeps_update_average_metrics (now_of s) p w c on s) as Hk.
  unfold wp at 1. unfold wp in Hav. rewrite En in *.
  destruct (update_average_metrics (now_of s0) p w c on s) as [[x|e] s2] eqn:Erun; cbn [fst snd] in *.
  2: { apply outcome_err, tracked_relaxed. etrans; [by apply gate_tracked | done]. }
  destruct (Hav x eq_refl) as (a & g & ->). apply wp_ret.
  assert (same tracked s0 s2) as Hs2 by (etrans; [by apply gate_tracked | done]).
  assert (averages on pv soc grid s0 c a g s2) as Ha by (exists p, w, s; by split_and!).
  cbn [decision_from_available_averages]. unfold decision_from_averages, post_average_decision.
  apply wp_bind, wp_bind. eapply wp_mono; [apply runtime_gates_outcome, tracked_settled, Hs2|].
  intros [d|e] s3; [|done]. intros [(b & -> & Hb)|(-> & -> & Hopen)]; [by repeat wp_step|].
  repeat wp_step. destruct on; [by apply relay_on_outcome | by apply relay_off_outcome].
Qed.

(** ** From the mode gate on *)

Definition workflow_after_mode (on cached : bool) : M auto bool :=
  '(decision, battery_soc) ←
    (decision ← pre_average_input_gate_decision on grid (now_of s0) cached;
     match pre_average_gate_result decision with
     | Some d => mret d
     | None =>
       s ← get;
       scheduled ← lift (scheduled_night_charge_active s (now_of s0));
       if scheduled : bool then mret (NO_RELAY_DECISION, soc)
       else
         '(battery_soc, early_decision) ← pre_average_battery_soc_result soc on (now_of s0) cached;
         match early_decision with
         | Some d => mret d
         | None => pre_average_missing_input_result on pv battery_soc grid (now_of s0) cached
         end
     end);
  auto_decision_after_pre_average on pv battery_soc grid (now_of s0) cached decision.

Lemma missing_input_present p w on c cached :
  pv = Some p -> grid = Some w ->
  pre_average_missing_input_result on pv c grid (now_of s0) cached = mret (NO_RELAY_DECISION, c).
Proof. by intros -> ->. Qed.

Lemma missing_input_absent on c cached :
  pv = None \/ grid = None ->
  pre_average_missing_input_result on pv (Some c) grid (now_of s0) cached =
    (on' ← handle_missing_inputs on c grid (now_of s0) cached; mret (resolved on', None)).
Proof. by destruct pv, grid; intros []. Qed.

Lemma workflow_after_mode_outcome on cached :
  window_valid s0 -> wp (workflow_after_mode on cached) (outcome on pv soc grid s0) s0.
Proof.
  intros Hw. unfold workflow_after_mode. apply wp_bind, wp_bind.
  eapply wp_mono; [apply input_gate_outcome|]. intros [d|e] s1 [Hg Hn]; [|exact Hg].
  destruct d as [[b|]].
  { cbn [pre_average_gate_result resolved_auto_decision AutoGates.relay_on]. by repeat wp_step. }
  cbn [pre_average_gate_result resolved_auto_decision AutoGates.relay_on]. cbn in Hg.
  specialize (Hn eq_refl). repeat wp_step.
  frame_read Hg (fun x => scheduled_night_charge_active x (now_of s0)) as ->.
  destruct Hn as [Hn|[Hn Hgrid]]; pose proof Hn as Hn'; unfold night_charging, no_night_charging in Hn';
    rewrite Hn'; repeat wp_step.
  { unfold auto_decision_after_pre_average. cbn [resolved_auto_decision NO_RELAY_DECISION pending AutoGates.relay_on].
    repeat wp_step. frame_read Hg (fun x => scheduled_night_charge_active x (now_of s0)) as ->.
    rewrite Hn'. unfold set_scheduled_night_metrics. repeat wp_step. set (s2 := replace_metrics _ s1).
    assert (same tracked s0 s2) as H2 by (etrans; [by apply gate_tracked | reflexivity]).
    apply scheduled_night_outcome; auto with frames. }
  eapply wp_mono; [by apply battery_soc_outcome|]. intros [[x early]|e] s2; [|done].
  destruct early as [[d y]|].
  { intros (b & -> & Hb). by repeat wp_step. }
  intros [H2 (c & -> & Hc)].
  assert (forall s3, same gate_core s0 s3 -> forall p w, pv = Some p -> grid = Some w ->
    wp (auto_decision_after_pre_average on pv (Some c) grid (now_of s0) cached NO_RELAY_DECISION)
      (outcome on pv soc grid s0) s3) as Hend.
  { intros s3 H3 p w Hp Hg'. unfold auto_decision_after_pre_average.
    cbn [resolved_auto_decision NO_RELAY_DECISION pending AutoGates.relay_on]. repeat wp_step.
    frame_read H3 (fun x => scheduled_night_charge_active x (now_of s0)) as ->. rewrite Hn'.
    repeat wp_step. assert (required_average_inputs pv (Some c) grid = Ok (p, c, w)) as -> by (by rewrite Hp, Hg').
    by apply (averages_outcome on p w c cached s3). }
  assert (pv = None \/ grid = None ->
    wp (on' ← handle_missing_inputs on c grid (now_of s0) cached; mret (resolved on', None : option float))
      (fun r s3 => match r with
         | Ok (d, _) => exists b, d = resolved b /\ outcome on pv soc grid s0 (Ok b) s3
         | Err e => outcome on pv soc grid s0 (Err e) s3 end) s2) as Hmiss.
  { intros Hin. apply wp_bind. eapply wp_mono; [by apply missing_inputs_outcome|].
    intros [b|e] s3 Hb; [apply wp_ret; eauto | done]. }
  assert ((exists p w, pv = Some p /\ grid = Some w) \/ (pv = None \/ grid = None)) as [(p & w & Hp & Hg')|Hin]
    by (destruct pv, grid; eauto).
  { rewrite (missing_input_present p w) by done. apply wp_ret. by apply (Hend s2 H2 p w). }
  rewrite missing_input_absent by done. eapply wp_mono; [by apply Hmiss|].
  intros [[d y]|e] s3 Hb; [|done]. destruct Hb as (b & -> & Hb). by repeat wp_step.
Qed.

End paths.

(** ** The mode gate *)

(** Why the mode gate settles a decision by itself. *)
Definition settled_by_mode (on : bool) (s : auto) (b : bool) : Prop :=
  (exists mode, port_mode s = Ok mode /\ mode_uses_auto_logic (VInt mode) = Ok false) /\ b = on \/
  auto_mode s /\ b = false /\
    (controller_enabled s = Ok false \/ controller_enabled s = Ok true /\ cutover_waiting on s).

Lemma reset_auto_state_cleared s :
  timers_cleared (snd (reset_auto_state s)) /\ same settled s (snd (reset_auto_state s)) /\
  relaxed s (snd (reset_auto_state s)).
Proof. split_and!; try done. by split; right. Qed.

(** What is cleared stays cleared. *)
Definition keeps_cleared (s s' : auto) : Prop := timers_cleared s -> timers_cleared s'.

#[local] Instance keeps_cleared_preorder : PreOrder keeps_cleared.
Proof. split; unfold keeps_cleared; [intros s; auto | intros s1 s2 s3; auto]. Qed.

Lemma unreported_cleared s s' : same unreported s s' -> keeps_cleared s s'.
Proof.
  intros H%unreported_tracked [H1 H2]. frame_read H auto_start_condition_since as E1.
  frame_read H auto_stop_condition_since as E2. split; congruence.
Qed.

Lemma keeps_cleared_set_health reason cached intent : keeps keeps_cleared (set_health reason cached intent).
Proof. intros s. apply unreported_cleared, keeps_set_health. Qed.

Lemma cleared_relaxed s s' : timers_cleared s' -> relaxed s s'.
Proof. intros [H1 H2]. by split; right. Qed.

(** A method that runs after the timers were cleared. *)
Lemma wp_cleared {A} (m : M auto A) (Q : res A -> auto -> Prop) s :
  timers_cleared s -> keeps keeps_cleared m -> (forall r s', timers_cleared s' -> Q r s') -> wp m Q s.
Proof. intros Hs Hm HQ. eapply wp_keeps; [exact Hm|]. intros r s' H. by apply HQ, H. Qed.

Lemma handle_disabled_mode_spec cached s :
  wp (handle_disabled_mode cached)
    (fun r s' => timers_cleared s' /\ forall b, r = Ok b -> b = false) s.
Proof.
  assert (returns (fun b => b = false) (handle_disabled_mode cached)) as Hret
    by (unfold handle_disabled_mode; repeat (apply returns_last; intros ?); by apply returns_ret).
  split; [|intros b; apply Hret]. unfold handle_disabled_mode.
  apply (ends_then reset_auto_state _ timers_cleared); [by intros s1|]. intros [].
  change (keeps keeps_cleared (reset_mode_cutover;; set_health "disabled" cached (Some false);; auto_save;; mret false)).
  unfold reset_mode_cutover, auto_save. keeps_go ltac:(simple apply keeps_cleared_set_health). by intros H.
Qed.

Lemma handle_non_auto_mode_spec on s :
  wp (handle_non_auto_mode on) (fun r s' => timers_cleared s' /\ forall b, r = Ok b -> b = on) s.
Proof.
  assert (returns (fun b => b = on) (handle_non_auto_mode on)) as Hret
    by (unfold handle_non_auto_mode; repeat (apply returns_last; intros ?); by apply returns_ret).
  split; [|intros b; apply Hret]. unfold handle_non_auto_mode.
  apply (ends_then reset_auto_state _ timers_cleared); [by intros s1|]. intros [].
  change (keeps keeps_cleared (reset_mode_cutover;; set_auto_state "idle";; auto_save;; mret on)).
  unfold reset_mode_cutover, set_auto_state, auto_save. keeps_go idtac; by intros H.
Qed.

Lemma mode_gate_outcome on cached s :
  wp (pre_average_mode_decision on cached)
    (fun r s' =>
       match r with
       | Ok d =>
         match d.(AutoGates.relay_on) with
         | Some b => timers_cleared s' /\ settled_by_mode on s b
         | None => passed_mode_gate on s s'
         end
       | Err _ => relaxed s s'
       end) s.
Proof.
  unfold pre_average_mode_decision. repeat wp_step.
  destruct (port_mode s) as [mode|e] eqn:Emode; repeat wp_step; [|done].
  destruct (mode_uses_auto_logic (VInt mode)) as [[]|e] eqn:Euses; cbn [negb]; repeat wp_step; [| |done].
  - destruct (controller_enabled s) as [[]|e] eqn:Een; cbn [negb]; repeat wp_step; [| |done].
    + unfold handle_cutover_pending. repeat wp_step.
      destruct (mode_cutover_pending s) eqn:Ecut; cbn [negb]; repeat wp_step.
      2: { split; [by exists mode|]. split; [done|]. by left. }
      destruct (reset_auto_state_cleared s) as (Hc & Hset & Hrel).
      unfold wp at 1. set (s1 := snd (reset_auto_state s)) in *.
      change (fst (reset_auto_state s)) with (Ok tt : res unit). cbv beta iota. repeat wp_step.
      destruct (cutover_relay_off_confirmed on (now_of s) s1) as [[]|e] eqn:Econf; cbn [negb]; [| |exact Hrel].
      * unfold complete_cutover_pending, complete_mode_cutover, auto_save. repeat wp_step.
        set (s2 := set_bypass _ _).
        destruct (port_auto_save s2) as [[]|e]; repeat wp_step; [|exact Hrel].
        split; [by exists mode|]. split; [done|]. right.
        split; [by split|]. split; [exact Hc|]. etrans; [exact Hset | reflexivity].
      * apply wp_bind. apply (wp_cleared _ _ _ Hc); [apply keeps_cleared_set_health|].
        intros [[]|e] s2 H2; repeat wp_step; [|by apply cleared_relaxed].
        split; [done|]. right. split; [by exists mode|]. split; [done|]. right. by split.
    + eapply wp_mono; [apply handle_disabled_mode_spec|].
      intros [b|e] s2 [Hc Hb]; [|by apply cleared_relaxed]. split; [done|]. right.
      split; [by exists mode|]. split; [by apply Hb | by left].
  - eapply wp_mono; [apply handle_non_auto_mode_spec|].
    intros [b|e] s2 [Hc Hb]; [|by apply cleared_relaxed]. split; [done|]. left.
    split; [by exists mode | by apply Hb].
Qed.

(** ** The whole decision *)

(** What one call of [auto_decide_relay] from [s] did. *)
Inductive decided (on : bool) (pv soc grid : option float) (s : auto) (r : res bool) (s' : auto) : Prop :=
  | decided_by_mode b :
      r = Ok b -> settled_by_mode on s b -> timers_cleared s' -> decided on pv soc grid s r s'
  | decided_by_auto s0 :
      passed_mode_gate on s s0 -> outcome on pv soc grid s0 r s' -> decided on pv soc grid s r s'
  | decided_not e :
      r = Err e -> relaxed s s' -> decided on pv soc grid s r s'.

Lemma pre_average_split on pv soc grid now cached :
  forall s, (('(decision, battery_soc) ← pre_average_decision on pv soc grid now cached;
    auto_decision_after_pre_average on pv battery_soc grid now cached decision) : M auto bool) s =
  (decision ← pre_average_mode_decision on cached;
   match resolved_auto_decision decision with
   | Some b => mret b
   | None =>
     '(decision, battery_soc) ←
       (decision ← pre_average_input_gate_decision on grid now cached;
        match pre_average_gate_result decision with
        | Some d => mret d
        | None =>
          s ← get;
          scheduled ← lift (scheduled_night_charge_active s now);
          if scheduled : bool then mret (NO_RELAY_DECISION, soc)
          else
            '(battery_soc, early_decision) ← pre_average_battery_soc_result soc on now cached;
            match early_decision with
            | Some d => mret d
            | None => pre_average_missing_input_result on pv battery_soc grid now cached
            end
        end);
     auto_decision_after_pre_average on pv battery_soc grid now cached decision
   end) s.
Proof.
  intros s. unfold pre_average_decision, pre_average_gate_chain_result, mbind, M_bind.
  destruct (pre_average_mode_decision on cached s) as [[[[b|]]|e] s1]; [done| |done].
  cbn [pre_average_gate_result resolved_auto_decision AutoGates.relay_on].
  destruct (pre_average_input_gate_decision on grid now cached s1) as [[[[b|]]|e] s2]; done.
Qed.

Lemma auto_decide_relay_decided on pv soc grid s :
  window_valid s ->
  wp (auto_decide_relay on pv soc grid) (decided on pv soc grid s) s.
Proof.
  intros Hw. unfold auto_decide_relay. apply wp_bind, wp_get. cbv beta iota zeta.
  unfold wp. rewrite pre_average_split. fold (wp (S := auto) (A := bool)).
  apply wp_bind. eapply wp_mono; [apply mode_gate_outcome|].
  intros [[[b|]]|e] s0; cbn [AutoGates.relay_on resolved_auto_decision].
  - intros [Hc Hb]. apply wp_ret. by eapply decided_by_mode.
  - intros Hp.
    assert (now_of s0 = now_of s /\ window_valid s0) as [<- Hw0].
    { destruct Hp as (_ & _ & [[_ ->]|(_ & _ & Hset)]); [done|].
      frame_read Hset now_of as ->. by frame_read Hset window_valid as ->. }
    eapply wp_mono; [by apply workflow_after_mode_outcome|]. intros r s' H. by eapply decided_by_auto.
  - intros H. by eapply decided_not.
Qed.

End decision.
