(* ===== verification/AutoHistory.v ===== *)
(** * Auto mode: histories of decisions

    The properties of Auto switching: one decision never switches without its
    conditions, and over a history of decisions the conditions held throughout the
    delay.  Between two decisions the rest of the service may change anything, except
    that it only ever clears the start and stop timers. *)

From S2P Require Import Prelude PyFloat PyValue Contracts BackendModels Service CommonAuto OrderedMap AutoPolicy Schedule AutoState AutoSamples AutoMetrics AutoGates AutoDecision AutoTracking AutoSafety.

(** One call of [auto_decide_relay]: its inputs, the state it found, its result. *)
Record decision_event := mkEvent {
  ev_relay_on : bool; ev_pv : option float; ev_soc : option float; ev_grid : option float;
  ev_state : auto; ev_result : res bool }.

Section history.
Context {AP : AutoPorts} {BB : BatteryBalance}.

Inductive history : list decision_event -> auto -> Prop :=
  | history_start s : timers_cleared s -> history [] s
  | history_decision l s1 s on pv soc grid r s' :
      history l s1 -> relaxed s1 s -> window_valid s ->
      auto_decide_relay on pv soc grid s = (r, s') ->
      history (l ++ [mkEvent on pv soc grid s r]) s'.

(** The decision found all conditions to start charging. *)
Definition found_start_conditions (e : decision_event) : Prop :=
  e.(ev_relay_on) = false /\
  exists s0, passed_mode_gate false e.(ev_state) s0 /\
    start_conditions e.(ev_pv) e.(ev_soc) e.(ev_grid) s0.

(** The decision found the cause [key] to stop a relay that ran long enough. *)
Definition found_stop_cause (key : string) (e : decision_event) : Prop :=
  e.(ev_relay_on) = true /\
  exists s0, passed_mode_gate true e.(ev_state) s0 /\
    minimum_runtime_elapsed s0 (now_of s0) = true /\
    stop_cause e.(ev_pv) e.(ev_soc) e.(ev_grid) s0 key.

Definition raised (e : decision_event) : Prop := ~ is_ok e.(ev_result).

(** [since P e l]: the history ends with the decision [e], for which [P] held, and later
    ones that were all excused by [Q] or satisfied [P] as well. *)
Definition uninterrupted (P Q : decision_event -> Prop) (t : float) (l : list decision_event) : Prop :=
  exists l1 e l2, l = (l1 ++ e :: l2)%list /\ now_of e.(ev_state) = t /\ P e /\
    Forall (fun x => Q x \/ P x) l2.

Lemma uninterrupted_now P Q l e : P e -> uninterrupted P Q (now_of e.(ev_state)) (l ++ [e])%list.
Proof. intros H. by exists l, e, []. Qed.

Lemma uninterrupted_next P Q t l e :
  uninterrupted P Q t l -> Q e \/ P e -> uninterrupted P Q t (l ++ [e])%list.
Proof.
  intros (l1 & e1 & l2 & -> & Ht & HP & HF) H. exists l1, e1, (l2 ++ [e])%list.
  rewrite <- app_assoc. split_and!; try done. apply Forall_app. auto.
Qed.

Lemma passed_mode_gate_now on s s0 : passed_mode_gate on s s0 -> now_of s0 = now_of s.
Proof. intros (_ & _ & [[_ ->]|(_ & _ & H)]); [done|]. by frame_read H now_of as ->. Qed.

Lemma passed_mode_gate_night on s s0 : passed_mode_gate on s s0 -> night_charging s0 -> night_charging s.
Proof.
  intros (_ & _ & [[_ ->]|(_ & _ & H)]); [done|].
  by frame_read H (fun x => scheduled_night_charge_active x (now_of x)) as E; unfold night_charging; rewrite E.
Qed.

(** The timers after the mode gate: those of before, or none. *)
Lemma passed_mode_gate_timers on s s0 :
  passed_mode_gate on s s0 -> s0 = s \/ timers_cleared s0.
Proof. intros (_ & _ & [[_ ->]|(_ & ? & _)]); auto. Qed.

Lemma start_timer_step on pv soc grid s r s' t :
  let e := mkEvent on pv soc grid s r in
  decided on pv soc grid s r s' -> s'.(auto_start_condition_since) = Some t ->
  s.(auto_start_condition_since) = Some t /\ (raised e \/ found_start_conditions e) \/
  found_start_conditions e /\ t = now_of s.
Proof.
  intros e [b Hr Hb [Hc _]|s0 Hp Ho|x -> [Hrel _]] Ht; [congruence| |].
  - pose proof (passed_mode_gate_now _ _ _ Hp) as Hn.
    destruct (oc_start_timer _ _ _ _ _ _ _ Ho t Ht) as [[Hraise Hs]|(-> & Hc & Hs)].
    + destruct (passed_mode_gate_timers _ _ _ Hp) as [->|[Hc _]]; [|congruence]. left. eauto.
    + assert (found_start_conditions e) as Hf by (split; eauto).
      destruct Hs as [Hs|Hs]; [|right; split; congruence].
      destruct (passed_mode_gate_timers _ _ _ Hp) as [->|[Hcl _]]; [|congruence]. left. eauto.
  - destruct Hrel as [Hs|Hs]; [|congruence]. left. split; [congruence|]. left. apply err_not_ok.
Qed.

Lemma start_timer_invariant l s t :
  history l s -> s.(auto_start_condition_since) = Some t ->
  uninterrupted found_start_conditions raised t l.
Proof.
  intros H. revert t. induction H as [s [Hc _]|l s1 s on pv soc grid r s' H IH Hrel Hw Hrun]; intros t Ht;
    [congruence|].
  pose proof (wp_run _ _ _ _ _ (auto_decide_relay_decided on pv soc grid s Hw) Hrun) as Hd.
  destruct (start_timer_step _ _ _ _ _ _ _ t Hd Ht) as [[Hs He]|[He ->]].
  - apply uninterrupted_next; [|exact He]. apply IH. destruct Hrel as [[Hr|Hr] _]; congruence.
  - by apply (uninterrupted_now _ _ _ (mkEvent on pv soc grid s r)).
Qed.

Lemma stop_timer_step on pv soc grid s r s' t :
  let e := mkEvent on pv soc grid s r in
  decided on pv soc grid s r s' -> s'.(auto_stop_condition_since) = Some t ->
  s.(auto_stop_condition_since) = Some t /\
    s'.(auto_stop_condition_reason) = s.(auto_stop_condition_reason) /\ (raised e \/ on = false) \/
  exists key, found_stop_cause key e /\ s'.(auto_stop_condition_reason) = Some key /\
    (t = now_of s \/ s.(auto_stop_condition_since) = Some t /\
       (s.(auto_stop_condition_reason) = None \/ s.(auto_stop_condition_reason) = Some key)).
Proof.
  intros e [b Hr Hb [_ Hc]|s0 Hp Ho|x -> [_ Hrel]] Ht; [congruence| |].
  - pose proof (passed_mode_gate_now _ _ _ Hp) as Hn.
    destruct (oc_stop_timer _ _ _ _ _ _ _ Ho t Ht) as [(Hon & Hs & Hr)|(-> & Hmin & key & Hcause & Hk & Hs)].
    + destruct (passed_mode_gate_timers _ _ _ Hp) as [->|[_ Hc]]; [|congruence]. left. intuition.
    + right. exists key. assert (found_stop_cause key e) as Hf by (split; eauto).
      split; [done|]. split; [done|]. rewrite Hn in Hs. destruct Hs as [Hs|[Hs Hr]]; [by left|].
      destruct (passed_mode_gate_timers _ _ _ Hp) as [->|[_ Hcl]]; [|congruence]. by right.
  - destruct Hrel as [[Hs Hr]|Hs]; [|congruence]. left. split_and!; [congruence | done|].
    left. apply err_not_ok.
Qed.

Definition excused (e : decision_event) : Prop := raised e \/ e.(ev_relay_on) = false.

Lemma stop_timer_invariant l s t :
  history l s -> s.(auto_stop_condition_since) = Some t ->
  exists key, s.(auto_stop_condition_reason) = Some key /\
    uninterrupted (found_stop_cause key) excused t l.
Proof.
  intros H. revert t. induction H as [s [_ Hc]|l s1 s on pv soc grid r s' H IH Hrel Hw Hrun]; intros t Ht;
    [congruence|].
  pose proof (wp_run _ _ _ _ _ (auto_decide_relay_decided on pv soc grid s Hw) Hrun) as Hd.
  assert (s.(auto_stop_condition_since) = Some t ->
    exists key, s.(auto_stop_condition_reason) = Some key /\
      uninterrupted (found_stop_cause key) excused t l) as Hbefore.
  { intros Hs. destruct Hrel as [_ [[Hr1 Hr2]|Hr]]; [|congruence].
    rewrite Hr2. apply IH. congruence. }
  destruct (stop_timer_step _ _ _ _ _ _ _ t Hd Ht) as [(Hs & Hr & He)|(key & Hf & Hk & Hs)].
  - destruct (Hbefore Hs) as (key & Hk & Hu). exists key. split; [congruence|].
    apply uninterrupted_next; [done|]. left. exact He.
  - exists key. split; [done|]. destruct Hs as [->|[Hs Hr]].
    + by apply (uninterrupted_now _ _ _ (mkEvent on pv soc grid s r)).
    + destruct (Hbefore Hs) as (key' & Hk' & Hu). destruct Hr as [Hr|Hr]; [congruence|].
      assert (key' = key) as -> by congruence. apply uninterrupted_next; [done | by right].
Qed.

(** C1. Auto turns the relay on only in a scheduled night that allows it, or when this
    decision and, apart from calls that raised, every decision since some earlier one found
    all start conditions met (autostart, fresh grid reading, no warmup or override, minimum
    off time, daytime window, enough averaged surplus, little enough grid import, enough
    battery), and that earlier one is at least the start delay ago. *)
Theorem start_needs_uninterrupted_conditions l s1 s pv soc grid s' :
  history l s1 -> relaxed s1 s -> window_valid s ->
  auto_decide_relay false pv soc grid s = (Ok true, s') ->
  (found_start_conditions (mkEvent false pv soc grid s (Ok true)) /\
   exists t, uninterrupted found_start_conditions raised t l /\
     (s.(au_cfg).(auto_start_delay_seconds) <=? now_of s - t)%F = true) \/
  (exists s0, passed_mode_gate false s s0 /\ night_charging s0 /\ autostart_enabled s0 = Ok true /\
     runtime_open s0 /\ minimum_offtime_elapsed s0 (now_of s0) = true).
Proof.
  intros Hh Hrel Hw Hrun.
  pose proof (wp_run _ _ _ _ _ (auto_decide_relay_decided false pv soc grid s Hw) Hrun) as
    [b Hb [[_ Hm]|(_ & Hm & _)] _|s0 Hp Ho|x Hx _]; try congruence.
  destruct (oc_switch_on _ _ _ _ _ _ _ Ho eq_refl eq_refl) as [[(t & Hs & Hd) Hc]|H]; [left|right; eauto].
  split; [by split; [|exists s0]|].
  destruct (passed_mode_gate_timers _ _ _ Hp) as [->|[Hcl _]]; [|congruence].
  exists t. split; [|done]. apply (start_timer_invariant l s1); [done|].
  destruct Hrel as [[Hr|Hr] _]; congruence.
Qed.

(** C2. Auto turns a running relay off only when its controller was disabled or a cutover
    from the manual mode waits for the relay, or when the minimum runtime elapsed and one
    cause (stale grid reading, missing inputs, night lock, battery, grid import or lost
    surplus) was found by this decision and by every decision since an earlier one that is
    at least the cause's stop delay ago; calls that raised or saw the relay off excepted. *)
Theorem stop_needs_persisting_cause l s1 s pv soc grid s' :
  history l s1 -> relaxed s1 s -> window_valid s ->
  auto_decide_relay true pv soc grid s = (Ok false, s') ->
  (auto_mode s /\ (controller_enabled s = Ok false \/ cutover_waiting true s)) \/
  (exists key t, found_stop_cause key (mkEvent true pv soc grid s (Ok false)) /\
     uninterrupted (found_stop_cause key) excused t l /\
     (stop_delay s key <=? now_of s - t)%F = true).
Proof.
  intros Hh Hrel Hw Hrun.
  pose proof (wp_run _ _ _ _ _ (auto_decide_relay_decided true pv soc grid s Hw) Hrun) as
    [b Hb Hm _|s0 Hp Ho|x Hx _]; [| |congruence].
  - injection Hb as <-. left. destruct Hm as [[_ Hm]|(Ha & _ & [Hm|[_ Hm]])]; [done| |]; auto.
  - destruct (oc_switch_off _ _ _ _ _ _ _ Ho eq_refl eq_refl) as (Hmin & key & Hc & t & Hs & Hr & Hd).
    right. destruct (passed_mode_gate_timers _ _ _ Hp) as [->|[_ Hcl]]; [|congruence].
    assert (s1.(auto_stop_condition_since) = Some t /\
      s1.(auto_stop_condition_reason) = s.(auto_stop_condition_reason)) as [Hs1 Hr1].
    { destruct Hrel as [_ [[Hr1 Hr2]|Hr1]]; split; congruence. }
    destruct (stop_timer_invariant l s1 t Hh Hs1) as (key' & Hk & Hu).
    assert (key' = key) as -> by (destruct Hr; congruence).
    exists key, t. split; [by split; [|exists s]|]. by split.
Qed.

Lemma handle_non_auto_mode_effect on s :
  wp (handle_non_auto_mode on)
    (fun r s' =>
       (forall b, r = Ok b -> b = on) /\
       (timers_cleared s' /\ s'.(auto_samples) = [] /\ s'.(auto_mode_cutover_pending) = false) /\
       same settled s s') s.
Proof.
  unfold handle_non_auto_mode, reset_auto_state, clear_auto_samples, reset_mode_cutover, set_auto_state,
    auto_save.
  repeat wp_step. change (auto_state_code (VStr "idle")) with (Ok 0 : res Z). cbv beta iota. repeat wp_step.
  match goal with |- context [port_auto_save ?x] => destruct (port_auto_save x) as [[]|e] end;
    repeat wp_step; split_and!; try done; by intros b [= <-].
Qed.

(** In a mode without Auto logic the decision keeps the relay as it is, whatever the
    inputs are, and leaves no start or stop timer and no samples behind. *)
Theorem other_modes_leave_relay_alone on pv soc grid s mode :
  port_mode s = Ok mode -> mode_uses_auto_logic (VInt mode) = Ok false ->
  wp (auto_decide_relay on pv soc grid)
    (fun r s' =>
       (forall b, r = Ok b -> b = on) /\
       (timers_cleared s' /\ s'.(auto_samples) = [] /\ s'.(auto_mode_cutover_pending) = false) /\
       same settled s s') s.
Proof.
  intros Hm Ha. unfold auto_decide_relay, pre_average_decision, pre_average_gate_chain_result,
    pre_average_mode_decision.
  repeat wp_step. rewrite Hm. repeat wp_step. rewrite Ha. cbn [negb]. repeat wp_step.
  eapply wp_mono; [apply handle_non_auto_mode_effect|].
  intros [b|e] s' (Hb & Hc & Hset); cbn [pre_average_gate_result resolved_auto_decision resolved AutoGates.relay_on];
    repeat wp_step; [|by split; [intros ? [=] | split]].
  cbn [auto_decision_after_pre_average resolved_auto_decision resolved AutoGates.relay_on].
  repeat wp_step. split; [|done]. intros b' [= <-]. by apply Hb.
Qed.

End history.

(** ** A concrete installation *)

(** Noon in June, a charger that draws nothing yet, an idle home battery. *)
Definition noon_ports : AutoPorts := {|
  port_local_clock := fun _ => (6, 720);
  port_local_datetime := fun _ => Ok (738215 * DAY_US + 720 * MINUTE_US);
  port_last_accepted_ac_power := fun _ => VNone;
  port_auto_pending_relay_command := fun _ => (None, None);
  port_auto_save := fun _ => Ok tt;
  port_auto_audit := fun _ _ _ => Ok tt;
  port_warning_throttled := fun _ => Ok tt |}.

Definition idle_battery : BatteryBalance := {|
  combined_battery_activity_context := fun _ =>
    Ok (map (fun kv => (snd kv, VNone)) BATTERY_SNAPSHOT_FIELDS) |}.

Definition default_auto_config : auto_config :=
  mkAutoConfig default_policy (f_of_Z 30) (f_of_Z 10) (f_of_Z 10) (f_of_Z 300) (f_of_Z 60)
    (f_of_Z 60) (f_of_Z 15) (f_of_Z 60) false true true true [] None None None.

(** Auto mode, enabled, autostart on, long after the start of the service. *)
Definition idle_auto : auto :=
  mkAuto initial_svc default_auto_config (VInt 1) (VInt 1) (VInt 1) false false [] None None None None
    None None None None false false None None VNone None None None f0 f0 "init" 0 "idle" 0 [] [].

Definition at_time (t : Z) (s : auto) : auto := s <| au_svc := s.(au_svc) <| clock := f_of_Z t |> |>.

Definition watts (n : Z) : option float := Some (f_of_Z n).

Section witnesses.
#[local] Existing Instance noon_ports.
#[local] Existing Instance idle_battery.

(** 4 kW of sun, all of it exported, and a full enough battery. *)
Definition sunny (on : bool) (s : auto) : res bool * auto :=
  auto_decide_relay on (watts 4000) (watts 80) (watts (-4000)) s.

(** The sun is gone and the house imports. *)
Definition dark (on : bool) (s : auto) : res bool * auto :=
  auto_decide_relay on (watts 0) (watts 80) (watts 3000) s.

Definition armed_auto : auto := snd (sunny false (at_time 1000 idle_auto)).
Definition dark_auto : auto := snd (dark true (at_time 1000 idle_auto)).

Example sunny_starts :
  fst (sunny false (at_time 1000 idle_auto)) = Ok false /\
  fst (sunny false (at_time 1005 armed_auto)) = Ok false /\
  fst (sunny false (at_time 1010 armed_auto)) = Ok true.
Proof. vm_compute. auto. Qed.

Example dark_stops :
  fst (dark true (at_time 1000 idle_auto)) = Ok true /\
  fst (dark true (at_time 1010 dark_auto)) = Ok false /\
  fst (dark true (at_time 1010 (dark_auto <| relay_last_changed_at := Some (f_of_Z 1000) |>))) = Ok true.
Proof. vm_compute. auto. Qed.

Lemma at_time_relaxed t s : relaxed s (at_time t s).
Proof. split; auto. Qed.

(** The history of one call at time 1000. *)
Lemma history_one on pv soc grid s :
  timers_cleared s -> window_valid s ->
  history [mkEvent on pv soc grid s (fst (auto_decide_relay on pv soc grid s))]
    (snd (auto_decide_relay on pv soc grid s)).
Proof.
  intros H1 H2. change [?e] with ([] ++ [e])%list. eapply history_decision.
  - by apply history_start.
  - reflexivity.
  - done.
  - apply surjective_pairing.
Qed.

Lemma idle_one on pv soc grid :
  history [mkEvent on pv soc grid (at_time 1000 idle_auto)
             (fst (auto_decide_relay on pv soc grid (at_time 1000 idle_auto)))]
    (snd (auto_decide_relay on pv soc grid (at_time 1000 idle_auto))).
Proof. apply history_one; [by split | vm_compute; reflexivity]. Qed.

Lemma pair_result {A B} (p : A * B) a : fst p = a -> p = (a, snd p).
Proof. intros <-. apply surjective_pairing. Qed.

Definition sunny_event : decision_event :=
  mkEvent false (watts 4000) (watts 80) (watts (-4000)) (at_time 1000 idle_auto)
    (fst (sunny false (at_time 1000 idle_auto))).

Definition dark_event : decision_event :=
  mkEvent true (watts 0) (watts 80) (watts 3000) (at_time 1000 idle_auto)
    (fst (dark true (at_time 1000 idle_auto))).

Lemma sunny_history : history [sunny_event] armed_auto.
Proof. exact (idle_one false (watts 4000) (watts 80) (watts (-4000))). Qed.

Lemma dark_history : history [dark_event] dark_auto.
Proof. exact (idle_one true (watts 0) (watts 80) (watts 3000)). Qed.

Lemma start_needs_uninterrupted_conditions_witness :
  let s := at_time 1010 armed_auto in
  fst (auto_decide_relay false (watts 4000) (watts 80) (watts (-4000)) s) = Ok true /\
  exists l, uninterrupted found_start_conditions raised (f_of_Z 1000) l.
Proof.
  intros s. assert (fst (auto_decide_relay false (watts 4000) (watts 80) (watts (-4000)) s) = Ok true) as Hr by (vm_compute; reflexivity).
  split; [exact Hr|].
  assert (window_valid s) as Hw by (vm_compute; reflexivity).
  pose proof (start_needs_uninterrupted_conditions [sunny_event] armed_auto s (watts 4000) (watts 80)
    (watts (-4000)) (snd (auto_decide_relay false (watts 4000) (watts 80) (watts (-4000)) s)) sunny_history (at_time_relaxed 1010 armed_auto) Hw
    (pair_result (auto_decide_relay false (watts 4000) (watts 80) (watts (-4000)) s) (Ok true) Hr)) as [(_ & t & Hu & _)|(s0 & Hp & Hn & _)].
  - exists [sunny_event]. destruct Hu as (l1 & e & l2 & Hl & Ht & He & HF). exists l1, e, l2.
    split; [exact Hl|]. split; [|split; [exact He | exact HF]].
    destruct l1 as [|x [|y l1]]; [|discriminate|discriminate].
    injection Hl as <- _. vm_compute. reflexivity.
  - exfalso. pose proof (passed_mode_gate_night false s s0 Hp Hn) as Hs. vm_compute in Hs. discriminate.
Defined.

Lemma stop_needs_persisting_cause_witness :
  let s := at_time 1010 dark_auto in
  fst (auto_decide_relay true (watts 0) (watts 80) (watts 3000) s) = Ok false /\
  exists key t, found_stop_cause key (mkEvent true (watts 0) (watts 80) (watts 3000) s (Ok false)) /\
    (stop_delay s key <=? now_of s - t)%F = true.
Proof.
  intros s. assert (fst (auto_decide_relay true (watts 0) (watts 80) (watts 3000) s) = Ok false) as Hr by (vm_compute; reflexivity).
  split; [exact Hr|].
  assert (window_valid s) as Hw by (vm_compute; reflexivity).
  pose proof (stop_needs_persisting_cause [dark_event] dark_auto s (watts 0) (watts 80) (watts 3000)
    (snd (auto_decide_relay true (watts 0) (watts 80) (watts 3000) s)) dark_history (at_time_relaxed 1010 dark_auto) Hw
    (pair_result (auto_decide_relay true (watts 0) (watts 80) (watts 3000) s) (Ok false) Hr)) as [[_ [Hd|[Hc _]]]|(key & t & Hf & _ & Hd)].
  - vm_compute in Hd. discriminate.
  - vm_compute in Hc. discriminate.
  - exists key, t. split; [exact Hf | exact Hd].
Defined.

Lemma other_modes_leave_relay_alone_witness :
  let s := armed_auto <| virtual_mode := VInt 0 |> in
  fst (auto_decide_relay true (watts 4000) (watts 80) (watts (-4000)) s) = Ok true /\ (snd (auto_decide_relay true (watts 4000) (watts 80) (watts (-4000)) s)).(auto_samples) = [].
Proof.
  intros s. split; [vm_compute; reflexivity|].
  exact (proj1 (proj2 (proj1 (proj2
    (other_modes_leave_relay_alone true (watts 4000) (watts 80) (watts (-4000)) s 0 eq_refl eq_refl))))).
Defined.

End witnesses.
