(* ===== verification/AutoTotal.v ===== *)
(** * Auto mode: a decision always returns

    The exceptions the Auto code could raise come from values too large for a float,
    from a missing entry of the battery picture, from a zero reference power, or from
    the collaborators.  Without them every call of [auto_decide_relay] returns, and the
    published metrics stay readable. *)

From S2P Require Import Prelude PyFloat PyValue Contracts BackendModels Service CommonAuto OrderedMap AutoPolicy Schedule AutoState AutoSamples AutoMetrics AutoGates AutoDecision AutoTracking AutoSafety AutoHistory.

(** ** Readable values *)

Definition value_ok (v : pyval) : Prop := is_ok (finite_float_or_none v).

Definition metrics_ok (d : list (string * pyval)) : Prop := Forall (fun kv => value_ok (snd kv)) d.

Lemma ok_ret {A} (a : A) : is_ok (Ok a).
Proof. by exists a. Qed.
#[local] Hint Resolve ok_ret : core.

Lemma value_ok_float x : value_ok (VFloat x).
Proof. unfold value_ok. cbn. by destruct (isfinite x). Qed.

Lemma float_of_text_error s e : float_of_text s = Err e -> e = ValueError.
Proof. unfold float_of_text. repeat case_match; congruence. Qed.

Lemma value_ok_text s : value_ok (VStr s).
Proof.
  unfold value_ok. cbn. destruct (float_of_text s) as [x|e] eqn:E; cbn; [by destruct (isfinite x)|].
  apply float_of_text_error in E as ->. by exists None.
Qed.

Lemma value_ok_none : value_ok VNone. Proof. by eexists. Qed.
Lemma value_ok_bool b : value_ok (VBool b). Proof. by eexists. Qed.
Lemma value_ok_of_float o : value_ok (val_of_float o).
Proof. destruct o; [apply value_ok_float | apply value_ok_none]. Qed.

#[local] Hint Resolve value_ok_float value_ok_text value_ok_none value_ok_bool value_ok_of_float : core.

Lemma metric_ok k d : metrics_ok d -> value_ok (metric k d).
Proof.
  unfold metric, metrics_ok. rewrite Forall_forall. intros H.
  destruct (od_get k d) as [v|] eqn:E; [|done]. apply od_get_some_elem in E. by apply (H (k, v)).
Qed.

Lemma metrics_ok_set k v d : value_ok v -> metrics_ok d -> metrics_ok (od_set k v d).
Proof.
  intros Hv. induction d as [|[k' v'] d IH]; cbn; [by repeat constructor|].
  intros [H1 H2]%Forall_cons. destruct (decide (k = k')); (constructor; [done | exact H2 || exact (IH H2)]).
Qed.

#[local] Hint Resolve metric_ok metrics_ok_set : core.

(** ** Sanitizing *)

(** [yields P r]: [r] is a value that satisfies [P]. *)
Definition yields {A} (P : A -> Prop) (r : res A) : Prop := exists a, r = Ok a /\ P a.

Lemma yields_bind {A B} (P : A -> Prop) (Q : B -> Prop) (r : res A) (f : A -> res B) :
  yields P r -> (forall a, P a -> yields Q (f a)) -> yields Q (r ≫= f).
Proof. intros (a & -> & Ha) H. by apply H. Qed.

Lemma yields_ok {A} (P : A -> Prop) a : P a -> yields P (Ok a).
Proof. intros H. by exists a. Qed.

Lemma yields_any {A} (r : res A) : is_ok r -> yields (fun _ => True) r.
Proof. intros [a ->]. by exists a. Qed.

Lemma yields_non_negative v : value_ok v -> yields (fun _ => True) (non_negative_float_or_none v).
Proof.
  intros H. unfold non_negative_float_or_none. eapply yields_bind; [by apply yields_any|].
  intros. by apply yields_ok.
Qed.

Lemma yields_ordered a b : value_ok a -> value_ok b -> yields (fun _ => True) (thresholds_ordered a b).
Proof.
  intros Ha Hb. unfold thresholds_ordered.
  eapply yields_bind; [by apply yields_non_negative|]. intros x _.
  eapply yields_bind; [by apply yields_non_negative|]. intros y _. by apply yields_ok.
Qed.

Lemma sanitize_numeric_ok fields d : metrics_ok d -> yields metrics_ok (sanitize_numeric_auto_metrics fields d).
Proof.
  revert d. induction fields as [|k fields IH]; intros d Hd; cbn; [by apply yields_ok|].
  eapply yields_bind; [by apply yields_any, metric_ok|]. intros o _. apply IH. auto.
Qed.

Lemma sanitized_ok d : metrics_ok d -> yields metrics_ok (sanitized_auto_metrics d).
Proof.
  intros Hd. unfold sanitized_auto_metrics. eapply yields_bind; [by apply sanitize_numeric_ok|].
  clear d Hd. intros d Hd. apply (yields_bind metrics_ok).
  { unfold sanitize_learning_metrics. eapply yields_bind; [by apply yields_non_negative, metric_ok|].
    intros o _. apply yields_ok. apply metrics_ok_set; [|auto]. by destruct (metric _ _). }
  clear d Hd. intros d Hd. apply (yields_bind metrics_ok).
  { unfold sanitize_soc_metric. eapply yields_bind; [by apply yields_any, metric_ok|]. intros o _.
    eapply (yields_bind (fun _ => True)).
    { unfold valid_battery_soc. eapply yields_bind; [by apply yields_any, value_ok_of_float|].
      intros; by apply yields_ok. }
    intros b _. apply yields_ok. destruct b; auto. }
  clear d Hd. intros d Hd. unfold sanitize_threshold_metrics.
  assert (metrics_ok (sanitize_text_auto_metrics d)) as Ht.
  { unfold sanitize_text_auto_metrics. cbn [fold_left AUTO_METRIC_TEXT_FIELDS].
    repeat (apply metrics_ok_set; [by destruct (metric _ _); cbn|]). done. }
  eapply yields_bind; [apply yields_ordered; auto|]. intros b _. apply yields_ok.
  destruct b; auto.
Qed.

Lemma table_get_known {V} k (t : list (string * V)) :
  str_in k (map fst t) = true -> exists v, table_get k t = Some v.
Proof.
  induction t as [|[k' v] t IH]; [done|]. cbn. destruct (String.eqb k k'); [eauto | exact IH].
Qed.

(** Every decision has a trace. *)
Lemma trace_ok reason cached intent learned d :
  metrics_ok d ->
  yields (fun tr => metrics_ok tr.(tr_metrics)) (normalized_auto_decision_trace reason cached intent learned d).
Proof.
  intros Hd. unfold normalized_auto_decision_trace.
  apply (yields_bind (fun n => n = 0 \/ n = 1)); [apply yields_ok; destruct intent; auto|].
  intros n Hn. eapply yields_bind; [by apply sanitized_ok|]. intros d' Hd'.
  assert (forall st, yields (fun _ => True) (normalized_auto_state_pair st)) as Hst.
  { intros st. unfold normalized_auto_state_pair.
    destruct (table_get_known _ _ (auto_state_known st)) as [c ->]. by apply yields_ok. }
  eapply yields_bind; [apply Hst|]. intros [state code] _. apply yields_ok. cbn.
  apply metrics_ok_set; [done|]. apply metrics_ok_set; [|done]. by destruct Hn as [-> | ->]; eexists.
Qed.

(** ** Collaborators and states that cannot raise *)

(** The battery metrics that [battery_adjusted_surplus_metrics] sets itself. *)
Definition OWN_BATTERY_METRICS : list string :=
  ["surplus_penalty_w"; "unadjusted_surplus_penalty_w"; "near_term_adjustment_w";
   "learning_profile_count"; "ev_priority_active"; "ev_priority_credit_w";
   "ev_priority_available_surplus_w"; "ev_priority_reclaimable_charge_w";
   "ev_priority_running_load_w"; "ev_priority_soc"; "ev_priority_release_soc"].

(** A battery picture has every entry the snapshot copies. *)
Definition complete_battery (d : list (string * pyval)) : Prop :=
  Forall (fun kv => snd kv ∈ OWN_BATTERY_METRICS \/ is_Some (od_get (snd kv) d)) BATTERY_SNAPSHOT_FIELDS.

(** A night delay that a [timedelta] can hold, of at most 300000 days. *)
Definition short_delay (delay : float) : Prop :=
  exists shift, timedelta_seconds (fmax f0 delay) = Ok shift /\ 0 <= shift <= 300000 * DAY_US.

(** A local time between 2 January of year 1 and the end of year 9000. *)
Definition LAST_DAY : Z := 3287182.
Definition calendar_time (r : res Z) : Prop := yields (fun t => 2 <= date_of t <= LAST_DAY) r.

Class ReliablePorts (AP : AutoPorts) (BB : BatteryBalance) : Prop := {
  reliable_save s : is_ok (port_auto_save s);
  reliable_audit s reason cached : is_ok (port_auto_audit s reason cached);
  reliable_warning s : is_ok (port_warning_throttled s);
  reliable_power s : value_ok (port_last_accepted_ac_power s);
  reliable_calendar now : calendar_time (port_local_datetime now);
  reliable_battery s : yields (fun d => metrics_ok d /\ complete_battery d) (combined_battery_activity_context s) }.

(** Settings and flags the decision can read. *)
Record ready (s : auto) : Prop := {
  ready_mode : is_ok (port_mode s);
  ready_enable : is_ok (controller_enabled s);
  ready_autostart : is_ok (autostart_enabled s);
  ready_windows : windows_ok s.(au_cfg).(auto_month_windows);
  ready_delay : short_delay (scheduled_night_start_delay_seconds s.(au_cfg));
  ready_reference : ftruthy (policy_of s).(learn_charge_power).(alcp_reference_power_watts) = true }.

Definition good (s : auto) : Prop := ready s /\ metrics_ok s.(last_auto_metrics).

Lemma ready_settled s s' : same settled s s' -> ready s -> ready s'.
Proof.
  intros H [H1 H2 H3 H4 H5 H6].
  split; [frame_read H port_mode as -> | frame_read H controller_enabled as -> | frame_read H autostart_enabled as ->
    | frame_read H au_cfg as -> | frame_read H au_cfg as -> | frame_read H policy_of as ->]; done.
Qed.

(** [safe V m]: from a good state, [m] returns a value that satisfies [V], and the state
    stays good. *)
Definition safe {A} (V : A -> Prop) (m : M auto A) : Prop :=
  forall s, good s -> wp m (fun r s' => yields V r /\ good s') s.

Section safe.
Context {A B : Type}.

Lemma safe_ret (V : A -> Prop) a : V a -> safe V (mret a).
Proof. intros Ha s Hs. apply wp_ret. by split; [apply yields_ok|]. Qed.

Lemma safe_lift (V : A -> Prop) r : yields V r -> safe V (lift r).
Proof. intros Hr s Hs. by apply wp_lift. Qed.

Lemma safe_bind (W : A -> Prop) (V : B -> Prop) (m : M auto A) (f : A -> M auto B) :
  safe W m -> (forall a, W a -> safe V (f a)) -> safe V (m ≫= f).
Proof.
  intros Hm Hf s Hs. apply wp_bind. eapply wp_mono; [by apply Hm|].
  intros r s' [(a & -> & Ha) Hs']. by apply Hf.
Qed.

Lemma safe_get_bind (V : B -> Prop) (f : auto -> M auto B) :
  (forall s, good s -> safe V (f s)) -> safe V (get ≫= f).
Proof. intros Hf s Hs. apply wp_bind, wp_get. by apply Hf. Qed.

Lemma safe_modify (g : auto -> auto) : (forall s, good s -> good (g s)) -> safe (fun _ => True) (modify g).
Proof. intros Hg s Hs. apply wp_modify. split; [by apply yields_ok | by apply Hg]. Qed.

Lemma safe_weaken (V W : A -> Prop) (m : M auto A) : (forall a, V a -> W a) -> safe V m -> safe W m.
Proof.
  intros H Hm s Hs. eapply wp_mono; [by apply Hm|]. intros r s' [(a & -> & Ha) ?].
  split; [apply yields_ok; auto | done].
Qed.

Lemma safe_fmap (V : A -> Prop) (W : B -> Prop) (g : A -> B) (m : M auto A) :
  safe V m -> (forall a, V a -> W (g a)) -> safe W (g <$> m).
Proof.
  intros Hm H s Hs. apply wp_fmap. eapply wp_mono; [by apply Hm|].
  intros r s' [(a & -> & Ha) ?]. split; [apply yields_ok; auto | done].
Qed.

End safe.

(** A change that the settings and the metrics do not see. *)
Lemma good_same s s' :
  same settled s s' -> s'.(last_auto_metrics) = s.(last_auto_metrics) -> good s -> good s'.
Proof. intros H E [Hr Hm]. split; [by apply (ready_settled s) | by rewrite E]. Qed.

(** [safe_go call]: decompose a method; [call] closes the calls whose lemma it applies. *)
Ltac safe_go call :=
  repeat lazymatch goal with
  | |- safe _ (get ≫= _) => apply safe_get_bind; intros ? ?
  | |- safe _ (mbind _ _) => eapply (safe_bind (fun _ => True)); [|intros ? _]
  | |- safe _ (mret _) => apply safe_ret; try done
  | |- safe _ (modify _) =>
    let s := fresh in let H := fresh in
    apply safe_modify; intros s H; try (apply (good_same s); [reflexivity | reflexivity | exact H])
  | |- safe _ (lift _) => apply safe_lift, yields_any
  | |- safe _ (when true _) => cbn [when]
  | |- safe _ (when false _) => cbn [when]
  | |- safe _ (when ?b _) => destruct b; cbn [when]
  | |- safe _ (if ?b then _ else _) => destruct b
  | |- safe _ (match ?x with _ => _ end) => destruct x
  | |- safe _ _ => call
  end.

(** A schedule the configuration parser built has a snapshot at every such time. *)
Lemma scheduled_snapshot_ok t windows days delay latest :
  windows_ok windows -> short_delay delay -> 2 <= date_of t <= LAST_DAY ->
  is_ok (scheduled_mode_snapshot t windows days delay latest).
Proof.
  intros Hw (shift & Hshift & Hs) Ht. unfold scheduled_mode_snapshot.
  assert (calendar_room t shift) as Hroom by (unfold calendar_room; unfold MAX_ORDINAL, LAST_DAY, DAY_US in *; lia).
  destruct (snapshot_context_ok t windows days delay latest shift Hw Hshift Hroom) as (c & latest_end & -> & _).
  cbn [mbind res_bind]. destruct (scheduled_daytime_window_active t c); [by eexists|].
  destruct (negb _); [by eexists|]. unfold scheduled_post_night_state.
  destruct (t <? _); [by eexists|]. destruct (t <? _); [by eexists|].
  destruct (_ && _); by eexists.
Qed.

Section total.
Context {AP : AutoPorts} {BB : BatteryBalance} {RP : ReliablePorts AP BB}.

Lemma safe_set_health reason cached intent : safe (fun _ => True) (set_health reason cached intent).
Proof.
  unfold set_health, apply_decision_trace_postconditions, write_auto_audit_event, auto_save.
  apply safe_get_bind; intros s0 _. eapply (safe_bind (fun _ => True)).
  - apply safe_get_bind; intros s1 [_ Hm]. eapply safe_bind; [by apply safe_lift, trace_ok|].
    intros tr Htr. apply safe_modify. intros s [Hr _]. split; [|exact Htr].
    eapply ready_settled; [|exact Hr]. reflexivity.
  - intros _ _. safe_go idtac. apply reliable_audit.
Qed.

Lemma safe_set_health_result reason cached b : safe (fun _ => True) (set_health_result reason cached b).
Proof. unfold set_health_result. safe_go ltac:(simple apply safe_set_health). Qed.

Lemma safe_idle_result reason cached : safe (fun _ => True) (idle_result_with_health reason cached).
Proof.
  unfold idle_result_with_health, clear_auto_start_tracking. safe_go ltac:(simple apply safe_set_health_result).
Qed.

Lemma safe_running_result reason cached : safe (fun _ => True) (running_result_with_health reason cached).
Proof.
  unfold running_result_with_health, clear_auto_stop_tracking.
  safe_go ltac:(simple apply safe_set_health_result).
Qed.

Lemma safe_auto_save : safe (fun _ => True) auto_save.
Proof. unfold auto_save. safe_go idtac. apply reliable_save. Qed.

Lemma safe_reset_auto_state : safe (fun _ => True) reset_auto_state.
Proof. unfold reset_auto_state, clear_auto_samples. safe_go idtac. Qed.

Lemma safe_clear_start b : safe (fun _ => True) (clear_auto_start_tracking b).
Proof. unfold clear_auto_start_tracking, clear_auto_samples. safe_go idtac. Qed.

Lemma safe_set_idle : safe (fun _ => True) (set_auto_state "idle").
Proof.
  unfold set_auto_state. eapply (safe_bind (fun _ => True)); [safe_go idtac|]. intros _ _.
  eapply (safe_bind (fun _ => True)); [by apply safe_lift, yields_any; exists 0|]. intros c _.
  apply safe_modify. intros s [Hr Hm]. split; [by apply (ready_settled s)|]. by apply metrics_ok_set.
Qed.

Lemma safe_set_stop_tracking now key : safe (fun _ => True) (reset_stop_tracking now key).
Proof. unfold reset_stop_tracking. safe_go idtac. Qed.

(** An armed stop is never missing its time. *)
Lemma safe_arm_or_fire_stop now reason cached delay key :
  safe (fun _ => True) (arm_or_fire_stop now reason cached delay key).
Proof.
  intros s Hs. unfold arm_or_fire_stop. set (active := default reason key).
  assert (forall s1, good s1 -> is_Some s1.(auto_stop_condition_since) ->
    wp (ensure_stop_tracking_reason active;;
        s ← get;
        match s.(auto_stop_condition_since) with
        | None => raise AssertionError
        | Some stop_since =>
          if negb (stop_delay_elapsed stop_since now (default s.(au_cfg).(auto_stop_delay_seconds) delay))
          then mret NO_RELAY_DECISION
          else set_health reason cached (Some false);; mret (resolved false)
        end) (fun r s' => yields (fun _ => True) r /\ good s') s1) as Hfire.
  { intros s1 Hs1 [since Hsince]. apply wp_bind.
    eapply wp_mono with (Q := fun r s' => r = Ok tt /\ good s' /\ s'.(auto_stop_condition_since) = Some since).
    { unfold ensure_stop_tracking_reason. repeat wp_step.
      destruct (auto_stop_condition_reason s1); repeat wp_step; split_and!; try done.
      by apply (good_same s1). }
    intros r s2 (-> & Hs2 & E). repeat wp_step. rewrite E.
    destruct (negb _); [by apply (safe_ret (fun _ => True))|].
    revert s2 Hs2 E. intros s2 Hs2 _. revert s2 Hs2. change (safe (fun _ => True) (set_health reason cached (Some false);; mret (resolved false))).
    safe_go ltac:(simple apply safe_set_health). }
  apply wp_bind. unfold reset_stop_tracking, stop_tracking_needs_reset. repeat wp_step.
  destruct (auto_stop_condition_since s) as [since|] eqn:Es.
  - destruct (match auto_stop_condition_reason s with Some key => negb (key =? active)%string | None => false end);
      cbn [negb].
    + repeat wp_step. split; [by apply yields_ok | by apply (good_same s)].
    + apply wp_ret. cbv beta iota. by apply Hfire; [|rewrite Es].
  - cbn [negb]. repeat wp_step. split; [by apply yields_ok | by apply (good_same s)].
Qed.

Lemma safe_pending_stop now reason cached running delay key :
  safe (fun _ => True) (pending_stop_or_running now reason cached running delay key).
Proof.
  unfold pending_stop_or_running.
  safe_go ltac:(first [simple apply safe_arm_or_fire_stop | simple apply safe_set_health_result]).
Qed.

(** *** The gates *)

Ltac safe_call :=
  first [simple apply safe_set_health | simple apply safe_set_health_result | simple apply safe_idle_result
    | simple apply safe_running_result | simple apply safe_auto_save | simple apply safe_reset_auto_state
    | simple apply safe_clear_start | simple apply safe_pending_stop].

Lemma safe_resolved (m : M auto bool) : safe (fun _ => True) m -> safe (fun _ => True) (resolved <$> m).
Proof. intros H. by eapply safe_fmap. Qed.

Lemma safe_handle_non_auto on : safe (fun _ => True) (handle_non_auto_mode on).
Proof. unfold handle_non_auto_mode, reset_mode_cutover. safe_go ltac:(first [safe_call | simple apply safe_set_idle]). Qed.

Lemma safe_handle_disabled cached : safe (fun _ => True) (handle_disabled_mode cached).
Proof. unfold handle_disabled_mode, reset_mode_cutover. safe_go safe_call. Qed.

Lemma cutover_confirmed_off_ok on now s : is_ok (cutover_relay_off_confirmed on now s).
Proof.
  unfold cutover_relay_off_confirmed, cutover_confirmed_off, timestamp_age_within.
  destruct (confirmed_cutover_pm_status s) as [[pm|] at_]; [|by eexists].
  destruct (cutover_blocked_by_pending_or_active _ _ _); [by eexists|].
  destruct (value_ok_of_float at_) as [o ->]. by eexists.
Qed.

Lemma safe_handle_cutover on cached : safe (fun _ => True) (handle_cutover_pending on cached).
Proof.
  unfold handle_cutover_pending, complete_cutover_pending, complete_mode_cutover. safe_go safe_call.
  apply cutover_confirmed_off_ok.
Qed.

Lemma mode_uses_auto_logic_ok n : is_ok (mode_uses_auto_logic (VInt n)).
Proof. by eexists. Qed.

Lemma safe_mode_gate on cached : safe (fun _ => True) (pre_average_mode_decision on cached).
Proof.
  unfold pre_average_mode_decision. apply safe_get_bind; intros s [Hr _].
  eapply (safe_bind (fun _ => True)); [apply safe_lift, yields_any, (ready_mode s Hr)|]. intros mode _.
  eapply (safe_bind (fun _ => True)); [apply safe_lift, yields_any, mode_uses_auto_logic_ok|]. intros uses _.
  destruct uses; cbn [negb]; [|apply safe_resolved, safe_handle_non_auto].
  apply safe_get_bind; intros s' [Hr' _].
  eapply (safe_bind (fun _ => True)); [apply safe_lift, yields_any, (ready_enable s' Hr')|]. intros en _.
  destruct en; cbn [negb]; [apply safe_handle_cutover | apply safe_resolved, safe_handle_disabled].
Qed.

Lemma night_charge_ok s now : ready s -> is_ok (scheduled_night_charge_active s now).
Proof.
  intros [[mode Hm] _ _ Hw Hd _]. unfold scheduled_night_charge_active. rewrite Hm. cbn [mbind res_bind].
  change (mode_uses_scheduled_logic (VInt mode)) with (Ok ((if (mode =? 1) || (mode =? 2) then mode else 0) =? 2)).
  cbn [mbind res_bind]. destruct (negb _); [by eexists|].
  destruct (reliable_calendar now) as (t & -> & Ht). cbn [mbind res_bind].
  match goal with |- context [scheduled_mode_snapshot ?t ?w ?d ?delay ?latest] =>
    destruct (scheduled_snapshot_ok t w d delay latest Hw Hd Ht) as [sn ->] end. by eexists.
Qed.

Lemma safe_grid_missing on now cached : safe (fun _ => True) (handle_grid_missing on now cached).
Proof. unfold handle_grid_missing. safe_go safe_call. Qed.

Lemma safe_grid_recovery on now cached : safe (fun _ => True) (handle_grid_recovery_start_gate on now cached).
Proof.
  unfold handle_grid_recovery_start_gate, grid_recovery_completes_immediately, grid_recovery_waiting,
    grid_recovery_wait_decision.
  safe_go ltac:(first [safe_call | simple apply safe_resolved]).
Qed.

Lemma safe_input_gate on grid now cached : safe (fun _ => True) (pre_average_input_gate_decision on grid now cached).
Proof.
  unfold pre_average_input_gate_decision. apply safe_get_bind; intros s [Hr _].
  eapply (safe_bind (fun _ => True)); [by apply safe_lift, yields_any, night_charge_ok|]. intros b _.
  safe_go ltac:(first [simple apply safe_grid_recovery | simple apply safe_resolved | simple apply safe_grid_missing]).
Qed.

(** A battery decision is pending only with a level at hand. *)
Definition soc_or_decision (x : option float * option (RelayDecisionState * option float)) : Prop :=
  match snd x with
  | Some (d, _) => is_pending d = false
  | None => is_Some (fst x)
  end.

Lemma safe_battery_soc soc on now cached :
  safe soc_or_decision (pre_average_battery_soc_result soc on now cached).
Proof.
  unfold pre_average_battery_soc_result.
  eapply (safe_bind (fun x => is_pending (snd x) = false \/ is_Some (fst x) /\ is_pending (snd x) = true)).
  2: { intros [c [[b|]]] H; apply safe_ret; cbn in *; [done|]. by destruct H as [|[? _]]. }
  unfold resolve_battery_soc, normalized_battery_soc. eapply (safe_bind (fun _ => True)).
  { safe_go idtac. apply reliable_warning. }
  intros [c|] _; [apply safe_ret; right; split; [eauto | done]|].
  apply safe_get_bind; intros s _. destruct (auto_allow_without_battery_soc _).
  - unfold allowed_missing_battery_soc. apply safe_get_bind; intros s1 _.
    eapply (safe_bind (fun _ => True)); [safe_go idtac|]. intros _ _.
    eapply (safe_bind (fun _ => True)); [apply safe_set_health|]. intros _ _.
    apply safe_get_bind; intros s2 _. apply safe_ret. right. split; [eauto | done].
  - unfold blocked_missing_battery_soc.
    eapply (safe_bind (fun _ => True)); [apply safe_reset_auto_state|]. intros _ _.
    eapply (safe_bind (fun _ => True)); [apply safe_set_health|]. intros _ _.
    apply safe_ret. by left.
Qed.

Lemma safe_missing_inputs on c grid now cached : safe (fun _ => True) (handle_missing_inputs on c grid now cached).
Proof. unfold handle_missing_inputs. safe_go safe_call. Qed.

Lemma safe_runtime_gates on now cached : safe (fun _ => True) (handle_common_runtime_gates on now cached).
Proof.
  unfold handle_common_runtime_gates. safe_go ltac:(first [safe_call | simple apply safe_resolved]).
Qed.

(** *** The metrics *)

Lemma learned_scale_ok s now : ready s -> is_ok (learned_charge_power_scale s now).
Proof.
  intros Hr. unfold learned_charge_power_scale, float_div.
  destruct (active_learned_charge_power s now); [|by eexists].
  destruct (negb _); [by eexists|]. rewrite (ready_reference s Hr). by eexists.
Qed.

Lemma safe_thresholds c : safe (fun _ => True) (surplus_thresholds_for_soc c).
Proof.
  unfold surplus_thresholds_for_soc. apply safe_get_bind; intros s _.
  destruct (resolve_threshold_profile _ _ _) as [[profile active] name].
  eapply (safe_bind (fun _ => True)); [safe_go idtac|]. intros _ _.
  apply safe_get_bind; intros s1 [Hr _].
  eapply (safe_bind (fun _ => True)).
  { apply safe_lift, yields_any. unfold scale_surplus_thresholds.
    destruct (learned_scale_ok s1 (now_of s1) Hr) as [scale ->]. by eexists. }
  intros [a b] _. eapply (safe_bind (fun _ => True)); [by apply safe_lift, yields_ordered|].
  intros o _. by apply safe_ret.
Qed.

Lemma number_ok v : value_ok v -> is_ok (non_negative_optional_float v).
Proof.
  unfold value_ok, non_negative_optional_float. destruct v; cbn; try by eexists.
  unfold float_of_int. destruct (f_of_Z n); cbn; try by eexists.
  by intros [a Ha].
Qed.

Lemma activity_power_ok d key : metrics_ok d -> is_ok (activity_power d key).
Proof. intros Hd. unfold activity_power. destruct (number_ok (metric key d)) as [o ->]; [auto|]. by eexists. Qed.

Lemma near_term_ok d : metrics_ok d -> is_ok (near_term_grid_adjustment d).
Proof.
  intros Hd. unfold near_term_grid_adjustment.
  destruct (number_ok (metric "expected_near_term_export_w" d)) as [o ->]; [auto|].
  destruct (number_ok (metric "expected_near_term_import_w" d)) as [o' ->]; [auto|]. by eexists.
Qed.

Lemma safe_ev_priority surplus pv grid soc on d :
  metrics_ok d -> safe (fun _ => True) (ev_priority_metrics surplus pv grid soc on d).
Proof.
  intros Hd. unfold ev_priority_metrics, update_ev_priority_state.
  apply safe_get_bind; intros s _.
  eapply (safe_bind (fun _ => True)).
  { apply safe_get_bind; intros s1 _. eapply (safe_bind (fun _ => True)); [safe_go idtac|].
    intros _ _ s2 Hs2. by split; [apply yields_ok|]. }
  intros active _. eapply (safe_bind (fun _ => True)); [by apply safe_lift, yields_any, activity_power_ok|].
  intros w _. apply safe_get_bind; intros s1 _. eapply (safe_bind (fun _ => True)); [|intros; by apply safe_ret].
  apply safe_lift, yields_any. unfold priority_running_load, charging_power_w.
  destruct (_ || _); [by eexists|]. destruct (reliable_power s1) as [o ->]. by eexists.
Qed.

(** What the snapshot needs of the battery metrics. *)
Definition snapshot_ready (d : list (string * pyval)) : Prop :=
  metrics_ok d /\ Forall (fun kv => is_Some (od_get (snd kv) d)) BATTERY_SNAPSHOT_FIELDS /\
  (exists x, od_get "decision_surplus" d = Some (VFloat x)) /\
  exists x, od_get "raw_decision_surplus" d = Some (VFloat x).

Lemma od_get_sets (l : list (string * pyval)) d k :
  is_Some (od_get k (fold_left (fun d '(key, v) => od_set key v d) l d)) <->
  k ∈ map fst l \/ is_Some (od_get k d).
Proof.
  revert d. induction l as [|[k' v] l IH]; intros d; cbn.
  - split; [by right | intros [H|H]; [by apply not_elem_of_nil in H | done]].
  - rewrite IH, od_get_set, elem_of_cons. destruct (decide (k = k')) as [->|].
    + split; [by left; left | by right; eauto].
    + tauto.
Qed.

Lemma metrics_ok_sets l d :
  metrics_ok l -> metrics_ok d -> metrics_ok (fold_left (fun d '(key, v) => od_set key v d) l d).
Proof.
  revert d. induction l as [|[k v] l IH]; intros d; [done|]. cbn.
  intros [H1 H2]%Forall_cons Hd. apply IH; [done|]. by apply metrics_ok_set.
Qed.

Lemma safe_battery_metrics surplus pv grid soc on :
  safe snapshot_ready (battery_adjusted_surplus_metrics surplus pv grid soc on).
Proof.
  unfold battery_adjusted_surplus_metrics. apply safe_get_bind; intros s _.
  eapply safe_bind; [apply safe_lift, reliable_battery|]. intros d [Hd Hc].
  do 2 (eapply (safe_bind (fun _ => True)); [by apply safe_lift, yields_any, activity_power_ok|]; intros ? _).
  eapply (safe_bind (fun _ => True)); [by apply safe_lift, yields_any, near_term_ok|]. intros adj _.
  eapply (safe_bind (fun _ => True)); [by apply safe_ev_priority|]. intros pr _.
  apply safe_ret. match goal with |- snapshot_ready (fold_left _ ?l d) => set (own := l) end.
  assert (value_ok (learning_profile_count d)) as Hcount.
  { unfold learning_profile_count. pose proof (metric_ok "learning_profile_count" d Hd) as H.
    destruct (metric "learning_profile_count" d); try done; by eexists. }
  split; [|split; [|split]].
  - apply metrics_ok_sets; [|done]. unfold own, metrics_ok.
    repeat first [apply Forall_nil_2 | apply Forall_cons_2; [cbn [snd]; first
      [apply value_ok_float | exact Hcount | by destruct (pr_active pr); eexists]|]].
  - eapply Forall_impl; [exact Hc|]. intros [k src] H. cbn in H. cbn [snd]. apply od_get_sets.
    destruct H as [H|H]; [left | by right]. unfold OWN_BATTERY_METRICS in H.
    assert (map fst own = ["decision_surplus"; "raw_decision_surplus"] ++ OWN_BATTERY_METRICS)%list as -> by reflexivity.
    apply elem_of_app. by right.
  - unfold own. cbn [fold_left]. rewrite !od_get_set. repeat (rewrite decide_False by done).
    rewrite decide_True by done. eauto.
  - unfold own. cbn [fold_left]. rewrite !od_get_set. repeat (rewrite decide_False by done).
    rewrite decide_True by done. eauto.
Qed.

Lemma copied_ok fields d :
  metrics_ok d -> Forall (fun kv => is_Some (od_get (snd kv) d)) fields ->
  yields metrics_ok (map_res (fun '(key, source) => v ← od_item source d; mret (key, v)) fields).
Proof.
  intros Hd. induction fields as [|[k src] fields IH]; intros HF; [by apply yields_ok, Forall_nil_2|].
  apply Forall_cons in HF as [[v Hv] HF]. cbn. cbn in Hv.
  assert (od_item src d = Ok v) as -> by (unfold od_item; by rewrite Hv).
  cbn [mbind res_bind mret res_ret]. eapply yields_bind; [by apply IH|]. intros l Hl.
  apply yields_ok. apply Forall_cons_2; [|exact Hl]. apply od_get_some_elem in Hv.
  unfold metrics_ok in Hd. rewrite Forall_forall in Hd. exact (Hd _ Hv).
Qed.

Lemma snapshot_ok a g c th sm d lm :
  snapshot_ready d -> yields metrics_ok (auto_metrics_snapshot a g c th sm d lm).
Proof.
  intros (Hd & HF & [x Hx] & [y Hy]). unfold auto_metrics_snapshot.
  assert (od_item "decision_surplus" d = Ok (VFloat x)) as -> by (unfold od_item; by rewrite Hx).
  assert (od_item "raw_decision_surplus" d = Ok (VFloat y)) as -> by (unfold od_item; by rewrite Hy). cbn [mbind res_bind required_float py_float].
  eapply yields_bind; [by apply copied_ok|]. intros l Hl. apply yields_ok.
  unfold metrics_ok. apply Forall_app. split; [|exact Hl].
  repeat first [apply Forall_nil_2 | apply Forall_cons_2; [cbn [snd]; first
    [apply value_ok_float | apply value_ok_text | apply value_ok_of_float]|]].
Qed.

Lemma keeps_samples_thresholds c : keeps (same auto_samples) (surplus_thresholds_for_soc c).
Proof. unfold surplus_thresholds_for_soc. keeps_go idtac. Qed.

(** The volatility of the surplus once the new reading is among the samples. *)
Definition volatility_with (now p w : float) (s : auto) : res (option float) :=
  stop_surplus_volatility (snd (add_auto_sample now (get_available_surplus_watts p w) w s)).

Lemma smoothing_ok on a g s :
  is_ok (adaptive_stop_alpha s) -> good s ->
  wp (smoothing_metrics_of on a g) (fun r s' => yields (fun _ => True) r /\ good s') s.
Proof.
  intros [[[alpha stage] vol] Halpha] Hs. unfold smoothing_metrics_of, smoothed_decision_metrics.
  apply wp_bind, wp_get. cbv beta iota. apply wp_bind, wp_lift. rewrite Halpha. cbv beta iota.
  destruct on; cbn [negb]; repeat wp_step;
    (split; [by apply yields_ok | apply (good_same s); [reflexivity | reflexivity | exact Hs]]).
Qed.

Lemma update_average_metrics_safe now p w c on s :
  good s -> is_ok (volatility_with now p w s) ->
  wp (update_average_metrics now p w c on) (fun r s' => is_ok r /\ good s') s.
Proof.
  intros Hs Hv. unfold update_average_metrics. apply wp_bind. unfold add_auto_sample at 1.
  apply wp_modify. cbv beta iota. apply wp_bind, wp_get. cbv beta iota.
  unfold volatility_with, add_auto_sample in Hv. cbn [snd modify] in Hv.
  set (s1 := s <| auto_samples := _ |>) in *.
  assert (good s1) as Hs1 by (apply (good_same s); [reflexivity | reflexivity | exact Hs]).
  destruct (average_auto_metric sample_surplus s1) as [a|]; [|by apply wp_ret; split; [by eexists|]].
  destruct (average_auto_metric sample_grid s1) as [g|]; [|by apply wp_ret; split; [by eexists|]].
  unfold surplus_threshold_metrics. apply wp_bind, wp_bind.
  pose proof (keeps_samples_thresholds c s1) as Hk. destruct (safe_thresholds c s1 Hs1) as [(x & Hx & _) Hs2].
  unfold wp at 1. rewrite Hx. set (s2 := snd (surplus_thresholds_for_soc c s1)) in *. destruct x as [[st sp] nm].
  apply wp_ret. cbv beta iota.
  assert (is_ok (adaptive_stop_alpha s2)) as [alpha Halpha].
  { unfold adaptive_stop_alpha. replace (stop_surplus_volatility s2) with (stop_surplus_volatility s1).
    - destruct Hv as [v Hv]. rewrite Hv. by eexists.
    - unfold stop_surplus_volatility. by rewrite Hk. }
  apply wp_bind. eapply wp_mono; [by apply (smoothing_ok on a g s2 (ex_intro _ alpha Halpha))|].
  intros r s3 [(sm & -> & _) Hs3]. revert s3 Hs3. cbv beta iota.
  match goal with |- forall s3, _ -> wp ?m _ s3 => enough (safe (fun _ => True) m) as H end.
  { intros s3 Hs3. eapply wp_mono; [by apply H|]. intros r s' [(y & -> & _) ?]. by split; [eexists|]. }
  eapply safe_bind; [apply safe_battery_metrics|]. intros d Hd.
  apply safe_get_bind; intros s4 [Hr4 _].
  eapply (safe_bind (fun _ => True)).
  { apply safe_lift, yields_any. unfold learned_threshold_metrics.
    destruct (learned_scale_ok s4 now Hr4) as [k ->]. by eexists. }
  intros lm _. eapply safe_bind; [by apply safe_lift, snapshot_ok|]. intros snap Hsnap.
  eapply (safe_bind (fun _ => True)).
  { apply safe_modify. intros s5 [Hr5 _]. split; [by apply (ready_settled s5)|exact Hsnap]. }
  intros _ _. eapply (safe_bind (fun _ => True)).
  { destruct Hd as (_ & _ & [y Hy] & _). apply safe_lift, yields_any. unfold od_item. rewrite Hy. by eexists. }
  intros y _. by apply safe_ret.
Qed.

(** ** The whole decision *)

(** The gates keep the samples or drop them all. *)
Definition samples_kept (s s' : auto) : Prop :=
  same settled s s' /\ (s'.(auto_samples) = s.(auto_samples) \/ s'.(auto_samples) = []).

#[local] Instance samples_kept_preorder : PreOrder samples_kept.
Proof.
  split; [intros s; by split; [|left]|]. intros s1 s2 s3 [H1 E1] [H2 E2].
  split; [by etrans|]. destruct E2 as [E2|E2]; [|by right]. by rewrite E2.
Qed.

Lemma kept_unreported s s' : same unreported s s' -> samples_kept s s'.
Proof. intros H. split; [auto with frames|]. left. exact (f_equal auto_samples H). Qed.

Lemma keeps_kept_set_health reason cached intent : keeps samples_kept (set_health reason cached intent).
Proof. intros s. apply kept_unreported, keeps_set_health. Qed.

Lemma keeps_kept_health_result reason cached b : keeps samples_kept (set_health_result reason cached b).
Proof. intros s. apply kept_unreported, keeps_set_health_result. Qed.

(** Opens the operations of the gates and closes the assignments. *)
Ltac kept_go :=
  unfold handle_disabled_mode, handle_non_auto_mode, handle_cutover_pending, complete_cutover_pending,
    complete_mode_cutover, reset_mode_cutover, set_auto_state, handle_grid_missing, handle_grid_recovery_start_gate,
    grid_recovery_completes_immediately, grid_recovery_waiting, grid_recovery_wait_decision,
    pending_stop_or_running, arm_or_fire_stop, reset_stop_tracking, ensure_stop_tracking_reason,
    idle_result_with_health, running_result_with_health, clear_auto_start_tracking, clear_auto_stop_tracking,
    resolve_battery_soc, normalized_battery_soc, allowed_missing_battery_soc, blocked_missing_battery_soc,
    reset_auto_state, clear_auto_samples, auto_save;
  keeps_go ltac:(first [simple apply keeps_kept_set_health | simple apply keeps_kept_health_result]);
  (split; [reflexivity | by auto]).

Lemma keeps_kept_mode_gate on cached : keeps samples_kept (pre_average_mode_decision on cached).
Proof. unfold pre_average_mode_decision. kept_go. Qed.

Lemma keeps_kept_input_gate on grid now cached :
  keeps samples_kept (pre_average_input_gate_decision on grid now cached).
Proof. unfold pre_average_input_gate_decision. kept_go. Qed.

Lemma keeps_kept_battery_soc soc on now cached :
  keeps samples_kept (pre_average_battery_soc_result soc on now cached).
Proof. unfold pre_average_battery_soc_result. kept_go. Qed.

Lemma volatility_kept s s' p w :
  samples_kept s s' -> is_ok (volatility_with (now_of s) p w s) -> is_ok (volatility_with (now_of s) p w s').
Proof.
  intros [H E]. frame_read H au_cfg as Ec.
  unfold volatility_with, add_auto_sample, modify, stop_surplus_volatility. cbn [snd].
  match goal with |- is_ok ?x -> is_ok ?y => change (is_ok x -> is_ok y) end.
  assert (forall t c x y, (length (map sample_surplus (drop_older c [(t, x, y)])) < 2)%nat) as Hone.
  { intros t c x y. cbn. destruct (t <? c)%F; cbn; lia. }
  destruct E as [E|E].
  - cbn [auto_samples upd]. rewrite E, Ec. done.
  - intros _. cbn [auto_samples upd]. rewrite E. cbn [app].
    match goal with |- is_ok (if ?b then _ else _) => assert (b = true) as -> end; [|by eexists].
    apply Nat.ltb_lt, Hone.
Qed.

Lemma wp_safe_kept {A} (V : A -> Prop) (m : M auto A) (Q : res A -> auto -> Prop) s :
  safe V m -> keeps samples_kept m -> good s ->
  (forall a s', V a -> good s' -> samples_kept s s' -> Q (Ok a) s') -> wp m Q s.
Proof.
  intros Hm Hk Hs HQ. destruct (Hm s Hs) as [(a & Ha & Hv) Hg]. specialize (Hk s).
  unfold wp. rewrite Ha. by apply HQ.
Qed.

(** The first half of the workflow settles the decision or has the inputs it needs. *)
Definition inputs_at_hand (pv grid : option float) (s : auto) (x : RelayDecisionState * option float) : Prop :=
  is_pending (fst x) = true ->
  night_charging s \/ no_night_charging s /\ exists p w c, pv = Some p /\ grid = Some w /\ snd x = Some c.

Lemma gate_result_cases d :
  (exists b, pre_average_gate_result d = Some (d, None) /\ d = resolved b) \/ pre_average_gate_result d = None.
Proof. destruct d as [[b|]]; [left; by exists b | by right]. Qed.

Lemma pre_average_ok on pv soc grid cached s :
  good s ->
  wp (pre_average_decision on pv soc grid (now_of s) cached)
    (fun r s' => yields (inputs_at_hand pv grid s) r /\ good s' /\ samples_kept s s') s.
Proof.
  intros Hs. unfold pre_average_decision, pre_average_gate_chain_result. do 2 apply wp_bind.
  eapply wp_safe_kept; [apply safe_mode_gate | apply keeps_kept_mode_gate | done|].
  intros d s1 _ Hs1 Hk1. destruct (gate_result_cases d) as [(b & -> & ->)| ->].
  { repeat wp_step. split; [by apply yields_ok | done]. }
  apply wp_bind. eapply wp_safe_kept; [apply safe_input_gate | apply keeps_kept_input_gate | done|].
  intros d2 s2 _ Hs2 Hk2. apply wp_ret.
  assert (samples_kept s s2) as Hk by (by etrans).
  destruct (gate_result_cases d2) as [(b & -> & ->)| ->].
  { repeat wp_step. split; [by apply yields_ok | done]. }
  apply wp_bind, wp_get. cbv beta iota. apply wp_bind, wp_lift.
  pose proof (proj1 Hk) as Hset.
  frame_read Hset (fun x => scheduled_night_charge_active x (now_of s)) as ->.
  destruct (night_charge_ok s (now_of s) (proj1 Hs)) as [night Hn]. rewrite Hn. destruct night.
  { repeat wp_step. split; [|done]. apply yields_ok. intros _. by left. }
  apply wp_bind. eapply wp_safe_kept; [apply safe_battery_soc | apply keeps_kept_battery_soc | done|].
  intros [c early] s3 Hc Hs3 Hk3. assert (samples_kept s s3) as Hk' by (by etrans).
  destruct early as [[d3 y]|].
  { repeat wp_step. split; [|done]. apply yields_ok. cbn in *. unfold inputs_at_hand. cbn. by rewrite Hc. }
  destruct Hc as [x Hx]. cbn in Hx. subst c. unfold pre_average_missing_input_result.
  assert (wp (on' ← handle_missing_inputs on x grid (now_of s) cached; mret (resolved on', None : option float))
    (fun r s' => yields (inputs_at_hand pv grid s) r /\ good s' /\ samples_kept s s') s3) as Hmiss.
  { apply wp_bind. eapply wp_safe_kept; [apply safe_missing_inputs | unfold handle_missing_inputs; kept_go | done|].
    intros b s4 _ Hs4 Hk4. apply wp_ret. split; [by apply yields_ok|]. split; [done | by etrans]. }
  destruct pv as [p|]; [destruct grid as [w|]|].
  2: exact Hmiss.
  2: by destruct grid.
  apply wp_ret. split; [|done]. apply yields_ok. intros _. right. split; [done|]. by exists p, w, x.
Qed.

Lemma safe_relay_on a g c daytime now cached : safe (fun _ => True) (handle_relay_on a g c daytime now cached).
Proof.
  unfold handle_relay_on, relay_on_stop_reason, policy_relay_on_stop_reason.
  safe_go ltac:(first [safe_call | simple apply safe_thresholds]).
  all: match goal with |- safe _ (let '(_, _) := ?x in _) => destruct x | _ => idtac end.
  all: safe_go safe_call.
Qed.

Lemma safe_relay_off a g c daytime now cached : safe (fun _ => True) (handle_relay_off a g c daytime now cached).
Proof.
  unfold handle_relay_off, arm_or_fire_start, clear_minimum_offtime_bypass, set_waiting_health,
    waiting_health_reason, threshold_waiting_health_reason.
  safe_go ltac:(first [safe_call | simple apply safe_thresholds]).
  match goal with H : good ?s |- is_ok (autostart_enabled ?s) => exact (ready_autostart s (proj1 H)) end.
Qed.

Lemma safe_scheduled_night on now cached : safe (fun _ => True) (scheduled_night_decision on now cached).
Proof.
  unfold scheduled_night_decision, scheduled_night_start_result, clear_scheduled_night_stop_tracking,
    clear_auto_decision_tracking.
  eapply (safe_bind (fun _ => True)); [apply safe_runtime_gates|]. intros [[b|]] _; cbn [is_pending AutoGates.relay_on negb].
  { by apply safe_lift, yields_ok. }
  destruct on; [eapply (safe_bind (fun _ => True)); [eapply (safe_fmap (fun _ => True)); [safe_go idtac | done]|];
    intros _ _; apply safe_running_result|].
  apply safe_get_bind; intros s [Hr _]. eapply (safe_bind (fun _ => True)).
  { apply safe_lift, yields_any. unfold scheduled_night_blocked_health.
    destruct (ready_autostart s Hr) as [x ->]. by eexists. }
  intros [reason|] _; [apply safe_idle_result|].
  eapply (safe_bind (fun _ => True)); [eapply (safe_fmap (fun _ => True)); [safe_go idtac | done]|].
  intros _ _. apply safe_running_result.
Qed.

Lemma safe_from_averages on c now cached averages :
  safe (fun _ => True) (decision_from_available_averages on c now cached averages).
Proof.
  destruct averages as [[a g]|]; [|by apply safe_ret]. unfold decision_from_available_averages,
    decision_from_averages, post_average_decision.
  eapply (safe_bind (fun x => (exists b, fst x = resolved b) \/ is_Some (snd x))).
  { eapply (safe_bind (fun _ => True)); [apply safe_runtime_gates|]. intros [[b|]] _.
    - apply safe_ret. left. by exists b.
    - apply safe_get_bind; intros s _. apply safe_ret. right. eauto. }
  intros [[[b|]] [daytime|]] H; cbn [resolved_auto_decision AutoGates.relay_on]; try by apply safe_ret.
  - destruct on; [apply safe_relay_on | apply safe_relay_off].
  - cbn in H. by destruct H as [[b [=]]|[? [=]]].
Qed.

Lemma after_pre_average_ok on pv grid cached s s1 x :
  good s1 -> samples_kept s s1 -> inputs_at_hand pv grid s x ->
  (forall p w, pv = Some p -> grid = Some w -> is_ok (volatility_with (now_of s) p w s)) ->
  wp (auto_decision_after_pre_average on pv (snd x) grid (now_of s) cached (fst x))
    (fun r s' => is_ok r /\ good s') s1.
Proof.
  intros Hs1 Hk Hx Hv.
  assert (forall A (m : M auto A) s2, safe (fun _ => True) m -> good s2 -> wp m (fun r s' => is_ok r /\ good s') s2) as Hsafe.
  { intros A m s2 Hm Hs2. eapply wp_mono; [by apply Hm|]. intros r s' [(y & -> & _) ?]. by split; [eexists|]. }
  destruct x as [[[b|]] c]; unfold auto_decision_after_pre_average; cbn [fst snd resolved_auto_decision AutoGates.relay_on] in *.
  { apply Hsafe; [by apply safe_ret | done]. }
  specialize (Hx eq_refl). apply wp_bind, wp_get. cbv beta iota. apply wp_bind, wp_lift.
  pose proof (proj1 Hk) as Hset. frame_read Hset (fun y => scheduled_night_charge_active y (now_of s)) as ->.
  unfold night_charging, no_night_charging in Hx.
  destruct Hx as [->|[-> (p & w & c' & -> & -> & Hc)]].
  - apply Hsafe; [|done]. eapply (safe_bind (fun _ => True)); [|intros _ _; apply safe_scheduled_night].
    unfold set_scheduled_night_metrics. apply safe_modify. intros s2 [Hr _].
    split; [by apply (ready_settled s2)|]. unfold metrics_ok.
    repeat first [apply Forall_nil_2 | apply Forall_cons_2; [cbn [snd]; first [apply value_ok_none | apply value_ok_of_float]|]].
  - cbn in Hc. subst c. cbn [required_average_inputs]. apply wp_bind, wp_lift. cbv beta iota.
    unfold averaged_auto_metrics. apply wp_bind, wp_bind.
    eapply wp_mono; [apply update_average_metrics_safe; [done | by apply volatility_kept; [|apply Hv]]|].
    intros r s2 [[[oa og] ->] Hs2]. cbv beta iota.
    assert (forall o, wp (decision_from_available_averages on c' (now_of s) cached o) (fun r s' => is_ok r /\ good s') s2) as Hd
      by (intros o; by apply Hsafe; [apply safe_from_averages|]).
    destruct oa as [a|], og as [g|]; try by (apply wp_ret; apply Hd).
    all: apply wp_bind; eapply wp_mono; [by apply safe_set_health|];
      intros r s3 [([] & -> & _) Hs3]; apply wp_ret; by apply Hsafe; [apply safe_from_averages|].
Qed.

(** A decision never raises: whatever the relay state and the readings are, from a
    state whose settings can be read and whose metrics are readable, and with
    collaborators that answer, [auto_decide_relay] returns a relay state and leaves such a
    state behind, unless the square of a surplus deviation overflows. *)
Lemma auto_decision_returns on pv soc grid s :
  good s ->
  (forall p w, pv = Some p -> grid = Some w -> is_ok (volatility_with (now_of s) p w s)) ->
  wp (auto_decide_relay on pv soc grid) (fun r s' => is_ok r /\ good s') s.
Proof.
  intros Hs Hv. unfold auto_decide_relay. apply wp_bind, wp_get. cbv beta iota zeta.
  apply wp_bind. eapply wp_mono; [by apply pre_average_ok|].
  intros r s1 [([d c] & -> & Hx) [Hs1 Hk]]. by apply (after_pre_average_ok _ _ _ _ s s1 (d, c)).
Qed.

End total.
