(* ===== verification/GridFusion.v ===== *)
(** * Fusion of grid measurements

    [energy/timestamped_measurement.py], [energy/grid_fusion_contracts.py] and
    [energy/grid_fusion.py]: the grid power comes from a primary source with a backup.
    The fusion fails over when the primary stays invalid, returns only after a run of
    valid samples, and falls back to a conservative value while two valid sources keep
    disagreeing. *)

From S2P Require Import Prelude PyFloat PyValue.

(** ** Timestamped measurements *)

(** energy/timestamped_measurement.py: TimestampedMeasurement *)
Record TimestampedMeasurement := mkTimestamped {
  ts_value : option float; ts_captured_at : option float; ts_observed_monotonic : option float }.

(** energy/timestamped_measurement.py: _valid_timestamp *)
Definition valid_timestamp (value : option float) : bool :=
  match value with Some v => isfinite v && (v >=? f0)%F | None => false end.

Definition is_some {A} (o : option A) : bool := match o with Some _ => true | None => false end.

(** energy/timestamped_measurement.py: TimestampedMeasurement.available *)
Definition available (m : TimestampedMeasurement) : bool := is_some m.(ts_value).

(** energy/timestamped_measurement.py: TimestampedMeasurement._timestamps_valid *)
Definition timestamps_valid (m : TimestampedMeasurement) : bool :=
  valid_timestamp m.(ts_captured_at) && valid_timestamp m.(ts_observed_monotonic).

(** The constructor with its checks.
    energy/timestamped_measurement.py: TimestampedMeasurement.__post_init__ *)
Definition timestamped (value captured_at observed_monotonic : option float)
    : res TimestampedMeasurement :=
  let m := mkTimestamped value captured_at observed_monotonic in
  let present := [is_some value; is_some captured_at; is_some observed_monotonic] in
  if existsb id present && negb (forallb id present) then Err ValueError
  else if available m && negb (timestamps_valid m) then Err ValueError
  else Ok m.

(** energy/timestamped_measurement.py: TimestampedMeasurement.unavailable *)
Definition unavailable : TimestampedMeasurement := mkTimestamped None None None.

(** energy/timestamped_measurement.py: TimestampedMeasurement.observed *)
Definition observed (value captured_at observed_monotonic : float) : res TimestampedMeasurement :=
  timestamped (Some value) (Some captured_at) (Some observed_monotonic).

(** energy/timestamped_measurement.py: _normalized_timestamps *)
Definition normalized_timestamps (captured_at observed_monotonic : option float)
    : option (float * float) :=
  match captured_at, observed_monotonic with
  | Some c, Some m =>
    if negb (valid_timestamp (Some c)) then None
    else if negb (valid_timestamp (Some m)) then None
    else Some (c, m)
  | _, _ => None
  end.

(** energy/timestamped_measurement.py: TimestampedMeasurement.from_optional *)
Definition from_optional (value captured_at observed_monotonic : option float)
    : res TimestampedMeasurement :=
  match value with
  | None => Ok unavailable
  | Some v =>
    match normalized_timestamps captured_at observed_monotonic with
    | None => Ok unavailable
    | Some (c, m) => observed v c m
    end
  end.

(** energy/timestamped_measurement.py: TimestampedMeasurement.age_seconds *)
Definition age_seconds (m : TimestampedMeasurement) (monotonic_at : float) : option float :=
  match m.(ts_observed_monotonic) with
  | None => None
  | Some o => Some (fmax f0 (monotonic_at - o)%F)
  end.

(** energy/timestamped_measurement.py: TimestampedMeasurement.fresh *)
Definition fresh (m : TimestampedMeasurement)
    (monotonic_at max_age_seconds future_tolerance_seconds : float) : bool :=
  match m.(ts_observed_monotonic) with
  | None => false
  | Some o =>
    let age := (monotonic_at - o)%F in
    (fopp future_tolerance_seconds <=? age)%F && (age <=? max_age_seconds)%F
  end.

(** ** Configuration and measurements *)

(** energy/grid_fusion_contracts.py: GridFusionConfig *)
Record GridFusionConfig := mkGridFusionConfig {
  gf_enabled : bool; gf_primary_source_id : string; gf_backup_source_id : string;
  gf_primary_max_age_seconds : float; gf_backup_max_age_seconds : float;
  gf_minimum_confidence : float;
  gf_failover_samples : Z; gf_recovery_samples : Z; gf_failover_hold_seconds : float;
  gf_mismatch_absolute_watts : float; gf_mismatch_relative : float; gf_mismatch_samples : Z;
  gf_future_tolerance_seconds : float }.

(** energy/grid_fusion_contracts.py: _require *)
Definition require (condition : bool) : res unit := if condition then Ok tt else Err ValueError.

(** energy/grid_fusion_contracts.py: _validate_sample_thresholds *)
Definition validate_sample_thresholds (c : GridFusionConfig) : res unit :=
  require (forallb (fun v => 1 <=? v) [c.(gf_failover_samples); c.(gf_recovery_samples); c.(gf_mismatch_samples)]).

(** energy/grid_fusion_contracts.py: _validate_freshness_policy *)
Definition validate_freshness_policy (c : GridFusionConfig) : res unit :=
  require (forallb (fun v => (v >=? f0)%F) [c.(gf_primary_max_age_seconds); c.(gf_backup_max_age_seconds)]) ≫= fun _ =>
  require ((f0 <=? c.(gf_minimum_confidence))%F && (c.(gf_minimum_confidence) <=? f1)%F) ≫= fun _ =>
  require (forallb (fun v => (v >=? f0)%F) [c.(gf_failover_hold_seconds); c.(gf_future_tolerance_seconds)]).

(** energy/grid_fusion_contracts.py: _validate_mismatch_policy *)
Definition validate_mismatch_policy (c : GridFusionConfig) : res unit :=
  require (forallb (fun v => (v >=? f0)%F) [c.(gf_mismatch_absolute_watts); c.(gf_mismatch_relative)]).

(** energy/grid_fusion_contracts.py: _validate_grid_fusion_config *)
Definition validate_grid_fusion_config (c : GridFusionConfig) : res unit :=
  require (negb c.(gf_enabled) || negb (py_strip c.(gf_primary_source_id) =? "")%string) ≫= fun _ =>
  require (negb (py_strip c.(gf_backup_source_id) =? "")%string) ≫= fun _ =>
  validate_sample_thresholds c ≫= fun _ =>
  validate_freshness_policy c ≫= fun _ =>
  validate_mismatch_policy c.

(** energy/grid_fusion_contracts.py: GridMeasurement *)
Record GridMeasurement := mkGridMeasurement {
  gm_source_id : string; gm_measurement : TimestampedMeasurement; gm_online : bool;
  gm_confidence : float }.

(** energy/grid_fusion_contracts.py: GridMeasurement.power_w *)
Definition power_w (m : GridMeasurement) : option float := m.(gm_measurement).(ts_value).

(** energy/grid_fusion_contracts.py: GridMeasurement.captured_at *)
Definition captured_at (m : GridMeasurement) : option float := m.(gm_measurement).(ts_captured_at).

(** energy/grid_fusion_contracts.py: GridMeasurement.observed_monotonic *)
Definition observed_monotonic (m : GridMeasurement) : option float :=
  m.(gm_measurement).(ts_observed_monotonic).

(** energy/grid_fusion_contracts.py: GridMeasurement._has_online_value *)
Definition has_online_value (m : GridMeasurement) : bool :=
  m.(gm_online) && available m.(gm_measurement).

(** energy/grid_fusion_contracts.py: GridMeasurement._values_are_finite *)
Definition values_are_finite (m : GridMeasurement) : bool :=
  forallb (fun o => match o with Some v => isfinite v | None => false end)
    [power_w m; Some m.(gm_confidence)].

(** energy/grid_fusion_contracts.py: GridMeasurement.is_usable *)
Definition is_usable (m : GridMeasurement)
    (monotonic_at max_age_seconds minimum_confidence future_tolerance_seconds : float) : bool :=
  if negb (has_online_value m) || negb (values_are_finite m) then false
  else fresh m.(gm_measurement) monotonic_at max_age_seconds future_tolerance_seconds &&
       (m.(gm_confidence) >=? minimum_confidence)%F.

(** energy/grid_fusion_contracts.py: GridFusionResult *)
Record GridFusionResult := mkGridFusionResult {
  fr_measurement : TimestampedMeasurement; fr_selected_source_id : string; fr_state : string;
  fr_confidence : float; fr_primary_valid : bool; fr_backup_valid : bool;
  fr_primary_age_seconds : option float; fr_backup_age_seconds : option float;
  fr_difference_watts : option float; fr_tolerance_watts : option float;
  fr_primary_invalid_samples : Z; fr_primary_recovery_samples : Z; fr_mismatch_samples : Z }.

(** ** The fusion *)

(** The attributes; [None] for [last_primary] is the absent attribute.
    energy/grid_fusion.py: GridMeasurementFusion.__init__ *)
Record fusion := mkFusion {
  gf_config : GridFusionConfig;
  active_source_id : option string;
  primary_invalid_samples : Z;
  primary_recovery_samples : Z;
  mismatch_samples : Z;
  last_primary : option GridMeasurement }.

#[export] Instance eta_fusion : Eta fusion := fun s =>
  mkFusion (s.(gf_config)) (s.(active_source_id)) (s.(primary_invalid_samples))
    (s.(primary_recovery_samples)) (s.(mismatch_samples)) (s.(last_primary)).

(** energy/grid_fusion.py: GridMeasurementFusion.__init__ *)
Definition new_fusion (config : GridFusionConfig) : fusion := mkFusion config None 0 0 0 None.

(** energy/grid_fusion.py: GridMeasurementFusion._measurement_usable *)
Definition measurement_usable (s : fusion) (m : GridMeasurement) (monotonic_at max_age_seconds : float)
    : bool :=
  is_usable m monotonic_at max_age_seconds s.(gf_config).(gf_minimum_confidence)
    s.(gf_config).(gf_future_tolerance_seconds).

(** energy/grid_fusion.py: GridMeasurementFusion._record_primary *)
Definition record_primary (primary : GridMeasurement) (primary_valid : bool) : M fusion unit :=
  when primary_valid (modify (fun s => s <| last_primary := Some primary |>)).

(** energy/grid_fusion.py: GridMeasurementFusion._activate_primary *)
Definition activate_primary : M fusion unit :=
  modify (fun s => s <| active_source_id := Some s.(gf_config).(gf_primary_source_id) |>
                     <| primary_invalid_samples := 0 |> <| primary_recovery_samples := 0 |>).

(** energy/grid_fusion.py: GridMeasurementFusion._activate_backup *)
Definition activate_backup : M fusion unit :=
  modify (fun s => s <| active_source_id := Some s.(gf_config).(gf_backup_source_id) |>
                     <| primary_invalid_samples := 0 |> <| primary_recovery_samples := 0 |>).

(** energy/grid_fusion.py: GridMeasurementFusion._held_primary *)
Definition held_primary (monotonic_at : float) : M fusion (option GridMeasurement) :=
  s ← get;
  match s.(last_primary) with
  | None => raise AttributeError
  | Some p =>
    match observed_monotonic p with
    | None => raise AssertionError
    | Some o =>
      let age := (monotonic_at - o)%F in
      let hold_limit := (s.(gf_config).(gf_primary_max_age_seconds) +
                         s.(gf_config).(gf_failover_hold_seconds))%F in
      mret (if (age <=? hold_limit)%F then Some p else None)
    end
  end.

(** energy/grid_fusion.py: GridMeasurementFusion._select_initial *)
Definition select_initial (primary backup : GridMeasurement) (primary_valid backup_valid : bool)
    : M fusion (option GridMeasurement * string) :=
  if primary_valid then activate_primary;; mret (Some primary, "primary")
  else if backup_valid then activate_backup;; mret (Some backup, "backup")
  else mret (None, "unavailable").

(** energy/grid_fusion.py: GridMeasurementFusion._select_while_primary *)
Definition select_while_primary (primary backup : GridMeasurement) (monotonic_at : float)
    (primary_valid backup_valid : bool) : M fusion (option GridMeasurement * string) :=
  if primary_valid then
    modify (fun s => s <| primary_invalid_samples := 0 |>);; mret (Some primary, "primary")
  else
    modify (fun s => s <| primary_invalid_samples := s.(primary_invalid_samples) + 1 |>);;
    held ← held_primary monotonic_at;
    s ← get;
    match held with
    | Some p =>
      if s.(primary_invalid_samples) <? s.(gf_config).(gf_failover_samples)
      then mret (Some p, "primary-held")
      else if backup_valid then activate_backup;; mret (Some backup, "backup")
      else mret (None, "unavailable")
    | None =>
      if backup_valid then activate_backup;; mret (Some backup, "backup")
      else mret (None, "unavailable")
    end.

(** energy/grid_fusion.py: GridMeasurementFusion._record_recovery_sample *)
Definition record_recovery_sample (primary_valid : bool) : M fusion unit :=
  modify (fun s => s <| primary_recovery_samples :=
                        if primary_valid then s.(primary_recovery_samples) + 1 else 0 |>).

(** energy/grid_fusion.py: GridMeasurementFusion._primary_recovered *)
Definition primary_recovered (s : fusion) (primary_valid : bool) : bool :=
  primary_valid && (s.(gf_config).(gf_recovery_samples) <=? s.(primary_recovery_samples)).

(** energy/grid_fusion.py: GridMeasurementFusion._backup_state *)
Definition backup_state (primary_valid : bool) : string :=
  if primary_valid then "backup-recovery" else "backup".

(** energy/grid_fusion.py: GridMeasurementFusion._select_while_backup *)
Definition select_while_backup (primary backup : GridMeasurement) (primary_valid backup_valid : bool)
    : M fusion (option GridMeasurement * string) :=
  record_recovery_sample primary_valid;;
  s ← get;
  if primary_recovered s primary_valid then activate_primary;; mret (Some primary, "primary")
  else if backup_valid then mret (Some backup, backup_state primary_valid)
  else if primary_valid then mret (Some primary, "primary-emergency")
  else mret (None, "unavailable").

(** energy/grid_fusion.py: GridMeasurementFusion._select_measurement *)
Definition select_measurement (primary backup : GridMeasurement) (monotonic_at : float)
    (primary_valid backup_valid : bool) : M fusion (option GridMeasurement * string) :=
  s ← get;
  if negb s.(gf_config).(gf_enabled) then
    mret (if backup_valid then (Some backup, "backup") else (None, "unavailable"))
  else
    match s.(active_source_id) with
    | None => select_initial primary backup primary_valid backup_valid
    | Some a =>
      if (a =? s.(gf_config).(gf_primary_source_id))%string
      then select_while_primary primary backup monotonic_at primary_valid backup_valid
      else select_while_backup primary backup primary_valid backup_valid
    end.

(** energy/grid_fusion.py: GridMeasurementFusion._comparable *)
Definition comparable (primary_valid backup_valid : bool) : bool := primary_valid && backup_valid.

(** energy/grid_fusion.py: GridMeasurementFusion._mismatch_tolerance *)
Definition mismatch_tolerance (s : fusion) (primary_power backup_power : float) : float :=
  let scale := fmax (fabs primary_power) (fabs backup_power) in
  fmax s.(gf_config).(gf_mismatch_absolute_watts) (s.(gf_config).(gf_mismatch_relative) * scale)%F.

(** energy/grid_fusion.py: GridMeasurementFusion._plausibility *)
Definition plausibility (primary backup : GridMeasurement) (primary_valid backup_valid : bool)
    : M fusion (option float * option float) :=
  if negb (comparable primary_valid backup_valid) then
    modify (fun s => s <| mismatch_samples := 0 |>);; mret (None, None)
  else
    match power_w primary, power_w backup with
    | Some p, Some b =>
      let difference := fabs (p - b)%F in
      s ← get;
      let tolerance := mismatch_tolerance s p b in
      modify (fun s => s <| mismatch_samples :=
        if (difference >? tolerance)%F then s.(mismatch_samples) + 1 else 0 |>);;
      mret (Some difference, Some tolerance)
    | _, _ => raise AssertionError
    end.

(** energy/grid_fusion.py: GridMeasurementFusion._persistent_disagreement *)
Definition persistent_disagreement (s : fusion) (primary_valid backup_valid : bool) : bool :=
  primary_valid && backup_valid && (s.(gf_config).(gf_mismatch_samples) <=? s.(mismatch_samples)).

(** energy/grid_fusion.py: GridMeasurementFusion._complete_measurement_values *)
Definition complete_measurement_values (m : GridMeasurement) : res (float * float * float) :=
  match power_w m, captured_at m, observed_monotonic m with
  | Some p, Some c, Some o => Ok (p, c, o)
  | _, _, _ => Err AssertionError
  end.

(** energy/grid_fusion.py: GridMeasurementFusion._conservative_measurement *)
Definition conservative_measurement (primary backup : GridMeasurement) : res GridMeasurement :=
  '(primary_power, primary_captured_at, primary_monotonic) ← complete_measurement_values primary;
  '(backup_power, backup_captured_at, backup_monotonic) ← complete_measurement_values backup;
  measurement ← observed (fmax primary_power backup_power) (fmin primary_captured_at backup_captured_at)
                  (fmin primary_monotonic backup_monotonic);
  mret (mkGridMeasurement "conservative" measurement true
          (fmin (fmin primary.(gm_confidence) backup.(gm_confidence)) (fdec 1 2))).

(** energy/grid_fusion.py: GridMeasurementFusion._apply_disagreement_limit *)
Definition apply_disagreement_limit (primary backup : GridMeasurement)
    (selected : option GridMeasurement) (state : string) (primary_valid backup_valid : bool)
    : M fusion (option GridMeasurement * string) :=
  s ← get;
  if negb (persistent_disagreement s primary_valid backup_valid) then mret (selected, state)
  else
    conservative ← lift (conservative_measurement primary backup);
    mret (Some conservative, "disagreement").

(** energy/grid_fusion.py: GridMeasurementFusion._result *)
Definition fusion_result (s : fusion) (selected : option GridMeasurement) (state : string)
    (primary backup : GridMeasurement) (monotonic_at : float) (primary_valid backup_valid : bool)
    (difference tolerance : option float) : GridFusionResult :=
  mkGridFusionResult
    (match selected with None => unavailable | Some m => m.(gm_measurement) end)
    (match selected with None => "" | Some m => m.(gm_source_id) end) state
    (match selected with None => f0 | Some m => m.(gm_confidence) end) primary_valid backup_valid
    (age_seconds primary.(gm_measurement) monotonic_at) (age_seconds backup.(gm_measurement) monotonic_at)
    difference tolerance s.(primary_invalid_samples) s.(primary_recovery_samples) s.(mismatch_samples).

(** energy/grid_fusion.py: GridMeasurementFusion.resolve *)
Definition resolve (primary backup : GridMeasurement) (monotonic_at : float)
    : M fusion GridFusionResult :=
  s ← get;
  let primary_valid := measurement_usable s primary monotonic_at s.(gf_config).(gf_primary_max_age_seconds) in
  let backup_valid := measurement_usable s backup monotonic_at s.(gf_config).(gf_backup_max_age_seconds) in
  record_primary primary primary_valid;;
  '(selected, state) ← select_measurement primary backup monotonic_at primary_valid backup_valid;
  '(difference, tolerance) ← plausibility primary backup primary_valid backup_valid;
  '(selected, state) ← apply_disagreement_limit primary backup selected state primary_valid backup_valid;
  s ← get;
  mret (fusion_result s selected state primary backup monotonic_at primary_valid backup_valid
          difference tolerance).

(** ** Well-formed measurements *)

(** What the constructor of a measurement has checked. *)
Definition measurement_ok (m : GridMeasurement) : Prop :=
  timestamped (power_w m) (captured_at m) (observed_monotonic m) = Ok m.(gm_measurement).

(** The three parts of an available measurement, with valid clocks. *)
Lemma measurement_parts m :
  measurement_ok m -> available m.(gm_measurement) = true ->
  exists v c o, m.(gm_measurement) = mkTimestamped (Some v) (Some c) (Some o) /\
    valid_timestamp (Some c) = true /\ valid_timestamp (Some o) = true.
Proof.
  unfold measurement_ok, timestamped, power_w, captured_at, observed_monotonic.
  destruct m as [id [[v|] [c|] [o|]] on conf]; try discriminate. unfold timestamps_valid. cbn.
  intros H _. exists v, c, o. split; [done|].
  destruct (isfinite c && (f0 <=? c)%F) eqn:Ec, (isfinite o && (f0 <=? o)%F) eqn:Eo; try discriminate. done.
Qed.

Lemma usable_parts m t a c f :
  is_usable m t a c f = true ->
  m.(gm_online) = true /\ available m.(gm_measurement) = true /\
  (exists v, power_w m = Some v /\ isfinite v = true) /\ (c <=? m.(gm_confidence))%F = true /\
  fresh m.(gm_measurement) t a f = true.
Proof.
  unfold is_usable, has_online_value, values_are_finite. cbn.
  destruct (gm_online m); [|done]. destruct (available (gm_measurement m)); [|done]. cbn.
  destruct (power_w m) as [v|]; [|done]. cbn. destruct (isfinite v) eqn:Ev; [|done]. cbn.
  destruct (isfinite (gm_confidence m)); [|done]. cbn. intros [Hf Hc]%andb_prop.
  repeat split; eauto.
Qed.

Lemma fmin_finite a b : isfinite a = true -> isfinite b = true -> isfinite (fmin a b) = true.
Proof. by destruct (fmin_cases a b) as [-> | ->]. Qed.

Lemma valid_timestamp_min a b :
  valid_timestamp (Some a) = true -> valid_timestamp (Some b) = true ->
  valid_timestamp (Some (fmin a b)) = true.
Proof. by destruct (fmin_cases a b) as [-> | ->]. Qed.

(** ** The invariant *)

(** While the primary is active, a measurement of it has been recorded; recovery samples
    are counted only while another source is active; a disabled fusion activates none. *)
Record fusion_ok (s : fusion) : Prop := {
  fo_recorded : s.(active_source_id) = Some s.(gf_config).(gf_primary_source_id) ->
    exists p, s.(last_primary) = Some p /\ is_Some (observed_monotonic p);
  fo_recovering : s.(primary_recovery_samples) <> 0 ->
    exists a, s.(active_source_id) = Some a /\ a <> s.(gf_config).(gf_primary_source_id);
  fo_disabled : s.(gf_config).(gf_enabled) = false -> s.(active_source_id) = None }.

(** Why a result is trusted: where its measurement comes from. *)
Inductive justified (s : fusion) (primary backup : GridMeasurement) (t : float) (n : Z)
    : TimestampedMeasurement -> string -> float -> Prop :=
  | from_primary state :
    measurement_usable s primary t s.(gf_config).(gf_primary_max_age_seconds) = true ->
    state = "primary" \/ state = "primary-emergency" ->
    justified s primary backup t n primary.(gm_measurement) state primary.(gm_confidence)
  | from_backup state :
    measurement_usable s backup t s.(gf_config).(gf_backup_max_age_seconds) = true ->
    state = "backup" \/ state = "backup-recovery" ->
    justified s primary backup t n backup.(gm_measurement) state backup.(gm_confidence)
  | from_held p o :
    s.(last_primary) = Some p -> observed_monotonic p = Some o ->
    (t - o <=? s.(gf_config).(gf_primary_max_age_seconds) + s.(gf_config).(gf_failover_hold_seconds))%F = true ->
    n < s.(gf_config).(gf_failover_samples) ->
    justified s primary backup t n p.(gm_measurement) "primary-held" p.(gm_confidence)
  | from_both v c o a b :
    measurement_usable s primary t s.(gf_config).(gf_primary_max_age_seconds) = true ->
    measurement_usable s backup t s.(gf_config).(gf_backup_max_age_seconds) = true ->
    power_w primary = Some a -> power_w backup = Some b -> v = fmax a b ->
    justified s primary backup t n (mkTimestamped (Some v) (Some c) (Some o)) "disagreement"
      (fmin (fmin primary.(gm_confidence) backup.(gm_confidence)) (fdec 1 2))
  | from_none : justified s primary backup t n unavailable "unavailable" f0.

(** The selection alone, before the disagreement limit. *)
Definition selected_ok s primary backup t n (sel : option GridMeasurement) (state : string) : Prop :=
  state <> "disagreement" /\
  justified s primary backup t n (match sel with None => unavailable | Some m => m.(gm_measurement) end)
    state (match sel with None => f0 | Some m => m.(gm_confidence) end).

(** How one selection moves the active source and the recovery counter. *)
Record selection_step (s s' : fusion) (primary_valid : bool) : Prop := {
  st_config : s'.(gf_config) = s.(gf_config);
  st_last : s'.(last_primary) = s.(last_primary);
  st_mismatch : s'.(mismatch_samples) = s.(mismatch_samples);
  st_recovery : s'.(primary_recovery_samples) = 0 \/
    primary_valid = true /\ s'.(primary_recovery_samples) = s.(primary_recovery_samples) + 1;
  st_active : s'.(active_source_id) = s.(active_source_id) \/
    s'.(active_source_id) = Some s.(gf_config).(gf_backup_source_id) \/
    primary_valid = true /\ s'.(active_source_id) = Some s.(gf_config).(gf_primary_source_id) /\
    (s.(active_source_id) = None \/
     s.(gf_config).(gf_recovery_samples) <= s.(primary_recovery_samples) + 1) }.

(** ** One selection *)

Section selection.
Context (primary backup : GridMeasurement) (t : float).

Let pv (s : fusion) := measurement_usable s primary t s.(gf_config).(gf_primary_max_age_seconds).
Let bv (s : fusion) := measurement_usable s backup t s.(gf_config).(gf_backup_max_age_seconds).

(** What a selection yields and where it leaves the fusion. *)
Definition selection_post (s : fusion) (r : res (option GridMeasurement * string)) (s' : fusion) : Prop :=
  exists sel state, r = Ok (sel, state) /\ fusion_ok s' /\ selection_step s s' (pv s) /\
    selected_ok s primary backup t s'.(primary_invalid_samples) sel state.

Lemma held_primary_spec s p o Q :
  s.(last_primary) = Some p -> observed_monotonic p = Some o ->
  Q (Ok (if (t - o <=? s.(gf_config).(gf_primary_max_age_seconds) + s.(gf_config).(gf_failover_hold_seconds))%F
         then Some p else None)) s ->
  wp (held_primary t) Q s.
Proof. intros Hp Ho HQ. unfold held_primary. apply wp_bind, wp_get. cbv beta iota. by rewrite Hp, Ho. Qed.

Lemma no_recovery_while_primary s :
  fusion_ok s -> s.(active_source_id) = Some s.(gf_config).(gf_primary_source_id) \/
    s.(active_source_id) = None -> s.(primary_recovery_samples) = 0.
Proof.
  intros [_ H _] Ha. destruct (decide (s.(primary_recovery_samples) = 0)) as [|Hn]; [done|].
  destruct (H Hn) as (a & Ha' & Hn'). destruct Ha; congruence.
Qed.

(** Close a leaf of a selection: the result is given, the state is computed. *)
Ltac selection_leaf rule :=
  eexists _, _; split; [reflexivity|]; split;
    [constructor; cbn; [try congruence; eauto | try congruence; try lia; eauto | congruence]
    | split; [constructor; cbn; auto; try lia | unfold selected_ok; cbn; split; [discriminate | rule]]].

Lemma selection_primary s :
  fusion_ok s -> s.(gf_config).(gf_enabled) = true ->
  s.(gf_config).(gf_primary_source_id) <> s.(gf_config).(gf_backup_source_id) ->
  s.(active_source_id) = Some s.(gf_config).(gf_primary_source_id) ->
  wp (select_while_primary primary backup t (pv s) (bv s)) (selection_post s) s.
Proof.
  intros Hok Hen Hne Ha. unfold select_while_primary, activate_backup.
  pose proof (no_recovery_while_primary s Hok (or_introl Ha)) as Hz. destruct Hok as [H1 _ _].
  unfold selection_post. destruct (pv s) eqn:Hp.
  { repeat wp_step. selection_leaf ltac:(apply from_primary; auto). }
  destruct (H1 Ha) as (p & Hl & o & Ho). apply wp_bind, wp_modify. cbv beta iota. apply wp_bind.
  eapply held_primary_spec; [exact Hl | exact Ho|]. cbv beta iota. apply wp_bind, wp_get. cbv beta iota.
  cbn. destruct (_ <=? _)%F eqn:Eh; [destruct (_ <? _) eqn:En|].
  - apply wp_ret. selection_leaf ltac:(eapply from_held; eauto; lia).
  - destruct (bv s) eqn:Hb; repeat wp_step.
    + selection_leaf ltac:(apply from_backup; auto).
    + selection_leaf ltac:(apply from_none).
  - destruct (bv s) eqn:Hb; repeat wp_step.
    + selection_leaf ltac:(apply from_backup; auto).
    + selection_leaf ltac:(apply from_none).
Qed.

Lemma selection_backup s a :
  fusion_ok s -> s.(gf_config).(gf_enabled) = true ->
  (pv s = true -> s.(last_primary) = Some primary) -> measurement_ok primary ->
  s.(active_source_id) = Some a -> a <> s.(gf_config).(gf_primary_source_id) ->
  wp (select_while_backup primary backup (pv s) (bv s)) (selection_post s) s.
Proof.
  intros _ Hen Hl Hm Ha Hne. unfold select_while_backup, record_recovery_sample, activate_primary, primary_recovered.
  unfold selection_post. apply wp_bind, wp_modify. cbv beta iota. apply wp_bind, wp_get. cbv beta iota. cbn.
  destruct (pv s) eqn:Hp; cbn.
  - destruct (usable_parts _ _ _ _ _ Hp) as (_ & Hav & _).
    destruct (measurement_parts _ Hm Hav) as (v & c & o & Hv & _).
    assert (is_Some (observed_monotonic primary)) as Ho by (unfold observed_monotonic; rewrite Hv; by eexists).
    destruct (_ <=? _) eqn:Er; repeat wp_step.
    + selection_leaf ltac:(apply from_primary; auto). right. right. repeat split; auto. right. lia.
    + destruct (bv s) eqn:Hb; repeat wp_step.
      * selection_leaf ltac:(apply from_backup; auto).
      * selection_leaf ltac:(apply from_primary; auto).
  - destruct (bv s) eqn:Hb; repeat wp_step.
    + selection_leaf ltac:(apply from_backup; auto).
    + selection_leaf ltac:(apply from_none).
Qed.

Lemma selection_initial s :
  fusion_ok s -> s.(gf_config).(gf_enabled) = true ->
  (pv s = true -> s.(last_primary) = Some primary) -> measurement_ok primary ->
  s.(gf_config).(gf_primary_source_id) <> s.(gf_config).(gf_backup_source_id) ->
  s.(active_source_id) = None ->
  wp (select_initial primary backup (pv s) (bv s)) (selection_post s) s.
Proof.
  intros Hok Hen Hl Hm Hne Ha. unfold select_initial, activate_primary, activate_backup.
  pose proof (no_recovery_while_primary s Hok (or_intror Ha)) as Hz.
  unfold selection_post. destruct (pv s) eqn:Hp.
  - destruct (usable_parts _ _ _ _ _ Hp) as (_ & Hav & _).
    destruct (measurement_parts _ Hm Hav) as (v & c & o & Hv & _).
    assert (is_Some (observed_monotonic primary)) as Ho by (unfold observed_monotonic; rewrite Hv; by eexists).
    repeat wp_step. selection_leaf ltac:(apply from_primary; auto). right. right. auto.
  - destruct (bv s) eqn:Hb; repeat wp_step.
    + selection_leaf ltac:(apply from_backup; auto).
    + selection_leaf ltac:(apply from_none).
Qed.

Lemma selection_spec s :
  fusion_ok s -> (pv s = true -> s.(last_primary) = Some primary) -> measurement_ok primary ->
  s.(gf_config).(gf_primary_source_id) <> s.(gf_config).(gf_backup_source_id) ->
  wp (select_measurement primary backup t (pv s) (bv s)) (selection_post s) s.
Proof.
  intros Hok Hl Hm Hne. unfold select_measurement. apply wp_bind, wp_get. cbv beta iota.
  destruct (gf_enabled _) eqn:Hen.
  - destruct (active_source_id s) as [a|] eqn:Ha; [|by apply selection_initial]. cbn.
    destruct (String.eqb_spec a s.(gf_config).(gf_primary_source_id)) as [->|Hna].
    + by apply selection_primary.
    + by eapply selection_backup.
  - cbn. apply wp_ret. pose proof (no_recovery_while_primary s Hok (or_intror (fo_disabled s Hok Hen))) as Hz.
    destruct (bv s) eqn:Hb; (eexists _, _; split; [reflexivity|]; split; [done|]; split; [by constructor; auto | split; [discriminate|]]).
    + apply from_backup; auto.
    + apply from_none.
Qed.

End selection.

(** ** One resolution *)

(** Two valid sources further apart than their tolerance. *)
Definition mismatched (r : GridFusionResult) : Prop :=
  exists d tol, r.(fr_difference_watts) = Some d /\ r.(fr_tolerance_watts) = Some tol /\ (tol <? d)%F = true.

Lemma justified_config s s' p b t n m state c :
  s'.(gf_config) = s.(gf_config) -> s'.(last_primary) = s.(last_primary) ->
  justified s p b t n m state c -> justified s' p b t n m state c.
Proof.
  intros Hc Hl H. destruct H; [apply from_primary | apply from_backup | eapply from_held
    | eapply from_both | apply from_none]; unfold measurement_usable in *; rewrite ?Hc, ?Hl; eauto.
Qed.

Lemma plausibility_spec p b s pv bv (Q : res (option float * option float) -> fusion -> Prop) :
  (pv = true -> available p.(gm_measurement) = true) -> (bv = true -> available b.(gm_measurement) = true) ->
  (forall d tol n, n = 0 \/ n = s.(mismatch_samples) + 1 /\
     (exists x y, d = Some x /\ tol = Some y /\ (y <? x)%F = true) ->
     Q (Ok (d, tol)) (s <| mismatch_samples := n |>)) ->
  wp (plausibility p b pv bv) Q s.
Proof.
  unfold plausibility, comparable, available, power_w. intros Hp Hb HQ.
  destruct pv, bv; cbn; try (repeat wp_step; apply HQ; by left).
  destruct (ts_value (gm_measurement p)) as [x|]; [|by discriminate Hp].
  destruct (ts_value (gm_measurement b)) as [y|]; [|by discriminate Hb].
  repeat wp_step. apply HQ. destruct (flt _ _) eqn:E; [right | by left]. eauto 6.
Qed.

Lemma conservative_ok p b :
  measurement_ok p -> measurement_ok b ->
  available p.(gm_measurement) = true -> available b.(gm_measurement) = true ->
  exists x y c o,
    power_w p = Some x /\ power_w b = Some y /\
    conservative_measurement p b =
      Ok (mkGridMeasurement "conservative" (mkTimestamped (Some (fmax x y)) (Some c) (Some o)) true
            (fmin (fmin p.(gm_confidence) b.(gm_confidence)) (fdec 1 2))).
Proof.
  intros Hp Hb Hap Hab.
  destruct (measurement_parts p Hp Hap) as (x & c1 & o1 & E1 & Hc1 & Ho1).
  destruct (measurement_parts b Hb Hab) as (y & c2 & o2 & E2 & Hc2 & Ho2).
  exists x, y, (fmin c1 c2), (fmin o1 o2). unfold conservative_measurement, complete_measurement_values,
    power_w, captured_at, observed_monotonic. rewrite E1, E2. cbn. repeat split; try done.
  unfold observed, timestamped, available, timestamps_valid. cbn [existsb forallb is_some id orb andb negb ts_value
    ts_captured_at ts_observed_monotonic].
  by rewrite (valid_timestamp_min c1 c2), (valid_timestamp_min o1 o2).
Qed.

(** What one resolution yields and where it leaves the fusion. *)
Record resolved_to (s s' : fusion) (p b : GridMeasurement) (t : float) (r : GridFusionResult) : Prop := {
  rt_ok : fusion_ok s';
  rt_config : s'.(gf_config) = s.(gf_config);
  rt_valid : r.(fr_primary_valid) = measurement_usable s p t s.(gf_config).(gf_primary_max_age_seconds);
  rt_last : s'.(last_primary) = if r.(fr_primary_valid) then Some p else s.(last_primary);
  rt_justified : justified s' p b t s'.(primary_invalid_samples) r.(fr_measurement) r.(fr_state) r.(fr_confidence);
  rt_recovery : s'.(primary_recovery_samples) = 0 \/
    r.(fr_primary_valid) = true /\ s'.(primary_recovery_samples) = s.(primary_recovery_samples) + 1;
  rt_active : s'.(active_source_id) = s.(active_source_id) \/
    s'.(active_source_id) = Some s.(gf_config).(gf_backup_source_id) \/
    r.(fr_primary_valid) = true /\ s'.(active_source_id) = Some s.(gf_config).(gf_primary_source_id) /\
    (s.(active_source_id) = None \/
     s.(gf_config).(gf_recovery_samples) <= s.(primary_recovery_samples) + 1);
  rt_mismatch : s'.(mismatch_samples) = 0 \/
    s'.(mismatch_samples) = s.(mismatch_samples) + 1 /\ mismatched r;
  rt_disagreement : r.(fr_state) = "disagreement" ->
    s.(gf_config).(gf_mismatch_samples) <= s'.(mismatch_samples) }.

Lemma resolve_spec s p b t :
  fusion_ok s -> s.(gf_config).(gf_primary_source_id) <> s.(gf_config).(gf_backup_source_id) ->
  measurement_ok p -> measurement_ok b ->
  wp (resolve p b t) (fun r s' => exists res, r = Ok res /\ resolved_to s s' p b t res) s.
Proof.
  intros Hok Hne Hmp Hmb. unfold resolve. apply wp_bind, wp_get. cbv beta iota zeta.
  set (pv := measurement_usable s p t _). set (bv := measurement_usable s b t _).
  apply wp_bind. eapply (wp_mono _ (fun r s1 => r = Ok tt /\
    s1 = s <| last_primary := if pv then Some p else s.(last_primary) |>)).
  { unfold record_primary. destruct pv; [by apply wp_modify|]. apply wp_ret. split; [done|]. by destruct s. }
  intros ? s1 [-> Hs1]. cbv beta iota.
  assert (pv = true -> available p.(gm_measurement) = true) as Hap by (intros H; apply usable_parts in H; tauto).
  assert (bv = true -> available b.(gm_measurement) = true) as Hab by (intros H; apply usable_parts in H; tauto).
  assert (fusion_ok s1) as Hok1.
  { destruct Hok as [H1 H2 H3]. subst s1. constructor; cbn; auto. intros Ha. destruct pv eqn:Hp; [|by auto].
    destruct (measurement_parts p Hmp (Hap eq_refl)) as (v & c & o & Hv & _). exists p. split; [done|].
    unfold observed_monotonic. rewrite Hv. by eexists. }
  apply wp_bind. eapply wp_mono.
  { pose proof (selection_spec p b t s1 Hok1) as Hsel. subst s1. apply Hsel; try done.
    change (pv = true -> (if pv then Some p else s.(last_primary)) = Some p). by intros ->. }
  intros ? s2 (sel & state & -> & Hok2 & [Hc2 Hl2 Hm2 Hr2 Ha2] & Hj). cbv beta iota.
  apply wp_bind. apply plausibility_spec; [exact Hap | exact Hab|]. intros d tol n Hn. cbv beta iota.
  set (s3 := s2 <| mismatch_samples := n |>). destruct Hj as [Hnd Hj].
  assert (fusion_ok s3) as Hok3 by (destruct Hok2; by constructor).
  assert (forall sel' state',
    justified s3 p b t s2.(primary_invalid_samples)
      (match sel' with None => unavailable | Some m => m.(gm_measurement) end) state'
      (match sel' with None => f0 | Some m => m.(gm_confidence) end) ->
    (state' = "disagreement" -> s.(gf_config).(gf_mismatch_samples) <= n) ->
    resolved_to s s3 p b t (fusion_result s3 sel' state' p b t pv bv d tol)) as Hdone.
  { intros sel' state' Hj' Hd. subst s1. constructor; try done; cbn.
    destruct Hn as [->|[-> (x & y & -> & -> & Hxy)]]; [by left | right].
    split; [by rewrite Hm2 | by exists x, y]. }
  assert (justified s3 p b t s2.(primary_invalid_samples)
    (match sel with None => unavailable | Some m => m.(gm_measurement) end) state
    (match sel with None => f0 | Some m => m.(gm_confidence) end)) as Hj3.
  { eapply justified_config; [exact Hc2 | exact Hl2 | exact Hj]. }
  unfold apply_disagreement_limit. apply wp_bind, wp_bind, wp_get. cbv beta iota.
  unfold persistent_disagreement. destruct (pv && bv && _) eqn:Ep; cbn [negb].
  - apply andb_prop in Ep as [[Hp Hb]%andb_prop Hn3]. apply wp_bind, wp_lift.
    destruct (conservative_ok p b Hmp Hmb (Hap Hp) (Hab Hb)) as (x & y & c & o & Hx & Hy & ->).
    cbv beta iota. apply wp_ret. cbv beta iota. apply wp_bind, wp_get. cbv beta iota. apply wp_ret.
    eexists. split; [reflexivity|]. apply Hdone; cbn.
    + eapply from_both; eauto; unfold measurement_usable; cbn; subst s1; cbn in Hc2; by rewrite Hc2.
    + intros _. cbn in Hn3. subst s1. cbn in Hc2. rewrite Hc2 in Hn3. lia.
  - apply wp_ret. cbv beta iota. apply wp_bind, wp_get. cbv beta iota. apply wp_ret.
    eexists. split; [reflexivity|]. apply Hdone; [exact Hj3 | done].
Qed.

(** ** Histories *)

Record fusion_call := mkFusionCall {
  fc_primary : GridMeasurement; fc_backup : GridMeasurement; fc_at : float; fc_result : GridFusionResult }.

(** The states a new fusion reaches, with the calls that led there, the last one last. *)
Inductive fusion_history (config : GridFusionConfig) : list fusion_call -> fusion -> Prop :=
  | fusion_start : fusion_history config [] (new_fusion config)
  | fusion_resolve l s p b t r s' :
    fusion_history config l s -> measurement_ok p -> measurement_ok b ->
    resolve p b t s = (Ok r, s') ->
    fusion_history config (l ++ [mkFusionCall p b t r])%list s'.

(** The last [n] calls satisfy [P]. *)
Definition trailing (n : Z) (P : fusion_call -> Prop) (l : list fusion_call) : Prop :=
  exists l1 l2, l = (l1 ++ l2)%list /\ Z.of_nat (length l2) = n /\ Forall P l2.

Lemma trailing_none P l : trailing 0 P l.
Proof. exists l, []. by rewrite app_nil_r. Qed.

Lemma trailing_snoc n P l x : trailing n P l -> P x -> trailing (n + 1) P (l ++ [x])%list.
Proof.
  intros (l1 & l2 & -> & Hn & Hl) Hx. exists l1, (l2 ++ [x])%list. rewrite app_assoc, length_app.
  repeat split; [cbn; lia | apply Forall_app; auto].
Qed.

Lemma trailing_le n m P l : 0 <= m <= n -> trailing n P l -> trailing m P l.
Proof.
  intros Hm (l1 & l2 & -> & Hn & Hl). exists (l1 ++ take (Z.to_nat (n - m)) l2)%list, (drop (Z.to_nat (n - m)) l2).
  rewrite <- app_assoc, take_drop, length_drop. repeat split; [lia | by apply Forall_drop].
Qed.

Record history_ok (config : GridFusionConfig) (l : list fusion_call) (s : fusion) : Prop := {
  ho_ok : fusion_ok s;
  ho_config : s.(gf_config) = config;
  ho_recovery : trailing s.(primary_recovery_samples) (fun c => c.(fc_result).(fr_primary_valid) = true) l;
  ho_mismatch : trailing s.(mismatch_samples) (fun c => mismatched c.(fc_result)) l;
  ho_last : forall p, s.(last_primary) = Some p ->
    exists c, c ∈ l /\ c.(fc_primary) = p /\ c.(fc_result).(fr_primary_valid) = true }.

Lemma history_step config l s p b t :
  config.(gf_primary_source_id) <> config.(gf_backup_source_id) ->
  history_ok config l s -> measurement_ok p -> measurement_ok b ->
  exists r s', resolve p b t s = (Ok r, s') /\ resolved_to s s' p b t r /\
    history_ok config (l ++ [mkFusionCall p b t r])%list s'.
Proof.
  intros Hne [Hok Hc Hr Hm Hl] Hp Hb. pose proof (resolve_spec s p b t Hok) as H.
  rewrite Hc in H. destruct (H Hne Hp Hb) as (r & Hrun & Hto). destruct (resolve p b t s) as [r0 s'] eqn:E.
  cbn in Hrun. subst r0. exists r, s'. split; [done|]. split; [exact Hto|].
  destruct Hto as [Ho' Hc' Hv' Hl' _ Hr' _ Hm' _]. cbn in *. constructor; [done | congruence| | |].
  - destruct Hr' as [->|[Hv ->]]; [apply trailing_none | by apply trailing_snoc].
  - destruct Hm' as [->|[-> Hv]]; [apply trailing_none | by apply trailing_snoc].
  - intros q Hq. rewrite Hl' in Hq. destruct (fr_primary_valid r) eqn:Ev.
    + injection Hq as <-. eexists. split; [apply elem_of_app; right; by apply list_elem_of_singleton|]. done.
    + destruct (Hl q Hq) as (c & Hc1 & Hc2). exists c. split; [apply elem_of_app; by left | done].
Qed.

Lemma history_sound config l s :
  config.(gf_primary_source_id) <> config.(gf_backup_source_id) ->
  fusion_history config l s -> history_ok config l s.
Proof.
  intros Hne. induction 1 as [|l s p b t r s' _ IH Hp Hb Hrun].
  - constructor; cbn; try done. 1,2: apply trailing_none.
  - destruct (history_step config l s p b t Hne IH Hp Hb) as (r' & s1 & Hrun' & _ & Hh). congruence.
Qed.

(** C13. The fused grid power is always accounted for: from every state that a new fusion
    with two distinct sources reaches, a resolution returns (it never raises), and its
    measurement is the usable primary, the usable backup, a primary recorded in an earlier
    call and held no longer than its maximal age and the hold time while fewer than the
    failover samples were invalid, the larger power of both usable sources, or none. *)
Theorem fused_measurement_is_justified config l s p b t :
  config.(gf_primary_source_id) <> config.(gf_backup_source_id) ->
  fusion_history config l s -> measurement_ok p -> measurement_ok b ->
  exists r s', resolve p b t s = (Ok r, s') /\
    justified s' p b t s'.(primary_invalid_samples) r.(fr_measurement) r.(fr_state) r.(fr_confidence) /\
    (forall q, s'.(last_primary) = Some q ->
       exists c, c ∈ (l ++ [mkFusionCall p b t r])%list /\ c.(fc_primary) = q /\
         c.(fc_result).(fr_primary_valid) = true).
Proof.
  intros Hne Hh Hp Hb. apply (history_sound config l s Hne) in Hh.
  destruct (history_step config l s p b t Hne Hh Hp Hb) as (r & s' & Hrun & Hto & Hh').
  exists r, s'. split; [exact Hrun|]. split; [apply Hto | apply Hh'].
Qed.

(** C14. Switching back is hysteretic: once the backup is active, the primary becomes active
    again only by a call that completes a run of as many consecutive calls with a valid
    primary as the configuration asks for; and the state is [disagreement] only when as many
    consecutive calls as configured found both sources valid and further apart than their
    tolerance. *)
Theorem primary_returns_after_recovery config l s p b t r s' :
  config.(gf_primary_source_id) <> config.(gf_backup_source_id) ->
  0 <= config.(gf_recovery_samples) -> 0 <= config.(gf_mismatch_samples) ->
  fusion_history config l s -> measurement_ok p -> measurement_ok b ->
  resolve p b t s = (Ok r, s') ->
  let l' := (l ++ [mkFusionCall p b t r])%list in
  (s.(active_source_id) = Some config.(gf_backup_source_id) ->
   s'.(active_source_id) = Some config.(gf_primary_source_id) ->
   trailing config.(gf_recovery_samples) (fun c => c.(fc_result).(fr_primary_valid) = true) l') /\
  (r.(fr_state) = "disagreement" ->
   trailing config.(gf_mismatch_samples) (fun c => mismatched c.(fc_result)) l').
Proof.
  intros Hne Hr0 Hm0 Hh Hp Hb Hrun l'. apply (history_sound config l s Hne) in Hh.
  destruct (history_step config l s p b t Hne Hh Hp Hb) as (r' & s1 & Hrun' & Hto & Hh').
  rewrite Hrun in Hrun'. injection Hrun' as <- <-. destruct Hto as [_ _ _ _ _ _ Ha _ Hd].
  pose proof (ho_config _ _ _ Hh) as Hc. rewrite Hc in *. split.
  - intros H1 H2. destruct Ha as [Ha|[Ha|(Hv & _ & [Hn|Hn])]]; [congruence..|].
    eapply trailing_le; [|apply trailing_snoc; [apply (ho_recovery _ _ _ Hh) | exact Hv]]. lia.
  - intros Hst. eapply trailing_le; [|apply (ho_mismatch _ _ _ Hh')]. specialize (Hd Hst). lia.
Qed.

(** With one source in both roles a failover would look for a primary that was never
    recorded. *)
Lemma equal_sources_raise config p b b' t t' :
  config.(gf_enabled) = true -> config.(gf_primary_source_id) = config.(gf_backup_source_id) ->
  let usable := fun m at_ age => is_usable m at_ age config.(gf_minimum_confidence) config.(gf_future_tolerance_seconds) in
  usable p t config.(gf_primary_max_age_seconds) = false ->
  usable b t config.(gf_backup_max_age_seconds) = true ->
  usable p t' config.(gf_primary_max_age_seconds) = false ->
  fst (resolve p b' t' (snd (resolve p b t (new_fusion config)))) = Err AttributeError.
Proof.
  intros Hen Heq usable Hp Hb Hp'. subst usable. cbn beta in *.
  assert (exists r, resolve p b t (new_fusion config) =
    (Ok r, mkFusion config (Some config.(gf_backup_source_id)) 0 0 0 None)) as [r ->].
  { unfold resolve, measurement_usable, select_measurement, mbind, M_bind, get, mret, M_ret.
    cbn -[is_usable]. rewrite Hp, Hb. cbn -[is_usable]. rewrite Hen. cbn -[is_usable]. by eexists. }
  unfold resolve, measurement_usable, select_measurement, select_while_primary, mbind, M_bind, get, mret, M_ret.
  cbn -[is_usable]. rewrite Hp'. cbn -[is_usable]. rewrite Hen. cbn -[is_usable].
  by rewrite Heq, String.eqb_refl.
Qed.

(** ** Witnesses *)

Definition default_fusion_config : GridFusionConfig :=
  mkGridFusionConfig true "inverter" "victron" (f_of_Z 15) (f_of_Z 6) (fdec 1 2) 3 2 (f_of_Z 6)
    (f_of_Z 300) (fdec 15 100) 3 f1.

(** A measurement of [w] watts at time [t] of both clocks. *)
Definition watts_at (source : string) (w t : Z) : GridMeasurement :=
  mkGridMeasurement source (mkTimestamped (Some (f_of_Z w)) (Some (f_of_Z t)) (Some (f_of_Z t))) true f1.

Definition resolve_at (w_primary t_primary w_backup t : Z) : fusion -> res GridFusionResult * fusion :=
  resolve (watts_at "inverter" w_primary t_primary) (watts_at "victron" w_backup t) (f_of_Z t).

Example failover_and_return :
  let '(r1, s1) := resolve_at 500 0 480 0 (new_fusion default_fusion_config) in
  let '(r2, s2) := resolve_at 500 0 480 20 s1 in
  let '(r3, s3) := resolve_at 500 0 480 40 s2 in
  let '(r4, s4) := resolve_at 900 50 480 50 s3 in
  let '(r5, s5) := resolve_at 900 60 480 60 s4 in
  map (fun r => match r with Ok x => x.(fr_state) | Err _ => "raised" end) [r1; r2; r3; r4; r5] =
    ["primary"; "primary-held"; "backup"; "backup-recovery"; "primary"].
Proof. vm_compute. reflexivity. Qed.

Lemma watts_at_ok source w t :
  valid_timestamp (Some (f_of_Z t)) = true -> measurement_ok (watts_at source w t).
Proof.
  intros Ht. unfold measurement_ok, timestamped, timestamps_valid, available, power_w, captured_at, observed_monotonic.
  cbn [watts_at gm_measurement ts_value ts_captured_at ts_observed_monotonic existsb forallb is_some id orb andb negb].
  by rewrite Ht.
Qed.

Lemma fused_measurement_is_justified_witness :
  let p := watts_at "inverter" 500 0 in let b := watts_at "victron" 480 0 in
  exists r s', resolve p b f0 (new_fusion default_fusion_config) = (Ok r, s') /\ r.(fr_state) = "primary".
Proof.
  intros p b. destruct (fused_measurement_is_justified default_fusion_config [] (new_fusion default_fusion_config)
    p b f0) as (r & s' & Hrun & _ & _).
  - discriminate.
  - apply fusion_start.
  - by apply watts_at_ok.
  - by apply watts_at_ok.
  - exists r, s'. split; [exact Hrun|].
    assert (match fst (resolve p b f0 (new_fusion default_fusion_config)) with
            | Ok x => x.(fr_state) = "primary" | Err _ => False end) as H by (vm_compute; reflexivity).
    rewrite Hrun in H. exact H.
Defined.

(** A sequence of calls: power and time of the primary, power of the backup, time of the call. *)
Definition fusion_calls (inputs : list (Z * Z * Z * Z)) (start : list fusion_call * fusion) : list fusion_call * fusion :=
  fold_left (fun ls x =>
    let '(w_primary, t_primary, w_backup, t) := x in
    match resolve_at w_primary t_primary w_backup t (snd ls) with
    | (Ok r, s') =>
      ((fst ls ++ [mkFusionCall (watts_at "inverter" w_primary t_primary) (watts_at "victron" w_backup t) (f_of_Z t) r])%list, s')
    | (Err _, _) => ls
    end) inputs start.

Definition timely (x : Z * Z * Z * Z) : bool :=
  let '(_, t_primary, _, t) := x in valid_timestamp (Some (f_of_Z t_primary)) && valid_timestamp (Some (f_of_Z t)).

Lemma fusion_calls_history config inputs start :
  forallb timely inputs = true -> fusion_history config (fst start) (snd start) ->
  fusion_history config (fst (fusion_calls inputs start)) (snd (fusion_calls inputs start)).
Proof.
  revert start. induction inputs as [|[[[wp tp] wb] t] inputs IH]; intros [l s] H Hs; [done|].
  cbn in H. apply andb_true_iff in H as [[H1 H2]%andb_true_iff H]. apply IH; [exact H|]. cbn [snd fst].
  destruct (resolve_at wp tp wb t s) as [[r|e] s'] eqn:E; [|exact Hs].
  by eapply fusion_resolve; [exact Hs | apply watts_at_ok | apply watts_at_ok | exact E].
Qed.

(** The primary falls silent, the backup takes over, the primary recovers but reads much more. *)
Definition failover : list fusion_call * fusion :=
  fusion_calls [(500, 0, 480, 0); (500, 0, 480, 20); (500, 0, 480, 40); (900, 50, 480, 50)] ([], new_fusion default_fusion_config).
Definition recovered : list fusion_call * fusion := fusion_calls [(900, 60, 480, 60)] failover.

Lemma failover_history : fusion_history default_fusion_config (fst failover) (snd failover).
Proof. apply fusion_calls_history; [vm_compute; reflexivity | apply fusion_start]. Qed.

Lemma recovered_history : fusion_history default_fusion_config (fst recovered) (snd recovered).
Proof. apply fusion_calls_history; [vm_compute; reflexivity | exact failover_history]. Qed.

Definition next_call (w t : Z) (ls : list fusion_call * fusion) (r : GridFusionResult) : list fusion_call :=
  (fst ls ++ [mkFusionCall (watts_at "inverter" w t) (watts_at "victron" 480 t) (f_of_Z t) r])%list.

Lemma switching_back :
  exists r s', resolve (watts_at "inverter" 900 60) (watts_at "victron" 480 60) (f_of_Z 60) (snd failover) = (Ok r, s') /\
    (snd failover).(active_source_id) = Some "victron" /\ s'.(active_source_id) = Some "inverter".
Proof. eexists _, _. split; [vm_compute; reflexivity|]. split; vm_compute; reflexivity. Qed.

Lemma disagreeing :
  exists r s', resolve (watts_at "inverter" 900 70) (watts_at "victron" 480 70) (f_of_Z 70) (snd recovered) = (Ok r, s') /\
    r.(fr_state) = "disagreement".
Proof. eexists _, _. split; [vm_compute; reflexivity|]. vm_compute. reflexivity. Qed.

Lemma measured source w : measurement_ok (watts_at source w 60) /\ measurement_ok (watts_at source w 70).
Proof. split; by apply watts_at_ok. Qed.

(** The call that switches back completes a run of two valid primaries; the one after it reports a disagreement,
    after three mismatches. *)
Lemma primary_returns_after_recovery_witness :
  (exists r s', resolve (watts_at "inverter" 900 60) (watts_at "victron" 480 60) (f_of_Z 60) (snd failover) = (Ok r, s') /\
    (snd failover).(active_source_id) = Some "victron" /\ s'.(active_source_id) = Some "inverter" /\
    trailing 2 (fun c => c.(fc_result).(fr_primary_valid) = true) (next_call 900 60 failover r)) /\
  (exists r s', resolve (watts_at "inverter" 900 70) (watts_at "victron" 480 70) (f_of_Z 70) (snd recovered) = (Ok r, s') /\
    r.(fr_state) = "disagreement" /\ trailing 3 (fun c => mismatched c.(fc_result)) (next_call 900 70 recovered r)).
Proof.
  split.
  - destruct switching_back as (r & s' & E & Ha & H). exists r, s'. split; [exact E|]. split; [exact Ha|]. split; [exact H|].
    refine (proj1 (primary_returns_after_recovery default_fusion_config (fst failover) (snd failover) _ _ _ r s'
      _ _ _ failover_history (proj1 (measured _ _)) (proj1 (measured _ _)) E) Ha H); discriminate.
  - destruct disagreeing as (r & s' & E & H). exists r, s'. split; [exact E|]. split; [exact H|].
    refine (proj2 (primary_returns_after_recovery default_fusion_config (fst recovered) (snd recovered) _ _ _ r s'
      _ _ _ recovered_history (proj2 (measured _ _)) (proj2 (measured _ _)) E) H); discriminate.
Defined.
