(* ===== verification/EnergyModels.v ===== *)
(** * Energy sources and learned profiles

    [energy/models.py] and [energy/numeric.py]: the snapshot of one energy source, the
    aggregated cluster, and the profile learned from the observations of one source. *)

From S2P Require Import Prelude PyFloat PyValue OrderedMap.

(** ** Numbers *)

Module Numeric.

(** energy/numeric.py: optional_float *)
Definition optional_float (value : pyval) : res (option float) :=
  match value with
  | VBool _ | VInt _ | VFloat _ => x ← py_float value; mret (Some x)
  | _ => Ok None
  end.

(** energy/numeric.py: optional_int *)
Definition optional_int (value : pyval) : option Z :=
  match value with
  | VBool _ => None
  | _ => match int_of_text (py_strip (py_str value)) with Ok n => Some n | Err _ => None end
  end.

(** energy/numeric.py: non_negative_optional_float *)
Definition non_negative_optional_float (value : pyval) : res (option float) :=
  normalized ← optional_float value;
  mret (match normalized with None => None | Some x => Some (fmax f0 x) end).

(** energy/numeric.py: sum_optional *)
Definition sum_optional (values : list (option float)) : option float :=
  match omap id values with
  | [] => None
  | numeric_values => Some (float_sum numeric_values)
  end.

End Numeric.

Definition val_of_int (o : option Z) : pyval := match o with Some n => VInt n | None => VNone end.

(** ** Sources *)

(** energy/models.py: ENERGY_SOURCE_ROLES *)
Definition ENERGY_SOURCE_ROLES : list string := ["battery"; "hybrid-inverter"; "inverter"].

(** energy/models.py: EnergySourceDefinition *)
Record EnergySourceDefinition := mkEnergySourceDefinition {
  sd_source_id : string; sd_profile_name : string; sd_role : string; sd_connector_type : string;
  sd_config_path : string; sd_service_name : string; sd_usable_capacity_wh : option float;
  sd_battery_chemistry : string; sd_capacity_auto_estimate : bool; sd_capacity_estimate_min_soc : float;
  sd_capacity_startup_recheck_seconds : float; sd_estimated_capacity_wh : option float;
  sd_estimated_capacity_ah : option float; sd_estimated_capacity_nominal_voltage_v : option float;
  sd_estimated_capacity_cell_count : option Z; sd_physical_id : string; sd_physical_priority : Z }.

(** energy/models.py: EnergySourceSnapshot *)
Record EnergySourceSnapshot := mkEnergySourceSnapshot {
  es_source_id : string; es_role : string; es_service_name : string; es_soc : option float;
  es_usable_capacity_wh : option float; es_usable_capacity_source : string;
  es_installed_capacity_ah : option float; es_capacity_voltage_v : option float;
  es_capacity_nominal_voltage_v : option float; es_capacity_cell_count : option Z;
  es_battery_chemistry : string; es_net_battery_power_w : option float;
  es_charge_limit_power_w : option float; es_discharge_limit_power_w : option float;
  es_ac_power_w : option float; es_pv_input_power_w : option float;
  es_grid_interaction_w : option float; es_ac_power_scope_key : string;
  es_pv_input_power_scope_key : string; es_grid_interaction_scope_key : string;
  es_operating_mode : string; es_online : bool; es_confidence : float;
  es_captured_at : option float; es_physical_id : string; es_physical_priority : Z }.

(** energy/models.py: EnergySourceSnapshot.charge_power_w *)
Definition charge_power_w (s : EnergySourceSnapshot) : option float :=
  match s.(es_net_battery_power_w) with None => None | Some net => Some (fmax f0 (fopp net)) end.

(** energy/models.py: EnergySourceSnapshot.discharge_power_w *)
Definition discharge_power_w (s : EnergySourceSnapshot) : option float :=
  match s.(es_net_battery_power_w) with None => None | Some net => Some (fmax f0 net) end.

(** energy/models.py: EnergySourceSnapshot.as_dict *)
Definition source_as_dict (s : EnergySourceSnapshot) : odict string pyval :=
  [("source_id", VStr s.(es_source_id)); ("physical_id", VStr s.(es_physical_id));
   ("physical_priority", VInt s.(es_physical_priority)); ("role", VStr s.(es_role));
   ("service_name", VStr s.(es_service_name)); ("soc", val_of_float s.(es_soc));
   ("usable_capacity_wh", val_of_float s.(es_usable_capacity_wh));
   ("usable_capacity_source", VStr s.(es_usable_capacity_source));
   ("installed_capacity_ah", val_of_float s.(es_installed_capacity_ah));
   ("capacity_voltage_v", val_of_float s.(es_capacity_voltage_v));
   ("capacity_nominal_voltage_v", val_of_float s.(es_capacity_nominal_voltage_v));
   ("capacity_cell_count", val_of_int s.(es_capacity_cell_count));
   ("battery_chemistry", VStr s.(es_battery_chemistry));
   ("net_battery_power_w", val_of_float s.(es_net_battery_power_w));
   ("charge_power_w", val_of_float (charge_power_w s));
   ("discharge_power_w", val_of_float (discharge_power_w s));
   ("charge_limit_power_w", val_of_float s.(es_charge_limit_power_w));
   ("discharge_limit_power_w", val_of_float s.(es_discharge_limit_power_w));
   ("ac_power_w", val_of_float s.(es_ac_power_w)); ("ac_output_power_w", val_of_float s.(es_ac_power_w));
   ("pv_input_power_w", val_of_float s.(es_pv_input_power_w));
   ("grid_interaction_w", val_of_float s.(es_grid_interaction_w));
   ("ac_power_scope_key", VStr s.(es_ac_power_scope_key));
   ("pv_input_power_scope_key", VStr s.(es_pv_input_power_scope_key));
   ("grid_interaction_scope_key", VStr s.(es_grid_interaction_scope_key));
   ("operating_mode", VStr s.(es_operating_mode)); ("online", VBool s.(es_online));
   ("confidence", VFloat s.(es_confidence)); ("captured_at", val_of_float s.(es_captured_at))].

(** energy/models.py: EnergyClusterSnapshot *)
Record EnergyClusterSnapshot := mkEnergyClusterSnapshot {
  ec_effective_soc : option float; ec_combined_soc : option float;
  ec_combined_usable_capacity_wh : option float; ec_combined_charge_power_w : option float;
  ec_combined_discharge_power_w : option float; ec_combined_charge_limit_power_w : option float;
  ec_combined_discharge_limit_power_w : option float;
  ec_combined_net_battery_power_w : option float; ec_combined_ac_power_w : option float;
  ec_combined_pv_input_power_w : option float; ec_combined_grid_interaction_w : option float;
  ec_average_confidence : option float; ec_source_count : Z; ec_online_source_count : Z;
  ec_valid_soc_source_count : Z; ec_battery_source_count : Z; ec_hybrid_inverter_source_count : Z;
  ec_inverter_source_count : Z; ec_sources : list EnergySourceSnapshot }.

Definition val_of_dict (d : odict string pyval) : pyval :=
  VDict (map (fun '(k, v) => (VStr k, v)) d).

(** energy/models.py: EnergyClusterSnapshot.as_dict *)
Definition cluster_as_dict (c : EnergyClusterSnapshot) : odict string pyval :=
  [("effective_soc", val_of_float c.(ec_effective_soc)); ("combined_soc", val_of_float c.(ec_combined_soc));
   ("combined_usable_capacity_wh", val_of_float c.(ec_combined_usable_capacity_wh));
   ("combined_charge_power_w", val_of_float c.(ec_combined_charge_power_w));
   ("combined_discharge_power_w", val_of_float c.(ec_combined_discharge_power_w));
   ("combined_charge_limit_power_w", val_of_float c.(ec_combined_charge_limit_power_w));
   ("combined_discharge_limit_power_w", val_of_float c.(ec_combined_discharge_limit_power_w));
   ("combined_net_battery_power_w", val_of_float c.(ec_combined_net_battery_power_w));
   ("combined_ac_power_w", val_of_float c.(ec_combined_ac_power_w));
   ("combined_ac_output_power_w", val_of_float c.(ec_combined_ac_power_w));
   ("combined_pv_input_power_w", val_of_float c.(ec_combined_pv_input_power_w));
   ("combined_grid_interaction_w", val_of_float c.(ec_combined_grid_interaction_w));
   ("average_confidence", val_of_float c.(ec_average_confidence));
   ("source_count", VInt c.(ec_source_count)); ("online_source_count", VInt c.(ec_online_source_count));
   ("valid_soc_source_count", VInt c.(ec_valid_soc_source_count));
   ("battery_source_count", VInt c.(ec_battery_source_count));
   ("hybrid_inverter_source_count", VInt c.(ec_hybrid_inverter_source_count));
   ("inverter_source_count", VInt c.(ec_inverter_source_count));
   ("sources", VList (map (fun s => val_of_dict (source_as_dict s)) c.(ec_sources)))].

(** ** Learned profiles *)

(** energy/models.py: EnergyLearningProfile *)
Record EnergyLearningProfile := mkEnergyLearningProfile {
  lp_source_id : string;
  lp_sample_count : Z;
  lp_active_sample_count : Z;
  lp_charge_sample_count : Z;
  lp_discharge_sample_count : Z;
  lp_import_support_sample_count : Z;
  lp_import_charge_sample_count : Z;
  lp_export_charge_sample_count : Z;
  lp_export_discharge_sample_count : Z;
  lp_export_idle_sample_count : Z;
  lp_day_active_sample_count : Z;
  lp_night_active_sample_count : Z;
  lp_day_charge_sample_count : Z;
  lp_night_charge_sample_count : Z;
  lp_day_discharge_sample_count : Z;
  lp_night_discharge_sample_count : Z;
  lp_response_sample_count : Z;
  lp_smoothing_sample_count : Z;
  lp_observed_max_charge_power_w : option float;
  lp_observed_max_discharge_power_w : option float;
  lp_observed_max_ac_power_w : option float;
  lp_observed_max_pv_input_power_w : option float;
  lp_observed_max_grid_import_w : option float;
  lp_observed_max_grid_export_w : option float;
  lp_observed_min_discharge_soc : option float;
  lp_observed_max_charge_soc : option float;
  lp_average_active_charge_power_w : option float;
  lp_average_active_discharge_power_w : option float;
  lp_average_active_power_delta_w : option float;
  lp_typical_response_delay_seconds : option float;
  lp_direction_change_count : Z;
  lp_last_direction : string;
  lp_last_activity_state : string;
  lp_last_active_at : option float;
  lp_last_inactive_at : option float;
  lp_last_change_at : option float }.

(** A profile with the field defaults. *)
Definition new_profile (source_id : string) : EnergyLearningProfile :=
  mkEnergyLearningProfile source_id 0 0 0 0 0 0 0 0 0 0 0 0 0 0 0 0 0
    None None None None None None None None None None None None 0 "idle" "idle" None None None.

(** The relative excess of one count over another, as the bias properties compute it. *)
Definition count_bias (positive negative : Z) : res (option float) :=
  let total := positive + negative in
  if total <=? 0 then Ok None
  else
    p ← float_of_int positive;
    n ← float_of_int negative;
    t ← float_of_int total;
    mret (Some ((p - n) / t)%F).

(** energy/models.py: EnergyLearningProfile.support_bias *)
Definition lp_support_bias (p : EnergyLearningProfile) : res (option float) :=
  count_bias p.(lp_discharge_sample_count) p.(lp_charge_sample_count).

(** energy/models.py: EnergyLearningProfile.import_support_bias *)
Definition lp_import_support_bias (p : EnergyLearningProfile) : res (option float) :=
  count_bias p.(lp_import_support_sample_count) p.(lp_import_charge_sample_count).

(** energy/models.py: EnergyLearningProfile.export_bias *)
Definition lp_export_bias (p : EnergyLearningProfile) : res (option float) :=
  count_bias p.(lp_export_charge_sample_count) p.(lp_export_discharge_sample_count).

(** energy/models.py: EnergyLearningProfile.day_support_bias *)
Definition lp_day_support_bias (p : EnergyLearningProfile) : res (option float) :=
  count_bias p.(lp_day_discharge_sample_count) p.(lp_day_charge_sample_count).

(** energy/models.py: EnergyLearningProfile.night_support_bias *)
Definition lp_night_support_bias (p : EnergyLearningProfile) : res (option float) :=
  count_bias p.(lp_night_discharge_sample_count) p.(lp_night_charge_sample_count).

(** energy/models.py: EnergyLearningProfile.battery_first_export_bias *)
Definition lp_battery_first_export_bias (p : EnergyLearningProfile) : res (option float) :=
  count_bias p.(lp_export_charge_sample_count)
    (p.(lp_export_discharge_sample_count) + p.(lp_export_idle_sample_count)).

(** energy/models.py: EnergyLearningProfile.reserve_band_floor_soc *)
Definition lp_reserve_band_floor_soc (p : EnergyLearningProfile) : option float :=
  p.(lp_observed_min_discharge_soc).

(** energy/models.py: EnergyLearningProfile.reserve_band_ceiling_soc *)
Definition lp_reserve_band_ceiling_soc (p : EnergyLearningProfile) : option float :=
  p.(lp_observed_max_charge_soc).

(** energy/models.py: EnergyLearningProfile.reserve_band_width_soc *)
Definition lp_reserve_band_width_soc (p : EnergyLearningProfile) : option float :=
  match lp_reserve_band_floor_soc p, lp_reserve_band_ceiling_soc p with
  | Some floor, Some ceiling => if (ceiling <? floor)%F then None else Some (ceiling - floor)%F
  | _, _ => None
  end.

(** energy/models.py: _mean_positive_power *)
Definition mean_positive_power (values : list (option float)) : option float :=
  match List.filter (fun v => (v >? f0)%F) (omap id values) with
  | [] => None
  | normalized => Some (float_sum normalized / f_of_Z (Z.of_nat (length normalized)))%F
  end.

(** energy/models.py: _normalized_smoothing_ratio *)
Definition normalized_smoothing_ratio (average_delta reference_power : option float) : option float :=
  match average_delta, reference_power with
  | Some delta, Some power =>
    if (power <=? f0)%F then None else Some (fmax f0 (fmin f1 (f1 - delta / power)%F))
  | _, _ => None
  end.

(** energy/models.py: EnergyLearningProfile.power_smoothing_ratio *)
Definition lp_power_smoothing_ratio (p : EnergyLearningProfile) : option float :=
  normalized_smoothing_ratio p.(lp_average_active_power_delta_w)
    (mean_positive_power [p.(lp_average_active_charge_power_w); p.(lp_average_active_discharge_power_w)]).

(** energy/models.py: EnergyLearningProfile.as_dict *)
Definition profile_as_dict (p : EnergyLearningProfile) : res (odict string pyval) :=
  support_bias ← lp_support_bias p;
  import_support_bias ← lp_import_support_bias p;
  export_bias ← lp_export_bias p;
  battery_first_export_bias ← lp_battery_first_export_bias p;
  day_support_bias ← lp_day_support_bias p;
  night_support_bias ← lp_night_support_bias p;
  mret [("source_id", VStr p.(lp_source_id));
        ("sample_count", VInt p.(lp_sample_count));
        ("active_sample_count", VInt p.(lp_active_sample_count));
        ("charge_sample_count", VInt p.(lp_charge_sample_count));
        ("discharge_sample_count", VInt p.(lp_discharge_sample_count));
        ("import_support_sample_count", VInt p.(lp_import_support_sample_count));
        ("import_charge_sample_count", VInt p.(lp_import_charge_sample_count));
        ("export_charge_sample_count", VInt p.(lp_export_charge_sample_count));
        ("export_discharge_sample_count", VInt p.(lp_export_discharge_sample_count));
        ("export_idle_sample_count", VInt p.(lp_export_idle_sample_count));
        ("day_active_sample_count", VInt p.(lp_day_active_sample_count));
        ("night_active_sample_count", VInt p.(lp_night_active_sample_count));
        ("day_charge_sample_count", VInt p.(lp_day_charge_sample_count));
        ("night_charge_sample_count", VInt p.(lp_night_charge_sample_count));
        ("day_discharge_sample_count", VInt p.(lp_day_discharge_sample_count));
        ("night_discharge_sample_count", VInt p.(lp_night_discharge_sample_count));
        ("response_sample_count", VInt p.(lp_response_sample_count));
        ("smoothing_sample_count", VInt p.(lp_smoothing_sample_count));
        ("observed_max_charge_power_w", val_of_float p.(lp_observed_max_charge_power_w));
        ("observed_max_discharge_power_w", val_of_float p.(lp_observed_max_discharge_power_w));
        ("observed_max_ac_power_w", val_of_float p.(lp_observed_max_ac_power_w));
        ("observed_max_pv_input_power_w", val_of_float p.(lp_observed_max_pv_input_power_w));
        ("observed_max_grid_import_w", val_of_float p.(lp_observed_max_grid_import_w));
        ("observed_max_grid_export_w", val_of_float p.(lp_observed_max_grid_export_w));
        ("observed_min_discharge_soc", val_of_float p.(lp_observed_min_discharge_soc));
        ("observed_max_charge_soc", val_of_float p.(lp_observed_max_charge_soc));
        ("average_active_charge_power_w", val_of_float p.(lp_average_active_charge_power_w));
        ("average_active_discharge_power_w", val_of_float p.(lp_average_active_discharge_power_w));
        ("average_active_power_delta_w", val_of_float p.(lp_average_active_power_delta_w));
        ("typical_response_delay_seconds", val_of_float p.(lp_typical_response_delay_seconds));
        ("support_bias", val_of_float support_bias);
        ("import_support_bias", val_of_float import_support_bias);
        ("export_bias", val_of_float export_bias);
        ("battery_first_export_bias", val_of_float battery_first_export_bias);
        ("day_support_bias", val_of_float day_support_bias);
        ("night_support_bias", val_of_float night_support_bias);
        ("reserve_band_floor_soc", val_of_float (lp_reserve_band_floor_soc p));
        ("reserve_band_ceiling_soc", val_of_float (lp_reserve_band_ceiling_soc p));
        ("reserve_band_width_soc", val_of_float (lp_reserve_band_width_soc p));
        ("power_smoothing_ratio", val_of_float (lp_power_smoothing_ratio p));
        ("direction_change_count", VInt p.(lp_direction_change_count));
        ("last_direction", VStr p.(lp_last_direction));
        ("last_activity_state", VStr p.(lp_last_activity_state));
        ("last_active_at", val_of_float p.(lp_last_active_at));
        ("last_inactive_at", val_of_float p.(lp_last_inactive_at));
        ("last_change_at", val_of_float p.(lp_last_change_at))].
