(* ===== verification/EnergyLearning.v ===== *)
(** * Learning the behaviour of energy sources

    [energy/learning.py], [energy/learning_coercion.py], [energy/learning_update.py] and
    [energy/learning_summary.py]: the profile of a source is updated with every
    observation, restored from plain data, and summarized over all sources.  The local
    hour of a time is an argument. *)

From S2P Require Import Prelude PyFloat PyValue Rounding OrderedMap EnergyModels.

(** ** Coercion *)

(** energy/learning_coercion.py: _coerced_int *)
Definition coerced_int (raw_profile : list (pyval * pyval)) (key : string) : res Z :=
  let v := dict_get key raw_profile in if py_bool v then py_int v else Ok 0.

(** energy/learning_coercion.py: _optional_float *)
Definition coerced_float (raw_profile : list (pyval * pyval)) (key : string) : res (option float) :=
  Numeric.optional_float (dict_get key raw_profile).

(** energy/learning_coercion.py: _normalized_direction *)
Definition normalized_direction (value : pyval) : string :=
  let normalized := py_lower (py_strip (py_str value)) in
  if bool_decide (normalized ∈ ["charge"; "discharge"]) then normalized else "idle".

(** energy/learning_coercion.py: _normalized_activity_state *)
Definition normalized_activity_state (value : pyval) : string :=
  let normalized := py_lower (py_strip (py_str value)) in
  if (normalized =? "active")%string then "active" else "idle".

(** The integers and then the floats are converted, in this order; the two dictionaries of
    the code are the bound variables. [source_id] is the key of the profile.
    energy/learning_coercion.py: _coerce_learning_profile *)
Definition coerce_learning_profile (source_id : pyval) (raw_profile : list (pyval * pyval))
    : res EnergyLearningProfile :=
  sample_count ← coerced_int raw_profile "sample_count";
  active_sample_count ← coerced_int raw_profile "active_sample_count";
  charge_sample_count ← coerced_int raw_profile "charge_sample_count";
  discharge_sample_count ← coerced_int raw_profile "discharge_sample_count";
  import_support_sample_count ← coerced_int raw_profile "import_support_sample_count";
  import_charge_sample_count ← coerced_int raw_profile "import_charge_sample_count";
  export_charge_sample_count ← coerced_int raw_profile "export_charge_sample_count";
  export_discharge_sample_count ← coerced_int raw_profile "export_discharge_sample_count";
  export_idle_sample_count ← coerced_int raw_profile "export_idle_sample_count";
  day_active_sample_count ← coerced_int raw_profile "day_active_sample_count";
  night_active_sample_count ← coerced_int raw_profile "night_active_sample_count";
  day_charge_sample_count ← coerced_int raw_profile "day_charge_sample_count";
  night_charge_sample_count ← coerced_int raw_profile "night_charge_sample_count";
  day_discharge_sample_count ← coerced_int raw_profile "day_discharge_sample_count";
  night_discharge_sample_count ← coerced_int raw_profile "night_discharge_sample_count";
  response_sample_count ← coerced_int raw_profile "response_sample_count";
  smoothing_sample_count ← coerced_int raw_profile "smoothing_sample_count";
  direction_change_count ← coerced_int raw_profile "direction_change_count";
  observed_max_charge_power_w ← coerced_float raw_profile "observed_max_charge_power_w";
  observed_max_discharge_power_w ← coerced_float raw_profile "observed_max_discharge_power_w";
  observed_max_ac_power_w ← coerced_float raw_profile "observed_max_ac_power_w";
  observed_max_pv_input_power_w ← coerced_float raw_profile "observed_max_pv_input_power_w";
  observed_max_grid_import_w ← coerced_float raw_profile "observed_max_grid_import_w";
  observed_max_grid_export_w ← coerced_float raw_profile "observed_max_grid_export_w";
  observed_min_discharge_soc ← coerced_float raw_profile "observed_min_discharge_soc";
  observed_max_charge_soc ← coerced_float raw_profile "observed_max_charge_soc";
  average_active_charge_power_w ← coerced_float raw_profile "average_active_charge_power_w";
  average_active_discharge_power_w ← coerced_float raw_profile "average_active_discharge_power_w";
  average_active_power_delta_w ← coerced_float raw_profile "average_active_power_delta_w";
  typical_response_delay_seconds ← coerced_float raw_profile "typical_response_delay_seconds";
  last_active_at ← coerced_float raw_profile "last_active_at";
  last_inactive_at ← coerced_float raw_profile "last_inactive_at";
  last_change_at ← coerced_float raw_profile "last_change_at";
  mret (mkEnergyLearningProfile (py_str (default source_id (dict_find "source_id" raw_profile)))
    sample_count active_sample_count charge_sample_count discharge_sample_count
    import_support_sample_count import_charge_sample_count export_charge_sample_count
    export_discharge_sample_count export_idle_sample_count day_active_sample_count
    night_active_sample_count day_charge_sample_count night_charge_sample_count
    day_discharge_sample_count night_discharge_sample_count response_sample_count
    smoothing_sample_count observed_max_charge_power_w observed_max_discharge_power_w
    observed_max_ac_power_w observed_max_pv_input_power_w observed_max_grid_import_w
    observed_max_grid_export_w observed_min_discharge_soc observed_max_charge_soc
    average_active_charge_power_w average_active_discharge_power_w
    average_active_power_delta_w typical_response_delay_seconds direction_change_count
    (normalized_direction (dict_get "last_direction" raw_profile))
    (normalized_activity_state (dict_get "last_activity_state" raw_profile))
    last_active_at last_inactive_at last_change_at).

(** A profile that was learned here, or plain data; only a mapping can be read.
    energy/learning_coercion.py: _normalized_profile_iter *)
Definition normalized_profile_iter (profiles : list (pyval * (EnergyLearningProfile + pyval)))
    : res (list EnergyLearningProfile) :=
  map_res (fun '(source_id, raw_profile) =>
    match raw_profile with
    | inl profile => Ok profile
    | inr (VDict d) => coerce_learning_profile source_id d
    | inr _ => Err AttributeError
    end) profiles.

(** ** Updating *)

(** energy/learning_update.py: _ACTIVE_POWER_THRESHOLD_W *)
Definition ACTIVE_POWER_THRESHOLD_W : float := f_of_Z 50.

(** energy/learning_update.py: _GRID_ACTIVITY_THRESHOLD_W *)
Definition GRID_ACTIVITY_THRESHOLD_W : float := f_of_Z 100.

(** energy/learning_update.py: _SampleUpdates *)
Record SampleUpdates := mkSampleUpdates {
  su_sample_count : Z;
  su_active_sample_count : Z;
  su_charge_sample_count : Z;
  su_discharge_sample_count : Z;
  su_import_support_sample_count : Z;
  su_import_charge_sample_count : Z;
  su_export_charge_sample_count : Z;
  su_export_discharge_sample_count : Z;
  su_export_idle_sample_count : Z;
  su_day_active_sample_count : Z;
  su_night_active_sample_count : Z;
  su_day_charge_sample_count : Z;
  su_night_charge_sample_count : Z;
  su_day_discharge_sample_count : Z;
  su_night_discharge_sample_count : Z;
  su_response_sample_count : Z;
  su_smoothing_sample_count : Z }.

(** energy/learning_update.py: _ObservationUpdates *)
Record ObservationUpdates := mkObservationUpdates {
  ou_observed_max_charge_power_w : option float;
  ou_observed_max_discharge_power_w : option float;
  ou_observed_max_ac_power_w : option float;
  ou_observed_max_pv_input_power_w : option float;
  ou_observed_max_grid_import_w : option float;
  ou_observed_max_grid_export_w : option float;
  ou_observed_min_discharge_soc : option float;
  ou_observed_max_charge_soc : option float }.

(** energy/learning_update.py: _ActivityMarkers *)
Record ActivityMarkers := mkActivityMarkers {
  am_last_direction : string;
  am_last_activity_state : string;
  am_last_active_at : option float;
  am_last_inactive_at : option float;
  am_last_change_at : option float }.

(** energy/learning_update.py: _ActivityUpdates *)
Record ActivityUpdates := mkActivityUpdates {
  au_average_active_charge_power_w : option float;
  au_average_active_discharge_power_w : option float;
  au_average_active_power_delta_w : option float;
  au_typical_response_delay_seconds : option float;
  au_direction_change_count : Z;
  au_markers : ActivityMarkers }.

(** energy/learning_update.py: _direction *)
Definition direction (source : EnergySourceSnapshot) : string :=
  match source.(es_net_battery_power_w) with
  | None => "idle"
  | Some net_power =>
    if (net_power <=? fopp ACTIVE_POWER_THRESHOLD_W)%F then "charge"
    else if (net_power >=? ACTIVE_POWER_THRESHOLD_W)%F then "discharge"
    else "idle"
  end.

Definition charging_direction (direction : string) : bool :=
  (direction =? "charge")%string || (direction =? "discharge")%string.

(** energy/learning_update.py: _is_active *)
Definition is_active (source : EnergySourceSnapshot) (direction : string) : bool :=
  if charging_direction direction then true
  else existsb (fun v => (fabs v >=? ACTIVE_POWER_THRESHOLD_W)%F)
         (omap id [source.(es_ac_power_w); source.(es_pv_input_power_w)]).

(** energy/learning_update.py: _absolute_optional *)
Definition absolute_optional (value : option float) : option float := fabs <$> value.

(** energy/learning_update.py: _positive_optional *)
Definition positive_optional (value : option float) : option float :=
  match value with
  | None => None
  | Some normalized => if (normalized >? f0)%F then Some normalized else None
  end.

(** energy/learning_update.py: _max_optional *)
Definition max_optional (current candidate : option float) : option float :=
  match candidate, current with
  | None, _ => current
  | Some c, None => Some c
  | Some c, Some x => Some (fmax x c)
  end.

(** energy/learning_update.py: _min_optional *)
Definition min_optional (current candidate : option float) : option float :=
  match candidate, current with
  | None, _ => current
  | Some c, None => Some c
  | Some c, Some x => Some (fmin x c)
  end.

(** energy/learning_update.py: _rolling_average *)
Definition rolling_average (current : option float) (count : Z) (candidate : option float)
    : res (option float) :=
  match candidate, current with
  | None, _ => Ok current
  | Some c, None => Ok (Some c)
  | Some c, Some x =>
    weight ← float_of_int count;
    total ← float_of_int (count + 1);
    average ← float_div (x * weight + c)%F total;
    mret (Some average)
  end.

(** energy/learning_update.py: _direction_changed *)
Definition direction_changed (previous : EnergyLearningProfile) (direction : string) : bool :=
  if negb (charging_direction direction) then false
  else charging_direction previous.(lp_last_direction) && negb (previous.(lp_last_direction) =? direction)%string.

(** energy/learning_update.py: _inactive_response_delay *)
Definition inactive_response_delay (previous : EnergyLearningProfile) (now : float) : option float :=
  match previous.(lp_last_inactive_at) with
  | None => None
  | Some t => if (previous.(lp_last_activity_state) =? "active")%string then None
              else Some (fmax f0 (now - t)%F)
  end.

(** energy/learning_update.py: _direction_change_response_delay *)
Definition direction_change_response_delay (previous : EnergyLearningProfile) (direction : string)
    (now : float) : option float :=
  match previous.(lp_last_change_at) with
  | None => None
  | Some t => if negb (direction_changed previous direction) then None else Some (fmax f0 (now - t)%F)
  end.

(** [a or b] of optional floats. *)
Definition or_float (a b : option float) : option float :=
  match a with Some x => if ftruthy x then a else b | None => b end.

(** energy/learning_update.py: _activation_response_delay *)
Definition activation_response_delay (previous : EnergyLearningProfile) (active : bool)
    (direction : string) (now : float) : option float :=
  if negb active then None
  else or_float (inactive_response_delay previous now) (direction_change_response_delay previous direction now).

(** energy/learning_update.py: _activity_markers *)
Definition activity_markers (previous : EnergyLearningProfile) (direction : string) (active : bool)
    (now : float) : ActivityMarkers :=
  mkActivityMarkers direction (if active then "active" else "idle")
    (if active then Some now else previous.(lp_last_active_at))
    (if negb active then Some now else previous.(lp_last_inactive_at)) (Some now).

(** energy/learning_update.py: _directional_power_pair *)
Definition directional_power_pair (previous : EnergyLearningProfile) (direction : string)
    (charge_power discharge_power : option float) : option float * option float :=
  if (direction =? "charge")%string then (charge_power, previous.(lp_average_active_charge_power_w))
  else if (direction =? "discharge")%string
  then (discharge_power, previous.(lp_average_active_discharge_power_w))
  else (None, None).

(** energy/learning_update.py: _smoothing_delta *)
Definition smoothing_delta (previous : EnergyLearningProfile) (direction : string)
    (charge_power discharge_power : option float) : option float :=
  match directional_power_pair previous direction charge_power discharge_power with
  | (Some current_power, Some average_power) => Some (fabs (current_power - average_power)%F)
  | _ => None
  end.

Definition count_if (b : bool) : Z := if b then 1 else 0.

(** energy/learning_update.py: _grid_increment *)
Definition grid_increment (direction : string) (grid_value : option float) (expected_direction : string) : Z :=
  match grid_value with
  | None => 0
  | Some v => count_if ((direction =? expected_direction)%string && (v >=? GRID_ACTIVITY_THRESHOLD_W)%F)
  end.

(** energy/learning_update.py: _grid_idle_increment *)
Definition grid_idle_increment (direction : string) (grid_export : option float) : Z :=
  match grid_export with
  | None => 0
  | Some v => count_if ((direction =? "idle")%string && (v >=? GRID_ACTIVITY_THRESHOLD_W)%F)
  end.

(** energy/learning_update.py: _active_period_increment *)
Definition active_period_increment (active : bool) (period expected_period : string) : Z :=
  count_if (active && (period =? expected_period)%string).

(** energy/learning_update.py: _period_increment *)
Definition period_increment (active : bool) (direction period expected_direction expected_period : string) : Z :=
  if negb active || negb (period =? expected_period)%string then 0
  else count_if (direction =? expected_direction)%string.

(** The dictionaries of increments are tuples, in the order of their entries.
    energy/learning_update.py: _direction_sample_increments *)
Definition direction_sample_increments (direction : string) : Z * Z :=
  (count_if (direction =? "charge")%string, count_if (direction =? "discharge")%string).

(** energy/learning_update.py: _grid_sample_increments *)
Definition grid_sample_increments (direction : string) (grid_import grid_export : option float)
    : Z * Z * Z * Z * Z :=
  (grid_increment direction grid_import "discharge", grid_increment direction grid_import "charge",
   grid_increment direction grid_export "charge", grid_increment direction grid_export "discharge",
   grid_idle_increment direction grid_export).

(** energy/learning_update.py: _period_sample_increments *)
Definition period_sample_increments (active : bool) (direction period : string) : Z * Z * Z * Z * Z * Z :=
  (active_period_increment active period "day", active_period_increment active period "night",
   period_increment active direction period "charge" "day",
   period_increment active direction period "charge" "night",
   period_increment active direction period "discharge" "day",
   period_increment active direction period "discharge" "night").

(** energy/learning_update.py: _profile_sample_updates *)
Definition profile_sample_updates (previous : EnergyLearningProfile) (active : bool) (direction : string)
    (grid_import grid_export response_delay : option float) (period : string)
    (smoothing_delta_w : option float) : SampleUpdates :=
  let '(charge, discharge) := direction_sample_increments direction in
  let '(import_support, import_charge, export_charge, export_discharge, export_idle) :=
    grid_sample_increments direction grid_import grid_export in
  let '(day_active, night_active, day_charge, night_charge, day_discharge, night_discharge) :=
    period_sample_increments active direction period in
  mkSampleUpdates
    (previous.(lp_sample_count) + 1)
    (previous.(lp_active_sample_count) + count_if active)
    (previous.(lp_charge_sample_count) + charge)
    (previous.(lp_discharge_sample_count) + discharge)
    (previous.(lp_import_support_sample_count) + import_support)
    (previous.(lp_import_charge_sample_count) + import_charge)
    (previous.(lp_export_charge_sample_count) + export_charge)
    (previous.(lp_export_discharge_sample_count) + export_discharge)
    (previous.(lp_export_idle_sample_count) + export_idle)
    (previous.(lp_day_active_sample_count) + day_active)
    (previous.(lp_night_active_sample_count) + night_active)
    (previous.(lp_day_charge_sample_count) + day_charge)
    (previous.(lp_night_charge_sample_count) + night_charge)
    (previous.(lp_day_discharge_sample_count) + day_discharge)
    (previous.(lp_night_discharge_sample_count) + night_discharge)
    (previous.(lp_response_sample_count) + count_if (match response_delay with Some _ => true | None => false end))
    (previous.(lp_smoothing_sample_count) + count_if (match smoothing_delta_w with Some _ => true | None => false end)).

(** energy/learning_update.py: _profile_observation_updates *)
Definition profile_observation_updates (previous : EnergyLearningProfile) (source : EnergySourceSnapshot)
    (direction : string)
    (charge_power discharge_power observed_ac observed_pv_input grid_import grid_export : option float)
    : ObservationUpdates :=
  mkObservationUpdates
    (max_optional previous.(lp_observed_max_charge_power_w) charge_power)
    (max_optional previous.(lp_observed_max_discharge_power_w) discharge_power)
    (max_optional previous.(lp_observed_max_ac_power_w) observed_ac)
    (max_optional previous.(lp_observed_max_pv_input_power_w) observed_pv_input)
    (max_optional previous.(lp_observed_max_grid_import_w) grid_import)
    (max_optional previous.(lp_observed_max_grid_export_w) grid_export)
    (min_optional previous.(lp_observed_min_discharge_soc)
       (if (direction =? "discharge")%string then source.(es_soc) else None))
    (max_optional previous.(lp_observed_max_charge_soc)
       (if (direction =? "charge")%string then source.(es_soc) else None)).

(** energy/learning_update.py: _profile_activity_updates *)
Definition profile_activity_updates (previous : EnergyLearningProfile) (direction : string) (active : bool)
    (now : float) (charge_power discharge_power response_delay : option float) : res ActivityUpdates :=
  let smoothing_delta_w := smoothing_delta previous direction charge_power discharge_power in
  let markers := activity_markers previous direction active now in
  charge_average ← rolling_average previous.(lp_average_active_charge_power_w)
    previous.(lp_charge_sample_count) (if (direction =? "charge")%string then charge_power else None);
  discharge_average ← rolling_average previous.(lp_average_active_discharge_power_w)
    previous.(lp_discharge_sample_count) (if (direction =? "discharge")%string then discharge_power else None);
  delta_average ← rolling_average previous.(lp_average_active_power_delta_w)
    previous.(lp_smoothing_sample_count) smoothing_delta_w;
  response_average ← rolling_average previous.(lp_typical_response_delay_seconds)
    previous.(lp_response_sample_count) response_delay;
  mret (mkActivityUpdates charge_average discharge_average delta_average response_average
          (previous.(lp_direction_change_count) + count_if (direction_changed previous direction)) markers).

(** energy/learning_update.py: _source_learning_metrics *)
Definition source_learning_metrics (source : EnergySourceSnapshot)
    : string * bool * option float * option float * option float * option float * option float * option float :=
  let direction := direction source in
  (direction, is_active source direction, charge_power_w source, discharge_power_w source,
   absolute_optional source.(es_ac_power_w), positive_optional source.(es_pv_input_power_w),
   positive_optional source.(es_grid_interaction_w),
   positive_optional (match source.(es_grid_interaction_w) with
                      | None => None | Some g => Some (fmax f0 (fopp g)) end)).

(** energy/learning_update.py: _build_updated_learning_profile *)
Definition build_updated_learning_profile (previous : EnergyLearningProfile) (source : EnergySourceSnapshot)
    (now : float) (sample_period : float -> string) : res EnergyLearningProfile :=
  let '(direction, active, charge_power, discharge_power, observed_ac, observed_pv_input, grid_import,
        grid_export) := source_learning_metrics source in
  let response_delay := activation_response_delay previous active direction now in
  let su := profile_sample_updates previous active direction grid_import grid_export response_delay
              (sample_period now) (smoothing_delta previous direction charge_power discharge_power) in
  let ou := profile_observation_updates previous source direction charge_power discharge_power observed_ac
              observed_pv_input grid_import grid_export in
  ac ← profile_activity_updates previous direction active now charge_power discharge_power response_delay;
  let am := ac.(au_markers) in
  mret (mkEnergyLearningProfile source.(es_source_id)
    su.(su_sample_count) su.(su_active_sample_count) su.(su_charge_sample_count)
    su.(su_discharge_sample_count) su.(su_import_support_sample_count)
    su.(su_import_charge_sample_count) su.(su_export_charge_sample_count)
    su.(su_export_discharge_sample_count) su.(su_export_idle_sample_count)
    su.(su_day_active_sample_count) su.(su_night_active_sample_count)
    su.(su_day_charge_sample_count) su.(su_night_charge_sample_count)
    su.(su_day_discharge_sample_count) su.(su_night_discharge_sample_count)
    su.(su_response_sample_count) su.(su_smoothing_sample_count) ou.(ou_observed_max_charge_power_w)
    ou.(ou_observed_max_discharge_power_w) ou.(ou_observed_max_ac_power_w)
    ou.(ou_observed_max_pv_input_power_w) ou.(ou_observed_max_grid_import_w)
    ou.(ou_observed_max_grid_export_w) ou.(ou_observed_min_discharge_soc)
    ou.(ou_observed_max_charge_soc) ac.(au_average_active_charge_power_w)
    ac.(au_average_active_discharge_power_w) ac.(au_average_active_power_delta_w)
    ac.(au_typical_response_delay_seconds) ac.(au_direction_change_count) am.(am_last_direction)
    am.(am_last_activity_state) am.(am_last_active_at) am.(am_last_inactive_at)
    am.(am_last_change_at)).

(** energy/learning.py: _sample_period *)
Definition sample_period (local_hour : float -> Z) (now : float) : string :=
  let hour := local_hour now in if (6 <=? hour) && (hour <? 22) then "day" else "night".

(** One observation of one source enters the profiles. *)
Definition update_one_profile (local_hour : float -> Z) (now : float)
    (profiles : odict string EnergyLearningProfile) (source : EnergySourceSnapshot)
    : res (odict string EnergyLearningProfile) :=
  let previous := default (new_profile source.(es_source_id)) (od_get source.(es_source_id) profiles) in
  updated ← build_updated_learning_profile previous source now (sample_period local_hour);
  mret (od_set source.(es_source_id) updated profiles).

Fixpoint fold_res {A B} (f : B -> A -> res B) (b : B) (l : list A) : res B :=
  match l with [] => Ok b | x :: l' => b' ← f b x; fold_res f b' l' end.

(** energy/learning.py: update_energy_learning_profiles *)
Definition update_energy_learning_profiles (local_hour : float -> Z)
    (existing : list (pyval * (EnergyLearningProfile + pyval))) (sources : list EnergySourceSnapshot)
    (now : float) : res (odict string EnergyLearningProfile) :=
  known ← normalized_profile_iter existing;
  let profiles := fold_left (fun d p => od_set p.(lp_source_id) p d) known [] in
  fold_res (update_one_profile local_hour now) profiles sources.

(** ** Summaries *)

(** energy/learning_summary.py: _sum_profile_int *)
Definition sum_profile_int (profiles : list EnergyLearningProfile) (field : EnergyLearningProfile -> Z) : Z :=
  fold_left Z.add (map field profiles) 0.

(** The dictionary of totals as a record.
    energy/learning_summary.py: _profile_count_totals *)
Record count_totals := mkCountTotals {
  ct_sample_count : Z; ct_active_sample_count : Z; ct_direction_change_count : Z;
  ct_day_active_count : Z; ct_night_active_count : Z; ct_charge_count : Z; ct_discharge_count : Z;
  ct_import_support_count : Z; ct_import_charge_count : Z; ct_export_charge_count : Z;
  ct_export_discharge_count : Z; ct_export_idle_count : Z; ct_day_charge_count : Z;
  ct_night_charge_count : Z; ct_day_discharge_count : Z; ct_night_discharge_count : Z }.

(** energy/learning_summary.py: _profile_count_totals *)
Definition profile_count_totals (ps : list EnergyLearningProfile) : count_totals :=
  mkCountTotals (sum_profile_int ps lp_sample_count) (sum_profile_int ps lp_active_sample_count)
    (sum_profile_int ps lp_direction_change_count) (sum_profile_int ps lp_day_active_sample_count)
    (sum_profile_int ps lp_night_active_sample_count) (sum_profile_int ps lp_charge_sample_count)
    (sum_profile_int ps lp_discharge_sample_count) (sum_profile_int ps lp_import_support_sample_count)
    (sum_profile_int ps lp_import_charge_sample_count) (sum_profile_int ps lp_export_charge_sample_count)
    (sum_profile_int ps lp_export_discharge_sample_count) (sum_profile_int ps lp_export_idle_sample_count)
    (sum_profile_int ps lp_day_charge_sample_count) (sum_profile_int ps lp_night_charge_sample_count)
    (sum_profile_int ps lp_day_discharge_sample_count) (sum_profile_int ps lp_night_discharge_sample_count).

(** energy/learning_summary.py: _profile_power_summaries *)
Definition profile_power_summaries (ps : list EnergyLearningProfile) : odict string pyval :=
  map (fun '(name, field) => (name, val_of_float (Numeric.sum_optional (map field ps))))
    [("observed_max_charge_power_w", lp_observed_max_charge_power_w);
     ("observed_max_discharge_power_w", lp_observed_max_discharge_power_w);
     ("observed_max_ac_power_w", lp_observed_max_ac_power_w);
     ("observed_max_pv_input_power_w", lp_observed_max_pv_input_power_w);
     ("observed_max_grid_import_w", lp_observed_max_grid_import_w);
     ("observed_max_grid_export_w", lp_observed_max_grid_export_w)].

(** energy/learning_summary.py: _mean_optional *)
Definition mean_optional (values : list (option float)) : option float :=
  match omap id values with
  | [] => None
  | numeric_values => Some (float_sum numeric_values / f_of_Z (Z.of_nat (length numeric_values)))%F
  end.

(** energy/learning_summary.py: _bias_from_counts *)
Definition bias_from_counts (positive_count negative_count : Z) : res (option float) :=
  let total := positive_count + negative_count in
  if total <=? 0 then Ok None
  else
    p ← float_of_int positive_count;
    n ← float_of_int negative_count;
    t ← float_of_int total;
    mret (Some ((p - n) / t)%F).

(** energy/learning_summary.py: _weighted_profile_pairs *)
Definition weighted_profile_pairs (ps : list EnergyLearningProfile)
    (value_field : EnergyLearningProfile -> option float) (weight_field : EnergyLearningProfile -> Z)
    : res (list (option float * float)) :=
  map_res (fun p => w ← float_of_int (weight_field p); mret (value_field p, w)) ps.

(** energy/learning_summary.py: _weighted_average *)
Definition weighted_average (values : list (option float * float)) : option float :=
  let '(weighted_total, weight_total) :=
    fold_left (fun acc x =>
      match fst x with
      | None => acc
      | Some value =>
        let normalized_weight := fmax f0 (snd x) in
        (fst acc + value * normalized_weight, snd acc + normalized_weight)%F
      end) values (f0, f0) in
  if (weight_total <=? f0)%F then None else Some (weighted_total / weight_total)%F.

(** energy/learning_summary.py: _weighted_profile_average *)
Definition weighted_profile_average (ps : list EnergyLearningProfile)
    (value_field : EnergyLearningProfile -> option float) (weight_field : EnergyLearningProfile -> Z)
    : res (option float) :=
  pairs ← weighted_profile_pairs ps value_field weight_field; mret (weighted_average pairs).

(** energy/learning_summary.py: _profile_average_summaries *)
Definition profile_average_summaries (ps : list EnergyLearningProfile) : res (odict string pyval) :=
  charge ← weighted_profile_average ps lp_average_active_charge_power_w lp_charge_sample_count;
  discharge ← weighted_profile_average ps lp_average_active_discharge_power_w lp_discharge_sample_count;
  delta ← weighted_profile_average ps lp_average_active_power_delta_w lp_smoothing_sample_count;
  smoothing ← weighted_profile_average ps lp_power_smoothing_ratio lp_smoothing_sample_count;
  mret [("average_active_charge_power_w", val_of_float charge);
        ("average_active_discharge_power_w", val_of_float discharge);
        ("typical_response_delay_seconds",
         val_of_float (mean_optional (map lp_typical_response_delay_seconds ps)));
        ("average_active_power_delta_w", val_of_float delta);
        ("power_smoothing_ratio", val_of_float smoothing)].

(** energy/learning_summary.py: _profile_bias_summaries *)
Definition profile_bias_summaries (c : count_totals) : res (odict string pyval) :=
  support ← bias_from_counts c.(ct_discharge_count) c.(ct_charge_count);
  import_support ← bias_from_counts c.(ct_import_support_count) c.(ct_import_charge_count);
  export ← bias_from_counts c.(ct_export_charge_count) c.(ct_export_discharge_count);
  battery_first ← bias_from_counts c.(ct_export_charge_count)
    (c.(ct_export_discharge_count) + c.(ct_export_idle_count));
  day ← bias_from_counts c.(ct_day_discharge_count) c.(ct_day_charge_count);
  night ← bias_from_counts c.(ct_night_discharge_count) c.(ct_night_charge_count);
  mret [("support_bias", val_of_float support); ("import_support_bias", val_of_float import_support);
        ("export_bias", val_of_float export); ("battery_first_export_bias", val_of_float battery_first);
        ("day_support_bias", val_of_float day); ("night_support_bias", val_of_float night)].

(** energy/learning_summary.py: _known_profile_values *)
Definition known_profile_values (ps : list EnergyLearningProfile)
    (field : EnergyLearningProfile -> option float) : list float := omap field ps.

(** energy/learning_summary.py: _max_known *)
Definition max_known (values : list float) : option float :=
  match values with [] => None | x :: rest => Some (fold_left fmax rest x) end.

(** energy/learning_summary.py: _min_known *)
Definition min_known (values : list float) : option float :=
  match values with [] => None | x :: rest => Some (fmin_list x rest) end.

(** energy/learning_summary.py: _reserve_band_width *)
Definition reserve_band_width (reserve_floor reserve_ceiling : option float) : option float :=
  match reserve_floor, reserve_ceiling with
  | Some floor, Some ceiling => if (ceiling <? floor)%F then None else Some (ceiling - floor)%F
  | _, _ => None
  end.

(** energy/learning_summary.py: _profile_reserve_summaries *)
Definition profile_reserve_summaries (ps : list EnergyLearningProfile) : odict string pyval :=
  let reserve_floor := max_known (known_profile_values ps lp_reserve_band_floor_soc) in
  let reserve_ceiling := min_known (known_profile_values ps lp_reserve_band_ceiling_soc) in
  [("reserve_band_floor_soc", val_of_float reserve_floor);
   ("reserve_band_ceiling_soc", val_of_float reserve_ceiling);
   ("reserve_band_width_soc", val_of_float (reserve_band_width reserve_floor reserve_ceiling))].

(** energy/learning_summary.py: _summarize_normalized_energy_learning_profiles *)
Definition summarize_normalized_energy_learning_profiles (ps : list EnergyLearningProfile)
    : res (odict string pyval) :=
  let counts := profile_count_totals ps in
  averages ← profile_average_summaries ps;
  biases ← profile_bias_summaries counts;
  mret ([("profile_count", VInt (Z.of_nat (length ps))); ("sample_count", VInt counts.(ct_sample_count));
         ("active_sample_count", VInt counts.(ct_active_sample_count));
         ("direction_change_count", VInt counts.(ct_direction_change_count));
         ("day_active_sample_count", VInt counts.(ct_day_active_count));
         ("night_active_sample_count", VInt counts.(ct_night_active_count))]
        ++ profile_power_summaries ps ++ averages ++ biases ++ profile_reserve_summaries ps)%list.

(** energy/learning.py: summarize_energy_learning_profiles *)
Definition summarize_energy_learning_profiles (profiles : list (pyval * (EnergyLearningProfile + pyval)))
    : res (odict string pyval) :=
  normalized ← normalized_profile_iter profiles;
  summarize_normalized_energy_learning_profiles normalized.

(** ** Counters of a learned profile *)

(** What the counters of a profile that was only ever updated satisfy. *)
Record counters_ok (p : EnergyLearningProfile) : Prop := {
  co_charge : 0 <= p.(lp_charge_sample_count);
  co_discharge : 0 <= p.(lp_discharge_sample_count);
  co_active : p.(lp_charge_sample_count) + p.(lp_discharge_sample_count) <= p.(lp_active_sample_count);
  co_sample : p.(lp_active_sample_count) <= p.(lp_sample_count);
  co_period : p.(lp_day_active_sample_count) + p.(lp_night_active_sample_count) = p.(lp_active_sample_count);
  co_period_charge : p.(lp_day_charge_sample_count) + p.(lp_night_charge_sample_count) = p.(lp_charge_sample_count);
  co_period_discharge :
    p.(lp_day_discharge_sample_count) + p.(lp_night_discharge_sample_count) = p.(lp_discharge_sample_count);
  co_day : 0 <= p.(lp_day_charge_sample_count) /\ 0 <= p.(lp_day_discharge_sample_count) /\
    0 <= p.(lp_night_charge_sample_count) /\ 0 <= p.(lp_night_discharge_sample_count);
  co_import : 0 <= p.(lp_import_charge_sample_count) /\ 0 <= p.(lp_import_support_sample_count);
  co_export : 0 <= p.(lp_export_charge_sample_count) /\ 0 <= p.(lp_export_discharge_sample_count) /\
    0 <= p.(lp_export_idle_sample_count);
  co_grid_charge : p.(lp_import_charge_sample_count) + p.(lp_export_charge_sample_count) <= p.(lp_charge_sample_count);
  co_grid_discharge :
    p.(lp_import_support_sample_count) + p.(lp_export_discharge_sample_count) <= p.(lp_discharge_sample_count);
  co_grid_idle : p.(lp_export_idle_sample_count) + p.(lp_charge_sample_count) + p.(lp_discharge_sample_count) <=
    p.(lp_sample_count);
  co_response : 0 <= p.(lp_response_sample_count) <= p.(lp_active_sample_count);
  co_smoothing : 0 <= p.(lp_smoothing_sample_count) <= p.(lp_charge_sample_count) + p.(lp_discharge_sample_count);
  co_changes : 0 <= p.(lp_direction_change_count) <= p.(lp_charge_sample_count) + p.(lp_discharge_sample_count) }.

Lemma new_profile_counters source_id : counters_ok (new_profile source_id).
Proof. by constructor. Qed.

(** The sample that one update adds to the counters. *)
Lemma direction_cases source :
  direction source = "charge" /\ is_active source "charge" = true \/
  direction source = "discharge" /\ is_active source "discharge" = true \/ direction source = "idle".
Proof.
  unfold direction. destruct (es_net_battery_power_w source) as [p|]; [|auto].
  destruct (_ <=? _)%F; [auto|]. destruct (_ <=? _)%F; auto.
Qed.

(** Import and export exclude each other. *)
Lemma grid_exclusive g :
  positive_optional g = None \/
  positive_optional (match g with None => None | Some x => Some (fmax f0 (fopp x)) end) = None.
Proof.
  destruct g as [x|]; [|by left]. cbn. destruct (f0 <? x)%F eqn:E; [right | by left].
  assert (fopp x <? f0 = true)%F as H by (destruct x as [|[]| |[]]; done).
  assert (fmax f0 (fopp x) = f0) as -> by (unfold fmax; destruct (f0 <? fopp x)%F eqn:E'; [forder | done]).
  done.
Qed.

Lemma rolling_average_ok current count candidate :
  0 <= count -> count + 1 < 2 ^ 53 -> is_ok (rolling_average current count candidate).
Proof.
  intros H1 H2. unfold rolling_average. destruct candidate as [c|]; [|by eexists].
  destruct current as [x|]; [|by eexists].
  destruct (float_of_int_small count) as (w & -> & _); [lia|].
  destruct (float_of_int_small (count + 1)) as (t & -> & _ & _ & Ht); [lia|].
  unfold float_div. cbn. rewrite Ht. destruct (Z.eqb_spec (count + 1) 0); [lia|]. by eexists.
Qed.

Definition day_or_night (period : string) : Prop := period = "day" \/ period = "night".

Lemma sample_period_cases local_hour now : day_or_night (sample_period local_hour now).
Proof. unfold sample_period. destruct (_ && _); [by left | by right]. Qed.

Lemma count_if_range b : 0 <= count_if b <= 1.
Proof. destruct b; cbn; lia. Qed.

Lemma grid_increment_range d g e : 0 <= grid_increment d g e <= count_if (d =? e)%string.
Proof. unfold grid_increment. destruct g; destruct (d =? e)%string; cbn; [apply count_if_range | lia..]. Qed.

Lemma grid_idle_range d g : 0 <= grid_idle_increment d g <= count_if (d =? "idle")%string.
Proof. unfold grid_idle_increment. destruct g; destruct (d =? "idle")%string; cbn; [apply count_if_range | lia..]. Qed.

Lemma grid_none d e : grid_increment d None e = 0.
Proof. reflexivity. Qed.

(** Reading a source: the direction, the activity, and at most one side of the grid. *)
Lemma metrics_cases source :
  exists d a c dc oa op gi ge,
    source_learning_metrics source = (d, a, c, dc, oa, op, gi, ge) /\
    (d = "charge" /\ a = true \/ d = "discharge" /\ a = true \/ d = "idle") /\ (gi = None \/ ge = None).
Proof.
  unfold source_learning_metrics. do 8 eexists. split; [reflexivity|]. split; [|apply grid_exclusive].
  destruct (direction_cases source) as [[-> H]|[[-> H]| ->]]; auto.
Qed.

Lemma response_needs_activity p a d now r :
  activation_response_delay p a d now = Some r -> a = true.
Proof. by destruct a. Qed.

Lemma smoothing_needs_direction p d c dc r :
  smoothing_delta p d c dc = Some r -> charging_direction d = true.
Proof.
  unfold smoothing_delta, directional_power_pair, charging_direction.
  destruct (d =? "charge")%string; [done|]. by destruct (d =? "discharge")%string.
Qed.

Lemma change_needs_direction p d : direction_changed p d = true -> charging_direction d = true.
Proof. unfold direction_changed. by destruct (charging_direction d). Qed.

(** One update: it returns, for the source it observed, and the counters stay consistent. *)
Lemma update_counters p source now period :
  counters_ok p -> day_or_night (period now) -> p.(lp_sample_count) + 1 < 2 ^ 53 ->
  exists p', build_updated_learning_profile p source now period = Ok p' /\ counters_ok p' /\
    p'.(lp_source_id) = source.(es_source_id) /\ p'.(lp_sample_count) = p.(lp_sample_count) + 1.
Proof.
  intros Hp Hper Hn. unfold build_updated_learning_profile.
  destruct (metrics_cases source) as (d & a & c & dc & oa & op & gi & ge & -> & Hd & Hg).
  set (rd := activation_response_delay p a d now). set (sd := smoothing_delta p d c dc).
  pose proof (response_needs_activity p a d now) as Hrd. fold rd in Hrd.
  pose proof (smoothing_needs_direction p d c dc) as Hsd. fold sd in Hsd.
  pose proof (change_needs_direction p d) as Hcd. destruct Hp.
  unfold profile_activity_updates. fold sd.
  destruct (rolling_average_ok (lp_average_active_charge_power_w p) (lp_charge_sample_count p)
    (if (d =? "charge")%string then c else None)) as [x1 ->]; [lia..|].
  destruct (rolling_average_ok (lp_average_active_discharge_power_w p) (lp_discharge_sample_count p)
    (if (d =? "discharge")%string then dc else None)) as [x2 ->]; [lia..|].
  destruct (rolling_average_ok (lp_average_active_power_delta_w p) (lp_smoothing_sample_count p) sd) as [x3 ->]; [lia..|].
  destruct (rolling_average_ok (lp_typical_response_delay_seconds p) (lp_response_sample_count p) rd) as [x4 ->]; [lia..|].
  eexists. split; [reflexivity|]. cbn [res_ret mret res_bind mbind]. split; [|done].
  pose proof (grid_increment_range d gi "discharge"). pose proof (grid_increment_range d gi "charge").
  pose proof (grid_increment_range d ge "discharge"). pose proof (grid_increment_range d ge "charge").
  pose proof (grid_idle_range d ge).
  assert (grid_increment d gi "charge" + grid_increment d ge "charge" <= count_if (d =? "charge")%string) by
    (destruct Hg as [-> | ->]; rewrite grid_none; lia).
  assert (grid_increment d gi "discharge" + grid_increment d ge "discharge" <= count_if (d =? "discharge")%string) by
    (destruct Hg as [-> | ->]; rewrite grid_none; lia).
  assert (count_if (match rd with Some _ => true | None => false end) <= count_if a) by
    (destruct rd; [by rewrite (Hrd _ eq_refl) | destruct a; done]).
  assert (count_if (match sd with Some _ => true | None => false end) <= count_if (charging_direction d)) by
    (destruct sd; [by rewrite (Hsd _ eq_refl) | destruct (charging_direction d); done]).
  assert (count_if (direction_changed p d) <= count_if (charging_direction d)) by
    (destruct (direction_changed p d); [by rewrite Hcd | destruct (charging_direction d); done]).
  pose proof (count_if_range (match rd with Some _ => true | None => false end)).
  pose proof (count_if_range (match sd with Some _ => true | None => false end)).
  pose proof (count_if_range (direction_changed p d)).
  destruct Hd as [[-> ->]|[[-> ->]| ->]]; [| |destruct a]; destruct Hper as [-> | ->]; constructor;
    cbn in *; lia.
Qed.

(** ** All sources *)

(** The profiles the service keeps: under their own ids, with consistent counters. *)
Definition profiles_ok (d : odict string EnergyLearningProfile) : Prop :=
  od_nodup d /\ forall k p, od_get k d = Some p -> p.(lp_source_id) = k /\ counters_ok p.

(** The number of observations that a source has contributed. *)
Definition samples_of (k : string) (d : odict string EnergyLearningProfile) : Z :=
  match od_get k d with Some p => p.(lp_sample_count) | None => 0 end.

(** The number of sources with the id [k]. *)
Definition occurrences (k : string) (sources : list EnergySourceSnapshot) : Z :=
  Z.of_nat (length (List.filter (fun s => (s.(es_source_id) =? k)%string) sources)).

Lemma profiles_ok_set d p :
  profiles_ok d -> counters_ok p -> profiles_ok (od_set p.(lp_source_id) p d).
Proof.
  intros [Hn H] Hp. split; [by apply od_nodup_set|]. intros k q. rewrite od_get_set.
  case_decide as E; [|apply H]. by intros [= <-].
Qed.

Lemma rebuild_profiles_from d d0 :
  od_nodup (d0 ++ d)%list -> (forall kp, kp ∈ d -> (snd kp).(lp_source_id) = fst kp) ->
  fold_left (fun d p => od_set p.(lp_source_id) p d) (map snd d) d0 = (d0 ++ d)%list.
Proof.
  revert d0. induction d as [|[k p] d IH]; intros d0 Hn H; cbn; [by rewrite app_nil_r|].
  assert (p.(lp_source_id) = k) as -> by (apply (H (k, p)); left).
  assert (od_set k p d0 = d0 ++ [(k, p)])%list as ->.
  { assert (k ∉ od_keys d0) as Hk.
    { unfold od_nodup, od_keys in Hn. rewrite map_app in Hn. apply NoDup_app in Hn as (_ & Hn & _).
      intros Hin. apply (Hn k Hin). by left. }
    clear -Hk. induction d0 as [|[k' p'] d0 IH]; [done|]. cbn in *. apply not_elem_of_cons in Hk as [H1 H2].
    rewrite decide_False by done. by rewrite IH. }
  rewrite IH, <- app_assoc; [done | by rewrite <- app_assoc|]. intros kp Hin. apply H. by right.
Qed.

Lemma rebuild_profiles d :
  profiles_ok d -> fold_left (fun d p => od_set p.(lp_source_id) p d) (map snd d) [] = d.
Proof.
  intros [Hn H]. apply (rebuild_profiles_from d []); [done|]. intros [k p] Hin.
  by apply (H k p), od_get_elem.
Qed.

Lemma iterate_learned d :
  normalized_profile_iter (map (fun '(k, p) => (VStr k, inl p)) d) = Ok (map snd d).
Proof.
  unfold normalized_profile_iter. induction d as [|[k p] d IH]; [done|]. cbn. by rewrite IH.
Qed.

Lemma update_one_ok local_hour now d source :
  profiles_ok d -> (forall k, samples_of k d + 1 < 2 ^ 53) ->
  exists d', update_one_profile local_hour now d source = Ok d' /\ profiles_ok d' /\
    (forall k, samples_of k d' = samples_of k d + count_if (source.(es_source_id) =? k)%string).
Proof.
  intros Hd Hs. unfold update_one_profile. set (k0 := source.(es_source_id)).
  set (p0 := default (new_profile k0) (od_get k0 d)).
  assert (counters_ok p0 /\ p0.(lp_sample_count) = samples_of k0 d) as [Hp0 Hn0].
  { subst p0. unfold samples_of. destruct (od_get k0 d) as [p|] eqn:E; cbn.
    - by destruct (proj2 Hd _ _ E). - split; [apply new_profile_counters | done]. }
  destruct (update_counters p0 source now (sample_period local_hour)) as (p' & -> & Hp' & Hid & Hn');
    [done | apply sample_period_cases | rewrite Hn0; apply Hs|].
  eexists. split; [reflexivity|]. fold k0 in Hid. split; [rewrite <- Hid; by apply profiles_ok_set|].
  intros k. unfold samples_of. rewrite od_get_set. case_decide as E.
  - subst k. fold k0. rewrite String.eqb_refl, Hn', Hn0. unfold samples_of. cbn. lia.
  - destruct (String.eqb_spec k0 k); [congruence|]. cbn. lia.
Qed.

Lemma occurrences_cons k s sources :
  occurrences k (s :: sources) = count_if (s.(es_source_id) =? k)%string + occurrences k sources.
Proof. unfold occurrences. cbn. destruct (_ =? _)%string; cbn [length count_if]; lia. Qed.

(** Learning never fails and never loses count: from profiles kept under their own ids
    with consistent counters, every batch of observations yields such profiles again (the
    counters of directions, periods and grid situations add up within the active and total
    counts), and each source's sample count grows by exactly its number of observations. *)
Theorem learning_counts_every_observation local_hour d sources now :
  profiles_ok d -> (forall k, samples_of k d + Z.of_nat (length sources) < 2 ^ 53) ->
  exists d',
    update_energy_learning_profiles local_hour (map (fun '(k, p) => (VStr k, inl p)) d) sources now = Ok d' /\
    profiles_ok d' /\ forall k, samples_of k d' = samples_of k d + occurrences k sources.
Proof.
  intros Hd Hs. unfold update_energy_learning_profiles. rewrite iterate_learned. cbn [mbind res_bind].
  rewrite rebuild_profiles by done. clear -Hd Hs. revert d Hd Hs.
  induction sources as [|s sources IH]; intros d Hd Hs.
  - exists d. split; [done|]. split; [done|]. intros k. unfold occurrences. cbn. lia.
  - cbn [fold_res]. destruct (update_one_ok local_hour now d s Hd) as (d1 & -> & Hd1 & Hn1).
    { intros k. specialize (Hs k). cbn in Hs. lia. }
    destruct (IH d1 Hd1) as (d' & Hrun & Hd' & Hn').
    { intros k. rewrite Hn1. specialize (Hs k). pose proof (count_if_range (s.(es_source_id) =? k)%string). cbn in Hs. lia. }
    exists d'. split; [exact Hrun|]. split; [done|]. intros k. rewrite Hn', Hn1, occurrences_cons. lia.
Qed.

Definition charging_battery (source_id : string) : EnergySourceSnapshot :=
  mkEnergySourceSnapshot source_id "battery" "" (Some (f_of_Z 60)) (Some (f_of_Z 10000)) "" None None None
    None "lfp" (Some (f_of_Z (-800))) None None None None (Some (f_of_Z (-300))) "" "" "" "" true f1 None "" 0.

Lemma learning_counts_every_observation_witness :
  exists d', update_energy_learning_profiles (fun _ => 12) [] [charging_battery "a"; charging_battery "b"; charging_battery "a"] f0 = Ok d' /\
    samples_of "a" d' = 2.
Proof.
  destruct (learning_counts_every_observation (fun _ => 12) []
    [charging_battery "a"; charging_battery "b"; charging_battery "a"] f0) as (d' & Hrun & _ & Hn).
  - split; [apply NoDup_nil_2 | done].
  - intros k. vm_compute. reflexivity.
  - exists d'. split; [exact Hrun | exact (Hn "a")].
Defined.
