(* ===== verification/EnergyAggregate.v ===== *)
(** * Aggregation of energy sources

    [energy/aggregate.py] and [energy/physical_sources.py]: several sources are combined into
    one cluster, a battery that is observed on several paths counting once, and the fairness
    and controllability of their discharge is measured.  The metadata of the named source
    profiles ([energy/profiles.py]) comes through the interface [SourceProfiles]. *)

From S2P Require Import Prelude PyFloat PyValue OrderedMap EnergyModels EnergyLearning.
From Stdlib Require Structures.OrderedTypeEx.

(** [value or 0.0] of an optional float. *)
Definition float_or_zero (o : option float) : float :=
  match o with Some x => if ftruthy x then x else f0 | None => f0 end.

(** ** Physical sources *)

(** energy/physical_sources.py: _soc_source_quality *)
Definition soc_source_quality (source : EnergySourceSnapshot) : bool * bool * Z * float * string :=
  let has_finite_timestamp := match source.(es_captured_at) with Some t => isfinite t | None => false end in
  let confidence := source.(es_confidence) in
  let finite_confidence := if isfinite confidence then confidence else S754_infinity true in
  (source.(es_online), has_finite_timestamp, source.(es_physical_priority), finite_confidence,
   source.(es_source_id)).

(** [a > b] of two such tuples: the first parts that differ decide. *)
Definition quality_gt (a b : bool * bool * Z * float * string) : bool :=
  let '(a1, a2, a3, a4, a5) := a in
  let '(b1, b2, b3, b4, b5) := b in
  if negb (Bool.eqb a1 b1) then a1 && negb b1
  else if negb (Bool.eqb a2 b2) then a2 && negb b2
  else if negb (a3 =? b3) then b3 <? a3
  else if negb (a4 =? b4)%F then (a4 >? b4)%F
  else String.ltb b5 a5.

(** One step of the loop over the sources. *)
Definition place_source (acc : list EnergySourceSnapshot * odict string EnergySourceSnapshot)
    (source : EnergySourceSnapshot) : list EnergySourceSnapshot * odict string EnergySourceSnapshot :=
  let '(independent, physical) := acc in
  if (source.(es_physical_id) =? "")%string then ((independent ++ [source])%list, physical)
  else
    match od_get source.(es_physical_id) physical with
    | Some existing =>
      if quality_gt (soc_source_quality source) (soc_source_quality existing)
      then (independent, od_set source.(es_physical_id) source physical)
      else (independent, physical)
    | None => (independent, od_set source.(es_physical_id) source physical)
    end.

(** energy/physical_sources.py: unique_weighted_soc_sources *)
Definition unique_weighted_soc_sources (sources : list EnergySourceSnapshot) : list EnergySourceSnapshot :=
  let '(independent, physical) := fold_left place_source sources ([], []) in
  (independent ++ map snd physical)%list.

(** ** Totals *)

(** energy/aggregate.py: _scoped_numeric_value *)
Definition scoped_numeric_value (source : EnergySourceSnapshot)
    (value_attr : EnergySourceSnapshot -> option float) (scope_attr : EnergySourceSnapshot -> string)
    : option (float * string) :=
  match value_attr source with None => None | Some v => Some (v, py_strip (scope_attr source)) end.

(** energy/aggregate.py: _seen_scope_key *)
Definition seen_scope_key (scope_key : string) (seen : list string) : bool * list string :=
  if (scope_key =? "")%string then (false, seen)
  else if bool_decide (scope_key ∈ seen) then (true, seen)
  else (false, scope_key :: seen).

(** energy/aggregate.py: _sum_scoped_values *)
Definition sum_scoped_values (sources : list EnergySourceSnapshot)
    (value_attr : EnergySourceSnapshot -> option float) (scope_attr : EnergySourceSnapshot -> string)
    : option float :=
  let '(numeric_values, _) :=
    fold_left (fun acc source =>
      let '(values, seen) := acc in
      match scoped_numeric_value source value_attr scope_attr with
      | None => (values, seen)
      | Some (value, scope_key) =>
        let '(duplicate, seen) := seen_scope_key scope_key seen in
        (if duplicate : bool then values else (values ++ [value])%list, seen)
      end) sources ([], []) in
  match numeric_values with [] => None | _ => Some (float_sum numeric_values) end.

(** energy/aggregate.py: _weighted_soc_source_values *)
Definition weighted_soc_source_values (source : EnergySourceSnapshot) : option (float * float) :=
  match source.(es_soc), source.(es_usable_capacity_wh) with
  | Some soc, Some capacity => if (capacity <=? f0)%F then None else Some (soc, capacity)
  | _, _ => None
  end.

(** energy/aggregate.py: _weighted_soc *)
Definition weighted_soc (sources : list EnergySourceSnapshot) : option float * option float * Z :=
  let '(total_capacity, total_soc_energy, count) :=
    fold_left (fun acc source =>
      let '(total_capacity, total_soc_energy, count) := acc in
      match weighted_soc_source_values source with
      | None => acc
      | Some (soc, capacity) =>
        ((total_capacity + capacity)%F, (total_soc_energy + capacity * soc)%F, count + 1)
      end) (unique_weighted_soc_sources sources) (f0, f0, 0) in
  if (total_capacity <=? f0)%F then (None, None, count)
  else (Some (total_soc_energy / total_capacity)%F, Some total_capacity, count).

(** energy/aggregate.py: _average_confidence *)
Definition average_confidence (sources : list EnergySourceSnapshot) : option float :=
  match List.filter (fun c => (c >=? f0)%F) (map es_confidence sources) with
  | [] => None
  | values => Some (float_sum values / f_of_Z (Z.of_nat (length values)))%F
  end.

(** energy/aggregate.py: _online_soc_sources *)
Definition online_soc_sources (sources : list EnergySourceSnapshot) : list EnergySourceSnapshot :=
  List.filter (fun s => s.(es_online) && match s.(es_soc) with Some _ => true | None => false end) sources.

(** energy/aggregate.py: _effective_soc *)
Definition effective_soc (combined_soc : option float) (sources : list EnergySourceSnapshot)
    : res (option float) :=
  match combined_soc with
  | Some soc => Ok (Some soc)
  | None =>
    match online_soc_sources sources with
    | [s] => match s.(es_soc) with Some soc => Ok (Some soc) | None => Err AssertionError end
    | _ => Ok None
    end
  end.

(** energy/aggregate.py: _role_count *)
Definition role_count (sources : list EnergySourceSnapshot) (role : string) : Z :=
  Z.of_nat (length (List.filter (fun s => (s.(es_role) =? role)%string) sources)).

(** energy/aggregate.py: _summed_source_attr *)
Definition summed_source_attr (sources : list EnergySourceSnapshot)
    (attr : EnergySourceSnapshot -> option float) : option float :=
  Numeric.sum_optional (map attr sources).

(** The totals are the fields of the snapshot, in the order of [_aggregate_power_totals].
    energy/aggregate.py: aggregate_energy_sources *)
Definition aggregate_energy_sources (sources : list EnergySourceSnapshot) : res EnergyClusterSnapshot :=
  let '(combined_soc, combined_capacity_wh, valid_soc_source_count) := weighted_soc sources in
  effective ← effective_soc combined_soc sources;
  mret (mkEnergyClusterSnapshot effective combined_soc combined_capacity_wh
    (summed_source_attr sources charge_power_w) (summed_source_attr sources discharge_power_w)
    (summed_source_attr sources es_charge_limit_power_w)
    (summed_source_attr sources es_discharge_limit_power_w)
    (summed_source_attr sources es_net_battery_power_w)
    (sum_scoped_values sources es_ac_power_w es_ac_power_scope_key)
    (sum_scoped_values sources es_pv_input_power_w es_pv_input_power_scope_key)
    (sum_scoped_values sources es_grid_interaction_w es_grid_interaction_scope_key)
    (average_confidence sources) (Z.of_nat (length sources))
    (Z.of_nat (length (List.filter es_online sources))) valid_soc_source_count
    (role_count sources "battery") (role_count sources "hybrid-inverter") (role_count sources "inverter")
    sources).

(** ** Discharge balance *)

(** energy/aggregate.py: _balance_profile_for_source *)
Definition balance_profile_for_source (learning_profiles : list (pyval * pyval)) (source_id : string)
    : list (pyval * pyval) :=
  match dict_get source_id learning_profiles with
  | VDict d => List.filter (fun kv => match fst kv with VStr _ => true | _ => false end) d
  | _ => []
  end.

(** energy/aggregate.py: _available_energy_above_reserve *)
Definition available_energy_above_reserve (capacity_wh source_soc reserve_floor_soc : option float)
    : option float :=
  let normalized_floor := match reserve_floor_soc with None => f0 | Some f => fmax f0 f end in
  match capacity_wh, source_soc with
  | Some capacity, Some soc =>
    if (capacity <=? f0)%F then None
    else
      let available_fraction := (fmax f0 (soc - normalized_floor) / f_of_Z 100)%F in
      Some (capacity * available_fraction)%F
  | _, _ => None
  end.

(** Capacity and state of charge are floats already.
    energy/aggregate.py: _discharge_balance_weight *)
Definition discharge_balance_weight (source : EnergySourceSnapshot) (reserve_floor_soc : option float)
    : float * option float * string :=
  let capacity_wh := fmax f0 <$> source.(es_usable_capacity_wh) in
  let source_soc := fmax f0 <$> source.(es_soc) in
  let available_energy_wh := available_energy_above_reserve capacity_wh source_soc reserve_floor_soc in
  let positive o := match o with Some x => (x >? f0)%F | None => false end in
  if positive available_energy_wh
  then (default f0 available_energy_wh, available_energy_wh, "available_energy_above_reserve")
  else if positive capacity_wh then (default f0 capacity_wh, available_energy_wh, "usable_capacity_fallback")
  else (f1, available_energy_wh, "uniform_fallback").

(** The dictionary of an eligible source. *)
Record balance_item := mkBalanceItem {
  bi_source_id : string; bi_weight : float; bi_weight_basis : string;
  bi_available_energy_wh : option float; bi_reserve_floor_soc : option float;
  bi_actual_discharge_w : float }.

(** energy/aggregate.py: _discharge_balance_eligible_source *)
Definition discharge_balance_eligible_source (source : EnergySourceSnapshot) (profiles : list (pyval * pyval))
    : res (option balance_item) :=
  if negb (bool_decide (source.(es_role) ∈ ["battery"; "hybrid-inverter"])) || negb source.(es_online)
  then Ok None
  else
    let profile := balance_profile_for_source profiles source.(es_source_id) in
    reserve_floor_soc ← Numeric.non_negative_optional_float (dict_get "reserve_band_floor_soc" profile);
    let '(weight, available_energy_wh, weight_basis) := discharge_balance_weight source reserve_floor_soc in
    let actual_discharge_w := fmax f0 (float_or_zero (discharge_power_w source)) in
    mret (Some (mkBalanceItem source.(es_source_id) weight weight_basis available_energy_wh
                  reserve_floor_soc actual_discharge_w)).

(** energy/aggregate.py: _discharge_balance_source_metrics *)
Definition discharge_balance_source_metrics (item : balance_item) (total_discharge_w total_weight : float)
    : res (odict string pyval * float) :=
  target_share ← float_div item.(bi_weight) total_weight;
  let target_discharge_w := (total_discharge_w * target_share)%F in
  let error_w := (item.(bi_actual_discharge_w) - target_discharge_w)%F in
  mret ([("discharge_balance_eligible", VBool true);
         ("discharge_balance_weight", VFloat item.(bi_weight));
         ("discharge_balance_weight_basis", VStr item.(bi_weight_basis));
         ("discharge_balance_available_energy_wh", val_of_float item.(bi_available_energy_wh));
         ("discharge_balance_reserve_floor_soc", val_of_float item.(bi_reserve_floor_soc));
         ("discharge_balance_target_distribution_mode", VStr "capacity_reserve_weighted");
         ("discharge_balance_target_share", VFloat target_share);
         ("discharge_balance_target_power_w", VFloat target_discharge_w);
         ("discharge_balance_actual_power_w", VFloat item.(bi_actual_discharge_w));
         ("discharge_balance_error_w", VFloat error_w);
         ("discharge_balance_relative_error",
          if (total_discharge_w >? f0)%F then VFloat (error_w / total_discharge_w)%F else VNone)], error_w).

(** energy/aggregate.py: _empty_discharge_balance_metrics *)
Definition empty_discharge_balance_metrics : odict string pyval :=
  [("mode", VStr "capacity_reserve_weighted"); ("target_distribution_mode", VStr "capacity_reserve_weighted");
   ("eligible_source_count", VInt 0); ("active_source_count", VInt 0); ("total_discharge_w", VNone);
   ("error_w", VNone); ("max_abs_error_w", VNone); ("sources", VDict [])].

(** energy/aggregate.py: _eligible_discharge_balance_sources *)
Definition eligible_discharge_balance_sources (sources : list EnergySourceSnapshot)
    (profiles : list (pyval * pyval)) : res (list balance_item * float) :=
  fold_res (fun acc source =>
    let '(eligible_sources, total_discharge_w) := acc in
    item ← discharge_balance_eligible_source source profiles;
    mret (match item with
          | None => acc
          | Some i => ((eligible_sources ++ [i])%list, (total_discharge_w + i.(bi_actual_discharge_w))%F)
          end)) ([], f0) sources.

(** energy/aggregate.py: _active_discharge_balance_source_count *)
Definition active_discharge_balance_source_count (eligible_sources : list balance_item) : Z :=
  Z.of_nat (length (List.filter (fun i => (i.(bi_actual_discharge_w) >? f0)%F) eligible_sources)).

(** energy/aggregate.py: _discharge_balance_total_weight *)
Definition discharge_balance_total_weight (eligible_sources : list balance_item) : float :=
  float_sum (map bi_weight eligible_sources).

(** energy/aggregate.py: _discharge_balance_metric_totals *)
Definition discharge_balance_metric_totals (eligible_sources : list balance_item)
    (total_discharge_w total_weight : float) : res (odict string pyval * float * float) :=
  fold_res (fun acc item =>
    let '(source_metrics, total_abs_error_w, max_abs_error_w) := acc in
    '(metrics, error_w) ← discharge_balance_source_metrics item total_discharge_w total_weight;
    mret (od_set item.(bi_source_id) (val_of_dict metrics) source_metrics,
          (total_abs_error_w + fabs error_w)%F, fmax max_abs_error_w (fabs error_w)))
    ([], f0, f0) eligible_sources.

(** energy/aggregate.py: _discharge_balance_metrics_payload *)
Definition discharge_balance_metrics_payload (eligible_sources : list balance_item) (total_discharge_w : float)
    (source_metrics : odict string pyval) (total_abs_error_w max_abs_error_w : float) : odict string pyval :=
  [("mode", VStr "capacity_reserve_weighted"); ("target_distribution_mode", VStr "capacity_reserve_weighted");
   ("eligible_source_count", VInt (Z.of_nat (length eligible_sources)));
   ("active_source_count", VInt (active_discharge_balance_source_count eligible_sources));
   ("total_discharge_w", VFloat total_discharge_w); ("error_w", VFloat (total_abs_error_w / f_of_Z 2)%F);
   ("max_abs_error_w", VFloat max_abs_error_w); ("sources", val_of_dict source_metrics)].

(** energy/aggregate.py: derive_discharge_balance_metrics *)
Definition derive_discharge_balance_metrics (sources : list EnergySourceSnapshot)
    (learning_profiles : list (pyval * pyval)) : res (odict string pyval) :=
  '(eligible_sources, total_discharge_w) ← eligible_discharge_balance_sources sources learning_profiles;
  match eligible_sources with
  | [] => mret empty_discharge_balance_metrics
  | _ =>
    let total_weight := discharge_balance_total_weight eligible_sources in
    '(source_metrics, total_abs_error_w, max_abs_error_w) ←
      discharge_balance_metric_totals eligible_sources total_discharge_w total_weight;
    mret (discharge_balance_metrics_payload eligible_sources total_discharge_w source_metrics
            total_abs_error_w max_abs_error_w)
  end.

(** ** Discharge control *)

(** What the table of named source profiles answers ([energy_source_profile_details]). *)
Class SourceProfiles := { energy_source_profile_details : string -> odict string pyval }.

(** energy/aggregate.py: _normalized_definition_text *)
Definition normalized_definition_text (value fallback : string) : string :=
  let text := py_lower (py_strip value) in if (text =? "")%string then fallback else text.

(** energy/aggregate.py: _discharge_control_source_context *)
Definition discharge_control_source_context (source : EnergySourceSnapshot)
    (definition : option EnergySourceDefinition) : string * string * string :=
  match definition with
  | None => ("", source.(es_role), source.(es_role))
  | Some d =>
    (py_strip d.(sd_profile_name), normalized_definition_text d.(sd_connector_type) source.(es_role),
     normalized_definition_text d.(sd_role) source.(es_role))
  end.

(** energy/aggregate.py: _discharge_control_reason *)
Definition discharge_control_reason (controllable_role : bool) (write_support : string) : string :=
  if negb controllable_role then "role_not_targeted"
  else if (write_support =? "supported")%string then "profile_write_supported"
  else if (write_support =? "experimental")%string then "profile_write_experimental"
  else "profile_write_unsupported".

(** The dictionary of the control metrics of a source. *)
Record control_metrics := mkControlMetrics {
  cm_profile_name : string; cm_connector_type : string; cm_support : string; cm_candidate : bool;
  cm_ready : bool; cm_reason : string; cm_role_targeted : bool }.

Section control.
Context {SP : SourceProfiles}.

(** energy/aggregate.py: _discharge_control_source_metrics *)
Definition discharge_control_source_metrics (source : EnergySourceSnapshot)
    (definition : option EnergySourceDefinition) : control_metrics :=
  let '(profile_name, connector_type, role) := discharge_control_source_context source definition in
  let raw_write_support := default VNone (od_get "write_support" (energy_source_profile_details profile_name)) in
  let write_support :=
    if py_bool raw_write_support then py_lower (py_strip (py_str raw_write_support)) else "unsupported" in
  let controllable_role := bool_decide (role ∈ ["battery"; "hybrid-inverter"]) in
  let control_candidate := controllable_role && bool_decide (write_support ∈ ["supported"; "experimental"]) in
  let control_ready := control_candidate && source.(es_online) in
  mkControlMetrics profile_name connector_type write_support control_candidate control_ready
    (discharge_control_reason controllable_role write_support) controllable_role.

(** energy/aggregate.py: _targeted_write_support *)
Definition targeted_write_support (targeted : bool) (support expected : string) : bool :=
  targeted && (support =? expected)%string.

(** energy/aggregate.py: _discharge_control_counter_updates *)
Definition discharge_control_counter_updates (m : control_metrics) : Z * Z * Z * Z :=
  (count_if m.(cm_candidate), count_if m.(cm_ready),
   count_if (targeted_write_support m.(cm_role_targeted) m.(cm_support) "supported"),
   count_if (targeted_write_support m.(cm_role_targeted) m.(cm_support) "experimental")).

(** The returned dictionary: four counters and the metrics by source.
    energy/aggregate.py: derive_discharge_control_metrics *)
Definition derive_discharge_control_metrics (sources : list EnergySourceSnapshot)
    (definitions : odict string EnergySourceDefinition) : Z * Z * Z * Z * odict string control_metrics :=
  fold_left (fun acc source =>
    let '(candidates, ready_count, supported_count, experimental_count, source_metrics) := acc in
    let metrics := discharge_control_source_metrics source (od_get source.(es_source_id) definitions) in
    let '(candidate, ready, supported, experimental) := discharge_control_counter_updates metrics in
    (candidates + candidate, ready_count + ready, supported_count + supported,
     experimental_count + experimental, od_set source.(es_source_id) metrics source_metrics))
    sources (0, 0, 0, 0, []).

End control.

(** ** One observation per battery *)

Lemma string_ltb_trans a b c : String.ltb a b = true -> String.ltb b c = true -> String.ltb a c = true.
Proof.
  unfold String.ltb. intros H1 H2.
  assert (forall x y, (x ?= y)%string = Lt <-> Structures.OrderedTypeEx.String_as_OT.lt x y) as Hlt
    by (intros x y; apply Structures.OrderedTypeEx.String_as_OT.cmp_lt).
  destruct (a ?= b)%string eqn:E1; try done. destruct (b ?= c)%string eqn:E2; try done.
  apply Hlt in E1, E2. assert ((a ?= c)%string = Lt) as -> by (apply Hlt; by eapply Structures.OrderedTypeEx.String_as_OT.lt_trans).
  done.
Qed.

Lemma string_ltb_irrefl a : String.ltb a a = false.
Proof.
  unfold String.ltb. pose proof (String.compare_antisym a a) as H. destruct (a ?= a)%string; done.
Qed.

(** No part of a quality is NaN. *)
Definition quality_ok (q : bool * bool * Z * float * string) : Prop :=
  let '(_, _, _, c, _) := q in isnan c = false.

Lemma source_quality_ok s : quality_ok (soc_source_quality s).
Proof. unfold soc_source_quality, quality_ok. destruct (isfinite _) eqn:E; [by apply isfinite_not_nan | done]. Qed.

(** The first part that differs decides. *)
Lemma quality_gt_iff a1 a2 a3 a4 a5 b1 b2 b3 b4 b5 :
  quality_gt (a1, a2, a3, a4, a5) (b1, b2, b3, b4, b5) = true <->
  (a1 = true /\ b1 = false) \/ a1 = b1 /\
  ((a2 = true /\ b2 = false) \/ a2 = b2 /\
   (b3 < a3 \/ a3 = b3 /\
    ((b4 <? a4 = true)%F \/ (a4 =? b4 = true)%F /\ String.ltb b5 a5 = true))).
Proof.
  unfold quality_gt. destruct (Bool.eqb_spec a1 b1) as [->|Hn1]; cbn; [|destruct a1, b1; naive_solver].
  destruct (Bool.eqb_spec a2 b2) as [->|Hn2]; cbn; [|destruct a2, b2, b1; naive_solver].
  destruct (Z.eqb_spec a3 b3) as [->|Hn3]; cbn.
  - destruct (a4 =? b4)%F eqn:E; cbn; [|destruct b1, b2; naive_solver lia].
    assert ((b4 <? a4)%F = false) as -> by forder. destruct b1, b2; naive_solver lia.
  - destruct (Z.ltb_spec b3 a3); destruct b1, b2; naive_solver lia.
Qed.

(** Being of better quality is transitive. *)
Lemma quality_gt_trans a b c : quality_gt a b = true -> quality_gt b c = true -> quality_gt a c = true.
Proof.
  destruct a as [[[[a1 a2] a3] a4] a5], b as [[[[b1 b2] b3] b4] b5], c as [[[[c1 c2] c3] c4] c5].
  rewrite !quality_gt_iff.
  intros [[-> ->]|[-> [[-> ->]|[-> [H1|[-> [H1|[H1 H1']]]]]]]] [[E1 E2]|[E1 [[E2 E3]|[E2 [H2|[E3 [H2|[H2 H2']]]]]]]];
    subst; try discriminate; try (by left; auto); right; split; auto; try (by left; auto); right; split; auto;
    try (left; lia); right; split; auto; try (left; forder).
  right. split; [forder | by eapply string_ltb_trans].
Qed.

Lemma quality_gt_irrefl a : quality_gt a a = false.
Proof.
  destruct a as [[[[a1 a2] a3] a4] a5]. destruct (quality_gt _ _) eqn:E; [|done]. exfalso. revert E.
  rewrite quality_gt_iff. rewrite string_ltb_irrefl.
  intros [[-> ?]|[_ [[-> ?]|[_ [H|[_ [H|[_ ?]]]]]]]]; try discriminate; [lia | forder].
Qed.

(** What the loop has placed after a prefix of the sources. *)
Record placed (seen : list EnergySourceSnapshot)
    (acc : list EnergySourceSnapshot * odict string EnergySourceSnapshot) : Prop := {
  pl_independent : fst acc = List.filter (fun s => (s.(es_physical_id) =? "")%string) seen;
  pl_nodup : od_nodup (snd acc);
  pl_best : forall pid r, od_get pid (snd acc) = Some r ->
    r ∈ seen /\ r.(es_physical_id) = pid /\ pid <> "" /\
    forall s, s ∈ seen -> s.(es_physical_id) = pid ->
      quality_gt (soc_source_quality s) (soc_source_quality r) = false;
  pl_all : forall s, s ∈ seen -> s.(es_physical_id) <> "" -> is_Some (od_get s.(es_physical_id) (snd acc)) }.

Lemma elem_of_snoc {A} (l : list A) x y : x ∈ (l ++ [y])%list <-> x ∈ l \/ x = y.
Proof. by rewrite elem_of_app, list_elem_of_singleton. Qed.

(** A source without identity is kept. *)
Lemma placed_independent seen ind phys s :
  s.(es_physical_id) = "" -> placed seen (ind, phys) -> placed (seen ++ [s])%list ((ind ++ [s])%list, phys).
Proof.
  intros Hz [Hi Hn Hb Ha]. cbn [fst snd] in *. constructor; cbn [fst snd]; [|done| |].
  - rewrite List.filter_app. cbn. by rewrite Hz, Hi.
  - intros pid r Hr. destruct (Hb pid r Hr) as (H1 & H2 & H3 & H4). split; [apply elem_of_snoc; by left|].
    split; [done|]. split; [done|]. intros s0 [Hs0| ->]%elem_of_snoc Hp; [by apply H4 | congruence].
  - intros s0 [Hs0| ->]%elem_of_snoc Hne; [by apply Ha | congruence].
Qed.

Lemma filter_snoc_physical seen s :
  s.(es_physical_id) <> "" ->
  List.filter (fun s => (s.(es_physical_id) =? "")%string) (seen ++ [s]) =
  List.filter (fun s => (s.(es_physical_id) =? "")%string) seen.
Proof.
  intros Hz. rewrite List.filter_app. cbn. destruct (String.eqb_spec (es_physical_id s) ""); [done|]. by rewrite app_nil_r.
Qed.

(** A source that is the first of its battery, or better than the one kept, is kept. *)
Lemma placed_better seen ind phys s :
  s.(es_physical_id) <> "" ->
  (forall e, od_get s.(es_physical_id) phys = Some e ->
     quality_gt (soc_source_quality s) (soc_source_quality e) = true) ->
  placed seen (ind, phys) -> placed (seen ++ [s])%list (ind, od_set s.(es_physical_id) s phys).
Proof.
  intros Hz Hgt [Hi Hn Hb Ha]. cbn [fst snd] in *. constructor; cbn [fst snd];
    [by rewrite filter_snoc_physical | by apply od_nodup_set | |].
  - intros pid r. rewrite od_get_set. case_decide as E.
    + intros [= <-]. subst pid. split; [apply elem_of_snoc; by right|]. split; [done|]. split; [done|].
      intros s0 [Hs0| ->]%elem_of_snoc Hp; [|apply quality_gt_irrefl].
      destruct (Ha s0 Hs0) as [e He]; [congruence|]. rewrite Hp in He.
      destruct (Hb _ _ He) as (_ & _ & _ & H4). destruct (quality_gt _ _) eqn:E0; [|done].
      rewrite <- (H4 s0 Hs0 Hp). symmetry. by eapply quality_gt_trans; [|apply Hgt].
    + intros Hr. destruct (Hb pid r Hr) as (G1 & G2 & G3 & G4). split; [apply elem_of_snoc; by left|].
      split; [done|]. split; [done|]. intros s0 [Hs0| ->]%elem_of_snoc Hp; [by apply G4 | congruence].
  - intros s0 Hs0 Hne. rewrite od_get_set. case_decide; [by eexists|].
    apply elem_of_snoc in Hs0 as [Hs0| ->]; [by apply Ha | congruence].
Qed.

(** A source that is not better than the one kept is dropped. *)
Lemma placed_worse seen ind phys s e :
  s.(es_physical_id) <> "" -> od_get s.(es_physical_id) phys = Some e ->
  quality_gt (soc_source_quality s) (soc_source_quality e) = false ->
  placed seen (ind, phys) -> placed (seen ++ [s])%list (ind, phys).
Proof.
  intros Hz He Hgt [Hi Hn Hb Ha]. cbn [fst snd] in *. constructor; cbn [fst snd];
    [by rewrite filter_snoc_physical | done | |].
  - intros pid r Hr. destruct (Hb pid r Hr) as (G1 & G2 & G3 & G4). split; [apply elem_of_snoc; by left|].
    split; [done|]. split; [done|]. intros s0 [Hs0| ->]%elem_of_snoc Hp; [by apply G4|]. subst pid.
    congruence.
  - intros s0 [Hs0| ->]%elem_of_snoc Hne; [by apply Ha | by eexists].
Qed.

Lemma placed_all sources : placed sources (fold_left place_source sources ([], [])).
Proof.
  assert (forall seen acc, placed seen acc -> placed (seen ++ sources)%list (fold_left place_source sources acc)) as H.
  { induction sources as [|s sources IH]; intros seen [ind phys] Hp; cbn [fold_left]; [by rewrite app_nil_r|].
    replace (seen ++ s :: sources)%list with ((seen ++ [s]) ++ sources)%list by (by rewrite <- app_assoc).
    apply IH. unfold place_source. destruct (String.eqb_spec (es_physical_id s) "") as [Hz|Hz]; [by apply placed_independent|].
    destruct (od_get (es_physical_id s) phys) as [e|] eqn:He; [destruct (quality_gt _ _) eqn:Eq|].
    - apply placed_better; [done| |done]. intros e' He'. congruence.
    - by eapply placed_worse.
    - apply placed_better; [done| |done]. intros e' He'. congruence. }
  apply (H []). constructor; cbn; [done | apply NoDup_nil_2 | done|]. intros s Hs. by apply not_elem_of_nil in Hs.
Qed.

(** A battery that is observed on several paths counts once, by its best observation:
    the sources that enter the weighted state of charge are all sources without a physical
    identity, in order, and for every identity that occurs exactly one of its sources, such
    that none of the others is of better quality (online, timestamp, priority, confidence,
    identifier). *)
Theorem one_observation_per_battery (sources : list EnergySourceSnapshot) :
  exists best,
    unique_weighted_soc_sources sources =
      (List.filter (fun s => (s.(es_physical_id) =? "")%string) sources ++ best)%list /\
    NoDup (map es_physical_id best) /\
    (forall s, s ∈ sources -> s.(es_physical_id) <> "" -> exists r, r ∈ best /\ r.(es_physical_id) = s.(es_physical_id)) /\
    (forall r s, r ∈ best -> s ∈ sources -> s.(es_physical_id) = r.(es_physical_id) ->
       r ∈ sources /\ quality_gt (soc_source_quality s) (soc_source_quality r) = false).
Proof.
  pose proof (placed_all sources) as [Hi Hn Hb Ha]. unfold unique_weighted_soc_sources.
  destruct (fold_left place_source sources ([], [])) as [ind phys]. cbn [fst snd] in *.
  assert (forall k r, (k, r) ∈ phys -> od_get k phys = Some r) as Hget by (intros; by apply od_get_elem).
  exists (map snd phys). split; [by rewrite Hi|]. split; [|split].
  - assert (map es_physical_id (map snd phys) = od_keys phys) as ->; [|exact Hn]. unfold od_keys.
    rewrite map_map. apply List.map_ext_in. intros [k r] Hin. apply list_elem_of_In in Hin. cbn.
    destruct (Hb k r (Hget _ _ Hin)) as (_ & Hk & _). done.
  - intros s Hs Hne. destruct (Ha s Hs Hne) as [r Hr]. exists r. split; [|apply (Hb _ _ Hr)].
    apply od_get_some_elem in Hr. apply list_elem_of_fmap. by exists (s.(es_physical_id), r).
  - intros r s Hr Hs Hp. apply list_elem_of_fmap in Hr as ([k r'] & -> & Hr). cbn [snd] in *.
    destruct (Hb _ _ (Hget _ _ Hr)) as (H1 & H2 & _ & H4). split; [done|]. apply H4; [done | congruence].
Qed.

Example backup_path_is_ignored :
  let direct := mkEnergySourceSnapshot "bms" "battery" "" (Some (f_of_Z 55)) (Some (f_of_Z 10000)) "" None None None
    None "lfp" None None None None None None "" "" "" "" true f1 (Some f0) "pack" 1 in
  let gateway := mkEnergySourceSnapshot "gx" "battery" "" (Some (f_of_Z 50)) (Some (f_of_Z 9000)) "" None None None
    None "lfp" None None None None None None "" "" "" "" true f1 (Some f0) "pack" 0 in
  map es_source_id (unique_weighted_soc_sources [gateway; direct]) = ["bms"].
Proof. reflexivity. Qed.
