(* ===== verification/EnergyForecast.v ===== *)
(** * Near-term energy forecast

    [energy/forecast.py]: how much more power the batteries could take or give, and the
    grid flow to expect shortly, from the current cluster and the learned behaviour. *)

From S2P Require Import Prelude PyFloat PyValue OrderedMap EnergyModels EnergyLearning.

(** [d.get(key)] of a learning summary. *)
Definition summary_get (key : string) (d : odict string pyval) : pyval := default VNone (od_get key d).

(** energy/forecast.py: _non_negative_optional_float *)
Definition forecast_non_negative (value : pyval) : res (option float) :=
  Numeric.non_negative_optional_float value.

(** energy/forecast.py: _optional_float *)
Definition forecast_optional (value : pyval) : res (option float) := Numeric.optional_float value.

(** energy/forecast.py: _current_headroom_power *)
Definition current_headroom_power (current_power_w : option float) : float := default f0 current_power_w.

(** energy/forecast.py: _average_headroom_limit *)
Definition average_headroom_limit (average_active_power_w : pyval) : res (option float) :=
  average ← forecast_non_negative average_active_power_w;
  mret (match average with None => None | Some a => Some (a * fdec 125 100)%F end).

(** [next(limit for limit in limits if limit is not None)] *)
Fixpoint first_some {A} (l : list (option A)) : option A :=
  match l with [] => None | Some x :: _ => Some x | None :: l' => first_some l' end.

(** energy/forecast.py: _headroom_limit *)
Definition headroom_limit (configured_limit_power_w observed_max_power_w average_active_power_w : pyval)
    (current_power_w : option float) : res (option float) :=
  let current := current_headroom_power current_power_w in
  configured ← forecast_non_negative configured_limit_power_w;
  observed ← forecast_non_negative observed_max_power_w;
  average ← average_headroom_limit average_active_power_w;
  mret (match first_some [configured; observed; average] with
        | Some limit => Some (fmax limit current)
        | None => if (current >? f0)%F then Some current else None
        end).

(** energy/forecast.py: _headroom_w *)
Definition headroom_w (limit_power_w current_power_w : option float) : option float :=
  match limit_power_w with
  | None => None
  | Some limit => Some (fmax f0 (limit - default f0 current_power_w)%F)
  end.

(** energy/forecast.py: _scaled_headroom_w *)
Definition scaled_headroom_w (limit_power_w current_power_w : option float) (scale : float) : option float :=
  match headroom_w limit_power_w current_power_w with
  | None => None
  | Some headroom => Some (fmax f0 (headroom * scale)%F)
  end.

(** energy/forecast.py: _charge_saturation *)
Definition charge_saturation (charge_headroom_w observed_max_charge_w : option float) (charge_power_w : float)
    : float :=
  if (charge_power_w <=? f0)%F then f0
  else
    match observed_max_charge_w, charge_headroom_w with
    | Some maximum, Some headroom =>
      if (maximum <=? f0)%F then f1 else fmax f0 (f1 - headroom / maximum)%F
    | _, _ => f1
    end.

(** energy/forecast.py: _expected_near_term_export_w *)
Definition expected_near_term_export_w
    (grid_interaction_w charge_power_w charge_headroom_w observed_max_charge_w : option float)
    (export_bias battery_first_export_bias response_weight smoothing_ratio : float) : option float :=
  match grid_interaction_w with
  | None => None
  | Some grid =>
    let base_export_w := fmax f0 (fopp grid) in
    let charge_power := default f0 charge_power_w in
    let saturation := charge_saturation charge_headroom_w observed_max_charge_w charge_power in
    let smoothing_weight := (f1 - fdec 1 2 * smoothing_ratio)%F in
    let export_risk_w :=
      (export_bias * response_weight * charge_power * (fdec 1 2 + fdec 1 2 * saturation) * smoothing_weight)%F in
    let battery_capture_credit_w :=
      (battery_first_export_bias * response_weight * charge_power *
       (fdec 1 4 + fdec 3 4 * smoothing_ratio))%F in
    Some (fmax f0 (base_export_w + export_risk_w - battery_capture_credit_w)%F)
  end.

(** energy/forecast.py: _expected_near_term_import_w *)
Definition expected_near_term_import_w (grid_interaction_w discharge_power_w : option float)
    (import_support_bias response_weight smoothing_ratio discharge_soc_scale : float) : option float :=
  match grid_interaction_w with
  | None => None
  | Some grid =>
    let base_import_w := fmax f0 grid in
    let discharge_power := default f0 discharge_power_w in
    let support_relief_w := (import_support_bias * response_weight * discharge_power * discharge_soc_scale)%F in
    let support_relief_w := (support_relief_w * (f1 - fdec 1 4 * smoothing_ratio))%F in
    Some (fmax f0 (base_import_w - support_relief_w)%F)
  end.

(** energy/forecast.py: _response_weight *)
Definition response_weight (delay_seconds : pyval) : res float :=
  delay ← forecast_non_negative delay_seconds;
  match delay with
  | None => mret f1
  | Some d => float_div f1 (f1 + d / f_of_Z 30)%F
  end.

(** energy/forecast.py: _charge_soc_scale *)
Definition charge_soc_scale (combined_soc : option float) (reserve_ceiling_soc : pyval) : res float :=
  ceiling ← forecast_non_negative reserve_ceiling_soc;
  mret (match combined_soc, ceiling with
        | Some soc, Some c => fmin f1 (fmax f0 ((c - soc) / f_of_Z 10)%F)
        | _, _ => f1
        end).

(** energy/forecast.py: _discharge_soc_scale *)
Definition discharge_soc_scale (combined_soc : option float) (reserve_floor_soc : pyval) : res float :=
  floor ← forecast_non_negative reserve_floor_soc;
  mret (match combined_soc, floor with
        | Some soc, Some c => fmin f1 (fmax f0 ((soc - c) / f_of_Z 10)%F)
        | _, _ => f1
        end).

(** energy/forecast.py: _positive_bias *)
Definition positive_bias (value fallback : pyval) : res float :=
  normalized ← forecast_optional value;
  normalized ← match normalized with Some x => mret (Some x) | None => forecast_optional fallback end;
  mret (match normalized with None => f0 | Some x => fmax f0 (fmin f1 x) end).

(** energy/forecast.py: derive_energy_forecast *)
Definition derive_energy_forecast (cluster : list (pyval * pyval)) (learning : odict string pyval)
    : res (odict string pyval) :=
  charge_power ← forecast_non_negative (dict_get "battery_combined_charge_power_w" cluster);
  discharge_power ← forecast_non_negative (dict_get "battery_combined_discharge_power_w" cluster);
  charge_limit_power ← forecast_non_negative (dict_get "battery_combined_charge_limit_power_w" cluster);
  discharge_limit_power ← forecast_non_negative (dict_get "battery_combined_discharge_limit_power_w" cluster);
  combined_soc ← forecast_non_negative (dict_get "battery_combined_soc" cluster);
  grid_interaction_w ← forecast_optional (dict_get "battery_combined_grid_interaction_w" cluster);
  observed_max_charge ← headroom_limit (val_of_float charge_limit_power)
    (summary_get "observed_max_charge_power_w" learning)
    (summary_get "average_active_charge_power_w" learning) charge_power;
  observed_max_discharge ← headroom_limit (val_of_float discharge_limit_power)
    (summary_get "observed_max_discharge_power_w" learning)
    (summary_get "average_active_discharge_power_w" learning) discharge_power;
  charge_scale ← charge_soc_scale combined_soc (summary_get "reserve_band_ceiling_soc" learning);
  let charge_headroom := scaled_headroom_w observed_max_charge charge_power charge_scale in
  discharge_scale ← discharge_soc_scale combined_soc (summary_get "reserve_band_floor_soc" learning);
  let discharge_headroom := scaled_headroom_w observed_max_discharge discharge_power discharge_scale in
  weight ← response_weight (summary_get "typical_response_delay_seconds" learning);
  export_bias ← positive_bias (summary_get "export_bias" learning) VNone;
  battery_first_export_bias ← positive_bias (summary_get "battery_first_export_bias" learning) VNone;
  import_support_bias ← positive_bias (summary_get "import_support_bias" learning)
    (summary_get "support_bias" learning);
  smoothing_ratio ← positive_bias (summary_get "power_smoothing_ratio" learning) VNone;
  mret [("battery_headroom_charge_w", val_of_float charge_headroom);
        ("battery_headroom_discharge_w", val_of_float discharge_headroom);
        ("expected_near_term_export_w",
         val_of_float (expected_near_term_export_w grid_interaction_w charge_power charge_headroom
           observed_max_charge export_bias battery_first_export_bias weight smoothing_ratio));
        ("expected_near_term_import_w",
         val_of_float (expected_near_term_import_w grid_interaction_w discharge_power import_support_bias
           weight smoothing_ratio discharge_scale))].

(** ** Bounds *)

Lemma fmax0_nonneg x : (f0 <=? fmax f0 x)%F = true.
Proof. by apply fmax_ge_l. Qed.

(** A forecast value is absent or a number that is not negative. *)
Definition forecast_value (v : pyval) : Prop :=
  v = VNone \/ exists x, v = VFloat x /\ (f0 <=? x)%F = true.

Lemma forecast_value_max o x : o = Some (fmax f0 x) -> forecast_value (val_of_float o).
Proof. intros ->. right. eexists. split; [done | apply fmax0_nonneg]. Qed.

(** Whatever the forecast is computed from,
    each of its four values is absent or a non-negative number, NaN and negative readings
    included. *)
Lemma forecast_nonnegative cluster learning d :
  derive_energy_forecast cluster learning = Ok d -> Forall (fun kv => forecast_value (snd kv)) d.
Proof.
  unfold derive_energy_forecast. intros H.
  repeat (let x := fresh "x" in lazymatch type of H with
    | mbind _ ?r = Ok _ => destruct r as [x|] eqn:?; cbn [mbind res_bind] in H; [|discriminate H]
    end).
  injection H as <-. unfold scaled_headroom_w, expected_near_term_export_w, expected_near_term_import_w.
  repeat first [apply Forall_nil_2 | apply Forall_cons_2]; cbn [snd].
  all: repeat match goal with |- context [match ?o with Some _ => _ | None => _ end] => destruct o end.
  all: first [by left | eapply forecast_value_max; reflexivity].
Qed.
