(* ===== verification/BatteryActivity.v ===== *)
(** * The battery picture of the Auto mode

    [auto/logic_gates_battery_learning.py], [auto/logic_gates_battery_balance_support.py] and
    [auto/logic_gates_battery_balance.py]: a conservative picture of what the home batteries
    do, from the energy cluster, the learned profiles and the forecast, with penalties for
    unbalanced discharge.  It discharges the interface [BatteryBalance] of the Auto
    metrics. *)

From S2P Require Import Prelude PyFloat PyValue Contracts BackendModels Service CommonAuto OrderedMap AutoPolicy Schedule AutoState AutoSamples AutoMetrics EnergyModels EnergyLearning EnergyForecast.

(** ** State *)

(** The settings; [None] is an attribute that is absent or [None]. *)
Record balance_config := mkBalanceConfig {
  discharge_balance_policy_enabled : option bool;
  discharge_balance_warn_error_watts : option float;
  discharge_balance_bias_start_error_watts : option float;
  discharge_balance_bias_max_penalty_watts : option float;
  discharge_balance_bias_reserve_margin_soc : option float;
  discharge_balance_bias_mode_setting : option string;
  discharge_balance_coordination_enabled : option bool;
  discharge_balance_coordination_start_error_watts : option float;
  discharge_balance_coordination_max_penalty_watts : option float;
  discharge_balance_coordination_support_mode_setting : option string }.

(** What the components read of the service: the settings, the last cluster and the last
    learned profiles (arbitrary values), and whether the service has a clock. *)
Record battery_state := mkBatteryState {
  bs_config : balance_config;
  last_energy_cluster : pyval;
  last_energy_learning_profiles : pyval;
  has_time_now : bool }.

(** ** Learned activity *)

(** auto/logic_gates_battery_learning.py: AutoBatteryLearning._normalized_mapping *)
Definition normalized_mapping (raw_value : pyval) : list (pyval * pyval) :=
  match raw_value with VDict d => d | _ => [] end.

(** auto/logic_gates_battery_learning.py: AutoBatteryLearning._normalized_mapping_list *)
Definition normalized_mapping_list (raw_value : pyval) : list (list (pyval * pyval)) :=
  match raw_value with
  | VList l => omap (fun v => match v with VDict d => Some d | _ => None end) l
  | _ => []
  end.

(** auto/logic_gates_battery_learning.py: AutoBatteryLearning._battery_activity_inputs *)
Definition battery_activity_inputs (b : battery_state)
    : list (pyval * pyval) * list (list (pyval * pyval)) * list (pyval * pyval) :=
  let cluster := normalized_mapping b.(last_energy_cluster) in
  let raw_sources := default (VList []) (dict_find "battery_sources" cluster) in
  (cluster, normalized_mapping_list raw_sources, normalized_mapping b.(last_energy_learning_profiles)).

(** auto/logic_gates_battery_learning.py: AutoBatteryLearning._source_id *)
Definition source_id_of (source : list (pyval * pyval)) : string :=
  match dict_get "source_id" source with VNone => "" | v => py_strip (py_str v) end.

(** auto/logic_gates_battery_learning.py: AutoBatteryLearning._learning_observed_value *)
Definition learning_observed_value (profile : pyval) (key : string) : res (option float) :=
  match profile with
  | VDict d => non_negative_optional_float (dict_get key d)
  | _ => Ok None
  end.

(** auto/logic_gates_battery_learning.py: AutoBatteryLearning._battery_activity_ratio *)
Definition battery_activity_ratio (current_power_w : float) (observed_max_power_w : option float)
    : option float :=
  match observed_max_power_w with
  | None => None
  | Some m => if (m <=? f0)%F then None else Some (current_power_w / m)%F
  end.

(** auto/logic_gates_battery_learning.py: AutoBatteryLearning._active_battery_power *)
Definition active_battery_power (current_power_w observed_max_power_w : option float)
    : option float * option float :=
  match current_power_w with
  | None => (None, None)
  | Some p =>
    if (p <=? f0)%F then (None, None)
    else
      let ratio := battery_activity_ratio p observed_max_power_w in
      match ratio with
      | Some r => if (r <? fdec 5 100)%F then (None, ratio) else (Some p, ratio)
      | None => (Some p, ratio)
      end
  end.

(** auto/logic_gates_battery_learning.py: AutoBatteryLearning._max_optional_ratio *)
Definition max_optional_ratio (current candidate : option float) : option float :=
  match candidate, current with
  | None, _ => current
  | Some c, None => Some c
  | Some c, Some x => Some (fmax x c)
  end.

(** auto/logic_gates_battery_learning.py: AutoBatteryLearning._bounded_optional_float *)
Definition bounded_optional_float (value : pyval) : res (option float) :=
  match value with
  | VBool _ | VInt _ | VFloat _ =>
    x ← py_float value; mret (Some (fmax (fopp f1) (fmin f1 x)))
  | _ => Ok None
  end.

(** auto/logic_gates_battery_learning.py: AutoBatteryLearning._source_activity_penalty *)
Definition source_activity_penalty (source profiles : list (pyval * pyval))
    : res (float * float * option float * option float) :=
  let source_id := source_id_of source in
  let profile := default (VDict []) (dict_find source_id profiles) in
  charge ← non_negative_optional_float (dict_get "charge_power_w" source);
  max_charge ← learning_observed_value profile "observed_max_charge_power_w";
  let '(charge_active, charge_ratio) := active_battery_power charge max_charge in
  discharge ← non_negative_optional_float (dict_get "discharge_power_w" source);
  max_discharge ← learning_observed_value profile "observed_max_discharge_power_w";
  let '(discharge_active, discharge_ratio) := active_battery_power discharge max_discharge in
  mret (default f0 charge_active, default f0 discharge_active, charge_ratio, discharge_ratio).

(** auto/logic_gates_battery_learning.py: AutoBatteryLearning._source_activity_penalties *)
Definition source_activity_penalties (sources : list (list (pyval * pyval))) (profiles : list (pyval * pyval))
    : res (float * float * option float * option float) :=
  fold_res (fun acc source =>
    let '(charge_penalty, discharge_penalty, max_charge_ratio, max_discharge_ratio) := acc in
    '(source_charge, source_discharge, charge_ratio, discharge_ratio) ← source_activity_penalty source profiles;
    mret ((charge_penalty + source_charge)%F, (discharge_penalty + source_discharge)%F,
          max_optional_ratio max_charge_ratio charge_ratio,
          max_optional_ratio max_discharge_ratio discharge_ratio))
    (f0, f0, None, None) sources.

(** auto/logic_gates_battery_learning.py: AutoBatteryLearning._cluster_activity_penalties *)
Definition cluster_activity_penalties (cluster : list (pyval * pyval)) (learning_summary : metrics)
    : res (float * float * option float * option float) :=
  charge ← non_negative_optional_float (dict_get "battery_combined_charge_power_w" cluster);
  max_charge ← non_negative_optional_float (metric "observed_max_charge_power_w" learning_summary);
  let '(charge_active, charge_ratio) := active_battery_power charge max_charge in
  discharge ← non_negative_optional_float (dict_get "battery_combined_discharge_power_w" cluster);
  max_discharge ← non_negative_optional_float (metric "observed_max_discharge_power_w" learning_summary);
  let '(discharge_active, discharge_ratio) := active_battery_power discharge max_discharge in
  mret (default f0 charge_active, default f0 discharge_active, charge_ratio, discharge_ratio).

(** The behaviour dictionary as a record.
    auto/logic_gates_battery_learning.py: AutoBatteryLearning._battery_learning_behavior *)
Record battery_behavior := mkBehavior {
  bh_response_delay_seconds : option float; bh_support_bias : option float;
  bh_day_support_bias : option float; bh_night_support_bias : option float;
  bh_import_support_bias : option float; bh_export_bias : option float;
  bh_battery_first_export_bias : option float; bh_power_smoothing_ratio : option float;
  bh_reserve_band_floor_soc : option float; bh_reserve_band_ceiling_soc : option float;
  bh_reserve_band_width_soc : option float }.

Section learning.
Context {AP : AutoPorts}.

(** The hour is that of the local clock of the ports.
    auto/logic_gates_battery_learning.py: AutoBatteryLearning._current_learning_period *)
Definition current_learning_period (b : battery_state) (s : auto) : option string :=
  if negb b.(has_time_now) then None
  else
    let hour := snd (port_local_clock (now_of s)) / 60 in
    Some (if (6 <=? hour) && (hour <? 22) then "day" else "night").

(** auto/logic_gates_battery_learning.py: AutoBatteryLearning._support_bias_for_current_period *)
Definition support_bias_for_current_period (b : battery_state) (s : auto)
    (default_bias day_bias night_bias : option float) : option float :=
  match current_learning_period b s with
  | Some "day" => match day_bias with Some x => Some x | None => default_bias end
  | Some "night" => match night_bias with Some x => Some x | None => default_bias end
  | _ => default_bias
  end.

(** auto/logic_gates_battery_learning.py: AutoBatteryLearning._battery_learning_behavior *)
Definition battery_learning_behavior (b : battery_state) (s : auto) (learning_summary : metrics)
    : res battery_behavior :=
  day_support_bias ← bounded_optional_float (metric "day_support_bias" learning_summary);
  night_support_bias ← bounded_optional_float (metric "night_support_bias" learning_summary);
  response_delay ← non_negative_optional_float (metric "typical_response_delay_seconds" learning_summary);
  support_bias ← bounded_optional_float (metric "support_bias" learning_summary);
  import_support_bias ← bounded_optional_float (metric "import_support_bias" learning_summary);
  export_bias ← bounded_optional_float (metric "export_bias" learning_summary);
  battery_first ← bounded_optional_float (metric "battery_first_export_bias" learning_summary);
  smoothing ← non_negative_optional_float (metric "power_smoothing_ratio" learning_summary);
  floor ← non_negative_optional_float (metric "reserve_band_floor_soc" learning_summary);
  ceiling ← non_negative_optional_float (metric "reserve_band_ceiling_soc" learning_summary);
  width ← non_negative_optional_float (metric "reserve_band_width_soc" learning_summary);
  mret (mkBehavior response_delay
          (support_bias_for_current_period b s support_bias day_support_bias night_support_bias)
          day_support_bias night_support_bias import_support_bias export_bias battery_first smoothing
          floor ceiling width).

End learning.

(** auto/logic_gates_battery_learning.py: AutoBatteryLearning._cluster_or_forecast_metric *)
Definition cluster_or_forecast_metric (cluster : list (pyval * pyval)) (forecast : metrics) (key : string)
    : res (option float) :=
  match dict_find key cluster with
  | Some v => non_negative_optional_float v
  | None => non_negative_optional_float (metric key forecast)
  end.

(** auto/logic_gates_battery_learning.py: AutoBatteryLearning._battery_activity_mode *)
Definition battery_activity_mode (charge_penalty discharge_penalty : float) : string :=
  if (charge_penalty >? f0)%F && (discharge_penalty >? f0)%F then "mixed"
  else if (discharge_penalty >? f0)%F then "discharging"
  else if (charge_penalty >? f0)%F then "charging"
  else "idle".

(** auto/logic_gates_battery_learning.py: AutoBatteryLearning._response_delay_penalty_factor *)
Definition response_delay_penalty_factor (response_delay_seconds : option float) : float :=
  match response_delay_seconds with
  | None => f1
  | Some d => let bounded_delay := fmin (fmax d f0) (f_of_Z 60) in (f1 + bounded_delay / f_of_Z 120)%F
  end.

(** auto/logic_gates_battery_learning.py: AutoBatteryLearning._charge_bias_penalty_factor *)
Definition charge_bias_penalty_factor (export_bias : option float) : float :=
  let positive_export_bias := match export_bias with None => f0 | Some x => fmax f0 x end in
  (f1 + positive_export_bias * fdec 25 100)%F.

(** auto/logic_gates_battery_learning.py: AutoBatteryLearning._discharge_bias_penalty_factor *)
Definition discharge_bias_penalty_factor (import_support_bias support_bias : option float) : float :=
  let discharge_bias :=
    match import_support_bias, support_bias with
    | Some x, _ => Some x
    | None, Some x => Some (fmax f0 x)
    | None, None => None
    end in
  let positive_discharge_bias := match discharge_bias with None => f0 | Some x => fmax f0 x end in
  (f1 + positive_discharge_bias * fdec 25 100)%F.

(** auto/logic_gates_battery_learning.py: AutoBatteryLearning._battery_penalty_multiplier *)
Definition battery_penalty_multiplier (direction : string)
    (response_delay_seconds support_bias import_support_bias export_bias : option float) : float :=
  let multiplier := response_delay_penalty_factor response_delay_seconds in
  if (direction =? "charge")%string then (multiplier * charge_bias_penalty_factor export_bias)%F
  else if (direction =? "discharge")%string
  then (multiplier * discharge_bias_penalty_factor import_support_bias support_bias)%F
  else multiplier.

(** ** Discharge balance policy *)

(** auto/logic_gates_battery_balance_support.py: _BIAS_MODES *)
Definition BIAS_MODES : list string :=
  ["always"; "export_only"; "above_reserve_band"; "export_and_above_reserve_band"].

(** auto/logic_gates_battery_balance_support.py: _COORDINATION_SUPPORT_MODES *)
Definition COORDINATION_SUPPORT_MODES : list string := ["supported_only"; "allow_experimental"].

(** auto/logic_gates_battery_balance_support.py: _service_bool *)
Definition service_bool (attr : option bool) : bool := default false attr.

(** auto/logic_gates_battery_balance_support.py: _service_non_negative_float *)
Definition service_non_negative_float (attr : option float) : float :=
  match attr with None => f0 | Some _ => fmax f0 (or_zero attr) end.

(** auto/logic_gates_battery_balance_support.py: _service_mode *)
Definition service_mode (attr : option string) (valid_modes : list string) (fallback : string) : string :=
  match attr with
  | None => fallback
  | Some raw_value =>
    let raw_mode := py_lower (py_strip raw_value) in
    if bool_decide (raw_mode ∈ valid_modes) then raw_mode else fallback
  end.

(** auto/logic_gates_battery_balance_support.py: _mapping_count *)
Definition mapping_count (values : list (pyval * pyval)) (key : string) : res Z :=
  match dict_find key values with
  | None => Ok 0
  | Some v => if py_bool v then py_int v else Ok 0
  end.

(** auto/logic_gates_battery_balance_support.py: AutoBatteryBalancePolicy._battery_discharge_balance_policy_enabled *)
Definition balance_policy_enabled (c : balance_config) : bool :=
  service_bool c.(discharge_balance_policy_enabled).

(** auto/logic_gates_battery_balance_support.py: AutoBatteryBalancePolicy._battery_discharge_balance_policy_counts *)
Definition balance_policy_counts (cluster : list (pyval * pyval)) : res (float * Z * Z) :=
  error ← non_negative_optional_float (dict_get "battery_discharge_balance_error_w" cluster);
  eligible ← mapping_count cluster "battery_discharge_balance_eligible_source_count";
  active ← mapping_count cluster "battery_discharge_balance_active_source_count";
  mret (or_zero error, eligible, active).

(** auto/logic_gates_battery_balance_support.py: AutoBatteryBalancePolicy._battery_discharge_balance_policy_thresholds *)
Definition balance_policy_thresholds (c : balance_config) : float * float * float :=
  (service_non_negative_float c.(discharge_balance_warn_error_watts),
   service_non_negative_float c.(discharge_balance_bias_start_error_watts),
   service_non_negative_float c.(discharge_balance_bias_max_penalty_watts)).

(** auto/logic_gates_battery_balance_support.py: AutoBatteryBalancePolicy._battery_discharge_balance_reserve_margin_soc *)
Definition balance_reserve_margin_soc (c : balance_config) : float :=
  service_non_negative_float c.(discharge_balance_bias_reserve_margin_soc).

(** auto/logic_gates_battery_balance_support.py: AutoBatteryBalancePolicy._battery_discharge_balance_warning_active *)
Definition balance_warning_active (eligible_source_count active_source_count : Z)
    (error_w warn_threshold_w : float) : bool :=
  (2 <=? eligible_source_count) && (1 <=? active_source_count) && (error_w >? f0)%F &&
  (error_w >=? warn_threshold_w)%F.

(** auto/logic_gates_battery_balance_support.py: _battery_discharge_balance_penalty_scale *)
Definition balance_penalty_scale (error_w start_error_w : float) : float :=
  fmin (fmax ((error_w - start_error_w) / fmax start_error_w f1)%F f0) f1.

(** auto/logic_gates_battery_balance_support.py: _battery_discharge_balance_penalty_inputs_valid *)
Definition balance_penalty_inputs_valid (eligible_source_count active_source_count : Z)
    (gate_active : bool) (max_penalty_w : float) : bool :=
  (2 <=? eligible_source_count) && (1 <=? active_source_count) && gate_active && (max_penalty_w >? f0)%F.

(** auto/logic_gates_battery_balance_support.py: _battery_discharge_balance_zero_start_penalty *)
Definition zero_start_penalty (error_w max_penalty_w : float) : float :=
  if (error_w >? f0)%F then max_penalty_w else f0.

(** auto/logic_gates_battery_balance_support.py: _battery_discharge_balance_penalty_value *)
Definition balance_penalty_value (error_w start_error_w max_penalty_w : float) : float :=
  if (start_error_w <=? f0)%F then zero_start_penalty error_w max_penalty_w
  else (max_penalty_w * balance_penalty_scale error_w start_error_w)%F.

(** auto/logic_gates_battery_balance_support.py: AutoBatteryBalancePolicy._battery_discharge_balance_penalty_w *)
Definition balance_penalty_w (eligible_source_count active_source_count : Z) (gate_active : bool)
    (error_w start_error_w max_penalty_w : float) : float :=
  if negb (balance_penalty_inputs_valid eligible_source_count active_source_count gate_active max_penalty_w)
  then f0
  else balance_penalty_value error_w start_error_w max_penalty_w.

(** auto/logic_gates_battery_balance_support.py: AutoBatteryBalancePolicy._discharge_balance_bias_mode *)
Definition discharge_balance_bias_mode (c : balance_config) : string :=
  service_mode c.(discharge_balance_bias_mode_setting) BIAS_MODES "always".

(** auto/logic_gates_battery_balance_support.py: AutoBatteryBalancePolicy._discharge_balance_export_active *)
Definition discharge_balance_export_active (expected_export_w : option float) : bool :=
  (or_zero expected_export_w >? f0)%F.

(** auto/logic_gates_battery_balance_support.py: AutoBatteryBalancePolicy._discharge_balance_reserve_gate_active *)
Definition discharge_balance_reserve_gate_active (cluster : list (pyval * pyval))
    (reserve_floor_soc : option float) (reserve_margin_soc : float) : res bool :=
  combined_soc ← non_negative_optional_float (dict_get "battery_combined_soc" cluster);
  mret (match combined_soc, reserve_floor_soc with
        | Some soc, Some floor => (soc >=? floor + reserve_margin_soc)%F
        | _, _ => false
        end).

(** auto/logic_gates_battery_balance_support.py: _discharge_balance_bias_mode_active *)
Definition discharge_balance_bias_mode_active (bias_mode : string) (export_active reserve_gate_active : bool)
    : bool :=
  if (bias_mode =? "export_only")%string then export_active
  else if (bias_mode =? "above_reserve_band")%string then reserve_gate_active
  else if (bias_mode =? "export_and_above_reserve_band")%string then export_active && reserve_gate_active
  else true.

(** auto/logic_gates_battery_balance_support.py: AutoBatteryBalancePolicy._discharge_balance_bias_gate_active *)
Definition discharge_balance_bias_gate_active (bias_mode : string) (cluster : list (pyval * pyval))
    (expected_export_w reserve_floor_soc : option float) (reserve_margin_soc : float) : res bool :=
  let export_active := discharge_balance_export_active expected_export_w in
  reserve_gate_active ← discharge_balance_reserve_gate_active cluster reserve_floor_soc reserve_margin_soc;
  mret (discharge_balance_bias_mode_active bias_mode export_active reserve_gate_active).

(** The tuple of the policy, under the names the caller gives its parts. *)
Record bias_context := mkBiasContext {
  bc_warning_active : bool; bc_error_w : float; bc_warn_threshold_w : float; bc_bias_mode : string;
  bc_bias_gate_active : bool; bc_bias_start_error_w : float; bc_bias_penalty_w : float }.

(** auto/logic_gates_battery_balance_support.py: AutoBatteryBalancePolicy._battery_discharge_balance_policy_context *)
Definition balance_policy_context (c : balance_config) (cluster : list (pyval * pyval))
    (expected_export_w reserve_floor_soc : option float) : res bias_context :=
  if negb (balance_policy_enabled c) then Ok (mkBiasContext false f0 f0 "always" false f0 f0)
  else
    '(error_w, eligible_source_count, active_source_count) ← balance_policy_counts cluster;
    let '(warn_threshold_w, bias_start_error_w, bias_max_penalty_w) := balance_policy_thresholds c in
    let bias_mode := discharge_balance_bias_mode c in
    gate_active ← discharge_balance_bias_gate_active bias_mode cluster expected_export_w reserve_floor_soc
                    (balance_reserve_margin_soc c);
    let warning_active := balance_warning_active eligible_source_count active_source_count error_w
                            warn_threshold_w in
    let bias_penalty_w := balance_penalty_w eligible_source_count active_source_count gate_active error_w
                            bias_start_error_w bias_max_penalty_w in
    mret (mkBiasContext warning_active error_w warn_threshold_w bias_mode gate_active bias_start_error_w
            bias_penalty_w).

(** ** Coordination *)

(** auto/logic_gates_battery_balance_support.py: _battery_discharge_balance_coordination_counts *)
Record coordination_counts := mkCoordinationCounts {
  cc_eligible_source_count : Z; cc_control_candidate_count : Z; cc_control_ready_count : Z;
  cc_supported_count : Z; cc_experimental_count : Z }.

(** auto/logic_gates_battery_balance_support.py: _battery_discharge_balance_coordination_counts *)
Definition balance_coordination_counts (cluster : list (pyval * pyval)) : res coordination_counts :=
  eligible ← mapping_count cluster "battery_discharge_balance_eligible_source_count";
  candidate ← mapping_count cluster "battery_discharge_balance_control_candidate_count";
  ready ← mapping_count cluster "battery_discharge_balance_control_ready_count";
  supported ← mapping_count cluster "battery_discharge_balance_supported_control_source_count";
  experimental ← mapping_count cluster "battery_discharge_balance_experimental_control_source_count";
  mret (mkCoordinationCounts eligible candidate ready supported experimental).

Abbreviation advisory := (option (string * bool * string)) (only parsing).

(** auto/logic_gates_battery_balance_support.py: _battery_discharge_balance_coordination_not_needed *)
Definition coordination_not_needed (n : coordination_counts) (warning_active : bool) : advisory :=
  if 2 <=? n.(cc_eligible_source_count) then None
  else Some ("not_needed", false, "single_source_or_insufficient_sources").

(** auto/logic_gates_battery_balance_support.py: _battery_discharge_balance_coordination_supported *)
Definition coordination_supported (n : coordination_counts) (warning_active : bool) : advisory :=
  if (n.(cc_supported_count) <? 2) || (n.(cc_control_ready_count) <? 2) then None
  else Some ("supported", false, "multiple_supported_control_sources_ready").

(** auto/logic_gates_battery_balance_support.py: _battery_discharge_balance_coordination_experimental *)
Definition coordination_experimental (n : coordination_counts) (warning_active : bool) : advisory :=
  if n.(cc_control_ready_count) <? 2 then None
  else if n.(cc_supported_count) + n.(cc_experimental_count) <? 2 then None
  else if n.(cc_experimental_count) <=? 0 then None
  else Some ("experimental", warning_active, "coordination_depends_on_experimental_write_paths").

(** auto/logic_gates_battery_balance_support.py: _battery_discharge_balance_coordination_blocked_by_availability *)
Definition coordination_blocked_by_availability (n : coordination_counts) (warning_active : bool) : advisory :=
  if n.(cc_control_candidate_count) <? 2 then None
  else if 2 <=? n.(cc_control_ready_count) then None
  else Some ("blocked_by_source_availability", warning_active, "candidate_sources_not_ready").

(** auto/logic_gates_battery_balance_support.py: _battery_discharge_balance_coordination_partial *)
Definition coordination_partial (n : coordination_counts) (warning_active : bool) : advisory :=
  if n.(cc_control_candidate_count) <? 1 then None
  else Some ("partial", warning_active, "only_some_sources_offer_a_write_path").

(** auto/logic_gates_battery_balance_support.py: AutoBatteryBalancePolicy._battery_discharge_balance_coordination_advisory *)
Definition balance_coordination_advisory (cluster : list (pyval * pyval)) (warning_active : bool)
    : res (string * bool * string) :=
  counts ← balance_coordination_counts cluster;
  mret (match first_some (map (fun evaluator => evaluator counts warning_active)
          [coordination_not_needed; coordination_supported; coordination_experimental;
           coordination_blocked_by_availability; coordination_partial]) with
        | Some advisory => advisory
        | None => ("observe_only", warning_active, "no_configured_source_offers_a_write_path")
        end).

(** auto/logic_gates_battery_balance_support.py: _battery_discharge_balance_allowed_feasibilities *)
Definition allowed_feasibilities (support_mode : string) : list string :=
  if (support_mode =? "allow_experimental")%string then ["supported"; "experimental"] else ["supported"].

(** auto/logic_gates_battery_balance_support.py: AutoBatteryBalancePolicy._battery_discharge_balance_coordination_gate_active *)
Definition coordination_gate_active (support_mode feasibility : string) (control_ready_count : Z) : bool :=
  (2 <=? control_ready_count) && bool_decide (feasibility ∈ allowed_feasibilities support_mode).

(** auto/logic_gates_battery_balance_support.py: _battery_discharge_balance_coordination_penalty_w *)
Definition coordination_penalty_w (gate_active : bool) (error_w start_error_w max_penalty_w : float) : float :=
  if negb gate_active then f0 else balance_penalty_value error_w start_error_w (fmax f0 max_penalty_w).

(** auto/logic_gates_battery_balance_support.py: AutoBatteryBalancePolicy._discharge_balance_coordination_support_mode *)
Definition coordination_support_mode (c : balance_config) : string :=
  service_mode c.(discharge_balance_coordination_support_mode_setting) COORDINATION_SUPPORT_MODES
    "supported_only".

(** auto/logic_gates_battery_balance_support.py: AutoBatteryBalancePolicy._battery_discharge_balance_coordination_counts *)
Definition coordination_policy_counts (cluster : list (pyval * pyval)) : res (float * Z) :=
  error ← non_negative_optional_float (dict_get "battery_discharge_balance_error_w" cluster);
  ready ← mapping_count cluster "battery_discharge_balance_control_ready_count";
  mret (or_zero error, ready).

(** auto/logic_gates_battery_balance_support.py: AutoBatteryBalancePolicy._battery_discharge_balance_coordination_thresholds *)
Definition coordination_thresholds (c : balance_config) : float * float :=
  (service_non_negative_float c.(discharge_balance_coordination_start_error_watts),
   service_non_negative_float c.(discharge_balance_coordination_max_penalty_watts)).

Record coordination_policy := mkCoordinationPolicy {
  cp_enabled : bool; cp_support_mode : string; cp_gate_active : bool; cp_start_error_w : float;
  cp_penalty_w : float }.

(** auto/logic_gates_battery_balance_support.py: AutoBatteryBalancePolicy._battery_discharge_balance_coordination_policy_context *)
Definition coordination_policy_context (c : balance_config) (cluster : list (pyval * pyval))
    (feasibility : string) : res coordination_policy :=
  let support_mode := coordination_support_mode c in
  if negb (service_bool c.(discharge_balance_coordination_enabled))
  then Ok (mkCoordinationPolicy false support_mode false f0 f0)
  else
    '(error_w, control_ready_count) ← coordination_policy_counts cluster;
    let '(start_error_w, max_penalty_w) := coordination_thresholds c in
    let gate_active := coordination_gate_active support_mode feasibility control_ready_count in
    mret (mkCoordinationPolicy true support_mode gate_active start_error_w
            (coordination_penalty_w gate_active error_w start_error_w max_penalty_w)).

(** ** The picture *)

(** auto/logic_gates_battery_balance.py: AutoBatteryBalance._combined_battery_learning_summary *)
Definition battery_learning_summary (profiles : list (pyval * pyval)) : res metrics :=
  summarize_energy_learning_profiles (map (fun '(k, v) => (k, inr v)) profiles).

(** auto/logic_gates_battery_balance.py: AutoBatteryBalance._observed_battery_power *)
Definition observed_battery_power (cluster : list (pyval * pyval)) (key : string) (fallback : float)
    : res float :=
  value ← non_negative_optional_float (dict_get key cluster);
  mret (match value with None => fallback | Some v => v end).

(** auto/logic_gates_battery_balance.py: AutoBatteryBalance._combined_battery_penalties *)
Definition combined_battery_penalties (cluster : list (pyval * pyval))
    (sources : list (list (pyval * pyval))) (profiles : list (pyval * pyval)) (learning_summary : metrics)
    : res (float * float * option float * option float) :=
  match sources with
  | [] => cluster_activity_penalties cluster learning_summary
  | _ => source_activity_penalties sources profiles
  end.

(** auto/logic_gates_battery_balance.py: AutoBatteryBalance._combined_battery_penalty_multiplier *)
Definition combined_battery_penalty_multiplier (direction : string) (behavior : battery_behavior) : float :=
  battery_penalty_multiplier direction behavior.(bh_response_delay_seconds) behavior.(bh_support_bias)
    behavior.(bh_import_support_bias) behavior.(bh_export_bias).

(** auto/logic_gates_battery_balance.py: AutoBatteryBalance._combined_battery_scaled_penalties *)
Definition combined_battery_scaled_penalties (charge_penalty discharge_penalty : float)
    (behavior : battery_behavior) : float * float :=
  ((charge_penalty * combined_battery_penalty_multiplier "charge" behavior)%F,
   (discharge_penalty * combined_battery_penalty_multiplier "discharge" behavior)%F).

(** auto/logic_gates_battery_balance.py: AutoBatteryBalance._combined_battery_discharge_balance_context *)
Definition combined_battery_discharge_balance_context (c : balance_config) (cluster : list (pyval * pyval))
    (forecast : metrics) (behavior : battery_behavior) : res bias_context :=
  expected_export_w ← cluster_or_forecast_metric cluster forecast "expected_near_term_export_w";
  balance_policy_context c cluster expected_export_w behavior.(bh_reserve_band_floor_soc).

Section warnings.
Context {AP : AutoPorts}.

(** The text of the warning rounds the error, which no float makes fail.
    auto/logic_gates_battery_balance.py: AutoBatteryBalance._emit_combined_battery_discharge_warning *)
Definition emit_discharge_warning (s : auto) (cluster : list (pyval * pyval)) (bias : bias_context)
    : res unit :=
  if negb bias.(bc_warning_active) then Ok tt
  else
    _ ← mapping_count cluster "battery_discharge_balance_active_source_count";
    _ ← mapping_count cluster "battery_discharge_balance_eligible_source_count";
    port_warning_throttled s.

(** auto/logic_gates_battery_balance.py: AutoBatteryBalance._emit_combined_battery_coordination_warning *)
Definition emit_coordination_warning (s : auto) (advisory_active : bool) : res unit :=
  if negb advisory_active then Ok tt else port_warning_throttled s.

(** auto/logic_gates_battery_balance.py: AutoBatteryBalance._emit_combined_battery_balance_warnings *)
Definition emit_balance_warnings (s : auto) (cluster : list (pyval * pyval)) (bias : bias_context)
    (advisory_active : bool) : res unit :=
  _ ← emit_discharge_warning s cluster bias;
  emit_coordination_warning s advisory_active.

End warnings.

(** auto/logic_gates_battery_balance.py: AutoBatteryBalance._combined_battery_effective_penalty_w *)
Definition combined_battery_effective_penalty_w (bias_penalty_w coordination_penalty_w : float) : float :=
  fmax bias_penalty_w coordination_penalty_w.

(** auto/logic_gates_battery_balance.py: AutoBatteryBalance._combined_battery_power_payload *)
Definition power_payload (observed_charge_power observed_discharge_power charge_penalty discharge_penalty : float)
    (max_charge_ratio max_discharge_ratio : option float) : metrics :=
  [("charge_power_w", if (observed_charge_power >? f0)%F then VFloat observed_charge_power else VNone);
   ("discharge_power_w", if (observed_discharge_power >? f0)%F then VFloat observed_discharge_power else VNone);
   ("charge_penalty_w", VFloat charge_penalty); ("discharge_penalty_w", VFloat discharge_penalty);
   ("charge_activity_ratio", val_of_float max_charge_ratio);
   ("discharge_activity_ratio", val_of_float max_discharge_ratio);
   ("mode", VStr (battery_activity_mode charge_penalty discharge_penalty))].

(** auto/logic_gates_battery_balance.py: AutoBatteryBalance._combined_battery_learning_payload *)
Definition learning_payload (learning_summary : metrics) : res metrics :=
  count ← (let v := metric "profile_count" learning_summary in if py_bool v then py_int v else Ok 0);
  max_charge ← non_negative_optional_float (metric "observed_max_charge_power_w" learning_summary);
  max_discharge ← non_negative_optional_float (metric "observed_max_discharge_power_w" learning_summary);
  mret [("learning_profile_count", VInt count); ("observed_max_charge_power_w", val_of_float max_charge);
        ("observed_max_discharge_power_w", val_of_float max_discharge)].

(** auto/logic_gates_battery_balance.py: AutoBatteryBalance._combined_battery_behavior_payload *)
Definition behavior_payload (behavior : battery_behavior) : metrics :=
  [("typical_response_delay_seconds", val_of_float behavior.(bh_response_delay_seconds));
   ("support_bias", val_of_float behavior.(bh_support_bias));
   ("day_support_bias", val_of_float behavior.(bh_day_support_bias));
   ("night_support_bias", val_of_float behavior.(bh_night_support_bias));
   ("import_support_bias", val_of_float behavior.(bh_import_support_bias));
   ("export_bias", val_of_float behavior.(bh_export_bias));
   ("battery_first_export_bias", val_of_float behavior.(bh_battery_first_export_bias));
   ("power_smoothing_ratio", val_of_float behavior.(bh_power_smoothing_ratio));
   ("reserve_band_floor_soc", val_of_float behavior.(bh_reserve_band_floor_soc));
   ("reserve_band_ceiling_soc", val_of_float behavior.(bh_reserve_band_ceiling_soc));
   ("reserve_band_width_soc", val_of_float behavior.(bh_reserve_band_width_soc))].

(** auto/logic_gates_battery_balance.py: AutoBatteryBalance._combined_battery_forecast_payload *)
Definition forecast_payload (cluster : list (pyval * pyval)) (forecast : metrics) : res metrics :=
  map_res (fun key => v ← cluster_or_forecast_metric cluster forecast key; mret (key, val_of_float v))
    ["battery_headroom_charge_w"; "battery_headroom_discharge_w"; "expected_near_term_export_w";
     "expected_near_term_import_w"].

Definition val_of_flag (b : bool) : pyval := VInt (if b then 1 else 0).

(** auto/logic_gates_battery_balance.py: AutoBatteryBalance._combined_battery_warning_error_w *)
Definition warning_error_w (bias : bias_context) : option float :=
  if negb bias.(bc_warning_active) then None else Some bias.(bc_error_w).

(** auto/logic_gates_battery_balance.py: AutoBatteryBalance._combined_battery_bias_payload *)
Definition bias_payload (c : balance_config) (bias : bias_context) : metrics :=
  [("discharge_balance_policy_enabled", val_of_flag (balance_policy_enabled c));
   ("discharge_balance_warning_active", val_of_flag bias.(bc_warning_active));
   ("discharge_balance_warning_error_w", val_of_float (warning_error_w bias));
   ("discharge_balance_warn_threshold_w", VFloat bias.(bc_warn_threshold_w));
   ("discharge_balance_bias_mode", VStr bias.(bc_bias_mode));
   ("discharge_balance_bias_gate_active", val_of_flag bias.(bc_bias_gate_active));
   ("discharge_balance_bias_start_error_w", VFloat bias.(bc_bias_start_error_w));
   ("discharge_balance_bias_penalty_w", VFloat bias.(bc_bias_penalty_w))].

(** auto/logic_gates_battery_balance.py: AutoBatteryBalance._combined_battery_coordination_payload *)
Definition coordination_payload (feasibility : string) (advisory_active : bool) (advisory_reason : string)
    (policy : coordination_policy) : metrics :=
  [("discharge_balance_coordination_policy_enabled", val_of_flag policy.(cp_enabled));
   ("discharge_balance_coordination_support_mode", VStr policy.(cp_support_mode));
   ("discharge_balance_coordination_feasibility", VStr feasibility);
   ("discharge_balance_coordination_gate_active", val_of_flag policy.(cp_gate_active));
   ("discharge_balance_coordination_start_error_w", VFloat policy.(cp_start_error_w));
   ("discharge_balance_coordination_penalty_w", VFloat policy.(cp_penalty_w));
   ("discharge_balance_coordination_advisory_active", val_of_flag advisory_active);
   ("discharge_balance_coordination_advisory_reason", VStr advisory_reason)].

(** The parts have distinct keys, so updating the dictionary appends them.
    auto/logic_gates_battery_balance.py: AutoBatteryBalance._combined_battery_activity_payload *)
Definition combined_battery_activity_payload (c : balance_config) (cluster : list (pyval * pyval))
    (learning_summary : metrics) (behavior : battery_behavior) (forecast : metrics)
    (charge_penalty discharge_penalty observed_charge_power observed_discharge_power : float)
    (max_charge_ratio max_discharge_ratio : option float) (effective_penalty_w : float) (bias : bias_context)
    (feasibility : string) (advisory_active : bool) (advisory_reason : string) (policy : coordination_policy)
    : res metrics :=
  learned ← learning_payload learning_summary;
  expected ← forecast_payload cluster forecast;
  mret ([("surplus_penalty_w", VFloat (charge_penalty + discharge_penalty + effective_penalty_w)%F)]
        ++ power_payload observed_charge_power observed_discharge_power charge_penalty discharge_penalty
             max_charge_ratio max_discharge_ratio
        ++ learned ++ behavior_payload behavior ++ expected ++ bias_payload c bias
        ++ coordination_payload feasibility advisory_active advisory_reason policy)%list.

Section picture.
Context {AP : AutoPorts}.

(** auto/logic_gates_battery_balance.py: AutoBatteryBalance._combined_battery_activity_context *)
Definition battery_activity_context (b : battery_state) (s : auto) : res metrics :=
  let '(cluster, sources, profiles) := battery_activity_inputs b in
  learning_summary ← battery_learning_summary profiles;
  '(charge_penalty, discharge_penalty, max_charge_ratio, max_discharge_ratio) ←
    combined_battery_penalties cluster sources profiles learning_summary;
  observed_charge_power ← observed_battery_power cluster "battery_combined_charge_power_w" charge_penalty;
  observed_discharge_power ←
    observed_battery_power cluster "battery_combined_discharge_power_w" discharge_penalty;
  behavior ← battery_learning_behavior b s learning_summary;
  forecast ← derive_energy_forecast cluster learning_summary;
  let '(scaled_charge_penalty, scaled_discharge_penalty) :=
    combined_battery_scaled_penalties charge_penalty discharge_penalty behavior in
  bias ← combined_battery_discharge_balance_context b.(bs_config) cluster forecast behavior;
  '(feasibility, advisory_active, advisory_reason) ←
    balance_coordination_advisory cluster bias.(bc_warning_active);
  policy ← coordination_policy_context b.(bs_config) cluster feasibility;
  _ ← emit_balance_warnings s cluster bias advisory_active;
  let effective_penalty_w := combined_battery_effective_penalty_w bias.(bc_bias_penalty_w) policy.(cp_penalty_w) in
  combined_battery_activity_payload b.(bs_config) cluster learning_summary behavior forecast
    scaled_charge_penalty scaled_discharge_penalty observed_charge_power observed_discharge_power
    max_charge_ratio max_discharge_ratio effective_penalty_w bias feasibility advisory_active
    advisory_reason policy.

End picture.

(** The battery balance as the Auto metrics see it. *)
Definition battery_balance {AP : AutoPorts} (b : battery_state) : BatteryBalance :=
  {| combined_battery_activity_context := battery_activity_context b |}.
