(* ===== verification/BatteryReliable.v ===== *)
(** * The battery picture never fails

    From a readable cluster and readable profiles the battery balance always yields a
    picture, with every entry the Auto metrics copy: [BatteryActivity] keeps the promise
    that [AutoTotal] asks of the battery interface. *)

From S2P Require Import Prelude PyFloat PyValue Rounding Contracts BackendModels Service CommonAuto OrderedMap AutoPolicy Schedule AutoState AutoSamples AutoMetrics AutoGates AutoDecision AutoTracking AutoSafety AutoHistory AutoTotal EnergyModels EnergyLearning EnergyForecast BatteryActivity.

(** ** Readable values *)

(** A number that is not too large for a float; other values are not read as numbers. *)
Definition number_ok (v : pyval) : Prop := match v with VInt n => is_ok (float_of_int n) | _ => True end.

Definition numbers_ok {K} (d : list (K * pyval)) : Prop := Forall (fun kv => number_ok (snd kv)) d.

Lemma number_of_float o : number_ok (val_of_float o).
Proof. by destruct o. Qed.

Lemma number_of_small n : 0 <= n < 2 ^ 53 -> number_ok (VInt n).
Proof. intros H. destruct (float_of_int_small n H) as (x & Hx & _). cbn. by exists x. Qed.

#[local] Hint Resolve number_of_float : core.

Lemma metric_number k d : numbers_ok d -> number_ok (metric k d).
Proof.
  unfold metric, numbers_ok. rewrite Forall_forall. intros H.
  destruct (od_get k d) as [v|] eqn:E; [|done]. apply od_get_some_elem in E. by apply (H (k, v)).
Qed.

Lemma dict_find_number k d v : numbers_ok d -> dict_find k d = Some v -> number_ok v.
Proof.
  unfold dict_find, numbers_ok. rewrite Forall_forall. intros H.
  destruct (List.find _ d) as [kv|] eqn:E; [|done]. cbn. intros [= <-].
  apply List.find_some in E as [E _]. apply H. by apply list_elem_of_In.
Qed.

Lemma dict_get_number k d : numbers_ok d -> number_ok (dict_get k d).
Proof. unfold dict_get. intros H. destruct (dict_find k d) eqn:E; [by eapply dict_find_number | done]. Qed.

Lemma py_float_number v : number_ok v -> match v with VBool _ | VInt _ | VFloat _ => is_ok (py_float v) | _ => True end.
Proof. destruct v; intros H; first [done | exact H | by eexists]. Qed.

(** The four readers of optional numbers. *)
Lemma read_non_negative v : number_ok v -> is_ok (non_negative_optional_float v).
Proof.
  intros H%py_float_number. unfold non_negative_optional_float.
  destruct v; try by eexists. all: destruct H as [x ->]; by eexists.
Qed.

Lemma read_bounded v : number_ok v -> is_ok (bounded_optional_float v).
Proof.
  intros H%py_float_number. unfold bounded_optional_float.
  destruct v; try by eexists. all: destruct H as [x ->]; by eexists.
Qed.

Lemma read_optional v : number_ok v -> is_ok (Numeric.optional_float v).
Proof.
  intros H%py_float_number. unfold Numeric.optional_float.
  destruct v; try by eexists. all: destruct H as [x ->]; by eexists.
Qed.

Lemma read_forecast v :
  number_ok v -> yields (fun o => forall x, o = Some x -> (f0 <=? x)%F = true) (forecast_non_negative v).
Proof.
  intros H. unfold forecast_non_negative, Numeric.non_negative_optional_float.
  destruct (read_optional v H) as [o ->]. cbn. apply yields_ok. intros x. destruct o; [|done].
  intros [= <-]. apply fmax0_nonneg.
Qed.

(** Decompose a computation that may raise; [call] closes the reads. *)
Ltac reads call :=
  repeat lazymatch goal with
  | |- yields _ (mbind _ _) => eapply (yields_bind (fun _ => True)); [|intros ? _]
  | |- yields _ (mret _) => apply yields_ok
  | |- yields _ (Ok _) => apply yields_ok
  | |- yields _ (let '(_, _) := ?x in _) => destruct x
  | |- yields _ (if ?b then _ else _) => destruct b
  | |- yields _ _ => call
  end.

Ltac read_number :=
  apply yields_any;
  first [ apply read_non_negative | apply read_bounded | apply read_optional ];
  first [ apply metric_number | apply dict_get_number ]; assumption.

(** ** Profiles *)

Definition PROFILE_COUNTS : list string :=
  ["sample_count"; "active_sample_count"; "charge_sample_count"; "discharge_sample_count";
   "import_support_sample_count"; "import_charge_sample_count"; "export_charge_sample_count";
   "export_discharge_sample_count"; "export_idle_sample_count"; "day_active_sample_count";
   "night_active_sample_count"; "day_charge_sample_count"; "night_charge_sample_count";
   "day_discharge_sample_count"; "night_discharge_sample_count"; "response_sample_count";
   "smoothing_sample_count"; "direction_change_count"].

Definition small (n : Z) : Prop := 0 <= n < 2 ^ 40.

(** The counts of a profile. *)
Definition profile_counts (p : EnergyLearningProfile) : list Z :=
  [p.(lp_sample_count); p.(lp_active_sample_count); p.(lp_charge_sample_count); p.(lp_discharge_sample_count);
   p.(lp_import_support_sample_count); p.(lp_import_charge_sample_count); p.(lp_export_charge_sample_count);
   p.(lp_export_discharge_sample_count); p.(lp_export_idle_sample_count); p.(lp_day_active_sample_count);
   p.(lp_night_active_sample_count); p.(lp_day_charge_sample_count); p.(lp_night_charge_sample_count);
   p.(lp_day_discharge_sample_count); p.(lp_night_discharge_sample_count); p.(lp_response_sample_count);
   p.(lp_smoothing_sample_count); p.(lp_direction_change_count)].

(** A profile as plain data: its counts convert to small integers, its numbers to floats. *)
Definition readable_profile (raw_profile : pyval) : Prop :=
  exists d, raw_profile = VDict d /\ numbers_ok d /\
    Forall (fun key => yields small (coerced_int d key)) PROFILE_COUNTS.

Lemma coerce_ok source_id raw_profile d :
  raw_profile = VDict d -> readable_profile raw_profile ->
  yields (fun p => Forall small (profile_counts p)) (coerce_learning_profile source_id d).
Proof.
  intros -> (d' & [= <-] & Hn & Hc). unfold coerce_learning_profile.
  unfold PROFILE_COUNTS in Hc. repeat (apply Forall_cons in Hc as [? Hc]).
  do 18 (eapply yields_bind; [eassumption | intros ? ?]).
  do 15 (eapply (yields_bind (fun _ => True)); [apply yields_any, read_optional, dict_get_number, Hn | intros ? _]).
  apply yields_ok. unfold profile_counts. cbn. repeat (apply Forall_cons_2; [assumption|]). apply Forall_nil_2.
Qed.

Lemma map_res_yields {A B} (P : B -> Prop) (f : A -> res B) l :
  Forall (fun a => yields P (f a)) l -> yields (fun bs => Forall P bs /\ length bs = length l) (map_res f l).
Proof.
  induction 1 as [|a l Ha _ IH]; [by apply yields_ok|]. cbn.
  eapply yields_bind; [exact Ha|]. intros b Hb. eapply yields_bind; [exact IH|]. intros bs [Hbs Hl].
  apply yields_ok. split; [by constructor | cbn; lia].
Qed.

Lemma iterate_ok profiles :
  Forall (fun kv => readable_profile (snd kv)) profiles ->
  yields (fun ps => Forall (fun p => Forall small (profile_counts p)) ps /\ length ps = length profiles)
    (normalized_profile_iter (map (fun '(k, v) => (k, inr v)) profiles)).
Proof.
  intros H. unfold normalized_profile_iter.
  rewrite <- (length_map (fun '(k, v) => (k, inr v) : pyval * (EnergyLearningProfile + pyval)) profiles).
  apply map_res_yields, Forall_fmap, Forall_forall. rewrite Forall_forall in H. intros [k v] Hin.
  destruct (H _ Hin) as (d & Hv & Hd). cbn in Hv. subst v. cbn. eapply coerce_ok; [reflexivity|]. by exists d.
Qed.

(** ** The learning summary *)

Lemma sum_counts (field : EnergyLearningProfile -> Z) ps :
  Forall (fun p => small (field p)) ps -> Z.of_nat (length ps) <= 2 ^ 11 ->
  0 <= sum_profile_int ps field <= 2 ^ 51.
Proof.
  intros H Hl. unfold sum_profile_int.
  assert (forall acc, 0 <= acc -> acc <= fold_left Z.add (map field ps) acc <= acc + Z.of_nat (length ps) * 2 ^ 40) as Hs.
  { induction H as [|p ps Hp _ IH]; intros acc Ha; cbn [map fold_left length]; [lia|].
    unfold small in Hp. specialize (IH ltac:(cbn [length] in Hl; lia) (acc + field p) ltac:(lia)). lia. }
  specialize (Hs 0 ltac:(lia)). lia.
Qed.

Lemma bias_ok a b :
  0 <= a -> 0 <= b -> a + b < 2 ^ 53 -> yields (fun _ => True) (bias_from_counts a b).
Proof.
  intros Ha Hb Hab. unfold bias_from_counts. destruct (_ <=? 0); [by apply yields_ok|].
  destruct (float_of_int_small a) as (x & -> & _); [lia|].
  destruct (float_of_int_small b) as (y & -> & _); [lia|].
  destruct (float_of_int_small (a + b)) as (z & -> & _); [lia|]. by apply yields_ok.
Qed.

Lemma weighted_ok ps value weight :
  Forall (fun p => small (weight p)) ps -> yields (fun _ => True) (weighted_profile_average ps value weight).
Proof.
  intros H. unfold weighted_profile_average, weighted_profile_pairs.
  eapply yields_bind; [apply (map_res_yields (fun _ => True)) | intros; by apply yields_ok].
  eapply Forall_impl; [exact H|]. intros p Hp. unfold small in Hp. cbn.
  destruct (float_of_int_small (weight p)) as (x & -> & _); [lia|]. by apply yields_ok.
Qed.

(** Every count of every profile is small. *)
Lemma small_field ps (field : EnergyLearningProfile -> Z) :
  Forall (fun p => Forall small (profile_counts p)) ps -> (forall p, field p ∈ profile_counts p) ->
  Forall (fun p => small (field p)) ps.
Proof.
  intros H Hf. eapply Forall_impl; [exact H|]. intros p Hp. rewrite Forall_forall in Hp. apply Hp, Hf.
Qed.

Ltac count_field := unfold profile_counts; repeat first [by apply list_elem_of_here | apply list_elem_of_further].

(** Bounds on sums of counts, each sum bounded by a hypothesis on all fields. *)
Ltac count_sums :=
  repeat match goal with
  | Hsum : forall field, _ -> 0 <= sum_profile_int ?ps field <= _ |- context [sum_profile_int ?ps ?f] =>
    let Hs := fresh in
    assert (0 <= sum_profile_int ps f <= 2 ^ 51) as Hs by (apply Hsum; intros p; count_field);
    revert Hs; generalize (sum_profile_int ps f)
  end; intros; lia.

Lemma summary_ok ps :
  Forall (fun p => Forall small (profile_counts p)) ps -> Z.of_nat (length ps) <= 2 ^ 11 ->
  yields numbers_ok (summarize_normalized_energy_learning_profiles ps).
Proof.
  intros H Hl.
  assert (forall field, (forall p, field p ∈ profile_counts p) -> Forall (fun p => small (field p)) ps) as Hf
    by (intros field; by apply small_field).
  assert (forall field, (forall p, field p ∈ profile_counts p) -> 0 <= sum_profile_int ps field <= 2 ^ 51) as Hsum
    by (intros field Hin; apply sum_counts; auto).
  unfold summarize_normalized_energy_learning_profiles, profile_average_summaries, profile_bias_summaries,
    profile_count_totals. cbn [ct_sample_count ct_active_sample_count ct_direction_change_count ct_day_active_count
    ct_night_active_count ct_charge_count ct_discharge_count ct_import_support_count ct_import_charge_count
    ct_export_charge_count ct_export_discharge_count ct_export_idle_count ct_day_charge_count ct_night_charge_count
    ct_day_discharge_count ct_night_discharge_count].
  eapply (yields_bind numbers_ok).
  { do 4 (eapply (yields_bind (fun _ => True)); [apply weighted_ok, Hf; intros p; count_field | intros ? _]).
    apply yields_ok. repeat apply Forall_cons_2; try apply number_of_float. apply Forall_nil_2. }
  intros averages Ha. eapply (yields_bind numbers_ok).
  { do 6 (eapply (yields_bind (fun _ => True)); [apply bias_ok; count_sums | intros ? _]).
    apply yields_ok. repeat apply Forall_cons_2; try apply number_of_float. apply Forall_nil_2. }
  intros biases Hb. apply yields_ok. unfold numbers_ok. rewrite !Forall_app. repeat split; try done.
  - repeat first [apply Forall_nil_2 | apply Forall_cons_2]; cbn [snd]; apply number_of_small; [lia|..];
      (assert (forall n, 0 <= n <= 2 ^ 51 -> 0 <= n < 2 ^ 53) as Hw by lia; apply Hw, Hsum; intros p; count_field).
  - apply Forall_fmap, Forall_true. intros [k f]. apply number_of_float.
  - repeat apply Forall_cons_2; try apply number_of_float. apply Forall_nil_2.
Qed.

(** ** The forecast *)

(** Rounding keeps the sign. *)
Lemma binary_round_aux_sign m e l :
  isnan (binary_round_aux fprec femax false m e l) = true \/
  (f0 <=? binary_round_aux fprec femax false m e l)%F = true.
Proof.
  unfold binary_round_aux. destruct (shr_fexp _ _ m e l) as [mrs e1].
  destruct (shr_fexp _ _ _ e1 loc_Exact) as [mrs2 e2]. destruct (shr_m mrs2) as [|k|k]; [by right| |by left].
  destruct (_ <=? _); by right.
Qed.

Lemma response_denominator d : (f0 <=? d)%F = true -> ftruthy (f1 + d / f_of_Z 30)%F = true.
Proof.
  intros H. assert (isnan (d / f_of_Z 30)%F = true \/ (f0 <=? d / f_of_Z 30)%F = true) as [Hn|Hn].
  - unfold fdiv. assert (f_of_Z 30 = S754_finite false 8444249301319680 (-48)) as -> by (vm_compute; reflexivity).
    destruct d as [[]|[]| |[] m e]; try done; try (right; reflexivity). cbn [SFdiv].
    destruct (SFdiv_core_binary _ _ _ _ _ _) as [[q e'] l]. cbn. apply binary_round_aux_sign.
  - destruct (d / f_of_Z 30)%F as [[]|[]| |[] m e]; done.
  - by apply one_plus_truthy.
Qed.

Lemma response_weight_ok v : number_ok v -> yields (fun _ => True) (response_weight v).
Proof.
  intros H. unfold response_weight. eapply yields_bind; [by apply read_forecast|]. intros [d|] Hd.
  - unfold float_div. rewrite response_denominator by auto. by apply yields_ok.
  - by apply yields_ok.
Qed.

Lemma yields_weaken {A} (P : A -> Prop) (r : res A) : yields P r -> yields (fun _ => True) r.
Proof. intros (a & -> & _). by apply yields_ok. Qed.

Lemma read_forecast_any v : number_ok v -> yields (fun _ => True) (forecast_non_negative v).
Proof. intros H. eapply yields_weaken. by apply read_forecast. Qed.

Lemma headroom_limit_ok a b c o :
  number_ok a -> number_ok b -> number_ok c -> yields (fun _ => True) (headroom_limit a b c o).
Proof.
  intros Ha Hb Hc. unfold headroom_limit, average_headroom_limit.
  reads ltac:(apply read_forecast_any; assumption). all: done.
Qed.

Lemma positive_bias_ok a b : number_ok a -> number_ok b -> yields (fun _ => True) (positive_bias a b).
Proof.
  intros Ha Hb. unfold positive_bias, forecast_optional.
  eapply (yields_bind (fun _ => True)); [by apply yields_any, read_optional|]. intros o _.
  eapply (yields_bind (fun _ => True)); [destruct o; [by apply yields_ok | by apply yields_any, read_optional]|].
  intros ? _. by apply yields_ok.
Qed.

Lemma forecast_ok cluster learning :
  numbers_ok cluster -> numbers_ok learning -> yields numbers_ok (derive_energy_forecast cluster learning).
Proof.
  intros Hc Hl. assert (forall k, number_ok (dict_get k cluster)) as Hck by (intros k; by apply dict_get_number).
  assert (forall k, number_ok (summary_get k learning)) as Hlk by (intros k; by apply metric_number).
  unfold derive_energy_forecast, charge_soc_scale, discharge_soc_scale.
  reads ltac:(first [ apply read_forecast_any; auto | apply yields_any, read_optional; auto
    | apply headroom_limit_ok; auto | apply response_weight_ok; auto | apply positive_bias_ok; auto; done ]).
  all: try done. repeat apply Forall_cons_2; try apply number_of_float. apply Forall_nil_2.
Qed.

(** ** The picture *)

(** A mapping whose counts under [keys] convert to integers. *)
Definition counts_ok (keys : list string) (d : list (pyval * pyval)) : Prop :=
  Forall (fun key => is_ok (mapping_count d key)) keys.

Definition CLUSTER_COUNTS : list string :=
  ["battery_discharge_balance_eligible_source_count"; "battery_discharge_balance_active_source_count";
   "battery_discharge_balance_control_candidate_count"; "battery_discharge_balance_control_ready_count";
   "battery_discharge_balance_supported_control_source_count";
   "battery_discharge_balance_experimental_control_source_count"].

(** What the battery picture reads can be read: numbers fit floats, counts are integers, the
    profiles are mappings with small counts, and there are at most 2048 of them. *)
Record readable (b : battery_state) : Prop := {
  rb_cluster : numbers_ok (fst (fst (battery_activity_inputs b)));
  rb_counts : counts_ok CLUSTER_COUNTS (fst (fst (battery_activity_inputs b)));
  rb_sources : Forall numbers_ok (snd (fst (battery_activity_inputs b)));
  rb_profiles : Forall (fun kv => readable_profile (snd kv)) (snd (battery_activity_inputs b));
  rb_few : Z.of_nat (length (snd (battery_activity_inputs b))) <= 2 ^ 11 }.

Lemma learning_summary_ok profiles :
  Forall (fun kv => readable_profile (snd kv)) profiles -> Z.of_nat (length profiles) <= 2 ^ 11 ->
  yields (fun d => numbers_ok d /\ od_get "profile_count" d = Some (VInt (Z.of_nat (length profiles))))
    (battery_learning_summary profiles).
Proof.
  intros H Hl. unfold battery_learning_summary, summarize_energy_learning_profiles.
  eapply yields_bind; [by apply iterate_ok|]. intros ps [Hps Hlen].
  destruct (summary_ok ps Hps) as (d & Hd & Hn); [lia|]. exists d. split; [exact Hd|]. split; [exact Hn|].
  unfold summarize_normalized_energy_learning_profiles in Hd.
  destruct (profile_average_summaries ps); [|discriminate]. cbn [mbind res_bind] in Hd.
  destruct (profile_bias_summaries _); [|discriminate]. injection Hd as <-. cbn. by rewrite Hlen.
Qed.

Lemma source_penalty_ok source profiles :
  numbers_ok source -> Forall (fun kv => readable_profile (snd kv)) profiles ->
  yields (fun _ => True) (source_activity_penalty source profiles).
Proof.
  intros Hs Hp. unfold source_activity_penalty.
  assert (forall k, is_ok (learning_observed_value (default (VDict []) (dict_find (source_id_of source) profiles)) k)) as Hv.
  { intros k. destruct (dict_find _ profiles) as [v|] eqn:E; cbn; [|by eexists].
    unfold dict_find in E. destruct (List.find _ profiles) as [kv|] eqn:Ef; [|done]. injection E as <-.
    apply List.find_some in Ef as [Ef _]. rewrite Forall_forall in Hp.
    destruct (Hp kv) as (d & -> & Hd & _); [by apply list_elem_of_In|].
    apply read_non_negative, dict_get_number, Hd. }
  reads ltac:(first [apply yields_any, Hv | read_number]). all: done.
Qed.

Lemma penalties_ok cluster sources profiles summary :
  numbers_ok cluster -> Forall numbers_ok sources -> Forall (fun kv => readable_profile (snd kv)) profiles ->
  numbers_ok summary -> yields (fun _ => True) (combined_battery_penalties cluster sources profiles summary).
Proof.
  intros Hc Hs Hp Hl. unfold combined_battery_penalties. destruct sources as [|s0 sources].
  - unfold cluster_activity_penalties. reads read_number. all: done.
  - unfold source_activity_penalties. generalize (f0, f0, None : option float, None : option float).
    induction Hs as [|s l Hs' _ IH]; intros acc; cbn [fold_res]; [by apply yields_ok|].
    eapply (yields_bind (fun _ => True)); [|intros; apply IH]. destruct acc as [[[? ?] ?] ?].
    eapply (yields_bind (fun _ => True)); [by apply source_penalty_ok|]. intros [[[? ?] ?] ?] _. by apply yields_ok.
Qed.

Section picture.
Context {AP : AutoPorts}.
Hypothesis reliable_warnings : forall s, is_ok (port_warning_throttled s).

Lemma behavior_ok b s summary :
  numbers_ok summary -> yields (fun _ => True) (battery_learning_behavior b s summary).
Proof. intros H. unfold battery_learning_behavior. reads read_number. all: done. Qed.

Lemma cluster_or_forecast_ok cluster forecast k :
  numbers_ok cluster -> numbers_ok forecast -> yields (fun _ => True) (cluster_or_forecast_metric cluster forecast k).
Proof.
  intros Hc Hf. unfold cluster_or_forecast_metric. destruct (dict_find k cluster) as [v|] eqn:E.
  - apply yields_any, read_non_negative. by eapply dict_find_number.
  - read_number.
Qed.

Lemma balance_context_ok c cluster forecast behavior :
  numbers_ok cluster -> numbers_ok forecast -> counts_ok CLUSTER_COUNTS cluster ->
  yields (fun _ => True) (combined_battery_discharge_balance_context c cluster forecast behavior).
Proof.
  intros Hc Hf Hk. unfold CLUSTER_COUNTS in Hk. repeat (apply Forall_cons in Hk as [? Hk]).
  unfold combined_battery_discharge_balance_context, balance_policy_context, balance_policy_counts,
    balance_policy_thresholds, discharge_balance_bias_gate_active, discharge_balance_reserve_gate_active.
  reads ltac:(first [by apply cluster_or_forecast_ok | by apply yields_any | read_number]). all: done.
Qed.

Lemma advisory_ok cluster w :
  counts_ok CLUSTER_COUNTS cluster -> yields (fun _ => True) (balance_coordination_advisory cluster w).
Proof.
  intros Hk. unfold CLUSTER_COUNTS in Hk. repeat (apply Forall_cons in Hk as [? Hk]).
  unfold balance_coordination_advisory, balance_coordination_counts. reads ltac:(by apply yields_any). all: done.
Qed.

Lemma coordination_ok c cluster f :
  numbers_ok cluster -> counts_ok CLUSTER_COUNTS cluster ->
  yields (fun _ => True) (coordination_policy_context c cluster f).
Proof.
  intros Hc Hk. unfold CLUSTER_COUNTS in Hk. repeat (apply Forall_cons in Hk as [? Hk]).
  unfold coordination_policy_context, coordination_policy_counts, coordination_thresholds.
  reads ltac:(first [by apply yields_any | read_number]). all: done.
Qed.

Lemma warnings_ok s cluster bias a :
  counts_ok CLUSTER_COUNTS cluster -> yields (fun _ => True) (emit_balance_warnings s cluster bias a).
Proof using reliable_warnings.
  intros Hk. unfold CLUSTER_COUNTS in Hk. repeat (apply Forall_cons in Hk as [? Hk]).
  unfold emit_balance_warnings, emit_discharge_warning, emit_coordination_warning.
  reads ltac:(by apply yields_any). all: done.
Qed.

Lemma value_ok_small n : 0 <= n < 2 ^ 53 -> value_ok (VInt n).
Proof.
  intros H. unfold value_ok. cbn. destruct (float_of_int_small n H) as (x & -> & Hx & _). cbn. rewrite Hx. by eexists.
Qed.

Lemma value_ok_flag b : value_ok (val_of_flag b).
Proof. destruct b; by apply value_ok_small. Qed.

Lemma learning_payload_ok summary n :
  numbers_ok summary -> od_get "profile_count" summary = Some (VInt n) -> 0 <= n < 2 ^ 53 ->
  exists a b, learning_payload summary =
    Ok [("learning_profile_count", VInt n); ("observed_max_charge_power_w", val_of_float a);
        ("observed_max_discharge_power_w", val_of_float b)].
Proof.
  intros H Hn Hr. unfold learning_payload.
  assert (metric "profile_count" summary = VInt n) as -> by (unfold metric; by rewrite Hn). cbn zeta.
  destruct (read_non_negative _ (metric_number "observed_max_charge_power_w" _ H)) as [a ->].
  destruct (read_non_negative _ (metric_number "observed_max_discharge_power_w" _ H)) as [b ->].
  cbn. destruct (Z.eqb_spec n 0) as [->|]; by exists a, b.
Qed.

Lemma forecast_payload_ok cluster forecast :
  numbers_ok cluster -> numbers_ok forecast ->
  exists a b c d, forecast_payload cluster forecast =
    Ok [("battery_headroom_charge_w", val_of_float a); ("battery_headroom_discharge_w", val_of_float b);
        ("expected_near_term_export_w", val_of_float c); ("expected_near_term_import_w", val_of_float d)].
Proof.
  intros Hc Hf. unfold forecast_payload. cbn [map_res].
  destruct (cluster_or_forecast_ok cluster forecast "battery_headroom_charge_w" Hc Hf) as (a & -> & _).
  destruct (cluster_or_forecast_ok cluster forecast "battery_headroom_discharge_w" Hc Hf) as (b & -> & _).
  destruct (cluster_or_forecast_ok cluster forecast "expected_near_term_export_w" Hc Hf) as (c & -> & _).
  destruct (cluster_or_forecast_ok cluster forecast "expected_near_term_import_w" Hc Hf) as (d & -> & _).
  by exists a, b, c, d.
Qed.

Lemma payload_ok c cluster summary n behavior forecast cp dp ocp odp mc md ep bias f aa ar policy :
  numbers_ok cluster -> numbers_ok forecast -> numbers_ok summary ->
  od_get "profile_count" summary = Some (VInt n) -> 0 <= n < 2 ^ 53 ->
  yields (fun d => metrics_ok d /\ complete_battery d)
    (combined_battery_activity_payload c cluster summary behavior forecast cp dp ocp odp mc md ep bias f aa ar policy).
Proof.
  intros Hc Hf Hs Hn Hr. unfold combined_battery_activity_payload.
  destruct (learning_payload_ok summary n Hs Hn Hr) as (a & b & ->).
  destruct (forecast_payload_ok cluster forecast Hc Hf) as (x1 & x2 & x3 & x4 & ->).
  cbn [mbind res_bind]. apply yields_ok. unfold power_payload, behavior_payload, bias_payload, coordination_payload.
  cbn [app]. split.
  - unfold metrics_ok. repeat first [apply Forall_nil_2 | apply Forall_cons_2]; cbn [snd];
      first [apply value_ok_float | apply value_ok_of_float | apply value_ok_text | apply value_ok_flag
        | by apply value_ok_small | destruct (_ <? _)%F; [apply value_ok_float | apply value_ok_none]].
  - unfold complete_battery, BATTERY_SNAPSHOT_FIELDS, OWN_BATTERY_METRICS.
    repeat (apply Forall_cons_2; [cbn [snd]; first
      [right; eexists; cbn [od_get]; reflexivity
      | left; repeat first [by apply list_elem_of_here | apply list_elem_of_further]]|]). apply Forall_nil_2.
Qed.

Lemma picture_complete b s :
  readable b ->
  yields (fun d => metrics_ok d /\ complete_battery d)
    (combined_battery_activity_context (BatteryBalance := battery_balance b) s).
Proof using reliable_warnings.
  intros [Hc Hk Hs Hp Hl]. cbn [battery_balance combined_battery_activity_context]. unfold battery_activity_context.
  destruct (battery_activity_inputs b) as [[cluster sources] profiles]. cbn [fst snd] in *.
  eapply yields_bind; [by apply learning_summary_ok|]. intros summary [Hsum Hcount].
  eapply (yields_bind (fun _ => True)); [by apply penalties_ok|]. intros [[[? ?] ?] ?] _.
  eapply (yields_bind (fun _ => True)); [unfold observed_battery_power; reads read_number; done|]. intros ? _.
  eapply (yields_bind (fun _ => True)); [unfold observed_battery_power; reads read_number; done|]. intros ? _.
  eapply (yields_bind (fun _ => True)); [by apply behavior_ok|]. intros behavior _.
  eapply yields_bind; [by apply forecast_ok|]. intros forecast Hf.
  destruct (combined_battery_scaled_penalties _ _ _).
  eapply (yields_bind (fun _ => True)); [by apply balance_context_ok|]. intros bias _.
  eapply (yields_bind (fun _ => True)); [by apply advisory_ok|]. intros [[? ?] ?] _.
  eapply (yields_bind (fun _ => True)); [by apply coordination_ok|]. intros policy _.
  eapply (yields_bind (fun _ => True)); [by apply warnings_ok|]. intros _ _.
  eapply payload_ok; [done.. | exact Hcount | lia].
Qed.

(** C12. The battery balance keeps the promise its interface makes to the Auto metrics:
    whenever the cluster, the sources and the learned profiles can be read, and warnings can be
    given, it yields a picture (it never raises) that has every entry the metrics copy, each
    readable as a published value. *)
Theorem battery_picture_is_complete b s :
  readable b ->
  exists d, combined_battery_activity_context (BatteryBalance := battery_balance b) s = Ok d /\
    metrics_ok d /\ complete_battery d.
Proof using reliable_warnings. apply picture_complete. Qed.

End picture.

(** ** The decision with the real battery *)

(** Collaborators that answer, apart from the battery. *)
Class ReliableService (AP : AutoPorts) : Prop := {
  service_save s : is_ok (port_auto_save s);
  service_audit s reason cached : is_ok (port_auto_audit s reason cached);
  service_warning s : is_ok (port_warning_throttled s);
  service_power s : value_ok (port_last_accepted_ac_power s);
  service_calendar now : calendar_time (port_local_datetime now) }.

Lemma reliable_with_battery {AP : AutoPorts} {RS : ReliableService AP} b :
  readable b -> ReliablePorts AP (battery_balance b).
Proof.
  intros Hb. split; [apply service_save | apply service_audit | apply service_warning | apply service_power
    | apply service_calendar |].
  intros s. apply picture_complete; [apply service_warning | exact Hb].
Qed.

(** C11. A decision never raises: whatever the relay state and the readings are, from a
    state whose settings can be read and whose metrics are readable, with a night delay of at
    most 300000 days and a local date between 2 January of year 1 and the end of year 9000, with a
    battery picture drawn from readable data, and with collaborators that answer (saving,
    auditing, warning, the last power reading and the conversion to local time),
    [auto_decide_relay] returns a relay state and leaves such a state behind, unless the square
    of a surplus deviation overflows. *)
Theorem auto_decision_always_returns {AP : AutoPorts} {RS : ReliableService AP} b on pv soc grid s :
  readable b -> good s ->
  (forall p w, pv = Some p -> grid = Some w -> is_ok (volatility_with (now_of s) p w s)) ->
  wp (auto_decide_relay (BB := battery_balance b) on pv soc grid) (fun r s' => is_ok r /\ good s') s.
Proof.
  intros Hb Hs Hv. apply (auto_decision_returns (RP := reliable_with_battery b Hb)); assumption.
Qed.

(** ** Witnesses *)

#[local] Existing Instance noon_ports.

#[local] Instance noon_service : ReliableService noon_ports.
Proof.
  split; intros; by eexists.
Qed.

(** A battery that charges with 800 W, with no settings and nothing learned yet. *)
Definition charging_state : battery_state :=
  mkBatteryState (mkBalanceConfig None None None None None None None None None None)
    (VDict [(VStr "battery_combined_charge_power_w", VFloat (f_of_Z 800));
            (VStr "battery_combined_soc", VInt 60)]) (VDict []) true.

Lemma charging_readable : readable charging_state.
Proof.
  split; try apply Forall_nil_2.
  - cbn. repeat apply Forall_cons_2; [done | cbn; by eexists | apply Forall_nil_2].
  - unfold counts_ok, CLUSTER_COUNTS. repeat (apply Forall_cons_2; [by eexists|]). apply Forall_nil_2.
  - done.
Qed.

Lemma battery_picture_is_complete_witness :
  exists d, battery_activity_context charging_state (at_time 1000 idle_auto) = Ok d /\
    od_get "charge_power_w" d = Some (VFloat (f_of_Z 800)).
Proof.
  destruct (battery_picture_is_complete service_warning charging_state (at_time 1000 idle_auto) charging_readable)
    as (d & Hd & _). exists d. split; [exact Hd|]. revert Hd. vm_compute. intros [= <-]. reflexivity.
Defined.

Lemma auto_decision_always_returns_witness :
  good (at_time 1000 idle_auto) /\
  is_ok (fst (auto_decide_relay (BB := battery_balance charging_state) false (watts 4000) (watts 80)
    (watts (-4000)) (at_time 1000 idle_auto))).
Proof.
  assert (good (at_time 1000 idle_auto)) as Hg.
  { split; [|apply Forall_nil_2].
    split; try (by eexists). apply Forall_nil_2. }
  split; [exact Hg|].
  assert (forall p w, watts 4000 = Some p -> watts (-4000) = Some w ->
    is_ok (volatility_with (now_of (at_time 1000 idle_auto)) p w (at_time 1000 idle_auto))) as Hv.
  { intros p w [= <-] [= <-]. eexists. vm_compute. reflexivity. }
  exact (proj1 (auto_decision_always_returns charging_state false (watts 4000) (watts 80) (watts (-4000))
    (at_time 1000 idle_auto) charging_readable Hg Hv)).
Defined.
