(* ===== verification/Struct.v ===== *)
(** * Binary records

    [struct.Struct] of the standard library for the big-endian formats the frames use, and
    the binary64 encoding of a float.  A byte is an integer of 0..255.  [runs] describes a
    reader that consumes exactly one chunk of its input; it composes along the chunks. *)

From S2P Require Import Prelude PyFloat PyValue Rounding.

(** ** Bytes *)

Definition is_byte (b : Z) : Prop := 0 <= b < 256.

(** [z.to_bytes(n, 'big')] of an unsigned integer in range. *)
Fixpoint be_encode (n : nat) (z : Z) : list Z :=
  match n with
  | O => []
  | S n' => be_encode n' (z / 256) ++ [z mod 256]
  end.

(** [int.from_bytes(l, 'big')] *)
Definition be_decode (l : list Z) : Z := fold_left (fun acc b => acc * 256 + b) l 0.

Lemma be_encode_length n z : length (be_encode n z) = n.
Proof. revert z. induction n as [|n IH]; intros z; cbn; [done|]. rewrite length_app, IH. cbn. lia. Qed.

Lemma be_decode_snoc l b : be_decode (l ++ [b]) = be_decode l * 256 + b.
Proof. unfold be_decode. by rewrite fold_left_app. Qed.

Lemma be_decode_encode n z : 0 <= z < 256 ^ Z.of_nat n -> be_decode (be_encode n z) = z.
Proof.
  revert z. induction n as [|n IH]; intros z Hz; cbn [be_encode]; [cbn in *; lia|].
  rewrite Nat2Z.inj_succ, Z.pow_succ_r in Hz by lia.
  rewrite be_decode_snoc, IH; [pose proof (Z.div_mod z 256); lia|].
  split; [apply Z.div_pos; lia | apply Z.div_lt_upper_bound; lia].
Qed.

Lemma be_encode_bytes n z : Forall is_byte (be_encode n z).
Proof.
  revert z. induction n as [|n IH]; intros z; cbn; [constructor|].
  apply Forall_app. split; [done|]. constructor; [apply Z.mod_pos_bound; lia | constructor].
Qed.

(** ** Doubles *)

(** The 64 bits of a double: sign, biased exponent, fraction.  A NaN is packed as the
    quiet NaN. *)
Definition f64_bits (x : float) : Z :=
  let sign (s : bool) := if s then 2 ^ 63 else 0 in
  match x with
  | S754_zero s => sign s
  | S754_infinity s => sign s + 2047 * 2 ^ 52
  | S754_nan => 2047 * 2 ^ 52 + 2 ^ 51
  | S754_finite s m e =>
    if Z.pos m <? 2 ^ 52 then sign s + Z.pos m
    else sign s + (e + 1075) * 2 ^ 52 + (Z.pos m - 2 ^ 52)
  end.

Definition f64_of_bits (bits : Z) : float :=
  let s := 2 ^ 63 <=? bits in
  let biased := (bits / 2 ^ 52) mod 2048 in
  let fraction := bits mod 2 ^ 52 in
  if biased =? 2047 then (if fraction =? 0 then S754_infinity s else S754_nan)
  else if biased =? 0 then
    match fraction with Z.pos m => S754_finite s m (-1074) | _ => S754_zero s end
  else
    match fraction + 2 ^ 52 with Z.pos m => S754_finite s m (biased - 1075) | _ => S754_zero s end.

(** The representation of every float of the machine. *)
Definition canonical (x : float) : Prop := SpecFloat.valid_binary fprec femax x = true.

(** A canonical mantissa is full, unless the exponent is the least one. *)
Lemma canonical_finite s m e :
  canonical (S754_finite s m e) ->
  e <= 971 /\ Z.pos m < 2 ^ 53 /\ (2 ^ 52 <= Z.pos m /\ -1074 <= e \/ Z.pos m < 2 ^ 52 /\ e = -1074).
Proof.
  unfold canonical, SpecFloat.valid_binary, SpecFloat.bounded, SpecFloat.canonical_mantissa.
  rewrite andb_true_iff, Z.eqb_eq, Z.leb_le. unfold SpecFloat.fexp, SpecFloat.emin, fprec, femax.
  intros [H1 H2]. pose proof (digits2_lower m) as Hl. pose proof (digits2_upper m) as Hu.
  set (d := Z.pos (digits2_pos m)) in *. assert (d <= 53) as Hd by lia.
  pose proof (Z.pow_le_mono_r 2 d 53 ltac:(lia) Hd). split; [lia|]. split; [lia|].
  destruct (decide (d = 53)) as [E|E].
  - left. rewrite E in *. split; [exact Hl | lia].
  - right. pose proof (Z.pow_le_mono_r 2 d 52 ltac:(lia) ltac:(lia)). split; lia.
Qed.

Lemma f64_bits_range x : canonical x -> 0 <= f64_bits x < 2 ^ 64.
Proof.
  destruct x as [s|s| |s m e]; intros H; unfold f64_bits; try (destruct s; lia); [lia|].
  apply canonical_finite in H as (H1 & H2 & H3).
  destruct (Z.ltb_spec (Z.pos m) (2 ^ 52)); destruct s; lia.
Qed.

(** The fields of a number put together from a sign, an exponent and a fraction. *)
Lemma f64_fields (s : bool) b f :
  0 <= b < 2048 -> 0 <= f < 2 ^ 52 ->
  let n := (if s then 2 ^ 63 else 0) + b * 2 ^ 52 + f in
  (2 ^ 63 <=? n) = s /\ (n / 2 ^ 52) mod 2048 = b /\ n mod 2 ^ 52 = f.
Proof.
  intros Hb Hf. cbv zeta.
  assert (((if s then 2 ^ 63 else 0) + b * 2 ^ 52 + f) = ((if s then 2048 else 0) + b) * 2 ^ 52 + f) as ->
    by (destruct s; lia).
  split; [destruct s; [apply Z.leb_le; lia | apply Z.leb_gt; lia]|]. split.
  - rewrite Z.div_add_l, (Z.div_small f) by lia. rewrite Z.add_0_r.
    destruct s; [|by apply Z.mod_small]. replace (2048 + b) with (b + 1 * 2048) by lia.
    rewrite Z.mod_add by lia. by apply Z.mod_small.
  - rewrite Z.add_comm, Z.mod_add by lia. by apply Z.mod_small.
Qed.

Lemma f64_of_fields (s : bool) b f n :
  0 <= b < 2048 -> 0 <= f < 2 ^ 52 -> n = (if s then 2 ^ 63 else 0) + b * 2 ^ 52 + f ->
  f64_of_bits n =
    if b =? 2047 then (if f =? 0 then S754_infinity s else S754_nan)
    else if b =? 0 then
      match f with Z.pos m => S754_finite s m (-1074) | _ => S754_zero s end
    else
      match f + 2 ^ 52 with Z.pos m => S754_finite s m (b - 1075) | _ => S754_zero s end.
Proof. intros Hb Hf ->. unfold f64_of_bits. by destruct (f64_fields s b f Hb Hf) as (-> & -> & ->). Qed.

(** A double that is packed and unpacked is the same, the sign of a zero included. *)
Lemma f64_roundtrip x : canonical x -> f64_of_bits (f64_bits x) = x.
Proof.
  destruct x as [s|s| |s m e]; intros H; [by destruct s | by destruct s | done |].
  apply canonical_finite in H as (H1 & H2 & H3). unfold f64_bits.
  destruct (Z.ltb_spec (Z.pos m) (2 ^ 52)).
  - rewrite (f64_of_fields s 0 (Z.pos m)); [|lia|lia|lia]. cbn. f_equal. lia.
  - rewrite (f64_of_fields s (e + 1075) (Z.pos m - 2 ^ 52)); [|lia|lia|lia].
    destruct (Z.eqb_spec (e + 1075) 2047); [lia|]. destruct (Z.eqb_spec (e + 1075) 0); [lia|].
    replace (Z.pos m - 2 ^ 52 + 2 ^ 52) with (Z.pos m) by lia. f_equal. lia.
Qed.

(** Any 64 bits unpack to a float of the machine. *)
Lemma f64_of_bits_canonical n : canonical (f64_of_bits n).
Proof.
  unfold f64_of_bits. pose proof (Z.mod_pos_bound n (2 ^ 52) ltac:(lia)) as Hf.
  pose proof (Z.mod_pos_bound (n / 2 ^ 52) 2048 ltac:(lia)) as Hb.
  set (f := n mod 2 ^ 52) in *. set (b := (n / 2 ^ 52) mod 2048) in *. clearbody f b.
  assert (forall s m e, Z.pos m < 2 ^ 53 -> e <= 971 -> 2 ^ 52 <= Z.pos m /\ -1074 <= e \/ Z.pos m < 2 ^ 52 /\ e = -1074 ->
    canonical (S754_finite s m e)) as Hc.
  { intros s m e H1 H2 H3. unfold canonical, SpecFloat.valid_binary, SpecFloat.bounded, SpecFloat.canonical_mantissa.
    rewrite andb_true_iff, Z.eqb_eq, Z.leb_le. unfold SpecFloat.fexp, SpecFloat.emin, fprec, femax. split; [|lia].
    pose proof (digits2_lower m) as Hl. pose proof (digits2_bound m 53 ltac:(lia) H1) as Hu.
    destruct H3 as [[H3 H4]|[H3 H4]].
    - assert (52 < Z.pos (digits2_pos m)); [|lia]. apply Z.lt_nge. intros Hd. pose proof (digits2_upper m) as Hu'.
      pose proof (Z.pow_le_mono_r 2 _ 52 ltac:(lia) Hd). lia.
    - pose proof (digits2_bound m 52 ltac:(lia) H3). lia. }
  destruct (Z.eqb_spec b 2047); [by destruct (f =? 0)|]. destruct (Z.eqb_spec b 0).
  - destruct f as [|m|m] eqn:E; [done | | lia]. apply Hc; lia.
  - destruct (f + 2 ^ 52) as [|m|m] eqn:E; [done | | lia]. apply Hc; lia.
Qed.

(** ** Formats *)

(** The format characters [B], [H], [Q], [d] and [ns]. *)
Inductive field := FB | FH | FQ | Fd | Fs (n : nat).

Inductive wire_value := WInt (n : Z) | WFloat (x : float) | WBytes (b : list Z).

Definition field_size (f : field) : nat :=
  match f with FB => 1 | FH => 2 | FQ => 8 | Fd => 8 | Fs n => n end.

(** [Struct.size] of a big-endian format: there is no padding. *)
Definition struct_size (fmt : list field) : nat := list_sum (map field_size fmt).

Definition pack_unsigned (width : nat) (n : Z) : res (list Z) :=
  if (0 <=? n) && (n <? 256 ^ Z.of_nat width) then Ok (be_encode width n) else Err StructError.

Definition pack_field (f : field) (v : wire_value) : res (list Z) :=
  match f, v with
  | (FB | FH | FQ), WInt n => pack_unsigned (field_size f) n
  | Fd, WFloat x => Ok (be_encode 8 (f64_bits x))
  | Fd, WInt n => match float_of_int n with Ok x => Ok (be_encode 8 (f64_bits x)) | Err _ => Err StructError end
  | Fs n, WBytes b => Ok (take n (b ++ replicate n 0))
  | _, _ => Err StructError
  end.

(** [Struct.pack]; a wrong number of values is an error too. *)
Fixpoint struct_pack (fmt : list field) (vs : list wire_value) : res (list Z) :=
  match fmt, vs with
  | [], [] => Ok []
  | f :: fmt', v :: vs' => b ← pack_field f v; rest ← struct_pack fmt' vs'; mret (b ++ rest)
  | _, _ => Err StructError
  end.

Definition unpack_field (f : field) (b : list Z) : wire_value :=
  match f with
  | FB | FH | FQ => WInt (be_decode b)
  | Fd => WFloat (f64_of_bits (be_decode b))
  | Fs _ => WBytes b
  end.

(** [Struct.unpack_from] on a chunk of [Struct.size] bytes. *)
Fixpoint struct_unpack (fmt : list field) (b : list Z) : list wire_value :=
  match fmt with
  | [] => []
  | f :: fmt' => unpack_field f (take (field_size f) b) :: struct_unpack fmt' (drop (field_size f) b)
  end.

(** The values that a format holds without loss. *)
Definition fits (f : field) (v : wire_value) : Prop :=
  match f, v with
  | (FB | FH | FQ), WInt n => 0 <= n < 256 ^ Z.of_nat (field_size f)
  | Fd, WFloat x => canonical x
  | Fs n, WBytes b => length b = n
  | _, _ => False
  end.

Lemma pack_field_fits f v :
  fits f v -> exists b, pack_field f v = Ok b /\ length b = field_size f /\ unpack_field f b = v.
Proof.
  assert (forall w n, 0 <= n < 256 ^ Z.of_nat w -> pack_unsigned w n = Ok (be_encode w n)) as Hp.
  { intros w n H. unfold pack_unsigned. destruct (Z.leb_spec 0 n), (Z.ltb_spec n (256 ^ Z.of_nat w)); (done || lia). }
  destruct f, v; cbn [fits pack_field]; intros H; try done.
  1-3: rewrite Hp by done; eexists; split; [done|]; split; [apply be_encode_length|];
       unfold unpack_field; by rewrite be_decode_encode.
  - eexists. split; [done|]. split; [apply be_encode_length|]. unfold unpack_field.
    rewrite be_decode_encode by (by apply f64_bits_range). by rewrite f64_roundtrip.
  - eexists. split; [done|]. rewrite <- H, take_app_length. done.
Qed.

Lemma struct_pack_fits fmt vs :
  Forall2 fits fmt vs ->
  exists b, struct_pack fmt vs = Ok b /\ length b = struct_size fmt /\
    forall post, struct_unpack fmt (b ++ post) = vs.
Proof.
  induction 1 as [|f v fmt vs Hf _ (b & Hp & Hl & Hu)]; [by exists []|].
  destruct (pack_field_fits f v Hf) as (c & Hc & Hcl & Hcu). exists (c ++ b). cbn [struct_pack].
  rewrite Hc, Hp. split; [done|]. split; [rewrite length_app, Hcl, Hl; done|].
  intros post. cbn [struct_unpack]. rewrite <- app_assoc, take_app_length', drop_app_length' by done.
  by rewrite Hcu, Hu.
Qed.

(** Values of the types a format asks for; whether integers are in range is left to packing. *)
Definition wire_typed (f : field) (v : wire_value) : Prop :=
  match f, v with (FB | FH | FQ), WInt _ => True | _, _ => fits f v end.

Lemma struct_pack_typed fmt vs c : Forall2 wire_typed fmt vs -> struct_pack fmt vs = Ok c -> Forall2 fits fmt vs.
Proof.
  intros H. revert c. induction H as [|f v fmt vs Hf _ IH]; intros c Hc; [constructor|].
  cbn [struct_pack] in Hc. res_steps Hc. constructor; [|by eapply IH]. clear IH E0.
  destruct f, v; try done; cbn [pack_field] in E; unfold pack_unsigned in E;
    destruct (_ && _) eqn:Eb; try done; apply andb_true_iff in Eb as [?%Z.leb_le ?%Z.ltb_lt]; done.
Qed.

(** ** Reading *)

(** A reader: its payload and its offset into it. *)
Record reader := mkReader { rd_payload : list Z; rd_offset : nat }.
#[export] Instance eta_reader : Eta reader := fun r => mkReader r.(rd_payload) r.(rd_offset).

(** [m] reads [chunk], whatever comes before and after it, and returns [v]. *)
Definition runs {A} (m : M reader A) (v : A) (chunk : list Z) : Prop :=
  forall pre post, m (mkReader (pre ++ chunk ++ post) (length pre)) =
    (Ok v, mkReader (pre ++ chunk ++ post) (length pre + length chunk)).

Lemma runs_ret {A} (v : A) : runs (mret v) v [].
Proof. intros pre post. cbn. by rewrite Nat.add_0_r. Qed.

Lemma runs_bind {A B} (m : M reader A) (f : A -> M reader B) v w c1 c2 :
  runs m v c1 -> runs (f v) w c2 -> runs (m ≫= f) w (c1 ++ c2).
Proof.
  intros Hm Hf pre post. unfold mbind, M_bind. rewrite <- app_assoc, Hm.
  specialize (Hf (pre ++ c1) post). rewrite <- app_assoc, length_app in Hf. rewrite Hf.
  by rewrite length_app, Nat.add_assoc.
Qed.

Lemma runs_lift {A B} (r : res A) (f : A -> M reader B) v w c :
  r = Ok v -> runs (f v) w c -> runs (lift r ≫= f) w c.
Proof. intros -> Hf. exact Hf. Qed.

(** [tuple(m for _ in range(n))] *)
Fixpoint repeat_m {S A} (n : nat) (m : M S A) : M S (list A) :=
  match n with
  | O => mret []
  | Datatypes.S n' => x ← m; xs ← repeat_m n' m; mret (x :: xs)
  end.

Lemma runs_repeat {A} (m : M reader A) vs chunks :
  Forall2 (runs m) vs chunks -> runs (repeat_m (length vs) m) vs (concat chunks).
Proof.
  induction 1 as [|v c vs cs Hm _ IH]; [apply runs_ret|]. cbn [repeat_m length concat].
  eapply runs_bind; [exact Hm|]. rewrite <- (app_nil_r (concat cs)). eapply runs_bind; [exact IH | apply runs_ret].
Qed.

(** A reader that succeeds depends on the bytes it consumed, and on nothing else. *)
Definition consumes {A} (m : M reader A) : Prop :=
  forall pre rest v r, m (mkReader (pre ++ rest) (length pre)) = (Ok v, r) ->
    exists chunk post, rest = chunk ++ post /\ r = mkReader (pre ++ rest) (length pre + length chunk) /\ runs m v chunk.

Lemma consumes_ret {A} (v : A) : consumes (mret v).
Proof.
  intros pre rest w r [= <- <-]. exists [], rest. split; [done|]. split; [|apply runs_ret].
  by rewrite Nat.add_0_r.
Qed.

Lemma consumes_raise {A} e : consumes (raise e : M reader A).
Proof. by intros pre rest v r [=]. Qed.

Lemma consumes_bind {A B} (m : M reader A) (f : A -> M reader B) :
  consumes m -> (forall v, consumes (f v)) -> consumes (m ≫= f).
Proof.
  intros Hm Hf pre rest w r H. unfold mbind, M_bind in H.
  destruct (m _) as [[v|e] r1] eqn:E; [|done].
  destruct (Hm _ _ _ _ E) as (c1 & p1 & -> & -> & R1).
  specialize (Hf v (pre ++ c1) p1 w r). rewrite <- app_assoc, length_app in Hf.
  destruct (Hf H) as (c2 & p2 & -> & -> & R2). exists (c1 ++ c2), p2.
  split; [by rewrite app_assoc|]. split; [by rewrite length_app, Nat.add_assoc|]. by eapply runs_bind.
Qed.

Lemma consumes_lift {A} (r : res A) : consumes (lift r).
Proof. destruct r; [apply consumes_ret | apply consumes_raise]. Qed.

Lemma consumes_repeat {A} n (m : M reader A) : consumes m -> consumes (repeat_m n m).
Proof.
  intros Hm. induction n as [|n IH]; [apply consumes_ret|]. cbn [repeat_m].
  apply consumes_bind; [done|]. intros v. apply consumes_bind; [done|]. intros vs. apply consumes_ret.
Qed.

Create HintDb readers.
#[export] Hint Resolve consumes_ret consumes_raise consumes_lift consumes_repeat : readers.

Ltac consumes_tac :=
  repeat lazymatch goal with
  | |- consumes (mbind _ _) => apply consumes_bind; [|intros ?]
  | |- consumes (match ?x with _ => _ end) => destruct x
  | |- consumes _ => solve [auto with readers]
  end.

(** Unpacking depends on the bytes of the format only. *)
Lemma struct_unpack_app fmt b post :
  length b = struct_size fmt -> struct_unpack fmt (b ++ post) = struct_unpack fmt b.
Proof.
  revert b. induction fmt as [|f fmt IH]; intros b Hb; [done|]. cbn [struct_unpack].
  change (struct_size (f :: fmt)) with (field_size f + struct_size fmt)%nat in Hb.
  rewrite take_app_le, drop_app_le by lia. f_equal. apply IH. rewrite length_drop. lia.
Qed.
