(* ===== verification/EnergyValues.v ===== *)
(** * Semantic energy values

    [ipc/energy_validation.py], [ipc/energy_values.py], [ipc/energy_snapshots.py] and
    [ipc/energy_refresh.py]: measured values, source descriptors, snapshots and refresh
    requests, with the checks of their constructors and their JSON payloads.

    A constructor [cls(...)] is a function that returns the record or the exception of
    [__post_init__].  Fields annotated [float] hold floats; statuses and kinds are texts,
    since the constructor checks them without normalizing the field. *)

From S2P Require Import Prelude PyFloat PyValue OrderedMap PublicationOrder.

Definition ENERGY_IPC_SCHEMA_VERSION : Z := 1.
Definition ENERGY_INPUTS_SCHEMA_VERSION : Z := 4.
Definition ENERGY_REFRESH_COMMAND_KIND : string := "refresh_energy_inputs".

(** ** Validation *)

(** ipc/energy_validation.py: mapping *)
Definition mapping (value : pyval) : res (odict string pyval) :=
  match string_mapping value with Some item => Ok item | None => Err TypeError end.

(** ipc/energy_validation.py: exact_fields *)
Definition exact_fields (value : odict string pyval) (required : list string) : res unit :=
  let missing := filter (fun k => od_mem k value = false) required in
  let extra := filter (fun k => str_in k required = false) (od_keys value) in
  match missing, extra with [], [] => Ok tt | _, _ => Err ValueError end.

(** ipc/energy_validation.py: text *)
Definition text (value : pyval) (allow_empty : bool) : res string :=
  match value with
  | VStr s =>
    let normalized := py_strip s in
    if (normalized =? "")%string && negb allow_empty then Err ValueError else Ok normalized
  | _ => Err TypeError
  end.

(** ipc/energy_validation.py: optional_text *)
Definition optional_text (value : pyval) : res (option string) :=
  match value with VNone => Ok None | _ => t ← text value false; mret (Some t) end.

(** ipc/energy_validation.py: text_tuple *)
Definition text_tuple (value : pyval) : res (list string) :=
  match value with
  | VList l | VTuple l =>
    normalized ← map_res (fun item => text item false) l;
    if bool_decide (NoDup normalized) then Ok normalized else Err ValueError
  | _ => Err TypeError
  end.

(** ipc/energy_validation.py: unique_text_tuple *)
Definition unique_text_tuple (value : pyval) : res (list string) :=
  match value with VTuple _ => text_tuple value | _ => Err TypeError end.

(** ipc/energy_validation.py: _literal *)
Definition literal (value : pyval) (allowed : list string) : res string :=
  normalized ← text value false;
  if str_in normalized allowed then Ok normalized else Err ValueError.

(** ipc/energy_validation.py: _VALUE_STATUSES *)
Definition VALUE_STATUSES : list string := ["fresh"; "stale"; "unavailable"; "error"; "unknown"].
(** ipc/energy_validation.py: _SOURCE_KINDS *)
Definition SOURCE_KINDS : list string := ["grid"; "pv_ac"; "pv_dc"; "battery"].
(** ipc/energy_validation.py: _SOURCE_STATES *)
Definition SOURCE_STATES : list string := ["online"; "offline"; "unknown"].
(** ipc/energy_validation.py: _REFRESH_SCOPES *)
Definition REFRESH_SCOPES : list string := ["all"; "grid"; "pv"; "battery"; "topology"; "energy_source"].
(** ipc/energy_validation.py: _REFRESH_URGENCIES *)
Definition REFRESH_URGENCIES : list string := ["normal"; "priority"].

(** ipc/energy_validation.py: value_status *)
Definition value_status (value : pyval) : res string :=
  normalized ← literal value VALUE_STATUSES;
  mret (if (normalized =? "fresh")%string then "fresh"
        else if (normalized =? "stale")%string then "stale"
        else if (normalized =? "unavailable")%string then "unavailable"
        else if (normalized =? "error")%string then "error" else "unknown").

(** ipc/energy_validation.py: source_kind *)
Definition source_kind (value : pyval) : res string :=
  normalized ← literal value SOURCE_KINDS;
  mret (if (normalized =? "grid")%string then "grid"
        else if (normalized =? "pv_ac")%string then "pv_ac"
        else if (normalized =? "pv_dc")%string then "pv_dc" else "battery").

(** ipc/energy_validation.py: source_state *)
Definition source_state (value : pyval) : res string :=
  normalized ← literal value SOURCE_STATES;
  mret (if (normalized =? "online")%string then "online"
        else if (normalized =? "offline")%string then "offline" else "unknown").

(** ipc/energy_validation.py: refresh_scope *)
Definition refresh_scope (value : pyval) : res string := literal value REFRESH_SCOPES.

(** ipc/energy_validation.py: refresh_urgency *)
Definition refresh_urgency (value : pyval) : res string :=
  normalized ← literal value REFRESH_URGENCIES;
  mret (if (normalized =? "priority")%string then "priority" else "normal").

(** ipc/energy_validation.py: _finite_float *)
Definition finite_float (value : pyval) : res float :=
  match value with
  | VInt _ | VFloat _ =>
    normalized ← py_float value;
    if isfinite normalized then Ok normalized else Err ValueError
  | _ => Err TypeError
  end.

(** ipc/energy_validation.py: optional_finite_float *)
Definition optional_finite_float (value : pyval) : res (option float) :=
  match value with VNone => Ok None | _ => x ← finite_float value; mret (Some x) end.

(** ipc/energy_validation.py: positive_float *)
Definition positive_float (value : pyval) : res float :=
  normalized ← finite_float value;
  if (normalized <=? f0)%F then Err ValueError else Ok normalized.

(** ipc/energy_validation.py: non_negative_float *)
Definition non_negative_float (value : pyval) : res float :=
  normalized ← finite_float value;
  if (normalized <? f0)%F then Err ValueError else Ok normalized.

(** ipc/energy_validation.py: bounded_float *)
Definition bounded_float (value : pyval) (minimum maximum : float) : res float :=
  normalized ← finite_float value;
  if (minimum <=? normalized)%F && (normalized <=? maximum)%F then Ok normalized else Err ValueError.

(** ipc/energy_validation.py: non_negative_int *)
Definition non_negative_int (value : pyval) : res Z :=
  match value with
  | VInt n => if n <? 0 then Err ValueError else Ok n
  | _ => Err TypeError
  end.

(** ipc/energy_validation.py: schema_version *)
Definition schema_version (value : pyval) (expected : Z) : res Z :=
  version ← non_negative_int value;
  if version =? expected then Ok version else Err ValueError.

(** [value == n] for an integer [n]; a bool or a float may equal it. *)
Definition py_eq_int (value : pyval) (n : Z) : bool :=
  match value with
  | VInt m => m =? n
  | VBool b => (if b then 1 else 0) =? n
  | VFloat x => (x =? f_of_Z n)%F
  | _ => false
  end.

Definition texts_value (l : list string) : list pyval := map VStr l.

(** ** Measured values *)

(** ipc/energy_values.py: MeasuredValue *)
Record MeasuredValue := mkMeasuredValue {
  mv_value : option float; mv_observed_at : float; mv_status : string; mv_confidence : float;
  mv_source_ids : list string; mv_reason_code : string; mv_observed_monotonic : float }.

(** ipc/energy_values.py: _require_positive_timestamp *)
Definition require_positive_timestamp (timestamp : float) : res unit :=
  if (timestamp <=? f0)%F then Err ValueError else Ok tt.

(** ipc/energy_values.py: _validate_observed_value *)
Definition validate_observed_value (status : string) (value : option float)
    (observed_at observed_monotonic : float) : res unit :=
  if negb (str_in status ["fresh"; "stale"]) then Ok tt
  else
    match value with
    | None => Err ValueError
    | Some _ =>
      _ ← require_positive_timestamp observed_at;
      require_positive_timestamp observed_monotonic
    end.

(** ipc/energy_values.py: MeasuredValue.__post_init__ *)
Definition measured_value_post_init (m : MeasuredValue) : res unit :=
  _ ← optional_finite_float (val_of_float m.(mv_value));
  observed_at ← non_negative_float (VFloat m.(mv_observed_at));
  observed_monotonic ← non_negative_float (VFloat m.(mv_observed_monotonic));
  status ← value_status (VStr m.(mv_status));
  _ ← bounded_float (VFloat m.(mv_confidence)) f0 f1;
  _ ← unique_text_tuple (VTuple (texts_value m.(mv_source_ids)));
  _ ← text (VStr m.(mv_reason_code)) true;
  validate_observed_value status m.(mv_value) observed_at observed_monotonic.

(** [MeasuredValue(...)] *)
Definition new_measured_value (m : MeasuredValue) : res MeasuredValue :=
  _ ← measured_value_post_init m; mret m.

(** ipc/energy_values.py: MeasuredValue.to_payload *)
Definition measured_value_to_payload (m : MeasuredValue) : pyval :=
  VDict [(VStr "value", val_of_float m.(mv_value));
         (VStr "observed_at", VFloat m.(mv_observed_at));
         (VStr "observed_monotonic", VFloat m.(mv_observed_monotonic));
         (VStr "status", VStr m.(mv_status));
         (VStr "confidence", VFloat m.(mv_confidence));
         (VStr "source_ids", VList (texts_value m.(mv_source_ids)));
         (VStr "reason_code", VStr m.(mv_reason_code))].

(** ipc/energy_values.py: MeasuredValue.from_payload *)
Definition measured_value_from_payload (payload : pyval) : res MeasuredValue :=
  item ← mapping payload;
  _ ← exact_fields item ["value"; "observed_at"; "observed_monotonic"; "status"; "confidence";
                         "source_ids"; "reason_code"];
  value ← optional_finite_float (cmd_get "value" item);
  observed_at ← non_negative_float (cmd_get "observed_at" item);
  observed_monotonic ← non_negative_float (cmd_get "observed_monotonic" item);
  status ← value_status (cmd_get "status" item);
  confidence ← bounded_float (cmd_get "confidence" item) f0 f1;
  source_ids ← text_tuple (cmd_get "source_ids" item);
  reason_code ← text (cmd_get "reason_code" item) true;
  new_measured_value
    (mkMeasuredValue value observed_at status confidence source_ids reason_code observed_monotonic).

(** ** Source descriptors *)

(** ipc/energy_snapshots.py: EnergySourceDescriptor *)
Record EnergySourceDescriptor := mkDescriptor {
  sd_source_id : string; sd_kind : string; sd_state : string; sd_capabilities : list string }.

(** ipc/energy_snapshots.py: EnergySourceDescriptor.__post_init__ *)
Definition descriptor_post_init (d : EnergySourceDescriptor) : res unit :=
  _ ← text (VStr d.(sd_source_id)) false;
  _ ← source_kind (VStr d.(sd_kind));
  _ ← source_state (VStr d.(sd_state));
  _ ← unique_text_tuple (VTuple (texts_value d.(sd_capabilities)));
  mret tt.

(** [EnergySourceDescriptor(...)] *)
Definition new_descriptor (d : EnergySourceDescriptor) : res EnergySourceDescriptor :=
  _ ← descriptor_post_init d; mret d.

(** ipc/energy_snapshots.py: EnergySourceDescriptor.to_payload *)
Definition descriptor_to_payload (d : EnergySourceDescriptor) : pyval :=
  VDict [(VStr "source_id", VStr d.(sd_source_id)); (VStr "kind", VStr d.(sd_kind));
         (VStr "state", VStr d.(sd_state)); (VStr "capabilities", VList (texts_value d.(sd_capabilities)))].

(** ipc/energy_snapshots.py: EnergySourceDescriptor.from_payload *)
Definition descriptor_from_payload (payload : pyval) : res EnergySourceDescriptor :=
  item ← mapping payload;
  _ ← exact_fields item ["source_id"; "kind"; "state"; "capabilities"];
  source_id ← text (cmd_get "source_id" item) false;
  kind ← source_kind (cmd_get "kind" item);
  state ← source_state (cmd_get "state" item);
  capabilities ← text_tuple (cmd_get "capabilities" item);
  new_descriptor (mkDescriptor source_id kind state capabilities).

(** ** The topology *)

(** The descriptors of a tuple have distinct identifiers; a tuple of descriptors is given by
    its type.
    ipc/energy_snapshots.py: _unique_descriptors *)
Definition unique_descriptors (descriptors : list EnergySourceDescriptor) : res (list EnergySourceDescriptor) :=
  if bool_decide (NoDup (map sd_source_id descriptors)) then Ok descriptors else Err ValueError.

(** ipc/energy_snapshots.py: _descriptor_tuple *)
Definition descriptor_tuple (value : pyval) : res (list EnergySourceDescriptor) :=
  match value with
  | VList l | VTuple l => descriptors ← map_res descriptor_from_payload l; unique_descriptors descriptors
  | _ => Err TypeError
  end.

(** ipc/energy_snapshots.py: EnergyTopologySnapshot *)
Record EnergyTopologySnapshot := mkTopology {
  tp_generation : Z; tp_captured_at : float; tp_sources : list EnergySourceDescriptor; tp_schema_version : Z }.

(** ipc/energy_snapshots.py: EnergyTopologySnapshot.__post_init__ *)
Definition topology_post_init (t : EnergyTopologySnapshot) : res unit :=
  _ ← schema_version (VInt t.(tp_schema_version)) ENERGY_IPC_SCHEMA_VERSION;
  _ ← non_negative_int (VInt t.(tp_generation));
  _ ← positive_float (VFloat t.(tp_captured_at));
  _ ← unique_descriptors t.(tp_sources);
  mret tt.

(** [EnergyTopologySnapshot(...)] *)
Definition new_topology (t : EnergyTopologySnapshot) : res EnergyTopologySnapshot :=
  _ ← topology_post_init t; mret t.

(** ipc/energy_snapshots.py: EnergyTopologySnapshot.to_payload *)
Definition topology_to_payload (t : EnergyTopologySnapshot) : pyval :=
  VDict [(VStr "schema_version", VInt t.(tp_schema_version)); (VStr "generation", VInt t.(tp_generation));
         (VStr "captured_at", VFloat t.(tp_captured_at));
         (VStr "sources", VList (map descriptor_to_payload t.(tp_sources)))].

(** The schema and the fields that a snapshot of one kind has.
    ipc/energy_snapshots.py: _snapshot_mapping *)
Definition snapshot_mapping (payload : pyval) (topology : bool) : res (odict string pyval) :=
  item ← mapping payload;
  let expected_schema := if topology then ENERGY_IPC_SCHEMA_VERSION else ENERGY_INPUTS_SCHEMA_VERSION in
  if negb (py_eq_int (cmd_get "schema_version" item) expected_schema) then Err ValueError
  else
    _ ← exact_fields item
          (if topology then ["schema_version"; "generation"; "captured_at"; "sources"]
           else ["schema_version"; "sequence"; "captured_at"; "captured_monotonic"; "topology_generation";
                 "grid_power_w"; "pv_power_w"; "battery_soc"; "battery_net_power_w"; "battery_capacity_wh";
                 "battery_capacity_ah"; "battery_voltage_v"]);
    mret item.

(** ipc/energy_snapshots.py: EnergyTopologySnapshot.from_payload *)
Definition topology_from_payload (payload : pyval) : res EnergyTopologySnapshot :=
  item ← snapshot_mapping payload true;
  generation ← non_negative_int (cmd_get "generation" item);
  captured_at ← positive_float (cmd_get "captured_at" item);
  sources ← descriptor_tuple (cmd_get "sources" item);
  new_topology (mkTopology generation captured_at sources ENERGY_IPC_SCHEMA_VERSION).

(** ** The inputs *)

(** ipc/energy_snapshots.py: EnergyInputsSnapshot *)
Record EnergyInputsSnapshot := mkInputs {
  ei_sequence : Z; ei_captured_at : float; ei_topology_generation : Z;
  ei_grid_power_w : MeasuredValue; ei_pv_power_w : MeasuredValue; ei_battery_soc : MeasuredValue;
  ei_battery_net_power_w : MeasuredValue; ei_battery_capacity_wh : MeasuredValue;
  ei_battery_capacity_ah : MeasuredValue; ei_battery_voltage_v : MeasuredValue;
  ei_schema_version : Z; ei_captured_monotonic : float }.

(** The measurements, in the order of the code. *)
Definition ei_measurements (s : EnergyInputsSnapshot) : list MeasuredValue :=
  [s.(ei_grid_power_w); s.(ei_pv_power_w); s.(ei_battery_soc); s.(ei_battery_net_power_w);
   s.(ei_battery_capacity_wh); s.(ei_battery_capacity_ah); s.(ei_battery_voltage_v)].

(** ipc/energy_snapshots.py: EnergyInputsSnapshot.__post_init__ *)
Definition inputs_post_init (s : EnergyInputsSnapshot) : res unit :=
  _ ← schema_version (VInt s.(ei_schema_version)) ENERGY_INPUTS_SCHEMA_VERSION;
  _ ← non_negative_int (VInt s.(ei_sequence));
  _ ← positive_float (VFloat s.(ei_captured_at));
  captured_monotonic ← positive_float (VFloat s.(ei_captured_monotonic));
  _ ← non_negative_int (VInt s.(ei_topology_generation));
  if existsb (fun m => (m.(mv_observed_monotonic) >? captured_monotonic)%F) (ei_measurements s)
  then Err ValueError else Ok tt.

(** [EnergyInputsSnapshot(...)] *)
Definition new_inputs (s : EnergyInputsSnapshot) : res EnergyInputsSnapshot :=
  _ ← inputs_post_init s; mret s.

(** ipc/energy_snapshots.py: EnergyInputsSnapshot.to_payload *)
Definition inputs_to_payload (s : EnergyInputsSnapshot) : pyval :=
  VDict [(VStr "schema_version", VInt s.(ei_schema_version)); (VStr "sequence", VInt s.(ei_sequence));
         (VStr "captured_at", VFloat s.(ei_captured_at));
         (VStr "captured_monotonic", VFloat s.(ei_captured_monotonic));
         (VStr "topology_generation", VInt s.(ei_topology_generation));
         (VStr "grid_power_w", measured_value_to_payload s.(ei_grid_power_w));
         (VStr "pv_power_w", measured_value_to_payload s.(ei_pv_power_w));
         (VStr "battery_soc", measured_value_to_payload s.(ei_battery_soc));
         (VStr "battery_net_power_w", measured_value_to_payload s.(ei_battery_net_power_w));
         (VStr "battery_capacity_wh", measured_value_to_payload s.(ei_battery_capacity_wh));
         (VStr "battery_capacity_ah", measured_value_to_payload s.(ei_battery_capacity_ah));
         (VStr "battery_voltage_v", measured_value_to_payload s.(ei_battery_voltage_v))].

(** ipc/energy_snapshots.py: EnergyInputsSnapshot.from_payload *)
Definition inputs_from_payload (payload : pyval) : res EnergyInputsSnapshot :=
  item ← snapshot_mapping payload false;
  sequence ← non_negative_int (cmd_get "sequence" item);
  captured_at ← positive_float (cmd_get "captured_at" item);
  captured_monotonic ← positive_float (cmd_get "captured_monotonic" item);
  topology_generation ← non_negative_int (cmd_get "topology_generation" item);
  grid_power_w ← measured_value_from_payload (cmd_get "grid_power_w" item);
  pv_power_w ← measured_value_from_payload (cmd_get "pv_power_w" item);
  battery_soc ← measured_value_from_payload (cmd_get "battery_soc" item);
  battery_net_power_w ← measured_value_from_payload (cmd_get "battery_net_power_w" item);
  battery_capacity_wh ← measured_value_from_payload (cmd_get "battery_capacity_wh" item);
  battery_capacity_ah ← measured_value_from_payload (cmd_get "battery_capacity_ah" item);
  battery_voltage_v ← measured_value_from_payload (cmd_get "battery_voltage_v" item);
  new_inputs (mkInputs sequence captured_at topology_generation grid_power_w pv_power_w battery_soc
                battery_net_power_w battery_capacity_wh battery_capacity_ah battery_voltage_v
                ENERGY_INPUTS_SCHEMA_VERSION captured_monotonic).

(** ** Refresh requests *)

(** ipc/energy_refresh.py: EnergyRefreshRequest *)
Record EnergyRefreshRequest := mkRefresh {
  rf_request_id : string; rf_scope : string; rf_max_age_seconds : float; rf_urgency : string;
  rf_source_id : option string; rf_reason : string; rf_schema_version : Z }.

(** ipc/energy_refresh.py: _validate_refresh_source *)
Definition validate_refresh_source (scope : string) (source_id : option string) : res unit :=
  match (scope =? "energy_source")%string, source_id with
  | true, None => Err ValueError
  | false, Some _ => Err ValueError
  | _, _ => Ok tt
  end.

(** ipc/energy_refresh.py: EnergyRefreshRequest.__post_init__ *)
Definition refresh_post_init (r : EnergyRefreshRequest) : res unit :=
  _ ← schema_version (VInt r.(rf_schema_version)) ENERGY_IPC_SCHEMA_VERSION;
  _ ← text (VStr r.(rf_request_id)) false;
  scope ← refresh_scope (VStr r.(rf_scope));
  _ ← non_negative_float (VFloat r.(rf_max_age_seconds));
  _ ← refresh_urgency (VStr r.(rf_urgency));
  source_id ← optional_text (val_of_str r.(rf_source_id));
  _ ← text (VStr r.(rf_reason)) true;
  validate_refresh_source scope source_id.

(** [EnergyRefreshRequest(...)] *)
Definition new_refresh (r : EnergyRefreshRequest) : res EnergyRefreshRequest :=
  _ ← refresh_post_init r; mret r.

(** ipc/energy_refresh.py: EnergyRefreshRequest.to_command *)
Definition refresh_to_command (r : EnergyRefreshRequest) (source : string) : res command :=
  producer ← text (VStr source) false;
  let subject := match r.(rf_source_id) with
                 | Some s => if (s =? "")%string then "all" else s | None => "all" end in
  mret [("schema_version", VInt r.(rf_schema_version)); ("kind", VStr ENERGY_REFRESH_COMMAND_KIND);
        ("request_id", VStr r.(rf_request_id)); ("scope", VStr r.(rf_scope));
        ("source_id", val_of_str r.(rf_source_id)); ("max_age_seconds", VFloat r.(rf_max_age_seconds));
        ("urgency", VStr r.(rf_urgency)); ("reason", VStr r.(rf_reason)); ("source", VStr producer);
        ("priority", VStr (if (r.(rf_urgency) =? "priority")%string then "read" else "discovery"));
        ("coalesce_key", VStr ("energy-refresh:" ++ r.(rf_scope) ++ ":" ++ subject)%string)].

(** ipc/energy_refresh.py: _reject_adapter_targets *)
Definition reject_adapter_targets (item : odict string pyval) : res unit :=
  if existsb (fun k => od_mem k item) ["service"; "path"; "key"] then Err ValueError else Ok tt.

(** ipc/energy_refresh.py: _validate_refresh_header *)
Definition validate_refresh_header (item : odict string pyval) : res unit :=
  if negb match cmd_get "kind" item with VStr s => (s =? ENERGY_REFRESH_COMMAND_KIND)%string | _ => false end
  then Err ValueError
  else if negb (py_eq_int (cmd_get "schema_version" item) ENERGY_IPC_SCHEMA_VERSION) then Err ValueError
  else Ok tt.

(** The parsed fields are the request before its constructor runs.
    ipc/energy_refresh.py: _parse_energy_refresh_fields *)
Definition parse_energy_refresh_fields (payload : pyval) : res EnergyRefreshRequest :=
  item ← mapping payload;
  _ ← reject_adapter_targets item;
  _ ← validate_refresh_header item;
  scope ← refresh_scope (cmd_get "scope" item);
  source_id ← optional_text (cmd_get "source_id" item);
  _ ← validate_refresh_source scope source_id;
  request_id ← text (cmd_get "request_id" item) false;
  max_age_seconds ← non_negative_float (cmd_get "max_age_seconds" item);
  urgency ← refresh_urgency (cmd_get "urgency" item);
  reason ← text (cmd_get "reason" item) true;
  mret (mkRefresh request_id scope max_age_seconds urgency source_id reason ENERGY_IPC_SCHEMA_VERSION).

(** ipc/energy_refresh.py: EnergyRefreshRequest.from_command *)
Definition refresh_from_command (payload : pyval) : res EnergyRefreshRequest :=
  fields ← parse_energy_refresh_fields payload;
  new_refresh fields.

(** A command seen as a value. *)
Definition command_value (c : command) : pyval := VDict (map (fun kv => (VStr (fst kv), snd kv)) c).

(** ** Reading what was written *)

(** Every check accepts what it returned. *)
Lemma text_again v e s : text v e = Ok s -> text (VStr s) e = Ok s.
Proof.
  unfold text. destruct v; try done. destruct (_ && _) eqn:E; [done|]. intros [= <-].
  by rewrite py_strip_idem, E.
Qed.

Lemma optional_text_again v o : optional_text v = Ok o -> optional_text (val_of_str o) = Ok o.
Proof.
  unfold optional_text. intros H. destruct v; [by injection H as <-|..]; res_steps H; injection H as <-;
    cbn [val_of_str]; by rewrite (text_again _ _ _ E).
Qed.

Lemma literal_again v allowed s : literal v allowed = Ok s -> literal (VStr s) allowed = Ok s /\ s ∈ allowed.
Proof.
  unfold literal. intros H. res_steps H. destruct (str_in v0 allowed) eqn:Es; [|done]. injection H as ->.
  rewrite (text_again _ _ _ E). unfold mbind, res_bind. rewrite Es. split; [done | by apply str_in_spec].
Qed.

(** A check for one of a few texts returns the text. *)
Lemma status_literal v s : value_status v = Ok s -> value_status (VStr s) = Ok s /\ s ∈ VALUE_STATUSES.
Proof.
  unfold value_status. intros H. res_steps H. pose proof (literal_again _ _ _ E) as [_ Hin]. injection H as <-.
  repeat (apply elem_of_cons in Hin as [->|Hin]; [split; [reflexivity | by apply str_in_spec]|]).
  by apply not_elem_of_nil in Hin.
Qed.

Lemma kind_literal v s : source_kind v = Ok s -> source_kind (VStr s) = Ok s.
Proof.
  unfold source_kind. intros H. res_steps H. pose proof (literal_again _ _ _ E) as [_ Hin]. injection H as <-.
  repeat (apply elem_of_cons in Hin as [->|Hin]; [reflexivity|]). by apply not_elem_of_nil in Hin.
Qed.

Lemma state_literal v s : source_state v = Ok s -> source_state (VStr s) = Ok s.
Proof.
  unfold source_state. intros H. res_steps H. pose proof (literal_again _ _ _ E) as [_ Hin]. injection H as <-.
  repeat (apply elem_of_cons in Hin as [->|Hin]; [reflexivity|]). by apply not_elem_of_nil in Hin.
Qed.

Lemma urgency_literal v s : refresh_urgency v = Ok s -> refresh_urgency (VStr s) = Ok s.
Proof.
  unfold refresh_urgency. intros H. res_steps H. pose proof (literal_again _ _ _ E) as [_ Hin]. injection H as <-.
  repeat (apply elem_of_cons in Hin as [->|Hin]; [reflexivity|]). by apply not_elem_of_nil in Hin.
Qed.

Lemma finite_float_again v x : finite_float v = Ok x -> finite_float (VFloat x) = Ok x /\ isfinite x = true.
Proof.
  unfold finite_float. intros H. destruct v; try done; res_steps H; destruct (isfinite _) eqn:Ef; try done;
    injection H as <-; cbn; by rewrite Ef.
Qed.

Lemma optional_finite_again v o : optional_finite_float v = Ok o -> optional_finite_float (val_of_float o) = Ok o.
Proof.
  unfold optional_finite_float. intros H. destruct v; [by injection H as <-|..]; res_steps H; injection H as <-;
    cbn [val_of_float]; by rewrite (proj1 (finite_float_again _ _ E)).
Qed.

Lemma positive_again v x : positive_float v = Ok x -> positive_float (VFloat x) = Ok x.
Proof.
  unfold positive_float. intros H. res_steps H. destruct (v0 <=? f0)%F eqn:El; [done|]. injection H as ->.
  rewrite (proj1 (finite_float_again _ _ E)). unfold mbind, res_bind. by rewrite El.
Qed.

Lemma non_negative_again v x : non_negative_float v = Ok x -> non_negative_float (VFloat x) = Ok x.
Proof.
  unfold non_negative_float. intros H. res_steps H. destruct (v0 <? f0)%F eqn:El; [done|]. injection H as ->.
  rewrite (proj1 (finite_float_again _ _ E)). unfold mbind, res_bind. by rewrite El.
Qed.

Lemma bounded_again v a b x : bounded_float v a b = Ok x -> bounded_float (VFloat x) a b = Ok x.
Proof.
  unfold bounded_float. intros H. res_steps H. destruct (_ && _) eqn:El; [|done]. injection H as ->.
  rewrite (proj1 (finite_float_again _ _ E)). unfold mbind, res_bind. by rewrite El.
Qed.

Lemma natural_again v n : non_negative_int v = Ok n -> non_negative_int (VInt n) = Ok n.
Proof. unfold non_negative_int. destruct v; try done. destruct (_ <? _) eqn:E; [done|]. intros [= ->]. by rewrite E. Qed.

Lemma text_tuple_again v l : text_tuple v = Ok l -> text_tuple (VList (texts_value l)) = Ok l.
Proof.
  assert (forall items, (normalized ← map_res (fun item => text item false) items;
     if bool_decide (NoDup normalized) then Ok normalized else Err ValueError) = Ok l -> text_tuple (VList (texts_value l)) = Ok l) as Hl.
  { intros items H. res_steps H. case_bool_decide as Hn; [|done]. injection H as ->.
    apply map_res_ok in E. unfold text_tuple. rewrite (proj2 (map_res_ok _ (texts_value l) l)).
    - unfold mbind, res_bind. by rewrite bool_decide_true.
    - unfold texts_value. clear Hn. induction E as [|x y xs ys Hxy _ IH]; [constructor|].
      constructor; [by eapply text_again | exact IH]. }
  destruct v; try done; apply Hl.
Qed.

Create HintDb again discriminated.
#[export] Hint Constants Opaque : again.
#[export] Hint Resolve text_again optional_text_again kind_literal state_literal urgency_literal
  optional_finite_again positive_again non_negative_again bounded_again natural_again text_tuple_again : again.

(** [read_payload] runs a parser again on the payload of the values it returned. *)
Ltac read_step :=
  lazymatch goal with
  | |- (mbind _ (exact_fields _ _)) = Ok _ => apply res_bind_ok; exists tt; split; [vm_compute; reflexivity | cbv beta]
  | |- (mbind _ _) = Ok _ => apply res_bind_ok; eexists; split; [solve [eauto with again | reflexivity] | cbv beta]
  end.
Ltac find_key k items :=
  lazymatch items with
  | (k, ?v) :: _ => v
  | _ :: ?rest => find_key k rest
  end.
Ltac read_keys :=
  repeat match goal with
  | |- context [cmd_get ?k ?items] => let v := find_key k items in change (cmd_get k items) with v
  end.
Ltac read_payload := read_step; read_keys; repeat read_step.

Lemma measured_payload_again p m :
  measured_value_from_payload p = Ok m -> measured_value_from_payload (measured_value_to_payload m) = Ok m.
Proof.
  unfold measured_value_from_payload. intros H. res_steps H.
  pose proof H as Hm. unfold new_measured_value in Hm. res_steps Hm. injection Hm as <-.
  apply status_literal in E4 as [E4 _]. read_payload. exact H.
Qed.
#[export] Hint Resolve measured_payload_again : again.

Lemma descriptor_payload_again p d :
  descriptor_from_payload p = Ok d -> descriptor_from_payload (descriptor_to_payload d) = Ok d.
Proof.
  unfold descriptor_from_payload. intros H. res_steps H.
  pose proof H as Hm. unfold new_descriptor in Hm. res_steps Hm. injection Hm as <-.
  read_payload. exact H.
Qed.

Lemma descriptor_tuple_again p l :
  descriptor_tuple p = Ok l -> descriptor_tuple (VList (map descriptor_to_payload l)) = Ok l.
Proof.
  assert (forall items, (ds ← map_res descriptor_from_payload items; unique_descriptors ds) = Ok l ->
     descriptor_tuple (VList (map descriptor_to_payload l)) = Ok l) as Hl; [|destruct p; try done; apply Hl].
  intros items H. res_steps H. unfold unique_descriptors in H. case_bool_decide as Hn; [|done]. injection H as ->.
  apply map_res_ok in E. unfold descriptor_tuple. apply res_bind_ok. exists l. unfold unique_descriptors.
  rewrite bool_decide_true by done. split; [|done]. apply map_res_ok. clear Hn.
  induction E as [|x y xs ys Hxy _ IH]; [constructor|]. constructor; [by eapply descriptor_payload_again | exact IH].
Qed.
#[export] Hint Resolve descriptor_tuple_again : again.

Lemma topology_payload_again p t :
  topology_from_payload p = Ok t -> topology_from_payload (topology_to_payload t) = Ok t.
Proof.
  unfold topology_from_payload. intros H. res_steps H.
  pose proof H as Hm. unfold new_topology in Hm. res_steps Hm. injection Hm as <-.
  read_payload. exact H.
Qed.

Lemma inputs_payload_again p s :
  inputs_from_payload p = Ok s -> inputs_from_payload (inputs_to_payload s) = Ok s.
Proof.
  unfold inputs_from_payload. intros H. res_steps H.
  pose proof H as Hm. unfold new_inputs in Hm. res_steps Hm. injection Hm as <-.
  unfold inputs_to_payload.
  cbn [ei_sequence ei_captured_at ei_topology_generation ei_grid_power_w ei_pv_power_w ei_battery_soc
    ei_battery_net_power_w ei_battery_capacity_wh ei_battery_capacity_ah ei_battery_voltage_v
    ei_schema_version ei_captured_monotonic].
  read_payload. exact H.
Qed.

(** The command of a request that was parsed is parsed to the same request. *)
Lemma refresh_command_again p r producer c :
  refresh_from_command p = Ok r -> refresh_to_command r producer = Ok c ->
  refresh_from_command (command_value c) = Ok r.
Proof.
  unfold refresh_from_command, refresh_to_command. intros H Hc. res_steps H.
  pose proof H as Hm. unfold new_refresh in Hm. res_steps Hm. injection Hm as ->.
  unfold parse_energy_refresh_fields in E. res_steps E. injection E as <-. res_steps Hc. injection Hc as <-.
  unfold refresh_scope in E4. apply literal_again in E4 as [E4 _].
  apply res_bind_ok. eexists. split; [|exact H]. unfold parse_energy_refresh_fields, refresh_scope, command_value.
  cbn [map fst snd rf_request_id rf_scope rf_max_age_seconds rf_urgency rf_source_id rf_reason rf_schema_version].
  read_payload. reflexivity.
Qed.

(** ** What a constructor accepts *)

Definition text_ok (s : string) : Prop := py_strip s <> "".

Record measured_ok (m : MeasuredValue) : Prop := {
  mo_value : forall x, m.(mv_value) = Some x -> isfinite x = true;
  mo_observed_at : isfinite m.(mv_observed_at) = true /\ (f0 <=? m.(mv_observed_at))%F = true;
  mo_observed_monotonic : isfinite m.(mv_observed_monotonic) = true /\ (f0 <=? m.(mv_observed_monotonic))%F = true;
  mo_status : py_strip m.(mv_status) ∈ VALUE_STATUSES;
  mo_confidence : (f0 <=? m.(mv_confidence))%F = true /\ (m.(mv_confidence) <=? f1)%F = true;
  mo_source_ids : Forall text_ok m.(mv_source_ids) /\ NoDup (map py_strip m.(mv_source_ids));
  mo_observed : py_strip m.(mv_status) ∈ ["fresh"; "stale"] ->
    is_Some m.(mv_value) /\ (f0 <? m.(mv_observed_at))%F = true /\ (f0 <? m.(mv_observed_monotonic))%F = true }.

Lemma non_negative_float_ok x y :
  non_negative_float (VFloat x) = Ok y -> y = x /\ isfinite x = true /\ (f0 <=? x)%F = true.
Proof.
  unfold non_negative_float, finite_float, py_float, mbind, res_bind. destruct (isfinite x) eqn:E; [|done].
  destruct (x <? f0)%F eqn:E1; [done|]. intros [= <-]. split; [done|]. split; [done|].
  assert (isnan f0 = false) by done. apply isfinite_not_nan in E. forder.
Qed.

Lemma finite_value x y : finite_float (VFloat x) = Ok y -> y = x /\ isfinite x = true.
Proof. unfold finite_float, py_float, mbind, res_bind. destruct (isfinite x) eqn:E; [|done]. by intros [= <-]. Qed.

Lemma optional_finite_value x o : optional_finite_float (VFloat x) = Ok o -> isfinite x = true.
Proof. unfold optional_finite_float. intros H. res_steps H. by eapply finite_value. Qed.

Lemma bounded_value x a b y : bounded_float (VFloat x) a b = Ok y -> (a <=? x)%F = true /\ (x <=? b)%F = true.
Proof.
  unfold bounded_float. intros H. res_steps H. apply finite_value in E as [-> _].
  destruct (_ && _) eqn:Eb; [|done]. by apply andb_true_iff in Eb.
Qed.

Lemma text_tuple_ok l r :
  unique_text_tuple (VTuple (texts_value l)) = Ok r -> Forall text_ok l /\ NoDup (map py_strip l).
Proof.
  intros H. apply res_bind_ok in H as (n & Hn & H). case_bool_decide as Hd; [|done]. clear H.
  apply map_res_ok in Hn. assert (Forall text_ok l /\ n = map py_strip l) as [? ->]; [|done]. clear Hd.
  revert n Hn. induction l as [|s l IH]; intros n Hn; inversion Hn as [|? y ? ys Hy Hys]; subst; [done|].
  destruct (IH _ Hys) as [Hf ->]. unfold text in Hy. destruct (_ && _) eqn:E; [done|]. injection Hy as <-.
  split; [|done]. constructor; [|done]. unfold text_ok. apply andb_false_iff in E as [E|E]; [by apply String.eqb_neq in E | done].
Qed.

Lemma value_status_strip s r : value_status (VStr s) = Ok r -> r = py_strip s /\ r ∈ VALUE_STATUSES.
Proof.
  unfold value_status, literal. intros H. res_steps H. res_steps E. unfold text in E0.
  destruct (_ && _); [done|]. injection E0 as <-. destruct (str_in _ _) eqn:Es; [|done]. injection E as <-.
  apply str_in_spec in Es. injection H as <-. revert Es. generalize (py_strip s). intros t Hin.
  repeat (apply elem_of_cons in Hin as [->|Hin]; [split; [reflexivity | by apply str_in_spec]|]).
  by apply not_elem_of_nil in Hin.
Qed.

Lemma measured_post_init_ok m : measured_value_post_init m = Ok tt -> measured_ok m.
Proof.
  unfold measured_value_post_init. intros H. res_steps H.
  apply non_negative_float_ok in E0 as (-> & Ha1 & Ha2). apply non_negative_float_ok in E1 as (-> & Hm1 & Hm2).
  apply value_status_strip in E2 as (-> & Hs). apply text_tuple_ok in E4 as [Ht Hd].
  assert (forall x, (x <=? f0)%F = false -> isnan x = false -> (f0 <? x)%F = true) as Hpos by (intros; assert (isnan f0 = false) by done; forder).
  constructor; try done.
  - intros x Hx. rewrite Hx in E. by eapply optional_finite_value.
  - by eapply bounded_value.
  - intros Hst. apply str_in_spec in Hst. unfold validate_observed_value in H. rewrite Hst in H.
    cbn [negb] in H. destruct (mv_value m); [|done]. apply res_bind_ok in H as ([] & H1 & H2).
    unfold require_positive_timestamp in *.
    destruct (mv_observed_at m <=? f0)%F eqn:E6; [done|]. destruct (mv_observed_monotonic m <=? f0)%F eqn:E7; [done|].
    split; [by eexists|]. split; apply Hpos; auto using isfinite_not_nan.
Qed.

(** Reading back: an energy snapshot, a topology or a refresh request that was parsed
    from any payload is written to a payload that parses to the same value again, so what a
    consumer accepts survives every further hop of the IPC unchanged (numbers in their float
    form, texts stripped). *)
Theorem semantic_payloads_roundtrip :
  (forall p s, inputs_from_payload p = Ok s -> inputs_from_payload (inputs_to_payload s) = Ok s) /\
  (forall p t, topology_from_payload p = Ok t -> topology_from_payload (topology_to_payload t) = Ok t) /\
  (forall p r producer c, refresh_from_command p = Ok r -> refresh_to_command r producer = Ok c ->
     refresh_from_command (command_value c) = Ok r).
Proof.
  split; [exact inputs_payload_again|]. split; [exact topology_payload_again | exact refresh_command_again].
Qed.

Definition sample_descriptor : pyval :=
  VDict [(VStr "source_id", VStr " pv-1 "); (VStr "kind", VStr "pv_ac"); (VStr "state", VStr "online");
         (VStr "capabilities", VTuple [VStr "power"; VStr " energy"])].

Lemma semantic_payloads_roundtrip_witness :
  exists t, topology_from_payload
      (VDict [(VStr "schema_version", VFloat f1); (VStr "generation", VInt 3); (VStr "captured_at", VInt 12);
              (VStr "sources", VList [sample_descriptor])]) = Ok t /\
    map sd_source_id t.(tp_sources) = ["pv-1"] /\ topology_from_payload (topology_to_payload t) = Ok t.
Proof.
  eexists. split; [vm_compute; reflexivity|]. split; [reflexivity|].
  eapply (proj1 (proj2 semantic_payloads_roundtrip)
    (VDict [(VStr "schema_version", VFloat f1); (VStr "generation", VInt 3); (VStr "captured_at", VInt 12);
              (VStr "sources", VList [sample_descriptor])])). vm_compute. reflexivity.
Defined.
