(* ===== verification/EnergyFrames.v ===== *)
(** * Binary energy frames

    [ipc/energy_binary.py]: the wire format of energy snapshots, its reader and writer, and
    the freshness check of a loaded file.  A text is given by its UTF-8 bytes, so encoding is
    the identity and decoding checks that the bytes are UTF-8.  The file system is the
    parameter [EnergyFiles]. *)

From S2P Require Import Prelude PyFloat PyValue OrderedMap Rounding Struct Encoding EnergyValues.

(** ** Text *)

(** The text of some bytes. *)
Fixpoint bytes_text (bytes : list Z) : string :=
  match bytes with [] => "" | b :: rest => String (ascii_of_nat (Z.to_nat b)) (bytes_text rest) end.

Definition continuation (b : Z) : bool := (128 <=? b) && (b <=? 191).

(** [bytes.decode()] accepts well-formed UTF-8 (Unicode, table 3-7). *)
Fixpoint utf8 (bytes : list Z) : bool :=
  match bytes with
  | [] => true
  | b :: rest =>
    if b <? 128 then utf8 rest
    else if (194 <=? b) && (b <=? 223) then
      match rest with c1 :: rest' => continuation c1 && utf8 rest' | _ => false end
    else if (224 <=? b) && (b <=? 239) then
      match rest with
      | c1 :: c2 :: rest' =>
        (if b =? 224 then 160 <=? c1 else true) && (if b =? 237 then c1 <=? 159 else true) &&
        continuation c1 && continuation c2 && utf8 rest'
      | _ => false
      end
    else if (240 <=? b) && (b <=? 244) then
      match rest with
      | c1 :: c2 :: c3 :: rest' =>
        (if b =? 240 then 144 <=? c1 else true) && (if b =? 244 then c1 <=? 143 else true) &&
        continuation c1 && continuation c2 && continuation c3 && utf8 rest'
      | _ => false
      end
    else false
  end.

(** [data.decode()]; [UnicodeDecodeError] becomes [ValueError] at the caller. *)
Definition decode_utf8 (data : list Z) : res string := if utf8 data then Ok (bytes_text data) else Err ValueError.

(** ** The format *)

(** ipc/energy_binary.py: _MAGIC *)
Definition MAGIC : list Z := string_bytes "VEI4".
(** ipc/energy_binary.py: _LEGACY_MAGIC *)
Definition LEGACY_MAGIC : list Z := string_bytes "VEI3".
(** ipc/energy_binary.py: _LEGACY_SCHEMA_VERSION *)
Definition LEGACY_SCHEMA_VERSION : Z := 3.
(** ipc/energy_binary.py: _MAX_PAYLOAD_BYTES *)
Definition MAX_PAYLOAD_BYTES : Z := 65536.
(** ipc/energy_binary.py: _MAX_SOURCE_IDS *)
Definition MAX_SOURCE_IDS : Z := 64.
(** ipc/energy_binary.py: _HEADER *)
Definition HEADER : list field := [Fs 4; FB; FQ; FQ; Fd; Fd].
(** ipc/energy_binary.py: _MEASUREMENT *)
Definition MEASUREMENT : list field := [FB; FB; Fd; Fd; Fd; Fd; FH].
(** ipc/energy_binary.py: _TEXT_LENGTH *)
Definition TEXT_LENGTH : list field := [FH].
(** ipc/energy_binary.py: _STATUS_TO_CODE *)
Definition STATUS_TO_CODE : list (string * Z) :=
  [("fresh", 0); ("stale", 1); ("unavailable", 2); ("error", 3); ("unknown", 4)].

(** ** Writing *)

(** ipc/energy_binary.py: _pack *)
Definition pack (formatter : list field) (values : list wire_value) : res (list Z) :=
  catch (struct_pack formatter values) [StructError] (Err ValueError).

(** ipc/energy_binary.py: _encode_text *)
Definition encode_text (value : string) : res (list Z) :=
  let encoded := string_bytes value in
  if 65535 <? zlength encoded then Err ValueError
  else size ← struct_pack TEXT_LENGTH [WInt (zlength encoded)]; mret (size ++ encoded).

(** ipc/energy_binary.py: _encode_measurement *)
Definition encode_measurement (m : MeasuredValue) : res (list Z) :=
  let source_ids := m.(mv_source_ids) in
  if MAX_SOURCE_IDS <? zlength source_ids then Err ValueError
  else
    code ← match table_get m.(mv_status) STATUS_TO_CODE with Some c => Ok c | None => Err KeyError end;
    fields ← pack MEASUREMENT
               [WInt code; WInt (match m.(mv_value) with Some _ => 1 | None => 0 end);
                WFloat (default f0 m.(mv_value)); WFloat m.(mv_observed_at); WFloat m.(mv_observed_monotonic);
                WFloat m.(mv_confidence); WInt (zlength source_ids)];
    texts ← map_res encode_text source_ids;
    reason ← encode_text m.(mv_reason_code);
    mret (fields ++ concat texts ++ reason).

(** ipc/energy_binary.py: encode_energy_inputs *)
Definition encode_energy_inputs (snapshot : EnergyInputsSnapshot) : res (list Z) :=
  header ← pack HEADER
             [WBytes MAGIC; WInt snapshot.(ei_schema_version); WInt snapshot.(ei_sequence);
              WInt snapshot.(ei_topology_generation); WFloat snapshot.(ei_captured_at);
              WFloat snapshot.(ei_captured_monotonic)];
  chunks ← map_res encode_measurement (ei_measurements snapshot);
  let payload := header ++ concat chunks in
  if MAX_PAYLOAD_BYTES <? zlength payload then Err ValueError else Ok payload.

(** ** Reading *)

(** ipc/energy_binary.py: _wire_value *)
Definition wire_int (v : wire_value) : res Z := match v with WInt n => Ok n | _ => Err ValueError end.
(** ipc/energy_binary.py: _wire_value *)
Definition wire_float (v : wire_value) : res float := match v with WFloat x => Ok x | _ => Err ValueError end.
(** ipc/energy_binary.py: _wire_value *)
Definition wire_bytes (v : wire_value) : res (list Z) := match v with WBytes b => Ok b | _ => Err ValueError end.

(** ipc/energy_binary.py: _BinaryReader.unpack *)
Definition unpack (formatter : list field) : M reader (list wire_value) :=
  r ← get;
  let stop := (r.(rd_offset) + struct_size formatter)%nat in
  if bool_decide (length r.(rd_payload) < stop)%nat then raise ValueError
  else
    _ ← modify (fun r => r <| rd_offset := stop |>);
    mret (struct_unpack formatter (drop r.(rd_offset) r.(rd_payload))).

(** The fields of the header.
    ipc/energy_binary.py: _EnergyHeader *)
Record EnergyHeader := mkHeader {
  eh_magic : list Z; eh_schema_version : Z; eh_sequence : Z; eh_topology_generation : Z;
  eh_captured_at : float; eh_captured_monotonic : float }.

(** ipc/energy_binary.py: _BinaryReader.header *)
Definition read_header : M reader EnergyHeader :=
  values ← unpack HEADER;
  match values with
  | [magic; schema; sequence; generation; captured_at; captured_monotonic] =>
    magic ← lift (wire_bytes magic);
    schema ← lift (wire_int schema);
    sequence ← lift (wire_int sequence);
    generation ← lift (wire_int generation);
    captured_at ← lift (wire_float captured_at);
    captured_monotonic ← lift (wire_float captured_monotonic);
    mret (mkHeader magic schema sequence generation captured_at captured_monotonic)
  | _ => raise ValueError
  end.

(** ipc/energy_binary.py: _BinaryReader.measurement_fields *)
Definition measurement_fields : M reader (Z * Z * float * float * float * float * Z) :=
  values ← unpack MEASUREMENT;
  match values with
  | [status_code; has_value; value; observed_at; observed_monotonic; confidence; source_count] =>
    status_code ← lift (wire_int status_code);
    has_value ← lift (wire_int has_value);
    value ← lift (wire_float value);
    observed_at ← lift (wire_float observed_at);
    observed_monotonic ← lift (wire_float observed_monotonic);
    confidence ← lift (wire_float confidence);
    source_count ← lift (wire_int source_count);
    mret (status_code, has_value, value, observed_at, observed_monotonic, confidence, source_count)
  | _ => raise ValueError
  end.

(** ipc/energy_binary.py: _BinaryReader.text *)
Definition read_text : M reader string :=
  values ← unpack TEXT_LENGTH;
  match values with
  | [raw_size] =>
    size ← lift (wire_int raw_size);
    r ← get;
    let stop := (r.(rd_offset) + Z.to_nat size)%nat in
    if bool_decide (length r.(rd_payload) < stop)%nat then raise ValueError
    else
      value ← lift (decode_utf8 (take (Z.to_nat size) (drop r.(rd_offset) r.(rd_payload))));
      _ ← modify (fun r => r <| rd_offset := stop |>);
      mret value
  | _ => raise ValueError
  end.

(** ipc/energy_binary.py: _BinaryReader.require_complete *)
Definition require_complete : M reader unit :=
  r ← get;
  if bool_decide (r.(rd_offset) = length r.(rd_payload)) then mret tt else raise ValueError.

(** The code of a status, read backwards.
    ipc/energy_binary.py: _decoded_status *)
Definition decoded_status (status_code : Z) : res string :=
  match List.find (fun sc => snd sc =? status_code) STATUS_TO_CODE with
  | Some sc => Ok (fst sc)
  | None => Err ValueError
  end.

(** ipc/energy_binary.py: _decoded_value *)
Definition decoded_value (has_value : Z) (value : float) : res (option float) :=
  if negb ((has_value =? 0) || (has_value =? 1)) then Err ValueError
  else Ok (if has_value =? 0 then None else Some value).

(** ipc/energy_binary.py: _validated_source_count *)
Definition validated_source_count (source_count : Z) : res Z :=
  if MAX_SOURCE_IDS <? source_count then Err ValueError else Ok source_count.

(** ipc/energy_binary.py: _decode_measurement *)
Definition decode_measurement : M reader MeasuredValue :=
  fields ← measurement_fields;
  let '(status_code, has_value, value, observed_at, observed_monotonic, confidence, source_count) := fields in
  status ← lift (decoded_status status_code);
  value ← lift (decoded_value has_value value);
  count ← lift (validated_source_count source_count);
  source_ids ← repeat_m (Z.to_nat count) read_text;
  reason_code ← read_text;
  lift (new_measured_value (mkMeasuredValue value observed_at status confidence source_ids reason_code observed_monotonic)).

(** ipc/energy_binary.py: _wire_measurement_count *)
Definition wire_measurement_count (magic : list Z) (schema_version : Z) : res nat :=
  let count expected n := if schema_version =? expected then Ok n else Err ValueError in
  if bool_decide (magic = LEGACY_MAGIC) then count LEGACY_SCHEMA_VERSION 4%nat
  else if bool_decide (magic = MAGIC) then count ENERGY_INPUTS_SCHEMA_VERSION 7%nat
  else Err ValueError.

(** ipc/energy_binary.py: _legacy_missing_measurement *)
Definition legacy_missing_measurement : MeasuredValue :=
  mkMeasuredValue None f0 "unknown" f0 [] "not-observed" f0.

(** ipc/energy_binary.py: _complete_measurements *)
Definition complete_measurements (measurements : list MeasuredValue) : res (list MeasuredValue) :=
  missing ← map_res (fun _ => new_measured_value legacy_missing_measurement) (replicate (7 - length measurements) tt);
  mret (measurements ++ missing).

(** ipc/energy_binary.py: _decoded_energy_snapshot *)
Definition decoded_energy_snapshot (header : EnergyHeader) (measurements : list MeasuredValue)
    : res EnergyInputsSnapshot :=
  match measurements with
  | m0 :: m1 :: m2 :: m3 :: m4 :: m5 :: m6 :: _ =>
    new_inputs (mkInputs header.(eh_sequence) header.(eh_captured_at) header.(eh_topology_generation)
                  m0 m1 m2 m3 m4 m5 m6 ENERGY_INPUTS_SCHEMA_VERSION header.(eh_captured_monotonic))
  | _ => Err IndexError
  end.

(** The reader's part of the decoder. *)
Definition read_frame : M reader (EnergyHeader * list MeasuredValue) :=
  header ← read_header;
  count ← lift (wire_measurement_count header.(eh_magic) header.(eh_schema_version));
  measurements ← repeat_m count decode_measurement;
  _ ← require_complete;
  mret (header, measurements).

(** ipc/energy_binary.py: decode_energy_inputs *)
Definition decode_energy_inputs (payload : list Z) : res EnergyInputsSnapshot :=
  if MAX_PAYLOAD_BYTES <? zlength payload then Err ValueError
  else
    frame ← fst (read_frame (mkReader payload 0));
    measurements ← complete_measurements (snd frame);
    decoded_energy_snapshot (fst frame) measurements.

(** ** Files *)

(** [handle.read(n)] of a file opened for reading. *)
Class EnergyFiles := { read_bytes : string -> nat -> res (list Z) }.

Section files.
Context `{EnergyFiles}.

(** ipc/energy_binary.py: _read_bounded_payload *)
Definition read_bounded_payload (path : string) : res (list Z) :=
  payload ← read_bytes path (Z.to_nat (MAX_PAYLOAD_BYTES + 1));
  if MAX_PAYLOAD_BYTES <? zlength payload then Err ValueError else Ok payload.

(** ipc/energy_binary.py: _load_energy_inputs_payload *)
Definition load_energy_inputs_payload (path : string) : res (option EnergyInputsSnapshot) :=
  catch (payload ← read_bounded_payload path; snapshot ← decode_energy_inputs payload; mret (Some snapshot))
    [OSError; TypeError; ValueError] (Ok None).

(** ipc/energy_binary.py: _valid_current_monotonic *)
Definition valid_current_monotonic (value : float) : bool := (value >=? f0)%F && isfinite value.

(** The monotonic clock of the process reads [monotonic].
    ipc/energy_binary.py: _current_monotonic *)
Definition current_monotonic (monotonic : float) (now_monotonic : pyval) : res float :=
  match now_monotonic with VNone => Ok monotonic | v => py_float v end.

(** ipc/energy_binary.py: _normalized_freshness_inputs *)
Definition normalized_freshness_inputs (monotonic : float) (max_age_seconds now_monotonic : pyval)
    : res (option (float * float)) :=
  inputs ← catch (current ← current_monotonic monotonic now_monotonic;
                  maximum_age ← py_float max_age_seconds;
                  mret (Some (current, maximum_age))) [TypeError; ValueError] (Ok None);
  match inputs with
  | None => Ok None
  | Some (current, maximum_age) =>
    if negb (valid_current_monotonic current) then Ok None
    else if negb (isfinite maximum_age) then Ok None else Ok (Some (current, maximum_age))
  end.

(** ipc/energy_binary.py: _snapshot_is_fresh *)
Definition snapshot_is_fresh (snapshot : EnergyInputsSnapshot) (current_monotonic maximum_age : float) : bool :=
  let age := (current_monotonic - snapshot.(ei_captured_monotonic))%F in
  (age >=? f0)%F && ((maximum_age <? f0)%F || (age <=? maximum_age)%F).

(** ipc/energy_binary.py: load_energy_inputs_file *)
Definition load_energy_inputs_file (monotonic : float) (path : string) (max_age_seconds now_monotonic : pyval)
    : res (option EnergyInputsSnapshot) :=
  snapshot ← load_energy_inputs_payload path;
  freshness ← normalized_freshness_inputs monotonic max_age_seconds now_monotonic;
  match snapshot, freshness with
  | Some snapshot, Some (current, maximum_age) =>
    Ok (if snapshot_is_fresh snapshot current maximum_age then Some snapshot else None)
  | _, _ => Ok None
  end.

End files.

(** ** What the readers consume *)

Lemma runs_unpack fmt chunk : length chunk = struct_size fmt -> runs (unpack fmt) (struct_unpack fmt chunk) chunk.
Proof.
  intros Hl pre post. unfold unpack, mbind, M_bind, get. cbn [rd_offset rd_payload].
  rewrite bool_decide_false by (rewrite !length_app; lia). unfold modify, mret, M_ret. cbn.
  rewrite drop_app_length, struct_unpack_app by done. by rewrite Hl.
Qed.

Lemma consumes_unpack fmt : consumes (unpack fmt).
Proof.
  intros pre rest v r H. pose proof H as H0. unfold unpack, mbind, M_bind, get in H0. cbn [rd_offset rd_payload] in H0.
  case_bool_decide as Hd; [done|]. rewrite length_app in Hd.
  assert (length (take (struct_size fmt) rest) = struct_size fmt) as Hl by (rewrite length_take; lia).
  pose proof (runs_unpack fmt _ Hl) as R. exists (take (struct_size fmt) rest), (drop (struct_size fmt) rest).
  specialize (R pre (drop (struct_size fmt) rest)) as Rp. rewrite take_drop in Rp. rewrite Rp in H.
  injection H as <- <-. split; [by rewrite take_drop|]. split; [done | exact R].
Qed.
#[export] Hint Resolve consumes_unpack : readers.

(** The second half of [read_text]: [size] bytes of text. *)
Definition read_sized (size : nat) : M reader string :=
  r ← get;
  let stop := (r.(rd_offset) + size)%nat in
  if bool_decide (length r.(rd_payload) < stop)%nat then raise ValueError
  else
    value ← lift (decode_utf8 (take size (drop r.(rd_offset) r.(rd_payload))));
    _ ← modify (fun r => r <| rd_offset := stop |>);
    mret value.

Lemma runs_sized chunk : utf8 chunk = true -> runs (read_sized (length chunk)) (bytes_text chunk) chunk.
Proof.
  intros Hu pre post. unfold read_sized, mbind, M_bind, get. cbn [rd_offset rd_payload].
  rewrite bool_decide_false by (rewrite !length_app; lia).
  rewrite drop_app_length, take_app_length. unfold lift, decode_utf8. rewrite Hu. done.
Qed.

Lemma consumes_sized size : consumes (read_sized size).
Proof.
  intros pre rest v r H. pose proof H as H0. unfold read_sized, mbind, M_bind, get in H0. cbn [rd_offset rd_payload] in H0.
  case_bool_decide as Hd; [done|]. rewrite length_app in Hd.
  assert (length (take size rest) = size) as Hl by (rewrite length_take; lia).
  rewrite drop_app_length in H0. unfold lift, decode_utf8 in H0. destruct (utf8 (take size rest)) eqn:Hu; [|done].
  pose proof (runs_sized _ Hu) as R. rewrite Hl in R. exists (take size rest), (drop size rest).
  specialize (R pre (drop size rest)) as Rp. rewrite take_drop in Rp. rewrite Rp in H.
  injection H as <- <-. split; [by rewrite take_drop|]. split; [done | exact R].
Qed.
#[export] Hint Resolve consumes_sized : readers.

Lemma consumes_text : consumes read_text.
Proof.
  unfold read_text. apply consumes_bind; [auto with readers|]. intros [|v [|]]; auto with readers.
  apply consumes_bind; [auto with readers|]. intros size. apply (consumes_sized (Z.to_nat size)).
Qed.
#[export] Hint Resolve consumes_text : readers.

Lemma consumes_header : consumes read_header.
Proof. unfold read_header. consumes_tac. Qed.

Lemma consumes_fields : consumes measurement_fields.
Proof. unfold measurement_fields. consumes_tac. Qed.
#[export] Hint Resolve consumes_header consumes_fields : readers.

Lemma consumes_measurement : consumes decode_measurement.
Proof. unfold decode_measurement. consumes_tac. Qed.
#[export] Hint Resolve consumes_measurement : readers.

(** The frame up to the check that nothing is left. *)
Definition frame_body : M reader (EnergyHeader * list MeasuredValue) :=
  header ← read_header;
  count ← lift (wire_measurement_count header.(eh_magic) header.(eh_schema_version));
  measurements ← repeat_m count decode_measurement;
  mret (header, measurements).

Lemma consumes_body : consumes frame_body.
Proof. unfold frame_body. consumes_tac. Qed.

Lemma read_frame_body r : read_frame r = (frame ← frame_body; _ ← require_complete; mret frame) r.
Proof.
  unfold read_frame, frame_body, mbind, M_bind, mret, M_ret.
  destruct (read_header r) as [[h|e] r1]; [|done]. destruct (lift _ r1) as [[n|e] r2]; [|done].
  by destruct (repeat_m _ _ r2) as [[ms|e] r3].
Qed.

(** A payload is read completely iff the body consumes all of it. *)
Lemma read_frame_ok payload frame :
  fst (read_frame (mkReader payload 0)) = Ok frame <-> runs frame_body frame payload.
Proof.
  rewrite read_frame_body. unfold mbind, M_bind. split.
  - destruct (frame_body _) as [[f|e] r] eqn:E; [|done].
    destruct (consumes_body [] payload f r E) as (chunk & post & -> & -> & R).
    unfold require_complete, mbind, M_bind, get. cbn [rd_offset rd_payload length app].
    case_bool_decide as Hd; [|done]. intros [= ->]. rewrite length_app in Hd.
    destruct post; [by rewrite app_nil_r | cbn in Hd; lia].
  - intros R. specialize (R [] []). cbn [length app] in R. rewrite app_nil_r in R. rewrite R.
    unfold require_complete, mbind, M_bind, get. cbn [rd_offset rd_payload Nat.add].
    by rewrite bool_decide_true by done.
Qed.

(** ** Round trip *)

Lemma bytes_text_bytes s : bytes_text (string_bytes s) = s.
Proof.
  induction s as [|c s IH]; [done|]. cbn [string_bytes bytes_text]. rewrite IH. unfold code.
  by rewrite Nat2Z.id, ascii_nat_embedding.
Qed.

Definition text_utf8 (s : string) : Prop := utf8 (string_bytes s) = true.

Lemma runs_text s c : text_utf8 s -> encode_text s = Ok c -> runs read_text s c.
Proof.
  unfold encode_text. intros Hu. destruct (Z.ltb_spec 65535 (zlength (string_bytes s))); [done|]. intros H1. res_steps H1.
  injection H1 as <-. assert (Forall2 fits TEXT_LENGTH [WInt (zlength (string_bytes s))]) as Hf.
  { constructor; [|constructor]. cbn. unfold zlength in *. lia. }
  destruct (struct_pack_fits _ _ Hf) as (b & Hb & Hl & Hb2). rewrite Hb in E. injection E as <-.
  unfold read_text. eapply runs_bind; [by apply runs_unpack|]. specialize (Hb2 []). rewrite app_nil_r in Hb2. rewrite Hb2.
  eapply runs_lift; [reflexivity|]. pose proof (runs_sized _ Hu) as R. rewrite bytes_text_bytes in R.
  unfold zlength. rewrite Nat2Z.id. exact R.
Qed.

(** A measurement of the machine: its floats are doubles and its texts Unicode. *)
Record machine_measurement (m : MeasuredValue) : Prop := {
  mm_value : forall x, m.(mv_value) = Some x -> canonical x;
  mm_observed_at : canonical m.(mv_observed_at);
  mm_observed_monotonic : canonical m.(mv_observed_monotonic);
  mm_confidence : canonical m.(mv_confidence);
  mm_source_ids : Forall text_utf8 m.(mv_source_ids);
  mm_reason : text_utf8 m.(mv_reason_code) }.

Lemma runs_texts l cs : Forall text_utf8 l -> map_res encode_text l = Ok cs -> Forall2 (runs read_text) l cs.
Proof.
  intros Hu H. apply map_res_ok in H. induction H as [|s c l cs Hc _ IH]; [constructor|].
  inversion Hu; subst. constructor; [by apply runs_text | by apply IH].
Qed.

(** The packed values of a format are read back. *)
Lemma pack_reads fmt vs c :
  Forall2 fits fmt vs -> pack fmt vs = Ok c -> length c = struct_size fmt /\ struct_unpack fmt c = vs.
Proof.
  intros Hf. destruct (struct_pack_fits _ _ Hf) as (b & Hb & Hl & Hu). unfold pack. rewrite Hb. intros [= <-].
  split; [done|]. specialize (Hu []). by rewrite app_nil_r in Hu.
Qed.

Lemma status_code_of s n : table_get s STATUS_TO_CODE = Some n -> decoded_status n = Ok s /\ 0 <= n < 256.
Proof.
  intros H. apply table_get_elem in H.
  repeat (apply elem_of_cons in H as [[= -> ->]|H]; [split; [reflexivity | lia]|]). by apply not_elem_of_nil in H.
Qed.

Lemma measured_eta m :
  mkMeasuredValue m.(mv_value) m.(mv_observed_at) m.(mv_status) m.(mv_confidence) m.(mv_source_ids)
    m.(mv_reason_code) m.(mv_observed_monotonic) = m.
Proof. by destruct m. Qed.

Lemma runs_measurement m c :
  machine_measurement m -> measured_value_post_init m = Ok tt -> encode_measurement m = Ok c -> runs decode_measurement m c.
Proof.
  intros [Hv Ha Hm Hc Hs Hr] Hp. unfold encode_measurement.
  destruct (Z.ltb_spec MAX_SOURCE_IDS (zlength (mv_source_ids m))) as [|Hn]; [done|].
  intros H. res_steps H. injection H as <-. destruct (table_get _ _) as [n|] eqn:Et; [|done]. injection E as <-.
  apply status_code_of in Et as [Hstatus Hn2].
  apply pack_reads in E0 as [Hl Hu]; [|repeat constructor; cbn; try done; try lia].
  - unfold decode_measurement. eapply runs_bind.
    { unfold measurement_fields. rewrite <- (app_nil_r v0). eapply runs_bind; [by apply runs_unpack|]. rewrite Hu.
      repeat (eapply runs_lift; [reflexivity|]). apply runs_ret. }
    cbn beta iota. eapply runs_lift; [exact Hstatus|].
    apply (runs_lift _ _ (mv_value m)); [by destruct (mv_value m)|].
    apply (runs_lift _ _ (zlength (mv_source_ids m))).
    { unfold validated_source_count. by rewrite (proj2 (Z.ltb_ge _ _) Hn). }
    unfold zlength. rewrite Nat2Z.id. eapply runs_bind; [by apply runs_repeat, runs_texts|].
    rewrite <- (app_nil_r v2). eapply runs_bind; [by apply runs_text|].
    intros pre post. unfold lift, new_measured_value. cbn [length]. rewrite Nat.add_0_r.
    rewrite measured_eta. by rewrite Hp.
  - destruct (mv_value m); lia.
  - destruct (mv_value m); lia.
  - destruct (mv_value m) as [x|]; [by apply Hv | done].
  - unfold zlength, MAX_SOURCE_IDS in *. lia.
  - unfold zlength, MAX_SOURCE_IDS in *. lia.
Qed.

(** A snapshot that its constructor accepted, with measurements theirs accepted. *)
Definition constructed (s : EnergyInputsSnapshot) : Prop :=
  inputs_post_init s = Ok tt /\ Forall (fun m => measured_value_post_init m = Ok tt) (ei_measurements s).

Record machine_snapshot (s : EnergyInputsSnapshot) : Prop := {
  ms_captured_at : canonical s.(ei_captured_at);
  ms_captured_monotonic : canonical s.(ei_captured_monotonic);
  ms_measurements : Forall machine_measurement (ei_measurements s) }.

(** 37 bytes are a header. *)
Definition header_of (values : list wire_value) : option EnergyHeader :=
  match values with
  | [WBytes magic; WInt schema; WInt sequence; WInt generation; WFloat captured_at; WFloat captured_monotonic] =>
    Some (mkHeader magic schema sequence generation captured_at captured_monotonic)
  | _ => None
  end.

Lemma runs_header c h :
  length c = struct_size HEADER -> header_of (struct_unpack HEADER c) = Some h -> runs read_header h c.
Proof.
  intros Hl Hh. unfold read_header. rewrite <- (app_nil_r c). eapply runs_bind; [by apply runs_unpack|].
  injection Hh as <-. repeat (eapply runs_lift; [reflexivity|]). apply runs_ret.
Qed.

(** A frame is read as its header and its measurements. *)
Lemma runs_frame h c ms chunks n :
  runs read_header h c -> wire_measurement_count h.(eh_magic) h.(eh_schema_version) = Ok n ->
  runs (repeat_m n decode_measurement) ms chunks -> runs frame_body (h, ms) (c ++ chunks).
Proof.
  intros Hh Hn Hms. unfold frame_body. eapply runs_bind; [exact Hh|]. eapply runs_lift; [exact Hn|].
  rewrite <- (app_nil_r chunks). eapply runs_bind; [exact Hms | apply runs_ret].
Qed.

Lemma decode_frame payload h ms s :
  zlength payload <= MAX_PAYLOAD_BYTES -> runs frame_body (h, ms) payload ->
  (all ← complete_measurements ms; decoded_energy_snapshot h all) = Ok s -> decode_energy_inputs payload = Ok s.
Proof.
  intros Hl Hr Hs. unfold decode_energy_inputs. rewrite (proj2 (Z.ltb_ge _ _) Hl).
  apply read_frame_ok in Hr. rewrite Hr. exact Hs.
Qed.

Lemma encode_chunks ms cs :
  Forall machine_measurement ms -> Forall (fun m => measured_value_post_init m = Ok tt) ms ->
  map_res encode_measurement ms = Ok cs -> runs (repeat_m (length ms) decode_measurement) ms (concat cs).
Proof.
  intros Hm Hp H. apply runs_repeat. apply map_res_ok in H.
  induction H as [|m c ms cs Hc _ IH]; [constructor|]. inversion Hm; inversion Hp; subst.
  constructor; [by apply runs_measurement | by apply IH].
Qed.

Lemma natural_value n r : non_negative_int (VInt n) = Ok r -> r = n /\ 0 <= n.
Proof. unfold non_negative_int. destruct (Z.ltb_spec n 0); [done|]. by intros [= <-]. Qed.

Lemma inputs_counters s :
  inputs_post_init s = Ok tt ->
  s.(ei_schema_version) = ENERGY_INPUTS_SCHEMA_VERSION /\ 0 <= s.(ei_sequence) /\ 0 <= s.(ei_topology_generation).
Proof.
  unfold inputs_post_init, schema_version. intros H. res_steps H. res_steps E.
  apply natural_value in E0 as [_ ?], E3 as [_ ?], E4 as [-> _].
  split; [|done]. by destruct (Z.eqb_spec s.(ei_schema_version) ENERGY_INPUTS_SCHEMA_VERSION).
Qed.

Lemma frame_reads_back s b :
  machine_snapshot s -> constructed s -> encode_energy_inputs s = Ok b ->
  zlength b <= MAX_PAYLOAD_BYTES /\ decode_energy_inputs b = Ok s.
Proof.
  intros [Hca Hcm Hms] [Hp Hps] H. pose proof Hp as Hp0. unfold encode_energy_inputs in H. res_steps H.
  destruct (Z.ltb_spec MAX_PAYLOAD_BYTES (zlength (v ++ concat v0))) as [|Hl]; [done|]. injection H as <-.
  split; [lia|]. destruct (inputs_counters s Hp) as (Hsv & _ & _).
  unfold pack in E. destruct (struct_pack HEADER _) as [c|e] eqn:Ec; [|by destruct e].
  injection E as <-.
  assert (Forall2 fits HEADER [WBytes MAGIC; WInt (ei_schema_version s); WInt (ei_sequence s);
    WInt (ei_topology_generation s); WFloat (ei_captured_at s); WFloat (ei_captured_monotonic s)]) as Hf.
  { eapply struct_pack_typed; [|exact Ec]. repeat constructor; done. }
  pose proof (pack_reads HEADER _ c Hf) as Hr. unfold pack in Hr. rewrite Ec in Hr. destruct (Hr eq_refl) as [Hlen Hun].
  eapply decode_frame; [lia | |].
  - eapply runs_frame; [eapply runs_header; [done | rewrite Hun; reflexivity] | |].
    + cbn [eh_magic eh_schema_version]. rewrite Hsv. reflexivity.
    + exact (encode_chunks _ _ Hms Hps E0).
  - unfold complete_measurements, ei_measurements. cbn [length Nat.sub replicate map_res app].
    unfold mbind, res_bind, mret, res_ret, decoded_energy_snapshot. cbn [app]. cbn [eh_sequence eh_topology_generation eh_captured_at eh_captured_monotonic].
    rewrite <- Hsv. unfold new_inputs.
    replace (mkInputs _ _ _ _ _ _ _ _ _ _ _ _) with s by (by destruct s). by rewrite Hp0.
Qed.

(** ** Sizes *)

Lemma pack_fits fmt vs : Forall2 fits fmt vs -> exists c, pack fmt vs = Ok c /\ length c = struct_size fmt.
Proof. intros Hf. destruct (struct_pack_fits _ _ Hf) as (c & Hc & Hl & _). exists c. unfold pack. by rewrite Hc. Qed.

Lemma encode_text_size n s :
  n <= 65535 -> zlength (string_bytes s) <= n -> exists c, encode_text s = Ok c /\ zlength c <= 2 + n.
Proof.
  intros Hn Hs. unfold encode_text. destruct (Z.ltb_spec 65535 (zlength (string_bytes s))); [lia|].
  assert (Forall2 fits TEXT_LENGTH [WInt (zlength (string_bytes s))]) as Hf.
  { constructor; [|constructor]. cbn. unfold zlength in *. lia. }
  destruct (struct_pack_fits _ _ Hf) as (b & Hb & Hl & _). rewrite Hb. eexists. split; [reflexivity|].
  unfold zlength in *. rewrite length_app, Hl. cbn. lia.
Qed.

Lemma encode_all_size {A} (f : A -> res (list Z)) n l :
  Forall (fun x => exists c, f x = Ok c /\ zlength c <= n) l ->
  exists cs, map_res f l = Ok cs /\ zlength (concat cs) <= zlength l * n.
Proof.
  induction 1 as [|x l (c & Hc & Hl) _ (cs & Hcs & Hls)]; [exists []; done|]. exists (c :: cs).
  cbn [map_res]. rewrite Hc, Hcs. split; [done|]. unfold zlength in *. cbn [concat length]. rewrite length_app. lia.
Qed.

(** A measurement of a known status with at most 64 sources and texts of at most 140 bytes. *)
Record compact (m : MeasuredValue) : Prop := {
  cm_status : m.(mv_status) ∈ VALUE_STATUSES;
  cm_sources : zlength m.(mv_source_ids) <= MAX_SOURCE_IDS;
  cm_texts : Forall (fun s => zlength (string_bytes s) <= 140) m.(mv_source_ids);
  cm_reason : zlength (string_bytes m.(mv_reason_code)) <= 140 }.

Lemma encode_measurement_size m :
  machine_measurement m -> compact m -> exists c, encode_measurement m = Ok c /\ zlength c <= 9266.
Proof.
  intros [Hv Ha Hm Hc _ _] [Hs Hn Ht Hr]. unfold encode_measurement. rewrite (proj2 (Z.ltb_ge _ _) Hn).
  assert (exists code, table_get m.(mv_status) STATUS_TO_CODE = Some code /\ 0 <= code < 256) as (code & -> & Hcode).
  { repeat (apply elem_of_cons in Hs as [->|Hs]; [eexists; split; [reflexivity | lia]|]). by apply not_elem_of_nil in Hs. }
  destruct (pack_fits MEASUREMENT [WInt code; WInt (match m.(mv_value) with Some _ => 1 | None => 0 end);
      WFloat (default f0 m.(mv_value)); WFloat m.(mv_observed_at); WFloat m.(mv_observed_monotonic);
      WFloat m.(mv_confidence); WInt (zlength m.(mv_source_ids))]) as (c & Hpack & Hl).
  { assert (0 <= match m.(mv_value) with Some _ => 1 | None => 0 end < 256) by (destruct (mv_value m); lia).
    assert (canonical (default f0 m.(mv_value))) by (destruct (mv_value m); [by apply Hv | done]).
    repeat constructor; cbn; try done; try lia; unfold zlength, MAX_SOURCE_IDS in *; lia. }
  destruct (encode_all_size encode_text 142 m.(mv_source_ids)) as (cs & Hcs & Hls).
  { eapply Forall_impl; [exact Ht|]. intros s Hs'. by apply (encode_text_size 140). }
  destruct (encode_text_size 140 m.(mv_reason_code)) as (r & Hr' & Hlr); [lia|done|].
  unfold mbind, res_bind. rewrite Hpack, Hcs, Hr'. eexists. split; [reflexivity|].
  unfold zlength, MAX_SOURCE_IDS in *. rewrite !length_app, Hl. cbn in *. lia.
Qed.

Lemma encode_total s :
  machine_snapshot s -> s.(ei_schema_version) = ENERGY_INPUTS_SCHEMA_VERSION ->
  0 <= s.(ei_sequence) < 2 ^ 64 -> 0 <= s.(ei_topology_generation) < 2 ^ 64 ->
  Forall compact (ei_measurements s) -> exists b, encode_energy_inputs s = Ok b.
Proof.
  intros [Hca Hcm Hms] Hv Hs Hg Hc. unfold encode_energy_inputs.
  destruct (pack_fits HEADER [WBytes MAGIC; WInt s.(ei_schema_version); WInt s.(ei_sequence);
      WInt s.(ei_topology_generation); WFloat s.(ei_captured_at); WFloat s.(ei_captured_monotonic)]) as (h & -> & Hl).
  { rewrite Hv. repeat constructor; cbn; try done; lia. }
  destruct (encode_all_size encode_measurement 9266 (ei_measurements s)) as (cs & Hcs & Hls).
  { apply Forall_forall. intros m Hm. rewrite Forall_forall in Hms, Hc. by apply encode_measurement_size; auto. }
  unfold mbind, res_bind. rewrite Hcs. eexists.
  assert (zlength (h ++ concat cs) <= MAX_PAYLOAD_BYTES) as Hle; [|by rewrite (proj2 (Z.ltb_ge _ _) Hle)].
  unfold zlength, MAX_PAYLOAD_BYTES in *. rewrite length_app, Hl. cbn in *. lia.
Qed.

(** ** What the decoder accepts *)

(** [r] fails with [ValueError] only. *)
Definition value_errors {A} (r : res A) : Prop := forall e, r = Err e -> e = ValueError.

Lemma value_errors_bind {A B} (r : res A) (f : A -> res B) :
  value_errors r -> (forall a, r = Ok a -> value_errors (f a)) -> value_errors (r ≫= f).
Proof. intros Hr Hf e. destruct r as [a|e0]; cbn; [by apply (Hf a) | by intros [= ->]; apply Hr]. Qed.

Lemma value_errors_ok {A} (a : A) : value_errors (Ok a).
Proof. by intros e. Qed.

Lemma value_errors_err {A} : value_errors (Err ValueError : res A).
Proof. by intros e [= <-]. Qed.

Lemma map_res_errors {A B} (f : A -> res B) l : (forall x, value_errors (f x)) -> value_errors (map_res f l).
Proof.
  intros Hf. induction l as [|x l IH]; [apply value_errors_ok|]. apply value_errors_bind; [apply Hf|]. intros y _.
  apply value_errors_bind; [exact IH|]. intros ys _. apply value_errors_ok.
Qed.

Create HintDb checks.
#[export] Hint Resolve value_errors_ok value_errors_err map_res_errors : checks.

(** [checks_tac] walks a sequence of checks. *)
Ltac checks_tac :=
  repeat lazymatch goal with
  | |- value_errors (mbind _ _) => apply value_errors_bind; [|intros ? _]
  | |- value_errors (mret _) => apply value_errors_ok
  | |- value_errors (if ?b then _ else _) => destruct b
  | |- value_errors (match ?x with _ => _ end) => destruct x
  | |- value_errors _ => solve [auto with checks]
  end.

Lemma finite_errors x : value_errors (finite_float (VFloat x)).
Proof. unfold finite_float. cbn. destruct (isfinite x); auto with checks. Qed.
#[export] Hint Resolve finite_errors : checks.

Lemma text_errors s e : value_errors (text (VStr s) e).
Proof. unfold text. destruct (_ && _); auto with checks. Qed.
#[export] Hint Resolve text_errors : checks.

Lemma texts_errors l : value_errors (unique_text_tuple (VTuple (texts_value l))).
Proof.
  unfold unique_text_tuple, text_tuple. apply value_errors_bind; [|intros n _; checks_tac].
  induction l as [|s l IH]; [apply value_errors_ok|]. cbn [texts_value map map_res]. checks_tac.
Qed.

Lemma status_errors s : value_errors (value_status (VStr s)).
Proof. unfold value_status, literal. checks_tac. Qed.
#[export] Hint Resolve texts_errors status_errors : checks.

Lemma optional_errors o : value_errors (optional_finite_float (val_of_float o)).
Proof. destruct o; cbn [val_of_float optional_finite_float]; unfold optional_finite_float; checks_tac. Qed.

Lemma non_negative_errors x : value_errors (non_negative_float (VFloat x)).
Proof. unfold non_negative_float. checks_tac. Qed.

Lemma positive_errors x : value_errors (positive_float (VFloat x)).
Proof. unfold positive_float. checks_tac. Qed.

Lemma bounded_errors x a b : value_errors (bounded_float (VFloat x) a b).
Proof. unfold bounded_float. checks_tac. Qed.

Lemma natural_errors n : value_errors (non_negative_int (VInt n)).
Proof. unfold non_negative_int. checks_tac. Qed.
#[export] Hint Resolve optional_errors non_negative_errors positive_errors bounded_errors natural_errors : checks.

Lemma measured_errors m : value_errors (new_measured_value m).
Proof. unfold new_measured_value, measured_value_post_init, validate_observed_value, require_positive_timestamp. checks_tac. Qed.

Lemma inputs_errors s : value_errors (new_inputs s).
Proof. unfold new_inputs, inputs_post_init, schema_version. checks_tac. Qed.
#[export] Hint Resolve measured_errors inputs_errors : checks.

(** [m] fails with [ValueError] only. *)
Definition fails_value {S A} (m : M S A) : Prop := forall s, value_errors (fst (m s)).

Lemma fails_bind {S A B} (m : M S A) (f : A -> M S B) :
  fails_value m -> (forall a, fails_value (f a)) -> fails_value (m ≫= f).
Proof.
  intros Hm Hf s. specialize (Hm s). unfold mbind, M_bind. destruct (m s) as [[a|e] s1]; [apply Hf|].
  intros e' [= <-]. by apply Hm.
Qed.

Lemma fails_ret {S A} (a : A) : fails_value (mret a : M S A).
Proof. intros s. apply value_errors_ok. Qed.

Lemma fails_raise {S A} : fails_value (raise ValueError : M S A).
Proof. intros s. apply value_errors_err. Qed.

Lemma fails_lift {S A} (r : res A) : value_errors r -> fails_value (lift r : M S A).
Proof. by intros Hr s. Qed.

Lemma fails_repeat {S A} n (m : M S A) : fails_value m -> fails_value (repeat_m n m).
Proof.
  intros Hm. induction n as [|n IH]; [apply fails_ret|]. cbn [repeat_m].
  apply fails_bind; [done|]. intros v. apply fails_bind; [done|]. intros vs. apply fails_ret.
Qed.

Ltac fails_tac :=
  repeat lazymatch goal with
  | |- fails_value (mbind _ _) => apply fails_bind; [|intros ?]
  | |- fails_value (mret _) => apply fails_ret
  | |- fails_value (raise _) => apply fails_raise
  | |- fails_value (modify _) => intros ?; apply value_errors_ok
  | |- fails_value get => intros ?; apply value_errors_ok
  | |- fails_value (repeat_m _ _) => apply fails_repeat
  | |- fails_value (lift ?r) => apply fails_lift; try solve [auto with checks]
  | |- fails_value (if ?b then _ else _) => destruct b
  | |- fails_value (match ?x with _ => _ end) => destruct x
  | |- fails_value _ => solve [auto with checks]
  end.

Lemma unpack_errors fmt : fails_value (unpack fmt).
Proof. unfold unpack. fails_tac. Qed.

Lemma wire_int_errors v : value_errors (wire_int v).
Proof. destruct v; cbn; auto with checks. Qed.

Lemma wire_float_errors v : value_errors (wire_float v).
Proof. destruct v; cbn; auto with checks. Qed.

Lemma wire_bytes_errors v : value_errors (wire_bytes v).
Proof. destruct v; cbn; auto with checks. Qed.

Lemma decoded_status_errors n : value_errors (decoded_status n).
Proof. unfold decoded_status. checks_tac. Qed.

Lemma decoded_value_errors n x : value_errors (decoded_value n x).
Proof. unfold decoded_value. checks_tac. Qed.

Lemma source_count_errors n : value_errors (validated_source_count n).
Proof. unfold validated_source_count. checks_tac. Qed.

Lemma utf8_errors b : value_errors (decode_utf8 b).
Proof. unfold decode_utf8. checks_tac. Qed.

Lemma count_errors magic n : value_errors (wire_measurement_count magic n).
Proof. unfold wire_measurement_count. checks_tac. Qed.
#[export] Hint Resolve unpack_errors wire_int_errors wire_float_errors wire_bytes_errors decoded_status_errors
  decoded_value_errors source_count_errors utf8_errors count_errors : checks.

Lemma read_text_errors : fails_value read_text.
Proof. unfold read_text. fails_tac. Qed.
#[export] Hint Resolve read_text_errors : checks.

Lemma decode_measurement_errors : fails_value decode_measurement.
Proof. unfold decode_measurement, measurement_fields. fails_tac. Qed.
#[export] Hint Resolve decode_measurement_errors : checks.

Lemma read_frame_errors : fails_value read_frame.
Proof. unfold read_frame, read_header, require_complete. fails_tac. Qed.

(** The measurements a frame holds were accepted by their constructor. *)
Lemma decode_measurement_valid : returns (fun m => measured_value_post_init m = Ok tt) decode_measurement.
Proof.
  unfold decode_measurement. apply returns_last. intros [[[[[[? ?] ?] ?] ?] ?] ?].
  repeat (apply returns_last; intros ?). intros st m H. unfold lift, new_measured_value in H. cbn [fst] in H.
  res_steps H. injection H as <-. by destruct v.
Qed.

Lemma returns_repeat {S A} (V : A -> Prop) n (m : M S A) :
  returns V m -> returns (fun l => Forall V l /\ length l = n) (repeat_m n m).
Proof.
  intros Hm. induction n as [|n IH]; [apply returns_ret; by split|]. cbn [repeat_m].
  eapply returns_bind; [exact Hm|]. intros a Ha. eapply returns_bind; [exact IH|]. intros l [Hl Hn].
  apply returns_ret. split; [by constructor | cbn; by rewrite Hn].
Qed.

Lemma read_frame_valid :
  returns (fun f => Forall (fun m => measured_value_post_init m = Ok tt) (snd f) /\ (length (snd f) = 4 \/ length (snd f) = 7)%nat)
    read_frame.
Proof.
  unfold read_frame. apply returns_last. intros h.
  eapply (returns_bind (fun n => n = 4 \/ n = 7)%nat).
  - intros s n H. unfold lift, wire_measurement_count in H. cbn [fst] in H.
    repeat case_bool_decide; try done; destruct (_ =? _) in H; try done; injection H as <-; auto.
  - intros n Hn. eapply returns_bind; [apply returns_repeat, decode_measurement_valid|]. intros l [Hl Hlen].
    apply returns_last. intros _. apply returns_ret. cbn [snd]. by rewrite Hlen.
Qed.

Lemma complete_measurements_ok ms :
  complete_measurements ms = Ok (ms ++ replicate (7 - length ms) legacy_missing_measurement).
Proof.
  unfold complete_measurements.
  assert (forall n, map_res (fun _ : unit => new_measured_value legacy_missing_measurement) (replicate n tt) =
    Ok (replicate n legacy_missing_measurement)) as ->; [|done].
  intros n. induction n as [|n IH]; [done|]. cbn [replicate map_res]. by rewrite IH.
Qed.

(** Seven measurements and a header make a snapshot, if the constructor accepts it. *)
Lemma decoded_snapshot_cases h ms :
  length ms = 7%nat -> exists s, ei_measurements s = ms /\ decoded_energy_snapshot h ms = new_inputs s.
Proof.
  intros H. do 7 (destruct ms as [|? ms]; [done|]). destruct ms; [|done]. eexists. split; [|reflexivity]. reflexivity.
Qed.

(** Reading a payload: a snapshot that every constructor accepts, or [ValueError]. *)
Lemma decode_outcome payload :
  (exists s, decode_energy_inputs payload = Ok s /\ constructed s) \/ decode_energy_inputs payload = Err ValueError.
Proof.
  unfold decode_energy_inputs. destruct (_ <? _); [by right|].
  pose proof (read_frame_errors (mkReader payload 0)) as He. pose proof (read_frame_valid (mkReader payload 0)) as Hv.
  destruct (fst (read_frame _)) as [[h ms]|e]; cbn [mbind res_bind]; [|right; by rewrite (He e)].
  destruct (Hv _ eq_refl) as [Hms Hlen]. cbn [fst snd] in *. rewrite complete_measurements_ok.
  destruct (decoded_snapshot_cases h (ms ++ replicate (7 - length ms) legacy_missing_measurement)) as (s & Hs & Hd).
  { rewrite length_app, length_replicate. lia. }
  cbn [mbind res_bind]. unfold mbind, res_bind. rewrite Hd. unfold new_inputs, mbind, res_bind.
  pose proof (inputs_errors s) as Herr. unfold new_inputs, mbind, res_bind in Herr.
  destruct (inputs_post_init s) as [[]|e] eqn:Ep; [left|right; by rewrite (Herr e)].
  exists s. split; [done|]. split; [done|]. rewrite Hs. apply Forall_app. split; [done|].
  apply Forall_replicate. reflexivity.
Qed.

(** ** No frame is a prefix of another *)

Lemma decode_ok_body payload s :
  decode_energy_inputs payload = Ok s ->
  zlength payload <= MAX_PAYLOAD_BYTES /\ exists h ms, runs frame_body (h, ms) payload /\
    (all ← complete_measurements ms; decoded_energy_snapshot h all) = Ok s.
Proof.
  unfold decode_energy_inputs. destruct (Z.ltb_spec MAX_PAYLOAD_BYTES (zlength payload)) as [|Hl]; [done|].
  intros H. res_steps H. split; [done|]. apply read_frame_ok in E. destruct v as [h ms]. exists h, ms.
  split; [done|]. apply res_bind_ok. by exists v0.
Qed.

Lemma extended_frame_rejected payload extra s :
  decode_energy_inputs payload = Ok s -> extra <> [] -> decode_energy_inputs (payload ++ extra) = Err ValueError.
Proof.
  intros (Hl & h & ms & R & _)%decode_ok_body Hx. unfold decode_energy_inputs. destruct (_ <? _); [done|].
  specialize (R [] extra). cbn [app length Nat.add] in R.
  assert (fst (read_frame (mkReader (payload ++ extra) 0)) = Err ValueError) as ->; [|done].
  rewrite read_frame_body. unfold mbind, M_bind. rewrite R.
  unfold require_complete, mbind, M_bind, get. cbn [rd_offset rd_payload].
  rewrite bool_decide_false; [done|]. rewrite length_app. destruct extra; [done | cbn; lia].
Qed.

(** C25. The decoder is total and strict: on any bytes it returns a snapshot that every
    constructor accepts (finite values, confidences within 0..1, fresh and stale values present
    and timestamped, no observation after the capture) or raises [ValueError], never anything
    else; and of a frame that decodes, every proper prefix and every extension is rejected. *)
Theorem decoder_accepts_exactly_whole_valid_frames (payload : list Z) :
  (decode_energy_inputs payload = Err ValueError) \/
  (exists s, decode_energy_inputs payload = Ok s /\ constructed s /\ Forall measured_ok (ei_measurements s) /\
     (forall extra, extra <> [] -> decode_energy_inputs (payload ++ extra) = Err ValueError) /\
     (forall n, (n < length payload)%nat -> decode_energy_inputs (take n payload) = Err ValueError)).
Proof.
  destruct (decode_outcome payload) as [(s & Hs & Hc)|He]; [right; exists s|by left].
  split; [done|]. split; [done|]. split; [|split].
  - destruct Hc as [_ Hc]. eapply Forall_impl; [exact Hc|]. apply measured_post_init_ok.
  - intros extra Hx. by eapply extended_frame_rejected.
  - intros n Hn. destruct (decode_outcome (take n payload)) as [(s' & Hs' & _)|]; [exfalso|done].
    apply (extended_frame_rejected _ (drop n payload)) in Hs'.
    + rewrite take_drop, Hs in Hs'. done.
    + intros Hd. apply (f_equal length) in Hd. rewrite length_drop in Hd. cbn in Hd. lia.
Qed.

(** C24. Wire round trip: a snapshot that its constructors accepted, over doubles and Unicode
    texts, that is encoded is at most 65536 bytes long and decodes to the same snapshot, bit by
    bit of every float; and encoding succeeds for every snapshot whose counters fit 64 bits and
    whose measurements have at most 64 sources and texts of at most 140 bytes. *)
Theorem energy_frame_roundtrip (s : EnergyInputsSnapshot) :
  machine_snapshot s -> constructed s ->
  (forall b, encode_energy_inputs s = Ok b ->
     zlength b <= MAX_PAYLOAD_BYTES /\ decode_energy_inputs b = Ok s) /\
  (s.(ei_sequence) < 2 ^ 64 -> s.(ei_topology_generation) < 2 ^ 64 -> Forall compact (ei_measurements s) ->
     exists b, encode_energy_inputs s = Ok b /\ decode_energy_inputs b = Ok s).
Proof.
  intros Hm Hc. split; [intros b; by apply frame_reads_back|]. intros Hs Hg Hk.
  destruct (inputs_counters s (proj1 Hc)) as (Hv & Hs0 & Hg0).
  destruct (encode_total s Hm Hv) as [b Hb]; [lia|lia|done|]. exists b. split; [done|]. by apply frame_reads_back.
Qed.

(** ** Frames of the previous version *)

Lemma repeat_m_app {S A} n k (m : M S A) s :
  repeat_m (n + k) m s = (xs ← repeat_m n m; ys ← repeat_m k m; mret (xs ++ ys)) s.
Proof.
  revert s. induction n as [|n IH]; intros s; cbn [repeat_m Nat.add]; unfold mbind, M_bind, mret, M_ret.
  - by destruct (repeat_m k m s) as [[?|] ?].
  - destruct (m s) as [[x|e] s1]; [|done]. rewrite IH. unfold mbind, M_bind, mret, M_ret.
    destruct (repeat_m n m s1) as [[xs|e] s2]; [|done]. by destruct (repeat_m k m s2) as [[ys|e] s3].
Qed.

Lemma runs_ext {A} (m m' : M reader A) v c : (forall r, m r = m' r) -> runs m v c -> runs m' v c.
Proof. intros He R pre post. rewrite <- He. apply R. Qed.

Lemma runs_repeat_app {A} n k (m : M reader A) xs ys c1 c2 :
  runs (repeat_m n m) xs c1 -> runs (repeat_m k m) ys c2 -> runs (repeat_m (n + k) m) (xs ++ ys) (c1 ++ c2).
Proof.
  intros R1 R2. eapply runs_ext; [intros r; symmetry; apply repeat_m_app|].
  eapply runs_bind; [exact R1|]. rewrite <- (app_nil_r c2). eapply runs_bind; [exact R2 | apply runs_ret].
Qed.

(** A frame that decodes is a header of 37 bytes and its measurements. *)
Lemma runs_body_inv h ms payload :
  runs frame_body (h, ms) payload ->
  exists c chunks n, payload = c ++ chunks /\ length c = struct_size HEADER /\
    header_of (struct_unpack HEADER c) = Some h /\
    wire_measurement_count h.(eh_magic) h.(eh_schema_version) = Ok n /\ runs (repeat_m n decode_measurement) ms chunks.
Proof.
  intros R. specialize (R [] []). cbn [app length Nat.add] in R. rewrite app_nil_r in R.
  unfold frame_body in R. unfold mbind at 1, M_bind in R. destruct (read_header _) as [[h'|e] r1] eqn:Eh; [|done].
  pose proof Eh as Eh0. unfold read_header in Eh0. unfold mbind at 1, M_bind in Eh0.
  destruct (unpack HEADER _) as [[vs|e] r0] eqn:Eu; [|done].
  destruct (consumes_unpack HEADER [] payload vs r0 Eu) as (c & rest & -> & -> & Ru). cbn [app length Nat.add] in *.
  assert (length c = struct_size HEADER) as Hlc.
  { unfold unpack, mbind, M_bind, get in Eu. cbn [rd_offset rd_payload] in Eu. case_bool_decide; [done|].
    injection Eu as _ Eu. by symmetry. }
  assert (vs = struct_unpack HEADER c) as Hvs.
  { pose proof (runs_unpack HEADER c Hlc [] []) as R1. specialize (Ru [] []). congruence. }
  assert (header_of (struct_unpack HEADER c) = Some h' /\ r1 = mkReader (c ++ rest) (length c)) as [Hh ->].
  { rewrite Hvs in Eh0. cbn [HEADER struct_unpack unpack_field] in Eh0 |- *. injection Eh0 as <- <-. done. }
  unfold mbind at 1, M_bind, lift in R. destruct (wire_measurement_count _ _) as [n|e] eqn:Ec; [|done].
  unfold mbind, M_bind in R. destruct (repeat_m n _ _) as [[ms'|e] r2] eqn:Em; [|done].
  destruct (consumes_repeat n _ consumes_measurement _ _ _ _ Em) as (chunks & post & -> & -> & Rm).
  injection R as -> -> Hoff. rewrite !length_app in Hoff. destruct post; [|cbn in Hoff; lia].
  rewrite app_nil_r in *. exists c, chunks, n. by repeat split.
Qed.

(** The header of the current version with the fields of another one. *)
Lemma header_of_upgrade r c h :
  header_of (struct_unpack HEADER (LEGACY_MAGIC ++ [LEGACY_SCHEMA_VERSION] ++ r)) = Some h ->
  c = MAGIC ++ [ENERGY_INPUTS_SCHEMA_VERSION] ++ r ->
  header_of (struct_unpack HEADER c) =
    Some (mkHeader MAGIC ENERGY_INPUTS_SCHEMA_VERSION h.(eh_sequence) h.(eh_topology_generation)
            h.(eh_captured_at) h.(eh_captured_monotonic)) /\
  h.(eh_magic) = LEGACY_MAGIC /\ h.(eh_schema_version) = LEGACY_SCHEMA_VERSION.
Proof.
  intros Hh ->. cbn [HEADER struct_unpack unpack_field header_of field_size] in Hh |- *. injection Hh as <-.
  cbn [eh_sequence eh_topology_generation eh_captured_at eh_captured_monotonic eh_magic eh_schema_version]. done.
Qed.

Lemma missing_measurement_machine : machine_measurement legacy_missing_measurement.
Proof. constructor; try (vm_compute; done); constructor. Qed.

Lemma runs_missing c :
  encode_measurement legacy_missing_measurement = Ok c ->
  runs (repeat_m 3 decode_measurement) (replicate 3 legacy_missing_measurement) (c ++ c ++ c).
Proof.
  intros Hc. assert (runs decode_measurement legacy_missing_measurement c) as R.
  { apply runs_measurement; [exact missing_measurement_machine | reflexivity | exact Hc]. }
  rewrite <- (app_nil_r (c ++ c ++ c)), <- !app_assoc.
  apply (runs_repeat decode_measurement (replicate 3 legacy_missing_measurement) [c; c; c]). repeat constructor; exact R.
Qed.

(** C26. A frame of the previous version means the frame of the current version whose three
    battery-metadata measurements are absent: if a version-3 frame decodes, its snapshot has
    the canonical unobserved values there, and the frame with the current magic and version,
    the same rest and three such measurements decodes to the same snapshot, unless the three
    measurements make it longer than the 65536 bytes a frame may have, when it is refused. *)
Theorem legacy_frame_equals_padded_frame (rest missing : list Z) (s : EnergyInputsSnapshot) :
  encode_measurement legacy_missing_measurement = Ok missing ->
  decode_energy_inputs (LEGACY_MAGIC ++ [LEGACY_SCHEMA_VERSION] ++ rest) = Ok s ->
  s.(ei_battery_capacity_wh) = legacy_missing_measurement /\
  s.(ei_battery_capacity_ah) = legacy_missing_measurement /\
  s.(ei_battery_voltage_v) = legacy_missing_measurement /\
  (let padded := MAGIC ++ [ENERGY_INPUTS_SCHEMA_VERSION] ++ rest ++ missing ++ missing ++ missing in
   if zlength padded <=? MAX_PAYLOAD_BYTES then decode_energy_inputs padded = Ok s
   else decode_energy_inputs padded = Err ValueError).
Proof.
  intros Hmiss (Hl & h & ms & R & Hd)%decode_ok_body.
  apply runs_body_inv in R as (c & chunks & n & Hp & Hlc & Hh & Hn & Rm).
  assert (exists r, c = LEGACY_MAGIC ++ [LEGACY_SCHEMA_VERSION] ++ r /\ rest = r ++ chunks) as (r & -> & ->).
  { assert (5 <= length c)%nat as H5 by (rewrite Hlc; cbn; lia).
    exists (drop 5 c). pose proof (f_equal (take 5) Hp) as Ht. pose proof (f_equal (drop 5) Hp) as Hdr.
    rewrite (take_app_le c) in Ht by done. rewrite (drop_app_le c) in Hdr by done. split; [|exact Hdr].
    rewrite <- (take_drop 5 c) at 1. rewrite <- Ht. done. }
  destruct (header_of_upgrade r _ h Hh eq_refl) as (Hup & Hm & Hv).
  rewrite Hm, Hv in Hn. injection Hn as <-.
  assert (length ms = 4%nat) as Hlen.
  { specialize (Rm [] []). cbn [app length] in Rm. rewrite app_nil_r in Rm.
    by destruct (returns_repeat _ 4 _ decode_measurement_valid _ ms (f_equal fst Rm)). }
  rewrite complete_measurements_ok, Hlen in Hd. cbn [Nat.sub] in Hd.
  pose proof Hd as Hs. destruct ms as [|m0 [|m1 [|m2 [|m3 [|]]]]]; try done.
  unfold mbind at 1, res_bind in Hs. cbn [app replicate decoded_energy_snapshot] in Hs.
  unfold new_inputs in Hs. res_steps Hs. injection Hs as <-. cbn [ei_battery_capacity_wh ei_battery_capacity_ah ei_battery_voltage_v].
  split; [done|]. split; [done|]. split; [done|]. cbv zeta.
  destruct (Z.leb_spec (zlength (MAGIC ++ [ENERGY_INPUTS_SCHEMA_VERSION] ++ (r ++ chunks) ++ missing ++ missing ++ missing)) MAX_PAYLOAD_BYTES)
    as [Hlp|Hlp]; [|unfold decode_energy_inputs; by rewrite (proj2 (Z.ltb_lt _ _) Hlp)].
  replace (MAGIC ++ [ENERGY_INPUTS_SCHEMA_VERSION] ++ (r ++ chunks) ++ missing ++ missing ++ missing)
    with ((MAGIC ++ [ENERGY_INPUTS_SCHEMA_VERSION] ++ r) ++ (chunks ++ missing ++ missing ++ missing)) in *
    by (by rewrite <- !app_assoc).
  eapply decode_frame; [exact Hlp | |].
  - eapply runs_frame; [eapply runs_header; [|exact Hup] | reflexivity | apply (runs_repeat_app 4 3); [exact Rm | by apply runs_missing]].
    rewrite !length_app in *. exact Hlc.
  - rewrite complete_measurements_ok. exact Hd.
Qed.

(** ** Loading *)

Section loading.
Context `{EnergyFiles}.

(** Loading the shared file never lets a file or wire error through: with a float age limit
    and clock, whatever the file holds and even if it cannot be opened (an exception of the
    classes [OSError], [TypeError], [ValueError]), the result is nothing or a valid snapshot
    that is not from the future and, for a limit that is not negative, at most that old. *)
Theorem load_returns_fresh_valid_snapshots (monotonic : float) (path : string) (max_age now : float) :
  (forall n e, read_bytes path n = Err e -> exn_in [OSError; TypeError; ValueError] e = true) ->
  load_energy_inputs_file monotonic path (VFloat max_age) (VFloat now) = Ok None \/
  exists s, load_energy_inputs_file monotonic path (VFloat max_age) (VFloat now) = Ok (Some s) /\
    constructed s /\ isfinite now = true /\
    (f0 <=? now - s.(ei_captured_monotonic))%F = true /\
    ((max_age <? f0)%F = true \/ (now - s.(ei_captured_monotonic) <=? max_age)%F = true).
Proof.
  intros Hread. unfold load_energy_inputs_file.
  assert (exists o, load_energy_inputs_payload path = Ok o /\ forall s, o = Some s -> constructed s) as (o & -> & Ho).
  { unfold load_energy_inputs_payload, read_bounded_payload. destruct (read_bytes _ _) as [b|e] eqn:Er.
    - cbn [mbind res_bind]. unfold mbind, res_bind. destruct (_ <? _); [by exists None|].
      destruct (decode_outcome b) as [(s & -> & Hs)| ->]; [|by exists None].
      exists (Some s). split; [done|]. by intros s' [= <-].
    - exists None. split; [|done]. cbn [mbind res_bind]. unfold catch, mbind, res_bind. by rewrite (Hread _ _ Er). }
  unfold mbind, res_bind, normalized_freshness_inputs, current_monotonic, py_float, mret, res_ret, catch. unfold mbind, res_bind.
  destruct (valid_current_monotonic now) eqn:Hv; cbn [negb]; [|left; by destruct o].
  destruct (isfinite max_age) eqn:Hm; cbn [negb]; [|left; by destruct o]. destruct o as [s|]; [|by left].
  destruct (snapshot_is_fresh s now max_age) eqn:Hf; [right|by left]. exists s. split; [done|].
  split; [by apply Ho|]. apply andb_true_iff in Hv as [_ ->]. split; [done|].
  unfold snapshot_is_fresh in Hf. apply andb_true_iff in Hf as [H1 H2]. split; [done|]. by apply orb_true_iff.
Qed.

End loading.

(** ** Examples *)

Definition sample_measurement : MeasuredValue :=
  mkMeasuredValue (Some (f_of_Z (-1250))) (f_of_Z 100) "fresh" f1 ["grid-meter"] "" (f_of_Z 50).

Definition sample_snapshot : EnergyInputsSnapshot :=
  mkInputs 7 (f_of_Z 101) 3 sample_measurement legacy_missing_measurement sample_measurement
    legacy_missing_measurement legacy_missing_measurement legacy_missing_measurement legacy_missing_measurement
    4 (f_of_Z 51).

Lemma sample_measurement_machine : machine_measurement sample_measurement.
Proof. constructor; try (vm_compute; done); [intros x [= <-]; vm_compute; done | repeat constructor; vm_compute; done]. Qed.

Lemma sample_machine : machine_snapshot sample_snapshot.
Proof.
  constructor; [vm_compute; done | vm_compute; done|].
  repeat constructor; try apply sample_measurement_machine; apply missing_measurement_machine.
Qed.

Lemma sample_constructed : constructed sample_snapshot.
Proof. split; [vm_compute; reflexivity|]. repeat constructor. Qed.

Lemma energy_frame_roundtrip_witness :
  exists b, encode_energy_inputs sample_snapshot = Ok b /\ zlength b = 387 /\ decode_energy_inputs b = Ok sample_snapshot.
Proof.
  eexists. split; [vm_compute; reflexivity|]. split; [vm_compute; reflexivity|].
  apply (proj1 (energy_frame_roundtrip sample_snapshot sample_machine sample_constructed)). vm_compute. reflexivity.
Defined.

Definition sample_bytes : list Z := match encode_energy_inputs sample_snapshot with Ok b => b | Err _ => [] end.
Definition missing_bytes : list Z := match encode_measurement legacy_missing_measurement with Ok b => b | Err _ => [] end.

Lemma legacy_frame_equals_padded_frame_witness :
  let rest := take 232 (drop 5 sample_bytes) in
  let padded := MAGIC ++ [ENERGY_INPUTS_SCHEMA_VERSION] ++ rest ++ missing_bytes ++ missing_bytes ++ missing_bytes in
  decode_energy_inputs (LEGACY_MAGIC ++ [LEGACY_SCHEMA_VERSION] ++ rest) = Ok sample_snapshot /\
  zlength padded <= MAX_PAYLOAD_BYTES /\
  if zlength padded <=? MAX_PAYLOAD_BYTES then decode_energy_inputs padded = Ok sample_snapshot
  else decode_energy_inputs padded = Err ValueError.
Proof.
  cbv zeta. split; [vm_compute; reflexivity|]. split; [vm_compute; discriminate|].
  apply (legacy_frame_equals_padded_frame (take 232 (drop 5 sample_bytes)) missing_bytes sample_snapshot);
    vm_compute; reflexivity.
Defined.

(** A file system with one frame in it. *)
Definition one_frame : EnergyFiles :=
  {| read_bytes path n := if (path =? "energy.bin")%string then Ok (take n sample_bytes) else Err OSError |}.

Lemma load_returns_fresh_valid_snapshots_witness :
  load_energy_inputs_file (H := one_frame) f0 "energy.bin" (VFloat (f_of_Z 5)) (VFloat (f_of_Z 53)) = Ok (Some sample_snapshot) /\
  (load_energy_inputs_file (H := one_frame) f0 "energy.bin" (VFloat f1) (VFloat (f_of_Z 53)) = Ok None \/
   exists s, load_energy_inputs_file (H := one_frame) f0 "energy.bin" (VFloat f1) (VFloat (f_of_Z 53)) = Ok (Some s) /\
    constructed s /\ isfinite (f_of_Z 53) = true /\
    (f0 <=? f_of_Z 53 - s.(ei_captured_monotonic))%F = true /\
    ((f1 <? f0)%F = true \/ (f_of_Z 53 - s.(ei_captured_monotonic) <=? f1)%F = true)).
Proof.
  split; [vm_compute; reflexivity|].
  apply (load_returns_fresh_valid_snapshots (H := one_frame) f0 "energy.bin" f1 (f_of_Z 53)).
  intros n e. cbn. by destruct (take n sample_bytes).
Defined.
