(* ===== verification/GatewayLatency.v ===== *)
(** * Latency windows of the D-Bus gateway

    [dbus_gateway_latency.py]: the rolling window of latencies and timeouts, its percentiles,
    and the attribution of windows to operation kinds and sources within a fixed memory bound.
    The clock reading of a call is its argument [now]. *)

From S2P Require Import Prelude PyFloat PyValue OrderedMap Rounding.

(** ** The window *)

(** dbus_gateway_latency.py: LatencySummary *)
Record LatencySummary := mkSummary {
  ls_samples_60s : Z; ls_timeouts_60s : Z; ls_avg_latency_ms : float; ls_p95_latency_ms : float;
  ls_p99_latency_ms : float; ls_max_latency_ms : float }.

(** dbus_gateway_latency.py: _empty_latency_summary *)
Definition empty_latency_summary : LatencySummary := mkSummary 0 0 f0 f0 f0 f0.

Record LatencyWindow := mkWindow {
  lw_window_seconds : float; lw_latencies : list (float * float); lw_timeouts : list float }.

(** dbus_gateway_latency.py: LatencyWindow.__init__ *)
Definition new_window (window_seconds : float) : LatencyWindow := mkWindow (fmax f1 window_seconds) [] [].

(** dbus_gateway_latency.py: LatencyWindow._prune *)
Definition prune_window (w : LatencyWindow) (now : float) : LatencyWindow :=
  let cutoff := (now - w.(lw_window_seconds))%F in
  mkWindow w.(lw_window_seconds)
    (drop_while (fun sample => (fst sample <? cutoff)%F) w.(lw_latencies))
    (drop_while (fun at_ => (at_ <? cutoff)%F) w.(lw_timeouts)).

(** dbus_gateway_latency.py: LatencyWindow.record_latency *)
Definition record_latency (w : LatencyWindow) (latency_ms now : float) : LatencyWindow :=
  prune_window (mkWindow w.(lw_window_seconds) (w.(lw_latencies) ++ [(now, fmax f0 latency_ms)]) w.(lw_timeouts)) now.

(** dbus_gateway_latency.py: LatencyWindow.record_timeout *)
Definition record_timeout (w : LatencyWindow) (now : float) : LatencyWindow :=
  prune_window (mkWindow w.(lw_window_seconds) w.(lw_latencies) (w.(lw_timeouts) ++ [now])) now.

(** dbus_gateway_latency.py: _percentile *)
Definition percentile (values : list float) (fraction : float) : res float :=
  match values with
  | [] => Ok f0
  | _ =>
    let ordered := sort_by flt values in
    size ← float_of_int (Z.of_nat (length ordered));
    let rank := Z.max 1 (fceil (fraction * size)%F) in
    match nth_error ordered (Z.to_nat (rank - 1)) with Some x => Ok x | None => Err IndexError end
  end.

(** [sum(values) / len(values) if values else 0.0] *)
Definition average (values : list float) : res float :=
  match values with
  | [] => Ok f0
  | _ => size ← float_of_int (Z.of_nat (length values)); float_div (float_sum values) size
  end.

(** The summary and the pruned window.
    dbus_gateway_latency.py: LatencyWindow.summary *)
Definition window_summary (w : LatencyWindow) (now : float) : res LatencySummary * LatencyWindow :=
  let pruned := prune_window w now in
  let latencies := map snd pruned.(lw_latencies) in
  (avg ← average latencies;
   p95 ← percentile latencies (fdec 95 100);
   p99 ← percentile latencies (fdec 99 100);
   mret (mkSummary (Z.of_nat (length latencies)) (Z.of_nat (length pruned.(lw_timeouts))) avg p95 p99
           (match latencies with [] => f0 | x :: rest => fold_left fmax rest x end)), pruned).

(** ** Attribution *)

(** dbus_gateway_latency.py: ATTRIBUTION_OVERFLOW_KEY *)
Definition ATTRIBUTION_OVERFLOW_KEY : string := "<other>".

Record BoundedLatencyAttribution := mkAttribution {
  ba_window_seconds : float; ba_max_operation_kinds : Z; ba_max_sources_per_kind : Z;
  ba_windows : odict string (odict string LatencyWindow) }.

(** dbus_gateway_latency.py: BoundedLatencyAttribution.__init__ *)
Definition new_attribution (window_seconds : float) (max_operation_kinds max_sources_per_kind : Z)
    : BoundedLatencyAttribution :=
  mkAttribution (fmax f1 window_seconds) (Z.max 1 max_operation_kinds) (Z.max 1 max_sources_per_kind) [].

(** dbus_gateway_latency.py: BoundedLatencyAttribution._bounded_key *)
Definition bounded_key {V} (values : odict string V) (requested : string) (limit : Z) : string :=
  if od_mem requested values then requested
  else if negb (requested =? ATTRIBUTION_OVERFLOW_KEY)%string && (Z.of_nat (length values) <? limit - 1) then requested
  else ATTRIBUTION_OVERFLOW_KEY.

(** Replace the window of a kind and a source by [f] of it; a new one is created empty.
    dbus_gateway_latency.py: BoundedLatencyAttribution._window *)
Definition with_window (a : BoundedLatencyAttribution) (kind source : string) (f : LatencyWindow -> LatencyWindow)
    : BoundedLatencyAttribution :=
  let operation_key := bounded_key a.(ba_windows) kind a.(ba_max_operation_kinds) in
  let sources := default [] (od_get operation_key a.(ba_windows)) in
  let source_key := bounded_key sources source a.(ba_max_sources_per_kind) in
  let window := default (new_window a.(ba_window_seconds)) (od_get source_key sources) in
  mkAttribution a.(ba_window_seconds) a.(ba_max_operation_kinds) a.(ba_max_sources_per_kind)
    (od_set operation_key (od_set source_key (f window) sources) a.(ba_windows)).

(** dbus_gateway_latency.py: BoundedLatencyAttribution.record_latency *)
Definition attribute_latency (a : BoundedLatencyAttribution) (kind source : string) (latency_ms now : float)
    : BoundedLatencyAttribution := with_window a kind source (fun w => record_latency w latency_ms now).

(** dbus_gateway_latency.py: BoundedLatencyAttribution.record_timeout *)
Definition attribute_timeout (a : BoundedLatencyAttribution) (kind source : string) (now : float)
    : BoundedLatencyAttribution := with_window a kind source (fun w => record_timeout w now).

(** The keys under which the existing window of a kind and a source is found.
    dbus_gateway_latency.py: BoundedLatencyAttribution._existing_window *)
Definition existing_window (a : BoundedLatencyAttribution) (kind source : string)
    : option (string * string * LatencyWindow) :=
  let in_kind k :=
    match od_get k a.(ba_windows) with
    | None => None
    | Some sources =>
      Some (match od_get source sources with
            | Some w => Some (k, source, w)
            | None => match od_get ATTRIBUTION_OVERFLOW_KEY sources with
                      | Some w => Some (k, ATTRIBUTION_OVERFLOW_KEY, w) | None => None end
            end)
    end in
  match in_kind kind with
  | Some found => found
  | None => match in_kind ATTRIBUTION_OVERFLOW_KEY with Some found => found | None => None end
  end.

(** dbus_gateway_latency.py: BoundedLatencyAttribution.source_summary *)
Definition source_summary (a : BoundedLatencyAttribution) (kind source : string) (now : float)
    : res LatencySummary * BoundedLatencyAttribution :=
  match existing_window a kind source with
  | None => (Ok empty_latency_summary, a)
  | Some (k, s, w) =>
    let '(summary, pruned) := window_summary w now in
    (summary, mkAttribution a.(ba_window_seconds) a.(ba_max_operation_kinds) a.(ba_max_sources_per_kind)
                (od_set k (od_set s pruned (default [] (od_get k a.(ba_windows)))) a.(ba_windows)))
  end.

(** The summaries of all windows, by sorted kind and source, and the pruned windows.
    dbus_gateway_latency.py: BoundedLatencyAttribution.summary *)
Definition attribution_summary (a : BoundedLatencyAttribution) (now : float)
    : res (odict string (odict string LatencySummary)) * BoundedLatencyAttribution :=
  (map_res (fun kind_sources =>
      summaries ← map_res (fun source_window =>
          summary ← fst (window_summary (snd source_window) now); mret (fst source_window, summary))
        (sorted_items (snd kind_sources));
      mret (fst kind_sources, summaries)) (sorted_items a.(ba_windows)),
   mkAttribution a.(ba_window_seconds) a.(ba_max_operation_kinds) a.(ba_max_sources_per_kind)
     (map (fun kind_sources => (fst kind_sources,
        map (fun source_window => (fst source_window, prune_window (snd source_window) now)) (snd kind_sources)))
        a.(ba_windows))).

(** ** Sorting and pruning *)

(** Elements that pass the test stay, with everything after them. *)
Lemma drop_while_keeps {A} test (l1 l2 : list A) :
  Forall (fun x => test x = false) l2 -> exists l1', drop_while test (l1 ++ l2) = l1' ++ l2.
Proof.
  intros H. induction l1 as [|x l1 IH]; cbn [app drop_while].
  - exists []. destruct H as [|x l Hx]; [done|]. cbn. by rewrite Hx.
  - destruct (test x); [exact IH|]. by exists (x :: l1).
Qed.

(** ** The summary never fails *)

Lemma percentile_ok values m1 :
  2 ^ 52 <= Z.pos m1 < 2 ^ 53 -> zlength values < 2 ^ 53 -> is_ok (percentile values (S754_finite false m1 (-53))).
Proof.
  intros Hm Hl. unfold percentile. destruct values as [|x rest] eqn:Ev; [by eexists|]. rewrite <- Ev in *.
  assert (0 < zlength values) as Hpos by (rewrite Ev; unfold zlength; cbn; lia). rewrite sort_by_length.
  unfold zlength in *. destruct (float_of_int_small (Z.of_nat (length values))) as (y & Hy & _); [lia|].
  assert (y = f_of_Z (Z.of_nat (length values))) as ->.
  { unfold float_of_int in Hy. destruct (f_of_Z _); try discriminate Hy; by injection Hy as <-. }
  rewrite Hy. cbn [mbind res_bind]. unfold mbind, res_bind.
  pose proof (fraction_ceil_le m1 (Z.of_nat (length values)) Hm ltac:(lia)) as Hc.
  destruct (nth_error _ _) as [z|] eqn:En; [by eexists|]. apply nth_error_None in En. rewrite sort_by_length in En. lia.
Qed.

Lemma average_ok values : zlength values < 2 ^ 53 -> is_ok (average values).
Proof.
  intros Hl. unfold average. destruct values as [|x rest] eqn:Ev; [by eexists|]. rewrite <- Ev in *.
  unfold zlength in *. destruct (float_of_int_small (Z.of_nat (length values))) as (y & -> & _ & _ & Ht); [lia|].
  cbn [mbind res_bind]. unfold mbind, res_bind, float_div. rewrite Ht.
  destruct (Z.eqb_spec (Z.of_nat (length values)) 0) as [E|]; [rewrite Ev in E; cbn in E; lia | by eexists].
Qed.

Lemma p95_value : fdec 95 100 = S754_finite false 8556839292003942 (-53).
Proof. vm_compute. reflexivity. Qed.

Lemma p99_value : fdec 99 100 = S754_finite false 8917127262193582 (-53).
Proof. vm_compute. reflexivity. Qed.

(** A summary counts what the pruned window holds. *)
Lemma window_summary_ok w now :
  zlength (prune_window w now).(lw_latencies) < 2 ^ 53 ->
  exists s, window_summary w now = (Ok s, prune_window w now) /\
    s.(ls_samples_60s) = zlength (prune_window w now).(lw_latencies) /\
    s.(ls_timeouts_60s) = zlength (prune_window w now).(lw_timeouts).
Proof.
  intros Hl. unfold window_summary. set (pruned := prune_window w now) in *.
  assert (zlength (map snd pruned.(lw_latencies)) = zlength pruned.(lw_latencies)) as Hm
    by (unfold zlength; by rewrite length_map).
  rewrite p95_value, p99_value. set (latencies := map snd pruned.(lw_latencies)) in *.
  destruct (average_ok latencies) as [avg ->]; [lia|].
  destruct (percentile_ok latencies 8556839292003942) as [p95 ->]; [lia|lia|].
  destruct (percentile_ok latencies 8917127262193582) as [p99 ->]; [lia|lia|].
  eexists. split; [reflexivity|]. split; [exact Hm | done].
Qed.

(** ** The memory bound *)

Lemma od_set_length {V} k (v : V) (d : odict string V) :
  length (od_set k v d) = if od_mem k d then length d else Datatypes.S (length d).
Proof.
  unfold od_mem. induction d as [|[k' v'] d IH]; [done|]. cbn [od_set od_get]. case_decide as E.
  - rewrite bool_decide_true by (by eexists). done.
  - cbn [length]. rewrite IH. by case_bool_decide.
Qed.

Lemma od_mem_set {V} k k' (v : V) (d : odict string V) : od_mem k (od_set k' v d) = bool_decide (k = k') || od_mem k d.
Proof.
  unfold od_mem. rewrite od_get_set. case_decide as E.
  - rewrite !bool_decide_true by (done || by eexists). done.
  - by rewrite (bool_decide_false (k = k')).
Qed.

(** One place is kept free for the overflow key. *)
Definition within {V} (limit : Z) (d : odict string V) : Prop :=
  zlength d <= limit - 1 \/ (od_mem ATTRIBUTION_OVERFLOW_KEY d = true /\ zlength d <= limit).

Lemma within_set {V} limit requested (v : V) d :
  within limit d -> within limit (od_set (bounded_key d requested limit) v d).
Proof.
  unfold within, bounded_key, zlength. intros H. rewrite od_set_length, od_mem_set.
  destruct (od_mem requested d) eqn:Em.
  - rewrite Em. destruct H as [H|[-> H]]; [by left | right]. by rewrite orb_true_r.
  - destruct (negb _ && _) eqn:En.
    + rewrite Em. apply andb_true_iff in En as [_ Hl%Z.ltb_lt]. left. lia.
    + destruct (od_mem ATTRIBUTION_OVERFLOW_KEY d) eqn:Eo; [rewrite orb_true_r; destruct H as [H|[_ H]]; [left|right]; done|].
      destruct H as [H|[? _]]; [|done]. right. rewrite bool_decide_true by done. split; [done|lia].
Qed.

(** What bounds the attribution. *)
Record bounded_attribution (a : BoundedLatencyAttribution) : Prop := {
  bd_kinds : within a.(ba_max_operation_kinds) a.(ba_windows);
  bd_sources : forall k sources, od_get k a.(ba_windows) = Some sources -> within a.(ba_max_sources_per_kind) sources;
  bd_limits : 1 <= a.(ba_max_sources_per_kind) }.

Lemma with_window_bounded a kind source f : bounded_attribution a -> bounded_attribution (with_window a kind source f).
Proof.
  intros [Hk Hs Hl]. unfold with_window. constructor; cbn [ba_windows ba_max_operation_kinds ba_max_sources_per_kind].
  - by apply within_set.
  - intros k sources. rewrite od_get_set. case_decide as E; [|by apply Hs]. intros [= <-]. apply within_set.
    destruct (od_get (bounded_key _ kind _) _) as [d|] eqn:Ed; [by eapply Hs | left; unfold zlength; cbn; lia].
  - done.
Qed.

Lemma new_attribution_bounded w k s : bounded_attribution (new_attribution w k s).
Proof. constructor; cbn; [left; unfold zlength; cbn; lia | done | lia]. Qed.
