(* ===== verification/DbusCircuit.v ===== *)
(** * Rate limiter and circuit breaker of the D-Bus adapter

    [dbus_adapter/rate.py] and [dbus_adapter/dbus_errors.py]: operations of one kind are
    spaced, timeouts degrade the gateway or make it protective, and optional work is held
    back meanwhile.  The readings of the two clocks are arguments: [monotonic_at] of
    [time.monotonic()], [captured_at] of [time.time()]. *)

From S2P Require Import Prelude PyFloat PyValue OrderedMap Rounding GatewayLatency.
From Stdlib Require Import Sorted.

(** ** Errors *)

(** A raised exception: [isinstance(error, TimeoutError)], [str(error)], the name of its class
    and the outcome of [get_dbus_name()], if it has one. *)
Record gateway_error := mkGatewayError {
  ge_is_timeout : bool; ge_text : string; ge_type_name : string; ge_dbus_name : option (res string) }.

(** [marker in text] *)
Definition text_contains (marker text : string) : bool :=
  match String.index 0 marker text with Some _ => true | None => false end.

(** dbus_adapter/dbus_errors.py: _bounded_text *)
Definition bounded_text (value : string) : string := string_take 256 (py_strip value).

(** The classes of [DBUS_GATEWAY_OPERATION_ERRORS] are handled.
    dbus_adapter/dbus_errors.py: _dbus_error_name *)
Definition dbus_error_name (error : gateway_error) : res string :=
  match error.(ge_dbus_name) with
  | None => Ok ""
  | Some r => catch (name ← r; mret (py_lower name)) [OSError; RuntimeError; TypeError; ValueError] (Ok "")
  end.

(** dbus_adapter/dbus_errors.py: dbus_error_is_timeout *)
Definition dbus_error_is_timeout (error : gateway_error) : res bool :=
  if error.(ge_is_timeout) then Ok true
  else
    let detail := py_lower error.(ge_text) in
    name ← dbus_error_name error;
    mret (existsb (fun marker => text_contains marker detail) ["timeout"; "timed out"; "noreply"; "no_reply"] ||
          text_contains "noreply" name).

(** dbus_adapter/dbus_errors.py: dbus_error_code *)
Definition dbus_error_code (error : gateway_error) : res string :=
  name ← dbus_error_name error;
  if negb (name =? "")%string then Ok (bounded_text name)
  else if error.(ge_is_timeout) then Ok "timeout"
  else
    let type_name := py_replace "_" "-" (py_lower (py_strip error.(ge_type_name))) in
    Ok (bounded_text (if (type_name =? "")%string then "dbus-error" else type_name)).

(** ** The rate limiter *)

(** dbus_adapter/rate.py: DbusRateLimiter *)
Record DbusRateLimiter := mkLimiter { rl_intervals : list (string * float); rl_next_at : list (string * float) }.
#[export] Instance eta_limiter : Eta DbusRateLimiter := fun l => mkLimiter l.(rl_intervals) l.(rl_next_at).

(** dbus_adapter/rate.py: DbusRateLimiter.__init__ *)
Definition new_limiter (read_interval write_interval introspection_interval : float) : DbusRateLimiter :=
  mkLimiter [("read", fmax f0 read_interval); ("write", fmax f0 write_interval);
             ("introspection", fmax f0 introspection_interval)]
            [("read", f0); ("write", f0); ("introspection", f0)].

Definition entry (kind : string) (t : list (string * float)) : res float :=
  match table_get kind t with Some x => Ok x | None => Err KeyError end.

(** dbus_adapter/rate.py: DbusRateLimiter.due *)
Definition limiter_due (kind : string) (now : float) : M DbusRateLimiter bool :=
  l ← get;
  next ← lift (entry kind l.(rl_next_at));
  mret (now >=? next)%F.

(** dbus_adapter/rate.py: DbusRateLimiter.mark *)
Definition limiter_mark (kind : string) (now : float) : M DbusRateLimiter unit :=
  l ← get;
  interval ← lift (entry kind l.(rl_intervals));
  modify (fun l => l <| rl_next_at := table_set kind (now + interval)%F l.(rl_next_at) |>).

(** The two calls read the clock one after the other.
    dbus_adapter/rate.py: DbusRateLimiter.require_due *)
Definition require_due (kind : string) (now now_marked : float) : M DbusRateLimiter unit :=
  is_due ← limiter_due kind now;
  if negb is_due then raise OperationDeferred else limiter_mark kind now_marked.

(** ** The circuit breaker *)

Definition DBUS_OPERATION_KIND : string := "dbus".
(** dbus_adapter/rate.py: DBUS_DEGRADED_TIMEOUTS_PER_MINUTE *)
Definition DBUS_DEGRADED_TIMEOUTS_PER_MINUTE : Z := 3.
(** dbus_adapter/rate.py: DBUS_PROTECTIVE_TIMEOUTS_PER_MINUTE *)
Definition DBUS_PROTECTIVE_TIMEOUTS_PER_MINUTE : Z := 5.
(** dbus_adapter/rate.py: PRIORITY_RANKS *)
Definition PRIORITY_RANKS : list (string * Z) :=
  [("safety", 0); ("user", 1); ("publish", 2); ("read", 3); ("optional", 4); ("discovery", 5); ("diagnostic", 6)].
(** dbus_adapter/rate.py: PROTECTIVE_MAX_ALLOWED_PRIORITY_RANK *)
Definition PROTECTIVE_MAX_ALLOWED_PRIORITY_RANK : Z := 3.
(** dbus_adapter/rate.py: DEGRADED_MAX_ALLOWED_PRIORITY_RANK *)
Definition DEGRADED_MAX_ALLOWED_PRIORITY_RANK : Z := 4.
(** dbus_adapter/rate.py: DEFAULT_PRIORITY_RANK *)
Definition DEFAULT_PRIORITY_RANK : Z := 6.

(** dbus_adapter/rate.py: ProtectiveTriggerEvidence *)
Record ProtectiveTriggerEvidence := mkEvidence {
  tr_triggered_at : float; tr_protective_until : float; tr_timeout_count_60s : Z; tr_operation_kind : string;
  tr_source : string; tr_error_code : string; tr_latency_ms : option float }.
#[export] Instance eta_evidence : Eta ProtectiveTriggerEvidence := fun t =>
  mkEvidence t.(tr_triggered_at) t.(tr_protective_until) t.(tr_timeout_count_60s) t.(tr_operation_kind)
    t.(tr_source) t.(tr_error_code) t.(tr_latency_ms).

(** dbus_adapter/rate.py: ProtectiveTriggerEvidence.to_payload *)
Definition evidence_payload (t : ProtectiveTriggerEvidence) : odict string pyval :=
  [("triggered_at", VFloat t.(tr_triggered_at)); ("protective_until", VFloat t.(tr_protective_until));
   ("timeout_count_60s", VInt t.(tr_timeout_count_60s)); ("operation_kind", VStr t.(tr_operation_kind));
   ("source", VStr t.(tr_source)); ("error_code", VStr t.(tr_error_code));
   ("latency_ms", val_of_float t.(tr_latency_ms))].

(** dbus_adapter/rate.py: _TimeoutEvent *)
Record TimeoutEvent := mkTimeoutEvent {
  te_error : gateway_error; te_kind : string; te_source : string; te_latency_ms : option float;
  te_monotonic_at : float; te_captured_at : float }.

(** dbus_adapter/rate.py: _normalized_kind *)
Definition normalized_kind (kind : string) : string :=
  let normalized := py_strip kind in if (normalized =? "")%string then DBUS_OPERATION_KIND else normalized.

(** dbus_adapter/rate.py: _normalized_priority *)
Definition normalized_priority (priority : string) : string :=
  let normalized := py_lower (py_strip priority) in if (normalized =? "")%string then "diagnostic" else normalized.

(** dbus_adapter/rate.py: _epoch_deadline_to_monotonic *)
Definition epoch_deadline_to_monotonic (deadline monotonic_at captured_at : float) : float :=
  if (deadline <=? f0)%F then f0 else (monotonic_at + fmax f0 (deadline - captured_at))%F.

(** dbus_adapter/rate.py: _bounded_diagnostic_text *)
Definition bounded_diagnostic_text (value : string) : string := string_take 256 (py_strip value).

(** dbus_adapter/rate.py: DbusCircuitBreaker *)
Record DbusCircuitBreaker := mkBreaker {
  cb_latencies : LatencyWindow; cb_latencies_by_kind : odict string LatencyWindow;
  cb_latencies_by_source : BoundedLatencyAttribution;
  cb_degraded_until_monotonic : float; cb_protective_until_monotonic : float;
  cb_degraded_until_epoch : float; cb_protective_until_epoch : float;
  cb_degraded_seconds : float; cb_protective_seconds : float;
  cb_last_success_at : float; cb_last_error : string;
  cb_errors : list (float * string); cb_successes : list (float * string);
  cb_consecutive_failures : Z; cb_last_protective_trigger : option ProtectiveTriggerEvidence }.
#[export] Instance eta_breaker : Eta DbusCircuitBreaker := fun b =>
  mkBreaker b.(cb_latencies) b.(cb_latencies_by_kind) b.(cb_latencies_by_source) b.(cb_degraded_until_monotonic)
    b.(cb_protective_until_monotonic) b.(cb_degraded_until_epoch) b.(cb_protective_until_epoch)
    b.(cb_degraded_seconds) b.(cb_protective_seconds) b.(cb_last_success_at) b.(cb_last_error) b.(cb_errors)
    b.(cb_successes) b.(cb_consecutive_failures) b.(cb_last_protective_trigger).

(** dbus_adapter/rate.py: DbusCircuitBreaker.__init__ *)
Definition new_breaker (degraded_seconds protective_seconds : float) : DbusCircuitBreaker :=
  mkBreaker (new_window (f_of_Z 60)) [] (new_attribution (f_of_Z 60) 8 16) f0 f0 f0 f0
    (fmax f1 degraded_seconds) (fmax f1 protective_seconds) f0 "" [] [] 0 None.

(** dbus_adapter/rate.py: DbusCircuitBreaker.degraded_until *)
Definition set_degraded_until (value monotonic_at captured_at : float) : M DbusCircuitBreaker unit :=
  _ ← modify (fun b => b <| cb_degraded_until_epoch := fmax f0 value |>);
  modify (fun b => b <| cb_degraded_until_monotonic :=
                          epoch_deadline_to_monotonic b.(cb_degraded_until_epoch) monotonic_at captured_at |>).

(** dbus_adapter/rate.py: DbusCircuitBreaker.protective_until *)
Definition set_protective_until (value monotonic_at captured_at : float) : M DbusCircuitBreaker unit :=
  _ ← modify (fun b => b <| cb_protective_until_epoch := fmax f0 value |>);
  modify (fun b => b <| cb_protective_until_monotonic :=
                          epoch_deadline_to_monotonic b.(cb_protective_until_epoch) monotonic_at captured_at |>).

(** Replace the window of a kind by [f] of it.
    dbus_adapter/rate.py: DbusCircuitBreaker._kind_window *)
Definition with_kind_window (kind : string) (f : LatencyWindow -> LatencyWindow) (b : DbusCircuitBreaker)
    : DbusCircuitBreaker :=
  let normalized := normalized_kind kind in
  let window := default (new_window (f_of_Z 60)) (od_get normalized b.(cb_latencies_by_kind)) in
  b <| cb_latencies_by_kind := od_set normalized (f window) b.(cb_latencies_by_kind) |>.

(** dbus_adapter/rate.py: DbusCircuitBreaker._record_latency *)
Definition breaker_record_latency (latency_ms : float) (kind source : string) (monotonic_at : float)
    : M DbusCircuitBreaker unit :=
  _ ← modify (fun b => b <| cb_latencies := record_latency b.(cb_latencies) latency_ms monotonic_at |>);
  _ ← modify (with_kind_window kind (fun w => record_latency w latency_ms monotonic_at));
  when (negb (source =? "")%string)
    (modify (fun b => b <| cb_latencies_by_source :=
        attribute_latency b.(cb_latencies_by_source) kind source latency_ms monotonic_at |>)).

(** dbus_adapter/rate.py: DbusCircuitBreaker._record_timeout *)
Definition breaker_record_timeout (kind source : string) (monotonic_at : float) : M DbusCircuitBreaker unit :=
  _ ← modify (fun b => b <| cb_latencies := record_timeout b.(cb_latencies) monotonic_at |>);
  _ ← modify (with_kind_window kind (fun w => record_timeout w monotonic_at));
  when (negb (source =? "")%string)
    (modify (fun b => b <| cb_latencies_by_source :=
        attribute_timeout b.(cb_latencies_by_source) kind source monotonic_at |>)).

(** dbus_adapter/rate.py: DbusCircuitBreaker._prune_events *)
Definition prune_events (now : float) : M DbusCircuitBreaker unit :=
  let cutoff := (now - f_of_Z 60)%F in
  let old (event : float * string) := (fst event <? cutoff)%F in
  modify (fun b => (b <| cb_errors := drop_while old b.(cb_errors) |>)
                     <| cb_successes := drop_while old b.(cb_successes) |>).

(** dbus_adapter/rate.py: DbusCircuitBreaker._extend_degraded_deadline *)
Definition extend_degraded_deadline (monotonic_at captured_at : float) : M DbusCircuitBreaker unit :=
  b ← get;
  let candidate := (monotonic_at + b.(cb_degraded_seconds))%F in
  when (candidate >? b.(cb_degraded_until_monotonic))%F
    (modify (fun b => (b <| cb_degraded_until_monotonic := candidate |>)
                        <| cb_degraded_until_epoch := (captured_at + b.(cb_degraded_seconds))%F |>)).

(** dbus_adapter/rate.py: DbusCircuitBreaker._extend_protective_deadline *)
Definition extend_protective_deadline (monotonic_at captured_at : float) : M DbusCircuitBreaker unit :=
  b ← get;
  let candidate := (monotonic_at + b.(cb_protective_seconds))%F in
  when (candidate >? b.(cb_protective_until_monotonic))%F
    (modify (fun b => (b <| cb_protective_until_monotonic := candidate |>)
                        <| cb_protective_until_epoch := (captured_at + b.(cb_protective_seconds))%F |>)).

(** dbus_adapter/rate.py: DbusCircuitBreaker._active_protective_trigger *)
Definition active_protective_trigger (b : DbusCircuitBreaker) (monotonic_at : float)
    : option ProtectiveTriggerEvidence :=
  if (monotonic_at >=? b.(cb_protective_until_monotonic))%F then None else b.(cb_last_protective_trigger).

(** dbus_adapter/rate.py: DbusCircuitBreaker._record_protective_timeout *)
Definition record_protective_timeout (event : TimeoutEvent) (count : Z) : M DbusCircuitBreaker unit :=
  before ← get;
  let was_protective := (event.(te_monotonic_at) <? before.(cb_protective_until_monotonic))%F in
  _ ← extend_protective_deadline event.(te_monotonic_at) event.(te_captured_at);
  b ← get;
  let inactive := match active_protective_trigger b event.(te_monotonic_at) with None => true | Some _ => false end in
  if negb was_protective || inactive then
    error_code ← lift (dbus_error_code event.(te_error));
    modify (fun b => b <| cb_last_protective_trigger :=
      Some (mkEvidence event.(te_captured_at) b.(cb_protective_until_epoch) count event.(te_kind)
              (bounded_diagnostic_text event.(te_source)) error_code (fmax f0 <$> event.(te_latency_ms))) |>)
  else
    match b.(cb_last_protective_trigger) with
    | Some trigger =>
      modify (fun b => b <| cb_last_protective_trigger :=
                              Some (trigger <| tr_protective_until := b.(cb_protective_until_epoch) |>) |>)
    | None => mret tt
    end.

(** dbus_adapter/rate.py: DbusCircuitBreaker._record_timeout_error *)
Definition record_timeout_error (event : TimeoutEvent) : M DbusCircuitBreaker unit :=
  _ ← breaker_record_timeout event.(te_kind) event.(te_source) event.(te_monotonic_at);
  b ← get;
  let '(summary, pruned) := window_summary b.(cb_latencies) event.(te_monotonic_at) in
  _ ← modify (fun b => b <| cb_latencies := pruned |>);
  summary ← lift summary;
  let count := summary.(ls_timeouts_60s) in
  if DBUS_PROTECTIVE_TIMEOUTS_PER_MINUTE <? count then record_protective_timeout event count
  else if DBUS_DEGRADED_TIMEOUTS_PER_MINUTE <=? count
       then extend_degraded_deadline event.(te_monotonic_at) event.(te_captured_at)
       else mret tt.

(** dbus_adapter/rate.py: DbusCircuitBreaker.record_success *)
Definition record_success (latency_ms : float) (kind source : string) (captured_at monotonic_at : float)
    : M DbusCircuitBreaker unit :=
  let normalized_kind := normalized_kind kind in
  _ ← breaker_record_latency latency_ms normalized_kind source monotonic_at;
  _ ← modify (fun b => b <| cb_successes := b.(cb_successes) ++ [(monotonic_at, normalized_kind)] |>);
  _ ← prune_events monotonic_at;
  modify (fun b => ((b <| cb_last_success_at := captured_at |>) <| cb_last_error := "" |>)
                     <| cb_consecutive_failures := 0 |>).

(** dbus_adapter/rate.py: DbusCircuitBreaker.record_error *)
Definition record_error (error : gateway_error) (kind source : string) (latency_ms : option float)
    (captured_at monotonic_at : float) : M DbusCircuitBreaker unit :=
  let normalized_kind := normalized_kind kind in
  _ ← modify (fun b => (b <| cb_last_error := error.(ge_text) |>)
                         <| cb_errors := b.(cb_errors) ++ [(monotonic_at, normalized_kind)] |>);
  _ ← prune_events monotonic_at;
  _ ← modify (fun b => b <| cb_consecutive_failures := b.(cb_consecutive_failures) + 1 |>);
  _ ← match latency_ms with
      | Some latency => breaker_record_latency latency normalized_kind source monotonic_at
      | None => mret tt
      end;
  is_timeout ← lift (dbus_error_is_timeout error);
  when is_timeout
    (record_timeout_error (mkTimeoutEvent error normalized_kind source latency_ms monotonic_at captured_at)).

(** dbus_adapter/rate.py: DbusCircuitBreaker.record_optional_source_failure *)
Definition record_optional_source_failure (error : gateway_error) (source : string) (latency_ms monotonic_at : float)
    : M DbusCircuitBreaker unit :=
  _ ← breaker_record_latency latency_ms "optional_read" source monotonic_at;
  when (negb (source =? "")%string)
    (is_timeout ← lift (dbus_error_is_timeout error);
     when is_timeout
       (modify (fun b => b <| cb_latencies_by_source :=
           attribute_timeout b.(cb_latencies_by_source) "optional_read" source monotonic_at |>))).

(** The state on the monotonic clock.
    dbus_adapter/rate.py: DbusCircuitBreaker.state *)
Definition breaker_state (b : DbusCircuitBreaker) (monotonic_at : float) : string :=
  if (monotonic_at <? b.(cb_protective_until_monotonic))%F then "protective"
  else if (monotonic_at <? b.(cb_degraded_until_monotonic))%F then "degraded" else "ok".

(** dbus_adapter/rate.py: DbusCircuitBreaker._state_for_epoch *)
Definition state_for_epoch (b : DbusCircuitBreaker) (captured_at : float) : string :=
  if (captured_at <? b.(cb_protective_until_epoch))%F then "protective"
  else if (captured_at <? b.(cb_degraded_until_epoch))%F then "degraded" else "ok".

(** dbus_adapter/rate.py: DbusCircuitBreaker.allows_priority *)
Definition allows_priority (b : DbusCircuitBreaker) (priority : string) (monotonic_at : float) : bool :=
  let rank := default DEFAULT_PRIORITY_RANK (table_get (normalized_priority priority) PRIORITY_RANKS) in
  let state := breaker_state b monotonic_at in
  if (state =? "protective")%string then rank <=? PROTECTIVE_MAX_ALLOWED_PRIORITY_RANK
  else if (state =? "degraded")%string then rank <=? DEGRADED_MAX_ALLOWED_PRIORITY_RANK
  else true.

(** dbus_adapter/rate.py: DbusCircuitBreaker.optional_source_interval_factor *)
Definition optional_source_interval_factor (source : string) (monotonic_at : float) : M DbusCircuitBreaker float :=
  b ← get;
  let '(summary, attribution) := source_summary b.(cb_latencies_by_source) "optional_read" source monotonic_at in
  _ ← modify (fun b => b <| cb_latencies_by_source := attribution |>);
  summary ← lift summary;
  mret (if summary.(ls_samples_60s) <? 3 then f1
        else if (summary.(ls_p99_latency_ms) >=? f_of_Z 750)%F then f_of_Z 5
        else if (summary.(ls_p95_latency_ms) >=? f_of_Z 250)%F then f_of_Z 3
        else f1).

(** The entries of a summary. *)
Definition summary_payload (s : LatencySummary) : odict string pyval :=
  [("samples_60s", VInt s.(ls_samples_60s)); ("timeouts_60s", VInt s.(ls_timeouts_60s));
   ("avg_latency_ms", VFloat s.(ls_avg_latency_ms)); ("p95_latency_ms", VFloat s.(ls_p95_latency_ms));
   ("p99_latency_ms", VFloat s.(ls_p99_latency_ms)); ("max_latency_ms", VFloat s.(ls_max_latency_ms))].

Definition dict_value (d : odict string pyval) : pyval := VDict (map (fun kv => (VStr (fst kv), snd kv)) d).

(** The last reading of the clock, for the state, is [state_at].
    dbus_adapter/rate.py: DbusCircuitBreaker.health *)
Definition breaker_health (monotonic_at state_at : float) : M DbusCircuitBreaker (odict string pyval) :=
  _ ← prune_events monotonic_at;
  b ← get;
  let '(summary, pruned) := window_summary b.(cb_latencies) monotonic_at in
  _ ← modify (fun b => b <| cb_latencies := pruned |>);
  summary ← lift summary;
  b ← get;
  let active_trigger := active_protective_trigger b monotonic_at in
  operations ← lift (map_res (fun kind_window =>
      s ← fst (window_summary (snd kind_window) monotonic_at);
      mret (fst kind_window, dict_value (summary_payload s))) (sorted_items b.(cb_latencies_by_kind)));
  _ ← modify (fun b => b <| cb_latencies_by_kind :=
        map (fun kind_window => (fst kind_window, prune_window (snd kind_window) monotonic_at)) b.(cb_latencies_by_kind) |>);
  let '(sources, attribution) := attribution_summary b.(cb_latencies_by_source) monotonic_at in
  _ ← modify (fun b => b <| cb_latencies_by_source := attribution |>);
  sources ← lift sources;
  let evidence trigger := match trigger with None => VNone | Some t => dict_value (evidence_payload t) end in
  mret ([("state", VStr (breaker_state b state_at));
         ("degraded_until", VFloat (fmax b.(cb_degraded_until_epoch) b.(cb_protective_until_epoch)));
         ("last_success_at", VFloat b.(cb_last_success_at)); ("last_error", VStr b.(cb_last_error));
         ("active_protective_trigger", evidence active_trigger);
         ("last_protective_trigger", evidence b.(cb_last_protective_trigger));
         ("errors_60s", VInt (zlength b.(cb_errors))); ("successes_60s", VInt (zlength b.(cb_successes)));
         ("consecutive_failures", VInt b.(cb_consecutive_failures)); ("operations", dict_value operations);
         ("operation_sources", dict_value (map (fun ks => (fst ks,
             dict_value (map (fun ss => (fst ss, dict_value (summary_payload (snd ss)))) (snd ks)))) sources))]
        ++ summary_payload summary).

(** ** Events *)

Inductive gateway_event :=
  | Succeeded (latency_ms : float) (kind source : string)
  | Failed (error : gateway_error) (kind source : string) (latency_ms : option float)
  | OptionalFailed (error : gateway_error) (source : string) (latency_ms : float).

(** An event with the readings of the two clocks. *)
Record timed_event := mkTimed { ev_event : gateway_event; ev_monotonic : float; ev_captured : float }.

Definition run_event (e : timed_event) : M DbusCircuitBreaker unit :=
  match e.(ev_event) with
  | Succeeded latency kind source => record_success latency kind source e.(ev_captured) e.(ev_monotonic)
  | Failed error kind source latency => record_error error kind source latency e.(ev_captured) e.(ev_monotonic)
  | OptionalFailed error source latency => record_optional_source_failure error source latency e.(ev_monotonic)
  end.

Definition run_events (b : DbusCircuitBreaker) (history : list timed_event) : DbusCircuitBreaker :=
  fold_left (fun b e => snd (run_event e b)) history b.

(** A failure of required work that is classified as a timeout. *)
Definition timed_out (e : timed_event) : bool :=
  match e.(ev_event) with
  | Failed error _ _ _ => match dbus_error_is_timeout error with Ok b => b | Err _ => false end
  | _ => false
  end.

Definition timeout_times (history : list timed_event) : list float :=
  map ev_monotonic (List.filter timed_out history).

(** Not more than 60 seconds before [now]. *)
Definition recent (now t : float) : bool := negb (t <? now - f_of_Z 60)%F.

(** The monotonic clock does not go back. *)
Definition clock_order (times : list float) : Prop := StronglySorted (fun a b => (a <=? b)%F = true) times.

(** ** What an event does to the deadlines *)

(** The window of all operations becomes [w]; the deadlines stay. *)
Record quiet (w : LatencyWindow) (b b' : DbusCircuitBreaker) : Prop := {
  qt_latencies : b'.(cb_latencies) = w;
  qt_degraded : b'.(cb_degraded_until_monotonic) = b.(cb_degraded_until_monotonic);
  qt_protective : b'.(cb_protective_until_monotonic) = b.(cb_protective_until_monotonic);
  qt_degraded_seconds : b'.(cb_degraded_seconds) = b.(cb_degraded_seconds);
  qt_protective_seconds : b'.(cb_protective_seconds) = b.(cb_protective_seconds) }.

Ltac run_methods := unfold mbind, M_bind, modify, lift, when, mret, M_ret; cbn [fst snd].

Lemma record_latency_quiet latency kind source m b :
  fst (breaker_record_latency latency kind source m b) = Ok tt /\
  quiet (record_latency b.(cb_latencies) latency m) b (snd (breaker_record_latency latency kind source m b)).
Proof. unfold breaker_record_latency. run_methods. by destruct (negb _). Qed.

Lemma success_quiet latency kind source c m b :
  quiet (record_latency b.(cb_latencies) latency m) b (snd (record_success latency kind source c m b)).
Proof.
  unfold record_success, prune_events. run_methods.
  destruct (record_latency_quiet latency (normalized_kind kind) source m b) as [Hr [? ? ? ? ?]].
  destruct (breaker_record_latency _ _ _ _ _) as [r b1]. cbn [fst snd] in *. subst r. by constructor.
Qed.

Lemma optional_quiet error source latency m b :
  quiet (record_latency b.(cb_latencies) latency m) b (snd (record_optional_source_failure error source latency m b)).
Proof.
  unfold record_optional_source_failure. run_methods.
  destruct (record_latency_quiet latency "optional_read" source m b) as [Hr [? ? ? ? ?]].
  destruct (breaker_record_latency _ _ _ _ _) as [r b1]. cbn [fst snd] in *. subst r.
  destruct (negb _); [|by constructor]. destruct (dbus_error_is_timeout error) as [[]|]; by constructor.
Qed.

(** The window after the latency of a failure, if it has one. *)
Definition after_latency (w : LatencyWindow) (latency_ms : option float) (m : float) : LatencyWindow :=
  match latency_ms with Some latency => record_latency w latency m | None => w end.

(** A failure: its latency is recorded, then a timeout is handled. *)
Lemma error_runs error kind source latency c m b :
  exists b1, quiet (after_latency b.(cb_latencies) latency m) b b1 /\
    snd (record_error error kind source latency c m b) =
      match dbus_error_is_timeout error with
      | Ok true => snd (record_timeout_error (mkTimeoutEvent error (normalized_kind kind) source latency m c) b1)
      | _ => b1
      end.
Proof.
  unfold record_error, prune_events. run_methods. set (b0 := _ <| cb_consecutive_failures := _ |>).
  assert (quiet b.(cb_latencies) b b0) as [H1 H2 H3 H4 H5] by done.
  destruct latency as [l|]; cbn [after_latency].
  - destruct (record_latency_quiet l (normalized_kind kind) source m b0) as [Hr [G1 G2 G3 G4 G5]].
    destruct (breaker_record_latency _ _ _ _ b0) as [r b1]. cbn [fst snd] in *. subst r. exists b1.
    split; [constructor; congruence|]. by destruct (dbus_error_is_timeout error) as [[]|].
  - exists b0. split; [done|]. by destruct (dbus_error_is_timeout error) as [[]|].
Qed.

(** The timeout is counted. *)
Lemma record_timeout_calm kind source m b :
  let b1 := snd (breaker_record_timeout kind source m b) in
  fst (breaker_record_timeout kind source m b) = Ok tt /\
  b1.(cb_latencies) = record_timeout b.(cb_latencies) m /\
  b1.(cb_degraded_until_monotonic) = b.(cb_degraded_until_monotonic) /\
  b1.(cb_protective_until_monotonic) = b.(cb_protective_until_monotonic) /\
  b1.(cb_degraded_seconds) = b.(cb_degraded_seconds) /\ b1.(cb_protective_seconds) = b.(cb_protective_seconds).
Proof. unfold breaker_record_timeout. cbv zeta. unfold mbind, M_bind, modify, when. cbn. by destruct (negb _). Qed.

(** The moves of the protective deadline. *)
Record extended (m : float) (b b' : DbusCircuitBreaker) : Prop := {
  ex_latencies : b'.(cb_latencies) = b.(cb_latencies);
  ex_degraded : b'.(cb_degraded_until_monotonic) = b.(cb_degraded_until_monotonic);
  ex_degraded_seconds : b'.(cb_degraded_seconds) = b.(cb_degraded_seconds);
  ex_protective_seconds : b'.(cb_protective_seconds) = b.(cb_protective_seconds);
  ex_protective : b'.(cb_protective_until_monotonic) =
    if (m + b.(cb_protective_seconds) >? b.(cb_protective_until_monotonic))%F
    then (m + b.(cb_protective_seconds))%F else b.(cb_protective_until_monotonic) }.

Lemma record_protective_extends event count b :
  extended event.(te_monotonic_at) b (snd (record_protective_timeout event count b)).
Proof.
  unfold record_protective_timeout, extend_protective_deadline, when, mbind, M_bind, get, modify, lift, mret, M_ret.
  destruct (_ <? _ + _)%F eqn:E; cbn [fst snd];
    destruct (negb _ || _); try destruct (dbus_error_code _); cbn [fst snd];
    try (destruct (cb_last_protective_trigger _)); cbn [fst snd]; constructor; try done; cbn; by rewrite E.
Qed.

Lemma extend_degraded_value m c b :
  let b' := snd (extend_degraded_deadline m c b) in
  b'.(cb_latencies) = b.(cb_latencies) /\
  b'.(cb_protective_until_monotonic) = b.(cb_protective_until_monotonic) /\
  b'.(cb_degraded_seconds) = b.(cb_degraded_seconds) /\ b'.(cb_protective_seconds) = b.(cb_protective_seconds) /\
  b'.(cb_degraded_until_monotonic) =
    if (m + b.(cb_degraded_seconds) >? b.(cb_degraded_until_monotonic))%F
    then (m + b.(cb_degraded_seconds))%F else b.(cb_degraded_until_monotonic).
Proof.
  unfold extend_degraded_deadline, when, mbind, M_bind, get, modify, mret, M_ret.
  destruct (_ <? _ + _)%F eqn:E; cbn; rewrite ?E; done.
Qed.

Lemma summary_count w now s p :
  window_summary w now = (Ok s, p) -> p = prune_window w now /\ s.(ls_timeouts_60s) = zlength p.(lw_timeouts).
Proof.
  unfold window_summary. intros [= Hs <-]. split; [done|]. res_steps Hs. injection Hs as <-. done.
Qed.

(** The breaker after the timeout is in the window and the window is pruned. *)
Lemma timeout_error_cases event b :
  let m := event.(te_monotonic_at) in
  let b' := snd (record_timeout_error event b) in
  let w := prune_window (record_timeout b.(cb_latencies) m) m in
  b'.(cb_latencies) = w /\ b'.(cb_degraded_seconds) = b.(cb_degraded_seconds) /\
  b'.(cb_protective_seconds) = b.(cb_protective_seconds) /\
  let ok := match fst (window_summary (record_timeout b.(cb_latencies) m) m) with Ok _ => true | Err _ => false end in
  b'.(cb_protective_until_monotonic) =
    (if ok && (6 <=? zlength w.(lw_timeouts)) && (m + b.(cb_protective_seconds) >? b.(cb_protective_until_monotonic))%F
     then (m + b.(cb_protective_seconds))%F else b.(cb_protective_until_monotonic)) /\
  (b'.(cb_degraded_until_monotonic) = b.(cb_degraded_until_monotonic) \/
     3 <= zlength w.(lw_timeouts) /\ b'.(cb_degraded_until_monotonic) = (m + b.(cb_degraded_seconds))%F).
Proof.
  cbv zeta. set (m := te_monotonic_at event). set (w := prune_window (record_timeout (cb_latencies b) m) m).
  destruct (record_timeout_error event b) as [r' b'] eqn:E. cbn [snd].
  pose proof (record_timeout_calm event.(te_kind) event.(te_source) m b) as (Hr & Hl & Hd & Hp & Hds & Hps).
  unfold record_timeout_error in E. fold m in E. unfold mbind at 1, M_bind in E.
  destruct (breaker_record_timeout _ _ _ _) as [r b1]. cbn [fst snd] in *. subst r.
  unfold mbind, M_bind, get in E. rewrite Hl in E.
  destruct (window_summary (record_timeout (cb_latencies b) m) m) as [rs p] eqn:Es.
  cbn [fst]. assert (p = w) as -> by (unfold window_summary in Es; by injection Es as _ <-).
  cbn [modify lift] in E. set (b2 := b1 <| cb_latencies := w |>) in *.
  assert (b2.(cb_latencies) = w /\ b2.(cb_degraded_until_monotonic) = b.(cb_degraded_until_monotonic) /\
    b2.(cb_protective_until_monotonic) = b.(cb_protective_until_monotonic) /\
    b2.(cb_degraded_seconds) = b.(cb_degraded_seconds) /\ b2.(cb_protective_seconds) = b.(cb_protective_seconds))
    as (F1 & F2 & F3 & F4 & F5) by (subst b2; cbn; by rewrite Hd, Hp, Hds, Hps).
  clearbody b2. clear Hl Hd Hp Hds Hps.
  destruct rs as [s|e]; cbn [lift] in E.
  2: { injection E as <- <-. rewrite F1, F2, F3, F4, F5. repeat split; by left. }
  apply summary_count in Es as [_ Hcount]. unfold DBUS_PROTECTIVE_TIMEOUTS_PER_MINUTE, DBUS_DEGRADED_TIMEOUTS_PER_MINUTE in E.
  rewrite Hcount in E. cbn [andb].
  destruct (Z.ltb_spec 5 (zlength (lw_timeouts w))); [|destruct (Z.leb_spec 3 (zlength (lw_timeouts w)))].
  - rewrite (proj2 (Z.leb_le 6 _)) by lia.
    pose proof (record_protective_extends event (zlength (lw_timeouts w)) b2) as [E1 E2 E3 E4 E5].
    fold m in E5. rewrite E in *. cbn [snd] in *. rewrite E1, E2, E3, E4, E5, F1, F2, F3, F4, F5.
    repeat split. by left.
  - rewrite (proj2 (Z.leb_gt 6 _)) by lia.
    pose proof (extend_degraded_value m event.(te_captured_at) b2) as (E1 & E2 & E3 & E4 & E5). rewrite E in *. cbn [snd] in *.
    rewrite E1, E2, E3, E4, E5. clear E1 E2 E3 E4 E5. rewrite F1, F2, F3, F4, F5.
    repeat split. destruct (_ <? _)%F; [by right | by left].
  - rewrite (proj2 (Z.leb_gt 6 _)) by lia.
    injection E as <- <-. rewrite F1, F2, F3, F4, F5. repeat split. by left.
Qed.

(** ** One event *)

(** What an event makes of the window of all operations. *)
Definition event_window (e : timed_event) (w : LatencyWindow) : LatencyWindow :=
  let m := e.(ev_monotonic) in
  match e.(ev_event) with
  | Succeeded latency _ _ | OptionalFailed _ _ latency => record_latency w latency m
  | Failed _ _ _ latency =>
    let w1 := after_latency w latency m in
    if timed_out e then prune_window (record_timeout w1 m) m else w1
  end.

(** The timeout an event adds to the window. *)
Definition event_timeouts (e : timed_event) : list float := if timed_out e then [e.(ev_monotonic)] else [].

(** A storm of timeouts ends with this event. *)
Definition trips (e : timed_event) (n : Z) (w : LatencyWindow) : bool :=
  timed_out e && (n <=? zlength (event_window e w).(lw_timeouts)).

Lemma run_event_effect e b :
  let b' := snd (run_event e b) in
  let w := event_window e b.(cb_latencies) in
  b'.(cb_latencies) = w /\ b'.(cb_degraded_seconds) = b.(cb_degraded_seconds) /\
  b'.(cb_protective_seconds) = b.(cb_protective_seconds) /\
  (exists ok : bool, (zlength w.(lw_latencies) < 2 ^ 53 -> ok = true) /\
     b'.(cb_protective_until_monotonic) =
       if ok && trips e 6 b.(cb_latencies) && (e.(ev_monotonic) + b.(cb_protective_seconds) >? b.(cb_protective_until_monotonic))%F
       then (e.(ev_monotonic) + b.(cb_protective_seconds))%F else b.(cb_protective_until_monotonic)) /\
  (b'.(cb_degraded_until_monotonic) = b.(cb_degraded_until_monotonic) \/
     trips e 3 b.(cb_latencies) = true /\ b'.(cb_degraded_until_monotonic) = (e.(ev_monotonic) + b.(cb_degraded_seconds))%F).
Proof.
  destruct e as [[latency kind source|error kind source latency|error source latency] m c];
    unfold run_event, trips, event_window, timed_out; cbn [ev_event ev_monotonic ev_captured]; cbv zeta.
  - destruct (success_quiet latency kind source c m b) as [-> -> -> -> ->].
    repeat split; [by exists true | by left].
  - destruct (error_runs error kind source latency c m b) as (b1 & [H1 H2 H3 H4 H5] & ->).
    destruct (dbus_error_is_timeout error) as [[|]|].
    + set (event := mkTimeoutEvent _ _ _ _ _ _).
      destruct (timeout_error_cases event b1) as (-> & -> & -> & -> & Hd).
      change (te_monotonic_at event) with m in *. rewrite H1, H2, H3, H4, H5 in *. repeat split.
      * exists (match fst (window_summary (record_timeout (after_latency b.(cb_latencies) latency m) m) m) with
                Ok _ => true | Err _ => false end). split; [|reflexivity].
        intros Hl. destruct (window_summary_ok _ _ Hl) as (s & -> & _). done.
      * destruct Hd as [->|[Hd ->]]; [by left|right]. split; [|done]. apply Z.leb_le. exact Hd.
    + rewrite H1, H2, H3, H4, H5. repeat split; [by exists true | by left].
    + rewrite H1, H2, H3, H4, H5. repeat split; [by exists true | by left].
  - destruct (optional_quiet error source latency m b) as [-> -> -> -> ->]. repeat split; [by exists true | by left].
Qed.

(** ** The window along a history *)

Lemma sorted_suffix l1 l2 : clock_order (l1 ++ l2) -> clock_order l2.
Proof. induction l1 as [|x l1 IH]; [done|]. inversion 1; subst. by apply IH. Qed.

Lemma drop_while_head {A} (test : A -> bool) l :
  match drop_while test l with [] => True | x :: _ => test x = false end.
Proof. induction l as [|x l IH]; [done|]. cbn. by destruct (test x) eqn:E. Qed.


Section window.
Context (e : timed_event) (w : LatencyWindow).
Let m := e.(ev_monotonic).
Let old (t : float) : bool := (t <? m - w.(lw_window_seconds))%F.

Lemma event_window_seconds : (event_window e w).(lw_window_seconds) = w.(lw_window_seconds).
Proof. unfold event_window. destruct e.(ev_event) as [| ? ? ? [] |]; try done; by destruct (timed_out e). Qed.

Lemma event_window_latencies : zlength (event_window e w).(lw_latencies) <= zlength w.(lw_latencies) + 1.
Proof.
  assert (forall A (test : A -> bool) l, zlength (drop_while test l) <= zlength l) as Hd.
  { intros A test l. destruct (drop_while_suffix test l) as [pre E]. unfold zlength. rewrite E at 2. rewrite length_app. lia. }
  assert (forall latency, zlength (record_latency w latency m).(lw_latencies) <= zlength w.(lw_latencies) + 1) as Hr.
  { intros latency. unfold record_latency, prune_window. cbn [lw_latencies lw_window_seconds]. etrans; [apply Hd|].
    unfold zlength. rewrite length_app. cbn. lia. }
  unfold event_window. fold m. destruct e.(ev_event) as [? ? ?|? ? ? latency|? ? ?]; try apply Hr.
  assert (zlength (after_latency w latency m).(lw_latencies) <= zlength w.(lw_latencies) + 1) as Ha
    by (destruct latency; [apply Hr | cbn; lia]).
  destruct (timed_out e); [|done]. unfold record_timeout, prune_window. cbn [lw_latencies lw_window_seconds].
  etrans; [apply Hd|]. etrans; [apply Hd|]. exact Ha.
Qed.

(** The timeouts in the window are the newest ones. *)
Lemma event_window_timeouts :
  exists dropped, w.(lw_timeouts) ++ event_timeouts e = dropped ++ (event_window e w).(lw_timeouts).
Proof.
  assert (forall l, exists d, l = d ++ drop_while old l) as Hd by (intros; apply drop_while_suffix).
  unfold event_window, event_timeouts, timed_out. fold m. destruct e.(ev_event) as [? ? ?|error ? ? latency|? ? ?];
    try (rewrite app_nil_r; apply Hd).
  assert (exists d, w.(lw_timeouts) = d ++ (after_latency w latency m).(lw_timeouts) /\
    (after_latency w latency m).(lw_window_seconds) = w.(lw_window_seconds)) as (d & Hda & Hws).
  { destruct latency; [destruct (Hd w.(lw_timeouts)) as [d ?]; by exists d | by exists []]. }
  destruct (match dbus_error_is_timeout error with Ok b => b | Err _ => false end);
    [|rewrite app_nil_r; by exists d].
  unfold record_timeout, prune_window. cbn [lw_timeouts lw_window_seconds]. rewrite Hws.
  destruct (Hd ((after_latency w latency m).(lw_timeouts) ++ [m])) as [d1 E1].
  destruct (Hd (drop_while old ((after_latency w latency m).(lw_timeouts) ++ [m]))) as [d2 E2].
  exists (d ++ d1 ++ d2). rewrite Hda, <- !app_assoc. f_equal. rewrite E1 at 1. f_equal. exact E2.
Qed.

(** Recent timeouts stay in the window. *)
Lemma event_window_keeps l1 l2 :
  w.(lw_timeouts) = l1 ++ l2 -> Forall (fun t => old t = false) (l2 ++ event_timeouts e) ->
  exists l1', (event_window e w).(lw_timeouts) = l1' ++ l2 ++ event_timeouts e.
Proof.
  intros Hw Hall. apply Forall_app in Hall as [Hl2 Hnew].
  assert (forall a b, Forall (fun t => old t = false) b -> exists a', drop_while old (a ++ b) = a' ++ b) as Hk
    by (intros; by apply drop_while_keeps).
  unfold event_window, event_timeouts, timed_out in *. fold m in Hnew |- *.
  destruct e.(ev_event) as [? ? ?|error ? ? latency|? ? ?];
    try (rewrite app_nil_r; cbn; rewrite Hw; by apply Hk).
  assert (exists a, (after_latency w latency m).(lw_timeouts) = a ++ l2 /\
    (after_latency w latency m).(lw_window_seconds) = w.(lw_window_seconds)) as (a & Ha & Hws).
  { destruct latency; cbn; rewrite Hw; [destruct (Hk l1 l2 Hl2) as [a ?]; by exists a | by exists l1]. }
  destruct (match dbus_error_is_timeout error with Ok b => b | Err _ => false end);
    [|rewrite app_nil_r; by exists a].
  unfold record_timeout, prune_window. cbn [lw_timeouts lw_window_seconds]. rewrite Hws, Ha, <- app_assoc.
  destruct (Hk a (l2 ++ [m])) as [a1 E1]; [by apply Forall_app|]. fold old. rewrite E1.
  apply Hk. by apply Forall_app.
Qed.

(** After a timeout the window holds recent timeouts only, on a clock that does not go back. *)
Lemma event_window_recent :
  timed_out e = true -> clock_order (w.(lw_timeouts) ++ [m]) ->
  Forall (fun t => old t = false) (event_window e w).(lw_timeouts).
Proof.
  intros Ht Hs. destruct event_window_timeouts as [dropped Hw]. unfold event_timeouts in Hw. rewrite Ht in Hw.
  fold m in Hw. rewrite Hw in Hs. apply sorted_suffix in Hs.
  assert (exists x, (event_window e w).(lw_timeouts) = drop_while old x) as [x Hx].
  { unfold event_window, timed_out in *. fold m. destruct e.(ev_event) as [? ? ?|error ? ? latency|? ? ?]; try done.
    rewrite Ht. unfold record_timeout, prune_window. cbn [lw_timeouts lw_window_seconds].
    replace (after_latency w latency m).(lw_window_seconds) with w.(lw_window_seconds) by (by destruct latency).
    by eexists. }
  pose proof (drop_while_head old x) as Hh. rewrite <- Hx in Hh.
  destruct Hs as [|y l Hl Hy]; [constructor|]. constructor; [done|].
  eapply Forall_impl; [exact Hy|]. intros z Hz. cbn beta in Hz. unfold old in *.
  destruct (z <? m - lw_window_seconds w)%F eqn:E; [|done]. exfalso.
  assert ((y <? m - lw_window_seconds w)%F = true) by forder. congruence.
Qed.

End window.

(** ** Histories *)

Lemma timeout_times_snoc h e : timeout_times (h ++ [e]) = timeout_times h ++ event_timeouts e.
Proof.
  unfold timeout_times, event_timeouts. rewrite List.filter_app, map_app. cbn [List.filter]. by destruct (timed_out e).
Qed.

Lemma clock_order_timeouts h : clock_order (map ev_monotonic h) -> clock_order (timeout_times h).
Proof.
  unfold clock_order, timeout_times. induction h as [|e h IH]; cbn [map List.filter]; [done|].
  inversion 1 as [|? ? Hh He]; subst. destruct (timed_out e); [|by apply IH]. cbn [map]. constructor; [by apply IH|].
  rewrite Forall_forall in He |- *. intros t Ht. apply He. apply list_elem_of_fmap in Ht as (x & -> & Hx).
  apply list_elem_of_In, filter_In in Hx as [Hx _]. apply list_elem_of_fmap. exists x. split; [done|]. by apply list_elem_of_In.
Qed.

(** The required operations that timed out at most 60 seconds before [now]. *)
Definition recent_timeouts (history : list timed_event) (now : float) : Z :=
  zlength (List.filter (recent now) (timeout_times history)).

(** [e] is a timeout, the [n]-th recent one at least. *)
Definition storm (n : Z) (before : list timed_event) (e : timed_event) : Prop :=
  timed_out e = true /\ n <= recent_timeouts (before ++ [e]) e.(ev_monotonic).

(** A deadline is unset, or [seconds] after a storm of the history. *)
Definition set_by_storm (n : Z) (seconds : float) (history : list timed_event) (deadline : float) : Prop :=
  deadline = f0 \/
  exists h1 e h2, history = h1 ++ e :: h2 /\ storm n h1 e /\ deadline = (e.(ev_monotonic) + seconds)%F.

Record tracked (degraded protective : float) (h : list timed_event) (b : DbusCircuitBreaker) : Prop := {
  tk_timeouts : exists dropped, timeout_times h = dropped ++ b.(cb_latencies).(lw_timeouts);
  tk_seconds : b.(cb_latencies).(lw_window_seconds) = f_of_Z 60;
  tk_degraded_seconds : b.(cb_degraded_seconds) = degraded;
  tk_protective_seconds : b.(cb_protective_seconds) = protective;
  tk_latencies : zlength b.(cb_latencies).(lw_latencies) <= zlength h;
  tk_number : isnan b.(cb_protective_until_monotonic) = false;
  tk_protective : set_by_storm 6 protective h b.(cb_protective_until_monotonic);
  tk_degraded : set_by_storm 3 degraded h b.(cb_degraded_until_monotonic) }.

Lemma set_by_storm_snoc n s h e d : set_by_storm n s h d -> set_by_storm n s (h ++ [e]) d.
Proof.
  intros [->|(h1 & e1 & h2 & -> & Hs & ->)]; [by left|right]. exists h1, e1, (h2 ++ [e]).
  by rewrite <- app_assoc.
Qed.

Lemma filter_recent now l :
  Forall (fun t => (t <? now - f_of_Z 60)%F = false) l -> List.filter (recent now) l = l.
Proof.
  induction 1 as [|t l Ht _ IH]; [done|]. cbn [List.filter].
  assert (recent now t = true) as -> by (unfold recent; by rewrite Ht). by rewrite IH.
Qed.

(** A tripping event is a storm. *)
Lemma trips_storm n D P h b e :
  tracked D P h b -> clock_order (map ev_monotonic (h ++ [e])) -> trips e n b.(cb_latencies) = true -> storm n h e.
Proof.
  intros [[dropped Hd] Hs _ _ _ _ _ _] Hc Ht. apply andb_true_iff in Ht as [Ht Hn%Z.leb_le]. split; [done|].
  apply clock_order_timeouts in Hc. rewrite timeout_times_snoc, Hd in Hc. unfold event_timeouts in Hc. rewrite Ht, <- app_assoc in Hc.
  apply sorted_suffix in Hc. pose proof (event_window_recent e _ Ht Hc) as Hr. rewrite Hs in Hr.
  destruct (event_window_timeouts e b.(cb_latencies)) as [d Hw]. unfold recent_timeouts.
  rewrite timeout_times_snoc, Hd, <- app_assoc, Hw, !List.filter_app.
  rewrite (filter_recent _ _ Hr).
  unfold zlength in *. rewrite !length_app. lia.
Qed.

Lemma tracked_step D P h b e :
  tracked D P h b -> clock_order (map ev_monotonic (h ++ [e])) -> tracked D P (h ++ [e]) (snd (run_event e b)).
Proof.
  intros HT Hc. pose proof HT as [[dropped Hd] Hs Hds Hps Hl Hn Hp Hg].
  destruct (run_event_effect e b) as (El & Ed & Ep & (ok & Hok & Epm) & Edm).
  destruct (event_window_timeouts e b.(cb_latencies)) as [d Hw].
  pose proof (event_window_latencies e b.(cb_latencies)) as Hlat.
  assert (forall n, trips e n (cb_latencies b) = true -> storm n h e) as Hstorm by (intros n; by eapply trips_storm).
  constructor; rewrite ?El, ?Ed, ?Ep.
  - exists (dropped ++ d). by rewrite timeout_times_snoc, Hd, <- !app_assoc, Hw.
  - by rewrite event_window_seconds.
  - done.
  - done.
  - unfold zlength in *. rewrite length_app. cbn. lia.
  - rewrite Epm. destruct (ok && _ && _) eqn:E; [|done]. apply andb_true_iff in E as [_ E]. forder.
  - rewrite Epm. destruct (ok && _ && _) eqn:E; [|by apply set_by_storm_snoc].
    apply andb_true_iff in E as [[_ Ht]%andb_true_iff _]. right. exists h, e, []. rewrite Hps. auto.
  - destruct Edm as [->|[Ht ->]]; [by apply set_by_storm_snoc|]. right. exists h, e, []. rewrite Hds. auto.
Qed.

Lemma run_events_snoc b h e : run_events b (h ++ [e]) = snd (run_event e (run_events b h)).
Proof. unfold run_events. by rewrite fold_left_app. Qed.

Lemma sorted_prefix l1 l2 : clock_order (l1 ++ l2) -> clock_order l1.
Proof.
  induction l1 as [|x l1 IH]; [constructor|]. inversion 1 as [|? ? Hl Hx]; subst. constructor; [by apply IH|].
  by apply Forall_app in Hx as [Hx _].
Qed.

Lemma tracked_run d p h :
  clock_order (map ev_monotonic h) -> tracked (fmax f1 d) (fmax f1 p) h (run_events (new_breaker d p) h).
Proof.
  induction h as [|e h IH] using rev_ind; intros Hc.
  - constructor; try done; try (by left). by exists [].
  - rewrite run_events_snoc. apply tracked_step; [|done]. apply IH. rewrite map_app in Hc. by eapply sorted_prefix.
Qed.

(** C39. The breaker holds work back for a reason: in every history of recorded operations on a
    clock that does not go back, the adapter is protective only within the protective time after
    a required operation timed out as the sixth one, or a later one, within 60 seconds, and
    degraded only within the degraded time after a third one. *)
Theorem breaker_trips_only_on_timeout_storms (d p : float) (history : list timed_event) (t : float) :
  clock_order (map ev_monotonic history) -> (f0 <=? t)%F = true ->
  (breaker_state (run_events (new_breaker d p) history) t = "protective" ->
     exists h1 e h2, history = h1 ++ e :: h2 /\ storm 6 h1 e /\ (t <? e.(ev_monotonic) + fmax f1 p)%F = true) /\
  (breaker_state (run_events (new_breaker d p) history) t = "degraded" ->
     exists h1 e h2, history = h1 ++ e :: h2 /\ storm 3 h1 e /\ (t <? e.(ev_monotonic) + fmax f1 d)%F = true).
Proof.
  intros Hc Ht. destruct (tracked_run d p history Hc) as [_ _ _ _ _ _ Hp Hd]. unfold breaker_state.
  assert (forall n s deadline, set_by_storm n s history deadline -> (t <? deadline)%F = true ->
    exists h1 e h2, history = h1 ++ e :: h2 /\ storm n h1 e /\ (t <? e.(ev_monotonic) + s)%F = true) as H.
  { intros n s deadline [->|(h1 & e & h2 & -> & Hs & ->)] Hlt; [exfalso | by exists h1, e, h2].
    assert (isnan t = false) by (destruct t; done). forder. }
  destruct (t <? cb_protective_until_monotonic _)%F eqn:Ep; [split; [|done]; intros _; by eapply H|].
  destruct (t <? cb_degraded_until_monotonic _)%F eqn:Ed; split; try done. intros _. by eapply H.
Qed.

(** Recent timeouts of the end of a history are still in the window. *)
Lemma recent_timeouts_kept d p h0 h :
  clock_order (map ev_monotonic (h0 ++ h)) ->
  (forall x y, x ∈ h -> y ∈ timeout_times h -> recent x.(ev_monotonic) y = true) ->
  exists older, (run_events (new_breaker d p) (h0 ++ h)).(cb_latencies).(lw_timeouts) = older ++ timeout_times h.
Proof.
  induction h as [|e h IH] using rev_ind; intros Hc Hr; [eexists; symmetry; apply app_nil_r|].
  rewrite app_assoc in Hc |- *. rewrite run_events_snoc, timeout_times_snoc.
  destruct IH as [older Ho].
  { rewrite map_app in Hc. by eapply sorted_prefix. }
  { intros x y Hx Hy. apply Hr; [by apply elem_of_app; left | rewrite timeout_times_snoc; by apply elem_of_app; left]. }
  assert (clock_order (map ev_monotonic (h0 ++ h))) as Hc0 by (rewrite map_app in Hc; by eapply sorted_prefix).
  destruct (tracked_run d p (h0 ++ h) Hc0) as [_ Hs _ _ _ _ _ _].
  destruct (run_event_effect e (run_events (new_breaker d p) (h0 ++ h))) as [El _]. rewrite El.
  apply (event_window_keeps e _ older); [done|]. rewrite Hs, <- timeout_times_snoc. apply Forall_forall. intros y Hy.
  specialize (Hr e y ltac:(apply elem_of_app; right; left) Hy). unfold recent in Hr. by apply negb_true_iff.
Qed.

(** A storm of timeouts sheds load at once and spares the work that matters: when a required
    operation times out and at least six timeouts at the end of the history lie within 60 seconds
    of every event since, then from that moment and for the whole protective time the breaker is
    protective; it lets safety, user, publication and core-read operations through, and holds
    back optional reads, discovery and diagnostics. *)
Theorem timeout_storm_sheds_optional_work (d p : float) (h0 h : list timed_event) (e : timed_event) (t : float) :
  clock_order (map ev_monotonic (h0 ++ h ++ [e])) -> zlength (h0 ++ h ++ [e]) < 2 ^ 53 ->
  timed_out e = true -> 6 <= zlength (timeout_times (h ++ [e])) ->
  (forall x y, x ∈ h ++ [e] -> y ∈ timeout_times (h ++ [e]) -> recent x.(ev_monotonic) y = true) ->
  (t <? e.(ev_monotonic) + fmax f1 p)%F = true ->
  let b := run_events (new_breaker d p) (h0 ++ h ++ [e]) in
  breaker_state b t = "protective" /\
  Forall (fun priority => allows_priority b priority t = true) ["safety"; "user"; "publish"; "read"] /\
  Forall (fun priority => allows_priority b priority t = false) ["optional"; "discovery"; "diagnostic"].
Proof.
  intros Hc Hlen Ht Hn Hr Hlt. cbv zeta.
  destruct (recent_timeouts_kept d p h0 (h ++ [e]) Hc Hr) as [older Ho].
  destruct (tracked_run d p (h0 ++ h ++ [e]) Hc) as [_ _ _ _ Hlat _ _ _].
  rewrite app_assoc in *. assert (clock_order (map ev_monotonic (h0 ++ h))) as Hc0
    by (rewrite map_app in Hc; by eapply sorted_prefix).
  destruct (tracked_run d p (h0 ++ h) Hc0) as [_ _ _ Hps _ Hnum _ _].
  rewrite run_events_snoc in *. set (b := run_events (new_breaker d p) (h0 ++ h)) in *.
  destruct (run_event_effect e b) as (El & _ & _ & (ok & Hok & Epm) & _).
  assert (trips e 6 b.(cb_latencies) = true) as Htrip.
  { unfold trips. rewrite Ht, <- El, Ho. apply Z.leb_le. unfold zlength in *. rewrite length_app. lia. }
  rewrite Htrip, Hok, Hps in Epm by (rewrite <- El; lia). cbn [andb] in Epm.
  assert (breaker_state (snd (run_event e b)) t = "protective") as Hp.
  { unfold breaker_state. rewrite Epm. destruct (cb_protective_until_monotonic b <? _)%F eqn:E; [by rewrite Hlt|].
    assert ((t <? cb_protective_until_monotonic b)%F = true) as ->; [|done]. forder. }
  split; [done|]. unfold allows_priority. rewrite Hp.
  split; repeat constructor.
Qed.

(** ** Spacing *)

(** Operations of one kind are spaced: after an operation was granted, the next one of its
    kind is deferred until its interval has passed on the clock, with the limiter unchanged, and
    is granted from then on; operations of the other kinds do not change that. *)
Theorem granted_operations_are_spaced (l l1 l2 : DbusRateLimiter) (kind other : string)
    (now marked now2 marked2 now' marked' : float) (interval : float) :
  require_due kind now marked l = (Ok tt, l1) ->
  table_get kind l.(rl_intervals) = Some interval ->
  other <> kind -> require_due other now' marked' l1 = (Ok tt, l2) ->
  require_due kind now2 marked2 l2 =
    if (now2 >=? marked + interval)%F then (Ok tt, l2 <| rl_next_at := table_set kind (marked2 + interval)%F l2.(rl_next_at) |>)
    else (Err OperationDeferred, l2).
Proof.
  intros H1 Hi Hne H2.
  assert (forall k n m a b, require_due k n m a = (Ok tt, b) ->
    exists iv, table_get k a.(rl_intervals) = Some iv /\ b = a <| rl_next_at := table_set k (m + iv)%F a.(rl_next_at) |>) as Hgrant.
  { intros k n m a b. unfold require_due, limiter_due, limiter_mark, entry, mbind, M_bind, get, lift, mret, M_ret, modify, raise.
    destruct (table_get k (rl_next_at a)); [|done]. destruct (negb _); [done|].
    destruct (table_get k (rl_intervals a)) as [iv|]; [|done]. intros [= <-]. by exists iv. }
  destruct (Hgrant _ _ _ _ _ H1) as (iv & E1 & ->). destruct (Hgrant _ _ _ _ _ H2) as (iv2 & E2 & ->).
  assert (iv = interval) as -> by congruence.
  unfold require_due, limiter_due, limiter_mark, entry, mbind, M_bind, get, lift, mret, M_ret, modify, raise.
  cbn [rl_next_at rl_intervals upd eta_limiter]. rewrite table_get_set, table_get_set_eq.
  destruct (String.eqb_spec kind other); [congruence|]. cbn.
  destruct (_ <=? _)%F; cbn; by rewrite ?Hi.
Qed.

(** ** Examples *)

Definition timeout_error : gateway_error := mkGatewayError true "no reply" "TimeoutError" None.

(** Six timeouts of grid reads, two seconds apart. *)
Definition sample_storm : list timed_event :=
  map (fun n => mkTimed (Failed timeout_error "read" "com.victronenergy.grid" (Some (f_of_Z 2000)))
                  (f_of_Z (100 + 2 * n)) (f_of_Z (5000 + 2 * n))) [0; 1; 2; 3; 4; 5].

Lemma sample_storm_ordered : clock_order (map ev_monotonic sample_storm).
Proof. repeat (constructor; [|repeat (constructor; [vm_compute; reflexivity|]); constructor]). constructor. Qed.

Lemma breaker_trips_only_on_timeout_storms_witness :
  breaker_state (run_events (new_breaker (f_of_Z 60) (f_of_Z 180)) sample_storm) (f_of_Z 200) = "protective" /\
  exists h1 e h2, sample_storm = h1 ++ e :: h2 /\ storm 6 h1 e /\
    (f_of_Z 200 <? e.(ev_monotonic) + fmax f1 (f_of_Z 180))%F = true.
Proof.
  split; [vm_compute; reflexivity|].
  apply (breaker_trips_only_on_timeout_storms (f_of_Z 60) (f_of_Z 180) sample_storm (f_of_Z 200)
           sample_storm_ordered); vm_compute; reflexivity.
Defined.

Lemma timeout_storm_sheds_optional_work_witness :
  let b := run_events (new_breaker (f_of_Z 60) (f_of_Z 180)) sample_storm in
  breaker_state b (f_of_Z 289) = "protective" /\
  Forall (fun priority => allows_priority b priority (f_of_Z 289) = true) ["safety"; "user"; "publish"; "read"] /\
  Forall (fun priority => allows_priority b priority (f_of_Z 289) = false) ["optional"; "discovery"; "diagnostic"].
Proof.
  apply (timeout_storm_sheds_optional_work (f_of_Z 60) (f_of_Z 180) [] (take 5 sample_storm)
           (mkTimed (Failed timeout_error "read" "com.victronenergy.grid" (Some (f_of_Z 2000))) (f_of_Z 110) (f_of_Z 5010))
           (f_of_Z 289)).
  - exact sample_storm_ordered.
  - vm_compute. reflexivity.
  - reflexivity.
  - vm_compute. discriminate.
  - assert (forallb (fun x => forallb (recent x.(ev_monotonic)) (timeout_times sample_storm)) sample_storm = true) as H
      by (vm_compute; reflexivity).
    intros x y Hx Hy. rewrite forallb_forall in H. specialize (H x (proj1 (list_elem_of_In _ _) Hx)).
    rewrite forallb_forall in H. exact (H y (proj1 (list_elem_of_In _ _) Hy)).
  - vm_compute. reflexivity.
Defined.

Lemma granted_operations_are_spaced_witness :
  let l := new_limiter (fdec 1 4) (fdec 35 100) (f_of_Z 2) in
  let l1 := snd (require_due "read" f1 f1 l) in
  let l2 := snd (require_due "write" f1 f1 l1) in
  fst (require_due "read" (fdec 5 4) (fdec 5 4) l2) = Ok tt /\
  require_due "read" (fdec 6 5) (fdec 6 5) l2 = (Err OperationDeferred, l2).
Proof.
  cbv zeta. split; [vm_compute; reflexivity|].
  assert (forall A B (p : A * B), p = (fst p, snd p)) as Hp by (intros ? ? []; reflexivity).
  etransitivity.
  - apply (granted_operations_are_spaced (new_limiter (fdec 1 4) (fdec 35 100) (f_of_Z 2))
      (snd (require_due "read" f1 f1 (new_limiter (fdec 1 4) (fdec 35 100) (f_of_Z 2)))) _
      "read" "write" f1 f1 (fdec 6 5) (fdec 6 5) f1 f1 (fdec 1 4)); [|reflexivity|discriminate|].
    + by rewrite Hp at 1.
    + by rewrite Hp at 1.
  - replace (_ <=? fdec 6 5)%F with false by (vm_compute; reflexivity). reflexivity.
Defined.
