(* ===== verification/DbusScheduling.v ===== *)
(** * Cadence and scheduling of the D-Bus adapter

    [dbus_adapter/tick_policy.py], [dbus_adapter/read/spec.py] and
    [dbus_adapter/scheduling.py]: the adaptive tick, the specifications of scheduled reads,
    the read scheduler with its failure backoff and the discovery manager. *)

From S2P Require Import Prelude PyFloat PyValue OrderedMap Rounding PublicationOrder GatewayLatency DbusCircuit.

(** ** The adaptive tick *)

(** dbus_adapter/tick_policy.py: TickPolicy *)
Record TickPolicy := mkTickPolicy {
  tp_min_tick_seconds : float; tp_max_tick_seconds : float; tp_core_read_slo_seconds : float;
  tp_queue_slo_seconds : float }.

(** dbus_adapter/tick_policy.py: TickDemand *)
Record TickDemand := mkTickDemand {
  td_critical_read_operations : Z; td_critical_queue_operations : Z; td_core_read_age_seconds : float;
  td_queue_age_seconds : float; td_operation_p95_ms : float }.

(** dbus_adapter/tick_policy.py: TickDemand.operation_count *)
Definition operation_count (d : TickDemand) : Z :=
  Z.max 0 d.(td_critical_read_operations) + Z.max 0 d.(td_critical_queue_operations).

(** dbus_adapter/tick_policy.py: _clamp *)
Definition tick_clamp (value minimum maximum : float) : float := fmin maximum (fmax minimum value).

(** dbus_adapter/tick_policy.py: _state_baseline *)
Definition state_baseline (minimum maximum : float) (circuit_state resource_state : string) : float :=
  if (resource_state =? "constrained")%string then maximum
  else if (circuit_state =? "degraded")%string
       then tick_clamp (fmax (minimum * fdec 5 2)%F (fdec 1 2)) minimum maximum
  else if (resource_state =? "busy")%string
       then tick_clamp (fmax (minimum * fdec 3 2)%F (fdec 3 10)) minimum maximum
  else minimum.

(** dbus_adapter/tick_policy.py: _service_time_floor *)
Definition service_time_floor (minimum maximum : float) (demand : TickDemand) (resource_state : string) : float :=
  if (resource_state =? "ok")%string || (0 <? demand.(td_critical_queue_operations)) then minimum
  else
    let operation_seconds := (fmax f0 demand.(td_operation_p95_ms) / f_of_Z 1000)%F in
    tick_clamp operation_seconds minimum maximum.

(** dbus_adapter/tick_policy.py: _critical_deadline *)
Definition critical_deadline (policy : TickPolicy) (demand : TickDemand) : res float :=
  let deadlines :=
    (if 0 <? demand.(td_critical_read_operations)
     then [fmax f0 (policy.(tp_core_read_slo_seconds) - fmax f0 demand.(td_core_read_age_seconds))%F] else []) ++
    (if 0 <? demand.(td_critical_queue_operations)
     then [fmax f0 (policy.(tp_queue_slo_seconds) - fmax f0 demand.(td_queue_age_seconds))%F] else []) in
  match deadlines with [] => Err ValueError | x :: rest => Ok (fmin_list x rest) end.

(** dbus_adapter/tick_policy.py: adaptive_tick_seconds *)
Definition adaptive_tick_seconds (policy : TickPolicy) (demand : TickDemand) (circuit_state resource_state : string)
    : res float :=
  let minimum := fmax (fdec 1 1000) policy.(tp_min_tick_seconds) in
  let maximum := fmax minimum policy.(tp_max_tick_seconds) in
  if (circuit_state =? "protective")%string then Ok maximum
  else
    let baseline := state_baseline minimum maximum circuit_state resource_state in
    if operation_count demand =? 0 then Ok baseline
    else
      let service_floor := service_time_floor minimum maximum demand resource_state in
      let baseline := fmax baseline service_floor in
      deadline ← critical_deadline policy demand;
      let operation_seconds := (fmax f0 demand.(td_operation_p95_ms) / f_of_Z 1000)%F in
      count ← float_of_int (operation_count demand);
      let available_seconds := fmax f0 (deadline * fdec 8 10 - operation_seconds * count)%F in
      deadline_tick ← float_div available_seconds count;
      Ok (fmin baseline (tick_clamp deadline_tick service_floor maximum)).

(** ** Read specifications *)

(** A specification holds checked fields only. *)
Definition read_spec : Type := odict string pyval.

Definition SPEC_TEXT_FIELDS : list string :=
  ["aggregate"; "service"; "prefix"; "priority"; "aggregate_service"; "path"; "dc_path"; "dc_service"].
(** dbus_adapter/read/spec.py: _FLOAT_FIELDS *)
Definition SPEC_FLOAT_FIELDS : list string := ["interval"; "optional_confidence"; "stale_after_seconds"].
(** dbus_adapter/read/spec.py: _BOOL_FIELDS *)
Definition SPEC_BOOL_FIELDS : list string := ["optional_zero_on_error"; "use_dc_pv"].

(** dbus_adapter/read/spec.py: _copy_text_field *)
Definition copy_text_field (spec : read_spec) (key : string) (value : pyval) : res read_spec :=
  match value with VStr s => Ok (od_set key (VStr s) spec) | _ => Err TypeError end.

(** dbus_adapter/read/spec.py: _copy_float_field *)
Definition copy_float_field (spec : read_spec) (key : string) (value : pyval) : res read_spec :=
  match value with
  | VInt _ | VFloat _ => normalized ← py_float value; mret (od_set key (VFloat normalized) spec)
  | _ => Err TypeError
  end.

(** dbus_adapter/read/spec.py: _copy_bool_field *)
Definition copy_bool_field (spec : read_spec) (key : string) (value : pyval) : res read_spec :=
  match value with VBool b => Ok (od_set key (VBool b) spec) | _ => Err TypeError end.

(** dbus_adapter/read/spec.py: _copy_paths_field *)
Definition copy_paths_field (spec : read_spec) (key : string) (value : pyval) : res read_spec :=
  match value with
  | VList items =>
    if forallb (fun item => match item with VStr _ => true | _ => false end) items
    then Ok (od_set key (VList items) spec) else Err TypeError
  | _ => Err TypeError
  end.

(** dbus_adapter/read/spec.py: _copy_non_text_field *)
Definition copy_non_text_field (spec : read_spec) (key : string) (value : pyval) : res read_spec :=
  if str_in key SPEC_FLOAT_FIELDS then copy_float_field spec key value
  else if str_in key SPEC_BOOL_FIELDS then copy_bool_field spec key value
  else if str_in key ["paths"; "aggregate_paths"] then copy_paths_field spec key value
  else Err KeyError.

(** dbus_adapter/read/spec.py: _copy_read_spec_field *)
Definition copy_read_spec_field (spec : read_spec) (key : string) (value : pyval) : res read_spec :=
  if str_in key SPEC_TEXT_FIELDS then copy_text_field spec key value else copy_non_text_field spec key value.

(** The loop over the fields. *)
Fixpoint read_spec_fields (checked : read_spec) (spec : odict string pyval) : res read_spec :=
  match spec with
  | [] => Ok checked
  | (key, value) :: rest => checked' ← copy_read_spec_field checked key value; read_spec_fields checked' rest
  end.

(** dbus_adapter/read/spec.py: read_spec_from_mapping *)
Definition read_spec_from_mapping (spec : odict string pyval) : res read_spec := read_spec_fields [] spec.

(** dbus_adapter/read/spec.py: read_spec_text *)
Definition read_spec_text (spec : read_spec) (key : string) : string :=
  match cmd_get key spec with VStr s => py_strip s | _ => "" end.

(** dbus_adapter/read/spec.py: read_spec_stale_after_seconds *)
Definition read_spec_stale_after_seconds (spec : read_spec) : res (option float) :=
  match cmd_get "stale_after_seconds" spec with
  | VNone =>
    match cmd_get "interval" spec with
    | VNone => Ok None
    | interval => x ← py_float interval; mret (Some (fmax f1 (x * f_of_Z 3)%F))
    end
  | configured => x ← py_float configured; mret (Some (fmax f0 x))
  end.

(** dbus_adapter/read/spec.py: read_spec_optional_zero_on_error *)
Definition read_spec_optional_zero_on_error (spec : read_spec) : bool :=
  match od_get "optional_zero_on_error" spec with
  | None => false
  | Some v => str_in (py_lower (py_strip (py_str v))) ["1"; "true"; "yes"; "on"]
  end.

(** dbus_adapter/read/spec.py: read_spec_optional_confidence *)
Definition read_spec_optional_confidence (spec : read_spec) : res float :=
  match od_get "optional_confidence" spec with
  | None => Ok (fdec 2 10)
  | Some v =>
    if negb (py_bool v) then Ok (fdec 2 10)
    else match v with VStr _ | VInt _ | VFloat _ | VBool _ => py_float v | _ => Err TypeError end
  end.

(** dbus_adapter/read/spec.py: read_spec_source *)
Definition read_spec_source (spec : read_spec) (fallback : string) : string :=
  let service := read_spec_text spec "service" in
  let prefix := read_spec_text spec "prefix" in
  if negb (service =? "")%string then service
  else if negb (prefix =? "")%string then prefix else fallback.

(** ** The read scheduler *)

(** dbus_adapter/scheduling.py: DbusReadScheduler *)
Record DbusReadScheduler := mkScheduler {
  rs_specs : odict string read_spec; rs_next_read_at : odict string float; rs_failure_counts : odict string Z }.
#[export] Instance eta_scheduler : Eta DbusReadScheduler := fun s =>
  mkScheduler s.(rs_specs) s.(rs_next_read_at) s.(rs_failure_counts).

(** [d[key]] *)
Definition od_item {V} (key : string) (d : odict string V) : res V :=
  match od_get key d with Some v => Ok v | None => Err KeyError end.

(** dbus_adapter/scheduling.py: DbusReadScheduler.__init__ *)
Definition new_scheduler (specs : odict string (odict string pyval)) : res DbusReadScheduler :=
  checked ← map_res (fun kv => spec ← read_spec_from_mapping (snd kv); mret (fst kv, spec)) specs;
  mret (mkScheduler checked (map (fun kv => (fst kv, f0)) checked) (map (fun kv => (fst kv, 0)) checked)).

(** dbus_adapter/scheduling.py: _interval_seconds *)
Definition interval_seconds (raw_value : pyval) : res float :=
  match raw_value with
  | VFloat _ | VInt _ | VStr _ => catch (py_float raw_value) [ValueError] (Ok (f_of_Z 2))
  | _ => Ok (f_of_Z 2)
  end.

(** dbus_adapter/scheduling.py: DbusReadScheduler.effective_interval *)
Definition effective_interval (spec : read_spec) (circuit_state : string) : res float :=
  interval ← interval_seconds (cmd_get "interval" spec);
  mret (if (circuit_state =? "protective")%string then (interval * f_of_Z 5)%F
        else if (circuit_state =? "degraded")%string then (interval * f_of_Z 3)%F else interval).

(** The sort key of a due read: its due time, then its place among the specifications. *)
Definition due_before (a b : string * (float * Z)) : bool :=
  let '(_, (ta, ia)) := a in let '(_, (tb, ib)) := b in
  (ta <? tb)%F || ((ta =? tb)%F && (ia <? ib)).

(** The due reads with their keys, in the order of the specifications. *)
Fixpoint due_reads (s : DbusReadScheduler) (monotonic_at : float) (keys : list string) (index : Z)
    : res (list (string * (float * Z))) :=
  match keys with
  | [] => Ok []
  | key :: rest =>
    next ← od_item key s.(rs_next_read_at);
    due ← due_reads s monotonic_at rest (index + 1);
    mret (if (monotonic_at >=? next)%F then (key, (next, index)) :: due else due)
  end.

(** The first due read, unless its priority is held back.
    dbus_adapter/scheduling.py: DbusReadScheduler.next_due *)
Definition next_due (s : DbusReadScheduler) (monotonic_at : float) (circuit_state : string)
    (priority_allowed : string -> bool) : res (option (string * read_spec * float)) :=
  due_keys ← due_reads s monotonic_at (od_keys s.(rs_specs)) 0;
  match sort_by due_before due_keys with
  | [] => Ok None
  | (key, _) :: _ =>
    spec ← od_item key s.(rs_specs);
    interval ← effective_interval spec circuit_state;
    mret (if priority_allowed (py_str (default (VStr "read") (od_get "priority" spec)))
          then Some (key, spec, interval) else None)
  end.

(** dbus_adapter/scheduling.py: DbusReadScheduler.due_count *)
Definition due_count (s : DbusReadScheduler) (monotonic_at : float) (keys : option (list string)) : Z :=
  zlength (filter (fun key => match od_get key s.(rs_next_read_at) with
                              | Some next => (monotonic_at >=? next)%F | None => false end = true)
             (default (od_keys s.(rs_specs)) keys)).

(** dbus_adapter/scheduling.py: DbusReadScheduler.record_success *)
Definition read_succeeded (key : string) (monotonic_at interval interval_factor : float)
    (maximum_delay_seconds : option float) (s : DbusReadScheduler) : DbusReadScheduler :=
  let base_delay := fmax f0 interval in
  let delay := (base_delay * fmax f1 interval_factor)%F in
  let delay := match maximum_delay_seconds with Some m => fmin delay (fmax base_delay m) | None => delay end in
  (s <| rs_failure_counts := od_set key 0 s.(rs_failure_counts) |>)
     <| rs_next_read_at := od_set key (monotonic_at + delay)%F s.(rs_next_read_at) |>.

(** dbus_adapter/scheduling.py: DbusReadScheduler.record_error *)
Definition read_failed (key : string) (monotonic_at interval : float) (s : DbusReadScheduler) : DbusReadScheduler :=
  let failures := Z.min 6 (default 0 (od_get key s.(rs_failure_counts)) + 1) in
  let base := fmax (interval * f_of_Z 10)%F (f_of_Z 30) in
  (s <| rs_failure_counts := od_set key failures s.(rs_failure_counts) |>)
     <| rs_next_read_at := od_set key (monotonic_at + fmin (f_of_Z 300) (base * f_of_Z (2 ^ (failures - 1))))%F
                             s.(rs_next_read_at) |>.

(** dbus_adapter/scheduling.py: DbusReadScheduler.force_due *)
Definition force_due (keys : list string) (s : DbusReadScheduler) : DbusReadScheduler :=
  fold_left (fun s key => if od_mem key s.(rs_specs)
                          then s <| rs_next_read_at := od_set key f0 s.(rs_next_read_at) |> else s) keys s.

(** dbus_adapter/scheduling.py: DbusReadScheduler.expedite_healthy *)
Definition expedite_healthy (keys : list string) : M DbusReadScheduler unit :=
  fold_left (fun (m : M DbusReadScheduler unit) key =>
      _ ← m;
      s ← get;
      if negb (od_mem key s.(rs_specs)) then mret tt
      else
        failures ← lift (od_item key s.(rs_failure_counts));
        when (failures =? 0) (modify (fun s => s <| rs_next_read_at := od_set key f0 s.(rs_next_read_at) |>)))
    keys (mret tt).

(** ** Discovery *)

(** dbus_adapter/scheduling.py: DbusDiscoveryManager *)
Record DbusDiscoveryManager := mkDiscovery {
  dm_interval_seconds : float; dm_missing_pv_interval_seconds : float; dm_next_scan_monotonic : float;
  dm_last_success_at : float; dm_next_scan_at : float; dm_last_error : string; dm_active_interval_seconds : float }.
#[export] Instance eta_discovery : Eta DbusDiscoveryManager := fun d =>
  mkDiscovery d.(dm_interval_seconds) d.(dm_missing_pv_interval_seconds) d.(dm_next_scan_monotonic)
    d.(dm_last_success_at) d.(dm_next_scan_at) d.(dm_last_error) d.(dm_active_interval_seconds).

(** dbus_adapter/scheduling.py: DbusDiscoveryManager.__init__ *)
Definition new_discovery (interval missing_pv_interval : float) : DbusDiscoveryManager :=
  let interval := fmax (f_of_Z 5) interval in
  mkDiscovery interval (fmin interval (fmax (f_of_Z 15) missing_pv_interval)) f0 f0 f0 "" interval.

(** dbus_adapter/scheduling.py: DbusDiscoveryManager.due *)
Definition discovery_due (d : DbusDiscoveryManager) (monotonic_at : float) (priority_allowed : string -> bool) : bool :=
  (monotonic_at >=? d.(dm_next_scan_monotonic))%F && priority_allowed "discovery".

(** dbus_adapter/scheduling.py: DbusDiscoveryManager.record_success *)
Definition discovery_succeeded (monotonic_at captured_at : float) (needs_early_rescan : bool)
    (d : DbusDiscoveryManager) : DbusDiscoveryManager :=
  let interval := if needs_early_rescan then d.(dm_missing_pv_interval_seconds) else d.(dm_interval_seconds) in
  mkDiscovery d.(dm_interval_seconds) d.(dm_missing_pv_interval_seconds) (monotonic_at + interval)%F
    captured_at (captured_at + interval)%F "" interval.

(** dbus_adapter/scheduling.py: DbusDiscoveryManager.record_error *)
Definition discovery_failed (error : string) (monotonic_at captured_at : float) (d : DbusDiscoveryManager)
    : DbusDiscoveryManager :=
  let retry_seconds := fmin_list (f_of_Z 60) [d.(dm_interval_seconds); d.(dm_missing_pv_interval_seconds)] in
  mkDiscovery d.(dm_interval_seconds) d.(dm_missing_pv_interval_seconds) (monotonic_at + retry_seconds)%F
    d.(dm_last_success_at) (captured_at + retry_seconds)%F error retry_seconds.

(** dbus_adapter/scheduling.py: DbusDiscoveryManager.defer_for *)
Definition discovery_defer_for (monotonic_at captured_at seconds : float) (d : DbusDiscoveryManager)
    : DbusDiscoveryManager :=
  let delay := fmax f0 seconds in
  if (d.(dm_next_scan_monotonic) >? monotonic_at)%F then d
  else (d <| dm_next_scan_monotonic := (monotonic_at + delay)%F |>) <| dm_next_scan_at := (captured_at + delay)%F |>.

(** dbus_adapter/scheduling.py: DbusDiscoveryManager.force_due *)
Definition discovery_force_due (d : DbusDiscoveryManager) : DbusDiscoveryManager :=
  (d <| dm_next_scan_monotonic := f0 |>) <| dm_next_scan_at := f0 |>.

(** ** The tick stays within its bounds *)

Lemma fle_not_nan_l x y : (x <=? y)%F = true -> isnan x = false.
Proof. intros H. forder. Qed.

Lemma fle_not_nan_r x y : (x <=? y)%F = true -> isnan y = false.
Proof. intros H. forder. Qed.

Lemma tick_clamp_bounds x lo hi :
  isnan lo = false -> (lo <=? hi)%F = true -> (lo <=? tick_clamp x lo hi)%F = true /\ (tick_clamp x lo hi <=? hi)%F = true.
Proof. intros H1 H2. unfold tick_clamp, fmin, fmax. destruct (lo <? x)%F eqn:E1, (_ <? hi)%F eqn:E2; split; forder. Qed.

Lemma fmax_bounds lo hi a b :
  (lo <=? a)%F = true -> (a <=? hi)%F = true -> (b <=? hi)%F = true ->
  (lo <=? fmax a b)%F = true /\ (fmax a b <=? hi)%F = true.
Proof. intros H1 H2 H3. unfold fmax. destruct (a <? b)%F eqn:E; split; forder. Qed.

Lemma fmin_bounds lo hi a b :
  (lo <=? a)%F = true -> (a <=? hi)%F = true -> (lo <=? b)%F = true ->
  (lo <=? fmin a b)%F = true /\ (fmin a b <=? hi)%F = true.
Proof. intros H1 H2 H3. unfold fmin. destruct (b <? a)%F eqn:E; split; forder. Qed.

Lemma state_baseline_bounds lo hi c r :
  isnan lo = false -> (lo <=? hi)%F = true -> (lo <=? state_baseline lo hi c r)%F = true /\ (state_baseline lo hi c r <=? hi)%F = true.
Proof.
  intros H1 H2. unfold state_baseline.
  destruct (_ =? _)%string; [split; forder|]. destruct (_ =? _)%string; [by apply tick_clamp_bounds|].
  destruct (_ =? _)%string; [by apply tick_clamp_bounds | split; forder].
Qed.

Lemma service_floor_bounds lo hi d r :
  isnan lo = false -> (lo <=? hi)%F = true ->
  (lo <=? service_time_floor lo hi d r)%F = true /\ (service_time_floor lo hi d r <=? hi)%F = true.
Proof. intros H1 H2. unfold service_time_floor. destruct (_ || _); [split; forder | by apply tick_clamp_bounds]. Qed.

Lemma critical_deadline_ok policy demand :
  operation_count demand <> 0 -> exists x, critical_deadline policy demand = Ok x.
Proof.
  unfold operation_count, critical_deadline. intros H.
  destruct (Z.ltb_spec 0 demand.(td_critical_read_operations)), (Z.ltb_spec 0 demand.(td_critical_queue_operations));
    cbn [app]; try (by eexists). lia.
Qed.

(** The adaptive tick never fails and never leaves the configured bounds: for every policy
    and demand (any ages, latencies and limits, infinite or NaN ones included, and fewer than
    2^53 operations) the tick lies between the minimal tick of at least a millisecond and the
    maximal tick, and it is the maximal tick while the circuit is protective. *)
Theorem adaptive_tick_within_bounds (policy : TickPolicy) (demand : TickDemand) (circuit_state resource_state : string) :
  operation_count demand < 2 ^ 53 ->
  let minimum := fmax (fdec 1 1000) policy.(tp_min_tick_seconds) in
  let maximum := fmax minimum policy.(tp_max_tick_seconds) in
  exists tick, adaptive_tick_seconds policy demand circuit_state resource_state = Ok tick /\
    (fdec 1 1000 <=? minimum)%F = true /\ (minimum <=? tick)%F = true /\ (tick <=? maximum)%F = true /\
    (circuit_state = "protective" -> tick = maximum).
Proof.
  intros Hn. cbv zeta. set (lo := fmax (fdec 1 1000) _). set (hi := fmax lo _).
  assert (isnan lo = false) as H1 by (apply fmax_not_nan; reflexivity).
  assert ((fdec 1 1000 <=? lo)%F = true) as H0 by (apply fmax_ge_l; reflexivity).
  assert ((lo <=? hi)%F = true) as H2 by (by apply fmax_ge_l).
  unfold adaptive_tick_seconds. fold lo. fold hi. clearbody hi. clearbody lo.
  destruct (String.eqb_spec circuit_state "protective") as [E|E]; 
    [exists hi; split; [reflexivity|]; split; [exact H0|]; split; [exact H2|]; split;
      [apply fle_refl; eapply fle_not_nan_r; exact H2 | reflexivity]|].
  destruct (state_baseline_bounds lo hi circuit_state resource_state H1 H2) as [B1 B2].
  destruct (Z.eqb_spec (operation_count demand) 0) as [E0|E0].
  { eexists. split; [reflexivity|]. split; [exact H0|]. split; [exact B1|]. split; [exact B2|]. by intros ?. }
  destruct (critical_deadline_ok policy demand E0) as [deadline ->].
  destruct (float_of_int_small (operation_count demand)) as (count & -> & _ & _ & Ht);
    [unfold operation_count in *; lia|].
  unfold mbind, res_bind, float_div. rewrite Ht. apply Z.eqb_neq in E0. rewrite E0. cbn [negb].
  destruct (service_floor_bounds lo hi demand resource_state H1 H2) as [S1 S2].
  set (floor := service_time_floor lo hi demand resource_state) in *.
  assert (isnan floor = false) as Hf by (eapply fle_not_nan_l; exact S2).
  set (deadline_tick := (_ / count)%F). destruct (tick_clamp_bounds deadline_tick floor hi Hf S2) as [T1 T2].
  destruct (fmax_bounds lo hi _ floor B1 B2 S2) as [M1 M2].
  destruct (fmin_bounds lo hi _ (tick_clamp deadline_tick floor hi) M1 M2 (fle_trans _ _ _ S1 T1)) as [N1 N2].
  eexists. split; [reflexivity|]. split; [exact H0|]. split; [exact N1|]. split; [exact N2|]. by intros ?.
Qed.

Lemma adaptive_tick_within_bounds_witness :
  let policy := mkTickPolicy (fdec 1 5) f1 (f_of_Z 10) (f_of_Z 5) in
  let demand := mkTickDemand 3 1 (f_of_Z 4) (f_of_Z 2) (f_of_Z 50) in
  exists tick, adaptive_tick_seconds policy demand "degraded" "ok" = Ok tick /\ (tick <=? f1)%F = true.
Proof.
  destruct (adaptive_tick_within_bounds (mkTickPolicy (fdec 1 5) f1 (f_of_Z 10) (f_of_Z 5))
    (mkTickDemand 3 1 (f_of_Z 4) (f_of_Z 2) (f_of_Z 50)) "degraded" "ok" eq_refl) as (tick & H & _ & _ & Hle & _).
  exists tick. split; [exact H | exact Hle].
Defined.

(** ** The longest overdue read comes first *)

Section sorting.
Context {A : Type} (lt : A -> A -> bool).
Hypothesis lt_irrefl : forall x, lt x x = false.
Hypothesis lt_trans : forall x y z, lt x y = true -> lt y z = true -> lt x z = true.

Definition least_of (x : A) (l : list A) : Prop := x ∈ l /\ forall y, y ∈ l -> lt y x = false.

Lemma insert_by_head x l :
  (forall h rest, l = h :: rest -> least_of h l) ->
  forall h rest, insert_by lt x l = h :: rest -> least_of h (x :: l).
Proof.
  intros Hl h rest. destruct l as [|y l]; cbn [insert_by].
  - intros [= <- <-]. split; [left|]. intros z Hz. apply elem_of_cons in Hz as [->|Hz]; [done | by apply not_elem_of_nil in Hz].
  - destruct (Hl y l eq_refl) as [Hy Hmin]. destruct (lt x y) eqn:E; intros [= <- <-].
    + split; [left|]. intros z Hz. apply elem_of_cons in Hz as [->|Hz]; [done|].
      destruct (lt z x) eqn:Ez; [|done]. rewrite <- (Hmin z Hz). symmetry. by eapply lt_trans.
    + split; [by right|]. intros z Hz. apply elem_of_cons in Hz as [->|Hz]; [done | by apply Hmin].
Qed.

Lemma insert_by_elem x l z : z ∈ insert_by lt x l <-> z = x \/ z ∈ l.
Proof.
  induction l as [|y l IH]; cbn [insert_by]; [by rewrite elem_of_cons|].
  destruct (lt x y); rewrite !elem_of_cons; [done|]. rewrite IH. tauto.
Qed.

Lemma sort_by_head l h rest : sort_by lt l = h :: rest -> least_of h l.
Proof.
  unfold sort_by. assert (forall acc seen, (forall z, z ∈ acc <-> z ∈ seen) ->
    (forall h rest, acc = h :: rest -> least_of h acc) ->
    forall h rest, fold_left (fun acc x => insert_by lt x acc) l acc = h :: rest -> least_of h (l ++ seen)) as H.
  { induction l as [|x l IH]; intros acc seen Hs Ha h0 rest0; cbn [fold_left app].
    - intros E. destruct (Ha _ _ E) as [H1 H2]. split; [by apply Hs|]. intros y Hy. apply H2. by apply Hs.
    - intros E. apply (IH _ (x :: seen)) in E as [H1 H2].
      + split; [|intros y Hy; apply H2]; rewrite ?elem_of_app, ?elem_of_cons, ?elem_of_app in *; tauto.
      + intros z. rewrite insert_by_elem, elem_of_cons, Hs. done.
      + intros h1 rest1 E1. destruct (insert_by_head x acc Ha h1 rest1 E1) as [H1 H2].
        split; [rewrite E1; left|]. intros y Hy. apply H2. apply insert_by_elem in Hy as [->|Hy]; [left | by right]. }
  intros E. apply (H [] []) in E; [by rewrite app_nil_r in E | done | done].
Qed.

Lemma sort_by_nil l : sort_by lt l = [] -> l = [].
Proof. intros E. apply (f_equal length) in E. rewrite sort_by_length in E. by destruct l. Qed.

End sorting.

Lemma due_before_irrefl a : due_before a a = false.
Proof.
  destruct a as [k [t i]]. unfold due_before. rewrite Z.ltb_irrefl, andb_false_r, orb_false_r. apply flt_irrefl.
Qed.

Lemma due_before_trans a b c : due_before a b = true -> due_before b c = true -> due_before a c = true.
Proof.
  destruct a as [ka [ta ia]], b as [kb [tb ib]], c as [kc [tc ic]]. unfold due_before.
  rewrite !orb_true_iff, !andb_true_iff, !Z.ltb_lt. intros [H1|[H1 G1]] [H2|[H2 G2]].
  1-3: left; forder. right. split; [forder | lia].
Qed.

(** A checked specification has a float interval, if any. *)
Definition interval_checked (spec : read_spec) : Prop :=
  forall v, od_get "interval" spec = Some v -> exists x, v = VFloat x.

(** Every scheduled read has a due time and a failure count. *)
Record scheduled (s : DbusReadScheduler) : Prop := {
  sc_next : forall k, k ∈ od_keys s.(rs_specs) -> is_Some (od_get k s.(rs_next_read_at));
  sc_failures : forall k, k ∈ od_keys s.(rs_specs) -> is_Some (od_get k s.(rs_failure_counts));
  sc_intervals : forall k spec, od_get k s.(rs_specs) = Some spec -> interval_checked spec }.

(** The read [k] is due since [n]. *)
Definition due_since (s : DbusReadScheduler) (t : float) (k : string) (n : float) : Prop :=
  k ∈ od_keys s.(rs_specs) /\ od_get k s.(rs_next_read_at) = Some n /\ (n <=? t)%F = true.

Lemma due_reads_spec s t keys i :
  (forall k, k ∈ keys -> is_Some (od_get k s.(rs_next_read_at))) ->
  exists due, due_reads s t keys i = Ok due /\
    (forall k n j, (k, (n, j)) ∈ due -> k ∈ keys /\ od_get k s.(rs_next_read_at) = Some n /\ (n <=? t)%F = true) /\
    (forall k n, k ∈ keys -> od_get k s.(rs_next_read_at) = Some n -> (n <=? t)%F = true -> exists j, (k, (n, j)) ∈ due).
Proof.
  revert i. induction keys as [|key keys IH]; intros i Hk.
  - exists []. split; [done|]. split; intros k n; [intros j Hj | intros Hk']; by apply not_elem_of_nil in Hj || apply not_elem_of_nil in Hk'.
  - cbn [due_reads]. destruct (Hk key ltac:(left)) as [next Hnext]. unfold od_item. rewrite Hnext.
    destruct (IH (i + 1)) as (due & Hd & H1 & H2); [intros k Hin; apply Hk; by right|].
    unfold mbind, res_bind. rewrite Hd. eexists. split; [reflexivity|]. split.
    + intros k n j Hin. destruct (next <=? t)%F eqn:E; [apply elem_of_cons in Hin as [[= -> -> ->]|Hin]; [by repeat split; [left|..]|]|];
        destruct (H1 _ _ _ Hin) as (? & ? & ?); (split; [by right | done]).
    + intros k n Hin Hn Hle. apply elem_of_cons in Hin as [->|Hin].
      * assert (n = next) as -> by congruence. rewrite Hle. exists i. left.
      * destruct (H2 k n Hin Hn Hle) as [j Hj]. exists j. destruct (next <=? t)%F; [by right | done].
Qed.

Lemma effective_interval_ok spec cs : interval_checked spec -> is_ok (effective_interval spec cs).
Proof.
  intros H. unfold effective_interval, cmd_get. destruct (od_get "interval" spec) as [v|] eqn:E; [|by eexists].
  destruct (H v E) as [x ->]. by eexists.
Qed.

(** The most overdue read of all that are due. *)
Definition longest_overdue (s : DbusReadScheduler) (t : float) (k : string) : Prop :=
  exists n, due_since s t k n /\ forall k' n', due_since s t k' n' -> (n' <? n)%F = false.

Definition spec_priority (spec : read_spec) : string := py_str (default (VStr "read") (od_get "priority" spec)).

(** The read scheduler is fair: it never fails, and the read it starts is due, allowed by its
    priority and overdue for longest among all due reads; it starts none only if no read is due,
    or if the one overdue for longest is held back (a younger read never overtakes it). *)
Theorem scheduler_serves_longest_overdue (s : DbusReadScheduler) (t : float) (circuit_state : string)
    (priority_allowed : string -> bool) :
  scheduled s ->
  exists r, next_due s t circuit_state priority_allowed = Ok r /\
    match r with
    | Some (k, spec, _) =>
      od_get k s.(rs_specs) = Some spec /\ priority_allowed (spec_priority spec) = true /\ longest_overdue s t k
    | None =>
      (forall k n, ~ due_since s t k n) \/
      exists k spec, od_get k s.(rs_specs) = Some spec /\ longest_overdue s t k /\
        priority_allowed (spec_priority spec) = false
    end.
Proof.
  intros [Hn _ Hi]. unfold next_due. destruct (due_reads_spec s t (od_keys s.(rs_specs)) 0 Hn) as (due & -> & H1 & H2).
  unfold mbind, res_bind. destruct (sort_by due_before due) as [|[k [n j]] rest] eqn:Es.
  - exists None. split; [done|]. left. intros k n (Hk & Hn' & Hle). apply sort_by_nil in Es. subst due.
    destruct (H2 k n Hk Hn' Hle) as [j Hj]. by apply not_elem_of_nil in Hj.
  - apply (sort_by_head due_before due_before_irrefl due_before_trans) in Es as [Hin Hmin].
    destruct (H1 _ _ _ Hin) as (Hk & Hkn & Hle).
    assert (longest_overdue s t k) as Hlong.
    { exists n. split; [done|]. intros k' n' (Hk' & Hn' & Hle'). destruct (H2 k' n' Hk' Hn' Hle') as [j' Hj'].
      specialize (Hmin _ Hj'). unfold due_before in Hmin. by apply orb_false_iff in Hmin as [Hmin _]. }
    destruct (od_get k s.(rs_specs)) as [spec|] eqn:Esp; [|by apply od_get_none in Esp].
    unfold od_item. rewrite Esp. destruct (effective_interval_ok spec circuit_state (Hi _ _ Esp)) as [i ->].
    fold (spec_priority spec). destruct (priority_allowed (spec_priority spec)) eqn:Ep; eexists; (split; [reflexivity|]).
    + done.
    + right. by exists k, spec.
Qed.

Definition sample_scheduler : DbusReadScheduler :=
  mkScheduler [("grid", [("interval", VFloat f1); ("priority", VStr "read")]);
               ("pv", [("interval", VFloat (f_of_Z 2))]);
               ("names", [("priority", VStr "optional")])]
              [("grid", f_of_Z 12); ("pv", f_of_Z 11); ("names", f_of_Z 9)] [("grid", 0); ("pv", 0); ("names", 2)].

Lemma sample_scheduled : scheduled sample_scheduler.
Proof.
  constructor.
  - intros k Hk. repeat (apply elem_of_cons in Hk as [->|Hk]; [by eexists|]). by apply not_elem_of_nil in Hk.
  - intros k Hk. repeat (apply elem_of_cons in Hk as [->|Hk]; [by eexists|]). by apply not_elem_of_nil in Hk.
  - intros k spec Hk v. apply od_get_some_elem in Hk.
    repeat (apply elem_of_cons in Hk as [[= -> ->]|Hk]; [cbn; intros Hv; (by inversion Hv; eexists) || discriminate|]).
    by apply not_elem_of_nil in Hk.
Qed.

Lemma scheduler_serves_longest_overdue_witness :
  next_due sample_scheduler (f_of_Z 20) "ok" (fun p => negb (p =? "optional")%string) = Ok None /\
  exists r, next_due sample_scheduler (f_of_Z 20) "ok" (fun _ => true) = Ok r /\
    match r with
    | Some (k, spec, _) =>
      od_get k sample_scheduler.(rs_specs) = Some spec /\ true = true /\ longest_overdue sample_scheduler (f_of_Z 20) k
    | None =>
      (forall k n, ~ due_since sample_scheduler (f_of_Z 20) k n) \/
      exists k spec, od_get k sample_scheduler.(rs_specs) = Some spec /\
        longest_overdue sample_scheduler (f_of_Z 20) k /\ true = false
    end.
Proof.
  split; [vm_compute; reflexivity|].
  exact (scheduler_serves_longest_overdue sample_scheduler (f_of_Z 20) "ok" (fun _ => true) sample_scheduled).
Defined.

(** ** The operations keep the schedule *)

Lemma od_set_some {V} k k' (v : V) (d : odict string V) : is_Some (od_get k d) -> is_Some (od_get k (od_set k' v d)).
Proof. intros H. rewrite od_get_set. case_decide; [by eexists | exact H]. Qed.

Lemma copied_interval spec key value spec' :
  copy_read_spec_field spec key value = Ok spec' -> interval_checked spec -> interval_checked spec'.
Proof.
  assert (forall v, (key = "interval" -> exists x, v = VFloat x) -> interval_checked spec -> interval_checked (od_set key v spec)) as Hset.
  { intros v Hv H w. rewrite od_get_set. case_decide as E; [|apply H]. intros [= <-]. by apply Hv. }
  unfold copy_read_spec_field, copy_non_text_field, copy_text_field, copy_float_field, copy_bool_field, copy_paths_field.
  destruct (str_in key SPEC_TEXT_FIELDS) eqn:Et; [|destruct (str_in key SPEC_FLOAT_FIELDS) eqn:Ef; [|destruct (str_in key SPEC_BOOL_FIELDS) eqn:Eb]].
  - destruct value; try done. intros [= <-]. apply Hset. intros ->. done.
  - destruct value; try done; intros H; res_steps H; injection H as <-; apply Hset; intros _; by eexists.
  - destruct value; try done. intros [= <-]. apply Hset. intros ->. done.
  - destruct (str_in key ["paths"; "aggregate_paths"]); [|by intros H]. destruct value; try done.
    destruct (forallb _ _); [|done].
    intros [= <-]. apply Hset. intros ->. done.
Qed.

Lemma new_scheduler_scheduled specs s : new_scheduler specs = Ok s -> scheduled s.
Proof.
  unfold new_scheduler. intros H. res_steps H. injection H as <-.
  assert (forall V (f : read_spec -> V) k (d : odict string read_spec), k ∈ od_keys d ->
     is_Some (od_get k (map (fun kv => (fst kv, f (snd kv))) d))) as Hk.
  { intros V f k d Hin. apply not_eq_None_Some. intros Hn. apply od_get_none in Hn. apply Hn.
    unfold od_keys in *. rewrite map_map. done. }
  constructor; cbn [rs_specs rs_next_read_at rs_failure_counts].
  - intros k. apply (Hk _ (fun _ => f0)).
  - intros k. apply (Hk _ (fun _ => 0)).
  - intros k spec Hs. apply od_get_some_elem in Hs. apply map_res_ok in E.
    induction E as [|[k0 fields] [k1 checked] l l' Hx _ IH]; [by apply not_elem_of_nil in Hs|].
    apply elem_of_cons in Hs as [[= -> ->]|Hs]; [|by apply IH]. res_steps Hx. injection Hx as <- ->.
    unfold read_spec_from_mapping in E. cbn [snd] in E.
    assert (forall fs acc, interval_checked acc -> read_spec_fields acc fs = Ok checked -> interval_checked checked) as Hf.
    { intros fs. induction fs as [|[key value] fs IHf]; intros acc Ha Hr; cbn [read_spec_fields] in Hr; [by injection Hr as <-|].
      res_steps Hr. eapply IHf; [|exact Hr]. by eapply copied_interval. }
    eapply (Hf _ []); [by intros v [=] | exact E].
Qed.

Lemma read_succeeded_scheduled key t i f m s : scheduled s -> scheduled (read_succeeded key t i f m s).
Proof.
  intros [H1 H2 H3]. constructor; [| |exact H3]; intros k Hk; apply od_set_some; [by apply H1 | by apply H2].
Qed.

Lemma read_failed_scheduled key t i s : scheduled s -> scheduled (read_failed key t i s).
Proof.
  intros [H1 H2 H3]. constructor; [| |exact H3]; intros k Hk; apply od_set_some; [by apply H1 | by apply H2].
Qed.

(** A failing read backs off: the count of its failures saturates at six, and the delay until it
    is due again is at most five minutes. *)
Lemma backoff_is_bounded key t i s :
  (forall n, od_get key s.(rs_failure_counts) = Some n -> 0 <= n) ->
  exists failures delay,
    od_get key (read_failed key t i s).(rs_failure_counts) = Some failures /\ 1 <= failures <= 6 /\
    od_get key (read_failed key t i s).(rs_next_read_at) = Some (t + delay)%F /\ (delay <=? f_of_Z 300)%F = true.
Proof.
  intros H. unfold read_failed. do 2 eexists. cbn [rs_failure_counts rs_next_read_at upd eta_scheduler].
  split; [rewrite od_get_set; by rewrite decide_True|]. split.
  - destruct (od_get key _) as [n|] eqn:E; cbn; [specialize (H n eq_refl)|]; lia.
  - split; [rewrite od_get_set; by rewrite decide_True | by apply fmin_le_l].
Qed.

(** ** Discovery *)

(** What every operation keeps: the rescan for a missing inverter is at most the scan interval. *)
Record discovery_ok (d : DbusDiscoveryManager) : Prop := {
  do_interval : (f_of_Z 5 <=? d.(dm_interval_seconds))%F = true;
  do_missing : (d.(dm_missing_pv_interval_seconds) <=? d.(dm_interval_seconds))%F = true /\
               (f_of_Z 5 <=? d.(dm_missing_pv_interval_seconds))%F = true;
  do_active : (d.(dm_active_interval_seconds) <=? d.(dm_interval_seconds))%F = true /\
              (f_of_Z 5 <=? d.(dm_active_interval_seconds))%F = true }.

Lemma new_discovery_ok i m : discovery_ok (new_discovery i m).
Proof.
  unfold new_discovery. set (interval := fmax (f_of_Z 5) i).
  assert ((f_of_Z 5 <=? interval)%F = true) as H by (apply fmax_ge_l; reflexivity). clearbody interval.
  assert ((f_of_Z 5 <=? fmax (f_of_Z 15) m)%F = true) as Hm.
  { assert ((f_of_Z 15 <=? fmax (f_of_Z 15) m)%F = true) by (apply fmax_ge_l; reflexivity).
    by apply (fle_trans _ (f_of_Z 15)). }
  generalize dependent (fmax (f_of_Z 15) m). intros x Hx. assert (isnan interval = false) by (by eapply fle_not_nan_r).
  constructor; cbn [dm_interval_seconds dm_missing_pv_interval_seconds dm_active_interval_seconds]; [done| |].
  - unfold fmin. destruct (x <? interval)%F eqn:E; split; try done; [by apply flt_fle | by apply fle_refl].
  - split; [by apply fle_refl | done].
Qed.

(** Deferring a scan that is not due leaves it alone, so a deferred scan does not slide away. *)
Lemma deferral_does_not_slide d t1 c1 t2 c2 seconds :
  (d.(dm_next_scan_monotonic) >? t1)%F = false -> (t1 + fmax f0 seconds >? t2)%F = true ->
  discovery_defer_for t2 c2 seconds (discovery_defer_for t1 c1 seconds d) = discovery_defer_for t1 c1 seconds d.
Proof. intros H1 H2. unfold discovery_defer_for at 2 3. rewrite H1. unfold discovery_defer_for. cbn. by rewrite H2. Qed.
