(* ===== verification/ControlSurface.v ===== *)
(** * Control commands: targets, values and their validation

    [core/contracts_control_surface.py], [control/models.py] and [control/service.py]: the
    registry of externally writable targets, the tables derived from it, and the translation
    of payloads into canonical commands.  A payload is a dictionary with text keys.

    A check either yields a value, rejects the request with the message of a [ValueError]
    ([Invalid]), which becomes the error code of the response, or raises another exception. *)

From S2P Require Import Prelude PyFloat PyValue OrderedMap.

(** ** Outcomes of a check *)

Inductive checked (A : Type) :=
  | Valid (a : A)
  | Invalid (message : string)
  | Raises (e : exn).
Arguments Valid {A} a.
Arguments Invalid {A} message.
Arguments Raises {A} e.

#[export] Instance checked_ret : MRet checked := fun A a => Valid a.
#[export] Instance checked_bind : MBind checked :=
  fun A B f m => match m with Valid a => f a | Invalid t => Invalid t | Raises e => Raises e end.

(** An exception of the standard library; the texts of its messages are left out. *)
Definition checked_res {A} (r : res A) : checked A :=
  match r with Ok a => Valid a | Err ValueError => Invalid "" | Err e => Raises e end.

(** ** The registry of targets *)

(** core/contracts_control_surface.py: ControlTargetContract *)
Record ControlTargetContract := mkContract {
  ct_target : string; ct_writable : bool; ct_rollback_snapshot : bool;
  ct_direct_command : option string; ct_value_kind : option string; ct_required_order : option Z }.

Definition read_only_target (target : string) : ControlTargetContract :=
  mkContract target false true None None None.
Definition value_target (target_kind : string * string) : ControlTargetContract :=
  mkContract (fst target_kind) true true None (Some (snd target_kind)) None.
Definition command_target (target command kind : string) (order : option Z) : ControlTargetContract :=
  mkContract target true true (Some command) (Some kind) order.

(** core/contracts_control_surface.py: _DIRECT_CONTROL_TARGETS *)
Definition DIRECT_CONTROL_TARGETS : list ControlTargetContract :=
  [command_target "mode" "set_mode" "mode" (Some 0);
   command_target "auto_start" "set_auto_start" "binary" (Some 4);
   command_target "start_stop" "set_start_stop" "binary" (Some 1);
   command_target "enable" "set_enable" "binary" (Some 2);
   command_target "phase_selection" "set_phase_selection" "phase_selection" None].

(** core/contracts_control_surface.py: _PHASE_STATUS_TARGETS *)
Definition PHASE_STATUS_TARGETS : list string :=
  ["phase_selection_active"; "supported_phase_selections"; "auto_phase_lockout_active"; "auto_phase_lockout_target";
   "auto_phase_lockout_reason"; "auto_phase_supported_configured"; "auto_phase_supported_effective";
   "auto_phase_degraded_active"].

(** core/contracts_control_surface.py: _CONTACTOR_STATUS_TARGETS *)
Definition CONTACTOR_STATUS_TARGETS : list string :=
  ["auto_contactor_fault_count"; "auto_contactor_lockout_active"; "auto_contactor_lockout_reason";
   "auto_contactor_lockout_source"; "auto_contactor_lockout_age"].

(** core/contracts_control_surface.py: _CURRENT_SETTING_TARGETS *)
Definition CURRENT_SETTING_TARGETS : list ControlTargetContract :=
  [mkContract "set_current" true true None (Some "current") (Some 3);
   value_target ("min_current", "current"); value_target ("max_current", "current")].

(** core/contracts_control_surface.py: _PHASE_LOCKOUT_RESET_CONTRACT *)
Definition PHASE_LOCKOUT_RESET_CONTRACT : ControlTargetContract :=
  command_target "auto_phase_lockout_reset" "reset_phase_lockout" "binary" None.

(** core/contracts_control_surface.py: _CONTACTOR_LOCKOUT_RESET_CONTRACT *)
Definition CONTACTOR_LOCKOUT_RESET_CONTRACT : ControlTargetContract :=
  command_target "auto_contactor_lockout_reset" "reset_contactor_lockout" "binary" None.

(** core/contracts_control_surface.py: _AUTO_RUNTIME_TARGET_SPECS *)
Definition AUTO_RUNTIME_TARGET_SPECS : list (string * string) :=
  [("auto_start_surplus_watts", "float"); ("auto_stop_surplus_watts", "float"); ("auto_min_soc", "float");
   ("auto_resume_soc", "float"); ("auto_start_delay_seconds", "float"); ("auto_stop_delay_seconds", "float");
   ("auto_scheduled_enabled_days", "string"); ("auto_scheduled_fallback_delay_seconds", "float");
   ("auto_scheduled_latest_end_time", "string"); ("auto_scheduled_night_current", "float");
   ("auto_dbus_backoff_base_seconds", "float"); ("auto_dbus_backoff_max_seconds", "float");
   ("auto_grid_recovery_start_seconds", "float"); ("auto_stop_surplus_delay_seconds", "float");
   ("auto_stop_surplus_volatility_low_watts", "float"); ("auto_stop_surplus_volatility_high_watts", "float");
   ("auto_reference_charge_power_watts", "float"); ("auto_learn_charge_power_enabled", "binary");
   ("auto_learn_charge_power_min_watts", "float"); ("auto_learn_charge_power_alpha", "float");
   ("auto_learn_charge_power_start_delay_seconds", "float"); ("auto_learn_charge_power_window_seconds", "float");
   ("auto_learn_charge_power_max_age_seconds", "float"); ("auto_phase_switching", "binary");
   ("auto_phase_prefer_lowest_when_idle", "binary"); ("auto_phase_upshift_delay_seconds", "float");
   ("auto_phase_downshift_delay_seconds", "float"); ("auto_phase_upshift_headroom_watts", "float");
   ("auto_phase_downshift_margin_watts", "float"); ("auto_phase_mismatch_retry_seconds", "float");
   ("auto_phase_mismatch_lockout_count", "integer"); ("auto_phase_mismatch_lockout_seconds", "float")].

(** core/contracts_control_surface.py: _SOFTWARE_UPDATE_CONTRACT *)
Definition SOFTWARE_UPDATE_CONTRACT : ControlTargetContract :=
  mkContract "auto_software_update_run" true false (Some "trigger_software_update") (Some "binary") None.

(** core/contracts_control_surface.py: CONTROL_TARGET_CONTRACTS *)
Definition CONTROL_TARGET_CONTRACTS : list ControlTargetContract :=
  DIRECT_CONTROL_TARGETS ++ map read_only_target PHASE_STATUS_TARGETS ++ [PHASE_LOCKOUT_RESET_CONTRACT] ++
  map read_only_target CONTACTOR_STATUS_TARGETS ++ [CONTACTOR_LOCKOUT_RESET_CONTRACT] ++ CURRENT_SETTING_TARGETS ++
  map value_target AUTO_RUNTIME_TARGET_SPECS ++ [SOFTWARE_UPDATE_CONTRACT].

(** A repeated target raises when the module is loaded.
    core/contracts_control_surface.py: _target_index *)
Definition target_index (contracts : list ControlTargetContract) : res (list (string * ControlTargetContract)) :=
  let indexed := fold_left (fun t c => table_set c.(ct_target) c t) contracts [] in
  if bool_decide (length indexed = length contracts) then Ok indexed else Err ValueError.

(** core/contracts_control_surface.py: CONTROL_TARGET_BY_NAME *)
Definition CONTROL_TARGET_BY_NAME : res (list (string * ControlTargetContract)) :=
  target_index CONTROL_TARGET_CONTRACTS.

(** core/contracts_control_surface.py: CONTROL_WRITABLE_TARGETS *)
Definition CONTROL_WRITABLE_TARGETS : list string := map ct_target (List.filter ct_writable CONTROL_TARGET_CONTRACTS).

(** core/contracts_control_surface.py: CONTROL_WRITE_SNAPSHOT_TARGETS *)
Definition CONTROL_WRITE_SNAPSHOT_TARGETS : list string :=
  map ct_target (List.filter ct_rollback_snapshot CONTROL_TARGET_CONTRACTS).

(** core/contracts_control_surface.py: CONTROL_REQUIRED_TARGETS *)
Definition CONTROL_REQUIRED_TARGETS : list string :=
  let required := List.filter (fun c => match c.(ct_required_order) with Some _ => true | None => false end)
                              CONTROL_TARGET_CONTRACTS in
  map ct_target (sort_by (fun a b => default (-1) a.(ct_required_order) <? default (-1) b.(ct_required_order)) required).

(** core/contracts_control_surface.py: CONTROL_DIRECT_TARGET_COMMANDS *)
Definition CONTROL_DIRECT_TARGET_COMMANDS : list (string * string) :=
  omap (fun c => command ← c.(ct_direct_command); Some (c.(ct_target), command)) CONTROL_TARGET_CONTRACTS.

(** core/contracts_control_surface.py: CONTROL_COMMAND_DEFAULT_TARGETS *)
Definition CONTROL_COMMAND_DEFAULT_TARGETS : list (string * string) :=
  fold_left (fun t tc => table_set (snd tc) (fst tc) t) CONTROL_DIRECT_TARGET_COMMANDS [].

(** core/contracts_control_surface.py: CONTROL_CURRENT_SETTING_TARGETS *)
Definition CONTROL_CURRENT_SETTING_TARGETS : list string := map ct_target CURRENT_SETTING_TARGETS.

(** core/contracts_control_surface.py: CONTROL_PHASE_SELECTIONS *)
Definition CONTROL_PHASE_SELECTIONS : list string := ["P1"; "P1_P2"; "P1_P2_P3"].

(** core/contracts_control_surface.py: CONTROL_AUTO_RUNTIME_TARGETS *)
Definition CONTROL_AUTO_RUNTIME_TARGETS : list string := map fst AUTO_RUNTIME_TARGET_SPECS.

(** core/contracts_control_surface.py: CONTROL_COMMAND_NAMES *)
Definition CONTROL_COMMAND_NAMES : list string :=
  ["set_auto_runtime_setting"; "set_current_setting"] ++ map snd CONTROL_DIRECT_TARGET_COMMANDS.

(** core/contracts_control_surface.py: CONTROL_BINARY_COMMANDS *)
Definition CONTROL_BINARY_COMMANDS : list string :=
  omap (fun c => command ← c.(ct_direct_command);
                 if decide (c.(ct_value_kind) = Some "binary") then Some command else None) CONTROL_TARGET_CONTRACTS.

(** core/contracts_control_surface.py: _auto_runtime_targets *)
Definition auto_runtime_targets (value_kind : string) : list string :=
  map ct_target (List.filter (fun c =>
    bool_decide (c.(ct_direct_command) = None) && str_in c.(ct_target) CONTROL_AUTO_RUNTIME_TARGETS
      && bool_decide (c.(ct_value_kind) = Some value_kind)) CONTROL_TARGET_CONTRACTS).

(** core/contracts_control_surface.py: CONTROL_FLOAT_AUTO_RUNTIME_TARGETS *)
Definition CONTROL_FLOAT_AUTO_RUNTIME_TARGETS : list string := auto_runtime_targets "float".
(** core/contracts_control_surface.py: CONTROL_STRING_AUTO_RUNTIME_TARGETS *)
Definition CONTROL_STRING_AUTO_RUNTIME_TARGETS : list string := auto_runtime_targets "string".
(** core/contracts_control_surface.py: CONTROL_BINARY_AUTO_RUNTIME_TARGETS *)
Definition CONTROL_BINARY_AUTO_RUNTIME_TARGETS : list string := auto_runtime_targets "binary".
(** core/contracts_control_surface.py: CONTROL_INTEGER_AUTO_RUNTIME_TARGETS *)
Definition CONTROL_INTEGER_AUTO_RUNTIME_TARGETS : list string := auto_runtime_targets "integer".

(** core/contracts_control_surface.py: CONTROL_AUTO_RUNTIME_VALUE_KIND_BY_TARGET *)
Definition CONTROL_AUTO_RUNTIME_VALUE_KIND_BY_TARGET : list (string * string) :=
  let group kind := map (fun target => (target, kind)) (auto_runtime_targets kind) in
  group "float" ++ group "string" ++ group "binary" ++ group "integer".

(** ** Commands and results *)

(** control/models.py: ControlCommand *)
Record ControlCommand := mkCommand {
  cc_name : string; cc_target : string; cc_value : pyval; cc_source : string;
  cc_detail : string; cc_command_id : string; cc_idempotency_key : string }.

(** control/models.py: ControlResult *)
Record ControlResult := mkResult {
  cr_command : ControlCommand; cr_status : string; cr_accepted : bool; cr_applied : bool; cr_persisted : bool;
  cr_reversible_failure : bool; cr_external_side_effect_started : bool; cr_detail : string }.

(** control/models.py: ControlResult.applied_result *)
Definition applied_result (command : ControlCommand) (external_side_effect_started : bool) : ControlResult :=
  mkResult command "applied" true true true false external_side_effect_started "".

(** control/models.py: ControlResult.rejected_result *)
Definition rejected_result (command : ControlCommand) (detail : string) : ControlResult :=
  mkResult command "rejected" false false false true false detail.

(** control/models.py: ControlResult.accepted_in_flight_result *)
Definition accepted_in_flight_result (command : ControlCommand) (detail : string)
    (external_side_effect_started : bool) : ControlResult :=
  mkResult command "accepted_in_flight" true false false false external_side_effect_started detail.

(** ** Values *)

(** control/service.py: ControlApiV1Service._is_bool_or_binary_int *)
Definition is_bool_or_binary_int (value : pyval) : bool :=
  match value with VBool _ => true | VInt n => (n =? 0) || (n =? 1) | _ => false end.

(** control/service.py: ControlApiV1Service._is_numeric *)
Definition is_numeric (value : pyval) : bool := match value with VInt _ | VFloat _ => true | _ => false end.

(** control/service.py: ControlApiV1Service._is_non_bool_integer *)
Definition is_non_bool_integer (value : pyval) : bool := match value with VInt _ => true | _ => false end.

(** control/service.py: ControlApiV1Service._is_non_empty_text *)
Definition is_non_empty_text (value : pyval) : bool :=
  match value with VStr s => negb (py_strip s =? "")%string | _ => false end.

(** control/service.py: ControlApiV1Service._is_known_mode_value *)
Definition is_known_mode_value (value : pyval) : bool :=
  match value with VInt n => (n =? 0) || (n =? 1) || (n =? 2) | _ => false end.

(** control/service.py: ControlApiV1Service._is_known_phase_selection *)
Definition is_known_phase_selection (value : pyval) : bool :=
  match value with VStr s => str_in (py_strip s) CONTROL_PHASE_SELECTIONS | _ => false end.

(** control/service.py: ControlApiV1Service._is_non_negative_numeric *)
Definition is_non_negative_numeric (value : pyval) : checked bool :=
  if is_numeric value then (x ← checked_res (py_float value); mret (x >=? f0)%F) else mret false.

(** control/service.py: ControlApiV1Service._within_auto_runtime_bounds *)
Definition within_auto_runtime_bounds (target : string) (value : float) : bool :=
  if str_in target ["auto_min_soc"; "auto_resume_soc"] then (value <=? f_of_Z 100)%F
  else if (target =? "auto_learn_charge_power_alpha")%string then (f0 <? value)%F && (value <=? f1)%F
  else true.

Fixpoint string_count (c : ascii) (s : string) : nat :=
  match s with
  | EmptyString => 0
  | String c' s' => ((if Ascii.eqb c c' then 1 else 0) + string_count c s')%nat
  end.

(** [s.isdigit()] of ASCII text *)
Definition py_isdigit (s : string) : bool :=
  negb (s =? "")%string && forallb is_digit (String.list_ascii_of_string s).

(** control/service.py: ControlApiV1Service._hour_in_range *)
Definition hour_in_range (value : string) : checked bool :=
  n ← checked_res (int_of_text value); mret ((0 <=? n) && (n <=? 23)).

(** control/service.py: ControlApiV1Service._minute_in_range *)
Definition minute_in_range (value : string) : checked bool :=
  n ← checked_res (int_of_text value); mret ((0 <=? n) && (n <=? 59)).

(** control/service.py: ControlApiV1Service._is_valid_hour_minute *)
Definition is_valid_hour_minute (value : string) : checked bool :=
  let normalized := py_strip value in
  if negb (bool_decide (string_count ":" normalized = 1%nat)) then mret false
  else
    match py_split ":" normalized with
    | [hour_text; minute_text] =>
      if negb (py_isdigit hour_text) || negb (py_isdigit minute_text) then mret false
      else
        hour ← hour_in_range hour_text;
        (if (hour : bool) then minute_in_range minute_text else mret false)
    | _ => Invalid ""
    end.

(** control/service.py: ControlApiV1Service._valid_auto_runtime_text *)
Definition valid_auto_runtime_text (target value : string) : checked bool :=
  if negb (target =? "auto_scheduled_latest_end_time")%string then mret true else is_valid_hour_minute value.

(** control/service.py: ControlApiV1Service._auto_runtime_value_kind *)
Definition auto_runtime_value_kind (target : string) : string :=
  default "any" (table_get target CONTROL_AUTO_RUNTIME_VALUE_KIND_BY_TARGET).

(** control/service.py: ControlApiV1Service._auto_runtime_value_validator *)
Definition auto_runtime_value_validator (target : string) (value : pyval) : checked bool :=
  let kind := auto_runtime_value_kind target in
  if (kind =? "float")%string then
    numeric ← is_non_negative_numeric value;
    (if (numeric : bool) then x ← checked_res (py_float value); mret (within_auto_runtime_bounds target x) else mret false)
  else if (kind =? "string")%string then
    if is_non_empty_text value then valid_auto_runtime_text target (py_str value) else mret false
  else if (kind =? "binary")%string then mret (is_bool_or_binary_int value)
  else if (kind =? "integer")%string then mret (match value with VInt n => 0 <=? n | _ => false end)
  else mret true.

(** control/service.py: ControlApiV1Service._command_value_validator *)
Definition command_value_validator (command_name target : string) (value : pyval) : checked bool :=
  if str_in command_name CONTROL_BINARY_COMMANDS then mret (is_bool_or_binary_int value)
  else if (command_name =? "set_auto_runtime_setting")%string then auto_runtime_value_validator target value
  else if (command_name =? "set_mode")%string then mret (is_known_mode_value value)
  else if (command_name =? "set_phase_selection")%string then mret (is_known_phase_selection value)
  else if (command_name =? "set_current_setting")%string then is_non_negative_numeric value
  else mret true.

(** ** Messages *)

Definition quoted (s : string) : string := ("'" ++ s ++ "'")%string.
Definition sorted_texts (l : list string) : list string := sort_by String.ltb l.

(** control/service.py: ControlApiV1Service._auto_runtime_error_kind *)
Definition auto_runtime_error_kind (target : string) : string :=
  if str_in target CONTROL_FLOAT_AUTO_RUNTIME_TARGETS then "numeric"
  else if str_in target CONTROL_STRING_AUTO_RUNTIME_TARGETS then "string"
  else if str_in target CONTROL_BINARY_AUTO_RUNTIME_TARGETS then "binary"
  else if str_in target CONTROL_INTEGER_AUTO_RUNTIME_TARGETS then "integer"
  else "generic".

(** control/service.py: ControlApiV1Service._auto_runtime_numeric_error *)
Definition auto_runtime_numeric_error (target : string) : string :=
  if str_in target ["auto_min_soc"; "auto_resume_soc"] then
    ("Control command 'set_auto_runtime_setting' requires a numeric value between 0 and 100 for target "
       ++ quoted target ++ ".")%string
  else if (target =? "auto_learn_charge_power_alpha")%string then
    ("Control command 'set_auto_runtime_setting' requires a numeric value in the interval (0, 1] for target "
       ++ quoted target ++ ".")%string
  else
    ("Control command 'set_auto_runtime_setting' requires a non-negative numeric value for target "
       ++ quoted target ++ ".")%string.

(** control/service.py: ControlApiV1Service._auto_runtime_string_error *)
Definition auto_runtime_string_error (target : string) : string :=
  if (target =? "auto_scheduled_latest_end_time")%string then
    ("Control command 'set_auto_runtime_setting' requires a HH:MM time string for target " ++ quoted target ++ ".")%string
  else
    ("Control command 'set_auto_runtime_setting' requires a non-empty string value for target "
       ++ quoted target ++ ".")%string.

(** control/service.py: ControlApiV1Service._auto_runtime_value_error *)
Definition auto_runtime_value_error (target : string) : string :=
  let kind := auto_runtime_error_kind target in
  if (kind =? "numeric")%string then auto_runtime_numeric_error target
  else if (kind =? "string")%string then auto_runtime_string_error target
  else if (kind =? "binary")%string then
    ("Control command 'set_auto_runtime_setting' requires a boolean or binary integer value (0 or 1) for target "
       ++ quoted target ++ ".")%string
  else if (kind =? "integer")%string then
    ("Control command 'set_auto_runtime_setting' requires a non-negative integer value for target "
       ++ quoted target ++ ".")%string
  else
    ("Control command 'set_auto_runtime_setting' received an invalid value for target " ++ quoted target ++ ".")%string.

(** control/service.py: ControlApiV1Service._command_value_error *)
Definition command_value_error (command_name target : string) : checked string :=
  if str_in command_name CONTROL_BINARY_COMMANDS then
    mret ("Control command " ++ quoted command_name ++ " requires a boolean or binary integer value (0 or 1).")%string
  else if (command_name =? "set_auto_runtime_setting")%string then mret (auto_runtime_value_error target)
  else if (command_name =? "set_current_setting")%string then
    mret ("Control command " ++ quoted command_name ++ " requires a non-negative numeric value for target "
            ++ quoted target ++ ".")%string
  else if (command_name =? "set_mode")%string then mret "Control command 'set_mode' requires one of: 0, 1, 2."
  else if (command_name =? "set_phase_selection")%string then
    mret "Control command 'set_phase_selection' requires one of: P1, P1_P2, P1_P2_P3."
  else Raises KeyError.

(** ** The service *)

(** A payload of the API: its keys are texts. *)
Definition payload : Type := odict string pyval.

(** [{str(key): item for key, item in value.items()}] *)
Definition str_keys (d : list (pyval * pyval)) : payload :=
  fold_left (fun acc kv => od_set (py_str (fst kv)) (snd kv) acc) d [].

Section service.
(** The two target sets the service is constructed with. *)
Variables current_setting_targets auto_runtime_setting_targets : list string.

(** control/service.py: ControlApiV1Service._target_membership_error *)
Definition target_membership_error (command_name target : string) (allowed_targets : list string) : string :=
  if str_in target allowed_targets then ""
  else ("Control command " ++ quoted command_name ++ " requires one of: "
          ++ join ", " (sorted_texts allowed_targets) ++ ".")%string.

(** control/service.py: ControlApiV1Service._specialized_command_target_error *)
Definition specialized_command_target_error (command_name target : string) : string :=
  if (command_name =? "set_auto_runtime_setting")%string
  then target_membership_error command_name target auto_runtime_setting_targets
  else if (command_name =? "set_current_setting")%string
  then target_membership_error command_name target current_setting_targets
  else "".

(** control/service.py: ControlApiV1Service._default_command_target_error *)
Definition default_command_target_error (command_name target : string) : string :=
  match table_get command_name CONTROL_COMMAND_DEFAULT_TARGETS with
  | None => ""
  | Some default_target =>
    if (default_target =? target)%string then ""
    else ("Control command " ++ quoted command_name ++ " does not support target " ++ quoted target ++ ".")%string
  end.

(** control/service.py: ControlApiV1Service._command_target_error *)
Definition command_target_error (command_name target : string) : string :=
  let default_target_error := default_command_target_error command_name target in
  if negb (default_target_error =? "")%string then default_target_error
  else specialized_command_target_error command_name target.

(** control/service.py: ControlApiV1Service._validate_command_target *)
Definition validate_command_target (command_name target : string) : checked unit :=
  let error := command_target_error command_name target in
  if negb (error =? "")%string then Invalid error else mret tt.

(** control/service.py: ControlApiV1Service._validate_command_value *)
Definition validate_command_value (command_name target : string) (value : pyval) : checked unit :=
  valid ← command_value_validator command_name target value;
  (if negb valid then error ← command_value_error command_name target; Invalid error else mret tt).

(** control/service.py: ControlApiV1Service.command_for_target *)
Definition command_for_target (name target : string) (value : pyval) (source : string) : checked ControlCommand :=
  let normalized_target := py_strip target in
  _ ← validate_command_target name normalized_target;
  _ ← validate_command_value name normalized_target value;
  mret (mkCommand name normalized_target value source "" "" "").

(** control/service.py: ControlApiV1Service._NAMED_PAYLOAD_KEYS *)
Definition NAMED_PAYLOAD_KEYS : list string :=
  ["name"; "target"; "value"; "command_id"; "detail"; "idempotency_key"].

(** control/service.py: ControlApiV1Service._reject_extra_keys *)
Definition reject_extra_keys (p : payload) (allowed_keys : list string) : checked unit :=
  let extra_keys := sorted_texts (List.filter (fun key => negb (str_in key allowed_keys)) (od_keys p)) in
  match extra_keys with
  | [] => mret tt
  | _ => Invalid ("Unsupported payload field(s): " ++ join ", " extra_keys ++ ".")%string
  end.

(** control/service.py: ControlApiV1Service._validated_command_name *)
Definition validated_command_name (raw_name : string) : checked string :=
  if str_in raw_name CONTROL_COMMAND_NAMES then mret raw_name
  else Invalid ("Unsupported control command " ++ quoted raw_name ++ ".")%string.

(** [str(payload.get(key, '')).strip()] *)
Definition payload_text (p : payload) (key : string) : string := py_strip (py_str (default (VStr "") (od_get key p))).

(** control/service.py: ControlApiV1Service._resolved_command_target *)
Definition resolved_command_target (command_name : string) (p : payload) : checked string :=
  let explicit_target := payload_text p "target" in
  if negb (explicit_target =? "")%string then
    (_ ← validate_command_target command_name explicit_target; mret explicit_target)
  else
    match table_get command_name CONTROL_COMMAND_DEFAULT_TARGETS with
    | Some default_target => mret default_target
    | None => Invalid ("Control command " ++ quoted command_name ++ " requires an explicit 'target'.")%string
    end.

(** control/service.py: ControlApiV1Service._command_from_named_payload *)
Definition command_from_named_payload (p : payload) (name : pyval) (source : string) : checked ControlCommand :=
  _ ← reject_extra_keys p NAMED_PAYLOAD_KEYS;
  let raw_name := py_strip (py_str name) in
  command_name ← validated_command_name raw_name;
  target ← resolved_command_target command_name p;
  let detail := payload_text p "detail" in
  let value := default VNone (od_get "value" p) in
  _ ← validate_command_value command_name target value;
  mret (mkCommand command_name target value source detail (payload_text p "command_id")
          (payload_text p "idempotency_key")).

(** control/service.py: ControlApiV1Service.command_from_payload *)
Definition command_from_payload (p : payload) (source : string) : checked ControlCommand :=
  match od_get "name" p with
  | Some name => command_from_named_payload p name source
  | None => Invalid "Control command payload must include 'name'."
  end.

(** ** What an accepted command is *)

(** The values of a kind of target, apart from the limits of single targets. *)
Definition value_of_kind (kind : string) (v : pyval) : Prop :=
  match v with
  | VBool _ => kind = "binary"
  | VInt n =>
    (kind = "binary" /\ (n = 0 \/ n = 1)) \/ (kind = "mode" /\ 0 <= n <= 2) \/
    ((kind = "current" \/ kind = "float") /\ exists x, float_of_int n = Ok x /\ (f0 <=? x)%F = true) \/
    (kind = "integer" /\ 0 <= n)
  | VFloat x => (kind = "current" \/ kind = "float") /\ (f0 <=? x)%F = true
  | VStr s =>
    (kind = "phase_selection" /\ py_strip s ∈ CONTROL_PHASE_SELECTIONS) \/ (kind = "string" /\ py_strip s <> "")
  | _ => False
  end.

(** The limits of single targets. *)
Definition within_limits (target : string) (v : pyval) : Prop :=
  (target ∈ ["auto_min_soc"; "auto_resume_soc"] -> exists x, py_float v = Ok x /\ (x <=? f_of_Z 100)%F = true) /\
  (target = "auto_learn_charge_power_alpha" ->
     exists x, py_float v = Ok x /\ (f0 <? x)%F = true /\ (x <=? f1)%F = true) /\
  (target = "auto_scheduled_latest_end_time" -> exists s, v = VStr s /\ is_valid_hour_minute s = Valid true).

(** The command that writes a target of the registry. *)
Definition writes (name : string) (c : ControlTargetContract) : Prop :=
  match c.(ct_direct_command) with
  | Some command => name = command
  | None => (name = "set_current_setting" /\ c.(ct_target) ∈ CONTROL_CURRENT_SETTING_TARGETS) \/
            (name = "set_auto_runtime_setting" /\ c.(ct_target) ∈ CONTROL_AUTO_RUNTIME_TARGETS)
  end.

(** A well-typed command: it writes a writable target of the registry, with a value of that target's kind. *)
Definition well_typed (name target : string) (value : pyval) : Prop :=
  exists contract kind,
    contract ∈ CONTROL_TARGET_CONTRACTS /\ contract.(ct_target) = target /\ contract.(ct_writable) = true /\
    writes name contract /\ contract.(ct_value_kind) = Some kind /\
    value_of_kind kind value /\ within_limits target value.

End service.

(** ** Kinds of values *)

(** Kinds are told apart by their names. *)
Ltac kinds := intuition (try discriminate; try lia).

Lemma binary_kind v : is_bool_or_binary_int v = true <-> value_of_kind "binary" v.
Proof. destruct v; cbn [is_bool_or_binary_int value_of_kind]; rewrite ?orb_true_iff, ?Z.eqb_eq; kinds. Qed.

Lemma mode_kind v : is_known_mode_value v = true <-> value_of_kind "mode" v.
Proof. destruct v; cbn [is_known_mode_value value_of_kind]; rewrite ?orb_true_iff, ?Z.eqb_eq; kinds. Qed.

Lemma phase_kind v : is_known_phase_selection v = true <-> value_of_kind "phase_selection" v.
Proof. destruct v; cbn [is_known_phase_selection value_of_kind]; rewrite ?str_in_spec; kinds. Qed.

Lemma integer_kind v : match v with VInt n => 0 <=? n | _ => false end = true <-> value_of_kind "integer" v.
Proof. destruct v; cbn [value_of_kind]; rewrite ?Z.leb_le; kinds. Qed.

Lemma text_kind v : is_non_empty_text v = true <-> value_of_kind "string" v.
Proof. destruct v; cbn [is_non_empty_text value_of_kind]; rewrite ?negb_true_iff, ?String.eqb_neq; kinds. Qed.

Lemma checked_bind_valid {A B} (m : checked A) (f : A -> checked B) b :
  (m ≫= f) = Valid b <-> exists a, m = Valid a /\ f a = Valid b.
Proof.
  destruct m as [a|t|e]; unfold mbind, checked_bind; [|split; [done | by intros (? & ? & ?)]..].
  split; [by exists a | by intros (? & [= <-] & ?)].
Qed.

Lemma checked_res_valid {A} (r : res A) a : checked_res r = Valid a <-> r = Ok a.
Proof. destruct r as [x|[]]; cbn; naive_solver. Qed.

Lemma numeric_kind v kind : kind = "current" \/ kind = "float" ->
  is_non_negative_numeric v = Valid true <-> value_of_kind kind v.
Proof.
  intros Hk. unfold is_non_negative_numeric. destruct v as [|b|n|x|s|l|l|d|t]; cbn [is_numeric value_of_kind].
  - done.
  - split; [done | by destruct Hk as [-> | ->]].
  - rewrite checked_bind_valid. setoid_rewrite checked_res_valid. cbn [py_float]. split.
    + intros (x & Hx & [= H]). right; right; left. eauto.
    + intros [[-> _]|[[-> _]|[[_ (x & Hx & H)]|[-> _]]]]; [destruct Hk; congruence..| |destruct Hk; congruence].
      exists x. split; [done|]. unfold mret, checked_ret. by rewrite H.
  - rewrite checked_bind_valid. setoid_rewrite checked_res_valid. cbn [py_float]. split.
    + by intros (y & [= <-] & [= H]).
    + intros [_ H]. exists x. split; [done|]. unfold mret, checked_ret. by rewrite H.
  - split; [done|]. destruct Hk as [-> | ->]; kinds.
  - done.
  - done.
  - done.
  - done.
Qed.

(** What a kind of value is known to the validators as. *)
Definition kind_accepts (kind target : string) (v : pyval) : Prop := value_of_kind kind v /\ within_limits target v.

Lemma no_limits target v :
  str_in target ["auto_min_soc"; "auto_resume_soc"; "auto_learn_charge_power_alpha"; "auto_scheduled_latest_end_time"]
    = false -> within_limits target v.
Proof.
  intros H. assert (forall s, s ∈ ["auto_min_soc"; "auto_resume_soc"; "auto_learn_charge_power_alpha";
    "auto_scheduled_latest_end_time"] -> target <> s) as Hne.
  { intros s Hs ->. apply str_in_spec in Hs. congruence. }
  split; [|split].
  - rewrite !elem_of_cons. intros [->|[->|Hs]]; [by destruct (Hne "auto_min_soc"); [set_solver|]..|set_solver].
  - intros ->. by destruct (Hne "auto_learn_charge_power_alpha"); [set_solver|].
  - intros ->. by destruct (Hne "auto_scheduled_latest_end_time"); [set_solver|].
Qed.

Lemma kind_accepts_free kind target v :
  str_in target ["auto_min_soc"; "auto_resume_soc"; "auto_learn_charge_power_alpha"; "auto_scheduled_latest_end_time"]
    = false -> kind_accepts kind target v <-> value_of_kind kind v.
Proof. intros H. unfold kind_accepts. pose proof (no_limits target v H). tauto. Qed.

Lemma valid_bool (b : bool) : (mret b : checked bool) = Valid true <-> b = true.
Proof. split; [by intros [= ->] | by intros ->]. Qed.

(** ** The registry *)

Definition direct_contracts : list ControlTargetContract :=
  List.filter (fun c => match c.(ct_direct_command) with Some _ => true | None => false end) CONTROL_TARGET_CONTRACTS.

Lemma elem_of_filter_bool {A} (f : A -> bool) l x : x ∈ List.filter f l <-> x ∈ l /\ f x = true.
Proof. by rewrite !list_elem_of_In, List.filter_In. Qed.

(** A direct command has one target, whose kind its validator checks. *)
Lemma direct_command_checks c command kind v :
  c ∈ CONTROL_TARGET_CONTRACTS -> c.(ct_direct_command) = Some command -> c.(ct_value_kind) = Some kind ->
  table_get command CONTROL_COMMAND_DEFAULT_TARGETS = Some c.(ct_target) /\ c.(ct_writable) = true /\
  str_in command ["set_auto_runtime_setting"; "set_current_setting"] = false /\
  (command_value_validator command c.(ct_target) v = Valid true <-> kind_accepts kind c.(ct_target) v).
Proof.
  intros Hc Hd Hk. assert (c ∈ direct_contracts) as Hin by (apply elem_of_filter_bool; by rewrite Hd).
  clear Hc. revert Hd Hk. vm_compute in Hin.
  repeat (apply elem_of_cons in Hin as [->|Hin]; [|]); [..|by apply elem_of_nil in Hin];
    cbn [ct_direct_command ct_value_kind ct_target ct_writable]; intros [= <-] [= <-];
    (split; [reflexivity|]; split; [reflexivity|]; split; [reflexivity|]);
    rewrite kind_accepts_free by reflexivity; rewrite <- ?binary_kind, <- ?mode_kind, <- ?phase_kind;
    apply valid_bool.
Qed.

Lemma direct_kind c command :
  c ∈ CONTROL_TARGET_CONTRACTS -> c.(ct_direct_command) = Some command -> is_Some c.(ct_value_kind).
Proof.
  intros Hc Hd. assert (c ∈ direct_contracts) as Hin by (apply elem_of_filter_bool; by rewrite Hd).
  vm_compute in Hin. repeat (apply elem_of_cons in Hin as [->|Hin]; [by eexists|]). by apply elem_of_nil in Hin.
Qed.

(** The settings without a command of their own. *)
Lemma current_contract c :
  c ∈ CONTROL_TARGET_CONTRACTS -> c.(ct_target) ∈ CONTROL_CURRENT_SETTING_TARGETS ->
  c.(ct_writable) = true /\ c.(ct_value_kind) = Some "current".
Proof.
  intros Hc Ht. assert (c ∈ List.filter (fun c => str_in c.(ct_target) CONTROL_CURRENT_SETTING_TARGETS)
    CONTROL_TARGET_CONTRACTS) as Hin by (apply elem_of_filter_bool; by rewrite str_in_spec).
  clear Ht. vm_compute in Hin. repeat (apply elem_of_cons in Hin as [->|Hin]; [done|]). by apply elem_of_nil in Hin.
Qed.

Lemma auto_contract c :
  c ∈ CONTROL_TARGET_CONTRACTS -> c.(ct_target) ∈ CONTROL_AUTO_RUNTIME_TARGETS ->
  exists kind, c = value_target (c.(ct_target), kind) /\ (c.(ct_target), kind) ∈ AUTO_RUNTIME_TARGET_SPECS.
Proof.
  intros Hc Ht. assert (c ∈ List.filter (fun c => str_in c.(ct_target) CONTROL_AUTO_RUNTIME_TARGETS)
    CONTROL_TARGET_CONTRACTS) as Hin by (apply elem_of_filter_bool; by rewrite str_in_spec).
  clear Ht. assert (c ∈ map value_target AUTO_RUNTIME_TARGET_SPECS) as Hin' by exact Hin.
  apply list_elem_of_fmap in Hin' as ([t kind] & -> & Hs). by exists kind.
Qed.

Definition spec_consistent (tk : string * string) : bool :=
  let '(t, kind) := tk in
  String.eqb (auto_runtime_value_kind t) kind && str_in kind ["float"; "string"; "binary"; "integer"] &&
  (negb (str_in t ["auto_min_soc"; "auto_resume_soc"; "auto_learn_charge_power_alpha"]) || String.eqb kind "float") &&
  (negb (String.eqb t "auto_scheduled_latest_end_time") || String.eqb kind "string").

Lemma forallb_elem {A} (f : A -> bool) l x : forallb f l = true -> x ∈ l -> f x = true.
Proof. rewrite forallb_forall, list_elem_of_In. auto. Qed.

Lemma all_specs_consistent : forallb spec_consistent AUTO_RUNTIME_TARGET_SPECS = true.
Proof. vm_compute. reflexivity. Qed.

Lemma spec_consistent_true t kind : spec_consistent (t, kind) = true ->
  auto_runtime_value_kind t = kind /\ kind ∈ ["float"; "string"; "binary"; "integer"] /\
  (kind <> "float" -> str_in t ["auto_min_soc"; "auto_resume_soc"; "auto_learn_charge_power_alpha"] = false) /\
  (kind <> "string" -> t <> "auto_scheduled_latest_end_time").
Proof.
  unfold spec_consistent.
  rewrite !andb_true_iff, !orb_true_iff, !negb_true_iff, !String.eqb_eq, String.eqb_neq, str_in_spec.
  intros [[[H1 H2] H3] H4]. split; [done|]. split; [done|]. split; [|by intros Hk; destruct H4].
  intros Hk. by destruct H3.
Qed.

Lemma specs_consistent t kind : (t, kind) ∈ AUTO_RUNTIME_TARGET_SPECS ->
  auto_runtime_value_kind t = kind /\ kind ∈ ["float"; "string"; "binary"; "integer"] /\
  (kind <> "float" -> str_in t ["auto_min_soc"; "auto_resume_soc"; "auto_learn_charge_power_alpha"] = false) /\
  (kind <> "string" -> t <> "auto_scheduled_latest_end_time").
Proof. intros Hin. apply spec_consistent_true. exact (forallb_elem _ _ _ all_specs_consistent Hin). Qed.

(** ** Validators of the Auto settings *)

Lemma float_bounds t v x :
  t <> "auto_scheduled_latest_end_time" -> py_float v = Ok x ->
  within_auto_runtime_bounds t x = true <-> within_limits t v.
Proof.
  intros Ht Hx. unfold within_auto_runtime_bounds, within_limits.
  destruct (str_in t ["auto_min_soc"; "auto_resume_soc"]) eqn:Es.
  - apply str_in_spec in Es. split.
    + intros Hb. split; [eauto|]. split; [|done]. intros ->. set_solver.
    + intros [H _]. destruct (H Es) as (y & Hy & Hb). congruence.
  - destruct (String.eqb_spec t "auto_learn_charge_power_alpha") as [->|Hn].
    + rewrite andb_true_iff. split.
      * intros [H1 H2]. split; [set_solver|]. split; [eauto|done].
      * intros (_ & H & _). destruct (H eq_refl) as (y & Hy & Hb). congruence.
    + split; [|done]. intros _. split; [|done]. intros Hin%str_in_spec. congruence.
Qed.

Lemma float_value v kind : value_of_kind kind v -> kind = "float" -> exists x, py_float v = Ok x.
Proof.
  intros H ->. destruct v as [|b|n|x|s|l|l|d|t]; cbn in *; [done|done| |eauto|naive_solver|done..].
  destruct H as [[? _]|[[? _]|[[_ (x & Hx & _)]|[? _]]]]; [done|done|eauto|done].
Qed.

Lemma unlimited t :
  str_in t ["auto_min_soc"; "auto_resume_soc"; "auto_learn_charge_power_alpha"] = false ->
  t <> "auto_scheduled_latest_end_time" ->
  str_in t ["auto_min_soc"; "auto_resume_soc"; "auto_learn_charge_power_alpha"; "auto_scheduled_latest_end_time"] = false.
Proof.
  intros H1 H2%String.eqb_neq. unfold str_in in *. cbn [existsb] in *. rewrite H2.
  destruct (t =? "auto_min_soc")%string; [done|]. destruct (t =? "auto_resume_soc")%string; [done|].
  by destruct (t =? "auto_learn_charge_power_alpha")%string.
Qed.

Lemma auto_value_checks t kind v : (t, kind) ∈ AUTO_RUNTIME_TARGET_SPECS ->
  auto_runtime_value_validator t v = Valid true <-> kind_accepts kind t v.
Proof.
  intros Hin. destruct (specs_consistent t kind Hin) as (Hk & Hd & Hf & Hs).
  unfold auto_runtime_value_validator. rewrite Hk.
  apply elem_of_cons in Hd as [->|Hd]; [|apply elem_of_cons in Hd as [->|Hd]; [|apply elem_of_cons in Hd as [->|Hd];
    [|apply list_elem_of_singleton in Hd as ->]]]; cbn [String.eqb Ascii.eqb Bool.eqb].
  - unfold kind_accepts. rewrite <- (numeric_kind v "float") by auto. rewrite checked_bind_valid. split.
    + intros (b & Hb & H). destruct b; [|done]. apply checked_bind_valid in H as (x & Hx & [= H]).
      apply checked_res_valid in Hx. split; [done|]. by apply (float_bounds t v x (Hs ltac:(done))).
    + intros [Hb Hl]. exists true. split; [done|].
      destruct (float_value v "float") as [x Hx]; [by apply numeric_kind; auto|done|].
      apply checked_bind_valid. exists x. split; [by apply checked_res_valid|].
      unfold mret, checked_ret. f_equal. by apply (float_bounds t v x (Hs ltac:(done))).
  - unfold kind_accepts. rewrite <- text_kind. destruct (is_non_empty_text v) eqn:Ev; [|split; [done | by intros [? _]]].
    destruct v as [| | | |s| | | |]; cbn in Ev; try done. change (py_str (VStr s)) with s.
    assert (within_limits t (VStr s) <-> (t = "auto_scheduled_latest_end_time" -> is_valid_hour_minute s = Valid true)) as ->.
    { specialize (Hf ltac:(done)). unfold within_limits. split.
      - intros (_ & _ & H) Ht. destruct (H Ht) as (s' & [= <-] & Hv). done.
      - intros H. split; [|split; [|eauto]].
        + intros Hi. apply str_in_spec in Hi. unfold str_in in *. cbn [existsb] in *.
          destruct (t =? "auto_min_soc")%string; [done|]. by destruct (t =? "auto_resume_soc")%string.
        + intros ->. done. }
    unfold valid_auto_runtime_text. destruct (String.eqb_spec t "auto_scheduled_latest_end_time"); cbn [negb].
    + split; [by intros Hv; split | intros [_ Hv]; by apply Hv].
    + split; [by intros _|]. by intros _.
  - rewrite kind_accepts_free, valid_bool; [apply binary_kind | by apply unlimited; auto].
  - rewrite kind_accepts_free, valid_bool; [apply integer_kind | by apply unlimited; auto].
Qed.

(** ** Payloads *)

(** The command a payload asks for. *)
Definition requested_target (p : payload) : string :=
  let explicit_target := payload_text p "target" in
  if (explicit_target =? "")%string
  then default "" (table_get (payload_text p "name") CONTROL_COMMAND_DEFAULT_TARGETS) else explicit_target.

Definition requested_command (p : payload) (source : string) : ControlCommand :=
  mkCommand (payload_text p "name") (requested_target p) (default VNone (od_get "value" p)) source
    (payload_text p "detail") (payload_text p "command_id") (payload_text p "idempotency_key").

Definition well_typed_command (c : ControlCommand) : Prop := well_typed c.(cc_name) c.(cc_target) c.(cc_value).

Lemma direct_name name :
  name ∈ CONTROL_COMMAND_NAMES -> str_in name ["set_auto_runtime_setting"; "set_current_setting"] = false ->
  exists c, c ∈ CONTROL_TARGET_CONTRACTS /\ c.(ct_direct_command) = Some name.
Proof.
  intros Hn Hs. unfold CONTROL_COMMAND_NAMES in Hn. apply elem_of_app in Hn as [Hn|Hn].
  { apply str_in_spec in Hn. congruence. }
  apply list_elem_of_fmap in Hn as ([t command] & -> & Hd).
  apply list_elem_of_omap in Hd as (c & Hc & Hd). exists c. split; [done|].
  destruct (ct_direct_command c); [by injection Hd as _ -> | done].
Qed.

(** The target sets of the service are those of the registry. *)
Section registered.
Context (current auto : list string).
Hypothesis current_registered : forall t, t ∈ current <-> t ∈ CONTROL_CURRENT_SETTING_TARGETS.
Hypothesis auto_registered : forall t, t ∈ auto <-> t ∈ CONTROL_AUTO_RUNTIME_TARGETS.

Lemma membership_checks name t allowed : target_membership_error name t allowed = "" <-> t ∈ allowed.
Proof. unfold target_membership_error. rewrite <- str_in_spec. by destruct (str_in t allowed). Qed.

Lemma target_valid name t :
  validate_command_target current auto name t = Valid tt <-> command_target_error current auto name t = "".
Proof. unfold validate_command_target. destruct (String.eqb_spec (command_target_error current auto name t) "") as [E|E]; cbn [negb]; [by split | by split]. Qed.

Lemma value_valid name t v :
  validate_command_value name t v = Valid tt <-> command_value_validator name t v = Valid true.
Proof.
  unfold validate_command_value. destruct (command_value_validator name t v) as [[]|m|e]; [by split| |by split..].
  unfold mbind, checked_bind. cbn [negb]. split; [|done]. by destruct (command_value_error name t).
Qed.

Lemma direct_target_checks name d t :
  table_get name CONTROL_COMMAND_DEFAULT_TARGETS = Some d ->
  str_in name ["set_auto_runtime_setting"; "set_current_setting"] = false ->
  command_target_error current auto name t = "" <-> t = d.
Proof.
  intros Hd Hs. unfold command_target_error, default_command_target_error, specialized_command_target_error. rewrite Hd.
  unfold str_in in Hs. cbn [existsb] in Hs. apply orb_false_iff in Hs as [-> Hs]. apply orb_false_iff in Hs as [-> _].
  destruct (String.eqb_spec d t) as [->|Hn]; [done|]. split; [done | congruence].
Qed.

(** A setting without a command of its own is not written by a direct command. *)
Lemma writes_setting name c : c ∈ CONTROL_TARGET_CONTRACTS ->
  str_in name ["set_auto_runtime_setting"; "set_current_setting"] = true -> writes name c ->
  (name = "set_current_setting" /\ c.(ct_target) ∈ CONTROL_CURRENT_SETTING_TARGETS) \/
  (name = "set_auto_runtime_setting" /\ c.(ct_target) ∈ CONTROL_AUTO_RUNTIME_TARGETS).
Proof.
  intros Hc Es. unfold writes. destruct (ct_direct_command c) as [command|] eqn:Ed; [|done]. intros ->.
  destruct (direct_kind c _ Hc Ed) as [kind Hk].
  destruct (direct_command_checks c _ kind VNone Hc Ed Hk) as (_ & _ & H & _). congruence.
Qed.

Lemma auto_command_checks t v :
  (command_target_error current auto "set_auto_runtime_setting" t = "" /\
   command_value_validator "set_auto_runtime_setting" t v = Valid true) <->
  well_typed "set_auto_runtime_setting" t v.
Proof.
  change (command_target_error current auto "set_auto_runtime_setting" t)
    with (target_membership_error "set_auto_runtime_setting" t auto).
  change (command_value_validator "set_auto_runtime_setting" t v) with (auto_runtime_value_validator t v).
  rewrite membership_checks, auto_registered. split.
  - intros [Ht Hv]. apply list_elem_of_fmap in Ht as ([t' kind] & -> & Hin). cbn [fst] in *.
    exists (value_target (t', kind)), kind. apply (auto_value_checks _ _ _ Hin) in Hv as [H1 H2].
    split; [unfold CONTROL_TARGET_CONTRACTS; rewrite !elem_of_app; do 6 right; left; by apply list_elem_of_fmap_2|].
    do 2 (split; [done|]). split; [|done]. right. split; [done|]. apply list_elem_of_fmap. by exists (t', kind).
  - intros (c & kind & Hc & <- & Hw & Hwr & Hk & Hv & Hl).
    destruct (writes_setting "set_auto_runtime_setting" c Hc eq_refl Hwr) as [[? _]|[_ Ht]]; [done|]. split; [done|].
    destruct (auto_contract c Hc Ht) as (kind' & Ec & Hin). rewrite Ec in Hk. injection Hk as <-.
    by apply (auto_value_checks _ _ _ Hin).
Qed.

Lemma current_command_checks t v :
  (command_target_error current auto "set_current_setting" t = "" /\
   command_value_validator "set_current_setting" t v = Valid true) <->
  well_typed "set_current_setting" t v.
Proof.
  change (command_target_error current auto "set_current_setting" t)
    with (target_membership_error "set_current_setting" t current).
  change (command_value_validator "set_current_setting" t v) with (is_non_negative_numeric v).
  rewrite membership_checks, current_registered, (numeric_kind v "current") by auto. split.
  - intros [Ht Hv]. pose proof Ht as Ht'. apply list_elem_of_fmap in Ht as (c & -> & Hin).
    assert (c ∈ CONTROL_TARGET_CONTRACTS) as Hc.
    { unfold CONTROL_TARGET_CONTRACTS. rewrite !elem_of_app. do 5 right. by left. }
    exists c, "current". destruct (current_contract c Hc Ht') as [Hw Hk]. do 3 (split; [done|]).
    vm_compute in Hin.
    repeat (apply elem_of_cons in Hin as [->|Hin];
      [split; [by left | split; [done | split; [done | by apply no_limits]]]|]). by apply elem_of_nil in Hin.
  - intros (c & kind & Hc & <- & Hw & Hwr & Hk & Hv & Hl).
    destruct (writes_setting "set_current_setting" c Hc eq_refl Hwr) as [[_ Ht]|[? _]]; [|done]. split; [done|].
    destruct (current_contract c Hc Ht) as [_ Hk']. rewrite Hk' in Hk. by injection Hk as <-.
Qed.

(** The two checks of a command together are the typing of the registry. *)
Lemma command_checks name t v : name ∈ CONTROL_COMMAND_NAMES ->
  (command_target_error current auto name t = "" /\ command_value_validator name t v = Valid true) <->
  well_typed name t v.
Proof.
  intros Hn. destruct (str_in name ["set_auto_runtime_setting"; "set_current_setting"]) eqn:Es.
  { apply str_in_spec, elem_of_cons in Es as [->|Es%list_elem_of_singleton]; [apply auto_command_checks|].
    rewrite Es. apply current_command_checks. }
  destruct (direct_name name Hn Es) as (c & Hc & Hd). destruct (direct_kind c _ Hc Hd) as [kind Hk].
  destruct (direct_command_checks c _ kind v Hc Hd Hk) as (Hdef & Hw & _ & Hv).
  rewrite (direct_target_checks _ _ _ Hdef Es). split.
  - intros [-> [H1 H2]%Hv]. exists c, kind. do 3 (split; [done|]). split; [|done]. unfold writes. by rewrite Hd.
  - intros (c' & kind' & Hc' & <- & Hw' & Hwr & Hk' & Hv' & Hl'). unfold writes in Hwr.
    destruct (ct_direct_command c') as [command|] eqn:Ed'.
    + subst command. destruct (direct_command_checks c' _ kind' v Hc' Ed' Hk') as (Hdef' & _ & _ & Hval).
      split; [congruence|]. by apply Hval.
    + by destruct Hwr as [[-> _]|[-> _]].
Qed.

End registered.

(** ** Outcomes of a request *)

Lemma extra_keys_checks p :
  reject_extra_keys p NAMED_PAYLOAD_KEYS = Valid tt <-> forall key, key ∈ od_keys p -> key ∈ NAMED_PAYLOAD_KEYS.
Proof.
  unfold reject_extra_keys, sorted_texts.
  set (extra := List.filter (fun key => negb (str_in key NAMED_PAYLOAD_KEYS)) (od_keys p)).
  assert (extra = [] <-> forall key, key ∈ od_keys p -> key ∈ NAMED_PAYLOAD_KEYS) as <-.
  { split.
    - intros He key Hk. destruct (str_in key NAMED_PAYLOAD_KEYS) eqn:Es; [by apply str_in_spec|].
      assert (key ∈ extra) as Hin by (apply elem_of_filter_bool; by rewrite Es). rewrite He in Hin. by apply elem_of_nil in Hin.
    - intros H. destruct extra as [|key rest] eqn:Ee; [done|]. assert (key ∈ extra) as Hin by (rewrite Ee; left).
      apply elem_of_filter_bool in Hin as [Hin Hs]. apply H, str_in_spec in Hin. by rewrite Hin in Hs. }
  destruct (sort_by String.ltb extra) as [|key rest] eqn:Es.
  - apply (f_equal length) in Es. rewrite sort_by_length in Es. split; [by destruct extra | done].
  - split; [done|]. intros ->. done.
Qed.

Lemma name_checks raw name : validated_command_name raw = Valid name <-> raw = name /\ raw ∈ CONTROL_COMMAND_NAMES.
Proof.
  unfold validated_command_name. rewrite <- str_in_spec. destruct (str_in raw CONTROL_COMMAND_NAMES).
  - split; [by intros [= <-] | by intros [<- _]].
  - split; [done | by intros [_ ?]].
Qed.

(** The default target of a command is a target its check accepts. *)
Lemma default_targets_checked : forallb (fun nt => (default_command_target_error (fst nt) (snd nt) =? "")%string &&
    negb (str_in (fst nt) ["set_auto_runtime_setting"; "set_current_setting"]) && negb (snd nt =? "")%string) CONTROL_COMMAND_DEFAULT_TARGETS = true.
Proof. vm_compute. reflexivity. Qed.

Lemma error_texts_known : forallb (fun name => match command_value_error name "" with Raises _ => false | _ => true end)
    CONTROL_COMMAND_NAMES = true.
Proof. vm_compute. reflexivity. Qed.

Lemma empty_target_unknown : str_in "" (map ct_target CONTROL_TARGET_CONTRACTS) = false.
Proof. vm_compute. reflexivity. Qed.

Lemma checked_bind_raises {A B} (m : checked A) (f : A -> checked B) e :
  (m ≫= f) = Raises e <-> m = Raises e \/ exists a, m = Valid a /\ f a = Raises e.
Proof. destruct m as [a|t|e']; unfold mbind, checked_bind; naive_solver. Qed.

(** An integer that no float holds. *)
Definition too_large (v : pyval) : Prop := exists n, v = VInt n /\ float_of_int n = Err OverflowError.

Lemma numeric_raises v e : is_non_negative_numeric v = Raises e -> e = OverflowError /\ too_large v.
Proof.
  unfold is_non_negative_numeric. destruct v as [| |n|x| | | | |]; cbn [is_numeric]; try done.
  rewrite checked_bind_raises. intros [H|(x & _ & [=])]. cbn [py_float] in H.
  destruct (float_of_int n) as [x|e'] eqn:E; [done|]. assert (e' = OverflowError) as ->.
  { unfold float_of_int in E. destruct (f_of_Z n); congruence. }
  injection H as <-. split; [done|]. by exists n.
Qed.

Lemma clock_text_never_raises s e : is_valid_hour_minute s <> Raises e.
Proof.
  assert (forall t e', checked_res (int_of_text t) <> Raises e') as Hint.
  { intros t e'. unfold int_of_text. destruct (read_sign (py_strip t)) as [neg body].
    destruct (read_digits body 0 0 false) as [[[v n] [|]]|]; [|done..]. by destruct (_ && _). }
  unfold is_valid_hour_minute. destruct (negb _); [done|]. destruct (py_split _ _) as [|h [|m [|]]]; [done|done| |done].
  destruct (_ || _); [done|]. unfold hour_in_range, minute_in_range. rewrite checked_bind_raises.
  intros [H|(b & _ & H)].
  - apply checked_bind_raises in H as [H|(n & _ & [=])]. by apply Hint in H.
  - destruct b; [|done]. apply checked_bind_raises in H as [H|(n & _ & [=])]. by apply Hint in H.
Qed.

Lemma validator_raises name t v e : command_value_validator name t v = Raises e -> e = OverflowError /\ too_large v.
Proof.
  unfold command_value_validator. destruct (str_in name CONTROL_BINARY_COMMANDS); [done|].
  destruct (name =? "set_auto_runtime_setting")%string.
  - unfold auto_runtime_value_validator. destruct (auto_runtime_value_kind t =? "float")%string.
    + rewrite checked_bind_raises. intros [H|(b & Hb & H)]; [by apply numeric_raises in H|].
      destruct b; [|done]. apply checked_bind_raises in H as [H|(x & _ & [=])].
      apply numeric_raises. unfold is_non_negative_numeric in *. destruct (is_numeric v); [|done].
      rewrite checked_bind_raises. by left.
    + destruct (auto_runtime_value_kind t =? "string")%string; [|by repeat destruct (_ =? _)%string].
      destruct (is_non_empty_text v); [|done]. unfold valid_auto_runtime_text. destruct (negb _); [done|].
      intros H. by apply clock_text_never_raises in H.
  - destruct (name =? "set_mode")%string; [done|]. destruct (name =? "set_phase_selection")%string; [done|].
    destruct (name =? "set_current_setting")%string; [apply numeric_raises | done].
Qed.

Section outcomes.
Context (current auto : list string).
Hypothesis current_registered : forall t, t ∈ current <-> t ∈ CONTROL_CURRENT_SETTING_TARGETS.
Hypothesis auto_registered : forall t, t ∈ auto <-> t ∈ CONTROL_AUTO_RUNTIME_TARGETS.

Lemma default_target_checks name t : table_get name CONTROL_COMMAND_DEFAULT_TARGETS = Some t ->
  command_target_error current auto name t = "".
Proof.
  intros Ht. pose proof (forallb_elem _ _ _ default_targets_checked (table_get_elem _ _ _ Ht)) as H. cbn [fst snd] in H.
  apply andb_true_iff in H as [[_ Hs%negb_true_iff]%andb_true_iff _]. by apply (direct_target_checks current auto name t t Ht Hs).
Qed.

(** The target of a request, when its name is known. *)
Lemma resolved_target_checks p name t : name = payload_text p "name" ->
  resolved_command_target current auto name p = Valid t <->
  t = requested_target p /\ t <> "" /\ command_target_error current auto name t = "".
Proof.
  intros ->. unfold resolved_command_target, requested_target.
  destruct (String.eqb_spec (payload_text p "target") "") as [E|E]; cbn [negb].
  - destruct (table_get (payload_text p "name") CONTROL_COMMAND_DEFAULT_TARGETS) as [d|] eqn:Ed; cbn [default].
    + assert (d <> "") as Hne.
      { pose proof (forallb_elem _ _ _ default_targets_checked (table_get_elem _ _ _ Ed)) as H. cbn [fst snd] in H.
        by apply andb_true_iff in H as [_ H%negb_true_iff%String.eqb_neq]. }
      split; [intros [= <-]; eauto using default_target_checks | by intros [-> _]].
    + split; [done | by intros (-> & ? & _)].
  - rewrite checked_bind_valid. split.
    + intros ([] & Hv%target_valid & [= <-]). done.
    + intros (-> & _ & He). exists tt. split; [by apply target_valid | done].
Qed.

Lemma target_never_raises name p e : resolved_command_target current auto name p <> Raises e.
Proof.
  unfold resolved_command_target, validate_command_target. destruct (negb (payload_text p "target" =? "")%string).
  - rewrite checked_bind_raises. intros [H|([] & _ & [=])]. by destruct (negb _).
  - by destruct (table_get _ _).
Qed.

Lemma value_raises name t v e : name ∈ CONTROL_COMMAND_NAMES ->
  validate_command_value name t v = Raises e -> e = OverflowError /\ too_large v.
Proof.
  intros Hn. unfold validate_command_value. rewrite checked_bind_raises. intros [H|(b & _ & H)]; [by apply validator_raises in H|].
  destruct b; cbn [negb] in H; [done|]. apply checked_bind_raises in H as [H|(text & _ & [=])]. exfalso.
  pose proof (forallb_elem _ _ _ error_texts_known Hn) as Hk. cbn beta in Hk.
  unfold command_value_error in *. repeat case_match; done.
Qed.

(** C20. A payload is turned into a command exactly when it names a command, has no unknown
    fields, and the command it asks for is well typed: it writes a writable target of the
    registry with a value of that target's kind, within that target's limits.  The command is
    then the one asked for.  Otherwise the payload is rejected with a [ValueError], except
    that an integer too large for a float raises [OverflowError]. *)
Theorem payload_accepted_exactly_when_well_typed (p : payload) (source : string) :
  (forall c, command_from_payload current auto p source = Valid c <->
     is_Some (od_get "name" p) /\ (forall key, key ∈ od_keys p -> key ∈ NAMED_PAYLOAD_KEYS) /\
     c = requested_command p source /\ c.(cc_name) ∈ CONTROL_COMMAND_NAMES /\ well_typed_command c) /\
  (forall e, command_from_payload current auto p source = Raises e ->
     e = OverflowError /\ exists n, od_get "value" p = Some (VInt n) /\ float_of_int n = Err OverflowError).
Proof.
  split.
  - intros c. unfold command_from_payload. destruct (od_get "name" p) as [name|] eqn:En; [|naive_solver].
    assert (payload_text p "name" = py_strip (py_str name)) as Hname by (unfold payload_text; by rewrite En).
    unfold command_from_named_payload. rewrite checked_bind_valid. split.
    + intros ([] & Hx & H). pose proof (proj1 (extra_keys_checks p) Hx) as Hk. rewrite <- Hname in H.
      apply checked_bind_valid in H as (n & [Hn Hin]%name_checks & H). rewrite <- Hn in H.
      apply checked_bind_valid in H as (t & [-> [Hne Ht]]%resolved_target_checks & H); [|done].
      apply checked_bind_valid in H as ([] & Hv%value_valid & [= <-]).
      split; [by eexists|]. split; [done|]. split; [done|]. split; [done|].
      apply (command_checks current auto current_registered auto_registered _ _ _ Hin). by split.
    + intros (_ & Hk & Hc & Hin & Hw). exists tt. split; [by apply extra_keys_checks|].
      rewrite <- Hname. rewrite checked_bind_valid. exists (payload_text p "name").
      rewrite Hc in Hin, Hw. cbn [requested_command cc_name] in Hin. split; [by apply name_checks|].
      pose proof (proj2 (command_checks current auto current_registered auto_registered _ _ _ Hin) Hw) as [Ht Hv].
      rewrite checked_bind_valid. exists (requested_target p). split.
      { apply resolved_target_checks; [done|]. split; [done|]. split; [|done].
        destruct Hw as (contract & kind & Hcon & Hct & _). intros Hempty. pose proof empty_target_unknown as Hf.
        apply not_true_iff_false in Hf. apply Hf, str_in_spec, list_elem_of_fmap. exists contract.
        cbn [requested_command cc_target] in Hct. by rewrite Hct. }
      rewrite checked_bind_valid. exists tt. split; [by apply value_valid | by rewrite Hc].
  - intros e. unfold command_from_payload. destruct (od_get "name" p) as [name|] eqn:En; [|done].
    unfold command_from_named_payload. rewrite checked_bind_raises. intros [H|([] & _ & H)].
    { unfold reject_extra_keys in H. by destruct (sorted_texts _). }
    apply checked_bind_raises in H as [H|(n & [<- Hin]%name_checks & H)].
    { unfold validated_command_name in H. by destruct (str_in _ _). }
    apply checked_bind_raises in H as [H|(t & _ & H)]; [by apply target_never_raises in H|].
    apply checked_bind_raises in H as [H|([] & _ & [=])]. apply value_raises in H as [-> (k & Hk & Hf)]; [|done].
    split; [done|]. exists k. split; [|done]. destruct (od_get "value" p); cbn in Hk; congruence.
Qed.
End outcomes.

(** A request of the witnesses. *)
Definition sample_payload : payload :=
  [("name", VStr "set_auto_runtime_setting"); ("target", VStr "auto_min_soc"); ("value", VInt 30)].

Lemma payload_accepted_exactly_when_well_typed_witness :
  well_typed_command (requested_command sample_payload "http").
Proof.
  pose proof (proj1 (payload_accepted_exactly_when_well_typed CONTROL_CURRENT_SETTING_TARGETS
    CONTROL_AUTO_RUNTIME_TARGETS (fun t => iff_refl _) (fun t => iff_refl _) sample_payload "http")
    (requested_command sample_payload "http")) as H.
  apply H. vm_compute. reflexivity.
Defined.
