(* ===== verification/ControlGuards.v ===== *)
(** * Guards of the control API: rate limits, tokens and scopes

    [control/rate_limit.py], [control/http_api_rate_limit.py] and [control/http_api_auth.py],
    with the payloads they answer with ([control/http_api_command_payloads.py]).  The clock
    reading of a call is its argument; a request is seen through the headers and the client
    address the guards read. *)

From S2P Require Import Prelude PyFloat PyValue OrderedMap ControlSurface.

(** ** Payloads *)

(** control/http_api_command_payloads.py: error_payload *)
Definition error_payload (code message : string) (retryable : bool) (details : list (string * pyval)) : pyval :=
  text_dict [("code", VStr code); ("message", VStr message); ("retryable", VBool retryable);
             ("details", text_dict details)].

(** control/http_api_command_payloads.py: command_api_response *)
Definition command_api_response (ok : bool) (detail : string) (command result : pyval) (replayed : bool) (error : pyval)
    : payload :=
  [("ok", VBool ok); ("detail", VStr detail); ("command", command); ("result", result);
   ("replayed", VBool replayed); ("error", error)].

(** An answer before it is written: its status, its body, its extra headers. *)
Record http_answer := mkAnswer { ha_status : Z; ha_body : payload; ha_headers : list (string * string) }.

(** control/http_api_command_payloads.py: throttled_response *)
Definition throttled_response (code message : string) (retry_after : float) : res http_answer :=
  whole ← int_of_float retry_after;
  let retry_seconds := Z.max 1 (if feq (f_of_Z whole) retry_after then whole else whole + 1) in
  mret (mkAnswer 429
    (command_api_response false message VNone VNone false
       (error_payload code message true [("retry_after_seconds", VFloat retry_after)]))
    [("Retry-After", pretty retry_seconds)]).

(** control/http_api_command_payloads.py: optimistic_concurrency_payload *)
Definition optimistic_concurrency_payload (expected_tokens : list string) (current_token : string) : payload :=
  let message := "If-Match state token does not match the current local service state." in
  command_api_response false message VNone VNone false
    (error_payload "conflict" message true
       [("expected", VList (map VStr (sorted_texts expected_tokens))); ("current", VStr current_token)]).

(** ** The rate limiter *)

(** control/rate_limit.py: ControlApiRateLimiter *)
Record ControlApiRateLimiter := mkRateLimiter {
  rl_max_requests : Z; rl_window_seconds : float; rl_critical_cooldown_seconds : float;
  rl_request_times : odict string (list float); rl_critical_deadlines : odict (string * string) float }.

#[export] Instance eta_rate_limiter : Eta ControlApiRateLimiter := fun l =>
  mkRateLimiter l.(rl_max_requests) l.(rl_window_seconds) l.(rl_critical_cooldown_seconds) l.(rl_request_times)
    l.(rl_critical_deadlines).

(** control/rate_limit.py: ControlApiRateLimiter._CRITICAL_COMMANDS *)
Definition CRITICAL_COMMANDS : list string :=
  ["reset_contactor_lockout"; "reset_phase_lockout"; "trigger_software_update"].

(** control/rate_limit.py: ControlApiRateLimiter.__init__ *)
Definition new_rate_limiter (max_requests : Z) (window_seconds critical_cooldown_seconds : float) : ControlApiRateLimiter :=
  mkRateLimiter (Z.max 1 max_requests) (fmax (fdec 1 10) window_seconds) (fmax f0 critical_cooldown_seconds) [] [].

(** control/rate_limit.py: ControlApiRateLimiter._trim_request_times *)
Definition trim_request_times (window_seconds : float) (request_times : list float) (current : float) : list float :=
  drop_while (fun t => (current - t >=? window_seconds)%F) request_times.

(** control/rate_limit.py: ControlApiRateLimiter.allow_request *)
Definition allow_request (client_key : string) (current : float) : M ControlApiRateLimiter (bool * float) :=
  l ← get;
  let request_times := trim_request_times l.(rl_window_seconds) (default [] (od_get client_key l.(rl_request_times))) current in
  let store times := modify (fun l => l <| rl_request_times := od_set client_key times l.(rl_request_times) |>) in
  match request_times with
  | first :: _ =>
    if l.(rl_max_requests) <=? zlength request_times then
      _ ← store request_times;
      mret (false, fmax f0 (l.(rl_window_seconds) - (current - first))%F)
    else
      _ ← store (request_times ++ [current]); mret (true, f0)
  | [] =>
    if l.(rl_max_requests) <=? 0 then _ ← store []; raise IndexError
    else _ ← store [current]; mret (true, f0)
  end.

(** control/rate_limit.py: ControlApiRateLimiter.allow_command *)
Definition allow_command (client_key command_name : string) (current : float) : M ControlApiRateLimiter (bool * float) :=
  l ← get;
  if negb (str_in command_name CRITICAL_COMMANDS) || (l.(rl_critical_cooldown_seconds) <=? f0)%F then mret (true, f0)
  else
    let lookup_key := (client_key, command_name) in
    let deadline := default f0 (od_get lookup_key l.(rl_critical_deadlines)) in
    if (current <? deadline)%F then mret (false, fmax f0 (deadline - current)%F)
    else
      _ ← modify (fun l => l <| rl_critical_deadlines :=
            od_set lookup_key (current + l.(rl_critical_cooldown_seconds))%F l.(rl_critical_deadlines) |>);
      mret (true, f0).

(** The limiter reads the clock once per call, here at [now] and [now_command].
    control/http_api_rate_limit.py: ControlApiHttpRateLimit.error *)
Definition rate_limit_error (client_host command_name : string) (now now_command : float)
    : M ControlApiRateLimiter (option http_answer) :=
  let client_key := if (client_host =? "")%string then "local" else client_host in
  '(request_allowed, retry_after) ← allow_request client_key now;
  if negb (request_allowed : bool) then
    answer ← lift (throttled_response "rate_limited" "Too many control requests in a short time window." retry_after);
    mret (Some answer)
  else
    '(command_allowed, retry_after) ← allow_command client_key command_name now_command;
    if (command_allowed : bool) then mret None
    else
      answer ← lift (throttled_response "cooldown_active"
                       ("Command " ++ quoted command_name ++ " is temporarily cooling down.")%string retry_after);
      mret (Some answer).

(** ** Tokens and scopes *)

(** control/http_api_auth.py: ControlApiAuthConfig *)
Record ControlApiAuthConfig := mkAuthConfig {
  auth_token : string; read_token : string; control_token : string; admin_token : string; update_token : string;
  localhost_only : bool; unix_socket_path : string }.

(** A refused request: status, code and message. *)
Definition access_error : Type := Z * string * string.

(** control/http_api_auth.py: LOCALITY_FORBIDDEN *)
Definition LOCALITY_FORBIDDEN : access_error :=
  (403, "forbidden_remote_client", "Remote clients are not allowed for this API.").
(** control/http_api_auth.py: UNAUTHORIZED_ERROR *)
Definition UNAUTHORIZED_ERROR : access_error := (401, "unauthorized", "Unauthorized.").
(** control/http_api_auth.py: INSUFFICIENT_SCOPE_ERROR *)
Definition INSUFFICIENT_SCOPE_ERROR : access_error :=
  (403, "insufficient_scope", "The supplied token does not grant the required scope for this endpoint.").

(** control/http_api_auth.py: SCOPE_ORDER *)
Definition SCOPE_ORDER : list (string * Z) :=
  [("read", 0); ("control_basic", 1); ("control_admin", 2); ("update_admin", 3)].

(** control/reference.py: CONTROL_API_COMMAND_SCOPE_REQUIREMENTS *)
Definition CONTROL_API_COMMAND_SCOPE_REQUIREMENTS : list (string * string) :=
  [("reset_contactor_lockout", "control_admin"); ("reset_phase_lockout", "control_admin");
   ("set_auto_runtime_setting", "control_admin"); ("set_auto_start", "control_basic");
   ("set_current_setting", "control_basic"); ("set_enable", "control_basic"); ("set_mode", "control_basic");
   ("set_phase_selection", "control_basic"); ("set_start_stop", "control_basic");
   ("trigger_software_update", "update_admin")].

(** A request as the guards see it: the client address of the socket, if it has one, and its headers. *)
Record http_request := mkRequest {
  rq_path : string; rq_client_address : option string; rq_headers : list (string * string) }.

(** [handler.headers.get(name, '')] *)
Definition header (r : http_request) (name : string) : string := default "" (table_get name r.(rq_headers)).

(** control/http_api_auth.py: ControlApiHttpAuthenticator.client_host *)
Definition client_host (r : http_request) : string := default "127.0.0.1" r.(rq_client_address).

Section auth.
(** [ipaddress.ip_address(host).is_loopback]; [None] is a text that is no address. *)
Variable ip_is_loopback : string -> option bool.
Variable config : ControlApiAuthConfig.

(** control/http_api_auth.py: ControlApiHttpAuthenticator.is_loopback_host *)
Definition is_loopback_host (host : string) : bool :=
  (host =? "localhost")%string || default false (ip_is_loopback host).

(** control/http_api_auth.py: ControlApiHttpAuthenticator.locality_error *)
Definition locality_error (r : http_request) : option access_error :=
  if negb config.(localhost_only) || negb (config.(unix_socket_path) =? "")%string then None
  else if is_loopback_host (client_host r) then None else Some LOCALITY_FORBIDDEN.

(** control/http_api_auth.py: ControlApiHttpAuthenticator.first_configured_token *)
Definition first_configured_token (tokens : list string) : string :=
  default "" (List.find (fun token => negb (token =? "")%string) tokens).

(** control/http_api_auth.py: ControlApiHttpAuthenticator.effective_read_token *)
Definition effective_read_token : string :=
  first_configured_token [config.(read_token); config.(control_token); config.(admin_token);
                          config.(update_token); config.(auth_token)].
(** control/http_api_auth.py: ControlApiHttpAuthenticator.effective_control_token *)
Definition effective_control_token : string := first_configured_token [config.(control_token); config.(auth_token)].
(** control/http_api_auth.py: ControlApiHttpAuthenticator.effective_admin_token *)
Definition effective_admin_token : string :=
  first_configured_token [config.(admin_token); config.(control_token); config.(auth_token)].
(** control/http_api_auth.py: ControlApiHttpAuthenticator.effective_update_token *)
Definition effective_update_token : string :=
  first_configured_token [config.(update_token); config.(admin_token); config.(control_token); config.(auth_token)].

(** control/http_api_auth.py: ControlApiHttpAuthenticator.scope_tokens *)
Definition scope_tokens : list (string * string) :=
  [("update_admin", effective_update_token); ("control_admin", effective_admin_token);
   ("control_basic", effective_control_token); ("read", effective_read_token)].

(** control/http_api_auth.py: ControlApiHttpAuthenticator.has_configured_token *)
Definition has_configured_token : bool := existsb (fun st => negb (snd st =? "")%string) scope_tokens.

(** control/http_api_auth.py: ControlApiHttpAuthenticator.matches_bearer_token *)
Definition matches_bearer_token (header token : string) : bool :=
  negb (token =? "")%string && (header =? "Bearer " ++ token)%string.

(** control/http_api_auth.py: ControlApiHttpAuthenticator._scope_for_header *)
Definition scope_for_header (header_value : string) (scope_tokens : list (string * string)) : option string :=
  if (header_value =? "")%string then None
  else fst <$> List.find (fun st => matches_bearer_token (py_strip header_value) (snd st)) scope_tokens.

(** control/http_api_auth.py: ControlApiHttpAuthenticator.authorization_scope *)
Definition authorization_scope (r : http_request) : option string :=
  if negb (existsb (fun st => negb (snd st =? "")%string) scope_tokens) then Some "update_admin"
  else scope_for_header (header r "Authorization") scope_tokens.

(** control/http_api_auth.py: ControlApiHttpAuthenticator.scope_satisfies_requirement *)
Definition scope_satisfies_requirement (scope : option string) (required_scope : string) : bool :=
  match scope ≫= (fun s => table_get s SCOPE_ORDER), table_get required_scope SCOPE_ORDER with
  | Some granted, Some required => required <=? granted
  | _, _ => false
  end.

(** control/http_api_auth.py: ControlApiHttpAuthenticator.auth_error *)
Definition auth_error (r : http_request) (required_scope : string) : option access_error :=
  let scope := authorization_scope r in
  if scope_satisfies_requirement scope required_scope then None
  else if match scope with Some _ => true | None => false end && negb (required_scope =? "read")%string
       then Some INSUFFICIENT_SCOPE_ERROR else Some UNAUTHORIZED_ERROR.

(** control/http_api_auth.py: ControlApiHttpAuthenticator.required_scope_for_command *)
Definition required_scope_for_command (p : payload) : string :=
  default "control_admin" (table_get (payload_text p "name") CONTROL_API_COMMAND_SCOPE_REQUIREMENTS).

(** control/http_api_auth.py: ControlApiHttpAuthenticator.command_auth_error *)
Definition command_auth_error (r : http_request) (p : payload) : option access_error :=
  auth_error r (required_scope_for_command p).

(** control/http_api_auth.py: ControlApiHttpAuthenticator.command_transport_auth_error *)
Definition command_transport_auth_error (r : http_request) : option access_error := auth_error r "control_basic".

(** control/http_api_auth.py: ControlApiHttpAuthenticator.normalized_token *)
Definition normalized_token (raw_value : string) : string :=
  let token := py_strip raw_value in
  let token := if String.prefix "W/" token then py_strip (string_drop 2 token) else token in
  match token with
  | String c rest =>
    if bool_decide (2 <= String.length token)%nat && Ascii.eqb c dquote &&
       bool_decide (String.get (String.length token - 1) token = Some dquote)
    then py_strip (string_take (String.length rest - 1) rest) else token
  | _ => token
  end.

(** control/http_api_auth.py: ControlApiHttpAuthenticator.request_state_tokens *)
Definition request_state_tokens (r : http_request) : list string :=
  remove_dups (List.filter (fun token => negb (token =? "")%string)
    (concat (map (fun name =>
       let raw_value := py_strip (header r name) in
       if (raw_value =? "")%string then [] else map normalized_token (py_split "," raw_value))
     ["If-Match"; "X-State-Token"]))).

(** The headers of the current state token; [state_token] is the one of the service, stripped.
    control/http_api_auth.py: ControlApiHttpAuthenticator.state_token_headers *)
Definition state_token_headers (state_token : string) : list (string * string) :=
  if (state_token =? "")%string then []
  else [("ETag", (String dquote (state_token ++ String dquote "")))%string; ("X-State-Token", state_token)].

(** control/http_api_auth.py: ControlApiHttpAuthenticator.concurrency_error *)
Definition concurrency_error (r : http_request) (state_token : string) : option http_answer :=
  let expected_tokens := request_state_tokens r in
  if bool_decide (expected_tokens = []) || str_in "*" expected_tokens then None
  else if str_in state_token expected_tokens then None
  else Some (mkAnswer 409 (optimistic_concurrency_payload expected_tokens state_token) (state_token_headers state_token)).

End auth.

(** ** Sequences of calls *)

Inductive limiter_call :=
  | Request (client : string) (at_time : float)
  | Command (client name : string) (at_time : float).

Definition run_call (call : limiter_call) : M ControlApiRateLimiter (bool * float) :=
  match call with Request client t => allow_request client t | Command client name t => allow_command client name t end.

Definition granted (outcome : res (bool * float)) : bool :=
  match outcome with Ok (allowed, _) => allowed | Err _ => false end.

(** Calls in sequence, each with whether it was granted. *)
Fixpoint run_calls (l : ControlApiRateLimiter) (calls : list limiter_call)
    : list (limiter_call * bool) * ControlApiRateLimiter :=
  match calls with
  | [] => ([], l)
  | call :: rest =>
    let '(outcome, l1) := run_call call l in
    let '(outcomes, l2) := run_calls l1 rest in
    ((call, granted outcome) :: outcomes, l2)
  end.

(** The times at which requests of a client were granted. *)
Definition granted_times (client : string) (outcomes : list (limiter_call * bool)) : list float :=
  omap (fun cb => match cb with
                  | (Request c t, true) => if decide (c = client) then Some t else None
                  | _ => None end) outcomes.

(** ** Requests *)

Definition queue_of (client : string) (l : ControlApiRateLimiter) : list float :=
  default [] (od_get client l.(rl_request_times)).

Lemma drop_while_past {A} test (l1 : list A) x l2 : test x = false ->
  exists l1', drop_while test (l1 ++ x :: l2) = l1' ++ x :: l2.
Proof.
  intros Hx. induction l1 as [|y l1 IH]; cbn [app drop_while]; [rewrite Hx; by exists []|].
  destruct (test y); [exact IH | by exists (y :: l1)].
Qed.

(** The limits of a limiter never change. *)
Definition same_limits (l l' : ControlApiRateLimiter) : Prop :=
  l'.(rl_max_requests) = l.(rl_max_requests) /\ l'.(rl_window_seconds) = l.(rl_window_seconds) /\
  l'.(rl_critical_cooldown_seconds) = l.(rl_critical_cooldown_seconds).

#[export] Instance same_limits_preorder : PreOrder same_limits.
Proof. split; [done|]. intros a b c (? & ? & ?) (? & ? & ?). repeat split; congruence. Qed.

(** What one request does to the queues: the queue of its client is trimmed, and grows when there is room. *)
Lemma allow_request_cases client t l : 1 <= l.(rl_max_requests) ->
  let trimmed := trim_request_times l.(rl_window_seconds) (queue_of client l) t in
  let outcome := allow_request client t l in
  same_limits l (snd outcome) /\ (snd outcome).(rl_critical_deadlines) = l.(rl_critical_deadlines) /\
  (forall c, c <> client -> queue_of c (snd outcome) = queue_of c l) /\
  granted (fst outcome) = (zlength trimmed <? l.(rl_max_requests)) /\
  queue_of client (snd outcome) = trimmed ++ (if granted (fst outcome) then [t] else []).
Proof.
  intros Hm. cbv zeta. unfold allow_request, queue_of. rewrite bind_get.
  set (trimmed := trim_request_times _ _ _). clearbody trimmed.
  destruct trimmed as [|first rest].
  - assert (l.(rl_max_requests) <=? 0 = false) as -> by lia. rewrite bind_modify. cbn.
    split; [done|]. split; [done|]. split; [|split; [symmetry; apply Z.ltb_lt; unfold zlength; cbn; lia|]].
    + intros c Hc. rewrite od_get_set. by destruct (decide (c = client)).
    + rewrite od_get_set. by destruct (decide (client = client)).
  - destruct (Z.leb_spec l.(rl_max_requests) (zlength (first :: rest))) as [Hle|Hlt]; rewrite bind_modify; cbn.
    + split; [done|]. split; [done|]. split; [|split; [symmetry; apply Z.ltb_ge; exact Hle|]].
      * intros c Hc. rewrite od_get_set. by destruct (decide (c = client)).
      * rewrite od_get_set. destruct (decide (client = client)); [|done]. cbn. by rewrite app_nil_r.
    + split; [done|]. split; [done|]. split; [|split; [symmetry; apply Z.ltb_lt; exact Hlt|]].
      * intros c Hc. rewrite od_get_set. by destruct (decide (c = client)).
      * rewrite od_get_set. by destruct (decide (client = client)).
Qed.

(** Commands leave the requests alone, and a command of another key its deadline. *)
Lemma allow_command_frame client name t l :
  let l' := snd (allow_command client name t l) in
  same_limits l l' /\ l'.(rl_request_times) = l.(rl_request_times) /\
  (forall k, k <> (client, name) -> od_get k l'.(rl_critical_deadlines) = od_get k l.(rl_critical_deadlines)).
Proof.
  cbv zeta. unfold allow_command. rewrite bind_get. destruct (negb _ || _); [done|].
  destruct (_ <? _)%F; [done|]. rewrite bind_modify. cbn. split; [done|]. split; [done|].
  intros k Hk. rewrite od_get_set. by destruct (decide (k = (client, name))).
Qed.

Lemma run_call_limits call l : 1 <= l.(rl_max_requests) -> same_limits l (snd (run_call call l)).
Proof. intros Hm. destruct call; [by apply allow_request_cases | apply allow_command_frame]. Qed.

Lemma run_calls_limits calls l : 1 <= l.(rl_max_requests) -> same_limits l (snd (run_calls l calls)).
Proof.
  revert l. induction calls as [|call calls IH]; intros l Hm; cbn [run_calls]; [done|].
  pose proof (run_call_limits call l Hm) as Hl. destruct (run_call call l) as [o l1]. cbn [snd] in Hl.
  assert (1 <= l1.(rl_max_requests)) as Hm1 by (destruct Hl as [-> _]; done).
  specialize (IH l1 Hm1). destruct (run_calls l1 calls) as [os l2]. cbn [snd] in *. by etrans.
Qed.

(** A granted request stays in its client's queue, before those granted after it, until it has aged. *)
Lemma request_stays client x calls l q0 g :
  1 <= l.(rl_max_requests) -> queue_of client l = q0 ++ x :: g ->
  let '(outcomes, l') := run_calls l calls in
  (exists c, Request client c ∈ calls /\ (c - x >=? l.(rl_window_seconds))%F = true) \/
  exists q0', queue_of client l' = q0' ++ x :: g ++ granted_times client outcomes.
Proof.
  revert l q0 g. induction calls as [|call calls IH]; intros l q0 g Hm Hq; cbn [run_calls].
  { right. exists q0. cbn [granted_times omap list_omap]. by rewrite app_nil_r. }
  pose proof (run_call_limits call l Hm) as Hl. destruct (run_call call l) as [o l1] eqn:Er. cbn [snd] in Hl.
  assert (1 <= l1.(rl_max_requests)) as Hm1 by (destruct Hl as [-> _]; done).
  destruct (run_calls l1 calls) as [outcomes l2] eqn:Ec.
  assert (forall q1 g1, queue_of client l1 = q1 ++ x :: g1 ->
    (exists c, Request client c ∈ call :: calls /\ (c - x >=? l.(rl_window_seconds))%F = true) \/
    exists q0', queue_of client l2 = q0' ++ x :: g1 ++ granted_times client outcomes) as Hnext.
  { intros q1 g1 Hq1. specialize (IH l1 q1 g1 Hm1 Hq1). rewrite Ec in IH. destruct Hl as (_ & Hw & _). rewrite Hw in IH.
    destruct IH as [(c & Hc & Ha)|H]; [left; exists c; by split; [right|] | by right]. }
  assert (granted_times client ((call, granted o) :: outcomes) =
    match call with Request c t => if decide (c = client) then if granted o then [t] else [] else [] | _ => [] end
      ++ granted_times client outcomes) as ->.
  { unfold granted_times. cbn [omap list_omap]. destruct call as [c t|c n t]; [|done].
    destruct (granted o), (decide (c = client)); done. }
  destruct call as [c t|c n t]; cbn [run_call] in Er.
  - pose proof (allow_request_cases c t l Hm) as H. rewrite Er in H. cbn [fst snd] in H.
    destruct H as (_ & _ & Hother & _ & Hown). destruct (decide (c = client)) as [->|Hne].
    + rewrite Hq in Hown. destruct (t - x >=? l.(rl_window_seconds))%F eqn:Ea; [left; exists t; split; [left|done]|].
      destruct (drop_while_past (fun u => (t - u >=? l.(rl_window_seconds))%F) q0 x g Ea) as [q1 Hd].
      unfold trim_request_times in Hown. rewrite Hd, <- app_assoc, <- app_comm_cons in Hown.
      rewrite app_assoc. by apply (Hnext q1).
    + cbn [app]. apply (Hnext q0). by rewrite Hother by congruence.
  - pose proof (allow_command_frame c n t l) as H. rewrite Er in H. cbn [snd] in H. destruct H as (_ & Hr & _).
    cbn [app]. apply (Hnext q0). unfold queue_of. by rewrite Hr.
Qed.

(** In any state of the limiter: when a client's request at [x] was granted and one at [y]
    is granted after [calls], among which the client was granted [max_requests - 1] further
    requests, then the request at [x] had left the window, by the clock of the request at [y] or
    of one of the client's requests in between.  So no more than [max_requests] requests of a
    client are granted within a window, whatever other clients and commands come between. *)
Theorem requests_bounded_per_window (l : ControlApiRateLimiter) (client : string) (x y : float)
    (calls : list limiter_call) :
  1 <= l.(rl_max_requests) ->
  granted (fst (allow_request client x l)) = true ->
  let '(outcomes, l') := run_calls (snd (allow_request client x l)) calls in
  granted (fst (allow_request client y l')) = true ->
  l.(rl_max_requests) <= 1 + zlength (granted_times client outcomes) ->
  exists c, Request client c ∈ calls ++ [Request client y] /\ (c - x >=? l.(rl_window_seconds))%F = true.
Proof.
  intros Hm Hx. destruct (allow_request_cases client x l Hm) as (Hl & _ & _ & _ & Hq). rewrite Hx in Hq.
  set (l1 := snd (allow_request client x l)) in *. destruct Hl as (Hmax & Hw & _).
  assert (1 <= l1.(rl_max_requests)) as Hm1 by (rewrite Hmax; exact Hm).
  pose proof (request_stays client x calls l1 _ [] Hm1 Hq) as Hs.
  pose proof (run_calls_limits calls l1 Hm1) as Hl2.
  destruct (run_calls l1 calls) as [outcomes l2]. cbn [snd] in Hl2. destruct Hl2 as (Hmax2 & Hw2 & _). intros Hy Hn.
  rewrite <- Hw. destruct Hs as [(c & Hc & Ha)|[q0 Hq2]].
  { exists c. split; [|done]. apply elem_of_app. by left. }
  destruct (y - x >=? l1.(rl_window_seconds))%F eqn:Ea.
  { exists y. split; [|done]. apply elem_of_app. right. left. }
  exfalso. assert (1 <= l2.(rl_max_requests)) as Hm2 by (rewrite Hmax2; exact Hm1).
  destruct (allow_request_cases client y l2 Hm2) as (_ & _ & _ & Hg & _). rewrite Hy in Hg.
  symmetry in Hg. apply Z.ltb_lt in Hg. rewrite Hq2, Hw2 in Hg. unfold trim_request_times in Hg.
  destruct (drop_while_past (fun u => (y - u >=? l1.(rl_window_seconds))%F) q0 x ([] ++ granted_times client outcomes) Ea)
    as [q1 Hd].
  rewrite Hd in Hg. unfold zlength in *. rewrite length_app in Hg. cbn [length app] in Hg. lia.
Qed.

(** ** Critical commands *)

Lemma allow_command_cases client name t l :
  str_in name CRITICAL_COMMANDS = true -> (l.(rl_critical_cooldown_seconds) <=? f0)%F = false ->
  let deadline := default f0 (od_get (client, name) l.(rl_critical_deadlines)) in
  allow_command client name t l =
    if (t <? deadline)%F then (Ok (false, fmax f0 (deadline - t)%F), l)
    else (Ok (true, f0), l <| rl_critical_deadlines :=
                           od_set (client, name) (t + l.(rl_critical_cooldown_seconds))%F l.(rl_critical_deadlines) |>).
Proof. intros Hc Hp. cbv zeta. unfold allow_command. rewrite bind_get, Hc, Hp. cbn [negb orb]. by destruct (_ <? _)%F. Qed.

(** While its deadline stands, a command is refused, and no call moves the deadline. *)
Lemma deadline_stands client name deadline calls l :
  1 <= l.(rl_max_requests) ->
  str_in name CRITICAL_COMMANDS = true -> (l.(rl_critical_cooldown_seconds) <=? f0)%F = false ->
  od_get (client, name) l.(rl_critical_deadlines) = Some deadline ->
  (forall u, Command client name u ∈ calls -> (u <? deadline)%F = true) ->
  forall outcome, outcome ∈ fst (run_calls l calls) ->
    match fst outcome with Command c n _ => (c, n) = (client, name) -> snd outcome = false | _ => True end.
Proof.
  intros Hm Hc. revert l Hm. induction calls as [|call calls IH]; intros l Hm Hp Hd Ht outcome; cbn [run_calls].
  { by intros ?%elem_of_nil. }
  pose proof (run_call_limits call l Hm) as Hl.
  assert (od_get (client, name) (snd (run_call call l)).(rl_critical_deadlines) = Some deadline /\
    match call with Command c n _ => (c, n) = (client, name) -> granted (fst (run_call call l)) = false | _ => True end)
    as [Hd1 Hg].
  { destruct call as [c u|c n u]; cbn [run_call].
    - destruct (allow_request_cases c u l Hm) as (_ & -> & _). done.
    - destruct (decide ((client, name) = (c, n))) as [[= <- <-]|Hne].
      + rewrite allow_command_cases by done. rewrite Hd. cbn [default].
        change (id deadline) with deadline. rewrite (Ht u) by left. done.
      + destruct (allow_command_frame c n u l) as (_ & _ & Hk). rewrite Hk by done. split; [done|]. by intros [= -> ->]. }
  destruct (run_call call l) as [o l1]. cbn [fst snd] in *. destruct Hl as (Hmax & _ & Hcool).
  specialize (IH l1). rewrite Hmax, Hcool in IH. specialize (IH Hm Hp Hd1 (fun u Hu => Ht u (list_elem_of_further _ _ _ Hu))).
  destruct (run_calls l1 calls) as [outcomes l2]. cbn [fst] in *. intros [->|Hin]%elem_of_cons; [|by apply IH].
  cbn [fst snd]. by destruct call.
Qed.

(** After a critical command of a client was granted at [t], every further call of the same
    command by that client before [t + cooldown] is refused, whatever else is called. *)
Theorem critical_commands_cool_down (l : ControlApiRateLimiter) (client name : string) (t : float)
    (calls : list limiter_call) :
  1 <= l.(rl_max_requests) ->
  name ∈ CRITICAL_COMMANDS -> (f0 <? l.(rl_critical_cooldown_seconds))%F = true ->
  granted (fst (allow_command client name t l)) = true ->
  (forall u, Command client name u ∈ calls -> (u <? t + l.(rl_critical_cooldown_seconds))%F = true) ->
  forall u allowed, (Command client name u, allowed) ∈ fst (run_calls (snd (allow_command client name t l)) calls) ->
    allowed = false.
Proof.
  intros Hm Hc%str_in_spec Hp Hg Ht u allowed Hin.
  assert ((l.(rl_critical_cooldown_seconds) <=? f0)%F = false) as Hp' by (by apply flt_not_fle).
  destruct (allow_command_frame client name t l) as (Hl & _ & _).
  rewrite (allow_command_cases client name t l Hc Hp') in *. destruct (t <? _)%F; [done|]. cbn [fst snd] in *.
  refine (deadline_stands client name _ calls _ _ Hc _ _ Ht (Command client name u, allowed) Hin eq_refl); [done|done|].
  cbn. rewrite od_get_set. by destruct (decide ((client, name) = (client, name))).
Qed.

(** ** Tokens *)

Lemma first_configured_elem tokens : first_configured_token tokens = "" \/ first_configured_token tokens ∈ tokens.
Proof.
  unfold first_configured_token. destruct (List.find _ tokens) as [token|] eqn:E; [|by left].
  right. apply List.find_some in E as [Hin _]. by apply list_elem_of_In.
Qed.

(** The tokens of a configuration that grant a scope. *)
Definition grants (config : ControlApiAuthConfig) (scope : string) (token : string) : Prop :=
  token <> "" /\ (scope, token) ∈ scope_tokens config.

Lemma requirements_control : forallb (fun ns =>
    match table_get (snd ns) SCOPE_ORDER with Some rank => 1 <=? rank | None => false end)
    CONTROL_API_COMMAND_SCOPE_REQUIREMENTS = true.
Proof. vm_compute. reflexivity. Qed.

Lemma required_rank p : exists required,
  table_get (required_scope_for_command p) SCOPE_ORDER = Some required /\ 1 <= required.
Proof.
  unfold required_scope_for_command.
  destruct (table_get (payload_text p "name") CONTROL_API_COMMAND_SCOPE_REQUIREMENTS) as [scope|] eqn:E.
  - pose proof (forallb_elem _ _ _ requirements_control (table_get_elem _ _ _ E)) as H. cbn [snd] in H.
    destruct (table_get scope SCOPE_ORDER) as [rank|] eqn:Er; [|done]. exists rank. cbn. by split; [|apply Z.leb_le].
  - by exists 2.
Qed.

Lemma rank_bounded scope rank : table_get scope SCOPE_ORDER = Some rank -> rank <= 3.
Proof.
  intros H%table_get_elem. assert (forallb (fun sr => snd sr <=? 3) SCOPE_ORDER = true) as Hall by done.
  apply Z.leb_le. exact (forallb_elem _ _ _ Hall H).
Qed.

Lemma satisfies_rank scope required_scope rank required :
  table_get scope SCOPE_ORDER = Some rank -> table_get required_scope SCOPE_ORDER = Some required ->
  scope_satisfies_requirement (Some scope) required_scope = (required <=? rank).
Proof. intros Hs Hr. unfold scope_satisfies_requirement, mbind, option_bind. by rewrite Hs, Hr. Qed.

Lemma auth_error_none config r required_scope :
  auth_error config r required_scope = None <->
  scope_satisfies_requirement (authorization_scope config r) required_scope = true.
Proof.
  unfold auth_error. destruct (scope_satisfies_requirement _ _); [by split|]. split; [|done].
  by destruct (_ && _).
Qed.

(** What a header matches is a scope with its token. *)
Lemma scope_for_header_granted config h scope :
  scope_for_header h (scope_tokens config) = Some scope ->
  exists token, grants config scope token /\ py_strip h = ("Bearer " ++ token)%string.
Proof.
  unfold scope_for_header. destruct (h =? "")%string; [done|].
  destruct (List.find _ _) as [[s token]|] eqn:E; [|done]. intros [= <-].
  apply List.find_some in E as [Hin Hm]. cbn [fst snd] in *. unfold matches_bearer_token in Hm.
  apply andb_true_iff in Hm as [Hne%negb_true_iff%String.eqb_neq Hh%String.eqb_eq].
  exists token. split; [|done]. split; [done|]. by apply list_elem_of_In.
Qed.

(** C23. A command passes the two authorization checks of its request exactly when no token at all
    is configured, or the request carries as its bearer token the token of a scope (the highest one
    it matches) that reaches the scope the command requires, which is at least basic control.  So a
    token that only grants reading never passes. *)
Theorem commands_need_their_scope (config : ControlApiAuthConfig) (r : http_request) (p : payload) :
  (command_transport_auth_error config r = None /\ command_auth_error config r p = None) <->
  has_configured_token config = false \/
  exists scope token rank required,
    authorization_scope config r = Some scope /\ grants config scope token /\
    py_strip (header r "Authorization") = ("Bearer " ++ token)%string /\
    table_get scope SCOPE_ORDER = Some rank /\
    table_get (required_scope_for_command p) SCOPE_ORDER = Some required /\ 1 <= required <= rank.
Proof.
  unfold command_transport_auth_error, command_auth_error. rewrite !auth_error_none.
  destruct (required_rank p) as (required & Hr & Hpos). unfold has_configured_token.
  destruct (existsb (fun st => negb (snd st =? "")%string) (scope_tokens config)) eqn:Eany.
  - split.
    + intros [Ht Hc]. right. destruct (authorization_scope config r) as [scope|] eqn:Es; [|done].
      destruct (table_get scope SCOPE_ORDER) as [rank|] eqn:Ek; cycle 1.
      { unfold scope_satisfies_requirement, mbind, option_bind in Hc. by rewrite Ek in Hc. }
      rewrite (satisfies_rank scope _ rank required Ek Hr) in Hc. apply Z.leb_le in Hc.
      unfold authorization_scope in Es. rewrite Eany in Es. cbn [negb] in Es.
      destruct (scope_for_header_granted config _ scope Es) as (token & Hg & Hh).
      exists scope, token, rank, required. split; [done|]. split; [done|]. split; [done|]. split; [done|].
      split; [done|]. lia.
    + intros [?|(scope & token & rank & required' & Hs & _ & _ & Hk & Hr' & Hle)]; [done|]. rewrite Hs.
      rewrite (satisfies_rank scope "control_basic" rank 1 Hk eq_refl), (satisfies_rank scope _ rank required' Hk Hr').
      split; apply Z.leb_le; lia.
  - split; [by left|]. intros _. unfold authorization_scope. rewrite Eany. cbn [negb].
    rewrite (satisfies_rank "update_admin" "control_basic" 3 1 eq_refl eq_refl).
    rewrite (satisfies_rank "update_admin" _ 3 required eq_refl Hr). split; [done|]. apply Z.leb_le.
    by apply rank_bounded in Hr.
Qed.

(** ** Witnesses *)

Definition sample_limiter : ControlApiRateLimiter := new_rate_limiter 2 (f_of_Z 5) (f_of_Z 2).

Lemma requests_bounded_per_window_witness :
  exists c, Request "a" c ∈ [Request "b" (f_of_Z 1); Request "a" (f_of_Z 3); Request "a" (f_of_Z 6)] /\
    (c - f1 >=? f_of_Z 5)%F = true.
Proof.
  exact (requests_bounded_per_window sample_limiter "a" f1 (f_of_Z 6) [Request "b" (f_of_Z 1); Request "a" (f_of_Z 3)]
    ltac:(vm_compute; discriminate) ltac:(vm_compute; reflexivity) ltac:(vm_compute; reflexivity)
    ltac:(vm_compute; discriminate)).
Defined.

Lemma critical_commands_cool_down_witness : forall allowed,
  (Command "a" "trigger_software_update" (f_of_Z 11), allowed) ∈
    fst (run_calls (snd (allow_command "a" "trigger_software_update" (f_of_Z 10) sample_limiter))
           [Command "a" "trigger_software_update" (f_of_Z 11)]) -> allowed = false.
Proof.
  intros allowed.
  refine (critical_commands_cool_down sample_limiter "a" "trigger_software_update" (f_of_Z 10)
    [Command "a" "trigger_software_update" (f_of_Z 11)] _ _ _ _ _ (f_of_Z 11) allowed).
  - vm_compute. discriminate.
  - right. right. left.
  - vm_compute. reflexivity.
  - vm_compute. reflexivity.
  - intros u Hu%list_elem_of_singleton. injection Hu as ->. vm_compute. reflexivity.
Defined.
