(* ===== verification/ControlHttp.v ===== *)
(** * The control API over HTTP

    [control/idempotency.py], [control/events.py], [control/audit.py], [control/http_api_idempotency.py],
    [control/http_api_commands.py] and the POST side of [control/http_api_routing.py], with the
    contracts of the payloads they exchange ([core/contracts_control.py]) and the runtime that owns
    them ([service/control_runtime.py]).

    The clock is constant during one request and a fresh command id is an argument.  The service
    behind the API is a parameter: its state, its command handler and its state token. *)

From S2P Require Import Prelude PyFloat PyValue OrderedMap Encoding Contracts ControlSurface ControlGuards.

(** ** Payload contracts *)

(** core/contracts_control.py: _normalized_text *)
Definition normalized_text (value : pyval) (default : string) : string :=
  let text := match value with VNone => "" | v => py_strip (py_str v) end in
  if (text =? "")%string then default else text.

(** core/contracts_control.py: CONTROL_COMMAND_SOURCES *)
Definition CONTROL_COMMAND_SOURCES : list string := ["control-surface"; "http"; "internal"; "mqtt"].
(** core/contracts_control.py: CONTROL_COMMAND_STATUSES *)
Definition CONTROL_COMMAND_STATUSES : list string := ["accepted_in_flight"; "applied"; "rejected"].
(** core/contracts_control.py: CONTROL_API_EVENT_KINDS *)
Definition CONTROL_API_EVENT_KINDS : list string := ["snapshot"; "command"; "state"; "heartbeat"].
(** core/contracts_control.py: CONTROL_API_VERSIONS *)
Definition CONTROL_API_VERSIONS : list string := ["v1"].

(** [raw.get(key)] *)
Definition field (p : payload) (key : string) : pyval := default VNone (od_get key p).

(** core/contracts_control.py: normalized_control_api_version *)
Definition normalized_control_api_version (value : pyval) : string :=
  let version := normalized_text value "" in if str_in version CONTROL_API_VERSIONS then version else "v1".

(** core/contracts_control.py: _supported_control_command_name *)
Definition supported_control_command_name (value : pyval) : option string :=
  let name := normalized_text value "" in if str_in name CONTROL_COMMAND_NAMES then Some name else None.

(** core/contracts_control.py: normalized_control_command_name *)
Definition normalized_control_command_name (value : pyval) : res string :=
  match supported_control_command_name value with Some name => Ok name | None => Err ValueError end.

(** core/contracts_control.py: normalized_control_command_source *)
Definition normalized_control_command_source (value : pyval) : string :=
  let source := py_lower (normalized_text value "") in
  if str_in source CONTROL_COMMAND_SOURCES then source else "http".

(** core/contracts_control.py: normalized_control_command_status *)
Definition normalized_control_command_status (value : pyval) : string :=
  let status := normalized_text value "" in if str_in status CONTROL_COMMAND_STATUSES then status else "rejected".

(** core/contracts_control.py: normalized_control_command_fields *)
Definition normalized_control_command_fields (raw : payload) : res payload :=
  name ← normalized_control_command_name (field raw "name");
  mret [("name", VStr name); ("target", VStr (normalized_text (field raw "target") "")); ("value", field raw "value");
        ("source", VStr (normalized_control_command_source (field raw "source")));
        ("detail", VStr (normalized_text (field raw "detail") ""));
        ("command_id", VStr (normalized_text (field raw "command_id") ""));
        ("idempotency_key", VStr (normalized_text (field raw "idempotency_key") ""))].

(** core/contracts_control.py: _normalized_control_flag *)
Definition normalized_control_flag (raw : payload) (key : string) (default_flag : bool) : res bool :=
  flag ← normalize_binary_flag (default (VBool default_flag) (od_get key raw)) 0;
  mret (negb (flag =? 0)).

(** core/contracts_control.py: normalized_control_result_fields *)
Definition normalized_control_result_fields (raw : payload) : res payload :=
  let status := normalized_control_command_status (field raw "status") in
  '(accepted, applied, persisted, reversible_failure, external_side_effect_started) ←
    (if (status =? "applied")%string then
       started ← normalized_control_flag raw "external_side_effect_started" false;
       Ok (true, true, true, false, started)
     else if (status =? "accepted_in_flight")%string then Ok (true, false, false, false, true)
     else
       reversible ← normalized_control_flag raw "reversible_failure" true;
       Ok (false, false, false, reversible, false));
  command ← normalized_control_command_fields (match field raw "command" with VDict d => str_keys d | _ => [] end);
  mret [("command", text_dict command); ("status", VStr status); ("accepted", VBool accepted);
        ("applied", VBool applied); ("persisted", VBool persisted); ("reversible_failure", VBool reversible_failure);
        ("external_side_effect_started", VBool external_side_effect_started);
        ("detail", VStr (normalized_text (field raw "detail") ""))].

(** core/contracts_control.py: normalized_control_api_event_kind *)
Definition normalized_control_api_event_kind (value : pyval) : string :=
  let kind := py_lower (normalized_text value "") in if str_in kind CONTROL_API_EVENT_KINDS then kind else "state".

(** core/contracts_control.py: normalized_control_api_event_fields *)
Definition normalized_control_api_event_fields (raw : payload) : res payload :=
  let normalized_payload := match field raw "payload" with VDict d => str_keys d | _ => [] end in
  seq ← non_negative_int (field raw "seq") 0;
  timestamp ← non_negative_float_or_none (field raw "timestamp");
  mret [("seq", VInt seq); ("api_version", VStr (normalized_control_api_version (field raw "api_version")));
        ("kind", VStr (normalized_control_api_event_kind (field raw "kind")));
        ("timestamp", VFloat (match timestamp with Some t => if ftruthy t then t else f0 | None => f0 end));
        ("resume_token", VStr (normalized_text (field raw "resume_token") (pretty seq)));
        ("payload", text_dict normalized_payload)].

(** [dataclasses.asdict(command)] *)
Definition command_dict (c : ControlCommand) : payload :=
  [("name", VStr c.(cc_name)); ("target", VStr c.(cc_target)); ("value", c.(cc_value)); ("source", VStr c.(cc_source));
   ("detail", VStr c.(cc_detail)); ("command_id", VStr c.(cc_command_id));
   ("idempotency_key", VStr c.(cc_idempotency_key))].

(** [dataclasses.asdict(result)] *)
Definition result_dict (r : ControlResult) : payload :=
  [("command", text_dict (command_dict r.(cr_command))); ("status", VStr r.(cr_status)); ("accepted", VBool r.(cr_accepted));
   ("applied", VBool r.(cr_applied)); ("persisted", VBool r.(cr_persisted));
   ("reversible_failure", VBool r.(cr_reversible_failure));
   ("external_side_effect_started", VBool r.(cr_external_side_effect_started)); ("detail", VStr r.(cr_detail))].

(** control/http_api_response.py: ControlApiHttpResponder.command_payload *)
Definition responder_command_payload (c : ControlCommand) : res payload := normalized_control_command_fields (command_dict c).

(** control/http_api_response.py: ControlApiHttpResponder.result_payload *)
Definition responder_result_payload (r : ControlResult) : res payload := normalized_control_result_fields (result_dict r).

(** control/http_api_response.py: ControlApiHttpResponder.error_payload *)
Definition responder_error_payload (code message : string) : payload :=
  [("ok", VBool false); ("detail", VStr message); ("replayed", VBool false); ("command", VNone); ("result", VNone);
   ("error", error_payload code message false [])].

(** The encoder's [sort_keys=True] and [default=str], done before the encoding; keys are texts. *)
Fixpoint sort_keys (v : pyval) : pyval :=
  match v with
  | VList l => VList (map sort_keys l)
  | VTuple l => VTuple (map sort_keys l)
  | VDict d =>
    VDict (sort_by (fun a b => String.ltb (py_str (fst a)) (py_str (fst b))) (map (fun kv => (fst kv, sort_keys (snd kv))) d))
  | VOpaque text => VStr text
  | _ => v
  end.

(** ** Runtime paths *)

Fixpoint path_parts (parts : list string) (acc : list string) : list string :=
  match parts with
  | [] => rev acc
  | part :: rest =>
    if (part =? "")%string || (part =? ".")%string then path_parts rest acc
    else if (part =? "..")%string then path_parts rest (tl acc)
    else path_parts rest (part :: acc)
  end.

(** [os.path.abspath(path)] of a process in directory [cwd]; two leading slashes are kept. *)
Definition abspath (cwd path : string) : string :=
  let absolute := if String.prefix "/" path then path else (cwd ++ "/" ++ path)%string in
  let root := if String.prefix "//" absolute && negb (String.prefix "///" absolute) then "//" else "/" in
  (root ++ join "/" (path_parts (py_split "/" absolute) []))%string.

(** control/runtime_paths.py: is_runtime_path *)
Definition is_runtime_path (cwd path : string) : bool :=
  let normalized := abspath cwd path in String.prefix "/run/" normalized || String.prefix "/tmp/" normalized.

(** ** The idempotency store *)

(** A remembered response: fingerprint, status, body. *)
Definition remembered : Type := string * Z * payload.

(** [st_file] is the document at the store's path as a later start reads it; [None] is a missing
    or unreadable one.
    control/idempotency.py: ControlApiIdempotencyStore *)
Record ControlApiIdempotencyStore := mkStore {
  st_history_limit : Z; st_path : string; st_entries : odict string remembered; st_file : option pyval }.

#[export] Instance eta_store : Eta ControlApiIdempotencyStore := fun s =>
  mkStore s.(st_history_limit) s.(st_path) s.(st_entries) s.(st_file).

(** [while len(entries) > limit: drop_oldest()]
    control/idempotency.py: ControlApiIdempotencyStore._drop_oldest_entry *)
Fixpoint drop_oldest_entries (limit : Z) (entries : odict string remembered) : odict string remembered :=
  match entries with
  | [] => []
  | _ :: rest => if limit <? zlength entries then drop_oldest_entries limit rest else entries
  end.

(** control/idempotency.py: ControlApiIdempotencyStore._loaded_status *)
Definition loaded_status (value : payload) : res Z :=
  let raw_status := field value "status" in if py_bool raw_status then py_int raw_status else Ok 0.

(** control/idempotency.py: ControlApiIdempotencyStore._loaded_entry *)
Definition loaded_entry (value : pyval) : res (option remembered) :=
  match value with
  | VDict d =>
    let entry := str_keys d in
    let fingerprint := py_strip (py_str (default (VStr "") (od_get "fingerprint" entry))) in
    status ← loaded_status entry;
    match field entry "response" with
    | VDict response => mret (if (fingerprint =? "")%string then None else Some (fingerprint, status, str_keys response))
    | _ => mret None
    end
  | _ => Ok None
  end.

(** control/idempotency.py: ControlApiIdempotencyStore._loaded_entries *)
Fixpoint loaded_entries (document : list (pyval * pyval)) (entries : odict string remembered)
    : res (odict string remembered) :=
  match document with
  | [] => Ok entries
  | (key, item) :: rest =>
    loaded ← loaded_entry item;
    loaded_entries rest (match loaded with Some entry => od_set (py_str key) entry entries | None => entries end)
  end.

(** control/idempotency.py: ControlApiIdempotencyStore._serialized_entries *)
Definition serialized_entries (entries : odict string remembered) : pyval :=
  text_dict (map (fun kv => let '(key, (fingerprint, status, response)) := kv in
    (key, text_dict [("fingerprint", VStr fingerprint); ("status", VInt status); ("response", text_dict response)]))
    entries).

Section store.
(** The working directory, and whether the file can be written at this moment. *)
Variables (cwd : string) (can_write : bool).

(** control/idempotency.py: ControlApiIdempotencyStore._load_runtime_entries *)
Definition load_runtime_entries (s : ControlApiIdempotencyStore) : res ControlApiIdempotencyStore :=
  if (s.(st_path) =? "")%string || negb (is_runtime_path cwd s.(st_path)) then Ok s
  else
    match s.(st_file) with
    | Some (VDict document) =>
      entries ← loaded_entries document [];
      mret (s <| st_entries := drop_oldest_entries s.(st_history_limit) entries |>)
    | _ => Ok s
    end.

(** control/idempotency.py: ControlApiIdempotencyStore.__init__ *)
Definition new_store (history_limit : Z) (path : string) (file : option pyval) : res ControlApiIdempotencyStore :=
  load_runtime_entries (mkStore (Z.max 1 history_limit) (py_strip path) [] file).

(** A failed write leaves no readable document: the file is opened, and thereby emptied, first.
    control/idempotency.py: ControlApiIdempotencyStore._persist_runtime_entries *)
Definition persist_runtime_entries (s : ControlApiIdempotencyStore) : ControlApiIdempotencyStore :=
  if (s.(st_path) =? "")%string || negb (is_runtime_path cwd s.(st_path)) then s
  else s <| st_file := if can_write then Some (sort_keys (serialized_entries s.(st_entries))) else None |>.

(** control/idempotency.py: ControlApiIdempotencyStore.get *)
Definition store_get (key : string) : M ControlApiIdempotencyStore (option remembered) :=
  s ← get;
  match od_get key s.(st_entries) with
  | None => mret None
  | Some entry => _ ← modify (fun s => s <| st_entries := od_put key entry s.(st_entries) |>); mret (Some entry)
  end.

(** control/idempotency.py: ControlApiIdempotencyStore.put *)
Definition store_put (key fingerprint : string) (status : Z) (response : payload) : M ControlApiIdempotencyStore unit :=
  modify (fun s => persist_runtime_entries
    (s <| st_entries := drop_oldest_entries s.(st_history_limit) (od_put key (fingerprint, status, response) s.(st_entries)) |>)).

(** control/idempotency.py: ControlApiIdempotencyStore.count *)
Definition store_count (s : ControlApiIdempotencyStore) : Z := zlength s.(st_entries).

End store.

(** ** Events and audit *)

(** [deque(maxlen=n)]: appending drops the oldest elements. *)
Definition push_bounded {A} (limit : Z) (x : A) (l : list A) : list A :=
  let l' := (l ++ [x])%list in drop (length l' - Z.to_nat limit) l'.

(** [l[-n:]] for a positive [n] *)
Definition last_n {A} (n : Z) (l : list A) : list A := drop (length l - Z.to_nat n) l.

(** control/events.py: ControlApiEventBus *)
Record ControlApiEventBus := mkBus { bus_history_limit : Z; bus_events : list payload; bus_next_seq : Z }.

#[export] Instance eta_bus : Eta ControlApiEventBus := fun b => mkBus b.(bus_history_limit) b.(bus_events) b.(bus_next_seq).

(** control/events.py: ControlApiEventBus.__init__ *)
Definition new_bus (history_limit : Z) : ControlApiEventBus := mkBus (Z.max 1 history_limit) [] 1.

(** control/events.py: ControlApiEventBus.publish *)
Definition bus_publish (now : float) (kind : string) (event_payload : payload) : M ControlApiEventBus payload :=
  b ← get;
  event ← lift (normalized_control_api_event_fields
    [("seq", VInt b.(bus_next_seq)); ("kind", VStr kind); ("timestamp", VFloat now); ("payload", text_dict event_payload)]);
  _ ← modify (fun b => (b <| bus_next_seq := b.(bus_next_seq) + 1 |>)
                         <| bus_events := push_bounded b.(bus_history_limit) event b.(bus_events) |>);
  mret event.

Definition event_seq (event : payload) : Z := match field event "seq" with VInt n => n | _ => 0 end.

(** control/events.py: ControlApiEventBus.recent *)
Definition bus_recent (b : ControlApiEventBus) (limit after_seq : Z) : list payload :=
  let capped_limit := Z.max 0 limit in
  let events := List.filter (fun event => after_seq <? event_seq event) b.(bus_events) in
  if capped_limit =? 0 then [] else last_n capped_limit events.

(** control/events.py: ControlApiEventBus._first_after_seq *)
Definition bus_first_after_seq (b : ControlApiEventBus) (after_seq : Z) : option payload :=
  List.find (fun event => after_seq <? event_seq event) b.(bus_events).

(** control/audit.py: ControlApiAuditTrail *)
Record ControlApiAuditTrail := mkAudit { au_history_limit : Z; au_entries : list payload; au_next_seq : Z }.

#[export] Instance eta_audit : Eta ControlApiAuditTrail := fun a => mkAudit a.(au_history_limit) a.(au_entries) a.(au_next_seq).

(** control/audit.py: ControlApiAuditTrail.__init__ *)
Definition new_audit (history_limit : Z) : ControlApiAuditTrail := mkAudit (Z.max 1 history_limit) [] 1.

(** The mapping to the log file is left out.
    control/audit.py: ControlApiAuditTrail.append *)
Definition audit_append (transport scope client_host : string) (status_code : Z) (replayed : bool)
    (command result error : payload) (now : float) : M ControlApiAuditTrail unit :=
  modify (fun a => (a <| au_next_seq := a.(au_next_seq) + 1 |>)
    <| au_entries := push_bounded a.(au_history_limit)
         [("seq", VInt a.(au_next_seq)); ("timestamp", VFloat now);
          ("transport", VStr (if (transport =? "")%string then "http" else transport));
          ("scope", VStr (if (scope =? "")%string then "control" else scope)); ("client_host", VStr client_host);
          ("status_code", VInt status_code); ("replayed", VBool replayed); ("command", text_dict command);
          ("result", text_dict result); ("error", text_dict error)] a.(au_entries) |>).

(** control/audit.py: ControlApiAuditTrail.recent *)
Definition audit_recent (a : ControlApiAuditTrail) (limit : Z) : list payload :=
  let capped_limit := Z.max 0 limit in if capped_limit =? 0 then [] else last_n capped_limit a.(au_entries).

(** ** The runtime behind the server *)

Section http.
Context {W : Type}.
(** The service: its command handler, its state token (stripped), the result of [json.loads]. *)
Variable handle_control_command : ControlCommand -> M W ControlResult.
Variable state_token : W -> string.
Variable json_loads : string -> option pyval.
Variables (ip_is_loopback : string -> option bool) (config : ControlApiAuthConfig) (cwd : string).
Variables current_setting_targets auto_runtime_setting_targets : list string.

(** [rt_written] is the list of answers, in order.
    service/control_runtime.py: ControlRuntime *)
Record ControlRuntime := mkRuntime {
  rt_store : ControlApiIdempotencyStore; rt_limiter : ControlApiRateLimiter; rt_events : ControlApiEventBus;
  rt_audit : ControlApiAuditTrail; rt_service : W; rt_written : list http_answer }.

#[export] Instance eta_runtime : Eta ControlRuntime := fun r =>
  mkRuntime r.(rt_store) r.(rt_limiter) r.(rt_events) r.(rt_audit) r.(rt_service) r.(rt_written).

(** A method of a part of the runtime. *)
Definition on_part {P A} (part : ControlRuntime -> P) (set_part : P -> ControlRuntime -> ControlRuntime) (m : M P A)
    : M ControlRuntime A := fun r => let '(outcome, p) := m (part r) in (outcome, set_part p r).
Definition on_store {A} : M ControlApiIdempotencyStore A -> M ControlRuntime A :=
  on_part rt_store (fun p r => r <| rt_store := p |>).
Definition on_limiter {A} : M ControlApiRateLimiter A -> M ControlRuntime A :=
  on_part rt_limiter (fun p r => r <| rt_limiter := p |>).
Definition on_events {A} : M ControlApiEventBus A -> M ControlRuntime A :=
  on_part rt_events (fun p r => r <| rt_events := p |>).
Definition on_audit {A} : M ControlApiAuditTrail A -> M ControlRuntime A :=
  on_part rt_audit (fun p r => r <| rt_audit := p |>).
Definition on_service {A} : M W A -> M ControlRuntime A := on_part rt_service (fun p r => r <| rt_service := p |>).

(** service/control_runtime.py: ControlRuntime.result_payload *)
Definition runtime_result_payload (r : ControlResult) : payload :=
  [("status", VStr r.(cr_status)); ("accepted", VBool r.(cr_accepted)); ("applied", VBool r.(cr_applied));
   ("persisted", VBool r.(cr_persisted)); ("reversible_failure", VBool r.(cr_reversible_failure));
   ("external_side_effect_started", VBool r.(cr_external_side_effect_started)); ("detail", VStr r.(cr_detail))].

(** What an event or an audit entry shows: a command or result, as an object or as its payload.
    service/control_runtime.py: ControlRuntime.command_payload *)
Definition shown_command (transport : string) (command : option (payload + ControlCommand)) : payload :=
  match command with
  | None => []
  | Some (inl p) => p
  | Some (inr c) => command_dict (if (c.(cc_source) =? "")%string
      then mkCommand c.(cc_name) c.(cc_target) c.(cc_value) transport c.(cc_detail) c.(cc_command_id) c.(cc_idempotency_key)
      else c)
  end.
(** service/control_runtime.py: ControlRuntime.result_payload *)
Definition shown_result (result : option (payload + ControlResult)) : payload :=
  match result with None => [] | Some (inl p) => p | Some (inr r) => runtime_result_payload r end.

(** service/control_runtime.py: ControlRuntime.publish_command_event *)
Definition publish_command_event (now : float) (command : option (payload + ControlCommand))
    (result : option (payload + ControlResult)) (replayed : bool) : M ControlRuntime unit :=
  _ ← on_events (bus_publish now "command"
        [("command", text_dict (shown_command "internal" command)); ("result", text_dict (shown_result result));
         ("replayed", VBool replayed)]);
  mret tt.

(** service/control_runtime.py: ControlRuntime.record_command_audit *)
Definition record_command_audit (now : float) (command : option (payload + ControlCommand))
    (result : option (payload + ControlResult)) (error : option payload) (replayed : bool) (client_host : string)
    (status_code : Z) : M ControlRuntime unit :=
  on_audit (audit_append "http" "control" client_host status_code replayed (shown_command "http" command)
    (shown_result result) (default [] error) now).

(** The event of a command follows its execution.
    service/auto_facade.py: ServiceAutoFacade.handle_command *)
Definition handle_command (now : float) (command : ControlCommand) : M ControlRuntime ControlResult :=
  result ← on_service (handle_control_command command);
  _ ← publish_command_event now (Some (inr command)) (Some (inr result)) false;
  mret result.

(** ** Idempotency of requests *)

(** control/http_api_command_payloads.py: idempotency_fingerprint *)
Definition idempotency_fingerprint (p : payload) : res string :=
  let comparable := List.filter (fun kv => negb (str_in (fst kv) ["command_id"; "idempotency_key"])) p in
  json_dumps (sort_keys (text_dict comparable)).

(** control/http_api_command_payloads.py: idempotency_conflict_response *)
Definition idempotency_conflict_response (idempotency_key : string) : Z * payload :=
  let message := "Idempotency-Key was already used for a different payload." in
  (409, command_api_response false message VNone VNone false
          (error_payload "idempotency_conflict" message false [("idempotency_key", VStr idempotency_key)])).

(** control/http_api_command_payloads.py: replayed_payload *)
Definition replayed_payload (response : payload) : payload := od_set "replayed" (VBool true) response.

(** control/http_api_idempotency.py: ControlApiHttpIdempotency._mapping_payload *)
Definition mapping_payload (value : pyval) : option payload :=
  match value with VDict d => Some (str_keys d) | _ => None end.

(** [HTTPStatus(status)]: the codes of the standard. *)
Definition http_status (status : Z) : res Z :=
  if existsb (Z.eqb status)
       [100; 101; 102; 103; 200; 201; 202; 203; 204; 205; 206; 207; 208; 226; 300; 301; 302; 303; 304; 305; 307; 308;
        400; 401; 402; 403; 404; 405; 406; 407; 408; 409; 410; 411; 412; 413; 414; 415; 416; 417; 418; 421; 422; 423;
        424; 425; 426; 428; 429; 431; 451; 500; 501; 502; 503; 504; 505; 506; 507; 508; 510; 511]
  then Ok status else Err ValueError.

(** control/http_api_idempotency.py: ControlApiHttpIdempotency._replayed_cached_response *)
Definition replayed_cached_response (now : float) (p : payload) (idempotency_key : string) (cached : remembered)
    : M ControlRuntime (Z * payload) :=
  let '(fingerprint, status, response_payload) := cached in
  fingerprint' ← lift (idempotency_fingerprint p);
  if negb (fingerprint =? fingerprint')%string then mret (idempotency_conflict_response idempotency_key)
  else
    _ ← match mapping_payload (field response_payload "command"), mapping_payload (field response_payload "result") with
        | Some command, Some result => publish_command_event now (Some (inl command)) (Some (inl result)) true
        | _, _ => mret tt
        end;
    status ← lift (http_status status);
    mret (status, replayed_payload response_payload).

(** control/http_api_idempotency.py: ControlApiHttpIdempotency.replayed_response *)
Definition replayed_response (now : float) (p : payload) : M ControlRuntime (option (Z * payload)) :=
  let idempotency_key := payload_text p "idempotency_key" in
  if (idempotency_key =? "")%string then mret None
  else
    cached ← on_store (store_get idempotency_key);
    match cached with
    | None => mret None
    | Some cached => Some <$> replayed_cached_response now p idempotency_key cached
    end.

(** control/http_api_idempotency.py: ControlApiHttpIdempotency.cache_response *)
Definition cache_response (can_write : bool) (p : payload) (status : Z) (response_payload : payload)
    (command_payload result_payload : payload) : M ControlRuntime unit :=
  let idempotency_key := payload_text p "idempotency_key" in
  if (idempotency_key =? "")%string then mret tt
  else
    fingerprint ← lift (idempotency_fingerprint p);
    on_store (store_put cwd can_write idempotency_key fingerprint status
      (od_set "result" (text_dict result_payload) (od_set "command" (text_dict command_payload) response_payload))).

(** ** Answers *)

(** [substring in text] *)
Definition text_in (needle text : string) : bool :=
  existsb (fun n => String.prefix needle (string_drop n text)) (seq 0 (S (String.length text))).

(** control/http_api_command_payloads.py: payload_error_code *)
Definition payload_error_code (message : string) : string :=
  let lowered := py_lower message in
  if existsb (fun token => text_in token lowered)
       ["unsupported control command"; "unsupported core control route"; "does not support target"; "requires one of:"]
  then "unsupported_command" else "validation_error".

(** control/http_api_command_payloads.py: _is_topology_error *)
Definition is_topology_error (result : ControlResult) (detail : string) : bool :=
  (result.(cr_command).(cc_name) =? "set_phase_selection")%string && text_in "unsupported" detail.
(** control/http_api_command_payloads.py: _is_update_progress_error *)
Definition is_update_progress_error (detail : string) : bool :=
  text_in "update" detail && existsb (fun token => text_in token detail) ["progress"; "running"; "busy"; "already"].
(** control/http_api_command_payloads.py: _is_health_error *)
Definition is_health_error (detail : string) : bool :=
  existsb (fun token => text_in token detail) ["health"; "fault"; "lockout"; "recovery"].
(** control/http_api_command_payloads.py: _is_mode_block_error *)
Definition is_mode_block_error (detail : string) : bool :=
  text_in "mode" detail && existsb (fun token => text_in token detail) ["blocked"; "cannot"; "while"; "unsupported"].

(** control/http_api_command_payloads.py: result_error_code *)
Definition result_error_code (result : ControlResult) : string :=
  let detail := py_lower (py_strip result.(cr_detail)) in
  if is_topology_error result detail then "unsupported_for_topology"
  else if is_update_progress_error detail then "update_in_progress"
  else if is_health_error detail then "blocked_by_health"
  else if is_mode_block_error detail then "blocked_by_mode"
  else if (result.(cr_status) =? "rejected")%string then "command_rejected" else "conflict".

(** control/http_api_command_payloads.py: error_payload_for_result *)
Definition error_payload_for_result (result : ControlResult) : pyval :=
  error_payload (result_error_code result)
    (if (result.(cr_detail) =? "")%string then "Command rejected." else result.(cr_detail))
    result.(cr_reversible_failure)
    [("status", VStr result.(cr_status)); ("target", VStr result.(cr_command).(cc_target));
     ("command_id", VStr result.(cr_command).(cc_command_id));
     ("idempotency_key", VStr result.(cr_command).(cc_idempotency_key))].

(** control/http_api_command_payloads.py: command_response_payload *)
Definition command_response_payload (result : ControlResult) (replayed : bool) (command_payload result_payload : payload)
    : payload :=
  command_api_response result.(cr_accepted) result.(cr_detail) (text_dict command_payload) (text_dict result_payload) replayed
    (if negb result.(cr_accepted) then error_payload_for_result result else VNone).

(** control/http_api_command_payloads.py: http_status_for_result *)
Definition http_status_for_result (result : ControlResult) : Z :=
  if (result.(cr_status) =? "applied")%string then 200
  else if (result.(cr_status) =? "accepted_in_flight")%string then 202 else 409.

(** [fresh_id] is [uuid.uuid4().hex].
    control/http_api_command_payloads.py: tracked_payload *)
Definition tracked_payload (r : http_request) (p : payload) (fresh_id : string) : payload :=
  let first a b := if (a =? "")%string then b else a in
  let command_id := first (payload_text p "command_id") (py_strip (header r "X-Command-Id")) in
  let idempotency_key := first (payload_text p "idempotency_key") (py_strip (header r "Idempotency-Key")) in
  od_set "idempotency_key" (VStr idempotency_key) (od_set "command_id" (VStr (first command_id fresh_id)) p).

(** control/http_api_command_payloads.py: tracked_command *)
Definition tracked_command (p : payload) (c : ControlCommand) : ControlCommand :=
  let command_id := payload_text p "command_id" in
  let idempotency_key := payload_text p "idempotency_key" in
  if (c.(cc_command_id) =? "")%string || negb (c.(cc_idempotency_key) =? idempotency_key)%string
  then mkCommand c.(cc_name) c.(cc_target) c.(cc_value) c.(cc_source) c.(cc_detail) command_id idempotency_key
  else c.

(** control/http_api_command_contracts.py: optional_error_payload *)
Definition optional_error_payload (p : payload) : option payload := mapping_payload (field p "error").

(** control/http_api_response.py: SAFE_EXTRA_RESPONSE_HEADERS *)
Definition SAFE_EXTRA_RESPONSE_HEADERS : list string := ["ETag"; "Retry-After"; "X-State-Token"].

(** control/http_api_response.py: ControlApiHttpResponder.safe_extra_headers *)
Definition safe_extra_headers (extra_headers : list (string * string)) : list (string * string) :=
  map (fun kv => (fst kv, py_replace (String (ascii_of_nat 10) "") "" (py_replace (String (ascii_of_nat 13) "") "" (snd kv))))
    (List.filter (fun kv => str_in (fst kv) SAFE_EXTRA_RESPONSE_HEADERS) extra_headers).

(** control/http_api_response.py: ControlApiHttpResponder.write_json *)
Definition write_json (status : Z) (body : payload) (extra_headers : list (string * string)) : M ControlRuntime unit :=
  modify (fun r => r <| rt_written := r.(rt_written) ++ [mkAnswer status body (safe_extra_headers extra_headers)] |>).

(** control/http_api_response.py: ControlApiHttpResponder.write_error *)
Definition write_error (status : Z) (code message : string) : M ControlRuntime unit :=
  write_json status (responder_error_payload code message) [].

(** [{**a, **b}] *)
Definition merged_headers (a b : list (string * string)) : list (string * string) :=
  fold_left (fun acc kv => table_set (fst kv) (snd kv) acc) b a.

Definition token_headers : M ControlRuntime (list (string * string)) :=
  gets (fun r => state_token_headers (state_token r.(rt_service))).

(** ** The command endpoint *)

Section request.
(** The clock, a fresh id, the writability of the idempotency file, and the request. *)
Variables (now : float) (fresh_id : string) (can_write : bool) (r : http_request).

(** control/http_api_commands.py: ControlApiHttpCommandEndpoint.write_replayed_response *)
Definition write_replayed_response (replay : Z * payload) (client_host : string) : M ControlRuntime unit :=
  let '(status, response_payload) := replay in
  _ ← record_command_audit now (inl <$> mapping_payload (field response_payload "command"))
        (inl <$> mapping_payload (field response_payload "result")) (optional_error_payload response_payload)
        true client_host status;
  headers ← token_headers;
  write_json status response_payload headers.

(** control/http_api_commands.py: ControlApiHttpCommandEndpoint.write_validation_error *)
Definition write_validation_error (request_payload : payload) (error_message client_host : string)
    : M ControlRuntime unit :=
  let response_payload := responder_error_payload (payload_error_code error_message) error_message in
  _ ← record_command_audit now (Some (inl request_payload)) None (optional_error_payload response_payload) false
        client_host 400;
  headers ← token_headers;
  write_json 400 response_payload headers.

(** control/http_api_commands.py: ControlApiHttpCommandEndpoint.write_rate_limit_error *)
Definition write_rate_limit_error (command : ControlCommand) (answer : http_answer) (client_host : string)
    : M ControlRuntime unit :=
  _ ← record_command_audit now (Some (inr command)) None (optional_error_payload answer.(ha_body)) false client_host
        answer.(ha_status);
  headers ← token_headers;
  write_json answer.(ha_status) answer.(ha_body) (merged_headers headers answer.(ha_headers)).

(** control/http_api_commands.py: ControlApiHttpCommandEndpoint.write_new_response *)
Definition write_new_response (request_payload : payload) (command : ControlCommand) (result : ControlResult)
    (client_host : string) : M ControlRuntime unit :=
  let status := http_status_for_result result in
  serialized_command ← lift (responder_command_payload command);
  serialized_result ← lift (responder_result_payload result);
  let response_payload := command_response_payload result false serialized_command serialized_result in
  _ ← cache_response can_write request_payload status response_payload serialized_command serialized_result;
  _ ← record_command_audit now (Some (inr command)) (Some (inr result)) (optional_error_payload response_payload) false
        client_host status;
  headers ← token_headers;
  write_json status response_payload headers.

(** The command part of a request that is no replay: validation, rate limit, execution, answer. *)
Definition execute_request (request_payload : payload) (client_host : string) : M ControlRuntime unit :=
  match command_from_payload current_setting_targets auto_runtime_setting_targets request_payload "http" with
  | Invalid message => write_validation_error request_payload message client_host
  | Raises e => raise e
  | Valid command =>
    let command := tracked_command request_payload command in
    limit_error ← on_limiter (rate_limit_error client_host command.(cc_name) now now);
    match limit_error with
    | Some answer => write_rate_limit_error command answer client_host
    | None =>
      result ← handle_command now command;
      write_new_response request_payload command result client_host
    end
  end.

(** control/http_api_commands.py: ControlApiHttpCommandEndpoint.write_command_result *)
Definition write_command_result (p : payload) : M ControlRuntime unit :=
  let request_payload := tracked_payload r p fresh_id in
  let client_host := client_host r in
  replay ← replayed_response now request_payload;
  match replay with
  | Some replay => write_replayed_response replay client_host
  | None => execute_request request_payload client_host
  end.

(** ** Routing of a POST *)

(** control/http_api_commands.py: CONTROL_API_MAX_REQUEST_BODY_BYTES *)
Definition CONTROL_API_MAX_REQUEST_BODY_BYTES : Z := 64 * 1024.

(** control/http_api_commands.py: ControlApiHttpCommandEndpoint._content_length *)
Definition content_length : M ControlRuntime (option Z) :=
  match int_of_text (default "0" (table_get "Content-Length" r.(rq_headers))) with
  | Err ValueError =>
    _ ← write_error 400 "invalid_content_length" "Invalid Content-Length."; mret None
  | Err e => raise e
  | Ok n =>
    if n <? 0 then
      _ ← write_error 400 "invalid_content_length" "Content-Length must not be negative."; mret None
    else if CONTROL_API_MAX_REQUEST_BODY_BYTES <? n then
      _ ← write_error 413 "payload_too_large" "JSON body exceeds the 65536-byte limit."; mret None
    else mret (Some n)
  end.

(** [body n] is the text of the first [n] bytes of the request.
    control/http_api_commands.py: ControlApiHttpCommandEndpoint.read_json_payload *)
Definition read_json_payload (body : Z -> string) : M ControlRuntime (option payload) :=
  length ← content_length;
  match length with
  | None => mret None
  | Some n =>
    let text := if (body n =? "")%string then "{}" else body n in
    match json_loads text with
    | None => _ ← write_error 400 "invalid_json" "Invalid JSON body."; mret None
    | Some (VDict d) => mret (Some (str_keys d))
    | Some _ => _ ← write_error 400 "invalid_payload" "JSON body must be an object."; mret None
    end
  end.

(** control/http_api_routing.py: ControlApiHttpRouter.post_target_error *)
Definition post_target_error (path : string) : option access_error :=
  if (path =? "/v1/control/command")%string then None else Some (404, "not_found", "Not found.").

(** control/http_api_routing.py: ControlApiHttpRouter._write_post_access_error *)
Definition write_post_access_error : M ControlRuntime bool :=
  let refuse (error : access_error) : M ControlRuntime bool :=
    (let '(status, code, message) := error in _ ← write_error status code message; mret true) in
  match post_target_error r.(rq_path) with
  | Some error => refuse error
  | None =>
    match locality_error ip_is_loopback config r with
    | Some error => refuse error
    | None => match command_transport_auth_error config r with Some error => refuse error | None => mret false end
    end
  end.

(** control/http_api_routing.py: ControlApiHttpRouter._write_command_guard_error *)
Definition write_command_guard_error (p : payload) : M ControlRuntime bool :=
  match command_auth_error config r p with
  | Some (status, code, message) => _ ← write_error status code message; mret true
  | None =>
    token ← gets (fun runtime => state_token runtime.(rt_service));
    match concurrency_error r token with
    | Some answer => _ ← write_json answer.(ha_status) answer.(ha_body) answer.(ha_headers); mret true
    | None => mret false
    end
  end.

(** control/http_api_routing.py: ControlApiHttpRouter.handle_post *)
Definition handle_post (body : Z -> string) : M ControlRuntime unit :=
  refused ← write_post_access_error;
  if (refused : bool) then mret tt
  else
    p ← read_json_payload body;
    match p with
    | None => mret tt
    | Some p =>
      guarded ← write_command_guard_error p;
      if (guarded : bool) then mret tt else write_command_result p
    end.

End request.
End http.

(** ** Steps that only record *)

Lemma event_fields_total seq kind now p : exists event, normalized_control_api_event_fields
  [("seq", VInt seq); ("kind", VStr kind); ("timestamp", VFloat now); ("payload", text_dict p)] = Ok event.
Proof.
  unfold normalized_control_api_event_fields, field, non_negative_int, non_negative_float_or_none, finite_float_or_none.
  cbn -[pretty str_keys normalized_control_api_event_kind isfinite]. destruct (isfinite now); by eexists.
Qed.

Lemma http_status_known result : http_status (http_status_for_result result) = Ok (http_status_for_result result).
Proof. unfold http_status_for_result. by repeat destruct (_ =? _)%string. Qed.

(** Storing the command and the result of a response changes nothing: the response shows them already. *)
Lemma response_holds_command result b c d :
  od_set "result" (text_dict d) (od_set "command" (text_dict c) (command_response_payload result b c d)) =
  command_response_payload result b c d.
Proof. reflexivity. Qed.

Section facts.
Context {W : Type}.
Variable handle_control_command : ControlCommand -> M W ControlResult.
Variable state_token : W -> string.
Variable json_loads : string -> option pyval.
Variables (ip_is_loopback : string -> option bool) (config : ControlApiAuthConfig) (cwd : string).
Variables current auto : list string.
Implicit Types r : @ControlRuntime W.

(** The parts that carry the meaning of a request: all but events, audit and answers. *)
Definition same_core r r' : Prop :=
  rt_store r' = rt_store r /\ rt_limiter r' = rt_limiter r /\ rt_service r' = rt_service r.

#[local] Instance same_core_preorder : PreOrder same_core.
Proof. split; [done|]. intros a b c (? & ? & ?) (? & ? & ?). repeat split; congruence. Qed.

Lemma publish_quiet now command result replayed r :
  exists r', publish_command_event now command result replayed r = (Ok tt, r') /\ same_core r r' /\ rt_written r' = rt_written r.
Proof.
  unfold publish_command_event, on_events, on_part, bus_publish, get, lift, modify, mret, M_ret, mbind, M_bind.
  cbv beta iota.
  destruct (event_fields_total (bus_next_seq (rt_events r)) "command" now
    [("command", text_dict (shown_command "internal" command)); ("result", text_dict (shown_result result));
     ("replayed", VBool replayed)]) as [event ->].
  by eexists.
Qed.

Lemma audit_quiet now command result error replayed host status r :
  exists r', record_command_audit now command result error replayed host status r = (Ok tt, r') /\
    same_core r r' /\ rt_written r' = rt_written r.
Proof. by eexists. Qed.

(** An answer: the core stays, one answer is written. *)
Definition answers r (status : Z) (body : payload) (outcome : res unit * @ControlRuntime W) : Prop :=
  fst outcome = Ok tt /\ same_core r (snd outcome) /\
  exists headers, rt_written (snd outcome) = rt_written r ++ [mkAnswer status body headers].

Lemma write_json_answers status body headers r : answers r status body (write_json status body headers r).
Proof. split; [done|]. split; [done|]. by eexists. Qed.

Lemma write_error_answers status code message r :
  answers r status (responder_error_payload code message) (write_error status code message r).
Proof. apply write_json_answers. Qed.

(** Audit, token headers, answer: the tail of every branch of the endpoint. *)
Lemma audited_answer now command result error replayed host code status body (merge : list (string * string) -> _) r :
  answers r status body
    ((_ ← record_command_audit now command result error replayed host code;
      headers ← token_headers state_token; write_json status body (merge headers)) r).
Proof.
  destruct (audit_quiet now command result error replayed host code r) as (r1 & E & Hc & Hw).
  unfold mbind, M_bind. rewrite E. unfold token_headers, gets.
  destruct (write_json_answers status body (merge (state_token_headers (state_token (rt_service r1)))) r1)
    as (Ho & Hc' & h & Hw').
  split; [exact Ho|]. split; [by etrans|]. exists h. by rewrite Hw', Hw.
Qed.

(** ** The first request of a key *)

(** What executing a request does: it is answered without execution, or its command is executed and,
    when it has a key, the answer is remembered under that key. *)
Definition executed_or_refused (can_write : bool) (p : payload) r (outcome : res unit * @ControlRuntime W) : Prop :=
  let r' := snd outcome in
  fst outcome = Ok tt ->
  exists status body headers, rt_written r' = rt_written r ++ [mkAnswer status body headers] /\
    ((status = 400 \/ status = 429) /\ rt_service r' = rt_service r /\ rt_store r' = rt_store r \/
     exists result, status = http_status_for_result result /\
       let key := payload_text p "idempotency_key" in
       if (key =? "")%string then rt_store r' = rt_store r
       else exists fingerprint, idempotency_fingerprint p = Ok fingerprint /\
              rt_store r' = snd (store_put cwd can_write key fingerprint status body (rt_store r)) /\
              exists c d, body = command_response_payload result false c d).

Lemma rate_limit_status host name t u l answer l' :
  rate_limit_error host name t u l = (Ok (Some answer), l') -> ha_status answer = 429.
Proof.
  unfold rate_limit_error. unfold mbind at 1, M_bind at 1.
  assert (forall code message x a, throttled_response code message x = Ok a -> ha_status a = 429) as Ht.
  { intros code message x a H. unfold throttled_response in H. apply res_bind_ok in H as (n & _ & [= <-]). done. }
  destruct (allow_request _ t l) as [[[[] retry]|e] l1]; cbn [negb]; [|..].
  - unfold mbind at 1, M_bind at 1. destruct (allow_command _ name u l1) as [[[[] retry']|e] l2]; [done| |done].
    unfold mbind, M_bind, lift. destruct (throttled_response _ _ _) as [a|e] eqn:Ea; [|done].
    intros [= <- _]. by apply Ht in Ea.
  - unfold mbind, M_bind, lift. destruct (throttled_response _ _ _) as [a|e] eqn:Ea; [|done].
    intros [= <- _]. by apply Ht in Ea.
  - done.
Qed.

(** The answer of an executed command, and what is remembered of it. *)
Lemma write_new_response_outcome now can_write p c result host r r' :
  write_new_response state_token cwd now can_write p c result host r = (Ok tt, r') -> exists a b headers,
    let body := command_response_payload result false a b in
    rt_written r' = rt_written r ++ [mkAnswer (http_status_for_result result) body headers] /\
    rt_service r' = rt_service r /\
    let key := payload_text p "idempotency_key" in
    if (key =? "")%string then rt_store r' = rt_store r
    else exists fingerprint, idempotency_fingerprint p = Ok fingerprint /\
           rt_store r' = snd (store_put cwd can_write key fingerprint (http_status_for_result result) body (rt_store r)).
Proof.
  intros E. unfold write_new_response in E.
  apply run_ok in E as (a & ? & Ea & E). unfold lift in Ea. injection Ea as Ea <-.
  apply run_ok in E as (b & ? & Eb & E). unfold lift in Eb. injection Eb as Eb <-. clear Ea Eb. cbv zeta in E.
  set (body := command_response_payload result false a b) in *.
  apply run_ok in E as ([] & r1 & Ec & E). pose proof (audited_answer now (Some (inr c)) (Some (inr result))
    (optional_error_payload body) false host (http_status_for_result result) (http_status_for_result result) body
    (fun h => h) r1) as (_ & (Hs & _ & Hv) & h & Hw).
  rewrite E in Hs, Hv, Hw. cbn [snd] in Hs, Hv, Hw. exists a, b, h. cbv zeta. fold body. rewrite Hw, Hv, Hs. clear E Hw Hv Hs.
  unfold cache_response in Ec. destruct (payload_text p "idempotency_key" =? "")%string; [by injection Ec as <-|].
  apply run_ok in Ec as (fingerprint & ? & Ef & Ec). unfold lift in Ef. injection Ef as Ef <-.
  unfold body in Ec. rewrite response_holds_command in Ec. fold body in Ec.
  unfold on_store, on_part in Ec. injection Ec as <-. cbn. split; [done|]. split; [done|]. by exists fingerprint.
Qed.

Lemma execute_request_outcome now can_write p host r :
  executed_or_refused can_write p r
    (execute_request handle_control_command state_token cwd current auto now can_write p host r).
Proof.
  unfold executed_or_refused. destruct (execute_request _ _ _ _ _ _ _ _ _ _) as [o r'] eqn:E. cbv zeta. cbn [fst snd].
  intros ->. unfold execute_request in E.
  destruct (command_from_payload current auto p "http") as [command|message|e]; [| |done].
  2: { destruct (audited_answer now (Some (inl p)) None
         (optional_error_payload (responder_error_payload (payload_error_code message) message)) false host 400 400
         (responder_error_payload (payload_error_code message) message) (fun h => h) r) as (_ & (Hs & _ & Hv) & h & Hw).
       unfold write_validation_error in E. cbv zeta in E. rewrite E in Hs, Hv, Hw.
       eexists _, _, h. split; [exact Hw|]. left. auto. }
  set (c := tracked_command p command) in *. clearbody c. cbv zeta in E.
  apply run_ok in E as (limit_error & r1 & El & E). unfold on_limiter, on_part in El.
  destruct (rate_limit_error host (cc_name c) now now (rt_limiter r)) as [o l] eqn:Er. injection El as -> Hr1.
  assert (rt_store r1 = rt_store r /\ rt_service r1 = rt_service r /\ rt_written r1 = rt_written r) as (Hs1 & Hv1 & Hw1)
    by (by rewrite <- Hr1). clear Hr1.
  destruct limit_error as [answer|].
  - destruct (audited_answer now (Some (inr c)) None (optional_error_payload (ha_body answer)) false host
        (ha_status answer) (ha_status answer) (ha_body answer) (fun h => merged_headers h (ha_headers answer))
        r1) as (_ & (Hs & _ & Hv) & h & Hw).
    unfold write_rate_limit_error in E. rewrite E in Hs, Hv, Hw. cbn [snd] in Hs, Hv, Hw. eexists _, _, h.
    split; [rewrite Hw, Hw1; reflexivity|]. left.
    split; [right; by apply rate_limit_status in Er | by rewrite Hs, Hv].
  - apply run_ok in E as (result & r2 & Eh & E). unfold handle_command in Eh.
    apply run_ok in Eh as (result' & r3 & Es & Eh). unfold on_service, on_part in Es.
    destruct (handle_control_command c _) as [o w]. injection Es as -> Hr3.
    assert (rt_store r3 = rt_store r /\ rt_written r3 = rt_written r) as [Hs3 Hw3] by (rewrite <- Hr3; split; [exact Hs1 | exact Hw1]).
    clear Hr3.
    apply run_ok in Eh as ([] & r4 & Ep & [= <- <-]).
    destruct (publish_quiet now (Some (inr c)) (Some (inr result')) false r3)
      as (r5 & Ep' & (Hs2 & _ & _) & Hw2). rewrite Ep' in Ep. injection Ep as ->.
    destruct (write_new_response_outcome _ _ _ _ _ _ _ _ E) as (a & b & h & Hw & _ & Hst).
    cbv zeta in Hst |- *. exists (http_status_for_result result'), (command_response_payload result' false a b), h.
    split; [by rewrite Hw, Hw2, Hw3|]. right. exists result'. split; [done|].
    destruct (payload_text p "idempotency_key" =? "")%string; [by rewrite Hst, Hs2, Hs3|].
    destruct Hst as (fingerprint & Hf & Hst). exists fingerprint. split; [done|]. split; [by rewrite Hst, Hs2, Hs3|]. by exists a, b.
Qed.

End facts.

(** ** Remembered responses *)

(** [kept key entry used entries]: the key is remembered, and only keys of [used] were touched after it. *)
Definition kept (key : string) (entry : remembered) (used : list string) (entries : odict string remembered) : Prop :=
  od_nodup entries /\
  exists l1 l2, entries = l1 ++ (key, entry) :: l2 /\ forall k, k ∈ od_keys l2 -> k ∈ used.

Lemma od_del_app {V} k (l1 l2 : odict string V) : od_del k (l1 ++ l2) = od_del k l1 ++ od_del k l2.
Proof. apply filter_app. Qed.

Lemma kept_get key entry used entries : kept key entry used entries -> od_get key entries = Some entry.
Proof. intros (Hn & l1 & l2 & -> & _). apply od_get_elem; [done|]. apply elem_of_app. right. left. Qed.

Lemma kept_put_self key entry used entries : kept key entry used entries -> kept key entry used (od_put key entry entries).
Proof.
  intros (Hn & l1 & l2 & -> & Hu). split; [by apply od_nodup_put|]. unfold od_put.
  exists (od_del key (l1 ++ (key, entry) :: l2)), []. split; [done|]. by intros k ?%elem_of_nil.
Qed.

Lemma kept_put_other key entry used entries j x :
  j <> key -> j ∈ used -> kept key entry used entries -> kept key entry used (od_put j x entries).
Proof.
  intros Hj Hin (Hn & l1 & l2 & -> & Hu). split; [by apply od_nodup_put|].
  exists (od_del j l1), (od_del j l2 ++ [(j, x)]). split.
  - unfold od_put. rewrite od_del_app. unfold od_del at 2. rewrite filter_cons. cbn [fst].
    rewrite decide_True by congruence. by rewrite <- app_assoc.
  - intros k. unfold od_keys. rewrite map_app, elem_of_app. intros [Hk|Hk].
    + apply Hu. by apply od_keys_del in Hk as [? _].
    + by apply list_elem_of_singleton in Hk as ->.
Qed.

Lemma kept_more key entry used used' entries :
  (forall k, k ∈ used -> k ∈ used') -> kept key entry used entries -> kept key entry used' entries.
Proof. intros H (Hn & l1 & l2 & He & Hu). split; [done|]. exists l1, l2. split; [done|]. auto. Qed.

Lemma drop_oldest_suffix limit entries : exists l, entries = l ++ drop_oldest_entries limit entries.
Proof.
  induction entries as [|x entries [l IH]]; cbn [drop_oldest_entries]; [by exists []|].
  destruct (limit <? _); [|by exists []]. exists (x :: l). by rewrite <- app_comm_cons, <- IH.
Qed.

Lemma drop_oldest_bounded limit entries : 0 <= limit -> zlength (drop_oldest_entries limit entries) <= limit.
Proof.
  intros Hl. induction entries as [|x entries IH]; cbn [drop_oldest_entries]; [done|].
  destruct (Z.ltb_spec limit (zlength (x :: entries))); [done | lia].
Qed.

Lemma drop_oldest_keeps limit l1 x l2 : zlength (x :: l2) <= limit ->
  exists l1', drop_oldest_entries limit (l1 ++ x :: l2) = l1' ++ x :: l2.
Proof.
  intros H. induction l1 as [|y l1 IH]; cbn [app drop_oldest_entries].
  - exists []. assert (limit <? zlength (x :: l2) = false) as -> by lia. done.
  - destruct (limit <? _); [exact IH | by exists (y :: l1)].
Qed.

Lemma kept_drop key entry used entries limit :
  zlength used < limit -> kept key entry used entries -> kept key entry used (drop_oldest_entries limit entries).
Proof.
  intros Hl (Hn & l1 & l2 & -> & Hu).
  assert (NoDup (od_keys l2)) as Hd.
  { unfold od_nodup, od_keys in Hn. rewrite map_app in Hn. cbn [map] in Hn. apply NoDup_app in Hn as (_ & _ & Hn).
    by apply NoDup_cons in Hn as [_ Hn]. }
  assert (length l2 <= length used)%nat as Hlen.
  { transitivity (length (od_keys l2)); [unfold od_keys; by rewrite length_map|]. apply submseteq_length.
    apply NoDup_submseteq; [done|]. exact Hu. }
  destruct (drop_oldest_keeps limit l1 (key, entry) l2) as [l1' E]; [unfold zlength in *; cbn; lia|].
  split; [|by exists l1', l2]. destruct (drop_oldest_suffix limit (l1 ++ (key, entry) :: l2)) as [l E'].
  rewrite E' in Hn. unfold od_nodup, od_keys in *. rewrite map_app in Hn. by apply NoDup_app in Hn as (_ & _ & Hn).
Qed.

(** ** Requests that come later *)

Section later.
Context {W : Type}.
Variable handle_control_command : ControlCommand -> M W ControlResult.
Variable state_token : W -> string.
Variables (cwd : string) (current auto : list string).
Implicit Types r : @ControlRuntime W.
Variables (key : string) (entry : remembered) (used : list string) (limit : Z).

(** The store still remembers the response. *)
Definition remembers (s : ControlApiIdempotencyStore) : Prop :=
  s.(st_history_limit) = limit /\ kept key entry used s.(st_entries).

Definition still_remembers r r' : Prop := remembers (rt_store r) -> remembers (rt_store r').

#[local] Instance still_remembers_preorder : PreOrder still_remembers.
Proof. split; [by intros r H | intros a b c H1 H2 H; auto]. Qed.

Lemma on_service_remembers {A} (m : M W A) : keeps still_remembers (on_service m).
Proof. intros r H. unfold on_service, on_part. destruct (m (rt_service r)). exact H. Qed.
Lemma on_limiter_remembers {A} (m : M ControlApiRateLimiter A) : keeps still_remembers (on_limiter m : M (@ControlRuntime W) A).
Proof. intros r H. unfold on_limiter, on_part. destruct (m (rt_limiter r)). exact H. Qed.
Lemma on_events_remembers {A} (m : M ControlApiEventBus A) : keeps still_remembers (on_events m : M (@ControlRuntime W) A).
Proof. intros r H. unfold on_events, on_part. destruct (m (rt_events r)). exact H. Qed.
Lemma on_audit_remembers {A} (m : M ControlApiAuditTrail A) : keeps still_remembers (on_audit m : M (@ControlRuntime W) A).
Proof. intros r H. unfold on_audit, on_part. destruct (m (rt_audit r)). exact H. Qed.

Lemma store_get_remembers j : j = key \/ j ∈ used ->
  keeps still_remembers (on_store (store_get j) : M (@ControlRuntime W) _).
Proof.
  intros Hj r [Hl Hk]. unfold on_store, on_part, store_get, get, modify, mret, M_ret, mbind, M_bind. cbv beta iota.
  destruct (od_get j (st_entries (rt_store r))) as [x|] eqn:E; [|done]. split; [exact Hl|]. cbn.
  destruct (decide (j = key)) as [->|Hne].
  - rewrite (kept_get _ _ _ _ Hk) in E. injection E as <-. by apply kept_put_self.
  - destruct Hj as [?|Hj]; [done|]. by apply kept_put_other.
Qed.

Lemma store_put_remembers can_write j fingerprint status body :
  zlength used < limit -> j <> key -> j ∈ used ->
  keeps still_remembers (on_store (store_put cwd can_write j fingerprint status body) : M (@ControlRuntime W) _).
Proof.
  intros Hu Hne Hin r [Hl Hk]. unfold on_store, on_part, store_put, modify. cbn [snd].
  assert (remembers ((rt_store r) <| st_entries := drop_oldest_entries (st_history_limit (rt_store r))
    (od_put j (fingerprint, status, body) (st_entries (rt_store r))) |>)) as Hs.
  { split; [exact Hl|]. cbn. rewrite Hl. apply kept_drop; [done|]. by apply kept_put_other. }
  cbn [rt_store]. unfold persist_runtime_entries. by destruct (_ || _).
Qed.

Lemma publish_remembers now c x b : keeps still_remembers (publish_command_event now c x b : M (@ControlRuntime W) unit).
Proof. unfold publish_command_event. keeps_go ltac:(apply on_events_remembers). Qed.

Lemma audit_remembers now c x e b h st : keeps still_remembers (record_command_audit now c x e b h st : M (@ControlRuntime W) unit).
Proof. apply on_audit_remembers. Qed.

Lemma write_json_remembers status body h : keeps still_remembers (write_json status body h : M (@ControlRuntime W) unit).
Proof. intros r H. exact H. Qed.

Lemma token_headers_remembers : keeps still_remembers (token_headers state_token).
Proof. apply keeps_gets; exact _. Qed.

Ltac remembers_tac :=
  keeps_go ltac:(first [ apply publish_remembers | apply audit_remembers | apply write_json_remembers
                       | apply token_headers_remembers | apply on_limiter_remembers | apply on_service_remembers ]).

(** A request under another key of [used], or without a key, forgets nothing. *)
Lemma replayed_response_remembers now p :
  let j := payload_text p "idempotency_key" in j = "" \/ j = key \/ j ∈ used ->
  keeps still_remembers (replayed_response now p : M (@ControlRuntime W) _).
Proof.
  intros j Hj. unfold replayed_response. fold j. destruct (String.eqb_spec j "") as [E|E]; [apply keeps_ret; exact _|].
  apply keeps_bind; [exact _ | apply store_get_remembers; tauto|]. intros [cached|]; [|apply keeps_ret; exact _].
  apply keeps_fmap. unfold replayed_cached_response. destruct cached as [[f st] body]. remembers_tac.
Qed.

Lemma execute_request_remembers now can_write p host :
  let j := payload_text p "idempotency_key" in j = "" \/ (j <> key /\ j ∈ used) -> zlength used < limit ->
  keeps still_remembers (execute_request handle_control_command state_token cwd current auto now can_write p host).
Proof.
  intros j Hj Hu. unfold execute_request.
  destruct (command_from_payload current auto p "http") as [command|message|e];
    [|unfold write_validation_error; remembers_tac | by intros r].
  apply keeps_bind; [exact _ | apply on_limiter_remembers|]. intros [answer|].
  - unfold write_rate_limit_error. remembers_tac.
  - apply keeps_bind; [exact _ | unfold handle_command; remembers_tac|]. intros result. unfold write_new_response.
    apply keeps_bind; [exact _ | apply keeps_lift; exact _|]. intros a.
    apply keeps_bind; [exact _ | apply keeps_lift; exact _|]. intros b.
    apply keeps_bind; [exact _ | | intros []; remembers_tac].
    unfold cache_response. fold j. destruct (String.eqb_spec j "") as [E|E]; [apply keeps_ret; exact _|].
    apply keeps_bind; [exact _ | apply keeps_lift; exact _|]. intros fingerprint.
    destruct Hj as [?|[Hne Hin]]; [done|]. by apply store_put_remembers.
Qed.

End later.

(** ** Replays *)

(** One request with what it reads: clock, fresh id, writability of the file. *)
Record timed_request := mkTimed {
  tq_now : float; tq_fresh_id : string; tq_can_write : bool; tq_request : http_request; tq_payload : payload }.

Definition tracked (q : timed_request) : payload := tracked_payload q.(tq_request) q.(tq_payload) q.(tq_fresh_id).
Definition request_key (q : timed_request) : string := payload_text (tracked q) "idempotency_key".

Section replay.
Context {W : Type}.
Variable handle_control_command : ControlCommand -> M W ControlResult.
Variable state_token : W -> string.
Variables (cwd : string) (current auto : list string).
Implicit Types r : @ControlRuntime W.

Definition serve (q : timed_request) : M (@ControlRuntime W) unit :=
  write_command_result handle_control_command state_token cwd current auto
    q.(tq_now) q.(tq_fresh_id) q.(tq_can_write) q.(tq_request) q.(tq_payload).

(** Requests one after the other; a request that raises ends without an answer. *)
Definition serve_all (qs : list timed_request) r : @ControlRuntime W := fold_left (fun r q => snd (serve q r)) qs r.

(** A remembered key is answered from memory, or the replay raises. *)
Lemma replayed_not_none now p r entry :
  payload_text p "idempotency_key" <> "" ->
  od_get (payload_text p "idempotency_key") (st_entries (rt_store r)) = Some entry ->
  fst (replayed_response now p r) <> Ok None.
Proof.
  intros Hk E. unfold replayed_response. apply String.eqb_neq in Hk. rewrite Hk.
  unfold on_store, on_part, store_get, get, modify, mret, M_ret, mbind, M_bind. cbv beta iota. rewrite E.
  unfold fmap, M_fmap. by destruct (replayed_cached_response _ _ _ _ _) as [[]].
Qed.

Lemma serve_remembers key entry used limit q r :
  request_key q = "" \/ request_key q = key \/ request_key q ∈ used -> zlength used < limit -> key <> "" ->
  remembers key entry used limit (rt_store r) -> remembers key entry used limit (rt_store (snd (serve q r))).
Proof.
  intros Hj Hu Hne Hr. unfold serve, write_command_result. fold (tracked q).
  pose proof (replayed_response_remembers (W := W) key entry used limit q.(tq_now) (tracked q) Hj r Hr) as H1.
  assert (request_key q = key -> fst (replayed_response q.(tq_now) (tracked q) r) <> Ok None) as Hn.
  { intros Hk. apply (replayed_not_none _ _ _ entry); [by unfold request_key in Hk; rewrite Hk|].
    unfold request_key in Hk. rewrite Hk. apply (kept_get _ _ used), Hr. }
  unfold mbind, M_bind. destruct (replayed_response q.(tq_now) (tracked q) r) as [[[replay|]|e] r1]; cbn [fst snd] in *.
  - unfold write_replayed_response. destruct replay as [status body].
    destruct (audited_answer state_token q.(tq_now) (inl <$> mapping_payload (field body "command"))
      (inl <$> mapping_payload (field body "result")) (optional_error_payload body) true (client_host (tq_request q)) status
      status body (fun h => h) r1) as (_ & (Hs & _) & _). by rewrite <- Hs in H1.
  - apply execute_request_remembers; [|done|done]. destruct (decide (request_key q = key)) as [E|E]; [by destruct Hn|].
    destruct Hj as [Hj|[Hj|Hj]]; [by left | done | by right].
  - done.
Qed.

Lemma serve_all_remembers key entry used limit qs r :
  (forall q, q ∈ qs -> request_key q ∈ used) -> zlength used < limit -> key <> "" ->
  remembers key entry used limit (rt_store r) -> remembers key entry used limit (rt_store (serve_all qs r)).
Proof.
  intros Hq Hu Hne. revert r. unfold serve_all. induction qs as [|q qs IH]; intros r Hr; [done|]. cbn [fold_left].
  apply IH; [intros q' Hq'; apply Hq; by right|]. apply serve_remembers; try done. right; right. apply Hq. left.
Qed.

(** The answer to a remembered request. *)
Lemma serve_again key fingerprint result a b used limit q r :
  let status := http_status_for_result result in
  let body := command_response_payload result false a b in
  key <> "" -> request_key q = key -> idempotency_fingerprint (tracked q) = Ok fingerprint ->
  remembers key (fingerprint, status, body) used limit (rt_store r) ->
  fst (serve q r) = Ok tt /\ rt_service (snd (serve q r)) = rt_service r /\
  exists headers, rt_written (snd (serve q r)) =
    rt_written r ++ [mkAnswer status (od_set "replayed" (VBool true) body) headers].
Proof.
  cbv zeta. intros Hne Hk Hf [_ Hkept%kept_get]. unfold serve, write_command_result. fold (tracked q). unfold request_key in Hk.
  set (body := command_response_payload result false a b) in *. set (status := http_status_for_result result) in *.
  assert (exists r1, replayed_response q.(tq_now) (tracked q) r =
      (Ok (Some (status, od_set "replayed" (VBool true) body)), r1) /\
    rt_service r1 = rt_service r /\ rt_written r1 = rt_written r) as (r1 & E & Hv1 & Hw1).
  { unfold replayed_response. rewrite Hk. pose proof Hne as Hne'. apply String.eqb_neq in Hne'. rewrite Hne'.
    unfold on_store, on_part, store_get. unfold mbind, M_bind, get, modify, mret, M_ret. cbv beta iota. rewrite Hkept.
    set (r1 := upd rt_store _ r). unfold fmap, M_fmap, replayed_cached_response, lift. unfold mbind, M_bind. cbv beta iota.
    rewrite Hf, String.eqb_refl. cbn [negb].
    destruct (publish_quiet q.(tq_now) (Some (inl (str_keys (map (fun kv => (VStr (fst kv), snd kv)) a))))
      (Some (inl (str_keys (map (fun kv => (VStr (fst kv), snd kv)) b)))) true r1) as (r2 & Ep & (_ & _ & Hv2) & Hw2).
    change (mapping_payload (field body "command")) with (Some (str_keys (map (fun kv => (VStr (fst kv), snd kv)) a))).
    change (mapping_payload (field body "result")) with (Some (str_keys (map (fun kv => (VStr (fst kv), snd kv)) b))).
    cbv iota. rewrite Ep. unfold status at 1. rewrite http_status_known. exists r2. done. }
  unfold mbind, M_bind. rewrite E. unfold write_replayed_response.
  destruct (audited_answer state_token q.(tq_now)
    (inl <$> mapping_payload (field (od_set "replayed" (VBool true) body) "command"))
    (inl <$> mapping_payload (field (od_set "replayed" (VBool true) body) "result"))
    (optional_error_payload (od_set "replayed" (VBool true) body)) true (client_host (tq_request q)) status
    status (od_set "replayed" (VBool true) body) (fun h => h) r1) as (Ho & (_ & _ & Hv) & h & Hw).
  split; [exact Ho|]. split; [by rewrite <- Hv1, <- Hv|]. exists h. by rewrite <- Hw1, <- Hw.
Qed.

(** C22. Take a request under an idempotency key that is not remembered and that is answered.
    Either it was refused (400 or 429), and then neither the service nor the store changed; or its
    command was executed, and then, after fewer than [history_limit] other requests of any kind,
    repeating it under the same key answers with the same status and body, marked as a replay,
    without touching the service. *)
Theorem responses_are_replayed (first again : timed_request) (others : list timed_request) (r0 : @ControlRuntime W) :
  let r1 := snd (serve first r0) in
  request_key first <> "" -> od_get (request_key first) (st_entries (rt_store r0)) = None ->
  od_nodup (st_entries (rt_store r0)) ->
  fst (serve first r0) = Ok tt ->
  request_key again = request_key first ->
  idempotency_fingerprint (tracked again) = idempotency_fingerprint (tracked first) ->
  zlength others < st_history_limit (rt_store r0) ->
  exists status body headers, rt_written r1 = rt_written r0 ++ [mkAnswer status body headers] /\
    ((status = 400 \/ status = 429) /\ rt_service r1 = rt_service r0 /\ rt_store r1 = rt_store r0 \/
     let r2 := serve_all others r1 in
     let '(outcome, r3) := serve again r2 in
     outcome = Ok tt /\ rt_service r3 = rt_service r2 /\
     exists headers', rt_written r3 = rt_written r2 ++ [mkAnswer status (od_set "replayed" (VBool true) body) headers']).
Proof.
  cbv zeta. intros Hne Hnew Hd Hok Hk Hf Hn.
  assert (serve first r0 = execute_request handle_control_command state_token cwd current auto first.(tq_now)
    first.(tq_can_write) (tracked first) (client_host first.(tq_request)) r0) as E.
  { unfold serve, write_command_result. fold (tracked first). unfold mbind at 1, M_bind at 1, replayed_response.
    unfold request_key in *. pose proof Hne as Hne'. apply String.eqb_neq in Hne'. rewrite Hne'.
    unfold on_store, on_part, store_get. unfold mbind, M_bind, get, mret, M_ret. cbv beta iota. rewrite Hnew.
    by destruct r0. }
  pose proof (execute_request_outcome handle_control_command state_token cwd current auto first.(tq_now)
    first.(tq_can_write) (tracked first) (client_host first.(tq_request)) r0) as H.
  rewrite <- E in H. destruct (H Hok) as (status & body & headers & Hw & Hcase). exists status, body, headers.
  split; [exact Hw|]. destruct Hcase as [(Hs & Hv & Hst)|(result & -> & Hst)]; [by left|right]. cbv zeta in Hst.
  fold (request_key first) in Hst. apply String.eqb_neq in Hne as Hne'. rewrite Hne' in Hst.
  destruct Hst as (fingerprint & Hfp & Hst & a & b & ->).
  set (r1 := snd (serve first r0)) in *.
  assert (zlength (map request_key others) < st_history_limit (rt_store r0)) as Hn'
    by (unfold zlength in *; by rewrite length_map).
  assert (remembers (request_key first) (fingerprint, http_status_for_result result,
    command_response_payload result false a b) (map request_key others) (st_history_limit (rt_store r0)) (rt_store r1)) as Hr1.
  { rewrite Hst. unfold store_put, modify. cbn [snd]. unfold persist_runtime_entries.
    assert (forall s f, remembers (request_key first) (fingerprint, http_status_for_result result,
      command_response_payload result false a b) (map request_key others) (st_history_limit (rt_store r0)) s ->
      remembers (request_key first) (fingerprint, http_status_for_result result,
      command_response_payload result false a b) (map request_key others) (st_history_limit (rt_store r0))
      (s <| st_file := f |>)) as Hfile by (by intros s f [H1 H2]).
    destruct (_ || _); [|apply Hfile]; (split; [done|]); cbn; (apply kept_drop; [exact Hn'|]);
      (split; [by apply od_nodup_put|]); exists (od_del (request_key first) (st_entries (rt_store r0))), [];
      (split; [done|]); by intros k ?%elem_of_nil. }
  pose proof (serve_all_remembers _ _ _ _ others r1 (fun q Hq => list_elem_of_fmap_2 request_key others q Hq)
    Hn' Hne Hr1) as Hr2.
  rewrite Hfp in Hf. destruct (serve_again _ _ _ _ _ _ _ again _ Hne Hk Hf Hr2) as (Ho & Hv & Hw2).
  destruct (serve again (serve_all others r1)) as [o r3]. by split.
Qed.

End replay.

(** ** What reaches the service *)

Section guards.
Context {W : Type}.
Variable handle_control_command : ControlCommand -> M W ControlResult.
Variable state_token : W -> string.
Variable json_loads : string -> option pyval.
Variables (ip_is_loopback : string -> option bool) (config : ControlApiAuthConfig) (cwd : string).
Variables current auto : list string.
Implicit Types r : @ControlRuntime W.

Definition same_service r r' : Prop := rt_service r' = rt_service r.

#[local] Instance same_service_preorder : PreOrder same_service.
Proof. split; [done|]. intros a b c H1 H2. unfold same_service in *. congruence. Qed.

Lemma on_part_service {P A} (part : @ControlRuntime W -> P) set_part (m : M P A) :
  (forall p r, same_service r (set_part p r)) -> keeps same_service (on_part part set_part m).
Proof. intros H r. unfold on_part. destruct (m (part r)). apply H. Qed.

Lemma write_json_service status body h : keeps same_service (write_json status body h : M (@ControlRuntime W) unit).
Proof. by intros r. Qed.

Lemma publish_service now c x b : keeps same_service (publish_command_event now c x b : M (@ControlRuntime W) unit).
Proof. unfold publish_command_event. keeps_go ltac:(apply on_part_service; done). Qed.

Lemma audit_service now c x e b h st : keeps same_service (record_command_audit now c x e b h st : M (@ControlRuntime W) unit).
Proof. by intros r. Qed.

Lemma token_headers_service : keeps same_service (token_headers state_token).
Proof. apply keeps_gets; exact _. Qed.

Ltac service_tac :=
  keeps_go ltac:(first [ apply write_json_service | apply publish_service | apply audit_service | apply token_headers_service
                       | apply keeps_lift; exact _ | by apply on_part_service ]).

Lemma replayed_response_service now p : keeps same_service (replayed_response now p : M (@ControlRuntime W) _).
Proof. unfold replayed_response, replayed_cached_response. service_tac. Qed.

Lemma write_new_response_service now can_write p c result host :
  keeps same_service (write_new_response state_token cwd now can_write p c result host).
Proof. unfold write_new_response, cache_response. service_tac. Qed.

(** One execution changes the service only by running the handler on a valid, unthrottled command. *)
Definition executes (now : float) (p : payload) (host : string) r r' : Prop :=
  exists command limiter, command_from_payload current auto p "http" = Valid command /\
    let tracked := tracked_command p command in
    rate_limit_error host tracked.(cc_name) now now (rt_limiter r) = (Ok None, limiter) /\
    rt_service r' = snd (handle_control_command tracked (rt_service r)).

Lemma execute_request_service now can_write p host r :
  let r' := snd (execute_request handle_control_command state_token cwd current auto now can_write p host r) in
  same_service r r' \/ executes now p host r r'.
Proof.
  cbv zeta. unfold execute_request, executes.
  destruct (command_from_payload current auto p "http") as [command|message|e]; [|left|by left].
  2: { unfold write_validation_error. revert r. change (keeps same_service (write_validation_error (W := W) state_token now p message host)).
       unfold write_validation_error. service_tac. }
  cbv zeta. set (c := tracked_command p command) in *.
  unfold mbind, M_bind, on_limiter, on_part.
  destruct (rate_limit_error host (cc_name c) now now (rt_limiter r)) as [[[answer|]|e] l] eqn:El; [left | right | by left].
  - unfold write_rate_limit_error.
    match goal with |- same_service r (snd (?m ?r1)) => assert (keeps same_service m) as H by service_tac; exact (H r1) end.
  - exists command, l. split; [done|]. split; [exact El|]. cbv zeta. fold c. clearbody c.
    unfold handle_command, on_service, on_part. unfold mbind, M_bind. cbn.
    destruct (handle_control_command c (rt_service r)) as [[result|e] w] eqn:Eh; [|done].
    match goal with |- context [publish_command_event _ _ _ _ ?s] => set (r1 := s) end.
    pose proof (publish_service now (Some (inr c)) (Some (inr result)) false r1) as Hp; unfold same_service in Hp.
    destruct (publish_command_event _ _ _ _ r1) as [[[]|e] r2]; [|exact Hp]. cbn [snd mret M_ret] in *.
    by rewrite (write_new_response_service now can_write p c result host r2), Hp.
Qed.

(** What a POST passed before it reached the service. *)
Record admitted (now : float) (fresh_id : string) (q : http_request) (body : Z -> string) r r' : Prop := mkAdmitted {
  at_command_path : rq_path q = "/v1/control/command";
  from_allowed_host : locality_error ip_is_loopback config q = None;
  decoded : exists n document, int_of_text (default "0" (table_get "Content-Length" (rq_headers q))) = Ok n /\
    0 <= n <= CONTROL_API_MAX_REQUEST_BODY_BYTES /\
    json_loads (if (body n =? "")%string then "{}" else body n) = Some (VDict document) /\
    let p := str_keys document in
    command_auth_error config q p = None /\
    concurrency_error q (state_token (rt_service r)) = None /\
    let request_payload := tracked_payload q p fresh_id in
    (payload_text request_payload "idempotency_key" = "" \/
     od_get (payload_text request_payload "idempotency_key") (st_entries (rt_store r)) = None) /\
    executes now request_payload (client_host q) r r' }.

Lemma write_command_result_service now fresh_id can_write q p r :
  let r' := snd (write_command_result handle_control_command state_token cwd current auto now fresh_id can_write q p r) in
  let request_payload := tracked_payload q p fresh_id in
  same_service r r' \/
  (payload_text request_payload "idempotency_key" = "" \/
   od_get (payload_text request_payload "idempotency_key") (st_entries (rt_store r)) = None) /\
  executes now request_payload (client_host q) r r'.
Proof.
  cbv zeta. unfold write_command_result. set (p' := tracked_payload q p fresh_id).
  destruct (String.eqb_spec (payload_text p' "idempotency_key") "") as [E|E].
  - unfold mbind, M_bind, replayed_response. apply String.eqb_eq in E as E'. rewrite E'. cbn [mret M_ret].
    destruct (execute_request_service now can_write p' (client_host q) r) as [H|H]; [by left|].
    right. split; [by left|exact H].
  - destruct (od_get (payload_text p' "idempotency_key") (st_entries (rt_store r))) as [entry|] eqn:Eg.
    + left. unfold mbind, M_bind. pose proof (replayed_not_none (W := W) now p' r entry E Eg) as Hn.
      pose proof (replayed_response_service now p' r) as Hs.
      destruct (replayed_response now p' r) as [[[replay|]|e] r1]; [|done|exact Hs].
      unfold write_replayed_response. destruct replay as [status body].
      match goal with |- same_service _ (snd (?m ?s)) => assert (keeps same_service m) as H by service_tac; specialize (H s) end.
      unfold same_service in *. cbn [snd] in *. congruence.
    + unfold mbind, M_bind, replayed_response. apply String.eqb_neq in E as E'. rewrite E'.
      unfold on_store, on_part, store_get. unfold mbind, M_bind, get, mret, M_ret. cbv beta iota. rewrite Eg.
      replace (upd _ _ r) with r by (by destruct r).
      destruct (execute_request_service now can_write p' (client_host q) r) as [H|H]; [by left|]. right. split; [by right|exact H].
Qed.

(** An error answer ends the request without touching the service. *)
Lemma write_error_service status code message :
  keeps same_service (write_error status code message : M (@ControlRuntime W) unit).
Proof. by intros r. Qed.

Lemma post_access_cases q r :
  let '(outcome, r1) := write_post_access_error ip_is_loopback config q r in
  same_service r r1 /\
  (outcome = Ok true \/ outcome = Ok false /\ r1 = r /\ rq_path q = "/v1/control/command" /\
     locality_error ip_is_loopback config q = None).
Proof.
  unfold write_post_access_error, post_target_error. destruct (String.eqb_spec (rq_path q) "/v1/control/command"); [|by split; [|left]].
  destruct (locality_error ip_is_loopback config q) as [[[? ?] ?]|]; [by split; [|left]|].
  destruct (command_transport_auth_error config q) as [[[? ?] ?]|]; [by split; [|left]|]. split; [done|]. by right.
Qed.

Lemma read_json_cases q body r :
  let '(outcome, r1) := read_json_payload json_loads q body r in
  same_service r r1 /\
  (outcome = Ok None \/ (exists e, outcome = Err e) \/ r1 = r /\ exists n document,
     outcome = Ok (Some (str_keys document)) /\
     int_of_text (default "0" (table_get "Content-Length" (rq_headers q))) = Ok n /\
     0 <= n <= CONTROL_API_MAX_REQUEST_BODY_BYTES /\
     json_loads (if (body n =? "")%string then "{}" else body n) = Some (VDict document)).
Proof.
  unfold read_json_payload, content_length, mbind, M_bind. destruct (int_of_text _) as [n|e].
  2: { destruct e; cbn; (split; [done|]); eauto. }
  destruct (Z.ltb_spec n 0); [cbn; split; [done|]; by left|].
  destruct (Z.ltb_spec CONTROL_API_MAX_REQUEST_BODY_BYTES n); [cbn; split; [done|]; by left|]. unfold mret, M_ret. cbv beta iota zeta.
  destruct (json_loads _) as [v|] eqn:Ej; [|cbn; split; [done|]; by left]. destruct v; cbn; (split; [done|]); eauto.
  right; right. split; [done|]. by eexists n, _.
Qed.

Lemma command_guard_cases q p r :
  let '(outcome, r1) := write_command_guard_error state_token config q p r in
  same_service r r1 /\
  (outcome = Ok true \/ outcome = Ok false /\ r1 = r /\ command_auth_error config q p = None /\
     concurrency_error q (state_token (rt_service r)) = None).
Proof.
  unfold write_command_guard_error. destruct (command_auth_error config q p) as [[[? ?] ?]|]; [by split; [|left]|].
  unfold gets, mbind, M_bind. destruct (concurrency_error q _) as [answer|]; [by split; [|left]|]. split; [done|]. by right.
Qed.

(** C21. A POST changes the service only if it passed every guard: it was sent to the command path
    from an allowed host, its body is within the size limit and a JSON object, its token's scope
    covers that very command, its state token is the current one, its key is not remembered, the
    payload is a valid command and the rate limit admits it.  The change is then the one of the
    handler on that command. *)
Theorem only_admitted_posts_reach_the_service now fresh_id can_write (q : http_request) (body : Z -> string) r :
  let r' := snd (handle_post handle_control_command state_token json_loads ip_is_loopback config cwd current auto
                   now fresh_id can_write q body r) in
  rt_service r' = rt_service r \/ admitted now fresh_id q body r r'.
Proof.
  cbv zeta. match goal with |- context [snd ?x] => remember x as out eqn:E end. unfold handle_post, mbind, M_bind in E.
  pose proof (post_access_cases q r) as Ha. destruct (write_post_access_error ip_is_loopback config q r) as [refused r1].
  destruct Ha as [Hs [->|(-> & -> & Hpath & Hlocal)]]; [subst out; by left|]. clear Hs.
  pose proof (read_json_cases q body r) as Hj. destruct (read_json_payload json_loads q body r) as [outcome r2].
  destruct Hj as [Hs [->|[(e & ->)|(-> & n & document & -> & Hn & Hb & Hd)]]]; [subst out; by left .. |]. clear Hs.
  pose proof (command_guard_cases q (str_keys document) r) as Hg.
  destruct (write_command_guard_error state_token config q (str_keys document) r) as [guarded r3].
  destruct Hg as [Hs [->|(-> & -> & Hauth & Htoken)]]; [subst out; by left|]. clear Hs. subst out.
  destruct (write_command_result_service now fresh_id can_write q (str_keys document) r) as [H|[Hk Hx]]; [by left|].
  right. split; [done | done|]. exists n, document. cbv zeta. split_and!; by first [done | apply Hb].
Qed.

End guards.

(** ** A concrete service *)

(** A service that counts the commands it executes. *)
Definition counting_handler (command : ControlCommand) : M Z ControlResult := fun n =>
  (Ok (mkResult command "applied" true true true false true "done"), n + 1).

Definition no_token (_ : Z) : string := "".

Definition sample_runtime : @ControlRuntime Z :=
  mkRuntime (mkStore 2 "" [] None) (new_rate_limiter 10 (f_of_Z 5) (f_of_Z 2)) (new_bus 8) (new_audit 8) 0 [].

Definition sample_request (key : string) : timed_request :=
  mkTimed (f_of_Z 7) "fresh" true
    (mkRequest "/v1/control/command" None [("Idempotency-Key", key)]) [("name", VStr "set_mode"); ("value", VInt 1)].

Definition serve_sample : timed_request -> M (@ControlRuntime Z) unit :=
  serve counting_handler no_token "/" CONTROL_CURRENT_SETTING_TARGETS CONTROL_AUTO_RUNTIME_TARGETS.

Lemma responses_are_replayed_witness :
  let r1 := snd (serve_sample (sample_request "k1") sample_runtime) in
  rt_service r1 = 1 /\ exists status body headers, rt_written r1 = [mkAnswer status body headers] /\
    ((status = 400 \/ status = 429) /\ rt_service r1 = 0 /\ rt_store r1 = rt_store sample_runtime \/
     let r2 := serve_all counting_handler no_token "/" CONTROL_CURRENT_SETTING_TARGETS CONTROL_AUTO_RUNTIME_TARGETS
                 [sample_request "k2"] r1 in
     let '(outcome, r3) := serve_sample (sample_request "k1") r2 in
     outcome = Ok tt /\ rt_service r3 = rt_service r2 /\
     exists headers', rt_written r3 = rt_written r2 ++ [mkAnswer status (od_set "replayed" (VBool true) body) headers']).
Proof.
  split; [vm_compute; reflexivity|].
  refine (responses_are_replayed counting_handler no_token "/" CONTROL_CURRENT_SETTING_TARGETS
    CONTROL_AUTO_RUNTIME_TARGETS (sample_request "k1") (sample_request "k1") [sample_request "k2"] sample_runtime
    _ _ _ _ _ _ _).
  - vm_compute. discriminate.
  - vm_compute. reflexivity.
  - apply NoDup_nil_2.
  - vm_compute. reflexivity.
  - reflexivity.
  - reflexivity.
  - vm_compute. reflexivity.
Defined.

(** Two threads serve the same request: both look the key up before either has answered, and the
    command is executed twice. *)
Lemma concurrent_duplicates_execute_twice :
  let q := sample_request "k1" in
  let p := tracked q in
  let lookup := replayed_response q.(tq_now) p in
  let execute := execute_request counting_handler no_token "/" CONTROL_CURRENT_SETTING_TARGETS
    CONTROL_AUTO_RUNTIME_TARGETS q.(tq_now) true p "127.0.0.1" in
  let r1 := snd (lookup sample_runtime) in
  let r2 := snd (lookup r1) in
  fst (lookup sample_runtime) = Ok None /\ fst (lookup r1) = Ok None /\
  rt_service (snd (execute (snd (execute r2)))) = 2.
Proof. cbv zeta. by vm_compute. Qed.
