(* ===== verification/WritePort.v ===== *)
(** * The state behind the control commands

    [ports/write_runtime.py] and [ports/write.py] give the write controller its view of the
    service; [controllers/write_snapshot.py] captures and restores what a failed command must
    not change; the relay readings come through [normalized_worker_snapshot]
    ([core/contracts_snapshot.py]).

    The service is its attributes by name.  Everything the port calls beyond them (the clock,
    the relay queue, the charger, the publication of a field, saving the state, ...) is an
    [outside_call]; a log records each call with its answer, and [respond] says what a call
    returns or raises and what it makes of the attributes, depending on all earlier calls. *)

From S2P Require Import Prelude PyFloat PyValue OrderedMap Contracts BackendModels Schedule AutoPolicy ControlSurface.

(** ** Attributes of the service *)

(** The value of an attribute: plain data, a deque, or the Auto policy. *)
Inductive attribute := AValue (v : pyval) | ADeque (l : list pyval) | APolicy (p : AutoPolicy).

Definition service : Type := gmap string attribute.

Definition attribute_value (a : attribute) : pyval := match a with AValue v => v | _ => VOpaque "object" end.

(** [getattr(service, name, default)] *)
Definition getattr (name : string) (dflt : pyval) (v : service) : pyval :=
  match v !! name with Some a => attribute_value a | None => dflt end.

(** ** Snapshots of the state *)

(** controllers/write_snapshot.py: SNAPSHOT_ATTRS *)
Definition SNAPSHOT_ATTRS : list string :=
  ["virtual_mode"; "virtual_autostart"; "virtual_startstop"; "virtual_enable"; "virtual_set_current";
   "requested_phase_selection"; "active_phase_selection"; "supported_phase_selections";
   "_phase_switch_pending_selection"; "_phase_switch_state"; "_phase_switch_requested_at";
   "_phase_switch_stable_until"; "_phase_switch_resume_relay"; "_phase_switch_mismatch_active";
   "_phase_switch_last_mismatch_selection"; "_phase_switch_last_mismatch_at"; "_phase_switch_lockout_selection";
   "_phase_switch_lockout_reason"; "_phase_switch_lockout_at"; "_phase_switch_lockout_until";
   "_contactor_fault_active_reason"; "_contactor_fault_active_since"; "_contactor_lockout_reason";
   "_contactor_lockout_source"; "_contactor_lockout_at"; "_contactor_suspected_open_since";
   "_contactor_suspected_welded_since"; "min_current"; "max_current"; "auto_policy"; "auto_start_delay_seconds";
   "auto_stop_delay_seconds"; "auto_scheduled_enabled_days"; "auto_scheduled_night_start_delay_seconds";
   "auto_scheduled_latest_end_time"; "auto_scheduled_night_current_amps"; "auto_dbus_backoff_base_seconds";
   "auto_dbus_backoff_max_seconds"; "manual_override_until"; "auto_start_condition_since";
   "auto_stop_condition_since"; "auto_stop_condition_reason"; "_auto_mode_cutover_pending";
   "_ignore_min_offtime_once"; "_pending_relay_state"; "_pending_relay_requested_at"; "_relay_sync_expected_state";
   "_relay_sync_requested_at"; "_relay_sync_deadline_at"; "_relay_sync_failure_reported"; "_last_pm_status_at";
   "_last_pm_status_confirmed"; "_last_confirmed_pm_status_at"].
(** controllers/write_snapshot.py: SNAPSHOT_DEQUE_ATTRS *)
Definition SNAPSHOT_DEQUE_ATTRS : list string := ["auto_samples"].
(** controllers/write_snapshot.py: SNAPSHOT_VALUE_ATTRS *)
Definition SNAPSHOT_VALUE_ATTRS : list string := ["_stop_smoothed_surplus_power"; "_stop_smoothed_grid_power"].
(** controllers/write_snapshot.py: SNAPSHOT_MAPPING_ATTRS *)
Definition SNAPSHOT_MAPPING_ATTRS : list string :=
  ["_worker_snapshot"; "_last_pm_status"; "_last_confirmed_pm_status"; "_phase_switch_mismatch_counts";
   "_contactor_fault_counts"].

(** controllers/write_snapshot.py: _snapshot_attrs *)
Definition snapshot_attrs (v : service) (attr_names : list string) : list (string * attribute) :=
  omap (fun name => (fun a => (name, a)) <$> (v !! name)) attr_names.

(** [deque(value)] of an attribute *)
Definition as_deque (a : attribute) : res (list pyval) :=
  match a with
  | ADeque l => Ok l
  | AValue v => py_iter v
  | APolicy _ => Err TypeError
  end.

(** controllers/write_snapshot.py: _snapshot_deques *)
Definition snapshot_deques (v : service) (attr_names : list string) : res (list (string * list pyval)) :=
  map_res (fun na => l ← as_deque (snd na); mret (fst na, l)) (snapshot_attrs v attr_names).

(** controllers/write_snapshot.py: _snapshot_mappings *)
Definition snapshot_mappings (v : service) (attr_names : list string) : list (string * list (pyval * pyval)) :=
  omap (fun na => match snd na with AValue (VDict d) => Some (fst na, d) | _ => None end) (snapshot_attrs v attr_names).

(** The dictionary of the four captures.
    controllers/write_snapshot.py: capture_write_state *)
Record write_state := mkWriteState {
  ws_attrs : list (string * attribute); ws_deques : list (string * list pyval);
  ws_values : list (string * attribute); ws_mappings : list (string * list (pyval * pyval)) }.

(** controllers/write_snapshot.py: capture_write_state *)
Definition capture_write_state (v : service) : res write_state :=
  deques ← snapshot_deques v SNAPSHOT_DEQUE_ATTRS;
  mret (mkWriteState (snapshot_attrs v SNAPSHOT_ATTRS) deques (snapshot_attrs v SNAPSHOT_VALUE_ATTRS)
          (snapshot_mappings v SNAPSHOT_MAPPING_ATTRS)).

(** [for name, value in saved.items(): setattr(svc, name, value)]
    controllers/write_snapshot.py: restore_write_state *)
Definition restore_attrs (saved : list (string * attribute)) (v : service) : service :=
  fold_left (fun v na => <[fst na := snd na]> v) saved v.

(** Filling the existing deque and setting a new one leave the same elements.
    controllers/write_snapshot.py: _restore_deques *)
Definition restore_deques (saved : list (string * list pyval)) (v : service) : service :=
  restore_attrs (map (fun nl => (fst nl, ADeque (snd nl))) saved) v.

(** controllers/write_snapshot.py: _restore_mappings *)
Definition restore_mappings (saved : list (string * list (pyval * pyval))) (v : service) : service :=
  restore_attrs (map (fun nd => (fst nd, AValue (VDict (snd nd)))) saved) v.

(** controllers/write_snapshot.py: restore_write_state *)
Definition restore_write_state (snapshot : write_state) (v : service) : service :=
  restore_mappings snapshot.(ws_mappings) (restore_deques snapshot.(ws_deques)
    (restore_attrs snapshot.(ws_values) (restore_attrs snapshot.(ws_attrs) v))).

(** ** Worker snapshots *)

(** core/contracts_snapshot.py: _mapping_payload *)
Definition mapping_payload (value : pyval) : option payload := match value with VDict d => Some (str_keys d) | _ => None end.

(** core/contracts_snapshot.py: _snapshot_mapping *)
Definition snapshot_mapping (snapshot : pyval) : payload := default [] (mapping_payload snapshot).

(** core/contracts_snapshot.py: _resolved_snapshot_captured_at *)
Definition resolved_snapshot_captured_at (captured_at pm_captured_at current : option float) : float :=
  match captured_at, current, pm_captured_at with
  | Some t, _, _ => t
  | None, Some t, _ => t
  | None, None, Some t => t
  | None, None, None => f0
  end.

(** core/contracts_snapshot.py: _pm_snapshot_future_invalid *)
Definition pm_snapshot_future_invalid (timestamp : float) (current : option float) (future_tolerance_seconds : float)
    (clamp_future_timestamps : bool) : res bool :=
  match current with
  | Some now =>
    if clamp_future_timestamps then
      ok ← timestamp_not_future (VFloat timestamp) now future_tolerance_seconds; mret (negb ok)
    else Ok false
  | None => Ok false
  end.

(** core/contracts_snapshot.py: _clamped_snapshot_timestamp *)
Definition clamped_snapshot_timestamp (timestamp : float) (current : option float) (future_tolerance_seconds : float)
    (clamp_future_timestamps : bool) : res float :=
  invalid ← pm_snapshot_future_invalid timestamp current future_tolerance_seconds clamp_future_timestamps;
  mret (if invalid : bool then default timestamp current else timestamp).

(** core/contracts_snapshot.py: _valid_pm_snapshot_payload *)
Definition valid_pm_snapshot_payload (pm_status : option payload) : bool :=
  match pm_status with Some p => bool_decide (is_Some (od_get "output" p)) | None => false end.

(** core/contracts_snapshot.py: _snapshot_pm_payload *)
Definition snapshot_pm_payload (normalized : payload) : res (option payload * option float * bool) :=
  let value key := default VNone (od_get key normalized) in
  pm_captured_at ← non_negative_float_or_none (value "pm_captured_at");
  mret (mapping_payload (value "pm_status"), pm_captured_at, py_bool (value "pm_confirmed")).

(** core/contracts_snapshot.py: _normalized_pm_snapshot_payload *)
Definition normalized_pm_snapshot_payload (pm_status : option payload) (pm_captured_at : option float)
    (pm_confirmed : bool) (captured_at : float) (current : option float) (future_tolerance_seconds : float)
    (clamp_future_timestamps : bool) : res (option payload * option float * bool * float) :=
  if negb (valid_pm_snapshot_payload pm_status) then Ok (None, None, false, captured_at)
  else
    let resolved_pm_captured_at := default captured_at pm_captured_at in
    invalid ← pm_snapshot_future_invalid resolved_pm_captured_at current future_tolerance_seconds clamp_future_timestamps;
    mret (if invalid : bool then (None, None, false, captured_at)
          else (pm_status, Some resolved_pm_captured_at, pm_confirmed, fmax captured_at resolved_pm_captured_at)).

(** core/contracts_snapshot.py: _apply_normalized_pm_payload *)
Definition apply_normalized_pm_payload (normalized : payload) (resolved_captured_at : float) (pm_status : option payload)
    (pm_captured_at : option float) (pm_confirmed : bool) : payload :=
  let confirmed := pm_confirmed && bool_decide (is_Some pm_status) && bool_decide (is_Some pm_captured_at) in
  od_set "pm_confirmed" (VBool confirmed)
    (od_set "pm_captured_at" (val_of_float pm_captured_at)
      (od_set "pm_status" (from_option text_dict VNone pm_status)
        (od_set "captured_at" (VFloat resolved_captured_at) normalized))).

(** core/contracts_snapshot.py: normalized_worker_snapshot *)
Definition normalized_worker_snapshot (snapshot : pyval) (now : option float) (future_tolerance_seconds : float)
    (clamp_future_timestamps : bool) : res payload :=
  let normalized := snapshot_mapping snapshot in
  captured_at ← non_negative_float_or_none (default VNone (od_get "captured_at" normalized));
  '(pm_status, pm_captured_at, pm_confirmed) ← snapshot_pm_payload normalized;
  let resolved := resolved_snapshot_captured_at captured_at pm_captured_at now in
  resolved ← clamped_snapshot_timestamp resolved now future_tolerance_seconds clamp_future_timestamps;
  '(pm_status, pm_captured_at, pm_confirmed, resolved) ←
    normalized_pm_snapshot_payload pm_status pm_captured_at pm_confirmed resolved now future_tolerance_seconds
      clamp_future_timestamps;
  mret (apply_normalized_pm_payload normalized resolved pm_status pm_captured_at pm_confirmed).

(** ** Relay output *)

(** ports/write.py: _normalized_binary_value *)
Definition normalized_binary_value (value : pyval) : option bool :=
  match value with
  | VBool b => Some b
  | VInt n => if n =? 0 then Some false else if n =? 1 then Some true else None
  | VFloat x => if feq x f0 then Some false else if feq x f1 then Some true else None
  | _ => None
  end.

(** ports/write.py: WriteControllerPort._relay_output_payload_present *)
Definition relay_output_payload_present (confirmed : bool) (pm_status captured_at : pyval) : bool :=
  confirmed && match pm_status with VDict d => bool_decide (is_Some (dict_find "output" d)) | _ => false end
  && negb (is_none captured_at).

(** ports/write.py: WriteControllerPort._relay_output_timestamp *)
Definition relay_output_timestamp (captured_at : pyval) : res (option float) :=
  match captured_at with
  | VFloat x => Ok (Some x)
  | VInt n => x ← float_of_int n; mret (Some x)
  | _ => Ok None
  end.

(** ports/write.py: WriteControllerPort._relay_output_timestamp_fresh *)
Definition relay_output_timestamp_fresh (current_time captured_at max_age_seconds : float) : bool :=
  let age_seconds := (current_time - captured_at)%F in (f_of_Z (-1) <=? age_seconds)%F && (age_seconds <=? max_age_seconds)%F.

(** ports/write.py: WriteControllerPort._relay_output_value *)
Definition relay_output_value (pm_status : pyval) : option bool :=
  match pm_status with VDict d => dict_find "output" d ≫= normalized_binary_value | _ => None end.

(** A relay output that is present, has a timestamp and is fresh: the common tail of
    [_fresh_snapshot_output] and [_fresh_last_output]. *)
Definition fresh_output (confirmed : bool) (pm_status captured_at : pyval) (current_time max_age_seconds : float)
    : res (option bool) :=
  if negb (relay_output_payload_present confirmed pm_status captured_at) then Ok None
  else
    timestamp ← relay_output_timestamp captured_at;
    mret (match timestamp with
          | None => None
          | Some t => if relay_output_timestamp_fresh current_time t max_age_seconds then relay_output_value pm_status else None
          end).

(** ports/write.py: WriteControllerPort._fresh_snapshot_output *)
Definition fresh_snapshot_output (snapshot : pyval) (current_time max_age_seconds : float) : res (option bool) :=
  normalized ← normalized_worker_snapshot snapshot (Some current_time) f1 false;
  let value key := default VNone (od_get key normalized) in
  fresh_output (py_bool (value "pm_confirmed")) (value "pm_status") (value "pm_captured_at") current_time max_age_seconds.

(** ports/write.py: WriteControllerPort._pending_relay_state_on *)
Definition pending_relay_state_on (sample : pyval) : bool :=
  match sample with
  | VTuple (VNone :: _) | VTuple [] => false
  | VTuple (pending :: _) => default true (normalized_binary_value pending)
  | _ => false
  end.

(** ** The port *)

(** What the port calls beyond the attributes of the service. *)
Inductive outside_call :=
  | TimeNow | WorkerSnapshot | PendingRelayCommand | PhaseSelectionRequiresPause | StateSummary | ClearSamples
  | UpdateWorkerSnapshot (fields : payload)
  | QueueRelayCommand (relay_on : bool) (current_time : float)
  | PublishLocalPmStatus (relay_on : bool) (current_time : float)
  | ChargerSetEnabled (enabled : bool) | ChargerSetCurrent (amps : float) | ApplyPhaseSelection (selection : string)
  | PublishField (field : string) (value : pyval) (current_time : float) (force : bool)
  | SaveRuntimeState | SaveRuntimeOverrides | ValidateRuntimeConfig.

(** ports/write.py: _PendingFieldPublication *)
Record pending_publication := mkPublication { pb_field : string; pb_value : pyval; pb_time : float; pb_force : bool }.

(** The port and the flag of the write controller: the attributes of the service, the staged
    publications, [_external_side_effect_started], and the log of calls.
    ports/write.py: WriteControllerPort.__init__ *)
Record WriteControllerPort := mkPort {
  pt_service : service; pt_pending : option (list pending_publication); pt_started : bool;
  pt_log : list (outside_call * res pyval) }.

#[export] Instance eta_port : Eta WriteControllerPort := fun s =>
  mkPort s.(pt_service) s.(pt_pending) s.(pt_started) s.(pt_log).

(** The world outside the port: what a call returns and makes of the attributes after the calls of a
    log, and the callable methods of the charger backend. *)
Class OutsideWorld := {
  respond : list (outside_call * res pyval) -> outside_call -> service -> res pyval * service;
  charger_methods : list string }.

Section port.
Context {world : OutsideWorld}.

Definition outside (call : outside_call) : M WriteControllerPort pyval := fun s =>
  let '(outcome, v) := respond s.(pt_log) call s.(pt_service) in
  (outcome, (s <| pt_service := v |>)
              <| pt_log := s.(pt_log) ++ [(call, outcome)] |>).

(** [getattr(self._service, name, default)] *)
Definition attr (name : string) (dflt : pyval) : M WriteControllerPort pyval := gets (fun s => getattr name dflt s.(pt_service)).

(** [self._service.name = value] *)
Definition set_attr (name : string) (value : pyval) : M WriteControllerPort unit :=
  modify (fun s => s <| pt_service := <[name := AValue value]> s.(pt_service) |>).

(** core/return_contracts.py: require_str *)
Definition require_str (value : pyval) : res string := match value with VStr s => Ok s | _ => Err TypeError end.

(** ports/write.py: WriteControllerPort.time_now *)
Definition time_now : M WriteControllerPort float := value ← outside TimeNow; lift (py_float value).

(** ports/write.py: WriteControllerPort.clear_auto_samples *)
Definition clear_auto_samples : M WriteControllerPort pyval := outside ClearSamples.
(** ports/write.py: WriteControllerPort.queue_relay_command *)
Definition queue_relay_command (relay_on : bool) (current_time : float) : M WriteControllerPort pyval :=
  outside (QueueRelayCommand relay_on current_time).
(** ports/write.py: WriteControllerPort.publish_local_pm_status *)
Definition publish_local_pm_status (relay_on : bool) (current_time : float) : M WriteControllerPort pyval :=
  outside (PublishLocalPmStatus relay_on current_time).
(** ports/write.py: WriteControllerPort.get_worker_snapshot *)
Definition get_worker_snapshot : M WriteControllerPort pyval := outside WorkerSnapshot.
(** ports/write.py: WriteControllerPort.update_worker_snapshot *)
Definition update_worker_snapshot (fields : payload) : M WriteControllerPort pyval := outside (UpdateWorkerSnapshot fields).
(** ports/write.py: WriteControllerPort.save_runtime_state *)
Definition save_runtime_state : M WriteControllerPort pyval := outside SaveRuntimeState.
(** ports/write.py: WriteControllerPort.save_runtime_overrides *)
Definition save_runtime_overrides : M WriteControllerPort pyval := outside SaveRuntimeOverrides.
(** ports/write.py: WriteControllerPort.validate_runtime_config *)
Definition validate_runtime_config : M WriteControllerPort pyval := outside ValidateRuntimeConfig.
(** ports/write.py: WriteControllerPort.state_summary *)
Definition state_summary : M WriteControllerPort string := value ← outside StateSummary; lift (require_str value).
(** ports/write.py: WriteControllerPort.phase_selection_requires_pause *)
Definition phase_selection_requires_pause : M WriteControllerPort bool := py_bool <$> outside PhaseSelectionRequiresPause.

(** ports/write.py: WriteControllerPort.charger_enable_available *)
Definition charger_enable_available : bool := str_in "set_enabled" charger_methods.
(** ports/write.py: WriteControllerPort.charger_current_available *)
Definition charger_current_available : bool := str_in "set_current" charger_methods.
(** ports/write.py: WriteControllerPort.charger_set_enabled *)
Definition charger_set_enabled (enabled : bool) : M WriteControllerPort pyval :=
  if charger_enable_available then outside (ChargerSetEnabled enabled) else raise RuntimeError.
(** ports/write.py: WriteControllerPort.charger_set_current *)
Definition charger_set_current (amps : float) : M WriteControllerPort pyval :=
  if charger_current_available then outside (ChargerSetCurrent amps) else raise RuntimeError.
(** ports/write.py: WriteControllerPort.apply_phase_selection *)
Definition apply_phase_selection (selection : string) : M WriteControllerPort string :=
  value ← outside (ApplyPhaseSelection selection); lift (require_str value).

(** ** Normalized attributes *)

(** ports/write_runtime.py: _finite_service_float *)
Definition finite_service_float (name : string) : M WriteControllerPort float :=
  value ← attr name VNone; default f0 <$> lift (finite_float_or_none value).
(** ports/write_runtime.py: _set_finite_service_float *)
Definition set_finite_service_float (name : string) (value : pyval) : M WriteControllerPort unit :=
  coerced ← lift (finite_float_or_none value); set_attr name (VFloat (default f0 coerced)).
(** ports/write_runtime.py: _service_binary_flag *)
Definition service_binary_flag (name : string) : M WriteControllerPort Z :=
  s ← gets pt_service;
  lift (catch (value ← match s !! name with Some a => Ok (attribute_value a) | None => Err AttributeError end;
               normalized ← py_int value; mret (if normalized <=? 0 then 0 else 1))
          [AttributeError; TypeError; ValueError] (Ok 1)).
(** ports/write_runtime.py: _set_service_binary_flag *)
Definition set_service_binary_flag (name : string) (value : pyval) : M WriteControllerPort unit :=
  normalized ← lift (normalize_binary_flag value 0); set_attr name (VInt normalized).
(** An optional timestamp, read or stored. *)
Definition optional_float (name : string) : M WriteControllerPort (option float) :=
  value ← attr name VNone; lift (finite_float_or_none value).
Definition set_optional_float (name : string) (value : pyval) : M WriteControllerPort unit :=
  coerced ← lift (finite_float_or_none value); set_attr name (val_of_float coerced).

(** ports/write_runtime.py: WriteControllerRuntimePort.virtual_mode *)
Definition virtual_mode : M WriteControllerPort Z :=
  value ← attr "virtual_mode" (VInt 0); lift (non_negative_int value 0).
(** ports/write_runtime.py: WriteControllerRuntimePort.virtual_mode.setter *)
Definition set_virtual_mode (value : pyval) : M WriteControllerPort unit :=
  mode ← lift (normalize_mode value); set_attr "virtual_mode" (VInt mode).
(** ports/write_runtime.py: WriteControllerRuntimePort.virtual_autostart *)
Definition virtual_autostart : M WriteControllerPort Z := service_binary_flag "virtual_autostart".
(** ports/write_runtime.py: WriteControllerRuntimePort.virtual_autostart.setter *)
Definition set_virtual_autostart : pyval -> M WriteControllerPort unit := set_service_binary_flag "virtual_autostart".
(** ports/write_runtime.py: WriteControllerRuntimePort.virtual_startstop *)
Definition virtual_startstop : M WriteControllerPort Z := service_binary_flag "virtual_startstop".
(** ports/write_runtime.py: WriteControllerRuntimePort.virtual_startstop.setter *)
Definition set_virtual_startstop : pyval -> M WriteControllerPort unit := set_service_binary_flag "virtual_startstop".
(** ports/write_runtime.py: WriteControllerRuntimePort.virtual_enable *)
Definition virtual_enable : M WriteControllerPort Z := service_binary_flag "virtual_enable".
(** ports/write_runtime.py: WriteControllerRuntimePort.virtual_enable.setter *)
Definition set_virtual_enable : pyval -> M WriteControllerPort unit := set_service_binary_flag "virtual_enable".
(** ports/write_runtime.py: WriteControllerRuntimePort.auto_manual_override_seconds *)
Definition auto_manual_override_seconds : M WriteControllerPort float := finite_service_float "auto_manual_override_seconds".
(** ports/write_runtime.py: WriteControllerRuntimePort.auto_start_condition_since.setter *)
Definition set_auto_start_condition_since : pyval -> M WriteControllerPort unit := set_optional_float "auto_start_condition_since".
(** ports/write_runtime.py: WriteControllerRuntimePort.auto_stop_condition_since.setter *)
Definition set_auto_stop_condition_since : pyval -> M WriteControllerPort unit := set_optional_float "auto_stop_condition_since".
(** ports/write_runtime.py: WriteControllerRuntimePort.virtual_set_current *)
Definition virtual_set_current : M WriteControllerPort float := finite_service_float "virtual_set_current".
(** ports/write_runtime.py: WriteControllerRuntimePort.virtual_set_current.setter *)
Definition set_virtual_set_current : pyval -> M WriteControllerPort unit := set_finite_service_float "virtual_set_current".
(** ports/write_runtime.py: WriteControllerRuntimePort.min_current *)
Definition min_current : M WriteControllerPort float := finite_service_float "min_current".
(** ports/write_runtime.py: WriteControllerRuntimePort.min_current.setter *)
Definition set_min_current : pyval -> M WriteControllerPort unit := set_finite_service_float "min_current".
(** ports/write_runtime.py: WriteControllerRuntimePort.max_current *)
Definition max_current : M WriteControllerPort float := finite_service_float "max_current".
(** ports/write_runtime.py: WriteControllerRuntimePort.max_current.setter *)
Definition set_max_current : pyval -> M WriteControllerPort unit := set_finite_service_float "max_current".

(** ports/write_runtime.py: WriteControllerRuntimePort.auto_policy *)
Definition auto_policy : M WriteControllerPort AutoPolicy :=
  s ← gets pt_service;
  match s !! "auto_policy" with Some (APolicy p) => mret p | _ => raise AttributeError end.
(** The policy object is mutated in place. *)
Definition set_auto_policy (p : AutoPolicy) : M WriteControllerPort unit :=
  modify (fun s => s <| pt_service := <["auto_policy" := APolicy p]> s.(pt_service) |>).

(** ports/write_runtime.py: WriteControllerRuntimePort.auto_scheduled_enabled_days *)
Definition auto_scheduled_enabled_days : M WriteControllerPort string :=
  value ← attr "auto_scheduled_enabled_days" (VTuple (map VInt DEFAULT_SCHEDULED_ENABLED_DAYS));
  mret (scheduled_enabled_days_text value DEFAULT_SCHEDULED_ENABLED_DAYS).
(** ports/write_runtime.py: WriteControllerRuntimePort.auto_scheduled_enabled_days.setter *)
Definition set_auto_scheduled_enabled_days (value : pyval) : M WriteControllerPort unit :=
  set_attr "auto_scheduled_enabled_days" (VStr (scheduled_enabled_days_text value DEFAULT_SCHEDULED_ENABLED_DAYS)).
(** ports/write_runtime.py: WriteControllerRuntimePort.auto_scheduled_latest_end_time *)
Definition auto_scheduled_latest_end_time : M WriteControllerPort string :=
  value ← attr "auto_scheduled_latest_end_time" (VStr "06:30"); mret (normalize_hhmm_text value (Some "06:30")).
(** ports/write_runtime.py: WriteControllerRuntimePort.auto_scheduled_latest_end_time.setter *)
Definition set_auto_scheduled_latest_end_time (value : pyval) : M WriteControllerPort unit :=
  set_attr "auto_scheduled_latest_end_time" (VStr (normalize_hhmm_text value (Some "06:30"))).

(** ports/write_runtime.py: WriteControllerRuntimePort._software_update_run_requested_at.setter *)
Definition set_software_update_run_requested_at : pyval -> M WriteControllerPort unit :=
  set_optional_float "_software_update_run_requested_at".
(** ports/write_runtime.py: WriteControllerRuntimePort.auto_mode_cutover_pending.setter *)
Definition set_auto_mode_cutover_pending (value : pyval) : M WriteControllerPort unit :=
  set_attr "_auto_mode_cutover_pending" (VBool (py_bool value)).
(** ports/write_runtime.py: WriteControllerRuntimePort.ignore_min_offtime_once.setter *)
Definition set_ignore_min_offtime_once (value : pyval) : M WriteControllerPort unit :=
  set_attr "_ignore_min_offtime_once" (VBool (py_bool value)).
(** ports/write_runtime.py: WriteControllerRuntimePort.manual_override_until.setter *)
Definition set_manual_override_until : pyval -> M WriteControllerPort unit := set_finite_service_float "manual_override_until".

(** The properties a setting of the Auto mode is stored in: [setattr(port, name, value)] and
    [getattr(port, name)] for the names of [AUTO_RUNTIME_SETTING_SPECS].
    ports/write_runtime.py: WriteControllerRuntimePort *)
Definition runtime_setting_property (name : string) : option ((pyval -> M WriteControllerPort unit) * M WriteControllerPort pyval) :=
  if str_in name ["auto_start_delay_seconds"; "auto_stop_delay_seconds"; "auto_scheduled_night_start_delay_seconds";
                  "auto_scheduled_night_current_amps"; "auto_dbus_backoff_base_seconds"; "auto_dbus_backoff_max_seconds"]
  then Some (set_finite_service_float name, VFloat <$> finite_service_float name)
  else if (name =? "auto_scheduled_enabled_days")%string
  then Some (set_auto_scheduled_enabled_days, VStr <$> auto_scheduled_enabled_days)
  else if (name =? "auto_scheduled_latest_end_time")%string
  then Some (set_auto_scheduled_latest_end_time, VStr <$> auto_scheduled_latest_end_time)
  else None.

(** ** Phase selections *)

Definition phase_val (p : PhaseSelection) : pyval := VStr (phase_text p).

(** ports/write_runtime.py: WriteControllerRuntimePort.supported_phase_selections *)
Definition supported_phase_selections : M WriteControllerPort (list PhaseSelection) :=
  configured ← attr "supported_phase_selections" (VTuple [VStr "P1"]);
  let normalized := normalize_phase_selection_tuple configured [P1] in
  current_time ← time_now;
  lockout_selection ← attr "_phase_switch_lockout_selection" VNone;
  lockout_until ← attr "_phase_switch_lockout_until" VNone;
  lift (effective_supported_phase_selections (VTuple (map phase_val normalized)) lockout_selection lockout_until current_time).

(** [normalize_phase_selection(self.supported_phase_selections[0])] *)
Definition first_supported_phase_selection : M WriteControllerPort PhaseSelection :=
  supported ← supported_phase_selections;
  match supported with first :: _ => mret (normalize_phase_selection (phase_val first) P1) | [] => raise IndexError end.

(** ports/write_runtime.py: WriteControllerRuntimePort.requested_phase_selection *)
Definition requested_phase_selection : M WriteControllerPort PhaseSelection :=
  fallback ← first_supported_phase_selection;
  value ← attr "requested_phase_selection" (phase_val fallback);
  mret (normalize_phase_selection value fallback).
(** ports/write_runtime.py: WriteControllerRuntimePort.requested_phase_selection.setter *)
Definition set_requested_phase_selection (value : pyval) : M WriteControllerPort unit :=
  fallback ← first_supported_phase_selection;
  set_attr "requested_phase_selection" (phase_val (normalize_phase_selection value fallback)).
(** ports/write_runtime.py: WriteControllerRuntimePort.active_phase_selection *)
Definition active_phase_selection : M WriteControllerPort PhaseSelection :=
  fallback ← requested_phase_selection;
  value ← attr "active_phase_selection" (phase_val fallback);
  mret (normalize_phase_selection value fallback).
(** ports/write_runtime.py: WriteControllerRuntimePort.active_phase_selection.setter *)
Definition set_active_phase_selection (value : pyval) : M WriteControllerPort unit :=
  fallback ← requested_phase_selection;
  set_attr "active_phase_selection" (phase_val (normalize_phase_selection value fallback)).

(** ports/write.py: WriteControllerPort.normalize_phase_selection *)
Definition port_normalize_phase_selection (value : pyval) : M WriteControllerPort PhaseSelection :=
  fallback ← first_supported_phase_selection; mret (normalize_phase_selection value fallback).

(** ** Is the relay on? *)

(** ports/write.py: WriteControllerPort._relay_status_freshness_seconds *)
Definition relay_status_freshness_seconds : M WriteControllerPort float :=
  let positive name (scale : float -> float) : M WriteControllerPort (list float) :=
    value ← attr name VNone;
    if is_none value then mret []
    else seconds ← lift (py_float value); mret (if (f0 <? seconds)%F then [scale seconds] else []) in
  worker ← positive "_worker_poll_interval_seconds" (fun seconds => (seconds * f_of_Z 2)%F);
  sync ← positive "relay_sync_timeout_seconds" (fun seconds => seconds);
  mret (fmax f1 (fmin_list (f_of_Z 2) (worker ++ sync))).

(** ports/write.py: WriteControllerPort._fresh_last_output *)
Definition fresh_last_output (current_time max_age_seconds : float) : M WriteControllerPort (option bool) :=
  last_pm_status ← attr "_last_confirmed_pm_status" VNone;
  last_pm_status_at ← attr "_last_confirmed_pm_status_at" VNone;
  lift (fresh_output true last_pm_status last_pm_status_at current_time max_age_seconds).

(** ports/write.py: WriteControllerPort._fresh_confirmed_relay_output *)
Definition fresh_confirmed_relay_output (snapshot : pyval) : M WriteControllerPort (option bool) :=
  current_time ← time_now;
  max_age_seconds ← relay_status_freshness_seconds;
  output ← lift (fresh_snapshot_output snapshot current_time max_age_seconds);
  match output with
  | Some output => mret (Some output)
  | None => fresh_last_output current_time max_age_seconds
  end.

(** ports/write.py: WriteControllerPort.relay_may_be_on_for_cutover *)
Definition relay_may_be_on_for_cutover : M WriteControllerPort bool :=
  snapshot ← get_worker_snapshot;
  pending ← outside PendingRelayCommand;
  if pending_relay_state_on pending then mret true
  else
    confirmed_output ← fresh_confirmed_relay_output snapshot;
    mret (default true confirmed_output).

(** ** Publications *)

(** ports/write.py: WriteControllerPort.publish_field *)
Definition publish_field (field : string) (value : pyval) (current_time : float) (force : bool) : M WriteControllerPort pyval :=
  s ← get;
  match s.(pt_pending) with
  | Some pending =>
    modify (fun s => s <| pt_pending := Some (pending ++ [mkPublication field value current_time force]) |>);;
    mret (VBool true)
  | None => outside (PublishField field value current_time force)
  end.

(** ports/write.py: WriteControllerPort.begin_publication_transaction *)
Definition begin_publication_transaction : M WriteControllerPort unit :=
  s ← get;
  match s.(pt_pending) with
  | Some _ => raise RuntimeError
  | None => modify (fun s => s <| pt_pending := Some [] |>)
  end.

(** The loop of the commit. *)
Fixpoint publish_all (pending : list pending_publication) : M WriteControllerPort unit :=
  match pending with
  | [] => mret tt
  | p :: rest =>
    accepted ← outside (PublishField p.(pb_field) p.(pb_value) p.(pb_time) p.(pb_force));
    match accepted with VBool false => raise RuntimeError | _ => publish_all rest end
  end.

(** ports/write.py: WriteControllerPort.discard_publication_transaction *)
Definition discard_publication_transaction : M WriteControllerPort unit := modify (fun s => s <| pt_pending := None |>).

(** ports/write.py: WriteControllerPort.commit_publication_transaction *)
Definition commit_publication_transaction : M WriteControllerPort unit :=
  s ← get;
  match s.(pt_pending) with
  | None => raise RuntimeError
  | Some pending => publish_all pending;; discard_publication_transaction
  end.

End port.
