(* ===== verification/ControlWrites.v ===== *)
(** * Control commands on the wallbox

    [controllers/write.py] and [controllers/write_support.py] with the dispatch of
    [control/service.py]: every handler, and the transaction around a command.  Within it
    publications are staged; they leave after the state was saved.  A failure is rolled back
    as long as nothing irreversible happened.  Log lines are left out, the values they
    evaluate are not. *)

From S2P Require Import Prelude PyFloat PyValue OrderedMap Contracts BackendModels Schedule AutoPolicy ControlSurface WritePort.

(** controllers/errors.py: CONTROL_COMMAND_ERRORS *)
Definition CONTROL_COMMAND_ERRORS : list exn := [KeyError; OSError; RuntimeError; TypeError; ValueError].
(** controllers/errors.py: CONTROL_PUBLICATION_ERRORS *)
Definition CONTROL_PUBLICATION_ERRORS : list exn := [KeyError; OSError; RuntimeError; TypeError; ValueError].

(** core/contracts_snapshot.py: write_failure_is_reversible *)
Definition write_failure_is_reversible (side_effect_started : bool) : bool := negb side_effect_started.

(** controllers/write.py: ControlWriteController.CURRENT_SETTING_TARGETS *)
Definition CURRENT_SETTING_TARGETS : list string := ["set_current"; "max_current"; "min_current"].
(** controllers/write.py: ControlWriteController.CURRENT_SETTING_FIELDS *)
Definition CURRENT_SETTING_FIELDS : list (string * string) :=
  [("set_current", "set_current"); ("max_current", "max_current"); ("min_current", "min_current")].

(** The conversion of a setting. *)
Inductive normalizer := AsFloat | AsText.
(** controllers/write.py: ControlWriteController.AUTO_RUNTIME_SETTING_SPECS *)
Definition AUTO_RUNTIME_SETTING_SPECS : list (string * (string * normalizer)) :=
  [("auto_start_delay_seconds", ("auto_start_delay_seconds", AsFloat));
   ("auto_stop_delay_seconds", ("auto_stop_delay_seconds", AsFloat));
   ("auto_scheduled_enabled_days", ("auto_scheduled_enabled_days", AsText));
   ("auto_scheduled_fallback_delay_seconds", ("auto_scheduled_night_start_delay_seconds", AsFloat));
   ("auto_scheduled_latest_end_time", ("auto_scheduled_latest_end_time", AsText));
   ("auto_scheduled_night_current", ("auto_scheduled_night_current_amps", AsFloat));
   ("auto_dbus_backoff_base_seconds", ("auto_dbus_backoff_base_seconds", AsFloat));
   ("auto_dbus_backoff_max_seconds", ("auto_dbus_backoff_max_seconds", AsFloat))].
(** auto/policy_settings.py: AUTO_POLICY_SETTING_BY_TARGET *)
Definition AUTO_POLICY_SETTING_BY_TARGET : list (string * AutoPolicySetting) :=
  map (fun st => (st.(st_target), st)) AUTO_POLICY_SETTINGS.
(** controllers/write.py: ControlWriteController.AUTO_RUNTIME_SETTING_TARGETS *)
Definition AUTO_RUNTIME_SETTING_TARGETS : list string :=
  map fst AUTO_RUNTIME_SETTING_SPECS ++ map fst AUTO_POLICY_SETTING_BY_TARGET.
(** controllers/write.py: ControlWriteController.AUTO_RUNTIME_SETTING_FIELDS *)
Definition AUTO_RUNTIME_SETTING_FIELDS : list (string * string) := map (fun t => (t, t)) AUTO_RUNTIME_SETTING_TARGETS.

Definition policy_pyval (v : policy_value) : pyval :=
  match v with PBool b => VBool b | PFloat x => VFloat x | PInt n => VInt n end.

(** controllers/write.py: ControlWriteController.AUTO_RUNTIME_SETTING_SPECS *)
Definition normalize_setting (n : normalizer) (value : pyval) : res pyval :=
  match n with AsFloat => x ← py_float value; mret (VFloat x) | AsText => Ok (VStr (py_str value)) end.

(** [table[key]] *)
Definition table_item {V} (key : string) (t : list (string * V)) : M WriteControllerPort V :=
  match table_get key t with Some v => mret v | None => raise KeyError end.

Section controller.
Context {world : OutsideWorld}.
(** The text of a caught exception. *)
Variable error_detail : list (outside_call * res pyval) -> exn -> string.

(** ** Support *)

(** controllers/write_support.py: _ControlWriteSupport._mark_external_side_effect_started *)
Definition mark_external_side_effect_started : M WriteControllerPort unit := modify (fun s => s <| pt_started := true |>).

(** controllers/write_support.py: _ControlWriteSupport._queue_relay_command *)
Definition queue_relay (relay_on : bool) (current_time : float) : M WriteControllerPort unit :=
  queue_relay_command relay_on current_time;;
  mark_external_side_effect_started.

(** controllers/write_support.py: _ControlWriteSupport._publish_local_pm_status_best_effort *)
Definition publish_local_pm_status_best_effort (relay_on : bool) (current_time : float) : M WriteControllerPort unit :=
  try_except (publish_local_pm_status relay_on current_time;; mret tt) (exn_in CONTROL_PUBLICATION_ERRORS)
    (fun _ => mret tt).

(** controllers/write_support.py: _ControlWriteSupport._reset_auto_decision_state *)
Definition reset_auto_decision_state : M WriteControllerPort unit :=
  set_auto_start_condition_since VNone;;
  set_auto_stop_condition_since VNone;;
  clear_auto_samples;; mret tt.

(** controllers/write_support.py: _ControlWriteSupport._activate_auto_without_cutover *)
Definition activate_auto_without_cutover : M WriteControllerPort unit :=
  set_auto_mode_cutover_pending (VBool false);;
  set_ignore_min_offtime_once (VBool false).

(** controllers/write_support.py: _ControlWriteSupport._queue_auto_cutover *)
Definition queue_auto_cutover (current_time : float) : M WriteControllerPort unit :=
  queue_relay false current_time;;
  set_virtual_enable (VInt 1);;
  set_virtual_startstop (VInt 0);;
  set_auto_mode_cutover_pending (VBool true);;
  set_ignore_min_offtime_once (VBool false);;
  publish_local_pm_status_best_effort false current_time.

(** controllers/write_support.py: _ControlWriteSupport._handle_mode_transition_to_auto *)
Definition handle_mode_transition_to_auto (previous_mode : Z) (current_time : float) : M WriteControllerPort unit :=
  already ← lift (mode_uses_auto_logic (VInt previous_mode));
  if (already : bool) then mret tt
  else
    on ← relay_may_be_on_for_cutover;
    (if (on : bool) then queue_auto_cutover current_time else activate_auto_without_cutover);;
    set_manual_override_until (VFloat f0).

(** controllers/write_support.py: _ControlWriteSupport._apply_manual_enable_like_request *)
Definition apply_manual_enable_like_request (wanted_on : bool) (current_time : float) : M WriteControllerPort unit :=
  let record : M WriteControllerPort unit :=
    set_virtual_startstop (VInt (if wanted_on then 1 else 0));;
    (startstop ← virtual_startstop; set_virtual_enable (VInt startstop));;
    (seconds ← auto_manual_override_seconds; set_manual_override_until (VFloat (current_time + seconds)%F)) in
  if charger_enable_available then
    charger_set_enabled wanted_on;;
    mark_external_side_effect_started;;
    record
  else
    queue_relay wanted_on current_time;;
    record;;
    publish_local_pm_status_best_effort wanted_on current_time.

(** controllers/write_support.py: _ControlWriteSupport._apply_manual_startstop_request *)
Definition apply_manual_startstop_request : bool -> float -> M WriteControllerPort unit := apply_manual_enable_like_request.
(** controllers/write_support.py: _ControlWriteSupport._apply_manual_enable_request *)
Definition apply_manual_enable_request : bool -> float -> M WriteControllerPort unit := apply_manual_enable_like_request.

(** controllers/write_support.py: _ControlWriteSupport._handle_mode_transition_to_manual *)
Definition handle_mode_transition_to_manual (previous_mode : Z) (current_time : float) : M WriteControllerPort unit :=
  was_auto ← lift (mode_uses_auto_logic (VInt previous_mode));
  if negb was_auto then mret tt
  else
    enable ← virtual_enable;
    let wanted_on := negb (enable =? 0) in
    startstop ← virtual_startstop;
    if Bool.eqb (negb (startstop =? 0)) wanted_on then mret tt
    else apply_manual_enable_like_request wanted_on current_time.

(** controllers/write_support.py: _ControlWriteSupport._snapshot_for_mode *)
Definition snapshot_for_mode (current_time : float) (auto_mode_active : bool) : M WriteControllerPort unit :=
  snapshot ← get_worker_snapshot;
  let value key : M WriteControllerPort pyval :=
    (if negb auto_mode_active then mret VNone
     else match snapshot with VDict d => mret (default VNone (dict_find key d)) | _ => raise AttributeError end) in
  pv_power ← value "pv_power";
  battery_soc ← value "battery_soc";
  grid_power ← value "grid_power";
  update_worker_snapshot [("captured_at", VFloat current_time); ("auto_mode_active", VBool auto_mode_active);
    ("pv_power", pv_power); ("battery_soc", battery_soc); ("grid_power", grid_power)];; mret tt.

(** controllers/write_support.py: _ControlWriteSupport._auto_startstop_value *)
Definition auto_startstop_value : M WriteControllerPort Z :=
  enable ← virtual_enable; if enable =? 0 then virtual_startstop else mret enable.

(** controllers/write_support.py: _ControlWriteSupport._startstop_value_for_mode *)
Definition startstop_value_for_mode (auto_mode_active : bool) : M WriteControllerPort Z :=
  if auto_mode_active then auto_startstop_value else virtual_startstop.

(** A forced publication. *)
Definition publish (field : string) (value : pyval) (current_time : float) : M WriteControllerPort unit :=
  publish_field field value current_time true;; mret tt.

(** controllers/write_support.py: _ControlWriteSupport._publish_startstop_enable *)
Definition publish_startstop_enable (current_time : float) (auto_mode_active : bool) : M WriteControllerPort unit :=
  start_stop ← startstop_value_for_mode auto_mode_active;
  publish "start_stop" (VInt start_stop) current_time;;
  (enable ← virtual_enable; publish "enable" (VInt enable) current_time).

(** controllers/write_support.py: _ControlWriteSupport._publish_mode_paths *)
Definition publish_mode_paths (current_time : float) (auto_mode_active : bool) : M WriteControllerPort unit :=
  mode ← virtual_mode;
  publish "mode" (VInt mode) current_time;;
  publish_startstop_enable current_time auto_mode_active.

(** [getattr(svc, 'supported_phase_selections', ('P1',))] of the port *)
Definition port_supported_phase_selections : M WriteControllerPort (list PhaseSelection) :=
  try_except supported_phase_selections (exn_in [AttributeError]) (fun _ => mret [P1]).

(** The port has no lockout attributes, so their defaults are used.
    controllers/write_support.py: _ControlWriteSupport._supported_phase_selection_text *)
Definition supported_phase_selection_text (current_time : float) : M WriteControllerPort string :=
  supported ← port_supported_phase_selections;
  effective_supported ← lift (effective_supported_phase_selections (VTuple (map phase_val supported)) VNone VNone current_time);
  mret (join "," (map phase_text effective_supported)).

(** Written to the service itself, past the port.
    controllers/write_support.py: _ControlWriteSupport._queue_phase_switch_state *)
Definition queue_phase_switch_state (requested_selection : PhaseSelection) (current_time : float) (resume_relay : bool)
    : M WriteControllerPort unit :=
  set_attr "requested_phase_selection" (phase_val requested_selection);;
  set_attr "_phase_switch_pending_selection" (phase_val requested_selection);;
  set_attr "_phase_switch_state" (VStr "waiting-relay-off");;
  set_attr "_phase_switch_requested_at" (VFloat current_time);;
  set_attr "_phase_switch_stable_until" VNone;;
  set_attr "_phase_switch_resume_relay" (VBool resume_relay).

(** controllers/write_support.py: _ControlWriteSupport._publish_phase_selection_paths *)
Definition publish_phase_selection_paths (current_time : float) : M WriteControllerPort unit :=
  (requested ← requested_phase_selection; publish "phase_selection" (phase_val requested) current_time);;
  (active ← active_phase_selection; publish "phase_selection_active" (phase_val active) current_time);;
  (supported ← supported_phase_selection_text current_time;
   publish "supported_phase_selections" (VStr supported) current_time).

(** controllers/write_support.py: _ControlWriteSupport._clear_phase_lockout_state *)
Definition clear_phase_lockout_state : M WriteControllerPort unit :=
  set_attr "_phase_switch_mismatch_active" (VBool false);;
  set_attr "_phase_switch_mismatch_counts" (VDict []);;
  set_attr "_phase_switch_last_mismatch_selection" VNone;;
  set_attr "_phase_switch_last_mismatch_at" VNone;;
  set_attr "_phase_switch_lockout_selection" VNone;;
  set_attr "_phase_switch_lockout_reason" (VStr "");;
  set_attr "_phase_switch_lockout_at" VNone;;
  set_attr "_phase_switch_lockout_until" VNone.

(** controllers/write_support.py: _ControlWriteSupport._publish_phase_lockout_paths *)
Definition publish_phase_lockout_paths (current_time : float) : M WriteControllerPort unit :=
  supported ← port_supported_phase_selections;
  let configured_supported := join "," (map phase_text supported) in
  effective_supported ← supported_phase_selection_text current_time;
  publish "auto_phase_lockout_active" (VInt 0) current_time;;
  publish "auto_phase_lockout_target" (VStr "") current_time;;
  publish "auto_phase_lockout_reason" (VStr "") current_time;;
  publish "auto_phase_supported_configured" (VStr configured_supported) current_time;;
  publish "auto_phase_supported_effective" (VStr effective_supported) current_time;;
  publish "auto_phase_degraded_active" (VInt (if (configured_supported =? effective_supported)%string then 0 else 1)) current_time;;
  publish "auto_phase_lockout_age" (VInt (-1)) current_time;;
  publish "auto_phase_lockout_reset" (VInt 0) current_time.

(** controllers/write_support.py: _ControlWriteSupport._clear_contactor_lockout_state *)
Definition clear_contactor_lockout_state : M WriteControllerPort unit :=
  set_attr "_contactor_fault_counts" (VDict []);;
  set_attr "_contactor_fault_active_reason" VNone;;
  set_attr "_contactor_fault_active_since" VNone;;
  set_attr "_contactor_lockout_reason" (VStr "");;
  set_attr "_contactor_lockout_source" (VStr "");;
  set_attr "_contactor_lockout_at" VNone;;
  set_attr "_contactor_suspected_open_since" VNone;;
  set_attr "_contactor_suspected_welded_since" VNone.

(** controllers/write_support.py: _ControlWriteSupport._publish_contactor_lockout_paths *)
Definition publish_contactor_lockout_paths (current_time : float) : M WriteControllerPort unit :=
  publish "auto_contactor_fault_count" (VInt 0) current_time;;
  publish "auto_contactor_lockout_active" (VInt 0) current_time;;
  publish "auto_contactor_lockout_reason" (VStr "") current_time;;
  publish "auto_contactor_lockout_source" (VStr "") current_time;;
  publish "auto_contactor_lockout_age" (VInt (-1)) current_time;;
  publish "auto_contactor_lockout_reset" (VInt 0) current_time.

(** controllers/write_support.py: _ControlWriteSupport._apply_auto_disable *)
Definition apply_auto_disable (current_time : float) : M WriteControllerPort unit :=
  queue_relay false current_time;;
  set_virtual_enable (VInt 0);;
  set_virtual_startstop (VInt 0);;
  publish_local_pm_status_best_effort false current_time.

(** ** Handlers *)

(** The values the log line of a handler evaluates. *)
Definition log_auto_mode : M WriteControllerPort unit :=
  mode ← virtual_mode;
  lift (mode_uses_auto_logic (VInt mode));;
  state_summary;; mret tt.

(** [bool(int(value))] *)
Definition bool_of_int (value : pyval) : M WriteControllerPort bool := n ← lift (py_int value); mret (negb (n =? 0)).

(** controllers/write.py: ControlWriteController._handle_mode_write *)
Definition handle_mode_write (requested_mode : Z) : M WriteControllerPort unit :=
  previous_mode ← virtual_mode;
  current_time ← time_now;
  normalized_mode ← lift (normalize_mode (VInt requested_mode));
  auto_mode_active ← lift (mode_uses_auto_logic (VInt normalized_mode));
  (if (auto_mode_active : bool) then handle_mode_transition_to_auto previous_mode current_time
   else handle_mode_transition_to_manual previous_mode current_time);;
  set_virtual_mode (VInt normalized_mode);;
  reset_auto_decision_state;;
  snapshot_for_mode current_time auto_mode_active;;
  publish_mode_paths current_time auto_mode_active;;
  (_ ← virtual_mode; state_summary;; mret tt).

(** controllers/write.py: ControlWriteController._handle_autostart_write *)
Definition handle_autostart_write (value : pyval) : M WriteControllerPort unit :=
  n ← lift (py_int value);
  set_virtual_autostart (VInt n);;
  (autostart ← virtual_autostart;
   current_time ← time_now;
   publish "auto_start" (VInt autostart) current_time);;
  (_ ← virtual_autostart; state_summary;; mret tt).

(** controllers/write.py: ControlWriteController._handle_startstop_write *)
Definition handle_startstop_write (wanted_on : bool) : M WriteControllerPort unit :=
  current_time ← time_now;
  mode ← virtual_mode;
  auto_mode ← lift (mode_uses_auto_logic (VInt mode));
  (if (auto_mode : bool) then
     (if negb wanted_on then apply_auto_disable current_time else set_virtual_enable (VInt 1));;
     publish_startstop_enable current_time true
   else
     apply_manual_startstop_request wanted_on current_time;;
     publish_startstop_enable current_time false);;
  log_auto_mode.

(** controllers/write.py: ControlWriteController._handle_enable_write *)
Definition handle_enable_write (wanted_on : bool) : M WriteControllerPort unit :=
  current_time ← time_now;
  mode ← virtual_mode;
  auto_mode ← lift (mode_uses_auto_logic (VInt mode));
  (if (auto_mode : bool) then
     (if negb wanted_on then apply_auto_disable current_time else set_virtual_enable (VInt 1))
   else apply_manual_enable_request wanted_on current_time);;
  (mode ← virtual_mode;
   auto_mode_active ← lift (mode_uses_auto_logic (VInt mode));
   publish_startstop_enable current_time auto_mode_active);;
  log_auto_mode.

(** controllers/write.py: ControlWriteController._handle_current_setting_write *)
Definition handle_current_setting_write (target : string) (value : pyval) : M WriteControllerPort unit :=
  current_time ← time_now;
  target_value ←
    (if (target =? "set_current")%string then
       requested_current ← lift (py_float value);
       (if charger_current_available then
          charger_set_current requested_current;;
          mark_external_side_effect_started
        else mret tt);;
       set_virtual_set_current (VFloat requested_current);;
       virtual_set_current
     else if (target =? "max_current")%string then
       x ← lift (py_float value); set_max_current (VFloat x);; max_current
     else
       x ← lift (py_float value); set_min_current (VFloat x);; min_current);
  field ← table_item target CURRENT_SETTING_FIELDS;
  publish field (VFloat target_value) current_time.

(** controllers/write.py: ControlWriteController._apply_auto_runtime_setting *)
Definition apply_auto_runtime_setting (target : string) (value : pyval) : M WriteControllerPort pyval :=
  match table_get target AUTO_POLICY_SETTING_BY_TARGET with
  | Some policy_setting =>
    policy ← auto_policy;
    let '(outcome, policy) := setting_update policy_setting value policy in
    set_auto_policy policy;;
    (target_value ← lift outcome;
     validate_runtime_config;;
     mret (policy_pyval target_value))
  | None =>
    '(attr_name, n) ← table_item target AUTO_RUNTIME_SETTING_SPECS;
    normalized ← lift (normalize_setting n value);
    match runtime_setting_property attr_name with
    | Some (set, get) => set normalized;; validate_runtime_config;; get
    | None => raise AttributeError
    end
  end.

(** controllers/write.py: ControlWriteController._handle_auto_runtime_setting_write *)
Definition handle_auto_runtime_setting_write (target : string) (value : pyval) : M WriteControllerPort unit :=
  current_time ← time_now;
  target_value ← apply_auto_runtime_setting target value;
  field ← table_item target AUTO_RUNTIME_SETTING_FIELDS;
  publish field target_value current_time.

(** controllers/write.py: ControlWriteController._handle_phase_selection_write *)
Definition handle_phase_selection_write (value : pyval) : M WriteControllerPort unit :=
  current_time ← time_now;
  requested_selection ← port_normalize_phase_selection value;
  supported ← supported_phase_selections;
  if negb (bool_decide (requested_selection ∈ supported)) then
    _ ← supported_phase_selections; raise ValueError
  else
    requires_pause ← phase_selection_requires_pause;
    must_pause ← (if (requires_pause : bool) then relay_may_be_on_for_cutover else mret false);
    if (must_pause : bool) then
      queue_phase_switch_state requested_selection current_time true;;
      queue_relay false current_time;;
      publish_local_pm_status_best_effort false current_time;;
      publish_phase_selection_paths current_time;;
      state_summary;; mret tt
    else
      applied_selection ← apply_phase_selection (phase_text requested_selection);
      set_requested_phase_selection (VStr applied_selection);;
      set_active_phase_selection (VStr applied_selection);;
      publish_phase_selection_paths current_time;;
      state_summary;; mret tt.

(** controllers/write.py: ControlWriteController._handle_phase_lockout_reset_write *)
Definition handle_phase_lockout_reset_write (value : pyval) : M WriteControllerPort unit :=
  current_time ← time_now;
  reset ← bool_of_int value;
  if negb reset then publish "auto_phase_lockout_reset" (VInt 0) current_time
  else
    clear_phase_lockout_state;;
    publish_phase_selection_paths current_time;;
    publish_phase_lockout_paths current_time;;
    state_summary;; mret tt.

(** controllers/write.py: ControlWriteController._handle_contactor_lockout_reset_write *)
Definition handle_contactor_lockout_reset_write (value : pyval) : M WriteControllerPort unit :=
  current_time ← time_now;
  reset ← bool_of_int value;
  if negb reset then publish "auto_contactor_lockout_reset" (VInt 0) current_time
  else
    clear_contactor_lockout_state;;
    publish_contactor_lockout_paths current_time;;
    state_summary;; mret tt.

(** controllers/write.py: ControlWriteController._handle_software_update_run_write *)
Definition handle_software_update_run_write (value : pyval) : M WriteControllerPort unit :=
  current_time ← time_now;
  run ← bool_of_int value;
  if negb run then publish "auto_software_update_run" (VInt 0) current_time
  else
    set_software_update_run_requested_at (VFloat current_time);;
    publish "auto_software_update_run" (VInt 0) current_time;;
    state_summary;; mret tt.

(** controllers/write.py: ControlWriteController._handle_mode_value_write *)
Definition handle_mode_value_write (value : pyval) : M WriteControllerPort unit :=
  n ← lift (py_int value); handle_mode_write n.
(** controllers/write.py: ControlWriteController._handle_startstop_value_write *)
Definition handle_startstop_value_write (value : pyval) : M WriteControllerPort unit :=
  wanted_on ← bool_of_int value; handle_startstop_write wanted_on.
(** controllers/write.py: ControlWriteController._handle_enable_value_write *)
Definition handle_enable_value_write (value : pyval) : M WriteControllerPort unit :=
  wanted_on ← bool_of_int value; handle_enable_write wanted_on.

(** ** Dispatch and transaction *)

(** The handlers by command; some take the target.
    control/service.py: ControlApiV1Service._HANDLER_SPECS *)
Definition HANDLER_SPECS : list (string * (string -> pyval -> M WriteControllerPort unit)) :=
  [("reset_contactor_lockout", fun _ => handle_contactor_lockout_reset_write);
   ("reset_phase_lockout", fun _ => handle_phase_lockout_reset_write);
   ("set_auto_runtime_setting", handle_auto_runtime_setting_write);
   ("set_auto_start", fun _ => handle_autostart_write);
   ("set_current_setting", handle_current_setting_write);
   ("set_enable", fun _ => handle_enable_value_write);
   ("set_mode", fun _ => handle_mode_value_write);
   ("set_phase_selection", fun _ => handle_phase_selection_write);
   ("set_start_stop", fun _ => handle_startstop_value_write);
   ("trigger_software_update", fun _ => handle_software_update_run_write)].

(** The exception of a check; a violated contract is a [ValueError]. *)
Definition res_of_checked {A} (c : checked A) : res A :=
  match c with Valid a => Ok a | Invalid _ => Err ValueError | Raises e => Err e end.

(** control/service.py: ControlApiV1Service.execute *)
Definition execute (command : ControlCommand) : M WriteControllerPort unit :=
  command_name ← lift (res_of_checked (validated_command_name command.(cc_name)));
  lift (res_of_checked (validate_command_target CURRENT_SETTING_TARGETS AUTO_RUNTIME_SETTING_TARGETS command_name
                       command.(cc_target)));;
  (handler ← table_item command_name HANDLER_SPECS; handler command.(cc_target) command.(cc_value)).

(** controllers/write.py: ControlWriteController._commit_in_flight_publications *)
Definition commit_in_flight_publications : M WriteControllerPort unit :=
  try_except commit_publication_transaction (exn_in CONTROL_COMMAND_ERRORS) (fun _ => mret tt).

(** The flag [persistence_completed] is part of the outcome of the body: an exception is paired
    with whether the state had been saved before it.
    controllers/write.py: ControlWriteController._handle_control_command_locked *)
Definition command_body (command : ControlCommand) : M WriteControllerPort (bool * res unit) := fun s =>
  match (begin_publication_transaction;; execute command;; save_runtime_state) s with
  | (Err e, s1) => (Ok (false, Err e), s1)
  | (Ok _, s1) =>
    match (save_runtime_overrides;; commit_publication_transaction) s1 with
    | (outcome, s2) => (Ok (true, outcome), s2)
    end
  end.

(** controllers/write.py: ControlWriteController._handle_control_command_locked *)
Definition handle_control_command (command : ControlCommand) : M WriteControllerPort ControlResult :=
  v ← gets pt_service;
  snapshot ← lift (capture_write_state v);
  modify (fun s => s <| pt_started := false |>);;
  ('(persistence_completed, outcome) ← command_body command;
   s ← get;
   result ←
     match outcome with
     | Ok _ => mret (Ok (applied_result command s.(pt_started)))
     | Err e =>
       if exn_in CONTROL_COMMAND_ERRORS e then
         let detail := error_detail s.(pt_log) e in
         let irreversible := s.(pt_started) || persistence_completed in
         if write_failure_is_reversible irreversible then
           discard_publication_transaction;;
           modify (fun s => s <| pt_service := restore_write_state snapshot s.(pt_service) |>);;
           mret (Ok (rejected_result command detail))
         else
           try_except (commit_in_flight_publications;;
                       mret (Ok (accepted_in_flight_result command detail irreversible)))
             (fun _ => true) (fun e => mret (Err e))
       else mret (Err e)
     end;
   discard_publication_transaction;;
   modify (fun s => s <| pt_started := false |>);;
   lift result).

End controller.
