(* ===== verification/ControlWriteSafety.v ===== *)
(** * What a control command does to the wallbox

    Properties of [ControlWrites.handle_control_command], for any behaviour of the world
    outside the port: what each answer to a command says of the attributes, the publications
    and the calls; when the relay may be switched on and when phases are changed. *)

From S2P Require Import Prelude PyFloat PyValue OrderedMap Contracts BackendModels Schedule AutoPolicy ControlSurface WritePort ControlWrites.

(** ** Kinds of calls *)

Definition answered (e : outside_call * res pyval) : bool := match snd e with Ok _ => true | Err _ => false end.

(** Calls that cannot be taken back. *)
Definition irreversible (c : outside_call) : bool :=
  match c with QueueRelayCommand _ _ | ChargerSetEnabled _ | ChargerSetCurrent _ => true | _ => false end.

(** Calls that belong to the end of the transaction. *)
Definition concluding (c : outside_call) : bool :=
  match c with PublishField _ _ _ _ | SaveRuntimeState | SaveRuntimeOverrides => true | _ => false end.

(** Something irreversible was done. *)
Definition irrevocable (l : list (outside_call * res pyval)) : bool := existsb (fun e => answered e && irreversible (fst e)) l.

(** ** Restoring a snapshot *)

Definition saved_attributes (w : write_state) : list (string * attribute) :=
  w.(ws_attrs) ++ w.(ws_values) ++ map (fun nl => (fst nl, ADeque (snd nl))) w.(ws_deques) ++
  map (fun nd => (fst nd, AValue (VDict (snd nd)))) w.(ws_mappings).

Lemma restore_is_restore_attrs w v : restore_write_state w v = restore_attrs (saved_attributes w) v.
Proof. unfold restore_write_state, restore_mappings, restore_deques, restore_attrs, saved_attributes. by rewrite !fold_left_app. Qed.

Lemma restore_attrs_lookup saved v name a :
  NoDup (map fst saved) -> (name, a) ∈ saved -> restore_attrs saved v !! name = Some a.
Proof.
  unfold restore_attrs, service in *. induction saved as [|[n b] saved IH] using rev_ind; [by intros _ ?%elem_of_nil|].
  rewrite map_app. intros (Hs & Hd & _)%NoDup_app. rewrite fold_left_app, elem_of_app. cbn [fold_left fst snd].
  intros [Hin|[= -> ->]%list_elem_of_singleton]; [|by rewrite lookup_insert_eq].
  rewrite lookup_insert_ne; [by apply IH|]. intros ->. apply (Hd name); [|left].
  apply list_elem_of_fmap. by exists (name, a).
Qed.

Lemma snapshot_attrs_keys v names : map fst (snapshot_attrs v names) `sublist_of` names.
Proof.
  induction names as [|n names IH]; [done|]. unfold snapshot_attrs in *. cbn.
  destruct (v !! n); cbn; [by apply sublist_skip | by apply sublist_cons].
Qed.

Lemma snapshot_attrs_elem v names n a : n ∈ names -> v !! n = Some a -> (n, a) ∈ snapshot_attrs v names.
Proof. intros Hn Ha. apply list_elem_of_omap. exists n. by rewrite Ha. Qed.

Lemma snapshot_mappings_keys v names : map fst (snapshot_mappings v names) `sublist_of` names.
Proof.
  transitivity (map fst (snapshot_attrs v names)); [|apply snapshot_attrs_keys].
  unfold snapshot_mappings. generalize (snapshot_attrs v names) as l.
  induction l as [|[n a] l IH]; [done|]. cbn. destruct a as [[]| |]; cbn; by constructor.
Qed.

Lemma snapshot_deques_keys v names l : snapshot_deques v names = Ok l -> map fst l = map fst (snapshot_attrs v names).
Proof.
  unfold snapshot_deques. generalize (snapshot_attrs v names) as saved. intros saved. revert l.
  induction saved as [|[n a] saved IH]; intros l; cbn [map_res]; [by intros [= <-]|].
  intros (x & Hx & (xs & Hxs & [= <-])%res_bind_ok)%res_bind_ok. apply res_bind_ok in Hx as (d & _ & [= <-]).
  cbn. f_equal. by apply IH.
Qed.

Definition snapshot_names : list string :=
  SNAPSHOT_ATTRS ++ SNAPSHOT_VALUE_ATTRS ++ SNAPSHOT_DEQUE_ATTRS ++ SNAPSHOT_MAPPING_ATTRS.

Lemma snapshot_names_distinct : NoDup snapshot_names.
Proof. apply (bool_decide_unpack _). vm_compute. exact I. Qed.

(** The attributes a snapshot brings back: plain ones, deques, and mappings that are dictionaries. *)
Definition captured (name : string) (a : attribute) : Prop :=
  name ∈ SNAPSHOT_ATTRS \/ name ∈ SNAPSHOT_VALUE_ATTRS \/ (name ∈ SNAPSHOT_DEQUE_ATTRS /\ exists l, a = ADeque l) \/
  (name ∈ SNAPSHOT_MAPPING_ATTRS /\ exists d, a = AValue (VDict d)).

Lemma capture_ok v w : capture_write_state v = Ok w ->
  w.(ws_attrs) = snapshot_attrs v SNAPSHOT_ATTRS /\ w.(ws_values) = snapshot_attrs v SNAPSHOT_VALUE_ATTRS /\
  snapshot_deques v SNAPSHOT_DEQUE_ATTRS = Ok w.(ws_deques) /\ w.(ws_mappings) = snapshot_mappings v SNAPSHOT_MAPPING_ATTRS.
Proof.
  intros (deques & Hd & Hw)%res_bind_ok. assert (forall (a b : write_state), Ok a = Ok b -> a = b) as Hinj by congruence.
  apply Hinj in Hw. by rewrite <- Hw.
Qed.

(** Restoring a snapshot undoes every change of a captured attribute. *)
Lemma restore_undoes v v' w name a :
  capture_write_state v = Ok w -> v !! name = Some a -> captured name a -> restore_write_state w v' !! name = Some a.
Proof.
  intros (E1 & E2 & Hd & E4)%capture_ok Ha Hc. rewrite restore_is_restore_attrs.
  apply restore_attrs_lookup; unfold saved_attributes; rewrite E1, E2, E4.
  - eapply sublist_NoDup; [apply snapshot_names_distinct|]. rewrite !map_app, !map_map.
    apply snapshot_deques_keys in Hd. cbn [fst].
    apply sublist_app; [apply snapshot_attrs_keys|]. apply sublist_app; [apply snapshot_attrs_keys|].
    apply sublist_app; [|apply snapshot_mappings_keys]. change (map (fun x => fst x) (ws_deques w)) with (map fst (ws_deques w)).
    rewrite Hd. apply snapshot_attrs_keys.
  - rewrite !elem_of_app. destruct Hc as [H|[H|[[H [l ->]]|[H [d ->]]]]].
    + left. by apply snapshot_attrs_elem.
    + right; left. by apply snapshot_attrs_elem.
    + right; right; left. unfold snapshot_deques, SNAPSHOT_DEQUE_ATTRS in *. apply list_elem_of_singleton in H as ->.
      unfold snapshot_attrs in Hd. cbn [omap list_omap] in Hd. rewrite Ha in Hd. cbn in Hd.
      unfold mret, res_ret in Hd. assert (ws_deques w = [("auto_samples", l)]) as -> by congruence. left.
    + right; right; right. apply list_elem_of_fmap. exists (name, d). split; [done|].
      apply list_elem_of_omap. exists (name, AValue (VDict d)). split; [|done]. by apply snapshot_attrs_elem.
Qed.

(** ** Inside the transaction *)

(** Calls of a run, and what it staged: nothing is published or saved, and the flag of the
    controller is set exactly when something irreversible was done. *)
Definition staged s s' : Prop := forall pending, s.(pt_pending) = Some pending -> exists l pending',
  s'.(pt_log) = s.(pt_log) ++ l /\ s'.(pt_pending) = Some (pending ++ pending') /\
  Forall (fun e => concluding (fst e) = false) l /\ s'.(pt_started) = s.(pt_started) || irrevocable l.

#[export] Instance staged_preorder : PreOrder staged.
Proof.
  split.
  - intros s pending Hp. exists [], []. rewrite !app_nil_r. split_and!; [done | done | by constructor | by rewrite orb_false_r].
  - intros a b c Hab Hbc pending Hp. destruct (Hab _ Hp) as (l1 & p1 & Hl1 & Hp1 & Hf1 & Hs1).
    destruct (Hbc _ Hp1) as (l2 & p2 & Hl2 & Hp2 & Hf2 & Hs2). exists (l1 ++ l2), (p1 ++ p2).
    rewrite Hl2, Hl1, Hp2, Hs2, Hs1, !app_assoc. split_and!; try done; [by apply Forall_app|].
    unfold irrevocable. by rewrite existsb_app, orb_assoc.
Qed.

Create HintDb staged.

Section runs.
Context {world : OutsideWorld}.

Lemma set_attr_staged name v : keeps staged (set_attr name v).
Proof. apply keeps_modify. intros s pending Hp. exists [], []. rewrite !app_nil_r. split_and!; [done | done | by constructor | by rewrite orb_false_r]. Qed.

Lemma set_auto_policy_staged p : keeps staged (set_auto_policy p).
Proof. apply keeps_modify. intros s pending Hp. exists [], []. rewrite !app_nil_r. split_and!; [done | done | by constructor | by rewrite orb_false_r]. Qed.

(** A call in the log. *)
Lemma outside_log c s : exists answer v, outside c s = (answer, mkPort v s.(pt_pending) s.(pt_started) (s.(pt_log) ++ [(c, answer)])).
Proof. unfold outside. destruct (respond _ c _) as [answer v]. by exists answer, v. Qed.

Lemma outside_staged c : concluding c = false -> irreversible c = false -> keeps staged (outside c).
Proof.
  intros Hc Hi s pending Hp. destruct (outside_log c s) as (answer & v & ->). exists [(c, answer)], []. rewrite app_nil_r.
  split_and!; [done | done | by repeat constructor|]. cbn. by rewrite Hi, andb_false_r, !orb_false_r.
Qed.

(** An irreversible call is followed at once by its mark. *)
Lemma marked_staged {B} c (k : pyval -> M WriteControllerPort B) : concluding c = false -> irreversible c = true ->
  (forall value s, staged (s <| pt_started := true |>) (snd (k value s))) -> keeps staged (outside c ≫= k).
Proof.
  intros Hc Hi Hk s. unfold mbind, M_bind. destruct (outside_log c s) as (answer & v & ->). destruct answer as [value|e]; cbn.
  - etrans; [|apply Hk]. intros pending Hp. exists [(c, Ok value)], []. rewrite app_nil_r.
    split_and!; [done | done | by repeat constructor|]. cbn. by rewrite Hi, orb_true_r.
  - intros pending Hp. exists [(c, Err e)], []. rewrite app_nil_r.
    split_and!; [done | done | by repeat constructor|]. cbn. by rewrite orb_false_r.
Qed.

Lemma queue_relay_staged on t : keeps staged (queue_relay on t).
Proof. apply marked_staged; [done | done|]. intros value s. reflexivity. Qed.

Lemma publish_field_staged field value t force : keeps staged (publish_field field value t force).
Proof.
  intros s pending Hp. unfold publish_field, mbind, M_bind, get. rewrite Hp. cbn. exists [], [mkPublication field value t force].
  rewrite app_nil_r. split_and!; [done | done | by constructor | by rewrite orb_false_r].
Qed.

Ltac staged_tac :=
  keeps_go ltac:(first [ apply outside_staged; reflexivity | apply set_attr_staged | apply set_auto_policy_staged
                       | apply publish_field_staged | apply queue_relay_staged | solve [auto with staged nocore] ]).

Lemma finite_service_float_staged name : keeps staged (finite_service_float name).
Proof. unfold finite_service_float, attr. staged_tac. Qed.
Lemma set_finite_service_float_staged name v : keeps staged (set_finite_service_float name v).
Proof. unfold set_finite_service_float. staged_tac. Qed.
Lemma service_binary_flag_staged name : keeps staged (service_binary_flag name).
Proof. unfold service_binary_flag. staged_tac. Qed.
Lemma set_service_binary_flag_staged name v : keeps staged (set_service_binary_flag name v).
Proof. unfold set_service_binary_flag. staged_tac. Qed.
Lemma set_optional_float_staged name v : keeps staged (set_optional_float name v).
Proof. unfold set_optional_float. staged_tac. Qed.
Lemma virtual_mode_staged : keeps staged virtual_mode.
Proof. unfold virtual_mode, attr. staged_tac. Qed.
Lemma set_virtual_mode_staged v : keeps staged (set_virtual_mode v).
Proof. unfold set_virtual_mode. staged_tac. Qed.
Lemma auto_policy_staged : keeps staged auto_policy.
Proof. unfold auto_policy. staged_tac. Qed.
Lemma time_now_staged : keeps staged time_now.
Proof. unfold time_now. staged_tac. Qed.
Lemma state_summary_staged : keeps staged state_summary.
Proof. unfold state_summary. staged_tac. Qed.

#[local] Hint Resolve finite_service_float_staged set_finite_service_float_staged service_binary_flag_staged
  set_service_binary_flag_staged set_optional_float_staged virtual_mode_staged set_virtual_mode_staged auto_policy_staged
  time_now_staged state_summary_staged : staged.

Lemma runtime_setting_property_staged name set get v :
  runtime_setting_property name = Some (set, get) -> keeps staged (set v) /\ keeps staged get.
Proof.
  unfold runtime_setting_property. destruct (str_in _ _); [intros [= <- <-]; split; staged_tac|].
  destruct (_ =? _)%string; [intros [= <- <-]; split|].
  { unfold set_auto_scheduled_enabled_days. staged_tac. }
  { unfold auto_scheduled_enabled_days, attr. staged_tac. }
  destruct (_ =? _)%string; [intros [= <- <-]; split | done].
  { unfold set_auto_scheduled_latest_end_time. staged_tac. }
  { unfold auto_scheduled_latest_end_time, attr. staged_tac. }
Qed.

Lemma supported_phase_selections_staged : keeps staged supported_phase_selections.
Proof. unfold supported_phase_selections, attr. staged_tac. Qed.
#[local] Hint Resolve supported_phase_selections_staged : staged.
Lemma first_supported_staged : keeps staged first_supported_phase_selection.
Proof. unfold first_supported_phase_selection. staged_tac. Qed.
#[local] Hint Resolve first_supported_staged : staged.
Lemma requested_phase_selection_staged : keeps staged requested_phase_selection.
Proof. unfold requested_phase_selection, attr. staged_tac. Qed.
#[local] Hint Resolve requested_phase_selection_staged : staged.
Lemma active_phase_selection_staged : keeps staged active_phase_selection.
Proof. unfold active_phase_selection, attr. staged_tac. Qed.
#[local] Hint Resolve active_phase_selection_staged : staged.

Lemma relay_may_be_on_staged : keeps staged relay_may_be_on_for_cutover.
Proof.
  unfold relay_may_be_on_for_cutover, get_worker_snapshot, fresh_confirmed_relay_output, relay_status_freshness_seconds,
    fresh_last_output, attr. staged_tac.
Qed.
Lemma publish_staged field v t : keeps staged (publish field v t).
Proof. unfold publish. staged_tac. Qed.
Lemma best_effort_staged on t : keeps staged (publish_local_pm_status_best_effort on t).
Proof. unfold publish_local_pm_status_best_effort, publish_local_pm_status. staged_tac. Qed.
#[local] Hint Resolve relay_may_be_on_staged publish_staged best_effort_staged : staged.

Lemma apply_manual_staged on t : keeps staged (apply_manual_enable_like_request on t).
Proof.
  unfold apply_manual_enable_like_request. cbv zeta. destruct charger_enable_available eqn:E.
  - unfold charger_set_enabled. rewrite E. apply marked_staged; [done | done|]. intros value s.
    unfold mark_external_side_effect_started. rewrite bind_modify.
    match goal with |- staged ?s' (snd (?m ?s')) => assert (keeps staged m) as H; [|exact (H s')] end.
    unfold virtual_startstop, set_virtual_startstop, set_virtual_enable, auto_manual_override_seconds, set_manual_override_until.
    staged_tac.
  - unfold virtual_startstop, set_virtual_startstop, set_virtual_enable, auto_manual_override_seconds, set_manual_override_until.
    staged_tac.
Qed.
Lemma apply_auto_disable_staged t : keeps staged (apply_auto_disable t).
Proof. unfold apply_auto_disable, set_virtual_enable, set_virtual_startstop. staged_tac. Qed.
Lemma publish_startstop_enable_staged t auto : keeps staged (publish_startstop_enable t auto).
Proof.
  unfold publish_startstop_enable, startstop_value_for_mode, auto_startstop_value, virtual_enable, virtual_startstop. staged_tac.
Qed.
Lemma log_auto_mode_staged : keeps staged log_auto_mode.
Proof. unfold log_auto_mode. staged_tac. Qed.
#[local] Hint Resolve apply_manual_staged apply_auto_disable_staged publish_startstop_enable_staged log_auto_mode_staged : staged.

Lemma publish_phase_selection_paths_staged t : keeps staged (publish_phase_selection_paths t).
Proof.
  unfold publish_phase_selection_paths, supported_phase_selection_text, port_supported_phase_selections. staged_tac.
Qed.
#[local] Hint Resolve publish_phase_selection_paths_staged : staged.

(** ** Every handler stays inside the transaction *)

Lemma handle_mode_staged v : keeps staged (handle_mode_value_write v).
Proof.
  unfold handle_mode_value_write, handle_mode_write, handle_mode_transition_to_auto, handle_mode_transition_to_manual,
    queue_auto_cutover, activate_auto_without_cutover, set_auto_mode_cutover_pending, set_ignore_min_offtime_once,
    set_virtual_enable, set_virtual_startstop, virtual_enable, virtual_startstop, set_manual_override_until,
    reset_auto_decision_state, set_auto_start_condition_since, set_auto_stop_condition_since, clear_auto_samples,
    snapshot_for_mode, get_worker_snapshot, update_worker_snapshot, publish_mode_paths. staged_tac.
Qed.
Lemma handle_autostart_staged v : keeps staged (handle_autostart_write v).
Proof. unfold handle_autostart_write, set_virtual_autostart, virtual_autostart. staged_tac. Qed.
Lemma handle_startstop_staged v : keeps staged (handle_startstop_value_write v).
Proof.
  unfold handle_startstop_value_write, bool_of_int, handle_startstop_write, set_virtual_enable, apply_manual_startstop_request.
  staged_tac.
Qed.
Lemma handle_enable_staged v : keeps staged (handle_enable_value_write v).
Proof.
  unfold handle_enable_value_write, bool_of_int, handle_enable_write, set_virtual_enable, apply_manual_enable_request. staged_tac.
Qed.
Lemma handle_current_staged target v : keeps staged (handle_current_setting_write target v).
Proof.
  unfold handle_current_setting_write, table_item, set_virtual_set_current, virtual_set_current, set_max_current, max_current,
    set_min_current, min_current.
  apply keeps_bind; [exact _ | staged_tac|]. intros t. apply keeps_bind; [exact _ | | intros x; staged_tac].
  destruct (_ =? _)%string; [|staged_tac]. apply keeps_bind; [exact _ | staged_tac|]. intros x.
  apply keeps_bind; [exact _ | | intros _; staged_tac]. destruct charger_current_available eqn:E; [|staged_tac].
  unfold charger_set_current. rewrite E. apply marked_staged; [done | done|]. by intros value s.
Qed.
Lemma handle_auto_runtime_staged target v : keeps staged (handle_auto_runtime_setting_write target v).
Proof.
  unfold handle_auto_runtime_setting_write, apply_auto_runtime_setting, table_item, validate_runtime_config.
  apply keeps_bind; [exact _ | staged_tac|]. intros t. apply keeps_bind; [exact _ | | intros x; staged_tac].
  destruct (table_get _ _) as [setting|]; [staged_tac|]. apply keeps_bind; [exact _ | staged_tac|]. intros [name n].
  apply keeps_bind; [exact _ | staged_tac|]. intros x. destruct (runtime_setting_property name) as [[set get]|] eqn:E; [|staged_tac].
  destruct (runtime_setting_property_staged _ _ _ x E). staged_tac; done.
Qed.
Lemma handle_phase_selection_staged v : keeps staged (handle_phase_selection_write v).
Proof.
  unfold handle_phase_selection_write, port_normalize_phase_selection, phase_selection_requires_pause, queue_phase_switch_state,
    apply_phase_selection, set_requested_phase_selection, set_active_phase_selection. staged_tac.
Qed.
Lemma handle_phase_lockout_reset_staged v : keeps staged (handle_phase_lockout_reset_write v).
Proof.
  unfold handle_phase_lockout_reset_write, bool_of_int, clear_phase_lockout_state, publish_phase_lockout_paths,
    supported_phase_selection_text, port_supported_phase_selections. staged_tac.
Qed.
Lemma handle_contactor_lockout_reset_staged v : keeps staged (handle_contactor_lockout_reset_write v).
Proof.
  unfold handle_contactor_lockout_reset_write, bool_of_int, clear_contactor_lockout_state, publish_contactor_lockout_paths.
  staged_tac.
Qed.
Lemma handle_software_update_staged v : keeps staged (handle_software_update_run_write v).
Proof. unfold handle_software_update_run_write, bool_of_int, set_software_update_run_requested_at. staged_tac. Qed.

Lemma handlers_staged : Forall (fun kh => forall target v, keeps staged (snd kh target v)) HANDLER_SPECS.
Proof.
  repeat (apply Forall_cons; split; [intros target v; cbn [snd]|]); [..|by apply Forall_nil].
  - apply handle_contactor_lockout_reset_staged.
  - apply handle_phase_lockout_reset_staged.
  - apply handle_auto_runtime_staged.
  - apply handle_autostart_staged.
  - apply handle_current_staged.
  - apply handle_enable_staged.
  - apply handle_mode_staged.
  - apply handle_phase_selection_staged.
  - apply handle_startstop_staged.
  - apply handle_software_update_staged.
Qed.

Lemma execute_staged command : keeps staged (execute command).
Proof.
  unfold execute, table_item. apply keeps_bind; [exact _ | staged_tac|]. intros name.
  apply keeps_bind; [exact _ | staged_tac|]. intros _. destruct (table_get name HANDLER_SPECS) as [h|] eqn:E.
  2: { intros s. reflexivity. }
  intros s. rewrite bind_ret. apply table_get_elem in E. pose proof handlers_staged as H. rewrite Forall_forall in H.
  apply (H _ E).
Qed.

(** ** The course of a command *)

Definition publication_call (p : pending_publication) : outside_call := PublishField p.(pb_field) p.(pb_value) p.(pb_time) p.(pb_force).

Definition refused (e : outside_call * res pyval) : bool := match snd e with Ok (VBool false) => true | _ => false end.

(** Publishing stops at the first refusal; otherwise everything staged leaves, in order. *)
Lemma publish_all_log p s : exists l,
  pt_log (snd (publish_all p s)) = pt_log s ++ l /\ pt_pending (snd (publish_all p s)) = pt_pending s /\
  pt_started (snd (publish_all p s)) = pt_started s /\ (forall e, e ∈ l -> exists q, q ∈ p /\ fst e = publication_call q) /\
  (fst (publish_all p s) = Ok tt -> map fst l = map publication_call p /\
     Forall (fun e => answered e = true /\ refused e = false) l).
Proof.
  revert s. induction p as [|q p IH]; intros s; cbn [publish_all].
  { exists []. rewrite app_nil_r. split_and!; try done. by intros e ?%elem_of_nil. }
  fold (publication_call q). unfold mbind, M_bind. destruct (outside_log (publication_call q) s) as (answer & v & ->).
  assert (forall e, (e = (publication_call q, answer)) -> exists q', q' ∈ q :: p /\ fst e = publication_call q') as Hq.
  { intros e ->. exists q. by split; [left|]. }
  destruct answer as [value|e].
  2: { exists [(publication_call q, Err e)]. split_and!; try done. intros x Hx%list_elem_of_singleton. by apply Hq. }
  assert (value = VBool false \/ refused (publication_call q, Ok value) = false) as [->|Hne]
    by (unfold refused; destruct value as [|[]| | | | | | |]; auto).
  { exists [(publication_call q, Ok (VBool false))]. split_and!; try done. intros x Hx%list_elem_of_singleton. by apply Hq. }
  set (s1 := mkPort _ _ _ _). destruct (IH s1) as (l & Hl & Hp & Hs & Hin & Hok).
  exists ((publication_call q, Ok value) :: l).
  assert ((match value with VBool false => raise RuntimeError | _ => publish_all p end) s1 = publish_all p s1) as ->
    by (destruct value as [|[]| | | | | | |]; done).
  split_and!; [by rewrite Hl; cbn; rewrite <- app_assoc | done | done | |].
  - intros e [->|He]%elem_of_cons; [by apply Hq|]. destruct (Hin e He) as (q' & H1 & H2). exists q'. by split; [right|].
  - intros H. destruct (Hok H) as [H1 H2]. cbn. split; [by rewrite H1|]. constructor; [|done].
    done.
Qed.

(** The events of a command: those of the handler, then those of its conclusion. *)
Inductive course (command : ControlCommand) s : bool -> res unit -> WriteControllerPort -> Prop :=
  | NotBegun : course command s false (Err RuntimeError) s
  | HandlerFailed l p e v :
      Forall (fun e => concluding (fst e) = false) l ->
      course command s false (Err e) (mkPort v (Some p) (irrevocable l) (pt_log s ++ l))
  | SavingFailed l p e v :
      Forall (fun e => concluding (fst e) = false) l ->
      course command s false (Err e) (mkPort v (Some p) (irrevocable l) (pt_log s ++ l ++ [(SaveRuntimeState, Err e)]))
  | OverridesFailed l p x e v :
      Forall (fun e => concluding (fst e) = false) l ->
      course command s true (Err e) (mkPort v (Some p) (irrevocable l)
        (pt_log s ++ l ++ [(SaveRuntimeState, Ok x); (SaveRuntimeOverrides, Err e)]))
  | PublishingFailed l p x y pubs e v :
      Forall (fun e => concluding (fst e) = false) l ->
      course command s true (Err e) (mkPort v (Some p) (irrevocable l)
        (pt_log s ++ l ++ [(SaveRuntimeState, Ok x); (SaveRuntimeOverrides, Ok y)] ++ pubs))
  | Completed l p x y pubs v s0 :
      Forall (fun e => concluding (fst e) = false) l ->
      execute command (s <| pt_pending := Some [] |>) = (Ok tt, s0) -> pt_pending s0 = Some p -> pt_log s0 = pt_log s ++ l ->
      map fst pubs = map publication_call p -> Forall (fun e => answered e = true /\ refused e = false) pubs ->
      course command s true (Ok tt) (mkPort v None (irrevocable l)
        (pt_log s ++ l ++ [(SaveRuntimeState, Ok x); (SaveRuntimeOverrides, Ok y)] ++ pubs)).

Lemma port_eta s : s = mkPort (pt_service s) (pt_pending s) (pt_started s) (pt_log s).
Proof. by destruct s. Qed.

Lemma command_body_course command s : pt_started s = false -> exists saved outcome s1,
  command_body command s = (Ok (saved, outcome), s1) /\ course command s saved outcome s1.
Proof.
  intros Hs. unfold command_body, begin_publication_transaction, save_runtime_state, save_runtime_overrides,
    commit_publication_transaction, discard_publication_transaction, get, modify, mbind, M_bind.
  destruct (pt_pending s) as [q|] eqn:Hq; [by eexists _, _, _; split; [|apply NotBegun]|].
  cbn [fst snd]. set (s' := s <| pt_pending := Some [] |>).
  destruct (execute_staged command s' [] eq_refl) as (l & p & Hl & Hp & Hf & Hst). cbn [app] in Hp.
  change (pt_log s') with (pt_log s) in Hl. change (pt_started s') with (pt_started s) in Hst. rewrite Hs in Hst. cbn [orb] in Hst.
  destruct (execute command s') as [[[]|e] s0] eqn:E; cbn [fst snd] in *.
  2: { eexists _, _, _. split; [done|]. rewrite (port_eta s0), Hl, Hp, Hst. by apply HandlerFailed. }
  destruct (outside_log SaveRuntimeState s0) as (answer & v & ->). rewrite Hl, Hp, Hst.
  destruct answer as [x|e]; cbn [fst snd].
  2: { eexists _, _, _. split; [done|]. rewrite <- app_assoc. by apply SavingFailed. }
  destruct (outside_log SaveRuntimeOverrides (mkPort v (Some p) (irrevocable l) ((pt_log s ++ l) ++ [(SaveRuntimeState, Ok x)])))
    as (answer & v' & ->). cbn [pt_pending pt_started pt_log]. rewrite <- !app_assoc. cbn [app].
  destruct answer as [y|e]; [|eexists _, _, _; split; [done|]; by apply OverridesFailed].
  cbn [pt_pending].
  set (s2 := mkPort v' _ _ _). destruct (publish_all_log p s2) as (pubs & Hlog & Hpend & Hstart & _ & Hok).
  destruct (publish_all p s2) as [outcome s3]. cbn [fst snd] in *. destruct outcome as [[]|e].
  - destruct (Hok eq_refl) as [H1 H2].
    eexists _, _, _. split; [done|]. rewrite (port_eta (upd _ _ s3)). cbn [pt_service pt_pending pt_started pt_log upd upd_with].
    cbn. rewrite Hlog, Hstart. cbn. rewrite <- !app_assoc. cbn [app]. by apply (Completed command s l p x y pubs _ s0).
  - eexists _, _, _. split; [done|]. rewrite (port_eta s3), Hlog, Hpend, Hstart. cbn. rewrite <- !app_assoc. cbn [app].
    by apply PublishingFailed.
Qed.

(** The end of every command: the transaction is closed. *)
Definition closed_port s : WriteControllerPort := (s <| pt_pending := None |>) <| pt_started := false |>.

Variable error_detail : list (outside_call * res pyval) -> exn -> string.

(** How the course of a command decides its answer. *)
Definition concluded (command : ControlCommand) (w : write_state) (saved : bool) (outcome : res unit) s1 (o : res ControlResult) s' : Prop :=
  match outcome with
  | Ok _ => o = Ok (applied_result command s1.(pt_started)) /\ s' = closed_port s1
  | Err e =>
    if negb (exn_in CONTROL_COMMAND_ERRORS e) then o = Err e /\ s' = closed_port s1
    else if negb (s1.(pt_started) || saved) then
      o = Ok (rejected_result command (error_detail s1.(pt_log) e)) /\
      s' = closed_port (s1 <| pt_service := restore_write_state w s1.(pt_service) |>)
    else
      s' = closed_port (snd (commit_publication_transaction s1)) /\
      (o = Ok (accepted_in_flight_result command (error_detail s1.(pt_log) e) true) \/ exists e', o = Err e')
  end.

Lemma handle_control_command_cases command s :
  let '(o, s') := handle_control_command error_detail command s in
  (exists e, o = Err e /\ s' = s) \/
  exists w saved outcome s1, capture_write_state s.(pt_service) = Ok w /\
    course command (s <| pt_started := false |>) saved outcome s1 /\ concluded command w saved outcome s1 o s'.
Proof.
  unfold handle_control_command, gets, lift, modify, get, discard_publication_transaction, mbind, M_bind.
  destruct (capture_write_state (pt_service s)) as [w|e]; [|left; by eexists].
  set (s0 := s <| pt_started := false |>).
  destruct (command_body_course command s0 eq_refl) as (saved & outcome & s1 & -> & Hc). cbv beta iota.
  destruct outcome as [[]|e].
  { unfold mret, M_ret. right. exists w, saved, (Ok tt), s1. by split_and!. }
  destruct (exn_in CONTROL_COMMAND_ERRORS e) eqn:Ee; cycle 1.
  { unfold mret, M_ret. right. exists w, saved, (Err e), s1. split_and!; [done | done|]. unfold concluded. by rewrite Ee. }
  unfold write_failure_is_reversible. destruct (negb (pt_started s1 || saved)) eqn:Er; unfold mret, M_ret; cbv beta iota zeta.
  { right. exists w, saved, (Err e), s1. split_and!; [done | done|]. unfold concluded. by rewrite Ee, Er. }
  unfold commit_in_flight_publications, try_except, mbind, M_bind.
  match goal with |- let '(_, _) := ?x in _ => destruct x as [o s'] eqn:Eo end. right. exists w, saved, (Err e), s1.
  split_and!; [done | done|]. unfold concluded. rewrite Ee, Er. cbn [negb].
  destruct (commit_publication_transaction s1) as [[[]|e'] s2]; cbv beta iota in Eo.
  - injection Eo as <- <-. split; [done|]. left. apply negb_false_iff in Er. by rewrite Er.
  - destruct (exn_in CONTROL_COMMAND_ERRORS e'); cbv beta iota in Eo; injection Eo as <- <-; (split; [done|]).
    + left. apply negb_false_iff in Er. by rewrite Er.
    + right. by exists e'.
Qed.

(** C15. A command answered as rejected is rolled back as far as the service can: every captured attribute of
    the service has the value it had before, no field was published, the state was not saved, and no call that queues
    a relay command, switches the charger or sets its current has returned. Two effects are outside this promise,
    because the code does not undo them: a phase selection that the hardware has already taken over, and the time of a
    queued software update, which is not a captured attribute. *)
Theorem rejected_commands_are_rolled_back command s s' result :
  handle_control_command error_detail command s = (Ok result, s') -> result.(cr_status) = "rejected" ->
  (forall name a, pt_service s !! name = Some a -> captured name a -> pt_service s' !! name = Some a) /\
  exists l, pt_log s' = pt_log s ++ l /\ forall call answer, (call, answer) ∈ l ->
    (forall field value t force, call <> PublishField field value t force) /\
    (is_ok answer -> call <> SaveRuntimeState /\ irreversible call = false).
Proof.
  intros E Hr. pose proof (handle_control_command_cases command s) as H. rewrite E in H.
  destruct H as [(e & [=] & _)|(w & saved & outcome & s1 & Hw & Hc & Ho)]. unfold concluded in Ho.
  destruct outcome as [[]|e]; [by destruct Ho as [[= ->] _]|]. destruct (negb (exn_in _ e)); [by destruct Ho|].
  destruct (negb (pt_started s1 || saved)) eqn:Er; [|by destruct Ho as [_ [[= ->]|[e' [=]]]]].
  destruct Ho as [_ ->]. apply negb_true_iff, orb_false_iff in Er as [Hst ->].
  split; [intros name a Ha Hcap; by apply (restore_undoes _ _ _ _ _ Hw Ha Hcap)|].
  assert (forall l, irrevocable l = false -> Forall (fun e => concluding (fst e) = false) l ->
    forall call answer, (call, answer) ∈ l -> (forall field value t force, call <> PublishField field value t force) /\
    (is_ok answer -> call <> SaveRuntimeState /\ irreversible call = false)) as Hquiet.
  { intros l Hi Hf call answer Hin. rewrite Forall_forall in Hf. specialize (Hf _ Hin). cbn in Hf. split; [by intros * ->|].
    intros [x ->]. split; [by intros ->|]. unfold irrevocable in Hi. apply not_true_iff_false in Hi.
    destruct (irreversible call) eqn:Ei; [|done]. destruct Hi. apply existsb_exists. exists (call, Ok x). split; [by apply list_elem_of_In|].
    cbn. by rewrite Ei. }
  inversion Hc; subst; cbn [pt_started pt_log closed_port upd upd_with] in *.
  - exists []. rewrite app_nil_r. split; [done|]. by intros * ?%elem_of_nil.
  - exists l. split; [done|]. by apply Hquiet.
  - exists (l ++ [(SaveRuntimeState, Err e)]). split; [done|]. intros call answer [Hin|[= -> ->]%list_elem_of_singleton]%elem_of_app.
    + by apply (Hquiet l).
    + split; [done|]. by intros [x [=]].
Qed.

(** C17. A command answered as applied has saved the state and the overrides and has then published,
    in order, exactly the fields its handler staged, none of which was refused; the answer says
    whether something irreversible was done. *)
Theorem applied_commands_are_saved_then_published command s s' result :
  handle_control_command error_detail command s = (Ok result, s') -> result.(cr_status) = "applied" ->
  exists staged_state staged_fields l saved overridden published,
    execute command (s <| pt_pending := Some [] |> <| pt_started := false |>) = (Ok tt, staged_state) /\
    pt_pending staged_state = Some staged_fields /\ pt_log staged_state = pt_log s ++ l /\
    pt_log s' = pt_log s ++ l ++ [(SaveRuntimeState, Ok saved); (SaveRuntimeOverrides, Ok overridden)] ++ published /\
    map fst published = map publication_call staged_fields /\
    Forall (fun e => answered e = true /\ refused e = false) published /\
    Forall (fun e => concluding (fst e) = false) l /\
    result.(cr_external_side_effect_started) = irrevocable l /\ pt_pending s' = None.
Proof.
  intros E Hr. pose proof (handle_control_command_cases command s) as H. rewrite E in H.
  destruct H as [(e & [=] & _)|(w & saved & outcome & s1 & Hw & Hc & Ho)]. unfold concluded in Ho.
  destruct outcome as [[]|e].
  2: { destruct (negb (exn_in _ e)); [by destruct Ho|].
       destruct (negb _); [by destruct Ho as [[= ->] _] | by destruct Ho as [_ [[= ->]|[e' [=]]]]]. }
  destruct Ho as [[= ->] ->]. inversion Hc; subst. exists s0, p, l, x, y, pubs. by split_and!.
Qed.

(** The state was saved, or something irreversible was done. *)
Definition durable (events : list (outside_call * res pyval)) : Prop :=
  irrevocable events = true \/ exists saved, (SaveRuntimeState, Ok saved) ∈ events.

Lemma durable_app l l' : durable l -> durable (l ++ l').
Proof.
  intros [H|[x H]]; [left; unfold irrevocable in *; by rewrite existsb_app, H | right; exists x; apply elem_of_app; by left].
Qed.

Definition publishes (c : outside_call) : bool := match c with PublishField _ _ _ _ => true | _ => false end.

Lemma published_after l0 l2 a call answer b :
  Forall (fun e => publishes (fst e) = false) l0 -> (l2 = [] \/ durable l0) -> publishes call = true ->
  l0 ++ l2 = a ++ (call, answer) :: b -> durable a.
Proof.
  intros Hf Hd Hc E. rewrite Forall_forall in Hf. assert ((call, answer) ∉ l0) as Hn.
  { intros H. apply Hf in H. cbn in H. congruence. }
  destruct Hd as [->|Hd].
  { rewrite app_nil_r in E. destruct Hn. rewrite E. apply elem_of_app. right. left. }
  apply app_eq_inv in E as [(k & -> & E)|(k & -> & _)]; [|by apply durable_app]. destruct k as [|x k]; [by rewrite app_nil_r in Hd|].
  injection E as <- _. destruct Hn. apply elem_of_app. right. left.
Qed.

(** Where the course of a command has left its first publication. *)
Lemma course_durable command s saved outcome s1 : course command s saved outcome s1 -> pt_started s = false ->
  exists l0 l2, pt_log s1 = pt_log s ++ l0 ++ l2 /\ Forall (fun e => publishes (fst e) = false) l0 /\
    (l2 = [] \/ durable l0) /\ (pt_started s1 || saved = true -> durable l0).
Proof.
  assert (forall l : list (outside_call * res pyval), Forall (fun e => concluding (fst e) = false) l ->
    Forall (fun e => publishes (fst e) = false) l) as Hq.
  { intros l H. apply (Forall_impl _ _ _ H). by intros [[] ?]. }
  assert (forall (l : list (outside_call * res pyval)) x y, durable (l ++ [(SaveRuntimeState, Ok x); y])) as Hs.
  { intros l x y. right. exists x. apply elem_of_app. right. left. }
  intros Hc Hst. inversion Hc; subst.
  - exists [], []. rewrite !app_nil_r. rewrite Hst. by split_and!; [|constructor|left|].
  - exists l, []. rewrite app_nil_r. cbn. rewrite orb_false_r. split_and!; [done | by apply Hq | by left | by left].
  - exists (l ++ [(SaveRuntimeState, Err e)]), []. rewrite app_nil_r. cbn. rewrite orb_false_r.
    split_and!; [done | | by left | intros; apply durable_app; by left]. apply Forall_app. split; [by apply Hq | by repeat constructor].
  - exists (l ++ [(SaveRuntimeState, Ok x); (SaveRuntimeOverrides, Err e)]), []. rewrite app_nil_r.
    split_and!; [done | | by left | intros; apply Hs]. apply Forall_app. split; [by apply Hq | by repeat constructor].
  - exists (l ++ [(SaveRuntimeState, Ok x); (SaveRuntimeOverrides, Ok y)]), pubs.
    split_and!; [by rewrite <- app_assoc | | right; apply Hs | intros; apply Hs].
    apply Forall_app. split; [by apply Hq | by repeat constructor].
  - exists (l ++ [(SaveRuntimeState, Ok x); (SaveRuntimeOverrides, Ok y)]), pubs.
    split_and!; [by rewrite <- app_assoc | | right; apply Hs | intros; apply Hs].
    apply Forall_app. split; [by apply Hq | by repeat constructor].
Qed.

Lemma commit_log s : exists l, pt_log (snd (commit_publication_transaction s)) = pt_log s ++ l.
Proof.
  unfold commit_publication_transaction, discard_publication_transaction, get, modify, mbind, M_bind.
  destruct (pt_pending s) as [p|]; [|exists []; by rewrite app_nil_r]. destruct (publish_all_log p s) as (l & H & _).
  exists l. by destruct (publish_all p s) as [[[]|e] s1].
Qed.

(** C16. Whatever becomes of a command, a field is only published once the state was saved or
    something irreversible was done, and the transaction is closed afterwards; an answer of a
    command in flight means that one of the two happened. *)
Theorem publication_waits_for_durability command s :
  pt_started s = false -> pt_pending s = None ->
  let '(o, s') := handle_control_command error_detail command s in
  pt_pending s' = None /\ pt_started s' = false /\
  exists l, pt_log s' = pt_log s ++ l /\
    (forall l1 field value t force answer l2, l = l1 ++ (PublishField field value t force, answer) :: l2 -> durable l1) /\
    (forall result, o = Ok result -> result.(cr_status) = "accepted_in_flight" -> durable l).
Proof.
  intros Hs Hp. pose proof (handle_control_command_cases command s) as H.
  destruct (handle_control_command error_detail command s) as [o s'].
  destruct H as [(e & -> & ->)|(w & saved & outcome & s1 & Hw & Hc & Ho)].
  { split_and!; [done | done|]. exists []. rewrite app_nil_r. split_and!; [done | by intros [] | done]. }
  destruct (course_durable _ _ _ _ _ Hc eq_refl) as (l0 & l2 & Hlog & Hf & Hd & Hst).
  change (pt_log (s <| pt_started := false |>)) with (pt_log s) in Hlog.
  assert (exists l3, pt_log s' = pt_log s ++ l0 ++ l2 ++ l3 /\ pt_pending s' = None /\ pt_started s' = false /\
    (l2 ++ l3 = [] \/ durable l0) /\
    (forall result, o = Ok result -> cr_status result = "accepted_in_flight" -> durable l0)) as (l3 & Hl & H1 & H2 & H3 & H4).
  { unfold concluded in Ho. destruct outcome as [[]|e]; [|destruct (negb (exn_in _ e)); [|destruct (negb _) eqn:Er]].
    - destruct Ho as [-> ->]. exists []. rewrite !app_nil_r. split_and!; try done. by intros result [= <-].
    - destruct Ho as [-> ->]. exists []. by rewrite !app_nil_r.
    - destruct Ho as [-> ->]. exists []. rewrite !app_nil_r. split_and!; try done. by intros result [= <-].
    - destruct Ho as [-> _]. destruct (commit_log s1) as [l3 H3]. exists l3. apply negb_false_iff in Er.
      split_and!; try done; [|right; by apply Hst | intros; by apply Hst].
      cbn. by rewrite H3, Hlog, <- !app_assoc. }
  split_and!; [done | done|]. exists (l0 ++ l2 ++ l3). split_and!; [done | |].
  - intros l1 field value t force answer l4 E. refine (published_after _ _ _ _ _ _ Hf H3 _ E). reflexivity.
  - intros result Ho' Hr. apply durable_app. by eapply H4.
Qed.

(** ** Calls a run avoids *)

(** No call of the run is a bad one. *)
Definition avoids (bad : outside_call -> bool) s s' : Prop :=
  exists l, pt_log s' = pt_log s ++ l /\ Forall (fun e => bad (fst e) = false) l.

#[export] Instance avoids_preorder bad : PreOrder (avoids bad).
Proof.
  split; [intros s; exists []; by rewrite app_nil_r|]. intros a b c (l1 & H1 & F1) (l2 & H2 & F2). exists (l1 ++ l2).
  rewrite H2, H1, app_assoc. by split; [|apply Forall_app].
Qed.

Lemma same_log_avoids bad s s' : pt_log s' = pt_log s -> avoids bad s s'.
Proof. intros H. exists []. by rewrite app_nil_r. Qed.

Lemma outside_avoids bad c : bad c = false -> keeps (avoids bad) (outside c).
Proof. intros Hc s. destruct (outside_log c s) as (answer & v & ->). exists [(c, answer)]. split; [done|]. by constructor. Qed.

Lemma set_attr_avoids bad name v : keeps (avoids bad) (set_attr name v).
Proof. intros s. by apply same_log_avoids. Qed.

Lemma publish_all_avoids bad p : (forall q, bad (publication_call q) = false) -> keeps (avoids bad) (publish_all p).
Proof.
  intros Hb s. destruct (publish_all_log p s) as (l & Hl & _ & _ & Hin & _). exists l. split; [done|].
  apply Forall_forall. intros e He. by destruct (Hin e He) as (q & _ & ->).
Qed.

Lemma avoids_bind bad {A B} (m : M WriteControllerPort A) (f : A -> M WriteControllerPort B) s :
  avoids bad s (snd (m s)) -> (forall a s1, m s = (Ok a, s1) -> avoids bad s1 (snd (f a s1))) -> avoids bad s (snd ((m ≫= f) s)).
Proof. unfold mbind, M_bind. destruct (m s) as [[a|e] s1]; [|done]. intros H Hf. etrans; [exact H|]. by apply Hf. Qed.

Ltac avoids_tac :=
  keeps_go ltac:(first [ apply outside_avoids; reflexivity | apply set_attr_avoids | apply publish_all_avoids; reflexivity ]);
  try (by apply same_log_avoids).

Lemma publish_avoids bad field v t : (forall q, bad (publication_call q) = false) -> keeps (avoids bad) (publish field v t).
Proof.
  intros Hb. unfold publish, publish_field. avoids_tac. apply outside_avoids. apply (Hb (mkPublication field v t true)).
Qed.

(** ** Switching on *)

Definition switches_on (c : outside_call) : bool :=
  match c with QueueRelayCommand on _ => on | ChargerSetEnabled on => on | _ => false end.

Lemma queue_relay_off_calm t : keeps (avoids switches_on) (queue_relay false t).
Proof. unfold queue_relay, queue_relay_command, mark_external_side_effect_started. avoids_tac. Qed.

Lemma startstop_enable_calm t auto : keeps (avoids switches_on) (publish_startstop_enable t auto).
Proof.
  unfold publish_startstop_enable, startstop_value_for_mode, auto_startstop_value, virtual_enable, virtual_startstop,
    service_binary_flag. avoids_tac; apply publish_avoids; reflexivity.
Qed.

Lemma auto_request_calm (wanted_on : bool) t :
  keeps (avoids switches_on) (if negb wanted_on then apply_auto_disable t else set_virtual_enable (VInt 1)).
Proof.
  unfold apply_auto_disable, set_virtual_enable, set_virtual_startstop, set_service_binary_flag,
    publish_local_pm_status_best_effort, publish_local_pm_status. avoids_tac; apply queue_relay_off_calm.
Qed.

Lemma log_auto_mode_calm : keeps (avoids switches_on) log_auto_mode.
Proof. unfold log_auto_mode, virtual_mode, attr, state_summary. avoids_tac. Qed.

(** The service is in a mode that uses the Auto logic. *)
Definition in_auto_mode (v : service) : Prop :=
  exists mode, non_negative_int (getattr "virtual_mode" (VInt 0) v) 0 = Ok mode /\ mode_uses_auto_logic (VInt mode) = Ok true.

(** Reading the clock changes nothing. *)
Context (clock_only_reads : forall log v, snd (respond log TimeNow v) = v).

Lemma time_now_service s : pt_service (snd (time_now s)) = pt_service s.
Proof.
  unfold time_now, outside, mbind, M_bind. pose proof (clock_only_reads (pt_log s) (pt_service s)) as H.
  by destruct (respond (pt_log s) TimeNow (pt_service s)) as [[x|e] v].
Qed.

Lemma virtual_mode_auto s mode :
  non_negative_int (getattr "virtual_mode" (VInt 0) (pt_service s)) 0 = Ok mode -> virtual_mode s = (Ok mode, s).
Proof. intros H. unfold virtual_mode, attr, gets, lift, mbind, M_bind. by rewrite H. Qed.

Lemma request_in_auto_calm (handle : float -> Z -> bool -> M WriteControllerPort unit) s :
  in_auto_mode (pt_service s) -> (forall t mode, keeps (avoids switches_on) (handle t mode true)) ->
  avoids switches_on s (snd ((t ← time_now; mode ← virtual_mode; auto_mode ← lift (mode_uses_auto_logic (VInt mode)); handle t mode auto_mode) s)).
Proof.
  intros (mode & Hm & Ha) Hh. pose proof (time_now_service s) as Hs. unfold mbind, M_bind.
  assert (avoids switches_on s (snd (time_now s))) as Ht by (revert s Hm Hs; assert (keeps (avoids switches_on) time_now) by (unfold time_now; avoids_tac); auto).
  destruct (time_now s) as [[t|e] s1]; [|exact Ht]. cbn [snd] in *. rewrite <- Hs in Hm. rewrite (virtual_mode_auto s1 mode Hm).
  unfold lift. rewrite Ha. etrans; [exact Ht|]. apply Hh.
Qed.

Lemma startstop_in_auto_calm wanted_on s : in_auto_mode (pt_service s) -> avoids switches_on s (snd (handle_startstop_write wanted_on s)).
Proof.
  intros H. apply (request_in_auto_calm (fun t _ auto => _) s H). intros t _. cbv beta iota.
  apply keeps_bind; [exact _ | | intros _; apply log_auto_mode_calm].
  apply keeps_bind; [exact _ | apply auto_request_calm | intros _; apply startstop_enable_calm].
Qed.

Lemma enable_in_auto_calm wanted_on s : in_auto_mode (pt_service s) -> avoids switches_on s (snd (handle_enable_write wanted_on s)).
Proof.
  intros H. apply (request_in_auto_calm (fun t _ auto => _) s H). intros t _. cbv beta iota.
  apply keeps_bind; [exact _ | apply auto_request_calm|]. intros _. apply keeps_bind; [exact _ | | intros _; apply log_auto_mode_calm].
  unfold virtual_mode, attr. avoids_tac. apply startstop_enable_calm.
Qed.
Lemma command_calm command s :
  (forall s0, pt_service s0 = pt_service s -> avoids switches_on s0 (snd (execute command s0))) ->
  avoids switches_on s (snd (handle_control_command error_detail command s)).
Proof.
  intros Hx.
  assert (forall s0, pt_service s0 = pt_service s -> avoids switches_on s0 (snd (command_body command s0))) as Hb.
  { intros s0 Hs0. unfold command_body, begin_publication_transaction, get, modify, mbind, M_bind.
    destruct (pt_pending s0) as [q|]; [done|]. set (s1 := s0 <| pt_pending := Some [] |>).
    assert (avoids switches_on s0 (snd (execute command s1))) as H1 by (etrans; [|by apply (Hx s1)]; by apply same_log_avoids).
    destruct (execute command s1) as [[[]|e] s2]; [|exact H1]. cbn [snd] in *.
    assert (keeps (avoids switches_on) save_runtime_state) as H2 by (unfold save_runtime_state; avoids_tac). specialize (H2 s2).
    destruct (save_runtime_state s2) as [[x|e] s3]; cbn [snd] in *; [|by etrans]. change (avoids switches_on s0 (snd
      (let '(outcome, s2) := (save_runtime_overrides;; commit_publication_transaction) s3 in (Ok (true, outcome), s2)))).
    assert (keeps (avoids switches_on) (save_runtime_overrides;; commit_publication_transaction)) as H3.
    { unfold save_runtime_overrides, commit_publication_transaction, discard_publication_transaction. avoids_tac. }
    specialize (H3 s3). destruct ((save_runtime_overrides;; commit_publication_transaction) s3) as [o s4]. cbn [snd] in *.
    etrans; [exact H1|]. by etrans. }
  unfold handle_control_command. apply avoids_bind; [done|]. intros v s1 [= <- <-].
  apply avoids_bind; [by apply same_log_avoids|]. intros w s1 H. injection H as _ <-.
  apply avoids_bind; [by apply same_log_avoids|]. intros [] s1 [= <-].
  apply avoids_bind; [by apply Hb|]. intros [saved outcome] s1 _. clear.
  match goal with |- avoids switches_on ?a (snd (?m ?a)) => assert (keeps (avoids switches_on) m) as H; [|exact (H a)] end.
  unfold commit_in_flight_publications, commit_publication_transaction, discard_publication_transaction. avoids_tac.
Qed.

(** C19. While the service is in a mode that uses the Auto logic, a start/stop or enable command never
    commands the relay or the charger to switch on: in Auto such a command only allows or forbids. *)
Theorem auto_requests_never_switch_on command s :
  in_auto_mode (pt_service s) -> command.(cc_name) ∈ ["set_start_stop"; "set_enable"] ->
  exists l, pt_log (snd (handle_control_command error_detail command s)) = pt_log s ++ l /\
    forall call answer, (call, answer) ∈ l ->
      call <> ChargerSetEnabled true /\ forall t, call <> QueueRelayCommand true t.
Proof.
  intros Ha Hn. assert (avoids switches_on s (snd (handle_control_command error_detail command s))) as (l & Hl & Hf).
  { apply command_calm. intros s0 Hs0. rewrite <- Hs0 in Ha. unfold execute.
    unfold lift at 1 2. unfold mbind at 1 2, M_bind at 1 2. destruct (res_of_checked (validated_command_name _)) as [name|e] eqn:En; [|done].
    destruct (res_of_checked (validate_command_target _ _ _ _)) as [[]|e]; [|done].
    assert (name = cc_name command) as -> by (revert En; unfold validated_command_name; destruct (str_in _ _); by intros [= ->]).
    assert (forall v (f : bool -> M WriteControllerPort unit), (forall b, avoids switches_on s0 (snd (f b s0))) ->
      avoids switches_on s0 (snd ((wanted ← bool_of_int v; f wanted) s0))) as Hb.
    { intros v f H. unfold bool_of_int, lift, mret, M_ret, mbind, M_bind. by destruct (py_int v). }
    apply elem_of_cons in Hn as [Hn|Hn%list_elem_of_singleton]; rewrite Hn.
    - change (avoids switches_on s0 (snd (handle_startstop_value_write (cc_value command) s0))). apply Hb. intros b. by apply startstop_in_auto_calm.
    - change (avoids switches_on s0 (snd (handle_enable_value_write (cc_value command) s0))). apply Hb. intros b. by apply enable_in_auto_calm. }
  exists l. split; [exact Hl|]. rewrite Forall_forall in Hf. intros call answer Hin. specialize (Hf _ Hin). cbn in Hf.
  split; [by intros ->|]. by intros t ->.
Qed.
(** ** Changing phases *)

(** A confirmed reading of the relay: from the worker's snapshot or the last confirmed status. *)
Definition confirmed_reading (snapshot : pyval) (v : service) (now : float) (status captured_at : pyval) : Prop :=
  (exists normalized, normalized_worker_snapshot snapshot (Some now) f1 false = Ok normalized /\
     py_bool (default VNone (od_get "pm_confirmed" normalized)) = true /\
     status = default VNone (od_get "pm_status" normalized) /\ captured_at = default VNone (od_get "pm_captured_at" normalized)) \/
  status = getattr "_last_confirmed_pm_status" VNone v /\ captured_at = getattr "_last_confirmed_pm_status_at" VNone v.

(** The readings are those of the worker snapshot, the pending relay command and the clock; no switch-on is pending, and
    the relay was confirmed off at most two seconds before. [v] are the attributes after the readings. *)
Definition known_off (readings : list (outside_call * res pyval)) (v : service) : Prop :=
  exists snapshot pending clock now status captured_at taken,
  readings = [(WorkerSnapshot, Ok snapshot); (PendingRelayCommand, Ok pending); (TimeNow, Ok clock)] /\
  pending_relay_state_on pending = false /\ py_float clock = Ok now /\
  confirmed_reading snapshot v now status captured_at /\
  relay_output_value status = Some false /\ relay_output_timestamp captured_at = Ok (Some taken) /\
  (f_of_Z (-1) <=? now - taken)%F = true /\ (now - taken <=? f_of_Z 2)%F = true.

Definition relay_known_off s s' : Prop := exists readings, pt_log s' = pt_log s ++ readings /\ known_off readings (pt_service s').

Lemma fresh_output_false confirmed status captured_at now age :
  (age <=? f_of_Z 2)%F = true -> fresh_output confirmed status captured_at now age = Ok (Some false) ->
  confirmed = true /\ relay_output_value status = Some false /\ exists taken,
    relay_output_timestamp captured_at = Ok (Some taken) /\
    (f_of_Z (-1) <=? now - taken)%F = true /\ (now - taken <=? f_of_Z 2)%F = true.
Proof.
  intros Hage. unfold fresh_output. destruct (negb (relay_output_payload_present _ _ _)) eqn:Ep; [done|].
  apply negb_false_iff in Ep. unfold relay_output_payload_present in Ep. apply andb_true_iff in Ep as [[Hc _]%andb_true_iff _].
  intros ([taken|] & Ht & H)%res_bind_ok; [|done]. destruct (relay_output_timestamp_fresh now taken age) eqn:Ef; [|done].
  assert (relay_output_value status = Some false) as Hv by (unfold mret, res_ret in H; congruence).
  unfold relay_output_timestamp_fresh in Ef. apply andb_true_iff in Ef as [H1 H2].
  split_and!; [done | done|]. exists taken. split_and!; [done | done|]. by eapply fle_trans.
Qed.

Lemma freshness_bounded s age s' : relay_status_freshness_seconds s = (Ok age, s') -> s' = s /\ (age <=? f_of_Z 2)%F = true.
Proof.
  unfold relay_status_freshness_seconds. intros (worker & s1 & H1 & (sync & s2 & H2 & H)%run_ok)%run_ok.
  assert (age = fmax f1 (fmin_list (f_of_Z 2) (worker ++ sync)) /\ s' = s2) as [-> ->] by (unfold mret, M_ret in H; split; congruence).
  assert (forall name scale (l : list float) s s1,
    (value ← attr name VNone; if is_none value then mret [] else
       (seconds ← lift (py_float value); mret (if (f0 <? seconds)%F then [scale seconds] else []))) s = (Ok l, s1) -> s1 = s) as Hs.
  { intros name scale l t t1. unfold attr, gets, lift, mbind, M_bind, mret, M_ret. destruct (is_none _); [by intros [= _ ->]|].
    destruct (py_float _); by intros [= _ ->]. }
  apply Hs in H1 as ->. apply Hs in H2 as ->. split; [done|].
  destruct (fmax_cases f1 (fmin_list (f_of_Z 2) (worker ++ sync))) as [->| ->]; [by vm_compute|].
  by apply fmin_list_le.
Qed.

(** The relay is taken for off only when it is known to be off. *)
Lemma relay_taken_for_off s s' : relay_may_be_on_for_cutover s = (Ok false, s') -> relay_known_off s s'.
Proof.
  unfold relay_may_be_on_for_cutover, get_worker_snapshot. intros (snapshot & s1 & E1 & H)%run_ok.
  apply run_ok in H as (pending & s2 & E2 & H). destruct (pending_relay_state_on pending) eqn:Ep; [done|].
  apply run_ok in H as (confirmed & s3 & E3 & [= Hc <-]). destruct confirmed as [[]|]; [done| |done]. clear Hc.
  unfold fresh_confirmed_relay_output in E3. apply run_ok in E3 as (now & s4 & E4 & H).
  apply run_ok in H as (age & s5 & [-> Hage]%freshness_bounded & H). apply run_ok in H as (output & s6 & [= Ho <-] & H).
  unfold time_now in E4. apply run_ok in E4 as (clock & s7 & E7 & [= Hclock <-]).
  destruct (outside_log WorkerSnapshot s) as (a1 & v1 & L1). rewrite L1 in E1. injection E1 as -> <-.
  match type of E2 with outside _ ?x = _ => destruct (outside_log PendingRelayCommand x) as (a2 & v2 & L2) end.
  rewrite L2 in E2. injection E2 as -> <-.
  match type of E7 with outside _ ?x = _ => destruct (outside_log TimeNow x) as (a3 & v3 & L3) end.
  rewrite L3 in E7. injection E7 as -> <-. clear L1 L2 L3. cbn [pt_log] in *.
  assert (exists status captured_at taken, confirmed_reading snapshot v3 now status captured_at /\
    relay_output_value status = Some false /\ relay_output_timestamp captured_at = Ok (Some taken) /\
    (f_of_Z (-1) <=? now - taken)%F = true /\ (now - taken <=? f_of_Z 2)%F = true)
    as (status & captured_at & taken & Hr & Hv & Ht & H1 & H2).
  { destruct output as [output|].
    - injection H as -> _. apply res_bind_ok in Ho as (normalized & En & Ho). cbv zeta in Ho.
      apply (fresh_output_false _ _ _ _ _ Hage) in Ho as (Hconf & Hv & taken & Ht & H1 & H2).
      eexists _, _, taken. split_and!; [|done..]. left. by exists normalized.
    - unfold fresh_last_output in H. apply run_ok in H as (status & s8 & [= Hs <-] & H).
      apply run_ok in H as (captured_at & s9 & [= Hat <-] & [= Hlast _]).
      apply (fresh_output_false _ _ _ _ _ Hage) in Hlast as (_ & Hv & taken & Ht & H1 & H2).
      exists status, captured_at, taken. split_and!; [|done..]. right. by split. }
  assert (s3 = mkPort v3 (pt_pending s) (pt_started s)
    (((pt_log s ++ [(WorkerSnapshot, Ok snapshot)]) ++ [(PendingRelayCommand, Ok pending)]) ++ [(TimeNow, Ok clock)])) as ->.
  { destruct output; [by injection H as _ <-|]. unfold fresh_last_output in H.
    apply run_ok in H as (? & ? & [= _ <-] & H). by apply run_ok in H as (? & ? & [= _ <-] & [= _ <-]). }
  eexists. split; [cbn [pt_log]; by rewrite <- !app_assoc|].
  exists snapshot, pending, clock, now, status, captured_at, taken. by split_and!.
Qed.

Definition applies_phases (c : outside_call) : bool := match c with ApplyPhaseSelection _ => true | _ => false end.

Lemma supported_applies_nothing : keeps (avoids applies_phases) supported_phase_selections.
Proof. unfold supported_phase_selections, attr, time_now. avoids_tac. Qed.

Lemma requested_applies_nothing : keeps (avoids applies_phases) requested_phase_selection.
Proof.
  unfold requested_phase_selection, first_supported_phase_selection, attr. avoids_tac; apply supported_applies_nothing.
Qed.

Lemma phase_paths_apply_nothing t : keeps (avoids applies_phases) (publish_phase_selection_paths t).
Proof.
  unfold publish_phase_selection_paths, supported_phase_selection_text, port_supported_phase_selections, active_phase_selection, attr.
  avoids_tac; first [apply requested_applies_nothing | apply supported_applies_nothing | by apply publish_avoids].
Qed.

Lemma may_be_on_applies_nothing : keeps (avoids applies_phases) relay_may_be_on_for_cutover.
Proof.
  unfold relay_may_be_on_for_cutover, get_worker_snapshot, fresh_confirmed_relay_output, relay_status_freshness_seconds,
    fresh_last_output, attr, time_now. avoids_tac.
Qed.

(** The part of the handler before the phases are commanded. *)
Lemma applies_nothing_not_in s s' selection answer : avoids applies_phases s s' ->
  (ApplyPhaseSelection selection, answer) ∈ pt_log s' -> (ApplyPhaseSelection selection, answer) ∈ pt_log s.
Proof. intros (l & -> & Hf) [H|H]%elem_of_app; [done|]. rewrite Forall_forall in Hf. by specialize (Hf _ H). Qed.

(** What the handler does after it commanded the phases. *)
Lemma after_apply_applies_nothing (applied : string) t :
  keeps (avoids applies_phases) (set_requested_phase_selection (VStr applied);; set_active_phase_selection (VStr applied);;
    publish_phase_selection_paths t;; state_summary;; mret tt).
Proof.
  unfold set_requested_phase_selection, set_active_phase_selection, first_supported_phase_selection, state_summary.
  avoids_tac; first [apply requested_applies_nothing | apply supported_applies_nothing | apply phase_paths_apply_nothing].
Qed.

(** A step that commands no phases is passed before they are commanded. *)
Lemma reaches {A B} (m : M WriteControllerPort A) (f : A -> M WriteControllerPort B) s selection answer :
  keeps (avoids applies_phases) m -> (ApplyPhaseSelection selection, answer) ∉ pt_log s ->
  (ApplyPhaseSelection selection, answer) ∈ pt_log (snd ((m ≫= f) s)) ->
  exists a s1, m s = (Ok a, s1) /\ (ApplyPhaseSelection selection, answer) ∉ pt_log s1 /\ (m ≫= f) s = f a s1.
Proof.
  intros Hm Hn Hin. specialize (Hm s). unfold mbind, M_bind in *. destruct (m s) as [[a|e] s1]; cbn [snd] in *.
  - exists a, s1. split_and!; [done | | done]. intros H. by apply Hn, (applies_nothing_not_in s s1).
  - destruct Hn. by apply (applies_nothing_not_in s s1).
Qed.

(** The command itself. *)
Lemma apply_is_logged {B} (k : string -> M WriteControllerPort B) selection wanted answer s :
  (forall applied, keeps (avoids applies_phases) (k applied)) ->
  (ApplyPhaseSelection selection, answer) ∉ pt_log s ->
  (ApplyPhaseSelection selection, answer) ∈ pt_log (snd ((apply_phase_selection wanted ≫= k) s)) ->
  selection = wanted /\ exists rest,
    pt_log (snd ((apply_phase_selection wanted ≫= k) s)) = pt_log s ++ (ApplyPhaseSelection selection, answer) :: rest.
Proof.
  intros Hk Hn. unfold apply_phase_selection, lift, mbind, M_bind.
  destruct (outside_log (ApplyPhaseSelection wanted) s) as (a & v & ->).
  set (s1 := mkPort v _ _ _). assert (forall s2, avoids applies_phases s1 s2 -> (ApplyPhaseSelection selection, answer) ∈ pt_log s2 ->
    selection = wanted /\ exists rest, pt_log s2 = pt_log s ++ (ApplyPhaseSelection selection, answer) :: rest) as Hs.
  { intros s2 (l & Hl & Hf) Hin. rewrite Hl in Hin |- *. cbn [pt_log s1] in *. rewrite <- app_assoc in *.
    apply elem_of_app in Hin as [Hin|[Hin|Hin]%elem_of_app]; [done | |].
    - apply list_elem_of_singleton in Hin as [= -> ->]. by split; [|eexists].
    - rewrite Forall_forall in Hf. by specialize (Hf _ Hin). }
  destruct a as [x|e]; [|by apply Hs]. destruct (require_str x) as [applied|e]; [|by apply Hs]. apply Hs, Hk.
Qed.

(** *** What the world answered *)

(** The calls [l], made after those of [log] with the attributes [v], got these answers and left the attributes [v']. *)
Inductive played : list (outside_call * res pyval) -> service -> list (outside_call * res pyval) -> service -> Prop :=
  | played_nil log v : played log v [] v
  | played_cons log v c a v1 l v' :
      respond log c v = (a, v1) -> played (log ++ [(c, a)]) v1 l v' -> played log v ((c, a) :: l) v'.

Lemma played_app log v l1 v1 l2 v2 : played log v l1 v1 -> played (log ++ l1) v1 l2 v2 -> played log v (l1 ++ l2) v2.
Proof.
  intros H. revert l2 v2. induction H as [log v | log v c a v1 l v' Hr _ IH]; intros l2 v2; [by rewrite app_nil_r|].
  intros H2. cbn [app]. eapply played_cons; [exact Hr|]. apply IH. by rewrite <- app_assoc.
Qed.

(** A part of a run that only calls the world: its calls and answers, and the attributes after it. *)
Definition replays s l s' : Prop := pt_log s' = pt_log s ++ l /\ played (pt_log s) (pt_service s) l (pt_service s').
Definition only_calls s s' : Prop := exists l, replays s l s'.

Lemma replays_app s1 l1 s2 l2 s3 : replays s1 l1 s2 -> replays s2 l2 s3 -> replays s1 (l1 ++ l2) s3.
Proof.
  intros [H1 P1] [H2 P2]. split; [by rewrite H2, H1, app_assoc|]. eapply played_app; [exact P1|]. by rewrite <- H1.
Qed.

#[export] Instance only_calls_preorder : PreOrder only_calls.
Proof.
  split; [intros s; exists []; split; [by rewrite app_nil_r | constructor]|].
  intros s1 s2 s3 [l1 H1] [l2 H2]. exists (l1 ++ l2). by eapply replays_app.
Qed.

Lemma outside_replays c s : replays s [(c, fst (outside c s))] (snd (outside c s)).
Proof.
  unfold outside, replays. destruct (respond (pt_log s) c (pt_service s)) as [a v] eqn:E. cbn.
  split; [done|]. eapply played_cons; [exact E | constructor].
Qed.

Lemma outside_only_calls c : keeps only_calls (outside c).
Proof. intros s. eexists. apply outside_replays. Qed.

Ltac calls_tac := keeps_go ltac:(first [ apply outside_only_calls | by intros ? ]); try reflexivity.

Lemma supported_only_calls : keeps only_calls supported_phase_selections.
Proof. unfold supported_phase_selections, attr, time_now. calls_tac. Qed.

Lemma normalize_only_calls value : keeps only_calls (port_normalize_phase_selection value).
Proof. unfold port_normalize_phase_selection, first_supported_phase_selection. calls_tac; apply supported_only_calls. Qed.

Lemma may_be_on_only_calls : keeps only_calls relay_may_be_on_for_cutover.
Proof.
  unfold relay_may_be_on_for_cutover, get_worker_snapshot, fresh_confirmed_relay_output, relay_status_freshness_seconds,
    fresh_last_output, attr, time_now. calls_tac.
Qed.

Lemma only_calls_run {A} (m : M WriteControllerPort A) r s s' : keeps only_calls m -> m s = (r, s') -> exists l, replays s l s'.
Proof. intros Hm E. specialize (Hm s). by rewrite E in Hm. Qed.

(** The selections the hardware supports: those configured, without one that is locked out. *)
Definition supported_from (v v' : service) (now : float) : res (list PhaseSelection) :=
  effective_supported_phase_selections
    (VTuple (map phase_val (normalize_phase_selection_tuple (getattr "supported_phase_selections" (VTuple [VStr "P1"]) v) [P1])))
    (getattr "_phase_switch_lockout_selection" VNone v') (getattr "_phase_switch_lockout_until" VNone v') now.

Lemma supported_run s s' supported : supported_phase_selections s = (Ok supported, s') ->
  exists clock now, replays s [(TimeNow, Ok clock)] s' /\ py_float clock = Ok now /\
    supported_from (pt_service s) (pt_service s') now = Ok supported.
Proof.
  unfold supported_phase_selections. intros (configured & s1 & [= <- <-] & H)%run_ok.
  apply run_ok in H as (now & s2 & Ht & H). unfold time_now in Ht. apply run_ok in Ht as (clock & s3 & Hc & Ht).
  unfold lift in Ht. injection Ht as Hnow <-.
  apply run_ok in H as (ls & s4 & [= <- <-] & H). apply run_ok in H as (lu & s5 & [= <- <-] & H).
  unfold lift in H. injection H as H <-. exists clock, now. pose proof (outside_replays TimeNow s) as Hr. rewrite Hc in Hr. by split_and!.
Qed.

Lemma requires_run s s' requires : phase_selection_requires_pause s = (Ok requires, s') ->
  exists answer, replays s [(PhaseSelectionRequiresPause, Ok answer)] s' /\ requires = py_bool answer.
Proof.
  unfold phase_selection_requires_pause, fmap, M_fmap. pose proof (outside_replays PhaseSelectionRequiresPause s) as Hr.
  destruct (outside PhaseSelectionRequiresPause s) as [[x|e] s1] eqn:E; [|done]. intros [= <- <-]. by exists x.
Qed.

Lemma pause_answered (requires : bool) s s' :
  (if requires then relay_may_be_on_for_cutover else mret false) s = (Ok false, s') ->
  exists readings, replays s readings s' /\
    (requires = false /\ readings = [] \/ requires = true /\ known_off readings (pt_service s')).
Proof.
  destruct requires; [|intros [= <-]; exists []; split; [split; [by rewrite app_nil_r | constructor] | by left]].
  intros E. destruct (only_calls_run _ _ _ _ may_be_on_only_calls E) as (l & Hl & Hp).
  apply relay_taken_for_off in E as (readings & Hr & Hoff). rewrite Hl in Hr. apply app_inv_head in Hr as ->.
  exists readings. split; [by split | by right].
Qed.

(** Why a phase selection may be commanded, in the order of the calls: the hardware supports it by the time of the
    last clock reading; then the hardware says whether it needs a pause, and if it does, the relay is known to be off. *)
Definition safe_selection s (selection : string) (calls : list (outside_call * res pyval)) (v : service) : Prop :=
  exists earlier clock pause readings v0 v1 now supported,
    calls = earlier ++ [(TimeNow, Ok clock); (PhaseSelectionRequiresPause, Ok pause)] ++ readings /\
    played (pt_log s) (pt_service s) earlier v0 /\
    played (pt_log s ++ earlier) v0 [(TimeNow, Ok clock)] v1 /\
    py_float clock = Ok now /\ supported_from v0 v1 now = Ok supported /\ selection ∈ map phase_text supported /\
    (py_bool pause = false /\ readings = [] \/ py_bool pause = true /\ known_off readings v).

Lemma safe_prefix s s1 s2 s3 s4 selection supported requires readings :
  only_calls s s1 -> supported_phase_selections s1 = (Ok supported, s2) -> selection ∈ map phase_text supported ->
  phase_selection_requires_pause s2 = (Ok requires, s3) -> replays s3 readings s4 ->
  (requires = false /\ readings = [] \/ requires = true /\ known_off readings (pt_service s4)) ->
  exists calls, replays s calls s4 /\ safe_selection s selection calls (pt_service s4).
Proof.
  intros [earlier He] (clock & now & Hc & Hnow & Hs)%supported_run Hin (pause & Hp & ->)%requires_run Hr Hcase.
  eexists. split; [eapply replays_app; [exact He | eapply replays_app; [exact Hc | eapply replays_app; [exact Hp | exact Hr]]]|].
  exists earlier, clock, pause, readings, (pt_service s1), (pt_service s2), now, supported.
  destruct He as [Hl He], Hc as [_ Hc]. rewrite Hl in Hc. by split_and!.
Qed.

(** C18. A phase selection is commanded only after the calls that make it safe. When a run of the handler commands
    one, the calls before it were all answered by the world, in this order: after some reads, the clock is read, and
    the selection is one the hardware supports at that time (configured and not locked out); then the switching hardware
    says whether it needs a pause; if it needs none, the command follows at once; else the worker snapshot, the pending
    relay command and the clock are read, no switch-on is pending, and the relay was confirmed off, by that snapshot
    or by the last confirmed status, at most two seconds before (and at most one second in the future). *)
Theorem phases_change_only_when_safe value s selection answer :
  (ApplyPhaseSelection selection, answer) ∉ pt_log s ->
  (ApplyPhaseSelection selection, answer) ∈ pt_log (snd (handle_phase_selection_write value s)) ->
  exists calls v rest,
    pt_log (snd (handle_phase_selection_write value s)) = pt_log s ++ calls ++ (ApplyPhaseSelection selection, answer) :: rest /\
    played (pt_log s) (pt_service s) calls v /\ safe_selection s selection calls v.
Proof.
  intros Hn Hin. unfold handle_phase_selection_write in *.
  apply reaches in Hin as Hr; [|unfold time_now; avoids_tac | done]. destruct Hr as (t & s' & Et & Hn' & E). rewrite E in *. clear E Hn.
  apply only_calls_run in Et as Ht; [|unfold time_now; calls_tac].
  apply reaches in Hin as Hr; [|unfold port_normalize_phase_selection, first_supported_phase_selection; avoids_tac;
    apply supported_applies_nothing | done]. destruct Hr as (requested & s1 & En & Hn & E). rewrite E in *. clear E Hn'.
  apply only_calls_run in En as Hnorm; [|apply normalize_only_calls].
  apply reaches in Hin as Hr; [|apply supported_applies_nothing | done]. destruct Hr as (supported & s2 & Es & Hn' & E). rewrite E in *. clear E Hn.
  destruct (bool_decide_reflect (requested ∈ supported)) as [Hsup|]; cbn [negb] in *.
  2: { destruct Hn'. eapply applies_nothing_not_in; [|exact Hin].
       match goal with |- avoids _ ?x (snd (?m ?x)) => assert (keeps (avoids applies_phases) m) as H; [|exact (H x)] end.
       avoids_tac. apply supported_applies_nothing. }
  apply reaches in Hin as Hr; [|unfold phase_selection_requires_pause; avoids_tac | done].
  destruct Hr as (requires & s3 & Ereq & Hn & E). rewrite E in *. clear E Hn'.
  apply reaches in Hin as Hr; [|avoids_tac; apply may_be_on_applies_nothing | done].
  destruct Hr as (must_pause & s4 & Emust & Hn' & E). rewrite E in *. clear E Hn. destruct must_pause.
  { destruct Hn'. eapply applies_nothing_not_in; [|exact Hin].
    match goal with |- avoids _ ?x (snd (?m ?x)) => assert (keeps (avoids applies_phases) m) as H; [|exact (H x)] end.
    unfold queue_phase_switch_state, queue_relay, queue_relay_command, mark_external_side_effect_started,
      publish_local_pm_status_best_effort, publish_local_pm_status, state_summary. avoids_tac. apply phase_paths_apply_nothing. }
  apply apply_is_logged in Hin as [-> [rest Hlog]]; [|intros applied; apply after_apply_applies_nothing | done].
  destruct (pause_answered requires s3 s4 Emust) as (readings & Hreplay & Hcase).
  destruct (safe_prefix s s1 s2 s3 s4 (phase_text requested) supported requires readings) as (calls & [Hcl Hpl] & Hsafe);
    [by etrans; [exact Ht|] | done | apply list_elem_of_fmap; by exists requested | done..|].
  exists calls, (pt_service s4), rest. split_and!; [by rewrite Hlog, Hcl, <- app_assoc | done | done].
Qed.
End runs.

(** ** From the payload to the handler *)

Section dispatch.
Context {world : OutsideWorld}.

(** The controller and the registry name the same targets. *)
Lemma controller_targets_registered :
  (forall t, t ∈ CURRENT_SETTING_TARGETS <-> t ∈ CONTROL_CURRENT_SETTING_TARGETS) /\
  (forall t, t ∈ AUTO_RUNTIME_SETTING_TARGETS <-> t ∈ CONTROL_AUTO_RUNTIME_TARGETS).
Proof.
  assert (forall l l' : list string, forallb (fun t => str_in t l') l = true -> forall t, t ∈ l -> t ∈ l') as Hin.
  { intros l l' H t Ht. apply str_in_spec. exact (forallb_elem _ _ _ H Ht). }
  split; intros t; split; apply Hin; vm_compute; reflexivity.
Qed.

(** What [_apply_auto_runtime_setting] looks up for a target. *)
Definition setting_resolves (target : string) : bool :=
  match table_get target AUTO_POLICY_SETTING_BY_TARGET, table_get target AUTO_RUNTIME_SETTING_SPECS with
  | Some _, _ => true
  | None, Some (name, _) =>
    str_in name ["auto_start_delay_seconds"; "auto_stop_delay_seconds"; "auto_scheduled_night_start_delay_seconds";
                 "auto_scheduled_night_current_amps"; "auto_dbus_backoff_base_seconds"; "auto_dbus_backoff_max_seconds";
                 "auto_scheduled_enabled_days"; "auto_scheduled_latest_end_time"]
  | None, None => false
  end && match table_get target AUTO_RUNTIME_SETTING_FIELDS with Some field => (field =? target)%string | None => false end.

Lemma settings_resolve : forallb setting_resolves AUTO_RUNTIME_SETTING_TARGETS = true.
Proof. vm_compute. reflexivity. Qed.

Lemma names_have_handlers name : name ∈ CONTROL_COMMAND_NAMES -> exists h, table_get name HANDLER_SPECS = Some h.
Proof.
  intros Hn. apply table_get_is_some. apply (forallb_elem (fun n => str_in n (map fst HANDLER_SPECS)) CONTROL_COMMAND_NAMES name); [|done].
  vm_compute. reflexivity.
Qed.

(** Whatever payload the API accepts, the write controller has a handler for the command and
    executes exactly that handler, and a target of a setting command is one the handler knows how
    to store and to publish. *)
Theorem accepted_payloads_are_dispatched p source command :
  command_from_payload CURRENT_SETTING_TARGETS AUTO_RUNTIME_SETTING_TARGETS p source = Valid command ->
  (exists handler, (command.(cc_name), handler) ∈ HANDLER_SPECS /\
     forall s, execute command s = handler command.(cc_target) command.(cc_value) s) /\
  (command.(cc_name) = "set_auto_runtime_setting" -> setting_resolves command.(cc_target) = true) /\
  (command.(cc_name) = "set_current_setting" -> table_get command.(cc_target) CURRENT_SETTING_FIELDS = Some command.(cc_target)).
Proof.
  intros H. unfold command_from_payload in H. destruct (od_get "name" p) as [name|] eqn:En; [|done].
  assert (payload_text p "name" = py_strip (py_str name)) as Hname by (unfold payload_text; by rewrite En).
  unfold command_from_named_payload in H. rewrite <- Hname in H. apply checked_bind_valid in H as ([] & _ & H).
  apply checked_bind_valid in H as (n & [<- Hin]%name_checks & H).
  apply checked_bind_valid in H as (t & [-> [_ Ht]]%resolved_target_checks & H); [|done].
  apply checked_bind_valid in H as ([] & _ & [= <-]). cbn [cc_name cc_target cc_value].
  destruct (names_have_handlers _ Hin) as [h Hh]. split; [|split].
  - exists h. split; [by apply table_get_elem|]. intros s. unfold execute, table_item, lift, mbind, M_bind. cbn [cc_name cc_target cc_value].
    rewrite (proj2 (name_checks _ _) (conj eq_refl Hin)). cbn [res_of_checked]. apply target_valid in Ht. rewrite Ht.
    cbn [res_of_checked]. by rewrite Hh.
  - intros E. rewrite E in Ht. apply (forallb_elem _ _ _ settings_resolve). by apply membership_checks in Ht.
  - intros E. rewrite E in Ht. apply membership_checks in Ht. unfold CURRENT_SETTING_TARGETS in Ht.
    rewrite !elem_of_cons, elem_of_nil in Ht. by destruct Ht as [->|[->|[->|[]]]].
Qed.
End dispatch.

(** ** A concrete wallbox *)

(** The relay was confirmed off a second ago; saving the state yields [saved]. *)
Definition sample_world (saved : res pyval) : OutsideWorld := {|
  charger_methods := [];
  respond log call v :=
    (match call with
     | TimeNow => Ok (VFloat (f_of_Z 100))
     | WorkerSnapshot => Ok (text_dict [("captured_at", VFloat (f_of_Z 99)); ("pm_captured_at", VFloat (f_of_Z 99));
         ("pm_confirmed", VBool true); ("pm_status", text_dict [("output", VBool false)])])
     | PendingRelayCommand => Ok (VTuple [VNone; VNone])
     | PhaseSelectionRequiresPause => Ok (VBool true)
     | StateSummary => Ok (VStr "summary")
     | ApplyPhaseSelection selection => Ok (VStr selection)
     | SaveRuntimeState => saved
     | _ => Ok VNone
     end, v) |}.

Definition sample_port : WriteControllerPort :=
  mkPort (<["virtual_mode" := AValue (VInt 1)]> (<["virtual_autostart" := AValue (VInt 1)]> ∅)) None false [].

Definition sample_command (name target : string) : ControlCommand := mkCommand name target (VInt 0) "http" "" "" "".

Definition sample_detail (log : list (outside_call * res pyval)) (e : exn) : string := "error".

Definition sample_run (saved : res pyval) (command : ControlCommand) : res ControlResult * WriteControllerPort :=
  handle_control_command (world := sample_world saved) sample_detail command sample_port.

(** Commanding phases is not marked as a side effect: when saving then fails, the command is
    answered as rejected and the attributes are restored, but the hardware has switched. *)
Lemma rejected_phase_selection_was_applied :
  let '(outcome, s') := sample_run (Err OSError) (mkCommand "set_phase_selection" "phase_selection" (VStr "P1") "http" "" "" "") in
  (exists result, outcome = Ok result /\ result.(cr_status) = "rejected") /\
  (ApplyPhaseSelection "P1", Ok (VStr "P1")) ∈ pt_log s'.
Proof. vm_compute. split; [by eexists|]. repeat first [left | right]. Qed.

(** The time of an update request is not part of a snapshot: a rejected request stays queued. *)
Lemma rejected_update_stays_requested :
  let '(outcome, s') := sample_run (Err OSError) (mkCommand "trigger_software_update" "auto_software_update_run" (VInt 1) "http" "" "" "") in
  (exists result, outcome = Ok result /\ result.(cr_status) = "rejected") /\
  pt_service s' !! "_software_update_run_requested_at" = Some (AValue (VFloat (f_of_Z 100))).
Proof. vm_compute. split; [by eexists | reflexivity]. Qed.

Lemma rejected_commands_are_rolled_back_witness :
  pt_service (snd (sample_run (Err OSError) (sample_command "set_auto_start" "auto_start"))) !! "virtual_autostart" =
    Some (AValue (VInt 1)).
Proof.
  refine (proj1 (rejected_commands_are_rolled_back (world := sample_world (Err OSError)) sample_detail
    (sample_command "set_auto_start" "auto_start") sample_port _
    (rejected_result (sample_command "set_auto_start" "auto_start") "error") _ _) _ _ _ _).
  - vm_compute. reflexivity.
  - reflexivity.
  - reflexivity.
  - left. apply str_in_spec. reflexivity.
Defined.

Lemma applied_commands_are_saved_then_published_witness :
  exists staged_fields published, map fst published = map publication_call staged_fields /\ staged_fields <> [] /\
    exists l, pt_log (snd (sample_run (Ok VNone) (sample_command "set_auto_start" "auto_start"))) = l ++ published.
Proof.
  destruct (applied_commands_are_saved_then_published (world := sample_world (Ok VNone)) sample_detail
    (sample_command "set_auto_start" "auto_start") sample_port
    (snd (sample_run (Ok VNone) (sample_command "set_auto_start" "auto_start")))
    (applied_result (sample_command "set_auto_start" "auto_start") false)
    ltac:(vm_compute; reflexivity) eq_refl) as (s0 & p & l & x & y & pubs & E & Hp & _ & Hl & Hm & _).
  exists p, pubs. split; [exact Hm|]. split.
  - intros ->. revert Hp. replace s0 with (snd (execute (world := sample_world (Ok VNone)) (sample_command "set_auto_start" "auto_start")
      (sample_port <| pt_pending := Some [] |> <| pt_started := false |>))) by (rewrite E; reflexivity).
    vm_compute. discriminate.
  - eexists. rewrite Hl, !app_assoc. reflexivity.
Defined.

Lemma publication_waits_for_durability_witness :
  pt_pending (snd (sample_run (Err OSError) (sample_command "set_enable" "enable"))) = None.
Proof.
  pose proof (publication_waits_for_durability (world := sample_world (Err OSError)) sample_detail
    (sample_command "set_enable" "enable") sample_port eq_refl eq_refl) as H.
  unfold sample_run. destruct (handle_control_command sample_detail (sample_command "set_enable" "enable") sample_port) as [o s'].
  exact (proj1 H).
Defined.

Lemma auto_requests_never_switch_on_witness :
  exists l, pt_log (snd (sample_run (Ok VNone) (sample_command "set_enable" "enable"))) = l /\
    forall call answer, (call, answer) ∈ l -> call <> ChargerSetEnabled true /\ forall t, call <> QueueRelayCommand true t.
Proof.
  refine (auto_requests_never_switch_on (world := sample_world (Ok VNone)) sample_detail _
    (sample_command "set_enable" "enable") sample_port _ _).
  - intros log v. reflexivity.
  - exists 1. split; vm_compute; reflexivity.
  - right. left.
Defined.

Lemma phases_change_only_when_safe_witness :
  exists calls v, safe_selection (world := sample_world (Ok VNone)) sample_port "P1" calls v /\
    map fst (take 8 (pt_log (snd (handle_phase_selection_write (world := sample_world (Ok VNone)) (VStr "P1") sample_port)))) =
      [TimeNow; TimeNow; TimeNow; PhaseSelectionRequiresPause; WorkerSnapshot; PendingRelayCommand; TimeNow;
       ApplyPhaseSelection "P1"].
Proof.
  destruct (phases_change_only_when_safe (world := sample_world (Ok VNone)) (VStr "P1") sample_port "P1" (Ok (VStr "P1")))
    as (calls & v & rest & _ & _ & Hs).
  - apply not_elem_of_nil.
  - vm_compute. repeat first [left | right].
  - exists calls, v. split; [exact Hs|]. vm_compute. reflexivity.
Defined.

Lemma accepted_payloads_are_dispatched_witness : setting_resolves "auto_min_soc" = true.
Proof.
  refine (proj1 (proj2 (accepted_payloads_are_dispatched (world := sample_world (Ok VNone)) sample_payload "http"
    (requested_command sample_payload "http") _)) _); vm_compute; reflexivity.
Defined.
