(* ===== verification/PyFormat.v ===== *)
(** * Decimal text and rounding of floats

    [round(x, digits)] and the [.2f] and [g] formats of an f-string: the exact value of the
    float is rounded in decimal, ties to even. *)

From S2P Require Import Prelude PyFloat PyValue.

(** [m * 2 ^ e * 10 ^ digits] as an integer, ties to even. *)
Definition decimal_scaled (m : positive) (e digits : Z) : Z :=
  let num := Z.pos m * 2 ^ Z.max e 0 * 10 ^ digits in
  let den := 2 ^ Z.max (- e) 0 in
  let q := num / den in
  let r := num mod den in
  if (2 * r <? den) || ((2 * r =? den) && Z.even q) then q else q + 1.

(** [round(x, digits)] *)
Definition py_round (digits : Z) (x : float) : float :=
  match x with
  | S754_finite neg m e => dec_float neg (decimal_scaled m e digits) (- digits)
  | _ => x
  end.

Definition sign_text (neg : bool) (body : string) : string := if neg then "-" ++ body else body.

(** A text of digits with the point before the last [digits] of them. *)
Definition point_text (digits : nat) (n : Z) : string :=
  let ds := pretty n in
  let padded := (zeros (S digits - String.length ds) ++ ds)%string in
  let whole := (String.length padded - digits)%nat in
  string_take whole padded ++ "." ++ string_drop whole padded.

(** An f-string field with the format [.<digits>f]. *)
Definition fmt_fixed (digits : nat) (x : float) : string :=
  match x with
  | S754_nan => "nan"
  | S754_infinity neg => sign_text neg "inf"
  | S754_zero neg => sign_text neg (point_text digits 0)
  | S754_finite neg m e => sign_text neg (point_text digits (decimal_scaled m e (Z.of_nat digits)))
  end.

(** Six significant digits, without the zeros at their end. *)
Definition general_text (m : positive) (e : Z) : string :=
  let d := repr_digits m e 6 in
  let k := repr_point m e + (if d =? 10 ^ 6 then 1 else 0) in
  let ds := trim_zeros (pretty d) in
  let len := Z.of_nat (String.length ds) in
  if (-4 <? k) && (k <=? 6) then
    if k <=? 0 then "0." ++ zeros (Z.to_nat (- k)) ++ ds
    else if len <=? k then ds ++ zeros (Z.to_nat (k - len))
    else string_take (Z.to_nat k) ds ++ "." ++ string_drop (Z.to_nat k) ds
  else
    let ex := k - 1 in
    string_take 1 ds ++ (if (1 <? len)%Z then "." ++ string_drop 1 ds else "") ++ "e" ++
    (if (ex <? 0)%Z then "-" else "+") ++ (if (Z.abs ex <? 10)%Z then "0" else "") ++ pretty (Z.abs ex).

(** An f-string field with the format [g]. *)
Definition fmt_general (x : float) : string :=
  match x with
  | S754_nan => "nan"
  | S754_infinity neg => sign_text neg "inf"
  | S754_zero neg => sign_text neg "0"
  | S754_finite neg m e => sign_text neg (general_text m e)
  end.
