(* ===== verification/EssSources.v ===== *)
(** * ESS balance: sources, activation and the PID controller

    [update/victron_ess_balance_apply_sources.py] and [update/victron_ess_balance_apply_pid.py]:
    which battery source the balance bias acts on, under which conditions, and the grid
    setpoint offset it asks for.

    The classes of the ESS balance keep no state of their own: they read and write attributes
    of the service, fill the metrics of the current cycle, and call the gateway and the runtime.
    [ess] is that state; a reader is a function of the attributes. *)

From S2P Require Import Prelude PyFloat PyValue OrderedMap.

(** ** State *)

Definition service : Type := gmap string pyval.

(** A call that leaves the component: a setpoint request with its outcome (accepted, refused or
    an exception), a throttled warning, a save of the runtime state. *)
Inductive ess_call :=
  | SetpointWrite (value : float) (intent : string) (outcome : res bool)
  | WarningThrottled (key : string) (interval_seconds : float)
  | RuntimeStateSaved.

(** The attributes of the service; the [source_id] of each object in [auto_energy_sources]; the
    metrics of the current cycle; the calls so far. *)
Record ess := mkEss {
  attrs : service; energy_sources : option (list pyval); metrics : odict string pyval; calls : list ess_call }.

#[export] Instance eta_ess : Eta ess := fun s => mkEss s.(attrs) s.(energy_sources) s.(metrics) s.(calls).

(** The answers of the world after the calls of a log. *)
Class EssWorld := {
  setpoint_receipt : list ess_call -> float -> string -> res bool;
  save_runtime_state : option (list ess_call -> res unit) }.

(** Names of configured attributes, runtime attributes and metrics. *)
Definition cfg (name : string) : string := "auto_battery_discharge_balance_victron_bias_" ++ name.
Definition rt (name : string) : string := "_victron_ess_balance_" ++ name.
Definition mt (name : string) : string := "battery_discharge_balance_victron_bias_" ++ name.

(** [getattr(svc, name, default)] *)
Definition getattr (name : string) (dflt : pyval) (v : service) : pyval := default dflt (v !! name).

(** [svc.name] *)
Definition attribute (name : string) (v : service) : res pyval :=
  match v !! name with Some a => Ok a | None => Err AttributeError end.

(** [float(getattr(svc, name, None) or dflt)] *)
Definition float_or (name : string) (dflt : float) (v : service) : res float :=
  let a := getattr name VNone v in if py_bool a then py_float a else Ok dflt.

(** [str(getattr(svc, name, None) or default)] *)
Definition text_or (name : string) (dflt : string) (v : service) : string := py_str_or (getattr name VNone v) dflt.

(** A reader of the attributes as a step; an attribute write; a metric write. *)
Definition reads {A} (f : service -> res A) : M ess A := fun s => (f s.(attrs), s).
Definition set_attr (name : string) (value : pyval) : M ess unit :=
  modify (fun s => s <| attrs := <[name := value]> s.(attrs) |>).
(** [for name, value in fields: setattr(svc, name, value)] *)
Definition set_attrs (fields : list (string * pyval)) : M ess unit :=
  modify (fun s => s <| attrs := fold_left (fun v na => <[fst na := snd na]> v) fields s.(attrs) |>).
Definition set_metric (name : string) (value : pyval) : M ess unit :=
  modify (fun s => s <| metrics := od_set (mt name) value s.(metrics) |>).
(** [metrics.update(fields)] *)
Definition update_metrics (fields : odict string pyval) : M ess unit :=
  modify (fun s => s <| metrics := fold_left (fun d kv => od_set (fst kv) (snd kv) d) fields s.(metrics) |>).
(** [metrics.get(key)] *)
Definition metric (name : string) (d : odict string pyval) : pyval := default VNone (od_get (mt name) d).

Definition flag (b : bool) : pyval := VInt (if b then 1 else 0).

(** ** Source selection
    update/victron_ess_balance_apply_sources.py *)
Module VictronEssSourceResolver.

(** update/victron_ess_balance_apply_sources.py: VictronEssSourceResolver._merge_victron_ess_balance_metrics *)
Definition merge_victron_ess_balance_metrics : M ess unit :=
  s ← get;
  match getattr "_last_auto_metrics" VNone s.(attrs) with
  | VDict d => set_attr "_last_auto_metrics" (VDict (fold_left (fun d kv => dict_set (fst kv) (snd kv) d) s.(metrics) d))
  | _ => set_attr "_last_auto_metrics" (text_dict s.(metrics))
  end.

(** update/victron_ess_balance_apply_sources.py: VictronEssSourceResolver._optional_float *)
Definition optional_float (value : pyval) : res (option float) :=
  match value with
  | VBool _ | VInt _ | VFloat _ => x ← py_float value; mret (Some x)
  | _ => Ok None
  end.

(** update/victron_ess_balance_apply_sources.py: VictronEssSourceResolver._normalized_mapping *)
Definition normalized_mapping (raw_value : pyval) : list (pyval * pyval) :=
  match raw_value with VDict d => d | _ => [] end.

(** update/victron_ess_balance_apply_sources.py: VictronEssSourceResolver._normalized_text *)
Definition normalized_text (value : pyval) : string := if py_bool value then py_strip (py_str value) else "".

(** update/victron_ess_balance_apply_sources.py: VictronEssSourceResolver._victron_ess_balance_cluster_sources *)
Definition victron_ess_balance_cluster_sources (cluster : list (pyval * pyval)) : res (list (list (pyval * pyval))) :=
  raw_sources ← py_iter (default (VList []) (dict_find "battery_sources" cluster));
  mret (omap (M := list) (fun value => match value with VDict d => Some d | _ => None end) raw_sources).

(** update/victron_ess_balance_apply_sources.py: VictronEssSourceResolver._victron_ess_balance_configured_source_id *)
Definition victron_ess_balance_configured_source_id (v : service) : string :=
  normalized_text (getattr (cfg "source_id") VNone v).

(** update/victron_ess_balance_apply_sources.py: VictronEssSourceResolver._victron_ess_balance_matching_source *)
Definition victron_ess_balance_matching_source (sources : list (list (pyval * pyval))) (configured_source_id : string)
    : option (list (pyval * pyval)) :=
  List.find (fun source => (normalized_text (dict_get "source_id" source) =? configured_source_id)%string) sources.

(** update/victron_ess_balance_apply_sources.py: VictronEssSourceResolver._victron_ess_balance_dbus_source_candidates *)
Definition victron_ess_balance_dbus_source_candidates (sources : list (list (pyval * pyval)))
    : list (list (pyval * pyval)) :=
  List.filter (fun source =>
    (py_lower (normalized_text (dict_get "discharge_balance_control_connector_type" source)) =? "dbus")%string) sources.

(** update/victron_ess_balance_apply_sources.py: VictronEssSourceResolver._victron_ess_balance_source *)
Definition victron_ess_balance_source (cluster : list (pyval * pyval)) (v : service)
    : res (option (list (pyval * pyval)) * string) :=
  sources ← victron_ess_balance_cluster_sources cluster;
  let configured_source_id := victron_ess_balance_configured_source_id v in
  mret (if negb (configured_source_id =? "")%string then
          match victron_ess_balance_matching_source sources configured_source_id with
          | Some source => (Some source, "configured-source")
          | None => (None, "victron-source-not-found")
          end
        else
          match victron_ess_balance_dbus_source_candidates sources with
          | [source] => (Some source, "auto-detected-dbus-source")
          | [] => (None, "victron-source-not-detected")
          | _ => (None, "victron-source-ambiguous")
          end).

(** update/victron_ess_balance_apply_sources.py: VictronEssSourceResolver._victron_ess_balance_support_mode *)
Definition victron_ess_balance_support_mode (v : service) : string :=
  let raw_mode := py_lower (normalized_text (getattr (cfg "support_mode") VNone v)) in
  if (raw_mode =? "supported_only")%string then "supported_only" else "allow_experimental".

(** update/victron_ess_balance_apply_sources.py: VictronEssSourceResolver._victron_ess_balance_source_support_allowed *)
Definition victron_ess_balance_source_support_allowed (source : list (pyval * pyval)) (v : service) : bool :=
  let support := py_lower (normalized_text (dict_get "discharge_balance_control_support" source)) in
  if (victron_ess_balance_support_mode v =? "supported_only")%string then str_in support ["supported"; ""]
  else str_in support ["supported"; "experimental"; ""].

(** update/victron_ess_balance_apply_sources.py: VictronEssSourceResolver._victron_ess_balance_activation_mode *)
Definition victron_ess_balance_activation_mode (v : service) : string :=
  let raw_mode := py_lower (normalized_text (getattr (cfg "activation_mode") VNone v)) in
  if str_in raw_mode ["export_only"; "above_reserve_band"; "export_and_above_reserve_band"] then raw_mode else "always".

(** update/victron_ess_balance_apply_sources.py: VictronEssSourceResolver._victron_ess_balance_activation_site_regime_matches *)
Definition victron_ess_balance_activation_site_regime_matches (mode site_regime : string) : bool :=
  if str_in mode ["export_only"; "export_and_above_reserve_band"] then (site_regime =? "export")%string else true.

(** update/victron_ess_balance_apply_sources.py: VictronEssSourceResolver._victron_ess_balance_activation_reserve_phase_matches *)
Definition victron_ess_balance_activation_reserve_phase_matches (mode reserve_phase : string) : bool :=
  if str_in mode ["above_reserve_band"; "export_and_above_reserve_band"]
  then (reserve_phase =? "above_reserve_band")%string else true.

(** The profile is given by its [site_regime] and its [reserve_phase].
    update/victron_ess_balance_apply_sources.py: VictronEssSourceResolver._victron_ess_balance_activation_allowed *)
Definition victron_ess_balance_activation_allowed (site_regime reserve_phase : string) (v : service) : bool :=
  let mode := victron_ess_balance_activation_mode v in
  if (mode =? "always")%string then true
  else
    victron_ess_balance_activation_site_regime_matches mode (normalized_text (VStr site_regime)) &&
    victron_ess_balance_activation_reserve_phase_matches mode (normalized_text (VStr reserve_phase)).

(** The first attribute of [names] that holds a number.
    update/victron_ess_balance_apply_sources.py: VictronEssSourceResolver._victron_ess_balance_direct_ev_power_w (lines 130-134) *)
Fixpoint first_number (names : list string) (v : service) : res (option float) :=
  match names with
  | [] => Ok None
  | name :: names' =>
    value ← optional_float (getattr name VNone v);
    match value with Some x => Ok (Some x) | None => first_number names' v end
  end.

(** update/victron_ess_balance_apply_sources.py: VictronEssSourceResolver._victron_ess_balance_direct_ev_power_w *)
Definition victron_ess_balance_direct_ev_power_w (v : service) : res (option float) :=
  first_number ["_last_charger_state_power_w"; "_charger_estimated_power_w"; "_last_power"; "ac_power"] v.

(** [int(getattr(svc, "virtual_startstop", None) or 0)] *)
Definition start_stop (v : service) : res Z :=
  let a := getattr "virtual_startstop" VNone v in if py_bool a then py_int a else Ok 0.

Definition is_number (value : pyval) : bool := match value with VBool _ | VInt _ | VFloat _ => true | _ => false end.

(** update/victron_ess_balance_apply_sources.py: VictronEssSourceResolver._victron_ess_balance_ev_power_w *)
Definition victron_ess_balance_ev_power_w (v : service) : res (option float) :=
  direct ← victron_ess_balance_direct_ev_power_w v;
  match direct with
  | Some x => Ok (Some x)
  | None =>
    let learned_charge_power := getattr "learned_charge_power_watts" VNone v in
    if is_number learned_charge_power then
      on ← start_stop v;
      if on =? 0 then Ok None else x ← py_float learned_charge_power; mret (Some x)
    else Ok None
  end.

(** update/victron_ess_balance_apply_sources.py: VictronEssSourceResolver._victron_ess_balance_ev_active *)
Definition victron_ess_balance_ev_active (v : service) : res bool :=
  ev_power_w ← victron_ess_balance_ev_power_w v;
  match ev_power_w with
  | Some x => if (x >=? f_of_Z 200)%F then Ok true else
      match getattr "charging_started_at" VNone v with VNone => on ← start_stop v; mret (negb (on =? 0)) | _ => Ok true end
  | None =>
      match getattr "charging_started_at" VNone v with VNone => on ← start_stop v; mret (negb (on =? 0)) | _ => Ok true end
  end.

End VictronEssSourceResolver.

(** ** The PID controller
    update/victron_ess_balance_apply_pid.py *)
Module VictronEssPidController.
Import VictronEssSourceResolver.

(** update/victron_ess_balance_apply_pid.py: VictronEssPidController.reset *)
Definition reset : M ess unit :=
  set_attr (rt "pid_last_error_w") (VFloat f0);;
  set_attr (rt "pid_last_at") VNone;;
  set_attr (rt "pid_integral_output_w") (VFloat f0);;
  set_attr (rt "pid_last_output_w") (VFloat f0).

(** update/victron_ess_balance_apply_pid.py: VictronEssPidController.reset_integral *)
Definition reset_integral (aggressive : bool) : M ess unit :=
  set_attr (rt "pid_integral_output_w") (VFloat f0);;
  when aggressive (set_attr (rt "pid_last_output_w") (VFloat f0)).

(** update/victron_ess_balance_apply_pid.py: VictronEssPidController._victron_ess_balance_pid_config *)
Record pid_config := mkPidConfig {
  kp : float; ki : float; kd : float;
  deadband_w : float; integral_limit_w : float; max_abs_w : float; ramp_rate_w_per_second : float }.

(** update/victron_ess_balance_apply_pid.py: VictronEssPidController._victron_ess_balance_pid_gain_config *)
Definition victron_ess_balance_pid_gain_config (v : service) : res (float * float * float) :=
  kp ← float_or (cfg "kp") f0 v;
  ki ← float_or (cfg "ki") f0 v;
  kd ← float_or (cfg "kd") f0 v;
  mret (kp, ki, kd).

(** update/victron_ess_balance_apply_pid.py: VictronEssPidController._victron_ess_balance_pid_limit_config *)
Definition victron_ess_balance_pid_limit_config (v : service) : res (float * float * float * float) :=
  deadband_w ← float_or (cfg "deadband_watts") f0 v;
  integral_limit_w ← float_or (cfg "integral_limit_watts") f0 v;
  max_abs_w ← float_or (cfg "max_abs_watts") f0 v;
  ramp_rate ← float_or (cfg "ramp_rate_watts_per_second") f0 v;
  mret (fmax f0 deadband_w, fmax f0 integral_limit_w, fmax f0 max_abs_w, fmax f0 ramp_rate).

(** update/victron_ess_balance_apply_pid.py: VictronEssPidController._victron_ess_balance_pid_config *)
Definition victron_ess_balance_pid_config (v : service) : res pid_config :=
  '(kp, ki, kd) ← victron_ess_balance_pid_gain_config v;
  '(deadband_w, integral_limit_w, max_abs_w, ramp_rate) ← victron_ess_balance_pid_limit_config v;
  mret (mkPidConfig kp ki kd deadband_w integral_limit_w max_abs_w ramp_rate).

(** update/victron_ess_balance_apply_pid.py: VictronEssPidController._victron_ess_balance_effective_error *)
Definition victron_ess_balance_effective_error (raw_error_w deadband_w : float) : float :=
  if (fabs raw_error_w <? deadband_w)%F then f0 else raw_error_w.

(** update/victron_ess_balance_apply_pid.py: VictronEssPidController._victron_ess_balance_pid_timing *)
Definition victron_ess_balance_pid_timing (now : float) (v : service) : res (float * float) :=
  last_at ← optional_float (getattr (rt "pid_last_at") VNone v);
  last_error_w ← float_or (rt "pid_last_error_w") f0 v;
  mret (match last_at with Some t => fmax f0 (now - t)%F | None => f0 end, last_error_w).

(** [max(-limit, min(x, limit))] *)
Definition clamp (limit x : float) : float := fmax (fopp limit) (fmin x limit).

(** update/victron_ess_balance_apply_pid.py: VictronEssPidController._victron_ess_balance_pid_integral_output *)
Definition victron_ess_balance_pid_integral_output
    (current_integral_output_w effective_error_w dt ki integral_limit_w : float) : float :=
  let integral_output_w := (current_integral_output_w + fmax f0 ki * effective_error_w * fmax f0 dt)%F in
  if (integral_limit_w >? f0)%F then clamp integral_limit_w integral_output_w else integral_output_w.

(** update/victron_ess_balance_apply_pid.py: VictronEssPidController._victron_ess_balance_pid_derivative_w *)
Definition victron_ess_balance_pid_derivative_w (effective_error_w last_error_w dt : float) : float :=
  if (dt <=? f0)%F then f0 else ((effective_error_w - last_error_w) / dt)%F.

(** update/victron_ess_balance_apply_pid.py: VictronEssPidController._victron_ess_balance_pid_target_output_w *)
Definition victron_ess_balance_pid_target_output_w (effective_error_w kp integral_output_w kd derivative_w : float) : float :=
  (kp * effective_error_w + integral_output_w + kd * derivative_w)%F.

(** update/victron_ess_balance_apply_pid.py: VictronEssPidController._victron_ess_balance_pid_clamped_output_w *)
Definition victron_ess_balance_pid_clamped_output_w (target_output_w max_abs_w : float) : float :=
  if (max_abs_w <=? f0)%F then target_output_w else clamp max_abs_w target_output_w.

(** update/victron_ess_balance_apply_pid.py: VictronEssPidController._victron_ess_balance_pid_ramped_output_w *)
Definition victron_ess_balance_pid_ramped_output_w (last_output_w target_output_w dt ramp_rate_w_per_second : float) : float :=
  if (ramp_rate_w_per_second <=? f0)%F || (dt <=? f0)%F then target_output_w
  else (last_output_w + clamp (ramp_rate_w_per_second * dt) (target_output_w - last_output_w))%F.

(** update/victron_ess_balance_apply_pid.py: VictronEssPidController._victron_ess_balance_pid_store_state *)
Definition victron_ess_balance_pid_store_state (effective_error_w now integral_output_w : float) : M ess unit :=
  set_attr (rt "pid_last_error_w") (VFloat effective_error_w);;
  set_attr (rt "pid_last_at") (VFloat now);;
  set_attr (rt "pid_integral_output_w") (VFloat integral_output_w).

(** The integral and the target of the controller, before the output clamp.
    update/victron_ess_balance_apply_pid.py: VictronEssPidController._victron_ess_balance_pid_output (lines 144-162) *)
Definition pid_terms (config : pid_config) (integral effective_error_w last_error_w dt : float) : float * float :=
  if (effective_error_w =? f0)%F then (f0, f0)
  else
    let integral_output_w :=
      victron_ess_balance_pid_integral_output integral effective_error_w dt config.(ki) config.(integral_limit_w) in
    let derivative_w := victron_ess_balance_pid_derivative_w effective_error_w last_error_w dt in
    (integral_output_w,
     victron_ess_balance_pid_target_output_w effective_error_w config.(kp) integral_output_w config.(kd) derivative_w).

(** update/victron_ess_balance_apply_pid.py: VictronEssPidController._victron_ess_balance_pid_output *)
Definition victron_ess_balance_pid_output (error_w now : float) : M ess float :=
  config ← reads victron_ess_balance_pid_config;
  let effective_error_w := victron_ess_balance_effective_error error_w config.(deadband_w) in
  '(dt, last_error_w) ← reads (victron_ess_balance_pid_timing now);
  integral ← reads (float_or (rt "pid_integral_output_w") f0);
  let '(integral_output_w, target) := pid_terms config integral effective_error_w last_error_w dt in
  let target_output_w := victron_ess_balance_pid_clamped_output_w target config.(max_abs_w) in
  last_output_w ← reads (float_or (rt "pid_last_output_w") f0);
  let output_w :=
    victron_ess_balance_pid_ramped_output_w last_output_w target_output_w dt config.(ramp_rate_w_per_second) in
  victron_ess_balance_pid_store_state effective_error_w now integral_output_w;;
  mret output_w.

End VictronEssPidController.

(** ** Setpoint writes
    update/victron_ess_balance_apply_write.py *)
Module VictronEssSetpointWriter.
Import VictronEssSourceResolver.

(** update/victron_ess_balance_apply_write.py: VICTRON_ESS_BALANCE_WRITE_ERRORS *)
Definition VICTRON_ESS_BALANCE_WRITE_ERRORS : list exn := [OSError; RuntimeError; TypeError; ValueError].

(** update/victron_ess_balance_apply_write.py: VictronEssSetpointWriter.last_setpoint *)
Definition last_setpoint (v : service) : res (option float) := optional_float (getattr (rt "last_setpoint_w") VNone v).

(** update/victron_ess_balance_apply_write.py: VictronEssSetpointWriter.should_write *)
Definition should_write (now setpoint_w : float) (v : service) : res bool :=
  configured ← float_or (cfg "min_update_seconds") f0 v;
  last_write_at ← optional_float (getattr (rt "last_write_at") VNone v);
  if match last_write_at with Some t => (now - t <? fmax f0 configured)%F | None => false end then Ok false
  else
    last_setpoint_w ← last_setpoint v;
    mret (match last_setpoint_w with Some x => (fabs (setpoint_w - x) >=? f1)%F | None => true end).

(** update/victron_ess_balance_apply_write.py: VictronEssSetpointWriter.warning_interval_seconds *)
Definition warning_interval_seconds (v : service) : res float :=
  match getattr (cfg "min_update_seconds") VNone v with
  | VNone => Ok (f_of_Z 5)
  | configured => x ← py_float configured; mret (fmax (f_of_Z 5) x)
  end.

Section writer.
Context {world : EssWorld}.

Definition log_call (call : ess_call) : M ess unit := modify (fun s => s <| calls := s.(calls) ++ [call] |>).

(** Asks the gateway; a refused receipt is a [RuntimeError].  The answer is the error, if any.
    update/victron_ess_balance_apply_write.py: VictronEssSetpointWriter._write_error *)
Definition write_error (value : float) (intent : string) : M ess (option exn) :=
  s ← get;
  let outcome := setpoint_receipt s.(calls) value intent in
  log_call (SetpointWrite value intent outcome);;
  match outcome with
  | Ok true => mret None
  | Ok false => mret (Some RuntimeError)
  | Err e => if exn_in VICTRON_ESS_BALANCE_WRITE_ERRORS e then mret (Some e) else raise e
  end.

(** update/victron_ess_balance_apply_write.py: VictronEssSetpointWriter.write_setpoint *)
Definition write_setpoint (value : float) (intent : string) : M ess bool :=
  error ← write_error value intent;
  match error with
  | None => mret true
  | Some _ =>
    interval ← reads warning_interval_seconds;
    log_call (WarningThrottled "victron-ess-balance-write-failed" interval);;
    mret false
  end.

End writer.
End VictronEssSetpointWriter.
