(* ===== verification/EssConfig.v ===== *)
(** * ESS balance: configuration and initial state

    [bootstrap/config_auto_timing_victron_bias*.py] read the settings of the bias from the
    configuration file, and [runtime/setup_support.py] sets its runtime attributes.  The section of
    the file is a function from a key to the text it holds. *)

From S2P Require Import Prelude PyFloat PyValue OrderedMap EssSources.

(** How a setting is converted, with the text that stands for a missing one. *)
Inductive conversion := ToBool (dflt : string) | ToText (dflt : string) | ToLower (dflt : string) | ToFloat (dflt : string) | ToInt (dflt : string).

Section config.
(** The section of the configuration file. *)
Variable defaults : string -> option string.

(** bootstrap/config_shared.py: _config_value *)
Definition config_value (key fallback : string) : string := default fallback (defaults key).

Definition converted (key : string) (how : conversion) : res pyval :=
  match how with
  | ToBool dflt => Ok (VBool (str_in (py_lower (py_strip (config_value key dflt))) ["1"; "true"; "yes"; "on"]))
  | ToText dflt => Ok (VStr (py_strip (config_value key dflt)))
  | ToLower dflt => Ok (VStr (py_lower (py_strip (config_value key dflt))))
  | ToFloat dflt => x ← float_of_text (config_value key dflt); mret (VFloat x)
  | ToInt dflt => n ← int_of_text (config_value key dflt); mret (VInt n)
  end.

(** [svc.name = convert(_config_value(defaults, key, fallback))] for each setting in turn. *)
Fixpoint load_settings (settings : list (string * string * conversion)) : M ess unit :=
  match settings with
  | [] => mret tt
  | (name, key, how) :: settings' =>
    value ← lift (converted ("AutoBatteryDischargeBalanceVictronBias" ++ key)%string how);
    set_attr (cfg name) value;;
    load_settings settings'
  end.

(** bootstrap/config_auto_timing_victron_bias_base.py: load_victron_bias_base_config *)
Definition load_victron_bias_base_config : M ess unit := load_settings
  [("enabled", "Enabled", ToBool "0"); ("source_id", "SourceId", ToText "");
   ("base_setpoint_watts", "BaseSetpointWatts", ToFloat "50.0"); ("deadband_watts", "DeadbandWatts", ToFloat "100.0");
   ("activation_mode", "ActivationMode", ToLower "always"); ("support_mode", "SupportMode", ToLower "allow_experimental")].

(** bootstrap/config_auto_timing_victron_bias_pid.py: load_victron_bias_pid_config *)
Definition load_victron_bias_pid_config : M ess unit := load_settings
  [("kp", "Kp", ToFloat "0.2"); ("ki", "Ki", ToFloat "0.02"); ("kd", "Kd", ToFloat "0.0");
   ("integral_limit_watts", "IntegralLimitWatts", ToFloat "250.0"); ("max_abs_watts", "MaxAbsWatts", ToFloat "500.0");
   ("ramp_rate_watts_per_second", "RampRateWattsPerSecond", ToFloat "50.0");
   ("min_update_seconds", "MinUpdateSeconds", ToFloat "2.0")].

(** bootstrap/config_auto_timing_victron_bias_apply.py: load_victron_bias_auto_apply_config *)
Definition load_victron_bias_auto_apply_config : M ess unit := load_settings
  [("auto_apply_enabled", "AutoApplyEnabled", ToBool "0"); ("auto_apply_min_confidence", "AutoApplyMinConfidence", ToFloat "0.85");
   ("auto_apply_min_profile_samples", "AutoApplyMinProfileSamples", ToInt "3");
   ("auto_apply_min_stability_score", "AutoApplyMinStabilityScore", ToFloat "0.75");
   ("auto_apply_blend", "AutoApplyBlend", ToFloat "0.25");
   ("observation_window_seconds", "ObservationWindowSeconds", ToFloat "30.0")].

(** bootstrap/config_auto_timing_victron_bias_safety.py: load_victron_bias_safety_config *)
Definition load_victron_bias_safety_config : M ess unit := load_settings
  [("oscillation_lockout_enabled", "OscillationLockoutEnabled", ToBool "1");
   ("oscillation_lockout_window_seconds", "OscillationLockoutWindowSeconds", ToFloat "120.0");
   ("oscillation_lockout_min_direction_changes", "OscillationLockoutMinDirectionChanges", ToInt "3");
   ("oscillation_lockout_duration_seconds", "OscillationLockoutDurationSeconds", ToFloat "180.0");
   ("rollback_enabled", "RollbackEnabled", ToBool "1");
   ("rollback_min_stability_score", "RollbackMinStabilityScore", ToFloat "0.45");
   ("require_clean_phases", "TelemetryRequireCleanPhases", ToBool "1")].

(** bootstrap/config_auto_timing_victron_bias.py: load_victron_bias_policy *)
Definition load_victron_bias_policy : M ess unit :=
  load_victron_bias_base_config;; load_victron_bias_pid_config;; load_victron_bias_auto_apply_config;;
  load_victron_bias_safety_config.

End config.

(** runtime/setup_support.py: initialize_victron_balance_runtime_state *)
Definition initialize_victron_balance_runtime_state : M ess unit :=
  let zero name := (rt name, VFloat f0) in
  let none name := (rt name, VNone) in
  let text name := (rt name, VStr "") in
  let no name := (rt name, VBool false) in
  let count name := (rt name, VInt 0) in
  let empty name := (rt name, VDict []) in
  set_attrs
    [zero "pid_last_error_w"; none "pid_last_at"; zero "pid_integral_output_w"; zero "pid_last_output_w";
     none "last_write_at"; none "last_setpoint_w"; text "active_learning_profile_key";
     text "active_learning_profile_action_direction"; text "active_learning_profile_site_regime";
     text "active_learning_profile_direction"; text "active_learning_profile_day_phase";
     text "active_learning_profile_reserve_phase"; text "active_learning_profile_ev_phase";
     text "active_learning_profile_pv_phase"; text "active_learning_profile_battery_limit_phase";
     empty "learning_profiles"; count "auto_apply_generation"; none "auto_apply_observe_until";
     text "auto_apply_last_applied_param"; none "auto_apply_last_applied_at"; (rt "recent_action_changes", VList []);
     text "last_action_direction"; none "oscillation_lockout_until"; text "oscillation_lockout_reason";
     empty "last_stable_tuning"; none "last_stable_at"; text "last_stable_profile_key"; empty "conservative_tuning";
     none "auto_apply_suspend_until"; text "auto_apply_suspend_reason"; no "safe_state_active"; text "safe_state_reason";
     none "telemetry_last_command_at"; none "telemetry_last_command_setpoint_w"; none "telemetry_last_command_error_w";
     text "telemetry_last_command_profile_key"; no "telemetry_command_response_recorded";
     no "telemetry_command_overshoot_recorded"; no "telemetry_command_settled_recorded";
     none "telemetry_response_delay_seconds"; count "telemetry_delay_samples"; none "telemetry_estimated_gain";
     count "telemetry_gain_samples"; none "telemetry_last_observed_error_w"; none "telemetry_last_observed_at";
     no "telemetry_overshoot_active"; count "telemetry_overshoot_count"; none "overshoot_cooldown_until";
     text "overshoot_cooldown_reason"; no "telemetry_settling_active"; count "telemetry_settled_count";
     none "telemetry_stability_score"; none "telemetry_last_grid_interaction_w"; none "telemetry_last_ac_power_w";
     none "telemetry_last_ev_power_w"].

(** A service that read [section] and set up its runtime attributes; its source objects have the ids [ids]. *)
Definition started (section : list (string * string)) (ids : list pyval) : ess :=
  snd ((load_victron_bias_policy (fun key => table_get key section);; initialize_victron_balance_runtime_state)
         (mkEss ∅ (Some ids) [] [])).
