(* ===== verification/EssProfiles.v ===== *)
(** * ESS balance: learning profiles

    [update/victron_ess_balance_scoring.py], [update/victron_ess_balance_learning_profiles.py]
    with its support module, and the topology key of [core/ess_topology.py]: what the balance
    learns about the response of the site, separately for every operating situation.

    The profiles are a dictionary of dictionaries in one attribute of the service, keyed by the
    text that names the situation; an operation on a profile changes it in place. *)

From S2P Require Import Prelude PyFloat PyValue OrderedMap EssSources.
Import VictronEssSourceResolver.

(** A profile, and the dictionary of all of them. *)
Definition dict : Type := list (pyval * pyval).

(** [d[key]] *)
Definition dict_item (key : string) (d : dict) : res pyval :=
  match dict_find key d with Some v => Ok v | None => Err KeyError end.

(** ** The situation of a profile *)

(** The texts of a profile that name its situation; its ["direction"] is its ["site_regime"].
    update/victron_ess_balance_learning_profiles.py: VictronEssLearningProfiles._victron_ess_balance_learning_profile (lines 224-234) *)
Record learning_profile := mkLearningProfile {
  lp_key : string; action_direction : string; site_regime : string; day_phase : string; reserve_phase : string;
  ev_phase : string; pv_phase : string; battery_limit_phase : string }.

#[export] Instance learning_profile_eq_dec : EqDecision learning_profile.
Proof. solve_decision. Defined.

(** update/victron_ess_balance_learning_profiles.py: VictronEssLearningProfiles._victron_ess_balance_profile_scalar_fields *)
Definition victron_ess_balance_profile_scalar_fields : list string :=
  ["key"; "action_direction"; "site_regime"; "direction"; "day_phase"; "reserve_phase"; "ev_phase"; "pv_phase";
   "battery_limit_phase"].

(** The fields of the situation in the order of [victron_ess_balance_profile_scalar_fields]. *)
Definition profile_texts (p : learning_profile) : list (string * string) :=
  [("key", p.(lp_key)); ("action_direction", p.(action_direction)); ("site_regime", p.(site_regime));
   ("direction", p.(site_regime)); ("day_phase", p.(day_phase)); ("reserve_phase", p.(reserve_phase));
   ("ev_phase", p.(ev_phase)); ("pv_phase", p.(pv_phase)); ("battery_limit_phase", p.(battery_limit_phase))].

(** update/victron_ess_balance_learning_profiles_support.py: _victron_ess_balance_grid_site_regime *)
Definition victron_ess_balance_grid_site_regime (grid_interaction_w : option float) : string :=
  match grid_interaction_w with
  | Some x => if (x <=? f_of_Z (-25))%F then "export" else if (x >=? f_of_Z 25)%F then "import" else ""
  | None => ""
  end.

(** update/victron_ess_balance_learning_profiles_support.py: _victron_ess_balance_forecast_site_regime *)
Definition victron_ess_balance_forecast_site_regime (expected_export_w expected_import_w : float) : string :=
  if (expected_export_w >? fmax (f_of_Z 25) expected_import_w)%F then "export"
  else if (expected_import_w >? fmax (f_of_Z 25) expected_export_w)%F then "import" else "".

(** update/victron_ess_balance_learning_profiles_support.py: _victron_ess_balance_action_direction_site_regime *)
Definition victron_ess_balance_action_direction_site_regime (action : string) : string :=
  if (action =? "more_export")%string then "export" else "import".

(** [value is not None and value <= 300.0] *)
Definition near_limit (headroom_w : option float) : bool :=
  match headroom_w with Some x => (x <=? f_of_Z 300)%F | None => false end.

(** update/victron_ess_balance_learning_profiles_support.py: _victron_ess_balance_near_discharge_limit *)
Definition victron_ess_balance_near_discharge_limit (regime : string) (combined_discharge_headroom_w : option float) : bool :=
  (regime =? "export")%string && near_limit combined_discharge_headroom_w.

(** update/victron_ess_balance_learning_profiles_support.py: _victron_ess_balance_near_charge_limit *)
Definition victron_ess_balance_near_charge_limit (regime : string) (combined_charge_headroom_w : option float) : bool :=
  (regime =? "import")%string && near_limit combined_charge_headroom_w.

(** update/victron_ess_balance_learning_profiles_support.py: _victron_ess_balance_pv_phase *)
Definition victron_ess_balance_pv_phase (expected_export_w pv_input_power_w : float) : string :=
  if (fmax expected_export_w pv_input_power_w >=? f_of_Z 1500)%F then "pv_strong" else "pv_weak".

(** update/victron_ess_balance_learning_profiles_support.py: _victron_ess_balance_learning_profile_key *)
Definition victron_ess_balance_learning_profile_key (parts : list string) : string := join ":" parts.

(** update/victron_ess_balance_learning_profiles_support.py: _victron_ess_balance_profile_identity *)
Definition victron_ess_balance_profile_identity (profile_key : string) : learning_profile :=
  let parts := py_split ":" profile_key in
  let part n := nth n parts "" in
  let n := length parts in
  let '(action, regime, day, reserve) :=
    if (4 <=? n)%nat then (part 0%nat, part 1%nat, part 2%nat, part 3%nat)
    else if (3 <=? n)%nat then ("", part 0%nat, part 1%nat, part 2%nat)
    else ("", part 0%nat, "", "") in
  let '(ev, pv, limit) :=
    if (7 <=? n)%nat then (part 4%nat, part 5%nat, part 6%nat) else ("ev_idle", "pv_weak", "mid_band") in
  mkLearningProfile profile_key action regime day reserve ev pv limit.

(** ** Scores
    update/victron_ess_balance_scoring.py *)
Module VictronEssTelemetryScorer.

(** update/victron_ess_balance_learning_profiles_support.py: _victron_ess_balance_profile_counter *)
Definition victron_ess_balance_profile_counter (profile : dict) (name : string) : res Z :=
  match dict_get name profile with VNone => Ok 0 | raw_count => n ← py_int raw_count; mret (Z.max 0 n) end.

(** update/victron_ess_balance_scoring.py: VictronEssTelemetryScorer.ewma_learned_value *)
Definition ewma_learned_value (current : option float) (sample : float) (samples : Z) : float :=
  match current with
  | Some x => if samples <=? 0 then sample else (fdec 1 4 * sample + fdec 3 4 * x)%F
  | None => sample
  end.

(** update/victron_ess_balance_scoring.py: VictronEssTelemetryScorer._profile_sample_count *)
Definition profile_sample_count (profile : dict) : res Z :=
  delay_samples ← victron_ess_balance_profile_counter profile "delay_samples";
  gain_samples ← victron_ess_balance_profile_counter profile "gain_samples";
  settled ← victron_ess_balance_profile_counter profile "settled_count";
  overshoot ← victron_ess_balance_profile_counter profile "overshoot_count";
  mret (Z.max (Z.max delay_samples gain_samples) (settled + overshoot)).

(** [float(a) / float(b)] of two counters *)
Definition ratio (a b : Z) : res float := x ← float_of_int a; y ← float_of_int b; float_div x y.

(** update/victron_ess_balance_scoring.py: settle_ratio_value *)
Definition settle_ratio_value (settled_count total_outcomes : Z) : res float :=
  if total_outcomes <=? 0 then Ok f1 else ratio settled_count total_outcomes.

(** update/victron_ess_balance_scoring.py: overshoot_penalty_value *)
Definition overshoot_penalty_value (overshoot_count total_outcomes : Z) : res float :=
  if total_outcomes <=? 0 then Ok f0 else x ← ratio overshoot_count total_outcomes; mret (fmin (fdec 6 10) x).

(** update/victron_ess_balance_scoring.py: gain_bonus_value *)
Definition gain_bonus_value (estimated_gain : option float) : float :=
  match estimated_gain with Some x => if (x >? f0)%F then fdec 15 100 else f0 | None => f0 end.

(** update/victron_ess_balance_scoring.py: delay_penalty_value *)
Definition delay_penalty_value (response_delay_seconds : option float) : float :=
  match response_delay_seconds with
  | None => f0
  | Some x => fmin (fdec 2 10) (fmax f0 (x - f_of_Z 5) / f_of_Z 50)%F
  end.

(** [max(0.0, min(1.0, x))] *)
Definition unit_interval (x : float) : float := fmax f0 (fmin f1 x).

(** update/victron_ess_balance_scoring.py: clamped_stability_score *)
Definition clamped_stability_score (settle_ratio gain_bonus overshoot_penalty delay_penalty : float) : float :=
  unit_interval (fdec 45 100 + fdec 4 10 * settle_ratio + gain_bonus - overshoot_penalty - delay_penalty)%F.

(** update/victron_ess_balance_scoring.py: VictronEssTelemetryScorer.stability_score_values *)
Definition stability_score_values (settled_count overshoot_count : Z) (estimated_gain response_delay_seconds : option float)
    : res float :=
  let total_outcomes := settled_count + overshoot_count in
  settle_ratio ← settle_ratio_value settled_count total_outcomes;
  overshoot_penalty ← overshoot_penalty_value overshoot_count total_outcomes;
  mret (clamped_stability_score settle_ratio (gain_bonus_value estimated_gain) overshoot_penalty
          (delay_penalty_value response_delay_seconds)).

(** [max(0, int(svc.name))] *)
Definition counter_attr (name : string) (v : service) : res Z :=
  a ← attribute name v; n ← py_int a; mret (Z.max 0 n).

(** update/victron_ess_balance_scoring.py: VictronEssTelemetryScorer.stability_score *)
Definition stability_score (v : service) : res float :=
  settled_count ← counter_attr (rt "telemetry_settled_count") v;
  overshoot_count ← counter_attr (rt "telemetry_overshoot_count") v;
  gain ← attribute (rt "telemetry_estimated_gain") v;
  estimated_gain ← optional_float gain;
  delay ← attribute (rt "telemetry_response_delay_seconds") v;
  response_delay ← optional_float delay;
  stability_score_values settled_count overshoot_count estimated_gain response_delay.

(** update/victron_ess_balance_scoring.py: VictronEssTelemetryScorer.variance_ratio *)
Definition variance_ratio (mean mad : option float) (floor : float) : float :=
  match mean, mad with
  | Some m, Some d => if (m =? f0)%F then f1 else fmax f0 (f1 - d / fmax floor m)%F
  | _, _ => f1
  end.

(** update/victron_ess_balance_scoring.py: VictronEssTelemetryScorer.variance_score *)
Definition variance_score (delay_mean delay_mad gain_mean gain_mad : option float) : float :=
  ((variance_ratio delay_mean delay_mad f1 + variance_ratio gain_mean gain_mad (fdec 1 10)) / f_of_Z 2)%F.

(** [self._optional_float(profile.get(name)) or 0.0] *)
Definition score_or_zero (profile : dict) (name : string) : res float :=
  x ← optional_float (dict_get name profile); mret (match x with Some s => if ftruthy s then s else f0 | None => f0 end).

(** update/victron_ess_balance_scoring.py: VictronEssTelemetryScorer.regime_consistency_score *)
Definition regime_consistency_score (profile : dict) : res float :=
  samples ← profile_sample_count profile;
  count ← float_of_int samples;
  let sample_score := fmin f1 (count / f_of_Z 4)%F in
  stability_score ← score_or_zero profile "stability_score";
  variance_score ← score_or_zero profile "response_variance_score";
  mret (unit_interval (fdec 3 10 * sample_score + fdec 35 100 * stability_score + fdec 35 100 * variance_score)%F).

(** [max(0, int(profile[name]))] *)
Definition counter_item (profile : dict) (name : string) : res Z :=
  a ← dict_item name profile; n ← py_int a; mret (Z.max 0 n).

(** update/victron_ess_balance_scoring.py: VictronEssTelemetryScorer.reproducibility_score *)
Definition reproducibility_score (profile : dict) : res float :=
  settled_count ← counter_item profile "settled_count";
  overshoot_count ← counter_item profile "overshoot_count";
  settle_ratio ← settle_ratio_value settled_count (settled_count + overshoot_count);
  variance_score ← score_or_zero profile "response_variance_score";
  mret (unit_interval (fdec 6 10 * settle_ratio + fdec 4 10 * variance_score)%F).

End VictronEssTelemetryScorer.

(** ** Stored profiles
    update/victron_ess_balance_learning_profiles.py *)
Module VictronEssLearningProfiles.
Import VictronEssTelemetryScorer.

(** update/victron_ess_balance_learning_profiles.py: VictronEssLearningProfiles._victron_ess_balance_profile_metric_fields *)
Definition victron_ess_balance_profile_metric_fields : list string :=
  ["response_delay_seconds"; "estimated_gain"; "overshoot_count"; "settled_count"; "stability_score";
   "regime_consistency_score"; "response_variance_score"; "reproducibility_score"; "safe_ramp_rate_watts_per_second";
   "preferred_bias_limit_watts"].

(** update/victron_ess_balance_learning_profiles_support.py: _victron_ess_balance_float_attr *)
Definition victron_ess_balance_float_attr (name : string) (v : service) : res float :=
  match getattr name VNone v with VNone => Ok f0 | value => py_float value end.

(** update/victron_ess_balance_learning_profiles.py: VictronEssLearningProfiles._victron_ess_balance_current_limit_settings *)
Definition victron_ess_balance_current_limit_settings (v : service) : res (float * float) :=
  ramp ← victron_ess_balance_float_attr (cfg "ramp_rate_watts_per_second") v;
  max_abs ← victron_ess_balance_float_attr (cfg "max_abs_watts") v;
  mret (fmax f0 ramp, fmax f0 max_abs).

(** update/victron_ess_balance_learning_profiles.py: VictronEssLearningProfiles._victron_ess_balance_profile_limit_band *)
Definition victron_ess_balance_profile_limit_band (stability : float) (overshoot_count : Z) : string :=
  if (0 <? overshoot_count) || (stability <? fdec 55 100)%F then "conservative"
  else if (stability >=? fdec 8 10)%F then "relaxed" else "nominal".

(** The factor and the default of the ramp, those of the bias limit.
    update/victron_ess_balance_learning_profiles.py: VictronEssLearningProfiles._victron_ess_balance_profile_limit_values (lines 105-109) *)
Definition limit_presets : list (string * (float * float * float * float)) :=
  [("conservative", (fdec 7 10, f_of_Z 25, fdec 8 10, f_of_Z 350));
   ("relaxed", (fdec 11 10, f_of_Z 60, fdec 11 10, f_of_Z 550));
   ("nominal", (f1, f_of_Z 50, f1, f_of_Z 500))].

(** update/victron_ess_balance_learning_profiles.py: VictronEssLearningProfiles._victron_ess_balance_profile_limit_values *)
Definition victron_ess_balance_profile_limit_values (current_ramp current_max_abs : float) (band : string)
    : res (float * float) :=
  match table_get band limit_presets with
  | Some (ramp_factor, ramp_default, max_abs_factor, max_abs_default) =>
    Ok (if (current_ramp >? f0)%F then (current_ramp * ramp_factor)%F else ramp_default,
        if (current_max_abs >? f0)%F then (current_max_abs * max_abs_factor)%F else max_abs_default)
  | None => Err KeyError
  end.

(** update/victron_ess_balance_learning_profiles.py: VictronEssLearningProfiles._victron_ess_balance_profile_limit_recommendations *)
Definition victron_ess_balance_profile_limit_recommendations (stability : float) (overshoot_count : Z) (v : service)
    : res (float * float) :=
  '(current_ramp, current_max_abs) ← victron_ess_balance_current_limit_settings v;
  victron_ess_balance_profile_limit_values current_ramp current_max_abs
    (victron_ess_balance_profile_limit_band stability overshoot_count).

(** update/victron_ess_balance_learning_profiles.py: VictronEssLearningProfiles._victron_ess_balance_action_direction *)
Definition victron_ess_balance_action_direction (source_error_w expected_export_w expected_import_w : float) : string :=
  if (source_error_w <? f0)%F then "more_export"
  else if (source_error_w >? f0)%F then "less_export"
  else if (expected_export_w >? fmax (f_of_Z 25) expected_import_w)%F then "more_export" else "less_export".

(** update/victron_ess_balance_learning_profiles.py: VictronEssLearningProfiles._victron_ess_balance_site_regime *)
Definition victron_ess_balance_site_regime (grid_interaction_w : option float) (expected_export_w expected_import_w : float)
    (action : string) : string :=
  let grid_regime := victron_ess_balance_grid_site_regime grid_interaction_w in
  let forecast_regime := victron_ess_balance_forecast_site_regime expected_export_w expected_import_w in
  if negb (grid_regime =? "")%string then grid_regime
  else if negb (forecast_regime =? "")%string then forecast_regime
  else victron_ess_balance_action_direction_site_regime action.

(** update/victron_ess_balance_learning_profiles.py: VictronEssLearningProfiles._victron_ess_balance_day_phase *)
Definition victron_ess_balance_day_phase (expected_export_w pv_input_power_w : float) : string :=
  if (fmax expected_export_w pv_input_power_w >=? f_of_Z 50)%F then "day" else "night".

(** update/victron_ess_balance_learning_profiles.py: VictronEssLearningProfiles._victron_ess_balance_reserve_phase *)
Definition victron_ess_balance_reserve_phase (source : dict) : res string :=
  source_soc ← optional_float (dict_get "soc" source);
  reserve_floor_soc ← optional_float (dict_get "discharge_balance_reserve_floor_soc" source);
  mret (match source_soc, reserve_floor_soc with
        | Some soc, Some floor => if (soc <=? floor + f_of_Z 5)%F then "reserve_band" else "above_reserve_band"
        | _, _ => "above_reserve_band"
        end).

(** update/victron_ess_balance_learning_profiles.py: VictronEssLearningProfiles._victron_ess_balance_battery_limit_phase *)
Definition victron_ess_balance_battery_limit_phase (regime : string)
    (combined_charge_headroom_w combined_discharge_headroom_w : option float) : string :=
  if victron_ess_balance_near_discharge_limit regime combined_discharge_headroom_w then "near_discharge_limit"
  else if victron_ess_balance_near_charge_limit regime combined_charge_headroom_w then "near_charge_limit"
  else "mid_band".

(** update/victron_ess_balance_learning_profiles.py: VictronEssLearningProfiles._LearningProfilePhaseInputs *)
Record phase_inputs := mkPhaseInputs {
  grid_interaction_w : option float; expected_export_w : float; expected_import_w : float; pv_input_power_w : float;
  combined_charge_headroom_w : option float; combined_discharge_headroom_w : option float }.

(** update/victron_ess_balance_learning_profiles.py: VictronEssLearningProfiles._victron_ess_balance_learning_profile_phase_inputs *)
Definition victron_ess_balance_learning_profile_phase_inputs (cluster : dict) : res phase_inputs :=
  grid ← optional_float (dict_get "battery_combined_grid_interaction_w" cluster);
  export ← score_or_zero cluster "expected_near_term_export_w";
  import ← score_or_zero cluster "expected_near_term_import_w";
  pv ← score_or_zero cluster "battery_combined_pv_input_power_w";
  charge ← optional_float (dict_get "battery_headroom_charge_w" cluster);
  discharge ← optional_float (dict_get "battery_headroom_discharge_w" cluster);
  mret (mkPhaseInputs grid export import pv charge discharge).

(** update/victron_ess_balance_learning_profiles.py: VictronEssLearningProfiles._victron_ess_balance_learning_profile *)
Definition victron_ess_balance_learning_profile (cluster source : dict) (source_error_w : float) (v : service)
    : res learning_profile :=
  inputs ← victron_ess_balance_learning_profile_phase_inputs cluster;
  let action :=
    victron_ess_balance_action_direction source_error_w inputs.(expected_export_w) inputs.(expected_import_w) in
  let regime :=
    victron_ess_balance_site_regime inputs.(grid_interaction_w) inputs.(expected_export_w) inputs.(expected_import_w)
      action in
  let day := victron_ess_balance_day_phase inputs.(expected_export_w) inputs.(pv_input_power_w) in
  active ← victron_ess_balance_ev_active v;
  let ev := if active : bool then "ev_active" else "ev_idle" in
  let pv := victron_ess_balance_pv_phase inputs.(expected_export_w) inputs.(pv_input_power_w) in
  reserve ← victron_ess_balance_reserve_phase source;
  let limit :=
    victron_ess_balance_battery_limit_phase regime inputs.(combined_charge_headroom_w)
      inputs.(combined_discharge_headroom_w) in
  mret (mkLearningProfile (victron_ess_balance_learning_profile_key [action; regime; day; reserve; ev; pv; limit])
          action regime day reserve ev pv limit).

(** *** The store *)

Definition profiles_attr : string := rt "learning_profiles".

(** The dictionary of the profiles; anything else is replaced by an empty one.
    update/victron_ess_balance_learning_profiles.py: VictronEssLearningProfiles._victron_ess_balance_learning_profiles *)
Definition victron_ess_balance_learning_profiles : M ess dict :=
  s ← get;
  match getattr profiles_attr VNone s.(attrs) with
  | VDict d => mret d
  | _ => set_attr profiles_attr (VDict []);; mret []
  end.

(** update/victron_ess_balance_learning_profiles.py: VictronEssLearningProfiles._victron_ess_balance_learning_profile_state *)
Definition victron_ess_balance_learning_profile_state (profile_key : string) : M ess dict :=
  if (profile_key =? "")%string then mret []
  else profiles ← victron_ess_balance_learning_profiles; mret (normalized_mapping (dict_get profile_key profiles)).

(** [profile[name] = value] on the stored profile: the dictionary is shared, so the store sees it. *)
Definition set_profile_field (profile_key name : string) (value : pyval) : M ess unit :=
  profiles ← victron_ess_balance_learning_profiles;
  set_attr profiles_attr
    (VDict (dict_set profile_key (VDict (dict_set name value (normalized_mapping (dict_get profile_key profiles)))) profiles)).

(** update/victron_ess_balance_learning_profiles.py: VictronEssLearningProfiles._victron_ess_balance_initialized_profile_state *)
Definition victron_ess_balance_initialized_profile_state (profile_key : string) : dict :=
  map (fun kv => (VStr (fst kv), VStr (snd kv))) (profile_texts (victron_ess_balance_profile_identity profile_key)) ++
  [(VStr "response_delay_seconds", VNone); (VStr "delay_samples", VInt 0); (VStr "estimated_gain", VNone);
   (VStr "gain_samples", VInt 0); (VStr "response_delay_mad_seconds", VNone); (VStr "gain_mad", VNone);
   (VStr "overshoot_count", VInt 0); (VStr "settled_count", VInt 0); (VStr "stability_score", VNone);
   (VStr "regime_consistency_score", VNone); (VStr "response_variance_score", VNone);
   (VStr "reproducibility_score", VNone); (VStr "safe_ramp_rate_watts_per_second", VNone);
   (VStr "preferred_bias_limit_watts", VNone)].

(** update/victron_ess_balance_learning_profiles.py: VictronEssLearningProfiles._ensure_victron_ess_balance_learning_profile_state *)
Definition ensure_victron_ess_balance_learning_profile_state (profile_key : string) : M ess dict :=
  if (profile_key =? "")%string then mret []
  else
    profiles ← victron_ess_balance_learning_profiles;
    match dict_get profile_key profiles with
    | VDict profile => mret profile
    | _ =>
      let profile := victron_ess_balance_initialized_profile_state profile_key in
      set_attr profiles_attr (VDict (dict_set profile_key (VDict profile) profiles));;
      mret profile
    end.

(** update/victron_ess_balance_learning_profiles.py: VictronEssLearningProfiles._victron_ess_balance_profile_sample_count *)
Definition victron_ess_balance_profile_sample_count (profile : dict) : res Z :=
  match profile with [] => Ok 0 | _ => profile_sample_count profile end.

(** A profile field as a text, as a number and as a counter. *)
Definition snapshot_text (profile : dict) (name : string) : string * pyval :=
  (name, VStr (py_str_or (dict_get name profile) "")).
Definition snapshot_float (profile : dict) (name : string) : res (string * pyval) :=
  x ← optional_float (dict_get name profile); mret (name, val_of_float x).
Definition snapshot_counter (profile : dict) (name : string) : res (string * pyval) :=
  n ← victron_ess_balance_profile_counter profile name; mret (name, VInt n).

(** update/victron_ess_balance_learning_profiles_support.py: _victron_ess_balance_profile_scalar_snapshot *)
Definition victron_ess_balance_profile_scalar_snapshot (profile : dict) (scalar_fields : list string)
    : odict string pyval :=
  map (snapshot_text profile) (tl scalar_fields).

(** update/victron_ess_balance_learning_profiles.py: VictronEssLearningProfiles._victron_ess_balance_profile_metric_snapshot *)
Definition victron_ess_balance_profile_metric_snapshot (profile : dict) : res (odict string pyval) :=
  response ← map_res (snapshot_float profile) ["response_delay_seconds"; "estimated_gain"];
  counters ← map_res (snapshot_counter profile) ["overshoot_count"; "settled_count"];
  scores ← map_res (snapshot_float profile)
    ["stability_score"; "regime_consistency_score"; "response_variance_score"; "reproducibility_score";
     "safe_ramp_rate_watts_per_second"; "preferred_bias_limit_watts"];
  mret (response ++ counters ++ scores ++
    [("typical_response_delay_seconds", default VNone (od_get "response_delay_seconds" response));
     ("effective_gain", default VNone (od_get "estimated_gain" response))]).

(** update/victron_ess_balance_learning_profiles.py: VictronEssLearningProfiles._victron_ess_balance_profile_snapshot *)
Definition victron_ess_balance_profile_snapshot (profile_key : string) : M ess (odict string pyval) :=
  profile ← victron_ess_balance_learning_profile_state profile_key;
  match profile with
  | [] => mret []
  | _ => lift (
    key ← dict_item "key" profile;
    sample_count ← victron_ess_balance_profile_sample_count profile;
    values ← victron_ess_balance_profile_metric_snapshot profile;
    mret ([("key", VStr (py_str key)); ("sample_count", VInt sample_count)] ++
          victron_ess_balance_profile_scalar_snapshot profile victron_ess_balance_profile_scalar_fields ++ values))
  end.

(** The metric of a profile field. *)
Definition profile_metric (name : string) : string := mt ("learning_profile_" ++ name).

(** update/victron_ess_balance_learning_profiles_support.py: _victron_ess_balance_prefixed_scalar_metrics *)
Definition victron_ess_balance_prefixed_scalar_metrics (snapshot : odict string pyval) (scalar_fields : list string)
    : odict string pyval :=
  map (fun name => (profile_metric name, VStr (py_str_or (default VNone (od_get name snapshot)) ""))) scalar_fields.

(** update/victron_ess_balance_learning_profiles.py: VictronEssLearningProfiles._merge_victron_ess_balance_learning_profile_metrics *)
Definition merge_victron_ess_balance_learning_profile_metrics (profile_key : string) : M ess unit :=
  snapshot ← victron_ess_balance_profile_snapshot profile_key;
  match snapshot with
  | [] => mret tt
  | _ =>
    update_metrics (victron_ess_balance_prefixed_scalar_metrics snapshot victron_ess_balance_profile_scalar_fields);;
    set_metric "learning_profile_sample_count" (default VNone (od_get "sample_count" snapshot));;
    update_metrics (map (fun name => (profile_metric name, default VNone (od_get name snapshot)))
                      victron_ess_balance_profile_metric_fields)
  end.

(** update/victron_ess_balance_learning_profiles_support.py: _victron_ess_balance_active_profile_fields *)
Definition victron_ess_balance_active_profile_fields : list (string * string) :=
  map (fun name => (rt ("active_learning_profile_" ++ name), name)) victron_ess_balance_profile_scalar_fields.

(** update/victron_ess_balance_learning_profiles.py: VictronEssLearningProfiles._set_victron_ess_balance_active_profile *)
Definition set_victron_ess_balance_active_profile (p : learning_profile) : M ess unit :=
  set_attrs (map (fun kv => (rt ("active_learning_profile_" ++ fst kv), VStr (snd kv))) (profile_texts p)).

(** update/victron_ess_balance_learning_profiles_support.py: _clear_victron_ess_balance_active_profile_state *)
Definition clear_victron_ess_balance_active_profile : M ess unit :=
  set_attrs (map (fun an => (fst an, VStr "")) victron_ess_balance_active_profile_fields).

(** *** Learning *)

(** update/victron_ess_balance_learning_profiles_support.py: _victron_ess_balance_update_profile_sample *)
Definition victron_ess_balance_update_profile_sample (profile : dict) (sample : float)
    (samples_field value_field deviation_field : string) : res dict :=
  samples ← victron_ess_balance_profile_counter profile samples_field;
  current_value ← optional_float (dict_get value_field profile);
  profile ←
    match current_value with
    | Some current =>
      deviation ← optional_float (dict_get deviation_field profile);
      mret (dict_set deviation_field (VFloat (ewma_learned_value deviation (fabs (sample - current)%F) samples)) profile)
    | None => mret profile
    end;
  mret (dict_set samples_field (VInt (samples + 1))
          (dict_set value_field (VFloat (ewma_learned_value current_value sample samples)) profile)).

(** [profile] is the stored dictionary: [f] changes it in place, unless it is empty. *)
Definition change_profile (profile_key : string) (f : dict -> res dict) : M ess unit :=
  profile ← ensure_victron_ess_balance_learning_profile_state profile_key;
  match profile with
  | [] => mret tt
  | _ =>
    profile ← lift (f profile);
    profiles ← victron_ess_balance_learning_profiles;
    set_attr profiles_attr (VDict (dict_set profile_key (VDict profile) profiles))
  end.

(** update/victron_ess_balance_learning_profiles.py: VictronEssLearningProfiles._victron_ess_balance_update_profile_delay *)
Definition victron_ess_balance_update_profile_delay (profile_key : string) (sample : float) : M ess unit :=
  change_profile profile_key (fun profile =>
    victron_ess_balance_update_profile_sample profile sample "delay_samples" "response_delay_seconds"
      "response_delay_mad_seconds").

(** update/victron_ess_balance_learning_profiles.py: VictronEssLearningProfiles._victron_ess_balance_update_profile_gain *)
Definition victron_ess_balance_update_profile_gain (profile_key : string) (sample : float) : M ess unit :=
  change_profile profile_key (fun profile =>
    victron_ess_balance_update_profile_sample profile sample "gain_samples" "estimated_gain" "gain_mad").

(** update/victron_ess_balance_learning_profiles.py: VictronEssLearningProfiles._victron_ess_balance_increment_profile_counter *)
Definition victron_ess_balance_increment_profile_counter (profile_key name : string) : M ess unit :=
  change_profile profile_key (fun profile =>
    n ← victron_ess_balance_profile_counter profile name; mret (dict_set name (VInt (n + 1)) profile)).

(** [profile[name] = compute(profile)] on the stored profile. *)
Definition score_profile (profile_key name : string) (compute : dict -> res float) : M ess unit :=
  profile ← victron_ess_balance_learning_profile_state profile_key;
  x ← lift (compute profile);
  set_profile_field profile_key name (VFloat x).

(** update/victron_ess_balance_learning_profiles.py: VictronEssLearningProfiles._victron_ess_balance_refresh_profile_stability (lines 411-416) *)
Definition profile_stability (profile : dict) : res float :=
  settled ← victron_ess_balance_profile_counter profile "settled_count";
  overshoot ← victron_ess_balance_profile_counter profile "overshoot_count";
  gain ← optional_float (dict_get "estimated_gain" profile);
  delay ← optional_float (dict_get "response_delay_seconds" profile);
  stability_score_values settled overshoot gain delay.

(** update/victron_ess_balance_learning_profiles.py: VictronEssLearningProfiles._victron_ess_balance_refresh_profile_stability (lines 417-422) *)
Definition profile_variance (profile : dict) : res float :=
  delay ← optional_float (dict_get "response_delay_seconds" profile);
  delay_mad ← optional_float (dict_get "response_delay_mad_seconds" profile);
  gain ← optional_float (dict_get "estimated_gain" profile);
  gain_mad ← optional_float (dict_get "gain_mad" profile);
  mret (variance_score delay delay_mad gain gain_mad).

(** update/victron_ess_balance_learning_profiles.py: VictronEssLearningProfiles._victron_ess_balance_refresh_profile_stability *)
Definition victron_ess_balance_refresh_profile_stability (profile_key : string) : M ess unit :=
  profile ← victron_ess_balance_learning_profile_state profile_key;
  match profile with
  | [] => mret tt
  | _ =>
    score_profile profile_key "stability_score" profile_stability;;
    score_profile profile_key "response_variance_score" profile_variance;;
    score_profile profile_key "regime_consistency_score" regime_consistency_score;;
    score_profile profile_key "reproducibility_score" reproducibility_score;;
    profile ← victron_ess_balance_learning_profile_state profile_key;
    stability ← lift (score_or_zero profile "stability_score");
    overshoot_count ← lift (victron_ess_balance_profile_counter profile "overshoot_count");
    '(ramp, limit) ← reads (victron_ess_balance_profile_limit_recommendations stability overshoot_count);
    set_profile_field profile_key "safe_ramp_rate_watts_per_second" (VFloat ramp);;
    set_profile_field profile_key "preferred_bias_limit_watts" (VFloat limit)
  end.

(** *** Payloads *)

(** core/ess_topology.py: ess_learning_topology_key *)
Definition ess_learning_topology_key (source_id : pyval) (energy_source_ids : list string) : string :=
  let normalized_source := py_strip (py_str_or source_id "") in
  let ids := List.filter (fun id => negb (id =? "")%string) (map py_strip energy_source_ids) in
  let normalized_energy_ids := sort_by String.ltb (remove_dups ids) in
  "victron-bias-learning/v3/source=" ++ normalized_source ++ "/target=ess-grid-setpoint/energy="
  ++ join "," normalized_energy_ids.

(** update/victron_ess_balance_learning_profiles_support.py: _victron_ess_balance_energy_source_id *)
Definition victron_ess_balance_energy_source_id (source_id : pyval) : string := py_strip (py_str_or source_id "").

(** update/victron_ess_balance_learning_profiles_support.py: _victron_ess_balance_energy_ids *)
Definition victron_ess_balance_energy_ids (definitions : option (list pyval)) : list string :=
  List.filter (fun id => negb (id =? "")%string) (map victron_ess_balance_energy_source_id (default [] definitions)).

(** update/victron_ess_balance_learning_profiles.py: VictronEssLearningProfiles._victron_ess_balance_current_topology_key *)
Definition victron_ess_balance_current_topology_key (source_id : string) : M ess string :=
  gets (fun s => ess_learning_topology_key (VStr source_id) (victron_ess_balance_energy_ids s.(energy_sources))).

(** update/victron_ess_balance_learning_profiles.py: VictronEssLearningProfiles._victron_ess_balance_current_tuning_snapshot *)
Definition victron_ess_balance_current_tuning_snapshot (v : service) : res dict :=
  kp ← victron_ess_balance_float_attr (cfg "kp") v;
  ki ← victron_ess_balance_float_attr (cfg "ki") v;
  kd ← victron_ess_balance_float_attr (cfg "kd") v;
  deadband ← victron_ess_balance_float_attr (cfg "deadband_watts") v;
  max_abs ← victron_ess_balance_float_attr (cfg "max_abs_watts") v;
  ramp ← victron_ess_balance_float_attr (cfg "ramp_rate_watts_per_second") v;
  mret [(VStr "kp", VFloat kp); (VStr "ki", VFloat ki); (VStr "kd", VFloat kd); (VStr "deadband_watts", VFloat deadband);
        (VStr "max_abs_watts", VFloat max_abs); (VStr "ramp_rate_watts_per_second", VFloat ramp);
        (VStr "activation_mode", VStr (victron_ess_balance_activation_mode v))].

(** How a scalar of the adaptive state is written. *)
Inductive caster := CastInt | CastText | CastBool | CastOptionalFloat.

(** update/victron_ess_balance_learning_profiles_support.py: _victron_ess_balance_adaptive_scalar_specs *)
Definition victron_ess_balance_adaptive_scalar_specs : list (string * string * caster) :=
  [("auto_apply_generation", rt "auto_apply_generation", CastInt);
   ("auto_apply_observe_until", rt "auto_apply_observe_until", CastOptionalFloat);
   ("auto_apply_last_applied_param", rt "auto_apply_last_applied_param", CastText);
   ("auto_apply_last_applied_at", rt "auto_apply_last_applied_at", CastOptionalFloat);
   ("oscillation_lockout_until", rt "oscillation_lockout_until", CastOptionalFloat);
   ("oscillation_lockout_reason", rt "oscillation_lockout_reason", CastText);
   ("last_stable_at", rt "last_stable_at", CastOptionalFloat);
   ("last_stable_profile_key", rt "last_stable_profile_key", CastText);
   ("auto_apply_suspend_until", rt "auto_apply_suspend_until", CastOptionalFloat);
   ("auto_apply_suspend_reason", rt "auto_apply_suspend_reason", CastText);
   ("overshoot_cooldown_until", rt "overshoot_cooldown_until", CastOptionalFloat);
   ("overshoot_cooldown_reason", rt "overshoot_cooldown_reason", CastText);
   ("safe_state_active", rt "safe_state_active", CastBool);
   ("safe_state_reason", rt "safe_state_reason", CastText)].

(** update/victron_ess_balance_learning_profiles_support.py: _victron_ess_balance_adaptive_scalar_value *)
Definition victron_ess_balance_adaptive_scalar_value (raw_value : pyval) (how : caster) : res pyval :=
  match how with
  | CastInt => match raw_value with VNone => Ok (VInt 0) | _ => n ← py_int raw_value; mret (VInt (Z.max 0 n)) end
  | CastText => Ok (VStr (py_str_or raw_value ""))
  | CastBool => Ok (VBool (py_bool raw_value))
  | CastOptionalFloat => x ← optional_float raw_value; mret (val_of_float x)
  end.

(** update/victron_ess_balance_learning_profiles.py: VictronEssLearningProfiles._victron_ess_balance_adaptive_scalar_payload *)
Definition victron_ess_balance_adaptive_scalar_payload (v : service) : res dict :=
  map_res (fun '(target_key, attr_name, how) =>
    x ← victron_ess_balance_adaptive_scalar_value (getattr attr_name VNone v) how; mret (VStr target_key, x))
    victron_ess_balance_adaptive_scalar_specs.

(** [str(svc.auto_battery_discharge_balance_victron_bias_source_id).strip()] *)
Definition payload_source_id (v : service) : res string :=
  source_id ← attribute (cfg "source_id") v; mret (py_strip (py_str source_id)).

(** The keys of the store are texts.
    update/victron_ess_balance_learning_profiles.py: VictronEssLearningProfiles.victron_ess_balance_learning_state_payload (lines 436-436) *)
Definition profile_keys (profiles : dict) : list string :=
  sort_by String.ltb (omap (M := list) (fun kv => match fst kv with VStr k => Some k | _ => None end) profiles).

(** update/victron_ess_balance_learning_profiles.py: VictronEssLearningProfiles.victron_ess_balance_learning_state_payload (lines 435-437) *)
Fixpoint profile_snapshots (keys : list string) : M ess dict :=
  match keys with
  | [] => mret []
  | key :: keys' =>
    snapshot ← victron_ess_balance_profile_snapshot key;
    rest ← profile_snapshots keys';
    mret ((VStr key, text_dict snapshot) :: rest)
  end.

(** update/victron_ess_balance_learning_profiles.py: VictronEssLearningProfiles.victron_ess_balance_learning_state_payload *)
Definition victron_ess_balance_learning_state_payload : M ess dict :=
  source_id ← reads payload_source_id;
  topology_key ← victron_ess_balance_current_topology_key source_id;
  profiles ← victron_ess_balance_learning_profiles;
  snapshots ← profile_snapshots (profile_keys profiles);
  mret [(VStr "schema_version", VInt 2); (VStr "topology_key", VStr topology_key); (VStr "source_id", VStr source_id);
        (VStr "profiles", VDict snapshots)].

(** [dict(value or {})] of an attribute that holds a dictionary. *)
Definition dict_copy (value : pyval) : res dict :=
  match value with VDict d => Ok d | _ => if py_bool value then Err TypeError else Ok [] end.

(** update/victron_ess_balance_learning_profiles.py: VictronEssLearningProfiles.victron_ess_balance_adaptive_tuning_payload *)
Definition victron_ess_balance_adaptive_tuning_payload : M ess dict :=
  source_id ← reads payload_source_id;
  topology_key ← victron_ess_balance_current_topology_key source_id;
  tuning ← reads victron_ess_balance_current_tuning_snapshot;
  scalars ← reads victron_ess_balance_adaptive_scalar_payload;
  stable ← reads (fun v => x ← attribute (rt "last_stable_tuning") v; dict_copy x);
  conservative ← reads (fun v => x ← attribute (rt "conservative_tuning") v; dict_copy x);
  mret ([(VStr "schema_version", VInt 2); (VStr "topology_key", VStr topology_key); (VStr "source_id", VStr source_id)]
        ++ tuning ++ scalars ++
        [(VStr "last_stable_tuning", VDict stable); (VStr "conservative_tuning", VDict conservative)]).

End VictronEssLearningProfiles.
