(* ===== verification/EssSafety.v ===== *)
(** * ESS balance: safety

    [update/victron_ess_balance_safety_support.py] and [update/victron_ess_balance_safety.py]:
    the overshoot cooldown, the oscillation lockout, the rollback to a tuning that proved stable,
    and the test whether a telemetry sample may be learned from. *)

From S2P Require Import Prelude PyFloat PyValue OrderedMap Contracts EssSources EssProfiles.
Import VictronEssSourceResolver.

(** [until is not None and now < until] *)
Definition before (now : float) (until : option float) : bool :=
  match until with Some t => (now <? t)%F | None => false end.

(** ** Recovery
    update/victron_ess_balance_safety_support.py *)
Module VictronEssSafetyRecovery.
Import VictronEssLearningProfiles.

(** update/victron_ess_balance_safety_support.py: VictronEssSafetyRecovery._victron_ess_balance_has_minimum_confidence *)
Definition has_minimum (score : option float) : bool :=
  match score with Some x => (x >=? fdec 8 10)%F | None => false end.

(** update/victron_ess_balance_safety_support.py: VictronEssSafetyRecovery._victron_ess_balance_can_refresh_stable_tuning *)
Definition victron_ess_balance_can_refresh_stable_tuning (confidence stability : option float)
    (sample_count overshoot_count : Z) : bool :=
  has_minimum confidence && has_minimum stability && (2 <=? sample_count) && (overshoot_count <=? 0).

(** update/victron_ess_balance_safety_support.py: VictronEssSafetyRecovery._victron_ess_balance_ensure_conservative_tuning *)
Definition victron_ess_balance_ensure_conservative_tuning : M ess unit :=
  conservative ← reads (attribute (rt "conservative_tuning"));
  if py_bool conservative then mret tt
  else
    tuning ← reads victron_ess_balance_current_tuning_snapshot;
    set_attr (rt "conservative_tuning") (VDict tuning).

(** update/victron_ess_balance_safety_support.py: VictronEssSafetyRecovery._victron_ess_balance_refresh_stable_tuning *)
Definition victron_ess_balance_refresh_stable_tuning (now : float) : M ess unit :=
  m ← gets metrics;
  confidence ← lift (optional_float (metric "recommendation_confidence" m));
  stability ← lift (optional_float (metric "learning_profile_stability_score" m));
  sample_count ← lift (non_negative_int (metric "learning_profile_sample_count" m) 0);
  overshoot_count ← lift (non_negative_int (metric "learning_profile_overshoot_count" m) 0);
  if negb (victron_ess_balance_can_refresh_stable_tuning confidence stability sample_count overshoot_count) then mret tt
  else
    victron_ess_balance_ensure_conservative_tuning;;
    tuning ← reads victron_ess_balance_current_tuning_snapshot;
    set_attr (rt "last_stable_tuning") (VDict tuning);;
    set_attr (rt "last_stable_at") (VFloat now);;
    set_attr (rt "last_stable_profile_key") (VStr (py_strip (py_str_or (metric "learning_profile_key" m) ""))).

(** update/victron_ess_balance_safety_support.py: VictronEssSafetyRecovery._victron_ess_balance_rollback_min_stability_score *)
Definition victron_ess_balance_rollback_min_stability_score (v : service) : res float :=
  x ← float_or (cfg "rollback_min_stability_score") (fdec 45 100) v; mret (fmax f0 x).

(** update/victron_ess_balance_safety_support.py: VictronEssSafetyRecovery._victron_ess_balance_has_immediate_rollback_signal *)
Definition victron_ess_balance_has_immediate_rollback_signal (m : odict string pyval) : bool :=
  py_bool (metric "oscillation_lockout_active" m) || py_bool (metric "overshoot_active" m)
  || py_bool (metric "overshoot_cooldown_active" m).

(** [bool(getattr(svc, name, True))] *)
Definition enabled_by_default (name : string) (v : service) : bool := py_bool (getattr (cfg name) (VBool true) v).

(** update/victron_ess_balance_safety_support.py: VictronEssSafetyRecovery._victron_ess_balance_should_rollback_stable_tuning *)
Definition victron_ess_balance_should_rollback_stable_tuning (now : float) : M ess bool :=
  s ← get;
  if negb (enabled_by_default "rollback_enabled" s.(attrs)) then mret false
  else
    until ← reads (attribute (rt "auto_apply_observe_until"));
    observe_until ← lift (optional_float until);
    if negb (before now observe_until) then mret false
    else if victron_ess_balance_has_immediate_rollback_signal s.(metrics) then mret true
    else
      stability ← lift (optional_float (metric "stability_score" s.(metrics)));
      rollback_min_stability ← reads victron_ess_balance_rollback_min_stability_score;
      mret (match stability with Some x => (x <? rollback_min_stability)%F | None => false end).

(** update/victron_ess_balance_safety_support.py: VictronEssSafetyRecovery._victron_ess_balance_restore_target *)
Definition victron_ess_balance_restore_target (reason : string) (v : service) : option (dict * string) :=
  match getattr (rt "last_stable_tuning") VNone v with
  | VDict (kv :: d) => Some (kv :: d, reason)
  | _ =>
    match getattr (rt "conservative_tuning") VNone v with
    | VDict (kv :: d) => Some (kv :: d, "conservative_fallback")
    | _ => None
    end
  end.

(** [float(stable.get(key) or 0.0)] *)
Definition stable_float (stable : dict) (key : string) : res float :=
  let value := dict_get key stable in if py_bool value then py_float value else Ok f0.

(** [svc.name = float(stable.get(key) or 0.0)] *)
Definition restore_float (stable : dict) (key : string) : M ess unit :=
  x ← lift (stable_float stable key); set_attr (cfg key) (VFloat x).

(** update/victron_ess_balance_safety_support.py: VictronEssSafetyRecovery._apply_victron_ess_balance_restored_pid_terms *)
Definition apply_victron_ess_balance_restored_pid_terms (stable : dict) : M ess unit :=
  restore_float stable "kp";; restore_float stable "ki";; restore_float stable "kd".

(** update/victron_ess_balance_safety_support.py: VictronEssSafetyRecovery._apply_victron_ess_balance_restored_limits *)
Definition apply_victron_ess_balance_restored_limits (stable : dict) : M ess unit :=
  restore_float stable "deadband_watts";; restore_float stable "max_abs_watts";;
  restore_float stable "ramp_rate_watts_per_second".

(** update/victron_ess_balance_safety_support.py: VictronEssSafetyRecovery._victron_ess_balance_restored_activation_mode *)
Definition victron_ess_balance_restored_activation_mode (stable : dict) (v : service) : string :=
  match dict_find "activation_mode" stable with
  | Some mode => py_strip (py_str_or mode "always")
  | None => py_strip (py_str_or (VStr (victron_ess_balance_activation_mode v)) "always")
  end.

(** update/victron_ess_balance_safety_support.py: VictronEssSafetyRecovery._apply_victron_ess_balance_restored_tuning *)
Definition apply_victron_ess_balance_restored_tuning (stable : dict) : M ess unit :=
  apply_victron_ess_balance_restored_pid_terms stable;;
  apply_victron_ess_balance_restored_limits stable;;
  s ← get;
  let activation_mode := victron_ess_balance_restored_activation_mode stable s.(attrs) in
  when (negb (activation_mode =? "")%string) (set_attr (cfg "activation_mode") (VStr activation_mode)).

(** [a or b] of two optional numbers *)
Definition or_number (a b : option float) : option float :=
  match a with Some x => if ftruthy x then a else b | None => b end.

(** [now] is [None] or a number.
    update/victron_ess_balance_safety_support.py: VictronEssSafetyRecovery._victron_ess_balance_suspend_auto_apply *)
Definition victron_ess_balance_suspend_auto_apply (reason : string) (now : option float) : M ess unit :=
  effective_now ←
    match now with
    | Some t => mret t
    | None =>
      observed ← reads (fun v => optional_float (getattr (rt "telemetry_last_observed_at") VNone v));
      match or_number observed None with
      | Some x => mret x
      | None =>
        applied ← reads (fun v => optional_float (getattr (rt "auto_apply_last_applied_at") VNone v));
        mret (default f0 (or_number applied None))
      end
    end;
  window ← reads (float_or (cfg "observation_window_seconds") (f_of_Z 30));
  let observation_seconds := fmax (f_of_Z 30) window in
  set_attr (rt "auto_apply_suspend_until") (VFloat (effective_now + f_of_Z 2 * observation_seconds)%F);;
  set_attr (rt "auto_apply_suspend_reason") (VStr reason).

(** update/victron_ess_balance_safety_support.py: VictronEssSafetyRecovery._maybe_restore_victron_ess_balance_stable_tuning *)
Definition maybe_restore_victron_ess_balance_stable_tuning (reason : string) : M ess bool :=
  s ← get;
  set_metric "rollback_enabled" (flag (enabled_by_default "rollback_enabled" s.(attrs)));;
  match victron_ess_balance_restore_target reason s.(attrs) with
  | None => set_metric "rollback_reason" (VStr "no_stable_tuning");; mret false
  | Some (stable, safe_state_reason) =>
    set_attr (rt "safe_state_active") (VBool true);;
    set_attr (rt "safe_state_reason") (VStr safe_state_reason);;
    apply_victron_ess_balance_restored_tuning stable;;
    set_attr (rt "auto_apply_observe_until") VNone;;
    applied ← reads (fun v => optional_float (getattr (rt "auto_apply_last_applied_at") VNone v));
    victron_ess_balance_suspend_auto_apply reason applied;;
    set_metric "rollback_active" (VInt 1);;
    set_metric "rollback_reason" (VStr reason);;
    s ← get;
    set_metric "rollback_stable_profile_key" (VStr (text_or (rt "last_stable_profile_key") "" s.(attrs)));;
    set_metric "safe_state_active" (VInt 1);;
    set_metric "safe_state_reason" (VStr safe_state_reason);;
    mret true
  end.

(** update/victron_ess_balance_safety_support.py: VictronEssSafetyRecovery._enter_victron_ess_balance_overshoot_cooldown *)
Definition enter_victron_ess_balance_overshoot_cooldown (now : float) (reason : string) : M ess unit :=
  response_delay ← reads (fun v => optional_float (getattr (rt "telemetry_response_delay_seconds") VNone v));
  let delay := default (f_of_Z 10) (or_number response_delay (Some (f_of_Z 10))) in
  let cooldown_seconds := fmax (f_of_Z 20) (fmin (f_of_Z 180) (delay * f_of_Z 4)%F) in
  set_attr (rt "overshoot_cooldown_until") (VFloat (now + cooldown_seconds)%F);;
  set_attr (rt "overshoot_cooldown_reason") (VStr reason);;
  victron_ess_balance_suspend_auto_apply "overshoot_cooldown" (Some now).

(** update/victron_ess_balance_safety_support.py: VictronEssSafetyRecovery._victron_ess_balance_overshoot_cooldown_active *)
Definition victron_ess_balance_overshoot_cooldown_active (now : float) (v : service) : res bool :=
  cooldown_until ← optional_float (getattr (rt "overshoot_cooldown_until") VNone v); mret (before now cooldown_until).

(** update/victron_ess_balance_safety_support.py: VictronEssSafetyRecovery._victron_ess_balance_auto_apply_suspended *)
Definition victron_ess_balance_auto_apply_suspended (now : float) (v : service) : res bool :=
  suspend_until ← optional_float (getattr (rt "auto_apply_suspend_until") VNone v); mret (before now suspend_until).

End VictronEssSafetyRecovery.

(** ** Safety
    update/victron_ess_balance_safety.py *)
Module VictronEssSafetyController.
Import VictronEssSafetyRecovery.

(** *** Changes of direction *)

(** update/victron_ess_balance_safety.py: VictronEssSafetyController._victron_ess_balance_direction_change_window_seconds *)
Definition victron_ess_balance_direction_change_window_seconds (v : service) : res float :=
  x ← float_or (cfg "oscillation_lockout_window_seconds") (f_of_Z 120) v; mret (fmax f0 x).

(** update/victron_ess_balance_safety.py: VictronEssSafetyController._victron_ess_balance_kept_action_changes *)
Fixpoint victron_ess_balance_kept_action_changes (entries : list pyval) (cutoff : float) : res (list pyval) :=
  match entries with
  | [] => Ok []
  | VDict entry :: entries' =>
    entry_at ← optional_float (dict_get "at" entry);
    kept ← victron_ess_balance_kept_action_changes entries' cutoff;
    mret (match entry_at with
          | Some t => if (t <? cutoff)%F then kept else VDict entry :: kept
          | None => kept
          end)
  | _ :: entries' => victron_ess_balance_kept_action_changes entries' cutoff
  end.

(** [raw if isinstance(raw, list) else []] *)
Definition list_value (raw : pyval) : list pyval := match raw with VList l => l | _ => [] end.

(** update/victron_ess_balance_safety.py: VictronEssSafetyController._victron_ess_balance_recent_direction_change_count *)
Definition victron_ess_balance_recent_direction_change_count (now : float) : M ess Z :=
  window_seconds ← reads victron_ess_balance_direction_change_window_seconds;
  raw_entries ← reads (attribute (rt "recent_action_changes"));
  kept ← lift (victron_ess_balance_kept_action_changes (list_value raw_entries) (now - window_seconds)%F);
  set_attr (rt "recent_action_changes") (VList kept);;
  mret (Z.max 0 (zlength kept - 1)).

(** update/victron_ess_balance_safety.py: VictronEssSafetyController._victron_ess_balance_action_change_entries *)
Definition victron_ess_balance_action_change_entries (v : service) : list pyval :=
  list_value (getattr (rt "recent_action_changes") VNone v).

(** update/victron_ess_balance_safety.py: VictronEssSafetyController._victron_ess_balance_last_action_direction *)
Definition victron_ess_balance_last_action_direction (v : service) : string :=
  py_strip (text_or (rt "last_action_direction") "" v).

(** update/victron_ess_balance_safety.py: VictronEssSafetyController._victron_ess_balance_should_record_action_direction *)
Definition victron_ess_balance_should_record_action_direction (entries : list pyval) (last_direction raw_action : string)
    : bool :=
  match entries with [] => true | _ => negb (last_direction =? raw_action)%string end.

(** update/victron_ess_balance_safety.py: VictronEssSafetyController._victron_ess_balance_should_enter_oscillation_lockout *)
Definition victron_ess_balance_should_enter_oscillation_lockout (direction_change_count : Z) (v : service) : res bool :=
  if negb (enabled_by_default "oscillation_lockout_enabled" v) then Ok false
  else
    let configured := getattr (cfg "oscillation_lockout_min_direction_changes") VNone v in
    n ← (if py_bool configured then py_int configured else Ok 3);
    mret (Z.max 1 n <=? direction_change_count).

(** update/victron_ess_balance_safety.py: VictronEssSafetyController._victron_ess_balance_oscillation_lockout_duration_seconds *)
Definition victron_ess_balance_oscillation_lockout_duration_seconds (v : service) : res float :=
  x ← float_or (cfg "oscillation_lockout_duration_seconds") (f_of_Z 180) v; mret (fmax f0 x).

(** update/victron_ess_balance_safety.py: VictronEssSafetyController._victron_ess_balance_note_action_direction *)
Definition victron_ess_balance_note_action_direction (direction : string) (now : float) : M ess Z :=
  let raw_action := py_strip direction in
  if negb (str_in raw_action ["more_export"; "less_export"]) then victron_ess_balance_recent_direction_change_count now
  else
    s ← get;
    let entries := victron_ess_balance_action_change_entries s.(attrs) in
    let last_direction := victron_ess_balance_last_action_direction s.(attrs) in
    let entries :=
      if victron_ess_balance_should_record_action_direction entries last_direction raw_action
      then entries ++ [VDict [(VStr "at", VFloat now); (VStr "action_direction", VStr raw_action)]] else entries in
    set_attr (rt "last_action_direction") (VStr raw_action);;
    set_attr (rt "recent_action_changes") (VList entries);;
    direction_change_count ← victron_ess_balance_recent_direction_change_count now;
    enter ← reads (victron_ess_balance_should_enter_oscillation_lockout direction_change_count);
    when enter (
      duration_seconds ← reads victron_ess_balance_oscillation_lockout_duration_seconds;
      set_attr (rt "oscillation_lockout_until") (VFloat (now + duration_seconds)%F);;
      set_attr (rt "oscillation_lockout_reason") (VStr "direction_change_oscillation");;
      VictronEssPidController.reset_integral true);;
    mret direction_change_count.

(** update/victron_ess_balance_safety.py: VictronEssSafetyController._victron_ess_balance_oscillation_lockout_active *)
Definition victron_ess_balance_oscillation_lockout_active (now : float) (v : service) : res bool :=
  until ← attribute (rt "oscillation_lockout_until") v;
  lockout_until ← optional_float until;
  mret (before now lockout_until).

(** *** Metrics *)

(** update/victron_ess_balance_safety.py: VictronEssSafetyController._victron_ess_balance_lockout_metrics *)
Definition victron_ess_balance_lockout_metrics (now : float) (lockout_until : option float) : M ess (odict string pyval) :=
  s ← get;
  count ← victron_ess_balance_recent_direction_change_count now;
  mret [(mt "oscillation_lockout_enabled", flag (enabled_by_default "oscillation_lockout_enabled" s.(attrs)));
        (mt "oscillation_lockout_active", flag (before now lockout_until));
        (mt "oscillation_lockout_reason", VStr (text_or (rt "oscillation_lockout_reason") "" s.(attrs)));
        (mt "oscillation_lockout_until", val_of_float lockout_until);
        (mt "oscillation_direction_change_count", VInt count)].

(** The entries of one guard: whether it is active, why, and until when. *)
Definition guard_metrics (name : string) (active : bool) (v : service) : res (odict string pyval) :=
  until ← optional_float (getattr (rt (name ++ "_until")) VNone v);
  mret [(mt (name ++ "_active"), flag active); (mt (name ++ "_reason"), VStr (text_or (rt (name ++ "_reason")) "" v));
        (mt (name ++ "_until"), val_of_float until)].

(** update/victron_ess_balance_safety.py: VictronEssSafetyController._victron_ess_balance_cooldown_metrics *)
Definition victron_ess_balance_cooldown_metrics (now : float) (v : service) : res (odict string pyval) :=
  active ← victron_ess_balance_overshoot_cooldown_active now v; guard_metrics "overshoot_cooldown" active v.

(** update/victron_ess_balance_safety.py: VictronEssSafetyController._victron_ess_balance_auto_apply_suspend_metrics *)
Definition victron_ess_balance_auto_apply_suspend_metrics (now : float) (v : service) : res (odict string pyval) :=
  active ← victron_ess_balance_auto_apply_suspended now v; guard_metrics "auto_apply_suspend" active v.

(** update/victron_ess_balance_safety.py: VictronEssSafetyController._victron_ess_balance_safe_state_metrics *)
Definition victron_ess_balance_safe_state_metrics (v : service) : odict string pyval :=
  [(mt "safe_state_active", flag (py_bool (getattr (rt "safe_state_active") VNone v)));
   (mt "safe_state_reason", VStr (text_or (rt "safe_state_reason") "" v))].

(** update/victron_ess_balance_safety.py: VictronEssSafetyController._populate_victron_ess_balance_runtime_safety_metrics *)
Definition populate_victron_ess_balance_runtime_safety_metrics (now : float) : M ess unit :=
  until ← reads (attribute (rt "oscillation_lockout_until"));
  lockout_until ← lift (optional_float until);
  lockout ← victron_ess_balance_lockout_metrics now lockout_until;
  update_metrics lockout;;
  cooldown ← reads (victron_ess_balance_cooldown_metrics now);
  update_metrics cooldown;;
  suspend ← reads (victron_ess_balance_auto_apply_suspend_metrics now);
  update_metrics suspend;;
  s ← get;
  update_metrics (victron_ess_balance_safe_state_metrics s.(attrs)).

(** *** Clean telemetry *)

(** update/victron_ess_balance_safety.py: VictronEssSafetyController._victron_ess_balance_requires_clean_phases *)
Definition victron_ess_balance_requires_clean_phases (v : service) : bool := enabled_by_default "require_clean_phases" v.

(** A text attribute that is set. *)
Definition text_set (name : string) (v : service) : bool := negb (py_strip (text_or name "" v) =? "")%string.

(** update/victron_ess_balance_safety.py: VictronEssSafetyController._victron_ess_balance_contactor_block_reason *)
Definition victron_ess_balance_contactor_block_reason (v : service) : option string :=
  if text_set "_contactor_fault_active_reason" v then Some "contactor_fault_active"
  else if text_set "_contactor_lockout_reason" v then Some "contactor_lockout_active" else None.

(** The verdict before the windows are looked at.
    update/victron_ess_balance_safety.py: VictronEssSafetyController._victron_ess_balance_telemetry_precheck_reason *)
Definition victron_ess_balance_telemetry_precheck_reason (v : service) : option (bool * string) :=
  if negb (victron_ess_balance_requires_clean_phases v) then Some (true, "clean_not_required")
  else if py_bool (getattr "_auto_cached_inputs_used" VNone v) then Some (false, "cached_inputs")
  else if text_set "_phase_switch_state" v then Some (false, "phase_switch_active")
  else match victron_ess_balance_contactor_block_reason v with Some reason => Some (false, reason) | None => None end.

(** [a is not None and b is not None and abs(a - b) > limit] *)
Definition jumps (limit : Z) (value last : option float) : bool :=
  match value, last with Some a, Some b => (fabs (a - b) >? f_of_Z limit)%F | _, _ => false end.

(** update/victron_ess_balance_safety.py: VictronEssSafetyController._victron_ess_balance_grid_interaction_unstable *)
Definition victron_ess_balance_grid_interaction_unstable := jumps 600.
(** update/victron_ess_balance_safety.py: VictronEssSafetyController._victron_ess_balance_foreign_power_event *)
Definition victron_ess_balance_foreign_power_event := jumps 900.
(** update/victron_ess_balance_safety.py: VictronEssSafetyController._victron_ess_balance_ev_load_jump *)
Definition victron_ess_balance_ev_load_jump := jumps 500.

(** [self._optional_float(svc.name)] *)
Definition float_attribute (name : string) (v : service) : res (option float) := a ← attribute name v; optional_float a.

(** update/victron_ess_balance_safety.py: VictronEssSafetyController._victron_ess_balance_grid_window_reason *)
Definition victron_ess_balance_grid_window_reason (cluster : dict) (v : service) : res (option string) :=
  grid_interaction_w ← optional_float (dict_get "battery_combined_grid_interaction_w" cluster);
  match grid_interaction_w with
  | None => Ok (Some "grid_interaction_missing")
  | Some _ =>
    last ← float_attribute (rt "telemetry_last_grid_interaction_w") v;
    mret (if victron_ess_balance_grid_interaction_unstable grid_interaction_w last then Some "grid_unstable" else None)
  end.

(** update/victron_ess_balance_safety.py: VictronEssSafetyController._victron_ess_balance_power_window_reason *)
Definition victron_ess_balance_power_window_reason (cluster : dict) (v : service) : res (option string) :=
  ac_power_w ← optional_float (dict_get "battery_combined_ac_power_w" cluster);
  last ← float_attribute (rt "telemetry_last_ac_power_w") v;
  mret (if victron_ess_balance_foreign_power_event ac_power_w last then Some "foreign_power_event" else None).

(** update/victron_ess_balance_safety.py: VictronEssSafetyController._victron_ess_balance_ev_window_reason *)
Definition victron_ess_balance_ev_window_reason (v : service) : res (option string) :=
  ev_power_w ← victron_ess_balance_ev_power_w v;
  last ← float_attribute (rt "telemetry_last_ev_power_w") v;
  mret (if victron_ess_balance_ev_load_jump ev_power_w last then Some "ev_load_jump" else None).

(** update/victron_ess_balance_safety.py: VictronEssSafetyController._victron_ess_balance_telemetry_window_reason *)
Definition victron_ess_balance_telemetry_window_reason (cluster : dict) (v : service) : res (option string) :=
  grid_reason ← victron_ess_balance_grid_window_reason cluster v;
  match grid_reason with
  | Some r => Ok (Some r)
  | None =>
    power_reason ← victron_ess_balance_power_window_reason cluster v;
    match power_reason with Some r => Ok (Some r) | None => victron_ess_balance_ev_window_reason v end
  end.

(** update/victron_ess_balance_safety.py: VictronEssSafetyController._victron_ess_balance_error_inside_deadband *)
Definition victron_ess_balance_error_inside_deadband (source_error_w : float) (v : service) : res bool :=
  a ← attribute (cfg "deadband_watts") v;
  deadband_w ← py_float a;
  mret (fabs source_error_w <? fmax (f_of_Z 10) deadband_w)%F.

(** update/victron_ess_balance_safety.py: VictronEssSafetyController._victron_ess_balance_telemetry_is_clean *)
Definition victron_ess_balance_telemetry_is_clean (cluster : dict) (source_error_w : float) (v : service)
    : res (bool * string) :=
  match victron_ess_balance_telemetry_precheck_reason v with
  | Some verdict => Ok verdict
  | None =>
    telemetry_reason ← victron_ess_balance_telemetry_window_reason cluster v;
    match telemetry_reason with
    | Some r => Ok (false, r)
    | None =>
      inside ← victron_ess_balance_error_inside_deadband source_error_w v;
      mret (if inside : bool then (false, "error_inside_deadband") else (true, "clean"))
    end
  end.

End VictronEssSafetyController.
