(* ===== verification/EssAdvice.v ===== *)
(** * ESS balance: recommendations

    [update/victron_ess_balance_recommendation_support.py] and
    [update/victron_ess_balance_recommendation.py]: what the learned telemetry suggests for the
    tuning, and the telemetry metrics. *)

From S2P Require Import Prelude PyFloat PyValue PyFormat OrderedMap EssSources EssProfiles EssSafety.
Import VictronEssSourceResolver.

(** What the recommendation looks at.
    update/victron_ess_balance_recommendation.py: VictronEssRecommendationEngine._victron_ess_balance_recommendation_observations *)
Record observations := mkObservations {
  ob_response_delay_seconds : option float; ob_estimated_gain : option float; ob_stability_score : option float;
  ob_overshoot_count : Z; ob_settled_count : Z; ob_delay_samples : Z; ob_gain_samples : Z;
  ob_regime_consistency_score : option float; ob_response_variance_score : option float;
  ob_reproducibility_score : option float }.

(** The six numbers of a tuning.
    update/victron_ess_balance_recommendation_support.py: VictronEssRecommendationPolicy._victron_ess_balance_current_tuning_values *)
Record tuning := mkTuning { tn_kp : float; tn_ki : float; tn_kd : float; tn_deadband : float; tn_max_abs : float; tn_ramp : float }.

(** ** The policy
    update/victron_ess_balance_recommendation_support.py *)
Module VictronEssRecommendationPolicy.

(** update/victron_ess_balance_recommendation_support.py: VictronEssRecommendationPolicy._victron_ess_balance_has_insufficient_telemetry *)
Definition victron_ess_balance_has_insufficient_telemetry (o : observations) (confidence : float) : bool :=
  match o.(ob_response_delay_seconds), o.(ob_estimated_gain) with
  | Some _, Some _ => (confidence <? fdec 35 100)%F
  | _, _ => true
  end.

(** update/victron_ess_balance_recommendation_support.py: VictronEssRecommendationPolicy._victron_ess_balance_has_overshoot_risk *)
Definition victron_ess_balance_has_overshoot_risk (o : observations) : bool :=
  (0 <? o.(ob_overshoot_count)) || match o.(ob_stability_score) with Some x => (x <? fdec 55 100)%F | None => false end.

(** [float(value)] of an observation that may be missing. *)
Definition number_of (x : option float) : res float := match x with Some y => Ok y | None => Err TypeError end.

(** update/victron_ess_balance_recommendation_support.py: VictronEssRecommendationPolicy._victron_ess_balance_has_slow_response *)
Definition victron_ess_balance_has_slow_response (o : observations) : res bool :=
  delay ← number_of o.(ob_response_delay_seconds);
  if (delay >? f_of_Z 8)%F then Ok true else gain ← number_of o.(ob_estimated_gain); mret (gain <? fdec 75 100)%F.

(** update/victron_ess_balance_recommendation_support.py: VictronEssRecommendationPolicy._victron_ess_balance_has_clean_settling *)
Definition victron_ess_balance_has_clean_settling (o : observations) : bool :=
  (2 <=? o.(ob_settled_count)) && (o.(ob_overshoot_count) =? 0).

(** update/victron_ess_balance_recommendation_support.py: VictronEssRecommendationPolicy._victron_ess_balance_observations_within_relaxed_bounds *)
Definition victron_ess_balance_observations_within_relaxed_bounds (o : observations) : res bool :=
  delay ← number_of o.(ob_response_delay_seconds);
  if negb (delay <=? f_of_Z 5)%F then Ok false else gain ← number_of o.(ob_estimated_gain); mret (gain >=? fdec 75 100)%F.

(** update/victron_ess_balance_recommendation_support.py: VictronEssRecommendationPolicy._victron_ess_balance_can_relax_conservatism *)
Definition victron_ess_balance_can_relax_conservatism (o : observations) : res bool :=
  match o.(ob_stability_score) with
  | None => Ok false
  | Some x =>
    if (x <? fdec 8 10)%F || negb (victron_ess_balance_has_clean_settling o) then Ok false
    else victron_ess_balance_observations_within_relaxed_bounds o
  end.

(** update/victron_ess_balance_recommendation_support.py: VictronEssRecommendationPolicy._victron_ess_balance_reason_adjustment *)
Definition victron_ess_balance_reason_adjustment (reason : string) : list (string * float) :=
  default [] (table_get reason
    [("overshoot_risk",
      [("kp_factor", fdec 8 10); ("ki_factor", fdec 5 10); ("kd_floor", fdec 2 100); ("deadband_factor", fdec 125 100);
       ("deadband_default", f_of_Z 125); ("max_abs_factor", fdec 8 10); ("max_abs_default", f_of_Z 350);
       ("ramp_factor", fdec 7 10); ("ramp_default", f_of_Z 25)]);
     ("slow_response",
      [("kp_factor", fdec 9 10); ("ki_factor", fdec 6 10); ("kd_floor", fdec 1 100); ("deadband_factor", fdec 11 10);
       ("deadband_default", f_of_Z 110); ("max_abs_factor", fdec 9 10); ("max_abs_default", f_of_Z 425);
       ("ramp_factor", fdec 8 10); ("ramp_default", f_of_Z 35)]);
     ("can_relax_conservatism",
      [("kp_factor", fdec 115 100); ("ki_factor", fdec 11 10); ("kd_factor", fdec 8 10); ("kd_default", f0);
       ("deadband_factor", fdec 9 10); ("deadband_default", f_of_Z 80); ("max_abs_factor", fdec 11 10);
       ("max_abs_default", f_of_Z 550); ("ramp_factor", fdec 11 10); ("ramp_default", f_of_Z 60)])]).

(** [preset[key]] *)
Definition preset_item (preset : list (string * float)) (key : string) : res float :=
  match table_get key preset with Some x => Ok x | None => Err KeyError end.

(** update/victron_ess_balance_recommendation_support.py: VictronEssRecommendationPolicy._victron_ess_balance_non_negative_attr *)
Definition victron_ess_balance_non_negative_attr (name : string) (v : service) : res float :=
  x ← float_or (cfg name) f0 v; mret (fmax f0 x).

(** update/victron_ess_balance_recommendation_support.py: VictronEssRecommendationPolicy._victron_ess_balance_current_tuning_values *)
Definition victron_ess_balance_current_tuning_values (v : service) : res tuning :=
  kp ← victron_ess_balance_non_negative_attr "kp" v;
  ki ← victron_ess_balance_non_negative_attr "ki" v;
  kd ← victron_ess_balance_non_negative_attr "kd" v;
  deadband ← victron_ess_balance_non_negative_attr "deadband_watts" v;
  max_abs ← victron_ess_balance_non_negative_attr "max_abs_watts" v;
  ramp ← victron_ess_balance_non_negative_attr "ramp_rate_watts_per_second" v;
  mret (mkTuning kp ki kd deadband max_abs ramp).

(** update/victron_ess_balance_recommendation_support.py: VictronEssRecommendationPolicy._victron_ess_balance_adjusted_kd *)
Definition victron_ess_balance_adjusted_kd (current_kd : float) (preset : list (string * float)) : float :=
  match table_get "kd_floor" preset with
  | Some floor => fmax current_kd floor
  | None =>
    if (current_kd >? f0)%F then (current_kd * default f1 (table_get "kd_factor" preset))%F
    else default f0 (table_get "kd_default" preset)
  end.

(** update/victron_ess_balance_recommendation_support.py: VictronEssRecommendationPolicy._victron_ess_balance_scaled_or_default *)
Definition victron_ess_balance_scaled_or_default (current_value : float) (preset : list (string * float))
    (factor_key default_key : string) : res float :=
  if (current_value >? f0)%F then factor ← preset_item preset factor_key; mret (current_value * factor)%F
  else preset_item preset default_key.

(** update/victron_ess_balance_recommendation_support.py: VictronEssRecommendationPolicy._victron_ess_balance_adjusted_tuning *)
Definition victron_ess_balance_adjusted_tuning (current : tuning) (reason : string) : res tuning :=
  let preset := victron_ess_balance_reason_adjustment reason in
  adjusted ←
    match preset with
    | [] => mret current
    | _ =>
      kp_factor ← preset_item preset "kp_factor";
      ki_factor ← preset_item preset "ki_factor";
      deadband ← victron_ess_balance_scaled_or_default current.(tn_deadband) preset "deadband_factor" "deadband_default";
      max_abs ← victron_ess_balance_scaled_or_default current.(tn_max_abs) preset "max_abs_factor" "max_abs_default";
      ramp ← victron_ess_balance_scaled_or_default current.(tn_ramp) preset "ramp_factor" "ramp_default";
      mret (mkTuning (current.(tn_kp) * kp_factor)%F (current.(tn_ki) * ki_factor)%F
              (victron_ess_balance_adjusted_kd current.(tn_kd) preset) deadband max_abs ramp)
    end;
  mret (mkTuning adjusted.(tn_kp) adjusted.(tn_ki) adjusted.(tn_kd) (fmax f0 adjusted.(tn_deadband))
          (fmax f0 adjusted.(tn_max_abs)) (fmax f0 adjusted.(tn_ramp))).

(** [0.0 if score is None else min(weight, weight * max(0.0, score))] *)
Definition confidence_component (weight : float) (score : option float) : float :=
  match score with None => f0 | Some x => fmin weight (weight * fmax f0 x)%F end.

(** update/victron_ess_balance_recommendation_support.py: VictronEssRecommendationPolicy._victron_ess_balance_recommendation_confidence *)
Definition victron_ess_balance_recommendation_confidence (delay_samples gain_samples : Z)
    (stability consistency variance reproducibility : option float) : res float :=
  delay ← float_of_int delay_samples;
  gain ← float_of_int gain_samples;
  let sample_component := fmin (fdec 55 100) (fdec 12 100 * delay + fdec 12 100 * gain)%F in
  mret (fmax (fdec 1 10)
    (fmin f1 (fdec 1 10 + sample_component + confidence_component (fdec 35 100) stability
              + confidence_component (fdec 2 10) consistency + confidence_component (fdec 15 100) variance
              + confidence_component (fdec 2 10) reproducibility)%F)).

(** update/victron_ess_balance_recommendation_support.py: VictronEssRecommendationPolicy._victron_ess_balance_recommendation_ini_snippet *)
Definition victron_ess_balance_recommendation_ini_snippet (t : tuning) (activation_mode : string) : string :=
  let key name := ("AutoBatteryDischargeBalanceVictronBias" ++ name ++ "=")%string in
  join (String (ascii_of_nat 10) "")
    [(key "Kp" ++ fmt_general t.(tn_kp))%string; (key "Ki" ++ fmt_general t.(tn_ki))%string;
     (key "Kd" ++ fmt_general t.(tn_kd))%string; (key "DeadbandWatts" ++ fmt_general t.(tn_deadband))%string;
     (key "MaxAbsWatts" ++ fmt_general t.(tn_max_abs))%string;
     (key "RampRateWattsPerSecond" ++ fmt_general t.(tn_ramp))%string;
     (key "ActivationMode" ++ py_str_or (VStr activation_mode) "always")%string].

(** update/victron_ess_balance_recommendation_support.py: VictronEssRecommendationPolicy._victron_ess_balance_recommendation_hint *)
Definition victron_ess_balance_recommendation_hint (reason : string) (confidence : float) : string :=
  let text := default "Telemetry is still too thin for a strong tuning recommendation "
    (table_get reason
      [("can_relax_conservatism", "Telemetry looks stable; you can cautiously relax the current Victron bias tuning ");
       ("overshoot_risk", "Telemetry shows overshoot risk; use more conservative Victron bias tuning ");
       ("slow_response", "Telemetry suggests a slow site response; reduce aggressiveness and ramp more gently ");
       ("telemetry_nominal", "Telemetry looks broadly nominal; keep tuning close to the current values ")]) in
  text ++ "(confidence " ++ fmt_fixed 2 confidence ++ ").".

(** update/victron_ess_balance_recommendation_support.py: VictronEssRecommendationPolicy._victron_ess_balance_disabled_recommendation_metrics *)
Definition victron_ess_balance_disabled_recommendation_metrics : odict string pyval :=
  map (fun name => (mt name, VNone))
    ["recommended_kp"; "recommended_ki"; "recommended_kd"; "recommended_deadband_watts"; "recommended_max_abs_watts";
     "recommended_ramp_rate_watts_per_second"] ++
  [(mt "recommended_activation_mode", VStr "")] ++
  map (fun name => (mt name, VNone))
    ["recommendation_confidence"; "recommendation_regime_consistency_score"; "recommendation_response_variance_score";
     "recommendation_reproducibility_score"] ++
  [(mt "recommendation_reason", VStr "disabled"); (mt "recommendation_profile_key", VStr "");
   (mt "recommendation_ini_snippet", VStr ""); (mt "recommendation_hint", VStr "")].

End VictronEssRecommendationPolicy.

(** ** The engine
    update/victron_ess_balance_recommendation.py *)
Module VictronEssRecommendationEngine.
Import VictronEssTelemetryScorer VictronEssLearningProfiles VictronEssRecommendationPolicy.

(** update/victron_ess_balance_recommendation.py: VictronEssRecommendationEngine._victron_ess_balance_recommendation_source *)
Definition victron_ess_balance_recommendation_source : M ess (string * dict * bool) :=
  s ← get;
  let active_profile_key := normalized_text (getattr (rt "active_learning_profile_key") VNone s.(attrs)) in
  active_profile ← victron_ess_balance_learning_profile_state active_profile_key;
  samples ← lift (victron_ess_balance_profile_sample_count active_profile);
  mret (active_profile_key, active_profile, 0 <? samples).

(** update/victron_ess_balance_recommendation.py: VictronEssRecommendationEngine._victron_ess_balance_observation_value *)
Definition victron_ess_balance_observation_value (active_profile : dict) (use_profile : bool) (key : string) (v : service)
    : pyval :=
  if use_profile then dict_get key active_profile else getattr (rt ("telemetry_" ++ key)) VNone v.

(** update/victron_ess_balance_recommendation.py: VictronEssRecommendationEngine._victron_ess_balance_observation_count *)
Definition victron_ess_balance_observation_count (active_profile : dict) (use_profile : bool) (key : string) (v : service)
    : res Z :=
  match victron_ess_balance_observation_value active_profile use_profile key v with
  | VNone => Ok 0
  | value => n ← py_int value; mret (Z.max 0 n)
  end.

(** update/victron_ess_balance_recommendation.py: VictronEssRecommendationEngine._victron_ess_balance_recommendation_observations *)
Definition victron_ess_balance_recommendation_observations (active_profile : dict) (use_profile : bool) (v : service)
    : res observations :=
  let number key := optional_float (victron_ess_balance_observation_value active_profile use_profile key v) in
  let count key := victron_ess_balance_observation_count active_profile use_profile key v in
  let score key := optional_float (if use_profile then dict_get key active_profile else VNone) in
  delay ← number "response_delay_seconds";
  gain ← number "estimated_gain";
  stability ← number "stability_score";
  overshoot ← count "overshoot_count";
  settled ← count "settled_count";
  delay_samples ← count "delay_samples";
  gain_samples ← count "gain_samples";
  consistency ← score "regime_consistency_score";
  variance ← score "response_variance_score";
  reproducibility ← score "reproducibility_score";
  mret (mkObservations delay gain stability overshoot settled delay_samples gain_samples consistency variance
          reproducibility).

(** update/victron_ess_balance_recommendation.py: VictronEssRecommendationEngine._victron_ess_balance_recommendation_reason *)
Definition victron_ess_balance_recommendation_reason (o : observations) (confidence : float) : res string :=
  if victron_ess_balance_has_insufficient_telemetry o confidence then Ok "insufficient_telemetry"
  else if victron_ess_balance_has_overshoot_risk o then Ok "overshoot_risk"
  else
    slow ← victron_ess_balance_has_slow_response o;
    if slow : bool then Ok "slow_response"
    else
      relax ← victron_ess_balance_can_relax_conservatism o;
      mret (if relax : bool then "can_relax_conservatism" else "telemetry_nominal").

(** update/victron_ess_balance_recommendation.py: VictronEssRecommendationEngine._victron_ess_balance_export_activation_mode *)
Definition victron_ess_balance_export_activation_mode (reserve : string) : string :=
  if (reserve =? "above_reserve_band")%string then "export_and_above_reserve_band" else "export_only".

(** update/victron_ess_balance_recommendation.py: VictronEssRecommendationEngine._victron_ess_balance_recommended_activation_mode *)
Definition victron_ess_balance_recommended_activation_mode (active_profile : dict) (v : service) : string :=
  let reserve := normalized_text (dict_get "reserve_phase" active_profile) in
  let regime := normalized_text (dict_get "site_regime" active_profile) in
  if (regime =? "export")%string then victron_ess_balance_export_activation_mode reserve
  else if (reserve =? "above_reserve_band")%string then "above_reserve_band"
  else victron_ess_balance_activation_mode v.

(** update/victron_ess_balance_recommendation.py: VictronEssRecommendationEngine._victron_ess_balance_recommendation_payload *)
Definition victron_ess_balance_recommendation_payload (active_profile_key : string) (use_profile : bool)
    (active_profile : dict) (o : observations) (confidence : float) (v : service) : res (odict string pyval) :=
  current ← victron_ess_balance_current_tuning_values v;
  reason ← victron_ess_balance_recommendation_reason o confidence;
  adjusted ← victron_ess_balance_adjusted_tuning current reason;
  let activation_mode :=
    victron_ess_balance_recommended_activation_mode (if use_profile then active_profile else []) v in
  let rounded x := VFloat (py_round 4 x) in
  mret [(mt "recommended_kp", rounded adjusted.(tn_kp)); (mt "recommended_ki", rounded adjusted.(tn_ki));
        (mt "recommended_kd", rounded adjusted.(tn_kd));
        (mt "recommended_deadband_watts", rounded adjusted.(tn_deadband));
        (mt "recommended_max_abs_watts", rounded adjusted.(tn_max_abs));
        (mt "recommended_ramp_rate_watts_per_second", rounded adjusted.(tn_ramp));
        (mt "recommended_activation_mode", VStr activation_mode);
        (mt "recommendation_confidence", rounded confidence);
        (mt "recommendation_regime_consistency_score", val_of_float o.(ob_regime_consistency_score));
        (mt "recommendation_response_variance_score", val_of_float o.(ob_response_variance_score));
        (mt "recommendation_reproducibility_score", val_of_float o.(ob_reproducibility_score));
        (mt "recommendation_reason", VStr reason);
        (mt "recommendation_profile_key", VStr (if use_profile then active_profile_key else ""));
        (mt "recommendation_ini_snippet",
         VStr (victron_ess_balance_recommendation_ini_snippet adjusted activation_mode));
        (mt "recommendation_hint", VStr (victron_ess_balance_recommendation_hint reason confidence))].

(** update/victron_ess_balance_recommendation.py: VictronEssRecommendationEngine._victron_ess_balance_recommendation_metrics *)
Definition victron_ess_balance_recommendation_metrics : M ess (odict string pyval) :=
  s ← get;
  if negb (py_bool (getattr (cfg "enabled") VNone s.(attrs))) then mret victron_ess_balance_disabled_recommendation_metrics
  else
    '(active_profile_key, active_profile, use_profile) ← victron_ess_balance_recommendation_source;
    o ← reads (victron_ess_balance_recommendation_observations active_profile use_profile);
    confidence ← lift (victron_ess_balance_recommendation_confidence o.(ob_delay_samples) o.(ob_gain_samples)
      o.(ob_stability_score) o.(ob_regime_consistency_score) o.(ob_response_variance_score) o.(ob_reproducibility_score));
    reads (victron_ess_balance_recommendation_payload active_profile_key use_profile active_profile o confidence).

(** update/victron_ess_balance_recommendation.py: VictronEssRecommendationEngine._victron_ess_balance_telemetry_float_metrics *)
Definition victron_ess_balance_telemetry_float_metrics (v : service) : res (odict string pyval) :=
  map_res (fun '(name, attr_name) => x ← optional_float (getattr (rt attr_name) VNone v); mret (mt name, val_of_float x))
    [("response_delay_seconds", "telemetry_response_delay_seconds"); ("estimated_gain", "telemetry_estimated_gain");
     ("overshoot_cooldown_until", "overshoot_cooldown_until"); ("stability_score", "telemetry_stability_score")].

(** update/victron_ess_balance_recommendation.py: VictronEssRecommendationEngine._victron_ess_balance_telemetry_bool_metrics *)
Definition victron_ess_balance_telemetry_bool_metrics (v : service) : odict string pyval :=
  map (fun name => (mt name, flag (py_bool (getattr (rt ("telemetry_" ++ name)) VNone v)))) ["overshoot_active"; "settling_active"].

(** update/victron_ess_balance_recommendation.py: VictronEssRecommendationEngine._victron_ess_balance_telemetry_count_metrics *)
Definition victron_ess_balance_telemetry_count_metrics (v : service) : res (odict string pyval) :=
  map_res (fun name =>
    let value := getattr (rt ("telemetry_" ++ name)) VNone v in
    n ← (if py_bool value then py_int value else Ok 0);
    mret (mt name, VInt n)) ["overshoot_count"; "settled_count"].

(** update/victron_ess_balance_recommendation.py: VictronEssRecommendationEngine._populate_victron_ess_balance_recommendation_telemetry_metrics *)
Definition populate_victron_ess_balance_recommendation_telemetry_metrics (observed_at : float) : M ess unit :=
  floats ← reads victron_ess_balance_telemetry_float_metrics;
  update_metrics floats;;
  s ← get;
  update_metrics (victron_ess_balance_telemetry_bool_metrics s.(attrs));;
  counts ← reads victron_ess_balance_telemetry_count_metrics;
  update_metrics counts;;
  active ← reads (VictronEssSafetyRecovery.victron_ess_balance_overshoot_cooldown_active observed_at);
  set_metric "overshoot_cooldown_active" (flag active);;
  set_metric "overshoot_cooldown_reason" (VStr (text_or (rt "overshoot_cooldown_reason") "" s.(attrs)));;
  VictronEssSafetyController.populate_victron_ess_balance_runtime_safety_metrics observed_at.

(** update/victron_ess_balance_recommendation.py: VictronEssRecommendationEngine._populate_victron_ess_balance_telemetry_metrics *)
Definition populate_victron_ess_balance_telemetry_metrics : M ess unit :=
  observed ← reads (fun v => optional_float (getattr (rt "telemetry_last_observed_at") VNone v));
  populate_victron_ess_balance_recommendation_telemetry_metrics (default f0 observed);;
  s ← get;
  merge_victron_ess_balance_learning_profile_metrics
    (normalized_text (getattr (rt "active_learning_profile_key") VNone s.(attrs)));;
  fields ← victron_ess_balance_recommendation_metrics;
  update_metrics fields.

End VictronEssRecommendationEngine.
