(* ===== verification/EssTelemetry.v ===== *)
(** * ESS balance: telemetry and adaptive tuning

    [update/victron_ess_balance_learning_telemetry.py]: what became of the last setpoint command
    is learned, as long as the telemetry is clean.  [update/victron_ess_balance_adaptive.py]: a
    recommendation that earned enough confidence is applied in small steps, one setting at a
    time, and is rolled back when the site becomes unstable. *)

From S2P Require Import Prelude PyFloat PyValue OrderedMap EssSources EssProfiles EssSafety EssAdvice.
Import VictronEssSourceResolver.

(** ** The telemetry recorder
    update/victron_ess_balance_learning_telemetry.py *)
Module VictronEssTelemetryRecorder.
Import VictronEssTelemetryScorer VictronEssLearningProfiles VictronEssSafetyController.

(** update/victron_ess_balance_learning_telemetry.py: VictronEssTelemetryRecorder._victron_ess_balance_telemetry_command_state *)
Record command_state := mkCommandState {
  command_at : option float; command_error_w : option float; command_setpoint_w : option float;
  command_profile_key : string; command_response_recorded : bool; command_overshoot_recorded : bool;
  command_settled_recorded : bool }.

#[export] Instance eta_command : Eta command_state := fun c =>
  mkCommandState c.(command_at) c.(command_error_w) c.(command_setpoint_w) c.(command_profile_key)
    c.(command_response_recorded) c.(command_overshoot_recorded) c.(command_settled_recorded).

(** update/victron_ess_balance_learning_telemetry.py: VictronEssTelemetryRecorder._victron_ess_balance_telemetry_command_state *)
Definition victron_ess_balance_telemetry_command_state (profile_key : string) (v : service) : res command_state :=
  let flag name := a ← attribute (rt name) v; mret (py_bool a) in
  at_ ← float_attribute (rt "telemetry_last_command_at") v;
  error_w ← float_attribute (rt "telemetry_last_command_error_w") v;
  setpoint_w ← float_attribute (rt "telemetry_last_command_setpoint_w") v;
  key ← attribute (rt "telemetry_last_command_profile_key") v;
  response ← flag "telemetry_command_response_recorded";
  overshoot ← flag "telemetry_command_overshoot_recorded";
  settled ← flag "telemetry_command_settled_recorded";
  mret (mkCommandState at_ error_w setpoint_w (py_strip (py_str_or key profile_key)) response overshoot settled).

(** The improvement over the error at the command, the current error and the bias of the setpoint.
    update/victron_ess_balance_learning_telemetry.py: VictronEssTelemetryRecorder._victron_ess_balance_improvement_stats *)
Record improvement_stats := mkImprovementStats {
  initial_abs_error_w : float; current_abs_error_w : float; improvement_w : float; setpoint_bias_w : float }.

(** update/victron_ess_balance_learning_telemetry.py: VictronEssTelemetryRecorder._victron_ess_balance_improvement_stats *)
Definition victron_ess_balance_improvement_stats
    (source_error_w command_error_w_f command_setpoint_w_f base_setpoint_w : float) : improvement_stats :=
  let initial := fabs command_error_w_f in
  let current := fabs source_error_w in
  mkImprovementStats initial current (fmax f0 (initial - current)%F) (fabs (command_setpoint_w_f - base_setpoint_w)%F).

(** update/victron_ess_balance_learning_telemetry.py: VictronEssTelemetryRecorder._victron_ess_balance_is_overshoot *)
Definition victron_ess_balance_is_overshoot
    (source_error_w command_error_w_f current_abs_error_w improvement_threshold_w : float) : bool :=
  (command_error_w_f * source_error_w <? f0)%F && (current_abs_error_w >=? improvement_threshold_w)%F.

(** update/victron_ess_balance_learning_telemetry.py: VictronEssTelemetryRecorder._victron_ess_balance_telemetry_thresholds *)
Definition victron_ess_balance_telemetry_thresholds (v : service) : res (float * float) :=
  deadband ← attribute (cfg "deadband_watts") v;
  deadband_w ← py_float deadband;
  base ← attribute (cfg "base_setpoint_watts") v;
  base_setpoint_w ← py_float base;
  mret (fmax f0 deadband_w, base_setpoint_w).

(** update/victron_ess_balance_learning_profiles_support.py: _victron_ess_balance_update_service_sample *)
Definition victron_ess_balance_update_service_sample (sample : float) (samples_attr value_attr : string) : M ess unit :=
  samples ← reads (fun v =>
    let raw := getattr samples_attr VNone v in n ← (if py_bool raw then py_int raw else Ok 0); mret (Z.max 0 n));
  current_value ← reads (fun v => optional_float (getattr value_attr VNone v));
  set_attr value_attr (VFloat (ewma_learned_value current_value sample samples));;
  set_attr samples_attr (VInt (samples + 1)).

(** update/victron_ess_balance_learning_telemetry.py: VictronEssTelemetryRecorder._victron_ess_balance_update_response_delay *)
Definition victron_ess_balance_update_response_delay (key : string) (response_delay_seconds : float) : M ess unit :=
  victron_ess_balance_update_service_sample response_delay_seconds (rt "telemetry_delay_samples")
    (rt "telemetry_response_delay_seconds");;
  victron_ess_balance_update_profile_delay key response_delay_seconds.

(** update/victron_ess_balance_learning_telemetry.py: VictronEssTelemetryRecorder._victron_ess_balance_update_gain *)
Definition victron_ess_balance_update_gain (key : string) (gain_sample : float) : M ess unit :=
  victron_ess_balance_update_service_sample gain_sample (rt "telemetry_gain_samples") (rt "telemetry_estimated_gain");;
  victron_ess_balance_update_profile_gain key gain_sample.

(** [svc.name = int(svc.name) + 1] *)
Definition count_up (name : string) : M ess unit :=
  n ← reads (fun v => a ← attribute name v; py_int a); set_attr name (VInt (n + 1)).

(** update/victron_ess_balance_learning_telemetry.py: VictronEssTelemetryRecorder._victron_ess_balance_mark_overshoot *)
Definition victron_ess_balance_mark_overshoot (now : float) (key : string) : M ess unit :=
  set_attr (rt "telemetry_command_overshoot_recorded") (VBool true);;
  count_up (rt "telemetry_overshoot_count");;
  victron_ess_balance_increment_profile_counter key "overshoot_count";;
  VictronEssSafetyRecovery.enter_victron_ess_balance_overshoot_cooldown now "overshoot_detected";;
  VictronEssPidController.reset_integral true.

(** update/victron_ess_balance_learning_telemetry.py: VictronEssTelemetryRecorder._victron_ess_balance_mark_settled *)
Definition victron_ess_balance_mark_settled (key : string) : M ess unit :=
  set_attr (rt "telemetry_command_settled_recorded") (VBool true);;
  count_up (rt "telemetry_settled_count");;
  victron_ess_balance_increment_profile_counter key "settled_count".

(** update/victron_ess_balance_learning_telemetry.py: VictronEssTelemetryRecorder._victron_ess_balance_maybe_record_response_delay *)
Definition victron_ess_balance_maybe_record_response_delay (now : float) (c : command_state)
    (improvement improvement_threshold_w command_at_f : float) : M ess command_state :=
  if c.(command_response_recorded) || (improvement <? improvement_threshold_w)%F then mret c
  else
    victron_ess_balance_update_response_delay c.(command_profile_key) (fmax f0 (now - command_at_f)%F);;
    set_attr (rt "telemetry_command_response_recorded") (VBool true);;
    mret (c <| command_response_recorded := true |>).

(** update/victron_ess_balance_learning_telemetry.py: VictronEssTelemetryRecorder._victron_ess_balance_maybe_record_gain *)
Definition victron_ess_balance_maybe_record_gain (key : string) (improvement setpoint_bias : float) : M ess unit :=
  if (improvement <=? f0)%F || (setpoint_bias <? f1)%F then mret tt
  else victron_ess_balance_update_gain key (improvement / setpoint_bias)%F.

(** update/victron_ess_balance_learning_telemetry.py: VictronEssTelemetryRecorder._victron_ess_balance_maybe_mark_overshoot *)
Definition victron_ess_balance_maybe_mark_overshoot (now source_error_w : float) (c : command_state)
    (command_error_w_f current_abs_error improvement_threshold_w : float) : M ess command_state :=
  if c.(command_overshoot_recorded) then mret c
  else if negb (victron_ess_balance_is_overshoot source_error_w command_error_w_f current_abs_error improvement_threshold_w)
  then mret c
  else
    victron_ess_balance_mark_overshoot now c.(command_profile_key);;
    mret (c <| command_overshoot_recorded := true |>).

(** update/victron_ess_balance_learning_telemetry.py: VictronEssTelemetryRecorder._victron_ess_balance_maybe_mark_settled *)
Definition victron_ess_balance_maybe_mark_settled (c : command_state) (current_abs_error deadband_w : float)
    : M ess command_state :=
  if c.(command_settled_recorded) || (current_abs_error >? deadband_w)%F then mret c
  else
    victron_ess_balance_mark_settled c.(command_profile_key);;
    mret (c <| command_settled_recorded := true |>).

(** The episode is active: the time, the error and the setpoint of the command are numbers.
    update/victron_ess_balance_learning_telemetry.py: VictronEssTelemetryRecorder._victron_ess_balance_process_clean_episode *)
Definition victron_ess_balance_process_clean_episode (now source_error_w : float) (c : command_state)
    (command_at_f command_error_w_f command_setpoint_w_f improvement_threshold_w base_setpoint_w deadband_w : float)
    : M ess (bool * bool) :=
  let stats :=
    victron_ess_balance_improvement_stats source_error_w command_error_w_f command_setpoint_w_f base_setpoint_w in
  c ← victron_ess_balance_maybe_record_response_delay now c stats.(improvement_w) improvement_threshold_w command_at_f;
  victron_ess_balance_maybe_record_gain c.(command_profile_key) stats.(improvement_w) stats.(setpoint_bias_w);;
  c ← victron_ess_balance_maybe_mark_overshoot now source_error_w c command_error_w_f stats.(current_abs_error_w)
        improvement_threshold_w;
  c ← victron_ess_balance_maybe_mark_settled c stats.(current_abs_error_w) deadband_w;
  mret (c.(command_overshoot_recorded), negb c.(command_settled_recorded) && negb c.(command_overshoot_recorded)).

(** [svc.name = self._optional_float(value)] *)
Definition set_number (name : string) (value : pyval) : M ess unit :=
  x ← lift (optional_float value); set_attr name (val_of_float x).

(** What the cycle observed becomes the reference of the next one, with the scores.
    update/victron_ess_balance_learning_telemetry.py: VictronEssTelemetryRecorder._update_victron_ess_balance_telemetry (lines 304-320) *)
Definition record_observation (now : float) (cluster : dict) (source_error_w : float) (overshoot_active settling_active : bool)
    (key : string) : M ess unit :=
  set_attr (rt "telemetry_overshoot_active") (VBool overshoot_active);;
  set_attr (rt "telemetry_settling_active") (VBool settling_active);;
  set_attr (rt "telemetry_last_observed_error_w") (VFloat source_error_w);;
  set_attr (rt "telemetry_last_observed_at") (VFloat now);;
  set_number (rt "telemetry_last_grid_interaction_w") (dict_get "battery_combined_grid_interaction_w" cluster);;
  set_number (rt "telemetry_last_ac_power_w") (dict_get "battery_combined_ac_power_w" cluster);;
  ev_power_w ← reads victron_ess_balance_ev_power_w;
  set_attr (rt "telemetry_last_ev_power_w") (val_of_float ev_power_w);;
  score ← reads stability_score;
  set_attr (rt "telemetry_stability_score") (VFloat score);;
  victron_ess_balance_refresh_profile_stability key;;
  VictronEssRecommendationEngine.populate_victron_ess_balance_telemetry_metrics.

(** update/victron_ess_balance_learning_telemetry.py: VictronEssTelemetryRecorder._update_victron_ess_balance_telemetry *)
Definition update_victron_ess_balance_telemetry (now : float) (cluster : dict) (source_error_w : float) (profile_key : string)
    : M ess unit :=
  c ← reads (victron_ess_balance_telemetry_command_state profile_key);
  '(deadband_w, base_setpoint_w) ← reads victron_ess_balance_telemetry_thresholds;
  let improvement_threshold_w := fmax (f_of_Z 10) (deadband_w * fdec 5 10)%F in
  '(telemetry_clean, telemetry_clean_reason) ← reads (victron_ess_balance_telemetry_is_clean cluster source_error_w);
  set_metric "telemetry_clean" (flag telemetry_clean);;
  set_metric "telemetry_clean_reason" (VStr telemetry_clean_reason);;
  '(overshoot_active, settling_active) ←
    match c.(command_at), c.(command_error_w), c.(command_setpoint_w) with
    | Some at_, Some error_w, Some setpoint_w =>
      if telemetry_clean : bool then
        victron_ess_balance_process_clean_episode now source_error_w c at_ error_w setpoint_w improvement_threshold_w
          base_setpoint_w deadband_w
      else mret (false, false)
    | _, _, _ => mret (false, false)
    end;
  record_observation now cluster source_error_w overshoot_active settling_active
    (py_str_or (VStr c.(command_profile_key)) profile_key).

(** The flags of one episode. *)
Definition set_episode (settling : bool) : M ess unit :=
  set_attr (rt "telemetry_command_response_recorded") (VBool false);;
  set_attr (rt "telemetry_command_overshoot_recorded") (VBool false);;
  set_attr (rt "telemetry_command_settled_recorded") (VBool false);;
  set_attr (rt "telemetry_overshoot_active") (VBool false);;
  set_attr (rt "telemetry_settling_active") (VBool settling).

(** update/victron_ess_balance_learning_profiles_support.py: _record_victron_ess_balance_tracking_command *)
Definition record_victron_ess_balance_command (now setpoint_w source_error_w : float) (profile_key : string) : M ess unit :=
  set_attr (rt "telemetry_last_command_at") (VFloat now);;
  set_attr (rt "telemetry_last_command_setpoint_w") (VFloat setpoint_w);;
  set_attr (rt "telemetry_last_command_error_w") (VFloat source_error_w);;
  set_attr (rt "telemetry_last_command_profile_key") (VStr (py_strip profile_key));;
  set_episode true.

(** update/victron_ess_balance_learning_profiles_support.py: _clear_victron_ess_balance_tracking_episode_state *)
Definition clear_victron_ess_balance_tracking_episode : M ess unit :=
  set_attr (rt "telemetry_last_command_at") VNone;;
  set_attr (rt "telemetry_last_command_setpoint_w") VNone;;
  set_attr (rt "telemetry_last_command_error_w") VNone;;
  set_attr (rt "telemetry_last_command_profile_key") (VStr "");;
  set_episode false.

End VictronEssTelemetryRecorder.

(** ** The adaptive tuner
    update/victron_ess_balance_adaptive.py *)
Module VictronEssAdaptiveTuner.
Import VictronEssSafetyController VictronEssSafetyRecovery.
Section tuner.
Context {world : EssWorld}.

(** update/victron_ess_balance_adaptive.py: VictronEssAdaptiveTuner._victron_ess_balance_profile_keys *)
Definition victron_ess_balance_profile_keys (m : odict string pyval) : string * string :=
  (py_strip (py_str_or (metric "recommendation_profile_key" m) ""), py_strip (py_str_or (metric "learning_profile_key" m) "")).

(** [metrics[name] = self._optional_float(svc.attr)] and [metrics[name] = str(svc.attr)] *)
Definition float_metric (name attr_name : string) : M ess unit :=
  x ← reads (float_attribute (rt attr_name)); set_metric name (val_of_float x).
Definition text_metric (name attr_name : string) : M ess unit :=
  a ← reads (attribute (rt attr_name)); set_metric name (VStr (py_str a)).
(** [metrics[name] = int(bool(svc.attr))] *)
Definition bool_metric (name attr_name : string) : M ess unit :=
  a ← reads (attribute attr_name); set_metric name (flag (py_bool a)).
(** [metrics[name] = int(svc._victron_ess_balance_auto_apply_generation)] *)
Definition generation_metric : M ess unit :=
  n ← reads (fun v => a ← attribute (rt "auto_apply_generation") v; py_int a);
  set_metric "auto_apply_generation" (VInt n).

(** update/victron_ess_balance_adaptive.py: VictronEssAdaptiveTuner._initialize_victron_ess_balance_auto_apply_runtime_metrics *)
Definition initialize_victron_ess_balance_auto_apply_runtime_metrics (now : float) : M ess unit :=
  bool_metric "auto_apply_enabled" (cfg "auto_apply_enabled");;
  set_metric "auto_apply_active" (VInt 0);;
  set_metric "auto_apply_reason" (VStr "disabled");;
  generation_metric;;
  set_metric "auto_apply_observation_window_active" (VInt 0);;
  float_metric "auto_apply_observation_window_until" "auto_apply_observe_until";;
  text_metric "auto_apply_last_param" "auto_apply_last_applied_param";;
  suspended ← reads (victron_ess_balance_auto_apply_suspended now);
  set_metric "auto_apply_suspend_active" (flag suspended);;
  text_metric "auto_apply_suspend_reason" "auto_apply_suspend_reason";;
  float_metric "auto_apply_suspend_until" "auto_apply_suspend_until".

(** update/victron_ess_balance_adaptive.py: VictronEssAdaptiveTuner._initialize_victron_ess_balance_rollback_metrics *)
Definition initialize_victron_ess_balance_rollback_metrics : M ess unit :=
  bool_metric "rollback_enabled" (cfg "rollback_enabled");;
  set_metric "rollback_active" (VInt 0);;
  set_metric "rollback_reason" (VStr "disabled");;
  text_metric "rollback_stable_profile_key" "last_stable_profile_key".

(** update/victron_ess_balance_adaptive.py: VictronEssAdaptiveTuner._initialize_victron_ess_balance_safe_state_metrics *)
Definition initialize_victron_ess_balance_safe_state_metrics : M ess unit :=
  bool_metric "safe_state_active" (rt "safe_state_active");; text_metric "safe_state_reason" "safe_state_reason".

(** update/victron_ess_balance_adaptive.py: VictronEssAdaptiveTuner._initialize_victron_ess_balance_auto_apply_metrics *)
Definition initialize_victron_ess_balance_auto_apply_metrics (now : float) : M ess unit :=
  initialize_victron_ess_balance_auto_apply_runtime_metrics now;;
  initialize_victron_ess_balance_rollback_metrics;;
  initialize_victron_ess_balance_safe_state_metrics.

(** [float(svc.name)], [int(svc.name)] *)
Definition float_setting (name : string) (v : service) : res float := a ← attribute (cfg name) v; py_float a.
Definition int_setting (name : string) (v : service) : res Z := a ← attribute (cfg name) v; py_int a.

(** update/victron_ess_balance_adaptive.py: VictronEssAdaptiveTuner._victron_ess_balance_auto_apply_thresholds *)
Definition victron_ess_balance_auto_apply_thresholds (v : service) : res (float * float * Z) :=
  min_confidence ← float_setting "auto_apply_min_confidence" v;
  min_stability ← float_setting "auto_apply_min_stability_score" v;
  min_samples ← int_setting "auto_apply_min_profile_samples" v;
  mret (fmax f0 min_confidence, fmax f0 min_stability, Z.max 1 min_samples).

(** [value is None or value < minimum] *)
Definition too_low (value : option float) (minimum : float) : bool :=
  match value with Some x => (x <? minimum)%F | None => true end.

(** update/victron_ess_balance_adaptive.py: VictronEssAdaptiveTuner._victron_ess_balance_auto_apply_confidence_reason *)
Definition victron_ess_balance_auto_apply_confidence_reason (m : odict string pyval) (v : service) : res string :=
  confidence ← optional_float (metric "recommendation_confidence" m);
  '(min_confidence, _, _) ← victron_ess_balance_auto_apply_thresholds v;
  mret (if too_low confidence min_confidence then "confidence_too_low" else "").

(** update/victron_ess_balance_adaptive.py: VictronEssAdaptiveTuner._victron_ess_balance_auto_apply_stability_reason *)
Definition victron_ess_balance_auto_apply_stability_reason (m : odict string pyval) (v : service) : res string :=
  stability ← optional_float (metric "learning_profile_stability_score" m);
  '(_, min_stability, _) ← victron_ess_balance_auto_apply_thresholds v;
  mret (if too_low stability min_stability then "stability_too_low" else "").

(** update/victron_ess_balance_adaptive.py: VictronEssAdaptiveTuner._victron_ess_balance_auto_apply_sample_reason *)
Definition victron_ess_balance_auto_apply_sample_reason (m : odict string pyval) (v : service) : res string :=
  let raw := metric "learning_profile_sample_count" m in
  n ← (if py_bool raw then py_int raw else Ok 0);
  '(_, _, min_samples) ← victron_ess_balance_auto_apply_thresholds v;
  mret (if Z.max 0 n <? min_samples then "insufficient_profile_samples" else "").

(** update/victron_ess_balance_adaptive.py: VictronEssAdaptiveTuner._victron_ess_balance_auto_apply_profile_reason *)
Definition victron_ess_balance_auto_apply_profile_reason (m : odict string pyval) : string :=
  let '(recommendation_profile_key, active_profile_key) := victron_ess_balance_profile_keys m in
  if (recommendation_profile_key =? "")%string || negb (recommendation_profile_key =? active_profile_key)%string
  then "profile_mismatch" else "".

(** [first] unless it is the empty reason. *)
Definition or_reason (first : res string) (next : res string) : res string :=
  reason ← first; if (reason =? "")%string then next else Ok reason.

(** update/victron_ess_balance_adaptive.py: VictronEssAdaptiveTuner._victron_ess_balance_auto_apply_readiness *)
Definition victron_ess_balance_auto_apply_readiness (m : odict string pyval) (v : service) : res string :=
  or_reason (victron_ess_balance_auto_apply_confidence_reason m v)
  (or_reason (victron_ess_balance_auto_apply_stability_reason m v)
  (or_reason (victron_ess_balance_auto_apply_sample_reason m v)
     (Ok (victron_ess_balance_auto_apply_profile_reason m)))).

(** update/victron_ess_balance_adaptive.py: VictronEssAdaptiveTuner._victron_ess_balance_auto_apply_blend *)
Definition victron_ess_balance_auto_apply_blend (v : service) : res float :=
  x ← float_setting "auto_apply_blend" v; mret (fmax f0 (fmin f1 x)).

(** update/victron_ess_balance_adaptive.py: VictronEssAdaptiveTuner._victron_ess_balance_auto_apply_observation_until *)
Definition victron_ess_balance_auto_apply_observation_until (now : float) (v : service) : res (option float) :=
  x ← float_setting "observation_window_seconds" v;
  let observation_seconds := fmax f0 x in
  mret (if (observation_seconds <=? f0)%F then None else Some (now + observation_seconds)%F).

(** update/victron_ess_balance_adaptive.py: VictronEssAdaptiveTuner._victron_ess_balance_save_runtime_state *)
Definition victron_ess_balance_save_runtime_state : M ess unit :=
  match save_runtime_state with
  | None => mret tt
  | Some save =>
    s ← get;
    let outcome := save s.(calls) in
    VictronEssSetpointWriter.log_call RuntimeStateSaved;;
    lift outcome
  end.

(** update/victron_ess_balance_adaptive.py: VictronEssAdaptiveTuner._blend_recommended_setting *)
Definition blend_recommended_setting (attr_name : string) (recommendation : pyval) (blend : float) : M ess bool :=
  s ← get;
  match recommendation, s.(attrs) !! attr_name with
  | VNone, _ | _, None => mret false
  | _, Some current =>
    current_value ← lift (py_float current);
    target_value ← lift (py_float recommendation);
    if (fabs (current_value - target_value) <? fdec 1 1000000)%F then mret false
    else
      set_attr attr_name (VFloat ((f1 - blend) * current_value + blend * target_value)%F);;
      mret true
  end.

(** update/victron_ess_balance_adaptive.py: VictronEssAdaptiveTuner._victron_ess_balance_recommended_setting_pairs *)
Definition victron_ess_balance_recommended_setting_pairs : list (string * string) :=
  map (fun name => (cfg name, ("recommended_" ++ name)%string))
    ["deadband_watts"; "max_abs_watts"; "ramp_rate_watts_per_second"; "kp"; "ki"; "kd"].

(** update/victron_ess_balance_adaptive.py: VictronEssAdaptiveTuner._victron_ess_balance_recommended_activation_step *)
Definition victron_ess_balance_recommended_activation_step : M ess string :=
  s ← get;
  let recommended := py_strip (py_str_or (metric "recommended_activation_mode" s.(metrics)) "") in
  if negb (recommended =? "")%string && negb (recommended =? victron_ess_balance_activation_mode s.(attrs))%string
  then set_attr (cfg "activation_mode") (VStr recommended);; mret (cfg "activation_mode")
  else mret "".

(** The first setting that moves ends the step.
    update/victron_ess_balance_adaptive.py: VictronEssAdaptiveTuner._apply_victron_ess_balance_recommended_tuning_step (lines 287-290) *)
Fixpoint recommended_step (pairs : list (string * string)) (blend : float) : M ess string :=
  match pairs with
  | [] => victron_ess_balance_recommended_activation_step
  | (attr_name, recommendation_key) :: pairs' =>
    s ← get;
    moved ← blend_recommended_setting attr_name (metric recommendation_key s.(metrics)) blend;
    if moved : bool then mret attr_name else recommended_step pairs' blend
  end.

(** update/victron_ess_balance_adaptive.py: VictronEssAdaptiveTuner._apply_victron_ess_balance_recommended_tuning_step *)
Definition apply_victron_ess_balance_recommended_tuning_step (blend : float) : M ess string :=
  recommended_step victron_ess_balance_recommended_setting_pairs blend.

(** update/victron_ess_balance_adaptive.py: VictronEssAdaptiveTuner._apply_victron_ess_balance_auto_apply_step *)
Definition apply_victron_ess_balance_auto_apply_step (now : float) : M ess bool :=
  blend ← reads victron_ess_balance_auto_apply_blend;
  changed_param ← apply_victron_ess_balance_recommended_tuning_step blend;
  if (changed_param =? "")%string then
    set_metric "auto_apply_reason" (VStr "already_at_recommendation");; mret false
  else
    generation ← reads (fun v => a ← attribute (rt "auto_apply_generation") v; py_int a);
    set_attr (rt "auto_apply_generation") (VInt (Z.max 0 generation + 1));;
    observe_until ← reads (victron_ess_balance_auto_apply_observation_until now);
    set_attr (rt "auto_apply_observe_until") (val_of_float observe_until);;
    set_attr (rt "auto_apply_last_applied_param") (VStr changed_param);;
    set_attr (rt "auto_apply_last_applied_at") (VFloat now);;
    set_metric "auto_apply_active" (VInt 1);;
    set_metric "auto_apply_reason" (VStr "applied_step");;
    set_metric "auto_apply_generation" (VInt (Z.max 0 generation + 1));;
    set_metric "auto_apply_last_param" (VStr changed_param);;
    set_metric "auto_apply_observation_window_until" (val_of_float observe_until);;
    victron_ess_balance_save_runtime_state;;
    mret true.

(** update/victron_ess_balance_adaptive.py: VictronEssAdaptiveTuner._victron_ess_balance_auto_apply_suspend_reason *)
Definition victron_ess_balance_auto_apply_suspend_reason (now : float) : M ess string :=
  suspended ← reads (victron_ess_balance_auto_apply_suspended now);
  mret (if suspended : bool then "auto_apply_suspended" else "").

(** update/victron_ess_balance_adaptive.py: VictronEssAdaptiveTuner._victron_ess_balance_auto_apply_rollback_reason *)
Definition victron_ess_balance_auto_apply_rollback_reason (now : float) : M ess string :=
  rollback ← victron_ess_balance_should_rollback_stable_tuning now;
  if negb rollback then mret ""
  else
    restored ← maybe_restore_victron_ess_balance_stable_tuning "unstable_observation_window";
    mret (if restored : bool then "rolled_back" else "").

(** update/victron_ess_balance_adaptive.py: VictronEssAdaptiveTuner._victron_ess_balance_auto_apply_observation_reason *)
Definition victron_ess_balance_auto_apply_observation_reason (now : float) : M ess string :=
  observe_until ← reads (float_attribute (rt "auto_apply_observe_until"));
  if match observe_until with Some t => (now >=? t)%F | None => true end then mret ""
  else
    set_metric "auto_apply_observation_window_active" (VInt 1);;
    mret "observation_window_active".

(** update/victron_ess_balance_adaptive.py: VictronEssAdaptiveTuner._victron_ess_balance_auto_apply_blocker_reason *)
Definition victron_ess_balance_auto_apply_blocker_reason (now : float) : M ess string :=
  reason ← victron_ess_balance_auto_apply_suspend_reason now;
  if negb (reason =? "")%string then mret reason
  else
    reason ← victron_ess_balance_auto_apply_rollback_reason now;
    if negb (reason =? "")%string then mret reason
    else
      reason ← victron_ess_balance_auto_apply_observation_reason now;
      if negb (reason =? "")%string then mret reason
      else s ← get; lift (victron_ess_balance_auto_apply_readiness s.(metrics) s.(attrs)).

(** update/victron_ess_balance_adaptive.py: VictronEssAdaptiveTuner._maybe_auto_apply_victron_ess_balance_recommendation *)
Definition maybe_auto_apply_victron_ess_balance_recommendation (now : float) : M ess unit :=
  initialize_victron_ess_balance_auto_apply_metrics now;;
  enabled ← reads (attribute (cfg "auto_apply_enabled"));
  if negb (py_bool enabled) then mret tt
  else
    blocker_reason ← victron_ess_balance_auto_apply_blocker_reason now;
    if negb (blocker_reason =? "")%string then
      when (negb (blocker_reason =? "rolled_back")%string) (set_metric "auto_apply_reason" (VStr blocker_reason))
    else apply_victron_ess_balance_auto_apply_step now;; mret tt.

End tuner.
End VictronEssAdaptiveTuner.
