(* ===== verification/EssBalance.v ===== *)
(** * ESS balance: one cycle

    [update/victron_ess_balance_apply.py], composed as [update/victron_ess_balance.py] wires it:
    a cycle of the balance bias either tracks the error of one battery source with the grid
    setpoint, or takes the bias back to the base setpoint and says why. *)

From S2P Require Import Prelude PyFloat PyValue OrderedMap EssSources EssProfiles EssSafety EssAdvice EssTelemetry.
Import VictronEssSourceResolver.

Module VictronEssBalanceExecutor.
Import VictronEssLearningProfiles VictronEssSafetyRecovery VictronEssSafetyController VictronEssSetpointWriter
  VictronEssTelemetryRecorder VictronEssAdaptiveTuner.

(** The entries of the default metrics that belong to the bias.
    runtime/setup_support.py: default_auto_metrics (lines 72-150) *)
Definition default_bias_metrics : odict string pyval :=
  let zero name := (name, VInt 0) in
  let text name := (name, VStr "") in
  let none name := (name, VNone) in
  let said name value := (name, VStr value) in
  map (fun nv => (mt (fst nv), snd nv))
   ([zero "enabled"; zero "active"; text "source_id"; text "topology_key"; said "activation_mode" "always";
     zero "activation_gate_active"; said "support_mode" "supported_only"] ++
    map (fun name => text ("learning_profile_" ++ name)%string) victron_ess_balance_profile_scalar_fields ++
    [zero "learning_profile_sample_count"] ++
    map (fun name => (("learning_profile_" ++ name)%string, if str_in name ["overshoot_count"; "settled_count"] then VInt 0 else VNone))
      victron_ess_balance_profile_metric_fields ++
    [none "source_error_w"; ("pid_output_w", VFloat f0); none "setpoint_w"; zero "telemetry_clean";
     said "telemetry_clean_reason" "unknown"; none "response_delay_seconds"; none "estimated_gain"; zero "overshoot_active";
     zero "overshoot_count"; zero "overshoot_cooldown_active"; text "overshoot_cooldown_reason";
     none "overshoot_cooldown_until"; zero "settling_active"; zero "settled_count"; none "stability_score";
     zero "oscillation_lockout_enabled"; zero "oscillation_lockout_active"; text "oscillation_lockout_reason";
     none "oscillation_lockout_until"; zero "oscillation_direction_change_count"; none "recommended_kp";
     none "recommended_ki"; none "recommended_kd"; none "recommended_deadband_watts"; none "recommended_max_abs_watts";
     none "recommended_ramp_rate_watts_per_second"; text "recommended_activation_mode"; none "recommendation_confidence";
     none "recommendation_regime_consistency_score"; none "recommendation_response_variance_score";
     none "recommendation_reproducibility_score"; said "recommendation_reason" "disabled";
     text "recommendation_profile_key"; text "recommendation_ini_snippet"; text "recommendation_hint";
     zero "auto_apply_enabled"; zero "auto_apply_active"; said "auto_apply_reason" "disabled"; zero "auto_apply_generation";
     zero "auto_apply_observation_window_active"; none "auto_apply_observation_window_until"; text "auto_apply_last_param";
     zero "auto_apply_suspend_active"; text "auto_apply_suspend_reason"; none "auto_apply_suspend_until";
     zero "rollback_enabled"; zero "rollback_active"; said "rollback_reason" "disabled"; text "rollback_stable_profile_key";
     zero "safe_state_active"; text "safe_state_reason"; said "reason" "disabled"]).

(** update/victron_ess_balance_apply.py: VictronEssBalanceExecutor._victron_ess_balance_default_metrics *)
Definition victron_ess_balance_default_metrics (reason : string) : odict string pyval :=
  od_set (mt "reason") (VStr reason) default_bias_metrics.

(** update/victron_ess_balance_apply.py: VictronEssBalanceExecutor._victron_ess_balance_enabled *)
Definition victron_ess_balance_enabled (v : service) : bool := py_bool (getattr (cfg "enabled") VNone v).

(** update/victron_ess_balance_apply.py: VictronEssBalanceExecutor._initialize_victron_ess_balance_apply_metrics *)
Definition initialize_victron_ess_balance_apply_metrics : M ess unit :=
  s ← get;
  set_metric "enabled" (flag (victron_ess_balance_enabled s.(attrs)));;
  set_metric "support_mode" (VStr (victron_ess_balance_support_mode s.(attrs)));;
  set_metric "activation_mode" (VStr (victron_ess_balance_activation_mode s.(attrs)));;
  set_metric "auto_apply_enabled" (flag (py_bool (getattr (cfg "auto_apply_enabled") VNone s.(attrs)))).

(** update/victron_ess_balance_apply.py: VictronEssBalanceExecutor._disable_victron_ess_balance *)
Definition disable_victron_ess_balance : M ess unit :=
  merge_victron_ess_balance_metrics;; VictronEssPidController.reset.

(** update/victron_ess_balance_apply.py: VictronEssBalanceExecutor._victron_ess_balance_cluster_state *)
Definition victron_ess_balance_cluster_state (auto_mode_active : bool) (v : service) : res (dict * string) :=
  if negb auto_mode_active then Ok ([], "auto-mode-inactive")
  else
    let cluster := normalized_mapping (getattr "_last_energy_cluster" VNone v) in
    let raw_source_count := dict_get "battery_discharge_balance_eligible_source_count" cluster in
    if is_number raw_source_count then
      n ← py_int raw_source_count;
      mret (cluster, if n <? 2 then "insufficient-eligible-sources" else "")
    else Ok (cluster, "insufficient-eligible-sources").

(** A source with its error, or the reason why there is none.
    update/victron_ess_balance_apply.py: VictronEssBalanceExecutor._victron_ess_balance_resolved_source_state *)
Definition victron_ess_balance_resolved_source_state (source : dict) : M ess (option (dict * float) * string) :=
  let source_id := normalized_text (dict_get "source_id" source) in
  set_metric "source_id" (VStr source_id);;
  topology_key ← victron_ess_balance_current_topology_key source_id;
  set_metric "topology_key" (VStr topology_key);;
  if match dict_get "online" source with VNone => false | online => negb (py_bool online) end
  then mret (None, "victron-source-offline")
  else
    source_error_w ← lift (optional_float (dict_get "discharge_balance_error_w" source));
    set_metric "source_error_w" (val_of_float source_error_w);;
    match source_error_w with
    | None => mret (None, "victron-source-error-missing")
    | Some error_w =>
      s ← get;
      mret (if victron_ess_balance_source_support_allowed source s.(attrs) then (Some (source, error_w), "")
            else (None, "victron-source-support-blocked"))
    end.

(** update/victron_ess_balance_apply.py: VictronEssBalanceExecutor._victron_ess_balance_source_state *)
Definition victron_ess_balance_source_state (cluster : dict) : M ess (option (dict * float) * string) :=
  '(source, resolve_reason) ← reads (victron_ess_balance_source cluster);
  match source with
  | None => mret (None, resolve_reason)
  | Some source => victron_ess_balance_resolved_source_state source
  end.

(** update/victron_ess_balance_apply.py: VictronEssBalanceExecutor._prepare_victron_ess_balance_learning_state *)
Definition prepare_victron_ess_balance_learning_state (now : float) (cluster source : dict) (source_error_w : float)
    : M ess learning_profile :=
  p ← reads (victron_ess_balance_learning_profile cluster source source_error_w);
  set_victron_ess_balance_active_profile p;;
  ensure_victron_ess_balance_learning_profile_state p.(lp_key);;
  merge_victron_ess_balance_learning_profile_metrics p.(lp_key);;
  victron_ess_balance_refresh_stable_tuning now;;
  direction_change_count ← victron_ess_balance_note_action_direction p.(action_direction) now;
  set_metric "oscillation_direction_change_count" (VInt direction_change_count);;
  populate_victron_ess_balance_runtime_safety_metrics now;;
  mret p.

(** update/victron_ess_balance_apply.py: VictronEssBalanceExecutor._victron_ess_balance_safety_block_reason *)
Definition victron_ess_balance_safety_block_reason (now : float) : M ess string :=
  cooldown ← reads (victron_ess_balance_overshoot_cooldown_active now);
  if cooldown : bool then
    maybe_restore_victron_ess_balance_stable_tuning "overshoot_cooldown";; mret "overshoot-cooldown-active"
  else
    lockout ← reads (victron_ess_balance_oscillation_lockout_active now);
    if lockout : bool then
      maybe_restore_victron_ess_balance_stable_tuning "oscillation_lockout";; mret "oscillation-lockout-active"
    else
      set_attr (rt "safe_state_active") (VBool false);;
      set_attr (rt "safe_state_reason") (VStr "");;
      mret "".

(** update/victron_ess_balance_apply.py: VictronEssBalanceExecutor._prepare_victron_ess_balance_tracking_profile *)
Definition prepare_victron_ess_balance_tracking_profile (now : float) (cluster source : dict) (source_error_w : float)
    : M ess (option string * string) :=
  p ← prepare_victron_ess_balance_learning_state now cluster source source_error_w;
  safety_reason ← victron_ess_balance_safety_block_reason now;
  if negb (safety_reason =? "")%string then mret (None, safety_reason)
  else
    s ← get;
    mret (if victron_ess_balance_activation_allowed p.(site_regime) p.(reserve_phase) s.(attrs)
          then (Some p.(lp_key), "") else (None, "activation-mode-blocked")).

(** What a cycle tracks: the cluster, the error and the profile. *)
Record tracking := mkTracking { tr_cluster : dict; tr_source_error_w : float; tr_profile_key : string }.

(** The target to track or the reason why nothing is tracked.
    update/victron_ess_balance_apply.py: VictronEssBalanceExecutor._prepare_victron_ess_balance_tracking_state *)
Definition prepare_victron_ess_balance_tracking_state (now : float) (auto_mode_active : bool) : M ess (tracking + string) :=
  '(cluster, block_reason) ← reads (victron_ess_balance_cluster_state auto_mode_active);
  if negb (block_reason =? "")%string then mret (inr block_reason)
  else
    '(found, source_reason) ← victron_ess_balance_source_state cluster;
    match found with
    | None => mret (inr source_reason)
    | Some (source, source_error_w) =>
      '(profile_key, profile_reason) ← prepare_victron_ess_balance_tracking_profile now cluster source source_error_w;
      mret (match profile_key with
            | None => inr profile_reason
            | Some key => inl (mkTracking cluster source_error_w key)
            end)
    end.

(** update/victron_ess_balance_apply.py: VictronEssBalanceExecutor._victron_ess_balance_base_setpoint_w *)
Definition victron_ess_balance_base_setpoint_w (v : service) : res float :=
  let value := getattr (cfg "base_setpoint_watts") (VFloat (f_of_Z 50)) v in
  if py_bool value then py_float value else Ok f0.

(** update/victron_ess_balance_apply.py: VictronEssBalanceExecutor._victron_ess_balance_tracking_setpoint *)
Definition victron_ess_balance_tracking_setpoint (now source_error_w : float) : M ess float :=
  set_metric "activation_gate_active" (VInt 1);;
  output_w ← VictronEssPidController.victron_ess_balance_pid_output source_error_w now;
  base ← reads victron_ess_balance_base_setpoint_w;
  let setpoint_w := (base + output_w)%F in
  set_metric "pid_output_w" (VFloat output_w);;
  set_metric "setpoint_w" (VFloat setpoint_w);;
  set_metric "reason" (VStr "tracking");;
  set_attr (rt "pid_last_output_w") (VFloat output_w);;
  mret setpoint_w.

Section executor.
Context {world : EssWorld}.

(** update/victron_ess_balance_apply.py: VictronEssBalanceExecutor._victron_ess_balance_apply_write_outcome *)
Definition victron_ess_balance_apply_write_outcome (now setpoint_w source_error_w : float) (profile_key : string) : M ess unit :=
  accepted ← write_setpoint setpoint_w "tracking";
  if accepted : bool then
    set_attr (rt "last_write_at") (VFloat now);;
    set_attr (rt "last_setpoint_w") (VFloat setpoint_w);;
    record_victron_ess_balance_command now setpoint_w source_error_w profile_key;;
    set_metric "active" (VInt 1);;
    set_metric "reason" (VStr "applied")
  else set_metric "reason" (VStr "write-failed").

(** update/victron_ess_balance_apply.py: VictronEssBalanceExecutor._victron_ess_balance_tracking_write_state *)
Definition victron_ess_balance_tracking_write_state (now setpoint_w source_error_w : float) (profile_key : string) : M ess unit :=
  write ← reads (should_write now setpoint_w);
  if write : bool then victron_ess_balance_apply_write_outcome now setpoint_w source_error_w profile_key
  else
    last ← reads last_setpoint;
    match last with
    | Some _ => set_metric "active" (VInt 1);; set_metric "reason" (VStr "holding")
    | None => mret tt
    end.

(** update/victron_ess_balance_apply.py: VictronEssBalanceExecutor._finalize_victron_ess_balance_metrics *)
Definition finalize_victron_ess_balance_metrics (now : float) : M ess unit :=
  maybe_auto_apply_victron_ess_balance_recommendation now;; merge_victron_ess_balance_metrics.

(** update/victron_ess_balance_apply.py: VictronEssBalanceExecutor._apply_victron_ess_balance_tracking *)
Definition apply_victron_ess_balance_tracking (now : float) (t : tracking) : M ess unit :=
  setpoint_w ← victron_ess_balance_tracking_setpoint now t.(tr_source_error_w);
  update_victron_ess_balance_telemetry now t.(tr_cluster) t.(tr_source_error_w) t.(tr_profile_key);;
  victron_ess_balance_tracking_write_state now setpoint_w t.(tr_source_error_w) t.(tr_profile_key);;
  finalize_victron_ess_balance_metrics now.

(** The metrics and the adaptive step that end a restoring cycle.
    update/victron_ess_balance_apply.py: VictronEssBalanceExecutor._restore_victron_ess_balance_base_setpoint (lines 404-406) *)
Definition conclude_restore (now : float) : M ess unit :=
  VictronEssRecommendationEngine.populate_victron_ess_balance_telemetry_metrics;;
  finalize_victron_ess_balance_metrics now.

(** update/victron_ess_balance_apply.py: VictronEssBalanceExecutor._restore_victron_ess_balance_base_setpoint (lines 390-403) *)
Definition restore_write (now base_setpoint_w : float) (reason : string) : M ess unit :=
  write ← reads (should_write now base_setpoint_w);
  if negb write then
    set_metric "active" (VInt 1);; set_metric "reason" (VStr (reason ++ "-holding"))
  else
    accepted ← write_setpoint base_setpoint_w "restore";
    if accepted : bool then
      set_attr (rt "last_write_at") (VFloat now);;
      set_attr (rt "last_setpoint_w") VNone;;
      set_metric "reason" (VStr (reason ++ "-restored"))
    else
      set_metric "active" (VInt 1);; set_metric "reason" (VStr (reason ++ "-restore-failed")).

(** update/victron_ess_balance_apply.py: VictronEssBalanceExecutor._restore_victron_ess_balance_base_setpoint *)
Definition restore_victron_ess_balance_base_setpoint (now : float) (reason : string) : M ess unit :=
  base_setpoint_w ← reads victron_ess_balance_base_setpoint_w;
  VictronEssPidController.reset;;
  clear_victron_ess_balance_tracking_episode;;
  clear_victron_ess_balance_active_profile;;
  set_metric "setpoint_w" (VFloat base_setpoint_w);;
  set_metric "reason" (VStr reason);;
  set_metric "activation_gate_active" (VInt 0);;
  last ← reads last_setpoint;
  match last with None => mret tt | Some _ => restore_write now base_setpoint_w reason end;;
  conclude_restore now.

(** update/victron_ess_balance_apply.py: VictronEssBalanceExecutor.apply_victron_ess_balance_bias *)
Definition apply_victron_ess_balance_bias (now : float) (auto_mode_active : bool) : M ess unit :=
  modify (fun s => s <| metrics := victron_ess_balance_default_metrics "disabled" |>);;
  initialize_victron_ess_balance_apply_metrics;;
  s ← get;
  if negb (victron_ess_balance_enabled s.(attrs)) then disable_victron_ess_balance
  else
    prepared ← prepare_victron_ess_balance_tracking_state now auto_mode_active;
    match prepared with
    | inr prepare_reason => restore_victron_ess_balance_base_setpoint now prepare_reason
    | inl t => apply_victron_ess_balance_tracking now t
    end.

End executor.
End VictronEssBalanceExecutor.
