(* ===== verification/EssFrames.v ===== *)
(** * ESS balance: what the operations may change

    [writes W] relates the states before and after an operation that asks the gateway for no
    setpoint and leaves every attribute outside of [W] alone, also when it raises.  Each operation
    of the balance has a lemma with its own list; [writes_go] composes them. *)

From S2P Require Import Prelude PyFloat PyValue OrderedMap EssSources EssProfiles EssSafety EssAdvice EssTelemetry EssBalance.
Import VictronEssSourceResolver.

(** The setpoint requests of a log. *)
Definition setpoints (l : list ess_call) : list (float * string * res bool) :=
  omap (M := list) (fun c => match c with SetpointWrite v intent o => Some (v, intent, o) | _ => None end) l.

Lemma setpoints_app l l' : setpoints (l ++ l') = setpoints l ++ setpoints l'.
Proof. apply omap_app. Qed.

Definition writes (W : list string) (s s' : ess) : Prop :=
  setpoints s'.(calls) = setpoints s.(calls) /\ s'.(energy_sources) = s.(energy_sources) /\
  forall k, str_in k W = false -> s'.(attrs) !! k = s.(attrs) !! k.

#[export] Instance writes_preorder W : PreOrder (writes W).
Proof.
  split; [by intros s|]. intros s1 s2 s3 (H1 & H2 & H3) (K1 & K2 & K3).
  split_and!; [congruence | congruence | intros k Hk; by rewrite K3, H3].
Qed.

(** [W1] is a part of [W2]. *)
Definition within (W1 W2 : list string) : bool := forallb (fun k => str_in k W2) W1.

Lemma writes_sub W1 W2 s s' : writes W1 s s' -> within W1 W2 = true -> writes W2 s s'.
Proof.
  intros (H1 & H2 & H3) Hw. split_and!; [done..|]. intros k Hk. apply H3.
  destruct (str_in k W1) eqn:E; [|done]. apply str_in_spec, list_elem_of_In in E.
  unfold within in Hw. rewrite forallb_forall in Hw. specialize (Hw _ E). congruence.
Qed.

Lemma writes_weaken {A} W1 W2 (m : M ess A) : keeps (writes W1) m -> within W1 W2 = true -> keeps (writes W2) m.
Proof. intros Hm Hw s. by apply (writes_sub W1). Qed.

(** ** Steps *)

Lemma str_in_head k W : str_in k (k :: W) = true.
Proof. unfold str_in. cbn. by rewrite String.eqb_refl. Qed.

Lemma str_in_other k k' W : str_in k W = false -> str_in k' W = true -> k <> k'.
Proof. congruence. Qed.

Lemma reads_bind {A B} (f : service -> res A) (g : A -> M ess B) s :
  (reads f ≫= g) s = match f s.(attrs) with Ok a => g a s | Err e => (Err e, s) end.
Proof. reflexivity. Qed.

Lemma writes_reads {A} W (f : service -> res A) : keeps (writes W) (reads f).
Proof. by intros s. Qed.

Lemma writes_set_attr W name v : str_in name W = true -> keeps (writes W) (set_attr name v).
Proof.
  intros Hn s. unfold writes, set_attr, modify. cbn. split_and!; [done..|]. intros k Hk.
  apply lookup_insert_ne. by apply not_eq_sym, (str_in_other _ _ W).
Qed.

Lemma writes_set_attrs W fields : within (map fst fields) W = true -> keeps (writes W) (set_attrs fields).
Proof.
  intros Hn s. unfold writes, set_attrs, modify. cbn. split_and!; [done..|]. intros k Hk.
  generalize (attrs s). induction fields as [|[n v] fields IH]; intros m; [done|]. cbn in Hn |- *.
  apply andb_true_iff in Hn as [Hn Hr]. rewrite IH by done. apply lookup_insert_ne.
  by apply not_eq_sym, (str_in_other _ _ W).
Qed.

Lemma writes_set_metric W name v : keeps (writes W) (set_metric name v).
Proof. by intros s. Qed.

Lemma writes_update_metrics W fields : keeps (writes W) (update_metrics fields).
Proof. by intros s. Qed.

Create HintDb writes.

(** A call: one of the steps, or an operation with a lemma and a smaller list. *)
Ltac writes_call :=
  lazymatch goal with
  | |- keeps _ (reads _) => apply writes_reads
  | |- keeps _ (set_metric _ _) => apply writes_set_metric
  | |- keeps _ (update_metrics _) => apply writes_update_metrics
  | |- keeps _ (set_attr _ _) => apply writes_set_attr; vm_compute; reflexivity
  | |- keeps _ (set_attrs _) => apply writes_set_attrs; vm_compute; reflexivity
  | |- _ => eapply writes_weaken; [solve [eauto 2 with writes nocore] | vm_compute; reflexivity]
  end.
Ltac writes_go := keeps_go ltac:(idtac; writes_call).

(** ** Sources, PID *)

Definition pid_attrs : list string :=
  [rt "pid_last_error_w"; rt "pid_last_at"; rt "pid_integral_output_w"; rt "pid_last_output_w"].

Lemma merge_metrics_writes : keeps (writes ["_last_auto_metrics"]) merge_victron_ess_balance_metrics.
Proof. unfold merge_victron_ess_balance_metrics. writes_go. Qed.
#[export] Hint Resolve merge_metrics_writes : writes.

Lemma pid_reset_writes : keeps (writes pid_attrs) VictronEssPidController.reset.
Proof. unfold VictronEssPidController.reset. writes_go. Qed.

Lemma pid_reset_integral_writes b : keeps (writes pid_attrs) (VictronEssPidController.reset_integral b).
Proof. unfold VictronEssPidController.reset_integral. writes_go. Qed.

Lemma pid_output_writes error_w now :
  keeps (writes pid_attrs) (VictronEssPidController.victron_ess_balance_pid_output error_w now).
Proof.
  unfold VictronEssPidController.victron_ess_balance_pid_output, VictronEssPidController.victron_ess_balance_pid_store_state.
  writes_go.
Qed.
#[export] Hint Resolve pid_reset_writes pid_reset_integral_writes pid_output_writes : writes.

(** ** Profiles *)
Section profiles.
Import VictronEssLearningProfiles.

Definition active_attrs : list string := map fst victron_ess_balance_active_profile_fields.

Lemma profiles_writes : keeps (writes [profiles_attr]) victron_ess_balance_learning_profiles.
Proof. unfold victron_ess_balance_learning_profiles. writes_go. Qed.
#[local] Hint Resolve profiles_writes : writes.

Lemma profile_state_writes key : keeps (writes [profiles_attr]) (victron_ess_balance_learning_profile_state key).
Proof. unfold victron_ess_balance_learning_profile_state. writes_go. Qed.
#[local] Hint Resolve profile_state_writes : writes.

Lemma set_profile_field_writes key name v : keeps (writes [profiles_attr]) (set_profile_field key name v).
Proof. unfold set_profile_field. writes_go. Qed.
#[local] Hint Resolve set_profile_field_writes : writes.

Lemma ensure_writes key : keeps (writes [profiles_attr]) (ensure_victron_ess_balance_learning_profile_state key).
Proof. unfold ensure_victron_ess_balance_learning_profile_state. writes_go. Qed.
#[local] Hint Resolve ensure_writes : writes.

Lemma profile_snapshot_writes key : keeps (writes [profiles_attr]) (victron_ess_balance_profile_snapshot key).
Proof. unfold victron_ess_balance_profile_snapshot. writes_go. Qed.
#[local] Hint Resolve profile_snapshot_writes : writes.

Lemma merge_profile_metrics_writes key :
  keeps (writes [profiles_attr]) (merge_victron_ess_balance_learning_profile_metrics key).
Proof. unfold merge_victron_ess_balance_learning_profile_metrics. writes_go. Qed.

Lemma change_profile_writes key f : keeps (writes [profiles_attr]) (change_profile key f).
Proof. unfold change_profile. writes_go. Qed.

Lemma score_profile_writes key name f : keeps (writes [profiles_attr]) (score_profile key name f).
Proof. unfold score_profile. writes_go. Qed.
#[local] Hint Resolve score_profile_writes : writes.

Lemma refresh_stability_writes key : keeps (writes [profiles_attr]) (victron_ess_balance_refresh_profile_stability key).
Proof. unfold victron_ess_balance_refresh_profile_stability. writes_go. Qed.

Lemma set_active_writes p : keeps (writes active_attrs) (set_victron_ess_balance_active_profile p).
Proof. unfold set_victron_ess_balance_active_profile. writes_go. Qed.

Lemma clear_active_writes : keeps (writes active_attrs) clear_victron_ess_balance_active_profile.
Proof. unfold clear_victron_ess_balance_active_profile. writes_go. Qed.

Lemma topology_key_writes id : keeps (writes []) (victron_ess_balance_current_topology_key id).
Proof. unfold victron_ess_balance_current_topology_key. writes_go. Qed.

End profiles.
#[export] Hint Resolve profiles_writes profile_state_writes ensure_writes profile_snapshot_writes merge_profile_metrics_writes
  change_profile_writes refresh_stability_writes set_active_writes clear_active_writes topology_key_writes : writes.

(** ** Recovery and safety *)
Section safety.
Import VictronEssSafetyRecovery VictronEssSafetyController.

Definition stable_attrs : list string :=
  [rt "conservative_tuning"; rt "last_stable_tuning"; rt "last_stable_at"; rt "last_stable_profile_key"].

(** The settings a rollback or an adaptive step may change. *)
Definition tuning_attrs : list string :=
  [cfg "deadband_watts"; cfg "max_abs_watts"; cfg "ramp_rate_watts_per_second"; cfg "kp"; cfg "ki"; cfg "kd";
   cfg "activation_mode"].

Definition suspend_attrs : list string := [rt "auto_apply_suspend_until"; rt "auto_apply_suspend_reason"].

Definition rollback_attrs : list string :=
  tuning_attrs ++ suspend_attrs ++ [rt "safe_state_active"; rt "safe_state_reason"; rt "auto_apply_observe_until"].

Definition direction_attrs : list string :=
  [rt "recent_action_changes"; rt "last_action_direction"; rt "oscillation_lockout_until"; rt "oscillation_lockout_reason"]
  ++ pid_attrs.

Lemma refresh_stable_writes now : keeps (writes stable_attrs) (victron_ess_balance_refresh_stable_tuning now).
Proof. unfold victron_ess_balance_refresh_stable_tuning, victron_ess_balance_ensure_conservative_tuning. writes_go. Qed.

Lemma suspend_writes reason now : keeps (writes suspend_attrs) (victron_ess_balance_suspend_auto_apply reason now).
Proof. unfold victron_ess_balance_suspend_auto_apply. writes_go. Qed.
#[local] Hint Resolve suspend_writes : writes.

Lemma restored_tuning_writes stable : keeps (writes tuning_attrs) (apply_victron_ess_balance_restored_tuning stable).
Proof.
  unfold apply_victron_ess_balance_restored_tuning, apply_victron_ess_balance_restored_pid_terms,
    apply_victron_ess_balance_restored_limits, restore_float. writes_go.
Qed.
#[local] Hint Resolve restored_tuning_writes : writes.

Lemma maybe_restore_writes reason : keeps (writes rollback_attrs) (maybe_restore_victron_ess_balance_stable_tuning reason).
Proof. unfold maybe_restore_victron_ess_balance_stable_tuning. writes_go. Qed.

Lemma enter_cooldown_writes now reason :
  keeps (writes (suspend_attrs ++ [rt "overshoot_cooldown_until"; rt "overshoot_cooldown_reason"]))
    (enter_victron_ess_balance_overshoot_cooldown now reason).
Proof. unfold enter_victron_ess_balance_overshoot_cooldown. writes_go. Qed.

Lemma should_rollback_writes now : keeps (writes []) (victron_ess_balance_should_rollback_stable_tuning now).
Proof. unfold victron_ess_balance_should_rollback_stable_tuning. writes_go. Qed.

Lemma direction_count_writes now :
  keeps (writes [rt "recent_action_changes"]) (victron_ess_balance_recent_direction_change_count now).
Proof. unfold victron_ess_balance_recent_direction_change_count. writes_go. Qed.
#[local] Hint Resolve direction_count_writes : writes.

Lemma note_direction_writes direction now :
  keeps (writes direction_attrs) (victron_ess_balance_note_action_direction direction now).
Proof. unfold victron_ess_balance_note_action_direction. writes_go. Qed.

Lemma safety_metrics_writes now :
  keeps (writes [rt "recent_action_changes"]) (populate_victron_ess_balance_runtime_safety_metrics now).
Proof. unfold populate_victron_ess_balance_runtime_safety_metrics, victron_ess_balance_lockout_metrics. writes_go. Qed.

End safety.
#[export] Hint Resolve refresh_stable_writes suspend_writes maybe_restore_writes enter_cooldown_writes should_rollback_writes
  direction_count_writes note_direction_writes safety_metrics_writes : writes.

(** ** Recommendation, telemetry and adaptive steps *)
Section telemetry.
Import VictronEssRecommendationEngine VictronEssTelemetryRecorder VictronEssAdaptiveTuner.

Lemma recommendation_source_writes :
  keeps (writes [VictronEssLearningProfiles.profiles_attr]) victron_ess_balance_recommendation_source.
Proof. unfold victron_ess_balance_recommendation_source. writes_go. Qed.
#[local] Hint Resolve recommendation_source_writes : writes.

Definition report_attrs : list string := [VictronEssLearningProfiles.profiles_attr; rt "recent_action_changes"].

Lemma telemetry_metrics_writes : keeps (writes report_attrs) populate_victron_ess_balance_telemetry_metrics.
Proof.
  unfold populate_victron_ess_balance_telemetry_metrics, populate_victron_ess_balance_recommendation_telemetry_metrics,
    victron_ess_balance_recommendation_metrics. writes_go.
Qed.
#[local] Hint Resolve telemetry_metrics_writes : writes.

(** The attributes of an episode, of what was observed and of what was learned from it. *)
Definition episode_attrs : list string :=
  [rt "telemetry_last_command_at"; rt "telemetry_last_command_setpoint_w"; rt "telemetry_last_command_error_w";
   rt "telemetry_last_command_profile_key"; rt "telemetry_command_response_recorded";
   rt "telemetry_command_overshoot_recorded"; rt "telemetry_command_settled_recorded"; rt "telemetry_overshoot_active";
   rt "telemetry_settling_active"].
Definition learned_attrs : list string :=
  [rt "telemetry_delay_samples"; rt "telemetry_response_delay_seconds"; rt "telemetry_gain_samples";
   rt "telemetry_estimated_gain"; rt "telemetry_overshoot_count"; rt "telemetry_settled_count";
   rt "telemetry_last_observed_error_w"; rt "telemetry_last_observed_at"; rt "telemetry_last_grid_interaction_w";
   rt "telemetry_last_ac_power_w"; rt "telemetry_last_ev_power_w"; rt "telemetry_stability_score"].
Definition telemetry_attrs : list string :=
  episode_attrs ++ learned_attrs ++ report_attrs ++ suspend_attrs ++ pid_attrs ++
  [rt "overshoot_cooldown_until"; rt "overshoot_cooldown_reason"].

Lemma update_delay_writes key x : keeps (writes telemetry_attrs) (victron_ess_balance_update_response_delay key x).
Proof.
  unfold victron_ess_balance_update_response_delay, victron_ess_balance_update_service_sample,
    VictronEssLearningProfiles.victron_ess_balance_update_profile_delay. writes_go.
Qed.

Lemma update_gain_writes key x : keeps (writes telemetry_attrs) (victron_ess_balance_update_gain key x).
Proof.
  unfold victron_ess_balance_update_gain, victron_ess_balance_update_service_sample,
    VictronEssLearningProfiles.victron_ess_balance_update_profile_gain. writes_go.
Qed.

Lemma mark_overshoot_writes now key : keeps (writes telemetry_attrs) (victron_ess_balance_mark_overshoot now key).
Proof.
  unfold victron_ess_balance_mark_overshoot, count_up,
    VictronEssLearningProfiles.victron_ess_balance_increment_profile_counter. writes_go.
Qed.

Lemma mark_settled_writes key : keeps (writes telemetry_attrs) (victron_ess_balance_mark_settled key).
Proof.
  unfold victron_ess_balance_mark_settled, count_up,
    VictronEssLearningProfiles.victron_ess_balance_increment_profile_counter. writes_go.
Qed.
#[local] Hint Resolve update_delay_writes update_gain_writes mark_overshoot_writes mark_settled_writes : writes.

Lemma clean_episode_writes now e c t ce cs th b d :
  keeps (writes telemetry_attrs) (victron_ess_balance_process_clean_episode now e c t ce cs th b d).
Proof.
  unfold victron_ess_balance_process_clean_episode, victron_ess_balance_maybe_record_response_delay,
    victron_ess_balance_maybe_record_gain, victron_ess_balance_maybe_mark_overshoot, victron_ess_balance_maybe_mark_settled.
  writes_go.
Qed.
#[local] Hint Resolve clean_episode_writes : writes.

Lemma record_observation_writes now cluster e o st key :
  keeps (writes telemetry_attrs) (record_observation now cluster e o st key).
Proof. unfold record_observation, set_number. writes_go. Qed.
#[local] Hint Resolve record_observation_writes : writes.

Lemma update_telemetry_writes now cluster e key :
  keeps (writes telemetry_attrs) (update_victron_ess_balance_telemetry now cluster e key).
Proof. unfold update_victron_ess_balance_telemetry. writes_go. Qed.

Lemma record_command_writes now x e key : keeps (writes episode_attrs) (record_victron_ess_balance_command now x e key).
Proof. unfold record_victron_ess_balance_command, set_episode. writes_go. Qed.

Lemma clear_episode_writes : keeps (writes episode_attrs) clear_victron_ess_balance_tracking_episode.
Proof. unfold clear_victron_ess_balance_tracking_episode, set_episode. writes_go. Qed.

Context {world : EssWorld}.

Definition adaptive_attrs : list string :=
  rollback_attrs ++ [rt "auto_apply_generation"; rt "auto_apply_last_applied_param"; rt "auto_apply_last_applied_at"].

Lemma log_call_writes W c : match c with SetpointWrite _ _ _ => False | _ => True end ->
  keeps (writes W) (VictronEssSetpointWriter.log_call c).
Proof.
  intros Hc s. unfold VictronEssSetpointWriter.log_call, modify. cbn. split_and!; [|done..]. cbn.
  rewrite setpoints_app. destruct c; cbn; [done | by rewrite app_nil_r..].
Qed.

Lemma save_state_writes : keeps (writes []) victron_ess_balance_save_runtime_state.
Proof.
  unfold victron_ess_balance_save_runtime_state.
  keeps_go ltac:(first [apply log_call_writes; done | writes_call]).
Qed.
#[local] Hint Resolve save_state_writes : writes.

Lemma blend_writes name rec blend : keeps (writes [name]) (blend_recommended_setting name rec blend).
Proof.
  unfold blend_recommended_setting.
  keeps_go ltac:(first [ apply writes_set_attr; apply str_in_head | writes_call ]).
Qed.

Lemma recommended_step_writes pairs blend :
  within (map fst pairs) tuning_attrs = true -> keeps (writes tuning_attrs) (recommended_step pairs blend).
Proof.
  induction pairs as [|[name rec] pairs IH]; intros Hp; cbn [recommended_step].
  - unfold victron_ess_balance_recommended_activation_step. writes_go.
  - unfold within in Hp. cbn in Hp. apply andb_true_iff in Hp as [Hn Hp].
    keeps_go ltac:(first [ eapply writes_weaken; [apply blend_writes | by cbn; rewrite Hn] | by apply IH ]).
Qed.

Lemma auto_apply_step_writes now : keeps (writes adaptive_attrs) (apply_victron_ess_balance_auto_apply_step now).
Proof.
  unfold apply_victron_ess_balance_auto_apply_step, apply_victron_ess_balance_recommended_tuning_step.
  keeps_go ltac:(first [ eapply writes_weaken; [by apply recommended_step_writes | vm_compute; reflexivity] | writes_call ]).
Qed.
#[local] Hint Resolve auto_apply_step_writes : writes.

Lemma adaptive_init_writes now : keeps (writes []) (initialize_victron_ess_balance_auto_apply_metrics now).
Proof.
  unfold initialize_victron_ess_balance_auto_apply_metrics, initialize_victron_ess_balance_auto_apply_runtime_metrics,
    initialize_victron_ess_balance_rollback_metrics, initialize_victron_ess_balance_safe_state_metrics, bool_metric,
    float_metric, text_metric, generation_metric. writes_go.
Qed.
#[local] Hint Resolve adaptive_init_writes : writes.

Lemma auto_apply_writes now : keeps (writes adaptive_attrs) (maybe_auto_apply_victron_ess_balance_recommendation now).
Proof.
  unfold maybe_auto_apply_victron_ess_balance_recommendation, victron_ess_balance_auto_apply_blocker_reason,
    victron_ess_balance_auto_apply_suspend_reason, victron_ess_balance_auto_apply_rollback_reason,
    victron_ess_balance_auto_apply_observation_reason. writes_go.
Qed.

End telemetry.
#[export] Hint Resolve telemetry_metrics_writes update_telemetry_writes record_command_writes clear_episode_writes
  log_call_writes save_state_writes blend_writes auto_apply_step_writes adaptive_init_writes auto_apply_writes : writes.

(** ** The cycle *)
Section cycle.
Import VictronEssBalanceExecutor.
Context {world : EssWorld}.

Lemma init_metrics_writes : keeps (writes []) initialize_victron_ess_balance_apply_metrics.
Proof. unfold initialize_victron_ess_balance_apply_metrics. writes_go. Qed.

Lemma source_state_writes cluster : keeps (writes []) (victron_ess_balance_source_state cluster).
Proof.
  unfold victron_ess_balance_source_state, victron_ess_balance_resolved_source_state.
  writes_go.
Qed.

Definition prepare_attrs : list string :=
  VictronEssLearningProfiles.profiles_attr :: active_attrs ++ stable_attrs ++ direction_attrs.

Lemma learning_state_writes now cluster source e :
  keeps (writes prepare_attrs) (prepare_victron_ess_balance_learning_state now cluster source e).
Proof. unfold prepare_victron_ess_balance_learning_state. writes_go. Qed.

Lemma safety_block_writes now : keeps (writes rollback_attrs) (victron_ess_balance_safety_block_reason now).
Proof. unfold victron_ess_balance_safety_block_reason. writes_go. Qed.
#[local] Hint Resolve init_metrics_writes source_state_writes learning_state_writes safety_block_writes : writes.

Lemma prepare_writes now auto :
  keeps (writes (prepare_attrs ++ rollback_attrs)) (prepare_victron_ess_balance_tracking_state now auto).
Proof.
  unfold prepare_victron_ess_balance_tracking_state, prepare_victron_ess_balance_tracking_profile. writes_go.
Qed.

Lemma tracking_setpoint_writes now e : keeps (writes pid_attrs) (victron_ess_balance_tracking_setpoint now e).
Proof. unfold victron_ess_balance_tracking_setpoint. writes_go. Qed.

Lemma finalize_writes now :
  keeps (writes ("_last_auto_metrics" :: adaptive_attrs)) (finalize_victron_ess_balance_metrics now).
Proof. unfold finalize_victron_ess_balance_metrics. writes_go. Qed.

Lemma conclude_restore_writes now :
  keeps (writes ("_last_auto_metrics" :: report_attrs ++ adaptive_attrs)) (conclude_restore now).
Proof.
  unfold conclude_restore. keeps_go ltac:(first [ eapply writes_weaken; [apply finalize_writes | vm_compute; reflexivity] | writes_call ]).
Qed.

End cycle.
#[export] Hint Resolve init_metrics_writes source_state_writes learning_state_writes safety_block_writes prepare_writes
  tracking_setpoint_writes finalize_writes conclude_restore_writes : writes.
