(* ===== verification/EssBalanceSafety.v ===== *)
(** * ESS balance: safety of the setpoint

    What a cycle of the balance may ask of the gateway, and under which conditions; how the
    accepted requests of a sequence of cycles are spaced; the bounds of the controller. *)

From S2P Require Import Prelude PyFloat PyValue OrderedMap EssSources EssConfig EssProfiles EssSafety EssAdvice EssTelemetry EssBalance EssFrames.
Import VictronEssSourceResolver.

(** ** Shape of a cycle *)
Section shape.
Import VictronEssBalanceExecutor VictronEssSetpointWriter VictronEssTelemetryRecorder.
Context {world : EssWorld}.

(** What should hold before a bias is tracked: [v] are the attributes before the cycle, [v']
    those after it. *)
Definition guards_passed (now : float) (auto_mode_active : bool) (v v' : service) : Prop :=
  victron_ess_balance_enabled v = true /\ auto_mode_active = true /\
  exists cluster count source why error_w p,
    normalized_mapping (getattr "_last_energy_cluster" VNone v) = cluster /\
    py_int (dict_get "battery_discharge_balance_eligible_source_count" cluster) = Ok count /\ 2 <= count /\
    victron_ess_balance_source cluster v = Ok (Some source, why) /\
    (dict_get "online" source = VNone \/ py_bool (dict_get "online" source) = true) /\
    optional_float (dict_get "discharge_balance_error_w" source) = Ok (Some error_w) /\
    victron_ess_balance_source_support_allowed source v = true /\
    VictronEssLearningProfiles.victron_ess_balance_learning_profile cluster source error_w v = Ok p /\
    victron_ess_balance_activation_allowed p.(site_regime) p.(reserve_phase) v = true /\
    VictronEssSafetyRecovery.victron_ess_balance_overshoot_cooldown_active now v = Ok false /\
    VictronEssSafetyController.victron_ess_balance_oscillation_lockout_active now v' = Ok false.

(** Attributes that decide about a write, and the two a write sets. *)
Definition last_attrs : list string := [rt "last_write_at"; rt "last_setpoint_w"].

Lemma getattr_frame W s s' name d : writes W s s' -> str_in name W = false -> getattr name d s'.(attrs) = getattr name d s.(attrs).
Proof. intros (_ & _ & H) Hn. unfold getattr. by rewrite H. Qed.

Lemma should_write_frame W now x s s' :
  writes W s s' -> forallb (fun k => negb (str_in k W)) (cfg "min_update_seconds" :: last_attrs) = true ->
  should_write now x s'.(attrs) = should_write now x s.(attrs).
Proof.
  intros Hw Hk. cbn in Hk. rewrite !andb_true_iff, !negb_true_iff in Hk. destruct Hk as (H1 & H2 & H3 & _).
  unfold should_write, last_setpoint, float_or.
  by rewrite (getattr_frame _ _ _ _ _ Hw H1), (getattr_frame _ _ _ _ _ Hw H2), (getattr_frame _ _ _ _ _ Hw H3).
Qed.

Definition accepted (o : res bool) : bool := match o with Ok true => true | _ => false end.

(** One request: what the writer logs, and what it leaves alone. *)
Lemma write_setpoint_run x intent s :
  let s' := snd (write_setpoint x intent s) in
  exists o, setpoints s'.(calls) = setpoints s.(calls) ++ [(x, intent, o)] /\
    s'.(attrs) = s.(attrs) /\ s'.(energy_sources) = s.(energy_sources) /\
    (fst (write_setpoint x intent s) = Ok true <-> accepted o = true).
Proof.
  cbn zeta. exists (setpoint_receipt s.(calls) x intent).
  unfold write_setpoint, write_error, log_call, reads.
  unfold mbind, M_bind, get, modify, mret, M_ret, raise. cbn -[exn_in].
  destruct (setpoint_receipt s.(calls) x intent) as [[|]|e]; cbn -[exn_in].
  - rewrite setpoints_app. cbn. by split_and!.
  - destruct (warning_interval_seconds _); cbn; rewrite !setpoints_app; cbn; rewrite ?app_nil_r; by split_and!.
  - destruct (exn_in _ e); cbn.
    + destruct (warning_interval_seconds _); cbn; rewrite !setpoints_app; cbn; rewrite ?app_nil_r; by split_and!.
    + rewrite setpoints_app. cbn. by split_and!.
Qed.

(** What one cycle does to the gateway and to the attributes that remember it: it stays quiet, or
    it makes one request that was due, and remembers it exactly if it was accepted. *)
Definition quiet (s s' : ess) : Prop :=
  setpoints s'.(calls) = setpoints s.(calls) /\ forall k, k ∈ last_attrs -> s'.(attrs) !! k = s.(attrs) !! k.

Definition remembers (now x : float) (intent : string) (o : res bool) (s s' : ess) : Prop :=
  if accepted o then
    s'.(attrs) !! rt "last_write_at" = Some (VFloat now) /\
    s'.(attrs) !! rt "last_setpoint_w" = Some (if (intent =? "tracking")%string then VFloat x else VNone)
  else forall k, k ∈ last_attrs -> s'.(attrs) !! k = s.(attrs) !! k.

Definition requests (now x : float) (intent : string) (s s' : ess) : Prop :=
  exists o, setpoints s'.(calls) = setpoints s.(calls) ++ [(x, intent, o)] /\
    should_write now x s.(attrs) = Ok true /\ remembers now x intent o s s'.

#[export] Instance quiet_preorder : PreOrder quiet.
Proof.
  split; [by intros s|]. intros s1 s2 s3 [H1 H2] [K1 K2]. split; [congruence|]. intros k Hk. by rewrite K2, H2.
Qed.

Lemma quiet_requests now x intent s1 s2 s3 :
  quiet s1 s2 -> should_write now x s2.(attrs) = should_write now x s1.(attrs) ->
  requests now x intent s2 s3 -> requests now x intent s1 s3.
Proof.
  intros [Hs Hk] Hw (o & Ho & Hd & Hr). exists o. rewrite <- Hs, <- Hw. split_and!; [done..|].
  unfold remembers in *. destruct (accepted o); [done|]. intros k Hin. by rewrite Hr, Hk.
Qed.

Lemma requests_quiet now x intent s1 s2 s3 : requests now x intent s1 s2 -> quiet s2 s3 -> requests now x intent s1 s3.
Proof.
  intros (o & Ho & Hd & Hr) [Hs Hk]. exists o. rewrite Hs. split_and!; [done..|].
  unfold remembers in *. destruct (accepted o).
  - rewrite !Hk; [done | by right; left | by left].
  - intros k Hin. by rewrite Hk, Hr.
Qed.

Lemma writes_quiet W s s' : writes W s s' -> forallb (fun k => negb (str_in k W)) last_attrs = true -> quiet s s'.
Proof.
  intros (H1 & _ & H3) Hk. split; [done|]. intros k Hin. apply H3.
  rewrite forallb_forall in Hk. apply list_elem_of_In, Hk in Hin. by apply negb_true_iff in Hin.
Qed.

Lemma keeps_quiet {A} W (m : M ess A) :
  keeps (writes W) m -> forallb (fun k => negb (str_in k W)) last_attrs = true -> keeps quiet m.
Proof. intros Hm Hk s. eapply writes_quiet; [apply Hm | done]. Qed.

(** *** The tracking write and the restoring write *)

Lemma last_attrs_set now v (m : gmap string pyval) :
  <[rt "last_setpoint_w" := v]> (<[rt "last_write_at" := VFloat now]> m) !! rt "last_write_at" = Some (VFloat now) /\
  <[rt "last_setpoint_w" := v]> (<[rt "last_write_at" := VFloat now]> m) !! rt "last_setpoint_w" = Some v.
Proof. split; [rewrite lookup_insert_ne by done|]; apply lookup_insert_eq. Qed.

(** Every attribute a cycle may write apart from [last_attrs]. *)
Definition cycle_attrs : list string :=
  "_last_auto_metrics" :: prepare_attrs ++ telemetry_attrs ++ adaptive_attrs.

Ltac quiet_go := apply (keeps_quiet cycle_attrs); [writes_go | vm_compute; reflexivity].

(** A write attempt: the request, what an accepted one sets, and steps that do not concern the memory. *)
Lemma write_attempt {A} now x intent v (good bad : M ess A) s :
  keeps quiet good -> keeps quiet bad -> should_write now x s.(attrs) = Ok true ->
  v = (if (intent =? "tracking")%string then VFloat x else VNone) ->
  requests now x intent s (snd ((accepted ← write_setpoint x intent;
    if accepted : bool then set_attr (rt "last_write_at") (VFloat now);; set_attr (rt "last_setpoint_w") v;; good
    else bad) s)).
Proof.
  intros Hg Hb Hd ->. destruct (write_setpoint_run x intent s) as (o & Ho & Ha & _ & Hacc).
  unfold mbind at 1, M_bind at 1. destruct (write_setpoint x intent s) as [[[|]|e] s1]; cbn [fst snd] in *.
  - match goal with |- requests _ _ _ _ (snd ((set_attr ?n1 ?v1;; set_attr ?n2 ?v2;; good) s1)) =>
      set (s2 := s1 <| attrs := <[n2 := v2]> (<[n1 := v1]> s1.(attrs)) |>);
      change (requests now x intent s (snd (good s2))) end.
    eapply requests_quiet; [|apply Hg]. exists o. split_and!; [done..|]. unfold remembers.
    rewrite (proj1 Hacc eq_refl). apply last_attrs_set.
  - eapply requests_quiet; [|apply Hb]. exists o. split_and!; [done..|]. unfold remembers.
    destruct (accepted o); [by discriminate (proj2 Hacc eq_refl)|]. intros k _. by rewrite Ha.
  - exists o. split_and!; [done..|]. unfold remembers.
    destruct (accepted o); [by discriminate (proj2 Hacc eq_refl)|]. intros k _. by rewrite Ha.
Qed.

Lemma tracking_write_requests now x e key s :
  let s' := snd (victron_ess_balance_tracking_write_state now x e key s) in quiet s s' \/ requests now x "tracking" s s'.
Proof.
  cbn zeta. unfold victron_ess_balance_tracking_write_state. rewrite reads_bind.
  destruct (should_write now x s.(attrs)) as [[|]|e'] eqn:Hd; cbn [fst snd]; [right | left | by left].
  - unfold victron_ess_balance_apply_write_outcome. by apply (write_attempt now x "tracking"); [quiet_go.. | |].
  - match goal with |- quiet s (snd (?m s)) => assert (keeps quiet m) as Hm by quiet_go; apply Hm end.
Qed.

Lemma restore_write_requests now x reason s :
  let s' := snd (restore_write now x reason s) in quiet s s' \/ requests now x "restore" s s'.
Proof.
  cbn zeta. unfold restore_write. rewrite reads_bind.
  destruct (should_write now x s.(attrs)) as [[|]|e'] eqn:Hd; cbn [fst snd negb]; [right | left | by left].
  - by apply (write_attempt now x "restore"); [quiet_go.. | |].
  - match goal with |- quiet s (snd (?m s)) => assert (keeps quiet m) as Hm by quiet_go; apply Hm end.
Qed.

(** *** Composition *)

(** Quiet, or one request under the condition [C] on the attributes before. *)
Definition effect (now x : float) (intent : string) (C : service -> Prop) (s s' : ess) : Prop :=
  quiet s s' \/ (C s.(attrs) /\ requests now x intent s s').

(** A condition that does not look at what a cycle may write. *)
Definition stable (C : service -> Prop) : Prop := forall s s', writes cycle_attrs s s' -> C s'.(attrs) -> C s.(attrs).

Lemma effect_after {A B} now x intent C (m : M ess A) (f : A -> M ess B) s :
  stable C -> keeps (writes cycle_attrs) m ->
  (forall a s1, m s = (Ok a, s1) -> writes cycle_attrs s s1 -> effect now x intent C s1 (snd (f a s1))) ->
  effect now x intent C s (snd ((m ≫= f) s)).
Proof.
  intros HC Hm Hf. specialize (Hm s). unfold mbind, M_bind. destruct (m s) as [[a|e] s1]; cbn in *.
  - assert (quiet s s1) as Hq by (by eapply writes_quiet; [exact Hm | vm_compute]).
    destruct (Hf a s1 eq_refl Hm) as [H|[HC1 H]]; [left; by etrans | right]. split; [by eapply HC|].
    eapply quiet_requests; [exact Hq | | exact H]. by eapply should_write_frame; [exact Hm | vm_compute].
  - left. by eapply writes_quiet; [exact Hm | vm_compute].
Qed.

Lemma effect_before {A B} now x intent C (m : M ess A) (f : A -> M ess B) s :
  effect now x intent C s (snd (m s)) -> (forall a, keeps quiet (f a)) -> effect now x intent C s (snd ((m ≫= f) s)).
Proof.
  intros Hm Hf. unfold mbind, M_bind. destruct (m s) as [[a|e] s1]; cbn in *; [|done].
  destruct Hm as [H|[HC H]]; [left; etrans; [exact H | apply Hf] | right; split; [done|]].
  eapply requests_quiet; [exact H | apply Hf].
Qed.

Lemma effect_quiet {A} now x intent C (m : M ess A) s : keeps quiet m -> effect now x intent C s (snd (m s)).
Proof. intros H. left. apply H. Qed.

Definition always (v : service) : Prop := True.
Definition biased (v : service) : Prop := exists l, last_setpoint v = Ok (Some l).

Lemma stable_always : stable always.
Proof. done. Qed.

Lemma stable_biased : stable biased.
Proof.
  intros s s' H [l Hl]. exists l. unfold last_setpoint in *.
  by rewrite (getattr_frame _ _ _ (rt "last_setpoint_w") _ H) in Hl.
Qed.

Lemma base_setpoint_frame s s' :
  writes cycle_attrs s s' -> victron_ess_balance_base_setpoint_w s'.(attrs) = victron_ess_balance_base_setpoint_w s.(attrs).
Proof.
  intros H. unfold victron_ess_balance_base_setpoint_w.
  by rewrite (getattr_frame _ _ _ (cfg "base_setpoint_watts") _ H) by reflexivity.
Qed.

Lemma tracking_effect now t s :
  exists x, effect now x "tracking" always s (snd (apply_victron_ess_balance_tracking now t s)).
Proof.
  destruct (victron_ess_balance_tracking_setpoint now t.(tr_source_error_w) s) as [[x|e] s1] eqn:E; [exists x | exists f0];
    (apply effect_after; [apply stable_always | writes_go |]); intros x' s1' Hr _; rewrite E in Hr; [|done].
  injection Hr as <- <-. apply effect_after; [apply stable_always | writes_go |]. intros _ s2 _ _.
  apply effect_before; [|intros _; quiet_go].
  destruct (tracking_write_requests now x t.(tr_source_error_w) t.(tr_profile_key) s2); [by left | by right].
Qed.

Lemma restore_effect now reason x s :
  victron_ess_balance_base_setpoint_w s.(attrs) = Ok x ->
  effect now x "restore" biased s (snd (restore_victron_ess_balance_base_setpoint now reason s)).
Proof.
  intros Hx. unfold restore_victron_ess_balance_base_setpoint. rewrite reads_bind, Hx.
  do 6 (apply effect_after; [apply stable_biased | writes_go | intros _ ? _ _]).
  apply effect_after; [apply stable_biased | writes_go |]. intros [l|] s' Hl _; [|apply effect_quiet; quiet_go].
  apply effect_before; [|intros _; quiet_go]. injection Hl as Hl ->.
  destruct (restore_write_requests now x reason s'); [by left | right; split; [by exists l | done]].
Qed.

(** *** The guards *)

Lemma writes_nil s s' : writes [] s s' -> s'.(attrs) = s.(attrs).
Proof. intros (_ & _ & H). apply map_eq. intros k. by apply H. Qed.

Lemma run_reads {A} (f : service -> res A) s a s' : reads f s = (Ok a, s') -> f s.(attrs) = Ok a /\ s' = s.
Proof. unfold reads. by intros [= H ->]. Qed.

Lemma cluster_state_open auto v cluster :
  victron_ess_balance_cluster_state auto v = Ok (cluster, "") ->
  auto = true /\ normalized_mapping (getattr "_last_energy_cluster" VNone v) = cluster /\
  exists n, py_int (dict_get "battery_discharge_balance_eligible_source_count" cluster) = Ok n /\ 2 <= n.
Proof.
  unfold victron_ess_balance_cluster_state. destruct auto; cbn [negb]; [|done].
  destruct (is_number _); [|done]. destruct (py_int _) as [n|] eqn:Hn; [|done]. cbn.
  destruct (Z.ltb_spec n 2); intros [= <-]. split_and!; [done..|]. by exists n.
Qed.

Lemma source_state_open cluster s source error_w why s' :
  victron_ess_balance_source_state cluster s = (Ok (Some (source, error_w), why), s') ->
  (exists how, victron_ess_balance_source cluster s.(attrs) = Ok (Some source, how)) /\
  (dict_get "online" source = VNone \/ py_bool (dict_get "online" source) = true) /\
  optional_float (dict_get "discharge_balance_error_w" source) = Ok (Some error_w) /\
  victron_ess_balance_source_support_allowed source s.(attrs) = true.
Proof.
  unfold victron_ess_balance_source_state. intros ([found how] & s1 & [Hs ->]%run_reads & H)%run_ok.
  destruct found as [source'|]; [|done]. unfold victron_ess_balance_resolved_source_state in H.
  apply run_ok in H as (? & s1 & Hm & H). apply run_ok in H as (key & s2 & Hk & H). apply run_ok in H as (? & s3 & Hm' & H).
  assert (s3.(attrs) = s.(attrs)) as Ha by (injection Hm as _ <-; injection Hk as _ <-; by injection Hm' as _ <-).
  destruct (match dict_get "online" source' with VNone => false | _ => _ end) eqn:Ho; [done|].
  apply run_ok in H as (error & s4 & He & H). injection He as He ->. apply run_ok in H as (? & s5 & Hm5 & H).
  destruct error as [e|]; [|done]. apply run_ok in H as (s6 & s7 & Hg & H). injection Hg as <- <-.
  assert (s5.(attrs) = s.(attrs)) as Ha5 by (injection Hm5 as _ <-; exact Ha). rewrite Ha5 in H.
  destruct (victron_ess_balance_source_support_allowed source' s.(attrs)) eqn:Hsup; [|done].
  injection H as <- <- _ _. split_and!; [by exists how | | done..].
  destruct (dict_get "online" source'); try (by left); right; by apply negb_false_iff.
Qed.

Lemma safety_block_open now s s' :
  victron_ess_balance_safety_block_reason now s = (Ok "", s') ->
  VictronEssSafetyRecovery.victron_ess_balance_overshoot_cooldown_active now s.(attrs) = Ok false /\
  VictronEssSafetyController.victron_ess_balance_oscillation_lockout_active now s.(attrs) = Ok false /\
  writes [rt "safe_state_active"; rt "safe_state_reason"] s s'.
Proof.
  unfold victron_ess_balance_safety_block_reason. intros (b & s1 & [Hc ->]%run_reads & H)%run_ok.
  destruct b; [by apply run_ok in H as (? & ? & _ & H)|].
  apply run_ok in H as (b & s1 & [Hl ->]%run_reads & H).
  destruct b; [by apply run_ok in H as (? & ? & _ & H)|]. split_and!; [done..|].
  replace s' with (snd (Ok "", s')) by done. rewrite <- H.
  match goal with |- writes ?W s (snd (?m s)) => assert (keeps (writes W) m) as Hm by writes_go; apply Hm end.
Qed.

Lemma cooldown_frame W now s s' :
  writes W s s' -> str_in (rt "overshoot_cooldown_until") W = false ->
  VictronEssSafetyRecovery.victron_ess_balance_overshoot_cooldown_active now s'.(attrs) =
  VictronEssSafetyRecovery.victron_ess_balance_overshoot_cooldown_active now s.(attrs).
Proof.
  intros H Hn. unfold VictronEssSafetyRecovery.victron_ess_balance_overshoot_cooldown_active.
  by rewrite (getattr_frame _ _ _ _ _ H Hn).
Qed.

Lemma lockout_frame W now s s' :
  writes W s s' -> str_in (rt "oscillation_lockout_until") W = false ->
  VictronEssSafetyController.victron_ess_balance_oscillation_lockout_active now s'.(attrs) =
  VictronEssSafetyController.victron_ess_balance_oscillation_lockout_active now s.(attrs).
Proof.
  intros (_ & _ & H) Hn. unfold VictronEssSafetyController.victron_ess_balance_oscillation_lockout_active, attribute.
  by rewrite H.
Qed.

Lemma activation_frame W regime reserve s s' :
  writes W s s' -> str_in (cfg "activation_mode") W = false ->
  victron_ess_balance_activation_allowed regime reserve s'.(attrs) =
  victron_ess_balance_activation_allowed regime reserve s.(attrs).
Proof.
  intros H Hn. unfold victron_ess_balance_activation_allowed, victron_ess_balance_activation_mode.
  by rewrite (getattr_frame _ _ _ _ _ H Hn).
Qed.

Lemma prepared_guards now auto s t s' :
  victron_ess_balance_enabled s.(attrs) = true ->
  prepare_victron_ess_balance_tracking_state now auto s = (Ok (inl t), s') -> guards_passed now auto s.(attrs) s'.(attrs).
Proof.
  intros Hen. unfold prepare_victron_ess_balance_tracking_state.
  intros ([cluster block] & s1 & [Hc ->]%run_reads & H)%run_ok.
  destruct (String.eqb_spec block "") as [->|]; cbn [negb] in H; [|done].
  apply cluster_state_open in Hc as (-> & Hcl & n & Hn & Hn2).
  apply run_ok in H as ([found why] & s1 & Hs & H). destruct found as [[source e]|]; [|done].
  pose proof (source_state_writes cluster s) as Hw. rewrite Hs in Hw. apply writes_nil in Hw. cbn in Hw.
  apply source_state_open in Hs as ([how Hs] & Ho & He & Hsup).
  apply run_ok in H as ([key why'] & s2 & Hp & H). destruct key; [|done]. injection H as _ <-.
  unfold prepare_victron_ess_balance_tracking_profile in Hp. apply run_ok in Hp as (p & s3 & Hl & Hp).
  pose proof (learning_state_writes now cluster source e s1) as Hw3. rewrite Hl in Hw3. cbn in Hw3.
  unfold prepare_victron_ess_balance_learning_state in Hl. apply run_ok in Hl as (p' & s1' & [Hlp ->]%run_reads & Hl).
  assert (p' = p) as ->.
  { do 7 (apply run_ok in Hl as (? & ? & _ & Hl)). by injection Hl. }
  apply run_ok in Hp as (reason & s4 & Hb & Hp). destruct (String.eqb_spec reason "") as [->|]; cbn [negb] in Hp; [|done].
  apply safety_block_open in Hb as (Hcool & Hlock & Hw4). apply run_ok in Hp as (s5 & s6 & [= <- <-] & Hp).
  destruct (victron_ess_balance_activation_allowed _ _ s4.(attrs)) eqn:Hact; [|done]. injection Hp as _ _ <-.
  rewrite (activation_frame _ _ _ _ _ Hw4 eq_refl), (activation_frame _ _ _ _ _ Hw3 eq_refl), Hw in Hact.
  rewrite (cooldown_frame _ _ _ _ Hw3 eq_refl), Hw in Hcool. rewrite Hw in Hlp.
  split_and!; [done..|]. exists cluster, n, source, how, e, p. split_and!; try done.
  by rewrite (lockout_frame _ _ _ _ Hw4 eq_refl).
Qed.

(** *** The cycle *)

(** An attribute that an operation leaves alone. *)
Definition leaves (k : string) (s s' : ess) : Prop := s'.(attrs) !! k = s.(attrs) !! k.

#[export] Instance leaves_preorder k : PreOrder (leaves k).
Proof. split; [by intros s|]. intros s1 s2 s3 H1 H2. unfold leaves in *. congruence. Qed.

Lemma keeps_leaves {A} W k (m : M ess A) : keeps (writes W) m -> str_in k W = false -> keeps (leaves k) m.
Proof. intros Hm Hk s. destruct (Hm s) as (_ & _ & H). by apply H. Qed.

Lemma write_setpoint_leaves k x intent : keeps (leaves k) (write_setpoint x intent).
Proof. intros s. unfold leaves. by destruct (write_setpoint_run x intent s) as (o & _ & -> & _). Qed.

Lemma tracking_leaves now t k :
  str_in k ("_last_auto_metrics" :: last_attrs ++ telemetry_attrs ++ adaptive_attrs) = false ->
  keeps (leaves k) (apply_victron_ess_balance_tracking now t).
Proof.
  intros Hk. unfold apply_victron_ess_balance_tracking, victron_ess_balance_tracking_write_state,
    victron_ess_balance_apply_write_outcome.
  keeps_go ltac:(first [ apply write_setpoint_leaves | eapply keeps_leaves; [|exact Hk]; writes_call ]).
Qed.

(** Before the guards are looked at only metrics change. *)
Lemma cycle_start now auto s :
  exists s1, s1.(attrs) = s.(attrs) /\ s1.(calls) = s.(calls) /\
    apply_victron_ess_balance_bias now auto s =
    (if negb (victron_ess_balance_enabled s1.(attrs)) then disable_victron_ess_balance
     else
       prepared ← prepare_victron_ess_balance_tracking_state now auto;
       match prepared with
       | inr reason => restore_victron_ess_balance_base_setpoint now reason
       | inl t => apply_victron_ess_balance_tracking now t
       end) s1.
Proof. eexists. by split_and!; [| |reflexivity]. Qed.

Lemma requests_start now x intent s s1 s' :
  s1.(attrs) = s.(attrs) -> s1.(calls) = s.(calls) -> requests now x intent s1 s' -> requests now x intent s s'.
Proof. intros Ha Hc. unfold requests, remembers. by rewrite Ha, Hc. Qed.

Lemma quiet_start s s1 s' : s1.(attrs) = s.(attrs) -> s1.(calls) = s.(calls) -> quiet s1 s' -> quiet s s'.
Proof. intros Ha Hc. unfold quiet. by rewrite Ha, Hc. Qed.

(** A cycle makes at most one request; a tracking one needs every guard, and any other takes a
    standing bias back to the base setpoint. *)
Lemma cycle_effect now auto s s' :
  snd (apply_victron_ess_balance_bias now auto s) = s' ->
  quiet s s' \/
  (exists x, requests now x "tracking" s s' /\ guards_passed now auto s.(attrs) s'.(attrs)) \/
  (exists x, requests now x "restore" s s' /\ victron_ess_balance_base_setpoint_w s.(attrs) = Ok x /\ biased s.(attrs)).
Proof.
  destruct (cycle_start now auto s) as (s1 & Ha & Hc & ->). rewrite Ha.
  destruct (victron_ess_balance_enabled s.(attrs)) eqn:Hen; cbn [negb].
  2:{ intros <-. left. apply (quiet_start _ s1); [done..|]. unfold disable_victron_ess_balance.
      match goal with |- quiet s1 (snd (?m s1)) => assert (keeps quiet m) as Hm by quiet_go; apply Hm end. }
  pose proof (prepare_writes now auto s1) as Hw. unfold mbind, M_bind.
  destruct (prepare_victron_ess_balance_tracking_state now auto s1) as [[[t|reason]|e] s2] eqn:Hp; cbn [fst snd] in *.
  - rewrite <- Ha in Hen. pose proof (prepared_guards _ _ _ _ _ Hen Hp) as Hg. rewrite Ha in Hg.
    destruct (tracking_effect now t s2) as [x Hx]. intros <-.
    assert (effect now x "tracking" always s1 (snd (apply_victron_ess_balance_tracking now t s2))) as [Hq|[_ Hr]].
    { pose proof (effect_after now x "tracking" always (prepare_victron_ess_balance_tracking_state now auto)
        (fun _ => apply_victron_ess_balance_tracking now t) s1 stable_always) as H.
      unfold mbind, M_bind in H. rewrite Hp in H. apply H; [writes_go|]. by intros ? ? [= _ <-] _. }
    + left. by apply (quiet_start _ s1).
    + right; left. exists x. split; [by apply (requests_start _ _ _ _ s1)|].
      destruct Hg as (H1 & H2 & cl & n & so & why & e & p & Hg). split_and!; [done..|]. exists cl, n, so, why, e, p.
      destruct_and! Hg. split_and!; try done.
      unfold VictronEssSafetyController.victron_ess_balance_oscillation_lockout_active, attribute in *.
      by rewrite (tracking_leaves now t (rt "oscillation_lockout_until") eq_refl s2).
  - intros <-. destruct (victron_ess_balance_base_setpoint_w s2.(attrs)) as [x|e] eqn:Hx.
    2:{ left. apply (quiet_start _ s1); [done..|]. unfold restore_victron_ess_balance_base_setpoint.
        rewrite reads_bind, Hx. by eapply writes_quiet; [exact Hw|]. }
    pose proof Hx as Hx0. rewrite (base_setpoint_frame s1 s2), Ha in Hx0 by (by eapply writes_sub; [exact Hw|]).
    assert (effect now x "restore" biased s1 (snd (restore_victron_ess_balance_base_setpoint now reason s2))) as [Hq|[Hb Hr]].
    { pose proof (effect_after now x "restore" biased (prepare_victron_ess_balance_tracking_state now auto)
        (fun _ => restore_victron_ess_balance_base_setpoint now reason) s1 stable_biased) as H.
      unfold mbind, M_bind in H. rewrite Hp in H. apply H; [writes_go|]. intros ? ? [= _ <-] _. by apply restore_effect. }
    + left. by apply (quiet_start _ s1).
    + right; right. exists x. rewrite Ha in Hb. split_and!; [by apply (requests_start _ _ _ _ s1) | done..].
  - intros <-. left. apply (quiet_start _ s1); [done..|]. by eapply writes_quiet; [exact Hw|].
Qed.

(** C3. Every guard stands before the bias: one cycle of the ESS balance asks the gateway for at most one
    setpoint.  A setpoint that tracks the error is asked for only when the feature is enabled, Auto mode is active,
    at least two sources are eligible, the source was resolved unambiguously, is not offline, reports its error and
    has allowed support, the activation mode fits the situation, no overshoot cooldown runs, and no oscillation
    lockout runs even after the direction of this cycle was counted.  Any other request is the configured base
    setpoint, and only while a bias stands. *)
Theorem bias_needs_every_guard now auto_mode_active s r s' :
  apply_victron_ess_balance_bias now auto_mode_active s = (r, s') ->
  exists sent, setpoints s'.(calls) = setpoints s.(calls) ++ sent /\
    (sent = [] \/
     (exists x o, sent = [(x, "tracking", o)] /\ guards_passed now auto_mode_active s.(attrs) s'.(attrs)) \/
     (exists x o, sent = [(x, "restore", o)] /\ victron_ess_balance_base_setpoint_w s.(attrs) = Ok x /\ biased s.(attrs))).
Proof.
  intros H. assert (snd (apply_victron_ess_balance_bias now auto_mode_active s) = s') as Hs by (by rewrite H).
  apply cycle_effect in Hs as [[Hq _]|[(x & (o & Ho & _) & Hg)|(x & (o & Ho & _) & Hg)]].
  - exists []. rewrite app_nil_r. auto.
  - exists [(x, "tracking", o)]. split; [done|]. right; left. by exists x, o.
  - exists [(x, "restore", o)]. split; [done|]. right; right. by exists x, o.
Qed.

(** ** Sequences of cycles *)

(** An accepted request, with the update interval that was configured then. *)
Record request := mkRequest { rq_at : float; rq_value : float; rq_intent : string; rq_interval : float }.

Definition configured_interval (v : service) : float :=
  match float_or (cfg "min_update_seconds") f0 v with Ok x => fmax f0 x | Err _ => f0 end.

Definition accepted_request (now : float) (v : service) (sp : float * string * res bool) : option request :=
  let '(x, intent, o) := sp in if accepted o then Some (mkRequest now x intent (configured_interval v)) else None.

(** The accepted requests of a service since its start, newest first: cycles at any times and in any mode,
    and between them any change of attributes other than the two that remember the last request. *)
Inductive history : ess -> list request -> Prop :=
  | history_start s : (forall k, k ∈ last_attrs -> getattr k VNone s.(attrs) = VNone) -> history s []
  | history_change s s' l :
      history s l -> (forall k, k ∈ last_attrs -> s'.(attrs) !! k = s.(attrs) !! k) -> history s' l
  | history_cycle now auto_mode_active s r s' sent l :
      history s l -> apply_victron_ess_balance_bias now auto_mode_active s = (r, s') ->
      setpoints s'.(calls) = setpoints s.(calls) ++ sent ->
      history s' (rev (omap (accepted_request now s.(attrs)) sent) ++ l).

(** [newer] comes directly after [older]. *)
Definition spaced (newer older : request) : Prop :=
  (newer.(rq_at) - older.(rq_at) <? newer.(rq_interval))%F = false /\
  (older.(rq_intent) = "tracking" -> (f1 <=? fabs (newer.(rq_value) - older.(rq_value)))%F = true).

Inductive all_spaced : list request -> Prop :=
  | all_spaced_nil : all_spaced []
  | all_spaced_one q : all_spaced [q]
  | all_spaced_cons newer older l : spaced newer older -> all_spaced (older :: l) -> all_spaced (newer :: older :: l).

(** The attributes remember the newest request. *)
Definition remembered (l : list request) (v : service) : Prop :=
  match l with
  | [] => True
  | q :: _ => v !! rt "last_write_at" = Some (VFloat q.(rq_at)) /\
      v !! rt "last_setpoint_w" = Some (if (q.(rq_intent) =? "tracking")%string then VFloat q.(rq_value) else VNone)
  end.

Lemma due_is_spaced now x intent q l (v : service) :
  remembered (q :: l) v -> should_write now x v = Ok true -> spaced (mkRequest now x intent (configured_interval v)) q.
Proof.
  intros [Ht Hx]. unfold should_write, last_setpoint, getattr, configured_interval, spaced. rewrite Ht, Hx. cbn.
  destruct (float_or _ _ v) as [c|]; [|done]. cbn. destruct (_ - _ <? _)%F; [done|].
  destruct (String.eqb_spec q.(rq_intent) "tracking") as [->|]; cbn; [|done]. intros [= H]. split; [done|]. by intros _.
Qed.

Lemma remembered_frame l (v v' : service) :
  (forall k, k ∈ last_attrs -> v' !! k = v !! k) -> remembered l v -> remembered l v'.
Proof. intros H. destruct l as [|q l]; [done|]. cbn. rewrite !H; [done | by right; left | by left]. Qed.

Lemma history_invariant s l : history s l -> remembered l s.(attrs) /\ all_spaced l.
Proof.
  induction 1 as [s _ | s s' l _ [IH1 IH2] Hk | now auto s r s' sent l _ [IH1 IH2] Hrun Hsent].
  - split; [done | constructor].
  - split; [by eapply remembered_frame | done].
  - assert (snd (apply_victron_ess_balance_bias now auto s) = s') as Hs by (by rewrite Hrun).
    assert ((quiet s s') \/ exists x intent, requests now x intent s s') as [[Hq Hk]|(x & intent & o & Ho & Hd & Hr)].
    { apply cycle_effect in Hs as [?|[(x & ? & _)|(x & ? & _)]]; eauto. }
    + rewrite Hq in Hsent. symmetry in Hsent. rewrite <- (app_nil_r (setpoints (calls s))) in Hsent at 2.
      apply app_inv_head in Hsent as ->. split; [by eapply remembered_frame | done].
    + rewrite Ho in Hsent. apply app_inv_head in Hsent as <-. unfold remembers in Hr. cbn.
      destruct (accepted o); cbn; [|split; [by eapply remembered_frame | done]].
      split; [done|]. destruct l as [|q l]; [constructor|]. constructor; [by eapply due_is_spaced | done].
Qed.

(** C4. Setpoints do not chatter: over any sequence of cycles, at any times and whatever else happens to the
    service in between, two accepted requests in a row are at least the configured update interval apart, and after a
    tracking request the next one differs from it by at least one watt. *)
Theorem accepted_setpoints_are_spaced s l : history s l -> all_spaced l.
Proof. intros H. exact (proj2 (history_invariant s l H)). Qed.

End shape.

(** ** The controller *)
Section controller.
Import VictronEssPidController.

Lemma fopp_cls x : fcls (fopp x) = 3 <-> fcls x = 3.
Proof. by destruct x as [[]|[]| |[] ? ?]. Qed.

Lemma fopp_le x : flt f0 x = true -> fle (fopp x) x = true.
Proof. destruct x as [[]|[]| |[] m e]; try done. Qed.

(** Clamping ends within the limit, whatever it is given. *)
Lemma clamp_bounds limit x : (limit >? f0)%F = true -> (fopp limit <=? clamp limit x)%F = true /\ (clamp limit x <=? limit)%F = true.
Proof.
  intros H. assert (isnan limit = false) as Hn by (by destruct limit).
  assert (isnan (fopp limit) = false) as Ho by (by destruct limit).
  pose proof (fopp_le limit H) as Hle. unfold clamp. split; [by apply fmax_ge_l|].
  assert (fmin x limit <=? limit = true \/ isnan (fmin x limit) = true)%F as Hm.
  { unfold fmin. destruct (limit <? x)%F eqn:E; [left; by apply fle_refl|].
    destruct (isnan x) eqn:Ex; [by right|]. left. destruct (x <=? limit)%F eqn:El; [done|].
    apply fle_total in El; [congruence | done..]. }
  unfold fmax. destruct (fmin x limit >? fopp limit)%F eqn:E; [|done].
  destruct Hm as [Hm|Hm]; [done|]. destruct (fmin x limit); try done. by destruct limit.
Qed.

(** What the controller reads: the time since its last run, the last error, the integral and the last output. *)
Definition pid_inputs (now : float) (v : service) (config : pid_config) (dt last_error_w integral last_output_w : float) : Prop :=
  victron_ess_balance_pid_config v = Ok config /\ victron_ess_balance_pid_timing now v = Ok (dt, last_error_w) /\
  float_or (rt "pid_integral_output_w") f0 v = Ok integral /\ float_or (rt "pid_last_output_w") f0 v = Ok last_output_w.

Lemma pid_output_inputs error_w now s out s' :
  victron_ess_balance_pid_output error_w now s = (Ok out, s') ->
  exists config dt last_error_w integral last_output_w,
    pid_inputs now s.(attrs) config dt last_error_w integral last_output_w /\
    let effective := victron_ess_balance_effective_error error_w config.(deadband_w) in
    let terms := pid_terms config integral effective last_error_w dt in
    out = victron_ess_balance_pid_ramped_output_w last_output_w
            (victron_ess_balance_pid_clamped_output_w (snd terms) config.(max_abs_w)) dt config.(ramp_rate_w_per_second) /\
    s'.(attrs) = <[rt "pid_integral_output_w" := VFloat (fst terms)]> (<[rt "pid_last_at" := VFloat now]>
                   (<[rt "pid_last_error_w" := VFloat effective]> s.(attrs))).
Proof.
  unfold victron_ess_balance_pid_output. rewrite reads_bind. destruct (victron_ess_balance_pid_config _) as [c|] eqn:Hc; [|done].
  rewrite reads_bind. destruct (victron_ess_balance_pid_timing _ _) as [[dt le]|] eqn:Ht; [|done].
  rewrite reads_bind. destruct (float_or (rt "pid_integral_output_w") _ _) as [i|] eqn:Hi; [|done].
  destruct (pid_terms _ _ _ _ _) as [i' target] eqn:Hterms.
  rewrite reads_bind. destruct (float_or (rt "pid_last_output_w") _ _) as [lo|] eqn:Hl; [|done].
  intros H. exists c, dt, le, i, lo. cbn zeta. rewrite Hterms. injection H as <- <-. by split_and!.
Qed.

(** [y] lies between [-limit] and [limit]. *)
Definition within_limit (limit x : float) : Prop := (fopp limit <=? x)%F = true /\ (x <=? limit)%F = true.

(** [y] is [x] cut off at [limit] in both directions; a limit that is not positive does not cut. *)
Definition limited (limit x y : float) : Prop :=
  if (limit >? f0)%F then
    within_limit limit y /\ ((fopp limit <? x)%F = true -> (x <=? limit)%F = true -> y = x) /\
    ((limit <? x)%F = true -> y = limit) /\ ((x <=? fopp limit)%F = true -> y = fopp limit)
  else y = x.

Lemma clamp_limited limit x : (limit >? f0)%F = true -> limited limit x (clamp limit x).
Proof.
  intros H. unfold limited. rewrite H. assert (isnan limit = false) as Hn by (by destruct limit).
  pose proof (fopp_le limit H) as Hle.
  split_and!; [by apply clamp_bounds | intros H1 H2 | intros H1 | intros H1]; unfold clamp, fmin, fmax.
  - rewrite (fle_not_flt _ _ H2). by rewrite H1.
  - rewrite H1. destruct (fopp limit <? limit)%F eqn:E; [done|]. by destruct limit as [[]|[]| |[] ? ?].
  - assert (x <=? limit = true)%F as H2 by (by eapply fle_trans). rewrite (fle_not_flt _ _ H2). 
    by rewrite (fle_not_flt _ _ H1).
Qed.

(** The next integral and the target of a controller outside the deadband: the sum of the proportional, the
    integral and the derivative part, cut off at the limits. *)
Definition pid_law (config : pid_config) (integral error_w last_error_w dt integral' target : float) : Prop :=
  limited config.(integral_limit_w) (integral + fmax f0 config.(ki) * error_w * fmax f0 dt)%F integral' /\
  limited config.(max_abs_w)
    (config.(kp) * error_w + integral' + config.(kd) * (if (dt <=? f0)%F then f0 else (error_w - last_error_w) / dt))%F target.

(** Which integral and which target follow from an error: inside the deadband both are zero. *)
Definition pid_reference (config : pid_config) (integral error_w last_error_w dt integral' target : float) : Prop :=
  let resting := (fabs error_w <? config.(deadband_w))%F || (error_w =? f0)%F in
  if resting then integral' = f0 /\ target = f0 else pid_law config integral error_w last_error_w dt integral' target.

(** The output follows the target: at once without a ramp (or on the first run), else by a step of at most the ramp
    rate times the elapsed time towards it. *)
Definition follows (config : pid_config) (dt last_output_w target out : float) : Prop :=
  if (config.(ramp_rate_w_per_second) <=? f0)%F || (dt <=? f0)%F then out = target
  else let allowed := (config.(ramp_rate_w_per_second) * dt)%F in
    (allowed >? f0)%F = true ->
    exists step, limited allowed (target - last_output_w)%F step /\ out = (last_output_w + step)%F.

Lemma integral_limited c i e dt :
  limited c.(integral_limit_w) (i + fmax f0 c.(ki) * e * fmax f0 dt)%F
    (victron_ess_balance_pid_integral_output i e dt c.(ki) c.(integral_limit_w)).
Proof.
  unfold victron_ess_balance_pid_integral_output. destruct (_ >? f0)%F eqn:E; [by apply clamp_limited|].
  unfold limited. by rewrite E.
Qed.

Lemma target_limited limit x : isnan limit = false -> limited limit x (victron_ess_balance_pid_clamped_output_w x limit).
Proof.
  intros Hn. unfold victron_ess_balance_pid_clamped_output_w. destruct (limit >? f0)%F eqn:E.
  - rewrite (flt_not_fle _ _ E). by apply clamp_limited.
  - unfold limited. rewrite E. destruct (limit <=? f0)%F eqn:El; [done|]. apply fle_total in El; [|done..].
    congruence.
Qed.

Lemma limited_zero limit y : limited limit f0 y -> y = f0.
Proof.
  unfold limited. destruct (limit >? f0)%F eqn:E; [|done]. intros (_ & H & _).
  apply H; [by destruct limit as [[]|[]| |[] ? ?] | by apply flt_fle].
Qed.

Lemma configured_not_nan (v : service) config : victron_ess_balance_pid_config v = Ok config -> isnan config.(max_abs_w) = false.
Proof.
  unfold victron_ess_balance_pid_config. intros ([[p i] d] & _ & H)%res_bind_ok.
  apply res_bind_ok in H as ([[[dead il] ma] ramp] & Hl & [= <-]). cbn [max_abs_w].
  unfold victron_ess_balance_pid_limit_config in Hl.
  apply res_bind_ok in Hl as (x1 & _ & (x2 & _ & (x3 & _ & (x4 & _ & [= _ _ <- _])%res_bind_ok)%res_bind_ok)%res_bind_ok).
  by apply fmax_not_nan.
Qed.

(** C5. The controller respects its limits and its setpoint, for every input, infinities and NaN included. Inside the
    deadband (and for an error of zero) the integral and the target are zero. Outside it the stored integral is the
    old one plus gain times error times elapsed time, cut off at a configured integral limit, and the target is the
    sum of the proportional, the integral and the derivative part, cut off at a configured output limit. The output
    is the target when no ramp is configured or no time has passed; else it is the last output plus the difference to
    the target, cut off at the ramp rate times the elapsed time in both directions (when that product is positive). *)
Theorem controller_respects_its_limits error_w now s out s' :
  victron_ess_balance_pid_output error_w now s = (Ok out, s') ->
  exists config dt last_error_w integral last_output_w integral' target,
    pid_inputs now s.(attrs) config dt last_error_w integral last_output_w /\
    s'.(attrs) !! rt "pid_integral_output_w" = Some (VFloat integral') /\
    pid_reference config integral error_w last_error_w dt integral' target /\
    follows config dt last_output_w target out.
Proof.
  intros H. apply pid_output_inputs in H as (c & dt & le & i & lo & Hin & Hout & Ha).
  set (terms := pid_terms c i _ le dt) in *.
  exists c, dt, le, i, lo, (fst terms), (victron_ess_balance_pid_clamped_output_w (snd terms) c.(max_abs_w)).
  split_and!; [done | | |].
  - rewrite Ha. unfold service. by rewrite lookup_insert_eq.
  - unfold pid_reference. subst terms. unfold pid_terms, victron_ess_balance_effective_error.
    assert (isnan c.(max_abs_w) = false) as Hm by (eapply configured_not_nan, Hin).
    destruct (fabs error_w <? c.(deadband_w))%F; cbn [orb];
      [split; [done | by eapply limited_zero, target_limited]|].
    destruct (error_w =? f0)%F; [split; [done | by eapply limited_zero, target_limited]|]. cbn [fst snd].
    split; [apply integral_limited | by apply target_limited].
  - rewrite Hout. unfold follows, victron_ess_balance_pid_ramped_output_w. destruct (_ || _); [done|].
    intros Hs. eexists. split; [by apply clamp_limited | reflexivity].
Qed.

End controller.

(** ** A site *)
Section site.
Import VictronEssBalanceExecutor.

(** A gateway that accepts everything, no runtime state to save. *)
Definition obedient : EssWorld := {| setpoint_receipt := fun _ _ _ => Ok true; save_runtime_state := None |}.
#[local] Existing Instance obedient.

Definition watts (n : Z) : pyval := VFloat (f_of_Z n).

(** Two batteries; the one on the bus has the error [error_w]. *)
Definition site_cluster (error_w : Z) : pyval :=
  text_dict
    [("battery_discharge_balance_eligible_source_count", VInt 2);
     ("battery_sources", VList [
        text_dict [("source_id", VStr "victron"); ("online", VBool true); ("soc", watts 60);
                   ("discharge_balance_error_w", watts error_w);
                   ("discharge_balance_control_connector_type", VStr "dbus");
                   ("discharge_balance_control_support", VStr "experimental")];
        text_dict [("source_id", VStr "huawei")]]);
     ("battery_combined_grid_interaction_w", watts (-100)); ("battery_combined_ac_power_w", watts 500)].

Definition with_error (error_w : Z) (s : ess) : ess :=
  s <| attrs := <["_last_energy_cluster" := site_cluster error_w]> s.(attrs) |>.

Definition site_start : ess :=
  with_error (-300) (started [("AutoBatteryDischargeBalanceVictronBiasEnabled", "1")] [VStr "victron"; VStr "huawei"]).
Definition site_first : ess := snd (apply_victron_ess_balance_bias (f_of_Z 1000) true site_start).
Definition site_second : ess := snd (apply_victron_ess_balance_bias (f_of_Z 1003) true (with_error (-280) site_first)).

Lemma bias_needs_every_guard_witness :
  setpoints site_first.(calls) = [(f_of_Z (-10), "tracking", Ok true)] /\
  exists sent, setpoints site_first.(calls) = setpoints site_start.(calls) ++ sent /\
    (sent = [] \/
     (exists x o, sent = [(x, "tracking", o)] /\ guards_passed (f_of_Z 1000) true site_start.(attrs) site_first.(attrs)) \/
     (exists x o, sent = [(x, "restore", o)] /\
        victron_ess_balance_base_setpoint_w site_start.(attrs) = Ok x /\ biased site_start.(attrs))).
Proof.
  split; [vm_compute; reflexivity|].
  exact (bias_needs_every_guard (f_of_Z 1000) true site_start _ site_first (surjective_pairing _)).
Defined.

Definition site_requests : list request :=
  rev (omap (accepted_request (f_of_Z 1003) (with_error (-280) site_first).(attrs)) (drop 1 (setpoints site_second.(calls)))) ++
  rev (omap (accepted_request (f_of_Z 1000) site_start.(attrs)) (setpoints site_first.(calls))) ++ [].

Lemma accepted_setpoints_are_spaced_witness :
  map (fun q => (float_repr q.(rq_at), float_repr q.(rq_value))) site_requests =
    [("1003.0", "-22.799999999999997"); ("1000.0", "-10.0")] /\ all_spaced site_requests.
Proof.
  split; [vm_compute; reflexivity|]. apply (accepted_setpoints_are_spaced site_second).
  eapply (history_cycle (f_of_Z 1003) true (with_error (-280) site_first) _ _ (drop 1 (setpoints site_second.(calls))));
    [| apply surjective_pairing | vm_compute; reflexivity].
  eapply (history_change site_first); [| intros k Hk; apply lookup_insert_ne; intros <-; apply str_in_spec in Hk;
    vm_compute in Hk; discriminate Hk].
  eapply (history_cycle (f_of_Z 1000) true site_start _ _ (setpoints site_first.(calls)));
    [| apply surjective_pairing | vm_compute; reflexivity].
  apply history_start. intros k [->|[->|?%not_elem_of_nil]%elem_of_cons]%elem_of_cons; [vm_compute; reflexivity..|done].
Defined.

(** A large error three seconds later: the target is the configured -500 W, the ramp allows 150 W. *)
Definition site_pid : res float * ess :=
  VictronEssPidController.victron_ess_balance_pid_output (f_of_Z (-2800)) (f_of_Z 1003) site_first.

Lemma controller_respects_its_limits_witness :
  fst site_pid = Ok (f_of_Z (-210)) /\
  exists config dt last_error_w integral last_output_w integral' target,
    pid_inputs (f_of_Z 1003) site_first.(attrs) config dt last_error_w integral last_output_w /\
    pid_reference config integral (f_of_Z (-2800)) last_error_w dt integral' target /\
    follows config dt last_output_w target (f_of_Z (-210)).
Proof.
  assert (fst site_pid = Ok (f_of_Z (-210))) as Hf by (vm_compute; reflexivity). split; [exact Hf|].
  assert (site_pid = (Ok (f_of_Z (-210)), snd site_pid)) as Hrun by (rewrite <- Hf; apply surjective_pairing).
  destruct (controller_respects_its_limits _ _ _ _ _ Hrun) as (c & dt & le & i & lo & i' & t & H1 & _ & H3 & H4).
  exists c, dt, le, i, lo, i', t. split; [exact H1|]. split; [exact H3 | exact H4].
Defined.

End site.
