(* ===== verification/EssLearningSafety.v ===== *)
(** * ESS balance: soundness of what is learned

    The keys of the learning profiles name their situation, the stored profiles keep their types
    and the ranges of their scores, a rollback restores the tuning that was recorded as stable, and
    an adaptive step is gated and moves one setting. *)

From S2P Require Import Prelude PyFloat PyValue OrderedMap Contracts EssSources EssConfig EssProfiles EssSafety EssAdvice EssTelemetry EssBalance EssFrames EssBalanceSafety.
Import VictronEssSourceResolver.

(** ** Text *)

Lemma app_assoc_text (a b c : string) : ((a ++ b) ++ c = a ++ b ++ c)%string.
Proof. induction a as [|x a IH]; [done|]. by apply (f_equal (String x)). Qed.

Lemma app_nil_text (a : string) : (a ++ "" = a)%string.
Proof. induction a as [|x a IH]; [done|]. by apply (f_equal (String x)). Qed.

Lemma split_char_plain sep a t cur :
  string_mem sep a = false -> split_char sep (a ++ t) cur = split_char sep t (cur ++ a).
Proof.
  revert cur. induction a as [|c a IH]; intros cur H; [by rewrite app_nil_text|].
  cbn [string_mem] in H. apply orb_false_iff in H as [Hc Ha].
  change (split_char sep (String c (a ++ t)) cur = split_char sep t (cur ++ String c a))%string.
  cbn [split_char]. rewrite Ascii.eqb_sym, Hc, IH by done. by rewrite app_assoc_text.
Qed.

Lemma join_tail sep l x :
  fold_left (fun acc y => acc ++ sep ++ y)%string l x
  = (x ++ fold_right (fun (y r : string) => (sep ++ y ++ r)%string) ""%string l)%string.
Proof.
  revert x. induction l as [|y l IH]; intros x; cbn; [by rewrite app_nil_text|]. by rewrite IH, !app_assoc_text.
Qed.

(** Splitting takes a joined list apart again. *)
Lemma split_join sep x l :
  Forall (fun y => string_mem sep y = false) (x :: l) -> py_split sep (join (String sep "") (x :: l)) = x :: l.
Proof.
  unfold py_split, join. rewrite join_tail. intros [Hx Hl]%Forall_cons.
  enough (forall z cur : string, string_mem sep z = false ->
    split_char sep (z ++ fold_right (fun (y r : string) => (String sep "" ++ y ++ r)%string) ""%string l)%string cur
    = (cur ++ z)%string :: l) as H.
  { by rewrite H. }
  induction l as [|y l IH]; intros z cur Hz; cbn [fold_right].
  - by rewrite split_char_plain.
  - apply Forall_cons in Hl as [Hy Hl]. rewrite split_char_plain by done.
    change (String sep "" ++ ?t)%string with (String sep t). cbn [split_char]. rewrite Ascii.eqb_refl. by rewrite IH.
Qed.

(** ** Keys of profiles *)
Section keys.
Import VictronEssLearningProfiles.

Definition plain (s : string) : Prop := string_mem ":" s = false.

Lemma action_plain e x i : plain (victron_ess_balance_action_direction e x i).
Proof. unfold victron_ess_balance_action_direction. repeat case_match; reflexivity. Qed.

Lemma regime_plain g x i a : plain (victron_ess_balance_site_regime g x i a).
Proof.
  unfold victron_ess_balance_site_regime, victron_ess_balance_grid_site_regime, victron_ess_balance_forecast_site_regime,
    victron_ess_balance_action_direction_site_regime.
  repeat (case_match; try done).
Qed.

Lemma limit_plain r c d : plain (victron_ess_balance_battery_limit_phase r c d).
Proof.
  unfold victron_ess_balance_battery_limit_phase.
  destruct (victron_ess_balance_near_discharge_limit _ _); [done|]. by case_match.
Qed.

Lemma reserve_plain source t : victron_ess_balance_reserve_phase source = Ok t -> plain t.
Proof.
  unfold victron_ess_balance_reserve_phase. intros (a & _ & (b & _ & [= <-])%res_bind_ok)%res_bind_ok.
  by repeat case_match.
Qed.

Lemma identity_of_key a r d e v p l :
  Forall plain [a; r; d; e; v; p; l] ->
  let key := victron_ess_balance_learning_profile_key [a; r; d; e; v; p; l] in
  victron_ess_balance_profile_identity key = mkLearningProfile key a r d e v p l.
Proof.
  intros H key. unfold victron_ess_balance_profile_identity.
  assert (py_split ":" key = [a; r; d; e; v; p; l]) as -> by (by apply split_join). done.
Qed.

(** The key of a learning profile names its situation completely: reading the key back yields the action
    direction, the site regime, the day, reserve, EV and PV phases and the battery limit phase it was built from, so two
    situations never share what they learned. *)
Theorem profile_key_names_its_situation cluster source source_error_w v p :
  victron_ess_balance_learning_profile cluster source source_error_w v = Ok p ->
  victron_ess_balance_profile_identity p.(lp_key) = p.
Proof.
  unfold victron_ess_balance_learning_profile.
  intros (i & _ & (ev & _ & (reserve & Hr & [= <-])%res_bind_ok)%res_bind_ok)%res_bind_ok.
  apply identity_of_key. repeat constructor.
  - apply action_plain.
  - apply regime_plain.
  - unfold victron_ess_balance_day_phase. by case_match.
  - by eapply reserve_plain.
  - by destruct ev.
  - unfold victron_ess_balance_pv_phase. by case_match.
  - apply limit_plain.
Qed.

End keys.

(** ** The store of the profiles *)
Section store.
Import VictronEssTelemetryScorer VictronEssLearningProfiles.

(** What a field of a profile holds: its key, a part of the situation that the key names, a counter, a number or
    none, a score between 0 and 1 or none. *)
Inductive field_kind := IsKey | IsText (part : learning_profile -> string) | IsCounter | IsNumber | IsScore.

Definition profile_schema : list (string * field_kind) :=
  [("key", IsKey); ("action_direction", IsText action_direction); ("site_regime", IsText site_regime);
   ("direction", IsText site_regime); ("day_phase", IsText day_phase); ("reserve_phase", IsText reserve_phase);
   ("ev_phase", IsText ev_phase); ("pv_phase", IsText pv_phase);
   ("battery_limit_phase", IsText battery_limit_phase);
   ("response_delay_seconds", IsNumber); ("delay_samples", IsCounter); ("estimated_gain", IsNumber);
   ("gain_samples", IsCounter); ("response_delay_mad_seconds", IsNumber); ("gain_mad", IsNumber);
   ("overshoot_count", IsCounter); ("settled_count", IsCounter); ("stability_score", IsScore);
   ("regime_consistency_score", IsScore); ("response_variance_score", IsNumber); ("reproducibility_score", IsScore);
   ("safe_ramp_rate_watts_per_second", IsNumber); ("preferred_bias_limit_watts", IsNumber)].

Definition kind_ok (profile_key : string) (kind : field_kind) (v : pyval) : Prop :=
  match kind, v with
  | IsKey, VStr t => t = profile_key
  | IsText part, VStr t => t = part (victron_ess_balance_profile_identity profile_key)
  | IsCounter, VInt n => 0 <= n
  | IsNumber, (VNone | VFloat _) => True
  | IsScore, VNone => True
  | IsScore, VFloat x => (f0 <=? x)%F = true /\ (x <=? f1)%F = true
  | _, _ => False
  end.

(** The type of a value alone: any text for a text. *)
Definition kind_typed (profile_key : string) (kind : field_kind) (v : pyval) : Prop :=
  match kind, v with IsText _, VStr _ => True | _, _ => kind_ok profile_key kind v end.

Definition is_text_field (name : string) : bool :=
  match table_get name profile_schema with Some (IsText _) => true | _ => false end.

Definition profile_typed (profile_key : string) (profile : dict) : Prop :=
  forall name kind, table_get name profile_schema = Some kind ->
    exists v, dict_find name profile = Some v /\ kind_typed profile_key kind v.

Definition profile_ok (profile_key : string) (profile : dict) : Prop :=
  forall name kind, table_get name profile_schema = Some kind ->
    exists v, dict_find name profile = Some v /\ kind_ok profile_key kind v.

Definition entry_ok (entry : pyval * pyval) : Prop :=
  exists profile_key profile, entry = (VStr profile_key, VDict profile) /\ profile_ok profile_key profile.

(** The stored profiles; anything but a dictionary counts as none. *)
Definition stored (v : service) : dict := normalized_mapping (getattr profiles_attr VNone v).

Definition store_ok (s : ess) : Prop := Forall entry_ok (stored s.(attrs)).
Definition store_kept (s s' : ess) : Prop := store_ok s -> store_ok s'.

#[export] Instance store_kept_preorder : PreOrder store_kept.
Proof. split; unfold store_kept; [by intros s | intros s1 s2 s3; auto]. Qed.

(** *** Dictionaries *)

Lemma profile_ok_typed key p : profile_ok key p -> profile_typed key p.
Proof.
  intros H name kind Hn. destruct (H name kind Hn) as (v & Hv & Hk). exists v. split; [done|]. by destruct kind, v.
Qed.

Lemma stored_entry k d profiles :
  Forall entry_ok profiles -> dict_find k profiles = Some (VDict d) -> profile_ok k d.
Proof.
  intros H. unfold dict_find. destruct (List.find _ _) as [[a b]|] eqn:E; [|done]. cbn. intros [= ->].
  apply find_some in E as [Hin Ha]. rewrite Forall_forall in H. apply list_elem_of_In, H in Hin as (key & p & [= -> ->] & Hp).
  cbn in Ha. apply String.eqb_eq in Ha as ->. done.
Qed.

Lemma profile_ok_set key name kind v d :
  profile_ok key d -> table_get name profile_schema = Some kind -> kind_ok key kind v -> profile_ok key (dict_set name v d).
Proof.
  intros Hd Hn Hv name' kind' Hn'. rewrite dict_find_set. destruct (name =? name')%string eqn:E; [|by apply Hd].
  apply String.eqb_eq in E as ->. exists v. split; [done|]. congruence.
Qed.

(** *** A new profile *)

Lemma find_texts (texts : list (string * string)) (rest : dict) name :
  dict_find name (map (fun kv => (VStr (fst kv), VStr (snd kv))) texts ++ rest) =
  match table_get name texts with Some t => Some (VStr t) | None => dict_find name rest end.
Proof.
  induction texts as [|[k t] texts IH]; [done|]. unfold dict_find in *. cbn. rewrite String.eqb_sym.
  by destruct (name =? k)%string.
Qed.

Lemma identity_key key : (victron_ess_balance_profile_identity key).(lp_key) = key.
Proof.
  unfold victron_ess_balance_profile_identity. by repeat destruct (_ <=? _)%nat.
Qed.

Lemma initialized_ok key : profile_ok key (victron_ess_balance_initialized_profile_state key).
Proof.
  intros name kind Hk. unfold victron_ess_balance_initialized_profile_state. rewrite find_texts.
  apply table_get_elem in Hk. unfold profile_schema in Hk. rewrite !elem_of_cons in Hk.
  assert (lp_key (victron_ess_balance_profile_identity key) = key) as Hkey by apply identity_key.
  repeat (destruct Hk as [Hk|Hk]; [injection Hk as -> ->; eexists; split; [reflexivity | first [done | exact Hkey]] |]).
  by apply elem_of_nil in Hk.
Qed.

(** *** Operations *)

Lemma stored_set profiles (v : service) : stored (<[profiles_attr := VDict profiles]> v) = profiles.
Proof. unfold stored, getattr, service. by rewrite lookup_insert_eq. Qed.

Lemma profiles_run s : exists s', victron_ess_balance_learning_profiles s = (Ok (stored s.(attrs)), s') /\ stored s'.(attrs) = stored s.(attrs).
Proof.
  unfold victron_ess_balance_learning_profiles, mbind, M_bind, get. cbn.
  assert (forall d, normalized_mapping (getattr profiles_attr VNone s.(attrs)) = d -> stored s.(attrs) = d) as Hst by done.
  destruct (getattr profiles_attr VNone s.(attrs)); cbn in Hst; rewrite (Hst _ eq_refl); eexists; (split; [reflexivity|]);
    first [by apply Hst | unfold set_attr, modify; cbn; apply stored_set].
Qed.

Lemma profile_state_run key s :
  exists s', victron_ess_balance_learning_profile_state key s =
    (Ok (if (key =? "")%string then [] else normalized_mapping (dict_get key (stored s.(attrs)))), s') /\
    stored s'.(attrs) = stored s.(attrs).
Proof.
  unfold victron_ess_balance_learning_profile_state. destruct (key =? "")%string; [by eexists|].
  destruct (profiles_run s) as (s' & Hs & Hk). unfold mbind, M_bind. rewrite Hs. by eexists.
Qed.

Lemma store_leaf {A} W (m : M ess A) : keeps (writes W) m -> str_in profiles_attr W = false -> keeps store_kept m.
Proof.
  intros Hm HW s. destruct (Hm s) as (_ & _ & Hk). unfold store_kept, store_ok, stored, getattr. by rewrite Hk.
Qed.

Lemma profiles_kept : keeps store_kept victron_ess_balance_learning_profiles.
Proof. intros s. destruct (profiles_run s) as (s' & Hs & Hk). rewrite Hs. unfold store_kept, store_ok. cbn. by rewrite Hk. Qed.

Lemma profile_state_kept key : keeps store_kept (victron_ess_balance_learning_profile_state key).
Proof.
  intros s. destruct (profile_state_run key s) as (s' & Hs & Hk). rewrite Hs. unfold store_kept, store_ok. cbn. by rewrite Hk.
Qed.

Lemma ensure_run key s : store_ok s ->
  let '(r, s') := ensure_victron_ess_balance_learning_profile_state key s in
  store_ok s' /\ forall p, r = Ok p -> p = [] \/ profile_ok key p.
Proof.
  intros Hok. unfold ensure_victron_ess_balance_learning_profile_state. destruct (key =? "")%string; cbn.
  { split; [done|]. intros p [= <-]. by left. }
  destruct (profiles_run s) as (s' & Hs & Hk). unfold mbind at 1, M_bind at 1. rewrite Hs.
  assert (store_ok s') as Hok' by (unfold store_ok; by rewrite Hk).
  assert (forall x, let '(r, s2) := (set_attr profiles_attr (VDict (dict_set key
      (VDict (victron_ess_balance_initialized_profile_state key)) (stored s.(attrs))));;
      mret (victron_ess_balance_initialized_profile_state key)) s' in
      x = s2 -> store_ok x /\ forall p, r = Ok p -> p = [] \/ profile_ok key p) as Hnew.
  { intros x. cbn. intros ->. split.
    - unfold store_ok. cbn. rewrite stored_set. apply Forall_dict_set; [exact Hok|]. eexists _, _.
      split; [reflexivity | apply initialized_ok].
    - intros p [= <-]. right. apply initialized_ok. }
  unfold dict_get. destruct (dict_find key (stored s.(attrs))) as [[]|] eqn:E; try exact (Hnew _ eq_refl).
  split; [done|]. intros p [= <-]. right. exact (stored_entry _ _ _ Hok E).
Qed.

Lemma change_profile_kept key f :
  (forall p p', profile_ok key p -> f p = Ok p' -> profile_ok key p') -> keeps store_kept (change_profile key f).
Proof.
  intros Hf s Hok. unfold change_profile. pose proof (ensure_run key s Hok) as Hr. unfold mbind at 1, M_bind at 1.
  destruct (ensure_victron_ess_balance_learning_profile_state key s) as [[p|e] s1]; destruct Hr as [Hok1 Hp]; [|exact Hok1].
  specialize (Hp p eq_refl) as [-> | Hp]; [exact Hok1|]. destruct p as [|kv p]; [exact Hok1|]. unfold lift, mbind, M_bind.
  destruct (f (kv :: p)) as [p'|e] eqn:Ef; [|exact Hok1]. destruct (profiles_run s1) as (s2 & Hs2 & Hk). rewrite Hs2.
  unfold store_ok, set_attr, modify. cbn. rewrite stored_set. apply Forall_dict_set; [exact Hok1|]. eexists _, _. split; [done|]. eauto.
Qed.

Lemma counter_nonneg p name n : victron_ess_balance_profile_counter p name = Ok n -> 0 <= n.
Proof.
  unfold victron_ess_balance_profile_counter. destruct (dict_get name p); try (intros (x & _ & [= <-])%res_bind_ok; lia).
  intros [= <-]. lia.
Qed.

Lemma increment_kept key name :
  table_get name profile_schema = Some IsCounter -> keeps store_kept (victron_ess_balance_increment_profile_counter key name).
Proof.
  intros Hn. apply change_profile_kept. intros p p' Hp (n & H & [= <-])%res_bind_ok.
  eapply profile_ok_set; [done..|]. apply counter_nonneg in H. cbn. lia.
Qed.

Lemma sample_kept key sample a b c :
  table_get a profile_schema = Some IsCounter -> table_get b profile_schema = Some IsNumber ->
  table_get c profile_schema = Some IsNumber ->
  keeps store_kept (change_profile key (fun p => victron_ess_balance_update_profile_sample p sample a b c)).
Proof.
  intros Ha Hb Hc. apply change_profile_kept. unfold victron_ess_balance_update_profile_sample.
  intros p p' Hp (n & Hn & (x & _ & (p2 & Hp2 & [= <-])%res_bind_ok)%res_bind_ok)%res_bind_ok.
  apply counter_nonneg in Hn. eapply profile_ok_set; [eapply profile_ok_set; [|done..] | done | cbn; lia].
  destruct x as [x|]; [|by injection Hp2 as <-]. apply res_bind_ok in Hp2 as (d & _ & [= <-]). by eapply profile_ok_set.
Qed.

(** *** Scores *)

Lemma unit_interval_ok x : (f0 <=? unit_interval x)%F = true /\ (unit_interval x <=? f1)%F = true.
Proof.
  assert (fle f0 f1 = true) as H01 by done. unfold unit_interval.
  pose proof (fmin_le_l f1 x eq_refl) as H1. split; [by apply fmax_ge_l|]. by destruct (fmax_cases f0 (fmin f1 x)) as [-> | ->].
Qed.

(** A profile is stored under [key]. *)
Definition settled (key : string) (s : ess) : Prop :=
  store_ok s /\ exists p, dict_find key (stored s.(attrs)) = Some (VDict p).

Definition settled_kept (key : string) (s s' : ess) : Prop := settled key s -> settled key s'.

#[export] Instance settled_kept_preorder key : PreOrder (settled_kept key).
Proof. split; unfold settled_kept; [by intros s | intros s1 s2 s3; auto]. Qed.

Lemma settled_profile_state key : keeps (settled_kept key) (victron_ess_balance_learning_profile_state key).
Proof.
  intros s. destruct (profile_state_run key s) as (s' & Hs & Hk). rewrite Hs. unfold settled_kept, settled, store_ok. cbn. by rewrite Hk.
Qed.

Lemma set_field_settled key name kind v :
  table_get name profile_schema = Some kind -> kind_ok key kind v -> keeps (settled_kept key) (set_profile_field key name v).
Proof.
  intros Hn Hv s [Hok [p Hp]]. unfold set_profile_field, mbind, M_bind. destruct (profiles_run s) as (s' & Hs & Hk). rewrite Hs.
  unfold dict_get. rewrite Hp. cbn. unfold settled, store_ok. cbn. rewrite stored_set. split.
  - apply Forall_dict_set; [exact Hok|]. eexists _, _. split; [done|]. eapply profile_ok_set; [|done..]. exact (stored_entry _ _ _ Hok Hp).
  - rewrite dict_find_set, String.eqb_refl. by eexists.
Qed.

Lemma score_settled key name kind f :
  table_get name profile_schema = Some kind -> (forall p x, f p = Ok x -> kind_ok key kind (VFloat x)) ->
  keeps (settled_kept key) (score_profile key name f).
Proof.
  intros Hn Hf. unfold score_profile. apply keeps_bind; [exact _ | apply settled_profile_state | intros p].
  intros s. unfold lift, mbind, M_bind. destruct (f p) as [x|e] eqn:E; [|by intros H]. cbn. eapply set_field_settled; eauto.
Qed.

Lemma stability_range settled overshoot gain delay x :
  stability_score_values settled overshoot gain delay = Ok x -> kind_ok "" IsScore (VFloat x).
Proof.
  unfold stability_score_values. intros (a & _ & (b & _ & [= <-])%res_bind_ok)%res_bind_ok. apply unit_interval_ok.
Qed.

Lemma profile_stability_range key p x : profile_stability p = Ok x -> kind_ok key IsScore (VFloat x).
Proof.
  unfold profile_stability. intros (a & _ & (b & _ & (c & _ & (d & _ & H)%res_bind_ok)%res_bind_ok)%res_bind_ok)%res_bind_ok.
  by apply stability_range in H.
Qed.

Lemma consistency_range key p x : regime_consistency_score p = Ok x -> kind_ok key IsScore (VFloat x).
Proof.
  unfold regime_consistency_score.
  intros (a & _ & (b & _ & (c & _ & (d & _ & [= <-])%res_bind_ok)%res_bind_ok)%res_bind_ok)%res_bind_ok. apply unit_interval_ok.
Qed.

Lemma reproducibility_range key p x : reproducibility_score p = Ok x -> kind_ok key IsScore (VFloat x).
Proof.
  unfold reproducibility_score.
  intros (a & _ & (b & _ & (c & _ & (d & _ & [= <-])%res_bind_ok)%res_bind_ok)%res_bind_ok)%res_bind_ok. apply unit_interval_ok.
Qed.

Lemma refresh_kept key : keeps store_kept (victron_ess_balance_refresh_profile_stability key).
Proof.
  intros s Hok. unfold victron_ess_balance_refresh_profile_stability. destruct (profile_state_run key s) as (s1 & Hs & Hk).
  unfold mbind at 1, M_bind at 1. rewrite Hs. assert (store_ok s1) as Hok1 by (unfold store_ok; by rewrite Hk).
  destruct (key =? "")%string; [done|]. unfold dict_get.
  destruct (dict_find key (stored s.(attrs))) as [[| | | | | | |p|]|] eqn:E; try done. cbn [default normalized_mapping].
  destruct p as [|kv p]; [done|].
  assert (settled key s1) as Hset by (split; [done|]; rewrite Hk; eauto). clear Hs Hk E Hok Hok1. revert Hset.
  enough (forall m : M ess unit, keeps (settled_kept key) m -> settled key s1 -> store_ok (snd (m s1))) as H.
  { apply H. keeps_go ltac:(first [ apply settled_profile_state | intros s'; exact id
      | eapply score_settled; [reflexivity | first [ apply profile_stability_range | apply consistency_range
          | apply reproducibility_range | intros; exact I ]]
      | eapply set_field_settled; [reflexivity | exact I] ]). }
  intros m Hm Hs. by apply Hm in Hs as [Hs _].
Qed.

End store.

(** ** The cycle *)

Create HintDb store.
#[export] Hint Resolve profiles_kept profile_state_kept refresh_kept : store.

(** A step that does not write the store, or an operation with a lemma. *)
Ltac store_call :=
  lazymatch goal with
  | |- keeps _ (set_attr ?n _) => apply (store_leaf [n]); [apply writes_set_attr, str_in_head | vm_compute; reflexivity]
  | |- keeps _ (reads _) => apply (store_leaf []); [apply writes_reads | reflexivity]
  | |- keeps _ (set_metric _ _) => apply (store_leaf []); [apply writes_set_metric | reflexivity]
  | |- keeps _ (update_metrics _) => apply (store_leaf []); [apply writes_update_metrics | reflexivity]
  | |- _ => first [ solve [eauto 2 with store nocore]
                  | eapply store_leaf; [solve [eauto 2 with writes nocore] | vm_compute; reflexivity] ]
  end.
Ltac store_go := keeps_go ltac:(idtac; store_call).

Section cycle_store.
Import VictronEssLearningProfiles VictronEssRecommendationEngine VictronEssTelemetryRecorder VictronEssBalanceExecutor.

Lemma ensure_kept key : keeps store_kept (ensure_victron_ess_balance_learning_profile_state key).
Proof.
  intros s Hok. pose proof (ensure_run key s Hok) as H.
  destruct (ensure_victron_ess_balance_learning_profile_state key s). by destruct H.
Qed.
#[local] Hint Resolve ensure_kept : store.

Lemma snapshot_kept key : keeps store_kept (victron_ess_balance_profile_snapshot key).
Proof. unfold victron_ess_balance_profile_snapshot. store_go. Qed.
#[local] Hint Resolve snapshot_kept : store.

Lemma merge_kept key : keeps store_kept (merge_victron_ess_balance_learning_profile_metrics key).
Proof. unfold merge_victron_ess_balance_learning_profile_metrics. store_go. Qed.
#[local] Hint Resolve merge_kept : store.

Lemma delay_kept key x : keeps store_kept (victron_ess_balance_update_profile_delay key x).
Proof. by apply sample_kept. Qed.

Lemma gain_kept key x : keeps store_kept (victron_ess_balance_update_profile_gain key x).
Proof. by apply sample_kept. Qed.

Lemma overshoot_kept key : keeps store_kept (victron_ess_balance_increment_profile_counter key "overshoot_count").
Proof. by apply increment_kept. Qed.

Lemma settled_count_kept key : keeps store_kept (victron_ess_balance_increment_profile_counter key "settled_count").
Proof. by apply increment_kept. Qed.
#[local] Hint Resolve delay_kept gain_kept overshoot_kept settled_count_kept : store.

Lemma recommendation_source_kept : keeps store_kept victron_ess_balance_recommendation_source.
Proof. unfold victron_ess_balance_recommendation_source. store_go. Qed.
#[local] Hint Resolve recommendation_source_kept : store.

Lemma telemetry_metrics_kept : keeps store_kept populate_victron_ess_balance_telemetry_metrics.
Proof.
  unfold populate_victron_ess_balance_telemetry_metrics, populate_victron_ess_balance_recommendation_telemetry_metrics,
    victron_ess_balance_recommendation_metrics. store_go.
Qed.
#[local] Hint Resolve telemetry_metrics_kept : store.

Lemma clean_episode_kept now e c t ce cs th b d :
  keeps store_kept (victron_ess_balance_process_clean_episode now e c t ce cs th b d).
Proof.
  unfold victron_ess_balance_process_clean_episode, victron_ess_balance_maybe_record_response_delay,
    victron_ess_balance_maybe_record_gain, victron_ess_balance_maybe_mark_overshoot, victron_ess_balance_maybe_mark_settled,
    victron_ess_balance_mark_overshoot, victron_ess_balance_mark_settled, victron_ess_balance_update_response_delay,
    victron_ess_balance_update_gain, victron_ess_balance_update_service_sample, count_up. store_go.
Qed.
#[local] Hint Resolve clean_episode_kept : store.

Lemma update_telemetry_kept now cluster e key : keeps store_kept (update_victron_ess_balance_telemetry now cluster e key).
Proof. unfold update_victron_ess_balance_telemetry, record_observation, set_number. store_go. Qed.
#[local] Hint Resolve update_telemetry_kept : store.

Lemma learning_state_kept now cluster source e :
  keeps store_kept (prepare_victron_ess_balance_learning_state now cluster source e).
Proof. unfold prepare_victron_ess_balance_learning_state. store_go. Qed.
#[local] Hint Resolve learning_state_kept : store.

Lemma prepare_kept now auto : keeps store_kept (prepare_victron_ess_balance_tracking_state now auto).
Proof. unfold prepare_victron_ess_balance_tracking_state, prepare_victron_ess_balance_tracking_profile. store_go. Qed.

Context {world : EssWorld}.

Lemma request_kept x intent : keeps store_kept (VictronEssSetpointWriter.write_setpoint x intent).
Proof.
  intros s. destruct (write_setpoint_run x intent s) as (o & _ & Ha & _). unfold store_kept, store_ok. by rewrite Ha.
Qed.
#[local] Hint Resolve prepare_kept request_kept : store.

Lemma tracking_kept now t : keeps store_kept (apply_victron_ess_balance_tracking now t).
Proof.
  unfold apply_victron_ess_balance_tracking, victron_ess_balance_tracking_write_state,
    victron_ess_balance_apply_write_outcome. store_go.
Qed.

Lemma restore_kept now reason : keeps store_kept (restore_victron_ess_balance_base_setpoint now reason).
Proof. unfold restore_victron_ess_balance_base_setpoint, restore_write, conclude_restore. store_go. Qed.
#[local] Hint Resolve tracking_kept restore_kept : store.

(** C6. What the balance learns stays well typed: if every stored profile has all of its fields, under its own key,
    with the texts of the situation that its key names (the direction is the site regime), with counters that are not
    negative, with a stability, a consistency and a reproducibility score that are absent or between 0 and 1, and with
    numbers (or nothing) for the delay, the gain, their deviations, the variance score and the advised limits, then
    the same holds after a cycle, whatever the cluster, the settings and the gateway are, and also when the cycle
    raises. *)
Theorem profiles_stay_well_typed now auto_mode_active s :
  Forall entry_ok (stored s.(attrs)) ->
  Forall entry_ok (stored (snd (apply_victron_ess_balance_bias now auto_mode_active s)).(attrs)).
Proof.
  intros Hs. enough (keeps store_kept (apply_victron_ess_balance_bias now auto_mode_active)) as H by exact (H s Hs).
  unfold apply_victron_ess_balance_bias, disable_victron_ess_balance. store_go. by intros Hok.
Qed.

End cycle_store.

(** ** The site of [EssBalanceSafety] *)
Section learned.
Import VictronEssLearningProfiles VictronEssBalanceExecutor.
#[local] Existing Instance obedient.

Definition site_source : dict := [(VStr "source_id", VStr "victron"); (VStr "soc", watts 60)].

Lemma profile_key_names_its_situation_witness :
  exists p, victron_ess_balance_learning_profile (normalized_mapping (site_cluster (-300))) site_source (f_of_Z (-300))
      site_start.(attrs) = Ok p /\
    p.(lp_key) = "more_export:export:night:above_reserve_band:ev_idle:pv_weak:mid_band" /\
    victron_ess_balance_profile_identity p.(lp_key) = p.
Proof.
  eexists. split; [vm_compute; reflexivity|]. split; [reflexivity|].
  apply (profile_key_names_its_situation (normalized_mapping (site_cluster (-300))) site_source (f_of_Z (-300)) site_start.(attrs)).
  vm_compute. reflexivity.
Defined.

Lemma with_error_stored e s : stored (with_error e s).(attrs) = stored s.(attrs).
Proof. unfold with_error, stored, getattr, service. cbn. by rewrite (lookup_insert_ne (M := gmap string)). Qed.

Lemma profiles_stay_well_typed_witness :
  exists first second, snd (apply_victron_ess_balance_bias (f_of_Z 1000) true site_start) = first /\
    snd (apply_victron_ess_balance_bias (f_of_Z 1003) true (with_error (-280) first)) = second /\
    map (fun kv => match kv with (VStr key, VDict d) => (key, dict_get "settled_count" d) | _ => ("", VNone) end)
      (stored second.(attrs)) =
      [("more_export:export:night:above_reserve_band:ev_idle:pv_weak:mid_band", VInt 0)] /\
    Forall entry_ok (stored second.(attrs)).
Proof.
  eexists _, _. do 2 (split; [reflexivity|]). split; [vm_compute; reflexivity|].
  apply profiles_stay_well_typed. rewrite with_error_stored. apply profiles_stay_well_typed.
  assert (stored site_start.(attrs) = []) as -> by (vm_compute; reflexivity). constructor.
Defined.

End learned.
