(* ===== verification/StateSnapshot.v ===== *)
(** * The snapshot of the runtime state

    [controllers/state_contracts.py], [controllers/state_json.py],
    [controllers/state_runtime_normalize.py], [controllers/state_runtime_snapshot.py] and
    [controllers/state_runtime_snapshot_victron.py]: what of the live service goes into the state
    file, and in which form.

    A snapshot is a list of fields; each field reads the attributes of the service. *)

From S2P Require Import Prelude PyFloat PyValue OrderedMap Contracts BackendModels EssSources EssProfiles.

(** ** Contracts of dictionaries *)

Definition is_text_key (kv : pyval * pyval) : bool := match fst kv with VStr _ => true | _ => false end.

(** controllers/state_contracts.py: string_object_mapping *)
Definition string_object_mapping (value : pyval) : option dict :=
  match value with VDict d => if forallb is_text_key d then Some d else None | _ => None end.

(** controllers/state_contracts.py: string_key_items *)
Definition string_key_items (value : pyval) : dict :=
  match value with VDict d => List.filter is_text_key d | _ => [] end.

(** controllers/state_json.py: json_object_payload *)
Definition json_object_payload (value : pyval) : option dict := string_object_mapping value.

(** ** Normalization
    controllers/state_runtime_normalize.py *)
Module RuntimeStateNormalizer.

(** controllers/state_runtime_normalize.py: RuntimeStateNormalizer.coerce_runtime_int *)
Definition coerce_runtime_int (value : pyval) (dflt : Z) : res Z :=
  match value with
  | VStr _ | VInt _ | VFloat _ => catch (py_int value) [TypeError; ValueError] (Ok dflt)
  | _ => Ok dflt
  end.

(** controllers/state_runtime_normalize.py: RuntimeStateNormalizer.coerce_runtime_float *)
Definition coerce_runtime_float (value : pyval) (dflt : float) : res float :=
  normalized ← finite_float_or_none value; mret (default dflt normalized).

(** controllers/state_runtime_normalize.py: RuntimeStateNormalizer.optional_float *)
Definition optional_float (value : pyval) : res (option float) :=
  match value with VNone => Ok None | _ => x ← coerce_runtime_float value f0; mret (Some x) end.

(** A time that [limit], the current time and one second, does not exceed. *)
Definition not_after (limit : float) (time : option float) : option float :=
  match time with Some t => if (t >? limit)%F then None else Some t | None => None end.

(** controllers/state_runtime_normalize.py: RuntimeStateNormalizer.optional_past_time *)
Definition optional_past_time (value : pyval) (current : float) : res (option float) :=
  normalized ← optional_float value; mret (not_after (current + f1)%F normalized).

(** controllers/state_runtime_normalize.py: RuntimeStateNormalizer.learned_charge_power_state *)
Definition learned_charge_power_state (value : pyval) : string := normalize_learning_state value.

(** controllers/state_runtime_normalize.py: RuntimeStateNormalizer.learned_charge_power_phase *)
Definition learned_charge_power_phase (value : pyval) : option string := normalize_learning_phase value.

(** controllers/state_runtime_normalize.py: RuntimeStateNormalizer.phase_selection *)
Definition phase_selection (value : pyval) (dflt : PhaseSelection) : PhaseSelection := normalize_phase_selection value dflt.

(** controllers/state_runtime_normalize.py: RuntimeStateNormalizer.supported_phase_selections *)
Definition supported_phase_selections (value : pyval) : list PhaseSelection := normalize_phase_selection_tuple value [P1].

(** controllers/state_runtime_normalize.py: RuntimeStateNormalizer.optional_phase_selection *)
Definition optional_phase_selection (value : pyval) (dflt : PhaseSelection) : option PhaseSelection :=
  match value with VNone => None | _ => Some (phase_selection value dflt) end.

(** controllers/state_runtime_normalize.py: RuntimeStateNormalizer.optional_text *)
Definition optional_text (value : pyval) : option string :=
  let text := py_strip (py_str_or value "") in if (text =? "")%string then None else Some text.

(** controllers/state_runtime_normalize.py: RuntimeStateNormalizer.phase_switch_state *)
Definition phase_switch_state (value : pyval) : option string :=
  match value with
  | VNone => None
  | _ =>
    let state := py_lower (py_strip (py_str value)) in
    if str_in state ["waiting-relay-off"; "stabilizing"] then Some state else None
  end.

(** [raw] is what the clock of the service returns, [wall] the time of the machine.
    controllers/state_runtime_normalize.py: RuntimeStateNormalizer.load_time *)
Definition load_time (raw : pyval) (wall : float) : res float := coerce_runtime_float raw wall.

End RuntimeStateNormalizer.
Import RuntimeStateNormalizer.

(** Texts of optional selections and of flags. *)
Definition val_of_phase (p : option PhaseSelection) : pyval :=
  match p with Some p => VStr (phase_text p) | None => VNone end.

(** ** Fields of a snapshot *)

(** A key and the expression of its value. *)
Definition fields : Type := list (string * (service -> res pyval)).

(** The dictionary of such fields of an object [v], in their order. *)
Definition payload {A} (l : list (string * (A -> res pyval))) (v : A) : res dict :=
  map_res (fun '(key, f) => x ← f v; mret (VStr key, x)) l.

(** The expressions that recur: [getattr(svc, name)], [getattr(svc, name, default)], and
    conversions of [getattr(svc, name, None)]. *)
Definition raw (name : string) : service -> res pyval := attribute name.
Definition raw_or (name : string) (dflt : pyval) : service -> res pyval := fun v => Ok (getattr name dflt v).
Definition int_of (name : string) : service -> res pyval := fun v => a ← attribute name v; n ← py_int a; mret (VInt n).
Definition int_or_zero (name : string) : service -> res pyval := fun v => n ← py_int (getattr name (VInt 0) v); mret (VInt n).
Definition past_time (wall : float) (name : string) : service -> res pyval := fun v =>
  t ← optional_past_time (getattr name VNone v) wall; mret (val_of_float t).
Definition float_field (name : string) : service -> res pyval := fun v =>
  x ← optional_float (getattr name VNone v); mret (val_of_float x).
Definition finite_field (name : string) : service -> res pyval := fun v =>
  x ← finite_float_or_none (getattr name VNone v); mret (val_of_float x).
Definition flag_field (name : string) : service -> res pyval := fun v => Ok (flag (py_bool (getattr name VNone v))).
Definition text_field (name : string) : service -> res pyval := fun v => Ok (VStr (text_or name "" v)).
Definition phase_field (name : string) : service -> res pyval := fun v =>
  Ok (VStr (phase_text (phase_selection (getattr name VNone v) P1))).

(** [dict(getattr(svc, name, None) or {})] *)
Definition dict_field (name : string) : service -> res pyval := fun v =>
  match getattr name VNone v with
  | VDict d => Ok (VDict d)
  | value => if py_bool value then Err TypeError else Ok (VDict [])
  end.

(** ** Helpers of the Victron payload
    controllers/state_runtime_snapshot_victron.py *)

(** controllers/state_runtime_snapshot_victron.py: _victron_ess_balance_energy_ids *)
Definition snapshot_energy_ids (definitions : option (list pyval)) : list string :=
  List.filter (fun id => negb (id =? "")%string) (map (fun id => py_strip (py_str_or id "")) (default [] definitions)).

(** controllers/state_runtime_snapshot_victron.py: _victron_ess_balance_runtime_non_negative_int *)
Definition victron_ess_balance_runtime_non_negative_int (value : pyval) : res Z :=
  match value with
  | VBool b => Ok (if b then 1 else 0)
  | VInt _ | VFloat _ => n ← py_int value; mret (Z.max 0 n)
  | _ => Ok 0
  end.

(** controllers/state_runtime_snapshot_victron.py: _victron_ess_balance_runtime_attr_text *)
Definition victron_ess_balance_runtime_attr_text (attr_name fallback : string) (normalize_lower : bool) (v : service) : string :=
  let value := py_strip (text_or attr_name fallback v) in
  if normalize_lower then py_lower value else value.

(** controllers/state_runtime_snapshot_victron.py: _victron_ess_balance_runtime_profile_text *)
Definition victron_ess_balance_runtime_profile_text (profile : dict) (key fallback : string) : string :=
  py_str_or (dict_get key profile) fallback.

(** controllers/state_runtime_snapshot_victron.py: _victron_ess_balance_runtime_profile_sample_count *)
Definition victron_ess_balance_runtime_profile_sample_count (profile : dict) : res Z :=
  match dict_get "sample_count" profile with
  | VNone =>
    delay ← victron_ess_balance_runtime_non_negative_int (dict_get "delay_samples" profile);
    gain ← victron_ess_balance_runtime_non_negative_int (dict_get "gain_samples" profile);
    settled ← victron_ess_balance_runtime_non_negative_int (dict_get "settled_count" profile);
    overshoot ← victron_ess_balance_runtime_non_negative_int (dict_get "overshoot_count" profile);
    mret (Z.max (Z.max delay gain) (settled + overshoot))
  | explicit => victron_ess_balance_runtime_non_negative_int explicit
  end.

(** controllers/state_runtime_snapshot_victron.py: _victron_ess_balance_runtime_profile_metric *)
Definition victron_ess_balance_runtime_profile_metric (profile : dict) (key : string) (fallback_key : option string)
    : res (option float) :=
  match fallback_key with
  | None => finite_float_or_none (dict_get key profile)
  | Some other => finite_float_or_none (default (dict_get other profile) (dict_find key profile))
  end.

(** A field of the snapshot of a profile: an expression of the profile. *)
Definition profile_fields : Type := list (string * (dict -> res pyval)).

Definition text_of (key : string) : string * (dict -> res pyval) :=
  (key, fun profile => Ok (VStr (victron_ess_balance_runtime_profile_text profile key ""))).
Definition count_of (key : string) : string * (dict -> res pyval) :=
  (key, fun profile => n ← victron_ess_balance_runtime_non_negative_int (dict_get key profile); mret (VInt n)).
Definition metric_of (key : string) : string * (dict -> res pyval) :=
  (key, fun profile => x ← victron_ess_balance_runtime_profile_metric profile key None; mret (val_of_float x)).
Definition metric_or (key other : string) : string * (dict -> res pyval) :=
  (key, fun profile => x ← victron_ess_balance_runtime_profile_metric profile key (Some other); mret (val_of_float x)).

(** controllers/state_runtime_snapshot_victron.py: _victron_ess_balance_runtime_profile_identity *)
Definition victron_ess_balance_runtime_profile_identity (profile_key : string) : profile_fields :=
  ("key", fun profile => Ok (VStr (victron_ess_balance_runtime_profile_text profile "key" profile_key))) ::
  map text_of ["action_direction"; "site_regime"; "direction"; "day_phase"; "reserve_phase"; "ev_phase"; "pv_phase";
               "battery_limit_phase"].

(** controllers/state_runtime_snapshot_victron.py: _victron_ess_balance_runtime_profile_counts *)
Definition victron_ess_balance_runtime_profile_counts : profile_fields :=
  ("sample_count", fun profile => n ← victron_ess_balance_runtime_profile_sample_count profile; mret (VInt n)) ::
  map count_of ["delay_samples"; "gain_samples"; "overshoot_count"; "settled_count"].

(** controllers/state_runtime_snapshot_victron.py: _victron_ess_balance_runtime_profile_response_metrics *)
Definition victron_ess_balance_runtime_profile_response_metrics : profile_fields :=
  map metric_of ["response_delay_seconds"; "estimated_gain"; "response_delay_mad_seconds"; "gain_mad"; "stability_score"].

(** controllers/state_runtime_snapshot_victron.py: _victron_ess_balance_runtime_profile_learning_metrics *)
Definition victron_ess_balance_runtime_profile_learning_metrics : profile_fields :=
  [metric_or "typical_response_delay_seconds" "response_delay_seconds"; metric_or "effective_gain" "estimated_gain"] ++
  map metric_of ["regime_consistency_score"; "response_variance_score"; "reproducibility_score"].

(** controllers/state_runtime_snapshot_victron.py: _victron_ess_balance_runtime_profile_limit_metrics *)
Definition victron_ess_balance_runtime_profile_limit_metrics : profile_fields :=
  map metric_of ["safe_ramp_rate_watts_per_second"; "preferred_bias_limit_watts"].

(** ** The builder
    controllers/state_runtime_snapshot.py *)
Module RuntimeStateSnapshotBuilder.

(** controllers/state_runtime_snapshot.py: RuntimeStateSnapshotBuilder._victron_ess_balance_runtime_profile_snapshot *)
Definition victron_ess_balance_runtime_profile_snapshot (profile_key : string) (raw_profile : pyval) : res dict :=
  payload
    (victron_ess_balance_runtime_profile_identity profile_key ++ victron_ess_balance_runtime_profile_counts ++
     victron_ess_balance_runtime_profile_response_metrics ++ victron_ess_balance_runtime_profile_learning_metrics ++
     victron_ess_balance_runtime_profile_limit_metrics)
    (string_key_items raw_profile).

(** The snapshots of the profiles of a dictionary, under their keys as texts.
    controllers/state_runtime_snapshot.py: RuntimeStateSnapshotBuilder._victron_ess_balance_runtime_learning_state (lines 318-324) *)
Fixpoint profile_snapshots (raw_profiles profiles : dict) : res dict :=
  match raw_profiles with
  | [] => Ok profiles
  | (profile_key, raw_profile) :: raw_profiles' =>
    let key := py_str profile_key in
    snapshot ← victron_ess_balance_runtime_profile_snapshot key raw_profile;
    profile_snapshots raw_profiles' (dict_set key (VDict snapshot) profiles)
  end.

(** controllers/state_runtime_snapshot.py: RuntimeStateSnapshotBuilder._victron_ess_balance_runtime_tuning_payload *)
Definition victron_ess_balance_runtime_tuning_payload : fields :=
  map (fun name => (name, finite_field (cfg name)))
    ["kp"; "ki"; "kd"; "deadband_watts"; "max_abs_watts"; "ramp_rate_watts_per_second"] ++
  [("activation_mode", fun v => Ok (VStr (victron_ess_balance_runtime_attr_text (cfg "activation_mode") "always" true v)))].

(** Fields of the runtime attribute of the same name. *)
Definition rt_finite (name : string) : string * (service -> res pyval) := (name, finite_field (rt name)).
Definition rt_text (name : string) : string * (service -> res pyval) :=
  (name, fun v => Ok (VStr (victron_ess_balance_runtime_attr_text (rt name) "" false v))).
Definition rt_dict (name : string) : string * (service -> res pyval) := (name, dict_field (rt name)).

(** controllers/state_runtime_snapshot.py: RuntimeStateSnapshotBuilder._victron_ess_balance_runtime_auto_apply_payload *)
Definition victron_ess_balance_runtime_auto_apply_payload : fields :=
  [("auto_apply_generation", fun v =>
      n ← victron_ess_balance_runtime_non_negative_int (getattr (rt "auto_apply_generation") VNone v); mret (VInt n));
   rt_finite "auto_apply_observe_until"; rt_text "auto_apply_last_applied_param"; rt_finite "auto_apply_last_applied_at";
   rt_finite "auto_apply_suspend_until"; rt_text "auto_apply_suspend_reason"].

(** controllers/state_runtime_snapshot.py: RuntimeStateSnapshotBuilder._victron_ess_balance_runtime_safety_payload *)
Definition victron_ess_balance_runtime_safety_payload : fields :=
  [rt_finite "oscillation_lockout_until"; rt_text "oscillation_lockout_reason"; rt_finite "overshoot_cooldown_until";
   rt_text "overshoot_cooldown_reason"; rt_dict "last_stable_tuning"; rt_finite "last_stable_at";
   rt_text "last_stable_profile_key"; rt_dict "conservative_tuning";
   ("safe_state_active", fun v => Ok (VBool (py_bool (getattr (rt "safe_state_active") VNone v))));
   rt_text "safe_state_reason"].

(** controllers/state_runtime_snapshot.py: RuntimeStateSnapshotBuilder._victron_ess_balance_runtime_adaptive_scalar_payload *)
Definition victron_ess_balance_runtime_adaptive_scalar_payload : fields :=
  victron_ess_balance_runtime_tuning_payload ++ victron_ess_balance_runtime_auto_apply_payload ++
  victron_ess_balance_runtime_safety_payload.

(** controllers/state_runtime_snapshot.py: RuntimeStateSnapshotBuilder._base_runtime_state *)
Definition base_runtime_state : fields :=
  [("mode", int_of "virtual_mode"); ("autostart", int_of "virtual_autostart"); ("enable", int_of "virtual_enable");
   ("startstop", int_of "virtual_startstop");
   ("manual_override_until", fun v => a ← attribute "manual_override_until" v; x ← py_float a; mret (VFloat x));
   ("auto_mode_cutover_pending", fun v => a ← attribute "_auto_mode_cutover_pending" v; mret (flag (py_bool a)));
   ("relay_last_changed_at", raw "relay_last_changed_at"); ("relay_last_off_at", raw "relay_last_off_at")].

(** controllers/state_runtime_snapshot.py: RuntimeStateSnapshotBuilder._learned_charge_power_runtime_state *)
Definition learned_charge_power_runtime_state : fields :=
  let attr name := (name, raw_or name VNone) in
  [attr "learned_charge_power_watts"; attr "learned_charge_power_updated_at";
   ("learned_charge_power_state", raw_or "learned_charge_power_state" (VStr "unknown"));
   attr "learned_charge_power_learning_since";
   ("learned_charge_power_sample_count", int_or_zero "learned_charge_power_sample_count");
   attr "learned_charge_power_phase"; attr "learned_charge_power_voltage";
   ("learned_charge_power_signature_mismatch_sessions", int_or_zero "learned_charge_power_signature_mismatch_sessions");
   attr "learned_charge_power_signature_checked_session_started_at"].

(** controllers/state_runtime_snapshot.py: RuntimeStateSnapshotBuilder._phase_selection_runtime_state *)
Definition phase_selection_runtime_state : fields :=
  [("active_phase_selection", phase_field "active_phase_selection");
   ("requested_phase_selection", phase_field "requested_phase_selection");
   ("supported_phase_selections", fun v =>
      Ok (VList (map (fun p => VStr (phase_text p)) (supported_phase_selections (getattr "supported_phase_selections" VNone v)))))].

(** An optional selection; the requested one replaces what cannot be read. *)
Definition optional_phase_field (name : string) : service -> res pyval := fun v =>
  Ok (val_of_phase (optional_phase_selection (getattr name VNone v)
        (phase_selection (getattr "requested_phase_selection" VNone v) P1))).

(** controllers/state_runtime_snapshot.py: RuntimeStateSnapshotBuilder._phase_switch_runtime_state *)
Definition phase_switch_runtime_state (wall : float) : fields :=
  [("phase_switch_pending_selection", optional_phase_field "_phase_switch_pending_selection");
   ("phase_switch_state", fun v => Ok (val_of_str (phase_switch_state (getattr "_phase_switch_state" VNone v))));
   ("phase_switch_requested_at", past_time wall "_phase_switch_requested_at");
   ("phase_switch_stable_until", float_field "_phase_switch_stable_until");
   ("phase_switch_resume_relay", flag_field "_phase_switch_resume_relay");
   ("phase_switch_mismatch_counts", dict_field "_phase_switch_mismatch_counts");
   ("phase_switch_last_mismatch_selection", optional_phase_field "_phase_switch_last_mismatch_selection");
   ("phase_switch_last_mismatch_at", past_time wall "_phase_switch_last_mismatch_at");
   ("phase_switch_lockout_selection", optional_phase_field "_phase_switch_lockout_selection");
   ("phase_switch_lockout_reason", text_field "_phase_switch_lockout_reason");
   ("phase_switch_lockout_at", past_time wall "_phase_switch_lockout_at");
   ("phase_switch_lockout_until", float_field "_phase_switch_lockout_until")].

(** controllers/state_runtime_snapshot.py: RuntimeStateSnapshotBuilder._contactor_runtime_state *)
Definition contactor_runtime_state (wall : float) : fields :=
  [("contactor_fault_counts", dict_field "_contactor_fault_counts");
   ("contactor_fault_active_reason", fun v =>
      Ok (val_of_str (optional_text (getattr "_contactor_fault_active_reason" VNone v))));
   ("contactor_fault_active_since", past_time wall "_contactor_fault_active_since");
   ("contactor_lockout_reason", text_field "_contactor_lockout_reason");
   ("contactor_lockout_source", text_field "_contactor_lockout_source");
   ("contactor_lockout_at", past_time wall "_contactor_lockout_at")].

(** The key of the state, the key of the worker snapshot, the default.
    controllers/state_runtime_snapshot.py: RuntimeStateSnapshotBuilder._energy_runtime_state (lines 245-295) *)
Definition energy_fields : list (string * string * pyval) :=
  let same name := (name, name, VNone) in
  let count name := (name, name, VInt 0) in
  [("combined_battery_soc", "battery_combined_soc", VNone);
   ("combined_battery_usable_capacity_wh", "battery_combined_usable_capacity_wh", VNone);
   ("combined_battery_charge_power_w", "battery_combined_charge_power_w", VNone);
   ("combined_battery_discharge_power_w", "battery_combined_discharge_power_w", VNone);
   ("combined_battery_net_power_w", "battery_combined_net_power_w", VNone);
   ("combined_battery_ac_power_w", "battery_combined_ac_power_w", VNone);
   ("combined_battery_pv_input_power_w", "battery_combined_pv_input_power_w", VNone);
   ("combined_battery_grid_interaction_w", "battery_combined_grid_interaction_w", VNone);
   ("combined_battery_headroom_charge_w", "battery_headroom_charge_w", VNone);
   ("combined_battery_headroom_discharge_w", "battery_headroom_discharge_w", VNone);
   same "expected_near_term_export_w"; same "expected_near_term_import_w"; same "battery_discharge_balance_mode";
   same "battery_discharge_balance_target_distribution_mode"; same "battery_discharge_balance_error_w";
   same "battery_discharge_balance_max_abs_error_w"; same "battery_discharge_balance_total_discharge_w";
   count "battery_discharge_balance_eligible_source_count"; count "battery_discharge_balance_active_source_count";
   count "battery_discharge_balance_control_candidate_count"; count "battery_discharge_balance_control_ready_count";
   count "battery_discharge_balance_supported_control_source_count";
   count "battery_discharge_balance_experimental_control_source_count";
   ("combined_battery_average_confidence", "battery_average_confidence", VNone)] ++
  map (fun name => (("combined_" ++ name)%string, name, VInt 0))
    ["battery_source_count"; "battery_online_source_count"; "battery_valid_soc_source_count"; "battery_battery_source_count";
     "battery_hybrid_inverter_source_count"; "battery_inverter_source_count"].

(** [raw_snapshot] is what [_get_worker_snapshot()] returns, [None] where the service has none.
    controllers/state_runtime_snapshot.py: RuntimeStateSnapshotBuilder._energy_runtime_state *)
Definition energy_runtime_state (raw_snapshot : option pyval) : dict :=
  let snapshot := default [] (raw_snapshot ≫= json_object_payload) in
  map (fun '(key, name, dflt) => (VStr key, default dflt (dict_find name snapshot))) energy_fields ++
  [(VStr "combined_battery_sources", match dict_get "battery_sources" snapshot with VList l => VList l | _ => VList [] end);
   (VStr "combined_battery_learning_profiles",
    VDict (default [] (json_object_payload (dict_get "battery_learning_profiles" snapshot))))].

(** controllers/state_runtime_snapshot.py: RuntimeStateSnapshotBuilder._victron_ess_balance_runtime_topology_key *)
Definition victron_ess_balance_runtime_topology_key (sources : option (list pyval)) (source_id : string) : string :=
  VictronEssLearningProfiles.ess_learning_topology_key (VStr source_id) (snapshot_energy_ids sources).

Section builder.
(** The time of the machine, the energy sources, the worker snapshot. *)
Context (wall : float) (sources : option (list pyval)) (worker_snapshot : option pyval).

(** [schema_version], [topology_key] and [source_id] of both Victron payloads. *)
Definition victron_header (v : service) : dict :=
  let source_id := py_strip (text_or (cfg "source_id") "" v) in
  [(VStr "schema_version", VInt 2);
   (VStr "topology_key", VStr (victron_ess_balance_runtime_topology_key sources source_id));
   (VStr "source_id", VStr source_id)].

(** controllers/state_runtime_snapshot.py: RuntimeStateSnapshotBuilder._victron_ess_balance_runtime_learning_state *)
Definition victron_ess_balance_runtime_learning_state (v : service) : res dict :=
  profiles ←
    match getattr (rt "learning_profiles") VNone v with
    | VDict raw_profiles => profile_snapshots raw_profiles []
    | _ => Ok []
    end;
  mret (victron_header v ++ [(VStr "profiles", VDict profiles)]).

(** controllers/state_runtime_snapshot.py: RuntimeStateSnapshotBuilder._victron_ess_balance_runtime_adaptive_tuning_state *)
Definition victron_ess_balance_runtime_adaptive_tuning_state (v : service) : res dict :=
  scalars ← payload victron_ess_balance_runtime_adaptive_scalar_payload v; mret (victron_header v ++ scalars).

(** The fields that are read from attributes of their own, in the order of [build]. *)
Definition own_fields : fields :=
  base_runtime_state ++ learned_charge_power_runtime_state ++ phase_selection_runtime_state ++
  phase_switch_runtime_state wall ++ contactor_runtime_state wall.

(** controllers/state_runtime_snapshot.py: RuntimeStateSnapshotBuilder.build *)
Definition build (v : service) : res dict :=
  own ← payload own_fields v;
  learning ← victron_ess_balance_runtime_learning_state v;
  adaptive ← victron_ess_balance_runtime_adaptive_tuning_state v;
  mret (own ++ energy_runtime_state worker_snapshot ++
        [(VStr "victron_ess_balance_learning_state", VDict learning);
         (VStr "victron_ess_balance_adaptive_tuning_state", VDict adaptive)]).

End builder.
End RuntimeStateSnapshotBuilder.
