(* ===== verification/StateRestore.v ===== *)
(** * Restoring the runtime state

    [controllers/state_restore.py] and [controllers/state_restore_victron_ess.py]: a document of the
    state file, which may hold anything, becomes attributes of the live service. *)

From S2P Require Import Prelude PyFloat PyValue OrderedMap Contracts BackendModels EssSources EssProfiles StateSnapshot.
Import RuntimeStateNormalizer.

(** ** Assignments *)

(** [setattr(svc, name, expression)]; the expression reads the attributes at that moment. *)
Definition assignment : Type := string * (service -> res pyval).

Definition set_state (name : string) (value : pyval) : M service unit := modify (fun v => <[name := value]> v).
Definition reading {A} (f : service -> res A) : M service A := fun v => (f v, v).

Fixpoint assign_all (l : list assignment) : M service unit :=
  match l with
  | [] => mret tt
  | (name, expression) :: l' => x ← reading expression; set_state name x;; assign_all l'
  end.

(** [state.get(key, attributes.get(name, None))] and [state.get(key, attributes.get(name))] *)
Definition state_or (state : dict) (key name : string) (v : service) : pyval :=
  default (getattr name VNone v) (dict_find key state).
Definition state_or_required (state : dict) (key name : string) (v : service) : res pyval :=
  current ← attribute name v; mret (default current (dict_find key state)).

(** Expressions of one field. *)
Definition restored_float (state : dict) (key name : string) : assignment :=
  (name, fun v => x ← non_negative_float_or_none (state_or state key name v); mret (val_of_float x)).
Definition restored_count (state : dict) (key name : string) : assignment :=
  (name, fun v => n ← non_negative_int (state_or state key name v) 0; mret (VInt n)).
Definition restored_time (state : dict) (now : float) (key name : string) : assignment :=
  (name, fun v => t ← optional_past_time (state_or state key name v) now; mret (val_of_float t)).
Definition restored_optional_float (state : dict) (key name : string) : assignment :=
  (name, fun v => x ← optional_float (state_or state key name v); mret (val_of_float x)).
Definition restored_phase (state : dict) (dflt : PhaseSelection) (key name : string) : assignment :=
  (name, fun v => Ok (val_of_phase (optional_phase_selection (state_or state key name v) dflt))).
Definition restored_text (state : dict) (key name : string) : assignment :=
  (name, fun v => Ok (VStr (py_str_or (state_or state key name v) ""))).

(** ** Restoring a document
    controllers/state_restore.py *)
Module RuntimeStateRestorer.

(** An integer attribute; the current value, read as an integer, is the fallback. *)
Definition restored_int (state : dict) (key name : string) : assignment :=
  (name, fun v =>
    current ← attribute name v;
    dflt ← coerce_runtime_int current 0;
    n ← coerce_runtime_int (dict_get key state) dflt;
    mret (VInt n)).

(** controllers/state_restore.py: RuntimeStateRestorer._restore_basic_runtime_state *)
Definition restore_basic_runtime_state (state : dict) : list assignment :=
  [("virtual_mode", fun v => mode ← state_or_required state "mode" "virtual_mode" v; n ← normalize_mode mode; mret (VInt n));
   restored_int state "autostart" "virtual_autostart"; restored_int state "enable" "virtual_enable";
   restored_int state "startstop" "virtual_startstop";
   ("manual_override_until", fun v =>
      current ← attribute "manual_override_until" v;
      dflt ← coerce_runtime_float current f0;
      x ← coerce_runtime_float (dict_get "manual_override_until" state) dflt;
      mret (VFloat x));
   ("_auto_mode_cutover_pending", fun v =>
      current ← attribute "_auto_mode_cutover_pending" v;
      n ← coerce_runtime_int (dict_get "auto_mode_cutover_pending" state) (if py_bool current then 1 else 0);
      mret (VBool (negb (n =? 0))));
   ("_ignore_min_offtime_once", fun _ => Ok (VBool false))].

(** controllers/state_restore.py: RuntimeStateRestorer._restore_learned_charge_power_state *)
Definition restore_learned_charge_power_state (state : dict) (current_time : float) : list assignment :=
  let own (f : dict -> string -> string -> assignment) name := f state name name in
  let time state key name := restored_time state current_time key name in
  [own restored_float "learned_charge_power_watts"; own time "learned_charge_power_updated_at";
   ("learned_charge_power_state", fun v =>
      Ok (VStr (learned_charge_power_state (state_or state "learned_charge_power_state" "learned_charge_power_state" v))));
   own time "learned_charge_power_learning_since"; own restored_count "learned_charge_power_sample_count";
   ("learned_charge_power_phase", fun v =>
      Ok (val_of_str (learned_charge_power_phase (state_or state "learned_charge_power_phase" "learned_charge_power_phase" v))));
   own restored_float "learned_charge_power_voltage";
   own restored_count "learned_charge_power_signature_mismatch_sessions";
   own time "learned_charge_power_signature_checked_session_started_at"].

(** [counts[key] = non_negative_int(raw_count)] of each entry whose key [keep] accepts. *)
Fixpoint normalized_counts (keep : pyval -> option string) (raw_counts counts : dict) : res dict :=
  match raw_counts with
  | [] => Ok counts
  | (raw_key, raw_count) :: raw_counts' =>
    match keep raw_key with
    | Some key =>
      n ← non_negative_int raw_count 0;
      normalized_counts keep raw_counts' (dict_set key (VInt n) counts)
    | None => normalized_counts keep raw_counts' counts
    end
  end.

(** controllers/state_restore.py: RuntimeStateRestorer._normalized_phase_switch_mismatch_counts *)
Definition normalized_phase_switch_mismatch_counts (raw_counts : pyval) (default_selection : PhaseSelection) : res pyval :=
  match raw_counts with
  | VDict d =>
    counts ← normalized_counts (fun raw => Some (phase_text (phase_selection raw default_selection))) d [];
    mret (VDict counts)
  | _ => Ok (VDict [])
  end.

(** The attributes of a pending phase switch are dropped together.
    controllers/state_restore.py: RuntimeStateRestorer._restore_phase_switch_runtime_state (lines 292-300) *)
Definition drop_phase_switch : list assignment :=
  map (fun name => (name, fun _ => Ok VNone))
    ["_phase_switch_pending_selection"; "_phase_switch_state"; "_phase_switch_requested_at"; "_phase_switch_stable_until"] ++
  [("_phase_switch_resume_relay", fun _ => Ok (VBool false))].

(** The attributes of the phase switch, once the supported and the requested selection are known.
    controllers/state_restore.py: RuntimeStateRestorer._restore_phase_switch_runtime_state (lines 182-291) *)
Definition restore_phase_switch_attributes (state : dict) (current_time : float) (requested : PhaseSelection)
    (pending_selection : option PhaseSelection) (switch_state : option string) : list assignment :=
  let phase := restored_phase state requested in
  let time := restored_time state current_time in
  [("active_phase_selection", fun v =>
      Ok (VStr (phase_text (phase_selection (state_or state "active_phase_selection" "active_phase_selection" v) requested))));
   ("_phase_switch_pending_selection", fun _ => Ok (val_of_phase pending_selection));
   ("_phase_switch_state", fun _ => Ok (val_of_str switch_state));
   time "phase_switch_requested_at" "_phase_switch_requested_at";
   restored_optional_float state "phase_switch_stable_until" "_phase_switch_stable_until";
   ("_phase_switch_resume_relay", fun v =>
      n ← coerce_runtime_int (dict_get "phase_switch_resume_relay" state)
            (if py_bool (getattr "_phase_switch_resume_relay" VNone v) then 1 else 0);
      mret (VBool (negb (n =? 0))));
   ("_phase_switch_mismatch_counts", fun v =>
      normalized_phase_switch_mismatch_counts
        (state_or state "phase_switch_mismatch_counts" "_phase_switch_mismatch_counts" v) requested);
   phase "phase_switch_last_mismatch_selection" "_phase_switch_last_mismatch_selection";
   time "phase_switch_last_mismatch_at" "_phase_switch_last_mismatch_at";
   phase "phase_switch_lockout_selection" "_phase_switch_lockout_selection";
   restored_text state "phase_switch_lockout_reason" "_phase_switch_lockout_reason";
   time "phase_switch_lockout_at" "_phase_switch_lockout_at";
   restored_optional_float state "phase_switch_lockout_until" "_phase_switch_lockout_until"].

(** controllers/state_restore.py: RuntimeStateRestorer._restore_phase_switch_runtime_state *)
Definition restore_phase_switch_runtime_state (state : dict) (current_time : float) : M service unit :=
  v ← get;
  let supported :=
    supported_phase_selections (state_or state "supported_phase_selections" "supported_phase_selections" v) in
  set_state "supported_phase_selections" (VTuple (map (fun p => VStr (phase_text p)) supported));;
  let requested :=
    phase_selection (state_or state "requested_phase_selection" "requested_phase_selection" v) (hd P1 supported) in
  set_state "requested_phase_selection" (VStr (phase_text requested));;
  let pending_selection :=
    optional_phase_selection (state_or state "phase_switch_pending_selection" "_phase_switch_pending_selection" v)
      requested in
  let switch_state := phase_switch_state (state_or state "phase_switch_state" "_phase_switch_state" v) in
  assign_all (restore_phase_switch_attributes state current_time requested pending_selection switch_state);;
  match switch_state, pending_selection with
  | Some _, Some _ => mret tt
  | _, _ => assign_all drop_phase_switch
  end.

(** The reasons of a contactor fault. *)
Definition contactor_fault_reasons : list string := ["contactor-suspected-open"; "contactor-suspected-welded"].

(** controllers/state_restore.py: RuntimeStateRestorer._normalized_contactor_fault_counts *)
Definition normalized_contactor_fault_counts (raw_counts : pyval) : res pyval :=
  match raw_counts with
  | VDict d =>
    counts ← normalized_counts (fun raw =>
      let reason := py_strip (py_str raw) in if str_in reason contactor_fault_reasons then Some reason else None) d [];
    mret (VDict counts)
  | _ => Ok (VDict [])
  end.

(** controllers/state_restore.py: RuntimeStateRestorer._normalized_contactor_fault_reason *)
Definition normalized_contactor_fault_reason (value : pyval) : option string :=
  match value with
  | VStr text => let reason := py_strip text in if str_in reason contactor_fault_reasons then Some reason else None
  | _ => None
  end.

(** controllers/state_restore.py: RuntimeStateRestorer._restore_contactor_runtime_state *)
Definition restore_contactor_runtime_state (state : dict) (current_time : float) : list assignment :=
  let time := restored_time state current_time in
  [("_contactor_fault_counts", fun v =>
      normalized_contactor_fault_counts (state_or state "contactor_fault_counts" "_contactor_fault_counts" v));
   ("_contactor_fault_active_reason", fun v =>
      Ok (val_of_str (normalized_contactor_fault_reason
            (state_or state "contactor_fault_active_reason" "_contactor_fault_active_reason" v))));
   time "contactor_fault_active_since" "_contactor_fault_active_since";
   ("_contactor_lockout_reason", fun v =>
      Ok (VStr (default "" (normalized_contactor_fault_reason
            (state_or state "contactor_lockout_reason" "_contactor_lockout_reason" v)))));
   restored_text state "contactor_lockout_source" "_contactor_lockout_source";
   time "contactor_lockout_at" "_contactor_lockout_at"].

(** controllers/state_restore.py: RuntimeStateRestorer._restore_relay_runtime_state *)
Definition restore_relay_runtime_state (state : dict) (current_time : float) : list assignment :=
  let time name :=
    (name, fun v => raw ← state_or_required state name name v; t ← optional_past_time raw current_time; mret (val_of_float t)) in
  [time "relay_last_changed_at"; time "relay_last_off_at"].

End RuntimeStateRestorer.

(** ** Restoring the ESS balance
    controllers/state_restore_victron_ess.py *)
Module VictronEssRuntimeRestorer.
Section restorer.
(** The energy sources of the service. *)
Context (sources : option (list pyval)).

(** controllers/state_restore_victron_ess.py: VictronEssRuntimeRestorer._valid_victron_ess_balance_schema_version *)
Definition valid_victron_ess_balance_schema_version (state : dict) : res bool :=
  n ← non_negative_int (dict_get "schema_version" state) 0; mret ((n =? 1) || (n =? 2)).

(** controllers/state_restore_victron_ess.py: _victron_ess_balance_energy_ids *)
Definition restore_energy_ids (definitions : option (list pyval)) : list string :=
  List.filter (fun id => negb (id =? "")%string) (map (fun id => py_strip (py_str_or id "")) (default [] definitions)).

(** controllers/state_restore_victron_ess.py: VictronEssRuntimeRestorer._victron_ess_balance_runtime_topology_key *)
Definition victron_ess_balance_runtime_topology_key (source_id : string) : string :=
  VictronEssLearningProfiles.ess_learning_topology_key (VStr source_id) (restore_energy_ids sources).

(** controllers/state_restore_victron_ess.py: VictronEssRuntimeRestorer._victron_ess_balance_payload_matches_topology *)
Definition victron_ess_balance_payload_matches_topology (state : dict) (v : service) : bool :=
  let raw_source_id := default (getattr (cfg "source_id") VNone v) (dict_find "source_id" state) in
  let source_id := if py_bool raw_source_id then py_strip (py_str raw_source_id) else "" in
  match dict_get "topology_key" state with
  | VNone => false
  | raw_topology_key => (py_strip (py_str raw_topology_key) =? victron_ess_balance_runtime_topology_key source_id)%string
  end.

(** controllers/state_restore_victron_ess.py: VictronEssRuntimeRestorer._normalized_victron_ess_balance_learning_text *)
Definition normalized_victron_ess_balance_learning_text (profile : dict) (key : string) (fallback_key : option string) : string :=
  match dict_find key profile, fallback_key with
  | Some value, _ => py_str_or value ""
  | None, Some other => py_str_or (dict_get other profile) ""
  | None, None => ""
  end.

(** controllers/state_restore_victron_ess.py: VictronEssRuntimeRestorer._normalized_victron_ess_balance_learning_metric *)
Definition normalized_victron_ess_balance_learning_metric (profile : dict) (key : string) (fallback_key : option string)
    : res (option float) :=
  match fallback_key with
  | None => non_negative_float_or_none (dict_get key profile)
  | Some other => non_negative_float_or_none (default (dict_get other profile) (dict_find key profile))
  end.

(** controllers/state_restore_victron_ess.py: VictronEssRuntimeRestorer._normalized_victron_ess_balance_learning_phase *)
Definition normalized_victron_ess_balance_learning_phase (profile : dict) (key fallback : string) : string :=
  py_str_or (dict_get key profile) fallback.

(** Fields of a restored profile. *)
Definition learned_text (key : string) (fallback_key : option string) : string * (dict -> res pyval) :=
  (key, fun profile => Ok (VStr (normalized_victron_ess_balance_learning_text profile key fallback_key))).
Definition learned_phase (key fallback : string) : string * (dict -> res pyval) :=
  (key, fun profile => Ok (VStr (normalized_victron_ess_balance_learning_phase profile key fallback))).
Definition learned_count (key : string) : string * (dict -> res pyval) :=
  (key, fun profile => n ← non_negative_int (dict_get key profile) 0; mret (VInt n)).
Definition learned_metric (key : string) (fallback_key : option string) : string * (dict -> res pyval) :=
  (key, fun profile => x ← normalized_victron_ess_balance_learning_metric profile key fallback_key; mret (val_of_float x)).

(** controllers/state_restore_victron_ess.py: VictronEssRuntimeRestorer._normalized_victron_ess_balance_learning_profile *)
Definition normalized_victron_ess_balance_learning_profile (profile_key : string) : profile_fields :=
  [("key", fun _ => Ok (VStr profile_key)); learned_text "action_direction" None;
   learned_text "site_regime" (Some "direction"); learned_text "direction" (Some "site_regime");
   learned_text "day_phase" None; learned_text "reserve_phase" None; learned_phase "ev_phase" "ev_idle";
   learned_phase "pv_phase" "pv_weak"; learned_phase "battery_limit_phase" "mid_band"; learned_count "delay_samples";
   learned_count "gain_samples"; learned_metric "response_delay_seconds" (Some "typical_response_delay_seconds");
   learned_metric "estimated_gain" (Some "effective_gain"); learned_metric "response_delay_mad_seconds" None;
   learned_metric "gain_mad" None; learned_count "overshoot_count"; learned_count "settled_count";
   learned_metric "stability_score" None; learned_metric "regime_consistency_score" None;
   learned_metric "response_variance_score" None; learned_metric "reproducibility_score" None;
   learned_metric "safe_ramp_rate_watts_per_second" None; learned_metric "preferred_bias_limit_watts" None].

(** The key of an entry, unless it is dropped.
    controllers/state_restore_victron_ess.py: VictronEssRuntimeRestorer._normalized_victron_ess_balance_learning_profile_entry *)
Definition normalized_victron_ess_balance_learning_profile_entry (raw_key raw_profile : pyval) : res (option (string * dict)) :=
  let profile_key := py_strip (py_str_or raw_key "") in
  if (profile_key =? "")%string then Ok None
  else
    match raw_profile with
    | VDict _ =>
      profile ← payload (normalized_victron_ess_balance_learning_profile profile_key) (string_key_items raw_profile);
      mret (Some (profile_key, profile))
    | _ => Ok None
    end.

(** controllers/state_restore_victron_ess.py: VictronEssRuntimeRestorer._normalized_victron_ess_balance_learning_profiles *)
Fixpoint normalized_victron_ess_balance_learning_profiles (raw_profiles profiles : dict) : res dict :=
  match raw_profiles with
  | [] => Ok profiles
  | (raw_key, raw_profile) :: raw_profiles' =>
    entry ← normalized_victron_ess_balance_learning_profile_entry raw_key raw_profile;
    normalized_victron_ess_balance_learning_profiles raw_profiles'
      (match entry with Some (key, profile) => dict_set key (VDict profile) profiles | None => profiles end)
  end.

(** A payload of this schema and of this topology. *)
Definition accepted_payload (state : dict) (v : service) : res bool :=
  valid ← valid_victron_ess_balance_schema_version state;
  mret ((valid : bool) && victron_ess_balance_payload_matches_topology state v).

(** controllers/state_restore_victron_ess.py: VictronEssRuntimeRestorer._restore_victron_ess_balance_learning_state_payload *)
Definition restore_victron_ess_balance_learning_state_payload (state : dict) : M service unit :=
  accepted ← reading (accepted_payload state);
  match (accepted : bool), dict_get "profiles" state with
  | true, VDict raw_profiles =>
    profiles ← lift (normalized_victron_ess_balance_learning_profiles raw_profiles []);
    set_state (rt "learning_profiles") (VDict profiles)
  | _, _ => mret tt
  end.

(** controllers/state_restore_victron_ess.py: VictronEssRuntimeRestorer._restore_victron_ess_balance_pid_value *)
Definition restore_victron_ess_balance_pid_value (state : dict) (name : string) : assignment :=
  (cfg name, fun _ =>
    x ← non_negative_float_or_none (dict_get name state);
    mret (VFloat (match x with Some x => if ftruthy x then x else f0 | None => f0 end))).

(** controllers/state_restore_victron_ess.py: VictronEssRuntimeRestorer._restore_victron_ess_balance_pid_tuning *)
Definition restore_victron_ess_balance_pid_tuning (state : dict) : list assignment :=
  map (restore_victron_ess_balance_pid_value state)
    ["kp"; "ki"; "kd"; "deadband_watts"; "max_abs_watts"; "ramp_rate_watts_per_second"].

(** controllers/state_restore_victron_ess.py: VictronEssRuntimeRestorer._victron_ess_balance_activation_mode *)
Definition restored_activation_mode (state : dict) (v : service) : option string :=
  let raw_mode := default (getattr (cfg "activation_mode") VNone v) (dict_find "activation_mode" state) in
  if is_none raw_mode || (py_strip (py_str raw_mode) =? "")%string then Some "always"
  else
    let activation_mode := py_lower (py_strip (py_str raw_mode)) in
    if str_in activation_mode ["always"; "export_only"; "above_reserve_band"; "export_and_above_reserve_band"]
    then Some activation_mode else None.

(** Runtime attributes of the balance under their own name. *)
Definition adaptive_float (state : dict) (name : string) : assignment :=
  (rt name, fun _ => x ← non_negative_float_or_none (dict_get name state); mret (val_of_float x)).
Definition adaptive_text (state : dict) (name : string) : assignment :=
  (rt name, fun _ => Ok (VStr (py_str_or (dict_get name state) ""))).
Definition adaptive_mapping (state : dict) (name : string) : assignment :=
  (rt name, fun _ => Ok (VDict (string_key_items (dict_get name state)))).

(** controllers/state_restore_victron_ess.py: VictronEssRuntimeRestorer._restore_victron_ess_balance_auto_apply_state *)
Definition restore_victron_ess_balance_auto_apply_state (state : dict) : list assignment :=
  [(rt "auto_apply_generation", fun v =>
      current ← non_negative_int (getattr (rt "auto_apply_generation") VNone v) 0;
      n ← non_negative_int (dict_get "auto_apply_generation" state) current;
      mret (VInt n));
   adaptive_float state "auto_apply_observe_until"; adaptive_text state "auto_apply_last_applied_param";
   adaptive_float state "auto_apply_last_applied_at"; adaptive_float state "oscillation_lockout_until";
   adaptive_text state "oscillation_lockout_reason"; adaptive_float state "overshoot_cooldown_until";
   adaptive_text state "overshoot_cooldown_reason"].

(** controllers/state_restore_victron_ess.py: VictronEssRuntimeRestorer._restore_victron_ess_balance_suspend_state *)
Definition restore_victron_ess_balance_suspend_state (state : dict) : list assignment :=
  [adaptive_float state "auto_apply_suspend_until"; adaptive_text state "auto_apply_suspend_reason";
   (rt "safe_state_active", fun _ => Ok (VBool (py_bool (dict_get "safe_state_active" state))));
   adaptive_text state "safe_state_reason"].

(** controllers/state_restore_victron_ess.py: VictronEssRuntimeRestorer._restore_victron_ess_balance_stable_tuning_state *)
Definition restore_victron_ess_balance_stable_tuning_state (state : dict) : list assignment :=
  [adaptive_mapping state "last_stable_tuning"; adaptive_float state "last_stable_at";
   adaptive_text state "last_stable_profile_key"; adaptive_mapping state "conservative_tuning"] ++
  restore_victron_ess_balance_suspend_state state.

(** controllers/state_restore_victron_ess.py: VictronEssRuntimeRestorer._restore_victron_ess_balance_adaptive_tuning_payload *)
Definition restore_victron_ess_balance_adaptive_tuning_payload (state : dict) : M service unit :=
  accepted ← reading (accepted_payload state);
  if negb accepted then mret tt
  else
    assign_all (restore_victron_ess_balance_pid_tuning state);;
    v ← get;
    match restored_activation_mode state v with
    | Some activation_mode => set_state (cfg "activation_mode") (VStr activation_mode)
    | None => mret tt
    end;;
    assign_all (restore_victron_ess_balance_auto_apply_state state);;
    assign_all (restore_victron_ess_balance_stable_tuning_state state).

(** controllers/state_restore_victron_ess.py: VictronEssRuntimeRestorer.restore_runtime_state *)
Definition restore_runtime_state (state : dict) : M service unit :=
  match dict_get "victron_ess_balance_learning_state" state with
  | VDict _ as learning => restore_victron_ess_balance_learning_state_payload (string_key_items learning)
  | _ => mret tt
  end;;
  match dict_get "victron_ess_balance_adaptive_tuning_state" state with
  | VDict _ as adaptive => restore_victron_ess_balance_adaptive_tuning_payload (string_key_items adaptive)
  | _ => mret tt
  end.

End restorer.
End VictronEssRuntimeRestorer.

(** controllers/state_restore.py: RuntimeStateRestorer.restore *)
Definition restore (sources : option (list pyval)) (state : dict) (current_time : float) : M service unit :=
  assign_all (RuntimeStateRestorer.restore_basic_runtime_state state);;
  assign_all (RuntimeStateRestorer.restore_learned_charge_power_state state current_time);;
  RuntimeStateRestorer.restore_phase_switch_runtime_state state current_time;;
  assign_all (RuntimeStateRestorer.restore_contactor_runtime_state state current_time);;
  assign_all (RuntimeStateRestorer.restore_relay_runtime_state state current_time);;
  VictronEssRuntimeRestorer.restore_runtime_state sources state.
