(* ===== verification/StateSafety.v ===== *)
(** * The runtime state across a restart

    What the state file of a running service holds puts a fresh service into the same state; what
    any other document holds is brought into the domain of each attribute. *)

From S2P Require Import Prelude PyFloat PyValue OrderedMap Contracts BackendModels EssSources EssProfiles StateSnapshot StateRestore.
Import RuntimeStateNormalizer.

(** ** Payloads and assignments *)

Lemma payload_keys {A} (l : list (string * (A -> res pyval))) v d : payload l v = Ok d -> map fst d = map (fun kf => VStr (fst kf)) l.
Proof.
  revert d. induction l as [|[key f] l IH]; intros d; cbn; [by intros [= <-]|].
  intros ([k x] & (y & _ & [= <- <-])%res_bind_ok & (d' & Hd & [= <-])%res_bind_ok)%res_bind_ok. cbn. by rewrite (IH _ Hd).
Qed.

(** A key that is not among those of a payload. *)
Lemma payload_other {A} (l : list (string * (A -> res pyval))) v d key : payload l v = Ok d -> str_in key (map fst l) = false -> dict_find key d = None.
Proof.
  revert d. induction l as [|[k f] l IH]; intros d; cbn; [by intros [= <-]|].
  intros ([k' x] & (y & _ & [= <- <-])%res_bind_ok & (d' & Hd & [= <-])%res_bind_ok)%res_bind_ok. unfold str_in. cbn.
  rewrite orb_false_iff. intros [Hk Hr]. unfold dict_find. cbn. rewrite String.eqb_sym, Hk. by apply IH.
Qed.

Lemma payload_find {A} (l : list (string * (A -> res pyval))) v d key f :
  payload l v = Ok d -> table_get key l = Some f -> exists x, f v = Ok x /\ dict_find key d = Some x.
Proof.
  revert d. induction l as [|[k g] l IH]; intros d; cbn; [done|].
  intros ([k' x] & (y & Hy & [= <- <-])%res_bind_ok & (d' & Hd & [= <-])%res_bind_ok)%res_bind_ok.
  unfold dict_find. cbn. rewrite (String.eqb_sym k). destruct (key =? k)%string eqn:E.
  - intros [= ->]. by exists y.
  - by apply IH.
Qed.

Lemma payload_defined {A} (l : list (string * (A -> res pyval))) v : Forall (fun kf => exists x, snd kf v = Ok x) l -> exists d, payload l v = Ok d.
Proof.
  induction 1 as [|[key f] l [x Hx] _ [d Hd]]; [by exists []|]. unfold payload in *. cbn in *.
  exists ((VStr key, x) :: d). by rewrite Hx, Hd.
Qed.

Lemma dict_find_app key d d' : dict_find key (d ++ d') = match dict_find key d with Some x => Some x | None => dict_find key d' end.
Proof.
  unfold dict_find. induction d as [|[k x] d IH]; [done|]. cbn. by destruct (match k with VStr _ => _ | _ => _ end).
Qed.

(** An expression that reads no attribute but [name]. *)
Definition reads_only (name : string) (f : service -> res pyval) : Prop := forall v w : service, v !! name = w !! name -> f v = f w.

(** An assignment that gives its attribute the value it has in [v]. *)
Definition kept (v0 v : service) (a : assignment) : Prop :=
  reads_only (fst a) (snd a) /\ exists x, v !! fst a = Some x /\ snd a v0 = Ok x.

Definition returns (v0 v : service) (l : list assignment) : Prop := Forall (kept v0 v) l.

(** Every name of the list is assigned once. *)
Fixpoint distinct (l : list string) : bool :=
  match l with [] => true | x :: l' => negb (str_in x l') && distinct l' end.

Lemma assign_all_returns l v0 v :
  returns v0 v l -> distinct (map fst l) = true ->
  exists v1, assign_all l v0 = (Ok tt, v1) /\
    (forall name, str_in name (map fst l) = true -> v1 !! name = v !! name) /\
    (forall name, str_in name (map fst l) = false -> v1 !! name = v0 !! name).
Proof.
  revert v0. induction l as [|[name f] l IH]; intros v0 Hr Hd; [by exists v0|]. apply Forall_cons in Hr as [(Hf & x & Hx & Hfx) Hr].
  cbn in Hd. apply andb_true_iff in Hd as [Hn Hd]. apply negb_true_iff in Hn. cbn [fst snd] in *.
  destruct (IH (<[name := x]> v0)) as (v1 & Hv1 & Hin & Hout); [|done|].
  - unfold returns in *. rewrite Forall_forall in Hr |- *. intros [n g] Hg. destruct (Hr _ Hg) as (Ho & y & Hy & Hgy). cbn in *.
    split; [done|]. exists y. split; [done|]. rewrite <- Hgy. apply Ho.
    apply (lookup_insert_ne (M := gmap string)). intros <-. apply (list_elem_of_fmap_2 fst) in Hg. cbn in Hg.
    apply str_in_spec in Hg. change (str_in name (map fst l) = true) in Hg. congruence.
  - exists v1. split; [|split].
    + cbn. unfold mbind, M_bind, reading, set_state, modify. rewrite Hfx. exact Hv1.
    + intros k. unfold str_in. cbn. destruct (k =? name)%string eqn:E; cbn.
      * apply String.eqb_eq in E as ->. intros _. rewrite Hout by done. unfold service. by rewrite (lookup_insert_eq (M := gmap string)).
      * intros Hk. by apply Hin.
    + intros k. unfold str_in. cbn. rewrite orb_false_iff. intros [E Hk]. rewrite Hout by done.
      apply (lookup_insert_ne (M := gmap string)). intros ->. by rewrite String.eqb_refl in E.
Qed.

(** ** The domains of the attributes *)

(** What a restored attribute may hold. *)
Inductive domain :=
  | Mode | AnyInt | Finite | Flag | NonNegative | PastTime | OptionalFinite | Count | Text
  | Oneof (texts : list string) | OptionalOneof (texts : list string) | Selections | Counts (keys : list string)
  | Setting | Mapping | Stripped.

Definition phase_texts : list string := map phase_text [P1; P1_P2; P1_P2_P3].

Definition positive_float (x : float) : Prop := isfinite x = true /\ (x <? f0)%F = false.

(** A dictionary of counters whose keys are some of the texts, each at most once. *)
Definition counters (keys : list string) (d : dict) : Prop :=
  distinct (map (fun kv => py_str (fst kv)) d) = true /\
  Forall (fun kv => exists k n, kv = (VStr k, VInt n) /\ str_in k keys = true /\ 0 <= n) d.

Definition in_domain (limit : float) (d : domain) (x : pyval) : Prop :=
  match d, x with
  | Mode, VInt n => n = 0 \/ n = 1 \/ n = 2
  | AnyInt, VInt _ | Flag, VBool _ | Text, VStr _ => True
  | Finite, VFloat x => isfinite x = true
  | NonNegative, VFloat x => positive_float x
  | PastTime, VFloat x => isfinite x = true /\ (x >? limit)%F = false
  | OptionalFinite, VFloat x => isfinite x = true
  | (NonNegative | PastTime | OptionalFinite | OptionalOneof _), VNone => True
  | Count, VInt n => 0 <= n
  | (Oneof texts | OptionalOneof texts), VStr t => str_in t texts = true
  | Selections, VTuple l => exists s, s <> [] /\ l = map (fun p => VStr (phase_text p)) s
  | Counts keys, VDict d => counters keys d
  | Setting, VFloat x => positive_float x /\ x <> fopp f0
  | Mapping, VDict d => forallb is_text_key d = true
  | Stripped, VStr t => py_strip t = t
  | _, _ => False
  end.

Definition switch_states : list string := ["waiting-relay-off"; "stabilizing"].

(** The attributes of the charger that a restart keeps. *)
Definition charger_domains : list (string * domain) :=
  [("virtual_mode", Mode); ("virtual_autostart", AnyInt); ("virtual_enable", AnyInt); ("virtual_startstop", AnyInt);
   ("manual_override_until", Finite); ("_auto_mode_cutover_pending", Flag);
   ("relay_last_changed_at", PastTime); ("relay_last_off_at", PastTime);
   ("learned_charge_power_watts", NonNegative); ("learned_charge_power_updated_at", PastTime);
   ("learned_charge_power_state", Oneof LEARNED_CHARGE_POWER_STATES); ("learned_charge_power_learning_since", PastTime);
   ("learned_charge_power_sample_count", Count); ("learned_charge_power_phase", OptionalOneof LEARNED_CHARGE_POWER_PHASES);
   ("learned_charge_power_voltage", NonNegative); ("learned_charge_power_signature_mismatch_sessions", Count);
   ("learned_charge_power_signature_checked_session_started_at", PastTime);
   ("supported_phase_selections", Selections); ("requested_phase_selection", Oneof phase_texts);
   ("active_phase_selection", Oneof phase_texts); ("_phase_switch_pending_selection", OptionalOneof phase_texts);
   ("_phase_switch_state", OptionalOneof switch_states); ("_phase_switch_requested_at", PastTime);
   ("_phase_switch_stable_until", OptionalFinite); ("_phase_switch_resume_relay", Flag);
   ("_phase_switch_mismatch_counts", Counts phase_texts);
   ("_phase_switch_last_mismatch_selection", OptionalOneof phase_texts); ("_phase_switch_last_mismatch_at", PastTime);
   ("_phase_switch_lockout_selection", OptionalOneof phase_texts); ("_phase_switch_lockout_reason", Text);
   ("_phase_switch_lockout_at", PastTime); ("_phase_switch_lockout_until", OptionalFinite);
   ("_contactor_fault_counts", Counts RuntimeStateRestorer.contactor_fault_reasons);
   ("_contactor_fault_active_reason", OptionalOneof RuntimeStateRestorer.contactor_fault_reasons);
   ("_contactor_fault_active_since", PastTime);
   ("_contactor_lockout_reason", Oneof ("" :: RuntimeStateRestorer.contactor_fault_reasons));
   ("_contactor_lockout_source", Text); ("_contactor_lockout_at", PastTime)].

(** Every attribute of the table is set and in its domain. *)
Definition all_in_domain (limit : float) (table : list (string * domain)) (v : service) : Prop :=
  Forall (fun nd => exists x, v !! fst nd = Some x /\ in_domain limit (snd nd) x) table.

(** A phase switch is pending with a selection and a state, or not at all. *)
Definition switch_complete (v : service) : Prop :=
  (v !! "_phase_switch_state" = Some VNone \/ v !! "_phase_switch_pending_selection" = Some VNone) ->
  Forall (fun a => exists x, snd a v = Ok x /\ v !! fst a = Some x) RuntimeStateRestorer.drop_phase_switch.

Definition charger_valid (limit : float) (v : service) : Prop :=
  all_in_domain limit charger_domains v /\ switch_complete v.

Lemma domain_lookup limit table v name d :
  all_in_domain limit table v -> table_get name table = Some d -> exists x, v !! name = Some x /\ in_domain limit d x.
Proof.
  intros H Hn. apply table_get_elem in Hn. unfold all_in_domain in H. rewrite Forall_forall in H. exact (H _ Hn).
Qed.

(** A text of a list: one case for each, solved by [tac]. *)
Ltac one_of_by H tac :=
  apply str_in_spec in H; repeat (apply elem_of_cons in H as [-> | H]; [tac|]); by apply elem_of_nil in H.
Ltac one_of H := one_of_by H ltac:(first [done | vm_compute; reflexivity]).

(** ** One field: saved and restored *)

Lemma finite_number x : isfinite x = true -> finite_float_or_none (VFloat x) = Ok (Some x).
Proof. intros H. cbn. by rewrite H. Qed.

Lemma past_kept limit x current :
  isfinite x = true -> (x >? limit)%F = false -> (limit <=? current + f1)%F = true ->
  optional_past_time (VFloat x) current = Ok (Some x).
Proof.
  intros Hf Hx Hl. unfold optional_past_time, optional_float, coerce_runtime_float. rewrite finite_number by done.
  change (Ok (if (x >? current + f1)%F then None else Some x) = Ok (Some x)).
  assert (isnan x = false) as Hn by (by destruct x).
  assert (flt (current + f1)%F x = false) as -> by (by forder). done.
Qed.

Section field.
Context (limit wall now : float) (v v0 : service) (state : dict).
Hypothesis Hwall : (limit <=? wall + f1)%F = true.
Hypothesis Hnow : (limit <=? now + f1)%F = true.

(** [state] holds what the snapshot of [v] says about each key. *)
Hypothesis Hsaved : forall key f, table_get key (RuntimeStateSnapshotBuilder.own_fields wall) = Some f ->
  exists y, f v = Ok y /\ dict_find key state = Some y.
Hypothesis Hv : all_in_domain limit charger_domains v.
Hypothesis Hv0 : all_in_domain limit charger_domains v0.

(** The value of an attribute in [v], in [v0], and what was saved under a key. *)
Ltac current name x Hx Hd := destruct (domain_lookup _ _ v name _ Hv eq_refl) as (x & Hx & Hd).
Ltac fresh_value name x Hx Hd := destruct (domain_lookup _ _ v0 name _ Hv0 eq_refl) as (x & Hx & Hd).
Ltac saved key y Hy Hs := destruct (Hsaved key _ eq_refl) as (y & Hy & Hs).

Ltac reads_only_go :=
  let a := fresh in let b := fresh in let Hab := fresh in
  intros a b Hab; cbn -[f1] in Hab |- *; unfold state_or, state_or_required, getattr, attribute; rewrite ?Hab; reflexivity.

Lemma restored_time_ok key name :
  table_get name charger_domains = Some PastTime -> (forall x, v !! name = Some x -> in_domain limit PastTime x -> dict_find key state = Some x) ->
  kept v0 v (restored_time state now key name).
Proof.
  intros Hn Hs. split; [reads_only_go|]. destruct (domain_lookup _ _ v name _ Hv Hn) as (x & Hx & Hd). exists x. split; [done|].
  unfold restored_time, state_or. cbn [snd]. rewrite (Hs x Hx Hd). cbn [default from_option id]. destruct x as [| | |x| | | | |]; try done.
  destruct Hd as [Hf Hl]. by rewrite (past_kept limit).
Qed.

Lemma saved_past key name :
  table_get key (RuntimeStateSnapshotBuilder.own_fields wall) = Some (past_time wall name) ->
  forall x, v !! name = Some x -> in_domain limit PastTime x -> dict_find key state = Some x.
Proof.
  intros Hk x Hx Hd. destruct (Hsaved _ _ Hk) as (y & Hy & Hs). rewrite Hs. unfold past_time, getattr in Hy. rewrite Hx in Hy.
  cbn [default from_option id] in Hy. destruct x as [| | |x| | | | |]; try done; [by injection Hy as <-|].
  destruct Hd as [Hf Hl]. rewrite (past_kept limit) in Hy by done. by injection Hy as <-.
Qed.

Lemma saved_raw key name x :
  table_get key (RuntimeStateSnapshotBuilder.own_fields wall) = Some (raw name) -> v !! name = Some x ->
  dict_find key state = Some x.
Proof.
  intros Hk Hx. destruct (Hsaved _ _ Hk) as (y & Hy & Hs). unfold raw, attribute in Hy. rewrite Hx in Hy. by injection Hy as <-.
Qed.

Lemma saved_raw_or key name dflt x :
  table_get key (RuntimeStateSnapshotBuilder.own_fields wall) = Some (raw_or name dflt) -> v !! name = Some x ->
  dict_find key state = Some x.
Proof.
  intros Hk Hx. destruct (Hsaved _ _ Hk) as (y & Hy & Hs). unfold raw_or, getattr in Hy. rewrite Hx in Hy. by injection Hy as <-.
Qed.

Lemma restored_int_ok key name :
  table_get name charger_domains = Some AnyInt ->
  table_get key (RuntimeStateSnapshotBuilder.own_fields wall) = Some (int_of name) ->
  kept v0 v (RuntimeStateRestorer.restored_int state key name).
Proof.
  intros Hn Hk. split; [reads_only_go|]. destruct (domain_lookup _ _ v name _ Hv Hn) as (x & Hx & Hd). exists x. split; [done|].
  destruct (domain_lookup _ _ v0 name _ Hv0 Hn) as (x0 & Hx0 & Hd0). destruct (Hsaved _ _ Hk) as (y & Hy & Hs).
  unfold int_of, attribute in Hy. rewrite Hx in Hy. destruct x as [| |n| | | | | |], x0 as [| |n0| | | | | |]; try done.
  injection Hy as <-. unfold RuntimeStateRestorer.restored_int, attribute, dict_get. cbn [snd]. by rewrite Hx0, Hs.
Qed.

Lemma restored_watts_ok name :
  table_get name charger_domains = Some NonNegative ->
  table_get name (RuntimeStateSnapshotBuilder.own_fields wall) = Some (raw_or name VNone) ->
  kept v0 v (restored_float state name name).
Proof.
  intros Hn Hk. split; [reads_only_go|]. destruct (domain_lookup _ _ v name _ Hv Hn) as (x & Hx & Hd). exists x. split; [done|].
  unfold restored_float, state_or. cbn [snd]. rewrite (saved_raw_or _ _ _ _ Hk Hx).
  cbn [default from_option id]. destruct x as [| | |x| | | | |]; try done. destruct Hd as [Hf Hl].
  unfold non_negative_float_or_none. rewrite finite_number by done. cbn. by rewrite Hl.
Qed.

Lemma restored_counter_ok name :
  table_get name charger_domains = Some Count ->
  table_get name (RuntimeStateSnapshotBuilder.own_fields wall) = Some (int_or_zero name) ->
  kept v0 v (restored_count state name name).
Proof.
  intros Hn Hk. split; [reads_only_go|]. destruct (domain_lookup _ _ v name _ Hv Hn) as (x & Hx & Hd). exists x. split; [done|].
  destruct (Hsaved _ _ Hk) as (y & Hy & Hs). unfold int_or_zero, getattr in Hy. rewrite Hx in Hy.
  destruct x as [| |n| | | | | |]; try done. injection Hy as <-.
  unfold restored_count, state_or. cbn [snd]. rewrite Hs. cbn in Hd |- *. by rewrite Z.max_r.
Qed.

Lemma restored_optional_float_ok key name :
  table_get name charger_domains = Some OptionalFinite ->
  table_get key (RuntimeStateSnapshotBuilder.own_fields wall) = Some (float_field name) ->
  kept v0 v (restored_optional_float state key name).
Proof.
  intros Hn Hk. split; [reads_only_go|]. destruct (domain_lookup _ _ v name _ Hv Hn) as (x & Hx & Hd). exists x. split; [done|].
  destruct (Hsaved _ _ Hk) as (y & Hy & Hs). unfold float_field, getattr in Hy. rewrite Hx in Hy. cbn [from_option id] in Hy.
  unfold restored_optional_float, state_or. cbn [snd]. rewrite Hs. cbn [from_option id]. destruct x as [| | |x| | | | |]; try done.
  - by injection Hy as <-.
  - unfold optional_float, coerce_runtime_float in *. rewrite finite_number in Hy by done. injection Hy as <-.
    by rewrite finite_number.
Qed.

Lemma restored_text_ok key name :
  table_get name charger_domains = Some Text ->
  table_get key (RuntimeStateSnapshotBuilder.own_fields wall) = Some (text_field name) ->
  kept v0 v (restored_text state key name).
Proof.
  intros Hn Hk. split; [reads_only_go|]. destruct (domain_lookup _ _ v name _ Hv Hn) as (x & Hx & Hd). exists x. split; [done|].
  destruct (Hsaved _ _ Hk) as (y & Hy & Hs). unfold text_field, text_or, getattr in Hy. rewrite Hx in Hy.
  destruct x as [| | | |t| | | |]; try done. injection Hy as <-.
  unfold restored_text, state_or. cbn [snd]. rewrite Hs. cbn. destruct t; done.
Qed.

Lemma phase_text_of t : str_in t phase_texts = true -> exists p, t = phase_text p.
Proof.
  intros H. apply str_in_spec in H. unfold phase_texts in H. apply list_elem_of_fmap in H as (p & -> & _). by exists p.
Qed.

Lemma restored_phase_ok requested key name :
  table_get name charger_domains = Some (OptionalOneof phase_texts) ->
  table_get key (RuntimeStateSnapshotBuilder.own_fields wall) = Some (RuntimeStateSnapshotBuilder.optional_phase_field name) ->
  kept v0 v (restored_phase state requested key name).
Proof.
  intros Hn Hk. split; [reads_only_go|]. destruct (domain_lookup _ _ v name _ Hv Hn) as (x & Hx & Hd). exists x. split; [done|].
  destruct (Hsaved _ _ Hk) as (y & Hy & Hs). unfold RuntimeStateSnapshotBuilder.optional_phase_field, getattr in Hy.
  rewrite Hx in Hy. cbn [from_option id] in Hy. unfold restored_phase, state_or. cbn [snd]. rewrite Hs. cbn [from_option id].
  destruct x as [| | | |t| | | |]; try done; [by injection Hy as <-|]. apply phase_text_of in Hd as [p ->].
  cbn [optional_phase_selection] in Hy. unfold phase_selection in Hy. rewrite normalize_phase_text_default in Hy.
  injection Hy as <-. cbn [optional_phase_selection val_of_phase]. unfold phase_selection. by rewrite normalize_phase_text_default.
Qed.

(** *** Counters *)

Lemma str_in_app x l l' : str_in x (l ++ l') = str_in x l || str_in x l'.
Proof. unfold str_in. apply existsb_app. Qed.

Lemma distinct_app_false x l l' : distinct (l ++ x :: l') = true -> str_in x l = false.
Proof.
  induction l as [|y l IH]; [done|]. cbn. rewrite !andb_true_iff, negb_true_iff, str_in_app. intros [Hy Hd].
  unfold str_in. cbn. rewrite (IH Hd : existsb _ _ = false). apply orb_false_iff in Hy as [_ Hy]. unfold str_in in Hy. cbn in Hy.
  apply orb_false_iff in Hy as [Hy _]. by rewrite String.eqb_sym, Hy.
Qed.

Lemma dict_set_fresh key x d :
  str_in key (map (fun kv => py_str (fst kv)) d) = false -> Forall (fun kv => is_text_key kv = true) d ->
  dict_set key x d = d ++ [(VStr key, x)].
Proof.
  induction d as [|[k y] d IH]; intros Hk Hd; [done|]. apply Forall_cons in Hd as [Hkey Hd].
  destruct k as [| | | |k| | | |]; try done. unfold str_in in Hk. cbn in Hk |- *. apply orb_false_iff in Hk as [Hne Hk].
  rewrite String.eqb_sym, Hne. by rewrite IH.
Qed.

(** Counting again what was counted gives the same dictionary. *)
Lemma counts_again keep keys d acc :
  (forall k, str_in k keys = true -> keep (VStr k) = Some k) -> counters keys (acc ++ d) ->
  RuntimeStateRestorer.normalized_counts keep d acc = Ok (acc ++ d).
Proof.
  intros Hkeep. revert acc. induction d as [|[k x] d IH]; intros acc [Hd Hall]; cbn; [by rewrite app_nil_r|].
  pose proof Hall as Hall'. apply Forall_app in Hall' as [Hacc Hrest]. apply Forall_cons in Hrest as [(k' & n & [= -> ->] & Hk & Hn) _].
  rewrite Hkeep by done. cbn. rewrite Z.max_r by done. rewrite map_app in Hd. cbn in Hd. apply distinct_app_false in Hd as Hfresh.
  rewrite dict_set_fresh; [|done|].
  - change (acc ++ (VStr k', VInt n) :: d) with (acc ++ [(VStr k', VInt n)] ++ d) in Hall |- *.
    rewrite app_assoc in Hall |- *. apply IH. split; [|done]. by rewrite <- app_assoc, map_app.
  - eapply Forall_impl; [exact Hacc|]. by intros kv (k2 & n2 & -> & _).
Qed.

Lemma saved_dict key name x :
  table_get key (RuntimeStateSnapshotBuilder.own_fields wall) = Some (dict_field name) ->
  v !! name = Some (VDict x) -> dict_find key state = Some (VDict x).
Proof.
  intros Hk Hx. destruct (Hsaved _ _ Hk) as (y & Hy & Hs). unfold dict_field, getattr in Hy. rewrite Hx in Hy. by injection Hy as <-.
Qed.

(** *** The blocks *)

Lemma basic_returns : returns v0 v (removelast (RuntimeStateRestorer.restore_basic_runtime_state state)).
Proof.
  repeat (apply Forall_cons; split); [ | by apply restored_int_ok.. | | | by apply Forall_nil].
  - split; [reads_only_go|]. current "virtual_mode" x Hx Hd. saved "mode" y Hy Hs. fresh_value "virtual_mode" x0 Hx0 Hd0.
    exists x. split; [done|]. unfold int_of, attribute in Hy. rewrite Hx in Hy. cbn [snd].
    unfold state_or_required, attribute. rewrite Hx0, Hs. destruct x as [| |n| | | | | |]; try done. injection Hy as <-.
    destruct Hd as [-> | [-> | ->]]; done.
  - split; [reads_only_go|]. current "manual_override_until" x Hx Hd. saved "manual_override_until" y Hy Hs.
    fresh_value "manual_override_until" x0 Hx0 Hd0. exists x. split; [done|]. unfold attribute in Hy. rewrite Hx in Hy. cbn [snd].
    unfold attribute, dict_get. rewrite Hx0, Hs. destruct x as [| | |x| | | | |], x0 as [| | |x0| | | | |]; try done.
    injection Hy as <-. unfold coerce_runtime_float. cbn [in_domain from_option id] in *. rewrite !finite_number by done. done.
  - split; [reads_only_go|]. current "_auto_mode_cutover_pending" x Hx Hd. saved "auto_mode_cutover_pending" y Hy Hs.
    fresh_value "_auto_mode_cutover_pending" x0 Hx0 Hd0. exists x. split; [done|]. unfold attribute in Hy. rewrite Hx in Hy. cbn [snd].
    unfold attribute, dict_get. rewrite Hx0, Hs. destruct x as [|b| | | | | | |]; try done. injection Hy as <-. by destruct b.
Qed.

Lemma learned_returns : returns v0 v (RuntimeStateRestorer.restore_learned_charge_power_state state now).
Proof.
  repeat (apply Forall_cons; split);
    [ by apply restored_watts_ok | apply restored_time_ok; [done|] | | apply restored_time_ok; [done|] | by apply restored_counter_ok
    | | by apply restored_watts_ok | by apply restored_counter_ok | apply restored_time_ok; [done|] | by apply Forall_nil ];
    try (intros x Hx _; eapply saved_raw_or; [reflexivity | exact Hx]).
  - split; [reads_only_go|]. current "learned_charge_power_state" x Hx Hd. exists x. split; [done|]. cbn [snd]. unfold state_or.
    rewrite (saved_raw_or "learned_charge_power_state" _ (VStr "unknown") x eq_refl Hx).
    destruct x as [| | | |t| | | |]; try done. cbn [in_domain] in Hd. one_of Hd.
  - split; [reads_only_go|]. current "learned_charge_power_phase" x Hx Hd. exists x. split; [done|]. cbn [snd]. unfold state_or.
    rewrite (saved_raw_or "learned_charge_power_phase" _ VNone x eq_refl Hx).
    destruct x as [| | | |t| | | |]; try done. cbn [in_domain] in Hd. one_of Hd.
Qed.

Lemma phase_values (l : list PhaseSelection) : map (fun x => normalize_phase_selection x P1) (map (fun p => VStr (phase_text p)) l) = l.
Proof. induction l as [|p l IH]; [done|]. cbn [map]. by rewrite normalize_phase_text_default, IH. Qed.

Lemma supported_again l : l <> [] ->
  supported_phase_selections (VTuple (map (fun p => VStr (phase_text p)) l)) = l /\
  supported_phase_selections (VList (map (fun p => VStr (phase_text p)) l)) = l.
Proof.
  intros Hl. unfold supported_phase_selections, normalize_phase_selection_tuple, normalized_phase_selection_values.
  rewrite phase_values. by destruct l.
Qed.

Lemma phase_attributes_returns requested pending_selection switch_state :
  v !! "_phase_switch_pending_selection" = Some (val_of_phase pending_selection) ->
  v !! "_phase_switch_state" = Some (val_of_str switch_state) ->
  returns v0 v (RuntimeStateRestorer.restore_phase_switch_attributes state now requested pending_selection switch_state).
Proof.
  intros Hpending Hstate. repeat (apply Forall_cons; split);
    [ | | | apply restored_time_ok; [done|] | by apply restored_optional_float_ok | | | by apply restored_phase_ok
    | apply restored_time_ok; [done|] | by apply restored_phase_ok | by apply restored_text_ok | apply restored_time_ok; [done|]
    | by apply restored_optional_float_ok | by apply Forall_nil ]; try (by apply saved_past).
  - split; [reads_only_go|]. current "active_phase_selection" x Hx Hd. saved "active_phase_selection" y Hy Hs.
    exists x. split; [done|]. unfold phase_field, getattr in Hy. rewrite Hx in Hy. cbn [snd]. unfold state_or. rewrite Hs.
    destruct x as [| | | |t| | | |]; try done. apply phase_text_of in Hd as [p ->]. cbn [from_option id] in *.
    unfold phase_selection in *. rewrite normalize_phase_text_default in Hy. injection Hy as <-. cbn [snd from_option id].
    by rewrite normalize_phase_text_default.
  - split; [done|]. by eexists.
  - split; [done|]. by eexists.
  - split; [reads_only_go|]. current "_phase_switch_resume_relay" x Hx Hd. saved "phase_switch_resume_relay" y Hy Hs.
    exists x. split; [done|]. unfold flag_field, getattr in Hy. rewrite Hx in Hy. cbn [snd]. unfold dict_get. rewrite Hs.
    destruct x as [|b| | | | | | |]; try done. injection Hy as <-. by destruct b.
  - split; [reads_only_go|]. current "_phase_switch_mismatch_counts" x Hx Hd. exists x. split; [done|].
    destruct x as [| | | | | | |d|]; try done. cbn [snd]. unfold state_or.
    rewrite (saved_dict "phase_switch_mismatch_counts" "_phase_switch_mismatch_counts" d eq_refl Hx). cbn [from_option id].
    unfold RuntimeStateRestorer.normalized_phase_switch_mismatch_counts. rewrite (counts_again _ phase_texts d []); [done| |done].
    intros k Hk. apply phase_text_of in Hk as [p ->]. unfold phase_selection. by rewrite normalize_phase_text_default.
Qed.

Lemma fault_reason_again t :
  str_in t RuntimeStateRestorer.contactor_fault_reasons = true ->
  py_strip t = t /\ RuntimeStateRestorer.normalized_contactor_fault_reason (VStr t) = Some t.
Proof. intros H. one_of H. Qed.

Lemma contactor_returns : returns v0 v (RuntimeStateRestorer.restore_contactor_runtime_state state now).
Proof.
  repeat (apply Forall_cons; split);
    [ | | apply restored_time_ok; [done|] | | by apply restored_text_ok | apply restored_time_ok; [done|] | by apply Forall_nil ];
    try (by apply saved_past).
  - split; [reads_only_go|]. current "_contactor_fault_counts" x Hx Hd. exists x. split; [done|].
    destruct x as [| | | | | | |d|]; try done. cbn [snd]. unfold state_or.
    rewrite (saved_dict "contactor_fault_counts" "_contactor_fault_counts" d eq_refl Hx). cbn [from_option id].
    unfold RuntimeStateRestorer.normalized_contactor_fault_counts.
    rewrite (counts_again _ RuntimeStateRestorer.contactor_fault_reasons d []); [done| |done].
    intros k Hk. destruct (fault_reason_again k Hk) as [Hs _]. cbn [py_str]. by rewrite Hs, Hk.
  - split; [reads_only_go|]. current "_contactor_fault_active_reason" x Hx Hd. saved "contactor_fault_active_reason" y Hy Hs.
    exists x. split; [done|]. unfold getattr in Hy. rewrite Hx in Hy. cbn [snd from_option id] in Hy |- *. unfold state_or. rewrite Hs.
    destruct x as [| | | |t| | | |]; try done; [by injection Hy as <-|]. cbn [in_domain] in Hd.
    destruct (fault_reason_again t Hd) as [Hst Hr]. unfold optional_text in Hy.
    assert (t <> "") as Hne by (intros ->; done). unfold py_str_or in Hy. cbn [py_bool py_str] in Hy.
    destruct (t =? "")%string eqn:E; [by apply String.eqb_eq in E|]. cbn [negb] in Hy. rewrite Hst, E in Hy. injection Hy as <-.
    cbn [from_option id val_of_str]. by rewrite Hr.
  - split; [reads_only_go|]. current "_contactor_lockout_reason" x Hx Hd. saved "contactor_lockout_reason" y Hy Hs.
    exists x. split; [done|]. unfold text_field, text_or, getattr in Hy. rewrite Hx in Hy. cbn [snd from_option id] in Hy |- *.
    unfold state_or. rewrite Hs. destruct x as [| | | |t| | | |]; try done. cbn [in_domain] in Hd. injection Hy as <-.
    cbn [from_option id]. one_of Hd.
Qed.

Lemma relay_returns : returns v0 v (RuntimeStateRestorer.restore_relay_runtime_state state now).
Proof.
  assert (forall name, table_get name charger_domains = Some PastTime ->
    table_get name (RuntimeStateSnapshotBuilder.own_fields wall) = Some (raw name) ->
    kept v0 v (name, fun v => raw ← state_or_required state name name v; t ← optional_past_time raw now; mret (val_of_float t)))
    as H; [|repeat (apply Forall_cons; split); [by apply H.. | by apply Forall_nil]].
  intros name Hn Hk. split; [reads_only_go|]. destruct (domain_lookup _ _ v name _ Hv Hn) as (x & Hx & Hd). exists x. split; [done|].
  destruct (domain_lookup _ _ v0 name _ Hv0 Hn) as (x0 & Hx0 & _). cbn [snd]. unfold state_or_required, attribute.
  cbn [fst] in *. rewrite Hx0, (saved_raw _ _ _ Hk Hx). cbn [from_option id]. destruct x as [| | |x| | | | |]; try done.
  destruct Hd as [Hf Hl]. change ((t ← optional_past_time (VFloat x) now; mret (val_of_float t)) = Ok (VFloat x)). by rewrite (past_kept limit).
Qed.

(** *** Composition *)

(** The attributes [names] have been brought back, the others are as in [v0]. *)
Definition carried (names : list string) (w : service) : Prop :=
  forall name, w !! name = if str_in name names then v !! name else v0 !! name.

Lemma carried_set names name x w : v !! name = Some x -> carried names w -> carried (name :: names) (<[name := x]> w).
Proof.
  intros Hx Hw k. unfold str_in. cbn. destruct (k =? name)%string eqn:E; cbn.
  - apply String.eqb_eq in E as ->. rewrite Hx. apply (lookup_insert_eq (M := gmap string)).
  - transitivity (w !! k); [|apply Hw]. apply (lookup_insert_ne (M := gmap string)). intros ->. by rewrite String.eqb_refl in E.
Qed.

Lemma carried_assign names l w :
  carried names w -> returns v0 v l -> distinct (map fst l) && forallb (fun n => negb (str_in n names)) (map fst l) = true ->
  exists w', assign_all l w = (Ok tt, w') /\ carried (map fst l ++ names) w'.
Proof.
  intros Hw Hl [Hd Hn]%andb_true_iff. destruct (assign_all_returns l w v) as (w' & Hrun & Hin & Hout); [|done|].
  - unfold returns in *. rewrite Forall_forall in Hl |- *. intros a Ha. destruct (Hl a Ha) as (Ho & x & Hx & Hax).
    split; [done|]. exists x. split; [done|]. rewrite <- Hax. apply Ho. rewrite Hw.
    rewrite forallb_forall in Hn. assert (In (fst a) (map fst l)) as Hi by (by apply list_elem_of_In, list_elem_of_fmap_2).
    apply Hn, negb_true_iff in Hi. by rewrite Hi.
  - exists w'. split; [done|]. intros k. rewrite str_in_app. destruct (str_in k (map fst l)) eqn:E; cbn; [by apply Hin|].
    by rewrite Hout, Hw.
Qed.

(** Assigning again what was brought back changes nothing. *)
Lemma carried_again names l w :
  carried names w -> returns w v l -> distinct (map fst l) = true -> forallb (fun n => str_in n names) (map fst l) = true ->
  exists w', assign_all l w = (Ok tt, w') /\ carried names w'.
Proof.
  intros Hw Hl Hd Hn. destruct (assign_all_returns l w v Hl Hd) as (w' & Hrun & Hin & Hout). exists w'. split; [done|].
  intros k. destruct (str_in k (map fst l)) eqn:E; [|by rewrite Hout, Hw]. rewrite Hin by done.
  rewrite forallb_forall in Hn. apply str_in_spec, list_elem_of_In, Hn in E. by rewrite E.
Qed.

Lemma val_of_phase_of x : in_domain limit (OptionalOneof phase_texts) x -> exists p, x = val_of_phase p.
Proof.
  destruct x as [| | | |t| | | |]; try done; [by exists None|]. intros [p ->]%phase_text_of. by exists (Some p).
Qed.

Lemma val_of_str_of texts x : in_domain limit (OptionalOneof texts) x -> exists o, x = val_of_str o.
Proof. destruct x as [| | | |t| | | |]; try done; [by exists None | by exists (Some t)]. Qed.

Hypothesis Hswitch : switch_complete v.

(** The names of the phase block. *)
Definition phase_names : list string :=
  map fst (RuntimeStateRestorer.restore_phase_switch_attributes [] f0 P1 None None) ++
  ["requested_phase_selection"; "supported_phase_selections"].

Lemma saved_supported : exists l, l <> [] /\
  v !! "supported_phase_selections" = Some (VTuple (map (fun p => VStr (phase_text p)) l)) /\
  dict_find "supported_phase_selections" state = Some (VList (map (fun p => VStr (phase_text p)) l)).
Proof.
  current "supported_phase_selections" x Hx Hd. saved "supported_phase_selections" y Hy Hs. unfold getattr in Hy.
  rewrite Hx in Hy. destruct x as [| | | | | |l| |]; try done. destruct Hd as (s & Hne & ->). exists s.
  cbn [from_option id] in Hy. rewrite (proj1 (supported_again s Hne)) in Hy. by injection Hy as <-.
Qed.

Lemma saved_requested : exists p, v !! "requested_phase_selection" = Some (VStr (phase_text p)) /\
  dict_find "requested_phase_selection" state = Some (VStr (phase_text p)).
Proof.
  current "requested_phase_selection" x Hx Hd. saved "requested_phase_selection" y Hy Hs. unfold phase_field, getattr in Hy.
  rewrite Hx in Hy. destruct x as [| | | |t| | | |]; try done. apply phase_text_of in Hd as [p ->]. exists p.
  cbn [from_option id] in Hy. unfold phase_selection in Hy. rewrite normalize_phase_text_default in Hy. by injection Hy as <-.
Qed.

Lemma optional_phase_again q r : optional_phase_selection (val_of_phase q) r = q.
Proof.
  destruct q as [q|]; [|done]. cbn [val_of_phase optional_phase_selection]. unfold phase_selection.
  by rewrite normalize_phase_text_default.
Qed.

Lemma saved_pending : exists q, v !! "_phase_switch_pending_selection" = Some (val_of_phase q) /\
  dict_find "phase_switch_pending_selection" state = Some (val_of_phase q).
Proof.
  current "_phase_switch_pending_selection" x Hx Hd. saved "phase_switch_pending_selection" y Hy Hs.
  unfold RuntimeStateSnapshotBuilder.optional_phase_field, getattr in Hy. rewrite Hx in Hy. cbn [from_option id] in Hy.
  apply val_of_phase_of in Hd as [q ->]. exists q. rewrite optional_phase_again in Hy. by injection Hy as <-.
Qed.

Lemma saved_switch_state : exists t, v !! "_phase_switch_state" = Some (val_of_str t) /\
  dict_find "phase_switch_state" state = Some (val_of_str t) /\ phase_switch_state (val_of_str t) = t.
Proof.
  current "_phase_switch_state" x Hx Hd. saved "phase_switch_state" y Hy Hs. unfold getattr in Hy. rewrite Hx in Hy.
  cbn [from_option id] in Hy. destruct x as [| | | |t| | | |]; try done; [exists None; by injection Hy as <-|]. exists (Some t).
  cbn [in_domain] in Hd. assert (phase_switch_state (VStr t) = Some t) as E by (clear -Hd; one_of Hd). rewrite E in Hy.
  by injection Hy as <-.
Qed.

Lemma set_state_bind {A} name x (m : M service A) w : (set_state name x;; m) w = m (<[name := x]> w).
Proof. reflexivity. Qed.

Lemma bind_done {S A B} (m : M S A) (f : A -> M S B) s a s' : m s = (Ok a, s') -> (m ≫= f) s = f a s'.
Proof. intros H. unfold mbind, M_bind. by rewrite H. Qed.

Lemma state_or_saved key name x w : dict_find key state = Some x -> state_or state key name w = x.
Proof. intros H. unfold state_or. by rewrite H. Qed.

Lemma phase_dropped names t q w :
  v !! "_phase_switch_state" = Some (val_of_str t) -> v !! "_phase_switch_pending_selection" = Some (val_of_phase q) ->
  carried names w -> forallb (fun n => str_in n names) (map fst RuntimeStateRestorer.drop_phase_switch) = true ->
  exists w', match t, q with Some _, Some _ => mret tt | _, _ => assign_all RuntimeStateRestorer.drop_phase_switch end w
    = (Ok tt, w') /\ carried names w'.
Proof.
  intros Ht Hq Hw Hn.
  assert (t = None \/ q = None -> exists w', assign_all RuntimeStateRestorer.drop_phase_switch w = (Ok tt, w') /\ carried names w')
    as Hdrop.
  { intros Htq. apply carried_again; [done| |done|done]. assert (switch_complete v) as Hc by exact Hswitch.
    assert (v !! "_phase_switch_state" = Some VNone \/ v !! "_phase_switch_pending_selection" = Some VNone) as Hnone
      by (destruct Htq as [-> | ->]; [by left | by right]).
    specialize (Hc Hnone). unfold returns, RuntimeStateRestorer.drop_phase_switch in *. cbn [map app] in *.
    rewrite !Forall_cons in Hc |- *. rewrite Forall_nil in Hc |- *.
    destruct Hc as ((x1 & [= <-] & H1) & (x2 & [= <-] & H2) & (x3 & [= <-] & H3) & (x4 & [= <-] & H4) & (x5 & [= <-] & H5) & _).
    split_and!; try done; by split; [done | eexists]. }
  destruct t; [destruct q|]; [by exists w | |]; apply Hdrop; auto.
Qed.

Lemma phase_restored names w :
  carried names w ->
  forallb (fun n => negb (str_in n ("requested_phase_selection" :: "supported_phase_selections" :: names)))
    (map fst (RuntimeStateRestorer.restore_phase_switch_attributes [] f0 P1 None None)) = true ->
  exists w', RuntimeStateRestorer.restore_phase_switch_runtime_state state now w = (Ok tt, w') /\
    carried (phase_names ++ names) w'.
Proof.
  intros Hw Hn. destruct saved_supported as (l & Hne & Hvs & Hss). destruct saved_requested as (p & Hvr & Hsr).
  destruct saved_pending as (q & Hvp & Hsp). destruct saved_switch_state as (t & Hvt & Hst & Ht).
  unfold RuntimeStateRestorer.restore_phase_switch_runtime_state. unfold mbind at 1, M_bind at 1, get. cbv zeta.
  rewrite (state_or_saved _ _ _ _ Hss), (state_or_saved _ _ _ _ Hsr), (state_or_saved _ _ _ _ Hsp), (state_or_saved _ _ _ _ Hst).
  rewrite (proj2 (supported_again l Hne)), Ht, optional_phase_again. unfold phase_selection.
  rewrite normalize_phase_text_default, !set_state_bind.
  destruct (carried_assign _ (RuntimeStateRestorer.restore_phase_switch_attributes state now p q t) _
    (carried_set _ _ _ _ Hvr (carried_set _ _ _ _ Hvs Hw))) as (w1 & Hrun & Hw1).
  - by apply phase_attributes_returns.
  - apply andb_true_iff. split; [reflexivity | exact Hn].
  - rewrite (bind_done _ _ _ _ _ Hrun). unfold phase_names. rewrite <- app_assoc. by apply phase_dropped.
Qed.

Definition basic_names : list string := map fst (removelast (RuntimeStateRestorer.restore_basic_runtime_state [])).
Definition learned_names : list string := map fst (RuntimeStateRestorer.restore_learned_charge_power_state [] f0).
Definition contactor_names : list string := map fst (RuntimeStateRestorer.restore_contactor_runtime_state [] f0).
Definition relay_names : list string := map fst (RuntimeStateRestorer.restore_relay_runtime_state [] f0).
Definition charger_names : list string := relay_names ++ contactor_names ++ phase_names ++ learned_names ++ basic_names.

Lemma basic_restored w :
  carried [] w ->
  exists w', assign_all (removelast (RuntimeStateRestorer.restore_basic_runtime_state state)) w = (Ok tt, w') /\
    carried basic_names w'.
Proof.
  intros Hw. destruct (carried_assign _ _ _ Hw basic_returns) as (w' & Hrun & Hw'); [reflexivity|]. exists w'. split; [exact Hrun|].
  by rewrite app_nil_r in Hw'.
Qed.

Lemma others_restored w :
  carried basic_names w ->
  exists w', carried charger_names w' /\ forall m : M service unit,
    (assign_all (RuntimeStateRestorer.restore_learned_charge_power_state state now);;
     RuntimeStateRestorer.restore_phase_switch_runtime_state state now;;
     assign_all (RuntimeStateRestorer.restore_contactor_runtime_state state now);;
     assign_all (RuntimeStateRestorer.restore_relay_runtime_state state now);; m) w = m w'.
Proof.
  intros Hw.
  destruct (carried_assign _ _ _ Hw learned_returns) as (w1 & Hrun1 & Hw1); [vm_compute; reflexivity|].
  change (carried (learned_names ++ basic_names) w1) in Hw1.
  destruct (phase_restored _ _ Hw1) as (w2 & Hrun2 & Hw2); [vm_compute; reflexivity|].
  destruct (carried_assign _ _ _ Hw2 contactor_returns) as (w3 & Hrun3 & Hw3); [vm_compute; reflexivity|].
  change (carried (contactor_names ++ phase_names ++ learned_names ++ basic_names) w3) in Hw3.
  destruct (carried_assign _ _ _ Hw3 relay_returns) as (w4 & Hrun4 & Hw4); [vm_compute; reflexivity|].
  exists w4. split; [exact Hw4|]. intros m.
  by rewrite (bind_done _ _ _ _ _ Hrun1), (bind_done _ _ _ _ _ Hrun2), (bind_done _ _ _ _ _ Hrun3), (bind_done _ _ _ _ _ Hrun4).
Qed.

End field.

Lemma assign_all_app l l' w : assign_all (l ++ l') w = (assign_all l;; assign_all l') w.
Proof.
  revert w. induction l as [|[name f] l IH]; intros w; [done|]. cbn [app assign_all]. unfold mbind, M_bind, reading in *.
  destruct (f w) as [x|e]; [|done]. exact (IH _).
Qed.

(** Another attribute is set in between. *)
Lemma carried_base v v0 names name x w :
  str_in name names = false -> carried v v0 names w -> carried v (<[name := x]> v0) names (<[name := x]> w).
Proof.
  intros Hn Hw k. destruct (String.eqb_spec k name) as [-> | Hk].
  - rewrite Hn. unfold service. by rewrite !(lookup_insert_eq (M := gmap string)).
  - specialize (Hw k). unfold service in *. by rewrite !(lookup_insert_ne (M := gmap string)).
Qed.

(** An attribute that is not of the table does not matter for its domains. *)
Lemma all_in_domain_other limit table name x (v : service) :
  str_in name (map fst table) = false -> all_in_domain limit table v -> all_in_domain limit table (<[name := x]> v).
Proof.
  unfold all_in_domain. rewrite !Forall_forall. intros Hn H nd Hin. destruct (H nd Hin) as (y & Hy & Hd). exists y.
  split; [|done]. rewrite <- Hy. apply (lookup_insert_ne (M := gmap string)). intros ->.
  apply (list_elem_of_fmap_2 fst), str_in_spec in Hin.
  change (str_in (fst nd) (map fst table) = true) in Hin. congruence.
Qed.

(** *** The snapshot of a valid state exists *)
Section defined.
Context (limit wall : float) (v : service).
Hypothesis Hwall : (limit <=? wall + f1)%F = true.
Hypothesis Hv : all_in_domain limit charger_domains v.

Lemma past_defined name : table_get name charger_domains = Some PastTime -> exists y, past_time wall name v = Ok y.
Proof.
  intros Hn. destruct (domain_lookup _ _ v name _ Hv Hn) as (x & Hx & Hd). unfold past_time, getattr. rewrite Hx.
  cbn [from_option id]. destruct x as [| | |x| | | | |]; try done; [by eexists|]. destruct Hd as [Hf Hl].
  rewrite (past_kept limit) by done. by eexists.
Qed.

Lemma float_defined name : table_get name charger_domains = Some OptionalFinite -> exists y, float_field name v = Ok y.
Proof.
  intros Hn. destruct (domain_lookup _ _ v name _ Hv Hn) as (x & Hx & Hd). unfold float_field, getattr. rewrite Hx.
  cbn [from_option id]. destruct x as [| | |x| | | | |]; try done; [by eexists|].
  unfold optional_float, coerce_runtime_float. rewrite finite_number by done. by eexists.
Qed.

Lemma dict_defined name keys : table_get name charger_domains = Some (Counts keys) -> exists y, dict_field name v = Ok y.
Proof.
  intros Hn. destruct (domain_lookup _ _ v name _ Hv Hn) as (x & Hx & Hd). unfold dict_field, getattr. rewrite Hx.
  destruct x; try done. by eexists.
Qed.

Lemma int_defined name d : table_get name charger_domains = Some d -> (d = AnyInt \/ d = Mode \/ d = Count) ->
  (exists y, int_of name v = Ok y) /\ exists y, int_or_zero name v = Ok y.
Proof.
  intros Hn Hk. destruct (domain_lookup _ _ v name _ Hv Hn) as (x & Hx & Hd). unfold int_of, int_or_zero, attribute, getattr.
  rewrite Hx. destruct Hk as [-> | [-> | ->]]; destruct x; try done; split; by eexists.
Qed.

Lemma raw_defined name d : table_get name charger_domains = Some d -> exists y, raw name v = Ok y.
Proof.
  intros Hn. destruct (domain_lookup _ _ v name _ Hv Hn) as (x & Hx & _). unfold raw, attribute. rewrite Hx. by eexists.
Qed.

Lemma fields_defined : exists d, payload (RuntimeStateSnapshotBuilder.own_fields wall) v = Ok d.
Proof.
  apply payload_defined. repeat (apply Forall_cons; split); try (by apply Forall_nil); cbn [snd];
    first [ by eexists | by apply past_defined | by apply float_defined | by eapply dict_defined
          | by eapply int_defined; [reflexivity | auto] | by eapply raw_defined | idtac ].
  - destruct (domain_lookup _ _ v "manual_override_until" _ Hv eq_refl) as (x & Hx & Hd). unfold attribute. rewrite Hx.
    destruct x; try done. by eexists.
  - destruct (domain_lookup _ _ v "_auto_mode_cutover_pending" _ Hv eq_refl) as (x & Hx & Hd). unfold attribute. rewrite Hx.
    by eexists.
Qed.

End defined.
