(* ===== verification/RestoreValid.v ===== *)
(** * Restoring any document leaves a valid state

    Whatever a state file holds, the attributes of the charger are in their domains afterwards. *)

From S2P Require Import Prelude PyFloat PyValue OrderedMap Contracts BackendModels EssSources EssProfiles EssLearningSafety StateSnapshot StateRestore StateSafety.
Import RuntimeStateNormalizer RuntimeStateRestorer.

Section valid.
Context (limit : float).

(** An assignment whose value is in the domain of its attribute, whatever it reads. *)
Definition assigns_domain (a : assignment) : Prop :=
  exists d, table_get (fst a) charger_domains = Some d /\ forall v x, snd a v = Ok x -> in_domain limit d x.

(** The attributes [names] are set and in their domains. *)
Definition valid_for (names : list string) (v : service) : Prop :=
  forall name, str_in name names = true -> exists d x, table_get name charger_domains = Some d /\ v !! name = Some x /\ in_domain limit d x.

Lemma valid_for_set names name d x v :
  table_get name charger_domains = Some d -> in_domain limit d x -> valid_for names v -> valid_for (name :: names) (<[name := x]> v).
Proof.
  intros Hn Hx Hv k. destruct (String.eqb_spec k name) as [-> | Hk].
  - intros _. exists d, x. split_and!; try done. apply (lookup_insert_eq (M := gmap string)).
  - unfold str_in. cbn [existsb]. apply String.eqb_neq in Hk as E. rewrite E. intros Hin. destruct (Hv k Hin) as (d' & x' & Ht & Hl & Hd).
    exists d', x'. split_and!; try done. rewrite <- Hl. by apply (lookup_insert_ne (M := gmap string)).
Qed.

Lemma assign_all_valid l v v' names :
  assign_all l v = (Ok tt, v') -> Forall assigns_domain l -> valid_for names v -> valid_for (rev (map fst l) ++ names) v'.
Proof.
  intros Hrun Hl. revert v names Hrun. induction Hl as [|[name f] l (d & Hn & Hf) _ IH]; intros v names Hrun Hv; [by injection Hrun as <-|].
  cbn [assign_all] in Hrun. unfold mbind, M_bind, reading in Hrun. destruct (f v) as [x|e] eqn:E; [|done].
  cbn [map rev fst]. rewrite <- app_assoc. apply (IH (<[name := x]> v)); [exact Hrun|]. eapply valid_for_set; eauto.
Qed.

(** *** The expressions *)

(** A text that is kept because it is a member of a list. *)
Ltac member := match goal with |- context [if str_in ?t ?l then _ else _] => destruct (str_in t l) eqn:Hmember; [exact Hmember | done] end.

Lemma coerced_finite v dflt x : isfinite dflt = true -> coerce_runtime_float v dflt = Ok x -> isfinite x = true.
Proof.
  unfold coerce_runtime_float. intros Hd (o & Ho & [= <-])%res_bind_ok. destruct o as [y|]; [|done].
  by apply finite_float_or_none_finite in Ho.
Qed.

Lemma optional_finite v o x : optional_float v = Ok o -> o = Some x -> isfinite x = true.
Proof.
  intros Ho ->. destruct v; [done|..]; apply res_bind_ok in Ho as (y & Hy & [= <-]); by apply (coerced_finite _ f0 _ eq_refl Hy).
Qed.

Lemma time_domain v now t : limit = (now + f1)%F -> optional_past_time v now = Ok t -> in_domain limit PastTime (val_of_float t).
Proof.
  intros ->. unfold optional_past_time. intros (o & Ho & [= <-])%res_bind_ok. destruct o as [x|]; [|done]. cbn [not_after].
  destruct (x >? now + f1)%F eqn:E; [done|]. cbn [val_of_float in_domain]. split; [by eapply optional_finite | exact E].
Qed.

Lemma optional_float_domain v o : optional_float v = Ok o -> in_domain limit OptionalFinite (val_of_float o).
Proof. intros Ho. destruct o as [x|]; [|done]. cbn. by eapply optional_finite. Qed.

Lemma non_negative_domain v o : non_negative_float_or_none v = Ok o -> in_domain limit NonNegative (val_of_float o).
Proof.
  unfold non_negative_float_or_none. intros (n & Hn & [= <-])%res_bind_ok. destruct n as [x|]; [|done].
  apply finite_float_or_none_finite in Hn. destruct (x <? f0)%F eqn:E; [done|]. by split.
Qed.

Lemma count_domain v n : non_negative_int v 0 = Ok n -> 0 <= n.
Proof.
  assert (forall r, catch (n ← r; mret (Z.max 0 n)) [TypeError; ValueError] (Ok 0) = Ok n -> 0 <= n) as H.
  { intros [m|e]; cbn; [intros [= <-]; lia|]. destruct (_ || _); intros [= <-]; lia. }
  unfold non_negative_int. destruct v; try (apply H); intros [= <-]; lia.
Qed.

Lemma mode_domain v n : normalize_mode v = Ok n -> n = 0 \/ n = 1 \/ n = 2.
Proof.
  unfold normalize_mode. destruct (py_int v) as [m|e]; cbn.
  - destruct (m =? 1) eqn:E1; [intros [= <-]; lia|]. destruct (m =? 2) eqn:E2; intros [= <-]; lia.
  - destruct (_ || _); [intros [= <-]; lia | done].
Qed.

Lemma learned_state_domain v : str_in (learned_charge_power_state v) LEARNED_CHARGE_POWER_STATES = true.
Proof.
  unfold learned_charge_power_state, normalize_learning_state. destruct v; try done; cbv zeta; by member.
Qed.

Lemma learned_phase_domain v : in_domain limit (OptionalOneof LEARNED_CHARGE_POWER_PHASES) (val_of_str (learned_charge_power_phase v)).
Proof. unfold learned_charge_power_phase, normalize_learning_phase. destruct v; try done; cbv zeta; by member. Qed.

Lemma phase_text_in p : str_in (phase_text p) phase_texts = true.
Proof. by destruct p. Qed.

Lemma phase_domain o : in_domain limit (OptionalOneof phase_texts) (val_of_phase o).
Proof. destruct o as [p|]; [apply phase_text_in | done]. Qed.

Lemma switch_state_domain v : in_domain limit (OptionalOneof switch_states) (val_of_str (phase_switch_state v)).
Proof. unfold phase_switch_state. destruct v; try done; cbv zeta; by member. Qed.

Lemma supported_domain v : in_domain limit Selections (VTuple (map (fun p => VStr (phase_text p)) (supported_phase_selections v))).
Proof.
  exists (supported_phase_selections v). split; [|done]. unfold supported_phase_selections, normalize_phase_selection_tuple.
  by destruct (normalized_phase_selection_values v).
Qed.

Lemma reason_domain v : in_domain limit (OptionalOneof contactor_fault_reasons) (val_of_str (normalized_contactor_fault_reason v)).
Proof. destruct v as [| | | |t| | | |]; try done. unfold normalized_contactor_fault_reason. cbv zeta.
  by member.
Qed.

(** *** Counters *)

Definition texts (d : dict) : list string := map (fun kv => py_str (fst kv)) d.

Lemma dict_set_texts k key x d : Forall (fun kv => is_text_key kv = true) d ->
  str_in k (texts (dict_set key x d)) = (k =? key)%string || str_in k (texts d).
Proof.
  induction 1 as [|[k' y] d Hk _ IH]; [done|]. destruct k' as [| | | |k'| | | |]; try done. cbn [dict_set].
  destruct (k' =? key)%string eqn:E; unfold texts, str_in in *; cbn [map existsb fst py_str].
  - apply String.eqb_eq in E as ->. by destruct (k =? key)%string.
  - rewrite IH. by destruct (k =? k')%string, (k =? key)%string.
Qed.

Lemma dict_set_distinct key x d : Forall (fun kv => is_text_key kv = true) d ->
  distinct (texts d) = true -> distinct (texts (dict_set key x d)) = true.
Proof.
  induction 1 as [|[k y] d Hk Hall IH]; [done|]. destruct k as [| | | |k| | | |]; try done. unfold texts at 1. cbn [map distinct fst py_str].
  rewrite andb_true_iff, negb_true_iff. intros [Hin Hd]. cbn [dict_set]. destruct (k =? key)%string eqn:E.
  - apply String.eqb_eq in E as ->. unfold texts. cbn [map distinct fst py_str]. apply andb_true_iff. by rewrite negb_true_iff.
  - unfold texts at 1. cbn [map distinct fst py_str]. apply andb_true_iff. rewrite negb_true_iff. split; [|by apply IH].
    change (str_in k (texts (dict_set key x d)) = false). rewrite dict_set_texts by done. by rewrite E.
Qed.

Lemma dict_set_counters keys key n d : counters keys d -> str_in key keys = true -> 0 <= n -> counters keys (dict_set key (VInt n) d).
Proof.
  intros [Hd Hall] Hkey Hn. split.
  - apply dict_set_distinct; [|done]. eapply Forall_impl; [exact Hall|]. by intros kv (k & m & -> & _).
  - apply Forall_dict_set; [done|]. by exists key, n.
Qed.

Lemma counts_domain keys keep raw acc d :
  (forall v key, keep v = Some key -> str_in key keys = true) -> counters keys acc -> normalized_counts keep raw acc = Ok d ->
  counters keys d.
Proof.
  intros Hkeep. revert acc. induction raw as [|[k x] raw IH]; intros acc Hacc; cbn [normalized_counts]; [by intros [= <-]|].
  destruct (keep k) as [key|] eqn:E; [|by apply IH]. intros (n & Hn & H)%res_bind_ok. apply count_domain in Hn.
  revert H. apply IH. apply dict_set_counters; eauto.
Qed.

Lemma counters_nil keys : counters keys [].
Proof. by repeat constructor. Qed.

Lemma mismatch_counts_domain v p x : normalized_phase_switch_mismatch_counts v p = Ok x -> in_domain limit (Counts phase_texts) x.
Proof.
  unfold normalized_phase_switch_mismatch_counts. destruct v as [| | | | | | |d|]; try (intros [= <-]; apply counters_nil).
  intros (c & Hc & [= <-])%res_bind_ok. eapply counts_domain; [|apply counters_nil|exact Hc]. intros k key [= <-]. apply phase_text_in.
Qed.

Lemma fault_counts_domain v x : normalized_contactor_fault_counts v = Ok x -> in_domain limit (Counts contactor_fault_reasons) x.
Proof.
  unfold normalized_contactor_fault_counts. destruct v as [| | | | | | |d|]; try (intros [= <-]; apply counters_nil).
  intros (c & Hc & [= <-])%res_bind_ok. eapply counts_domain; [|apply counters_nil|exact Hc]. intros k key.
  cbv beta zeta.
  match goal with |- (if ?b then _ else _) = _ -> _ => destruct b eqn:E end; [by intros [= <-] | done].
Qed.

(** *** The blocks *)
Context (state : dict) (now : float).
Hypothesis Hlimit : limit = (now + f1)%F.

Lemma time_assigns key name : table_get name charger_domains = Some PastTime -> assigns_domain (restored_time state now key name).
Proof.
  intros Hn. exists PastTime. split; [done|]. intros v x. cbn [restored_time snd]. intros (t & Ht & [= <-])%res_bind_ok.
  exact (time_domain _ _ _ Hlimit Ht).
Qed.

Lemma float_assigns key name : table_get name charger_domains = Some NonNegative -> assigns_domain (restored_float state key name).
Proof.
  intros Hn. exists NonNegative. split; [done|]. intros v x. cbn [restored_float snd]. intros (t & Ht & [= <-])%res_bind_ok.
  by eapply non_negative_domain.
Qed.

Lemma count_assigns key name : table_get name charger_domains = Some Count -> assigns_domain (restored_count state key name).
Proof.
  intros Hn. exists Count. split; [done|]. intros v x. cbn [restored_count snd]. intros (t & Ht & [= <-])%res_bind_ok.
  by eapply count_domain.
Qed.

Lemma optional_float_assigns key name :
  table_get name charger_domains = Some OptionalFinite -> assigns_domain (restored_optional_float state key name).
Proof.
  intros Hn. exists OptionalFinite. split; [done|]. intros v x. cbn [restored_optional_float snd].
  intros (t & Ht & [= <-])%res_bind_ok. by eapply optional_float_domain.
Qed.

Lemma phase_assigns requested key name :
  table_get name charger_domains = Some (OptionalOneof phase_texts) -> assigns_domain (restored_phase state requested key name).
Proof. intros Hn. exists (OptionalOneof phase_texts). split; [done|]. intros v x [= <-]. apply phase_domain. Qed.

Lemma text_assigns key name : table_get name charger_domains = Some Text -> assigns_domain (restored_text state key name).
Proof. intros Hn. exists Text. split; [done|]. by intros v x [= <-]. Qed.

Lemma int_assigns key name : table_get name charger_domains = Some AnyInt -> assigns_domain (restored_int state key name).
Proof.
  intros Hn. exists AnyInt. split; [done|]. intros v x. cbn [restored_int snd].
  by intros (a & _ & (b & _ & (n & _ & [= <-])%res_bind_ok)%res_bind_ok)%res_bind_ok.
Qed.

Lemma basic_assigns : Forall assigns_domain (removelast (restore_basic_runtime_state state)).
Proof.
  repeat (apply Forall_cons; split); [ | by apply int_assigns.. | | | by apply Forall_nil].
  - exists Mode. split; [done|]. intros v x. cbn [snd]. intros (a & _ & (n & Hn & [= <-])%res_bind_ok)%res_bind_ok. by eapply mode_domain.
  - exists Finite. split; [done|]. intros v x. cbn [snd].
    intros (a & _ & (b & Hb & (y & Hy & [= <-])%res_bind_ok)%res_bind_ok)%res_bind_ok. apply coerced_finite in Hb; [|done].
    by apply coerced_finite in Hy.
  - exists Flag. split; [done|]. intros v x. cbn [snd]. by intros (a & _ & (n & _ & [= <-])%res_bind_ok)%res_bind_ok.
Qed.

Lemma learned_assigns : Forall assigns_domain (restore_learned_charge_power_state state now).
Proof.
  repeat (apply Forall_cons; split);
    first [ by apply float_assigns | by apply time_assigns | by apply count_assigns | by apply Forall_nil | idtac ].
  - exists (Oneof LEARNED_CHARGE_POWER_STATES). split; [done|]. intros v x [= <-]. apply learned_state_domain.
  - exists (OptionalOneof LEARNED_CHARGE_POWER_PHASES). split; [done|]. intros v x [= <-]. apply learned_phase_domain.
Qed.

Lemma switch_assigns requested pending_selection switch_state :
  in_domain limit (OptionalOneof switch_states) (val_of_str switch_state) ->
  Forall assigns_domain (restore_phase_switch_attributes state now requested pending_selection switch_state).
Proof.
  intros Hs. repeat (apply Forall_cons; split);
    first [ by apply time_assigns | by apply optional_float_assigns | by apply phase_assigns | by apply text_assigns
          | by apply Forall_nil | idtac ].
  - exists (Oneof phase_texts). split; [done|]. intros v x [= <-]. apply phase_text_in.
  - exists (OptionalOneof phase_texts). split; [done|]. intros v x [= <-]. apply phase_domain.
  - exists (OptionalOneof switch_states). split; [done|]. by intros v x [= <-].
  - exists Flag. split; [done|]. intros v x. cbn [snd]. by intros (n & _ & [= <-])%res_bind_ok.
  - exists (Counts phase_texts). split; [done|]. intros v x. apply mismatch_counts_domain.
Qed.

Lemma drop_assigns : Forall assigns_domain drop_phase_switch.
Proof.
  repeat (apply Forall_cons; split); [ | | | | | by apply Forall_nil]; eexists; (split; [reflexivity|]); by intros v x [= <-].
Qed.

Lemma contactor_assigns : Forall assigns_domain (restore_contactor_runtime_state state now).
Proof.
  repeat (apply Forall_cons; split); first [ by apply time_assigns | by apply text_assigns | by apply Forall_nil | idtac ].
  - exists (Counts contactor_fault_reasons). split; [done|]. intros v x. apply fault_counts_domain.
  - exists (OptionalOneof contactor_fault_reasons). split; [done|]. intros v x [= <-]. apply reason_domain.
  - exists (Oneof ("" :: contactor_fault_reasons)). split; [done|]. intros v x [= <-]. cbn [in_domain].
    match goal with |- str_in (default "" ?o) _ = true => pose proof (reason_domain (match o with _ =>
      state_or state "contactor_lockout_reason" "_contactor_lockout_reason" v end)) as H; destruct o as [t|] eqn:E end; [|done].
    cbn [val_of_str in_domain from_option id] in *. unfold str_in in *. cbn [existsb]. by rewrite H, orb_true_r.
Qed.

Lemma relay_assigns : Forall assigns_domain (restore_relay_runtime_state state now).
Proof.
  repeat (apply Forall_cons; split); [ | | by apply Forall_nil]; (exists PastTime; split; [reflexivity|]); intros v x; cbn [snd];
    intros (a & _ & (t & Ht & [= <-])%res_bind_ok)%res_bind_ok; exact (time_domain _ _ _ Hlimit Ht).
Qed.

(** *** Composition *)

Lemma assign_all_other l v r v' name :
  assign_all l v = (r, v') -> str_in name (map fst l) = false -> v' !! name = v !! name.
Proof.
  revert v. induction l as [|[n f] l IH]; intros v Hrun Hn; [by injection Hrun as <- <-|]. cbn [assign_all] in Hrun.
  unfold mbind, M_bind, reading in Hrun. unfold str_in in Hn. cbn [map existsb fst] in Hn. apply orb_false_iff in Hn as [Hne Hn].
  destruct (f v) as [x|e]; [|by injection Hrun as <- <-]. rewrite (IH _ Hrun Hn). apply (lookup_insert_ne (M := gmap string)).
  intros ->. by rewrite String.eqb_refl in Hne.
Qed.

(** What makes [switch_complete]: the five attributes of a pending switch. *)
Definition switch_names : list string := map fst drop_phase_switch.

Lemma switch_complete_agree v v' :
  (forall name, str_in name switch_names = true -> v' !! name = v !! name) -> switch_complete v -> switch_complete v'.
Proof.
  intros Hag Hv. unfold switch_complete. rewrite !Hag by reflexivity. intros Hnone. specialize (Hv Hnone).
  rewrite Forall_forall in Hv |- *. intros a Ha. destruct (Hv a Ha) as (x & Hx & Hl). exists x. split.
  - rewrite <- Hx. clear -Ha. unfold drop_phase_switch in Ha. cbn [map app] in Ha.
    repeat (apply elem_of_cons in Ha as [-> | Ha]; [done|]). by apply elem_of_nil in Ha.
  - rewrite Hag; [done|]. apply str_in_spec. by apply list_elem_of_fmap_2.
Qed.

Lemma dropped_complete v v' : assign_all drop_phase_switch v = (Ok tt, v') -> switch_complete v'.
Proof.
  intros Hrun _. cbn in Hrun. injection Hrun as <-. unfold drop_phase_switch. cbn [map app].
  repeat (apply Forall_cons; split); try (by apply Forall_nil); (eexists; split; [reflexivity|]); cbn [fst]; unfold service;
    repeat first [ rewrite (lookup_insert_eq (M := gmap string)); reflexivity | rewrite (lookup_insert_ne (M := gmap string)) by done ].
Qed.

Lemma switch_set_complete requested pending_selection switch_state v v' :
  assign_all (restore_phase_switch_attributes state now requested (Some pending_selection) (Some switch_state)) v = (Ok tt, v') ->
  switch_complete v'.
Proof.
  intros Hrun. unfold restore_phase_switch_attributes in Hrun.
  match type of Hrun with assign_all ?l v = _ => change l with (take 1 l ++ take 2 (drop 1 l) ++ drop 3 l) in Hrun end.
  rewrite assign_all_app in Hrun. apply run_ok in Hrun as (u1 & w1 & _ & Hrun). rewrite assign_all_app in Hrun.
  apply run_ok in Hrun as (u2 & w2 & Hset & Hrun). cbn in Hset. injection Hset as _ <-.
  intros [H|H]; rewrite (assign_all_other _ _ _ _ _ Hrun) in H by (vm_compute; reflexivity); unfold service in H;
    repeat first [ rewrite (lookup_insert_eq (M := gmap string)) in H | rewrite (lookup_insert_ne (M := gmap string)) in H by done ];
    discriminate H.
Qed.

Lemma phase_valid names v v' :
  restore_phase_switch_runtime_state state now v = (Ok tt, v') -> valid_for names v ->
  switch_complete v' /\
  valid_for (rev (map fst (restore_phase_switch_attributes [] f0 P1 None None)) ++
    "requested_phase_selection" :: "supported_phase_selections" :: names) v'.
Proof.
  intros Hrun Hv. unfold restore_phase_switch_runtime_state in Hrun. unfold mbind at 1, M_bind at 1, get in Hrun. cbv zeta in Hrun.
  rewrite !set_state_bind in Hrun. apply run_ok in Hrun as ([] & w & Hset & Hrun).
  match type of Hset with assign_all ?l ?u = _ => pose proof (assign_all_valid l u w
    ("requested_phase_selection" :: "supported_phase_selections" :: names) Hset) as Hw end.
  assert (valid_for (rev (map fst (restore_phase_switch_attributes [] f0 P1 None None)) ++
    "requested_phase_selection" :: "supported_phase_selections" :: names) w) as Hw'.
  { apply Hw; [apply switch_assigns, switch_state_domain|].
    apply (valid_for_set _ _ (Oneof phase_texts)); [done | apply phase_text_in|].
    by apply (valid_for_set _ _ Selections); [done | apply supported_domain|]. }
  assert (forall u, assign_all drop_phase_switch w = (Ok tt, u) -> switch_complete u /\
    valid_for (rev (map fst (restore_phase_switch_attributes [] f0 P1 None None)) ++
      "requested_phase_selection" :: "supported_phase_selections" :: names) u) as Hdrop.
  { intros u Hu. split; [by eapply dropped_complete|]. pose proof (assign_all_valid _ _ _ _ Hu drop_assigns Hw') as Hall.
    intros name Hn. apply Hall. rewrite str_in_app. rewrite Hn. apply orb_true_r. }
  clear Hw. destruct (phase_switch_state _) as [t|]; [|by apply Hdrop]. destruct (optional_phase_selection _ _) as [q|]; [|by apply Hdrop].
  injection Hrun as <-. split; [by eapply switch_set_complete | done].
Qed.

(** *** The Victron payloads write none of these attributes *)

Definition agrees (names : list string) (v v' : service) : Prop := forall name, str_in name names = true -> v' !! name = v !! name.

#[local] Instance agrees_preorder names : PreOrder (agrees names).
Proof. split; unfold agrees; [done|]. intros v1 v2 v3 H1 H2 name Hn. by rewrite H2, H1. Qed.

Definition apart (names others : list string) : bool := forallb (fun n => negb (str_in n names)) others.

Lemma apart_other names others name : apart names others = true -> str_in name names = true -> str_in name others = false.
Proof.
  unfold apart. rewrite forallb_forall. intros H Hn. destruct (str_in name others) eqn:E; [|done].
  apply str_in_spec, list_elem_of_In, H in E. by rewrite Hn in E.
Qed.

Lemma assign_all_agrees names l : apart names (map fst l) = true -> keeps (agrees names) (assign_all l).
Proof.
  intros Hl v name Hn. destruct (assign_all l v) as [r v'] eqn:E. cbn. eapply assign_all_other; [exact E|]. by eapply apart_other.
Qed.

Lemma set_state_agrees names name x : str_in name names = false -> keeps (agrees names) (set_state name x).
Proof. intros Hn v k Hk. apply (lookup_insert_ne (M := gmap string)). congruence. Qed.

Lemma reading_agrees {A} names (f : service -> res A) : keeps (agrees names) (reading f).
Proof. by intros v. Qed.

Lemma victron_agrees sources :
  keeps (agrees (map fst charger_domains)) (VictronEssRuntimeRestorer.restore_runtime_state sources state).
Proof.
  unfold VictronEssRuntimeRestorer.restore_runtime_state, VictronEssRuntimeRestorer.restore_victron_ess_balance_learning_state_payload,
    VictronEssRuntimeRestorer.restore_victron_ess_balance_adaptive_tuning_payload.
  keeps_go ltac:(first [ apply reading_agrees | apply set_state_agrees; vm_compute; reflexivity
    | apply assign_all_agrees; vm_compute; reflexivity ]).
Qed.

Lemma table_own nd : nd ∈ charger_domains -> table_get (fst nd) charger_domains = Some (snd nd).
Proof.
  intros Hin. unfold charger_domains in Hin. repeat (apply elem_of_cons in Hin as [-> | Hin]; [reflexivity|]).
  by apply elem_of_nil in Hin.
Qed.

Lemma valid_for_all names v : forallb (fun nd => str_in (fst nd) names) charger_domains = true ->
  valid_for names v -> all_in_domain limit charger_domains v.
Proof.
  rewrite forallb_forall. intros Hn Hv. apply Forall_forall. intros nd Hin. pose proof Hin as Ht.
  apply list_elem_of_In, Hn, Hv in Hin as (d & x & Hd & Hx & Hdx). rewrite (table_own _ Ht) in Hd. injection Hd as <-. by exists x.
Qed.

Lemma basic_valid v v' : assign_all (restore_basic_runtime_state state) v = (Ok tt, v') -> valid_for basic_names v'.
Proof.
  change (restore_basic_runtime_state state) with
    (removelast (restore_basic_runtime_state state) ++ [("_ignore_min_offtime_once", fun _ => Ok (VBool false))]).
  rewrite assign_all_app. intros ([] & w & Hbasic & Hset)%run_ok. cbn in Hset. injection Hset as <-.
  assert (valid_for [] v) as Hv by done. pose proof (assign_all_valid _ _ _ _ Hbasic basic_assigns Hv) as Hw.
  intros name Hn. assert (str_in name (rev (map fst (removelast (restore_basic_runtime_state state))) ++ []) = true) as Hn'.
  { rewrite app_nil_r. apply str_in_spec, list_elem_of_In. apply in_rev. rewrite rev_involutive.
    by apply list_elem_of_In, str_in_spec. }
  destruct (Hw name Hn') as (d & x & Hd & Hx & Hin). exists d, x. split_and!; try done. rewrite <- Hx.
  apply (lookup_insert_ne (M := gmap string)). intros <-. vm_compute in Hn. discriminate.
Qed.

Lemma charger_valid_agrees v v' : agrees (map fst charger_domains) v v' -> charger_valid limit v -> charger_valid limit v'.
Proof.
  intros Hag [Hv Hs]. split.
  - unfold all_in_domain in *. rewrite Forall_forall in Hv |- *. intros nd Hin. destruct (Hv nd Hin) as (x & Hx & Hd). exists x.
    split; [|done]. rewrite <- Hx. apply Hag, str_in_spec. by apply list_elem_of_fmap_2.
  - eapply switch_complete_agree; [|exact Hs]. intros name Hn. apply Hag. clear -Hn. one_of Hn.
Qed.

Lemma restore_valid sources v v' :
  restore sources state now v = (Ok tt, v') -> charger_valid limit v'.
Proof.
  unfold restore. intros ([] & v1 & Hbasic%basic_valid & H)%run_ok.
  apply run_ok in H as ([] & v2 & Hlearned & H). apply run_ok in H as ([] & v3 & Hphase & H).
  apply run_ok in H as ([] & v4 & Hcontactor & H). apply run_ok in H as ([] & v5 & Hrelay & Hvictron).
  pose proof (victron_agrees sources v5) as Hag. rewrite Hvictron in Hag. apply (charger_valid_agrees _ _ Hag).
  pose proof (assign_all_valid _ _ _ _ Hlearned learned_assigns Hbasic) as H2.
  destruct (phase_valid _ _ _ Hphase H2) as [Hswitch H3].
  pose proof (assign_all_agrees switch_names (restore_contactor_runtime_state state now) eq_refl v3) as Hs4. rewrite Hcontactor in Hs4.
  pose proof (assign_all_agrees switch_names (restore_relay_runtime_state state now) eq_refl v4) as Hs5. rewrite Hrelay in Hs5.
  pose proof (assign_all_valid _ _ _ _ Hcontactor contactor_assigns H3) as H4.
  pose proof (assign_all_valid _ _ _ _ Hrelay relay_assigns H4) as H5. split.
  - eapply valid_for_all; [|exact H5]. vm_compute. reflexivity.
  - eapply switch_complete_agree; [|exact Hswitch]. intros name Hn. transitivity (v4 !! name); [exact (Hs5 name Hn) | exact (Hs4 name Hn)].
Qed.

End valid.

(** C8. Whatever a state file holds, a restore that completes leaves every persisted attribute of the charger in its
    domain: the mode is one of the three; autostart, enable and start/stop are integers; every time of a past event is
    absent or finite and at most a second ahead of the clock, while the three deadlines (the manual override, the end
    of the stabilisation, the end of the phase-switch lockout) are finite, the last two or absent; counters are not
    negative, learned power and voltage finite and not negative or absent; the phase selections, the state of the
    learned power, the state of the phase switch and the contactor's fault and lockout reasons are known ones, while
    the reason of a phase-switch lockout and the source of a contactor lockout are any texts; and a phase switch has
    both a selection and a state, or is dropped with all of its fields. *)
Theorem restored_state_is_valid sources state now v v' :
  restore sources state now v = (Ok tt, v') -> charger_valid (now + f1)%F v'.
Proof. by apply restore_valid. Qed.

(** ** A broken state file *)
Section broken.

(** A service that has just started. *)
Definition started_service : service :=
  list_to_map [("virtual_mode", VInt 0); ("virtual_autostart", VInt 1); ("virtual_enable", VInt 1); ("virtual_startstop", VInt 0);
    ("manual_override_until", VFloat f0); ("_auto_mode_cutover_pending", VBool false); ("relay_last_changed_at", VNone);
    ("relay_last_off_at", VNone)].

(** Values of wrong types, a time in the future, half a phase switch. *)
Definition broken_document : dict :=
  [(VStr "mode", VStr "seven"); (VStr "autostart", VList []); (VStr "relay_last_changed_at", VInt 9000);
   (VStr "phase_switch_state", VStr "Stabilizing "); (VStr "phase_switch_mismatch_counts", VDict [(VStr "3P", VInt (-4)); (VInt 1, VNone)]);
   (VStr "contactor_lockout_reason", VStr "unknown"); (VStr "supported_phase_selections", VStr "P1,3P")].

Lemma restored_state_is_valid_witness :
  let r := restore None broken_document (f_of_Z 1000) started_service in
  fst r = Ok tt /\
  map (fun name => snd r !! name) ["virtual_mode"; "relay_last_changed_at"; "_phase_switch_state"; "supported_phase_selections";
    "_phase_switch_mismatch_counts"; "_contactor_lockout_reason"] =
  [Some (VInt 0); Some VNone; Some VNone; Some (VTuple [VStr "P1"; VStr "P1_P2_P3"]);
   Some (VDict [(VStr "P1_P2_P3", VInt 0); (VStr "P1", VInt 0)]); Some (VStr "")] /\
  charger_valid (f_of_Z 1000 + f1)%F (snd r).
Proof.
  cbv zeta. assert (fst (restore None broken_document (f_of_Z 1000) started_service) = Ok tt) as Hf by (vm_compute; reflexivity).
  split; [exact Hf|]. split; [vm_compute; reflexivity|].
  apply (restored_state_is_valid None broken_document (f_of_Z 1000) started_service). rewrite <- Hf. apply surjective_pairing.
Defined.

(** A number that JSON reads as infinite stops the restore: [int] of it raises an exception that
    [coerce_runtime_int] does not expect. *)
Lemma infinite_number_stops_restore :
  fst (restore None [(VStr "autostart", VFloat (S754_infinity false))] (f_of_Z 1000) started_service) = Err OverflowError.
Proof. vm_compute. reflexivity. Qed.

End broken.
