(* ===== verification/RestartSafety.v ===== *)
(** * What a restart keeps

    The saved document of a running service brings a fresh service of the same topology into the
    same state: the charger's attributes, the tuning of the ESS balance, and every learned profile.
    A restart after an arbitrary document leaves every attribute in its domain. *)

From S2P Require Import Prelude PyFloat PyValue OrderedMap Contracts BackendModels EssSources EssProfiles EssLearningSafety StateSnapshot StateRestore StateSafety.
Import RuntimeStateNormalizer.

(** ** Text that [strip] leaves alone *)

Definition solid (t : string) : Prop := py_strip t = t /\ t <> "".

Lemma solid_rstrip t : py_strip t = t -> py_rstrip t = t.
Proof. unfold py_strip. intros <-. apply py_rstrip_idem. Qed.

Lemma rstrip_app a b : py_rstrip b = b -> b <> "" -> py_rstrip (a ++ b) = (a ++ b)%string.
Proof.
  intros Hb Hne. induction a as [|c a IH]; [exact Hb|].
  change (py_rstrip (String c (a ++ b)) = String c (a ++ b)). cbn [py_rstrip]. rewrite IH.
  destruct (a ++ b)%string as [|d r] eqn:E; [|done]. by destruct a.
Qed.

Lemma strip_head c t : py_space c = false -> py_rstrip (String c t) = String c t -> py_strip (String c t) = String c t.
Proof. intros Hc Ht. unfold py_strip. cbn [py_lstrip]. by rewrite Hc. Qed.

Lemma app_not_empty a b : b <> "" -> (a ++ b)%string <> "".
Proof. by destruct a. Qed.

Lemma join_solid sep l x : Forall solid (x :: l) -> py_rstrip (join sep (x :: l)) = join sep (x :: l) /\ join sep (x :: l) <> "".
Proof.
  unfold join. intros [[Hx Hne] Hl]%Forall_cons. apply solid_rstrip in Hx. revert x Hx Hne.
  induction l as [|y l IH]; intros x Hx Hne; [done|]. apply Forall_cons in Hl as [[Hy Hy'] Hl]. apply solid_rstrip in Hy. cbn.
  apply IH; [done | |].
  - rewrite <- app_assoc_text. by apply rstrip_app.
  - rewrite <- app_assoc_text. by apply app_not_empty.
Qed.

Lemma Forall_sort_by {A} (P : A -> Prop) lt l : Forall P l -> Forall P (sort_by lt l).
Proof.
  intros Hl. unfold sort_by. assert (forall acc, Forall P acc -> Forall P (fold_left (fun acc x => insert_by lt x acc) l acc)) as H.
  { induction Hl as [|x l Hx _ IH]; intros acc Hacc; [done|]. cbn. apply IH. clear IH.
    induction Hacc as [|y acc Hy Hacc IH]; cbn; [by repeat constructor|]. destruct (lt x y); repeat constructor; done. }
  by apply H.
Qed.

Import VictronEssLearningProfiles.

Lemma strip_solid t : py_strip t <> "" -> solid (py_strip t).
Proof. intros H. split; [apply py_strip_idem | done]. Qed.

Lemma energy_ids_solid (l : list string) :
  Forall solid (sort_by String.ltb (remove_dups (List.filter (fun id => negb (id =? "")%string) (map py_strip l)))).
Proof.
  apply Forall_sort_by, Forall_forall. intros t. rewrite elem_of_remove_dups. intros [Ht Hne]%list_elem_of_In%filter_In.
  apply in_map_iff in Ht as (t' & <- & _). apply strip_solid. intros E. by rewrite E in Hne.
Qed.

Lemma topology_key_solid id ids : py_strip (ess_learning_topology_key id ids) = ess_learning_topology_key id ids.
Proof.
  unfold ess_learning_topology_key. cbv zeta.
  change ("victron-bias-learning/v3/source=" ++ ?t)%string with (String "v" ("ictron-bias-learning/v3/source=" ++ t)).
  apply strip_head; [done|].
  assert (forall a : string, String "v" ("ictron-bias-learning/v3/source=" ++ a) = ("victron-bias-learning/v3/source=" ++ a)%string)
    as Hv by done. rewrite Hv.
  pose proof (energy_ids_solid ids) as H. destruct (sort_by _ _) as [|x l].
  - cbn [join]. rewrite app_nil_text, <- !app_assoc_text. by apply rstrip_app.
  - apply join_solid with (sep := ",") in H as [Hr Hne]. rewrite <- !app_assoc_text. by apply rstrip_app.
Qed.

(** ** One learned profile *)

(** A profile the state file can hold: well typed, its numbers finite and not negative, its phases
    named, and no field under a name of the snapshot only. *)
Definition number_savable (v : pyval) : Prop := match v with VFloat x => positive_float x | _ => True end.
Definition phase_fields : list string := ["ev_phase"; "pv_phase"; "battery_limit_phase"].
Definition snapshot_only : list string := ["sample_count"; "typical_response_delay_seconds"; "effective_gain"].

Definition profile_savable (key : string) (p : dict) : Prop :=
  profile_typed key p /\ (forall name v, dict_find name p = Some v -> number_savable v) /\
  (forall name, str_in name phase_fields = true -> dict_find name p <> Some (VStr "")) /\
  (forall name, str_in name snapshot_only = true -> dict_find name p = None).

Lemma find_text_keys name d : dict_find name (List.filter is_text_key d) = dict_find name d.
Proof.
  unfold dict_find. induction d as [|[k v] d IH]; [done|]. cbn. destruct k as [| | | |k| | | |]; cbn; try exact IH.
  destruct (k =? name)%string; [done | exact IH].
Qed.

Lemma text_keys_all d : forallb is_text_key d = true -> List.filter is_text_key d = d.
Proof.
  induction d as [|kv d IH]; [done|]. cbn. rewrite andb_true_iff. intros [Hk Hd]. rewrite Hk. by rewrite IH.
Qed.

Lemma payload_text_keys {A} (l : list (string * (A -> res pyval))) v d : payload l v = Ok d -> forallb is_text_key d = true.
Proof.
  intros H. apply payload_keys in H. apply forallb_forall. intros [k x] Hin. apply (in_map fst) in Hin. rewrite H in Hin.
  apply in_map_iff in Hin as (kf & Hk & _).
  unfold is_text_key. by rewrite <- Hk.
Qed.

(** Fields whose values are those of [p]. *)
Lemma payload_same {A} (l : list (string * (A -> res pyval))) a (p : dict) :
  Forall (fun kf => exists x, dict_find (fst kf) p = Some x /\ snd kf a = Ok x) l ->
  exists d, payload l a = Ok d /\ forall name, str_in name (map fst l) = true -> dict_find name d = dict_find name p.
Proof.
  intros H. destruct (payload_defined l a) as [d Hd].
  { eapply Forall_impl; [exact H|]. intros kf (x & _ & Hx). by exists x. }
  exists d. split; [done|]. intros name Hn. apply table_get_is_some in Hn as [f Hf].
  destruct (payload_find _ _ _ _ _ Hd Hf) as (x & Hx & ->). apply table_get_elem in Hf. rewrite Forall_forall in H.
  destruct (H _ Hf) as (y & Hy & Hfy). cbn [fst snd] in *. rewrite Hy. congruence.
Qed.

Section profile.
Context (key : string) (p : dict).
Hypothesis Hp : profile_savable key p.

Lemma field_value name kind : table_get name profile_schema = Some kind ->
  exists x, dict_find name p = Some x /\ kind_typed key kind x /\ number_savable x.
Proof. intros Hn. destruct Hp as (Hok & Hs & _). destruct (Hok _ _ Hn) as (x & Hx & Hk). eauto. Qed.

(** The snapshot reads the texts, the counters and the numbers back as they are. *)
Lemma text_field name : is_text_field name = true -> exists part, table_get name profile_schema = Some (IsText part).
Proof. unfold is_text_field. destruct (table_get name _) as [[]|]; try done. by eexists. Qed.

Lemma snapshot_text name : is_text_field name = true -> name <> "key" ->
  exists x, dict_find name p = Some x /\ snd (text_of name) (string_key_items (VDict p)) = Ok x.
Proof.
  intros [part Hn]%text_field _. destruct (field_value _ _ Hn) as (x & Hx & Hk & _). exists x. split; [done|]. destruct x as [| | | |t| | | |]; try done.
  cbn [text_of snd string_key_items]. unfold victron_ess_balance_runtime_profile_text, dict_get. rewrite find_text_keys, Hx.
  cbn [from_option id]. unfold py_str_or. cbn. by destruct t.
Qed.

Lemma snapshot_count name : table_get name profile_schema = Some IsCounter ->
  exists x, dict_find name p = Some x /\ snd (count_of name) (string_key_items (VDict p)) = Ok x.
Proof.
  intros Hn. destruct (field_value _ _ Hn) as (x & Hx & Hk & _). exists x. split; [done|]. destruct x as [| |n| | | | | |]; try done.
  cbn [count_of snd string_key_items]. unfold dict_get. rewrite find_text_keys, Hx. cbn in Hk |- *. by rewrite Z.max_r.
Qed.

Lemma snapshot_number name kind : table_get name profile_schema = Some kind -> kind = IsNumber \/ kind = IsScore ->
  exists x, dict_find name p = Some x /\ snd (metric_of name) (string_key_items (VDict p)) = Ok x.
Proof.
  intros Hn Hkind. destruct (field_value _ _ Hn) as (x & Hx & Hk & Hs). exists x. split; [done|].
  cbn [metric_of snd string_key_items]. unfold victron_ess_balance_runtime_profile_metric, dict_get. rewrite find_text_keys, Hx.
  cbn [from_option id]. destruct Hkind as [-> | ->]; destruct x as [| | |x| | | | |]; try done; destruct Hs as [Hf _];
    by rewrite finite_number.
Qed.

(** The fields of a snapshot that are fields of a profile. *)
Definition stored_fields : profile_fields :=
  victron_ess_balance_runtime_profile_identity key ++ tl victron_ess_balance_runtime_profile_counts ++
  victron_ess_balance_runtime_profile_response_metrics ++ drop 2 victron_ess_balance_runtime_profile_learning_metrics ++
  victron_ess_balance_runtime_profile_limit_metrics.

Lemma stored_fields_same :
  Forall (fun kf => exists x, dict_find (fst kf) p = Some x /\ snd kf (string_key_items (VDict p)) = Ok x) stored_fields.
Proof.
  repeat (apply Forall_cons; split); try (by apply Forall_nil); cbn [fst];
    first [ by apply snapshot_text | by apply snapshot_count | by eapply snapshot_number; [reflexivity | auto] | idtac ].
  destruct (field_value "key" IsKey eq_refl) as (x & Hx & Hk & _). exists x. split; [done|]. destruct x as [| | | |t| | | |]; try done.
  cbn [snd string_key_items]. unfold victron_ess_balance_runtime_profile_text, dict_get. rewrite find_text_keys, Hx.
  cbn in Hk. subst t. cbn [from_option id]. unfold py_str_or. cbn. by destruct key.
Qed.

Lemma only_snapshot name : str_in name snapshot_only = true -> dict_find name (List.filter is_text_key p) = None.
Proof. intros Hn. rewrite find_text_keys. destruct Hp as (_ & _ & _ & H). by apply H. Qed.

Lemma derived_metric name other kind : str_in name snapshot_only = true -> table_get other profile_schema = Some kind ->
  kind = IsNumber -> exists x, snd (metric_or name other) (string_key_items (VDict p)) = Ok x.
Proof.
  intros Hn Ho ->. destruct (snapshot_number other IsNumber Ho (or_introl eq_refl)) as (x & _ & Hx). exists x.
  cbn [metric_or metric_of snd string_key_items] in *. unfold victron_ess_balance_runtime_profile_metric in *.
  by rewrite (only_snapshot _ Hn).
Qed.

Lemma derived_count : exists x,
  (n ← victron_ess_balance_runtime_profile_sample_count (string_key_items (VDict p)); mret (VInt n)) = Ok x.
Proof.
  assert (forall name, table_get name profile_schema = Some IsCounter -> exists n,
    victron_ess_balance_runtime_non_negative_int (dict_get name (List.filter is_text_key p)) = Ok n) as Hc.
  { intros name Hn. destruct (snapshot_count name Hn) as (x & _ & Hx). cbn [count_of snd string_key_items] in Hx.
    apply res_bind_ok in Hx as (n & Hx & _). by exists n. }
  unfold victron_ess_balance_runtime_profile_sample_count. cbn [string_key_items]. unfold dict_get at 1.
  rewrite (only_snapshot "sample_count") by done. cbn [from_option id].
  destruct (Hc "delay_samples" eq_refl) as [a ->], (Hc "gain_samples" eq_refl) as [b ->], (Hc "settled_count" eq_refl) as [c ->],
    (Hc "overshoot_count" eq_refl) as [d ->]. by eexists.
Qed.

Lemma snapshot_exists : exists d,
  RuntimeStateSnapshotBuilder.victron_ess_balance_runtime_profile_snapshot key (VDict p) = Ok d /\
  forall name, str_in name (map fst profile_schema) = true -> dict_find name d = dict_find name p.
Proof.
  unfold RuntimeStateSnapshotBuilder.victron_ess_balance_runtime_profile_snapshot. set (l := _ ++ _).
  destruct (payload_defined l (string_key_items (VDict p))) as [d Hd].
  - pose proof stored_fields_same as H. unfold stored_fields in H. rewrite !Forall_app in H. destruct H as (H1 & H2 & H3 & H4 & H5).
    assert (forall l' : profile_fields, Forall (fun kf => exists x, dict_find (fst kf) p = Some x /\
      snd kf (string_key_items (VDict p)) = Ok x) l' -> Forall (fun kf => exists x, snd kf (string_key_items (VDict p)) = Ok x) l') as Hw
      by (intros l' Hl'; eapply Forall_impl; [exact Hl'|]; intros kf (x & _ & Hx); by exists x).
    subst l. rewrite !Forall_app. split_and!; [by apply Hw | | by apply Hw | | by apply Hw].
    + apply Forall_cons. split; [exact derived_count | by apply Hw].
    + apply Forall_cons. split; [by eapply derived_metric|]. apply Forall_cons. split; [by eapply derived_metric | by apply Hw].
  - exists d. split; [done|]. intros name Hn.
    assert (exists f, table_get name stored_fields = Some f /\ table_get name l = Some f) as (f & Hf & Hl).
    { clear -Hn. subst l. unfold profile_schema in Hn. cbn [map fst] in Hn. one_of_by Hn ltac:(eexists; split; reflexivity). }
    destruct (payload_find _ _ _ _ _ Hd Hl) as (x & Hx & ->). apply table_get_elem in Hf.
    pose proof stored_fields_same as H. rewrite Forall_forall in H. destruct (H _ Hf) as (y & Hy & Hfy).
    cbn [fst snd] in *. rewrite Hy. congruence.
Qed.

(** What a restart makes of the snapshot [d] of [p]. *)
Section restored.
Import VictronEssRuntimeRestorer.
Context (d : dict).
Hypothesis Hd : forall name, str_in name (map fst profile_schema) = true -> dict_find name d = dict_find name p.

Definition gives (kf : string * (dict -> res pyval)) : Prop :=
  exists x, dict_find (fst kf) p = Some x /\ snd kf (string_key_items (VDict d)) = Ok x.

Lemma saved_value name kind : table_get name profile_schema = Some kind ->
  exists x, dict_find name p = Some x /\ dict_find name (List.filter is_text_key d) = Some x /\ kind_typed key kind x /\
    number_savable x.
Proof.
  intros Hn. destruct (field_value _ _ Hn) as (x & Hx & Hk & Hs). exists x. split_and!; try done. rewrite find_text_keys, Hd; [done|].
  apply table_get_is_some. by exists kind.
Qed.

Lemma text_key_again name fallback : is_text_field name = true -> gives (learned_text name fallback).
Proof.
  intros [part Hn]%text_field. destruct (saved_value _ _ Hn) as (x & Hx & Hq & Hk & _). exists x. split; [done|]. destruct x as [| | | |t| | | |]; try done.
  cbn [learned_text snd string_key_items]. unfold normalized_victron_ess_balance_learning_text. rewrite Hq.
  unfold py_str_or. cbn. by destruct t.
Qed.

Lemma phase_again name fallback : str_in name phase_fields = true -> gives (learned_phase name fallback).
Proof.
  intros Hin. assert (is_text_field name = true) as [part Hn]%text_field by (clear -Hin; one_of Hin).
  destruct (saved_value _ _ Hn) as (x & Hx & Hq & Hk & _). exists x. split; [done|]. destruct x as [| | | |t| | | |]; try done.
  cbn [learned_phase snd string_key_items]. unfold normalized_victron_ess_balance_learning_phase, dict_get. rewrite Hq.
  cbn [from_option id]. destruct Hp as (_ & _ & Hne & _). specialize (Hne _ Hin). rewrite Hx in Hne.
  unfold py_str_or. cbn. by destruct t.
Qed.

Lemma count_again name : table_get name profile_schema = Some IsCounter -> gives (learned_count name).
Proof.
  intros Hn. destruct (saved_value _ _ Hn) as (x & Hx & Hq & Hk & _). exists x. split; [done|]. destruct x as [| |n| | | | | |]; try done.
  cbn [learned_count snd string_key_items]. unfold dict_get. rewrite Hq. cbn in Hk |- *. by rewrite Z.max_r.
Qed.

Lemma number_again name fallback kind : table_get name profile_schema = Some kind -> kind = IsNumber \/ kind = IsScore ->
  gives (learned_metric name fallback).
Proof.
  intros Hn Hkind. destruct (saved_value _ _ Hn) as (x & Hx & Hq & Hk & Hs). exists x. split; [done|].
  assert (non_negative_float_or_none x = Ok (match x with VFloat x => Some x | _ => None end) /\
    val_of_float (match x with VFloat x => Some x | _ => None end) = x) as [Hr Hx'].
  { destruct Hkind as [-> | ->]; destruct x as [| | |x| | | | |]; try done; destruct Hs as [Hf Hl];
      unfold non_negative_float_or_none; rewrite finite_number by done; cbn; by rewrite Hl. }
  cbn [learned_metric snd string_key_items]. unfold normalized_victron_ess_balance_learning_metric, dict_get. rewrite Hq.
  destruct fallback; cbn [from_option id]; rewrite Hr; by apply (f_equal Ok).
Qed.

Lemma profile_again : exists p',
  payload (normalized_victron_ess_balance_learning_profile key) (string_key_items (VDict d)) = Ok p' /\
  forall name, str_in name (map fst profile_schema) = true -> dict_find name p' = dict_find name p.
Proof.
  destruct (payload_same (normalized_victron_ess_balance_learning_profile key) (string_key_items (VDict d)) p) as (p' & Hp' & Hn).
  - repeat (apply Forall_cons; split); try (by apply Forall_nil);
      first [ by apply text_key_again | by apply phase_again | by apply count_again | by eapply number_again; [reflexivity | auto] | idtac ].
    destruct (saved_value "key" IsKey eq_refl) as (x & Hx & _ & Hk & _). exists x. split; [done|]. destruct x; try done.
    cbn in Hk |- *. by subst.
  - exists p'. split; [done|]. intros name Hin. apply Hn. clear -Hin. unfold profile_schema in Hin. cbn [map fst] in Hin. one_of Hin.
Qed.

End restored.
End profile.

(** ** All learned profiles *)
Section profiles.
Import VictronEssRuntimeRestorer RuntimeStateSnapshotBuilder.

Definition profiles_savable (profiles : dict) : Prop :=
  distinct (map (fun kv => py_str (fst kv)) profiles) = true /\
  Forall (fun kv => exists key p, kv = (VStr key, VDict p) /\ solid key /\ profile_savable key p) profiles.

(** The same profiles, field by field. *)
Definition same_profile (kv kv' : pyval * pyval) : Prop :=
  fst kv = fst kv' /\ exists p p', snd kv = VDict p /\ snd kv' = VDict p' /\
    forall name, str_in name (map fst profile_schema) = true -> dict_find name p' = dict_find name p.

(** A profile and its snapshot. *)
Definition is_snapshot (kv kv' : pyval * pyval) : Prop := exists key p d, kv = (VStr key, VDict p) /\ kv' = (VStr key, VDict d) /\
  solid key /\ profile_savable key p /\ forall name, str_in name (map fst profile_schema) = true -> dict_find name d = dict_find name p.

(** Adding an entry under a key of its own. *)
Lemma dict_set_end key (x y : pyval) (acc rest : dict) :
  distinct (map (fun kv => py_str (fst kv)) (acc ++ (VStr key, y) :: rest)) = true ->
  Forall (fun kv => is_text_key kv = true) acc ->
  dict_set key x acc = acc ++ [(VStr key, x)] /\
  distinct (map (fun kv => py_str (fst kv)) ((acc ++ [(VStr key, x)]) ++ rest)) = true /\
  Forall (fun kv => is_text_key kv = true) (acc ++ [(VStr key, x)]).
Proof.
  intros Hd Hacc. assert (distinct (map (fun kv => py_str (fst kv)) ((acc ++ [(VStr key, x)]) ++ rest)) = true) as Hd'
    by (rewrite <- app_assoc, !map_app in *; exact Hd). split; [|split; [done|]].
  - apply dict_set_fresh; [|done]. rewrite map_app in Hd. by apply distinct_app_false in Hd.
  - apply Forall_app. by repeat constructor.
Qed.

Lemma snapshots_run profiles acc :
  distinct (map (fun kv => py_str (fst kv)) (acc ++ profiles)) = true -> Forall (fun kv => is_text_key kv = true) acc ->
  Forall (fun kv => exists key p, kv = (VStr key, VDict p) /\ solid key /\ profile_savable key p) profiles ->
  exists l, profile_snapshots profiles acc = Ok (acc ++ l) /\ Forall2 is_snapshot profiles l.
Proof.
  intros Hd Hacc Hp. revert acc Hd Hacc. induction Hp as [|kv profiles (key & p & -> & Hkey & Hp) _ IH]; intros acc Hd Hacc.
  { exists []. split; [by rewrite app_nil_r | constructor]. }
  destruct (snapshot_exists key p Hp) as (d & Hrun & Hsame). cbn [profile_snapshots py_str]. rewrite Hrun.
  destruct (dict_set_end key (VDict d) _ _ _ Hd Hacc) as (Hset & Hd' & Hacc'). destruct (IH _ Hd' Hacc') as (l & Hl & Hall).
  exists ((VStr key, VDict d) :: l). split.
  - change (profile_snapshots profiles (dict_set key (VDict d) acc) = Ok (acc ++ (VStr key, VDict d) :: l)).
    by rewrite Hset, Hl, <- app_assoc.
  - constructor; [|done]. exists key, p, d. by split_and!.
Qed.

Lemma entries_run profiles l acc :
  Forall2 is_snapshot profiles l ->
  distinct (map (fun kv => py_str (fst kv)) (acc ++ l)) = true -> Forall (fun kv => is_text_key kv = true) acc ->
  exists r, normalized_victron_ess_balance_learning_profiles l acc = Ok (acc ++ r) /\ Forall2 same_profile profiles r.
Proof.
  intros Hall. revert acc. induction Hall as [|kv kv' profiles l (key & p & d & -> & -> & [Hst Hne] & Hp & Hsame) _ IH];
    intros acc Hd Hacc. { exists []. split; [by rewrite app_nil_r | constructor]. }
  destruct (profile_again key p Hp d Hsame) as (p' & Hp' & Hsame').
  assert (normalized_victron_ess_balance_learning_profile_entry (VStr key) (VDict d) = Ok (Some (key, p'))) as He.
  { unfold normalized_victron_ess_balance_learning_profile_entry, py_str_or. cbn [py_bool py_str].
    assert (forall b, py_strip (if negb b then key else "") = (if b then "" else key)) as Hb by (intros [|]; [done | exact Hst]).
    rewrite Hb. destruct (key =? "")%string eqn:E; [by apply String.eqb_eq in E|]. rewrite E, Hp'. done. }
  destruct (dict_set_end key (VDict p') _ _ _ Hd Hacc) as (Hset & Hd' & Hacc'). destruct (IH _ Hd' Hacc') as (r & Hr & Hall).
  exists ((VStr key, VDict p') :: r). split.
  - cbn [normalized_victron_ess_balance_learning_profiles]. rewrite He.
    change (normalized_victron_ess_balance_learning_profiles l (dict_set key (VDict p') acc) = Ok (acc ++ (VStr key, VDict p') :: r)).
    by rewrite Hset, Hr, <- app_assoc.
  - constructor; [|done]. split; [done|]. exists p, p'. by split_and!.
Qed.

Lemma snapshot_keys profiles l : Forall2 is_snapshot profiles l -> map fst l = map fst profiles.
Proof. induction 1 as [|kv kv' profiles l (key & p & d & -> & -> & _) _ IH]; [done|]. cbn. by rewrite IH. Qed.

Lemma profiles_again profiles : profiles_savable profiles ->
  exists l r, profile_snapshots profiles [] = Ok l /\ normalized_victron_ess_balance_learning_profiles l [] = Ok r /\
    Forall2 same_profile profiles r.
Proof.
  intros [Hd Hp]. destruct (snapshots_run profiles [] Hd (Forall_nil_2 _) Hp) as (l & Hl & Hall). exists l.
  destruct (entries_run profiles l [] Hall) as (r & Hr & Hsame); [|constructor | by exists r].
  apply snapshot_keys in Hall. cbn [app]. rewrite <- Hd, <- (map_map fst py_str l), <- (map_map fst py_str profiles). by rewrite Hall.
Qed.

End profiles.

(** ** The tuning of the ESS balance *)

Definition activation_modes : list string := ["always"; "export_only"; "above_reserve_band"; "export_and_above_reserve_band"].

(** The attributes of the ESS balance that a restart keeps, the profiles aside. *)
Definition adaptive_domains : list (string * domain) :=
  map (fun name => (cfg name, Setting)) ["kp"; "ki"; "kd"; "deadband_watts"; "max_abs_watts"; "ramp_rate_watts_per_second"] ++
  [(cfg "activation_mode", Oneof activation_modes); (rt "auto_apply_generation", Count);
   (rt "auto_apply_observe_until", NonNegative); (rt "auto_apply_last_applied_param", Stripped);
   (rt "auto_apply_last_applied_at", NonNegative); (rt "auto_apply_suspend_until", NonNegative);
   (rt "auto_apply_suspend_reason", Stripped); (rt "oscillation_lockout_until", NonNegative);
   (rt "oscillation_lockout_reason", Stripped); (rt "overshoot_cooldown_until", NonNegative);
   (rt "overshoot_cooldown_reason", Stripped); (rt "last_stable_tuning", Mapping); (rt "last_stable_at", NonNegative);
   (rt "last_stable_profile_key", Stripped); (rt "conservative_tuning", Mapping); (rt "safe_state_active", Flag);
   (rt "safe_state_reason", Stripped)].

Section adaptive.
Import VictronEssRuntimeRestorer RuntimeStateSnapshotBuilder.
Context (limit : float) (v v0 : service) (state : dict).
Hypothesis Hsaved : forall key f, table_get key victron_ess_balance_runtime_adaptive_scalar_payload = Some f ->
  exists y, f v = Ok y /\ dict_find key state = Some y.
Hypothesis Hv : all_in_domain limit adaptive_domains v.
Hypothesis Hv0 : all_in_domain limit adaptive_domains v0.

Ltac current name x Hx Hd := destruct (domain_lookup _ _ v name _ Hv eq_refl) as (x & Hx & Hd).
Ltac saved key y Hy Hs := destruct (Hsaved key _ eq_refl) as (y & Hy & Hs).

Lemma setting_kept name :
  table_get (cfg name) adaptive_domains = Some Setting ->
  table_get name victron_ess_balance_runtime_adaptive_scalar_payload = Some (finite_field (cfg name)) ->
  kept v0 v (restore_victron_ess_balance_pid_value state name).
Proof.
  intros Hn Hk. split; [done|]. destruct (domain_lookup _ _ v _ _ Hv Hn) as (x & Hx & Hd). exists x. split; [done|].
  destruct (Hsaved _ _ Hk) as (y & Hy & Hs). unfold finite_field, getattr in Hy. rewrite Hx in Hy. cbn [from_option id] in Hy.
  destruct x as [| | |x| | | | |]; try done. destruct Hd as [[Hf Hl] Hz]. rewrite finite_number in Hy by done. injection Hy as <-.
  cbn [restore_victron_ess_balance_pid_value snd]. unfold dict_get. rewrite Hs. cbn [from_option id].
  unfold non_negative_float_or_none. rewrite finite_number by done. cbn [mbind res_bind]. rewrite Hl.
  by destruct x as [[]|[]| |[] ? ?].
Qed.

Lemma adaptive_float_kept name :
  table_get (rt name) adaptive_domains = Some NonNegative ->
  table_get name victron_ess_balance_runtime_adaptive_scalar_payload = Some (finite_field (rt name)) ->
  kept v0 v (adaptive_float state name).
Proof.
  intros Hn Hk. split; [done|]. destruct (domain_lookup _ _ v _ _ Hv Hn) as (x & Hx & Hd). exists x. split; [done|].
  destruct (Hsaved _ _ Hk) as (y & Hy & Hs). unfold finite_field, getattr in Hy. rewrite Hx in Hy. cbn [from_option id] in Hy.
  cbn [adaptive_float snd]. unfold dict_get. rewrite Hs. cbn [from_option id].
  destruct x as [| | |x| | | | |]; try done; [by injection Hy as <-|]. destruct Hd as [Hf Hl].
  rewrite finite_number in Hy by done. injection Hy as <-. unfold non_negative_float_or_none. rewrite finite_number by done.
  cbn. by rewrite Hl.
Qed.

Lemma stripped_again t : py_strip t = t -> py_strip (py_str_or (VStr t) "") = t /\ py_str_or (VStr t) "" = t.
Proof. intros H. unfold py_str_or. cbn [py_bool py_str]. destruct t; [done|]. by split. Qed.

Lemma adaptive_text_kept name :
  table_get (rt name) adaptive_domains = Some Stripped ->
  table_get name victron_ess_balance_runtime_adaptive_scalar_payload = Some (snd (rt_text name)) ->
  kept v0 v (adaptive_text state name).
Proof.
  intros Hn Hk. split; [done|]. destruct (domain_lookup _ _ v _ _ Hv Hn) as (x & Hx & Hd). exists x. split; [done|].
  destruct (Hsaved _ _ Hk) as (y & Hy & Hs). cbn [rt_text snd] in Hy. unfold victron_ess_balance_runtime_attr_text, text_or, getattr in Hy.
  rewrite Hx in Hy. cbn [from_option id] in Hy. destruct x as [| | | |t| | | |]; try done.
  destruct (stripped_again t Hd) as [Ht Ht']. rewrite Ht in Hy. injection Hy as <-.
  cbn [adaptive_text snd]. unfold dict_get. rewrite Hs. cbn [from_option id]. by rewrite Ht'.
Qed.

Lemma adaptive_mapping_kept name :
  table_get (rt name) adaptive_domains = Some Mapping ->
  table_get name victron_ess_balance_runtime_adaptive_scalar_payload = Some (dict_field (rt name)) ->
  kept v0 v (adaptive_mapping state name).
Proof.
  intros Hn Hk. split; [done|]. destruct (domain_lookup _ _ v _ _ Hv Hn) as (x & Hx & Hd). exists x. split; [done|].
  destruct (Hsaved _ _ Hk) as (y & Hy & Hs). unfold dict_field, getattr in Hy. rewrite Hx in Hy. cbn [from_option id] in Hy.
  destruct x as [| | | | | | |d|]; try done. injection Hy as <-. cbn [adaptive_mapping snd]. unfold dict_get. rewrite Hs.
  cbn [from_option id string_key_items]. by rewrite text_keys_all.
Qed.

Lemma pid_kept : returns v0 v (restore_victron_ess_balance_pid_tuning state).
Proof. repeat (apply Forall_cons; split); [by apply setting_kept.. | by apply Forall_nil]. Qed.

Lemma auto_apply_kept : returns v0 v (restore_victron_ess_balance_auto_apply_state state).
Proof.
  repeat (apply Forall_cons; split);
    [ | by apply adaptive_float_kept | by apply adaptive_text_kept | by apply adaptive_float_kept | by apply adaptive_float_kept
    | by apply adaptive_text_kept | by apply adaptive_float_kept | by apply adaptive_text_kept | by apply Forall_nil ].
  split; [by intros a b Hab; cbn in Hab |- *; unfold getattr; rewrite Hab|].
  current (rt "auto_apply_generation") x Hx Hd. exists x. split; [done|]. saved "auto_apply_generation" y Hy Hs.
  destruct (domain_lookup _ _ v0 (rt "auto_apply_generation") _ Hv0 eq_refl) as (x0 & Hx0 & Hd0).
  unfold getattr in Hy. rewrite Hx in Hy. cbn [snd]. unfold getattr, dict_get. rewrite Hx0, Hs.
  destruct x as [| |n| | | | | |], x0 as [| |n0| | | | | |]; try done. cbn in Hd, Hy. rewrite Z.max_r in Hy by done. injection Hy as <-.
  cbn. by rewrite Z.max_r.
Qed.

Lemma stable_tuning_kept : returns v0 v (restore_victron_ess_balance_stable_tuning_state state).
Proof.
  repeat (apply Forall_cons; split);
    [ by apply adaptive_mapping_kept | by apply adaptive_float_kept | by apply adaptive_text_kept | by apply adaptive_mapping_kept
    | by apply adaptive_float_kept | by apply adaptive_text_kept | | by apply adaptive_text_kept | by apply Forall_nil ].
  split; [done|]. current (rt "safe_state_active") x Hx Hd. exists x. split; [done|]. saved "safe_state_active" y Hy Hs.
  unfold getattr in Hy. rewrite Hx in Hy. cbn [snd]. unfold dict_get. rewrite Hs. destruct x; try done. by injection Hy as <-.
Qed.

Lemma activation_mode_again w : exists t, v !! cfg "activation_mode" = Some (VStr t) /\ restored_activation_mode state w = Some t.
Proof.
  current (cfg "activation_mode") x Hx Hd. saved "activation_mode" y Hy Hs. destruct x as [| | | |t| | | |]; try done. exists t.
  split; [done|]. unfold victron_ess_balance_runtime_attr_text, text_or, getattr in Hy. rewrite Hx in Hy. injection Hy as <-.
  unfold restored_activation_mode. rewrite Hs. clear -Hd. cbn [in_domain] in Hd. one_of Hd.
Qed.

End adaptive.

(** ** The whole document *)
Section restart.
Import VictronEssRuntimeRestorer RuntimeStateSnapshotBuilder.
Context (sources : option (list pyval)).

Lemma accepted_again state w source :
  dict_find "schema_version" state = Some (VInt 2) -> dict_find "source_id" state = Some (VStr source) -> py_strip source = source ->
  dict_find "topology_key" state = Some (VStr (RuntimeStateSnapshotBuilder.victron_ess_balance_runtime_topology_key sources source)) ->
  accepted_payload sources state w = Ok true.
Proof.
  intros Hs Hi Hid Ht. unfold accepted_payload, valid_victron_ess_balance_schema_version, dict_get. rewrite Hs.
  change (Ok (victron_ess_balance_payload_matches_topology sources state w) = Ok true). f_equal.
  unfold victron_ess_balance_payload_matches_topology, dict_get. rewrite Hi, Ht. cbn [from_option id py_bool py_str].
  assert ((if negb (source =? "")%string then py_strip source else "") = source) as ->.
  { destruct (source =? "")%string eqn:E; [by apply String.eqb_eq in E as -> | done]. }
  rewrite (topology_key_solid _ _ : py_strip (RuntimeStateSnapshotBuilder.victron_ess_balance_runtime_topology_key sources source) = _).
  apply String.eqb_refl.
Qed.

Definition pid_names : list string := map fst (restore_victron_ess_balance_pid_tuning []).
Definition auto_apply_names : list string := map fst (restore_victron_ess_balance_auto_apply_state []).
Definition stable_names : list string := map fst (restore_victron_ess_balance_stable_tuning_state []).
Definition adaptive_names : list string := stable_names ++ auto_apply_names ++ [cfg "activation_mode"] ++ pid_names.

Lemma adaptive_restored limit v v0 state w :
  (forall key f, table_get key victron_ess_balance_runtime_adaptive_scalar_payload = Some f ->
    exists y, f v = Ok y /\ dict_find key state = Some y) ->
  all_in_domain limit adaptive_domains v -> all_in_domain limit adaptive_domains v0 ->
  accepted_payload sources state w = Ok true -> carried v v0 charger_names w ->
  exists w', restore_victron_ess_balance_adaptive_tuning_payload sources state w = (Ok tt, w') /\
    carried v v0 (adaptive_names ++ charger_names) w'.
Proof.
  intros Hsaved Hv Hv0 Hacc Hw. unfold restore_victron_ess_balance_adaptive_tuning_payload.
  assert (reading (accepted_payload sources state) w = (Ok true, w)) as Hr by (unfold reading; by rewrite Hacc).
  rewrite (bind_done _ _ _ _ _ Hr). cbn [negb].
  destruct (carried_assign _ _ _ _ _ Hw (pid_kept limit v v0 state Hsaved Hv)) as (w1 & Hrun1 & Hw1); [vm_compute; reflexivity|].
  rewrite (bind_done _ _ _ _ _ Hrun1). destruct (activation_mode_again limit v state Hsaved Hv w1) as (t & Ht & Hmode).
  assert (get w1 = (Ok w1, w1)) as Hget by done. rewrite (bind_done _ _ _ _ _ Hget), Hmode.
  pose proof (carried_set _ _ _ _ _ _ Ht Hw1) as Hw2.
  rewrite set_state_bind.
  destruct (carried_assign _ _ _ _ _ Hw2 (auto_apply_kept limit v v0 state Hsaved Hv Hv0)) as (w3 & Hrun3 & Hw3);
    [vm_compute; reflexivity|]. rewrite (bind_done _ _ _ _ _ Hrun3).
  destruct (carried_assign _ _ _ _ _ Hw3 (stable_tuning_kept limit v v0 state Hsaved Hv)) as (w4 & Hrun4 & Hw4);
    [vm_compute; reflexivity|]. by exists w4.
Qed.

(** A state that the state file can hold: every persisted attribute in its domain, times not after
    [limit], the learned profiles well typed and within range. *)
Definition savable (limit : float) (v : service) : Prop :=
  charger_valid limit v /\ all_in_domain limit adaptive_domains v /\
  exists profiles, v !! rt "learning_profiles" = Some (VDict profiles) /\ profiles_savable profiles.

(** Both Victron payloads of a snapshot start with the header; what follows is found behind it. *)
Definition header_keys : list string := ["schema_version"; "topology_key"; "source_id"].

Lemma header_find v key d : str_in key header_keys = false -> dict_find key (victron_header sources v ++ d) = dict_find key d.
Proof.
  unfold str_in, header_keys. cbn [existsb]. rewrite !orb_false_iff. intros (H1 & H2 & H3 & _).
  unfold dict_find, victron_header. cbn [app List.find fst]. by rewrite !(String.eqb_sym _ key), H1, H2, H3.
Qed.

Lemma header_accepted v d w : accepted_payload sources (victron_header sources v ++ d) w = Ok true.
Proof. apply (accepted_again _ w (py_strip (text_or (cfg "source_id") "" v))); try done. apply py_strip_idem. Qed.

Lemma adaptive_saved v scalars :
  payload victron_ess_balance_runtime_adaptive_scalar_payload v = Ok scalars ->
  forall key f, table_get key victron_ess_balance_runtime_adaptive_scalar_payload = Some f ->
    exists y, f v = Ok y /\ dict_find key (victron_header sources v ++ scalars) = Some y.
Proof.
  intros Hs key f Hf. destruct (payload_find _ _ _ _ _ Hs Hf) as (y & Hy & Hfind). exists y. split; [done|].
  rewrite header_find; [done|]. assert (str_in key (map fst victron_ess_balance_runtime_adaptive_scalar_payload) = true) as Hin
    by (apply table_get_is_some; by exists f). clear -Hin.
  apply str_in_spec in Hin. apply list_elem_of_In in Hin. cbn in Hin. by repeat destruct Hin as [<- | Hin].
Qed.

Lemma adaptive_defined limit v : all_in_domain limit adaptive_domains v ->
  exists d, payload victron_ess_balance_runtime_adaptive_scalar_payload v = Ok d.
Proof.
  intros Hv. apply payload_defined.
  assert (forall name d, table_get name adaptive_domains = Some d -> d = Setting \/ d = NonNegative -> exists y, finite_field name v = Ok y)
    as Hfinite.
  { intros name d Hn Hd. destruct (domain_lookup _ _ v _ _ Hv Hn) as (x & Hx & Hdx). unfold finite_field, getattr. rewrite Hx.
    cbn [from_option id]. destruct Hd as [-> | ->]; destruct x as [| | |x| | | | |]; try done; [| by eexists |];
      [destruct Hdx as [[Hf _] _] | destruct Hdx as [Hf _]]; rewrite finite_number by done; by eexists. }
  assert (forall name, table_get name adaptive_domains = Some Mapping -> exists y, dict_field name v = Ok y) as Hmap.
  { intros name Hn. destruct (domain_lookup _ _ v _ _ Hv Hn) as (x & Hx & Hdx). unfold dict_field, getattr. rewrite Hx.
    destruct x; try done. by eexists. }
  repeat (apply Forall_cons; split); try (by apply Forall_nil); cbn [snd rt_finite rt_text rt_dict];
    first [ by eexists | by eapply Hfinite; [reflexivity | auto] | by apply Hmap | idtac ].
  destruct (domain_lookup _ _ v (rt "auto_apply_generation") _ Hv eq_refl) as (x & Hx & Hd). unfold getattr. rewrite Hx.
  destruct x; try done. by eexists.
Qed.

Lemma learning_restored v0 v w l r :
  normalized_victron_ess_balance_learning_profiles l [] = Ok r -> carried v v0 charger_names w ->
  exists w', restore_victron_ess_balance_learning_state_payload sources
      (victron_header sources v ++ [(VStr "profiles", VDict l)]) w = (Ok tt, w') /\
    carried v (<[rt "learning_profiles" := VDict r]> v0) charger_names w'.
Proof.
  intros Hr Hw. exists (<[rt "learning_profiles" := VDict r]> w). split; [|by apply carried_base].
  unfold restore_victron_ess_balance_learning_state_payload.
  assert (reading (accepted_payload sources (victron_header sources v ++ [(VStr "profiles", VDict l)])) w = (Ok true, w)) as Ha
    by (unfold reading; by rewrite header_accepted).
  rewrite (bind_done _ _ _ _ _ Ha). unfold dict_get. rewrite header_find by done. cbn [dict_find List.find fst snd from_option id fmap].
  change ((profiles ← lift (normalized_victron_ess_balance_learning_profiles l []);
    set_state (rt "learning_profiles") (VDict profiles)) w = (Ok tt, <[rt "learning_profiles" := VDict r]> w)).
  by rewrite Hr.
Qed.

Definition persisted_names : list string := map fst charger_domains ++ map fst adaptive_domains.

Lemma persisted_carried v v0 w name :
  carried v v0 (adaptive_names ++ charger_names) w -> str_in name persisted_names = true -> w !! name = v !! name.
Proof.
  intros Hw Hn. rewrite (Hw name). enough (str_in name (adaptive_names ++ charger_names) = true) as -> by done.
  assert (forallb (fun n => str_in n (adaptive_names ++ charger_names)) persisted_names = true) as Hall by (vm_compute; reflexivity).
  rewrite forallb_forall in Hall. by apply Hall, list_elem_of_In, str_in_spec.
Qed.

Lemma energy_other snapshot key : str_in key (map (fun e => fst (fst e)) energy_fields) = false ->
  str_in key ["combined_battery_sources"; "combined_battery_learning_profiles"] = false ->
  dict_find key (energy_runtime_state snapshot) = None.
Proof.
  intros H1 H2. unfold energy_runtime_state. cbv zeta. rewrite dict_find_app.
  assert (forall (f : string * string * pyval -> pyval) l, str_in key (map (fun e => fst (fst e)) l) = false ->
    dict_find key (map (fun '(k, name, dflt) => (VStr k, f (k, name, dflt))) l) = None) as Hf.
  { intros f l. induction l as [|[[k n] x] l IH]; [done|]. unfold str_in. cbn [map existsb fst]. rewrite orb_false_iff. intros [Hk Hl].
    unfold dict_find. cbn [map List.find fst]. rewrite String.eqb_sym, Hk. by apply IH. }
  rewrite (Hf (fun e => default (snd e) (dict_find (snd (fst e)) _)) energy_fields H1).
  unfold str_in in H2. cbn [existsb] in H2. rewrite !orb_false_iff in H2. destruct H2 as (H2 & H3 & _).
  unfold dict_find. cbn [List.find fst]. by rewrite !(String.eqb_sym _ key), H2, H3.
Qed.

(** The document of a savable state, and where its parts are found. *)
Record document (wall : float) (v : service) (d l r : dict) : Prop := {
  doc_own : forall key f, table_get key (own_fields wall) = Some f -> exists y, f v = Ok y /\ dict_find key d = Some y;
  doc_learning : dict_get "victron_ess_balance_learning_state" d = VDict (victron_header sources v ++ [(VStr "profiles", VDict l)]);
  doc_profiles : normalized_victron_ess_balance_learning_profiles l [] = Ok r;
  doc_adaptive : exists scalars, payload victron_ess_balance_runtime_adaptive_scalar_payload v = Ok scalars /\
    dict_get "victron_ess_balance_adaptive_tuning_state" d = VDict (victron_header sources v ++ scalars) }.

Lemma document_exists wall snapshot v :
  isnan (wall + f1)%F = false -> savable (wall + f1)%F v ->
  exists d l r profiles, build wall sources snapshot v = Ok d /\ document wall v d l r /\
    v !! rt "learning_profiles" = Some (VDict profiles) /\ Forall2 same_profile profiles r.
Proof.
  intros Hn ((Hv & _) & Ha & profiles & Hprofiles & Hsavable).
  destruct (fields_defined (wall + f1)%F wall v (fle_refl _ Hn) Hv) as [own Hown].
  destruct (adaptive_defined _ v Ha) as [scalars Hscalars]. destruct (profiles_again _ Hsavable) as (l & r & Hl & Hr & Hsame).
  eexists _, l, r, profiles. split_and!; [|split|done|done].
  - unfold build. rewrite Hown. unfold victron_ess_balance_runtime_learning_state, victron_ess_balance_runtime_adaptive_tuning_state,
      getattr. rewrite Hprofiles, Hscalars. cbn [from_option id]. rewrite Hl. reflexivity.
  - intros key f Hf. destruct (payload_find _ _ _ _ _ Hown Hf) as (y & Hy & Hfind). exists y. split; [done|].
    by rewrite dict_find_app, Hfind.
  - unfold dict_get. rewrite dict_find_app, (payload_other _ _ _ _ Hown) by (vm_compute; reflexivity).
    rewrite dict_find_app, energy_other by (vm_compute; reflexivity). reflexivity.
  - exact Hr.
  - exists scalars. split; [done|]. unfold dict_get. rewrite dict_find_app, (payload_other _ _ _ _ Hown) by (vm_compute; reflexivity).
    rewrite dict_find_app, energy_other by (vm_compute; reflexivity). reflexivity.
Qed.

Lemma victron_restored limit wall v v0 d l r w :
  document wall v d l r -> all_in_domain limit adaptive_domains v -> all_in_domain limit adaptive_domains v0 ->
  carried v v0 charger_names w ->
  exists w', restore_runtime_state sources d w = (Ok tt, w') /\
    carried v (<[rt "learning_profiles" := VDict r]> v0) (adaptive_names ++ charger_names) w'.
Proof.
  intros [_ Hl Hr (scalars & Hscalars & Ha)] Hv Hv0 Hw. unfold restore_runtime_state. rewrite Hl, Ha. cbn [string_key_items].
  rewrite !text_keys_all by (rewrite forallb_app; apply andb_true_iff; split; [done | by first [eapply payload_text_keys | done]]).
  destruct (learning_restored _ _ _ _ _ Hr Hw) as (w1 & Hrun1 & Hw1). rewrite (bind_done _ _ _ _ _ Hrun1).
  apply (adaptive_restored limit); [by apply adaptive_saved | done | | apply header_accepted | done].
  by apply all_in_domain_other.
Qed.

(** C7. A restart keeps the state: the snapshot of a service whose persisted attributes are in their domains exists,
    and restoring it later puts a fresh service of the same topology, whatever it holds itself, into the same state:
    mode, relay times, learned charging power, phase selection, a pending phase switch, lockouts, the tuning and the
    safety state of the ESS balance are what they were, and so is every field of every learned profile. *)
Theorem state_survives_restart wall now snapshot v v0 :
  (wall + f1 <=? now + f1)%F = true -> savable (wall + f1)%F v ->
  all_in_domain (wall + f1)%F (charger_domains ++ adaptive_domains) v0 ->
  exists d v1 profiles profiles', build wall sources snapshot v = Ok d /\ restore sources d now v0 = (Ok tt, v1) /\
    (forall name, str_in name persisted_names = true -> v1 !! name = v !! name) /\
    v !! rt "learning_profiles" = Some (VDict profiles) /\ v1 !! rt "learning_profiles" = Some (VDict profiles') /\
    Forall2 same_profile profiles profiles'.
Proof.
  intros Hnow Hsavable [Hc0 Ha0]%Forall_app. assert (isnan (wall + f1)%F = false) as Hn by (by forder).
  destruct (document_exists wall snapshot v Hn Hsavable) as (d & l & r & profiles & Hbuild & Hd & Hp & Hsame).
  destruct Hsavable as ([Hv Hswitch] & Ha & _). exists d.
  assert (carried v v0 [] v0) as H0 by done. pose proof (fle_refl _ Hn) as Hwall.
  destruct (basic_restored _ _ v v0 d (doc_own _ _ _ _ _ Hd) Hv Hc0 _ H0) as (w1 & Hrun1 & Hw1).
  set (name0 := "_ignore_min_offtime_once"). set (v0' := <[name0 := VBool false]> v0 : service).
  apply (carried_base _ _ _ name0 (VBool false)) in Hw1; [|done].
  assert (all_in_domain (wall + f1)%F charger_domains v0') as Hc0' by (by apply all_in_domain_other).
  assert (all_in_domain (wall + f1)%F adaptive_domains v0') as Ha0' by (by apply all_in_domain_other).
  destruct (others_restored _ _ now v v0' d Hwall Hnow (doc_own _ _ _ _ _ Hd) Hv Hc0' Hswitch _ Hw1) as (w2 & Hw2 & Hrun2).
  destruct (victron_restored _ _ _ _ _ _ _ _ Hd Ha Ha0' Hw2) as (w3 & Hrun3 & Hw3).
  exists w3, profiles, r. split_and!; try done.
  - unfold restore. rewrite <- Hrun3, <- Hrun2.
    change (RuntimeStateRestorer.restore_basic_runtime_state d) with
      (removelast (RuntimeStateRestorer.restore_basic_runtime_state d) ++ [(name0, fun _ => Ok (VBool false))]).
    unfold mbind at 1, M_bind at 1. rewrite assign_all_app. by rewrite (bind_done _ _ _ _ _ Hrun1).
  - intros name Hname. by eapply persisted_carried.
  - rewrite (Hw3 (rt "learning_profiles")). apply (lookup_insert_eq (M := gmap string)).
Qed.

End restart.

(** ** A charger in the middle of a phase switch *)
Section running.

Definition switching_profile : dict :=
  dict_set "settled_count" (VInt 3) (dict_set "stability_score" (VFloat (fdec 85 100)) (dict_set "response_delay_seconds" (VFloat (f_of_Z 6))
    (victron_ess_balance_initialized_profile_state "more_export:export:day:above_reserve_band:ev_idle:pv_weak:mid_band"))).

Definition switching_charger : service :=
  list_to_map ([("virtual_mode", VInt 1); ("virtual_autostart", VInt 1); ("virtual_enable", VInt 1); ("virtual_startstop", VInt 1);
    ("manual_override_until", VFloat (f_of_Z 900)); ("_auto_mode_cutover_pending", VBool false);
    ("relay_last_changed_at", VFloat (f_of_Z 990)); ("relay_last_off_at", VNone);
    ("learned_charge_power_watts", VFloat (f_of_Z 3600)); ("learned_charge_power_updated_at", VFloat (f_of_Z 800));
    ("learned_charge_power_state", VStr "stable"); ("learned_charge_power_learning_since", VNone);
    ("learned_charge_power_sample_count", VInt 5); ("learned_charge_power_phase", VStr "3P");
    ("learned_charge_power_voltage", VFloat (f_of_Z 230)); ("learned_charge_power_signature_mismatch_sessions", VInt 0);
    ("learned_charge_power_signature_checked_session_started_at", VNone);
    ("supported_phase_selections", VTuple [VStr "P1"; VStr "P1_P2_P3"]); ("requested_phase_selection", VStr "P1_P2_P3");
    ("active_phase_selection", VStr "P1"); ("_phase_switch_pending_selection", VStr "P1_P2_P3");
    ("_phase_switch_state", VStr "waiting-relay-off"); ("_phase_switch_requested_at", VFloat (f_of_Z 995));
    ("_phase_switch_stable_until", VNone); ("_phase_switch_resume_relay", VBool true);
    ("_phase_switch_mismatch_counts", VDict [(VStr "P1", VInt 2)]); ("_phase_switch_last_mismatch_selection", VStr "P1");
    ("_phase_switch_last_mismatch_at", VFloat (f_of_Z 700)); ("_phase_switch_lockout_selection", VNone);
    ("_phase_switch_lockout_reason", VStr ""); ("_phase_switch_lockout_at", VNone); ("_phase_switch_lockout_until", VNone);
    ("_contactor_fault_counts", VDict [(VStr "contactor-suspected-open", VInt 1)]); ("_contactor_fault_active_reason", VNone);
    ("_contactor_fault_active_since", VNone); ("_contactor_lockout_reason", VStr ""); ("_contactor_lockout_source", VStr "");
    ("_contactor_lockout_at", VNone)] ++
   map (fun name => (cfg name, VFloat (f_of_Z 2))) ["kp"; "ki"; "kd"; "deadband_watts"; "max_abs_watts"; "ramp_rate_watts_per_second"] ++
   [(cfg "activation_mode", VStr "export_only"); (rt "auto_apply_generation", VInt 3);
    (rt "auto_apply_observe_until", VFloat (f_of_Z 1010)); (rt "auto_apply_last_applied_param", VStr (cfg "kp"));
    (rt "auto_apply_last_applied_at", VFloat (f_of_Z 980)); (rt "auto_apply_suspend_until", VNone);
    (rt "auto_apply_suspend_reason", VStr ""); (rt "oscillation_lockout_until", VNone); (rt "oscillation_lockout_reason", VStr "");
    (rt "overshoot_cooldown_until", VFloat (f_of_Z 1020)); (rt "overshoot_cooldown_reason", VStr "overshoot_detected");
    (rt "last_stable_tuning", VDict [(VStr "kp", VFloat f1)]); (rt "last_stable_at", VFloat (f_of_Z 600));
    (rt "last_stable_profile_key", VStr ""); (rt "conservative_tuning", VDict []); (rt "safe_state_active", VBool true);
    (rt "safe_state_reason", VStr "overshoot_cooldown"); (cfg "source_id", VStr "victron");
    (rt "learning_profiles",
     VDict [(VStr "more_export:export:day:above_reserve_band:ev_idle:pv_weak:mid_band", VDict switching_profile)])]).

Lemma switching_domains : all_in_domain (f_of_Z 1000 + f1)%F (charger_domains ++ adaptive_domains) switching_charger.
Proof.
  repeat (apply Forall_cons; split); try (by apply Forall_nil); (eexists; split; [vm_compute; reflexivity|]); try done;
    try (by split; vm_compute).
  - by right; left.
  - by exists [P1; P1_P2_P3].
  - split; [done|]. repeat constructor. by exists "P1", 2.
  - split; [done|]. repeat constructor. by exists "contactor-suspected-open", 1.
Qed.

Lemma numbers_savable (p : dict) : Forall (fun kv => number_savable (snd kv)) p ->
  forall name v, dict_find name p = Some v -> number_savable v.
Proof.
  rewrite Forall_forall. intros H name v. unfold dict_find. destruct (List.find _ p) as [kv|] eqn:E; [|done]. intros [= <-].
  apply find_some in E as [E _]. by apply H, list_elem_of_In.
Qed.

Lemma switching_profile_savable :
  profile_savable "more_export:export:day:above_reserve_band:ev_idle:pv_weak:mid_band" switching_profile.
Proof.
  split; [apply profile_ok_typed|split; [|split]].
  - eapply profile_ok_set; [eapply profile_ok_set; [eapply profile_ok_set; [apply initialized_ok | reflexivity | done]
      | reflexivity | by split; vm_compute] | reflexivity | done].
  - apply numbers_savable. vm_compute. by repeat constructor.
  - intros name Hn. unfold phase_fields in Hn. one_of_by Hn ltac:(vm_compute; discriminate).
  - intros name Hn. unfold snapshot_only in Hn. one_of Hn.
Qed.

Lemma switching_savable : savable (f_of_Z 1000 + f1)%F switching_charger.
Proof.
  pose proof switching_domains as [Hc Ha]%Forall_app. split; [split; [exact Hc|] | split; [exact Ha|]].
  - intros [H|H]; vm_compute in H; discriminate.
  - eexists. split; [vm_compute; reflexivity|]. split; [done|]. apply Forall_cons. split; [|by apply Forall_nil].
    eexists _, _. split; [reflexivity|]. split; [by split | exact switching_profile_savable].
Qed.

(** A service that knows nothing yet. *)
Definition initial_value (d : domain) : pyval :=
  match d with
  | Mode | AnyInt | Count => VInt 0
  | Finite | Setting => VFloat f0
  | Flag => VBool false
  | NonNegative | PastTime | OptionalFinite | OptionalOneof _ => VNone
  | Text | Stripped => VStr ""
  | Oneof l => VStr (hd "" l)
  | Selections => VTuple [VStr "P1"]
  | Counts _ | Mapping => VDict []
  end.

Definition fresh_charger : service :=
  list_to_map (map (fun nd => (fst nd, initial_value (snd nd))) (charger_domains ++ adaptive_domains)).

Lemma fresh_domains : all_in_domain (f_of_Z 1000 + f1)%F (charger_domains ++ adaptive_domains) fresh_charger.
Proof.
  repeat (apply Forall_cons; split); try (by apply Forall_nil); (eexists; split; [vm_compute; reflexivity|]); try done;
    try (by split; vm_compute).
  - by left.
  - by exists [P1].
Qed.

Lemma state_survives_restart_witness :
  exists d v1, RuntimeStateSnapshotBuilder.build (f_of_Z 1000) (Some [VStr "victron"]) None switching_charger = Ok d /\
    restore (Some [VStr "victron"]) d (f_of_Z 1200) fresh_charger = (Ok tt, v1) /\
    v1 !! "_phase_switch_pending_selection" = Some (VStr "P1_P2_P3") /\
    v1 !! rt "overshoot_cooldown_until" = Some (VFloat (f_of_Z 1020)) /\ is_Some (v1 !! rt "learning_profiles").
Proof.
  destruct (state_survives_restart (Some [VStr "victron"]) (f_of_Z 1000) (f_of_Z 1200) None switching_charger fresh_charger)
    as (d & v1 & profiles & profiles' & Hbuild & Hrestore & Hnames & _ & Hprofiles & _).
  - vm_compute. reflexivity.
  - exact switching_savable.
  - exact fresh_domains.
  - exists d, v1. split; [exact Hbuild|]. split; [exact Hrestore|]. rewrite !Hnames by (vm_compute; reflexivity).
    split; [vm_compute; reflexivity|]. split; [vm_compute; reflexivity|]. exists (VDict profiles'). exact Hprofiles.
Defined.

End running.
