(* ===== verification/StatePersistence.v ===== *)
(** * Loading and saving the runtime state

    [controllers/state_persistence.py]: the state file is written when the state has changed, with
    the time of the change, and is read once when the service starts.

    The files are a world of answers; what [json.loads] makes of a file is part of the answer.  The
    summary that the log messages quote is left out. *)

From S2P Require Import Prelude PyFloat PyValue OrderedMap Encoding Contracts EssSources EssProfiles StateSnapshot StateRestore.

(** An attempt to write a text to a path, and whether it succeeded. *)
Record attempt := mkAttempt { at_path : string; at_text : string; at_written : bool }.

(** The attributes of the service and the attempts to write so far. *)
Record live := mkLive { attributes : service; attempts : list attempt }.

#[export] Instance eta_live : Eta live := fun s => mkLive s.(attributes) s.(attempts).

Class StateFiles := {
  (** The value of [json.loads] of the file, [None] when it cannot be read or is no JSON. *)
  file_document : string -> option pyval;
  (** [os.path.getmtime], [None] when it raises [OSError]. *)
  file_modified_at : string -> option float;
  (** [write_text_atomically] after the attempts so far. *)
  file_write : list attempt -> string -> string -> res unit;
  (** [time.time()], what the clock of the service returns, the energy sources and the worker snapshot. *)
  machine_time : float;
  service_time : pyval;
  live_sources : option (list pyval);
  live_snapshot : option pyval }.

(** [json.dumps(..., sort_keys=True)] sorts first; keys are texts. *)
Fixpoint with_sorted_keys (v : pyval) : pyval :=
  match v with
  | VList l => VList (map with_sorted_keys l)
  | VTuple l => VTuple (map with_sorted_keys l)
  | VDict d =>
    VDict (sort_by (fun a b => String.ltb (py_str (fst a)) (py_str (fst b)))
      (map (fun kv => (fst kv, with_sorted_keys (snd kv))) d))
  | _ => v
  end.

(** core/shared.py: compact_json *)
Definition compact_json (data : pyval) : res string := json_dumps (with_sorted_keys data).

(** [UnicodeEncodeError] is a [ValueError].
    controllers/errors.py: RUNTIME_PERSISTENCE_WRITE_ERRORS *)
Definition RUNTIME_PERSISTENCE_WRITE_ERRORS : list exn := [OSError; RuntimeError; TypeError; ValueError].

(** ** Documents *)

(** controllers/state_persistence.py: RUNTIME_STATE_CHANGED_AT_FIELD *)
Definition RUNTIME_STATE_CHANGED_AT_FIELD : string := "state_changed_at".

(** controllers/state_persistence.py: _finite_number *)
Definition finite_number (value : pyval) : res (option float) :=
  match value with
  | VInt _ | VFloat _ => numeric ← py_float value; mret (if isfinite numeric then Some numeric else None)
  | _ => Ok None
  end.

(** controllers/state_persistence.py: _valid_state_changed_at *)
Definition valid_state_changed_at (value : pyval) (current_time : float) : res (option float) :=
  changed_at ← finite_number value;
  mret (match changed_at with
        | Some t => if (t <? f0)%F || (t >? current_time + f1)%F then None else Some (fmin t current_time)
        | None => None
        end).

(** controllers/state_persistence.py: _semantic_state *)
Definition semantic_state (state : dict) : dict :=
  List.filter (fun kv => match fst kv with VStr k => negb (k =? RUNTIME_STATE_CHANGED_AT_FIELD)%string | _ => true end) state.

(** controllers/state_persistence.py: _status_document *)
Definition status_document (state : dict) (changed_at : float) : dict :=
  dict_set RUNTIME_STATE_CHANGED_AT_FIELD (VFloat changed_at) state.

(** ** The coordinator
    controllers/state_persistence.py *)
Module RuntimeStatePersistence.
Section persistence.
Context {files : StateFiles}.

(** controllers/state_persistence.py: _legacy_state_changed_at *)
Definition legacy_state_changed_at (path : string) (current_time : float) : res float :=
  match file_modified_at path with
  | None => Ok current_time
  | Some modified_at =>
    normalized ← valid_state_changed_at (VFloat modified_at) current_time; mret (default current_time normalized)
  end.

(** controllers/state_persistence.py: _loaded_status *)
Definition loaded_status (path : string) (document : dict) (current_time : float) : res (float * bool) :=
  persisted ← valid_state_changed_at (dict_get RUNTIME_STATE_CHANGED_AT_FIELD document) current_time;
  match persisted with
  | Some t => Ok (t, false)
  | None => t ← legacy_state_changed_at path current_time; mret (t, true)
  end.

(** controllers/state_json.py: read_json_object_file *)
Definition read_json_object_file (path : string) : option dict := file_document path ≫= json_object_payload.

Definition set_live (name : string) (value : pyval) : M live unit :=
  modify (fun s => s <| attributes := <[name := value]> s.(attributes) |>).

(** A write that fails with one of [RUNTIME_PERSISTENCE_WRITE_ERRORS] is reported, not raised.
    controllers/state_persistence.py: RuntimeStatePersistence._write *)
Definition write (path : string) (state : dict) (changed_at : float) : M live bool :=
  s ← get;
  match compact_json (VDict (status_document state changed_at)) with
  | Err e => if exn_in RUNTIME_PERSISTENCE_WRITE_ERRORS e then mret false else raise e
  | Ok text =>
    let outcome := file_write s.(attempts) path text in
    modify (fun s => s <| attempts := s.(attempts) ++ [mkAttempt path text (match outcome with Ok _ => true | Err _ => false end)] |>);;
    match outcome with
    | Ok _ => mret true
    | Err e => if exn_in RUNTIME_PERSISTENCE_WRITE_ERRORS e then mret false else raise e
    end
  end.

(** [str(getattr(self.service, "runtime_state_path", "")).strip()] *)
Definition state_path (v : service) : string := py_strip (py_str (getattr "runtime_state_path" (VStr "") v)).

Definition snapshot_now (v : service) : res dict :=
  RuntimeStateSnapshotBuilder.build machine_time live_sources live_snapshot v.

(** A step that changes the attributes only. *)
Definition on_attributes {A} (m : M service A) : M live A := fun s =>
  let '(r, v) := m s.(attributes) in (r, s <| attributes := v |>).

(** controllers/state_persistence.py: RuntimeStatePersistence.load *)
Definition load : M live unit :=
  s ← get;
  let path := state_path s.(attributes) in
  if (path =? "")%string then mret tt
  else
    match read_json_object_file path with
    | None => mret tt
    | Some document =>
      loaded_at ← lift (RuntimeStateNormalizer.load_time service_time machine_time);
      let current_time := fmax f0 loaded_at in
      '(changed_at, needs_migration) ← lift (loaded_status path document current_time);
      on_attributes (restore live_sources (semantic_state document) current_time);;
      s ← get;
      restored_state ← lift (snapshot_now s.(attributes));
      serialized_state ← lift (compact_json (VDict restored_state));
      when needs_migration (write path restored_state changed_at;; mret tt);;
      set_live "_runtime_state_serialized" (VStr serialized_state);;
      set_live "_runtime_state_changed_at" (VFloat changed_at)
    end.

(** controllers/state_persistence.py: RuntimeStatePersistence.save *)
Definition save : M live unit :=
  s ← get;
  let path := state_path s.(attributes) in
  if (path =? "")%string then mret tt
  else
    state ← lift (snapshot_now s.(attributes));
    serialized_state ← lift (compact_json (VDict state));
    if match getattr "_runtime_state_serialized" VNone s.(attributes) with
       | VStr text => (serialized_state =? text)%string
       | _ => false
       end
    then mret tt
    else
      let changed_at := fmax f0 machine_time in
      written ← write path state changed_at;
      if negb written then mret tt
      else
        set_live "_runtime_state_serialized" (VStr serialized_state);;
        set_live "_runtime_state_changed_at" (VFloat changed_at).

End persistence.
End RuntimeStatePersistence.
