(* ===== verification/PersistenceSafety.v ===== *)
(** * What is written to the state file

    Loading leaves nothing to save; a change is saved once, and again only after a failed write. *)

From S2P Require Import Prelude PyFloat PyValue OrderedMap Encoding Contracts BackendModels EssSources EssProfiles StateSnapshot StateRestore StateSafety RestoreValid StatePersistence.
Import RuntimeStateNormalizer RuntimeStateSnapshotBuilder RuntimeStatePersistence.

(** ** What the snapshot reads *)

Lemma payload_ext {A} (l l' : list (string * (A -> res pyval))) v v' :
  Forall2 (fun kf kf' => fst kf = fst kf' /\ snd kf v = snd kf' v') l l' -> payload l v = payload l' v'.
Proof.
  induction 1 as [|[k f] [k' f'] l l' [Hk Hf] _ IH]; [done|]. unfold payload in *. cbn [map_res fst snd] in *. by rewrite Hk, Hf, IH.
Qed.

Definition bookkeeping : list string := ["_runtime_state_serialized"; "_runtime_state_changed_at"].

Section same.
Context (limit wall wall' : float) (v v' : service).
Hypothesis Hwall : (limit <=? wall + f1)%F = true.
Hypothesis Hwall' : (limit <=? wall' + f1)%F = true.
Hypothesis Hv : all_in_domain limit charger_domains v.
Hypothesis other_attribute : forall k, str_in k bookkeeping = false -> v' !! k = v !! k.

Lemma past_time_same k : table_get k charger_domains = Some PastTime -> str_in k bookkeeping = false ->
  past_time wall k v = past_time wall' k v'.
Proof.
  intros Hk Hb. destruct (domain_lookup _ _ v k _ Hv Hk) as (y & Hy & Hd). unfold past_time, getattr.
  rewrite other_attribute, Hy by done. cbn [from_option id]. destruct y as [| | |y| | | | |]; try done. destruct Hd as [Hf Hl].
  by rewrite !(past_kept limit).
Qed.

(** A field that reads other attributes. *)
Ltac same_field :=
  split; [reflexivity|]; unfold rt_finite, rt_text, rt_dict; cbn [snd];
  unfold int_of, raw, raw_or, int_or_zero, float_field, finite_field, flag_field, text_field, phase_field, dict_field,
    optional_phase_field, victron_ess_balance_runtime_attr_text, text_or, attribute, getattr;
  cbn [snd]; rewrite !other_attribute by reflexivity; reflexivity.

Lemma own_fields_same : payload (own_fields wall) v = payload (own_fields wall') v'.
Proof.
  apply payload_ext. unfold own_fields.
  repeat (apply Forall2_cons; split); try (by apply Forall2_nil);
    first [ split; [reflexivity|]; by apply past_time_same | same_field ].
Qed.

Lemma adaptive_fields_same :
  payload victron_ess_balance_runtime_adaptive_scalar_payload v = payload victron_ess_balance_runtime_adaptive_scalar_payload v'.
Proof.
  apply payload_ext. repeat (apply Forall2_cons; split); try (by apply Forall2_nil); same_field.
Qed.

(** The bookkeeping and the passing of time do not change the snapshot. *)
Lemma build_same sources snapshot : build wall sources snapshot v = build wall' sources snapshot v'.
Proof.
  unfold build, victron_ess_balance_runtime_learning_state, victron_ess_balance_runtime_adaptive_tuning_state, victron_header,
    text_or, getattr. rewrite !other_attribute by reflexivity. by rewrite own_fields_same, adaptive_fields_same.
Qed.

End same.

Definition keeps_others (v v' : service) : Prop := forall k, str_in k bookkeeping = false -> v' !! k = v !! k.

Lemma keeps_others_trans v1 v2 v3 : keeps_others v1 v2 -> keeps_others v2 v3 -> keeps_others v1 v3.
Proof. intros H1 H2 k Hk. by rewrite H2, H1. Qed.

Lemma set_keeps_others name x v : str_in name bookkeeping = true -> keeps_others v (<[name := x]> v).
Proof. intros Hn k Hk. apply (lookup_insert_ne (M := gmap string)). congruence. Qed.

(** ** Writing *)

Section write.
Context {files : StateFiles}.

Lemma lift_ok {S A} (r : res A) (s s' : S) a : lift r s = (Ok a, s') -> r = Ok a /\ s' = s.
Proof. unfold lift. by intros [= -> ->]. Qed.

(** Both bookkeeping attributes. *)
Definition recorded_as (text : string) (changed_at : float) (v : service) : service :=
  <["_runtime_state_changed_at" := VFloat changed_at]> (<["_runtime_state_serialized" := VStr text]> v).

Lemma recorded_serialized text t v : recorded_as text t v !! "_runtime_state_serialized" = Some (VStr text).
Proof.
  unfold recorded_as. etransitivity; [by apply (lookup_insert_ne (M := gmap string)) | apply (lookup_insert_eq (M := gmap string))].
Qed.

Lemma recorded_others text t v : keeps_others v (recorded_as text t v).
Proof. unfold recorded_as. eapply keeps_others_trans; by apply set_keeps_others. Qed.

(** A write that returns either made no attempt, as there was no text, or one attempt with the
    text of the document, and tells how it ended. *)
Lemma write_ok path state t s b s' : write path state t s = (Ok b, s') ->
  s'.(attributes) = s.(attributes) /\
  ((b = false /\ s' = s /\ exists e, compact_json (VDict (status_document state t)) = Err e) \/
   exists text, compact_json (VDict (status_document state t)) = Ok text /\ s'.(attempts) = s.(attempts) ++ [mkAttempt path text b]).
Proof.
  unfold write. intros (s0 & ? & [= <- <-] & H)%run_ok.
  destruct (compact_json _) as [text|e].
  - apply run_ok in H as ([] & s1 & [= <-] & H). cbn in H. destruct (file_write _ _ _) as [[]|e].
    + injection H as <- <-. split; [done|]. right. by exists text.
    + match type of H with (if ?c then _ else _) _ = _ => destruct c end; [|done]. injection H as <- <-. split; [done|]. right. by exists text.
  - destruct (exn_in _ e); [|done]. injection H as <- <-. split; [done|]. left. split_and!; [done..|]. by exists e.
Qed.


End write.

(** ** Loading *)

Section load.
Context (files : StateFiles).

(** What a load that read a document has done. *)
Lemma load_ok s s1 now document :
  load s = (Ok tt, s1) -> state_path s.(attributes) <> "" ->
  read_json_object_file (state_path s.(attributes)) = Some document -> RuntimeStateNormalizer.load_time service_time machine_time = Ok now ->
  exists v state text t,
    charger_valid (fmax f0 now + f1)%F v /\ snapshot_now v = Ok state /\ compact_json (VDict state) = Ok text /\
    s1.(attributes) = recorded_as text t v.
Proof.
  unfold load. intros (s0 & ? & [= <- <-] & H)%run_ok Hpath Hdoc Hnow. apply String.eqb_neq in Hpath. rewrite Hpath, Hdoc in H.
  apply run_ok in H as (now' & ? & [Hnow' ->]%lift_ok & H). rewrite Hnow in Hnow'. injection Hnow' as <-.
  apply run_ok in H as ([t migrate] & ? & [Hstatus ->]%lift_ok & H). apply run_ok in H as ([] & s2 & Hrestore & H).
  apply run_ok in H as (s3 & ? & [= <- <-] & H). apply run_ok in H as (state & ? & [Hstate ->]%lift_ok & H).
  apply run_ok in H as (text & ? & [Htext ->]%lift_ok & H). apply run_ok in H as ([] & s3 & Hw & [= <-]).
  exists s2.(attributes), state, text, t. unfold on_attributes in Hrestore. destruct (restore _ _ _ _) as [r v] eqn:Er.
  injection Hrestore as -> <-. split_and!; [by eapply restore_valid | done | done |]. cbn [attributes]. cut (attributes s3 = v); [by intros -> |].
  destruct migrate; cbn [when] in Hw; [|by injection Hw as <-]. apply run_ok in Hw as (b & s4 & [Ha _]%write_ok & [= <-]). exact Ha.
Qed.

End load.

(** ** What the file holds *)






Section save.
Context {files : StateFiles}.






End save.







#[local] Existing Instance agrees_preorder.




(** C10. A service that has loaded a document of its path saves nothing as long as its attributes stay as they are: the
    snapshot of the restored state, taken at any later time over the same energy sources and worker snapshot, is the
    one that loading remembered. *)
Theorem loading_leaves_nothing_to_save (files files' : StateFiles) s s1 now document :
  load (files := files) s = (Ok tt, s1) -> state_path s.(attributes) <> "" ->
  read_json_object_file (files := files) (state_path s.(attributes)) = Some document ->
  RuntimeStateNormalizer.load_time (service_time (StateFiles := files)) (machine_time (StateFiles := files)) = Ok now ->
  (fmax f0 now + f1 <=? machine_time (StateFiles := files) + f1)%F = true ->
  (fmax f0 now + f1 <=? machine_time (StateFiles := files') + f1)%F = true ->
  live_sources (StateFiles := files') = live_sources (StateFiles := files) ->
  live_snapshot (StateFiles := files') = live_snapshot (StateFiles := files) ->
  save (files := files') s1 = (Ok tt, s1).
Proof.
  intros Hload Hpath Hdoc Hnow Hw Hw' Hsrc Hsnap.
  destruct (load_ok files _ _ _ _ Hload Hpath Hdoc Hnow) as (v & state & text & t & [Hv _] & Hs & Ht & Ha).
  assert (snapshot_now (files := files') (attributes s1) = Ok state) as Hs1.
  { unfold snapshot_now in *. rewrite Hsrc, Hsnap, Ha. rewrite <- Hs. symmetry.
    by apply (build_same _ _ _ v _ Hw Hw' Hv), recorded_others. }
  unfold save. unfold mbind at 1, M_bind at 1, get at 1. cbv beta iota zeta.
  destruct (state_path _ =? "")%string; [done|]. unfold mbind at 1, M_bind at 1, lift at 1. rewrite Hs1.
  unfold mbind at 1, M_bind at 1, lift at 1. rewrite Ht. unfold getattr. rewrite Ha, recorded_serialized. cbn.
  by rewrite String.eqb_refl.
Qed.

(** ** A service that starts, and saves on a disk that is full at first *)
Section example.

Definition with_path : service := <["runtime_state_path" := VStr " /data/evcharger.json "]> started_service.

(** The file system of the example: no document is newer than its field says, the first write fails. *)
Definition disk (now : float) : StateFiles := {|
  file_document := fun path => if (path =? "/data/evcharger.json")%string then Some (VDict broken_document) else None;
  file_modified_at := fun _ => Some (f_of_Z 700);
  file_write := fun before _ _ => match before with [] => Err OSError | _ => Ok tt end;
  machine_time := now; service_time := VFloat (f_of_Z 1000); live_sources := None; live_snapshot := None |}.

Definition fresh : live := mkLive with_path [].

(** The file is loaded, but its migration fails; a save finds nothing to do; then the owner changes the mode. *)
Definition loaded : live := snd (load (files := disk (f_of_Z 1000)) fresh).
Definition saved_once : live := snd (save (files := disk (f_of_Z 1000)) loaded).



(** A migration that failed is not tried again: the next save finds the state saved, and the file keeps its old
    document. *)
Lemma failed_migration_is_not_retried :
  map at_written saved_once.(attempts) = [false] /\
  save (files := disk (f_of_Z 2000)) loaded = (Ok tt, loaded).
Proof. split; vm_compute; reflexivity. Qed.


Lemma loading_leaves_nothing_to_save_witness :
  let r := load (files := disk (f_of_Z 1000)) fresh in
  fst r = Ok tt /\ map at_written (snd r).(attempts) = [false] /\
  save (files := disk (f_of_Z 5000)) (snd r) = (Ok tt, snd r).
Proof.
  cbv zeta. assert (fst (load (files := disk (f_of_Z 1000)) fresh) = Ok tt) as Hf by (vm_compute; reflexivity).
  split; [exact Hf|]. split; [vm_compute; reflexivity|].
  apply (loading_leaves_nothing_to_save (disk (f_of_Z 1000)) (disk (f_of_Z 5000)) fresh _ (f_of_Z 1000) broken_document).
  - rewrite <- Hf. apply surjective_pairing.
  - vm_compute. discriminate.
  - vm_compute. reflexivity.
  - vm_compute. reflexivity.
  - vm_compute. reflexivity.
  - vm_compute. reflexivity.
  - reflexivity.
  - reflexivity.
Defined.

End example.
