(* ===== verification/ChargeLearning.v ===== *)
(** * Learning the charging power

    [update/learning_profile.py], [learning_engine.py], [learning_runtime.py],
    [learning_signature.py], [learning_support.py] and [learning.py]: from the early, full-load part
    of a charging session the service learns how much power the vehicle draws, and discards what it
    learned when later sessions look different.

    The attributes [learned_charge_power_*] of the service have the fields of a profile, so the
    state is a profile.  The other attributes that learning reads do not change while it runs. *)

From S2P Require Import Prelude PyFloat PyValue PyFormat OrderedMap Contracts AutoPolicy.

(** update/learning_profile.py: LearnedChargePowerProfile *)
Record LearnedChargePowerProfile := mkLearnedChargePowerProfile {
  lc_state : string;
  lc_power : option float;
  lc_updated_at : option float;
  lc_learning_since : option float;
  lc_sample_count : Z;
  lc_phase_signature : option string;
  lc_voltage_signature : option float;
  lc_signature_mismatch_sessions : Z;
  lc_checked_session_started_at : option float;
  lc_confidence : float;
  lc_stability_score : float;
  lc_reason : string;
  lc_detail : string }.

#[export] Instance eta_learned_profile : Eta LearnedChargePowerProfile := fun p =>
  mkLearnedChargePowerProfile p.(lc_state) p.(lc_power) p.(lc_updated_at) p.(lc_learning_since) p.(lc_sample_count)
    p.(lc_phase_signature) p.(lc_voltage_signature) p.(lc_signature_mismatch_sessions) p.(lc_checked_session_started_at)
    p.(lc_confidence) p.(lc_stability_score) p.(lc_reason) p.(lc_detail).

(** The other attributes of the service that learning reads.
    update/learning_runtime.py: _LearningRuntimeService *)
Record learning_service := mkLearningService {
  charging_started_at : option float;
  learn_policy : AutoLearnChargePowerPolicy;
  configured_phase : string;
  max_current : float;
  voltage_mode : string;
  last_voltage : option float }.

(** update/learning_profile.py: normalized_learning_score *)
Definition normalized_learning_score (value : float) : float :=
  if isfinite value then py_round 3 (fmax f0 (fmin f1 value)) else f0.

(** update/learning_profile.py: normalized_learning_text *)
Definition normalized_learning_text (value dflt : string) : string :=
  let text := py_strip value in if (text =? "")%string then dflt else text.

(** ** The rules
    update/learning_engine.py *)
Module LearningEngine.

(** update/learning_engine.py: LearningWindowConfig *)
Record LearningWindowConfig := mkLearningWindowConfig { start_delay_seconds : float; window_seconds : float }.

(** update/learning_engine.py: LearningPlausibilityConfig *)
Record LearningPlausibilityConfig := mkLearningPlausibilityConfig { min_watts : float; max_watts : float }.

(** update/learning_engine.py: LearningStableConfig *)
Record LearningStableConfig := mkLearningStableConfig { min_samples : Z; base_seconds : float; min_stability_score : float }.

(** update/learning_engine.py: LearningEngine.window_status *)
Definition window_status (started_at : option float) (config : LearningWindowConfig) (now : float) : string * option float :=
  match started_at with
  | None => ("waiting", None)
  | Some session_started_at =>
    let elapsed := (now - session_started_at)%F in
    if (elapsed <? config.(start_delay_seconds))%F then ("waiting", None)
    else if (config.(window_seconds) >? f0)%F && (elapsed >? config.(start_delay_seconds) + config.(window_seconds))%F
    then ("expired", Some session_started_at)
    else ("ready", Some session_started_at)
  end.

(** update/learning_engine.py: LearningEngine.accepted_sample *)
Definition accepted_sample (power : float) (config : LearningPlausibilityConfig) : option float * string :=
  if (power <? config.(min_watts))%F then (None, "below-min")
  else if (power >? config.(max_watts))%F then (None, "above-plausible")
  else (Some power, "accepted").

(** update/learning_engine.py: LearningEngine.smoothed_values *)
Definition smoothed_values (previous_power measured_power : float)
    (previous_voltage_signature current_voltage_signature : option float) (alpha : float) : float * option float :=
  let learned_power := (previous_power + alpha * (measured_power - previous_power))%F in
  match current_voltage_signature, previous_voltage_signature with
  | None, _ => (learned_power, previous_voltage_signature)
  | Some current, None => (learned_power, Some current)
  | Some current, Some previous =>
    if (previous <=? f0)%F then (learned_power, Some current)
    else (learned_power, Some (previous + alpha * (current - previous))%F)
  end.

(** update/learning_engine.py: LearningEngine.sample_stability_score *)
Definition sample_stability_score (measured_power previous_power tolerance_watts : float) : float :=
  if (tolerance_watts <=? f0)%F then f0
  else normalized_learning_score (f1 - fabs (measured_power - previous_power) / tolerance_watts)%F.

(** update/learning_engine.py: LearningEngine.combined_stability_score *)
Definition combined_stability_score (previous_score sample_score : float) : float :=
  let previous := normalized_learning_score previous_score in
  if (previous <=? f0)%F then normalized_learning_score sample_score
  else normalized_learning_score (previous * fdec 7 10 + normalized_learning_score sample_score * fdec 3 10)%F.

(** update/learning_engine.py: LearningEngine.adaptive_stable_seconds *)
Definition adaptive_stable_seconds (base stability_score : float) : float :=
  let score := normalized_learning_score stability_score in
  if (score >=? fdec 9 10)%F then fmax f1 (base * fdec 1 2)%F
  else if (score <? fdec 3 4)%F then (base * fdec 5 4)%F
  else base.

(** update/learning_engine.py: LearningEngine.confidence_score *)
Definition confidence_score (state : string) (sample_count min_samples : Z) (learning_since : option float)
    (now stability_score adaptive_seconds : float) : res float :=
  if (state =? "stable")%string then Ok (fmax (fdec 85 100) (normalized_learning_score stability_score))
  else if negb (state =? "learning")%string then Ok f0
  else
    count ← float_of_int (Z.max 0 sample_count);
    minimum ← float_of_int min_samples;
    let sample_progress := fmin f1 (count / fmax f1 minimum)%F in
    let span_seconds := match learning_since with None => f0 | Some since => fmax f0 (now - since)%F end in
    let span_progress := fmin f1 (fmax (fdec 1 4) (span_seconds / fmax f1 adaptive_seconds)%F) in
    mret (normalized_learning_score (sample_progress * span_progress * stability_score)%F).

(** update/learning_engine.py: LearningEngine.stable_ready *)
Definition stable_ready (sample_count : Z) (learning_span stability_score : float) (config : LearningStableConfig) : bool :=
  (config.(min_samples) <=? sample_count) &&
  (learning_span >=? adaptive_stable_seconds config.(base_seconds) stability_score)%F &&
  (normalized_learning_score stability_score >=? normalized_learning_score config.(min_stability_score))%F.

End LearningEngine.

(** ** The stored profile
    update/learning_runtime.py *)

(** The constants of the controller. *)
(** update/learning.py: LearningController.LEARNED_POWER_STABLE_MIN_SAMPLES *)
Definition LEARNED_POWER_STABLE_MIN_SAMPLES : Z := 3.

(** update/learning.py: LearningController.LEARNED_POWER_STABLE_MIN_SECONDS *)
Definition LEARNED_POWER_STABLE_MIN_SECONDS : float := f_of_Z 15.

(** update/learning.py: LearningController.LEARNED_POWER_STABLE_TOLERANCE_WATTS *)
Definition LEARNED_POWER_STABLE_TOLERANCE_WATTS : float := f_of_Z 150.

(** update/learning.py: LearningController.LEARNED_POWER_STABLE_TOLERANCE_RATIO *)
Definition LEARNED_POWER_STABLE_TOLERANCE_RATIO : float := fdec 8 100.

(** update/learning.py: LearningController.LEARNED_POWER_SIGNATURE_MISMATCH_SESSIONS *)
Definition LEARNED_POWER_SIGNATURE_MISMATCH_SESSIONS : Z := 2.

(** update/learning.py: LearningController.LEARNED_POWER_VOLTAGE_TOLERANCE_VOLTS *)
Definition LEARNED_POWER_VOLTAGE_TOLERANCE_VOLTS : float := f_of_Z 10.

(** update/learning_support.py: _UpdateCycleLearningSupport._MIN_STABLE_LEARNING_SCORE *)
Definition MIN_STABLE_LEARNING_SCORE : float := fdec 65 100.

(** update/learning_runtime.py: _DEFAULT_LEARNING_VOLTAGE *)
Definition DEFAULT_LEARNING_VOLTAGE : float := f_of_Z 230.

(** update/learning_runtime.py: _LearningRuntime._normalize_learned_charge_power_state *)
Definition normalize_learned_charge_power_state (value : string) : string := normalize_learning_state (VStr value).

(** update/learning_runtime.py: _LearningRuntime._normalize_learned_charge_power_phase *)
Definition normalize_learned_charge_power_phase (value : option string) : option string :=
  normalize_learning_phase (val_of_str value).

(** update/learning_runtime.py: _LearningRuntime._normalized_learning_power_value *)
Definition normalized_learning_power_value (value : option float) : option float := option_map (py_round 1) value.

(** update/learning_runtime.py: _LearningRuntime._normalized_learning_count *)
Definition normalized_learning_count (value : Z) : Z := Z.max 0 value.

(** update/learning_runtime.py: _LearningTrackingSnapshot *)
Record learning_tracking := mkLearningTracking {
  lt_state : string; lt_power : option float; lt_updated_at : option float; lt_learning_since : option float;
  lt_sample_count : Z; lt_phase_signature : option string; lt_voltage_signature : option float;
  lt_signature_mismatch_sessions : Z; lt_checked_session_started_at : option float }.

(** The diagnostics a caller sets; [None] leaves one as it is. *)
Record learning_diagnostics := mkLearningDiagnostics {
  ld_confidence : option float; ld_stability_score : option float; ld_reason : option string; ld_detail : option string }.

Definition no_diagnostics : learning_diagnostics := mkLearningDiagnostics None None None None.
Definition all_diagnostics (confidence stability_score : float) (reason detail : string) : learning_diagnostics :=
  mkLearningDiagnostics (Some confidence) (Some stability_score) (Some reason) (Some detail).

(** update/learning_runtime.py: _LearningRuntime._learning_profile *)
Definition learning_profile (s : LearnedChargePowerProfile) : LearnedChargePowerProfile :=
  mkLearnedChargePowerProfile (normalize_learned_charge_power_state s.(lc_state)) (normalized_learning_power_value s.(lc_power))
    s.(lc_updated_at) s.(lc_learning_since) (normalized_learning_count s.(lc_sample_count))
    (normalize_learned_charge_power_phase s.(lc_phase_signature)) s.(lc_voltage_signature)
    (normalized_learning_count s.(lc_signature_mismatch_sessions)) s.(lc_checked_session_started_at)
    (normalized_learning_score s.(lc_confidence)) (normalized_learning_score s.(lc_stability_score))
    (normalized_learning_text s.(lc_reason) "na") (normalized_learning_text s.(lc_detail) "").

(** update/learning_runtime.py: _LearningRuntime._normalized_learning_tracking_values *)
Definition normalized_learning_tracking_values (t : learning_tracking) : learning_tracking :=
  mkLearningTracking (normalize_learned_charge_power_state t.(lt_state)) (normalized_learning_power_value t.(lt_power))
    t.(lt_updated_at) t.(lt_learning_since) (normalized_learning_count t.(lt_sample_count))
    (normalize_learned_charge_power_phase t.(lt_phase_signature)) (normalized_learning_power_value t.(lt_voltage_signature))
    (normalized_learning_count t.(lt_signature_mismatch_sessions)) t.(lt_checked_session_started_at).

(** Python's [==] of optional numbers and texts. *)
Definition same_number (a b : option float) : bool :=
  match a, b with Some x, Some y => (x =? y)%F | None, None => true | _, _ => false end.
Definition same_text (a b : option string) : bool :=
  match a, b with Some x, Some y => (x =? y)%string | None, None => true | _, _ => false end.

(** update/learning_runtime.py: _LearningRuntime._learning_tracking_changed *)
Definition learning_tracking_changed (s : LearnedChargePowerProfile) (t : learning_tracking) : bool :=
  negb (s.(lc_state) =? t.(lt_state))%string || negb (same_number s.(lc_power) t.(lt_power)) ||
  negb (same_number s.(lc_updated_at) t.(lt_updated_at)) || negb (same_number s.(lc_learning_since) t.(lt_learning_since)) ||
  negb (s.(lc_sample_count) =? t.(lt_sample_count)) || negb (same_text s.(lc_phase_signature) t.(lt_phase_signature)) ||
  negb (same_number s.(lc_voltage_signature) t.(lt_voltage_signature)) ||
  negb (s.(lc_signature_mismatch_sessions) =? t.(lt_signature_mismatch_sessions)) ||
  negb (same_number s.(lc_checked_session_started_at) t.(lt_checked_session_started_at)).

(** update/learning_runtime.py: _LearningRuntime._apply_learning_tracking *)
Definition apply_learning_tracking (t : learning_tracking) (s : LearnedChargePowerProfile) : LearnedChargePowerProfile :=
  mkLearnedChargePowerProfile t.(lt_state) t.(lt_power) t.(lt_updated_at) t.(lt_learning_since) t.(lt_sample_count)
    t.(lt_phase_signature) t.(lt_voltage_signature) t.(lt_signature_mismatch_sessions) t.(lt_checked_session_started_at)
    s.(lc_confidence) s.(lc_stability_score) s.(lc_reason) s.(lc_detail).

(** The normalized diagnostics to store.
    update/learning_runtime.py: _LearningRuntime._learning_diagnostic_updates *)
Definition learning_diagnostic_updates (d : learning_diagnostics) : learning_diagnostics :=
  mkLearningDiagnostics (option_map normalized_learning_score d.(ld_confidence))
    (option_map normalized_learning_score d.(ld_stability_score))
    (option_map (fun t => normalized_learning_text t "na") d.(ld_reason))
    (option_map (fun t => normalized_learning_text t "") d.(ld_detail)).

(** update/learning_runtime.py: _LearningRuntime._apply_learning_diagnostics *)
Definition apply_learning_diagnostics (d : learning_diagnostics) : M LearnedChargePowerProfile bool := fun s =>
  let u := learning_diagnostic_updates d in
  (Ok (match u.(ld_confidence) with Some x => negb (s.(lc_confidence) =? x)%F | None => false end ||
       match u.(ld_stability_score) with Some x => negb (s.(lc_stability_score) =? x)%F | None => false end ||
       match u.(ld_reason) with Some t => negb (s.(lc_reason) =? t)%string | None => false end ||
       match u.(ld_detail) with Some t => negb (s.(lc_detail) =? t)%string | None => false end),
   s <| lc_confidence := default s.(lc_confidence) u.(ld_confidence) |>
     <| lc_stability_score := default s.(lc_stability_score) u.(ld_stability_score) |>
     <| lc_reason := default s.(lc_reason) u.(ld_reason) |>
     <| lc_detail := default s.(lc_detail) u.(ld_detail) |>).

(** update/learning_runtime.py: _LearningRuntime._set_learning_tracking *)
Definition set_learning_tracking (t : learning_tracking) (d : learning_diagnostics) : M LearnedChargePowerProfile bool :=
  let normalized := normalized_learning_tracking_values t in
  changed ← gets (fun s => learning_tracking_changed s normalized);
  modify (apply_learning_tracking normalized);;
  diagnostics_changed ← apply_learning_diagnostics d;
  mret (changed || diagnostics_changed).

(** update/learning_runtime.py: _LearningRuntime._stored_positive_learned_charge_power *)
Definition stored_positive_learned_charge_power (s : LearnedChargePowerProfile) : option float :=
  match (learning_profile s).(lc_power) with
  | Some power => if (power <=? f0)%F then None else Some power
  | None => None
  end.

(** update/learning_runtime.py: _LearningRuntime._stored_learning_state *)
Definition stored_learning_state (s : LearnedChargePowerProfile) : string := (learning_profile s).(lc_state).

(** update/learning_runtime.py: _LearningRuntime._stored_learning_phase_signature *)
Definition stored_learning_phase_signature (s : LearnedChargePowerProfile) : option string :=
  (learning_profile s).(lc_phase_signature).

(** update/learning_runtime.py: _LearningRuntime._learning_signature_context *)
Definition learning_signature_context (s : LearnedChargePowerProfile) : option float * Z * option float :=
  let profile := learning_profile s in
  (profile.(lc_voltage_signature), profile.(lc_signature_mismatch_sessions), profile.(lc_checked_session_started_at)).

(** update/learning_runtime.py: _LearningRuntime._learning_stability_tolerance *)
Definition learning_stability_tolerance (reference_power : float) : float :=
  fmax LEARNED_POWER_STABLE_TOLERANCE_WATTS (fabs reference_power * LEARNED_POWER_STABLE_TOLERANCE_RATIO)%F.

(** update/learning_runtime.py: _LearningRuntime._voltage_signature_tolerance *)
Definition voltage_signature_tolerance (reference_voltage : float) : float :=
  fmax LEARNED_POWER_VOLTAGE_TOLERANCE_VOLTS (fabs reference_voltage * LEARNED_POWER_STABLE_TOLERANCE_RATIO)%F.

(** update/learning_runtime.py: _LearningRuntime._learning_phase_count *)
Definition learning_phase_count (phase : string) : float :=
  if (py_upper (py_strip phase) =? "3P")%string then f_of_Z 3 else f1.

Section service.
Context (svc : learning_service).

(** update/learning_runtime.py: _LearningRuntime._current_learning_phase_signature *)
Definition current_learning_phase_signature : option string := normalize_learned_charge_power_phase (Some svc.(configured_phase)).

(** update/learning_runtime.py: _LearningRuntime._current_learning_voltage_signature *)
Definition current_learning_voltage_signature (voltage : float) : option float :=
  if (voltage >? f0)%F then Some voltage
  else match svc.(last_voltage) with Some v => if (v <=? f0)%F then None else Some v | None => None end.

(** update/learning_runtime.py: _LearningRuntime._effective_learning_voltage *)
Definition effective_learning_voltage (voltage : float) : float :=
  if (voltage >? f0)%F then voltage
  else match svc.(last_voltage) with
       | Some v => if ftruthy v then v else DEFAULT_LEARNING_VOLTAGE
       | None => DEFAULT_LEARNING_VOLTAGE
       end.

(** update/learning_runtime.py: _LearningRuntime._learning_voltage_mode_value *)
Definition learning_voltage_mode_value : string := py_lower (py_strip svc.(voltage_mode)).

(** update/learning_runtime.py: _LearningRuntime._plausible_learning_power_max *)
Definition plausible_learning_power_max (voltage : float) : float :=
  let phase_count := learning_phase_count svc.(configured_phase) in
  let effective_voltage := effective_learning_voltage voltage in
  let effective_voltage :=
    if (phase_count =? f_of_Z 3)%F && negb (learning_voltage_mode_value =? "phase")%string
    then (effective_voltage / fsqrt (f_of_Z 3))%F else effective_voltage in
  (fmax svc.(max_current) f0 * effective_voltage * phase_count * fdec 11 10)%F.

(** update/learning_runtime.py: _LearningRuntime._is_learned_charge_power_stale *)
Definition is_learned_charge_power_stale (now : float) (s : LearnedChargePowerProfile) : bool :=
  let max_age_seconds := svc.(learn_policy).(alcp_max_age_seconds) in
  if (max_age_seconds <=? f0)%F then false
  else match s.(lc_updated_at) with None => true | Some updated_at => (now - updated_at >? max_age_seconds)%F end.

(** ** Signatures
    update/learning_signature.py *)

(** update/learning_signature.py: _UpdateCycleLearningSignature._signature_checked_session_started_at *)
Definition signature_checked_session_started_at (s : LearnedChargePowerProfile) : option float :=
  finite_of s.(lc_checked_session_started_at).

(** update/learning_signature.py: _UpdateCycleLearningSignature._signature_session_delay_elapsed *)
Definition signature_session_delay_elapsed (current_session_started_at now : float) : bool :=
  (now - current_session_started_at >=? svc.(learn_policy).(alcp_start_delay_seconds))%F.

(** update/learning_signature.py: _UpdateCycleLearningSignature._signature_session_already_checked *)
Definition signature_session_already_checked (current_session_started_at : float) (s : LearnedChargePowerProfile) : bool :=
  match signature_checked_session_started_at s with Some t => (t =? current_session_started_at)%F | None => false end.

(** update/learning_signature.py: _UpdateCycleLearningSignature._stable_learned_power *)
Definition stable_learned_power (s : LearnedChargePowerProfile) : option float :=
  match s.(lc_power) with
  | Some power =>
    if negb (normalize_learned_charge_power_state s.(lc_state) =? "stable")%string || (power <=? f0)%F then None else Some power
  | None => None
  end.

(** update/learning_signature.py: _LearningSignatureSnapshot *)
Record signature_snapshot := mkSignatureSnapshot {
  ss_phase_signature : option string; ss_voltage_signature : option float;
  ss_signature_mismatch_sessions : Z; ss_checked_session_started_at : option float }.

(** update/learning_signature.py: _UpdateCycleLearningSignature._signature_preserving_snapshot *)
Definition signature_preserving_snapshot (s : LearnedChargePowerProfile) : signature_snapshot :=
  mkSignatureSnapshot (normalize_learned_charge_power_phase s.(lc_phase_signature)) (finite_of s.(lc_voltage_signature))
    (Z.max 0 s.(lc_signature_mismatch_sessions)) (finite_of s.(lc_checked_session_started_at)).

(** update/learning_signature.py: _UpdateCycleLearningSignature._clear_learning_tracking *)
Definition clear_learning_tracking : M LearnedChargePowerProfile bool :=
  set_learning_tracking (mkLearningTracking "unknown" None None None 0 None None 0 None) no_diagnostics.

(** update/learning_signature.py: _UpdateCycleLearningSignature._stable_sample_count *)
Definition stable_sample_count (s : LearnedChargePowerProfile) : Z := Z.max LEARNED_POWER_STABLE_MIN_SAMPLES s.(lc_sample_count).

(** update/learning_signature.py: _UpdateCycleLearningSignature._phase_change_reset *)
Definition phase_change_reset (stored_phase_signature current_phase_signature : option string)
    : M LearnedChargePowerProfile (option bool) :=
  match stored_phase_signature, current_phase_signature with
  | Some stored, Some current =>
    if (stored =? current)%string then mret None else changed ← clear_learning_tracking; mret (Some changed)
  | _, _ => mret None
  end.

(** update/learning_signature.py: _UpdateCycleLearningSignature._apply_stable_learning *)
Definition apply_stable_learning (learned_power : float) (updated_at : option float) (phase_signature : option string)
    (voltage_signature : option float) (signature_mismatch_sessions : Z) (checked_session_started_at : option float)
    (d : learning_diagnostics) : M LearnedChargePowerProfile bool :=
  count ← gets stable_sample_count;
  set_learning_tracking
    (mkLearningTracking "stable" (Some learned_power) updated_at None count phase_signature voltage_signature
       signature_mismatch_sessions checked_session_started_at) d.

(** update/learning_signature.py: _UpdateCycleLearningSignature._eligible_signature_session_started_at *)
Definition eligible_signature_session_started_at (relay_on : bool) (now : float) (s : LearnedChargePowerProfile) : option float :=
  match svc.(charging_started_at) with
  | Some started_at =>
    if negb relay_on || negb (signature_session_delay_elapsed started_at now) || signature_session_already_checked started_at s
    then None else Some started_at
  | None => None
  end.

(** update/learning_signature.py: _UpdateCycleLearningSignature._signature_mismatch_reasons *)
Definition signature_mismatch_reasons (power voltage learned_power : float) (s : LearnedChargePowerProfile)
    : list string * option float :=
  let current_voltage_signature := current_learning_voltage_signature voltage in
  (match s.(lc_voltage_signature), current_voltage_signature with
   | Some stored, Some current => if (fabs (current - stored) >? voltage_signature_tolerance stored)%F then ["voltage"] else []
   | _, _ => []
   end ++
   (if (fabs (power - learned_power) >? learning_stability_tolerance learned_power)%F then ["power"] else []),
   current_voltage_signature).

(** [signature_snapshot["phase_signature"] or current_phase_signature] *)
Definition phase_or (stored current : option string) : option string :=
  match stored with Some t => if (t =? "")%string then current else stored | None => current end.

(** update/learning_signature.py: _UpdateCycleLearningSignature._stable_signature_reconcile_result *)
Definition stable_signature_reconcile_result (learned_power : float) (current_phase_signature : option string)
    (current_session_started_at : float) (snapshot : signature_snapshot) : M LearnedChargePowerProfile bool :=
  updated_at ← gets lc_updated_at;
  apply_stable_learning learned_power updated_at (phase_or snapshot.(ss_phase_signature) current_phase_signature)
    snapshot.(ss_voltage_signature) 0 (Some current_session_started_at) no_diagnostics.

(** update/learning_signature.py: _UpdateCycleLearningSignature._signature_mismatch_count *)
Definition signature_mismatch_count (snapshot : signature_snapshot) : Z := snapshot.(ss_signature_mismatch_sessions) + 1.

(** update/learning_signature.py: _UpdateCycleLearningSignature._mismatching_signature_reconcile_result *)
Definition mismatching_signature_reconcile_result (learned_power : float) (current_phase_signature : option string)
    (current_session_started_at : float) (snapshot : signature_snapshot) : M LearnedChargePowerProfile bool :=
  let mismatch_sessions := signature_mismatch_count snapshot in
  if LEARNED_POWER_SIGNATURE_MISMATCH_SESSIONS <=? mismatch_sessions then clear_learning_tracking
  else
    updated_at ← gets lc_updated_at;
    apply_stable_learning learned_power updated_at (phase_or snapshot.(ss_phase_signature) current_phase_signature)
      snapshot.(ss_voltage_signature) mismatch_sessions (Some current_session_started_at) no_diagnostics.

(** update/learning_signature.py: _UpdateCycleLearningSignature._apply_signature_reconcile_result *)
Definition apply_signature_reconcile_result (learned_power : float) (current_phase_signature : option string)
    (current_session_started_at : float) (mismatch_reasons : list string) : M LearnedChargePowerProfile bool :=
  snapshot ← gets signature_preserving_snapshot;
  match mismatch_reasons with
  | [] => stable_signature_reconcile_result learned_power current_phase_signature current_session_started_at snapshot
  | _ => mismatching_signature_reconcile_result learned_power current_phase_signature current_session_started_at snapshot
  end.

(** ** Samples
    update/learning_support.py *)

(** update/learning_support.py: _UpdateCycleLearningSupport._learning_window_status *)
Definition learning_window_status (now : float) : string * option float :=
  LearningEngine.window_status svc.(charging_started_at)
    (LearningEngine.mkLearningWindowConfig svc.(learn_policy).(alcp_start_delay_seconds) svc.(learn_policy).(alcp_window_seconds)) now.

(** update/learning_support.py: _UpdateCycleLearningSupport._accepted_learning_sample_result *)
Definition accepted_learning_sample_result (power voltage : float) : option float * string :=
  LearningEngine.accepted_sample power
    (LearningEngine.mkLearningPlausibilityConfig svc.(learn_policy).(alcp_min_watts) (plausible_learning_power_max voltage)).

(** update/learning_support.py: _UpdateCycleLearningSupport._learning_measurement_ignored *)
Definition learning_measurement_ignored (enabled pm_confirmed : bool) : bool := negb enabled || negb pm_confirmed.

(** update/learning_support.py: _UpdateCycleLearningSupport._learning_measurement_active *)
Definition learning_measurement_active (relay_on : bool) (status : Z) : bool := relay_on && (status =? 2).

(** update/learning_support.py: _UpdateCycleLearningSupport._inactive_learning_session_decision *)
Definition inactive_learning_session_decision (current_state : string) : M LearnedChargePowerProfile bool :=
  if negb (current_state =? "learning")%string then mret false else clear_learning_tracking.

(** update/learning_support.py: _UpdateCycleLearningSupport._windowed_learning_session_decision *)
Definition windowed_learning_session_decision (window_status current_state : string) : M LearnedChargePowerProfile bool :=
  if (window_status =? "expired")%string && (current_state =? "learning")%string then clear_learning_tracking else mret false.

(** update/learning_support.py: _UpdateCycleLearningSupport._learning_session_result *)
Definition learning_session_result (enabled pm_confirmed relay_on : bool) (status : Z) (now : float) (current_state : string)
    : M LearnedChargePowerProfile (option float * option bool) :=
  if learning_measurement_ignored enabled pm_confirmed then mret (None, Some false)
  else if negb (learning_measurement_active relay_on status) then
    decision ← inactive_learning_session_decision current_state; mret (None, Some decision)
  else
    let '(window_status, started_at) := learning_window_status now in
    if (window_status =? "ready")%string then mret (started_at, None)
    else decision ← windowed_learning_session_decision window_status current_state; mret (None, Some decision).

(** update/learning_support.py: _UpdateCycleLearningSupport._should_restart_learning *)
Definition should_restart_learning (current_state : string) (previous : option float) (now : float)
    (s : LearnedChargePowerProfile) : bool :=
  str_in current_state ["unknown"; "stale"] ||
  match previous with None => true | Some p => (p <=? f0)%F end ||
  is_learned_charge_power_stale now s.

(** update/learning_support.py: _UpdateCycleLearningSupport._smoothed_learning_values *)
Definition smoothed_learning_values (previous_value measured_power : float) (current_voltage_signature : option float)
    (s : LearnedChargePowerProfile) : float * option float :=
  LearningEngine.smoothed_values previous_value measured_power s.(lc_voltage_signature) current_voltage_signature
    svc.(learn_policy).(alcp_alpha).

(** update/learning_support.py: _UpdateCycleLearningSupport._adaptive_stable_learning_seconds *)
Definition adaptive_stable_learning_seconds (stability_score : float) : float :=
  LearningEngine.adaptive_stable_seconds LEARNED_POWER_STABLE_MIN_SECONDS stability_score.

(** update/learning_support.py: _UpdateCycleLearningSupport._learning_confidence_score *)
Definition learning_confidence_score (state : string) (sample_count : Z) (learning_since : option float)
    (now stability_score : float) : res float :=
  LearningEngine.confidence_score state sample_count LEARNED_POWER_STABLE_MIN_SAMPLES learning_since now stability_score
    (adaptive_stable_learning_seconds stability_score).

(** update/learning_support.py: _UpdateCycleLearningSupport._restart_learning_sample *)
Definition restart_learning_sample (measured_power now : float) (current_phase_signature : option string)
    (current_voltage_signature : option float) (reason detail : string) : M LearnedChargePowerProfile bool :=
  confidence ← lift (learning_confidence_score "learning" 1 (Some now) now f1);
  set_learning_tracking
    (mkLearningTracking "learning" (Some measured_power) (Some now) (Some now) 1 current_phase_signature
       current_voltage_signature 0 None)
    (all_diagnostics confidence f1 reason detail).

(** update/learning_support.py: _UpdateCycleLearningSupport._learning_sample_stability_score *)
Definition learning_sample_stability_score (measured_power previous_value : float) : float :=
  LearningEngine.sample_stability_score measured_power previous_value (learning_stability_tolerance previous_value).

(** update/learning_support.py: _UpdateCycleLearningSupport._combined_learning_stability_score *)
Definition combined_learning_stability_score (sample_score : float) (s : LearnedChargePowerProfile) : float :=
  LearningEngine.combined_stability_score (normalized_learning_score s.(lc_stability_score)) sample_score.

(** update/learning_support.py: _UpdateCycleLearningSupport._stable_learning_ready *)
Definition stable_learning_ready (sample_count : Z) (learning_span stability_score : float) : bool :=
  LearningEngine.stable_ready sample_count learning_span stability_score
    (LearningEngine.mkLearningStableConfig LEARNED_POWER_STABLE_MIN_SAMPLES LEARNED_POWER_STABLE_MIN_SECONDS
       MIN_STABLE_LEARNING_SCORE).

(** [f"samples={sample_count}"] *)
Definition samples_text (sample_count : Z) : string := "samples=" ++ py_str (VInt sample_count).

(** update/learning_support.py: _UpdateCycleLearningSupport._apply_learning_progress *)
Definition apply_learning_progress (measured_power previous_value learned_power : float)
    (learned_voltage_signature : option float) (current_phase_signature : option string)
    (current_voltage_signature : option float) (started_at now : float) : M LearnedChargePowerProfile bool :=
  s ← get;
  let learning_since := default now s.(lc_learning_since) in
  let sample_count := Z.max 1 s.(lc_sample_count) in
  let sample_stability_score := learning_sample_stability_score measured_power previous_value in
  if (sample_stability_score <=? f0)%F then
    restart_learning_sample measured_power now current_phase_signature current_voltage_signature "learning-restart" "sample-unstable"
  else
    let sample_count := sample_count + 1 in
    let learning_span := (now - learning_since)%F in
    let stability_score := combined_learning_stability_score sample_stability_score s in
    confidence ← lift (learning_confidence_score "learning" sample_count (Some learning_since) now stability_score);
    if stable_learning_ready sample_count learning_span stability_score then
      apply_stable_learning learned_power (Some now) current_phase_signature learned_voltage_signature 0 (Some started_at)
        (all_diagnostics f1 stability_score "learning-stable" (samples_text sample_count))
    else
      set_learning_tracking
        (mkLearningTracking "learning" (Some learned_power) (Some now) (Some learning_since) sample_count
           current_phase_signature learned_voltage_signature 0 None)
        (all_diagnostics confidence stability_score "learning-sample" (samples_text sample_count)).

(** update/learning_support.py: _UpdateCycleLearningSupport._apply_learning_sample *)
Definition apply_learning_sample (current_state : string) (measured_power : float) (current_phase_signature : option string)
    (current_voltage_signature : option float) (started_at now : float) : M LearnedChargePowerProfile bool :=
  s ← get;
  let previous := s.(lc_power) in
  if should_restart_learning current_state previous now s then
    restart_learning_sample measured_power now current_phase_signature current_voltage_signature "learning-restart" "new-baseline"
  else
    match previous with
    | None => raise AssertionError
    | Some previous_value =>
      let '(learned_power, learned_voltage_signature) :=
        smoothed_learning_values previous_value measured_power current_voltage_signature s in
      if (current_state =? "stable")%string then
        apply_stable_learning learned_power (Some now) current_phase_signature learned_voltage_signature 0 (Some started_at)
          (all_diagnostics f1 (learning_sample_stability_score measured_power previous_value) "learning-stable-refresh" "stable-sample")
      else
        apply_learning_progress measured_power previous_value learned_power learned_voltage_signature current_phase_signature
          current_voltage_signature started_at now
    end.

(** ** The controller
    update/learning.py *)

(** update/learning.py: LearningController._resolved_learning_phase_signature *)
Definition resolved_learning_phase_signature (stored_phase_signature current_phase_signature : option string) : option string :=
  match stored_phase_signature with Some _ => stored_phase_signature | None => current_phase_signature end.

(** update/learning.py: LearningController._apply_stale_learning *)
Definition apply_stale_learning (learned_power : float) (stored_phase_signature : option string) : M LearnedChargePowerProfile bool :=
  s ← get;
  let '(voltage_signature, signature_mismatch_sessions, checked_session_started_at) := learning_signature_context s in
  set_learning_tracking
    (mkLearningTracking "stale" (Some learned_power) s.(lc_updated_at) None 0 stored_phase_signature voltage_signature
       signature_mismatch_sessions checked_session_started_at)
    (all_diagnostics f0 s.(lc_stability_score) "learning-stale" "max-age").

(** update/learning.py: LearningController._should_restore_stable_learning *)
Definition should_restore_stable_learning (current_state : string) (s : LearnedChargePowerProfile) : bool :=
  (current_state =? "unknown")%string && match s.(lc_updated_at) with Some _ => true | None => false end.

(** update/learning.py: LearningController._restore_stable_learning *)
Definition restore_stable_learning (learned_power : float) (stored_phase_signature current_phase_signature : option string)
    : M LearnedChargePowerProfile bool :=
  s ← get;
  let '(voltage_signature, signature_mismatch_sessions, checked_session_started_at) := learning_signature_context s in
  apply_stable_learning learned_power s.(lc_updated_at)
    (resolved_learning_phase_signature stored_phase_signature current_phase_signature) voltage_signature
    signature_mismatch_sessions checked_session_started_at
    (all_diagnostics f1 s.(lc_stability_score) "learning-restored" "stored-value").

(** update/learning.py: LearningController._preserve_learning_tracking *)
Definition preserve_learning_tracking (learned_power : float) (current_state : string)
    (stored_phase_signature current_phase_signature : option string) : M LearnedChargePowerProfile bool :=
  s ← get;
  let '(voltage_signature, signature_mismatch_sessions, checked_session_started_at) := learning_signature_context s in
  set_learning_tracking
    (mkLearningTracking current_state (Some learned_power) s.(lc_updated_at) s.(lc_learning_since) (Z.max 0 s.(lc_sample_count))
       (resolved_learning_phase_signature stored_phase_signature current_phase_signature) voltage_signature
       signature_mismatch_sessions checked_session_started_at)
    no_diagnostics.

(** update/learning.py: LearningController._refresh_learning_tracking_without_phase_reset *)
Definition refresh_learning_tracking_without_phase_reset (now learned_power : float) (current_state : string)
    (stored_phase_signature current_phase_signature : option string) : M LearnedChargePowerProfile bool :=
  s ← get;
  if is_learned_charge_power_stale now s then apply_stale_learning learned_power stored_phase_signature
  else if should_restore_stable_learning current_state s then
    restore_stable_learning learned_power stored_phase_signature current_phase_signature
  else if (current_state =? "stale")%string then mret false
  else preserve_learning_tracking learned_power current_state stored_phase_signature current_phase_signature.

(** update/learning.py: LearningController.refresh_learned_charge_power_state *)
Definition refresh_learned_charge_power_state (now : float) : M LearnedChargePowerProfile bool :=
  s ← get;
  match stored_positive_learned_charge_power s with
  | None => clear_learning_tracking
  | Some learned_power =>
    let current_state := stored_learning_state s in
    let stored_phase_signature := stored_learning_phase_signature s in
    phase_reset ← phase_change_reset stored_phase_signature current_learning_phase_signature;
    match phase_reset with
    | Some result => mret result
    | None =>
      refresh_learning_tracking_without_phase_reset now learned_power current_state stored_phase_signature
        current_learning_phase_signature
    end
  end.

(** update/learning.py: LearningController.reconcile_learned_charge_power_signature *)
Definition reconcile_learned_charge_power_signature (relay_on : bool) (power voltage now : float) (pm_confirmed : bool)
    : M LearnedChargePowerProfile bool :=
  s ← get;
  match stable_learned_power s with
  | None => mret false
  | Some learned_power =>
    if negb pm_confirmed then mret false
    else
      let stored_phase_signature := normalize_learned_charge_power_phase s.(lc_phase_signature) in
      phase_reset ← phase_change_reset stored_phase_signature current_learning_phase_signature;
      match phase_reset with
      | Some result => mret result
      | None =>
        match eligible_signature_session_started_at relay_on now s with
        | None => mret false
        | Some current_session_started_at =>
          apply_signature_reconcile_result learned_power current_learning_phase_signature current_session_started_at
            (fst (signature_mismatch_reasons power voltage learned_power s))
        end
      end
  end.

(** update/learning.py: LearningController.update_learned_charge_power *)
Definition update_learned_charge_power (relay_on : bool) (status : Z) (power voltage now : float) (pm_confirmed : bool)
    : M LearnedChargePowerProfile bool :=
  s ← get;
  let current_state := normalize_learned_charge_power_state s.(lc_state) in
  let current_voltage_signature := current_learning_voltage_signature voltage in
  '(started_at, decision) ←
    learning_session_result svc.(learn_policy).(alcp_enabled) pm_confirmed relay_on status now current_state;
  match decision with
  | Some result => mret result
  | None =>
    let '(measured_power, sample_reason) := accepted_learning_sample_result power voltage in
    match measured_power with
    | None => apply_learning_diagnostics (all_diagnostics f0 f0 "sample-rejected" sample_reason);; mret false
    | Some measured =>
      match started_at with
      | None => raise AssertionError
      | Some start => apply_learning_sample current_state measured current_learning_phase_signature current_voltage_signature start now
      end
    end
  end.

End service.
