(* ===== verification/ChargeLearningSafety.v ===== *)
(** * What the learned charging power rests on

    A learned power becomes stable only after an uninterrupted stretch of charging with enough
    accepted samples; a steady power does become stable; a stable power is discarded only for a
    reason. *)

From S2P Require Import Prelude PyFloat PyValue PyFormat OrderedMap Contracts AutoPolicy Rounding ChargeLearning.

(** One call of [update_learned_charge_power]. *)
Record sample := mkSample {
  sm_service : learning_service; sm_relay_on : bool; sm_status : Z; sm_power : float; sm_voltage : float; sm_now : float;
  sm_pm_confirmed : bool }.

Definition update (x : sample) : M LearnedChargePowerProfile bool :=
  update_learned_charge_power x.(sm_service) x.(sm_relay_on) x.(sm_status) x.(sm_power) x.(sm_voltage) x.(sm_now) x.(sm_pm_confirmed).

Definition measured (x : sample) : bool := x.(sm_service).(learn_policy).(alcp_enabled) && x.(sm_pm_confirmed).
Definition charging (x : sample) : bool := x.(sm_relay_on) && (x.(sm_status) =? 2).
Definition window (x : sample) : string := fst (learning_window_status x.(sm_service) x.(sm_now)).
Definition plausible (x : sample) : bool :=
  match fst (accepted_learning_sample_result x.(sm_service) x.(sm_power) x.(sm_voltage)) with Some _ => true | None => false end.

(** A sample that learning uses: a confirmed measurement of a charging vehicle, after the start delay
    of the session and within its window, of a plausible power. *)
Definition accepted (x : sample) : bool := measured x && charging x && (window x =? "ready")%string && plausible x.

(** A measurement that does not interrupt learning. *)
Definition calm (x : sample) : bool := negb (measured x) || (charging x && negb (window x =? "expired")%string).

(** A stretch of calls from one accepted sample to another, with three accepted samples or more in it,
    seven and a half seconds long at least, and never interrupted. *)
Definition mature (l : list sample) : Prop :=
  exists first middle last, l = first :: middle ++ [last] /\ accepted first = true /\ accepted last = true /\
    (3 <= length (List.filter accepted l))%nat /\ forallb calm l = true /\
    (last.(sm_now) - first.(sm_now) >=? fdec 15 2)%F = true.

(** The life of the profile: refreshed, reconciled and updated in any order, with any settings; the
    list holds the updates so far. *)
Definition no_profile : LearnedChargePowerProfile :=
  mkLearnedChargePowerProfile "unknown" None None None 0 None None 0 None f0 f0 "na" "".

Inductive history : list sample -> LearnedChargePowerProfile -> Prop :=
| Started : history [] no_profile
| Refreshed log s svc now r s' :
    history log s -> refresh_learned_charge_power_state svc now s = (r, s') -> history log s'
| Reconciled log s svc relay_on power voltage now pm_confirmed r s' :
    history log s -> reconcile_learned_charge_power_signature svc relay_on power voltage now pm_confirmed s = (r, s') -> history log s'
| Updated log s x r s' : history log s -> update x s = (r, s') -> history (log ++ [x]) s'.

(** ** Storing a profile *)

Lemma set_tracking_run t d s r s' : set_learning_tracking t d s = (r, s') ->
  let n := normalized_learning_tracking_values t in
  s'.(lc_state) = n.(lt_state) /\ s'.(lc_power) = n.(lt_power) /\ s'.(lc_updated_at) = n.(lt_updated_at) /\
  s'.(lc_learning_since) = n.(lt_learning_since) /\ s'.(lc_sample_count) = n.(lt_sample_count) /\
  s'.(lc_signature_mismatch_sessions) = n.(lt_signature_mismatch_sessions) /\
  s'.(lc_stability_score) = default s.(lc_stability_score) (learning_diagnostic_updates d).(ld_stability_score) /\
  exists b, r = Ok b.
Proof. unfold set_learning_tracking. intros [= <- <-]. cbn. split_and!; try done. by eexists. Qed.

Lemma lift_run {S A} (m : res A) (s s' : S) a : lift m s = (Ok a, s') -> m = Ok a /\ s' = s.
Proof. unfold lift. by intros [= -> ->]. Qed.

(** ** The invariant *)

Definition state_known (s : LearnedChargePowerProfile) : Prop := str_in s.(lc_state) LEARNED_CHARGE_POWER_STATES = true.

Lemma known_normal s : state_known s -> normalize_learned_charge_power_state s.(lc_state) = s.(lc_state).
Proof.
  unfold state_known, LEARNED_CHARGE_POWER_STATES. intros H. apply str_in_spec in H.
  repeat (apply elem_of_cons in H as [-> | H]; [reflexivity|]). by apply elem_of_nil in H.
Qed.

(** The stretch of calls since learning started. *)
Definition evidence (seg : list sample) (s : LearnedChargePowerProfile) : Prop :=
  exists first rest, seg = first :: rest /\ accepted first = true /\ forallb calm seg = true /\
    s.(lc_learning_since) = Some first.(sm_now) /\ s.(lc_sample_count) <= Z.of_nat (length (List.filter accepted seg)).

Definition justified (log : list sample) (s : LearnedChargePowerProfile) : Prop :=
  state_known s /\ (s.(lc_state) = "unknown" -> s.(lc_power) = None) /\
  (s.(lc_state) = "learning" -> exists before seg, log = before ++ seg /\ evidence seg s) /\
  (s.(lc_state) = "stable" -> exists before seg after, log = before ++ seg ++ after /\ mature seg).

(** Storing a known state keeps what the log says of it. *)
Lemma justified_cleared log s r s' : clear_learning_tracking s = (r, s') -> justified log s'.
Proof.
  unfold clear_learning_tracking. intros (Hst & Hp & _)%set_tracking_run. cbn in Hst, Hp. split_and!.
  - unfold state_known. by rewrite Hst.
  - done.
  - rewrite Hst. discriminate.
  - rewrite Hst. discriminate.
Qed.

Lemma justified_stable log t d s r s' : set_learning_tracking t d s = (r, s') -> t.(lt_state) = "stable" ->
  (exists before seg after, log = before ++ seg ++ after /\ mature seg) -> justified log s'.
Proof.
  intros (Hst & _)%set_tracking_run Ht Hm. cbn in Hst. rewrite Ht in Hst.
  change (normalize_learned_charge_power_state "stable") with "stable" in Hst. split_and!.
  - unfold state_known. by rewrite Hst.
  - rewrite Hst. discriminate.
  - rewrite Hst. discriminate.
  - done.
Qed.

Lemma justified_same log s s' : justified log s -> s'.(lc_state) = s.(lc_state) ->
  (s.(lc_state) = "unknown" -> s'.(lc_power) = s.(lc_power)) ->
  (s.(lc_state) = "learning" -> s'.(lc_learning_since) = s.(lc_learning_since) /\ s'.(lc_sample_count) = Z.max 0 s.(lc_sample_count)) ->
  justified log s'.
Proof.
  intros (Hk & Hu & Hl & Hs) Hst Hp Hc. unfold justified, state_known. rewrite Hst. split_and!; [done | | | done].
  - intros E. rewrite Hp by done. by apply Hu.
  - intros E. destruct (Hl E) as (before & seg & -> & first & rest & -> & Ha & Hcalm & Hsince & Hcount).
    destruct (Hc E) as [Hs1 Hc1]. exists before, (first :: rest). split; [done|]. exists first, rest. split_and!; try done.
    + by rewrite Hs1.
    + rewrite Hc1. cbn [List.filter] in *. rewrite Ha in *. cbn [length] in *. lia.
Qed.

(** ** Refreshing and reconciling *)

Lemma stored_state s : state_known s -> stored_learning_state s = s.(lc_state).
Proof. apply known_normal. Qed.

Lemma phase_reset_cases stored current s r s' : phase_change_reset stored current s = (r, s') ->
  (r = Ok None /\ s' = s) \/
  (exists b r', clear_learning_tracking s = (r', s') /\ r = Ok (Some b) /\ exists p q, stored = Some p /\ current = Some q /\ p <> q).
Proof.
  unfold phase_change_reset. destruct stored as [p|], current as [q|]; try (intros [= <- <-]; by left).
  destruct (p =? q)%string eqn:E; intros H; [injection H as <- <-; by left|]. right.
  unfold mbind, M_bind in H. destruct (clear_learning_tracking s) as [r' s1] eqn:Hc.
  pose proof Hc as Hb. unfold clear_learning_tracking in Hb. apply set_tracking_run in Hb as (_ & _ & _ & _ & _ & _ & _ & b & ->).
  injection H as <- <-. exists b, (Ok b). split_and!; [done..|]. exists p, q. split_and!; try done. by apply String.eqb_neq.
Qed.

Lemma refresh_justified svc now log s r s' :
  justified log s -> refresh_learned_charge_power_state svc now s = (r, s') -> justified log s'.
Proof.
  intros Hj H. destruct (stored_positive_learned_charge_power s) as [p|] eqn:Hp.
  2:{ eapply (justified_cleared _ s r). unfold refresh_learned_charge_power_state, mbind, M_bind, get in H. by rewrite Hp in H. }
  assert (s.(lc_state) <> "unknown") as Hu.
  { intros E. unfold stored_positive_learned_charge_power in Hp. cbn in Hp. apply Hj in E. by rewrite E in Hp. }
  pose proof (stored_state s (proj1 Hj)) as Hst.
  unfold refresh_learned_charge_power_state, mbind at 1, M_bind at 1, get at 1 in H. rewrite Hp, Hst in H.
  apply bind_inv in H as [(reset & s1 & Hr & H) | (e & Hr & _)].
  2:{ apply phase_reset_cases in Hr as [[_ ->] | (b & r' & Hc & Hx & _)]; [done|]. discriminate. }
  apply phase_reset_cases in Hr as [[[= ->] ->] | (b & r' & Hc & [= ->] & _)].
  2:{ injection H as _ <-. by eapply justified_cleared. }
  unfold refresh_learning_tracking_without_phase_reset, mbind at 1, M_bind at 1, get at 1 in H.
  destruct (is_learned_charge_power_stale svc now s).
  { unfold apply_stale_learning, mbind at 1, M_bind at 1, get at 1 in H. destruct (learning_signature_context s) as [[? ?] ?].
    apply set_tracking_run in H as (Hs' & _). change (lc_state s' = "stale") in Hs'. split_and!.
    - unfold state_known. by rewrite Hs'.
    - rewrite Hs'. discriminate.
    - rewrite Hs'. discriminate.
    - rewrite Hs'. discriminate. }
  unfold should_restore_stable_learning in H. apply String.eqb_neq in Hu. rewrite Hu in H. cbn [andb] in H.
  destruct (s.(lc_state) =? "stale")%string; [by injection H as _ <-|].
  unfold preserve_learning_tracking, mbind at 1, M_bind at 1, get at 1 in H. destruct (learning_signature_context s) as [[? ?] ?].
  apply set_tracking_run in H as (Hs' & _ & _ & Hsince & Hcount & _). cbn in Hsince, Hcount.
  change (lc_state s' = normalize_learned_charge_power_state (lc_state s)) in Hs'.
  rewrite (known_normal s (proj1 Hj)) in Hs'. apply (justified_same _ _ _ Hj Hs').
  - intros E. rewrite E in Hu. discriminate.
  - intros _. split; [done|]. rewrite Hcount. unfold normalized_learning_count. lia.
Qed.

Lemma stable_power_state s p : stable_learned_power s = Some p -> normalize_learned_charge_power_state s.(lc_state) = "stable" /\ s.(lc_power) = Some p.
Proof.
  unfold stable_learned_power. destruct (s.(lc_power)) as [q|]; [|done].
  destruct (normalize_learned_charge_power_state (lc_state s) =? "stable")%string eqn:E; [|done]. apply String.eqb_eq in E.
  cbn [negb orb]. destruct (q <=? f0)%F; [done|]. by intros [= ->].
Qed.

Lemma reconcile_justified svc relay_on power voltage now pm_confirmed log s r s' :
  justified log s -> reconcile_learned_charge_power_signature svc relay_on power voltage now pm_confirmed s = (r, s') ->
  justified log s'.
Proof.
  intros Hj H. unfold reconcile_learned_charge_power_signature, mbind at 1, M_bind at 1, get at 1 in H.
  destruct (stable_learned_power s) as [p|] eqn:Hp; [|by injection H as _ <-].
  destruct (negb pm_confirmed); [by injection H as _ <-|].
  apply stable_power_state in Hp as [Hst _]. rewrite (known_normal s (proj1 Hj)) in Hst. pose proof (proj2 (proj2 (proj2 Hj)) Hst) as Hm.
  apply bind_inv in H as [(reset & s1 & Hr & H) | (e & Hr & _)].
  2:{ apply phase_reset_cases in Hr as [[_ ->] | (b & r' & Hc & Hx & _)]; [done|]. discriminate. }
  apply phase_reset_cases in Hr as [[[= ->] ->] | (b & r' & Hc & [= ->] & _)].
  2:{ injection H as _ <-. by eapply justified_cleared. }
  destruct (eligible_signature_session_started_at svc relay_on now s) as [start|]; [|by injection H as _ <-].
  unfold apply_signature_reconcile_result, mbind at 1, M_bind at 1, gets at 1 in H.
  destruct (fst _) as [|reason reasons].
  - unfold stable_signature_reconcile_result, apply_stable_learning in H. unfold mbind, M_bind, gets in H. by eapply justified_stable.
  - unfold mismatching_signature_reconcile_result in H. destruct (_ <=? _); [by eapply justified_cleared|].
    unfold apply_stable_learning in H. unfold mbind, M_bind, gets in H. by eapply justified_stable.
Qed.

(** ** Updating *)

Lemma accepted_calm x : accepted x = true -> calm x = true.
Proof.
  unfold accepted, calm. rewrite !andb_true_iff. intros [[[-> ->] Hw] _]. apply String.eqb_eq in Hw. rewrite Hw. done.
Qed.

Lemma calm_app l x : forallb calm (l ++ [x]) = forallb calm l && calm x.
Proof. by rewrite forallb_app; cbn; rewrite andb_true_r. Qed.

Lemma mature_later log x : (exists before seg after, log = before ++ seg ++ after /\ mature seg) ->
  exists before seg after, log ++ [x] = before ++ seg ++ after /\ mature seg.
Proof. intros (before & seg & after & -> & H). exists before, seg, (after ++ [x]). by rewrite <- !app_assoc. Qed.

(** A call that leaves the profile as far as the invariant looks at it, and does not interrupt learning. *)
Lemma justified_quiet log x s s' : justified log s -> (s.(lc_state) = "learning" -> calm x = true) ->
  s'.(lc_state) = s.(lc_state) -> s'.(lc_power) = s.(lc_power) -> s'.(lc_learning_since) = s.(lc_learning_since) ->
  s'.(lc_sample_count) = s.(lc_sample_count) -> justified (log ++ [x]) s'.
Proof.
  intros (Hk & Hu & Hl & Hs) Hcalm Hst Hp Hsince Hcount. unfold justified, state_known. rewrite Hst, Hp. split_and!; [done..| |].
  - intros E. destruct (Hl E) as (before & seg & -> & first & rest & -> & Ha & Hc & Hs1 & Hc1). specialize (Hcalm E).
    exists before, ((first :: rest) ++ [x]). split; [by rewrite <- app_assoc|]. exists first, (rest ++ [x]).
    split_and!; [done | done | by rewrite calm_app, Hc, Hcalm | by rewrite Hsince |].
    rewrite Hcount, List.filter_app, length_app. lia.
  - intros E. by apply mature_later, Hs.
Qed.

(** A restart begins a stretch with its sample. *)
Lemma justified_restart log x phase voltage reason detail measured_power s r s' :
  justified log s -> accepted x = true ->
  restart_learning_sample measured_power x.(sm_now) phase voltage reason detail s = (r, s') -> justified (log ++ [x]) s'.
Proof.
  intros Hj Hx. unfold restart_learning_sample. intros [(confidence & s1 & [_ ->]%lift_run & H) | (e & H & _)]%bind_inv.
  - apply set_tracking_run in H as (Hst & _ & _ & Hsince & Hcount & _). change (lc_state s' = "learning") in Hst. cbn in Hsince, Hcount.
    split_and!.
    + unfold state_known. by rewrite Hst.
    + rewrite Hst. discriminate.
    + intros _. exists log, [x]. split; [done|]. exists x, []. cbn. rewrite Hx, (accepted_calm x Hx). split_and!; try done. by rewrite Hcount.
    + rewrite Hst. discriminate.
  - unfold lift in H. injection H as _ <-. by apply (justified_quiet log x s s); [|intros _; apply accepted_calm| | | |].
Qed.

Lemma stable_span score : (LearningEngine.adaptive_stable_seconds LEARNED_POWER_STABLE_MIN_SECONDS score >=? fdec 15 2)%F = true.
Proof.
  unfold LearningEngine.adaptive_stable_seconds. cbv zeta. destruct (_ >=? fdec 9 10)%F; [by vm_compute|].
  destruct (_ <? fdec 3 4)%F; by vm_compute.
Qed.

Section progress.
Context (log : list sample) (x : sample) (s : LearnedChargePowerProfile).
Hypothesis Hj : justified log s.
Hypothesis Hx : accepted x = true.

(** The stretch that the sample completes. *)
Lemma mature_now score : s.(lc_state) = "learning" ->
  stable_learning_ready (Z.max 1 s.(lc_sample_count) + 1) (x.(sm_now) - default x.(sm_now) s.(lc_learning_since))%F score = true ->
  exists before seg after, log ++ [x] = before ++ seg ++ after /\ mature seg.
Proof.
  intros E Hready. destruct (proj1 (proj2 (proj2 Hj)) E) as (before & seg & -> & first & rest & -> & Ha & Hc & Hsince & Hcount).
  unfold stable_learning_ready, LearningEngine.stable_ready in Hready. cbn [LearningEngine.min_samples LearningEngine.base_seconds] in Hready.
  rewrite !andb_true_iff in Hready. destruct Hready as [[Hn Hspan] _]. rewrite Hsince in Hspan. cbn [from_option id] in Hspan.
  exists before, ((first :: rest) ++ [x]), []. split; [by rewrite app_nil_r, <- app_assoc|].
  exists first, rest, x. split_and!; [done | done | done | | by rewrite calm_app, Hc, accepted_calm |].
  - rewrite List.filter_app, length_app. change (List.filter accepted [x]) with (if accepted x then [x] else []). rewrite Hx. cbn [length].
    unfold LEARNED_POWER_STABLE_MIN_SAMPLES in Hn. lia.
  - eapply fle_trans; [exact (stable_span score) | exact Hspan].
Qed.

Lemma progress_justified measured_power previous learned_power learned_voltage phase voltage start r s' :
  s.(lc_state) = "learning" ->
  apply_learning_progress measured_power previous learned_power learned_voltage phase voltage start x.(sm_now) s = (r, s') ->
  justified (log ++ [x]) s'.
Proof.
  intros E H. unfold apply_learning_progress, mbind at 1, M_bind at 1, get at 1 in H. cbv zeta in H.
  destruct (learning_sample_stability_score measured_power previous <=? f0)%F; [by eapply justified_restart|].
  apply bind_inv in H as [(confidence & s1 & [_ ->]%lift_run & H) | (e & H & _)].
  2:{ unfold lift in H. injection H as _ Heq. rewrite <- Heq. by apply (justified_quiet log x s s); [|intros _; apply accepted_calm| | | |]. }
  destruct (stable_learning_ready _ _ _) eqn:Hready.
  - unfold apply_stable_learning, mbind, M_bind, gets in H. eapply justified_stable; [exact H | done | by eapply mature_now].
  - apply set_tracking_run in H as (Hst & _ & _ & Hsince & Hcount & _). change (lc_state s' = "learning") in Hst. cbn in Hsince, Hcount.
    destruct (proj1 (proj2 (proj2 Hj)) E) as (before & seg & -> & first & rest & -> & Ha & Hc & Hs1 & Hc1). split_and!.
    + unfold state_known. by rewrite Hst.
    + rewrite Hst. discriminate.
    + intros _. exists before, ((first :: rest) ++ [x]). split; [by rewrite <- app_assoc|]. exists first, (rest ++ [x]).
      split_and!; [done | done | by rewrite calm_app, Hc, accepted_calm | by rewrite Hsince, Hs1 |].
      rewrite Hcount, List.filter_app, length_app. change (List.filter accepted [x]) with (if accepted x then [x] else []). rewrite Hx.
      cbn [length List.filter] in *. rewrite Ha in *. cbn [length] in *. unfold normalized_learning_count. lia.
    + rewrite Hst. discriminate.
Qed.

Lemma sample_justified measured_power phase voltage start r s' :
  apply_learning_sample x.(sm_service) s.(lc_state) measured_power phase voltage start x.(sm_now) s = (r, s') ->
  justified (log ++ [x]) s'.
Proof.
  intros H. unfold apply_learning_sample, mbind at 1, M_bind at 1, get at 1 in H. cbv zeta in H.
  destruct (should_restart_learning _ _ _ _ _) eqn:Hr; [by eapply justified_restart|].
  unfold should_restart_learning in Hr. rewrite !orb_false_iff in Hr. destruct Hr as [[Hst _] _].
  destruct (s.(lc_power)) as [previous|].
  2:{ injection H as _ Heq. rewrite <- Heq. by apply (justified_quiet log x s s); [|intros _; apply accepted_calm| | | |]. }
  destruct (smoothed_learning_values _ _ _ _) as [learned_power learned_voltage].
  destruct (s.(lc_state) =? "stable")%string eqn:E.
  - apply String.eqb_eq in E. unfold apply_stable_learning, mbind, M_bind, gets in H. eapply justified_stable; [exact H | done |].
    by apply mature_later, Hj.
  - eapply progress_justified; [|exact H]. pose proof (proj1 Hj) as Hk. unfold state_known in Hk. apply str_in_spec in Hk.
    unfold LEARNED_CHARGE_POWER_STATES in Hk.
    repeat (apply elem_of_cons in Hk as [Hk | Hk]; [rewrite Hk in *; done|]). by apply elem_of_nil in Hk.
Qed.

End progress.

Lemma clear_run s : exists b s', clear_learning_tracking s = (Ok b, s').
Proof.
  destruct (clear_learning_tracking s) as [r s'] eqn:E. pose proof E as H. unfold clear_learning_tracking in H.
  apply set_tracking_run in H as (_ & _ & _ & _ & _ & _ & _ & b & ->). by exists b, s'.
Qed.

(** What the session says of a call: it is a candidate, it changes nothing, or it ends learning. *)
Lemma session_cases x state s :
  (exists start, learning_session_result x.(sm_service) x.(sm_service).(learn_policy).(alcp_enabled) x.(sm_pm_confirmed)
     x.(sm_relay_on) x.(sm_status) x.(sm_now) state s = (Ok (start, None), s) /\
     learning_window_status x.(sm_service) x.(sm_now) = ("ready", start) /\ measured x = true /\ charging x = true) \/
  (exists b s', learning_session_result x.(sm_service) x.(sm_service).(learn_policy).(alcp_enabled) x.(sm_pm_confirmed)
     x.(sm_relay_on) x.(sm_status) x.(sm_now) state s = (Ok (None, Some b), s') /\
     ((s' = s /\ (state = "learning" -> calm x = true)) \/ clear_learning_tracking s = (Ok b, s'))).
Proof.
  unfold learning_session_result, learning_measurement_ignored, learning_measurement_active. rewrite <- negb_andb.
  fold (measured x) (charging x). unfold calm, window.
  destruct (measured x) eqn:Em; cbn [negb orb]; [|right; exists false, s; split; [done | by left]].
  destruct (clear_run s) as (b & s' & Hc).
  destruct (charging x) eqn:Ec; cbn [negb andb].
  2:{ right. unfold inactive_learning_session_decision. destruct (state =? "learning")%string eqn:E; cbn [negb].
      - exists b, s'. unfold mbind, M_bind. rewrite Hc. split; [done | by right].
      - exists false, s. split; [done|]. left. split; [done|]. intros ->. done. }
  destruct (learning_window_status (sm_service x) (sm_now x)) as [w start]. destruct (w =? "ready")%string eqn:Er.
  - left. apply String.eqb_eq in Er. subst. by exists start.
  - right. unfold windowed_learning_session_decision. cbn [fst]. destruct (w =? "expired")%string eqn:Ew; cbn [andb negb].
    + destruct (state =? "learning")%string eqn:E.
      * exists b, s'. unfold mbind, M_bind. rewrite Hc. split; [done | by right].
      * exists false, s. split; [done|]. left. split; [done|]. intros ->. done.
    + exists false, s. split; [done|]. by left.
Qed.

Lemma update_justified log x s r s' : justified log s -> update x s = (r, s') -> justified (log ++ [x]) s'.
Proof.
  intros Hj H. unfold update, update_learned_charge_power, mbind at 1, M_bind at 1, get at 1 in H. cbv zeta in H.
  rewrite (known_normal s (proj1 Hj)) in H. unfold mbind at 1, M_bind at 1 in H.
  destruct (session_cases x (lc_state s) s) as [(start & Hs & Hw & Hm & Hc) | (b & s1 & Hs & Hcase)]; rewrite Hs in H.
  2:{ injection H as _ <-. destruct Hcase as [[-> Hcalm] | Hclear]; [by apply (justified_quiet log x s s)|].
      by eapply justified_cleared. }
  destruct (accepted_learning_sample_result _ _ _) as [measured_power reason] eqn:Ha. destruct measured_power as [measured_power|].
  - assert (accepted x = true) as Hx. { unfold accepted, plausible, window. by rewrite Hm, Hc, Hw, Ha. }
    destruct start as [start|]; [by eapply sample_justified|].
    injection H as _ <-. by apply (justified_quiet log x s s); [|intros _; apply accepted_calm| | | |].
  - injection H as _ <-. apply (justified_quiet log x s); try done. intros _. unfold calm, window. by rewrite Hm, Hc, Hw.
Qed.

Lemma history_justified log s : history log s -> justified log s.
Proof.
  induction 1; [|by eapply refresh_justified | by eapply reconcile_justified | by eapply update_justified].
  split_and!; done.
Qed.

(** C27. A learned charging power is never stable without evidence: over any life of the profile, with refreshes and
    reconciliations in between, changing settings and calls that raise, a stable profile goes back to a stretch of
    calls with at least three accepted samples (confirmed, charging, after the start delay and within the window of the
    session, of plausible power), at least seven and a half seconds from the first to the last, and without a
    confirmed measurement in between that shows the vehicle not charging or the window expired. *)
Theorem stable_power_has_evidence log s : history log s -> s.(lc_state) = "stable" ->
  exists before seg after, log = before ++ seg ++ after /\ mature seg.
Proof. intros H Hst. by apply (history_justified log s H). Qed.

(** ** Discarding *)

Inductive event :=
| Refresh (svc : learning_service) (now : float)
| Reconcile (svc : learning_service) (relay_on : bool) (power voltage now : float) (pm_confirmed : bool)
| Update (x : sample).

Definition run (e : event) : M LearnedChargePowerProfile bool :=
  match e with
  | Refresh svc now => refresh_learned_charge_power_state svc now
  | Reconcile svc relay_on power voltage now pm_confirmed =>
    reconcile_learned_charge_power_signature svc relay_on power voltage now pm_confirmed
  | Update x => update x
  end.

Definition phase_changed (svc : learning_service) (s : LearnedChargePowerProfile) : Prop :=
  exists p q, stored_learning_phase_signature s = Some p /\ current_learning_phase_signature svc = Some q /\ p <> q.

(** A confirmed measurement of a session that deviates from the stable power: the relay is on, the start delay of the
    session is over, and the measurement differs from the profile in power or voltage. *)
Definition deviates (e : event) (s : LearnedChargePowerProfile) (start : float) : Prop :=
  match e with
  | Reconcile svc relay_on power voltage now pm_confirmed =>
    pm_confirmed = true /\ relay_on = true /\ svc.(charging_started_at) = Some start /\
    (now - start >=? svc.(learn_policy).(alcp_start_delay_seconds))%F = true /\
    exists p, stable_learned_power s = Some p /\ fst (signature_mismatch_reasons svc power voltage p s) <> []
  | _ => False
  end.

(** A life of the profile: every event with the profile before it. *)
Inductive lived : list (event * LearnedChargePowerProfile) -> LearnedChargePowerProfile -> Prop :=
| Born : lived [] no_profile
| Next log s e r s' : lived log s -> run e s = (r, s') -> lived (log ++ [(e, s)]) s'.

(** An event of the life deviated, in a session other than the one that started at [start]. *)
Definition deviated_before (log : list (event * LearnedChargePowerProfile)) (start : float) : Prop :=
  exists e s earlier, (e, s) ∈ log /\ deviates e s earlier /\ (isfinite earlier = true -> (earlier =? start)%F = false).

(** Why a stable power may be given up. *)
Definition reason_to_discard (log : list (event * LearnedChargePowerProfile)) (e : event) (s s' : LearnedChargePowerProfile) : Prop :=
  match e with
  | Refresh svc now =>
    stored_positive_learned_charge_power s = None \/ phase_changed svc s \/
    (is_learned_charge_power_stale svc now s = true /\ s'.(lc_state) = "stale")
  | Reconcile svc relay_on power voltage now pm_confirmed =>
    pm_confirmed = true /\ (phase_changed svc s \/ exists start, deviates e s start /\ deviated_before log start)
  | Update x =>
    accepted x = true /\ s'.(lc_state) = "learning" /\
    (is_learned_charge_power_stale x.(sm_service) x.(sm_now) s = true \/ stable_learned_power s = None)
  end.

(** *** The count of deviating sessions *)

(** The count does not grow, and the last checked session stays; or the count is zero. *)
Definition count_kept (s s' : LearnedChargePowerProfile) : Prop :=
  s'.(lc_signature_mismatch_sessions) <= 0 \/
  (s'.(lc_signature_mismatch_sessions) <= Z.max 0 s.(lc_signature_mismatch_sessions) /\
   s'.(lc_checked_session_started_at) = s.(lc_checked_session_started_at)).

#[local] Instance count_kept_preorder : PreOrder count_kept.
Proof.
  split; unfold count_kept; [intros s; right; split; [lia | done]|].
  intros s1 s2 s3 [H|[H1 H2]] [H3|[H3 H4]]; [by left | left; lia | by left | right; split; [lia | congruence]].
Qed.

Lemma set_tracking_counts t d s :
  (snd (set_learning_tracking t d s)).(lc_signature_mismatch_sessions) = Z.max 0 t.(lt_signature_mismatch_sessions) /\
  (snd (set_learning_tracking t d s)).(lc_checked_session_started_at) = t.(lt_checked_session_started_at).
Proof. done. Qed.

Lemma set_none t d : t.(lt_signature_mismatch_sessions) = 0 -> keeps count_kept (set_learning_tracking t d).
Proof. intros Ht s. left. destruct (set_tracking_counts t d s) as [-> _]. lia. Qed.

Lemma clear_counts : keeps count_kept clear_learning_tracking.
Proof. by apply set_none. Qed.

Lemma stable_counts p u ph v c d : keeps count_kept (apply_stable_learning p u ph v 0 c d).
Proof. unfold apply_stable_learning. keeps_go ltac:(first [by apply set_none | by intros s]). Qed.

Ltac counts_call :=
  lazymatch goal with
  | |- keeps _ clear_learning_tracking => exact clear_counts
  | |- keeps _ (apply_stable_learning _ _ _ _ _ _ _) => simple apply stable_counts
  | |- keeps _ (set_learning_tracking _ _) => apply set_none; reflexivity
  | |- keeps _ (apply_learning_diagnostics _) => intros ?; right; split; [apply Z.le_max_r | reflexivity]
  end.
Ltac counts_go := keeps_go ltac:(idtac; counts_call).

Lemma update_counts x : keeps count_kept (update x).
Proof.
  unfold update, update_learned_charge_power, learning_session_result, inactive_learning_session_decision,
    windowed_learning_session_decision, apply_learning_sample, apply_learning_progress, restart_learning_sample. counts_go.
Qed.

Ltac stored_counts :=
  intros s; right; unfold apply_stale_learning, restore_stable_learning, preserve_learning_tracking, apply_stable_learning,
    learning_signature_context, learning_profile, mbind, M_bind, get, gets;
  cbn [lc_signature_mismatch_sessions lc_checked_session_started_at];
  lazymatch goal with |- context [set_learning_tracking ?t ?d s] => destruct (set_tracking_counts t d s) as [-> ->] end;
  cbn [lt_signature_mismatch_sessions lt_checked_session_started_at]; unfold normalized_learning_count; split; [lia | reflexivity].

Lemma stale_counts p ph : keeps count_kept (apply_stale_learning p ph).
Proof. stored_counts. Qed.

Lemma restore_counts p ph q : keeps count_kept (restore_stable_learning p ph q).
Proof. stored_counts. Qed.

Lemma preserve_counts p st ph q : keeps count_kept (preserve_learning_tracking p st ph q).
Proof. stored_counts. Qed.

Lemma refresh_counts svc now : keeps count_kept (refresh_learned_charge_power_state svc now).
Proof.
  unfold refresh_learned_charge_power_state, phase_change_reset, refresh_learning_tracking_without_phase_reset.
  keeps_go ltac:(first [ counts_call | simple apply stale_counts | simple apply restore_counts | simple apply preserve_counts ]).
Qed.

(** An eligible session is one that was not checked before. *)
Lemma eligible_cases svc relay_on now s start : eligible_signature_session_started_at svc relay_on now s = Some start ->
  relay_on = true /\ svc.(charging_started_at) = Some start /\
  (now - start >=? svc.(learn_policy).(alcp_start_delay_seconds))%F = true /\
  signature_session_already_checked start s = false.
Proof.
  unfold eligible_signature_session_started_at, signature_session_delay_elapsed. destruct (charging_started_at svc) as [t|]; [|done].
  destruct (_ || _) eqn:E; [done|]. intros [= <-]. rewrite !orb_false_iff, !negb_false_iff in E. by destruct E as [[-> ->] ->].
Qed.

(** A reconciliation keeps the count, or counts a session that deviates and remembers it. *)
Lemma reconcile_counts svc relay_on power voltage now pm_confirmed s :
  let e := Reconcile svc relay_on power voltage now pm_confirmed in
  count_kept s (snd (run e s)) \/
  exists start, deviates e s start /\ (snd (run e s)).(lc_checked_session_started_at) = Some start.
Proof.
  cbv zeta. cbn [run]. destruct (reconcile_learned_charge_power_signature svc relay_on power voltage now pm_confirmed s) as [r s'] eqn:H.
  cbn [snd]. unfold reconcile_learned_charge_power_signature, mbind at 1, M_bind at 1, get at 1 in H.
  destruct (stable_learned_power s) as [p|] eqn:Hp; [|injection H as _ <-; by left].
  destruct pm_confirmed; cbn [negb] in H; [|injection H as _ <-; by left].
  apply bind_inv in H as [(reset & s1 & Hr & H) | (e & Hr & _)].
  2:{ apply phase_reset_cases in Hr as [[? _] | (? & ? & _ & ? & _)]; discriminate. }
  apply phase_reset_cases in Hr as [[[= ->] ->] | (b & r' & Hc & [= ->] & _)].
  2:{ injection H as _ <-. left. pose proof (clear_counts s) as Hk. by rewrite Hc in Hk. }
  destruct (eligible_signature_session_started_at svc relay_on now s) as [start|] eqn:He; [|injection H as _ <-; by left].
  apply eligible_cases in He as (-> & Hst & Hdelay & _). unfold apply_signature_reconcile_result, mbind at 1, M_bind at 1, gets at 1 in H.
  destruct (fst (signature_mismatch_reasons svc power voltage p s)) as [|reason reasons] eqn:Hm.
  - left. unfold stable_signature_reconcile_result in H.
    match type of H with ?m s = _ => assert (keeps count_kept m) as Hk by counts_go; specialize (Hk s); by rewrite H in Hk end.
  - unfold mismatching_signature_reconcile_result in H.
    destruct (_ <=? _); [left; pose proof (clear_counts s) as Hk; by rewrite H in Hk|]. right. exists start.
    split; [split_and!; [done..|]; exists p; split; [done | by rewrite Hm]|].
    unfold apply_stable_learning, mbind, M_bind, gets in H.
    match type of H with set_learning_tracking ?t ?d _ = _ => destruct (set_tracking_counts t d s) as [_ Hk] end. by rewrite H in Hk.
Qed.

(** A counted session deviated at an earlier event, and is the one remembered as checked. *)
Lemma counted_deviated log s : lived log s -> 1 <= s.(lc_signature_mismatch_sessions) ->
  exists e s0 start, (e, s0) ∈ log /\ deviates e s0 start /\ s.(lc_checked_session_started_at) = Some start.
Proof.
  induction 1 as [|log s e r s' Hl IH Hrun]; [done|]. intros Hn.
  assert (count_kept s s' \/ exists start, deviates e s start /\ s'.(lc_checked_session_started_at) = Some start) as [[H|[H Hc]] | (start & Hd & Hc)].
  { destruct e as [svc now|svc relay_on power voltage now pm|x].
    - left. pose proof (refresh_counts svc now s) as H. change (refresh_learned_charge_power_state svc now s) with (run (Refresh svc now) s) in H.
      by rewrite Hrun in H.
    - pose proof (reconcile_counts svc relay_on power voltage now pm s) as H. cbv zeta in H. by rewrite Hrun in H.
    - left. pose proof (update_counts x s) as H. change (update x s) with (run (Update x) s) in H. by rewrite Hrun in H. }
  - lia.
  - destruct IH as (e0 & s0 & start & Hin & Hd & Hs); [lia|]. exists e0, s0, start. split; [apply elem_of_app; by left|].
    split; [done | congruence].
  - exists e, s, start. split; [apply elem_of_app; right; by apply list_elem_of_singleton | done].
Qed.

Lemma unchecked_deviated log s start : lived log s -> 1 <= s.(lc_signature_mismatch_sessions) ->
  signature_session_already_checked start s = false -> deviated_before log start.
Proof.
  intros Hl Hn Hc. destruct (counted_deviated log s Hl Hn) as (e & s0 & earlier & Hin & Hd & Hs). exists e, s0, earlier.
  split_and!; [done..|]. intros Hf. unfold signature_session_already_checked, signature_checked_session_started_at in Hc.
  rewrite Hs in Hc. cbn [finite_of] in Hc. by rewrite Hf in Hc.
Qed.

(** *** The reasons *)

Lemma stable_result t d s r s' : set_learning_tracking t d s = (r, s') -> t.(lt_state) = "stable" -> s'.(lc_state) = "stable".
Proof. intros (Hst & _)%set_tracking_run Ht. cbn in Hst. by rewrite Ht in Hst. Qed.

Lemma refresh_discards log svc now s r s' : s.(lc_state) = "stable" -> refresh_learned_charge_power_state svc now s = (r, s') ->
  s'.(lc_state) <> "stable" -> reason_to_discard log (Refresh svc now) s s'.
Proof.
  intros Hst H Hn. assert (state_known s) as Hk by (unfold state_known; by rewrite Hst).
  pose proof (stored_state s Hk) as Hss. cbn [reason_to_discard]. unfold phase_changed.
  unfold refresh_learned_charge_power_state, mbind at 1, M_bind at 1, get at 1 in H.
  destruct (stored_positive_learned_charge_power s) as [p|]; [|by left]. right. rewrite Hss, Hst in H. cbv zeta in H.
  apply bind_inv in H as [(reset & s1 & Hr & H) | (e & Hr & _)].
  2:{ apply phase_reset_cases in Hr as [[? _] | (? & ? & _ & ? & _)]; discriminate. }
  apply phase_reset_cases in Hr as [[[= ->] ->] | (b & r' & _ & [= ->] & Hp)]; [right | by left].
  unfold refresh_learning_tracking_without_phase_reset, mbind at 1, M_bind at 1, get at 1 in H.
  destruct (is_learned_charge_power_stale svc now s).
  { split; [done|]. unfold apply_stale_learning, mbind at 1, M_bind at 1, get at 1 in H.
    destruct (learning_signature_context s) as [[? ?] ?]. by apply set_tracking_run in H as (Hs' & _). }
  exfalso. apply Hn. unfold should_restore_stable_learning in H. cbn [String.eqb Ascii.eqb Bool.eqb andb] in H.
  unfold preserve_learning_tracking, mbind at 1, M_bind at 1, get at 1 in H. destruct (learning_signature_context s) as [[? ?] ?].
  by eapply stable_result.
Qed.

Lemma reconcile_discards log svc relay_on power voltage now pm_confirmed s r s' : lived log s -> s.(lc_state) = "stable" ->
  reconcile_learned_charge_power_signature svc relay_on power voltage now pm_confirmed s = (r, s') ->
  s'.(lc_state) <> "stable" -> reason_to_discard log (Reconcile svc relay_on power voltage now pm_confirmed) s s'.
Proof.
  intros Hlived Hst H Hn. cbn [reason_to_discard]. unfold phase_changed.
  unfold reconcile_learned_charge_power_signature, mbind at 1, M_bind at 1, get at 1 in H.
  destruct (stable_learned_power s) as [p|] eqn:Hp; [|injection H as _ <-; by rewrite Hst in Hn].
  destruct pm_confirmed; cbn [negb] in H; [|injection H as _ <-; by rewrite Hst in Hn]. split; [done|].
  apply bind_inv in H as [(reset & s1 & Hr & H) | (e & Hr & _)].
  2:{ apply phase_reset_cases in Hr as [[? _] | (? & ? & _ & ? & _)]; discriminate. }
  apply phase_reset_cases in Hr as [[[= ->] ->] | (b & r' & _ & [= ->] & Hph)]; [right | by left].
  destruct (eligible_signature_session_started_at svc relay_on now s) as [start|] eqn:He; [|injection H as _ <-; by rewrite Hst in Hn].
  apply eligible_cases in He as (-> & Hstart & Hdelay & Hunchecked). exists start. split.
  - split_and!; [done..|]. exists p. split; [done|]. intros Hm. rewrite Hm in H. apply Hn. unfold apply_signature_reconcile_result, stable_signature_reconcile_result, apply_stable_learning in H.
    unfold mbind, M_bind, gets in H. by eapply stable_result.
  - apply (unchecked_deviated log s); [done | | done].
    unfold apply_signature_reconcile_result, mbind at 1, M_bind at 1, gets at 1 in H.
    destruct (fst _) as [|reason reasons].
    + exfalso. apply Hn. unfold stable_signature_reconcile_result, apply_stable_learning in H. unfold mbind, M_bind, gets in H. by eapply stable_result.
    + unfold mismatching_signature_reconcile_result, signature_mismatch_count, LEARNED_POWER_SIGNATURE_MISMATCH_SESSIONS in H.
      cbn [signature_preserving_snapshot ss_signature_mismatch_sessions] in H. destruct (2 <=? _) eqn:E2; [apply Z.leb_le in E2; lia|].
      exfalso. apply Hn. unfold apply_stable_learning in H. unfold mbind, M_bind, gets in H. by eapply stable_result.
Qed.

Lemma update_discards log x s r s' : s.(lc_state) = "stable" -> update x s = (r, s') ->
  s'.(lc_state) <> "stable" -> reason_to_discard log (Update x) s s'.
Proof.
  intros Hst H Hn. cbn [reason_to_discard]. assert (state_known s) as Hk by (unfold state_known; by rewrite Hst).
  unfold update, update_learned_charge_power, mbind at 1, M_bind at 1, get at 1 in H. cbv zeta in H.
  rewrite (known_normal s Hk), Hst in H. unfold mbind at 1, M_bind at 1 in H.
  destruct (session_cases x "stable" s) as [(start & Hs & Hw & Hm & Hc) | (b & s1 & Hs & Hcase)]; rewrite Hs in H.
  2:{ exfalso. apply Hn. injection H as _ <-. destruct Hcase as [[-> _] | Hclear]; [done|].
      revert Hs. unfold learning_session_result, inactive_learning_session_decision, windowed_learning_session_decision.
      destruct (learning_measurement_ignored _ _); [intros [= _ <-]; done|]. destruct (negb (learning_measurement_active _ _)); [intros [= _ <-]; done|].
      destruct (learning_window_status _ _) as [w st]. destruct (w =? "ready")%string; [done|].
      destruct (w =? "expired")%string; intros [= _ <-]; done. }
  destruct (accepted_learning_sample_result _ _ _) as [measured_power reason] eqn:Ha.
  destruct measured_power as [measured_power|]; [|injection H as _ <-; done].
  assert (accepted x = true) as Hx. { unfold accepted, plausible, window. by rewrite Hm, Hc, Hw, Ha. }
  split; [done|]. destruct start as [start|]; [|injection H as _ <-; done].
  unfold apply_learning_sample, mbind at 1, M_bind at 1, get at 1 in H. cbv zeta in H.
  destruct (should_restart_learning _ _ _ _ _) eqn:Hr.
  - unfold restart_learning_sample in H. apply bind_inv in H as [(c & s1 & [_ ->]%lift_run & H) | (e & H & _)].
    + apply set_tracking_run in H as (Hs' & _). split; [exact Hs'|]. unfold should_restart_learning in Hr.
      change (str_in "stable" ["unknown"; "stale"]) with false in Hr. cbn [orb] in Hr. apply orb_true_iff in Hr as [Hr|Hr]; [right | by left].
      unfold stable_learned_power. destruct (lc_power s) as [p|]; [|done]. by rewrite Hr, orb_true_r.
    + unfold lift in H. injection H as _ <-. done.
  - destruct (lc_power s) as [p|]; [|injection H as _ <-; done]. destruct (smoothed_learning_values _ _ _ _).
    change ("stable" =? "stable")%string with true in H. exfalso. apply Hn. unfold apply_stable_learning, mbind, M_bind, gets in H.
    by eapply stable_result.
Qed.

(** C28. Over any life of the profile from its beginning, a stable power is given up only for a reason: a refresh finds
    that the stored value is missing or not positive, that the configured phase is another one, or that it is too old (then
    it becomes stale); a confirmed reconciliation finds another phase, or a session (past its start delay, with the relay
    on) that deviates from it in power or voltage after an earlier reconciliation found that another session, with
    another start time, did so too; an update with an accepted sample finds it too old or not positive and starts
    learning anew. So a single deviating session never discards it, however often it is measured. *)
Theorem stable_power_discarded_for_a_reason log e s r s' :
  lived log s -> s.(lc_state) = "stable" -> run e s = (r, s') -> s'.(lc_state) <> "stable" -> reason_to_discard log e s s'.
Proof.
  intros Hl Hst H Hn. destruct e; [by eapply refresh_discards | by eapply reconcile_discards | by eapply update_discards].
Qed.

(** ** Mismatching sessions and the samples of the same cycle *)

Lemma restart_confidence now : exists c, learning_confidence_score "learning" 1 (Some now) now f1 = Ok c.
Proof. eexists. reflexivity. Qed.

(** An accepted sample of a stable profile forgets the mismatching sessions.  As a cycle reconciles first
    and updates then, a session that deviates and is counted is forgotten at its first accepted sample. *)
Lemma accepted_sample_resets_mismatches x s r s' :
  s.(lc_state) = "stable" -> accepted x = true -> update x s = (r, s') -> s'.(lc_signature_mismatch_sessions) = 0.
Proof.
  intros Hst Hx H. unfold accepted, measured, charging, window, plausible in Hx. rewrite !andb_true_iff in Hx.
  destruct Hx as [[[[He Hpm] [Hr Hs]] Hw] Hp]. assert (state_known s) as Hk by (unfold state_known; by rewrite Hst).
  unfold update, update_learned_charge_power, learning_session_result, learning_measurement_ignored, learning_measurement_active in H.
  unfold mbind at 1, M_bind at 1, get at 1 in H. cbv zeta in H. rewrite (known_normal s Hk), Hst, He, Hpm, Hr, Hs in H. cbn [negb andb orb] in H.
  destruct (learning_window_status _ _) as [w start] eqn:Ew. cbn [fst] in Hw. rewrite Hw in H.
  assert (exists t, start = Some t) as [t ->].
  { unfold learning_window_status, LearningEngine.window_status in Ew. destruct (charging_started_at _) as [t|]; [|injection Ew as <- <-; done].
    destruct (_ <? _)%F; [injection Ew as <- <-; done|]. destruct (_ && _); injection Ew as <- <-; by eexists. }
  unfold mbind at 1, M_bind at 1, mret at 1, M_ret at 1 in H. destruct (accepted_learning_sample_result _ _ _) as [[m|] reason]; [|done].
  unfold apply_learning_sample, mbind at 1, M_bind at 1, get at 1 in H. cbv zeta in H. destruct (should_restart_learning _ _ _ _ _) eqn:Er.
  - unfold restart_learning_sample in H. destruct (restart_confidence (sm_now x)) as [c Hc]. rewrite Hc, bind_lift_ok in H.
    by apply set_tracking_run in H as (_ & _ & _ & _ & _ & Hm & _).
  - destruct (lc_power s) as [p|]; [|unfold should_restart_learning in Er; by rewrite orb_true_r in Er].
    destruct (smoothed_learning_values _ _ _ _). change ("stable" =? "stable")%string with true in H.
    unfold apply_stable_learning, mbind, M_bind, gets in H. by apply set_tracking_run in H as (_ & _ & _ & _ & _ & Hm & _).
Qed.

(** ** A steady power *)

Lemma fsub_self x : isfinite x = true -> exists b, fsub x x = S754_zero b.
Proof.
  destruct x as [b| | |b m e]; try done; intros _.
  - by destruct b; eexists.
  - unfold fsub, SFsub. cbv zeta. rewrite Z.sub_diag. by eexists.
Qed.

Lemma fmul_zero x b : isfinite x = true -> exists b', fmul x (S754_zero b) = S754_zero b'.
Proof. destruct x; try done; intros _; by eexists. Qed.

Lemma fadd_zero x b : isfinite x = true -> (x >? f0)%F = true -> fadd x (S754_zero b) = x.
Proof. by destruct x. Qed.

Lemma steady_average P alpha : isfinite P = true -> (P >? f0)%F = true -> isfinite alpha = true ->
  (P + alpha * (P - P))%F = P.
Proof.
  intros HP Hpos Ha. destruct (fsub_self P HP) as [b Hb]. destruct (fmul_zero alpha b Ha) as [b' Hb']. rewrite Hb, Hb'. by apply fadd_zero.
Qed.

Lemma steady_score P : isfinite P = true -> learning_sample_stability_score P P = f1.
Proof.
  intros HP. unfold learning_sample_stability_score, LearningEngine.sample_stability_score.
  assert (LEARNED_POWER_STABLE_TOLERANCE_WATTS <=? learning_stability_tolerance P = true)%F as Ht by (by apply fmax_ge_l).
  remember (learning_stability_tolerance P) as tol. clear Heqtol. destruct (fsub_self P HP) as [b ->].
  assert (tol <=? f0 = false)%F as ->.
  { destruct (tol <=? f0)%F eqn:E; [|done]. pose proof (fle_trans _ _ _ Ht E) as H. vm_compute in H. discriminate. }
  assert (fdiv (fabs (S754_zero b)) tol = S754_zero false) as ->.
  { destruct tol as [c|c| |c m e]; try (vm_compute in Ht; discriminate); destruct c; try done; vm_compute in Ht; discriminate. }
  by vm_compute.
Qed.

Section steady.
Context (svc : learning_service) (start P V : float) (reason : string).
Hypothesis enabled : svc.(learn_policy).(alcp_enabled) = true.
Hypothesis alpha_finite : isfinite svc.(learn_policy).(alcp_alpha) = true.
Hypothesis P_finite : isfinite P = true.
Hypothesis P_positive : (P >? f0)%F = true.
Hypothesis P_rounded : py_round 1 P = P.
Hypothesis P_plausible : accepted_learning_sample_result svc P V = (Some P, reason).

Definition call (t : float) : sample := mkSample svc true 2 P V t true.

(** A cycle comes before what was learned is too old. *)
Definition soon (t t' : float) : bool :=
  (svc.(learn_policy).(alcp_max_age_seconds) <=? f0)%F || negb (t' - t >? svc.(learn_policy).(alcp_max_age_seconds))%F.

Definition in_window (t : float) : Prop := learning_window_status svc t = ("ready", Some start).

Inductive learning_at (since : float) (k : nat) (t : float) (s : LearnedChargePowerProfile) : Prop :=
| still_learning : s.(lc_state) = "learning" -> s.(lc_learning_since) = Some since -> s.(lc_sample_count) = Z.of_nat k ->
    s.(lc_stability_score) = f1 -> s.(lc_power) = Some P -> s.(lc_updated_at) = Some t -> learning_at since k t s
| now_stable : s.(lc_state) = "stable" -> s.(lc_power) = Some P -> s.(lc_updated_at) = Some t -> learning_at since k t s.

Lemma call_is_sample t s : in_window t -> state_known s ->
  update (call t) s =
  apply_learning_sample svc s.(lc_state) P (current_learning_phase_signature svc) (current_learning_voltage_signature svc V) start t s.
Proof.
  intros Hw Hk. unfold update, update_learned_charge_power, call, learning_session_result, learning_measurement_ignored,
    learning_measurement_active. cbn [sm_service sm_relay_on sm_status sm_power sm_voltage sm_now sm_pm_confirmed].
  unfold mbind at 1, M_bind at 1, get at 1. cbv zeta. rewrite (known_normal s Hk), enabled, Hw. cbn.
  by rewrite P_plausible.
Qed.

Lemma first_call t s : in_window t -> str_in s.(lc_state) ["unknown"; "stale"] = true ->
  exists b s', update (call t) s = (Ok b, s') /\ learning_at t 1 t s'.
Proof.
  intros Hw Hst. assert (state_known s) as Hk.
  { unfold state_known. apply str_in_spec in Hst. by repeat (apply elem_of_cons in Hst as [-> | Hst]; [done|]); apply elem_of_nil in Hst. }
  rewrite (call_is_sample t s Hw Hk). unfold apply_learning_sample, mbind at 1, M_bind at 1, get at 1. cbv zeta.
  unfold should_restart_learning. rewrite Hst. cbn [orb]. unfold restart_learning_sample. destruct (restart_confidence t) as [c ->].
  rewrite bind_lift_ok. destruct (set_learning_tracking _ _ s) as [r s'] eqn:E.
  apply set_tracking_run in E as (H1 & H2 & H3 & H4 & H5 & _ & H7 & b & ->). exists b, s'. split; [done|]. apply still_learning; try done.
  rewrite H2. cbn. by rewrite P_rounded.
Qed.

Lemma not_restarted state t t' s : soon t t' = true -> s.(lc_power) = Some P -> s.(lc_updated_at) = Some t ->
  str_in state ["unknown"; "stale"] = false -> should_restart_learning svc state s.(lc_power) t' s = false.
Proof.
  intros Hsoon Hp Hu Hst. unfold should_restart_learning, is_learned_charge_power_stale, soon in *. rewrite Hst, Hp, Hu. cbn [orb].
  rewrite (flt_not_fle _ _ P_positive). cbn [orb]. destruct (_ <=? f0)%F; [done|]. by apply negb_true_iff.
Qed.

Lemma confidence_ok k since t score : Z.of_nat k < 2 ^ 53 -> exists c, learning_confidence_score "learning" (Z.of_nat k) (Some since) t score = Ok c.
Proof.
  intros Hk. unfold learning_confidence_score, LearningEngine.confidence_score. cbn [String.eqb Ascii.eqb Bool.eqb negb].
  rewrite Z.max_r by lia. destruct (float_of_int_small (Z.of_nat k)) as (x & -> & _); [lia|]. by eexists.
Qed.

Lemma smoothed_steady s : exists v, smoothed_learning_values svc P P (current_learning_voltage_signature svc V) s = (P, v).
Proof.
  unfold smoothed_learning_values, LearningEngine.smoothed_values. rewrite steady_average by done.
  destruct (current_learning_voltage_signature svc V) as [c|], (lc_voltage_signature s) as [p|]; try by eexists.
  destruct (p <=? f0)%F; by eexists.
Qed.

Lemma stable_stored t d s r s' : set_learning_tracking t d s = (r, s') -> t.(lt_state) = "stable" -> t.(lt_power) = Some P ->
  exists b, r = Ok b /\ s'.(lc_state) = "stable" /\ s'.(lc_power) = Some P /\ s'.(lc_updated_at) = t.(lt_updated_at).
Proof.
  intros (H1 & H2 & H3 & _ & _ & _ & _ & b & ->)%set_tracking_run Ht Hp. exists b. cbn in H1, H2, H3. rewrite Ht in H1. rewrite Hp in H2.
  split_and!; try done. rewrite H2. cbn. by rewrite P_rounded.
Qed.

Lemma next_call since k t t' s : learning_at since k t s -> 1 <= Z.of_nat k < 2 ^ 53 - 1 -> in_window t' -> soon t t' = true ->
  exists b s', update (call t') s = (Ok b, s') /\ learning_at since (S k) t' s' /\
    (s.(lc_state) = "stable" \/ (2 <= k)%nat /\ (t' - since >=? fdec 15 2)%F = true -> s'.(lc_state) = "stable").
Proof.
  intros Hs Hk Hw Hsoon.
  assert (state_known s) as Hkn by (unfold state_known; by destruct Hs as [-> _ _ _ _ _ | -> _ _]).
  rewrite (call_is_sample t' s Hw Hkn). unfold apply_learning_sample, mbind at 1, M_bind at 1, get at 1. cbv zeta.
  destruct Hs as [Hst Hsince Hcount Hscore Hp Hu | Hst Hp Hu].
  - rewrite Hst, (not_restarted "learning" t t' s Hsoon Hp Hu eq_refl), Hp. destruct (smoothed_steady s) as [v ->].
    change ("learning" =? "stable")%string with false. cbv iota.
    unfold apply_learning_progress, mbind at 1, M_bind at 1, get at 1. cbv zeta. rewrite (steady_score P P_finite), Hsince, Hcount.
    change (f1 <=? f0)%F with false. cbv iota. cbn [from_option id].
    assert (combined_learning_stability_score f1 s = f1) as -> by (unfold combined_learning_stability_score; rewrite Hscore; by vm_compute).
    replace (Z.max 1 (Z.of_nat k) + 1) with (Z.of_nat (S k)) by lia.
    destruct (confidence_ok (S k) since t' f1) as [c ->]; [lia|]. rewrite bind_lift_ok.
    destruct (stable_learning_ready _ _ _) eqn:Hready.
    + unfold apply_stable_learning, mbind, M_bind, gets. destruct (set_learning_tracking _ _ s) as [r s'] eqn:E.
      apply stable_stored in E as (b & -> & H1 & H2 & H3); [|done..]. exists b, s'. split; [done|]. split; [by apply now_stable | done].
    + destruct (set_learning_tracking _ _ s) as [r s'] eqn:E.
      apply set_tracking_run in E as (H1 & H2 & H3 & H4 & H5 & _ & H7 & b & ->). exists b, s'. split; [done|]. split.
      * apply still_learning; [exact H1 | exact H4 | rewrite H5; apply Z.max_r; lia | exact H7 | rewrite H2; cbn; by rewrite P_rounded | exact H3].
      * intros [?|[Hn Hspan]]; [congruence|]. exfalso. revert Hready. unfold stable_learning_ready, LearningEngine.stable_ready.
        cbn [LearningEngine.min_samples LearningEngine.base_seconds LearningEngine.min_stability_score]. unfold LEARNED_POWER_STABLE_MIN_SAMPLES.
        rewrite (proj2 (Z.leb_le 3 (Z.of_nat (S k)))) by lia.
        assert (LearningEngine.adaptive_stable_seconds LEARNED_POWER_STABLE_MIN_SECONDS f1 = fdec 15 2) as -> by (by vm_compute).
        rewrite Hspan. by vm_compute.
  - rewrite Hst, (not_restarted "stable" t t' s Hsoon Hp Hu eq_refl), Hp. destruct (smoothed_steady s) as [v ->].
    change ("stable" =? "stable")%string with true. cbv iota. unfold apply_stable_learning, mbind, M_bind, gets.
    destruct (set_learning_tracking _ _ s) as [r s'] eqn:E. apply stable_stored in E as (b & -> & H1 & H2 & H3); [|done..].
    exists b, s'. split; [done|]. split; [by apply now_stable | done].
Qed.

(** Consecutive updates at the given times. *)
Fixpoint run_calls (ts : list float) : M LearnedChargePowerProfile unit :=
  match ts with [] => mret tt | t :: ts' => update (call t);; run_calls ts' end.

Fixpoint soon_after (t : float) (ts : list float) : bool :=
  match ts with [] => true | t' :: ts' => soon t t' && soon_after t' ts' end.

Lemma run_calls_learning since tn ts : forall k t s, learning_at since k t s -> (1 <= k)%nat ->
  Z.of_nat (k + length ts) < 2 ^ 53 - 1 -> Forall in_window (ts ++ [tn]) -> soon_after t (ts ++ [tn]) = true ->
  (2 <= k + length ts)%nat -> (tn - since >=? fdec 15 2)%F = true ->
  exists s', run_calls (ts ++ [tn]) s = (Ok tt, s') /\ s'.(lc_state) = "stable" /\ s'.(lc_power) = Some P.
Proof.
  induction ts as [|t' ts IH]; intros k t s Hs Hk Hlen [Hw Hws]%Forall_cons [Hsoon Hsoons]%andb_true_iff Htwo Hspan; cbn [length] in *.
  - destruct (next_call since k t tn s Hs ltac:(lia) Hw Hsoon) as (b & s' & E & Hs' & Hst). exists s'.
    cbn [app run_calls]. unfold mbind, M_bind. rewrite E. specialize (Hst ltac:(right; split; [lia | done])).
    split_and!; [done..|]. by destruct Hs'.
  - destruct (next_call since k t t' s Hs ltac:(lia) Hw Hsoon) as (b & s1 & E & Hs1 & _).
    destruct (IH (S k) t' s1 Hs1) as (s' & E' & H); [lia | lia | done | done | lia | done |]. exists s'. split; [|done].
    cbn [app run_calls]. unfold mbind, M_bind. rewrite E. exact E'.
Qed.

End steady.

(** C29. A steady charging power is learned: whatever an unknown or stale profile holds, if the vehicle draws a constant
    plausible power (a positive number with one decimal) through at least three updates of one session, all within
    the learning window, spread over seven and a half seconds or more and each before what is learned is too old,
    then none of the updates fails, and at the end the profile is stable with exactly this power. *)
Theorem steady_power_becomes_stable svc start P V reason t1 ts tn s :
  svc.(learn_policy).(alcp_enabled) = true -> isfinite svc.(learn_policy).(alcp_alpha) = true ->
  isfinite P = true -> (P >? f0)%F = true -> py_round 1 P = P ->
  accepted_learning_sample_result svc P V = (Some P, reason) ->
  Forall (in_window svc start) (t1 :: ts ++ [tn]) -> soon_after svc t1 (ts ++ [tn]) = true ->
  (1 <= length ts)%nat -> Z.of_nat (length ts) < 2 ^ 53 - 2 -> (tn - t1 >=? fdec 15 2)%F = true ->
  str_in s.(lc_state) ["unknown"; "stale"] = true ->
  exists s', run_calls svc P V (t1 :: ts ++ [tn]) s = (Ok tt, s') /\ s'.(lc_state) = "stable" /\ s'.(lc_power) = Some P.
Proof.
  intros He Ha Hf Hpos Hr Hp [Hw Hws]%Forall_cons Hsoon Hn Hlen Hspan Hst.
  destruct (first_call svc start P V reason He Hr Hp t1 s Hw Hst) as (b & s1 & E & Hs1).
  destruct (run_calls_learning svc start P V reason He Ha Hf Hpos Hr Hp t1 tn ts 1 t1 s1 Hs1) as (s' & E' & H); [lia | lia | done | done | lia | done |].
  exists s'. split; [|done]. cbn [run_calls]. unfold mbind, M_bind. rewrite E. exact E'.
Qed.

(** ** A vehicle that draws ten amperes on one phase *)
Section example.

Definition one_phase_car : learning_service := {|
  charging_started_at := Some (f_of_Z 1000);
  learn_policy := mkAutoLearnChargePowerPolicy true (f_of_Z 1900) (f_of_Z 500) (fdec 1 5) (f_of_Z 30) (f_of_Z 180) (f_of_Z 21600);
  configured_phase := "L1"; max_current := f_of_Z 16; voltage_mode := "phase"; last_voltage := None |}.

Definition at_time (t : Z) : sample := call one_phase_car (f_of_Z 2300) (f_of_Z 230) (f_of_Z t).
Definition three_samples : list sample := [at_time 1040; at_time 1045; at_time 1050].
Definition learned_from (l : list sample) : LearnedChargePowerProfile := fold_left (fun s x => snd (update x s)) l no_profile.

Lemma learned_history l : history l (learned_from l).
Proof.
  induction l as [|x l IH] using rev_ind; [constructor|]. unfold learned_from. rewrite fold_left_app. cbn.
  eapply Updated; [exact IH | apply surjective_pairing].
Qed.

Lemma stable_power_has_evidence_witness :
  (learned_from three_samples).(lc_state) = "stable" /\
  exists before seg after, three_samples = before ++ seg ++ after /\ mature seg.
Proof.
  assert ((learned_from three_samples).(lc_state) = "stable") as Hst by (vm_compute; reflexivity). split; [exact Hst|].
  apply (stable_power_has_evidence three_samples (learned_from three_samples)); [exact (learned_history three_samples) | exact Hst].
Defined.

(** Two more sessions, at a quite different power. *)
Definition session_at (t : Z) : learning_service := {|
  charging_started_at := Some (f_of_Z t); learn_policy := one_phase_car.(learn_policy);
  configured_phase := "L1"; max_current := f_of_Z 16; voltage_mode := "phase"; last_voltage := None |}.
Definition deviation (start now : Z) : event := Reconcile (session_at start) true (f_of_Z 3600) (f_of_Z 230) (f_of_Z now) true.

(** The life of a profile through events. *)
Fixpoint life (es : list event) (log : list (event * LearnedChargePowerProfile)) (s : LearnedChargePowerProfile)
    : list (event * LearnedChargePowerProfile) * LearnedChargePowerProfile :=
  match es with [] => (log, s) | e :: es' => life es' (log ++ [(e, s)]) (snd (run e s)) end.

Lemma life_lived es : forall log s, lived log s -> lived (fst (life es log s)) (snd (life es log s)).
Proof.
  induction es as [|e es IH]; intros log s H; [done|]. cbn [life]. apply IH. eapply Next; [exact H | apply surjective_pairing].
Qed.

(** Three samples, and two measurements of a deviating session: only the first counts. *)
Definition deviated_once : list (event * LearnedChargePowerProfile) * LearnedChargePowerProfile :=
  life (map Update three_samples ++ [deviation 5000 5100; deviation 5000 5200]) [] no_profile.

Lemma stable_power_discarded_for_a_reason_witness :
  (snd deviated_once).(lc_state) = "stable" /\ (snd deviated_once).(lc_signature_mismatch_sessions) = 1 /\
  (snd (run (deviation 9000 9100) (snd deviated_once))).(lc_state) = "unknown" /\
  reason_to_discard (fst deviated_once) (deviation 9000 9100) (snd deviated_once)
    (snd (run (deviation 9000 9100) (snd deviated_once))).
Proof.
  assert ((snd deviated_once).(lc_state) = "stable") as Hst by (vm_compute; reflexivity).
  assert ((snd (run (deviation 9000 9100) (snd deviated_once))).(lc_state) = "unknown") as Hs' by (vm_compute; reflexivity).
  split; [exact Hst|]. split; [vm_compute; reflexivity|]. split; [exact Hs'|].
  apply (stable_power_discarded_for_a_reason (fst deviated_once) (deviation 9000 9100) (snd deviated_once)
    (fst (run (deviation 9000 9100) (snd deviated_once)))).
  - apply life_lived. constructor.
  - exact Hst.
  - apply surjective_pairing.
  - rewrite Hs'. discriminate.
Defined.

Lemma steady_power_becomes_stable_witness :
  exists s', run_calls one_phase_car (f_of_Z 2300) (f_of_Z 230) [f_of_Z 1040; f_of_Z 1045; f_of_Z 1050] no_profile = (Ok tt, s') /\
    s'.(lc_state) = "stable" /\ s'.(lc_power) = Some (f_of_Z 2300).
Proof.
  apply (steady_power_becomes_stable one_phase_car (f_of_Z 1000) (f_of_Z 2300) (f_of_Z 230) "accepted" (f_of_Z 1040) [f_of_Z 1045]
    (f_of_Z 1050) no_profile).
  - reflexivity.
  - vm_compute. reflexivity.
  - vm_compute. reflexivity.
  - vm_compute. reflexivity.
  - vm_compute. reflexivity.
  - vm_compute. reflexivity.
  - repeat constructor; vm_compute; reflexivity.
  - vm_compute. reflexivity.
  - cbn. lia.
  - cbn. lia.
  - vm_compute. reflexivity.
  - reflexivity.
Defined.

End example.
