(* ===== verification/UpdateInputs.v ===== *)
(** * Inputs of the update cycle

    [update/pm_snapshot.py]: the relay status a cycle works with, from the worker snapshot or the last
    confirmed one.  [update/input_cache.py]: the measurements of the Auto mode, from the worker
    snapshot or a short-lived cache.

    The attributes are those that the ports of these modules declare, with their types; a worker
    snapshot and a relay status are dictionaries of any values. *)

From S2P Require Import Prelude PyFloat PyValue OrderedMap Contracts ControlSurface WritePort EssSources EssProfiles StateSnapshot.

Definition FUTURE_INPUT_TIMESTAMP_TOLERANCE_SECONDS : float := f1.

(** ** Relay status
    update/pm_snapshot.py *)
Module PmSnapshotResolver.

(** update/pm_snapshot.py: PmSnapshotService *)
Record PmSnapshotService := mkPmSnapshotService {
  auto_shelly_soft_fail_seconds : float;
  worker_poll_interval_seconds : option float;
  last_pm_status : option dict;
  last_pm_status_at : option float;
  last_pm_status_confirmed : bool;
  last_confirmed_pm_status : option dict;
  last_confirmed_pm_status_at : option float }.

#[export] Instance eta_pm : Eta PmSnapshotService := fun s =>
  mkPmSnapshotService s.(auto_shelly_soft_fail_seconds) s.(worker_poll_interval_seconds) s.(last_pm_status) s.(last_pm_status_at)
    s.(last_pm_status_confirmed) s.(last_confirmed_pm_status) s.(last_confirmed_pm_status_at).

(** A key of a normalized snapshot. *)
Definition item (key : string) (normalized : ControlSurface.payload) : pyval := default VNone (od_get key normalized).

(** update/pm_snapshot.py: PmSnapshotResolver._worker_pm_status_payload *)
Definition worker_pm_status_payload (normalized_snapshot : ControlSurface.payload) : option dict :=
  string_object_mapping (item "pm_status" normalized_snapshot).

(** update/pm_snapshot.py: PmSnapshotResolver._worker_pm_confirmed *)
Definition worker_pm_confirmed (normalized_snapshot : ControlSurface.payload) : bool := py_bool (item "pm_confirmed" normalized_snapshot).

(** update/pm_snapshot.py: PmSnapshotResolver._worker_pm_snapshot_timestamp *)
Definition worker_pm_snapshot_timestamp (normalized_snapshot : ControlSurface.payload) : res float :=
  snapshot_at ← finite_float_or_none (item "pm_captured_at" normalized_snapshot);
  match snapshot_at with
  | Some t => Ok t
  | None => other ← finite_float_or_none (item "captured_at" normalized_snapshot); mret (default f0 other)
  end.

(** update/pm_snapshot.py: PmSnapshotResolver._worker_pm_snapshot_data *)
Definition worker_pm_snapshot_data (worker_snapshot : dict) (now : float) : res (option dict * bool * float) :=
  normalized ← normalized_worker_snapshot (VDict worker_snapshot) (Some now) f1 false;
  match worker_pm_status_payload normalized with
  | None => Ok (None, false, now)
  | Some pm_status => t ← worker_pm_snapshot_timestamp normalized; mret (Some pm_status, worker_pm_confirmed normalized, t)
  end.

(** update/pm_snapshot.py: PmSnapshotResolver._remember_pm_snapshot *)
Definition remember_pm_snapshot (pm_status : dict) (snapshot_at : float) (pm_confirmed : bool) : M PmSnapshotService unit :=
  let remembered := dict_set "_pm_confirmed" (VBool pm_confirmed) pm_status in
  modify (fun s => s <| last_pm_status := Some remembered |> <| last_pm_status_at := Some snapshot_at |>
    <| last_pm_status_confirmed := pm_confirmed |>);;
  when pm_confirmed
    (modify (fun s => s <| last_confirmed_pm_status := Some remembered |> <| last_confirmed_pm_status_at := Some snapshot_at |>)).

(** update/pm_snapshot.py: PmSnapshotResolver._fresh_confirmed_pm_status *)
Definition fresh_confirmed_pm_status (pm_status : option dict) (captured_at : option float) (now soft_fail_seconds : float)
    : res (option dict) :=
  match pm_status, captured_at with
  | Some d, Some t =>
    if negb (forallb is_text_key d) then Ok None
    else
      fresh ← timestamp_age_within (VFloat t) now soft_fail_seconds FUTURE_INPUT_TIMESTAMP_TOLERANCE_SECONDS;
      mret (if negb fresh then None else Some (dict_set "_pm_confirmed" (VBool true) d))
  | _, _ => Ok None
  end.

(** update/pm_snapshot.py: PmSnapshotResolver._cached_pm_status_for_soft_fail *)
Definition cached_pm_status_for_soft_fail (now soft_fail_seconds : float) (s : PmSnapshotService) : res (option dict) :=
  confirmed ← fresh_confirmed_pm_status s.(last_confirmed_pm_status) s.(last_confirmed_pm_status_at) now soft_fail_seconds;
  match confirmed with
  | Some d => Ok (Some d)
  | None =>
    if negb s.(last_pm_status_confirmed) then Ok None
    else fresh_confirmed_pm_status s.(last_pm_status) s.(last_pm_status_at) now soft_fail_seconds
  end.

(** update/pm_snapshot.py: PmSnapshotResolver._direct_pm_snapshot_max_age_seconds *)
Definition direct_pm_snapshot_max_age_seconds (s : PmSnapshotService) : float :=
  match finite_of s.(worker_poll_interval_seconds) with
  | None => f1
  | Some worker_poll_seconds => fmax f1 (worker_poll_seconds * f_of_Z 2)%F
  end.

(** update/pm_snapshot.py: PmSnapshotResolver._pm_snapshot_from_future *)
Definition pm_snapshot_from_future (snapshot_at now : float) : res bool :=
  ok ← timestamp_not_future (VFloat snapshot_at) now FUTURE_INPUT_TIMESTAMP_TOLERANCE_SECONDS; mret (negb ok).

(** update/pm_snapshot.py: PmSnapshotResolver._worker_pm_snapshot_usable *)
Definition worker_pm_snapshot_usable (pm_confirmed : bool) (snapshot_at now : float) : res bool :=
  if negb pm_confirmed then Ok false else future ← pm_snapshot_from_future snapshot_at now; mret (negb future).

(** update/pm_snapshot.py: PmSnapshotResolver._pm_snapshot_within_soft_fail_budget *)
Definition pm_snapshot_within_soft_fail_budget (now snapshot_at soft_fail_seconds : float) (s : PmSnapshotService) : bool :=
  (now - snapshot_at <=? fmax soft_fail_seconds (direct_pm_snapshot_max_age_seconds s))%F.

(** update/pm_snapshot.py: PmSnapshotResolver._remembered_pm_snapshot_timestamp *)
Definition remembered_pm_snapshot_timestamp (s : PmSnapshotService) : option float :=
  match finite_of s.(last_pm_status_at), finite_of s.(last_confirmed_pm_status_at) with
  | Some a, Some b => Some (fmax a b)
  | Some a, None => Some a
  | None, b => b
  end.

(** update/pm_snapshot.py: PmSnapshotResolver._pm_snapshot_newer_than_last *)
Definition pm_snapshot_newer_than_last (snapshot_at : float) (s : PmSnapshotService) : bool :=
  match remembered_pm_snapshot_timestamp s with None => true | Some last => (snapshot_at >=? last)%F end.

(** update/pm_snapshot.py: PmSnapshotResolver._pm_snapshot_storage_decision *)
Definition pm_snapshot_storage_decision (now snapshot_at soft_fail_seconds : float) (s : PmSnapshotService) : bool * bool :=
  let within_soft_fail := pm_snapshot_within_soft_fail_budget now snapshot_at soft_fail_seconds s in
  (within_soft_fail || pm_snapshot_newer_than_last snapshot_at s, within_soft_fail).

(** update/pm_snapshot.py: PmSnapshotResolver.resolve_pm_status_for_update *)
Definition resolve_pm_status_for_update (worker_snapshot : dict) (now : float) : M PmSnapshotService (option dict) :=
  s ← get;
  let soft_fail_seconds := s.(auto_shelly_soft_fail_seconds) in
  '(pm_status, pm_confirmed, snapshot_at) ← lift (worker_pm_snapshot_data worker_snapshot now);
  match pm_status with
  | None => lift (cached_pm_status_for_soft_fail now soft_fail_seconds s)
  | Some pm_status =>
    usable ← lift (worker_pm_snapshot_usable pm_confirmed snapshot_at now);
    if negb usable then lift (cached_pm_status_for_soft_fail now soft_fail_seconds s)
    else
      let pm_status := dict_set "_pm_confirmed" (VBool true) pm_status in
      let '(should_remember, within_soft_fail) := pm_snapshot_storage_decision now snapshot_at soft_fail_seconds s in
      when should_remember (remember_pm_snapshot pm_status snapshot_at pm_confirmed);;
      if within_soft_fail then mret (Some pm_status)
      else s ← get; lift (cached_pm_status_for_soft_fail now soft_fail_seconds s)
  end.

End PmSnapshotResolver.

(** ** Auto inputs
    update/input_cache.py *)
Module InputCacheResolver.

(** The settings, and the intervals by the name of their attribute. *)
Record input_settings := mkInputSettings {
  auto_input_cache_seconds : float;
  auto_input_validation_poll_seconds : option float;
  dbus_gateway_max_age_seconds : option float;
  poll_intervals : string -> option float }.

(** The last values and times by the name of their attribute; [None] and absent are the same.
    update/input_cache.py: InputCacheService *)
Record InputCacheService := mkInputCacheService {
  last_values : gmap string float;
  last_times : gmap string float;
  auto_cached_inputs_used : bool;
  cache_hits : Z;
  last_energy_cluster : dict;
  last_energy_learning_profiles : dict }.

#[export] Instance eta_inputs : Eta InputCacheService := fun s =>
  mkInputCacheService s.(last_values) s.(last_times) s.(auto_cached_inputs_used) s.(cache_hits) s.(last_energy_cluster)
    s.(last_energy_learning_profiles).

(** update/input_cache.py: InputCacheResolver._float_or_default *)
Definition float_or_default (value : pyval) (dflt : float) : res float :=
  normalized ← finite_float_or_none value; mret (default dflt normalized).

(** update/input_cache.py: InputCacheResolver.extract_pm_measurements *)
Definition extract_pm_measurements (pm_status : dict) : res (bool * float * float * float * float) :=
  let number key := float_or_default (default (VFloat f0) (dict_find key pm_status)) f0 in
  power ← number "apower";
  voltage ← number "voltage";
  current ← number "current";
  let energy_values := match dict_get "aenergy" pm_status with VDict d => d | _ => [] end in
  total ← float_or_default (default (VFloat f0) (dict_find "total" energy_values)) f0;
  mret (py_bool (dict_get "output" pm_status), power, voltage, current, (total / f_of_Z 1000)%F).

(** update/input_cache.py: InputCacheResolver._snapshot_input_from_future *)
Definition snapshot_input_from_future (snapshot_time now : float) : res bool :=
  ok ← timestamp_not_future (VFloat snapshot_time) now FUTURE_INPUT_TIMESTAMP_TOLERANCE_SECONDS; mret (negb ok).

(** update/input_cache.py: InputCacheResolver._snapshot_input_too_old *)
Definition snapshot_input_too_old (snapshot_time now : float) (max_age_seconds : option float) : bool :=
  match max_age_seconds with Some limit => (now - snapshot_time >? limit)%F | None => false end.

(** update/input_cache.py: InputCacheResolver._discard_invalid_snapshot_input *)
Definition discard_invalid_snapshot_input (value snapshot_at : option float) (now : float) (max_age_seconds : option float)
    : res (option float * option float) :=
  match value, snapshot_at with
  | Some _, Some snapshot_time =>
    future ← snapshot_input_from_future snapshot_time now;
    mret (if future || snapshot_input_too_old snapshot_time now max_age_seconds then (None, None) else (value, Some snapshot_time))
  | _, _ => Ok (value, snapshot_at)
  end.

(** update/input_cache.py: InputCacheResolver._cached_input_from_service *)
Definition cached_input_from_service (last_value_attr last_at_attr : string) (now cache_max_age : float) (s : InputCacheService)
    : option float * bool :=
  match s.(last_values) !! last_value_attr, s.(last_times) !! last_at_attr with
  | Some last_value, Some last_at =>
    if (last_at <=? now + FUTURE_INPUT_TIMESTAMP_TOLERANCE_SECONDS)%F && (now - last_at <=? cache_max_age)%F
    then (finite_of (Some last_value), true) else (None, false)
  | _, _ => (None, false)
  end.

Section settings.
Context (c : input_settings).

(** [min(cache_max_age, max_age_seconds)] *)
Definition cache_age_limit (max_age_seconds : option float) : float :=
  match max_age_seconds with Some limit => fmin c.(auto_input_cache_seconds) limit | None => c.(auto_input_cache_seconds) end.

(** update/input_cache.py: InputCacheResolver.resolve_cached_input_value *)
Definition resolve_cached_input_value (value snapshot_at : option float) (last_value_attr last_at_attr : string) (now : float)
    (max_age_seconds : option float) : M InputCacheService (option float * bool) :=
  '(value, snapshot_at) ← lift (discard_invalid_snapshot_input value snapshot_at now max_age_seconds);
  match value with
  | Some x =>
    modify (fun s => s <| last_values := <[last_value_attr := x]> s.(last_values) |>
      <| last_times := <[last_at_attr := default now snapshot_at]> s.(last_times) |>);;
    mret (Some x, false)
  | None => gets (cached_input_from_service last_value_attr last_at_attr now (cache_age_limit max_age_seconds))
  end.

(** update/input_cache.py: _non_negative_seconds_attr *)
Definition non_negative_seconds (raw : option float) : float := match raw with None => f0 | Some x => fmax f0 x end.

(** update/input_cache.py: _validation_seconds *)
Definition validation_seconds : float :=
  match c.(auto_input_validation_poll_seconds) with
  | None => f_of_Z 30
  | Some normalized => if (normalized =? f0)%F then f_of_Z 30 else normalized
  end.

(** update/input_cache.py: InputCacheResolver._auto_input_source_max_age_seconds *)
Definition auto_input_source_max_age_seconds (poll_interval_attr : string) : float :=
  let poll_interval_seconds := non_negative_seconds (c.(poll_intervals) poll_interval_attr) in
  let gateway_max_age_seconds := non_negative_seconds c.(dbus_gateway_max_age_seconds) in
  let source_budget_seconds := fmax gateway_max_age_seconds (poll_interval_seconds * f_of_Z 2)%F in
  if (source_budget_seconds <=? f0)%F then fmax f1 validation_seconds
  else fmax f1 (fmin validation_seconds source_budget_seconds).

(** The names of one input.
    update/input_cache.py: InputCacheResolver.resolve_auto_inputs (lines 206-235) *)
Record input_metric := mkInputMetric {
  im_value_key : string; im_captured_at_key : string; im_last_value_attr : string; im_last_at_attr : string;
  im_poll_interval_attr : string }.

Definition pv_metric := mkInputMetric "pv_power" "pv_captured_at" "_last_pv_value" "_last_pv_at" "auto_pv_poll_interval_seconds".
Definition grid_metric :=
  mkInputMetric "grid_power" "grid_captured_at" "_last_grid_value" "_last_grid_at" "auto_grid_poll_interval_seconds".
Definition battery_metric :=
  mkInputMetric "battery_soc" "battery_captured_at" "_last_battery_soc_value" "_last_battery_soc_at"
    "auto_battery_poll_interval_seconds".
Definition cluster_metric (name : string) : input_metric :=
  mkInputMetric ("battery_combined_" ++ name ++ "_w") "battery_captured_at" ("_last_combined_battery_" ++ name ++ "_w")
    ("_last_combined_battery_" ++ name ++ "_at") "auto_battery_poll_interval_seconds".

(** update/input_cache.py: InputCacheResolver._resolve_auto_input_metric *)
Definition resolve_auto_input_metric (worker_snapshot : dict) (now : float) (m : input_metric)
    : M InputCacheService (option float * bool) :=
  value ← lift (finite_float_or_none (dict_get m.(im_value_key) worker_snapshot));
  captured_at ← lift (finite_float_or_none
    (default (dict_get "captured_at" worker_snapshot) (dict_find m.(im_captured_at_key) worker_snapshot)));
  resolve_cached_input_value value captured_at m.(im_last_value_attr) m.(im_last_at_attr) now
    (Some (auto_input_source_max_age_seconds m.(im_poll_interval_attr))).

(** update/input_cache.py: InputCacheResolver._resolve_battery_cluster_metric *)
Definition resolve_battery_cluster_metric (worker_snapshot : dict) (now : float) (name : string) : M InputCacheService (option float) :=
  '(value, _) ← resolve_auto_input_metric worker_snapshot now (cluster_metric name); mret value.

(** The entries copied from the snapshot: their key, the key there, and the default.
    update/input_cache.py: InputCacheResolver._energy_cluster_snapshot (lines 300-338) *)
Definition copied_entries : list (string * string * pyval) :=
  map (fun '(key, name) => (key, name, VNone))
    [("battery_combined_pv_input_power_w", "battery_combined_pv_input_power_w");
     ("battery_combined_grid_interaction_w", "battery_combined_grid_interaction_w"); ("grid_power_w", "grid_power");
     ("grid_captured_at", "grid_captured_at"); ("grid_gateway_power_w", "grid_gateway_power");
     ("grid_gateway_captured_at", "grid_gateway_captured_at"); ("grid_primary_power_w", "grid_primary_power");
     ("grid_primary_captured_at", "grid_primary_captured_at"); ("grid_selected_source_id", "grid_selected_source_id");
     ("grid_fusion_state", "grid_fusion_state"); ("grid_fusion_confidence", "grid_fusion_confidence");
     ("grid_fusion_primary_valid", "grid_fusion_primary_valid"); ("grid_fusion_backup_valid", "grid_fusion_backup_valid");
     ("grid_fusion_difference_watts", "grid_fusion_difference_watts");
     ("grid_fusion_tolerance_watts", "grid_fusion_tolerance_watts"); ("battery_average_confidence", "battery_average_confidence")] ++
  map (fun name => (name, name, VInt 0))
    ["battery_source_count"; "battery_online_source_count"; "battery_valid_soc_source_count"; "battery_battery_source_count";
     "battery_hybrid_inverter_source_count"; "battery_inverter_source_count"].

(** update/input_cache.py: InputCacheResolver._energy_cluster_snapshot *)
Definition energy_cluster_snapshot (worker_snapshot : dict) (charge discharge net ac : option float) : dict :=
  let copy '(key, name, dflt) := (VStr key, default dflt (dict_find name worker_snapshot)) in
  [copy ("battery_combined_soc", "battery_combined_soc", VNone);
   copy ("battery_combined_usable_capacity_wh", "battery_combined_usable_capacity_wh", VNone);
   (VStr "battery_combined_charge_power_w", val_of_float charge);
   (VStr "battery_combined_discharge_power_w", val_of_float discharge);
   (VStr "battery_combined_net_power_w", val_of_float net);
   (VStr "battery_combined_ac_power_w", val_of_float ac)] ++
  map copy copied_entries ++
  [(VStr "battery_sources", match dict_get "battery_sources" worker_snapshot with VList l | VTuple l => VList l | _ => VList [] end)].

(** update/input_cache.py: InputCacheResolver._store_learning_profiles *)
Definition store_learning_profiles (worker_snapshot : dict) : M InputCacheService unit :=
  match default (VDict []) (dict_find "battery_learning_profiles" worker_snapshot) with
  | VDict d => modify (fun s => s <| last_energy_learning_profiles := d |>)
  | _ => mret tt
  end.

(** update/input_cache.py: InputCacheResolver.resolve_auto_inputs *)
Definition resolve_auto_inputs (worker_snapshot : dict) (now : float) (auto_mode_active : bool)
    : M InputCacheService (option float * option float * option float) :=
  if negb auto_mode_active then modify (fun s => s <| auto_cached_inputs_used := false |>);; mret (None, None, None)
  else
    '(pv_power, pv_cached) ← resolve_auto_input_metric worker_snapshot now pv_metric;
    '(grid_power, grid_cached) ← resolve_auto_input_metric worker_snapshot now grid_metric;
    '(battery_soc, battery_cached) ← resolve_auto_input_metric worker_snapshot now battery_metric;
    charge ← resolve_battery_cluster_metric worker_snapshot now "charge_power";
    discharge ← resolve_battery_cluster_metric worker_snapshot now "discharge_power";
    net ← resolve_battery_cluster_metric worker_snapshot now "net_power";
    ac ← resolve_battery_cluster_metric worker_snapshot now "ac_power";
    modify (fun s => s <| last_energy_cluster := energy_cluster_snapshot worker_snapshot charge discharge net ac |>);;
    store_learning_profiles worker_snapshot;;
    let used := pv_cached || grid_cached || battery_cached in
    modify (fun s => s <| auto_cached_inputs_used := used |>);;
    when used (modify (fun s => s <| cache_hits := s.(cache_hits) + 1 |>));;
    mret (pv_power, battery_soc, grid_power).

End settings.
End InputCacheResolver.
