(* ===== verification/InputsSafety.v ===== *)
(** * Freshness of what a cycle works with

    Every relay status and every measurement that reaches the decisions of a cycle was in a worker
    snapshot, of this cycle or an earlier one, and is not older than its limit. *)

From S2P Require Import Prelude PyFloat PyValue OrderedMap Contracts EssProfiles UpdateInputs.

(** The worker snapshots a service has seen, with the times of their cycles. *)
Definition seen : Type := list (dict * float).

Lemma finite_of_value t t' : finite_float_or_none (VFloat t) = Ok (Some t') -> t' = t.
Proof. change (VFloat t) with (val_of_float (Some t)). rewrite finite_float_or_none_typed. intros H. injection H as H. apply (finite_of_finite (Some t)) in H as [_ H]. congruence. Qed.

Lemma lift_res {S A} (m : res A) (s s' : S) a : lift m s = (Ok a, s') -> m = Ok a /\ s' = s.
Proof. unfold lift. by intros [= -> ->]. Qed.

Lemma fle_number x y : (x <=? y)%F = true -> isnan y = false.
Proof. by destruct x, y. Qed.

(** ** Relay status *)
Section relay.
Import PmSnapshotResolver.

Definition flagged (d : dict) : dict := dict_set "_pm_confirmed" (VBool true) d.

Lemma flagged_again d : flagged (flagged d) = flagged d.
Proof. apply dict_set_again. Qed.

(** A confirmed status of one of the snapshots, taken at [t]. *)
Definition confirmed_status (log : seen) (d : dict) (t : float) : Prop :=
  exists w now p, (w, now) ∈ log /\ worker_pm_snapshot_data w now = Ok (Some p, true, t) /\ d = flagged p.

(** The caches of the service. *)
Definition caches (log : seen) (s : PmSnapshotService) : Prop :=
  (forall d t, s.(last_confirmed_pm_status) = Some d -> s.(last_confirmed_pm_status_at) = Some t -> confirmed_status log d t) /\
  (s.(last_pm_status_confirmed) = true ->
   forall d t, s.(last_pm_status) = Some d -> s.(last_pm_status_at) = Some t -> confirmed_status log d t).

Lemma confirmed_later log log' d t : confirmed_status log d t -> confirmed_status (log ++ log') d t.
Proof. intros (w & now & p & Hin & H). exists w, now, p. split; [|done]. apply elem_of_app. by left. Qed.

Lemma caches_later log log' s : caches log s -> caches (log ++ log') s.
Proof. intros [H1 H2]. split; intros; apply confirmed_later; eauto. Qed.

Lemma fresh_confirmed log status at_ now soft d :
  (forall d t, status = Some d -> at_ = Some t -> confirmed_status log d t) ->
  fresh_confirmed_pm_status status at_ now soft = Ok (Some d) ->
  exists t, confirmed_status log d t /\ (fopp f1 <=? now - t)%F = true /\ (now - t <=? soft)%F = true.
Proof.
  intros Hc. unfold fresh_confirmed_pm_status. destruct status as [p|]; [|done]. destruct at_ as [t|]; [|done].
  destruct (negb _); [done|]. unfold timestamp_age_within.
  intros (fresh & (n & Hn & [= <-])%res_bind_ok & H)%res_bind_ok. destruct n as [t'|]; [|done].
  apply (finite_of_value t) in Hn as ->. cbv zeta in H.
  match type of H with context [negb ?c] => destruct c eqn:E end; [|done].
  apply andb_true_iff in E as [E1 E2]. injection H as <-. exists t. split_and!; [|done..].
  destruct (Hc p t eq_refl eq_refl) as (w & now' & q & Hin & Hw & ->). exists w, now', q. split_and!; [done..|]. apply flagged_again.
Qed.

Lemma cached_fresh log now soft s d : caches log s -> cached_pm_status_for_soft_fail now soft s = Ok (Some d) ->
  exists t, confirmed_status log d t /\ (fopp f1 <=? now - t)%F = true /\ (now - t <=? soft)%F = true.
Proof.
  intros [H1 H2]. unfold cached_pm_status_for_soft_fail. intros (confirmed & Hc & H)%res_bind_ok.
  destruct confirmed as [d'|]; [injection H as ->; by eapply fresh_confirmed|].
  destruct (last_pm_status_confirmed s); [|done]. by eapply fresh_confirmed; [apply H2|].
Qed.
End relay.

Section relay_resolve.
Import PmSnapshotResolver.
Context (w : dict) (now : float) (log : seen) (s : PmSnapshotService).
Hypothesis Hs : caches log s.

Definition log' : seen := log ++ [(w, now)].

Lemma this_snapshot : (w, now) ∈ log'.
Proof. unfold log'. apply elem_of_app. right. apply elem_of_cons. by left. Qed.

(** Remembering a confirmed status of this cycle. *)
Lemma remember_caches p t : worker_pm_snapshot_data w now = Ok (Some p, true, t) ->
  exists s', remember_pm_snapshot (flagged p) t true s = (Ok tt, s') /\ caches log' s' /\
    s'.(auto_shelly_soft_fail_seconds) = s.(auto_shelly_soft_fail_seconds).
Proof.
  intros Hw. eexists. split; [reflexivity|]. split; [|done].
  assert (confirmed_status log' (flagged p) t) as Hc.
  { exists w, now, p. split_and!; [|done..]. exact this_snapshot. }
  fold (flagged (flagged p)). rewrite flagged_again. split; [by intros d t' [= <-] [= <-] | by intros _ d t' [= <-] [= <-]].
Qed.

(** What a resolution answers, and what it leaves in the caches. *)
Lemma resolve_cases r s' : resolve_pm_status_for_update w now s = (r, s') ->
  caches log' s' /\
  forall d, r = Ok (Some d) -> exists t, confirmed_status log' d t /\
    ((fopp f1 <=? now - t)%F = true \/ (t <=? now + f1)%F = true) /\
    (now - t <=? fmax s.(auto_shelly_soft_fail_seconds) (direct_pm_snapshot_max_age_seconds s))%F = true.
Proof.
  assert (caches log' s) as Hs' by (by apply caches_later).
  assert (forall s1 soft d, caches log' s1 -> soft = s.(auto_shelly_soft_fail_seconds) -> cached_pm_status_for_soft_fail now soft s1 = Ok (Some d) ->
    exists t, confirmed_status log' d t /\ ((fopp f1 <=? now - t)%F = true \/ (t <=? now + f1)%F = true) /\
      (now - t <=? fmax s.(auto_shelly_soft_fail_seconds) (direct_pm_snapshot_max_age_seconds s))%F = true) as Hcached.
  { intros s1 soft d Hs1 -> Hd. destruct (cached_fresh log' now _ s1 d Hs1 Hd) as (t & Hc & H1 & H2). exists t. split; [done|].
    split; [by left|]. eapply fle_trans; [exact H2|]. apply fmax_ge_l. by destruct (auto_shelly_soft_fail_seconds s), (now - t)%F. }
  unfold resolve_pm_status_for_update, mbind at 1, M_bind at 1, get at 1. cbv zeta. intros H.
  apply bind_inv in H as [([[p confirmed] t] & s1 & [Hw ->]%lift_res & H) | (e & H & ->)].
  2:{ unfold lift in H. injection H as _ <-. done. }
  destruct p as [p|].
  2:{ unfold lift in H. injection H as <- <-. split; [done|]. intros d Hd. by eapply Hcached. }
  apply bind_inv in H as [(usable & s1 & [Hu ->]%lift_res & H) | (e & H & ->)].
  2:{ unfold lift in H. injection H as _ <-. done. }
  destruct usable; cbn [negb] in H.
  2:{ unfold lift in H. injection H as <- <-. split; [done|]. intros d Hd. by eapply Hcached. }
  unfold worker_pm_snapshot_usable in Hu. destruct confirmed; cbn [negb] in Hu; [|done].
  apply res_bind_ok in Hu as (future & Hf & [= Hu]). destruct future; [done|]. clear Hu.
  apply res_bind_ok in Hf as (ok & Hok & [= Hf]). destruct ok; [|done]. clear Hf.
  unfold timestamp_not_future in Hok. apply res_bind_ok in Hok as (n & Hn & [= Hok]). destruct n as [t'|]; [|done].
  apply (finite_of_value t) in Hn as ->.
  unfold pm_snapshot_storage_decision in H. fold (flagged p) in H.
  destruct (remember_caches p t Hw) as (s2 & Hrem & Hs2 & Hsoft).
  apply bind_inv in H as [([] & s3 & Hwhen & H) | (e & Hwhen & _)].
  2:{ destruct (_ || _); cbn [when] in Hwhen; [rewrite Hrem in Hwhen|]; discriminate. }
  assert (caches log' s3) as Hs3.
  { destruct (_ || _); cbn [when] in Hwhen; [rewrite Hrem in Hwhen|]; by injection Hwhen as <-. }
  destruct (pm_snapshot_within_soft_fail_budget _ _ _ _) eqn:Hb.
  - injection H as <- <-. split; [done|]. intros d [= <-]. exists t. split_and!; [| by right | exact Hb].
    exists w, now, p. split_and!; [|done..]. exact this_snapshot.
  - unfold mbind, M_bind, get, lift in H. injection H as <- <-. split; [done|]. intros d Hd. eapply Hcached; [| reflexivity | exact Hd]. done.
Qed.

End relay_resolve.

Section relay_history.
Import PmSnapshotResolver.

(** The life of the service: it starts without a status, its settings change, a cycle resolves its status. *)
Inductive relay_history : seen -> PmSnapshotService -> Prop :=
| relay_started s : s.(last_confirmed_pm_status) = None -> s.(last_pm_status) = None -> relay_history [] s
| relay_configured log s soft poll : relay_history log s ->
    relay_history log (s <| auto_shelly_soft_fail_seconds := soft |> <| worker_poll_interval_seconds := poll |>)
| relay_resolved log s w now r s' : relay_history log s -> resolve_pm_status_for_update w now s = (r, s') ->
    relay_history (log ++ [(w, now)]) s'.

Lemma relay_history_caches log s : relay_history log s -> caches log s.
Proof.
  induction 1 as [s H1 H2 | log s soft poll _ IH | log s w now r s' _ IH H].
  - split; [intros d t; rewrite H1; done | intros _ d t; rewrite H2; done].
  - exact IH.
  - by eapply resolve_cases.
Qed.

(** C30. The relay status of a cycle is confirmed and fresh: whatever the worker snapshots held so far, a status that
    the resolution returns is one that some worker snapshot, of this cycle or an earlier one, confirmed; it was taken
    at most the soft-fail time or twice the poll interval (at least a second) ago, whichever is longer, and no more than
    a second in the future. *)
Theorem relay_status_is_confirmed_and_fresh log s w now d s' :
  relay_history log s -> resolve_pm_status_for_update w now s = (Ok (Some d), s') ->
  exists t, confirmed_status (log ++ [(w, now)]) d t /\
    ((fopp f1 <=? now - t)%F = true \/ (t <=? now + f1)%F = true) /\
    (now - t <=? fmax s.(auto_shelly_soft_fail_seconds) (direct_pm_snapshot_max_age_seconds s))%F = true.
Proof. intros Hh H. pose proof (resolve_cases w now log s (relay_history_caches log s Hh) _ _ H) as [_ Hd]. by apply Hd. Qed.

End relay_history.

(** ** Measurements *)
Section inputs.
Import InputCacheResolver.
Context (c : input_settings).

Definition all_metrics : list input_metric :=
  [pv_metric; grid_metric; battery_metric; cluster_metric "charge_power"; cluster_metric "discharge_power";
   cluster_metric "net_power"; cluster_metric "ac_power"].

(** A snapshot held the value [x], captured at [t], or untimed in the cycle at [t]. *)
Definition observed (log : seen) (m : input_metric) (x t : float) : Prop :=
  exists w now captured, (w, now) ∈ log /\ finite_float_or_none (dict_get m.(im_value_key) w) = Ok (Some x) /\
    finite_float_or_none (default (dict_get "captured_at" w) (dict_find m.(im_captured_at_key) w)) = Ok captured /\
    t = default now captured.

Lemma observed_later log log' m x t : observed log m x t -> observed (log ++ log') m x t.
Proof. intros (w & now & captured & Hin & H). exists w, now, captured. split; [|done]. apply elem_of_app. by left. Qed.

(** What the caches hold was observed. *)
Definition remembered (log : seen) (s : InputCacheService) : Prop :=
  forall m x t, m ∈ all_metrics -> s.(last_values) !! m.(im_last_value_attr) = Some x ->
    s.(last_times) !! m.(im_last_at_attr) = Some t -> observed log m x t.

(** The attributes of the metrics are different ones. *)
Lemma metric_names m m' : m ∈ all_metrics -> m' ∈ all_metrics ->
  (m = m' \/ m.(im_last_value_attr) <> m'.(im_last_value_attr) /\ m.(im_last_at_attr) <> m'.(im_last_at_attr)).
Proof.
  intros H H'. unfold all_metrics in *.
  repeat (apply elem_of_cons in H as [-> | H];
    [repeat (apply elem_of_cons in H' as [-> | H']; [first [by left | right; split; discriminate]|]); by apply elem_of_nil in H'|]).
  by apply elem_of_nil in H.
Qed.

Definition fresh_value (log : seen) (m : input_metric) (now x : float) : Prop :=
  exists t, observed log m x t /\
    (t = now \/ (t <=? now + f1)%F = true /\
     (now - t >? auto_input_source_max_age_seconds c m.(im_poll_interval_attr))%F = false).

Lemma max_age_number attr : isnan (auto_input_source_max_age_seconds c attr) = false.
Proof. unfold auto_input_source_max_age_seconds. cbv zeta. destruct (_ <=? f0)%F; by apply fmax_not_nan. Qed.

(** The cache is never more patient than the source. *)
Lemma cache_limit_le limit : isnan limit = false -> isnan (cache_age_limit c (Some limit)) = false ->
  (cache_age_limit c (Some limit) <=? limit)%F = true.
Proof.
  intros Hl. cbn. unfold fmin. destruct (limit <? auto_input_cache_seconds c)%F eqn:E; intros Hn; [by apply fle_refl|].
  destruct (auto_input_cache_seconds c <=? limit)%F eqn:E'; [done|]. apply fle_total in E'; [congruence | done..].
Qed.

(** A snapshot value that is not discarded. *)
Lemma kept_input value captured now limit x at_ : discard_invalid_snapshot_input value captured now (Some limit) = Ok (Some x, at_) ->
  value = Some x /\ at_ = captured /\
  forall t, captured = Some t -> (t <=? now + f1)%F = true /\ (now - t >? limit)%F = false.
Proof.
  unfold discard_invalid_snapshot_input. destruct value as [v|]; [|by intros [= <- <-]]. destruct captured as [t|]; [|by intros [= <- <-]].
  intros (future & Hf & H)%res_bind_ok. cbn [snapshot_input_too_old] in H.
  destruct future; cbn [orb] in H; [done|]. destruct (now - t >? limit)%F eqn:E; [done|]. injection H as <- <-. split_and!; [done..|].
  intros t' [= <-]. split; [|done]. unfold snapshot_input_from_future in Hf. apply res_bind_ok in Hf as (ok & Hok & [= Hf]).
  destruct ok; [|done]. unfold timestamp_not_future in Hok. apply res_bind_ok in Hok as (n & Hn & [= Hok]). destruct n as [t'|]; [|done].
  by apply (finite_of_value t) in Hn as ->.
Qed.

Section metric.
Context (w : dict) (now : float) (log : seen) (m : input_metric).
Hypothesis Hm : m ∈ all_metrics.
Hypothesis Hin : (w, now) ∈ log.

Lemma remembered_set s x t : remembered log s -> observed log m x t ->
  remembered log (s <| last_values := <[m.(im_last_value_attr) := x]> s.(last_values) |>
                    <| last_times := <[m.(im_last_at_attr) := t]> s.(last_times) |>).
Proof.
  intros Hs Ho m' x' t' Hm' Hx Ht. cbn in Hx, Ht. destruct (metric_names m m' Hm Hm') as [<- | [Hv Ha]].
  - rewrite lookup_insert_eq in Hx, Ht. congruence.
  - rewrite lookup_insert_ne in Hx, Ht by done. by apply Hs.
Qed.

(** One metric: it answers a fresh value, and the caches stay observed ones. *)
Lemma metric_cases s r s' : remembered log s -> resolve_auto_input_metric c w now m s = (r, s') ->
  remembered log s' /\ forall x b, r = Ok (Some x, b) -> fresh_value log m now x.
Proof.
  intros Hs H. unfold resolve_auto_input_metric in H.
  apply bind_inv in H as [(value & s1 & [Hv ->]%lift_res & H) | (e & H & ->)]; [|unfold lift in H; by injection H as _ <-].
  apply bind_inv in H as [(captured & s1 & [Hc ->]%lift_res & H) | (e & H & ->)]; [|unfold lift in H; by injection H as _ <-].
  unfold resolve_cached_input_value in H.
  apply bind_inv in H as [([value' at'] & s1 & [Hd ->]%lift_res & H) | (e & H & ->)]; [|unfold lift in H; by injection H as _ <-].
  destruct value' as [x|].
  - apply kept_input in Hd as (-> & -> & Hfresh).
    assert (observed log m x (default now captured)) as Ho by (exists w, now, captured; by split_and!).
    injection H as <- <-. split; [by apply remembered_set|]. intros x' b [= <- _]. exists (default now captured). split; [done|].
    destruct captured as [t|]; [right; by apply Hfresh | by left].
  - injection H as <- <-. split; [done|]. intros x b [= H]. unfold cached_input_from_service in H.
    destruct (last_values s !! _) as [v|] eqn:Ev; [|done]. destruct (last_times s !! _) as [t|] eqn:Et; [|done].
    destruct ((t <=? now + FUTURE_INPUT_TIMESTAMP_TOLERANCE_SECONDS)%F && _) eqn:E; [|done].
    apply andb_true_iff in E as [E1 E2]. injection H as H _. apply (finite_of_finite (Some v)) in H as [_ H]. injection H as ->.
    exists t. split; [by apply Hs|]. right. split; [done|]. apply fle_not_flt. eapply fle_trans; [exact E2|].
    apply cache_limit_le; [apply max_age_number|]. exact (fle_number _ _ E2).
Qed.
End metric.

Lemma cluster_cases w now log name s r s' : cluster_metric name ∈ all_metrics -> (w, now) ∈ log -> remembered log s ->
  resolve_battery_cluster_metric c w now name s = (r, s') -> remembered log s'.
Proof.
  intros Hm Hin Hs H. unfold resolve_battery_cluster_metric in H.
  apply bind_inv in H as [([v b] & s1 & H & H') | (e & H & _)]; [injection H' as _ <-|]; by eapply metric_cases in H as [H _].
Qed.

(** A part that leaves the values and times. *)
Lemma remembered_same log s s' : remembered log s -> s'.(last_values) = s.(last_values) -> s'.(last_times) = s.(last_times) ->
  remembered log s'.
Proof. intros Hs Hv Ht m x t Hm. rewrite Hv, Ht. by apply Hs. Qed.

Ltac among := unfold all_metrics; rewrite !elem_of_cons; tauto.

(** All metrics of a cycle. *)
Lemma inputs_cases w now log s r s' active : remembered log s -> (w, now) ∈ log -> resolve_auto_inputs c w now active s = (r, s') ->
  remembered log s' /\
  forall pv soc grid, r = Ok (pv, soc, grid) ->
    (forall x, pv = Some x -> fresh_value log pv_metric now x) /\ (forall x, soc = Some x -> fresh_value log battery_metric now x) /\
    (forall x, grid = Some x -> fresh_value log grid_metric now x).
Proof.
  intros Hs Hin H. unfold resolve_auto_inputs in H. destruct (negb active).
  { injection H as <- <-. split; [exact Hs|]. intros pv soc grid [= <- <- <-]. done. }
  apply bind_inv in H as [([pv b1] & s1 & H1 & H) | (e & H1 & ->)]; (eapply metric_cases in H1 as [Hs1 Hpv]; [|among|done|done]);
    [|by split].
  apply bind_inv in H as [([grid b2] & s2 & H2 & H) | (e & H2 & ->)]; (eapply metric_cases in H2 as [Hs2 Hgrid]; [|among|done|done]);
    [|by split].
  apply bind_inv in H as [([soc b3] & s3 & H3 & H) | (e & H3 & ->)]; (eapply metric_cases in H3 as [Hs3 Hsoc]; [|among|done|done]);
    [|by split].
  do 4 (apply bind_inv in H as [(? & ? & Hc & H) | (e & Hc & ->)]; (eapply cluster_cases in Hc; [|among|done|done]);
    [rename Hc into Hlast | by split]; try clear Hs1; rename Hlast into Hs1).
  apply bind_inv in H as [([] & s4 & [= <-] & H) | (e & [=] & _)].
  apply bind_inv in H as [([] & s5 & H5 & H) | (e & H5 & _)].
  2:{ unfold store_learning_profiles in H5. destruct (default _ _); discriminate. }
  apply bind_inv in H as [([] & s6 & [= <-] & H) | (e & [=] & _)].
  apply bind_inv in H as [([] & s7 & H7 & [= <- <-]) | (e & H7 & _)].
  2:{ destruct (_ || _); discriminate. }
  split.
  - eapply remembered_same; [exact Hs1 | |].
    + destruct (b1 || b2 || b3); injection H7 as <-; unfold store_learning_profiles in H5; destruct (default _ _); by injection H5 as <-.
    + destruct (b1 || b2 || b3); injection H7 as <-; unfold store_learning_profiles in H5; destruct (default _ _); by injection H5 as <-.
  - intros pv' soc' grid' [= <- <- <-]. split_and!; intros y ->; [by eapply Hpv | by eapply Hsoc | by eapply Hgrid].
Qed.

(** The life of the service: it starts with empty caches; a cycle resolves its inputs. *)
Inductive input_history : seen -> InputCacheService -> Prop :=
| inputs_started s : s.(last_values) = ∅ -> input_history [] s
| inputs_resolved log s w now active r s' : input_history log s -> resolve_auto_inputs c w now active s = (r, s') ->
    input_history (log ++ [(w, now)]) s'.

Lemma remembered_later log log' s : remembered log s -> remembered (log ++ log') s.
Proof. intros H m x t Hm Hx Ht. by apply observed_later, H. Qed.

Lemma input_history_remembered log s : input_history log s -> remembered log s.
Proof.
  induction 1 as [s H | log s w now active r s' _ IH H].
  - intros m x t _ Hx. rewrite H, lookup_empty in Hx. discriminate.
  - eapply inputs_cases; [by apply remembered_later | | exact H]. apply elem_of_app. right. apply elem_of_cons. by left.
Qed.

(** C31. The Auto mode decides on fresh measurements only: each of the photovoltaic power, the battery charge and the grid
    power that a cycle hands on was in a worker snapshot, of this cycle or an earlier one, under the key of that
    measurement; if the snapshot dated it, it is not older than the limit of its source (at least a second, derived
    from the poll interval and the validation interval) and at most a second ahead of the clock, also when it comes
    from the cache.  What is neither in the snapshot nor fresh in the cache is missing. *)
Theorem auto_inputs_are_fresh log s w now active pv soc grid s' :
  input_history log s -> resolve_auto_inputs c w now active s = (Ok (pv, soc, grid), s') ->
  (forall x, pv = Some x -> fresh_value (log ++ [(w, now)]) pv_metric now x) /\
  (forall x, soc = Some x -> fresh_value (log ++ [(w, now)]) battery_metric now x) /\
  (forall x, grid = Some x -> fresh_value (log ++ [(w, now)]) grid_metric now x).
Proof.
  intros Hh H. eapply inputs_cases; [apply remembered_later; by apply input_history_remembered | | exact H | done].
  apply elem_of_app. right. apply elem_of_cons. by left.
Qed.

End inputs.

(** ** A worker that answers once *)
Section example.

Definition answer : dict :=
  [(VStr "captured_at", VInt 100); (VStr "pm_captured_at", VInt 100); (VStr "pm_confirmed", VBool true);
   (VStr "pm_status", VDict [(VStr "output", VBool true); (VStr "apower", VInt 2300)]); (VStr "pv_power", VInt 3000);
   (VStr "pv_captured_at", VInt 99); (VStr "battery_soc", VInt 80)].

Import PmSnapshotResolver.

Definition idle_relay : PmSnapshotService := mkPmSnapshotService (f_of_Z 10) (Some f1) None None false None None.
Definition after_answer : PmSnapshotService := snd (resolve_pm_status_for_update answer (f_of_Z 101) idle_relay).

Lemma relay_status_is_confirmed_and_fresh_witness :
  exists d t, fst (resolve_pm_status_for_update [] (f_of_Z 108) after_answer) = Ok (Some d) /\
    dict_get "apower" d = VInt 2300 /\ confirmed_status [(answer, f_of_Z 101); ([], f_of_Z 108)] d t /\
    ((fopp f1 <=? f_of_Z 108 - t)%F = true \/ (t <=? f_of_Z 108 + f1)%F = true) /\
    (f_of_Z 108 - t <=? fmax after_answer.(auto_shelly_soft_fail_seconds) (direct_pm_snapshot_max_age_seconds after_answer))%F = true.
Proof.
  set (d := flagged [(VStr "output", VBool true); (VStr "apower", VInt 2300)]).
  assert (fst (resolve_pm_status_for_update [] (f_of_Z 108) after_answer) = Ok (Some d)) as Hd by (vm_compute; reflexivity).
  destruct (relay_status_is_confirmed_and_fresh [(answer, f_of_Z 101)] after_answer [] (f_of_Z 108) d
    (snd (resolve_pm_status_for_update [] (f_of_Z 108) after_answer))) as (t & H).
  - apply (relay_resolved [] idle_relay answer (f_of_Z 101) (fst (resolve_pm_status_for_update answer (f_of_Z 101) idle_relay))).
    + apply relay_started; reflexivity.
    + apply surjective_pairing.
  - rewrite <- Hd. apply surjective_pairing.
  - exists d, t. split; [exact Hd|]. split; [reflexivity | exact H].
Defined.

Import InputCacheResolver.

Definition settings : input_settings := mkInputSettings (f_of_Z 120) (Some (f_of_Z 30)) (Some (f_of_Z 15)) (fun _ => Some (f_of_Z 2)).
Definition no_inputs : InputCacheService := mkInputCacheService ∅ ∅ false 0 [] [].
Definition inputs_after : InputCacheService := snd (resolve_auto_inputs settings answer (f_of_Z 101) true no_inputs).

Lemma auto_inputs_are_fresh_witness :
  fst (resolve_auto_inputs settings [] (f_of_Z 110) true inputs_after) = Ok (Some (f_of_Z 3000), Some (f_of_Z 80), None) /\
  fresh_value settings [(answer, f_of_Z 101); ([], f_of_Z 110)] pv_metric (f_of_Z 110) (f_of_Z 3000).
Proof.
  assert (fst (resolve_auto_inputs settings [] (f_of_Z 110) true inputs_after) = Ok (Some (f_of_Z 3000), Some (f_of_Z 80), None)) as Hr
    by (vm_compute; reflexivity).
  split; [exact Hr|].
  apply (auto_inputs_are_fresh settings [(answer, f_of_Z 101)] inputs_after [] (f_of_Z 110) true (Some (f_of_Z 3000)) (Some (f_of_Z 80)) None
    (snd (resolve_auto_inputs settings [] (f_of_Z 110) true inputs_after))).
  - apply (inputs_resolved settings [] no_inputs answer (f_of_Z 101) true (fst (resolve_auto_inputs settings answer (f_of_Z 101) true no_inputs))).
    + apply inputs_started. reflexivity.
    + apply surjective_pairing.
  - rewrite <- Hr. apply surjective_pairing.
  - reflexivity.
Defined.

End example.
