(* ===== verification/ChargerCurrent.v ===== *)
(** * Charger current

    [update/relay_charger_current_targets.py]: the current to ask the charger for, from the schedule,
    the learned charging power, or the configured current, within the limits.
    [update/relay_charger_current.py]: when it is sent, and what becomes of a failed request.
    [backend/modbus_transport_config.py] and [modbus_transport_errors.py]: the class of a failure.

    The policy reads attributes of the service by name; the transport bookkeeping is that of
    Transport.  The charger is a parameter, and every request to it is logged with its outcome. *)

From S2P Require Import Prelude PyFloat PyValue Contracts BackendModels Service CommonAuto Transport Schedule AutoPolicy EssSources EssProfiles.

(** ** Failures of a device *)

(** The exceptions that [modbus_transport_issue_reason] tells apart, and all others by their class.
    backend/modbus_transport_errors.py: ModbusTransportError *)
Inductive device_error :=
| ModbusPortBusyError | ModbusPortOwnershipError | ModbusSlaveOfflineError | ModbusTimeoutError | TimeoutError_
| ModbusResponseError | OtherTransportError | OtherError (e : exn).

(** The class among the standard ones. *)
Definition error_class (error : device_error) : exn :=
  match error with TimeoutError_ => OSError | OtherError e => e | _ => RuntimeError end.

(** backend/modbus_transport_config.py: modbus_transport_issue_reason *)
Definition modbus_transport_issue_reason (error : device_error) : option string :=
  match error with
  | ModbusPortBusyError => Some "busy"
  | ModbusPortOwnershipError => Some "ownership"
  | ModbusSlaveOfflineError => Some "offline"
  | ModbusTimeoutError | TimeoutError_ => Some "timeout"
  | ModbusResponseError => Some "response"
  | OtherTransportError => Some "error"
  | OtherError e => if exn_isa e OSError then Some "error" else None
  end.

(** ** The target
    update/relay_charger_current_targets.py *)
Module ChargerCurrentTargetPolicy.

(** update/relay_charger_current_targets.py: ChargerCurrentTargetPolicy.FUTURE_INPUT_TIMESTAMP_TOLERANCE_SECONDS *)
Definition FUTURE_INPUT_TIMESTAMP_TOLERANCE_SECONDS : float := f1.

(** update/relay_charger_current_targets.py: _is_time_window *)
Definition time_window_of (value : pyval) : option time_window :=
  match value with VTuple [VInt hour; VInt minute] => Some (hour, minute) | _ => None end.

(** update/relay_charger_current_targets.py: _is_month_window_pair *)
Definition month_window_pair_of (value : pyval) : option (time_window * time_window) :=
  match value with
  | VTuple [a; b] => w ← time_window_of a; w' ← time_window_of b; Some (w, w')
  | _ => None
  end.

(** update/relay_charger_current_targets.py: _is_month_window_item *)
Definition month_window_item_of (item : pyval * pyval) : option (Z * (time_window * time_window)) :=
  match fst item with VInt month => windows ← month_window_pair_of (snd item); Some (month, windows) | _ => None end.

(** update/relay_charger_current_targets.py: _is_month_windows *)
Definition month_windows_of (value : pyval) : option month_windows :=
  match value with VDict d => mapM month_window_item_of d | _ => None end.

(** update/relay_charger_current_targets.py: ChargerCurrentTargetPolicy.current_limits *)
Definition current_limits (v : service) : res (option float * option float) :=
  min_current ← finite_float_or_none (getattr "min_current" VNone v);
  max_current ← finite_float_or_none (getattr "max_current" VNone v);
  mret (min_current, max_current).

(** update/relay_charger_current_targets.py: ChargerCurrentTargetPolicy.apply_minimum *)
Definition apply_minimum (target : float) (min_current : option float) : float :=
  match min_current with Some m => fmax target m | None => target end.

(** update/relay_charger_current_targets.py: ChargerCurrentTargetPolicy.apply_maximum *)
Definition apply_maximum (target : float) (max_current : option float) : float :=
  match max_current with Some m => if (m <=? f0)%F then target else fmin target m | None => target end.

(** update/relay_charger_current_targets.py: ChargerCurrentTargetPolicy.clamped_target *)
Definition clamped_target (value : option float) (v : service) : res (option float) :=
  match value with
  | None => Ok None
  | Some target =>
    '(min_current, max_current) ← current_limits v;
    let target := apply_maximum (apply_minimum target min_current) max_current in
    mret (if (target >? f0)%F then Some target else None)
  end.

(** update/relay_charger_current_targets.py: ChargerCurrentTargetPolicy.stable_learning_state *)
Definition stable_learning_state (v : service) : bool :=
  match v !! "learned_charge_power_state" with
  | None => false
  | Some state => (normalize_learning_state state =? "stable")%string
  end.

(** What the learned target is computed from. *)
Record learned_inputs := mkLearnedInputs {
  li_power : option float; li_voltage : option float; li_phase : option string; li_updated_at : option float;
  li_max_age_seconds : option float }.

Section policy.
Context (policy : AutoPolicy.AutoPolicy).

(** update/relay_charger_current_targets.py: ChargerCurrentTargetPolicy.raw_learned_inputs *)
Definition raw_learned_inputs (v : service) : res learned_inputs :=
  learned_power ← finite_float_or_none (getattr "learned_charge_power_watts" VNone v);
  learned_voltage ← finite_float_or_none (getattr "learned_charge_power_voltage" VNone v);
  let raw_phase := match getattr "learned_charge_power_phase" VNone v with VNone => getattr "phase" VNone v | p => p end in
  let learned_phase := match raw_phase with VNone => Some "L1" | p => normalize_learning_phase p end in
  updated_at ← finite_float_or_none (getattr "learned_charge_power_updated_at" VNone v);
  mret (mkLearnedInputs learned_power learned_voltage learned_phase updated_at
          (finite_of (Some policy.(learn_charge_power).(alcp_max_age_seconds)))).

(** update/relay_charger_current_targets.py: ChargerCurrentTargetPolicy.positive_scalar *)
Definition positive_scalar (value : option float) : option float :=
  match value with Some x => if (x <=? f0)%F then None else Some x | None => None end.

(** update/relay_charger_current_targets.py: ChargerCurrentTargetPolicy.phase_and_timestamp *)
Definition phase_and_timestamp (learned_phase : option string) (updated_at : option float) : option (string * float) :=
  match learned_phase, updated_at with Some p, Some t => Some (p, t) | _, _ => None end.

(** update/relay_charger_current_targets.py: ChargerCurrentTargetPolicy.validated_learned_inputs *)
Definition validated_learned_inputs (i : learned_inputs) : option (float * float * string * float * option float) :=
  match positive_scalar i.(li_power), positive_scalar i.(li_voltage) with
  | Some power, Some voltage =>
    match phase_and_timestamp i.(li_phase) i.(li_updated_at) with
    | Some (phase, updated_at) => Some (power, voltage, phase, updated_at, i.(li_max_age_seconds))
    | None => None
    end
  | _, _ => None
  end.

(** update/relay_charger_current_targets.py: ChargerCurrentTargetPolicy.stable_learned_inputs *)
Definition stable_learned_inputs (v : service) : res (option (float * float * string * float * option float)) :=
  if negb (stable_learning_state v) then Ok None else i ← raw_learned_inputs v; mret (validated_learned_inputs i).

(** update/relay_charger_current_targets.py: ChargerCurrentTargetPolicy.learned_target_stale *)
Definition learned_target_stale (now updated_at : float) (max_age_seconds : option float) : res bool :=
  ok ← timestamp_not_future (VFloat updated_at) now FUTURE_INPUT_TIMESTAMP_TOLERANCE_SECONDS;
  mret (if negb ok then true
        else match max_age_seconds with
             | Some limit => (limit >? f0)%F && (now - updated_at >? limit)%F
             | None => false
             end).

(** update/relay_charger_current_targets.py: ChargerCurrentTargetPolicy.learned_phase_voltage *)
Definition learned_phase_voltage (learned_phase : string) (learned_voltage : float) (v : service) : float :=
  let mode := match getattr "voltage_mode" VNone v with VNone => "phase" | raw => py_lower (py_strip (py_str raw)) end in
  if negb (learned_phase =? "3P")%string || (mode =? "phase")%string then learned_voltage
  else (fmax f0 learned_voltage / fsqrt (f_of_Z 3))%F.

(** [round(x)] of a float: the nearest integer, ties to even. *)
Definition py_round_int (x : float) : res Z :=
  match x with S754_nan => Err ValueError | S754_infinity _ => Err OverflowError | _ => Ok (round_half_even x) end.

(** update/relay_charger_current_targets.py: ChargerCurrentTargetPolicy.rounded_learned_target *)
Definition rounded_learned_target (learned_power phase_voltage phase_count : float) : res (option float) :=
  if (phase_voltage <=? f0)%F || (phase_count <=? f0)%F then Ok None
  else
    amps ← float_div learned_power (phase_voltage * phase_count)%F;
    n ← py_round_int amps;
    finite_float_or_none (VInt n).

(** update/relay_charger_current_targets.py: ChargerCurrentTargetPolicy.derived_learned_target *)
Definition derived_learned_target (now : float) (v : service) : res (option float) :=
  inputs ← stable_learned_inputs v;
  match inputs with
  | None => Ok None
  | Some (learned_power, learned_voltage, learned_phase, updated_at, max_age_seconds) =>
    stale ← learned_target_stale now updated_at max_age_seconds;
    if stale : bool then Ok None
    else
      let phase_voltage := learned_phase_voltage learned_phase learned_voltage v in
      let phase_count := if (learned_phase =? "3P")%string then f_of_Z 3 else f1 in
      rounded_current ← rounded_learned_target learned_power phase_voltage phase_count;
      clamped_target rounded_current v
  end.

(** [local_datetime_from_timestamp] converts with the time zones of the operating system. *)
Context (local_datetime_from_timestamp : float -> pyval -> res datetime).

(** update/relay_charger_current_targets.py: ChargerCurrentTargetPolicy.scheduled_night_active *)
Definition scheduled_night_active (now : float) (v : service) : res bool :=
  match getattr "virtual_mode" VNone v with
  | VNone => Ok false
  | virtual_mode =>
    scheduled ← mode_uses_scheduled_logic virtual_mode;
    if negb scheduled then Ok false
    else
      local_dt ← local_datetime_from_timestamp now (getattr "auto_schedule_timezone" (VStr "UTC") v);
      raw_month_windows ← attribute "auto_month_windows" v;
      let month_windows := default [] (month_windows_of raw_month_windows) in
      let enabled_days := getattr "auto_scheduled_enabled_days" (VStr "Mon,Tue,Wed,Thu,Fri") v in
      delay_seconds ← py_float (getattr "auto_scheduled_night_start_delay_seconds" (VFloat (f_of_Z 3600)) v);
      snapshot ← scheduled_mode_snapshot local_dt month_windows enabled_days delay_seconds
        (getattr "auto_scheduled_latest_end_time" (VStr "04:30") v);
      mret snapshot.(sn_night_boost_active)
  end.

(** update/relay_charger_current_targets.py: ChargerCurrentTargetPolicy.scheduled_night_current *)
Definition scheduled_night_current (v : service) : res (option float) :=
  configured ← finite_float_or_none (getattr "auto_scheduled_night_current_amps" VNone v);
  match positive_scalar configured with
  | Some amps => Ok (Some amps)
  | None => finite_float_or_none (getattr "max_current" VNone v)
  end.

(** update/relay_charger_current_targets.py: ChargerCurrentTargetPolicy.target_allowed *)
Definition target_allowed (has_current_backend desired_relay auto_mode_active : bool) : bool :=
  auto_mode_active && desired_relay && has_current_backend.

(** update/relay_charger_current_targets.py: ChargerCurrentTargetPolicy.current_target *)
Definition current_target (has_current_backend desired_relay : bool) (now : float) (auto_mode_active : bool) (v : service)
    : res (option float) :=
  if negb (target_allowed has_current_backend desired_relay auto_mode_active) then Ok None
  else
    night ← scheduled_night_active now v;
    if night : bool then amps ← scheduled_night_current v; clamped_target amps v
    else
      learned_target ← derived_learned_target now v;
      match learned_target with
      | Some target => Ok (Some target)
      | None => fallback_target ← finite_float_or_none (getattr "virtual_set_current" VNone v); clamped_target fallback_target v
      end.

End policy.
End ChargerCurrentTargetPolicy.

(** ** Sending it
    update/relay_charger_current.py *)
Module ChargerTargetController.
Import ChargerCurrentTargetPolicy.

(** update/relay_charger_current.py: CHARGER_CURRENT_APPLY_ERRORS *)
Definition CHARGER_CURRENT_APPLY_ERRORS : list exn := [OSError; RuntimeError; TypeError; ValueError].

(** The attributes, and the requests with their outcome. *)
Record charger := mkCharger {
  ch_svc : svc; ch_attrs : service; ch_target_amps : option float; ch_target_applied_at : option float;
  ch_requests : list (float * bool) }.

#[export] Instance eta_charger : Eta charger := fun s =>
  mkCharger s.(ch_svc) s.(ch_attrs) s.(ch_target_amps) s.(ch_target_applied_at) s.(ch_requests).

(** The charger: whether it takes a current, what becomes of a request, and the text of a failure. *)
Class CurrentBackend := {
  has_current_backend : bool;
  set_current : list (float * bool) -> float -> option (device_error * string) }.

(** A step of the transport bookkeeping. *)
Definition on_svc {A} (m : M svc A) : M charger A := fun s =>
  let '(r, v) := m s.(ch_svc) in (r, s <| ch_svc := v |>).

Section controller.
Context (policy : AutoPolicy.AutoPolicy) (local_datetime_from_timestamp : float -> pyval -> res datetime) {backend : CurrentBackend}.

(** update/relay_charger_current.py: ChargerTargetController.current_reset_needed *)
Definition current_reset_needed (desired_relay auto_mode_active : bool) : bool := negb auto_mode_active || negb desired_relay.

(** update/relay_charger_current.py: ChargerTargetController.reset_current_target *)
Definition reset_current_target : M charger unit := modify (fun s => s <| ch_target_amps := None |> <| ch_target_applied_at := None |>).

(** update/relay_charger_current.py: ChargerTargetController.target_unchanged *)
Definition target_unchanged (last_target : option float) (target_amps : float) : bool :=
  match last_target with Some last => (fabs (last - target_amps) <? fdec 1 100)%F | None => false end.

(** update/relay_charger_current.py: ChargerTargetController._handle_current_target_failure *)
Definition handle_current_target_failure (error : device_error) (detail : string) (now : option float) : M charger unit :=
  match modbus_transport_issue_reason error with
  | Some transport_reason =>
    on_svc (remember_issue transport_reason "current" detail now);;
    on_svc (remember_retry transport_reason "current" now)
  | None => mret tt
  end;;
  on_svc (emit (EMarkFailure "charger"));;
  on_svc (emit (EWarning "charger-current-failed")).

(** update/relay_charger_current.py: ChargerTargetController.remember_current_target *)
Definition remember_current_target (target_amps now : float) : M charger float :=
  modify (fun s => s <| ch_target_amps := Some target_amps |> <| ch_target_applied_at := Some now |>);;
  on_svc (emit (EMarkRecovery "charger"));;
  mret target_amps.

(** update/relay_charger_current.py: ChargerTargetController._apply_new_current_target *)
Definition apply_new_current_target (target_amps now : float) (last_target : option float) : M charger (option float) :=
  s ← get;
  if retry_active s.(ch_svc) (Some now) then mret last_target
  else
    let failure := set_current s.(ch_requests) target_amps in
    modify (fun s => s <| ch_requests := s.(ch_requests) ++ [(target_amps, match failure with None => true | Some _ => false end)] |>);;
    match failure with
    | Some (error, detail) =>
      if exn_in CHARGER_CURRENT_APPLY_ERRORS (error_class error)
      then handle_current_target_failure error detail (Some now);; mret last_target
      else raise (error_class error)
    | None =>
      on_svc clear_issue;;
      on_svc clear_retry;;
      amps ← remember_current_target target_amps now;
      mret (Some amps)
    end.

(** update/relay_charger_current.py: ChargerTargetController.known_current_target *)
Definition known_current_target (last_target : option float) : res float :=
  match last_target with None => Err TypeError | Some last => Ok last end.

(** update/relay_charger_current.py: ChargerTargetController.apply_current_target *)
Definition apply_current_target (desired_relay : bool) (now : float) (auto_mode_active : bool) : M charger (option float) :=
  if negb has_current_backend then mret None
  else if current_reset_needed desired_relay auto_mode_active then reset_current_target;; mret None
  else
    s ← get;
    target_amps ← lift (current_target policy local_datetime_from_timestamp has_current_backend desired_relay now auto_mode_active s.(ch_attrs));
    match target_amps with
    | None => mret None
    | Some target_amps =>
      let last_target := finite_of s.(ch_target_amps) in
      if target_unchanged last_target target_amps then known ← lift (known_current_target last_target); mret (Some known)
      else apply_new_current_target target_amps now last_target
    end.

End controller.
End ChargerTargetController.
