(* ===== verification/ChargerCurrentSafety.v ===== *)
(** * What the charger is asked for

    A current request stays within the limits and respects the retry window; a failed one leaves the remembered target. *)

From S2P Require Import Prelude PyFloat PyValue Contracts BackendModels Service CommonAuto Transport Schedule AutoPolicy EssSources EssProfiles ChargerCurrent.
Import ChargerCurrentTargetPolicy ChargerTargetController.

(** ** Limits *)

(** A current that the limits allow; a maximum that is not positive means none. *)
Definition within_limits (min_current max_current : option float) (amps : float) : Prop :=
  (amps >? f0)%F = true /\
  (forall m, max_current = Some m -> (m >? f0)%F = true -> (amps <=? m)%F = true) /\
  (forall m, min_current = Some m ->
     match max_current with Some l => (l <=? f0)%F = true \/ (m <=? l)%F = true | None => True end -> (m <=? amps)%F = true).

Lemma fmin_cases_le a b : isnan (fmin a b) = false -> (fmin a b = b /\ (b <=? a)%F = true) \/ fmin a b = a.
Proof. unfold fmin. destruct (b <? a)%F eqn:E; [left|by right]. split; [done|]. by apply flt_fle. Qed.

Lemma fmin_le_r a b : isnan (fmin a b) = false -> isnan b = false -> (fmin a b <=? b)%F = true.
Proof.
  unfold fmin. destruct (b <? a)%F eqn:E; intros Hn Hb; [by apply fle_refl|].
  destruct (a <=? b)%F eqn:El; [done|]. apply fle_total in El; [congruence | done..].
Qed.

Lemma fmax_ge_r a b : isnan (fmax a b) = false -> isnan b = false -> (b <=? fmax a b)%F = true.
Proof.
  unfold fmax. destruct (a <? b)%F eqn:E; intros Hn Hb; [by apply fle_refl|].
  destruct (b <=? a)%F eqn:El; [done|]. apply fle_total in El; [congruence | done..].
Qed.

Lemma positive_number x : (x >? f0)%F = true -> isnan x = false.
Proof. by destruct x. Qed.

(** A clamped target is within the limits. *)
Lemma clamped_within value v amps : clamped_target value v = Ok (Some amps) ->
  exists min_current max_current, current_limits v = Ok (min_current, max_current) /\ within_limits min_current max_current amps.
Proof.
  unfold clamped_target. destruct value as [target|]; [|done].
  intros ([min_current max_current] & Hlim & H)%res_bind_ok. exists min_current, max_current. split; [exact Hlim|].
  destruct (apply_maximum _ _ >? f0)%F eqn:Hpos; [|done]. injection H as <-.
  apply res_bind_ok in Hlim as (mn & Hmin & H). apply res_bind_ok in H as (mx & Hmax & [= -> ->]).
  assert (forall m, min_current = Some m -> isnan m = false) as Hm.
  { intros m ->. by apply finite_float_or_none_finite, isfinite_not_nan in Hmin. }
  assert (forall m, max_current = Some m -> isnan m = false) as HM.
  { intros m ->. by apply finite_float_or_none_finite, isfinite_not_nan in Hmax. }
  clear Hmin Hmax. pose proof (positive_number _ Hpos) as Hn.
  assert (isnan (apply_minimum target min_current) = false /\
    ((apply_maximum (apply_minimum target min_current) max_current = apply_minimum target min_current) \/
     exists l, max_current = Some l /\ apply_maximum (apply_minimum target min_current) max_current = l /\ (l <=? f0)%F = false)) as [Ha Hcase].
  { revert Hn. unfold apply_maximum. destruct max_current as [l|]; [|by auto]. destruct (l <=? f0)%F eqn:El; [by auto|].
    intros Hn. destruct (fmin_cases_le _ _ Hn) as [[Heq Hle] | Heq]; [|rewrite Heq in Hn; by auto]. split; [by destruct (apply_minimum _ _), l|].
    right. by exists l. }
  split_and!; [exact Hpos | |].
  - intros m -> Hmpos. unfold apply_maximum in *. rewrite (flt_not_fle _ _ Hmpos) in *. by apply fmin_le_r, HM.
  - intros m -> Hallowed. destruct Hcase as [-> | (l & -> & -> & Hl)].
    + apply fmax_ge_r; [exact Ha | by apply Hm].
    + destruct Hallowed as [H|H]; [congruence | exact H].
Qed.

(** Every target is a clamped one. *)
Lemma target_within policy local_dt has desired now auto v amps :
  current_target policy local_dt has desired now auto v = Ok (Some amps) ->
  exists min_current max_current, current_limits v = Ok (min_current, max_current) /\ within_limits min_current max_current amps.
Proof.
  unfold current_target. destruct (negb (target_allowed _ _ _)); [done|]. intros (night & _ & H)%res_bind_ok. destruct night.
  - apply res_bind_ok in H as (value & _ & H). by eapply clamped_within.
  - apply res_bind_ok in H as (learned & Hl & H). destruct learned as [t|].
    + injection H as <-. unfold derived_learned_target in Hl. apply res_bind_ok in Hl as (inputs & _ & Hl).
      destruct inputs as [[[[[power voltage] phase] updated_at] max_age]|]; [|done].
      apply res_bind_ok in Hl as (stale & _ & Hl). destruct stale; [done|]. cbv zeta in Hl.
      apply res_bind_ok in Hl as (rounded & _ & Hl). by eapply clamped_within.
    + apply res_bind_ok in H as (fallback & _ & H). by eapply clamped_within.
Qed.

(** ** Requests *)

(** The transport bookkeeping leaves the targets and the requests. *)
Definition same_targets (s s' : charger) : Prop :=
  s'.(ch_attrs) = s.(ch_attrs) /\ s'.(ch_target_amps) = s.(ch_target_amps) /\ s'.(ch_target_applied_at) = s.(ch_target_applied_at) /\
  s'.(ch_requests) = s.(ch_requests).

#[local] Instance same_targets_preorder : PreOrder same_targets.
Proof. split; unfold same_targets; [done|]. intros s1 s2 s3 (-> & -> & -> & ->) H. exact H. Qed.

Lemma on_svc_same {A} (m : M svc A) : keeps same_targets (on_svc m).
Proof. intros s. unfold on_svc. by destruct (m (ch_svc s)). Qed.

Lemma failure_same error detail now : keeps same_targets (handle_current_target_failure error detail now).
Proof.
  unfold handle_current_target_failure. destruct (modbus_transport_issue_reason error); keeps_go ltac:(apply on_svc_same).
Qed.

(** A request as the theorem describes it. *)
Definition request_allowed (desired_relay : bool) (now : float) (auto_mode_active : bool) (s s' : charger) (amps : float) (ok : bool) : Prop :=
  desired_relay = true /\ auto_mode_active = true /\ retry_active s.(ch_svc) (Some now) = false /\
  target_unchanged (finite_of s.(ch_target_amps)) amps = false /\
  (exists min_current max_current, current_limits s.(ch_attrs) = Ok (min_current, max_current) /\ within_limits min_current max_current amps) /\
  s'.(ch_target_amps) = (if ok then Some amps else s.(ch_target_amps)).

Section requests.
Context (policy : AutoPolicy.AutoPolicy) (local_dt : float -> pyval -> res datetime) {backend : CurrentBackend}.

(** A request that is made. *)
Lemma new_target_cases amps now last s r s' : apply_new_current_target amps now last s = (r, s') ->
  (same_targets s s' /\ r = Ok last) \/
  (retry_active s.(ch_svc) (Some now) = false /\
   exists ok : bool, s'.(ch_requests) = s.(ch_requests) ++ [(amps, ok)] /\
     s'.(ch_target_amps) = (if ok then Some amps else s.(ch_target_amps))).
Proof.
  unfold apply_new_current_target. unfold mbind at 1, M_bind at 1, get at 1. cbv zeta.
  destruct (retry_active (ch_svc s) (Some now)); [intros [= <- <-]; by left|]. intros H. right. split; [done|].
  apply bind_inv in H as [([] & s1 & [= <-] & H) | (e & [=] & _)].
  destruct (set_current (ch_requests s) amps) as [[error detail]|].
  - exists false. destruct (exn_in CHARGER_CURRENT_APPLY_ERRORS (error_class error)).
    + apply bind_inv in H as [([] & s2 & Hf & [= <- <-]) | (e & Hf & _)];
        match type of Hf with _ ?s0 = _ => pose proof (failure_same error detail (Some now) s0) as Hs end;
        rewrite Hf in Hs; destruct Hs as (_ & Ht & _ & Hr); cbn in Ht, Hr; rewrite Ht, Hr; by split.
    + injection H as _ <-. by split.
  - exists true.
    apply bind_inv in H as [([] & s2 & H1 & H) | (e & H1 & _)]; [|done].
    apply bind_inv in H as [([] & s3 & H2 & H) | (e & H2 & _)].
    2:{ exfalso. revert H2. unfold on_svc, clear_retry, set_retry_after, mbind, M_bind, modify, get. by destruct (source_retry_after (ch_svc s2)) eqn:E; cbn; rewrite E. }
    apply bind_inv in H as [(a & s4 & H3 & [= <- <-]) | (e & H3 & _)]; [|done]. injection H3 as <- <-.
    match type of H1 with on_svc ?m ?s0 = _ => pose proof (on_svc_same m s0) as Hs1 end. rewrite H1 in Hs1.
    match type of H2 with on_svc ?m ?s0 = _ => pose proof (on_svc_same m s0) as Hs2 end. rewrite H2 in Hs2.
    destruct Hs1 as (_ & _ & _ & Hr1), Hs2 as (_ & _ & _ & Hr2). cbn in Hr1, Hr2 |- *. by rewrite Hr2, Hr1.
Qed.

(** C32. The charger is asked for a current at most once a cycle, and only in Auto mode with charging wanted, outside the
    retry window after a transport failure, and when the current is a new one; the request is positive, at most a
    positive maximum, and at least the minimum unless that exceeds the maximum, whether it comes from the night
    schedule, the learned power or the configured current.  It is remembered when the charger took it; after a failure
    the remembered current stays, so that the request is repeated. *)
Theorem charger_current_stays_within_limits desired_relay now auto_mode_active s r s' :
  apply_current_target policy local_dt desired_relay now auto_mode_active s = (r, s') ->
  s'.(ch_requests) = s.(ch_requests) \/
  exists amps ok, s'.(ch_requests) = s.(ch_requests) ++ [(amps, ok)] /\ request_allowed desired_relay now auto_mode_active s s' amps ok.
Proof.
  unfold apply_current_target. destruct has_current_backend; cbn [negb]; [|intros [= <- <-]; by left].
  destruct (current_reset_needed desired_relay auto_mode_active) eqn:Hreset; [intros [= <- <-]; by left|].
  apply orb_false_iff in Hreset as [Hauto%negb_false_iff Hdesired%negb_false_iff].
  unfold mbind at 1, M_bind at 1, get at 1. intros [(target & s1 & H1 & H) | (e & H1 & _)]%bind_inv.
  2:{ unfold lift in H1. injection H1 as _ <-. by left. }
  unfold lift in H1. injection H1 as H1 <-. destruct target as [amps|]; [|injection H as <- <-; by left].
  destruct (target_unchanged (finite_of (ch_target_amps s)) amps) eqn:Hu.
  { left. apply bind_inv in H as [(? & ? & Hk & [= <- <-]) | (e & Hk & _)]; unfold lift in Hk; by injection Hk as _ <-. }
  apply new_target_cases in H as [[(_ & _ & _ & Hreq) _] | (Hretry & ok & Hreq & Htarget)]; [by left|].
  right. exists amps, ok. split; [done|]. split_and!; [done..| |done]. by eapply target_within.
Qed.

End requests.

(** ** A charger of six to sixteen amperes *)
Section example.

Definition charger_attrs : service :=
  list_to_map [("min_current", VInt 6); ("max_current", VInt 16); ("virtual_mode", VInt 1);
    ("virtual_set_current", VInt 32)].

(** The first request fails, later ones succeed. *)
Definition wallbox : CurrentBackend :=
  {| has_current_backend := true;
     set_current := fun before _ => match before with [] => Some (ModbusTimeoutError, "no answer") | _ => None end |}.
Definition some_day : float -> pyval -> res datetime := fun _ _ => Ok (738215 * DAY_US).
Definition idle_charger : charger := mkCharger initial_svc charger_attrs None None [].

(** The configured current is too high for the charger, which does not answer. *)
Definition asked : res (option float) * charger :=
  apply_current_target (backend := wallbox) default_policy some_day true (f_of_Z 100) true idle_charger.

Lemma charger_current_stays_within_limits_witness :
  (snd asked).(ch_requests) = [(f_of_Z 16, false)] /\
  ((snd asked).(ch_requests) = idle_charger.(ch_requests) \/
   exists amps ok, (snd asked).(ch_requests) = idle_charger.(ch_requests) ++ [(amps, ok)] /\
     request_allowed true (f_of_Z 100) true idle_charger (snd asked) amps ok).
Proof.
  split; [vm_compute; reflexivity|].
  apply (charger_current_stays_within_limits default_policy some_day (backend := wallbox) true (f_of_Z 100) true idle_charger (fst asked)).
  unfold asked. apply surjective_pairing.
Defined.

End example.
